(* ===== verification/_CoqProject ===== *)
-Q . S2P
Prelude.v
PyStr.v
Json.v
Redaction.v
FactoryDomain.v
FactoryGates.v
FactoryVictory.v
Database.v
CapabilityLifecycle.v
FactoryStore.v
FactoryHistory.v
FactoryStoreFacts.v
FactoryFrames.v
FactorySafety.v
FactoryStoreSpec.v
FactoryStoreQueries.v
FactoryFresh.v
FactoryRuntime.v
FactoryPhases.v
FactoryGit.v
FactoryWorkers.v
FactoryCi.v
FactoryLifecycle.v
FactoryOrchestrator.v
FactoryPolicy.v
FactoryVerification.v
FactoryCapabilities.v
FactoryCapabilitiesSpec.v
FactoryControl.v
FactoryApprovals.v
FactoryControlSpec.v
FactoryProduction.v
FactoryStopping.v
FactoryAgents.v
FactoryProductionSpec.v
FactoryAgentsSpec.v
FactorySystem.v
JsonText.v
CapabilityContracts.v
CapabilityContractsSpec.v
CapabilityStore.v
CapabilityStoreSpec.v
CapabilityAuthority.v
CapabilityAuthoritySpec.v
CapabilityCompiler.v
CapabilityCompilerSpec.v
CapabilityValidation.v
CapabilityValidationSpec.v
CapabilityVm.v
CapabilityVmSpec.v
CapabilityVmCalls.v
CapabilityTasks.v
CapabilityTasksSpec.v
CapabilityForge.v
CapabilityForgeSpec.v
CapabilityExecutor.v
CapabilityExecutorSpec.v
