(* ===== verification/Prelude.v ===== *)
(** * Verification of the Dark Factory and the Capability OS of [computer] (CPTR)

    The Dark Factory is the part of the server (Python, under [src/cptr]) that takes a
    mission of a user, drives it unattended through a fixed sequence of phases, and lets
    a result be committed, pushed and declared complete only after machine verification
    (a "Victory").  Its promise: model output, users and crashes can steer a run, but
    only the machine's own gates can make it succeed.  The Capability OS is the part that
    grants and uses authority: artifacts with digests, leases under policies, evidence in
    a chain, and recipes that are compiled and executed.  Its promise: nothing is done
    without a lease, no lease exceeds its policy, and what was recorded stays.  This
    library models both as functions on an explicit world and proves their promises.

    ** How the parts interact

    A user starts a run through the control surface; the run and everything it does is
    a row of the tables.  A runner repeatedly asks the orchestrator to execute one phase:
    it takes the lease of the run, calls the handler of the state the run is in, with a
    heartbeat that renews the lease, and writes what the handler returned (evidence,
    gates, projections, a failure, a move) through the store.  The store is the only
    writer of runs, cycles, events, evidence and gates; every move goes through the state
    machine, and the one into COMMITTING through the Victory judge.  After Victory the
    Git lifecycle commits and pushes, CI is observed, and the cycle is closed.  Worker
    lanes own the working trees; a restart recovers interrupted runs; stopping settles
    the lanes first.

    ** The files and the code they model (under [src/cptr])

    - [Prelude], [PyStr], [Json]: Python results and exceptions, the state and error
      monad [M], text as Python has it, JSON values with [json.dumps]/[json.loads], and
      the environment [Env] (clock, uuid, SHA-256, floats).
    - [Redaction]: [utils/redaction.py], the boundary every payload crosses.
    - [FactoryDomain]: [services/factory_domain.py], states, actors, failure signatures,
      [validate_factory_transition].
    - [FactoryGates], [FactoryVictory]: [factory_gates.py], [factory_victory.py].
    - [Database], [CapabilityLifecycle]: the tables ([models/factory*.py]) with the
      transaction combinator, leases and mounts ([capability_os/lifecycle.py]).
    - [FactoryStore]: [factory_store.py], every operation.  [FactoryHistory],
      [FactoryStoreFacts], [FactoryFrames], [FactorySafety], [FactoryStoreSpec],
      [FactoryStoreQueries], [FactoryFresh]: its invariant, frames and theorems.
    - [FactoryRuntime]: [factory_runtime.py], recovery after a restart.
    - [FactoryPhases], [FactoryLifecycle]: [factory_phases/{types,core,lifecycle}.py].
    - [FactoryGit], [FactoryWorkers], [FactoryCi]: [factory_git.py],
      [factory_workers.py], [factory_ci.py].
    - [FactoryOrchestrator]: [factory_orchestrator.py].
    - [FactoryPolicy], [FactoryVerification], [FactoryCapabilities(Spec)],
      [FactoryProduction(Spec)]: [factory_production.py], with
      [factory_capabilities.py] and the eligibility and order of
      [factory_capability_ranking.py].
    - [FactoryControl], [FactoryApprovals], [FactoryControlSpec]: [factory_control.py];
      [FactoryStopping]: its stopping, with the two routes of [routers/factory.py] that
      halt a run (pause and stop), which wait for the runner before they call it.
    - [FactoryAgents(Spec)]: the phases of [factory_production.py] that agents work in.
    - [FactorySystem]: everything composed, and the contract it refines.

    - [JsonText]: canonical texts of JSON determine their values.
    - [CapabilityContracts(Spec)]: [capability_os/contracts.py].
    - [CapabilityStore(Spec)]: [models/capability_os.py], [store.py], [evidence.py].
    - [CapabilityAuthority(Spec)]: [authority.py], [policy.py].
    - [CapabilityCompiler(Spec)]: [compiler.py]; [CapabilityValidation(Spec)]:
      [validation.py]; [CapabilityVm(Spec)]: [vm.py]; [CapabilityVmCalls]: the same
      machine with an executor whose calls are watched.
    - [CapabilityTasks(Spec)]: [tasks.py].
    - [CapabilityForge(Spec)]: [forge.py], [provenance.py], [runtime.py];
      [CapabilityExecutor(Spec)]: [generated_executor.py].

    The Capability OS shares the tables of leases and mounts with the factory, whose
    stopping revokes them; its own tables are a second half of the world ([OsWorld]).
    The broker issues leases under a policy for a request about an artifact of the store;
    the machine is given a lease and a compiled recipe, calls its executor, and records
    evidence in the store, which checks the lease again.

    A Python class with state becomes a [Record]; a method that reads or writes becomes
    a function into [M W A], which is [W -> result A * W]; an exception is an [Err], and
    [transaction] restores the tables when its body raises, as the session does.  The
    names are those of the code where Rocq allows them.

    ** What the theorems show

    - No success without Victory: from empty tables, however operations are called and
      interleaved under the discipline [recovery_only] (below), a run at or beyond
      COMMITTING has a Victory of the machine on record (FactorySafety, which also shows
      that without the discipline it need not); the log of a run is a legal history of the state machine and
      determines its state, tables only grow and terminal runs are frozen.
    - The store's operations do what they say on every branch, errors included, and
      replays by idempotency key change nothing (FactoryStoreSpec, FactoryStoreQueries).
    - The judge and the gates pass exactly when every required gate is proven by
      current machine evidence (FactoryVictory, FactoryGates, FactoryPhases), and the
      verifying phases produce such evidence from processes only (FactoryVerification).
    - Agents are confined: what they are asked stays within the policy, the selected
      capabilities and an isolated worker, what they answer has no authority, what a
      reproduction did is undone, a mutation counts only as Git shows it, budgets are
      bounded and a task over its budget cannot hold the run (FactoryAgentsSpec).
    - An intent is committed once and, after a crash, no second commit follows one that
      the log shows; a push goes where the person who approved or the policy says, and
      after a Victory (FactoryGit, FactoryApprovals, FactoryProductionSpec).  A commit
      whose subject alone is in the log is not recovered: an example shows it.
    - The scopes stored of lanes that may write do not overlap, leases exclude, a phase runs only under its
      lease, the route that stops a run settles its work first, a restart recovers every interrupted run to where
      it was (FactoryWorkers, FactoryOrchestrator, FactoryStopping, FactoryRuntime).
    - Data survive their trips: gate plans, manifests, redaction (FactoryPolicy,
      FactoryCapabilitiesSpec, Redaction).
    - Authority: an issued lease carries every ceiling of its policy and is within it,
      so is every later use of it, authority ends when it should, policies fail closed, isolation confines
      (CapabilityAuthoritySpec); examples there show where patterns and constraints of a
      request escape the policy, which the hypotheses of the theorems leave out.
    - Evidence: chains grow, verify, and their heads vouch for all of them, up to
      collisions of SHA-256 (CapabilityStoreSpec, CapabilityContractsSpec, JsonText).
    - Execution: what compiles has an order and keeps its envelope, the machine follows
      the order, always gets on, keeps the contracts of outputs (which a declarative
      reading of schemas defines) and undoes in reverse (CapabilityCompilerSpec,
      CapabilityValidationSpec, CapabilityVmSpec); the calls its executor receives are
      exactly those (CapabilityVmCalls).
    - Tasks: side effects start exactly where authority stays, and a cohort of children
      is made once (CapabilityTasksSpec).
    - Tools: sources are kept, promotion needs evidence, what is built can be promoted
      (CapabilityForgeSpec); a tool runs only under authority, and no recipe leaves a
      lease behind (CapabilityExecutorSpec).
    - Refinement: the whole system, as a step relation, implements the abstract life of
      a run [contract_step] (FactorySystem).

    ** Bounds and fuel

    Python integers are [Z]; the 50 commits of the log that are searched, page sizes,
    text bounds and limits of rows are those of the code.  Fuel appears in
    [Json.loads] (the length of the text is enough, [scan_fits]), in the heartbeat and
    in the runner loop, where it counts intervals and turns: those loops need not end in
    the code either, and [heartbeat_ends_unless_phase_times_out] says when they do.  In
    the compiler and the machine of the Capability OS it counts nodes, which is enough
    ([topological_order_ordered], [execution_gets_on]).

    ** What is assumed

    A call of the store is atomic, as a SQLite transaction is; calls interleave between
    them.  Other writers act in the slices of an execution, at the heartbeats of a
    phase, between phases and between calls of the system relation; a handler itself
    runs in the last interval of its execution.  Clock, uuid, SHA-256 and floats come
    from [Env], as does the total score of the ranking from a parameter.  Theorems about
    lives of runs take the discipline [recovery_only], which the callers in the code
    follow: no call names a state to come back to except for RECOVERING.  Of Git the
    theorem about commits assumes what [utils/git.py] gives: the log holds the subjects
    of commits that are there (not their bodies, and perhaps not all of them), and a new
    commit has a hash of its own.

    ** What is not modelled

    Git, the GitHub CLI, CI providers, processes, the direct worker service, the
    workspace table, [urlsplit], the skill finder and model agents are parameters: they
    are other programs or the host; agents of several lanes, which the code starts
    concurrently, are started one after the other.  So are the executor of the Capability
    OS that runs what is no generated tool, builders and runners of tools, its event loop
    and its verifier of approvals; the actions of a batch, which the
    code starts together, are performed one after the other.  Times in the text form of
    ISO 8601 are read by a function of [Env].  The rest of the Capability OS (sandboxes,
    credentials, OAuth, remote MCP, skills, evolution, control) and everything outside of both parts
    (the other routes, chat, tools, browser, memory, workspace pages, the frontend, migrations) is
    left out: request plumbing, processes and I/O.
*)

From stdpp Require Export base tactics list gmap strings.
From Stdlib Require Export ZArith Lia.

(** ** Python results

    A Python function that may raise is a function into [result]; the
    exception classes are the ones the modelled modules raise or catch. *)

Inductive exn :=
  | ValueError (message : string)
  | TypeError (message : string)
  | AttributeError (message : string)
  | IndexError (message : string)
  | KeyError (message : string)
  | RuntimeError (message : string)
  | OverflowError (message : string)
  | IntegrityError (constraint : string)
  | InterfaceError (message : string)
  | OSError (message : string)
  | PermissionError (message : string)
  | TimeoutError
  | MultipleResultsFound
  | NoResultFound
  | InvalidFactoryTransition (message : string)
  | FactoryIdempotencyConflict (message : string)
  | FactoryPayloadTooLarge
  | FactoryOrchestratorError (message : string)
  | FactoryControlNotFound
  | FactoryControlConflict (code : string)
  | FactoryGitError (code : string)
  | FactoryCiError (code : string)
  | FactoryWorkerError (code : string)
  | DirectCodingWorkerError (code : string)
  | AuthorityDenied (message : string)
  | CapabilityTaskNotFound (message : string)
  | CapabilityTaskNotExecutable (message : string)
  | CapabilityCompileError (message : string)
  | EvidenceViolation (message : string)
  | CapabilityVmError (message : string)
  | ContractValidationError (message : string)
  | EvolutionExperimentError (message : string)
  | MatchedExperimentScheduleError (message : string)
  | CapabilityOsUnavailable (message : string)
  | RuntimeUnavailable (message : string).

Inductive result (A : Type) :=
  | Ok (a : A)
  | Err (e : exn).
Arguments Ok {A} a.
Arguments Err {A} e.

#[export] Instance exn_eq_dec : EqDecision exn.
Proof. solve_decision. Defined.
#[export] Instance result_eq_dec {A} `{EqDecision A} : EqDecision (result A).
Proof. solve_decision. Defined.

Definition rbind {A B} (r : result A) (k : A -> result B) : result B :=
  match r with
  | Ok a => k a
  | Err e => Err e
  end.

Definition is_ok {A} (r : result A) : bool :=
  match r with Ok _ => true | Err _ => false end.

(** ** Stateful code: a state and exception monad over a world [W] *)

Definition M (W A : Type) : Type := W -> result A * W.

Definition ret {W A} (a : A) : M W A := fun w => (Ok a, w).
Definition raise {W A} (e : exn) : M W A := fun w => (Err e, w).
Definition bind {W A B} (m : M W A) (k : A -> M W B) : M W B :=
  fun w =>
    match m w with
    | (Ok a, w') => k a w'
    | (Err e, w') => (Err e, w')
    end.
Definition lift {W A} (r : result A) : M W A := fun w => (r, w).
Definition gets {W A} (f : W -> A) : M W A := fun w => (Ok (f w), w).
Definition modify {W} (f : W -> W) : M W unit := fun w => (Ok tt, f w).
(** [try: m  except e: h] for the exceptions [p] accepts. *)
Definition catch {W A} (m : M W A) (p : exn -> bool) (h : exn -> M W A) : M W A :=
  fun w =>
    match m w with
    | (Err e, w') => if p e then h e w' else (Err e, w')
    | r => r
    end.
(** [try: m  finally: f] (an exception of [f] would replace that of [m]). *)
Definition finally {W A} (m : M W A) (f : M W unit) : M W A :=
  fun w =>
    let '(r, w') := m w in
    match f w' with
    | (Ok _, w'') => (r, w'')
    | (Err e, w'') => (Err e, w'')
    end.
Definition guard_ {W} (b : bool) (e : exn) : M W unit :=
  if b then raise e else ret tt.

(** computations on one half of a pair of worlds *)
Definition on_left {W V A} (m : M W A) : M (W * V) A :=
  fun w => let '(a, w') := m w.1 in (a, (w', w.2)).
Definition on_right {W V A} (m : M V A) : M (W * V) A :=
  fun w => let '(a, v') := m w.2 in (a, (w.1, v')).

Declare Scope py_scope.
Delimit Scope py_scope with py.
Notation "'let*' x ':=' m 'in' k" := (bind m (fun x => k))
  (at level 10, x pattern, k at level 200) : py_scope.
Notation "'let?' x ':=' r 'in' k" := (rbind r (fun x => k))
  (at level 10, x pattern, k at level 200) : py_scope.
(** [raise_if b as e in k]: [if b: raise e] followed by the rest of the body. *)
Notation "'raise_if' b 'as' e 'in' k" := (if b then raise e else k)
  (at level 10, b at level 100, e at level 100, k at level 200) : py_scope.

#[global] Open Scope py_scope.

Fixpoint for_each {W A B} (f : A -> M W B) (l : list A) : M W (list B) :=
  match l with
  | [] => ret []
  | x :: l' => let* y := f x in let* ys := for_each f l' in ret (y :: ys)
  end.

(** ** Shared tactics and lemmas *)

(** a closed decidable fact, by evaluation *)
Ltac by_evaluation := apply (bool_decide_unpack _); vm_compute; exact I.

Lemma bool_decide_eq_iff (P Q : Prop) `{Decision P, Decision Q} :
  bool_decide P = bool_decide Q -> P <-> Q.
Proof. do 2 case_bool_decide; naive_solver. Qed.

(** ** Reasoning about computations *)

Lemma bind_Ok {W A B} (m : M W A) (k : A -> M W B) w b w' :
  bind m k w = (Ok b, w') <-> exists a w1, m w = (Ok a, w1) /\ k a w1 = (Ok b, w').
Proof.
  unfold bind. destruct (m w) as [[a|e] w1]; split; eauto.
  - intros (? & ? & [= <- <-] & ?). done.
  - done.
  - by intros (? & ? & ? & _).
Qed.

Lemma rbind_Ok {A B} (r : result A) (k : A -> result B) b :
  rbind r k = Ok b <-> exists a, r = Ok a /\ k a = Ok b.
Proof. destruct r; simpl; naive_solver. Qed.

Lemma on_left_Ok {W V A} (m : M W A) (w w' : W * V) a :
  on_left m w = (Ok a, w') <-> m w.1 = (Ok a, w'.1) /\ w'.2 = w.2.
Proof.
  unfold on_left. destruct (m w.1) as [r w1]. destruct w as [x y], w' as [x' y']. simpl. naive_solver.
Qed.
Lemma on_right_Ok {W V A} (m : M V A) (w w' : W * V) a :
  on_right m w = (Ok a, w') <-> m w.2 = (Ok a, w'.2) /\ w'.1 = w.1.
Proof.
  unfold on_right. destruct (m w.2) as [r w1]. destruct w as [x y], w' as [x' y']. simpl. naive_solver.
Qed.

(** a loop whose body always succeeds, keeps a preorder on the worlds, and
    establishes a condition on its item that the preorder keeps *)
Lemma for_each_Ok {W A B} (f : A -> M W B) (R : W -> W -> Prop) (Post : A -> W -> Prop) l w :
  (forall w, R w w) -> (forall w1 w2 w3, R w1 w2 -> R w2 w3 -> R w1 w3) ->
  (forall x w1 w2, Post x w1 -> R w1 w2 -> Post x w2) ->
  (forall x w1, x ∈ l -> R w w1 -> exists y w2, f x w1 = (Ok y, w2) /\ R w1 w2 /\ Post x w2) ->
  exists ys w', for_each f l w = (Ok ys, w') /\ R w w' /\ forall x, x ∈ l -> Post x w'.
Proof.
  intros Hrefl Htrans Hkeep. revert w. induction l as [|x l IH]; intros w Hf.
  - exists [], w. split_and!; [done|done|]. by intros ? ?%elem_of_nil.
  - destruct (Hf x w) as (y & w1 & Hy & H1 & Hx); [left|done|].
    destruct (IH w1) as (ys & w2 & Hys & H2 & Hl).
    { intros z w2 ? ?. apply Hf; [by right|eauto]. }
    exists (y :: ys), w2. simpl. unfold bind. rewrite Hy, Hys. split_and!; [done|eauto|].
    intros z [->|?]%elem_of_cons; eauto.
Qed.
