(* ===== verification/PyStr.v ===== *)
(** * Python string and integer primitives over ASCII text

    A Python [str] is a [string] whose characters are ASCII code points; the
    functions below are the standard-library string methods that the modelled
    modules call, restricted to that alphabet. *)

From S2P Require Import Prelude.
From Stdlib Require Import Ascii.
From stdpp Require Export pretty.

Definition code (c : ascii) : Z := Z.of_N (Ascii.N_of_ascii c).
Definition chr (z : Z) : ascii := Ascii.ascii_of_N (Z.to_N z).

(** [str.isspace] on ASCII: tab to carriage return, the four separators
    0x1c..0x1f, and the space. *)
Definition is_space (c : ascii) : bool :=
  let n := code c in
  (((9 <=? n) && (n <=? 13)) || ((28 <=? n) && (n <=? 32)))%Z.

Fixpoint lstrip (s : string) : string :=
  match s with
  | EmptyString => EmptyString
  | String c s' => if is_space c then lstrip s' else s
  end.

Fixpoint rstrip (s : string) : string :=
  match s with
  | EmptyString => EmptyString
  | String c s' =>
      let r := rstrip s' in
      if is_space c && (if decide (r = "") then true else false) then "" else String c r
  end.

Definition strip (s : string) : string := rstrip (lstrip s).

(** [not s] and [not s.strip()] *)
Definition empty_str (s : string) : bool := if decide (s = "") then true else false.
Definition blank (s : string) : bool := empty_str (strip s).

(** [s or None] *)
Definition or_none (s : string) : option string := if empty_str s then None else Some s.

Definition str_eqb (s t : string) : bool := if decide (s = t) then true else false.
Definition len (s : string) : Z := Z.of_nat (String.length s).

(** [s[:n]] for a non-negative [n] *)
Fixpoint str_take (n : Z) (s : string) : string :=
  match s with
  | EmptyString => EmptyString
  | String c s' => if (n <=? 0)%Z then "" else String c (str_take (n - 1) s')
  end.

Definition lower_char (c : ascii) : ascii :=
  if ((65 <=? code c) && (code c <=? 90))%Z then chr (code c + 32) else c.
Definition upper_char (c : ascii) : ascii :=
  if ((97 <=? code c) && (code c <=? 122))%Z then chr (code c - 32) else c.

Fixpoint str_map (f : ascii -> ascii) (s : string) : string :=
  match s with
  | EmptyString => EmptyString
  | String c s' => String (f c) (str_map f s')
  end.
Fixpoint str_filter (f : ascii -> bool) (s : string) : string :=
  match s with
  | EmptyString => EmptyString
  | String c s' => if f c then String c (str_filter f s') else str_filter f s'
  end.
Definition lower : string -> string := str_map lower_char.
Definition upper : string -> string := str_map upper_char.
(** [s.replace(a, b)] for one-character arguments *)
Definition replace_char (a b : ascii) : string -> string :=
  str_map (fun c => if Ascii.eqb c a then b else c).

Definition startswith (p s : string) : bool := String.prefix p s.
Definition str_rev (s : string) : string := String.rev s.
Definition endswith (p s : string) : bool := String.prefix (str_rev p) (str_rev s).
(** [p in s] *)
Fixpoint contains (p s : string) : bool :=
  String.prefix p s ||
  match s with
  | EmptyString => false
  | String _ s' => contains p s'
  end.

(** Python's [sep.join(l)] *)
Fixpoint str_join (sep : string) (l : list string) : string :=
  match l with
  | [] => ""
  | [s] => s
  | s :: l' => s +:+ sep +:+ str_join sep l'
  end.

(** [s.split(sep)] for one character *)
Fixpoint split_on (sep : ascii) (s : string) : list string :=
  match s with
  | "" => [""]
  | String c s =>
      if decide (c = sep) then "" :: split_on sep s
      else match split_on sep s with
           | part :: parts => String c part :: parts
           | [] => [String c ""]
           end
  end.

Definition str_of_int (z : Z) : string := pretty z.

Definition hex_digit (n : Z) : ascii :=
  if (n <? 10)%Z then chr (48 + n) else chr (87 + n).
Definition hex2 (n : Z) : string :=
  String (hex_digit (n / 16)) (String (hex_digit (n mod 16)) "").

Definition backslash : ascii := chr 92.
Definition dquote : ascii := chr 34.
Definition squote : ascii := chr 39.

(** [repr(s)]: single quotes unless the text has a single quote and no double
    quote; backslash, the quote and the non-printable characters escaped. *)
Definition repr_char (q c : ascii) : string :=
  let n := code c in
  if Ascii.eqb c q || Ascii.eqb c backslash then String backslash (String c "")
  else if (n =? 9)%Z then String backslash "t"
  else if (n =? 10)%Z then String backslash "n"
  else if (n =? 13)%Z then String backslash "r"
  else if ((n <? 32) || (126 <? n))%Z then String backslash (String "x"%char (hex2 n))
  else String c "".
Fixpoint repr_body (q : ascii) (s : string) : string :=
  match s with
  | EmptyString => ""
  | String c s' => repr_char q c +:+ repr_body q s'
  end.
Definition repr (s : string) : string :=
  let q := if contains (String squote "") s && negb (contains (String dquote "") s)
           then dquote else squote in
  String q (repr_body q s) +:+ String q "".

(** [int(s)] on text: surrounding blanks, one sign, decimal digits with single
    underscores between them; [None] stands for [ValueError]. *)
Definition is_digit (c : ascii) : bool := ((48 <=? code c) && (code c <=? 57))%Z.
Fixpoint digits (acc : Z) (s : string) : option Z :=
  match s with
  | EmptyString => Some acc
  | String c s' =>
      if is_digit c then digits (acc * 10 + (code c - 48)) s'
      else if Ascii.eqb c "_"%char then
        match s' with
        | String d _ => if is_digit d then digits acc s' else None
        | EmptyString => None
        end
      else None
  end.
Definition parse_int (s : string) : option Z :=
  match strip s with
  | EmptyString => None
  | String c s' =>
      if Ascii.eqb c "-"%char || Ascii.eqb c "+"%char then
        match s' with
        | String d _ =>
            if is_digit d then
              (fun n => if Ascii.eqb c "-"%char then (- n)%Z else n) <$> digits 0 s'
            else None
        | EmptyString => None
        end
      else if is_digit c then digits 0 (String c s') else None
  end.
(** [s.isdigit()] on ASCII *)
Fixpoint all_chars (f : ascii -> bool) (s : string) : bool :=
  match s with
  | EmptyString => true
  | String c s' => f c && all_chars f s'
  end.
Definition isdigit (s : string) : bool := negb (empty_str s) && all_chars is_digit s.

(** ** Lemmas *)

Lemma str_eqb_true s t : str_eqb s t = true <-> s = t.
Proof. unfold str_eqb. case_decide; naive_solver. Qed.
Lemma str_eqb_false s t : str_eqb s t = false <-> s <> t.
Proof. unfold str_eqb. case_decide; naive_solver. Qed.
Lemma str_eqb_refl s : str_eqb s s = true.
Proof. by apply str_eqb_true. Qed.
Lemma empty_str_true s : empty_str s = true <-> s = "".
Proof. unfold empty_str. case_decide; naive_solver. Qed.
Lemma empty_str_false s : empty_str s = false <-> s <> "".
Proof. unfold empty_str. case_decide; naive_solver. Qed.

Lemma str_take_length n s : (len (str_take n s) <= Z.max 0 n)%Z.
Proof.
  unfold len. revert n. induction s as [|c s IH]; intros n; simpl; [lia|].
  destruct (Z.leb_spec n 0); simpl; [lia|]. specialize (IH (n - 1)%Z). lia.
Qed.

Lemma str_take_all n s : (len s <= n)%Z -> str_take n s = s.
Proof.
  unfold len. revert n. induction s as [|c s IH]; intros n Hn; simpl in *; [done|].
  destruct (Z.leb_spec n 0); [lia|]. f_equal. apply IH. lia.
Qed.

(** [exc.__class__.__name__] *)
Definition exn_class (e : exn) : string :=
  match e with
  | ValueError _ => "ValueError"
  | TypeError _ => "TypeError"
  | AttributeError _ => "AttributeError"
  | IndexError _ => "IndexError"
  | KeyError _ => "KeyError"
  | RuntimeError _ => "RuntimeError"
  | OverflowError _ => "OverflowError"
  | IntegrityError _ => "IntegrityError"
  | InterfaceError _ => "InterfaceError"
  | OSError _ => "OSError"
  | PermissionError _ => "PermissionError"
  | TimeoutError => "TimeoutError"
  | MultipleResultsFound => "MultipleResultsFound"
  | NoResultFound => "NoResultFound"
  | InvalidFactoryTransition _ => "InvalidFactoryTransition"
  | FactoryIdempotencyConflict _ => "FactoryIdempotencyConflict"
  | FactoryPayloadTooLarge => "FactoryPayloadTooLarge"
  | FactoryOrchestratorError _ => "FactoryOrchestratorError"
  | FactoryControlNotFound => "FactoryControlNotFound"
  | FactoryControlConflict _ => "FactoryControlConflict"
  | FactoryGitError _ => "FactoryGitError"
  | FactoryCiError _ => "FactoryCiError"
  | FactoryWorkerError _ => "FactoryWorkerError"
  | DirectCodingWorkerError _ => "DirectCodingWorkerError"
  | AuthorityDenied _ => "AuthorityDenied"
  | CapabilityTaskNotFound _ => "CapabilityTaskNotFound"
  | CapabilityTaskNotExecutable _ => "CapabilityTaskNotExecutable"
  | CapabilityCompileError _ => "CapabilityCompileError"
  | EvidenceViolation _ => "EvidenceViolation"
  | CapabilityVmError _ => "CapabilityVmError"
  | ContractValidationError _ => "ContractValidationError"
  | EvolutionExperimentError _ => "EvolutionExperimentError"
  | MatchedExperimentScheduleError _ => "MatchedExperimentScheduleError"
  | CapabilityOsUnavailable _ => "CapabilityOsUnavailable"
  | RuntimeUnavailable _ => "RuntimeUnavailable"
  end.
