(* ===== verification/Json.v ===== *)
(** * JSON values, as the program builds, stores and digests them

    [json] is the type of the Python values that the [json] module reads and
    writes: a [dict] is an association list in insertion order with distinct
    keys.  A float is the text of its [repr]; what Python computes on floats is
    the environment's business ([Env]).  Texts are ASCII.

    [Env] also names the outside world the program reads: the clock, the uuid
    generator and SHA-256. *)

From S2P Require Import Prelude PyStr.
From Stdlib Require Import Ascii.
From stdpp Require Export sorting.

Class Env := {
  (** [hashlib.sha256(text.encode("utf-8")).hexdigest()] *)
  sha256_hex : string -> string;
  (** the [n]-th [uuid.uuid4().hex] of an execution *)
  uuid_hex : nat -> string;
  (** the [n]-th [int(time.time() * 1000)] of an execution *)
  clock : nat -> Z;
  (** [repr(float(literal))] *)
  float_repr : string -> string;
  (** [int(x)] on a float, which raises on an infinity or a NaN *)
  float_int : string -> result Z;
  (** the integer a float is equal to, if there is one *)
  float_integral : string -> option Z;
  (** [float(n)] and [float(text)] as a [repr]; they raise [OverflowError] and
      [ValueError] *)
  float_of_int : Z -> result string;
  float_of_str : string -> result string;
  (** how a float compares with an integer; [None] for a NaN *)
  float_compare : string -> Z -> option comparison;
  (** how two floats compare *)
  float_order : string -> string -> option comparison;
  (** the milliseconds of [datetime.fromisoformat(text)], which may not be a date *)
  iso_timestamp_ms : string -> option Z;
}.

(** a concrete environment, for the witnesses: an injective digest, distinct
    identifiers, a clock that ticks *)
Definition demo_env : Env := {|
  sha256_hex := fun s => "sha256:" +:+ s;
  uuid_hex := fun n => pretty n;
  clock := fun n => Z.of_nat n;
  float_repr := fun s => s;
  float_int := fun _ => Err (ValueError "cannot convert float NaN to integer");
  float_integral := fun _ => None;
  float_of_int := fun z => Ok (str_of_int z +:+ ".0");
  float_of_str := fun s => Ok s;
  float_compare := fun s z =>
    match split_on "."%char s with
    | whole :: _ => match parse_int whole with Some n => Some (n ?= z)%Z | None => None end
    | [] => None
    end;
  float_order := fun s t =>
    if str_eqb s "nan" || str_eqb t "nan" then None
    else match split_on "."%char s, split_on "."%char t with
         | x :: _, y :: _ =>
             match parse_int x, parse_int y with Some m, Some n => Some (m ?= n)%Z | _, _ => None end
         | _, _ => None
         end;
  iso_timestamp_ms := fun _ => None;
|}.

#[warnings="-register-all"]
Inductive json :=
  | JNull
  | JBool (b : bool)
  | JInt (z : Z)
  | JFloat (text : string)
  | JStr (s : string)
  | JList (items : list json)
  | JObj (fields : list (string * json)).

(** ** Dictionaries *)

Fixpoint dict_get {A} (key : string) (fields : list (string * A)) : option A :=
  match fields with
  | [] => None
  | (k, v) :: fields' => if decide (k = key) then Some v else dict_get key fields'
  end.

(** [d[key] = v]: in place for a known key, at the end for a new one *)
Fixpoint dict_set {A} (key : string) (v : A) (fields : list (string * A)) : list (string * A) :=
  match fields with
  | [] => [(key, v)]
  | (k, w) :: fields' =>
      if decide (k = key) then (k, v) :: fields' else (k, w) :: dict_set key v fields'
  end.

(** [d.setdefault(key, v)] *)
Definition dict_setdefault {A} (key : string) (v : A) (fields : list (string * A)) :=
  match dict_get key fields with
  | Some _ => fields
  | None => dict_set key v fields
  end.

Definition dict_of_pairs {A} (pairs : list (string * A)) : list (string * A) :=
  fold_left (fun d p => dict_set p.1 p.2 d) pairs [].

(** [obj.get(key)] on a value known to be a dict *)
Definition get (key : string) (fields : list (string * json)) : json :=
  default JNull (dict_get key fields).

Definition opt_str (v : option string) : json :=
  match v with Some s => JStr s | None => JNull end.
Definition opt_int (v : option Z) : json :=
  match v with Some z => JInt z | None => JNull end.
Definition str_list (l : list string) : json := JList (map JStr l).

(** ** Python operations on values *)

Section Ops.
Context `{Env}.

(** [bool(v)] *)
Definition truthy (v : json) : bool :=
  match v with
  | JNull => false
  | JBool b => b
  | JInt z => negb (z =? 0)%Z
  | JFloat t => negb (bool_decide (float_integral t = Some 0%Z))
  | JStr s => negb (empty_str s)
  | JList l => match l with [] => false | _ => true end
  | JObj l => match l with [] => false | _ => true end
  end.

(** [int(v)] *)
Definition py_int (v : json) : result Z :=
  match v with
  | JBool b => Ok (if b then 1 else 0)%Z
  | JInt z => Ok z
  | JFloat t => float_int t
  | JStr s =>
      match parse_int s with
      | Some z => Ok z
      | None => Err (ValueError "invalid literal for int() with base 10")
      end
  | JNull | JList _ | JObj _ =>
      Err (TypeError "int() argument must be a string, a bytes-like object or a real number")
  end.

(** the number a value compares as: [True == 1 == 1.0] *)
Definition numeric (v : json) : option Z :=
  match v with
  | JBool b => Some (if b then 1 else 0)%Z
  | JInt z => Some z
  | JFloat t => float_integral t
  | _ => None
  end.

(** [v == w]; two dicts are equal whatever the order of their keys *)
Fixpoint py_eq (v w : json) {struct v} : bool :=
  match v, w with
  | JNull, JNull => true
  | JStr s, JStr t => str_eqb s t
  | JList l, JList k =>
      (fix all2 (l k : list json) {struct l} : bool :=
         match l, k with
         | [], [] => true
         | x :: l', y :: k' => py_eq x y && all2 l' k'
         | _, _ => false
         end) l k
  | JObj l, JObj k =>
      bool_decide (length l = length k) &&
      (fix sub (l : list (string * json)) : bool :=
         match l with
         | [] => true
         | (key, x) :: l' =>
             match dict_get key k with Some y => py_eq x y | None => false end && sub l'
         end) l
  | JFloat t, JFloat u =>
      match float_integral t, float_integral u with
      | Some m, Some n => (m =? n)%Z
      | None, None => str_eqb t u && negb (str_eqb t "nan")
      | _, _ => false
      end
  | _, _ =>
      match numeric v, numeric w with
      | Some m, Some n => (m =? n)%Z
      | _, _ => false
      end
  end.
(** [repr(v)] and [str(v)] *)
Fixpoint py_repr (v : json) : string :=
  match v with
  | JNull => "None"
  | JBool b => if b then "True" else "False"
  | JInt z => str_of_int z
  | JFloat t => t
  | JStr s => repr s
  | JList l => "[" +:+ str_join ", " (map py_repr l) +:+ "]"
  | JObj fields =>
      "{" +:+ str_join ", " (map (fun '(k, x) => repr k +:+ ": " +:+ py_repr x) fields) +:+ "}"
  end.
Definition py_str (v : json) : string :=
  match v with JStr s => s | _ => py_repr v end.

(** [str(v or "")] *)
Definition str_or_empty (v : json) : string := if truthy v then py_str v else "".

(** iterating over a value *)
Definition py_iter (v : json) : result (list json) :=
  match v with
  | JList l => Ok l
  | JObj fields => Ok (map (fun kv => JStr kv.1) fields)
  | JStr s => Ok (map (fun c => JStr (String c "")) (String.list_ascii_of_string s))
  | _ => Err (TypeError "object is not iterable")
  end.

(** [payload.get(key)] for a payload that is a dict, [None] otherwise *)
Definition payload_get (key : string) (payload : json) : json :=
  match payload with JObj fields => get key fields | _ => JNull end.
End Ops.

(** ** [json.dumps] with [separators=(",", ":")] *)

Definition escape_char (ensure_ascii : bool) (c : ascii) : string :=
  let n := code c in
  if Ascii.eqb c dquote || Ascii.eqb c backslash then String backslash (String c "")
  else if (n =? 8)%Z then String backslash "b"
  else if (n =? 9)%Z then String backslash "t"
  else if (n =? 10)%Z then String backslash "n"
  else if (n =? 12)%Z then String backslash "f"
  else if (n =? 13)%Z then String backslash "r"
  else if (n <? 32)%Z || (ensure_ascii && (126 <? n)%Z) then
    String backslash ("u00" +:+ hex2 n)
  else String c "".

Fixpoint escape (ensure_ascii : bool) (s : string) : string :=
  match s with
  | EmptyString => ""
  | String c s' => escape_char ensure_ascii c +:+ escape ensure_ascii s'
  end.

Definition quote (ensure_ascii : bool) (s : string) : string :=
  String dquote (escape ensure_ascii s) +:+ String dquote "".

(** the order [sort_keys=True] puts the items of a dict in *)
Definition key_le {A} (x y : string * A) : Prop := String.le x.1 y.1.
#[export] Instance key_le_dec {A} (x y : string * A) : Decision (key_le x y).
Proof. unfold key_le. apply _. Defined.

Section Dumps.
Context (sort_keys ensure_ascii : bool).

Fixpoint dumps (v : json) : string :=
  match v with
  | JNull => "null"
  | JBool b => if b then "true" else "false"
  | JInt z => str_of_int z
  | JFloat t =>
      if str_eqb t "nan" then "NaN" else if str_eqb t "inf" then "Infinity"
      else if str_eqb t "-inf" then "-Infinity" else t
  | JStr s => quote ensure_ascii s
  | JList l => "[" +:+ str_join "," (map dumps l) +:+ "]"
  | JObj fields =>
      let items := map (fun '(k, x) => (k, quote ensure_ascii k +:+ ":" +:+ dumps x)) fields in
      "{" +:+ str_join "," (map snd (if sort_keys then merge_sort key_le items else items)) +:+ "}"
  end.
End Dumps.

(** ** [json.loads] *)

Section Loads.
Context `{Env}.

Definition is_ws (c : ascii) : bool :=
  let n := code c in ((n =? 32) || (n =? 9) || (n =? 10) || (n =? 13))%Z.

Fixpoint skip_ws (s : string) : string :=
  match s with
  | String c s' => if is_ws c then skip_ws s' else s
  | EmptyString => ""
  end.

(** the longest prefix of digits, and the rest *)
Fixpoint span_digits (s : string) : string * string :=
  match s with
  | String c s' =>
      if is_digit c then let '(d, r) := span_digits s' in (String c d, r) else ("", s)
  | EmptyString => ("", "")
  end.

Definition hex_value (c : ascii) : option Z :=
  let n := code c in
  if ((48 <=? n) && (n <=? 57))%Z then Some (n - 48)%Z
  else if ((97 <=? n) && (n <=? 102))%Z then Some (n - 87)%Z
  else if ((65 <=? n) && (n <=? 70))%Z then Some (n - 55)%Z
  else None.

(** the character of a short escape, [None] for an invalid one *)
Definition unescape (c : ascii) : option ascii :=
  if Ascii.eqb c dquote || Ascii.eqb c backslash || Ascii.eqb c "/"%char then Some c
  else if Ascii.eqb c "b"%char then Some (chr 8)
  else if Ascii.eqb c "f"%char then Some (chr 12)
  else if Ascii.eqb c "n"%char then Some (chr 10)
  else if Ascii.eqb c "r"%char then Some (chr 13)
  else if Ascii.eqb c "t"%char then Some (chr 9)
  else None.

(** the body of a string literal up to its closing quote; a control character
    is an error, and so is, outside the ASCII domain, an escape above U+007F *)
Fixpoint scan_string (s : string) : option (string * string) :=
  match s with
  | EmptyString => None
  | String c s' =>
      if Ascii.eqb c dquote then Some ("", s')
      else if (code c <? 32)%Z then None
      else if Ascii.eqb c backslash then
        match s' with
        | String "u" (String a (String b (String d (String e s'')))) =>
            match hex_value a, hex_value b, hex_value d, hex_value e with
            | Some 0%Z, Some 0%Z, Some m, Some n =>
                if (m <? 8)%Z then
                  (fun '(t, r) => (String (chr (m * 16 + n)) t, r)) <$> scan_string s''
                else None
            | _, _, _, _ => None
            end
        | String x s'' =>
            match unescape x with
            | Some x' => (fun '(t, r) => (String x' t, r)) <$> scan_string s''
            | None => None
            end
        | EmptyString => None
        end
      else (fun '(t, r) => (String c t, r)) <$> scan_string s'
  end.

(** an optional exponent: the text consumed, and the rest *)
Definition scan_exponent (s : string) : string * string :=
  match s with
  | String e s' =>
      if Ascii.eqb e "e"%char || Ascii.eqb e "E"%char then
        let '(sign, s'') :=
          match s' with
          | String g t => if Ascii.eqb g "-"%char || Ascii.eqb g "+"%char
                          then (String g "", t) else ("", s')
          | EmptyString => ("", "")
          end in
        match span_digits s'' with
        | ("", _) => ("", s)
        | (d, r) => (String e (sign +:+ d), r)
        end
      else ("", s)
  | EmptyString => ("", "")
  end.

Definition scan_fraction (s : string) : string * string :=
  match s with
  | String "." s' =>
      match span_digits s' with
      | ("", _) => ("", s)
      | (d, r) => (String "." d, r)
      end
  | _ => ("", s)
  end.

(** a number; [int] refuses a literal of more than 4300 digits *)
Definition scan_number (sign : string) (s : string) : option (json * string) :=
  let '(whole, rest) :=
    match s with
    | String "0" s' => ("0", s')
    | _ => span_digits s
    end in
  if empty_str whole then None
  else
    let '(frac, rest1) := scan_fraction rest in
    let '(expo, rest2) := scan_exponent rest1 in
    if empty_str frac && empty_str expo then
      if (4300 <? len whole)%Z then None
      else (fun z => (JInt z, rest)) <$> parse_int (sign +:+ whole)
    else Some (JFloat (float_repr (sign +:+ whole +:+ frac +:+ expo)), rest2).

Definition after (word s : string) : option string :=
  if startswith word s then
    Some (String.substring (String.length word) (String.length s - String.length word) s)
  else None.

Definition scan_constant (s : string) : option (json * string) :=
  match after "null" s with
  | Some r => Some (JNull, r)
  | None =>
  match after "true" s with
  | Some r => Some (JBool true, r)
  | None =>
  match after "false" s with
  | Some r => Some (JBool false, r)
  | None =>
  match after "NaN" s with
  | Some r => Some (JFloat "nan", r)
  | None =>
  match after "Infinity" s with
  | Some r => Some (JFloat "inf", r)
  | None =>
  match after "-Infinity" s with
  | Some r => Some (JFloat "-inf", r)
  | None =>
  match s with
  | String "-" s' => scan_number "-" s'
  | _ => scan_number "" s
  end end end end end end end.

(** [fuel] bounds the nesting of calls; each value consumes a character, so
    twice the length of the text is enough *)
Fixpoint scan_value (fuel : nat) (s : string) : option (json * string) :=
  match fuel with
  | O => None
  | S fuel =>
      match s with
      | String c s' =>
          if Ascii.eqb c dquote then (fun '(t, r) => (JStr t, r)) <$> scan_string s'
          else if Ascii.eqb c "["%char then
            match skip_ws s' with
            | String "]" r => Some (JList [], r)
            | s'' => (fun '(l, r) => (JList l, r)) <$> scan_items fuel s''
            end
          else if Ascii.eqb c "{"%char then
            match skip_ws s' with
            | String "}" r => Some (JObj [], r)
            | s'' => (fun '(l, r) => (JObj (dict_of_pairs l), r)) <$> scan_pairs fuel s''
            end
          else scan_constant s
      | EmptyString => None
      end
  end
with scan_items (fuel : nat) (s : string) : option (list json * string) :=
  match fuel with
  | O => None
  | S fuel =>
      match scan_value fuel s with
      | Some (v, r) =>
          match skip_ws r with
          | String "]" r' => Some ([v], r')
          | String "," r' => (fun '(l, r'') => (v :: l, r'')) <$> scan_items fuel (skip_ws r')
          | _ => None
          end
      | None => None
      end
  end
with scan_pairs (fuel : nat) (s : string) : option (list (string * json) * string) :=
  match fuel with
  | O => None
  | S fuel =>
      match s with
      | String q s1 =>
          if Ascii.eqb q dquote then
            match scan_string s1 with
            | Some (key, s2) =>
                match skip_ws s2 with
                | String ":" s3 =>
                    match scan_value fuel (skip_ws s3) with
                    | Some (v, r) =>
                        match skip_ws r with
                        | String "}" r' => Some ([(key, v)], r')
                        | String "," r' =>
                            (fun '(l, r'') => ((key, v) :: l, r'')) <$> scan_pairs fuel (skip_ws r')
                        | _ => None
                        end
                    | None => None
                    end
                | _ => None
                end
            | None => None
            end
          else None
      | EmptyString => None
      end
  end.

(** [json.loads(s)]; [None] stands for [JSONDecodeError] *)
Definition loads (s : string) : option json :=
  match scan_value (2 * String.length s + 2) (skip_ws s) with
  | Some (v, r) => if empty_str (skip_ws r) then Some v else None
  | None => None
  end.
End Loads.

(** ** Induction and equality *)

(** a text is itself where a text is expected *)
Lemma str_or_empty_str `{Env} t : str_or_empty (JStr t) = t.
Proof. unfold str_or_empty. cbn. destruct (empty_str t) eqn:E; [by apply empty_str_true in E|done]. Qed.

Lemma json_ind' (P : json -> Prop) :
  P JNull -> (forall b, P (JBool b)) -> (forall z, P (JInt z)) -> (forall t, P (JFloat t)) ->
  (forall s, P (JStr s)) -> (forall l, Forall P l -> P (JList l)) ->
  (forall l, Forall (fun kv => P kv.2) l -> P (JObj l)) -> forall v, P v.
Proof.
  intros HN HB HZ HF HS HL HO. fix IH 1. intros [| | | | |l|l].
  - exact HN.
  - apply HB.
  - apply HZ.
  - apply HF.
  - apply HS.
  - apply HL. induction l; constructor; [apply IH|assumption].
  - apply HO. induction l as [|[k v] l IHl]; constructor; [apply IH|assumption].
Qed.

#[export] Instance json_eq_dec : EqDecision json.
Proof.
  refine (fix go (v w : json) {struct v} : Decision (v = w) :=
    match v, w with
    | JNull, JNull => left eq_refl
    | JBool a, JBool b => cast_if (decide (a = b))
    | JInt a, JInt b => cast_if (decide (a = b))
    | JFloat a, JFloat b => cast_if (decide (a = b))
    | JStr a, JStr b => cast_if (decide (a = b))
    | JList l, JList k =>
        cast_if ((fix gol (l k : list json) {struct l} : Decision (l = k) :=
          match l, k with
          | [], [] => left eq_refl
          | x :: l', y :: k' => cast_if_and (go x y) (gol l' k')
          | _, _ => right _
          end) l k)
    | JObj l, JObj k =>
        cast_if ((fix gol (l k : list (string * json)) {struct l} : Decision (l = k) :=
          match l, k with
          | [], [] => left eq_refl
          | (a, x) :: l', (b, y) :: k' => cast_if_and3 (decide (a = b)) (go x y) (gol l' k')
          | _, _ => right _
          end) l k)
    | _, _ => right _
    end); clear go; abstract congruence.
Defined.

Lemma dict_get_set {A} key key' (v : A) d :
  dict_get key (dict_set key' v d) = if decide (key = key') then Some v else dict_get key d.
Proof.
  induction d as [|[k w] d IH]; simpl; repeat case_decide; simplify_eq; simpl;
    repeat case_decide; simplify_eq; congruence.
Qed.

Lemma dict_set_keys {A} key (v : A) d k :
  k ∈ (dict_set key v d).*1 <-> k = key \/ k ∈ d.*1.
Proof.
  induction d as [|[k' w] d IH]; simpl.
  { rewrite elem_of_cons. tauto. }
  case_decide; simpl; rewrite !elem_of_cons; [subst; tauto|rewrite IH; tauto].
Qed.

Lemma dict_set_NoDup {A} key (v : A) d : NoDup d.*1 -> NoDup (dict_set key v d).*1.
Proof.
  induction d as [|[k w] d IH]; simpl; [by intros _; repeat constructor; intros ?%elem_of_nil|].
  intros [? ?]%NoDup_cons. case_decide; simpl; constructor; auto.
  rewrite dict_set_keys. naive_solver.
Qed.

(** ** Texts inside a parsed document are shorter than the document *)

(** the string values of a document (not its keys) *)
Fixpoint leaves (v : json) : list string :=
  match v with
  | JStr s => [s]
  | JList l => flat_map leaves l
  | JObj l => flat_map (fun kv => leaves kv.2) l
  | _ => []
  end.

Lemma elem_of_flat_map {A B} (f : A -> list B) l y :
  y ∈ flat_map f l <-> exists x, x ∈ l /\ y ∈ f x.
Proof.
  induction l as [|x l IH]; simpl.
  - split; [by intros ?%elem_of_nil|by intros (? & ?%elem_of_nil & _)].
  - rewrite elem_of_app, IH. setoid_rewrite elem_of_cons. split.
    + intros [?|(x' & ? & ?)]; [exists x|exists x']; tauto.
    + intros (x' & [->|?] & ?); [by left|right; by exists x'].
Qed.

Lemma dict_set_elem {A} key (v : A) d kv :
  kv ∈ dict_set key v d -> kv ∈ d \/ kv = (key, v).
Proof.
  induction d as [|[k w] d IH]; simpl; [by intros ->%list_elem_of_singleton; right|].
  case_decide; rewrite !elem_of_cons; [|naive_solver]. subst. naive_solver.
Qed.

Lemma dict_of_pairs_elem {A} (l : list (string * A)) kv : kv ∈ dict_of_pairs l -> kv ∈ l.
Proof.
  unfold dict_of_pairs.
  enough (forall d, kv ∈ fold_left (fun d p => dict_set p.1 p.2 d) l d -> kv ∈ d \/ kv ∈ l) as He.
  { intros [?%elem_of_nil|?]%He; done. }
  induction l as [|[k v] l IH]; intros d; simpl; [by left|].
  intros [[?| ->]%dict_set_elem|?]%IH; rewrite !elem_of_cons; auto.
Qed.

#[local] Abbreviation slen := String.length.

(** one scanned character in front of what the rest of the literal scans to *)
Lemma scan_cons_shorter (o : option (string * string)) n c t r :
  (forall t r, o = Some (t, r) -> slen t + slen r < n)%nat ->
  (fun '(t, r) => (String c t, r)) <$> o = Some (t, r) -> (slen t + slen r < S n)%nat.
Proof.
  intros Ho. destruct o as [[t' r']|]; simpl; [|done]. intros [= <- <-].
  specialize (Ho t' r' eq_refl). simpl. lia.
Qed.

Lemma scan_string_shorter s : forall t r,
  scan_string s = Some (t, r) -> (slen t + slen r < slen s)%nat.
Proof.
  remember (slen s) as n eqn:Hn. revert s Hn.
  induction (lt_wf n) as [n _ IH]. intros [|c s] Hn t r; [done|]. simpl in Hn. subst n.
  assert (Hrec : forall s' k c t r, (slen s' <= slen s)%nat -> slen s = (k + slen s')%nat ->
    (fun '(t, r) => (String c t, r)) <$> scan_string s' = Some (t, r) ->
    (slen t + slen r < S (slen s))%nat).
  { intros s' k c' t' r' Hle Hk Ho. apply (scan_cons_shorter _ (slen s')) in Ho; [lia|].
    intros. eapply (IH (slen s')); [lia|done|done]. }
  simpl. destruct (Ascii.eqb c dquote); [intros [= <- <-]; simpl; lia|].
  destruct (code c <? 32)%Z; [done|].
  destruct (Ascii.eqb c backslash); [|by apply (Hrec s 0%nat)].
  assert (Hshort : forall x s'', s = String x s'' ->
    match unescape x with
    | Some x' => (fun '(t, r) => (String x' t, r)) <$> scan_string s''
    | None => None
    end = Some (t, r) -> (slen t + slen r < S (slen s))%nat).
  { intros x s'' ->. destruct (unescape x); [|done]. apply (Hrec s'' 1%nat); simpl; lia. }
  destruct s as [|x s'']; [done|]. specialize (Hshort x s'' eq_refl).
  destruct x as [[] [] [] [] [] [] [] []]; try exact Hshort.
  destruct s'' as [|a [|b [|d [|e s3]]]]; try exact Hshort.
  destruct (hex_value a) as [[]|]; try done. destruct (hex_value b) as [[]|]; try done.
  destruct (hex_value d) as [m|]; [|done]. destruct (hex_value e); [|done].
  destruct (m <? 8)%Z; [|done]. apply (Hrec s3 5%nat); simpl; lia.
Qed.

Lemma skip_ws_shorter s : (slen (skip_ws s) <= slen s)%nat.
Proof. induction s as [|c s IH]; simpl; [done|]. destruct (is_ws c); simpl; lia. Qed.

Lemma span_digits_shorter s d r : span_digits s = (d, r) -> (slen r <= slen s)%nat.
Proof.
  revert d r. induction s as [|c s IH]; intros d r; simpl; [by intros [= <- <-]|].
  destruct (is_digit c); [|by intros [= <- <-]].
  destruct (span_digits s) as [d' r'] eqn:E. intros [= <- <-]. specialize (IH _ _ eq_refl). lia.
Qed.

Section LoadsBounds.
Context `{Env}.

Lemma scan_fraction_shorter s d r : scan_fraction s = (d, r) -> (slen r <= slen s)%nat.
Proof.
  destruct s as [|[[] [] [] [] [] [] [] []] s]; simpl; try (intros [= <- <-]; simpl; lia).
  destruct (span_digits s) as [[|c d'] r'] eqn:E; intros [= <- <-]; [simpl; lia|].
  apply span_digits_shorter in E. lia.
Qed.

Lemma scan_exponent_shorter s d r : scan_exponent s = (d, r) -> (slen r <= slen s)%nat.
Proof.
  destruct s as [|e s]; simpl; [by intros [= <- <-]|].
  destruct (_ || _); [|intros [= <- <-]; simpl; lia].
  assert (Hd : forall sign s'', (slen s'' <= slen s)%nat ->
    match span_digits s'' with
    | ("", _) => ("", String e s)
    | (d, r) => (String e (sign +:+ d), r)
    end = (d, r) -> (slen r <= S (slen s))%nat).
  { intros sign s'' ?. destruct (span_digits s'') as [[|c d'] r'] eqn:E; intros [= <- <-]; [done|].
    apply span_digits_shorter in E. lia. }
  destruct s as [|g s']; [by apply Hd|].
  destruct (_ || _); apply Hd; simpl; lia.
Qed.

Lemma scan_number_shorter sign s v r :
  scan_number sign s = Some (v, r) -> leaves v = [] /\ (slen r <= slen s)%nat.
Proof.
  unfold scan_number.
  destruct (match s with String "0" s' => ("0", s') | _ => span_digits s end) as [w rest] eqn:E.
  assert (slen rest <= slen s)%nat.
  { destruct s as [|c s']; [by injection E as <- <-|].
    destruct c as [[] [] [] [] [] [] [] []];
      solve [by eapply span_digits_shorter|injection E as <- <-; simpl; lia]. }
  destruct (empty_str w); [done|].
  destruct (scan_fraction rest) as [f r1] eqn:E1. apply scan_fraction_shorter in E1.
  destruct (scan_exponent r1) as [x r2] eqn:E2. apply scan_exponent_shorter in E2.
  destruct (_ && _).
  - destruct (_ <? _)%Z; [done|]. destruct (parse_int _); [|done]. intros [= <- <-]. by split; [|lia].
  - intros [= <- <-]. by split; [|lia].
Qed.

Lemma substring_shorter n m s : (slen (String.substring n m s) <= slen s)%nat.
Proof.
  revert n m. induction s as [|c s IH]; intros [|n] [|m]; simpl; try lia.
  - specialize (IH 0%nat m). lia.
  - specialize (IH n 0%nat). lia.
  - specialize (IH n (S m)). lia.
Qed.

Lemma after_shorter w s r : after w s = Some r -> (slen r <= slen s)%nat.
Proof. unfold after. destruct (startswith w s); [|done]. intros [= <-]. apply substring_shorter. Qed.

Lemma scan_constant_shorter s v r :
  scan_constant s = Some (v, r) -> leaves v = [] /\ (slen r <= slen s)%nat.
Proof.
  unfold scan_constant.
  destruct (after "null" s) eqn:?; [intros [= <- <-]; split; [done|by eapply after_shorter]|].
  destruct (after "true" s) eqn:?; [intros [= <- <-]; split; [done|by eapply after_shorter]|].
  destruct (after "false" s) eqn:?; [intros [= <- <-]; split; [done|by eapply after_shorter]|].
  destruct (after "NaN" s) eqn:?; [intros [= <- <-]; split; [done|by eapply after_shorter]|].
  destruct (after "Infinity" s) eqn:?; [intros [= <- <-]; split; [done|by eapply after_shorter]|].
  destruct (after "-Infinity" s) eqn:?; [intros [= <- <-]; split; [done|by eapply after_shorter]|].
  destruct s as [|c s']; [apply scan_number_shorter|].
  destruct c as [[] [] [] [] [] [] [] []]; try apply scan_number_shorter.
  intros [? ?]%scan_number_shorter. by split; [|simpl; lia].
Qed.

(** every text of [ts] fits strictly between the input and what is left of it *)
Definition texts_fit (ts : list string) (s r : string) : Prop :=
  (slen r <= slen s)%nat /\ forall t, t ∈ ts -> (slen t + slen r < slen s)%nat.

Lemma texts_fit_widen ts s r s' r' :
  texts_fit ts s r -> (slen s <= slen s')%nat -> (slen r' <= slen r)%nat -> texts_fit ts s' r'.
Proof. intros [? Ht] ??. split; [lia|]. intros t ?%Ht. lia. Qed.

Lemma texts_fit_nil s r : (slen r <= slen s)%nat -> texts_fit [] s r.
Proof. intros. split; [done|]. by intros t ?%elem_of_nil. Qed.

Lemma texts_fit_app ts1 ts2 s r1 r2 :
  texts_fit ts1 s r1 -> texts_fit ts2 r1 r2 -> texts_fit (ts1 ++ ts2) s r2.
Proof.
  intros [? H1] [? H2]. split; [lia|]. intros t [?%H1|?%H2]%elem_of_app; lia.
Qed.
(** scanning a value, the items of an array and the pairs of an object *)
Lemma scan_fits fuel :
  (forall s v r, scan_value fuel s = Some (v, r) -> texts_fit (leaves v) s r) /\
  (forall s l r, scan_items fuel s = Some (l, r) -> texts_fit (flat_map leaves l) s r) /\
  (forall s l r, scan_pairs fuel s = Some (l, r) ->
     texts_fit (flat_map (fun kv => leaves kv.2) l) s r).
Proof.
  induction fuel as [|fuel (IHv & IHi & IHp)]; [done|]. split_and!.
  - intros [|c s] v r; [done|]. simpl.
    destruct (Ascii.eqb c dquote).
    { destruct (scan_string s) as [[t r']|] eqn:E; [|done]. intros [= <- <-].
      apply scan_string_shorter in E. split; simpl; [lia|].
      intros t' ->%list_elem_of_singleton. lia. }
    pose proof (skip_ws_shorter s) as Hws.
    assert (Hl : forall s', (slen s' <= slen s)%nat ->
      (fun '(l, r) => (JList l, r)) <$> scan_items fuel s' = Some (v, r) ->
      texts_fit (leaves v) (String c s) r).
    { intros s' ?. destruct (scan_items fuel s') as [[l r']|] eqn:E; [|done].
      intros [= <- <-]. eapply texts_fit_widen; [by apply IHi|simpl; lia|done]. }
    assert (Ho : forall s', (slen s' <= slen s)%nat ->
      (fun '(l, r) => (JObj (dict_of_pairs l), r)) <$> scan_pairs fuel s' = Some (v, r) ->
      texts_fit (leaves v) (String c s) r).
    { intros s' ?. destruct (scan_pairs fuel s') as [[l r']|] eqn:E; [|done].
      intros [= <- <-]. apply IHp in E. destruct E as [? E]. split; simpl; [lia|].
      intros t (kv & ?%dict_of_pairs_elem & ?)%elem_of_flat_map.
      enough (slen t + slen r' < slen s')%nat by lia. apply E, elem_of_flat_map. eauto. }
    destruct (Ascii.eqb c "["%char).
    { destruct (skip_ws s) as [|c' s''] eqn:E; [by apply Hl|].
      destruct c' as [[] [] [] [] [] [] [] []]; try (by apply Hl).
      intros [= <- <-]. apply texts_fit_nil. simpl in *. lia. }
    destruct (Ascii.eqb c "{"%char).
    { destruct (skip_ws s) as [|c' s''] eqn:E; [by apply Ho|].
      destruct c' as [[] [] [] [] [] [] [] []]; try (by apply Ho).
      intros [= <- <-]. apply texts_fit_nil. simpl in *. lia. }
    intros [-> ?]%scan_constant_shorter. by apply texts_fit_nil.
  - intros s l r. simpl. destruct (scan_value fuel s) as [[v r0]|] eqn:E; [|done]. apply IHv in E.
    pose proof (skip_ws_shorter r0) as Hws.
    destruct (skip_ws r0) as [|c' r'] eqn:Er; [done|]. simpl in Hws.
    destruct c' as [[] [] [] [] [] [] [] []]; try done.
    + intros [= <- <-]. simpl. rewrite app_nil_r. eapply texts_fit_widen; [done|lia|lia].
    + destruct (scan_items fuel (skip_ws r')) as [[l' r'']|] eqn:El; [|done]. intros [= <- <-].
      apply IHi in El. pose proof (skip_ws_shorter r'). simpl.
      eapply texts_fit_app; [done|]. eapply texts_fit_widen; [done|lia|lia].
  - intros [|q s1] l r; [done|]. simpl. destruct (Ascii.eqb q dquote); [|done].
    destruct (scan_string s1) as [[key s2]|] eqn:Ek; [|done]. apply scan_string_shorter in Ek.
    pose proof (skip_ws_shorter s2) as Hws2.
    destruct (skip_ws s2) as [|c2 s3]; [done|]. simpl in Hws2.
    destruct c2 as [[] [] [] [] [] [] [] []]; try done.
    pose proof (skip_ws_shorter s3) as Hws3.
    destruct (scan_value fuel (skip_ws s3)) as [[v r0]|] eqn:E; [|done]. apply IHv in E.
    pose proof (skip_ws_shorter r0) as Hws.
    destruct (skip_ws r0) as [|c' r'] eqn:Er; [done|]. simpl in Hws.
    destruct c' as [[] [] [] [] [] [] [] []]; try done.
    + intros [= <- <-]. simpl. rewrite app_nil_r. eapply texts_fit_widen; [done|simpl; lia|lia].
    + destruct (scan_pairs fuel (skip_ws r')) as [[l' r'']|] eqn:El; [|done]. intros [= <- <-].
      apply IHp in El. pose proof (skip_ws_shorter r'). simpl.
      eapply texts_fit_app; [eapply texts_fit_widen; [done|simpl; lia|done]|].
      eapply texts_fit_widen; [done|lia|lia].
Qed.

(** the texts of a parsed array or object are strictly shorter than its text *)
Lemma loads_leaves_shorter s v t :
  loads s = Some v -> t ∈ leaves v -> (slen t < slen s)%nat.
Proof.
  unfold loads. destruct (scan_value _ _) as [[v' r]|] eqn:E; [|done].
  destruct (empty_str _); [|done]. intros [= <-] Ht.
  apply scan_fits in E as [_ E]. apply E in Ht. pose proof (skip_ws_shorter s). lia.
Qed.

End LoadsBounds.

(** ** Injectivity of the texts [json.dumps] writes for strings *)

(** one escaped character, and the rest *)
Definition decode_char (s : string) : option (ascii * string) :=
  match s with
  | EmptyString => None
  | String c s' =>
      if Ascii.eqb c backslash then
        match s' with
        | String "u" (String _ (String _ (String h (String l r)))) =>
            match hex_value h, hex_value l with
            | Some m, Some n => Some (chr (m * 16 + n), r)
            | _, _ => None
            end
        | String x r => (fun y => (y, r)) <$> unescape x
        | EmptyString => None
        end
      else Some (c, s')
  end.

Lemma decode_escape e c rest : decode_char (escape_char e c +:+ rest) = Some (c, rest).
Proof. by destruct c as [[] [] [] [] [] [] [] []]; destruct e. Qed.
Lemma escape_char_head e c : exists x s, escape_char e c = String x s /\ x <> dquote.
Proof.
  destruct c as [[] [] [] [] [] [] [] []]; destruct e; eexists _, _; (split; [reflexivity|]);
    intros Hx; vm_compute in Hx; discriminate Hx.
Qed.

Lemma app_assoc_str (a b c : string) : (a +:+ b) +:+ c = a +:+ (b +:+ c).
Proof. induction a as [|x a IH]; [done|]. exact (f_equal (String x) IH). Qed.

Lemma escape_inj e s1 s2 r1 r2 :
  escape e s1 +:+ String dquote r1 = escape e s2 +:+ String dquote r2 -> s1 = s2 /\ r1 = r2.
Proof.
  revert s2. induction s1 as [|c1 s1 IH]; intros [|c2 s2]; cbn [escape]; rewrite ?app_assoc_str.
  - intros Heq. by injection Heq.
  - destruct (escape_char_head e c2) as (x & t & -> & Hx). simpl. intros Heq. injection Heq. congruence.
  - destruct (escape_char_head e c1) as (x & t & -> & Hx). simpl. intros Heq. injection Heq. congruence.
  - intros Heq. apply (f_equal decode_char) in Heq. rewrite !decode_escape in Heq.
    injection Heq as -> Heq. by destruct (IH _ Heq) as [-> ->].
Qed.

(** a quoted text ends where its closing quote is *)
Lemma quote_inj e s1 s2 r1 r2 : quote e s1 +:+ r1 = quote e s2 +:+ r2 -> s1 = s2 /\ r1 = r2.
Proof.
  unfold quote. rewrite !app_assoc_str. simpl. intros Heq.
  injection Heq. apply escape_inj.
Qed.
