(* ===== verification/Redaction.v ===== *)
(** * The redaction boundary

    Models [cptr/utils/redaction.py] whole: the sensitive-key test, the regular
    expressions and their substitution, [redact_text] with the JSON documents it
    finds inside texts, [redact_sensitive] and the external variants.  Regular
    expressions are data, run by a backtracking matcher with Python's order of
    alternatives. *)

From S2P Require Import Prelude PyStr Json.
From Stdlib Require Import Ascii.

Definition REDACTED : string := "[REDACTED]".
Definition MAX_STRING_LENGTH : Z := 10000.

Definition _SENSITIVE_KEYS : list string :=
  ["password"; "hashedpassword"; "token"; "accesstoken"; "refreshtoken"; "idtoken"; "apikey";
   "secret"; "authorization"; "cookie"; "setcookie"; "session"; "sessionid"; "code"; "state";
   "clientsecret"; "key"].
Definition _SENSITIVE_SUFFIXES : list string :=
  ["token"; "secret"; "apikey"; "password"; "authorization"; "cookie"; "sessionid"].

Definition is_lower_alnum (c : ascii) : bool :=
  is_digit c || ((97 <=? code c) && (code c <=? 122))%Z.

(** [_key_is_sensitive] *)
Definition _key_is_sensitive (key : string) : bool :=
  let normalized := str_filter is_lower_alnum (lower key) in
  existsb (str_eqb normalized) _SENSITIVE_KEYS ||
  existsb (fun suffix => endswith suffix normalized) _SENSITIVE_SUFFIXES.

(** ** Regular expressions *)

Inductive regex :=
  | Cls (p : ascii -> bool)          (* one character of a class *)
  | Eps
  | Cat (r s : regex)
  | Or (r s : regex)                 (* the left alternative first *)
  | Star (r : regex)                 (* greedy *)
  | Bound                            (* \b *)
  | NotAfter (p : ascii -> bool).    (* (?<![p]) *)

Definition Plus (r : regex) : regex := Cat r (Star r).
Definition Opt (r : regex) : regex := Or r Eps.
Fixpoint AtLeast (n : nat) (r : regex) : regex :=
  match n with O => Star r | S n => Cat r (AtLeast n r) end.

Definition is_alnum (c : ascii) : bool := is_lower_alnum (lower_char c).
Definition is_word (c : ascii) : bool := is_alnum c || Ascii.eqb c "_"%char.
Definition one_of (s : string) (c : ascii) : bool := existsb (Ascii.eqb c) (String.list_ascii_of_string s).
Definition none_of (s : string) (c : ascii) : bool := negb (one_of s c).

(** a literal, under [re.IGNORECASE] and without it *)
Fixpoint ilit (s : string) : regex :=
  match s with
  | EmptyString => Eps
  | String c EmptyString => Cls (fun x => Ascii.eqb (lower_char x) c)
  | String c s' => Cat (Cls (fun x => Ascii.eqb (lower_char x) c)) (ilit s')
  end.
Fixpoint lit (s : string) : regex :=
  match s with
  | EmptyString => Eps
  | String c EmptyString => Cls (Ascii.eqb c)
  | String c s' => Cat (Cls (Ascii.eqb c)) (lit s')
  end.
Fixpoint alternatives (l : list regex) : regex :=
  match l with
  | [] => Eps
  | [r] => r
  | r :: l' => Or r (alternatives l')
  end.

Definition orelse {A} (x : option A) (y : unit -> option A) : option A :=
  match x with Some a => Some a | None => y tt end.

(** [rmatch r prev s k]: match [r] at the start of [s], after the character
    [prev], then continue with [k]; a failing continuation backtracks. *)
Fixpoint rmatch {A} (r : regex) (prev : option ascii) (s : string)
    (k : option ascii -> string -> option A) : option A :=
  match r with
  | Cls p =>
      match s with
      | String c s' => if p c then k (Some c) s' else None
      | EmptyString => None
      end
  | Eps => k prev s
  | Cat r1 r2 => rmatch r1 prev s (fun prev' s' => rmatch r2 prev' s' k)
  | Or r1 r2 => orelse (rmatch r1 prev s k) (fun _ => rmatch r2 prev s k)
  | Star r1 =>
      (fix star (n : nat) (prev : option ascii) (s : string) : option A :=
         match n with
         | O => k prev s
         | S n =>
             orelse (rmatch r1 prev s (fun prev' s' =>
                       if (String.length s' <? String.length s)%nat then star n prev' s' else None))
                    (fun _ => k prev s)
         end) (String.length s) prev s
  | Bound =>
      let before := match prev with Some c => is_word c | None => false end in
      let behind := match s with String c _ => is_word c | EmptyString => false end in
      if xorb before behind then k prev s else None
  | NotAfter p =>
      match prev with
      | Some c => if p c then None else k prev s
      | None => k prev s
      end
  end.

(** the first [n] characters *)
Fixpoint str_firstn (n : nat) (s : string) : string :=
  match n, s with
  | S n, String c s' => String c (str_firstn n s')
  | _, _ => ""
  end.

(** [re.sub(group + rest, group-text + word, s)] for a pattern whose first part
    is its capturing group; [fuel] is the length of the text *)
Fixpoint sub_from (fuel : nat) (group rest : regex) (word : string)
    (prev : option ascii) (s : string) : string :=
  match fuel, s with
  | S fuel, String c s' =>
      match rmatch group prev s (fun p1 s1 =>
              rmatch rest p1 s1 (fun p2 s2 => Some (s1, p2, s2))) with
      | Some (s1, p2, s2) =>
          str_firstn (String.length s - String.length s1) s +:+ word
          +:+ sub_from fuel group rest word p2 s2
      | None => String c (sub_from fuel group rest word (Some c) s')
      end
  | _, _ => ""
  end.
Definition sub (group rest : regex) (word s : string) : string :=
  sub_from (String.length s) group rest word None s.

Definition blanks : regex := Star (Cls is_space).

(** [access_token|refresh_token|id_token|api[_-]?key|token|secret|password] *)
Definition secret_names : list regex :=
  [ilit "access_token"; ilit "refresh_token"; ilit "id_token";
   Cat (ilit "api") (Cat (Opt (Cls (one_of "_-"))) (ilit "key"));
   ilit "token"; ilit "secret"; ilit "password"].

Definition _QUERY_SECRET_RE : regex * regex :=
  (Cat (Cls (one_of "?&"))
     (Cat (alternatives (secret_names ++
             [ilit "code"; ilit "state"; Cat (ilit "session") (Opt (ilit "_id"))]))
        (Cls (one_of "="))),
   Plus (Cls (fun c => none_of "&#" c && negb (is_space c)))).

Definition _HEADER_SECRET_RE : regex * regex :=
  let scheme := Cat blanks (Cat (ilit ":") (Cat blanks (Or (ilit "bearer") (ilit "basic")))) in
  (Cat Bound
     (Cat (alternatives [Cat (ilit "authorization") scheme; Cat (ilit "proxy-authorization") scheme;
                         Cat (ilit "cookie") (Cat blanks (ilit ":"));
                         Cat (ilit "set-cookie") (Cat blanks (ilit ":"))])
        (Plus (Cls (fun c => Ascii.eqb c " "%char || (code c =? 9)%Z)))),
   Plus (Cls (fun c => negb ((code c =? 13) || (code c =? 10))%Z))).

Definition is_quote (c : ascii) : bool := Ascii.eqb c dquote || Ascii.eqb c squote.

Definition _INLINE_SECRET_RE : regex * regex :=
  (Cat Bound
     (Cat (alternatives (secret_names ++
             [Cat (ilit "session") (Cat (Opt (Cls (one_of "_-"))) (ilit "id"))]))
        (Cat blanks (Cat (Cls (one_of ":=")) blanks))),
   Cat (Opt (Cls is_quote))
     (Plus (Cls (fun c => negb (is_space c) && none_of ",;&}" c && negb (is_quote c))))).

Definition _BEARER_RE : regex :=
  Cat Bound (Cat (ilit "bearer") (Cat (Plus (Cls is_space))
    (AtLeast 8 (Cls (fun c => is_alnum c || one_of "._~+/=-" c))))).

Definition token_char (c : ascii) : bool := is_word c || Ascii.eqb c "-"%char.
Definition _KNOWN_TOKEN_RE : regex :=
  Cat Bound (Cat
    (alternatives
       [Cat (lit "sk-") (Cat (Opt (lit "proj-")) (AtLeast 8 (Cls token_char)));
        Cat (lit "gh") (Cat (Cls (one_of "pousr")) (Cat (lit "_") (AtLeast 8 (Cls is_word))));
        Cat (lit "AIza") (AtLeast 20 (Cls token_char));
        Cat (lit "eyJ") (Cat (AtLeast 20 (Cls token_char)) (Cat (lit ".")
          (Cat (AtLeast 10 (Cls token_char)) (Cat (lit ".") (AtLeast 10 (Cls token_char))))))])
    Bound).

Definition path_char (c : ascii) : bool :=
  negb (is_space c) && none_of "`<>" c && negb (is_quote c).
Definition _EXTERNAL_PATH_RE : regex :=
  let detached := NotAfter (fun c => is_word c || Ascii.eqb c ":"%char) in
  let segment := Plus (Cls (fun c => path_char c && negb (Ascii.eqb c backslash))) in
  Or (Cat detached (Cat (lit "/")
        (Cat (alternatives (map lit ["home"; "Users"; "tmp"; "var"; "opt"; "srv"; "private"; "workspace"]))
           (Plus (Cat (lit "/") (Plus (Cls path_char)))))))
     (Cat detached (Cat (Cls (fun c => is_alnum c && negb (is_digit c))) (Cat (lit ":")
        (Cat (Cls (Ascii.eqb backslash))
           (Cat (Star (Cat segment (Cls (Ascii.eqb backslash)))) segment))))).

(** ** Redaction *)

Section Redact.
Context `{Env}.

(** [redact_sensitive], given what it does to texts *)
Section Structure.
Context (text : string -> string).

Fixpoint redact_with (v : json) : json :=
  match v with
  | JObj fields =>
      JObj (map (fun '(k, x) =>
                   (k, if _key_is_sensitive k then JStr REDACTED else redact_with x)) fields)
  | JList l => JList (map redact_with l)
  | JStr s => JStr (text s)
  | _ => v
  end.
End Structure.

(** the substitutions of [redact_text], and the bound on the length *)
Definition redact_patterns (s : string) : string :=
  let text := sub _QUERY_SECRET_RE.1 _QUERY_SECRET_RE.2 REDACTED s in
  let text := sub _HEADER_SECRET_RE.1 _HEADER_SECRET_RE.2 REDACTED text in
  let text := sub _INLINE_SECRET_RE.1 _INLINE_SECRET_RE.2 REDACTED text in
  let text := sub Eps _BEARER_RE ("Bearer " +:+ REDACTED) text in
  let text := sub Eps _KNOWN_TOKEN_RE REDACTED text in
  if (MAX_STRING_LENGTH <? len text)%Z then str_take MAX_STRING_LENGTH text +:+ "..." else text.

(** [redact_text]: a text that is a JSON array or object is redacted as one.
    [fuel] bounds the nesting of documents inside the strings of documents. *)
Fixpoint redact_text_fuel (fuel : nat) (value : string) : string :=
  match loads value with
  | Some (JList _ as parsed) | Some (JObj _ as parsed) =>
      match fuel with
      | O => value
      | S fuel => dumps false false (redact_with (redact_text_fuel fuel) parsed)
      end
  | _ => redact_patterns value
  end.

Definition redact_text (value : string) : string := redact_text_fuel (String.length value) value.
Definition redact_sensitive (value : json) : json := redact_with redact_text value.

Definition redact_external_text (value : string) : string :=
  sub Eps _EXTERNAL_PATH_RE "<workspace-path>" (redact_text value).

(** [redact_external]: each level is redacted, then its items again *)
Fixpoint depth (v : json) : nat :=
  match v with
  | JList l => S (foldr (fun x n => Nat.max (depth x) n) 0 l)
  | JObj l => S (foldr (fun kv n => Nat.max (depth kv.2) n) 0 l)
  | _ => 0
  end.
Fixpoint redact_external_fuel (fuel : nat) (value : json) : json :=
  match fuel, value with
  | S fuel, JObj _ =>
      match redact_sensitive value with
      | JObj fields => JObj (map (fun '(k, x) => (k, redact_external_fuel fuel x)) fields)
      | v => v
      end
  | S fuel, JList _ =>
      match redact_sensitive value with
      | JList l => JList (map (redact_external_fuel fuel) l)
      | v => v
      end
  | _, JStr s => JStr (redact_external_text s)
  | _, _ => value
  end.
Definition redact_external (value : json) : json := redact_external_fuel (depth value) value.
End Redact.

(** ** Specification *)

(** two values that differ only in what they hold under sensitive keys *)
Fixpoint same_public (v w : json) {struct v} : Prop :=
  match v, w with
  | JList l, JList k =>
      (fix go (l k : list json) {struct l} : Prop :=
         match l, k with
         | [], [] => True
         | x :: l', y :: k' => same_public x y /\ go l' k'
         | _, _ => False
         end) l k
  | JObj l, JObj k =>
      (fix go (l k : list (string * json)) {struct l} : Prop :=
         match l, k with
         | [], [] => True
         | (a, x) :: l', (b, y) :: k' =>
             a = b /\ (_key_is_sensitive a = true \/ same_public x y) /\ go l' k'
         | _, _ => False
         end) l k
  | _, _ => v = w
  end.

(** every sensitive key, at any depth, holds the redaction mark *)
Fixpoint sealed (v : json) : Prop :=
  match v with
  | JList l => (fix go (l : list json) : Prop :=
                  match l with [] => True | x :: l' => sealed x /\ go l' end) l
  | JObj l => (fix go (l : list (string * json)) : Prop :=
                 match l with
                 | [] => True
                 | (k, x) :: l' =>
                     (if _key_is_sensitive k then x = JStr REDACTED else sealed x) /\ go l'
                 end) l
  | _ => True
  end.

(** the keys of a value, level by level *)
Fixpoint shape (v : json) : json :=
  match v with
  | JList l => JList (map shape l)
  | JObj l => JObj (map (fun '(k, x) => (k, if _key_is_sensitive k then JNull else shape x)) l)
  | JStr _ => JStr ""
  | _ => v
  end.

(** ** Lemmas *)

Section RedactLemmas.
Context `{Env}.

Lemma redact_with_ext f g v :
  (forall t, t ∈ leaves v -> f t = g t) -> redact_with f v = redact_with g v.
Proof.
  induction v as [| | | |s|l IH|l IH] using json_ind'; intros Hfg; simpl in *; try done.
  - f_equal. apply Hfg. by apply list_elem_of_singleton.
  - f_equal. induction IH as [|x l Hx _ IHl]; simpl in *; [done|].
    f_equal; [apply Hx|apply IHl]; intros t ?; apply Hfg, elem_of_app; auto.
  - f_equal. induction IH as [|[k x] l Hx _ IHl]; simpl in *; [done|].
    assert (redact_with f x = redact_with g x) as ->
      by (apply Hx; intros t ?; apply Hfg, elem_of_app; auto).
    f_equal. apply IHl. intros t ?. apply Hfg, elem_of_app; auto.
Qed.

Lemma loads_empty : loads "" = None.
Proof. done. Qed.

Lemma redact_text_fuel_enough n m s :
  (String.length s <= n)%nat -> (String.length s <= m)%nat ->
  redact_text_fuel n s = redact_text_fuel m s.
Proof.
  revert m s. induction n as [|n IH]; intros m s Hn Hm.
  - destruct s; [|simpl in Hn; lia]. by destruct m.
  - destruct m as [|m].
    { destruct s; [|simpl in Hm; lia]. done. }
    simpl. destruct (loads s) as [[| | | | |l|l]|] eqn:Hs; try done;
      f_equal; apply redact_with_ext; intros t Ht;
      apply (loads_leaves_shorter _ _ _ Hs) in Ht; apply IH; lia.
Qed.

Lemma redact_text_equation s :
  redact_text s =
  match loads s with
  | Some (JList _ as parsed) | Some (JObj _ as parsed) => dumps false false (redact_sensitive parsed)
  | _ => redact_patterns s
  end.
Proof.
  unfold redact_text, redact_sensitive.
  destruct s as [|c s]; [done|]. cbn [redact_text_fuel String.length].
  destruct (loads (String c s)) as [[| | | | |l|l]|] eqn:Hs; try done;
    f_equal; apply redact_with_ext; intros t Ht;
    apply (loads_leaves_shorter _ _ _ Hs) in Ht; simpl in Ht;
    apply redact_text_fuel_enough; lia.
Qed.

Lemma depth_list_elem l x : x ∈ l -> (depth x < depth (JList l))%nat.
Proof.
  simpl. induction l as [|y l IH]; simpl; [by intros ?%elem_of_nil|].
  intros [->|?%IH]%elem_of_cons; lia.
Qed.
Lemma depth_obj_elem l k x : (k, x) ∈ l -> (depth x < depth (JObj l))%nat.
Proof.
  simpl. induction l as [|y l IH]; simpl; [by intros ?%elem_of_nil|].
  intros [<-|?%IH]%elem_of_cons; simpl; lia.
Qed.

Lemma depth_redact f v : (depth (redact_with f v) <= depth v)%nat.
Proof.
  induction v as [| | | |s|l IH|l IH] using json_ind'; simpl; try done.
  - apply le_n_S. induction IH; simpl; lia.
  - apply le_n_S. induction IH as [|[k x] l Hx _ IHl]; simpl in *; [done|].
    destruct (_key_is_sensitive k); simpl; lia.
Qed.

Lemma redact_external_fuel_enough n m v :
  (depth v <= n)%nat -> (depth v <= m)%nat ->
  redact_external_fuel n v = redact_external_fuel m v.
Proof.
  revert m v. induction n as [|n IH]; intros [|m] v Hn Hm; try done.
  - destruct v; simpl in *; try done; lia.
  - destruct v; simpl in *; try done; lia.
  - pose proof (depth_redact redact_text v) as Hd. unfold redact_sensitive in *.
    destruct v as [| | | | |l|l]; try done; cbn [redact_external_fuel]; unfold redact_sensitive.
    + change (redact_with redact_text (JList l)) with (JList (map (redact_with redact_text) l)) in *.
      f_equal. apply map_ext_Forall, Forall_forall. intros x Hx%depth_list_elem. apply IH; lia.
    + remember (redact_with redact_text (JObj l)) as w eqn:Hw.
      destruct w as [| | | | | |fs]; try done.
      f_equal. apply map_ext_Forall, Forall_forall. intros [k x] Hx%depth_obj_elem. f_equal. apply IH; lia.
Qed.

Lemma redact_external_equation v :
  redact_external v =
  match v with
  | JObj _ =>
      match redact_sensitive v with
      | JObj fields => JObj (map (fun '(k, x) => (k, redact_external x)) fields)
      | w => w
      end
  | JList _ =>
      match redact_sensitive v with
      | JList l => JList (map redact_external l)
      | w => w
      end
  | JStr s => JStr (redact_external_text s)
  | _ => v
  end.
Proof.
  pose proof (depth_redact redact_text v) as Hd. fold (redact_sensitive v) in Hd.
  unfold redact_external at 1.
  destruct v as [| | | | |l|l]; try done; cbn [redact_external_fuel depth] in *.
  - destruct (redact_sensitive (JList l)) as [| | | | |k|] eqn:E; try done.
    f_equal. apply map_ext_Forall, Forall_forall. intros x Hx%depth_list_elem.
    apply redact_external_fuel_enough; lia.
  - destruct (redact_sensitive (JObj l)) as [| | | | | |k] eqn:E; try done.
    f_equal. apply map_ext_Forall, Forall_forall. intros [key x] Hx%depth_obj_elem. f_equal.
    apply redact_external_fuel_enough; lia.
Qed.
End RedactLemmas.

(** ** Theorems *)

(** Redaction terminates and computes what the code's recursion says:
    [redact_text] redacts a JSON document found in a text as a document, however
    deeply documents nest inside strings of documents, and applies the patterns
    to any other text; [redact_external] redacts every level of a value and then
    each item again, and host paths in the texts.  The fuel of the definitions
    does not show. *)
Theorem redaction_equations `{Env} :
  (forall s, redact_text s =
     match loads s with
     | Some (JList _ as parsed) | Some (JObj _ as parsed) =>
         dumps false false (redact_sensitive parsed)
     | _ => redact_patterns s
     end) /\
  (forall v, redact_external v =
     match v with
     | JObj _ =>
         match redact_sensitive v with
         | JObj fields => JObj (map (fun '(k, x) => (k, redact_external x)) fields)
         | w => w
         end
     | JList _ =>
         match redact_sensitive v with
         | JList l => JList (map redact_external l)
         | w => w
         end
     | JStr s => JStr (redact_external_text s)
     | _ => v
     end).
Proof. split; [apply redact_text_equation|apply redact_external_equation]. Qed.

(** Secrets do not pass the boundary: two values that differ only in what
    they hold under sensitive keys, at any depth, are redacted to the same
    value. *)
Theorem redact_sensitive_noninterference `{Env} v w :
  same_public v w -> redact_sensitive v = redact_sensitive w.
Proof.
  unfold redact_sensitive. revert w.
  induction v as [| | | |s|l IH|l IH] using json_ind'; intros [| | | | |k|k]; simpl;
    try (by intros [= ->]); try done.
  - intros Hp. f_equal. revert k Hp. induction IH as [|x l Hx _ IHl]; intros [|y k]; try done.
    intros [? ?]. simpl. f_equal; auto.
  - intros Hp. f_equal. revert k Hp. induction IH as [|[a x] l Hx _ IHl]; intros [|[b y] k]; try done.
    intros (-> & Hs & ?). simpl. f_equal; [|by apply IHl].
    destruct (_key_is_sensitive b); [done|]. destruct Hs as [|Hs]; [done|]. by f_equal; apply Hx.
Qed.

Theorem redact_sensitive_noninterference_witness :
  same_public (JObj [("Api-Key", JStr "abc"); ("n", JList [JObj [("code", JInt 1)]])])
              (JObj [("Api-Key", JInt 7); ("n", JList [JObj [("code", JStr "E2")]])]) /\
  @redact_sensitive demo_env (JObj [("Api-Key", JStr "abc"); ("n", JList [JObj [("code", JInt 1)]])])
  = @redact_sensitive demo_env (JObj [("Api-Key", JInt 7); ("n", JList [JObj [("code", JStr "E2")]])]).
Proof.
  assert (same_public (JObj [("Api-Key", JStr "abc"); ("n", JList [JObj [("code", JInt 1)]])])
                      (JObj [("Api-Key", JInt 7); ("n", JList [JObj [("code", JStr "E2")]])]))
    as Hp by (cbn; repeat split; first [left; vm_compute; reflexivity
      | right; cbn; repeat split; left; vm_compute; reflexivity]).
  split; [exact Hp|]. exact (@redact_sensitive_noninterference demo_env _ _ Hp).
Defined.

(** What redaction returns holds the redaction mark under every sensitive
    key, at any depth, and has the shape of its input: no key is lost, added or
    moved, and values that are not texts and not under a sensitive key are
    untouched. *)
Theorem redact_sensitive_seals `{Env} v :
  sealed (redact_sensitive v) /\ shape (redact_sensitive v) = shape v.
Proof.
  unfold redact_sensitive.
  induction v as [| | | |s|l IH|l IH] using json_ind'; simpl; try done.
  - split; [induction IH as [|x l [? ?] _ IHl]; simpl; auto|].
    f_equal. induction IH as [|x l [? ?] _ IHl]; simpl; [done|]. by f_equal.
  - split; [induction IH as [|[k x] l [? ?] _ IHl]; simpl; [done|];
            split; [by destruct (_key_is_sensitive k)|done]|].
    f_equal. induction IH as [|[k x] l [? ?] _ IHl]; simpl in *; [done|].
    destruct (_key_is_sensitive k); congruence.
Qed.
