(* ===== verification/FactoryDomain.v ===== *)
(** * The factory state machine: states, actors and transition authority

    Models [cptr/services/factory_domain.py].  [_ALLOWED] is built the way the
    module builds it (a zip of the forward chain, an update, then the repair
    edges), and [validate_factory_transition] is the source's decision list with
    its early returns. *)

From S2P Require Import Prelude PyStr.

Inductive FactoryState :=
  | MISSION
  | RECOVERING
  | BASELINING
  | UNDERSTANDING
  | AUDITING
  | SELECTING_FINDING
  | CAPABILITY_ANALYSIS
  | SKILL_DISCOVERY
  | TRUST_EVALUATION
  | SKILL_SELECTION
  | REPRODUCING
  | ROOT_CAUSE_ANALYSIS
  | PLANNING
  | IMPLEMENTING
  | TARGETED_VERIFYING
  | FULL_VERIFYING
  | ADVERSARIAL_REVIEW
  | SECURITY_REVIEW
  | LIVE_VERIFYING
  | VICTORY_JUDGING
  | REPAIR_REQUIRED
  | COMMITTING
  | PUSHING
  | PR_CREATING
  | CI_VERIFYING
  | CYCLE_COMPLETE
  | PAUSED
  | APPROVAL_REQUIRED
  | BLOCKED
  | FAILED
  | COMPLETE
  | CANCELLED.

Inductive FactoryActor :=
  | SYSTEM
  | USER
  | REASONING_ROLE
  | WORKER
  | VERIFIER
  | CI.

#[export] Instance FactoryState_eq_dec : EqDecision FactoryState.
Proof. solve_decision. Defined.
#[export] Instance FactoryActor_eq_dec : EqDecision FactoryActor.
Proof. solve_decision. Defined.

(** [state.value] *)
Definition state_value (s : FactoryState) : string :=
  match s with
  | MISSION => "MISSION"
  | RECOVERING => "RECOVERING"
  | BASELINING => "BASELINING"
  | UNDERSTANDING => "UNDERSTANDING"
  | AUDITING => "AUDITING"
  | SELECTING_FINDING => "SELECTING_FINDING"
  | CAPABILITY_ANALYSIS => "CAPABILITY_ANALYSIS"
  | SKILL_DISCOVERY => "SKILL_DISCOVERY"
  | TRUST_EVALUATION => "TRUST_EVALUATION"
  | SKILL_SELECTION => "SKILL_SELECTION"
  | REPRODUCING => "REPRODUCING"
  | ROOT_CAUSE_ANALYSIS => "ROOT_CAUSE_ANALYSIS"
  | PLANNING => "PLANNING"
  | IMPLEMENTING => "IMPLEMENTING"
  | TARGETED_VERIFYING => "TARGETED_VERIFYING"
  | FULL_VERIFYING => "FULL_VERIFYING"
  | ADVERSARIAL_REVIEW => "ADVERSARIAL_REVIEW"
  | SECURITY_REVIEW => "SECURITY_REVIEW"
  | LIVE_VERIFYING => "LIVE_VERIFYING"
  | VICTORY_JUDGING => "VICTORY_JUDGING"
  | REPAIR_REQUIRED => "REPAIR_REQUIRED"
  | COMMITTING => "COMMITTING"
  | PUSHING => "PUSHING"
  | PR_CREATING => "PR_CREATING"
  | CI_VERIFYING => "CI_VERIFYING"
  | CYCLE_COMPLETE => "CYCLE_COMPLETE"
  | PAUSED => "PAUSED"
  | APPROVAL_REQUIRED => "APPROVAL_REQUIRED"
  | BLOCKED => "BLOCKED"
  | FAILED => "FAILED"
  | COMPLETE => "COMPLETE"
  | CANCELLED => "CANCELLED"
  end.

(** Iteration order of the enumeration, [for state in FactoryState] *)
Definition all_states : list FactoryState :=
  [MISSION; RECOVERING; BASELINING; UNDERSTANDING;
   AUDITING; SELECTING_FINDING; CAPABILITY_ANALYSIS; SKILL_DISCOVERY;
   TRUST_EVALUATION; SKILL_SELECTION; REPRODUCING; ROOT_CAUSE_ANALYSIS;
   PLANNING; IMPLEMENTING; TARGETED_VERIFYING; FULL_VERIFYING;
   ADVERSARIAL_REVIEW; SECURITY_REVIEW; LIVE_VERIFYING; VICTORY_JUDGING;
   REPAIR_REQUIRED; COMMITTING; PUSHING; PR_CREATING;
   CI_VERIFYING; CYCLE_COMPLETE; PAUSED; APPROVAL_REQUIRED;
   BLOCKED; FAILED; COMPLETE; CANCELLED].

(** [FactoryState(text)]; [None] is the [ValueError] of an unknown value. *)
Definition state_of_value (v : string) : option FactoryState :=
  List.find (fun s => str_eqb (state_value s) v) all_states.

Definition actor_value (a : FactoryActor) : string :=
  match a with
  | SYSTEM => "SYSTEM"
  | USER => "USER"
  | REASONING_ROLE => "REASONING_ROLE"
  | WORKER => "WORKER"
  | VERIFIER => "VERIFIER"
  | CI => "CI"
  end.

Lemma state_value_of_value s : state_of_value (state_value s) = Some s.
Proof. by destruct s. Qed.

#[export] Instance state_value_inj : Inj (=) (=) state_value.
Proof.
  intros s1 s2 Heq. apply (inj Some). by rewrite <-!state_value_of_value, Heq.
Qed.

(** Position of a state in the enumeration, used as its key in finite maps. *)
Definition state_key (s : FactoryState) : positive :=
  match s with
  | MISSION => 1 | RECOVERING => 2 | BASELINING => 3
  | UNDERSTANDING => 4 | AUDITING => 5 | SELECTING_FINDING => 6
  | CAPABILITY_ANALYSIS => 7 | SKILL_DISCOVERY => 8 | TRUST_EVALUATION => 9
  | SKILL_SELECTION => 10 | REPRODUCING => 11 | ROOT_CAUSE_ANALYSIS => 12
  | PLANNING => 13 | IMPLEMENTING => 14 | TARGETED_VERIFYING => 15
  | FULL_VERIFYING => 16 | ADVERSARIAL_REVIEW => 17 | SECURITY_REVIEW => 18
  | LIVE_VERIFYING => 19 | VICTORY_JUDGING => 20 | REPAIR_REQUIRED => 21
  | COMMITTING => 22 | PUSHING => 23 | PR_CREATING => 24
  | CI_VERIFYING => 25 | CYCLE_COMPLETE => 26 | PAUSED => 27
  | APPROVAL_REQUIRED => 28 | BLOCKED => 29 | FAILED => 30
  | COMPLETE => 31 | CANCELLED => 32
  end.

Lemma state_of_key s : all_states !! Nat.pred (Pos.to_nat (state_key s)) = Some s.
Proof. by destruct s. Qed.

#[export] Program Instance FactoryState_countable : Countable FactoryState :=
  {| encode := state_key; decode p := all_states !! Nat.pred (Pos.to_nat p) |}.
Next Obligation. apply state_of_key. Qed.

Definition _TERMINAL_STATES : gset FactoryState :=
  {[BLOCKED; FAILED; COMPLETE; CANCELLED]}.

Definition _FORWARD_CHAIN : list FactoryState :=
  [MISSION; RECOVERING; BASELINING; UNDERSTANDING;
   AUDITING; SELECTING_FINDING; CAPABILITY_ANALYSIS; SKILL_DISCOVERY;
   TRUST_EVALUATION; SKILL_SELECTION; REPRODUCING; ROOT_CAUSE_ANALYSIS;
   PLANNING; IMPLEMENTING; TARGETED_VERIFYING; FULL_VERIFYING;
   ADVERSARIAL_REVIEW; SECURITY_REVIEW; LIVE_VERIFYING; VICTORY_JUDGING].

(** [{current: {target} for current, target in zip(chain, chain[1:])}] *)
Definition chain_edges : gmap FactoryState (gset FactoryState) :=
  list_to_map (zip_with (fun current target => (current, {[target]}))
                 _FORWARD_CHAIN (tail _FORWARD_CHAIN)).

(** The mapping given to [_ALLOWED.update]. *)
Definition lifecycle_edges : list (FactoryState * gset FactoryState) :=
  [ (VICTORY_JUDGING, {[COMMITTING; REPAIR_REQUIRED]});
    (COMMITTING, {[PUSHING]});
    (PUSHING, {[PR_CREATING]});
    (PR_CREATING, {[CI_VERIFYING]});
    (CI_VERIFYING, {[CYCLE_COMPLETE; REPAIR_REQUIRED]});
    (CYCLE_COMPLETE, {[AUDITING; COMPLETE]});
    (REPAIR_REQUIRED, {[ROOT_CAUSE_ANALYSIS; CAPABILITY_ANALYSIS; IMPLEMENTING]}) ].

Definition dict_update {K V} `{Countable K} (m : gmap K V) (l : list (K * V)) : gmap K V :=
  foldl (fun m kv => <[kv.1 := kv.2]> m) m l.

Definition _repair_sources : list FactoryState :=
  [UNDERSTANDING; AUDITING; REPRODUCING; ROOT_CAUSE_ANALYSIS; PLANNING; IMPLEMENTING;
   TARGETED_VERIFYING; FULL_VERIFYING; ADVERSARIAL_REVIEW; SECURITY_REVIEW; LIVE_VERIFYING].

(** [_ALLOWED.setdefault(source, set()).add(REPAIR_REQUIRED)] *)
Definition add_repair_edge (m : gmap FactoryState (gset FactoryState)) (source : FactoryState)
  : gmap FactoryState (gset FactoryState) :=
  <[source := default ∅ (m !! source) ∪ {[REPAIR_REQUIRED]}]> m.

Definition _ALLOWED : gmap FactoryState (gset FactoryState) :=
  foldl add_repair_edge (dict_update chain_edges lifecycle_edges) _repair_sources.

Definition _SUCCESS_AUTHORITY_STATES : gset FactoryState :=
  {[COMMITTING; CYCLE_COMPLETE; COMPLETE]}.

Definition is_terminal_factory_state (s : FactoryState) : bool :=
  bool_decide (s ∈ _TERMINAL_STATES).

Definition invalid {A} (message : string) : result A := Err (InvalidFactoryTransition message).
Definition lacks_authority {A} (actor : FactoryActor) (to_state : FactoryState) : result A :=
  invalid ("actor " +:+ actor_value actor +:+ " lacks authority for " +:+ state_value to_state).
Definition lacks_resume_authority {A} (actor : FactoryActor) (from_state : FactoryState)
  : result A :=
  invalid ("actor " +:+ actor_value actor +:+ " lacks authority to resume "
           +:+ state_value from_state).
Definition must_resume {A} (expected : string) : result A :=
  invalid ("transition must resume the recorded resumable state " +:+ expected).

(** The tail of the validator: the BLOCKED/FAILED edges, the machine-victory
    precondition and the edge table. *)
Definition validate_ordinary (from_state to_state : FactoryState) (machine_victory : bool)
  : result unit :=
  if bool_decide (to_state ∈@{gset _} {[BLOCKED; FAILED]}) then Ok tt
  else if bool_decide (from_state = VICTORY_JUDGING) && bool_decide (to_state = COMMITTING)
          && negb machine_victory then
    invalid "VICTORY_JUDGING -> COMMITTING requires machine Victory evidence"
  else if bool_decide (to_state ∉ default ∅ (_ALLOWED !! from_state)) then
    invalid ("invalid factory transition " +:+ state_value from_state +:+ " -> "
             +:+ state_value to_state)
  else Ok tt.

Definition validate_factory_transition (from_state to_state : FactoryState)
    (actor : FactoryActor) (resumable_state : option FactoryState) (machine_victory : bool)
  : result unit :=
  if is_terminal_factory_state from_state then
    invalid ("terminal state " +:+ state_value from_state +:+ " cannot transition")
  else if bool_decide (to_state ∈ _SUCCESS_AUTHORITY_STATES) && bool_decide (actor <> SYSTEM) then
    lacks_authority actor to_state
  else if bool_decide (to_state ∈@{gset _} {[BLOCKED; FAILED]})
          && bool_decide (actor <> SYSTEM) then
    lacks_authority actor to_state
  else if bool_decide (to_state = RECOVERING) then
    if bool_decide (actor <> SYSTEM) then lacks_authority actor to_state
    else if bool_decide (from_state ∈@{gset _} {[RECOVERING; PAUSED; APPROVAL_REQUIRED]}) then
      invalid ("cannot recover from " +:+ state_value from_state)
    else Ok tt
  else if bool_decide (to_state = CANCELLED) then
    if bool_decide (actor ∉ [SYSTEM; USER]) then lacks_authority actor to_state else Ok tt
  else if bool_decide (to_state = PAUSED) then
    if bool_decide (actor ∉ [SYSTEM; USER]) then lacks_authority actor to_state
    else if bool_decide (from_state ∈@{gset _} {[PAUSED; APPROVAL_REQUIRED]}) then
      invalid ("cannot pause from " +:+ state_value from_state)
    else Ok tt
  else if bool_decide (to_state = APPROVAL_REQUIRED) then
    if bool_decide (actor <> SYSTEM) then lacks_authority actor to_state
    else if bool_decide (from_state ∈@{gset _} {[PAUSED; APPROVAL_REQUIRED]}) then
      invalid ("cannot request approval from " +:+ state_value from_state)
    else Ok tt
  else if bool_decide (from_state = APPROVAL_REQUIRED) && bool_decide (to_state = BLOCKED) then
    Ok tt
  else if bool_decide (from_state ∈@{gset _} {[PAUSED; APPROVAL_REQUIRED]}) then
    if bool_decide (actor ∉ [SYSTEM; USER]) then lacks_resume_authority actor from_state
    else match resumable_state with
         | None => must_resume "<missing>"
         | Some r => if bool_decide (to_state <> r) then must_resume (state_value r) else Ok tt
         end
  else
    match resumable_state with
    | Some r =>
        if bool_decide (from_state = RECOVERING) then
          if bool_decide (actor <> SYSTEM) then lacks_resume_authority actor from_state
          else if bool_decide (to_state <> r) then must_resume (state_value r)
          else Ok tt
        else validate_ordinary from_state to_state machine_victory
    | None => validate_ordinary from_state to_state machine_victory
    end.

(** ** Declarative specification of the state machine *)

(** The engineering loop, spelled out edge by edge. *)
Inductive workflow_edge : FactoryState -> FactoryState -> Prop :=
  | edge_chain i s t :
      _FORWARD_CHAIN !! i = Some s -> _FORWARD_CHAIN !! S i = Some t -> workflow_edge s t
  | edge_commit : workflow_edge VICTORY_JUDGING COMMITTING
  | edge_push : workflow_edge COMMITTING PUSHING
  | edge_pr : workflow_edge PUSHING PR_CREATING
  | edge_ci : workflow_edge PR_CREATING CI_VERIFYING
  | edge_cycle : workflow_edge CI_VERIFYING CYCLE_COMPLETE
  | edge_next_cycle : workflow_edge CYCLE_COMPLETE AUDITING
  | edge_complete : workflow_edge CYCLE_COMPLETE COMPLETE
  | edge_fail s :
      s ∈ VICTORY_JUDGING :: CI_VERIFYING :: _repair_sources -> workflow_edge s REPAIR_REQUIRED
  | edge_repair t :
      t ∈ [ROOT_CAUSE_ANALYSIS; CAPABILITY_ANALYSIS; IMPLEMENTING] ->
      workflow_edge REPAIR_REQUIRED t.

Definition waiting (s : FactoryState) : Prop := s = PAUSED \/ s = APPROVAL_REQUIRED.
Definition operator (a : FactoryActor) : Prop := a = SYSTEM \/ a = USER.
(** The four targets with a rule of their own. *)
Definition control_target (s : FactoryState) : Prop :=
  s = RECOVERING \/ s = CANCELLED \/ s = PAUSED \/ s = APPROVAL_REQUIRED.
(** Targets only the server may choose. *)
Definition system_only (s : FactoryState) : Prop :=
  s ∈ [COMMITTING; CYCLE_COMPLETE; COMPLETE; BLOCKED; FAILED].

Inductive legal_transition (from to : FactoryState) (actor : FactoryActor)
    (res : option FactoryState) (victory : bool) : Prop :=
  | legal_recover :
      to = RECOVERING -> actor = SYSTEM -> from <> RECOVERING -> ~ waiting from ->
      legal_transition from to actor res victory
  | legal_cancel :
      to = CANCELLED -> operator actor -> legal_transition from to actor res victory
  | legal_pause :
      to = PAUSED -> operator actor -> ~ waiting from ->
      legal_transition from to actor res victory
  | legal_request_approval :
      to = APPROVAL_REQUIRED -> actor = SYSTEM -> ~ waiting from ->
      legal_transition from to actor res victory
  | legal_deny :
      from = APPROVAL_REQUIRED -> to = BLOCKED -> actor = SYSTEM ->
      legal_transition from to actor res victory
  | legal_resume :
      waiting from -> ~ control_target to -> res = Some to -> operator actor ->
      (system_only to -> actor = SYSTEM) -> legal_transition from to actor res victory
  | legal_recovered :
      from = RECOVERING -> ~ control_target to -> res = Some to -> actor = SYSTEM ->
      legal_transition from to actor res victory
  | legal_stop :
      to = BLOCKED \/ to = FAILED -> actor = SYSTEM -> ~ waiting from ->
      (from = RECOVERING -> res = None) -> legal_transition from to actor res victory
  | legal_workflow :
      workflow_edge from to -> (system_only to -> actor = SYSTEM) ->
      (to = COMMITTING -> victory = true) -> (from = RECOVERING -> res = None) ->
      ~ control_target to -> legal_transition from to actor res victory.

Definition terminal (s : FactoryState) : Prop := is_terminal_factory_state s = true.

(** ** Proofs *)

Lemma elem_of_all_states s : s ∈ all_states.
Proof. destruct s; vm_compute; repeat constructor. Qed.

Lemma terminal_spec s : terminal s <-> s ∈ [BLOCKED; FAILED; COMPLETE; CANCELLED].
Proof.
  unfold terminal, is_terminal_factory_state, _TERMINAL_STATES.
  rewrite bool_decide_eq_true, !elem_of_union, !elem_of_singleton, !elem_of_cons, elem_of_nil.
  tauto.
Qed.

(** Every decidable statement about two states is checked on the 1024 pairs. *)
Lemma forall_states (P : FactoryState -> FactoryState -> bool) :
  forallb (fun s => forallb (P s) all_states) all_states = true -> forall s t, P s t = true.
Proof.
  intros H s t. rewrite forallb_forall in H.
  specialize (H s (proj1 (list_elem_of_In _ _) (elem_of_all_states s))).
  rewrite forallb_forall in H.
  apply (H t (proj1 (list_elem_of_In _ _) (elem_of_all_states t))).
Qed.

Definition edge_table : list (FactoryState * FactoryState) :=
  zip _FORWARD_CHAIN (tail _FORWARD_CHAIN) ++
  [(VICTORY_JUDGING, COMMITTING); (COMMITTING, PUSHING); (PUSHING, PR_CREATING);
   (PR_CREATING, CI_VERIFYING); (CI_VERIFYING, CYCLE_COMPLETE); (CYCLE_COMPLETE, AUDITING);
   (CYCLE_COMPLETE, COMPLETE)] ++
  map (fun s => (s, REPAIR_REQUIRED)) (VICTORY_JUDGING :: CI_VERIFYING :: _repair_sources) ++
  map (pair REPAIR_REQUIRED) [ROOT_CAUSE_ANALYSIS; CAPABILITY_ANALYSIS; IMPLEMENTING].

Lemma edge_table_agrees :
  forallb (fun s => forallb (fun t =>
    Bool.eqb (bool_decide (t ∈ default ∅ (_ALLOWED !! s))) (bool_decide ((s, t) ∈ edge_table)))
    all_states) all_states = true.
Proof. vm_compute. reflexivity. Qed.

Lemma allowed_table s t : t ∈ default ∅ (_ALLOWED !! s) <-> (s, t) ∈ edge_table.
Proof.
  pose proof (forall_states _ edge_table_agrees s t) as H.
  cbv beta in H. apply Bool.eqb_prop in H. by apply bool_decide_eq_iff in H.
Qed.

Lemma edge_table_spec s t : (s, t) ∈ edge_table <-> workflow_edge s t.
Proof.
  split.
  - unfold edge_table; rewrite !elem_of_app, !list_elem_of_fmap.
    intros [Hz|[Hl|[(s' & [= -> ->] & Hs)|(t' & [= -> ->] & Ht)]]].
    + apply list_elem_of_lookup in Hz as [i Hi].
      apply lookup_zip_Some in Hi as [Hs Ht]. rewrite lookup_tail in Ht.
      by eapply edge_chain.
    + repeat (apply elem_of_cons in Hl as [[= -> ->]|Hl]; [by constructor|]). by inversion Hl.
    + by apply edge_fail.
    + by apply edge_repair.
  - unfold edge_table; rewrite !elem_of_app, !list_elem_of_fmap.
    destruct 1 as [i s t Hs Ht| | | | | | | |s Hs|t Ht].
    1: { left. apply list_elem_of_lookup. exists i. apply lookup_zip_Some.
         by rewrite lookup_tail. }
    1-7: right; left; repeat (apply elem_of_cons; first [by left | right]).
    + right; right; left. eauto.
    + right; right; right. eauto.
Qed.

Lemma allowed_spec s t : t ∈ default ∅ (_ALLOWED !! s) <-> workflow_edge s t.
Proof. by rewrite allowed_table, edge_table_spec. Qed.

Definition edgeb (s t : FactoryState) : bool := bool_decide ((s, t) ∈ edge_table).

Lemma edgeb_spec s t : edgeb s t = true <-> workflow_edge s t.
Proof. unfold edgeb. by rewrite bool_decide_eq_true, edge_table_spec. Qed.

(** The rules of [legal_transition] as one decidable formula. *)
Definition legal_formula (from to : FactoryState) (actor : FactoryActor)
    (res : option FactoryState) (victory : bool) : Prop :=
  (to = RECOVERING /\ actor = SYSTEM /\ from <> RECOVERING /\ ~ waiting from) \/
  (to = CANCELLED /\ operator actor) \/
  (to = PAUSED /\ operator actor /\ ~ waiting from) \/
  (to = APPROVAL_REQUIRED /\ actor = SYSTEM /\ ~ waiting from) \/
  (from = APPROVAL_REQUIRED /\ to = BLOCKED /\ actor = SYSTEM) \/
  (waiting from /\ ~ control_target to /\ res = Some to /\ operator actor /\
     (system_only to -> actor = SYSTEM)) \/
  (from = RECOVERING /\ ~ control_target to /\ res = Some to /\ actor = SYSTEM) \/
  ((to = BLOCKED \/ to = FAILED) /\ actor = SYSTEM /\ ~ waiting from /\
     (from = RECOVERING -> res = None)) \/
  (edgeb from to = true /\ (system_only to -> actor = SYSTEM) /\
     (to = COMMITTING -> victory = true) /\ (from = RECOVERING -> res = None) /\
     ~ control_target to).

#[local] Instance waiting_dec s : Decision (waiting s).
Proof. unfold waiting. apply _. Defined.
#[local] Instance operator_dec a : Decision (operator a).
Proof. unfold operator. apply _. Defined.
#[local] Instance control_target_dec s : Decision (control_target s).
Proof. unfold control_target. apply _. Defined.
#[local] Instance system_only_dec s : Decision (system_only s).
Proof. unfold system_only. apply _. Defined.
#[local] Instance legal_formula_dec from to actor res v :
  Decision (legal_formula from to actor res v).
Proof. unfold legal_formula. apply _. Defined.

Lemma legal_formula_spec from to actor res v :
  legal_formula from to actor res v <-> legal_transition from to actor res v.
Proof.
  unfold legal_formula. rewrite edgeb_spec. split.
  - intros H. repeat destruct H as [H|H]; destruct_and? H; eauto using legal_transition.
  - destruct 1; tauto.
Qed.

Definition all_actors : list FactoryActor := [SYSTEM; USER; REASONING_ROLE; WORKER; VERIFIER; CI].
(** Only whether the recorded state is the requested one matters. *)
Definition another_state (t : FactoryState) : FactoryState :=
  if decide (t = MISSION) then RECOVERING else MISSION.
Definition resumable_cases (t : FactoryState) : list (option FactoryState) :=
  [None; Some t; Some (another_state t)].

Lemma another_state_neq t : another_state t <> t.
Proof. unfold another_state. case_decide; congruence. Qed.

Lemma validator_other_resumable from to actor r1 r2 v :
  r1 <> to -> r2 <> to ->
  is_ok (validate_factory_transition from to actor (Some r1) v) =
  is_ok (validate_factory_transition from to actor (Some r2) v).
Proof.
  intros H1 H2. unfold validate_factory_transition.
  rewrite (bool_decide_eq_true_2 (to <> r1)), (bool_decide_eq_true_2 (to <> r2)) by congruence.
  by repeat match goal with |- context [if ?b then _ else _] => destruct b end.
Qed.

Lemma legal_other_resumable from to actor r1 r2 v :
  r1 <> to -> r2 <> to ->
  legal_formula from to actor (Some r1) v -> legal_formula from to actor (Some r2) v.
Proof. unfold legal_formula. intros H1 H2. intuition congruence. Qed.

Definition validator_agrees (from to : FactoryState) : bool :=
  forallb (fun actor => forallb (fun res => forallb (fun v =>
    Bool.eqb (is_ok (validate_factory_transition from to actor res v))
      (negb (is_terminal_factory_state from) && bool_decide (legal_formula from to actor res v)))
    [true; false]) (resumable_cases to)) all_actors.

Lemma validator_agrees_everywhere :
  forallb (fun s => forallb (validator_agrees s) all_states) all_states = true.
Proof. vm_cast_no_check (@eq_refl bool true). Qed.

Lemma forallb_elem_of {A} (f : A -> bool) l x : forallb f l = true -> x ∈ l -> f x = true.
Proof. rewrite forallb_forall, list_elem_of_In. auto. Qed.

Lemma validator_cases from to actor res v :
  res ∈ resumable_cases to ->
  is_ok (validate_factory_transition from to actor res v) =
  negb (is_terminal_factory_state from) && bool_decide (legal_formula from to actor res v).
Proof.
  intros Hres. pose proof (forall_states _ validator_agrees_everywhere from to) as H.
  apply (forallb_elem_of _ _ actor) in H; [|by destruct actor; vm_compute; repeat constructor].
  apply (forallb_elem_of _ _ res) in H; [|done].
  apply (forallb_elem_of _ _ v) in H; [|destruct v; repeat constructor].
  by apply Bool.eqb_prop in H.
Qed.

Lemma validator_formula from to actor res v :
  is_ok (validate_factory_transition from to actor res v) =
  negb (is_terminal_factory_state from) && bool_decide (legal_formula from to actor res v).
Proof.
  destruct res as [r|]; [|apply validator_cases; repeat constructor].
  destruct (decide (r = to)) as [->|Hr]; [apply validator_cases; repeat constructor|].
  pose proof (another_state_neq to) as Hn.
  rewrite (validator_other_resumable _ _ _ r (another_state to)) by done.
  rewrite validator_cases by repeat constructor. f_equal.
  apply bool_decide_ext. split; by apply legal_other_resumable.
Qed.

Lemma validator_spec from to actor res victory :
  validate_factory_transition from to actor res victory = Ok tt <->
  ~ terminal from /\ legal_transition from to actor res victory.
Proof.
  pose proof (validator_formula from to actor res victory) as H.
  rewrite <-legal_formula_spec. unfold terminal.
  destruct (validate_factory_transition _ _ _ _ _) as [[]|e]; simpl in H.
  - symmetry in H. apply andb_prop in H as [Ht Hl].
    apply negb_true_iff in Ht. apply bool_decide_eq_true in Hl. by rewrite Ht.
  - split; [done|]. intros [Ht Hl]. apply not_true_is_false in Ht. rewrite Ht in H.
    by rewrite bool_decide_eq_true_2 in H.
Qed.

(** The validator is exactly the declarative state machine: it accepts a
    request if and only if the source state is not terminal and one of the rules
    of [legal_transition] applies (authority, recorded resumable state, machine
    Victory for the commit edge, and the edge table). *)
Theorem validate_factory_transition_spec from to actor res victory :
  validate_factory_transition from to actor res victory = Ok tt <->
  ~ terminal from /\ legal_transition from to actor res victory.
Proof. apply validator_spec. Qed.

(** Model, worker, verifier and CI actors never hold control or success
    authority: whatever they are allowed to do is one ordinary workflow edge
    whose target is neither a control state (recover, cancel, pause, approval)
    nor one of the states reserved to the server. *)
Theorem untrusted_actor_authority from to actor res victory :
  actor <> SYSTEM -> actor <> USER ->
  validate_factory_transition from to actor res victory = Ok tt ->
  workflow_edge from to /\ ~ control_target to /\ ~ system_only to.
Proof.
  intros HS HU [_ Hl]%validator_spec.
  destruct Hl; unfold operator in *; try tauto; subst; try done.
Qed.

Theorem untrusted_actor_authority_witness :
  WORKER <> SYSTEM /\ WORKER <> USER /\
  workflow_edge IMPLEMENTING TARGETED_VERIFYING /\
  ~ control_target TARGETED_VERIFYING /\ ~ system_only TARGETED_VERIFYING.
Proof.
  split; [done|]. split; [done|].
  apply (untrusted_actor_authority IMPLEMENTING TARGETED_VERIFYING WORKER None false);
    [done|done|by vm_compute].
Defined.

(** ** No dead ends on the main line *)

(** One accepted server transition with a machine Victory at hand. *)
Definition system_step (s t : FactoryState) : Prop :=
  validate_factory_transition s t SYSTEM None true = Ok tt.

(** The shortest way forward from each working state. *)
Definition main_line (s : FactoryState) : FactoryState :=
  match s with
  | MISSION => RECOVERING
  | RECOVERING => BASELINING
  | BASELINING => UNDERSTANDING
  | UNDERSTANDING => AUDITING
  | AUDITING => SELECTING_FINDING
  | SELECTING_FINDING => CAPABILITY_ANALYSIS
  | CAPABILITY_ANALYSIS => SKILL_DISCOVERY
  | SKILL_DISCOVERY => TRUST_EVALUATION
  | TRUST_EVALUATION => SKILL_SELECTION
  | SKILL_SELECTION => REPRODUCING
  | REPRODUCING => ROOT_CAUSE_ANALYSIS
  | ROOT_CAUSE_ANALYSIS => PLANNING
  | PLANNING | REPAIR_REQUIRED => IMPLEMENTING
  | IMPLEMENTING => TARGETED_VERIFYING
  | TARGETED_VERIFYING => FULL_VERIFYING
  | FULL_VERIFYING => ADVERSARIAL_REVIEW
  | ADVERSARIAL_REVIEW => SECURITY_REVIEW
  | SECURITY_REVIEW => LIVE_VERIFYING
  | LIVE_VERIFYING => VICTORY_JUDGING
  | VICTORY_JUDGING => COMMITTING
  | COMMITTING => PUSHING
  | PUSHING => PR_CREATING
  | PR_CREATING => CI_VERIFYING
  | CI_VERIFYING => CYCLE_COMPLETE
  | _ => COMPLETE
  end.

Fixpoint distance (fuel : nat) (s : FactoryState) : nat :=
  match fuel with
  | O => 0
  | S fuel' => if decide (s = COMPLETE) then 0 else S (distance fuel' (main_line s))
  end.

Definition working (s : FactoryState) : bool :=
  negb (is_terminal_factory_state s) && negb (bool_decide (waiting s)).

Lemma working_spec s : working s = true <-> ~ terminal s /\ ~ waiting s.
Proof.
  unfold working, terminal. rewrite andb_true_iff, !negb_true_iff, bool_decide_eq_false.
  by rewrite <-not_true_iff_false.
Qed.

Lemma main_line_step s :
  working s = true ->
  system_step s (main_line s) /\
  (main_line s = COMPLETE \/
   working (main_line s) = true /\ distance 40 (main_line s) < distance 40 s).
Proof.
  unfold system_step.
  destruct s; intros [=]; (split; [reflexivity|]); (left; reflexivity) ||
    (right; split; [reflexivity|apply Nat.ltb_lt; reflexivity]).
Qed.

(** Liveness of the graph: from every state that is neither terminal nor
    waiting for a person, the server can drive the run to COMPLETE along accepted
    transitions. *)
Theorem working_state_can_complete s :
  ~ terminal s -> ~ waiting s -> rtc system_step s COMPLETE.
Proof.
  intros Ht Hw. assert (Hs : working s = true) by by apply working_spec. clear Ht Hw.
  remember (distance 40 s) as n eqn:Hn. revert s Hn Hs.
  induction (lt_wf n) as [n _ IH]. intros s -> Hs.
  destruct (main_line_step s Hs) as [Hstep [Heq|[Hw Hlt]]].
  - apply rtc_once. by rewrite Heq in Hstep.
  - by apply (rtc_l _ _ (main_line s)), (IH _ Hlt).
Qed.

Theorem working_state_can_complete_witness :
  ~ terminal REPAIR_REQUIRED /\ ~ waiting REPAIR_REQUIRED /\
  rtc system_step REPAIR_REQUIRED COMPLETE.
Proof.
  assert (Ht : ~ terminal REPAIR_REQUIRED) by (by vm_compute).
  assert (Hw : ~ waiting REPAIR_REQUIRED) by (by intros [[=]|[=]]).
  split; [exact Ht|]. split; [exact Hw|].
  exact (working_state_can_complete REPAIR_REQUIRED Ht Hw).
Defined.
