(* ===== verification/FactoryGates.v ===== *)
(** * Verification gates and evidence validation

    Models [cptr/services/factory_gates.py]: the gate categories, statuses and
    evidence authorities, the two validated dataclasses and
    [validate_gate_evidence].  A [Mapping[str, GateEvidence]] is a [gmap]. *)

From S2P Require Import Prelude PyStr.
From stdpp Require Import sorting.

Inductive FactoryGateCategory :=
  | ACCEPTANCE | REPRODUCTION | REGRESSION | FOCUSED_TESTS | BROADER_TESTS
  | UNIT | INTEGRATION | E2E | TYPECHECK | LINT
  | BUILD | SECURITY | ISOLATION | RESOURCE | PERFORMANCE
  | CLEANUP_LIFECYCLE | ADVERSARIAL | GIT_DIFF_REVIEW | GIT_DIFF_CHECK | CAT_CI
  | RUNTIME_SMOKE | LIVE_VERIFY.

Inductive FactoryGateStatus := PENDING | PASS | FAIL | NOT_APPLICABLE.

Inductive EvidenceAuthority := MACHINE | USER_APPROVAL | ADVISORY.

#[export] Instance FactoryGateCategory_eq_dec : EqDecision FactoryGateCategory.
Proof. solve_decision. Defined.
#[export] Instance FactoryGateStatus_eq_dec : EqDecision FactoryGateStatus.
Proof. solve_decision. Defined.
#[export] Instance EvidenceAuthority_eq_dec : EqDecision EvidenceAuthority.
Proof. solve_decision. Defined.

Definition category_value (c : FactoryGateCategory) : string :=
  match c with
  | ACCEPTANCE => "acceptance"
  | REPRODUCTION => "reproduction"
  | REGRESSION => "regression"
  | FOCUSED_TESTS => "focused_tests"
  | BROADER_TESTS => "broader_tests"
  | UNIT => "unit"
  | INTEGRATION => "integration"
  | E2E => "e2e"
  | TYPECHECK => "typecheck"
  | LINT => "lint"
  | BUILD => "build"
  | SECURITY => "security"
  | ISOLATION => "isolation"
  | RESOURCE => "resource"
  | PERFORMANCE => "performance"
  | CLEANUP_LIFECYCLE => "cleanup_lifecycle"
  | ADVERSARIAL => "adversarial"
  | GIT_DIFF_REVIEW => "git_diff_review"
  | GIT_DIFF_CHECK => "git_diff_check"
  | CAT_CI => "ci"
  | RUNTIME_SMOKE => "runtime_smoke"
  | LIVE_VERIFY => "live_verify"
  end.
Definition all_categories : list FactoryGateCategory :=
  [ACCEPTANCE; REPRODUCTION; REGRESSION; FOCUSED_TESTS; BROADER_TESTS;
   UNIT; INTEGRATION; E2E; TYPECHECK; LINT;
   BUILD; SECURITY; ISOLATION; RESOURCE; PERFORMANCE;
   CLEANUP_LIFECYCLE; ADVERSARIAL; GIT_DIFF_REVIEW; GIT_DIFF_CHECK; CAT_CI;
   RUNTIME_SMOKE; LIVE_VERIFY].
(** [FactoryGateCategory(text)]; [None] is the [ValueError] of an unknown value. *)
Definition category_of_value (v : string) : option FactoryGateCategory :=
  List.find (fun c => str_eqb (category_value c) v) all_categories.

Definition status_value (s : FactoryGateStatus) : string :=
  match s with
  | PENDING => "PENDING"
  | PASS => "PASS"
  | FAIL => "FAIL"
  | NOT_APPLICABLE => "NOT_APPLICABLE"
  end.
Definition status_of_value (v : string) : option FactoryGateStatus :=
  List.find (fun c => str_eqb (status_value c) v) [PENDING; PASS; FAIL; NOT_APPLICABLE].

Definition authority_value (a : EvidenceAuthority) : string :=
  match a with
  | MACHINE => "MACHINE"
  | USER_APPROVAL => "USER_APPROVAL"
  | ADVISORY => "ADVISORY"
  end.
Definition authority_of_value (v : string) : option EvidenceAuthority :=
  List.find (fun c => str_eqb (authority_value c) v) [MACHINE; USER_APPROVAL; ADVISORY].

Record FactoryGateSpec := {
  gate_id : string;
  category : FactoryGateCategory;
  required : bool;
  applicable : bool;
  applicability_reason : option string;
  invalidated_by_mutation : bool;
  acceptance_ids : list string;
}.

(** [FactoryGateSpec.__post_init__] *)
Definition FactoryGateSpec_post_init (spec : FactoryGateSpec) : result FactoryGateSpec :=
  if blank (gate_id spec) then Err (ValueError "gate_id must not be blank")
  else if negb (applicable spec) && blank (default "" (applicability_reason spec)) then
    Err (ValueError "non-applicable gate spec requires an applicability reason")
  else Ok spec.

Record FactoryGatePlan := {
  specs : list FactoryGateSpec;
  acceptance_criterion_ids : list string;
}.

(** [sorted(set)] over strings *)
Definition sorted_set (l : list string) : list string :=
  merge_sort (fun s t => String.le s t) (remove_dups l).

(** [FactoryGatePlan.__post_init__] *)
Definition FactoryGatePlan_post_init (plan : FactoryGatePlan) : result FactoryGatePlan :=
  let gate_ids := map gate_id (specs plan) in
  if bool_decide (length gate_ids <> size (list_to_set gate_ids : gset string)) then
    Err (ValueError "duplicate gate id in factory gate plan")
  else
    let known : gset string := list_to_set (acceptance_criterion_ids plan) in
    let referenced := flat_map acceptance_ids (specs plan) in
    let unknown := List.filter (fun c => bool_decide (c ∉ known)) referenced in
    match unknown with
    | [] => Ok plan
    | _ => Err (ValueError ("unknown acceptance criterion coverage: "
                            +:+ str_join ", " (sorted_set unknown)))
    end.

Record GateEvidence := {
  evidence_id : string;
  digest : string;
  authority : EvidenceAuthority;
  revision : option string;
  fingerprint : option string;
  kind : string;
  source : string;
}.

Record GateResult := {
  result_gate_id : string;
  status : FactoryGateStatus;
  evidence_ids : list string;
  reason : string;
  evaluated_revision : option string;
  evaluated_fingerprint : option string;
}.

(** [list(dict.fromkeys(values))]: first occurrences, in order *)
Fixpoint dedupe_from (seen : list string) (values : list string) : list string :=
  match values with
  | [] => []
  | v :: rest =>
      if bool_decide (v ∈ seen) then dedupe_from seen rest
      else v :: dedupe_from (v :: seen) rest
  end.
Definition _dedupe (values : list string) : list string := dedupe_from [] values.

(** The loop over [result.evidence_ids]: the failures and the evidence found. *)
Fixpoint resolve_evidence (evidence_by_id : gmap string GateEvidence) (ids : list string)
  : list string * list GateEvidence :=
  match ids with
  | [] => ([], [])
  | i :: rest =>
      let '(failures, referenced) := resolve_evidence evidence_by_id rest in
      match evidence_by_id !! i with
      | None => (("missing evidence " +:+ repr i) :: failures, referenced)
      | Some e => (failures, e :: referenced)
      end
  end.

Definition is_machine (e : GateEvidence) : bool := bool_decide (authority e = MACHINE).

Definition stale_evidence (current_revision current_fingerprint : option string)
    (item : GateEvidence) : list string :=
  if negb (is_machine item) then []
  else if bool_decide (revision item <> current_revision)
          || bool_decide (fingerprint item <> current_fingerprint) then
    ["authoritative evidence " +:+ repr (evidence_id item)
       +:+ " is stale for the current revision"]
  else [].

(** [failures.append(message)] under a condition *)
Definition append_if (b : bool) (message : string) : list string := if b then [message] else [].

Definition is_nil {A} (l : list A) : bool := match l with [] => true | _ => false end.

Definition validate_gate_evidence (spec : FactoryGateSpec) (res : GateResult)
    (evidence_by_id : gmap string GateEvidence)
    (current_revision current_fingerprint : option string) : list string :=
  if negb (str_eqb (result_gate_id res) (gate_id spec)) then
    ["gate result id " +:+ repr (result_gate_id res) +:+ " does not match spec "
       +:+ repr (gate_id spec)]
  else
    let '(failures, referenced) := resolve_evidence evidence_by_id (evidence_ids res) in
    match status res with
    | PASS =>
        _dedupe (failures
          ++ append_if (negb (applicable spec)) "non-applicable gate cannot be marked PASS"
          ++ append_if (is_nil (evidence_ids res)) "PASS requires evidence"
          ++ append_if (negb (existsb is_machine referenced))
               "PASS requires authoritative machine evidence"
          ++ (if invalidated_by_mutation spec then
                append_if (bool_decide (evaluated_revision res <> current_revision))
                  "PASS result is stale for the current repository revision"
                ++ append_if (bool_decide (evaluated_fingerprint res <> current_fingerprint))
                  "PASS result is stale for the current repository fingerprint"
                ++ flat_map (stale_evidence current_revision current_fingerprint) referenced
              else []))
    | NOT_APPLICABLE =>
        _dedupe (failures
          ++ append_if (applicable spec)
               "gate is declared applicable and cannot be marked NOT_APPLICABLE"
          ++ append_if (blank (reason res)) "NOT_APPLICABLE requires an explicit reason"
          ++ append_if (is_nil (evidence_ids res))
               "NOT_APPLICABLE requires applicability evidence"
          ++ append_if
               (negb (existsb (fun e => bool_decide (authority e ∈ [MACHINE; USER_APPROVAL]))
                              referenced))
               "NOT_APPLICABLE requires authoritative applicability evidence")
    | _ =>
        _dedupe (failures
          ++ append_if (negb (applicable spec))
               "resolved non-applicable gate must be recorded as NOT_APPLICABLE")
    end.

(** ** What a trusted gate result is *)

Section Trusted.
Context (spec : FactoryGateSpec) (res : GateResult) (ev : gmap string GateEvidence)
  (current_revision current_fingerprint : option string).

(** The evidence record [e] is referenced by the result and durable. *)
Definition cites (e : GateEvidence) : Prop :=
  exists i, i ∈ evidence_ids res /\ ev !! i = Some e.

Definition well_cited : Prop :=
  result_gate_id res = gate_id spec /\ (forall i, i ∈ evidence_ids res -> is_Some (ev !! i)).

Definition fresh (e : GateEvidence) : Prop :=
  revision e = current_revision /\ fingerprint e = current_fingerprint.

Definition pass_trusted : Prop :=
  well_cited /\ applicable spec = true /\ (exists e, cites e /\ authority e = MACHINE) /\
  (invalidated_by_mutation spec = true ->
     evaluated_revision res = current_revision /\
     evaluated_fingerprint res = current_fingerprint /\
     forall e, cites e -> authority e = MACHINE -> fresh e).

Definition not_applicable_trusted : Prop :=
  well_cited /\ applicable spec = false /\ blank (reason res) = false /\
  (exists e, cites e /\ (authority e = MACHINE \/ authority e = USER_APPROVAL)).

Definition result_trusted : Prop :=
  match status res with
  | PASS => pass_trusted
  | NOT_APPLICABLE => not_applicable_trusted
  | _ => well_cited /\ applicable spec = true
  end.
End Trusted.

(** ** Lemmas *)

Lemma elem_of_dedupe_from v seen l : v ∈ dedupe_from seen l <-> v ∈ l /\ v ∉ seen.
Proof.
  revert seen. induction l as [|x l IH]; intros seen; simpl; [by rewrite elem_of_nil; naive_solver|].
  rewrite elem_of_cons. case_bool_decide as Hx.
  - rewrite IH. naive_solver.
  - rewrite elem_of_cons, IH, elem_of_cons. destruct (decide (v = x)); naive_solver.
Qed.

Lemma elem_of_dedupe v l : v ∈ _dedupe l <-> v ∈ l.
Proof. unfold _dedupe. rewrite elem_of_dedupe_from, elem_of_nil. naive_solver. Qed.

Lemma NoDup_dedupe l : NoDup (_dedupe l).
Proof.
  unfold _dedupe. generalize (@nil string). induction l as [|x l IH]; intros seen; simpl.
  - constructor.
  - case_bool_decide; [done|]. constructor; [|done].
    rewrite elem_of_dedupe_from, elem_of_cons. naive_solver.
Qed.

Lemma list_nil_elem {A} (l : list A) : l = [] <-> forall x, x ∉ l.
Proof.
  split; [intros -> x; apply not_elem_of_nil|]. destruct l as [|y l]; [done|].
  intros H. destruct (H y). constructor.
Qed.

Lemma dedupe_nil l : _dedupe l = [] <-> l = [].
Proof. rewrite !list_nil_elem. by setoid_rewrite elem_of_dedupe. Qed.

Lemma append_if_nil b m : append_if b m = [] <-> b = false.
Proof. by destruct b. Qed.

Lemma app_nil_iff {A} (l k : list A) : l ++ k = [] <-> l = [] /\ k = [].
Proof. destruct l; naive_solver. Qed.

Lemma flat_map_nil {A B} (f : A -> list B) l :
  flat_map f l = [] <-> forall x, x ∈ l -> f x = [].
Proof.
  induction l as [|x l IH]; simpl; [by split; [intros _ x []%elem_of_nil|]|].
  rewrite app_nil_iff, IH. setoid_rewrite elem_of_cons. naive_solver.
Qed.

Lemma is_nil_true {A} (l : list A) : is_nil l = true <-> l = [].
Proof. by destruct l. Qed.
Lemma is_nil_false {A} (l : list A) : is_nil l = false <-> l <> [].
Proof. by destruct l. Qed.

Lemma existsb_elem {A} (f : A -> bool) l : existsb f l = true <-> exists x, x ∈ l /\ f x = true.
Proof. rewrite existsb_exists. by setoid_rewrite list_elem_of_In. Qed.

Lemma resolve_missing ev ids :
  (resolve_evidence ev ids).1 = [] <-> forall i, i ∈ ids -> is_Some (ev !! i).
Proof.
  induction ids as [|i ids IH]; simpl; [by split; [intros _ i []%elem_of_nil|]|].
  setoid_rewrite elem_of_cons.
  destruct (resolve_evidence ev ids) as [fs es]; simpl in IH.
  destruct (ev !! i) as [e|] eqn:Hi; simpl.
  - rewrite IH. split; [|auto]. intros H j [->|Hj]; [by rewrite Hi|auto].
  - split; [done|]. intros H. destruct (H i (or_introl eq_refl)). congruence.
Qed.

Lemma resolve_found ev ids e :
  e ∈ (resolve_evidence ev ids).2 <-> exists i, i ∈ ids /\ ev !! i = Some e.
Proof.
  induction ids as [|i ids IH]; simpl; [by rewrite elem_of_nil; split; [|intros (? & []%elem_of_nil & _)]|].
  setoid_rewrite elem_of_cons.
  destruct (resolve_evidence ev ids) as [fs es]; simpl in *.
  destruct (ev !! i) as [e'|] eqn:Hi; simpl.
  - rewrite elem_of_cons, IH. split; [|naive_solver].
    intros [->|(j & ? & ?)]; eauto.
  - rewrite IH. split; [naive_solver|]. intros (j & [->|?] & ?); [congruence|eauto].
Qed.

Lemma stale_evidence_nil rev fp e :
  stale_evidence rev fp e = [] <-> (authority e = MACHINE -> fresh rev fp e).
Proof.
  unfold stale_evidence, is_machine, fresh.
  repeat case_bool_decide; simpl; naive_solver.
Qed.

Lemma negb_existsb_machine es :
  negb (existsb is_machine es) = false <-> exists e, e ∈ es /\ authority e = MACHINE.
Proof.
  rewrite negb_false_iff, existsb_elem. unfold is_machine. by setoid_rewrite bool_decide_eq_true.
Qed.

Lemma negb_existsb_authority es :
  negb (existsb (fun e => bool_decide (authority e ∈ [MACHINE; USER_APPROVAL])) es) = false <->
  exists e, e ∈ es /\ (authority e = MACHINE \/ authority e = USER_APPROVAL).
Proof.
  rewrite negb_false_iff, existsb_elem. setoid_rewrite bool_decide_eq_true.
  setoid_rewrite elem_of_cons. setoid_rewrite list_elem_of_singleton. done.
Qed.

Lemma cited_not_nil (res : GateResult) ev (P : GateEvidence -> Prop) :
  (exists e, cites res ev e /\ P e) -> evidence_ids res <> [].
Proof. intros (e & (i & Hi & _) & _) Heq. rewrite Heq in Hi. by apply elem_of_nil in Hi. Qed.

(** [validate_gate_evidence] returns no failure exactly for the trusted gate
    results: a PASS needs an applicable gate, durable evidence with at least one
    MACHINE record and, for a mutation-sensitive gate, agreement of the result and
    of every MACHINE record with the current revision and fingerprint; a
    NOT_APPLICABLE needs a declared non-applicable gate, a reason and MACHINE or
    USER_APPROVAL evidence. *)
Theorem validate_gate_evidence_spec spec res ev rev fp :
  validate_gate_evidence spec res ev rev fp = [] <-> result_trusted spec res ev rev fp.
Proof.
  unfold validate_gate_evidence, result_trusted, pass_trusted, not_applicable_trusted, well_cited.
  destruct (str_eqb (result_gate_id res) (gate_id spec)) eqn:Hid; simpl.
  2: { apply str_eqb_false in Hid. destruct (status res); (split; [done|tauto]). }
  apply str_eqb_true in Hid.
  pose proof (resolve_missing ev (evidence_ids res)) as Hmiss.
  pose proof (resolve_found ev (evidence_ids res)) as Hfound.
  destruct (resolve_evidence ev (evidence_ids res)) as [fs es]; simpl in *.
  assert (Hc : forall e, e ∈ es <-> cites res ev e) by (intros e; by rewrite Hfound).
  destruct (status res);
    rewrite dedupe_nil, !app_nil_iff, !append_if_nil, ?is_nil_false, Hmiss,
      ?(negb_false_iff (applicable spec));
    [tauto| |tauto|].
  - rewrite negb_existsb_machine. setoid_rewrite Hc.
    assert (Hinv : (if invalidated_by_mutation spec then
        append_if (bool_decide (evaluated_revision res <> rev))
          "PASS result is stale for the current repository revision" ++
        append_if (bool_decide (evaluated_fingerprint res <> fp))
          "PASS result is stale for the current repository fingerprint" ++
        flat_map (stale_evidence rev fp) es else []) = [] <->
      (invalidated_by_mutation spec = true ->
       evaluated_revision res = rev /\ evaluated_fingerprint res = fp /\
       forall e, cites res ev e -> authority e = MACHINE -> fresh rev fp e)).
    { destruct (invalidated_by_mutation spec); [|by split].
      rewrite !app_nil_iff, !append_if_nil, !bool_decide_eq_false, flat_map_nil.
      setoid_rewrite Hc. setoid_rewrite stale_evidence_nil.
      destruct (decide (evaluated_revision res = rev)), (decide (evaluated_fingerprint res = fp));
        tauto. }
    rewrite Hinv. pose proof (cited_not_nil res ev (fun e => authority e = MACHINE)). tauto.
  - rewrite negb_existsb_authority. setoid_rewrite Hc.
    pose proof (cited_not_nil res ev
      (fun e => authority e = MACHINE \/ authority e = USER_APPROVAL)). tauto.
Qed.
