(* ===== verification/FactoryVictory.v ===== *)
(** * The machine-authoritative Victory judge

    Models [cptr/services/factory_victory.py].  The private in-process issuer
    object is the value [VICTORY_ISSUER]; any other object a caller could pass is
    an [other_object]. *)

From S2P Require Import Prelude PyStr FactoryGates.

Inductive issuer_object :=
  | _VICTORY_ISSUER
  | other_object (n : nat).
#[export] Instance issuer_object_eq_dec : EqDecision issuer_object.
Proof. solve_decision. Defined.

Record FactoryVictoryDecision := {
  passed : bool;
  failures : list string;
  satisfied_gate_ids : list string;
  decision_revision : option string;
  decision_fingerprint : option string;
  _issuer : issuer_object;
}.

(** [FactoryVictoryDecision.__init__] *)
Definition FactoryVictoryDecision_init (passed : bool) (failures satisfied : list string)
    (revision fingerprint : option string) (issuer : issuer_object)
  : result FactoryVictoryDecision :=
  if bool_decide (issuer <> _VICTORY_ISSUER) then
    Err (TypeError "FactoryVictoryDecision can only be issued by FactoryVictoryJudge")
  else Ok {| passed := passed; failures := failures; satisfied_gate_ids := satisfied;
             decision_revision := revision; decision_fingerprint := fingerprint;
             _issuer := issuer |}.

(** The three accumulators of [FactoryVictoryJudge.evaluate]. *)
Record tally := {
  t_failures : list string;
  t_satisfied : list string;
  t_covered : gset string;
}.

Definition add_failures (fs : list string) (t : tally) : tally :=
  {| t_failures := t_failures t ++ fs; t_satisfied := t_satisfied t;
     t_covered := t_covered t |}.
Definition add_satisfied (spec : FactoryGateSpec) (pass : bool) (t : tally) : tally :=
  {| t_failures := t_failures t;
     t_satisfied := t_satisfied t ++ [gate_id spec];
     t_covered := if pass then t_covered t ∪ list_to_set (acceptance_ids spec)
                  else t_covered t |}.

(** The unresolved findings that are not blank. *)
Definition finding_failures (findings : list string) : list string :=
  flat_map (fun finding =>
    let finding := strip finding in
    append_if (negb (empty_str finding))
      ("unresolved blocking security/adversarial finding: " +:+ finding)) findings.

Definition status_failures (spec : FactoryGateSpec) (res : GateResult) : list string :=
  match status res with
  | PENDING => ["required gate " +:+ repr (gate_id spec) +:+ " is PENDING"]
  | FAIL =>
      ["required gate " +:+ repr (gate_id spec) +:+ " failed: "
         +:+ (if empty_str (reason res) then "no reason recorded" else reason res)]
  | PASS | NOT_APPLICABLE => []
  end.

Section Judge.
Context (gate_results : gmap string GateResult) (evidence : gmap string GateEvidence)
  (current_revision current_fingerprint : option string).

(** The body of the loop over [gate_plan.specs]. *)
Definition judge_spec (t : tally) (spec : FactoryGateSpec) : tally :=
  match gate_results !! gate_id spec with
  | None =>
      if required spec then
        add_failures ["required gate " +:+ repr (gate_id spec) +:+ " is missing"] t
      else t
  | Some res =>
      let validation_failures :=
        validate_gate_evidence spec res evidence current_revision current_fingerprint in
      if required spec then
        let t := add_failures (status_failures spec res) t in
        let t := add_failures
                   (map (fun why => "gate " +:+ repr (gate_id spec) +:+ ": " +:+ why)
                        validation_failures) t in
        if is_nil validation_failures
           && bool_decide (status res ∈ [PASS; NOT_APPLICABLE]) then
          add_satisfied spec (bool_decide (status res = PASS)) t
        else t
      else t
  end.

Definition coverage_failures (criteria : list string) (covered : gset string) : list string :=
  flat_map (fun c =>
    append_if (bool_decide (c ∉ covered))
      ("acceptance criterion " +:+ repr c +:+ " is not covered by a valid PASS gate")) criteria.

Definition judge_plan (plan : FactoryGatePlan) (findings : list string) : tally :=
  foldl judge_spec
    {| t_failures := finding_failures findings; t_satisfied := []; t_covered := ∅ |}
    (specs plan).

(** [FactoryVictoryJudge.evaluate] *)
Definition evaluate (plan : FactoryGatePlan) (findings : list string)
  : FactoryVictoryDecision :=
  let t := judge_plan plan findings in
  let fs := _dedupe (t_failures t
                     ++ coverage_failures (acceptance_criterion_ids plan) (t_covered t)) in
  {| passed := is_nil fs; failures := fs; satisfied_gate_ids := t_satisfied t;
     decision_revision := current_revision; decision_fingerprint := current_fingerprint;
     _issuer := _VICTORY_ISSUER |}.

End Judge.

Definition is_machine_issued_victory (d : FactoryVictoryDecision) : bool :=
  bool_decide (_issuer d = _VICTORY_ISSUER).

(** ** The abstract specification of Victory *)

Section Spec.
Context (gate_results : gmap string GateResult) (evidence : gmap string GateEvidence)
  (rev fp : option string).

(** The gate has a trusted PASS or NOT_APPLICABLE result. *)
Definition gate_settled (spec : FactoryGateSpec) : Prop :=
  exists res, gate_results !! gate_id spec = Some res /\
    (status res = PASS \/ status res = NOT_APPLICABLE) /\
    result_trusted spec res evidence rev fp.

(** The gate has a trusted PASS result. *)
Definition gate_passed (spec : FactoryGateSpec) : Prop :=
  exists res, gate_results !! gate_id spec = Some res /\ status res = PASS /\
    pass_trusted spec res evidence rev fp.

Record victory (plan : FactoryGatePlan) (findings : list string) : Prop := {
  victory_no_findings : forall f, f ∈ findings -> blank f = true;
  victory_gates : forall spec, spec ∈ specs plan -> required spec = true -> gate_settled spec;
  victory_acceptance : forall c, c ∈ acceptance_criterion_ids plan ->
    exists spec, spec ∈ specs plan /\ required spec = true /\ c ∈ acceptance_ids spec /\
      gate_passed spec;
}.

(** ** Proofs *)

Lemma judge_spec_failures t spec :
  t_failures (judge_spec gate_results evidence rev fp t spec) = [] <->
  t_failures t = [] /\ (required spec = true -> gate_settled spec).
Proof.
  unfold judge_spec, gate_settled.
  destruct (gate_results !! gate_id spec) as [res|] eqn:Hres.
  2: { destruct (required spec); simpl; rewrite ?app_nil_iff; [|by naive_solver].
       split; [naive_solver|]. intros [_ H]. destruct (H eq_refl) as (? & ? & _). done. }
  destruct (required spec); [|by naive_solver].
  assert (Hform : forall t', t_failures
      (if is_nil (validate_gate_evidence spec res evidence rev fp)
          && bool_decide (status res ∈ [PASS; NOT_APPLICABLE])
       then add_satisfied spec (bool_decide (status res = PASS)) t' else t') = t_failures t')
    by (intros t'; by destruct (_ && _)).
  rewrite Hform. simpl. rewrite !app_nil_iff.
  assert (Hst : status_failures spec res = [] <-> status res = PASS \/ status res = NOT_APPLICABLE)
    by (unfold status_failures; destruct (status res); (split; [|by intros [|]]); auto; done).
  rewrite Hst. setoid_rewrite <-validate_gate_evidence_spec.
  destruct (validate_gate_evidence spec res evidence rev fp) eqn:Hv; simpl.
  - split.
    + intros [[? ?] _]. split; [done|]. intros _. by exists res.
    + intros [? H]. destruct (H eq_refl) as (res' & [= <-] & ? & _). done.
  - split; [by intros [_ ?]|]. intros [_ H]. destruct (H eq_refl) as (res' & [= <-] & _ & ?). congruence.
Qed.

Lemma judge_plan_failures l t :
  t_failures (foldl (judge_spec gate_results evidence rev fp) t l) = [] <->
  t_failures t = [] /\ forall spec, spec ∈ l -> required spec = true -> gate_settled spec.
Proof.
  revert t. induction l as [|spec l IH]; intros t; simpl.
  - split; [|tauto]. intros ?. split; [done|]. by intros ? ?%elem_of_nil.
  - rewrite IH, judge_spec_failures. setoid_rewrite elem_of_cons. naive_solver.
Qed.

Lemma gate_passed_trusted spec res :
  gate_results !! gate_id spec = Some res ->
  gate_passed spec <->
  status res = PASS /\ validate_gate_evidence spec res evidence rev fp = [].
Proof.
  intros Hres. unfold gate_passed. rewrite validate_gate_evidence_spec. unfold result_trusted.
  split.
  - intros (res' & Heq & Hst & Ht). rewrite Hres in Heq. simplify_eq. by rewrite Hst.
  - intros [Hst Ht]. exists res. by rewrite Hst in Ht.
Qed.

Lemma judge_spec_covered t spec c :
  c ∈ t_covered (judge_spec gate_results evidence rev fp t spec) <->
  c ∈ t_covered t \/ (required spec = true /\ gate_passed spec /\ c ∈ acceptance_ids spec).
Proof.
  unfold judge_spec. destruct (gate_results !! gate_id spec) as [res|] eqn:Hres.
  2: { assert (~ gate_passed spec) by (intros (? & ? & _); congruence).
       destruct (required spec); simpl; tauto. }
  rewrite (gate_passed_trusted spec res Hres).
  destruct (required spec); [|naive_solver].
  destruct (is_nil _) eqn:Hv; simpl.
  - apply is_nil_true in Hv. rewrite Hv. destruct (status res) eqn:Hst; simpl;
      rewrite ?elem_of_union, ?elem_of_list_to_set; naive_solver.
  - apply is_nil_false in Hv. tauto.
Qed.

Lemma judge_plan_covered l t c :
  c ∈ t_covered (foldl (judge_spec gate_results evidence rev fp) t l) <->
  c ∈ t_covered t \/
  exists spec, spec ∈ l /\ required spec = true /\ c ∈ acceptance_ids spec /\ gate_passed spec.
Proof.
  revert t. induction l as [|spec l IH]; intros t; simpl.
  - split; [tauto|]. intros [?|(? & []%elem_of_nil & _)]. done.
  - rewrite IH, judge_spec_covered. setoid_rewrite elem_of_cons. split.
    + intros [[?|(? & ? & ?)]|(s & ? & ? & ? & ?)]; [by left|right; exists spec; tauto|].
      right. exists s. tauto.
    + intros [?|(s & [->|?] & ? & ? & ?)]; [tauto..|]. right. exists s. tauto.
Qed.

Lemma finding_failures_nil findings :
  finding_failures findings = [] <-> forall f, f ∈ findings -> blank f = true.
Proof.
  unfold finding_failures. rewrite flat_map_nil. unfold blank.
  setoid_rewrite append_if_nil. by setoid_rewrite negb_false_iff.
Qed.

Lemma coverage_failures_nil criteria covered :
  coverage_failures criteria covered = [] <-> forall c, c ∈ criteria -> c ∈ covered.
Proof.
  unfold coverage_failures. rewrite flat_map_nil. setoid_rewrite append_if_nil.
  split; intros H c Hc; specialize (H c Hc); [|by apply bool_decide_eq_false; tauto].
  apply bool_decide_eq_false in H. by apply dec_stable.
Qed.

Lemma evaluate_passed plan findings :
  passed (evaluate gate_results evidence rev fp plan findings) = true <-> victory plan findings.
Proof.
  unfold evaluate, judge_plan. simpl.
  rewrite is_nil_true, dedupe_nil, app_nil_iff, judge_plan_failures, coverage_failures_nil.
  simpl. rewrite finding_failures_nil. setoid_rewrite judge_plan_covered. simpl. split.
  - intros [[H1 H2] H3]. split; [done..|]. intros c Hc.
    destruct (H3 c Hc) as [[]%elem_of_empty|?]; done.
  - intros [H1 H2 H3]. split_and!; [done..|]. intros c Hc. right. by apply H3.
Qed.
End Spec.

(** ** The judge against its specification *)


(** No success without machine proof: when the judge passes, every acceptance
    criterion is claimed by a required, applicable gate whose PASS cites at least
    one durable MACHINE record, and if that gate is invalidated by mutation, every
    MACHINE record it cites was produced at the judged revision and fingerprint. *)
Theorem victory_needs_machine_evidence gate_results evidence rev fp plan findings c :
  passed (evaluate gate_results evidence rev fp plan findings) = true ->
  c ∈ acceptance_criterion_ids plan ->
  exists spec res e,
    spec ∈ specs plan /\ required spec = true /\ applicable spec = true /\
    c ∈ acceptance_ids spec /\
    gate_results !! gate_id spec = Some res /\ status res = PASS /\
    cites res evidence e /\ authority e = MACHINE /\
    (invalidated_by_mutation spec = true ->
       forall e', cites res evidence e' -> authority e' = MACHINE -> fresh rev fp e').
Proof.
  intros [_ _ Hacc]%evaluate_passed Hc.
  destruct (Hacc c Hc) as (spec & ? & ? & ? & res & ? & ? & Ht).
  destruct Ht as (_ & ? & (e & ? & ?) & Hfresh).
  exists spec, res, e. split_and!; try done. intros Hinv. by apply Hfresh in Hinv as (_ & _ & ?).
Qed.

(** Mutation invalidates Victory: once a plan has a required gate with a PASS
    result that is sensitive to mutation, a Victory judged at one target cannot be
    judged again from the same results and evidence at a different revision or
    fingerprint. *)
Theorem victory_stale_after_mutation gate_results evidence rev fp rev' fp' plan findings spec res :
  passed (evaluate gate_results evidence rev fp plan findings) = true ->
  spec ∈ specs plan -> required spec = true -> invalidated_by_mutation spec = true ->
  gate_results !! gate_id spec = Some res -> status res = PASS ->
  rev <> rev' \/ fp <> fp' ->
  passed (evaluate gate_results evidence rev' fp' plan findings) = false.
Proof.
  intros H1%evaluate_passed Hspec Hreq Hinv Hres Hst Hne.
  apply not_true_is_false. intros H2%evaluate_passed.
  assert (Hat : forall r f, victory gate_results evidence r f plan findings ->
            evaluated_revision res = r /\ evaluated_fingerprint res = f).
  { intros r f [_ Hg _]. destruct (Hg spec Hspec Hreq) as (res' & Heq & _ & Ht).
    rewrite Hres in Heq. simplify_eq. unfold result_trusted in Ht. rewrite Hst in Ht.
    destruct Ht as (_ & _ & _ & Hf). destruct (Hf Hinv) as (? & ? & _). done. }
  destruct (Hat _ _ H1), (Hat _ _ H2). destruct Hne; congruence.
Qed.

(** A one-gate plan with a trusted PASS, used to instantiate the theorems. *)
Definition demo_spec : FactoryGateSpec :=
  {| gate_id := "tests"; category := FOCUSED_TESTS; required := true; applicable := true;
     applicability_reason := None; invalidated_by_mutation := true;
     acceptance_ids := ["criterion-1"] |}.
Definition demo_plan : FactoryGatePlan :=
  {| specs := [demo_spec]; acceptance_criterion_ids := ["criterion-1"] |}.
Definition demo_evidence : gmap string GateEvidence :=
  {[ "e1" := {| evidence_id := "e1"; digest := "d"; authority := MACHINE;
                revision := Some "r1"; fingerprint := Some "f1"; kind := "verification";
                source := "cptr" |} ]}.
Definition demo_result : GateResult :=
  {| result_gate_id := "tests"; status := PASS; evidence_ids := ["e1"]; reason := "";
     evaluated_revision := Some "r1"; evaluated_fingerprint := Some "f1" |}.
Definition demo_results : gmap string GateResult := {[ "tests" := demo_result ]}.

Theorem victory_needs_machine_evidence_witness :
  passed (evaluate demo_results demo_evidence (Some "r1") (Some "f1") demo_plan [" "]) = true /\
  exists spec res e,
    spec ∈ specs demo_plan /\ required spec = true /\ applicable spec = true /\
    "criterion-1" ∈ acceptance_ids spec /\
    demo_results !! gate_id spec = Some res /\ status res = PASS /\
    cites res demo_evidence e /\ authority e = MACHINE /\
    (invalidated_by_mutation spec = true ->
       forall e', cites res demo_evidence e' -> authority e' = MACHINE ->
         fresh (Some "r1") (Some "f1") e').
Proof.
  split; [by vm_compute|].
  apply (victory_needs_machine_evidence _ _ _ _ _ [" "]); [by vm_compute|].
  by apply list_elem_of_here.
Defined.

Theorem victory_stale_after_mutation_witness :
  passed (evaluate demo_results demo_evidence (Some "r2") (Some "f1") demo_plan []) = false.
Proof.
  apply (victory_stale_after_mutation demo_results demo_evidence (Some "r1") (Some "f1")
           (Some "r2") (Some "f1") demo_plan [] demo_spec demo_result).
  - by vm_compute.
  - by apply list_elem_of_here.
  - done.
  - done.
  - by vm_compute.
  - done.
  - left. done.
Defined.
