(* ===== verification/Database.v ===== *)
(** * The tables of the durable factory, and the session that reads and writes them

    The rows are the columns of [cptr/models/factory.py], [factory_control.py],
    [factory_lifecycle.py] and of the two authority tables of
    [capability_os.py].  A table whose rows are updated in place is a [gmap] from
    primary keys; an append-only table is a list in insertion order.  Columns that
    only ever hold the value of an enumeration have its type.

    The [insert_*] operations enforce the schema: primary keys, unique
    constraints and foreign keys (SQLite runs with [PRAGMA foreign_keys=ON]);
    violating one raises [IntegrityError].  An operation of a session is atomic:
    [transaction] restores the tables when its body raises. *)

From S2P Require Import Prelude PyStr Json FactoryDomain FactoryGates.

(** [models/factory.py] [FactoryRun] *)
Record FactoryRun := {
  run_id : string;
  run_user_id : string;
  run_workspace_id : string;
  run_mission : string;
  run_acceptance_criteria : list string;
  run_model_id : option string;
  run_state : FactoryState;
  run_current_cycle_id : option string;
  run_resumable_state : option FactoryState;
  run_policy : json;
  run_budget : json;
  run_config_fingerprint : string;
  run_next_action : option string;
  run_idempotency_key : option string;
  run_lease_token : option string;
  run_lease_expires_at : option Z;
  run_created_at : Z;
  run_updated_at : Z;
  run_completed_at : option Z;
}.

Definition set_run_state (v : FactoryState) (r : FactoryRun) : FactoryRun := {|
  run_id := run_id r; run_user_id := run_user_id r; run_workspace_id := run_workspace_id r;
  run_mission := run_mission r; run_acceptance_criteria := run_acceptance_criteria r;
  run_model_id := run_model_id r; run_state := v; run_current_cycle_id := run_current_cycle_id r;
  run_resumable_state := run_resumable_state r; run_policy := run_policy r;
  run_budget := run_budget r; run_config_fingerprint := run_config_fingerprint r;
  run_next_action := run_next_action r; run_idempotency_key := run_idempotency_key r;
  run_lease_token := run_lease_token r; run_lease_expires_at := run_lease_expires_at r;
  run_created_at := run_created_at r; run_updated_at := run_updated_at r;
  run_completed_at := run_completed_at r
|}.

Definition set_run_current_cycle_id (v : option string) (r : FactoryRun) : FactoryRun := {|
  run_id := run_id r; run_user_id := run_user_id r; run_workspace_id := run_workspace_id r;
  run_mission := run_mission r; run_acceptance_criteria := run_acceptance_criteria r;
  run_model_id := run_model_id r; run_state := run_state r; run_current_cycle_id := v;
  run_resumable_state := run_resumable_state r; run_policy := run_policy r;
  run_budget := run_budget r; run_config_fingerprint := run_config_fingerprint r;
  run_next_action := run_next_action r; run_idempotency_key := run_idempotency_key r;
  run_lease_token := run_lease_token r; run_lease_expires_at := run_lease_expires_at r;
  run_created_at := run_created_at r; run_updated_at := run_updated_at r;
  run_completed_at := run_completed_at r
|}.

Definition set_run_resumable_state (v : option FactoryState) (r : FactoryRun) : FactoryRun := {|
  run_id := run_id r; run_user_id := run_user_id r; run_workspace_id := run_workspace_id r;
  run_mission := run_mission r; run_acceptance_criteria := run_acceptance_criteria r;
  run_model_id := run_model_id r; run_state := run_state r;
  run_current_cycle_id := run_current_cycle_id r; run_resumable_state := v;
  run_policy := run_policy r; run_budget := run_budget r;
  run_config_fingerprint := run_config_fingerprint r; run_next_action := run_next_action r;
  run_idempotency_key := run_idempotency_key r; run_lease_token := run_lease_token r;
  run_lease_expires_at := run_lease_expires_at r; run_created_at := run_created_at r;
  run_updated_at := run_updated_at r; run_completed_at := run_completed_at r
|}.

Definition set_run_next_action (v : option string) (r : FactoryRun) : FactoryRun := {|
  run_id := run_id r; run_user_id := run_user_id r; run_workspace_id := run_workspace_id r;
  run_mission := run_mission r; run_acceptance_criteria := run_acceptance_criteria r;
  run_model_id := run_model_id r; run_state := run_state r;
  run_current_cycle_id := run_current_cycle_id r; run_resumable_state := run_resumable_state r;
  run_policy := run_policy r; run_budget := run_budget r;
  run_config_fingerprint := run_config_fingerprint r; run_next_action := v;
  run_idempotency_key := run_idempotency_key r; run_lease_token := run_lease_token r;
  run_lease_expires_at := run_lease_expires_at r; run_created_at := run_created_at r;
  run_updated_at := run_updated_at r; run_completed_at := run_completed_at r
|}.

Definition set_run_lease_token (v : option string) (r : FactoryRun) : FactoryRun := {|
  run_id := run_id r; run_user_id := run_user_id r; run_workspace_id := run_workspace_id r;
  run_mission := run_mission r; run_acceptance_criteria := run_acceptance_criteria r;
  run_model_id := run_model_id r; run_state := run_state r;
  run_current_cycle_id := run_current_cycle_id r; run_resumable_state := run_resumable_state r;
  run_policy := run_policy r; run_budget := run_budget r;
  run_config_fingerprint := run_config_fingerprint r; run_next_action := run_next_action r;
  run_idempotency_key := run_idempotency_key r; run_lease_token := v;
  run_lease_expires_at := run_lease_expires_at r; run_created_at := run_created_at r;
  run_updated_at := run_updated_at r; run_completed_at := run_completed_at r
|}.

Definition set_run_lease_expires_at (v : option Z) (r : FactoryRun) : FactoryRun := {|
  run_id := run_id r; run_user_id := run_user_id r; run_workspace_id := run_workspace_id r;
  run_mission := run_mission r; run_acceptance_criteria := run_acceptance_criteria r;
  run_model_id := run_model_id r; run_state := run_state r;
  run_current_cycle_id := run_current_cycle_id r; run_resumable_state := run_resumable_state r;
  run_policy := run_policy r; run_budget := run_budget r;
  run_config_fingerprint := run_config_fingerprint r; run_next_action := run_next_action r;
  run_idempotency_key := run_idempotency_key r; run_lease_token := run_lease_token r;
  run_lease_expires_at := v; run_created_at := run_created_at r;
  run_updated_at := run_updated_at r; run_completed_at := run_completed_at r
|}.

Definition set_run_updated_at (v : Z) (r : FactoryRun) : FactoryRun := {|
  run_id := run_id r; run_user_id := run_user_id r; run_workspace_id := run_workspace_id r;
  run_mission := run_mission r; run_acceptance_criteria := run_acceptance_criteria r;
  run_model_id := run_model_id r; run_state := run_state r;
  run_current_cycle_id := run_current_cycle_id r; run_resumable_state := run_resumable_state r;
  run_policy := run_policy r; run_budget := run_budget r;
  run_config_fingerprint := run_config_fingerprint r; run_next_action := run_next_action r;
  run_idempotency_key := run_idempotency_key r; run_lease_token := run_lease_token r;
  run_lease_expires_at := run_lease_expires_at r; run_created_at := run_created_at r;
  run_updated_at := v; run_completed_at := run_completed_at r
|}.

Definition set_run_completed_at (v : option Z) (r : FactoryRun) : FactoryRun := {|
  run_id := run_id r; run_user_id := run_user_id r; run_workspace_id := run_workspace_id r;
  run_mission := run_mission r; run_acceptance_criteria := run_acceptance_criteria r;
  run_model_id := run_model_id r; run_state := run_state r;
  run_current_cycle_id := run_current_cycle_id r; run_resumable_state := run_resumable_state r;
  run_policy := run_policy r; run_budget := run_budget r;
  run_config_fingerprint := run_config_fingerprint r; run_next_action := run_next_action r;
  run_idempotency_key := run_idempotency_key r; run_lease_token := run_lease_token r;
  run_lease_expires_at := run_lease_expires_at r; run_created_at := run_created_at r;
  run_updated_at := run_updated_at r; run_completed_at := v
|}.

(** an entry of [FactoryCycle.failure_signatures] *)
Record FailureSignature := {
  fs_signature : string;
  fs_category : string;
  fs_code : string;
  fs_gate_id : option string;
  fs_count : Z;
  fs_first_seen_at : Z;
  fs_last_seen_at : Z;
  fs_last_summary : json;
}.

(** [models/factory.py] [FactoryCycle] *)
Record FactoryCycle := {
  cycle_id : string;
  cycle_run_id : string;
  cycle_ordinal : Z;
  cycle_state : FactoryState;
  cycle_idempotency_key : option string;
  selected_finding : json;
  capability_requirements : json;
  selected_capabilities : json;
  gate_plan : json;
  base_revision : option string;
  base_fingerprint : option string;
  target_revision : option string;
  target_fingerprint : option string;
  mutation_worker_id : option string;
  attempt_count : Z;
  failure_signatures : list (string * FailureSignature);
  cycle_next_action : option string;
  cycle_created_at : Z;
  cycle_updated_at : Z;
  cycle_completed_at : option Z;
}.

Definition set_cycle_state (v : FactoryState) (r : FactoryCycle) : FactoryCycle := {|
  cycle_id := cycle_id r; cycle_run_id := cycle_run_id r; cycle_ordinal := cycle_ordinal r;
  cycle_state := v; cycle_idempotency_key := cycle_idempotency_key r;
  selected_finding := selected_finding r; capability_requirements := capability_requirements r;
  selected_capabilities := selected_capabilities r; gate_plan := gate_plan r;
  base_revision := base_revision r; base_fingerprint := base_fingerprint r;
  target_revision := target_revision r; target_fingerprint := target_fingerprint r;
  mutation_worker_id := mutation_worker_id r; attempt_count := attempt_count r;
  failure_signatures := failure_signatures r; cycle_next_action := cycle_next_action r;
  cycle_created_at := cycle_created_at r; cycle_updated_at := cycle_updated_at r;
  cycle_completed_at := cycle_completed_at r
|}.

Definition set_selected_finding (v : json) (r : FactoryCycle) : FactoryCycle := {|
  cycle_id := cycle_id r; cycle_run_id := cycle_run_id r; cycle_ordinal := cycle_ordinal r;
  cycle_state := cycle_state r; cycle_idempotency_key := cycle_idempotency_key r;
  selected_finding := v; capability_requirements := capability_requirements r;
  selected_capabilities := selected_capabilities r; gate_plan := gate_plan r;
  base_revision := base_revision r; base_fingerprint := base_fingerprint r;
  target_revision := target_revision r; target_fingerprint := target_fingerprint r;
  mutation_worker_id := mutation_worker_id r; attempt_count := attempt_count r;
  failure_signatures := failure_signatures r; cycle_next_action := cycle_next_action r;
  cycle_created_at := cycle_created_at r; cycle_updated_at := cycle_updated_at r;
  cycle_completed_at := cycle_completed_at r
|}.

Definition set_capability_requirements (v : json) (r : FactoryCycle) : FactoryCycle := {|
  cycle_id := cycle_id r; cycle_run_id := cycle_run_id r; cycle_ordinal := cycle_ordinal r;
  cycle_state := cycle_state r; cycle_idempotency_key := cycle_idempotency_key r;
  selected_finding := selected_finding r; capability_requirements := v;
  selected_capabilities := selected_capabilities r; gate_plan := gate_plan r;
  base_revision := base_revision r; base_fingerprint := base_fingerprint r;
  target_revision := target_revision r; target_fingerprint := target_fingerprint r;
  mutation_worker_id := mutation_worker_id r; attempt_count := attempt_count r;
  failure_signatures := failure_signatures r; cycle_next_action := cycle_next_action r;
  cycle_created_at := cycle_created_at r; cycle_updated_at := cycle_updated_at r;
  cycle_completed_at := cycle_completed_at r
|}.

Definition set_selected_capabilities (v : json) (r : FactoryCycle) : FactoryCycle := {|
  cycle_id := cycle_id r; cycle_run_id := cycle_run_id r; cycle_ordinal := cycle_ordinal r;
  cycle_state := cycle_state r; cycle_idempotency_key := cycle_idempotency_key r;
  selected_finding := selected_finding r; capability_requirements := capability_requirements r;
  selected_capabilities := v; gate_plan := gate_plan r; base_revision := base_revision r;
  base_fingerprint := base_fingerprint r; target_revision := target_revision r;
  target_fingerprint := target_fingerprint r; mutation_worker_id := mutation_worker_id r;
  attempt_count := attempt_count r; failure_signatures := failure_signatures r;
  cycle_next_action := cycle_next_action r; cycle_created_at := cycle_created_at r;
  cycle_updated_at := cycle_updated_at r; cycle_completed_at := cycle_completed_at r
|}.

Definition set_gate_plan (v : json) (r : FactoryCycle) : FactoryCycle := {|
  cycle_id := cycle_id r; cycle_run_id := cycle_run_id r; cycle_ordinal := cycle_ordinal r;
  cycle_state := cycle_state r; cycle_idempotency_key := cycle_idempotency_key r;
  selected_finding := selected_finding r; capability_requirements := capability_requirements r;
  selected_capabilities := selected_capabilities r; gate_plan := v;
  base_revision := base_revision r; base_fingerprint := base_fingerprint r;
  target_revision := target_revision r; target_fingerprint := target_fingerprint r;
  mutation_worker_id := mutation_worker_id r; attempt_count := attempt_count r;
  failure_signatures := failure_signatures r; cycle_next_action := cycle_next_action r;
  cycle_created_at := cycle_created_at r; cycle_updated_at := cycle_updated_at r;
  cycle_completed_at := cycle_completed_at r
|}.

Definition set_base_revision (v : option string) (r : FactoryCycle) : FactoryCycle := {|
  cycle_id := cycle_id r; cycle_run_id := cycle_run_id r; cycle_ordinal := cycle_ordinal r;
  cycle_state := cycle_state r; cycle_idempotency_key := cycle_idempotency_key r;
  selected_finding := selected_finding r; capability_requirements := capability_requirements r;
  selected_capabilities := selected_capabilities r; gate_plan := gate_plan r; base_revision := v;
  base_fingerprint := base_fingerprint r; target_revision := target_revision r;
  target_fingerprint := target_fingerprint r; mutation_worker_id := mutation_worker_id r;
  attempt_count := attempt_count r; failure_signatures := failure_signatures r;
  cycle_next_action := cycle_next_action r; cycle_created_at := cycle_created_at r;
  cycle_updated_at := cycle_updated_at r; cycle_completed_at := cycle_completed_at r
|}.

Definition set_base_fingerprint (v : option string) (r : FactoryCycle) : FactoryCycle := {|
  cycle_id := cycle_id r; cycle_run_id := cycle_run_id r; cycle_ordinal := cycle_ordinal r;
  cycle_state := cycle_state r; cycle_idempotency_key := cycle_idempotency_key r;
  selected_finding := selected_finding r; capability_requirements := capability_requirements r;
  selected_capabilities := selected_capabilities r; gate_plan := gate_plan r;
  base_revision := base_revision r; base_fingerprint := v; target_revision := target_revision r;
  target_fingerprint := target_fingerprint r; mutation_worker_id := mutation_worker_id r;
  attempt_count := attempt_count r; failure_signatures := failure_signatures r;
  cycle_next_action := cycle_next_action r; cycle_created_at := cycle_created_at r;
  cycle_updated_at := cycle_updated_at r; cycle_completed_at := cycle_completed_at r
|}.

Definition set_target_revision (v : option string) (r : FactoryCycle) : FactoryCycle := {|
  cycle_id := cycle_id r; cycle_run_id := cycle_run_id r; cycle_ordinal := cycle_ordinal r;
  cycle_state := cycle_state r; cycle_idempotency_key := cycle_idempotency_key r;
  selected_finding := selected_finding r; capability_requirements := capability_requirements r;
  selected_capabilities := selected_capabilities r; gate_plan := gate_plan r;
  base_revision := base_revision r; base_fingerprint := base_fingerprint r; target_revision := v;
  target_fingerprint := target_fingerprint r; mutation_worker_id := mutation_worker_id r;
  attempt_count := attempt_count r; failure_signatures := failure_signatures r;
  cycle_next_action := cycle_next_action r; cycle_created_at := cycle_created_at r;
  cycle_updated_at := cycle_updated_at r; cycle_completed_at := cycle_completed_at r
|}.

Definition set_target_fingerprint (v : option string) (r : FactoryCycle) : FactoryCycle := {|
  cycle_id := cycle_id r; cycle_run_id := cycle_run_id r; cycle_ordinal := cycle_ordinal r;
  cycle_state := cycle_state r; cycle_idempotency_key := cycle_idempotency_key r;
  selected_finding := selected_finding r; capability_requirements := capability_requirements r;
  selected_capabilities := selected_capabilities r; gate_plan := gate_plan r;
  base_revision := base_revision r; base_fingerprint := base_fingerprint r;
  target_revision := target_revision r; target_fingerprint := v;
  mutation_worker_id := mutation_worker_id r; attempt_count := attempt_count r;
  failure_signatures := failure_signatures r; cycle_next_action := cycle_next_action r;
  cycle_created_at := cycle_created_at r; cycle_updated_at := cycle_updated_at r;
  cycle_completed_at := cycle_completed_at r
|}.

Definition set_mutation_worker_id (v : option string) (r : FactoryCycle) : FactoryCycle := {|
  cycle_id := cycle_id r; cycle_run_id := cycle_run_id r; cycle_ordinal := cycle_ordinal r;
  cycle_state := cycle_state r; cycle_idempotency_key := cycle_idempotency_key r;
  selected_finding := selected_finding r; capability_requirements := capability_requirements r;
  selected_capabilities := selected_capabilities r; gate_plan := gate_plan r;
  base_revision := base_revision r; base_fingerprint := base_fingerprint r;
  target_revision := target_revision r; target_fingerprint := target_fingerprint r;
  mutation_worker_id := v; attempt_count := attempt_count r;
  failure_signatures := failure_signatures r; cycle_next_action := cycle_next_action r;
  cycle_created_at := cycle_created_at r; cycle_updated_at := cycle_updated_at r;
  cycle_completed_at := cycle_completed_at r
|}.

Definition set_attempt_count (v : Z) (r : FactoryCycle) : FactoryCycle := {|
  cycle_id := cycle_id r; cycle_run_id := cycle_run_id r; cycle_ordinal := cycle_ordinal r;
  cycle_state := cycle_state r; cycle_idempotency_key := cycle_idempotency_key r;
  selected_finding := selected_finding r; capability_requirements := capability_requirements r;
  selected_capabilities := selected_capabilities r; gate_plan := gate_plan r;
  base_revision := base_revision r; base_fingerprint := base_fingerprint r;
  target_revision := target_revision r; target_fingerprint := target_fingerprint r;
  mutation_worker_id := mutation_worker_id r; attempt_count := v;
  failure_signatures := failure_signatures r; cycle_next_action := cycle_next_action r;
  cycle_created_at := cycle_created_at r; cycle_updated_at := cycle_updated_at r;
  cycle_completed_at := cycle_completed_at r
|}.

Definition set_failure_signatures (v : list (string * FailureSignature)) (r : FactoryCycle) : FactoryCycle := {|
  cycle_id := cycle_id r; cycle_run_id := cycle_run_id r; cycle_ordinal := cycle_ordinal r;
  cycle_state := cycle_state r; cycle_idempotency_key := cycle_idempotency_key r;
  selected_finding := selected_finding r; capability_requirements := capability_requirements r;
  selected_capabilities := selected_capabilities r; gate_plan := gate_plan r;
  base_revision := base_revision r; base_fingerprint := base_fingerprint r;
  target_revision := target_revision r; target_fingerprint := target_fingerprint r;
  mutation_worker_id := mutation_worker_id r; attempt_count := attempt_count r;
  failure_signatures := v; cycle_next_action := cycle_next_action r;
  cycle_created_at := cycle_created_at r; cycle_updated_at := cycle_updated_at r;
  cycle_completed_at := cycle_completed_at r
|}.

Definition set_cycle_next_action (v : option string) (r : FactoryCycle) : FactoryCycle := {|
  cycle_id := cycle_id r; cycle_run_id := cycle_run_id r; cycle_ordinal := cycle_ordinal r;
  cycle_state := cycle_state r; cycle_idempotency_key := cycle_idempotency_key r;
  selected_finding := selected_finding r; capability_requirements := capability_requirements r;
  selected_capabilities := selected_capabilities r; gate_plan := gate_plan r;
  base_revision := base_revision r; base_fingerprint := base_fingerprint r;
  target_revision := target_revision r; target_fingerprint := target_fingerprint r;
  mutation_worker_id := mutation_worker_id r; attempt_count := attempt_count r;
  failure_signatures := failure_signatures r; cycle_next_action := v;
  cycle_created_at := cycle_created_at r; cycle_updated_at := cycle_updated_at r;
  cycle_completed_at := cycle_completed_at r
|}.

Definition set_cycle_updated_at (v : Z) (r : FactoryCycle) : FactoryCycle := {|
  cycle_id := cycle_id r; cycle_run_id := cycle_run_id r; cycle_ordinal := cycle_ordinal r;
  cycle_state := cycle_state r; cycle_idempotency_key := cycle_idempotency_key r;
  selected_finding := selected_finding r; capability_requirements := capability_requirements r;
  selected_capabilities := selected_capabilities r; gate_plan := gate_plan r;
  base_revision := base_revision r; base_fingerprint := base_fingerprint r;
  target_revision := target_revision r; target_fingerprint := target_fingerprint r;
  mutation_worker_id := mutation_worker_id r; attempt_count := attempt_count r;
  failure_signatures := failure_signatures r; cycle_next_action := cycle_next_action r;
  cycle_created_at := cycle_created_at r; cycle_updated_at := v;
  cycle_completed_at := cycle_completed_at r
|}.

Definition set_cycle_completed_at (v : option Z) (r : FactoryCycle) : FactoryCycle := {|
  cycle_id := cycle_id r; cycle_run_id := cycle_run_id r; cycle_ordinal := cycle_ordinal r;
  cycle_state := cycle_state r; cycle_idempotency_key := cycle_idempotency_key r;
  selected_finding := selected_finding r; capability_requirements := capability_requirements r;
  selected_capabilities := selected_capabilities r; gate_plan := gate_plan r;
  base_revision := base_revision r; base_fingerprint := base_fingerprint r;
  target_revision := target_revision r; target_fingerprint := target_fingerprint r;
  mutation_worker_id := mutation_worker_id r; attempt_count := attempt_count r;
  failure_signatures := failure_signatures r; cycle_next_action := cycle_next_action r;
  cycle_created_at := cycle_created_at r; cycle_updated_at := cycle_updated_at r;
  cycle_completed_at := v
|}.

(** [models/factory.py] [FactoryEvent] *)
Record FactoryEvent := {
  ev_id : string;
  ev_run_id : string;
  ev_cycle_id : option string;
  ev_sequence : Z;
  ev_actor : FactoryActor;
  ev_type : string;
  ev_from : option FactoryState;
  ev_to : option FactoryState;
  ev_key : option string;
  ev_digest : string;
  ev_payload : json;
  ev_created_at : Z;
}.

(** [models/factory.py] [FactoryEvidence] *)
Record FactoryEvidence := {
  evd_id : string;
  evd_run_id : string;
  evd_cycle_id : option string;
  evd_gate_id : option string;
  evd_kind : string;
  evd_source : string;
  evd_authority : EvidenceAuthority;
  evd_revision : option string;
  evd_fingerprint : option string;
  evd_digest : string;
  evd_payload : json;
  evd_key : option string;
  evd_created_at : Z;
}.

(** [models/factory.py] [FactoryGateResult] *)
Record FactoryGateResult := {
  gr_id : string;
  gr_run_id : string;
  gr_cycle_id : string;
  gr_gate_id : string;
  gr_category : string;
  gr_required : bool;
  gr_applicable : bool;
  gr_status : string;
  gr_evidence_ids : list string;
  gr_evaluated_revision : option string;
  gr_evaluated_fingerprint : option string;
  gr_reason : option string;
  gr_attempt : Z;
  gr_key : option string;
  gr_created_at : Z;
  gr_updated_at : Z;
}.

(** [models/factory_control.py] [FactoryApproval] *)
Record FactoryApproval := {
  ap_id : string;
  ap_run_id : string;
  ap_cycle_id : string;
  ap_kind : string;
  ap_operation_digest : string;
  ap_revision : string;
  ap_remote : string;
  ap_branch : string;
  ap_status : string;
  ap_decision_key : option string;
  ap_decision_digest : option string;
  ap_note : option string;
  ap_created_at : Z;
  ap_updated_at : Z;
  ap_decided_at : option Z;
}.

(** [models/factory_lifecycle.py] [FactoryCommitIntent] *)
Record FactoryCommitIntent := {
  ci_id : string;
  ci_run_id : string;
  ci_cycle_id : string;
  ci_repository_key : string;
  ci_verified_revision : string;
  ci_verified_fingerprint : string;
  ci_diff_digest : string;
  ci_changed_paths : list string;
  ci_commit_message : string;
  ci_status : string;
  ci_commit_sha : option string;
  ci_push_status : option string;
  ci_push_remote : option string;
  ci_push_branch : option string;
  ci_push_approval_id : option string;
  ci_created_at : Z;
  ci_updated_at : Z;
  ci_committed_at : option Z;
  ci_pushed_at : option Z;
}.

(** [models/factory_lifecycle.py] [FactoryCiRun] *)
Record FactoryCiRun := {
  fci_id : string;
  fci_run_id : string;
  fci_cycle_id : string;
  fci_provider : string;
  fci_repository : string;
  fci_revision : string;
  fci_external_run_id : string;
  fci_check_id : string;
  fci_status : string;
  fci_conclusion : option string;
  fci_url : option string;
  fci_failure_summary : option string;
  fci_diagnosis_required : bool;
  fci_diagnosis_summary : option string;
  fci_created_at : Z;
  fci_updated_at : Z;
  fci_last_observed_at : option Z;
  fci_diagnosed_at : option Z;
}.

(** [models/factory_workers.py]: the values of the columns [mode] and [status] *)
Inductive FactoryWorkerAssignmentMode := READ_ONLY | MUTATION.
Inductive FactoryWorkerAssignmentStatus := ACTIVE | CANCELLING | QUIESCENT | INTEGRATED | CLOSED | MISSING.
#[export] Instance assignment_mode_eq_dec : EqDecision FactoryWorkerAssignmentMode.
Proof. solve_decision. Defined.
#[export] Instance assignment_status_eq_dec : EqDecision FactoryWorkerAssignmentStatus.
Proof. solve_decision. Defined.

(** [models/factory_workers.py] [FactoryWorkerAssignment] *)
Record FactoryWorkerAssignment := {
  wa_id : string;
  wa_run_id : string;
  wa_cycle_id : string;
  wa_workspace_id : string;
  wa_worker_id : option string;
  wa_owner_key : string;
  wa_mode : FactoryWorkerAssignmentMode;
  wa_repo_path : string;
  wa_scope : list string;
  wa_branch : option string;
  wa_base_revision : option string;
  wa_status : FactoryWorkerAssignmentStatus;
  wa_created_at : Z;
  wa_updated_at : Z;
  wa_closed_at : option Z;
}.

(** [models/capability_os.py] [CapabilityOsLease] *)
Record CapabilityOsLease := {
  lease_id : string;
  lease_task_id : string;
  lease_workload_id : string;
  lease_artifact_digest : string;
  lease_permissions : json;
  lease_resource_limits : json;
  lease_network : json;
  lease_credentials : json;
  lease_approval_id : option string;
  lease_parent_lease_id : option string;
  lease_policy_decision_id : string;
  lease_attestation_requirements : json;
  lease_runtime_profile : string;
  lease_status : string;
  lease_issued_at_ms : Z;
  lease_expires_at_ms : Z;
  lease_revoked_at_ms : option Z;
}.

Definition set_lease_status (v : string) (r : CapabilityOsLease) : CapabilityOsLease := {|
  lease_id := lease_id r; lease_task_id := lease_task_id r;
  lease_workload_id := lease_workload_id r; lease_artifact_digest := lease_artifact_digest r;
  lease_permissions := lease_permissions r; lease_resource_limits := lease_resource_limits r;
  lease_network := lease_network r; lease_credentials := lease_credentials r;
  lease_approval_id := lease_approval_id r; lease_parent_lease_id := lease_parent_lease_id r;
  lease_policy_decision_id := lease_policy_decision_id r;
  lease_attestation_requirements := lease_attestation_requirements r;
  lease_runtime_profile := lease_runtime_profile r; lease_status := v;
  lease_issued_at_ms := lease_issued_at_ms r; lease_expires_at_ms := lease_expires_at_ms r;
  lease_revoked_at_ms := lease_revoked_at_ms r
|}.

Definition set_lease_revoked_at_ms (v : option Z) (r : CapabilityOsLease) : CapabilityOsLease := {|
  lease_id := lease_id r; lease_task_id := lease_task_id r;
  lease_workload_id := lease_workload_id r; lease_artifact_digest := lease_artifact_digest r;
  lease_permissions := lease_permissions r; lease_resource_limits := lease_resource_limits r;
  lease_network := lease_network r; lease_credentials := lease_credentials r;
  lease_approval_id := lease_approval_id r; lease_parent_lease_id := lease_parent_lease_id r;
  lease_policy_decision_id := lease_policy_decision_id r;
  lease_attestation_requirements := lease_attestation_requirements r;
  lease_runtime_profile := lease_runtime_profile r; lease_status := lease_status r;
  lease_issued_at_ms := lease_issued_at_ms r; lease_expires_at_ms := lease_expires_at_ms r;
  lease_revoked_at_ms := v
|}.

(** [models/capability_os.py] [CapabilityOsMcpMount] *)
Record CapabilityOsMcpMount := {
  mount_id : string;
  mount_task_id : string;
  mount_server_id : string;
  mount_version : string;
  mount_digest : string;
  mount_state : string;
  mount_lease_id : string;
  mount_projected_tools : list string;
  mount_transport_kind : string;
  mount_created_at_ms : Z;
  mount_updated_at_ms : Z;
  mount_released_at_ms : option Z;
}.

Definition set_mount_state (v : string) (r : CapabilityOsMcpMount) : CapabilityOsMcpMount := {|
  mount_id := mount_id r; mount_task_id := mount_task_id r; mount_server_id := mount_server_id r;
  mount_version := mount_version r; mount_digest := mount_digest r; mount_state := v;
  mount_lease_id := mount_lease_id r; mount_projected_tools := mount_projected_tools r;
  mount_transport_kind := mount_transport_kind r; mount_created_at_ms := mount_created_at_ms r;
  mount_updated_at_ms := mount_updated_at_ms r; mount_released_at_ms := mount_released_at_ms r
|}.

Definition set_mount_updated_at_ms (v : Z) (r : CapabilityOsMcpMount) : CapabilityOsMcpMount := {|
  mount_id := mount_id r; mount_task_id := mount_task_id r; mount_server_id := mount_server_id r;
  mount_version := mount_version r; mount_digest := mount_digest r; mount_state := mount_state r;
  mount_lease_id := mount_lease_id r; mount_projected_tools := mount_projected_tools r;
  mount_transport_kind := mount_transport_kind r; mount_created_at_ms := mount_created_at_ms r;
  mount_updated_at_ms := v; mount_released_at_ms := mount_released_at_ms r
|}.

Definition set_mount_released_at_ms (v : option Z) (r : CapabilityOsMcpMount) : CapabilityOsMcpMount := {|
  mount_id := mount_id r; mount_task_id := mount_task_id r; mount_server_id := mount_server_id r;
  mount_version := mount_version r; mount_digest := mount_digest r; mount_state := mount_state r;
  mount_lease_id := mount_lease_id r; mount_projected_tools := mount_projected_tools r;
  mount_transport_kind := mount_transport_kind r; mount_created_at_ms := mount_created_at_ms r;
  mount_updated_at_ms := mount_updated_at_ms r; mount_released_at_ms := v
|}.

(** the columns of [WorkbenchSession] that a task of the Capability OS has *)
Record WorkbenchSession := {
  wb_id : string;
  wb_user_id : string;
  wb_name : string;
  wb_workspace_id : option string;
  wb_active_workspace_id : option string;
  wb_status : option string;
  wb_event_count : Z;
  wb_created_at : Z;
  wb_updated_at : Z;
  wb_deleted_at : option Z;
}.

(** the columns of [ControlTask] that a task of the Capability OS has *)
Record ControlTask := {
  ct_id : string;
  ct_user_id : string;
  ct_workspace_id : string;
  ct_status : option string;
  ct_prompt : string;
  ct_updated_at : Z;
}.

(** the tables *)
Record Db := {
  db_users : gset string;
  db_workspaces : gset string;
  db_runs : gmap string FactoryRun;
  db_cycles : gmap string FactoryCycle;
  db_events : list FactoryEvent;
  db_evidence : list FactoryEvidence;
  db_gates : list FactoryGateResult;
  db_approvals : gmap string FactoryApproval;
  db_intents : gmap string FactoryCommitIntent;
  db_ci_runs : gmap string FactoryCiRun;
  db_assignments : gmap string FactoryWorkerAssignment;
  db_leases : gmap string CapabilityOsLease;
  db_mounts : gmap string CapabilityOsMcpMount;
  db_workbench : gmap string WorkbenchSession;
  db_control_tasks : gmap string ControlTask;
}.

Definition set_db_runs (v : gmap string FactoryRun) (r : Db) : Db := {|
  db_users := db_users r; db_workspaces := db_workspaces r; db_runs := v;
  db_cycles := db_cycles r; db_events := db_events r; db_evidence := db_evidence r;
  db_gates := db_gates r; db_approvals := db_approvals r; db_intents := db_intents r;
  db_ci_runs := db_ci_runs r; db_assignments := db_assignments r; db_leases := db_leases r;
  db_mounts := db_mounts r; db_workbench := db_workbench r;
  db_control_tasks := db_control_tasks r
|}.

Definition set_db_cycles (v : gmap string FactoryCycle) (r : Db) : Db := {|
  db_users := db_users r; db_workspaces := db_workspaces r; db_runs := db_runs r; db_cycles := v;
  db_events := db_events r; db_evidence := db_evidence r; db_gates := db_gates r;
  db_approvals := db_approvals r; db_intents := db_intents r; db_ci_runs := db_ci_runs r;
  db_assignments := db_assignments r; db_leases := db_leases r; db_mounts := db_mounts r;
  db_workbench := db_workbench r; db_control_tasks := db_control_tasks r
|}.

Definition set_db_events (v : list FactoryEvent) (r : Db) : Db := {|
  db_users := db_users r; db_workspaces := db_workspaces r; db_runs := db_runs r;
  db_cycles := db_cycles r; db_events := v; db_evidence := db_evidence r; db_gates := db_gates r;
  db_approvals := db_approvals r; db_intents := db_intents r; db_ci_runs := db_ci_runs r;
  db_assignments := db_assignments r; db_leases := db_leases r; db_mounts := db_mounts r;
  db_workbench := db_workbench r; db_control_tasks := db_control_tasks r
|}.

Definition set_db_evidence (v : list FactoryEvidence) (r : Db) : Db := {|
  db_users := db_users r; db_workspaces := db_workspaces r; db_runs := db_runs r;
  db_cycles := db_cycles r; db_events := db_events r; db_evidence := v; db_gates := db_gates r;
  db_approvals := db_approvals r; db_intents := db_intents r; db_ci_runs := db_ci_runs r;
  db_assignments := db_assignments r; db_leases := db_leases r; db_mounts := db_mounts r;
  db_workbench := db_workbench r; db_control_tasks := db_control_tasks r
|}.

Definition set_db_gates (v : list FactoryGateResult) (r : Db) : Db := {|
  db_users := db_users r; db_workspaces := db_workspaces r; db_runs := db_runs r;
  db_cycles := db_cycles r; db_events := db_events r; db_evidence := db_evidence r;
  db_gates := v; db_approvals := db_approvals r; db_intents := db_intents r;
  db_ci_runs := db_ci_runs r; db_assignments := db_assignments r; db_leases := db_leases r;
  db_mounts := db_mounts r; db_workbench := db_workbench r;
  db_control_tasks := db_control_tasks r
|}.

Definition set_db_approvals (v : gmap string FactoryApproval) (r : Db) : Db := {|
  db_users := db_users r; db_workspaces := db_workspaces r; db_runs := db_runs r;
  db_cycles := db_cycles r; db_events := db_events r; db_evidence := db_evidence r;
  db_gates := db_gates r; db_approvals := v; db_intents := db_intents r;
  db_ci_runs := db_ci_runs r; db_assignments := db_assignments r; db_leases := db_leases r;
  db_mounts := db_mounts r; db_workbench := db_workbench r;
  db_control_tasks := db_control_tasks r
|}.

Definition set_db_intents (v : gmap string FactoryCommitIntent) (r : Db) : Db := {|
  db_users := db_users r; db_workspaces := db_workspaces r; db_runs := db_runs r;
  db_cycles := db_cycles r; db_events := db_events r; db_evidence := db_evidence r;
  db_gates := db_gates r; db_approvals := db_approvals r; db_intents := v;
  db_ci_runs := db_ci_runs r; db_assignments := db_assignments r; db_leases := db_leases r;
  db_mounts := db_mounts r; db_workbench := db_workbench r;
  db_control_tasks := db_control_tasks r
|}.

Definition set_db_ci_runs (v : gmap string FactoryCiRun) (r : Db) : Db := {|
  db_users := db_users r; db_workspaces := db_workspaces r; db_runs := db_runs r;
  db_cycles := db_cycles r; db_events := db_events r; db_evidence := db_evidence r;
  db_gates := db_gates r; db_approvals := db_approvals r; db_intents := db_intents r;
  db_ci_runs := v; db_assignments := db_assignments r; db_leases := db_leases r;
  db_mounts := db_mounts r; db_workbench := db_workbench r;
  db_control_tasks := db_control_tasks r
|}.

Definition set_db_assignments (v : gmap string FactoryWorkerAssignment) (r : Db) : Db := {|
  db_users := db_users r; db_workspaces := db_workspaces r; db_runs := db_runs r;
  db_cycles := db_cycles r; db_events := db_events r; db_evidence := db_evidence r;
  db_gates := db_gates r; db_approvals := db_approvals r; db_intents := db_intents r;
  db_ci_runs := db_ci_runs r; db_assignments := v; db_leases := db_leases r;
  db_mounts := db_mounts r; db_workbench := db_workbench r;
  db_control_tasks := db_control_tasks r
|}.

Definition set_db_leases (v : gmap string CapabilityOsLease) (r : Db) : Db := {|
  db_users := db_users r; db_workspaces := db_workspaces r; db_runs := db_runs r;
  db_cycles := db_cycles r; db_events := db_events r; db_evidence := db_evidence r;
  db_gates := db_gates r; db_approvals := db_approvals r; db_intents := db_intents r;
  db_ci_runs := db_ci_runs r; db_assignments := db_assignments r; db_leases := v;
  db_mounts := db_mounts r; db_workbench := db_workbench r;
  db_control_tasks := db_control_tasks r
|}.

Definition set_db_mounts (v : gmap string CapabilityOsMcpMount) (r : Db) : Db := {|
  db_users := db_users r; db_workspaces := db_workspaces r; db_runs := db_runs r;
  db_cycles := db_cycles r; db_events := db_events r; db_evidence := db_evidence r;
  db_gates := db_gates r; db_approvals := db_approvals r; db_intents := db_intents r;
  db_ci_runs := db_ci_runs r; db_assignments := db_assignments r; db_leases := db_leases r;
  db_mounts := v; db_workbench := db_workbench r; db_control_tasks := db_control_tasks r
|}.

Definition set_db_workbench (v : gmap string WorkbenchSession) (r : Db) : Db := {|
  db_users := db_users r; db_workspaces := db_workspaces r; db_runs := db_runs r;
  db_cycles := db_cycles r; db_events := db_events r; db_evidence := db_evidence r;
  db_gates := db_gates r; db_approvals := db_approvals r; db_intents := db_intents r;
  db_ci_runs := db_ci_runs r; db_assignments := db_assignments r; db_leases := db_leases r;
  db_mounts := db_mounts r; db_workbench := v;
  db_control_tasks := db_control_tasks r
|}.

Definition empty_db : Db := {|
  db_users := ∅; db_workspaces := ∅; db_runs := ∅; db_cycles := ∅; db_events := [];
  db_evidence := []; db_gates := []; db_approvals := ∅; db_intents := ∅; db_ci_runs := ∅;
  db_assignments := ∅; db_leases := ∅; db_mounts := ∅; db_workbench := ∅; db_control_tasks := ∅;
|}.

(** ** The world an execution runs in *)

(** The tables, and how many times the clock and the uuid generator were read. *)
Record World := {
  db : Db;
  ticks : nat;
  uids : nat;
}.

Definition set_db (f : Db -> Db) (w : World) : World :=
  {| db := f (db w); ticks := ticks w; uids := uids w |}.

Section Session.
Context `{Env}.

(** [_now_ms()] *)
Definition _now_ms : M World Z :=
  fun w => (Ok (clock (ticks w)), {| db := db w; ticks := S (ticks w); uids := uids w |}).

(** [_new_id(prefix)] *)
Definition _new_id (prefix : string) : M World string :=
  fun w => (Ok (prefix +:+ "_" +:+ uuid_hex (uids w)),
            {| db := db w; ticks := ticks w; uids := S (uids w) |}).

(** [async with db.begin(): m] *)
Definition transaction {A} (m : M World A) : M World A :=
  fun w =>
    match m w with
    | (Err e, w') => (Err e, {| db := db w; ticks := ticks w'; uids := uids w' |})
    | r => r
    end.

Definition query {A} (f : Db -> A) : M World A := gets (fun w => f (db w)).
Definition write (f : Db -> Db) : M World unit := modify (set_db f).

(** [scalar_one_or_none()] and [scalar_one()] *)
Definition scalar_one_or_none {A} (rows : list A) : M World (option A) :=
  match rows with
  | [] => ret None
  | [x] => ret (Some x)
  | _ => raise MultipleResultsFound
  end.
Definition scalar_one {A} (rows : list A) : M World A :=
  match rows with
  | [x] => ret x
  | [] => raise NoResultFound
  | _ => raise MultipleResultsFound
  end.

Definition select {A} (p : A -> bool) (rows : list A) : list A := List.filter p rows.
Definition rows_of {A} (m : gmap string A) : list A := (map_to_list m).*2.

(** [ORDER BY] the order [le], and [LIMIT n] *)
Definition order_by {A} (le : A -> A -> bool) (rows : list A) : list A :=
  merge_sort (fun a b => Is_true (le a b)) rows.
Definition limit_rows {A} (n : Z) (rows : list A) : list A := take (Z.to_nat n) rows.

(** the order of two columns, the second one a text *)
Definition by_time_and_id {A} (time : A -> Z) (key : A -> string) (a b : A) : bool :=
  (time a <? time b)%Z || ((time a =? time b)%Z && String.leb (key a) (key b)).

(** [max(low, min(n, high))] *)
Definition clamp (low high n : Z) : Z := Z.max low (Z.min n high).

Definition opt_eqb (x y : option string) : bool := bool_decide (x = y).

(** [select(func.max(column))] over some rows: [None] for no row *)
Definition max_of (l : list Z) : option Z :=
  match l with
  | [] => None
  | z :: l' => Some (fold_left Z.max l' z)
  end.

(** [int(x or 0)] for a nullable integer *)
Definition int_or_zero (x : option Z) : Z := default 0%Z x.

(** [key IS NOT NULL AND column = key] inside a UNIQUE constraint *)
Definition same_key (x y : option string) : bool :=
  match x, y with
  | Some a, Some b => str_eqb a b
  | _, _ => false
  end.

Definition check (b : bool) (constraint : string) : M World unit :=
  if b then ret tt else raise (IntegrityError constraint).

Definition known_cycle (c : option string) (d : Db) : bool :=
  match c with
  | None => true
  | Some c => bool_decide (is_Some (db_cycles d !! c))
  end.
Definition known_run (r : string) (d : Db) : bool := bool_decide (is_Some (db_runs d !! r)).

Definition insert_run (r : FactoryRun) : M World unit :=
  let* d := query id in
  let* _ := check (bool_decide (db_runs d !! run_id r = None)) "factory_runs.id" in
  let* _ := check (bool_decide (run_user_id r ∈ db_users d)
                   && bool_decide (run_workspace_id r ∈ db_workspaces d)) "FOREIGN KEY" in
  let* _ := check (negb (existsb (fun x => str_eqb (run_user_id x) (run_user_id r)
                           && same_key (run_idempotency_key x) (run_idempotency_key r))
                         (rows_of (db_runs d)))) "uq_factory_run_user_idempotency" in
  write (fun d => set_db_runs (<[run_id r := r]> (db_runs d)) d).

Definition insert_cycle (c : FactoryCycle) : M World unit :=
  let* d := query id in
  let* _ := check (bool_decide (db_cycles d !! cycle_id c = None)) "factory_cycles.id" in
  let* _ := check (known_run (cycle_run_id c) d) "FOREIGN KEY" in
  let* _ := check (negb (existsb (fun x => str_eqb (cycle_run_id x) (cycle_run_id c)
                           && (cycle_ordinal x =? cycle_ordinal c)%Z)
                         (rows_of (db_cycles d)))) "uq_factory_cycle_run_ordinal" in
  let* _ := check (negb (existsb (fun x => str_eqb (cycle_run_id x) (cycle_run_id c)
                           && same_key (cycle_idempotency_key x) (cycle_idempotency_key c))
                         (rows_of (db_cycles d)))) "uq_factory_cycle_run_idempotency" in
  write (fun d => set_db_cycles (<[cycle_id c := c]> (db_cycles d)) d).

Definition insert_event (e : FactoryEvent) : M World unit :=
  let* d := query id in
  let* _ := check (negb (existsb (fun x => str_eqb (ev_id x) (ev_id e)) (db_events d)))
                  "factory_events.id" in
  let* _ := check (known_run (ev_run_id e) d && known_cycle (ev_cycle_id e) d) "FOREIGN KEY" in
  let* _ := check (negb (existsb (fun x => str_eqb (ev_run_id x) (ev_run_id e)
                           && (ev_sequence x =? ev_sequence e)%Z) (db_events d)))
                  "uq_factory_event_run_sequence" in
  let* _ := check (negb (existsb (fun x => str_eqb (ev_run_id x) (ev_run_id e)
                           && same_key (ev_key x) (ev_key e)) (db_events d)))
                  "uq_factory_event_run_idempotency" in
  write (fun d => set_db_events (db_events d ++ [e]) d).

Definition insert_evidence (e : FactoryEvidence) : M World unit :=
  let* d := query id in
  let* _ := check (negb (existsb (fun x => str_eqb (evd_id x) (evd_id e)) (db_evidence d)))
                  "factory_evidence.id" in
  let* _ := check (known_run (evd_run_id e) d && known_cycle (evd_cycle_id e) d) "FOREIGN KEY" in
  let* _ := check (negb (existsb (fun x => str_eqb (evd_run_id x) (evd_run_id e)
                           && same_key (evd_key x) (evd_key e)) (db_evidence d)))
                  "uq_factory_evidence_run_idempotency" in
  write (fun d => set_db_evidence (db_evidence d ++ [e]) d).

Definition insert_gate (g : FactoryGateResult) : M World unit :=
  let* d := query id in
  let* _ := check (negb (existsb (fun x => str_eqb (gr_id x) (gr_id g)) (db_gates d)))
                  "factory_gate_results.id" in
  let* _ := check (known_run (gr_run_id g) d && known_cycle (Some (gr_cycle_id g)) d) "FOREIGN KEY" in
  let* _ := check (negb (existsb (fun x => str_eqb (gr_cycle_id x) (gr_cycle_id g)
                           && str_eqb (gr_gate_id x) (gr_gate_id g)
                           && (gr_attempt x =? gr_attempt g)%Z) (db_gates d)))
                  "uq_factory_gate_cycle_gate_attempt" in
  let* _ := check (negb (existsb (fun x => str_eqb (gr_run_id x) (gr_run_id g)
                           && same_key (gr_key x) (gr_key g)) (db_gates d)))
                  "uq_factory_gate_run_idempotency" in
  write (fun d => set_db_gates (db_gates d ++ [g]) d).

(** [UPDATE t SET ... WHERE p]: the rows it changes and how many they are *)
Definition update_where {A} (p : A -> bool) (f : A -> A) (t : gmap string A) : gmap string A :=
  (fun x => if p x then f x else x) <$> t.
Definition rowcount {A} (p : A -> bool) (t : gmap string A) : Z :=
  Z.of_nat (length (select p (rows_of t))).

(** writing back a loaded run or cycle *)
Definition save_run (r : FactoryRun) : M World unit :=
  write (fun d => set_db_runs (<[run_id r := r]> (db_runs d)) d).
Definition save_cycle (c : FactoryCycle) : M World unit :=
  write (fun d => set_db_cycles (<[cycle_id c := c]> (db_cycles d)) d).
End Session.

(** ** What a successful operation of the session did *)

Lemma transaction_Ok {A} (m : M World A) w a w' :
  transaction m w = (Ok a, w') -> m w = (Ok a, w').
Proof. unfold transaction. by destruct (m w) as [[?|?] ?]. Qed.

(** a failed transaction leaves the tables as they were *)
Lemma transaction_Err {A} (m : M World A) w e w' : transaction m w = (Err e, w') -> db w' = db w.
Proof. unfold transaction. destruct (m w) as [[?|?] ?]; [done|]. by intros [= <- <-]. Qed.

Lemma ret_Ok {W A} (a b : A) (w w' : W) : ret a w = (Ok b, w') <-> b = a /\ w' = w.
Proof. unfold ret. naive_solver. Qed.
Lemma raise_Ok {W A} e (b : A) (w w' : W) : raise e w = (Ok b, w') <-> False.
Proof. unfold raise. naive_solver. Qed.
Lemma lift_Ok {W A} (r : result A) b (w w' : W) : lift r w = (Ok b, w') <-> r = Ok b /\ w' = w.
Proof. unfold lift. naive_solver. Qed.
Lemma query_Ok {A} (f : Db -> A) b w w' : query f w = (Ok b, w') <-> b = f (db w) /\ w' = w.
Proof. unfold query, gets. naive_solver. Qed.
Lemma write_Ok f b w w' : write f w = (Ok b, w') <-> b = tt /\ w' = set_db f w.
Proof. unfold write, modify. destruct b. naive_solver. Qed.
Lemma check_Ok c s b w w' : check c s w = (Ok b, w') <-> c = true /\ w' = w.
Proof. unfold check, ret, raise. destruct c, b; naive_solver. Qed.

Section SessionFacts.
Context `{Env}.

Lemma now_Ok b w w' :
  _now_ms w = (Ok b, w') <->
  b = clock (ticks w) /\ w' = {| db := db w; ticks := S (ticks w); uids := uids w |}.
Proof. unfold _now_ms. naive_solver. Qed.
Lemma new_id_Ok p b w w' :
  _new_id p w = (Ok b, w') <->
  b = p +:+ "_" +:+ uuid_hex (uids w) /\ w' = {| db := db w; ticks := ticks w; uids := S (uids w) |}.
Proof. unfold _new_id. naive_solver. Qed.
End SessionFacts.

Lemma scalar_one_or_none_Ok {A} (rows : list A) b w w' :
  scalar_one_or_none rows w = (Ok b, w') <-> rows = option_list b /\ w' = w.
Proof.
  unfold scalar_one_or_none, ret, raise.
  destruct rows as [|x [|y rows]], b; simpl; naive_solver.
Qed.

Lemma elem_of_rows {A} (t : gmap string A) x : x ∈ rows_of t <-> exists i, t !! i = Some x.
Proof.
  unfold rows_of. rewrite list_elem_of_fmap. split.
  - intros ([i y] & -> & ?%elem_of_map_to_list). by exists i.
  - intros [i ?]. exists (i, x). by rewrite elem_of_map_to_list.
Qed.

Lemma elem_of_select {A} (p : A -> bool) l x : x ∈ select p l <-> x ∈ l /\ p x = true.
Proof. unfold select. rewrite !list_elem_of_In. apply filter_In. Qed.

Lemma order_by_in {A} (le : A -> A -> bool) (rows : list A) x : x ∈ order_by le rows <-> x ∈ rows.
Proof. unfold order_by. by rewrite (merge_sort_Permutation _ rows). Qed.

Lemma select_app {A} (p : A -> bool) l k : select p (l ++ k) = select p l ++ select p k.
Proof. apply List.filter_app. Qed.

Lemma opt_eqb_true x y : opt_eqb x y = true <-> x = y.
Proof. unfold opt_eqb. apply bool_decide_eq_true. Qed.

Lemma same_key_true x y : same_key x y = true <-> x = y /\ x <> None.
Proof.
  unfold same_key. destruct x, y; rewrite ?str_eqb_true; naive_solver.
Qed.

Lemma existsb_false {A} (f : A -> bool) l : existsb f l = false <-> forall x, x ∈ l -> f x = false.
Proof.
  rewrite <-not_true_iff_false, existsb_elem. split.
  - intros Hn x Hx. apply not_true_is_false. eauto.
  - intros Hf (x & Hx & ?). rewrite Hf in *; done.
Qed.

(** taking a successful run of a computation apart, statement by statement *)
Ltac ok_step :=
  match goal with
  | H : bind _ _ _ = (Ok _, _) |- _ =>
      let x := fresh "x" in let w := fresh "w" in let Hx := fresh "Hx" in
      apply bind_Ok in H as (x & w & Hx & H); cbv beta in H
  | H : transaction _ _ = (Ok _, _) |- _ => apply transaction_Ok in H
  | H : ret _ _ = (Ok _, _) |- _ => apply ret_Ok in H as [-> ->]
  | H : raise _ _ = (Ok _, _) |- _ => by apply raise_Ok in H
  | H : lift _ _ = (Ok _, _) |- _ => apply lift_Ok in H as [H ->]
  | H : query _ _ = (Ok _, _) |- _ => apply query_Ok in H as [-> ->]
  | H : write _ _ = (Ok _, _) |- _ => apply write_Ok in H as [-> ->]
  | H : check _ _ _ = (Ok _, _) |- _ => apply check_Ok in H as [H ->]
  | H : _now_ms _ = (Ok _, _) |- _ => apply now_Ok in H as [-> ->]
  | H : _new_id _ _ = (Ok _, _) |- _ => apply new_id_Ok in H as [-> ->]
  | H : scalar_one_or_none _ _ = (Ok _, _) |- _ => apply scalar_one_or_none_Ok in H as [H ->]
  | H : (match ?c with true => _ | false => _ end) _ = (Ok _, _) |- _ =>
      let E := fresh "E" in destruct c eqn:E
  | H : (match ?o with Some _ => _ | None => _ end) _ = (Ok _, _) |- _ =>
      let E := fresh "E" in destruct o eqn:E
  | H : (match ?p with (_, _) => _ end) _ = (Ok _, _) |- _ =>
      let a := fresh "a" in let b := fresh "b" in let E := fresh "E" in
      first [is_var p; destruct p as [a b] | destruct p as [a b] eqn:E]
  | H : Ok _ = Ok _ |- _ => injection H as H
  | H : Err _ = Ok _ |- _ => discriminate H
  end.
Ltac ok_inv := repeat ok_step.

Section InsertFacts.
Context `{Env}.

Lemma insert_event_Ok e u w w' :
  insert_event e w = (Ok u, w') ->
  w' = set_db (fun d => set_db_events (db_events d ++ [e]) d) w /\
  (forall x, x ∈ db_events (db w) -> ev_id x <> ev_id e) /\
  is_Some (db_runs (db w) !! ev_run_id e) /\
  (forall c, ev_cycle_id e = Some c -> is_Some (db_cycles (db w) !! c)) /\
  (forall x, x ∈ db_events (db w) -> ev_run_id x = ev_run_id e -> ev_sequence x <> ev_sequence e) /\
  (forall x k, x ∈ db_events (db w) -> ev_run_id x = ev_run_id e -> ev_key e = Some k ->
     ev_key x <> Some k).
Proof.
  unfold insert_event. intros Hi. ok_inv.
  apply negb_true_iff in Hx0, Hx2, Hx3. rewrite existsb_false in Hx0, Hx2, Hx3.
  apply andb_true_iff in Hx1 as [Hr Hc]. apply bool_decide_eq_true in Hr.
  split_and!; try done.
  - intros x Hx. by apply str_eqb_false, Hx0.
  - intros c Hec. unfold known_cycle in Hc. rewrite Hec in Hc. by apply bool_decide_eq_true in Hc.
  - intros x Hx Hrun Hseq. specialize (Hx2 x Hx). rewrite Hrun, Hseq, str_eqb_refl in Hx2.
    simpl in Hx2. by apply Z.eqb_neq in Hx2.
  - intros x k Hx Hrun Hk Hxk. specialize (Hx3 x Hx).
    rewrite Hrun, Hk, Hxk, str_eqb_refl in Hx3. simpl in Hx3. by rewrite str_eqb_refl in Hx3.
Qed.

Lemma insert_run_Ok r u w w' :
  insert_run r w = (Ok u, w') ->
  w' = set_db (fun d => set_db_runs (<[run_id r := r]> (db_runs d)) d) w /\
  db_runs (db w) !! run_id r = None /\
  (forall i x k, db_runs (db w) !! i = Some x -> run_user_id x = run_user_id r ->
     run_idempotency_key r = Some k -> run_idempotency_key x <> Some k).
Proof.
  unfold insert_run. intros Hi. ok_inv.
  apply bool_decide_eq_true in Hx0. apply negb_true_iff in Hx2. rewrite existsb_false in Hx2.
  split_and!; [done|done|]. intros i x k Hx Hu Hk Hxk.
  assert (x ∈ rows_of (db_runs (db w))) as Hin by (apply elem_of_rows; eauto).
  specialize (Hx2 x Hin). rewrite Hu, Hk, Hxk, str_eqb_refl in Hx2. simpl in Hx2.
  by rewrite str_eqb_refl in Hx2.
Qed.

Lemma insert_cycle_Ok c u w w' :
  insert_cycle c w = (Ok u, w') ->
  w' = set_db (fun d => set_db_cycles (<[cycle_id c := c]> (db_cycles d)) d) w /\
  db_cycles (db w) !! cycle_id c = None /\
  is_Some (db_runs (db w) !! cycle_run_id c) /\
  (forall i x k, db_cycles (db w) !! i = Some x -> cycle_run_id x = cycle_run_id c ->
     cycle_idempotency_key c = Some k -> cycle_idempotency_key x <> Some k).
Proof.
  unfold insert_cycle. intros Hi. ok_inv.
  apply bool_decide_eq_true in Hx0, Hx1. apply negb_true_iff in Hx3. rewrite existsb_false in Hx3.
  split_and!; [done..|]. intros i x k Hx Hu Hk Hxk.
  assert (x ∈ rows_of (db_cycles (db w))) as Hin by (apply elem_of_rows; eauto).
  specialize (Hx3 x Hin). rewrite Hu, Hk, Hxk, str_eqb_refl in Hx3. simpl in Hx3.
  by rewrite str_eqb_refl in Hx3.
Qed.

Lemma insert_evidence_Ok e u w w' :
  insert_evidence e w = (Ok u, w') ->
  w' = set_db (fun d => set_db_evidence (db_evidence d ++ [e]) d) w.
Proof. unfold insert_evidence. intros Hi. by ok_inv. Qed.

Lemma insert_gate_Ok g u w w' :
  insert_gate g w = (Ok u, w') ->
  w' = set_db (fun d => set_db_gates (db_gates d ++ [g]) d) w.
Proof. unfold insert_gate. intros Hi. by ok_inv. Qed.
End InsertFacts.
