(* ===== verification/CapabilityLifecycle.v ===== *)
(** * Zero authority for inactive tasks

    Models [cptr/services/capability_os/lifecycle.py] and the lease and mount
    operations of [capability_os/store.py] that it uses: the revocation of what
    one task holds, the test whether a task may hold anything, and the
    reconciliation of the tables after a crash or a race. *)

From S2P Require Import Prelude PyStr Json FactoryDomain FactoryGates Database.

Definition _WORKBENCH_ZERO_AUTHORITY : list string :=
  ["COMPLETE"; "FAILED"; "CANCELLED"; "ARCHIVED"; "WAITING_APPROVAL"; "REVIEW_REQUIRED"].
Definition _FACTORY_ZERO_AUTHORITY : list string :=
  ["COMPLETE"; "FAILED"; "CANCELLED"; "BLOCKED"; "PAUSED"; "APPROVAL_REQUIRED"; "RECOVERING"].
Definition _CONTROL_ZERO_AUTHORITY : list string :=
  ["COMPLETE"; "COMPLETE_WITH_TOOL_ERRORS"; "FAILED"; "CANCELLED"; "REJECTED"; "CANCEL_REQUESTED";
   "REVIEW_REQUIRED"].
Definition is_in (x : string) (l : list string) : bool := existsb (str_eqb x) l.

(** [status or "UNKNOWN"] *)
Definition status_or_unknown (s : string) : string := if empty_str s then "UNKNOWN" else s.

(** [_task_requires_zero_authority] *)
Definition _task_requires_zero_authority (d : Db) (task_id : string) : bool * string :=
  match db_workbench d !! task_id with
  | Some workbench =>
      let status := upper (default "" (wb_status workbench)) in
      match wb_deleted_at workbench with
      | Some _ => (true, "workbench-deleted")
      | None => (is_in status _WORKBENCH_ZERO_AUTHORITY, "workbench:" +:+ status_or_unknown status)
      end
  | None =>
  match db_runs d !! task_id with
  | Some factory =>
      let status := upper (state_value (run_state factory)) in
      (is_in status _FACTORY_ZERO_AUTHORITY, "factory:" +:+ status_or_unknown status)
  | None =>
  match db_control_tasks d !! task_id with
  | Some control =>
      let status := upper (default "" (ct_status control)) in
      (is_in status _CONTROL_ZERO_AUTHORITY, "control:" +:+ status_or_unknown status)
  | None => (true, "orphaned-task")
  end end end.

Section Ops.
Context `{Env}.

(** ** The operations of the store *)

Definition lease_active (l : CapabilityOsLease) : bool := str_eqb (lease_status l) "active".
Definition mount_mounted (m : CapabilityOsMcpMount) : bool := str_eqb (mount_state m) "mounted".

Definition retire_lease (now : Z) (l : CapabilityOsLease) : CapabilityOsLease :=
  set_lease_revoked_at_ms (Some now) (set_lease_status "revoked" l).
Definition retire_mount (now : Z) (m : CapabilityOsMcpMount) : CapabilityOsMcpMount :=
  set_mount_released_at_ms (Some now) (set_mount_updated_at_ms now (set_mount_state "released" m)).

(** [UPDATE capability_os_leases ... WHERE p]: the number of rows changed *)
Definition retire_leases (p : CapabilityOsLease -> bool) (now : Z) : M World Z :=
  let* n := query (fun d => rowcount p (db_leases d)) in
  let* _ := write (fun d => set_db_leases (update_where p (retire_lease now) (db_leases d)) d) in
  ret n.
Definition retire_mounts (p : CapabilityOsMcpMount -> bool) (now : Z) : M World Z :=
  let* n := query (fun d => rowcount p (db_mounts d)) in
  let* _ := write (fun d => set_db_mounts (update_where p (retire_mount now) (db_mounts d)) d) in
  ret n.

Definition revoke_lease (lid : string) (now : Z) : M World bool :=
  let* n := retire_leases (fun l => str_eqb (lease_id l) lid && lease_active l) now in
  ret (negb (n =? 0)%Z).
Definition revoke_task_leases (task_id : string) (now : Z) : M World Z :=
  retire_leases (fun l => str_eqb (lease_task_id l) task_id && lease_active l) now.
Definition release_mcp_mount (mid : string) (now : Z) : M World bool :=
  let* n := retire_mounts (fun m => str_eqb (mount_id m) mid && mount_mounted m) now in
  ret (negb (n =? 0)%Z).
Definition release_task_mounts (task_id : string) (now : Z) : M World Z :=
  retire_mounts (fun m => str_eqb (mount_task_id m) task_id && mount_mounted m) now.

(** [create_lease] and [create_mcp_mount], with the rows' primary keys and foreign
    keys; the new row is active (mounted) *)
Definition create_lease (l : CapabilityOsLease) : M World CapabilityOsLease :=
  let* lid := _new_id "lease" in
  let* d := query id in
  let* _ := check (bool_decide (db_leases d !! lid = None)) "capability_os_leases.lease_id" in
  let* _ := check (match lease_parent_lease_id l with
                   | None => true
                   | Some p => bool_decide (is_Some (db_leases d !! p))
                   end) "FOREIGN KEY" in
  let row := {|
    lease_id := lid; lease_task_id := lease_task_id l; lease_workload_id := lease_workload_id l;
    lease_artifact_digest := lease_artifact_digest l; lease_permissions := lease_permissions l;
    lease_resource_limits := lease_resource_limits l; lease_network := lease_network l;
    lease_credentials := lease_credentials l; lease_approval_id := lease_approval_id l;
    lease_parent_lease_id := lease_parent_lease_id l;
    lease_policy_decision_id := lease_policy_decision_id l;
    lease_attestation_requirements := lease_attestation_requirements l;
    lease_runtime_profile := lease_runtime_profile l; lease_status := "active";
    lease_issued_at_ms := lease_issued_at_ms l; lease_expires_at_ms := lease_expires_at_ms l;
    lease_revoked_at_ms := None |} in
  let* _ := write (fun d => set_db_leases (<[lid := row]> (db_leases d)) d) in
  ret row.

Definition create_mcp_mount (task_id server_id version digest lid : string)
    (projected_tools : list string) (transport_kind : string) (now : Z)
    : M World CapabilityOsMcpMount :=
  let* mid := _new_id "mcp_mount" in
  let* d := query id in
  let* _ := check (bool_decide (db_mounts d !! mid = None)) "capability_os_mcp_mounts.mount_id" in
  let* _ := check (bool_decide (is_Some (db_leases d !! lid))) "FOREIGN KEY" in
  let row := {|
    mount_id := mid; mount_task_id := task_id; mount_server_id := server_id;
    mount_version := version; mount_digest := digest; mount_state := "mounted";
    mount_lease_id := lid; mount_projected_tools := projected_tools;
    mount_transport_kind := transport_kind; mount_created_at_ms := now;
    mount_updated_at_ms := now; mount_released_at_ms := None |} in
  let* _ := write (fun d => set_db_mounts (<[mid := row]> (db_mounts d)) d) in
  ret row.

(** ** Revocation and reconciliation *)

Record Revoked := { releasedMounts : Z; revokedLeases : Z }.

(** [revoke_task_authority] *)
Definition revoke_task_authority (task_id : string) (now_ms : option Z) : M World Revoked :=
  let normalized := strip task_id in
  raise_if empty_str normalized
    as ValueError "Capability OS lifecycle task id must not be blank" in
  let* current := match now_ms with Some n => ret n | None => _now_ms end in
  let* released_mounts := release_task_mounts normalized current in
  let* revoked_leases := revoke_task_leases normalized current in
  ret {| releasedMounts := released_mounts; revokedLeases := revoked_leases |}.

Record Reconciled := {
  inactiveTaskReasons : list (string * string);
  releasedExpiredMounts : Z;
  revokedExpiredLeases : Z;
  releasedTaskMounts : Z;
  revokedTaskLeases : Z;
}.

Definition lease_expired (current : Z) (l : CapabilityOsLease) : bool :=
  lease_active l && (lease_expires_at_ms l <=? current)%Z.

(** the tasks of the active leases and mounted mounts, in the order the code
    visits them *)
Definition candidate_task_ids (d : Db) : list string :=
  sorted_set
    (List.filter (fun t => negb (empty_str t))
      (map lease_task_id (select lease_active (rows_of (db_leases d)))
       ++ map mount_task_id (select mount_mounted (rows_of (db_mounts d))))).

Definition inactive_tasks (d : Db) : list (string * string) :=
  flat_map (fun t => let '(zero, reason) := _task_requires_zero_authority d t in
                     if zero then [(t, reason)] else []) (candidate_task_ids d).

Definition count_true (l : list bool) : Z := Z.of_nat (length (List.filter id l)).
Definition sum (l : list Z) : Z := fold_right Z.add 0%Z l.

(** one turn of the loop over expired leases: the mounts released, and whether
    the lease was revoked *)
Definition retire_expired (current : Z) (l : CapabilityOsLease) : M World (Z * bool) :=
  let* mount_ids := query (fun d =>
    map mount_id (select (fun m => str_eqb (mount_lease_id m) (lease_id l) && mount_mounted m)
                         (rows_of (db_mounts d)))) in
  let* released := for_each (fun mid => release_mcp_mount mid current) mount_ids in
  let* revoked := revoke_lease (lease_id l) current in
  ret (count_true released, revoked).

(** [reconcile_inactive_task_authority] *)
Definition reconcile_inactive_task_authority (now_ms : option Z) : M World Reconciled :=
  let* current := match now_ms with Some n => ret n | None => _now_ms end in
  let* expired_leases := query (fun d => select (lease_expired current) (rows_of (db_leases d))) in
  let* inactive := query inactive_tasks in
  let* expired := for_each (retire_expired current) expired_leases in
  let* tasks := for_each (fun t => revoke_task_authority t.1 (Some current)) inactive in
  ret {| inactiveTaskReasons := inactive;
         releasedExpiredMounts := sum (map fst expired);
         revokedExpiredLeases := count_true (map snd expired);
         releasedTaskMounts := sum (map releasedMounts tasks);
         revokedTaskLeases := sum (map revokedLeases tasks) |}.
End Ops.

(** ** Specification *)

(** a task that holds nothing *)
Record zero_authority (d : Db) (t : string) : Prop := {
  no_lease : forall i l, db_leases d !! i = Some l -> lease_task_id l = t -> lease_active l = false;
  no_mount : forall i m, db_mounts d !! i = Some m -> mount_task_id m = t -> mount_mounted m = false;
}.

(** [d'] is [d] after some active leases that satisfy [PL] and some mounted
    mounts that satisfy [PM] were retired at [now] *)
Record retired (now : Z) (PL : CapabilityOsLease -> Prop) (PM : CapabilityOsMcpMount -> Prop)
    (d d' : Db) : Prop := {
  only_authority : d' = set_db_leases (db_leases d') (set_db_mounts (db_mounts d') d);
  leases_retired i : db_leases d' !! i = db_leases d !! i \/
    exists l, db_leases d !! i = Some l /\ lease_active l = true /\ PL l /\
              db_leases d' !! i = Some (retire_lease now l);
  mounts_retired i : db_mounts d' !! i = db_mounts d !! i \/
    exists m, db_mounts d !! i = Some m /\ mount_mounted m = true /\ PM m /\
              db_mounts d' !! i = Some (retire_mount now m);
}.

(** ** Lemmas *)

Section Lemmas.
Context `{Env}.
Context (now : Z).

Lemma retired_refl PL PM d : retired now PL PM d d.
Proof. split; [by destruct d|by left|by left]. Qed.

Lemma retired_trans PL PM d1 d2 d3 :
  retired now PL PM d1 d2 -> retired now PL PM d2 d3 -> retired now PL PM d1 d3.
Proof.
  intros [E1 L1 M1] [E2 L2 M2]. split.
  - rewrite E1 in E2. exact E2.
  - intros i. destruct (L2 i) as [-> | (l & Hl & ? & ? & ->)]; [apply L1|].
    destruct (L1 i) as [Heq|(l1 & ? & ? & ? & Heq)]; rewrite Heq in Hl; [eauto 7|].
    by injection Hl as <-.
  - intros i. destruct (M2 i) as [-> | (m & Hm & ? & ? & ->)]; [apply M1|].
    destruct (M1 i) as [Heq|(m1 & ? & ? & ? & Heq)]; rewrite Heq in Hm; [eauto 7|].
    by injection Hm as <-.
Qed.

Lemma retired_mono (PL PL' : _ -> Prop) (PM PM' : _ -> Prop) d d' :
  (forall l, PL l -> PL' l) -> (forall m, PM m -> PM' m) ->
  retired now PL PM d d' -> retired now PL' PM' d d'.
Proof.
  intros HL HM [E L M]. split; [done| |].
  - intros i. destruct (L i) as [?|(l & ? & ? & ? & ?)]; [by left|right; exists l; auto].
  - intros i. destruct (M i) as [?|(m & ? & ? & ? & ?)]; [by left|right; exists m; auto].
Qed.

(** what is not held stays not held *)
Lemma retired_inactive_lease PL PM d d' i l l' :
  retired now PL PM d d' -> db_leases d !! i = Some l -> db_leases d' !! i = Some l' ->
  lease_active l' = true -> l' = l.
Proof.
  intros [_ L _] Hl Hl' Ha. destruct (L i) as [Heq|(l0 & ? & ? & ? & Heq)]; [congruence|].
  rewrite Heq in Hl'. by injection Hl' as <-.
Qed.
Lemma retired_unmounted PL PM d d' i m m' :
  retired now PL PM d d' -> db_mounts d !! i = Some m -> db_mounts d' !! i = Some m' ->
  mount_mounted m' = true -> m' = m.
Proof.
  intros [_ _ M] Hm Hm' Ha. destruct (M i) as [Heq|(m0 & ? & ? & ? & Heq)]; [congruence|].
  rewrite Heq in Hm'. by injection Hm' as <-.
Qed.
Lemma retired_lease_origin PL PM d d' i l' :
  retired now PL PM d d' -> db_leases d' !! i = Some l' ->
  exists l, db_leases d !! i = Some l /\ lease_task_id l' = lease_task_id l.
Proof.
  intros [_ L _] Hl'. destruct (L i) as [Heq|(l0 & ? & ? & ? & Heq)]; rewrite Heq in Hl'; [eauto|].
  injection Hl' as <-. eauto.
Qed.
Lemma retired_mount_origin PL PM d d' i m' :
  retired now PL PM d d' -> db_mounts d' !! i = Some m' ->
  exists m, db_mounts d !! i = Some m /\ mount_task_id m' = mount_task_id m.
Proof.
  intros [_ _ M] Hm'. destruct (M i) as [Heq|(m0 & ? & ? & ? & Heq)]; rewrite Heq in Hm'; [eauto|].
  injection Hm' as <-. eauto.
Qed.

Lemma zero_authority_retired PL PM d d' t :
  zero_authority d t -> retired now PL PM d d' -> zero_authority d' t.
Proof.
  intros [HL HM] Hr. split.
  - intros i l' Hl' Ht. apply not_true_is_false. intros Ha.
    destruct (retired_lease_origin _ _ _ _ _ _ Hr Hl') as (l & Hl & Htl).
    pose proof (retired_inactive_lease _ _ _ _ _ _ _ Hr Hl Hl' Ha) as ->.
    rewrite (HL i l Hl Ht) in Ha. done.
  - intros i m' Hm' Ht. apply not_true_is_false. intros Ha.
    destruct (retired_mount_origin _ _ _ _ _ _ Hr Hm') as (m & Hm & Htm).
    pose proof (retired_unmounted _ _ _ _ _ _ _ Hr Hm Hm' Ha) as ->.
    rewrite (HM i m Hm Ht) in Ha. done.
Qed.

(** the two UPDATE statements *)
Lemma retire_leases_spec (p : CapabilityOsLease -> bool) (w : World) :
  (forall l, p l = true -> lease_active l = true) ->
  exists n w', retire_leases p now w = (Ok n, w') /\ n = rowcount p (db_leases (db w)) /\
    ticks w' = ticks w /\ uids w' = uids w /\
    retired now (fun l => p l = true) (fun _ => False) (db w) (db w') /\
    db_mounts (db w') = db_mounts (db w) /\
    forall i l, db_leases (db w') !! i = Some l -> p l = false.
Proof.
  intros Hp. eexists _, _. split; [done|]. split; [done|]. simpl. split_and!; try done.
  - split; simpl; [by destruct (db w)| |by left]. intros i. unfold update_where.
    rewrite lookup_fmap. destruct (db_leases (db w) !! i) as [l|] eqn:E; simpl; [|by left].
    destruct (p l) eqn:Hpl; [right; exists l; auto|by left].
  - intros i l. unfold update_where. rewrite lookup_fmap.
    destruct (db_leases (db w) !! i) as [l0|]; simpl; [|done]. intros [= <-].
    destruct (p l0) eqn:E; [|done]. apply not_true_is_false. by intros ?%Hp.
Qed.

Lemma retire_mounts_spec (p : CapabilityOsMcpMount -> bool) (w : World) :
  (forall m, p m = true -> mount_mounted m = true) ->
  exists n w', retire_mounts p now w = (Ok n, w') /\ n = rowcount p (db_mounts (db w)) /\
    ticks w' = ticks w /\ uids w' = uids w /\
    retired now (fun _ => False) (fun m => p m = true) (db w) (db w') /\
    db_leases (db w') = db_leases (db w) /\
    forall i m, db_mounts (db w') !! i = Some m -> p m = false.
Proof.
  intros Hp. eexists _, _. split; [done|]. split; [done|]. simpl. split_and!; try done.
  - split; simpl; [by destruct (db w)|by left|]. intros i. unfold update_where.
    rewrite lookup_fmap. destruct (db_mounts (db w) !! i) as [m|] eqn:E; simpl; [|by left].
    destruct (p m) eqn:Hpm; [right; exists m; auto|by left].
  - intros i m. unfold update_where. rewrite lookup_fmap.
    destruct (db_mounts (db w) !! i) as [m0|]; simpl; [|done]. intros [= <-].
    destruct (p m0) eqn:E; [|done]. apply not_true_is_false. by intros ?%Hp.
Qed.
End Lemmas.

Section Revocation.
Context `{Env}.

(** the time an operation with an optional [now_ms] uses *)
Definition time_of (now_ms : option Z) (w : World) : Z := default (clock (ticks w)) now_ms.

Definition holds_lease (t : string) (l : CapabilityOsLease) : bool :=
  str_eqb (lease_task_id l) t && lease_active l.
Definition holds_mount (t : string) (m : CapabilityOsMcpMount) : bool :=
  str_eqb (mount_task_id m) t && mount_mounted m.

Lemma revoke_spec t o w :
  empty_str (strip t) = false ->
  exists w',
    revoke_task_authority t o w =
      (Ok {| releasedMounts := rowcount (holds_mount (strip t)) (db_mounts (db w));
             revokedLeases := rowcount (holds_lease (strip t)) (db_leases (db w)) |}, w') /\
    retired (time_of o w) (fun l => lease_task_id l = strip t) (fun m => mount_task_id m = strip t)
      (db w) (db w') /\
    zero_authority (db w') (strip t).
Proof.
  intros Ht. unfold revoke_task_authority. rewrite Ht.
  set (w0 := match o with Some _ => w | None => {| db := db w; ticks := S (ticks w); uids := uids w |} end).
  assert (Hnow : (match o with Some n => ret n | None => _now_ms end) w = (Ok (time_of o w), w0))
    by (by destruct o).
  assert (Hdb : db w0 = db w) by (by destruct o).
  set (now := time_of o w) in *.
  destruct (retire_mounts_spec now (holds_mount (strip t)) w0) as (n1 & w1 & E1 & -> & _ & _ & R1 & L1 & Z1).
  { by intros m [_ ?]%andb_true_iff. }
  destruct (retire_leases_spec now (holds_lease (strip t)) w1) as (n2 & w2 & E2 & -> & _ & _ & R2 & M2 & Z2).
  { by intros l [_ ?]%andb_true_iff. }
  rewrite Hdb in *. rewrite L1 in E2.
  exists w2. split; [|split].
  - apply bind_Ok. exists now, w0. split; [exact Hnow|].
    apply bind_Ok. eexists _, w1. split; [exact E1|].
    apply bind_Ok. eexists _, w2. split; [exact E2|done].
  - eapply retired_trans; (eapply retired_mono; [..|eassumption]); try done.
    + by intros m [?%str_eqb_true _]%andb_true_iff.
    + by intros l [?%str_eqb_true _]%andb_true_iff.
  - split.
    + intros i l Hl Htl. apply Z2 in Hl. unfold holds_lease in Hl.
      by rewrite Htl, str_eqb_refl in Hl.
    + intros i m Hm Htm. rewrite M2 in Hm. apply Z1 in Hm. unfold holds_mount in Hm.
      by rewrite Htm, str_eqb_refl in Hm.
Qed.

Lemma retired_none now PL PM d d' :
  (forall i l, db_leases d !! i = Some l -> PL l -> lease_active l = false) ->
  (forall i m, db_mounts d !! i = Some m -> PM m -> mount_mounted m = false) ->
  retired now PL PM d d' -> d' = d.
Proof.
  intros HL HM [E L M].
  assert (db_leases d' = db_leases d) as HLd.
  { apply map_eq. intros i. destruct (L i) as [?|(l & Hl & Ha & HP & _)]; [done|].
    rewrite (HL _ _ Hl HP) in Ha. done. }
  assert (db_mounts d' = db_mounts d) as HMd.
  { apply map_eq. intros i. destruct (M i) as [?|(m & Hm & Ha & HP & _)]; [done|].
    rewrite (HM _ _ Hm HP) in Ha. done. }
  rewrite E, HLd, HMd. by destruct d.
Qed.

Lemma rowcount_zero {A} (p : A -> bool) t :
  (forall i x, t !! i = Some x -> p x = false) -> rowcount p t = 0%Z.
Proof.
  intros Hp. unfold rowcount. destruct (select p (rows_of t)) as [|x l] eqn:E; [done|].
  assert (x ∈ select p (rows_of t)) as [[i Hi]%elem_of_rows Hx]%elem_of_select
    by (rewrite E; left).
  by rewrite (Hp _ _ Hi) in Hx.
Qed.

Lemma zero_authority_counts d t :
  zero_authority d t ->
  rowcount (holds_mount t) (db_mounts d) = 0%Z /\ rowcount (holds_lease t) (db_leases d) = 0%Z.
Proof.
  intros [HL HM]. split; apply rowcount_zero; intros i x Hx.
  - unfold holds_mount. destruct (str_eqb _ t) eqn:E; [|done].
    apply str_eqb_true in E. by rewrite (HM _ _ Hx E).
  - unfold holds_lease. destruct (str_eqb _ t) eqn:E; [|done].
    apply str_eqb_true in E. by rewrite (HL _ _ Hx E).
Qed.
End Revocation.

Section Reconciliation.
Context `{Env}.
Context (now : Z) (d0 : Db).

Definition inactive (t : string) : Prop := (_task_requires_zero_authority d0 t).1 = true.

(** rows are stored under their identifiers, and what is held is held under a
    task id without surrounding blanks *)
Record authority_wf : Prop := {
  lease_key i l : db_leases d0 !! i = Some l -> lease_id l = i;
  mount_key i m : db_mounts d0 !! i = Some m -> mount_id m = i;
  lease_task i l : db_leases d0 !! i = Some l -> lease_active l = true ->
    strip (lease_task_id l) = lease_task_id l /\ lease_task_id l <> "";
  mount_task i m : db_mounts d0 !! i = Some m -> mount_mounted m = true ->
    strip (mount_task_id m) = mount_task_id m /\ mount_task_id m <> "";
}.

(** what reconciliation may retire *)
Definition stale_lease (l : CapabilityOsLease) : Prop :=
  lease_expired now l = true \/ inactive (lease_task_id l).
Definition stale_mount (m : CapabilityOsMcpMount) : Prop :=
  inactive (mount_task_id m) \/
  exists l, db_leases d0 !! mount_lease_id m = Some l /\ lease_expired now l = true.

Definition swept (w1 w2 : World) : Prop := retired now stale_lease stale_mount (db w1) (db w2).

Definition lease_done (lid : string) (w : World) : Prop :=
  (forall i l, db_leases (db w) !! i = Some l -> lease_id l = lid -> lease_active l = false) /\
  (forall i m, db_mounts (db w) !! i = Some m -> mount_lease_id m = lid -> mount_mounted m = false).
Definition mount_done (mid : string) (w : World) : Prop :=
  forall i m, db_mounts (db w) !! i = Some m -> mount_id m = mid -> mount_mounted m = false.

Lemma unmounted_kept (P : CapabilityOsMcpMount -> Prop) w1 w2 :
  (forall m, P (retire_mount now m) -> P m) ->
  (forall i m, db_mounts (db w1) !! i = Some m -> P m -> mount_mounted m = false) ->
  swept w1 w2 ->
  forall i m, db_mounts (db w2) !! i = Some m -> P m -> mount_mounted m = false.
Proof.
  intros HP H1 [_ _ M] i m Hm Hmid.
  destruct (M i) as [Heq|(m0 & ? & ? & ? & Heq)]; rewrite Heq in Hm; [eauto|].
  by injection Hm as <-.
Qed.

Lemma mount_done_kept mid w1 w2 : mount_done mid w1 -> swept w1 w2 -> mount_done mid w2.
Proof. intros H1 Hs. exact (unmounted_kept (fun m => mount_id m = mid) w1 w2 (fun _ H => H) H1 Hs). Qed.

Lemma lease_done_kept lid w1 w2 : lease_done lid w1 -> swept w1 w2 -> lease_done lid w2.
Proof.
  intros [HL HM] Hs. split;
    [|exact (unmounted_kept (fun m => mount_lease_id m = lid) w1 w2 (fun _ H => H) HM Hs)].
  destruct Hs as [_ L _]. intros i l Hl Hid.
  destruct (L i) as [Heq|(l0 & ? & ? & ? & Heq)]; rewrite Heq in Hl; [eauto|].
  by injection Hl as <-.
Qed.

Lemma release_mount_swept mid w :
  (forall i m, db_mounts (db w) !! i = Some m -> mount_id m = mid -> mount_mounted m = true ->
     stale_mount m) ->
  exists b w', release_mcp_mount mid now w = (Ok b, w') /\ swept w w' /\ mount_done mid w'.
Proof.
  intros Hst.
  destruct (retire_mounts_spec now (fun m => str_eqb (mount_id m) mid && mount_mounted m) w)
    as (n & w' & E & _ & _ & _ & R & L & Z).
  { by intros m [_ ?]%andb_true_iff. }
  eexists _, w'. split; [apply bind_Ok; eexists _, w'; split; [exact E|done]|]. split.
  - destruct R as [Eq Ls Ms]. split; [done|intros i; left; by rewrite L|]. intros i.
    destruct (Ms i) as [?|(m & Hm & Hmm & Hp & ?)]; [by left|]. right. exists m. split_and!; try done.
    apply andb_true_iff in Hp as [?%str_eqb_true _]. eauto.
  - intros i m Hm Hid. apply Z in Hm. by rewrite Hid, str_eqb_refl in Hm.
Qed.

Lemma revoke_lease_swept lid w :
  (forall i l, db_leases (db w) !! i = Some l -> lease_id l = lid -> lease_active l = true ->
     stale_lease l) ->
  exists b w', revoke_lease lid now w = (Ok b, w') /\ swept w w' /\
    db_mounts (db w') = db_mounts (db w) /\
    forall i l, db_leases (db w') !! i = Some l -> lease_id l = lid -> lease_active l = false.
Proof.
  intros Hst.
  destruct (retire_leases_spec now (fun l => str_eqb (lease_id l) lid && lease_active l) w)
    as (n & w' & E & _ & _ & _ & R & M & Z).
  { by intros l [_ ?]%andb_true_iff. }
  eexists _, w'. split; [apply bind_Ok; eexists _, w'; split; [exact E|done]|]. split_and!; [|done|].
  - destruct R as [Eq Ls Ms]. split; [done| |intros i; left; by rewrite M]. intros i.
    destruct (Ls i) as [?|(l & Hl & Hla & Hp & ?)]; [by left|]. right. exists l. split_and!; try done.
    apply andb_true_iff in Hp as [?%str_eqb_true _]. eauto.
  - intros i l Hl Hid. apply Z in Hl. by rewrite Hid, str_eqb_refl in Hl.
Qed.

(** a row that is still held was held from the start, unchanged *)
Lemma held_lease_origin w w' i l :
  swept w w' -> db_leases (db w') !! i = Some l -> lease_active l = true ->
  db_leases (db w) !! i = Some l.
Proof.
  intros [_ L _] Hl Ha. destruct (L i) as [Heq|(l0 & ? & ? & ? & Heq)]; rewrite Heq in Hl; [done|].
  by injection Hl as <-.
Qed.
Lemma held_mount_origin w w' i m :
  swept w w' -> db_mounts (db w') !! i = Some m -> mount_mounted m = true ->
  db_mounts (db w) !! i = Some m.
Proof.
  intros [_ _ M] Hm Ha. destruct (M i) as [Heq|(m0 & ? & ? & ? & Heq)]; rewrite Heq in Hm; [done|].
  by injection Hm as <-.
Qed.
Lemma swept_refl w : swept w w.
Proof. apply retired_refl. Qed.
Lemma swept_trans w1 w2 w3 : swept w1 w2 -> swept w2 w3 -> swept w1 w3.
Proof. apply retired_trans. Qed.
End Reconciliation.

Section ReconcileLoops.
Context `{Env}.
Context (now : Z) (w0 : World).
#[local] Abbreviation d0 := (db w0).
#[local] Abbreviation swept0 := (swept now d0).
Context (Hwf : authority_wf d0).

(** one expired lease: its mounts and itself *)
Lemma retire_expired_swept l w :
  swept0 w0 w -> l ∈ select (lease_expired now) (rows_of (db_leases d0)) ->
  exists r w', retire_expired now l w = (Ok r, w') /\ swept0 w w' /\ lease_done (lease_id l) w'.
Proof.
  intros Hw [[i Hi]%elem_of_rows Hexp]%elem_of_select.
  pose proof (lease_key _ Hwf _ _ Hi) as Hid.
  set (mine := fun m => str_eqb (mount_lease_id m) (lease_id l) && mount_mounted m).
  destruct (for_each_Ok (fun mid => release_mcp_mount mid now) swept0 mount_done
              (map mount_id (select mine (rows_of (db_mounts (db w))))) w)
    as (bs & w1 & E1 & R1 & D1).
  { apply swept_refl. }
  { apply swept_trans. }
  { intros mid w1 w2. apply mount_done_kept. }
  { intros mid w1 (m' & -> & ([j' Hj']%elem_of_rows & Hm')%elem_of_select)%list_elem_of_fmap Hw1.
    apply release_mount_swept. intros j m Hm Hmid Hmm. right. exists l.
    pose proof (held_mount_origin _ _ _ _ _ _ Hw1 Hm Hmm) as Hm1.
    assert (db_mounts (db w) !! mount_id m' = Some m' /\ db_mounts (db w) !! mount_id m = Some m)
      as [Hk' Hk].
    { apply andb_true_iff in Hm' as [_ Hmm'].
      split; [rewrite (mount_key _ Hwf _ _ (held_mount_origin _ _ _ _ _ _ Hw Hj' Hmm')); done|].
      by rewrite (mount_key _ Hwf _ _ (held_mount_origin _ _ _ _ _ _ Hw Hm1 Hmm)). }
    rewrite Hmid, Hk' in Hk. injection Hk as ->.
    apply andb_true_iff in Hm' as [->%str_eqb_true _]. by rewrite Hid. }
  destruct (revoke_lease_swept now d0 (lease_id l) w1) as (b & w2 & E2 & R2 & M2 & Z2).
  { intros j l' Hl' Hid' Ha.
    pose proof (held_lease_origin _ _ _ _ _ _ (swept_trans _ _ _ _ _ Hw R1) Hl' Ha) as Hl0.
    rewrite <- (lease_key _ Hwf _ _ Hl0), Hid', Hid, Hi in Hl0. injection Hl0 as <-. by left. }
  eexists _, w2. split; [|split; [by eapply swept_trans|split; [exact Z2|]]].
  - apply bind_Ok. eexists _, w. split; [done|].
    apply bind_Ok. eexists _, w1. split; [exact E1|].
    apply bind_Ok. eexists _, w2. split; [exact E2|done].
  - rewrite M2. intros j m Hm Hml. apply not_true_is_false. intros Hmm.
    pose proof (held_mount_origin _ _ _ _ _ _ R1 Hm Hmm) as Hm0.
    assert (mount_mounted m = false); [|congruence]. apply (D1 (mount_id m)) with j; [|done|done].
    apply list_elem_of_fmap. exists m. split; [done|]. apply elem_of_select. split.
    + apply elem_of_rows. eauto.
    + unfold mine. by rewrite Hml, str_eqb_refl.
Qed.

Lemma elem_of_candidates t :
  t ∈ candidate_task_ids d0 <-> t <> "" /\
    ((exists i l, db_leases d0 !! i = Some l /\ lease_active l = true /\ lease_task_id l = t) \/
     (exists i m, db_mounts d0 !! i = Some m /\ mount_mounted m = true /\ mount_task_id m = t)).
Proof.
  unfold candidate_task_ids, sorted_set.
  rewrite (merge_sort_Permutation _ _), elem_of_remove_dups.
  fold (select (fun t => negb (empty_str t))). rewrite elem_of_select, elem_of_app, !list_elem_of_fmap.
  setoid_rewrite elem_of_select. setoid_rewrite elem_of_rows.
  rewrite negb_true_iff, empty_str_false. split.
  - intros [[(l & -> & [i ?] & ?)|(m & -> & [i ?] & ?)] ?]; (split; [done|]); [left|right]; eauto.
  - intros [? [(i & l & ? & ? & <-)|(i & m & ? & ? & <-)]]; (split; [|done]); [left|right];
      eexists; split_and!; eauto.
Qed.

Lemma elem_of_inactive t reason :
  (t, reason) ∈ inactive_tasks d0 ->
  t ∈ candidate_task_ids d0 /\ inactive d0 t.
Proof.
  unfold inactive_tasks, inactive. intros (t' & ? & Ht)%elem_of_flat_map.
  destruct (_task_requires_zero_authority d0 t') as [[] r] eqn:E; [|by apply elem_of_nil in Ht].
  apply list_elem_of_singleton in Ht as [= -> ->]. by rewrite E.
Qed.

Lemma inactive_visited t :
  t ∈ candidate_task_ids d0 -> inactive d0 t -> exists reason, (t, reason) ∈ inactive_tasks d0.
Proof.
  unfold inactive_tasks, inactive. intros ? Hz. exists (_task_requires_zero_authority d0 t).2.
  apply elem_of_flat_map. exists t. split; [done|].
  destruct (_task_requires_zero_authority d0 t) as [b r]. simpl in Hz. subst b. by left.
Qed.

Lemma candidate_normal t : t ∈ candidate_task_ids d0 -> strip t = t /\ t <> "".
Proof.
  intros [? [(i & l & Hl & Ha & <-)|(i & m & Hm & Ha & <-)]]%elem_of_candidates.
  - exact (lease_task _ Hwf _ _ Hl Ha).
  - exact (mount_task _ Hwf _ _ Hm Ha).
Qed.

(** one inactive task *)
Lemma revoke_swept t reason w :
  (t, reason) ∈ inactive_tasks d0 ->
  exists r w', revoke_task_authority t (Some now) w = (Ok r, w') /\ swept0 w w' /\
    zero_authority (db w') t.
Proof.
  intros [Hc Hin]%elem_of_inactive. apply candidate_normal in Hc as [Hs Hne].
  destruct (revoke_spec t (Some now) w) as (w' & E & R & Z).
  { rewrite Hs. by apply empty_str_false. }
  rewrite Hs in *. eexists _, w'. split_and!; [exact E| |done].
  eapply retired_mono; [..|exact R]; [intros l <-; by right|intros m <-; by left].
Qed.
End ReconcileLoops.

(** ** Theorems *)

(** C6. Revocation leaves a task with nothing: for a non-blank task id,
    [revoke_task_authority] succeeds, the task then has no active lease and no
    mounted mount, the reported numbers are those of the leases and mounts it
    held, only rows of this task change (each exactly once, active to revoked and
    mounted to released), and a second revocation finds nothing and changes no
    table. *)
Theorem revoke_task_authority_correct `{Env} t now_ms w :
  empty_str (strip t) = false ->
  exists r w',
    revoke_task_authority t now_ms w = (Ok r, w') /\
    zero_authority (db w') (strip t) /\
    releasedMounts r = rowcount (holds_mount (strip t)) (db_mounts (db w)) /\
    revokedLeases r = rowcount (holds_lease (strip t)) (db_leases (db w)) /\
    retired (time_of now_ms w) (fun l => lease_task_id l = strip t)
      (fun m => mount_task_id m = strip t) (db w) (db w') /\
    forall now_ms', exists w'',
      revoke_task_authority t now_ms' w' = (Ok {| releasedMounts := 0; revokedLeases := 0 |}, w'')
      /\ db w'' = db w'.
Proof.
  intros Ht. destruct (revoke_spec t now_ms w Ht) as (w' & E & R & Z).
  eexists _, w'. split_and!; [exact E|done|done|done|done|].
  intros o'. destruct (revoke_spec t o' w' Ht) as (w'' & E' & R' & _). exists w''.
  destruct (zero_authority_counts _ _ Z) as [HM HL]. rewrite HM, HL in E'. split; [done|].
  destruct Z. eapply retired_none; [..|exact R']; eauto.
Qed.

(** what reconciliation at [now] leaves of the tables [d0] *)
Record reconciled (now : Z) (d0 d : Db) : Prop := {
  only_stale_retired : retired now (stale_lease now d0) (stale_mount now d0) d0 d;
  leases_justified i l : db_leases d !! i = Some l -> lease_active l = true ->
    (now < lease_expires_at_ms l)%Z /\ ~ inactive d0 (lease_task_id l);
  mounts_justified i m : db_mounts d !! i = Some m -> mount_mounted m = true ->
    ~ inactive d0 (mount_task_id m) /\
    forall l, db_leases d0 !! mount_lease_id m = Some l -> lease_expired now l = false;
}.

(** Reconciliation repairs stale authority and nothing else: it succeeds,
    and then every active lease is unexpired and belongs to a task that may hold
    authority, every mounted mount belongs to such a task and not to an expired
    lease, and a row that was not stale is exactly as before. *)
Theorem reconcile_inactive_task_authority_correct `{Env} now w :
  authority_wf (db w) ->
  exists r w', reconcile_inactive_task_authority (Some now) w = (Ok r, w') /\
    reconciled now (db w) (db w').
Proof.
  intros Hwf.
  destruct (for_each_Ok (retire_expired now) (swept now (db w)) (fun l => lease_done (lease_id l))
              (select (lease_expired now) (rows_of (db_leases (db w)))) w)
    as (rs1 & w1 & E1 & R1 & D1).
  { apply swept_refl. } { apply swept_trans. } { intros l ??. apply lease_done_kept. }
  { intros l w1 Hl Hw1. by apply retire_expired_swept. }
  destruct (for_each_Ok (fun t => revoke_task_authority t.1 (Some now)) (swept now (db w))
              (fun t w => zero_authority (db w) t.1) (inactive_tasks (db w)) w1)
    as (rs2 & w2 & E2 & R2 & D2).
  { apply swept_refl. } { apply swept_trans. }
  { intros t ?? Hz Hs. by eapply zero_authority_retired. }
  { intros [t reason] w2 Ht _. by eapply revoke_swept. }
  eexists _, w2. split.
  { apply bind_Ok. exists now, w. split; [done|].
    apply bind_Ok. eexists _, w. split; [done|]. apply bind_Ok. eexists _, w. split; [done|].
    apply bind_Ok. eexists _, w1. split; [exact E1|].
    apply bind_Ok. eexists _, w2. split; [exact E2|done]. }
  pose proof (swept_trans _ _ _ _ _ R1 R2) as R. split; [exact R| |].
  - intros i l Hl Ha. pose proof (held_lease_origin _ _ _ _ _ _ R Hl Ha) as Hl0.
    pose proof (held_lease_origin _ _ _ _ _ _ R2 Hl Ha) as Hl1. split.
    + apply Z.nle_gt. intros Hexp. destruct (D1 l) as [Hd _].
      { apply elem_of_select. split; [apply elem_of_rows; eauto|].
        unfold lease_expired. rewrite Ha. by apply Z.leb_le. }
      by rewrite (Hd _ _ Hl1 eq_refl) in Ha.
    + intros Hin. destruct (lease_task _ Hwf _ _ Hl0 Ha) as [_ Hne].
      destruct (inactive_visited w (lease_task_id l)) as [reason Hv]; [|done|].
      { apply elem_of_candidates. split; [done|]. left; eauto. }
      destruct (D2 _ Hv) as [HL _]. by rewrite (HL _ _ Hl eq_refl) in Ha.
  - intros i m Hm Ha. pose proof (held_mount_origin _ _ _ _ _ _ R Hm Ha) as Hm0.
    pose proof (held_mount_origin _ _ _ _ _ _ R2 Hm Ha) as Hm1. split.
    + intros Hin. destruct (mount_task _ Hwf _ _ Hm0 Ha) as [_ Hne].
      destruct (inactive_visited w (mount_task_id m)) as [reason Hv]; [|done|].
      { apply elem_of_candidates. split; [done|]. right; eauto. }
      destruct (D2 _ Hv) as [_ HM]. by rewrite (HM _ _ Hm eq_refl) in Ha.
    + intros l Hl. apply not_true_is_false. intros Hexp. destruct (D1 l) as [_ Hd].
      { apply elem_of_select. split; [apply elem_of_rows; eauto|done]. }
      rewrite (Hd _ _ Hm1) in Ha; [done|]. by rewrite (lease_key _ Hwf _ _ Hl).
Qed.

(** ** A concrete instance *)

Definition demo_lease (lid task : string) (expires : Z) : CapabilityOsLease := {|
  lease_id := lid; lease_task_id := task; lease_workload_id := "w"; lease_artifact_digest := "d";
  lease_permissions := JList []; lease_resource_limits := JObj []; lease_network := JObj [];
  lease_credentials := JObj []; lease_approval_id := None; lease_parent_lease_id := None;
  lease_policy_decision_id := "p"; lease_attestation_requirements := JObj [];
  lease_runtime_profile := "local"; lease_status := "active"; lease_issued_at_ms := 0;
  lease_expires_at_ms := expires; lease_revoked_at_ms := None |}.
Definition demo_mount (mid task lid : string) : CapabilityOsMcpMount := {|
  mount_id := mid; mount_task_id := task; mount_server_id := "s"; mount_version := "1";
  mount_digest := "d"; mount_state := "mounted"; mount_lease_id := lid;
  mount_projected_tools := []; mount_transport_kind := "stdio"; mount_created_at_ms := 0;
  mount_updated_at_ms := 0; mount_released_at_ms := None |}.
(** two leases of an unknown task, one with a mount, and an expired one *)
Definition demo_authority : World := {|
  db := set_db_leases {[ "l1" := demo_lease "l1" "gone" 50; "l2" := demo_lease "l2" "gone" 5 ]}
          (set_db_mounts {[ "m1" := demo_mount "m1" "gone" "l2" ]} empty_db);
  ticks := 0; uids := 0 |}.

Lemma demo_authority_wf : authority_wf (db demo_authority).
Proof.
  split; simpl.
  - intros i l [[<- <-]|[? [<- <-]%lookup_singleton_Some]]%lookup_insert_Some; done.
  - intros i m [<- <-]%lookup_singleton_Some; done.
  - intros i l [[<- <-]|[? [<- <-]%lookup_singleton_Some]]%lookup_insert_Some; done.
  - intros i m [<- <-]%lookup_singleton_Some; done.
Qed.

Theorem revoke_task_authority_correct_witness :
  exists r w', @revoke_task_authority demo_env " gone " None demo_authority = (Ok r, w') /\
    zero_authority (db w') "gone".
Proof.
  destruct (@revoke_task_authority_correct demo_env " gone " None demo_authority)
    as (r & w' & E & Z & _); [reflexivity|].
  exists r, w'. split; [exact E|exact Z].
Defined.

Theorem reconcile_inactive_task_authority_correct_witness :
  exists r w', @reconcile_inactive_task_authority demo_env (Some 10%Z) demo_authority = (Ok r, w') /\
    reconciled 10 (db demo_authority) (db w').
Proof.
  exact (@reconcile_inactive_task_authority_correct demo_env 10 demo_authority demo_authority_wf).
Defined.
