(* ===== verification/FactoryStore.v ===== *)
(** * The durable store of the factory

    Models [cptr/services/factory_store.py]: every method of [SqlFactoryStore],
    over the tables of [Database].  A method that opens one [db.begin()] block is
    a [transaction]; a Python exception is an [Err], and the tables are then those
    before the block. *)

From S2P Require Import Prelude PyStr Json Redaction FactoryDomain FactoryGates.
From S2P Require Import FactoryVictory Database CapabilityLifecycle.

Definition _MAX_FACTORY_PAYLOAD_BYTES : Z := 64 * 1024.

(** [bool(key)] for an optional string *)
Definition has_key (key : option string) : bool :=
  match key with Some k => negb (empty_str k) | None => false end.

(** [f"{prefix}{key}" if key else None] *)
Definition derived_key (prefix : string) (key : option string) : option string :=
  match key with
  | Some k => if empty_str k then None else Some (prefix +:+ k)
  | None => None
  end.

Definition opt_state (s : option FactoryState) : json :=
  match s with Some s => JStr (state_value s) | None => JNull end.

(** [x or now] for a nullable time *)
Definition time_or (x : option Z) (now : Z) : option Z :=
  match x with
  | Some z => if (z =? 0)%Z then Some now else Some z
  | None => Some now
  end.

Section Store.
Context `{Env}.

(** [_canonical_payload]: the redacted payload, and its digest *)
Definition _canonical_payload (payload : json) : result (json * string) :=
  let safe := redact_sensitive payload in
  let encoded := dumps true false safe in
  if (_MAX_FACTORY_PAYLOAD_BYTES <? len encoded)%Z then Err FactoryPayloadTooLarge
  else Ok (safe, sha256_hex encoded).

Definition _config_fingerprint (policy budget : json) (model_id : option string) : result string :=
  let? (_, digest) := _canonical_payload
    (JObj [("policy", policy); ("budget", budget); ("model_id", JStr (default "" model_id))]) in
  Ok digest.

(** ** Rows by key *)

Definition get_run_row (run_id : string) : M World (option FactoryRun) :=
  query (fun d => db_runs d !! run_id).
Definition get_cycle_row (cycle_id : string) : M World (option FactoryCycle) :=
  query (fun d => db_cycles d !! cycle_id).

Definition required {A} (x : option A) (e : exn) : M World A :=
  match x with Some a => ret a | None => raise e end.

(** [db.get] of a run and of a cycle that must belong to it *)
Definition run_and_cycle (rid cid : string) : M World (FactoryRun * FactoryCycle) :=
  let* run := get_run_row rid in
  let* cycle := get_cycle_row cid in
  match run, cycle with
  | Some r, Some c =>
      if str_eqb (cycle_run_id c) rid then ret (r, c)
      else raise (KeyError "factory run/cycle not found")
  | _, _ => raise (KeyError "factory run/cycle not found")
  end.

(** the event a key was used for, if any *)
Definition event_for_key (rid : string) (key : option string) : M World (option FactoryEvent) :=
  let* rows := query (fun d =>
    select (fun e => str_eqb (ev_run_id e) rid && same_key (ev_key e) key) (db_events d)) in
  scalar_one_or_none rows.

Definition max_sequence (rid : string) (d : Db) : option Z :=
  max_of (map ev_sequence (select (fun e => str_eqb (ev_run_id e) rid) (db_events d))).
Definition max_ordinal (rid : string) (d : Db) : option Z :=
  max_of (map cycle_ordinal
    (select (fun c => str_eqb (cycle_run_id c) rid) (rows_of (db_cycles d)))).

(** [_append_event_in_transaction] *)
Definition _append_event_in_transaction (run : FactoryRun) (cycle : option string)
    (actor : FactoryActor) (event_type : string) (from_state to_state : option FactoryState)
    (idempotency_key : option string) (payload : json) (payload_digest : option string)
    : M World FactoryEvent :=
  let* (safe_payload, calculated_digest) := lift (_canonical_payload payload) in
  let* locked := query (fun d => bool_decide (is_Some (db_runs d !! run_id run))) in
  raise_if negb locked as KeyError "factory run not found" in
  let* sequence := query (max_sequence (run_id run)) in
  let* eid := _new_id "fev" in
  let* now := _now_ms in
  let row := {|
    ev_id := eid; ev_run_id := run_id run; ev_cycle_id := cycle;
    ev_sequence := int_or_zero sequence + 1; ev_actor := actor; ev_type := event_type;
    ev_from := from_state; ev_to := to_state; ev_key := idempotency_key;
    ev_digest := if has_key payload_digest then default "" payload_digest else calculated_digest;
    ev_payload := safe_payload; ev_created_at := now |} in
  let* _ := insert_event row in
  ret row.

(** ** Runs *)

Record RunRequest := {
  rq_user_id : string;
  rq_workspace_id : string;
  rq_mission : string;
  rq_acceptance_criteria : list string;
  rq_policy : json;
  rq_budget : json;
  rq_model_id : option string;
  rq_idempotency_key : option string;
}.

Definition clean_criteria (l : list string) : list string :=
  List.filter (fun c => negb (empty_str c)) (map strip l).

Definition run_conflict : exn := FactoryIdempotencyConflict
  "factory run idempotency key was replayed with different mission/configuration".

(** [validate_replay] *)
Definition validate_replay (rq : RunRequest) (fingerprint : string) (existing : FactoryRun)
    : result FactoryRun :=
  if negb (str_eqb (run_workspace_id existing) (rq_workspace_id rq))
     || negb (str_eqb (run_mission existing) (strip (rq_mission rq)))
     || negb (bool_decide (run_acceptance_criteria existing = clean_criteria (rq_acceptance_criteria rq)))
     || negb (opt_eqb (run_model_id existing) (rq_model_id rq))
     || negb (py_eq (run_policy existing) (redact_sensitive (rq_policy rq)))
     || negb (py_eq (run_budget existing) (redact_sensitive (rq_budget rq)))
     || negb (str_eqb (run_config_fingerprint existing) fingerprint)
  then Err run_conflict
  else Ok existing.

Definition run_for_key (rq : RunRequest) : M World (option FactoryRun) :=
  let* rows := query (fun d =>
    select (fun r => str_eqb (run_user_id r) (rq_user_id rq)
                     && same_key (run_idempotency_key r) (rq_idempotency_key rq))
           (rows_of (db_runs d))) in
  scalar_one_or_none rows.

(** the inserts of [create_run] *)
Definition insert_new_run (rq : RunRequest) (fingerprint : string) : M World FactoryRun :=
  let* now := _now_ms in
  let* rid := _new_id "factory" in
  let criteria := clean_criteria (rq_acceptance_criteria rq) in
  let run := {|
    run_id := rid; run_user_id := rq_user_id rq; run_workspace_id := rq_workspace_id rq;
    run_mission := strip (rq_mission rq); run_acceptance_criteria := criteria;
    run_model_id := rq_model_id rq; run_state := MISSION; run_current_cycle_id := None;
    run_resumable_state := None; run_policy := redact_sensitive (rq_policy rq);
    run_budget := redact_sensitive (rq_budget rq); run_config_fingerprint := fingerprint;
    run_next_action := None; run_idempotency_key := rq_idempotency_key rq;
    run_lease_token := None; run_lease_expires_at := None; run_created_at := now;
    run_updated_at := now; run_completed_at := None |} in
  let* _ := insert_run run in
  let* (payload, digest) := lift (_canonical_payload
    (JObj [("workspace_id", JStr (rq_workspace_id rq));
           ("acceptance_criteria_count", JInt (Z.of_nat (length criteria)))])) in
  let* eid := _new_id "fev" in
  let* _ := insert_event {|
    ev_id := eid; ev_run_id := rid; ev_cycle_id := None; ev_sequence := 1; ev_actor := SYSTEM;
    ev_type := "run.created"; ev_from := None; ev_to := Some MISSION;
    ev_key := derived_key "create:" (rq_idempotency_key rq); ev_digest := digest;
    ev_payload := payload; ev_created_at := now |} in
  ret run.

Definition is_integrity_error (e : exn) : bool :=
  match e with IntegrityError _ => true | _ => false end.

(** [create_run]; [peer] is what another process commits between the lookup of
    the key and the insertion. *)
Definition create_run (peer : Db -> Db) (rq : RunRequest) : M World FactoryRun :=
  raise_if empty_str (strip (rq_mission rq)) as ValueError "mission must not be blank" in
  raise_if is_nil (clean_criteria (rq_acceptance_criteria rq))
    as ValueError "acceptance criteria must not be empty" in
  let* fingerprint := lift (_config_fingerprint (rq_policy rq) (rq_budget rq) (rq_model_id rq)) in
  catch
    (let* existing := if has_key (rq_idempotency_key rq) then run_for_key rq else ret None in
     match existing with
     | Some run => lift (validate_replay rq fingerprint run)
     | None =>
         let* _ := write peer in
         transaction (insert_new_run rq fingerprint)
     end)
    is_integrity_error
    (fun e =>
       raise_if negb (has_key (rq_idempotency_key rq)) as e in
       let* existing := run_for_key rq in
       let* run := required existing e in
       lift (validate_replay rq fingerprint run)).

Definition get_run (rid : string) (user_id : option string) : M World (option FactoryRun) :=
  let* run := get_run_row rid in
  ret (match run, user_id with
       | Some r, Some u => if str_eqb (run_user_id r) u then Some r else None
       | r, _ => r
       end).

(** ** Cycles *)

Definition new_cycle (cid rid : string) (ordinal : Z) (state : FactoryState) (key : option string)
    (revision fingerprint : option string) (now : Z) : FactoryCycle := {|
  cycle_id := cid; cycle_run_id := rid; cycle_ordinal := ordinal; cycle_state := state;
  cycle_idempotency_key := key; selected_finding := JNull; capability_requirements := JList [];
  selected_capabilities := JList []; gate_plan := JObj []; base_revision := revision;
  base_fingerprint := fingerprint; target_revision := None; target_fingerprint := None;
  mutation_worker_id := None; attempt_count := 0; failure_signatures := [];
  cycle_next_action := None; cycle_created_at := now; cycle_updated_at := now;
  cycle_completed_at := None |}.

Definition cycle_for_key (rid : string) (key : option string) : M World (option FactoryCycle) :=
  let* rows := query (fun d =>
    select (fun c => str_eqb (cycle_run_id c) rid && same_key (cycle_idempotency_key c) key)
           (rows_of (db_cycles d))) in
  scalar_one_or_none rows.

(** [create_cycle] *)
Definition create_cycle (rid : string) (base_revision base_fingerprint idempotency_key : option string)
    : M World FactoryCycle :=
  transaction (
    let* found := get_run_row rid in
    let* run := required found (KeyError "factory run not found") in
    raise_if is_terminal_factory_state (run_state run)
      as ValueError "cannot create a cycle for a terminal factory run" in
    let* existing := if has_key idempotency_key then cycle_for_key rid idempotency_key else ret None in
    match existing with
    | Some cycle => ret cycle
    | None =>
        let* last_ordinal := query (max_ordinal rid) in
        let* now := _now_ms in
        let* cid := _new_id "cycle" in
        let cycle := new_cycle cid rid (int_or_zero last_ordinal + 1) (run_state run)
                       idempotency_key base_revision base_fingerprint now in
        let* _ := insert_cycle cycle in
        let run := set_run_updated_at now (set_run_current_cycle_id (Some cid) run) in
        let* _ := save_run run in
        let* _ := _append_event_in_transaction run (Some cid) SYSTEM "cycle.created"
          (Some (run_state run)) (Some (run_state run)) (derived_key "cycle:" idempotency_key)
          (JObj [("ordinal", JInt (cycle_ordinal cycle)); ("base_revision", opt_str base_revision);
                 ("base_fingerprint", opt_str base_fingerprint)]) None in
        ret cycle
    end).

(** [advance_cycle] *)
Definition advance_cycle (rid cid reason : string) (evidence_ids : list string)
    (idempotency_key : string) : M World FactoryCycle :=
  raise_if blank idempotency_key
    as ValueError "cycle advance idempotency key must not be blank" in
  let intent := [("previous_cycle_id", JStr cid); ("to_state", JStr (state_value AUDITING));
                 ("reason", JStr reason); ("evidence_ids", str_list evidence_ids)] in
  let* (_, intent_digest) := lift (_canonical_payload (JObj intent)) in
  transaction (
    let* (run, previous_cycle) := run_and_cycle rid cid in
    let* existing := event_for_key rid (Some idempotency_key) in
    match existing with
    | Some event =>
        raise_if negb (str_eqb (ev_digest event) intent_digest) as FactoryIdempotencyConflict
          "cycle advance idempotency key was replayed with different intent" in
        let next_cycle_id := str_or_empty (payload_get "next_cycle_id" (ev_payload event)) in
        let* next_cycle := if empty_str next_cycle_id then ret None else get_cycle_row next_cycle_id in
        required next_cycle
          (RuntimeError "durable cycle advance event references a missing next cycle")
    | None =>
        raise_if negb (opt_eqb (run_current_cycle_id run) (Some cid)) as ValueError
          "cycle advance requires the active completed factory cycle" in
        raise_if negb (bool_decide (run_state run = CYCLE_COMPLETE)) as ValueError
          "cycle advance requires CYCLE_COMPLETE state" in
        let* _ := lift (validate_factory_transition (run_state run) AUDITING SYSTEM None false) in
        let* last_ordinal := query (max_ordinal rid) in
        let* now := _now_ms in
        let* nid := _new_id "cycle" in
        let next_cycle := new_cycle nid rid (int_or_zero last_ordinal + 1) AUDITING
          (Some ("advance:" +:+ idempotency_key)) (target_revision previous_cycle)
          (target_fingerprint previous_cycle) now in
        let* _ := insert_cycle next_cycle in
        let* _ := save_cycle (set_cycle_updated_at now
          (set_cycle_completed_at (time_or (cycle_completed_at previous_cycle) now) previous_cycle)) in
        let run := set_run_updated_at now (set_run_resumable_state None
          (set_run_state AUDITING (set_run_current_cycle_id (Some nid) run))) in
        let* _ := save_run run in
        let* _ := _append_event_in_transaction run (Some nid) SYSTEM "state.transition"
          (Some CYCLE_COMPLETE) (Some AUDITING) (Some idempotency_key)
          (JObj (intent ++
            [("next_cycle_id", JStr nid); ("ordinal", JInt (cycle_ordinal next_cycle));
             ("base_revision", opt_str (base_revision next_cycle));
             ("base_fingerprint", opt_str (base_fingerprint next_cycle))]))
          (Some intent_digest) in
        ret next_cycle
    end).

Definition list_cycles (rid : string) : M World (list FactoryCycle) :=
  query (fun d => order_by (fun a b => cycle_ordinal a <=? cycle_ordinal b)%Z
    (select (fun c => str_eqb (cycle_run_id c) rid) (rows_of (db_cycles d)))).
Definition get_cycle (cid : string) : M World (option FactoryCycle) := get_cycle_row cid.

(** ** Projections of a cycle *)

Definition projection_fields : list string :=
  ["selected_finding"; "capability_requirements"; "selected_capabilities"; "gate_plan";
   "base_revision"; "base_fingerprint"; "mutation_worker_id"; "next_action"].

(** what a text column stores *)
Definition text_column (v : json) : result (option string) :=
  match v with
  | JNull => Ok None
  | JStr s => Ok (Some s)
  | JInt z => Ok (Some (str_of_int z))
  | JBool b => Ok (Some (if b then "1" else "0"))
  | JFloat t => Ok (Some t)
  | JList _ | JObj _ => Err (InterfaceError "type is not supported")
  end.

(** [setattr(cycle, key, value)] and the column's type *)
Definition set_projection (c : FactoryCycle) (field : string * json) : result FactoryCycle :=
  let '(key, v) := field in
  if str_eqb key "selected_finding" then Ok (set_selected_finding v c)
  else if str_eqb key "capability_requirements" then Ok (set_capability_requirements v c)
  else if str_eqb key "selected_capabilities" then Ok (set_selected_capabilities v c)
  else if str_eqb key "gate_plan" then Ok (set_gate_plan v c)
  else let? text := text_column v in
  if str_eqb key "base_revision" then Ok (set_base_revision text c)
  else if str_eqb key "base_fingerprint" then Ok (set_base_fingerprint text c)
  else if str_eqb key "mutation_worker_id" then Ok (set_mutation_worker_id text c)
  else if str_eqb key "next_action" then Ok (set_cycle_next_action text c)
  else Ok c.

Definition set_projections (fields : list (string * json)) (c : FactoryCycle) : result FactoryCycle :=
  fold_left (fun r field => let? c := r in set_projection c field) fields (Ok c).

(** [update_cycle_projection] *)
Definition update_cycle_projection (rid cid : string) (updates : list (string * json))
    (run_next_action : option string) (idempotency_key : string) : M World FactoryCycle :=
  match sorted_set (List.filter (fun k => negb (is_in k projection_fields)) updates.*1) with
  | unknown :: _ =>
      raise (ValueError ("unsupported factory cycle projection field " +:+ unknown))
  | [] =>
  let* (safe_payload, digest) := lift (_canonical_payload
    (JObj [("cycle_id", JStr cid); ("updates", JObj updates);
           ("run_next_action", opt_str run_next_action)])) in
  transaction (
    let* (run, cycle) := run_and_cycle rid cid in
    let* existing := event_for_key rid (Some idempotency_key) in
    match existing with
    | Some event =>
        raise_if negb (str_eqb (ev_digest event) digest) as FactoryIdempotencyConflict
          "phase projection idempotency key was replayed with different intent" in
        ret cycle
    | None =>
        let* now := _now_ms in
        let safe_updates :=
          match payload_get "updates" safe_payload with JObj l => l | _ => [] end in
        let* cycle := lift (set_projections safe_updates cycle) in
        let '(run, cycle) :=
          match run_next_action with
          | Some action =>
              (set_run_next_action (Some (str_take 4000 action)) run,
               set_cycle_next_action (Some (str_take 4000 action)) cycle)
          | None => (run, cycle)
          end in
        let cycle := set_cycle_updated_at now cycle in
        let run := set_run_updated_at now run in
        let* _ := save_cycle cycle in
        let* _ := save_run run in
        let* _ := _append_event_in_transaction run (Some cid) SYSTEM "phase.projection_updated"
          (Some (run_state run)) (Some (run_state run)) (Some idempotency_key) safe_payload
          (Some digest) in
        ret cycle
    end)
  end.

(** [record_failure] *)
Definition failure_next_action : string := "diagnose persisted failure before retry".

Definition record_failure (rid cid signature category fcode : string) (gate_id : option string)
    (summary idempotency_key : string) : M World FactoryCycle :=
  raise_if blank signature || blank category || blank fcode
    as ValueError "factory failure identity fields must not be blank" in
  let* (safe_payload, digest) := lift (_canonical_payload
    (JObj [("cycle_id", JStr cid); ("signature", JStr signature); ("category", JStr category);
           ("code", JStr fcode); ("gate_id", opt_str gate_id);
           ("summary", JStr (str_take 4000 summary))])) in
  transaction (
    let* (run, cycle) := run_and_cycle rid cid in
    let* existing := event_for_key rid (Some idempotency_key) in
    match existing with
    | Some event =>
        raise_if negb (str_eqb (ev_digest event) digest) as FactoryIdempotencyConflict
          "factory failure idempotency key was replayed with different evidence" in
        ret cycle
    | None =>
        let* now := _now_ms in
        let previous := dict_get signature (failure_signatures cycle) in
        let seen := match previous with Some p => fs_first_seen_at p | None => 0%Z end in
        let entry := {|
          fs_signature := signature; fs_category := category; fs_code := fcode;
          fs_gate_id := gate_id;
          fs_count := (match previous with Some p => fs_count p | None => 0 end) + 1;
          fs_first_seen_at := if (seen =? 0)%Z then now else seen;
          fs_last_seen_at := now;
          fs_last_summary := payload_get "summary" safe_payload |} in
        let cycle := set_failure_signatures (dict_set signature entry (failure_signatures cycle)) cycle in
        let cycle := set_attempt_count (attempt_count cycle + 1) cycle in
        let cycle := set_cycle_next_action (Some failure_next_action) cycle in
        let cycle := set_cycle_updated_at now cycle in
        let run := set_run_updated_at now (set_run_next_action (Some failure_next_action) run) in
        let* _ := save_cycle cycle in
        let* _ := save_run run in
        let* _ := _append_event_in_transaction run (Some cid) SYSTEM "failure.recorded"
          (Some (run_state run)) (Some (run_state run)) (Some idempotency_key) safe_payload
          (Some digest) in
        ret cycle
    end).

(** [set_cycle_target] *)
Definition set_cycle_target (rid cid revision fingerprint idempotency_key : string)
    : M World FactoryCycle :=
  raise_if blank revision || blank fingerprint
    as ValueError "cycle target revision and fingerprint must not be blank" in
  let payload := JObj [("cycle_id", JStr cid); ("revision", JStr revision);
                       ("fingerprint", JStr fingerprint)] in
  let* (_, digest) := lift (_canonical_payload payload) in
  transaction (
    let* (run, cycle) := run_and_cycle rid cid in
    let* existing := event_for_key rid (Some idempotency_key) in
    match existing with
    | Some event =>
        raise_if negb (str_eqb (ev_digest event) digest) as FactoryIdempotencyConflict
          "cycle target idempotency key was replayed with different intent" in
        ret cycle
    | None =>
        let* now := _now_ms in
        let cycle := set_cycle_updated_at now (set_target_fingerprint (Some fingerprint)
                       (set_target_revision (Some revision) cycle)) in
        let run := set_run_updated_at now run in
        let* _ := save_cycle cycle in
        let* _ := save_run run in
        let* _ := _append_event_in_transaction run (Some cid) SYSTEM "cycle.target_updated"
          (Some (run_state run)) (Some (run_state run)) (Some idempotency_key) payload
          (Some digest) in
        ret cycle
    end).

(** ** State transitions *)

(** the states that record where to come back to *)
Definition interrupted (s : FactoryState) : bool :=
  bool_decide (s ∈ [RECOVERING; PAUSED; APPROVAL_REQUIRED]).

(** the states whose entry revokes the authority of the run's task *)
Definition revokes_authority (s : FactoryState) : bool :=
  bool_decide (s ∈ [PAUSED; APPROVAL_REQUIRED; RECOVERING]) || is_terminal_factory_state s.

(** the state a transition out of an interruption must come back to: the recorded
    one, or else the requested one *)
Definition effective_resumable (current : FactoryState) (recorded requested : option FactoryState)
    : option FactoryState :=
  if interrupted current then match recorded with Some s => Some s | None => requested end
  else requested.

(** [run.resumable_state] after a transition *)
Definition next_resumable (current to_state : FactoryState)
    (recorded requested : option FactoryState) : result (option FactoryState) :=
  if bool_decide (to_state = RECOVERING) then
    if bool_decide (current = MISSION) then Ok None
    else if bool_decide (requested <> None) && negb (bool_decide (requested = Some current)) then
      Err (ValueError "recovery resumable state must match the interrupted state")
    else Ok (Some current)
  else if bool_decide (to_state = PAUSED) || bool_decide (to_state = APPROVAL_REQUIRED) then
    Ok (Some current)
  else if interrupted current then Ok None
  else Ok recorded.

(** [next_action] of the run (and of its cycle) after a transition *)
Definition next_action_after (to_state : FactoryState) (reason : string) (action : option string)
    : option string :=
  if bool_decide (to_state = BLOCKED) then Some (str_take 4000 reason)
  else if bool_decide (to_state ∈ [PAUSED; APPROVAL_REQUIRED; REPAIR_REQUIRED]) then action
  else None.

(** the run and its current cycle after a transition *)
Definition moved_run (run : FactoryRun) (to_state : FactoryState) (resumable : option FactoryState)
    (reason : string) (now : Z) : FactoryRun :=
  let run := set_run_resumable_state resumable run in
  let run := set_run_updated_at now (set_run_state to_state run) in
  let run := set_run_next_action (next_action_after to_state reason (run_next_action run)) run in
  if is_terminal_factory_state to_state then set_run_completed_at (Some now) run else run.
Definition moved_cycle (cycle : FactoryCycle) (to_state : FactoryState) (reason : string) (now : Z)
    : FactoryCycle :=
  set_cycle_next_action (next_action_after to_state reason (cycle_next_action cycle))
    (set_cycle_updated_at now (set_cycle_state to_state cycle)).

Definition transition_intent (to_state : FactoryState) (actor : FactoryActor) (reason : string)
    (evidence_ids : list string) (resumable_state : option FactoryState) : json :=
  JObj [("to_state", JStr (state_value to_state)); ("actor", JStr (actor_value actor));
        ("reason", JStr reason); ("evidence_ids", str_list evidence_ids);
        ("resumable_state", opt_state resumable_state)].

(** the block of a transition whose key is new *)
Definition perform_transition (run : FactoryRun) (to_state : FactoryState) (actor : FactoryActor)
    (reason idempotency_key : string) (resumable_state : option FactoryState) (intent : json)
    (intent_digest : string) : M World FactoryRun :=
  let* _ := lift (validate_factory_transition (run_state run) to_state actor
                    (effective_resumable (run_state run) (run_resumable_state run) resumable_state)
                    false) in
  let* now := _now_ms in
  let* resumable := lift (next_resumable (run_state run) to_state (run_resumable_state run)
                           resumable_state) in
  let moved := moved_run run to_state resumable reason now in
  let* cycle := if has_key (run_current_cycle_id run)
                then get_cycle_row (default "" (run_current_cycle_id run)) else ret None in
  let* _ := save_run moved in
  let* _ := match cycle with
            | Some c => save_cycle (moved_cycle c to_state reason now)
            | None => ret tt
            end in
  let* _ := _append_event_in_transaction moved (run_current_cycle_id run) actor "state.transition"
    (Some (run_state run)) (Some to_state) (Some idempotency_key) intent (Some intent_digest) in
  ret moved.

Definition revoke_if (b : bool) (rid : string) : M World unit :=
  if b then let* _ := revoke_task_authority rid None in ret tt else ret tt.

(** [transition] *)
Definition transition (rid : string) (to_state : FactoryState) (actor : FactoryActor)
    (reason idempotency_key : string) (evidence_ids : list string)
    (resumable_state : option FactoryState) : M World FactoryRun :=
  raise_if blank idempotency_key as ValueError "transition idempotency key must not be blank" in
  let intent := transition_intent to_state actor reason evidence_ids resumable_state in
  let* (_, intent_digest) := lift (_canonical_payload intent) in
  let* (run, replayed) := transaction (
    let* found := get_run_row rid in
    let* run := required found (KeyError "factory run not found") in
    let* existing := event_for_key rid (Some idempotency_key) in
    match existing with
    | Some event =>
        raise_if negb (str_eqb (ev_digest event) intent_digest) as FactoryIdempotencyConflict
          "factory transition idempotency key was replayed with different intent" in
        let* _ := revoke_if (revokes_authority (run_state run)) rid in
        ret (run, true)
    | None =>
        let* moved := perform_transition run to_state actor reason idempotency_key resumable_state
                        intent intent_digest in
        ret (moved, false)
    end) in
  let* _ := revoke_if (negb replayed && revokes_authority to_state) rid in
  ret run.

(** the payload of the event that records a Victory *)
Definition victory_payload (cid : string) (decision : FactoryVictoryDecision) : json :=
  JObj [("cycle_id", JStr cid); ("satisfied_gate_ids", str_list (satisfied_gate_ids decision));
        ("evaluated_revision", opt_str (decision_revision decision));
        ("evaluated_fingerprint", opt_str (decision_fingerprint decision))].

(** [authorize_victory] *)
Definition authorize_victory (rid cid : string) (decision : FactoryVictoryDecision)
    (idempotency_key : string) : M World FactoryRun :=
  raise_if negb (is_machine_issued_victory decision) as TypeError
    "Victory authorization requires a machine-issued FactoryVictoryDecision" in
  raise_if negb (passed decision)
    as ValueError "failed Victory decision cannot authorize the commit path" in
  let payload := victory_payload cid decision in
  let* (_, digest) := lift (_canonical_payload payload) in
  transaction (
    let* (run, cycle) := run_and_cycle rid cid in
    raise_if negb (opt_eqb (run_current_cycle_id run) (Some cid))
      as ValueError "Victory decision does not target the active factory cycle" in
    raise_if negb (has_key (target_revision cycle)) || negb (has_key (target_fingerprint cycle))
      as ValueError "factory cycle has no target revision/fingerprint for Victory" in
    raise_if negb (opt_eqb (decision_revision decision) (target_revision cycle))
             || negb (opt_eqb (decision_fingerprint decision) (target_fingerprint cycle))
      as ValueError "stale Victory decision for the current cycle target" in
    let* existing := event_for_key rid (Some idempotency_key) in
    match existing with
    | Some event =>
        raise_if negb (str_eqb (ev_digest event) digest) as FactoryIdempotencyConflict
          "Victory idempotency key was replayed with different evidence" in
        ret run
    | None =>
        let* _ := lift (validate_factory_transition (run_state run) COMMITTING SYSTEM None true) in
        let* now := _now_ms in
        let moved := set_run_updated_at now (set_run_state COMMITTING run) in
        let* _ := save_run moved in
        let* _ := save_cycle (set_cycle_updated_at now (set_cycle_state COMMITTING cycle)) in
        let* _ := _append_event_in_transaction moved (Some cid) SYSTEM "victory.authorized"
          (Some (run_state run)) (Some COMMITTING) (Some idempotency_key) payload (Some digest) in
        ret moved
    end).

(** ** Evidence *)

Record EvidenceRequest := {
  eq_run_id : string;
  eq_cycle_id : option string;
  eq_gate_id : option string;
  eq_kind : string;
  eq_source : string;
  eq_authority : EvidenceAuthority;
  eq_revision : option string;
  eq_fingerprint : option string;
  eq_payload : json;
  eq_key : option string;
}.

(** [identity == requested] *)
Definition same_evidence (e : FactoryEvidence) (rq : EvidenceRequest) (digest : string) : bool :=
  opt_eqb (evd_cycle_id e) (eq_cycle_id rq) && opt_eqb (evd_gate_id e) (eq_gate_id rq)
  && str_eqb (evd_kind e) (eq_kind rq) && str_eqb (evd_source e) (eq_source rq)
  && bool_decide (evd_authority e = eq_authority rq)
  && opt_eqb (evd_revision e) (eq_revision rq) && opt_eqb (evd_fingerprint e) (eq_fingerprint rq)
  && str_eqb (evd_digest e) digest.

Definition evidence_for_key (rid : string) (key : option string) : M World (option FactoryEvidence) :=
  let* rows := query (fun d =>
    select (fun e => str_eqb (evd_run_id e) rid && same_key (evd_key e) key) (db_evidence d)) in
  scalar_one_or_none rows.

(** [append_evidence] *)
Definition append_evidence (rq : EvidenceRequest) : M World FactoryEvidence :=
  raise_if match eq_key rq with Some k => blank k | None => false end
    as ValueError "evidence idempotency key must not be blank" in
  let* (safe_payload, digest) := lift (_canonical_payload (eq_payload rq)) in
  let* existing := match eq_key rq with
                   | Some _ => evidence_for_key (eq_run_id rq) (eq_key rq)
                   | None => ret None
                   end in
  match existing with
  | Some row =>
      raise_if negb (same_evidence row rq digest) as FactoryIdempotencyConflict
        "evidence idempotency key was replayed with different evidence" in
      ret row
  | None =>
      let* eid := _new_id "fevidence" in
      let* now := _now_ms in
      let row := {|
        evd_id := eid; evd_run_id := eq_run_id rq; evd_cycle_id := eq_cycle_id rq;
        evd_gate_id := eq_gate_id rq; evd_kind := eq_kind rq; evd_source := eq_source rq;
        evd_authority := eq_authority rq; evd_revision := eq_revision rq;
        evd_fingerprint := eq_fingerprint rq; evd_digest := digest; evd_payload := safe_payload;
        evd_key := eq_key rq; evd_created_at := now |} in
      let* _ := insert_evidence row in
      ret row
  end.

Definition evidence_order : FactoryEvidence -> FactoryEvidence -> bool :=
  by_time_and_id evd_created_at evd_id.

Definition list_evidence (rid : string) (limit : Z) : M World (list FactoryEvidence) :=
  query (fun d => limit_rows (clamp 1 500 limit) (order_by evidence_order
    (select (fun e => str_eqb (evd_run_id e) rid) (db_evidence d)))).

(** [list_phase_evidence]: the newest rows, oldest first *)
Definition list_phase_evidence (rid cid : string) (limit : Z) : M World (list FactoryEvidence) :=
  query (fun d => reverse (limit_rows (clamp 1 500 limit)
    (order_by (fun a b => evidence_order b a)
      (select (fun e => str_eqb (evd_run_id e) rid
                        && match evd_cycle_id e with None => true | Some c => str_eqb c cid end)
              (db_evidence d))))).

(** the task ids of one row: [[*(payload.get("task_ids") or ()), payload.get("task_id")]] *)
Definition row_task_ids (e : FactoryEvidence) : result (list string) :=
  let many := payload_get "task_ids" (evd_payload e) in
  let? items := if truthy many then py_iter many else Ok [] in
  Ok (List.filter (fun t => negb (empty_str t))
        (map (fun v => strip (str_or_empty v)) (items ++ [payload_get "task_id" (evd_payload e)]))).

Fixpoint rows_task_ids (rows : list FactoryEvidence) : result (list string) :=
  match rows with
  | [] => Ok []
  | e :: rows => let? ids := row_task_ids e in let? rest := rows_task_ids rows in Ok (ids ++ rest)
  end.

(** [list_execution_task_ids] *)
Definition list_execution_task_ids (rid : string) (limit : Z) : M World (list string) :=
  let* rows := query (fun d => limit_rows (clamp 1 500 limit)
    (order_by (fun a b => evidence_order b a)
      (select (fun e => str_eqb (evd_run_id e) rid
                        && is_in (evd_kind e) ["factory_phase_task"; "factory_implementation_task"])
              (db_evidence d)))) in
  let* ids := lift (rows_task_ids rows) in
  ret (_dedupe ids).

(** [list_evidence_page] *)
Definition list_evidence_page (rid : string) (after_id : option string) (limit : Z)
    : M World (list FactoryEvidence) :=
  let* rows := query (fun d => select (fun e => str_eqb (evd_run_id e) rid) (db_evidence d)) in
  let* page :=
    if has_key after_id then
      let* found := query (fun d =>
        head (select (fun e => opt_eqb (Some (evd_id e)) after_id) (db_evidence d))) in
      match found with
      | Some cursor =>
          raise_if negb (str_eqb (evd_run_id cursor) rid)
            as ValueError "invalid factory evidence cursor" in
          ret (select (fun e => (evd_created_at cursor <? evd_created_at e)%Z
                        || ((evd_created_at e =? evd_created_at cursor)%Z
                            && String.ltb (evd_id cursor) (evd_id e))) rows)
      | None => raise (ValueError "invalid factory evidence cursor")
      end
    else ret rows in
  ret (limit_rows (clamp 1 500 limit) (order_by evidence_order page)).

(** ** Gates *)

Record GateRequest := {
  gq_run_id : string;
  gq_cycle_id : string;
  gq_gate_id : string;
  gq_category : string;
  gq_required : bool;
  gq_applicable : bool;
  gq_status : string;
  gq_evidence_ids : list string;
  gq_revision : option string;
  gq_fingerprint : option string;
  gq_reason : option string;
  gq_attempt : Z;
  gq_key : option string;
}.

Definition same_gate (g : FactoryGateResult) (rq : GateRequest) : bool :=
  str_eqb (gr_cycle_id g) (gq_cycle_id rq) && str_eqb (gr_gate_id g) (gq_gate_id rq)
  && str_eqb (gr_category g) (gq_category rq) && Bool.eqb (gr_required g) (gq_required rq)
  && Bool.eqb (gr_applicable g) (gq_applicable rq) && str_eqb (gr_status g) (gq_status rq)
  && bool_decide (gr_evidence_ids g = gq_evidence_ids rq)
  && opt_eqb (gr_evaluated_revision g) (gq_revision rq)
  && opt_eqb (gr_evaluated_fingerprint g) (gq_fingerprint rq)
  && opt_eqb (gr_reason g) (gq_reason rq) && (gr_attempt g =? gq_attempt rq)%Z.

Definition gate_for_key (rid : string) (key : option string) : M World (option FactoryGateResult) :=
  let* rows := query (fun d =>
    select (fun g => str_eqb (gr_run_id g) rid && same_key (gr_key g) key) (db_gates d)) in
  scalar_one_or_none rows.

(** [record_gate] *)
Definition record_gate (rq : GateRequest) : M World FactoryGateResult :=
  raise_if match gq_key rq with Some k => blank k | None => false end
    as ValueError "gate idempotency key must not be blank" in
  let* now := _now_ms in
  let* existing := match gq_key rq with
                   | Some _ => gate_for_key (gq_run_id rq) (gq_key rq)
                   | None => ret None
                   end in
  match existing with
  | Some row =>
      raise_if negb (same_gate row rq) as FactoryIdempotencyConflict
        "gate idempotency key was replayed with different gate evidence" in
      ret row
  | None =>
      let* gid := _new_id "fgate" in
      let row := {|
        gr_id := gid; gr_run_id := gq_run_id rq; gr_cycle_id := gq_cycle_id rq;
        gr_gate_id := gq_gate_id rq; gr_category := gq_category rq; gr_required := gq_required rq;
        gr_applicable := gq_applicable rq; gr_status := gq_status rq;
        gr_evidence_ids := gq_evidence_ids rq; gr_evaluated_revision := gq_revision rq;
        gr_evaluated_fingerprint := gq_fingerprint rq; gr_reason := gq_reason rq;
        gr_attempt := gq_attempt rq; gr_key := gq_key rq; gr_created_at := now;
        gr_updated_at := now |} in
      let* _ := insert_gate row in
      ret row
  end.

Definition gate_order (a b : FactoryGateResult) : bool :=
  if str_eqb (gr_cycle_id a) (gr_cycle_id b) then
    if str_eqb (gr_gate_id a) (gr_gate_id b) then (gr_attempt a <=? gr_attempt b)%Z
    else String.leb (gr_gate_id a) (gr_gate_id b)
  else String.leb (gr_cycle_id a) (gr_cycle_id b).

Definition list_gates (rid : string) (cid : option string) : M World (list FactoryGateResult) :=
  query (fun d => order_by gate_order
    (select (fun g => str_eqb (gr_run_id g) rid
                      && match cid with None => true | Some c => str_eqb (gr_cycle_id g) c end)
            (db_gates d))).

(** ** Events *)

Definition sequence_order (a b : FactoryEvent) : bool := (ev_sequence a <=? ev_sequence b)%Z.

Definition list_events (rid : string) (after_sequence limit : Z) : M World (list FactoryEvent) :=
  query (fun d => limit_rows (clamp 1 500 limit) (order_by sequence_order
    (select (fun e => str_eqb (ev_run_id e) rid && (Z.max 0 after_sequence <? ev_sequence e)%Z)
            (db_events d)))).

(** the loop of [list_user_steering] over the rows, oldest first *)
Fixpoint steering_messages (rows : list FactoryEvent) (remaining : Z) : list string :=
  match rows with
  | [] => []
  | row :: rows =>
      let content := strip (str_or_empty (payload_get "content" (ev_payload row))) in
      if empty_str content || (remaining <=? 0)%Z then steering_messages rows remaining
      else
        let content := str_take (Z.min 2000 remaining) content in
        content :: steering_messages rows (remaining - (len content + 1))
  end.

Definition list_user_steering (rid : string) (limit max_chars : Z) : M World (list string) :=
  let* rows := query (fun d => limit_rows (clamp 1 50 limit)
    (order_by (fun a b => sequence_order b a)
      (select (fun e => str_eqb (ev_run_id e) rid && str_eqb (ev_type e) "user.message")
              (db_events d)))) in
  ret (steering_messages (reverse rows) (clamp 1 32000 max_chars)).

(** [append_user_event] *)
Definition append_user_event (rid event_type : string) (payload : json)
    (idempotency_key cycle : option string) : M World FactoryEvent :=
  raise_if negb (is_in event_type ["user.message"; "approval.decision"])
    as ValueError "unsupported user factory event type" in
  let* (safe_payload, digest) := lift (_canonical_payload payload) in
  transaction (
    let* found := get_run_row rid in
    let* run := required found (KeyError "factory run not found") in
    let* _ := match cycle with
              | Some c => let* _ := run_and_cycle rid c in ret tt
              | None => ret tt
              end in
    let* existing := if has_key idempotency_key then event_for_key rid idempotency_key else ret None in
    match existing with
    | Some event =>
        raise_if negb (str_eqb (ev_type event) event_type) || negb (str_eqb (ev_digest event) digest)
          as FactoryIdempotencyConflict
            "factory user event idempotency key was replayed with different intent" in
        ret event
    | None =>
        _append_event_in_transaction run
          (match cycle with Some c => Some c | None => run_current_cycle_id run end)
          USER event_type (Some (run_state run)) (Some (run_state run)) idempotency_key
          safe_payload (Some digest)
    end).

Definition state_entry_types : list string :=
  ["state.transition"; "victory.authorized"; "cycle.created"].

(** [latest_state_entry] *)
Definition latest_state_entry (rid cid : string) (state : FactoryState)
    : M World (option FactoryEvent) :=
  query (fun d => head (order_by (fun a b => sequence_order b a)
    (select (fun e => str_eqb (ev_run_id e) rid && opt_eqb (ev_cycle_id e) (Some cid)
                      && bool_decide (ev_to e = Some state) && is_in (ev_type e) state_entry_types)
            (db_events d)))).

(** ** Leases on runs *)

Definition claimable (token : string) (now_ms : Z) (r : FactoryRun) : bool :=
  negb (is_terminal_factory_state (run_state r)) &&
  (bool_decide (run_lease_token r = None) || bool_decide (run_lease_expires_at r = None)
   || match run_lease_expires_at r with Some e => (e <? now_ms)%Z | None => false end
   || opt_eqb (run_lease_token r) (Some token)).

Definition renewable (token : string) (now_ms : Z) (r : FactoryRun) : bool :=
  opt_eqb (run_lease_token r) (Some token) &&
  match run_lease_expires_at r with Some e => (now_ms <=? e)%Z | None => false end.

(** [UPDATE factory_runs SET ... WHERE id = rid AND p]: [rowcount == 1] *)
Definition update_run (rid : string) (p : FactoryRun -> bool) (f : FactoryRun -> FactoryRun)
    : M World bool :=
  let matches r := str_eqb (run_id r) rid && p r in
  let* n := query (fun d => rowcount matches (db_runs d)) in
  let* _ := write (fun d => set_db_runs (update_where matches f (db_runs d)) d) in
  ret (n =? 1)%Z.

Definition claim_run (rid token : string) (now_ms lease_ms : Z) : M World bool :=
  raise_if empty_str token as ValueError "lease token must not be blank" in
  raise_if (lease_ms <=? 0)%Z as ValueError "lease duration must be positive" in
  update_run rid (claimable token now_ms)
    (fun r => set_run_updated_at now_ms
                (set_run_lease_expires_at (Some (now_ms + lease_ms)%Z)
                   (set_run_lease_token (Some token) r))).

Definition renew_run (rid token : string) (now_ms lease_ms : Z) : M World bool :=
  update_run rid (renewable token now_ms)
    (fun r => set_run_updated_at now_ms
                (set_run_lease_expires_at (Some (now_ms + lease_ms)%Z) r)).

Definition release_run (rid token : string) : M World bool :=
  let* now := _now_ms in
  update_run rid (fun r => opt_eqb (run_lease_token r) (Some token))
    (fun r => set_run_updated_at now (set_run_lease_expires_at None (set_run_lease_token None r))).

Definition list_recoverable : M World (list FactoryRun) :=
  query (fun d => order_by (by_time_and_id run_updated_at run_id)
    (select (fun r => negb (is_terminal_factory_state (run_state r))) (rows_of (db_runs d)))).
End Store.
