(* ===== verification/FactoryHistory.v ===== *)
(** * The event log as the history of a run

    What [factory_store.py] promises about its tables: the events of a run are a
    dense, legal history that ends in the run's state, keys are used once, and the
    current cycle is the last one and mirrors the run.  [wf] is that promise; the
    lemmas below say how appending one event keeps it. *)

From S2P Require Import Prelude PyStr Json Redaction FactoryDomain FactoryGates.
From S2P Require Import FactoryVictory Database CapabilityLifecycle FactoryStore.

(** ** Histories *)

(** where a run is, and where it must come back to *)
Definition machine : Type := FactoryState * option FactoryState.
Definition machine_of (r : FactoryRun) : machine := (run_state r, run_resumable_state r).

Definition transition_types : list string := ["run.created"; "state.transition"; "victory.authorized"].

Section History.
Context `{Env}.
(** which resumable states a transition may be called with, by its target *)
Context (may_request : FactoryState -> option FactoryState -> Prop).

(** the event records a passing decision of the judge about the target of the
    cycle [cid] *)
Definition victory_record (e : FactoryEvent) (cid : string) (decision : FactoryVictoryDecision)
    : Prop :=
  ev_cycle_id e = Some cid /\ passed decision = true /\
  is_machine_issued_victory decision = true /\
  has_key (decision_revision decision) = true /\ has_key (decision_fingerprint decision) = true /\
  _canonical_payload (victory_payload cid decision) = Ok (ev_payload e, ev_digest e).

(** one event moves the machine as its type allows *)
Inductive event_step (e : FactoryEvent) : machine -> machine -> Prop :=
  | step_note s res :
      ev_type e ∉ transition_types -> ev_from e = Some s -> ev_to e = Some s ->
      event_step e (s, res) (s, res)
  | step_transition s res s' res' requested :
      ev_type e = "state.transition" -> ev_from e = Some s -> ev_to e = Some s' ->
      may_request s' requested ->
      validate_factory_transition s s' (ev_actor e) (effective_resumable s res requested) false = Ok tt ->
      next_resumable s s' res requested = Ok res' ->
      event_step e (s, res) (s', res')
  | step_victory res cid decision :
      ev_type e = "victory.authorized" -> ev_actor e = SYSTEM ->
      ev_from e = Some VICTORY_JUDGING -> ev_to e = Some COMMITTING ->
      victory_record e cid decision ->
      event_step e (VICTORY_JUDGING, res) (COMMITTING, res).

(** the events of a run, oldest first, and the machine they lead to *)
Inductive history : list FactoryEvent -> machine -> Prop :=
  | history_created e :
      ev_type e = "run.created" -> ev_from e = None -> ev_to e = Some MISSION ->
      ev_sequence e = 1%Z -> ev_actor e = SYSTEM -> history [e] (MISSION, None)
  | history_step es e m m' :
      history es m -> event_step e m m' -> ev_sequence e = (Z.of_nat (length es) + 1)%Z ->
      history (es ++ [e]) m'.
End History.

Definition of_run (rid : string) (e : FactoryEvent) : bool := str_eqb (ev_run_id e) rid.
Definition events_of (rid : string) (d : Db) : list FactoryEvent := select (of_run rid) (db_events d).

(** the log of a run *)
Record log_wf `{Env} P (d : Db) (r : FactoryRun) : Prop := {
  log_history : history P (events_of (run_id r) d) (machine_of r);
  log_keys : NoDup (omap ev_key (events_of (run_id r) d));
}.

(** ** Cycles *)

Definition same_cycle (x y : FactoryCycle) : Prop :=
  cycle_id x = cycle_id y /\ cycle_run_id x = cycle_run_id y /\ cycle_ordinal x = cycle_ordinal y.

(** [c] is the current cycle of [r]: it is stored, it mirrors the state of the
    run, and the cycles of the run are numbered from 1 up to it *)
Record current_cycle (cycles : gmap string FactoryCycle) (r : FactoryRun) (c : string)
    (cy : FactoryCycle) : Prop := {
  current_stored : cycles !! c = Some cy;
  current_named : c <> "";
  current_owned : cycle_run_id cy = run_id r;
  current_mirrors : cycle_state cy = run_state r;
  current_last i x : cycles !! i = Some x -> cycle_run_id x = run_id r ->
    (1 <= cycle_ordinal x <= cycle_ordinal cy)%Z;
  current_dense k : (1 <= k <= cycle_ordinal cy)%Z ->
    exists i x, cycles !! i = Some x /\ cycle_run_id x = run_id r /\ cycle_ordinal x = k;
}.

Record cycles_wf (runs : gmap string FactoryRun) (cycles : gmap string FactoryCycle) : Prop := {
  cycle_keyed i x : cycles !! i = Some x -> cycle_id x = i;
  cycle_owner i x : cycles !! i = Some x -> is_Some (runs !! cycle_run_id x);
  ordinals_unique i x j y : cycles !! i = Some x -> cycles !! j = Some y ->
    cycle_run_id x = cycle_run_id y -> cycle_ordinal x = cycle_ordinal y -> i = j;
  current_known i r : runs !! i = Some r ->
    match run_current_cycle_id r with
    | Some c => exists cy, current_cycle cycles r c cy
    | None => forall j x, cycles !! j = Some x -> cycle_run_id x <> run_id r
    end;
}.

(** ** The tables *)

Record wf `{Env} P (d : Db) : Prop := {
  run_keyed i r : db_runs d !! i = Some r -> run_id r = i;
  run_logged i r : db_runs d !! i = Some r -> log_wf P d r;
  events_known e : e ∈ db_events d -> is_Some (db_runs d !! ev_run_id e);
  wf_cycles : cycles_wf (db_runs d) (db_cycles d);
}.

(** ** Growth *)

(** the columns of a run that never change *)
Definition same_run (x y : FactoryRun) : Prop :=
  run_id x = run_id y /\ run_user_id x = run_user_id y /\ run_workspace_id x = run_workspace_id y /\
  run_mission x = run_mission y /\ run_acceptance_criteria x = run_acceptance_criteria y /\
  run_model_id x = run_model_id y /\ run_policy x = run_policy y /\ run_budget x = run_budget y /\
  run_config_fingerprint x = run_config_fingerprint y /\
  run_idempotency_key x = run_idempotency_key y /\ run_created_at x = run_created_at y.

(** [d'] is [d] some time later: events, evidence and gate results were only
    appended, no run and no cycle is gone, and what identifies them is unchanged *)
Record extends (d d' : Db) : Prop := {
  ext_events : db_events d `prefix_of` db_events d';
  ext_evidence : db_evidence d `prefix_of` db_evidence d';
  ext_gates : db_gates d `prefix_of` db_gates d';
  ext_runs i r : db_runs d !! i = Some r -> exists r', db_runs d' !! i = Some r' /\ same_run r r';
  ext_cycles i c : db_cycles d !! i = Some c ->
    exists c', db_cycles d' !! i = Some c' /\ same_cycle c c';
}.

(** ** Lemmas on histories *)

Lemma same_run_refl r : same_run r r.
Proof. by split_and!. Qed.
Lemma same_run_trans x y z : same_run x y -> same_run y z -> same_run x z.
Proof. unfold same_run. intros (?&?&?&?&?&?&?&?&?&?&?) (?&?&?&?&?&?&?&?&?&?&?). split_and!; congruence. Qed.
Lemma same_cycle_refl c : same_cycle c c.
Proof. by split_and!. Qed.
Lemma same_cycle_trans x y z : same_cycle x y -> same_cycle y z -> same_cycle x z.
Proof. unfold same_cycle. intros (?&?&?) (?&?&?). split_and!; congruence. Qed.

#[export] Instance extends_preorder : PreOrder extends.
Proof.
  split.
  - intros d. split; try done; eauto using same_run_refl, same_cycle_refl.
  - intros d1 d2 d3 [E1 V1 G1 R1 C1] [E2 V2 G2 R2 C2]. split; try by etrans.
    + intros i r (r' & ? & ?)%R1. destruct (R2 i r') as (r'' & ? & ?); [done|].
      eauto using same_run_trans.
    + intros i c (c' & ? & ?)%C1. destruct (C2 i c') as (c'' & ? & ?); [done|].
      eauto using same_cycle_trans.
Qed.


Lemma events_of_app rid d d' e :
  db_events d' = db_events d ++ [e] ->
  events_of rid d' = if str_eqb (ev_run_id e) rid then events_of rid d ++ [e] else events_of rid d.
Proof.
  intros He. unfold events_of. rewrite He, select_app. unfold select at 2. simpl. unfold of_run at 2.
  destruct (str_eqb _ _); [done|]. by rewrite app_nil_r.
Qed.

Lemma elem_of_events_of rid d e : e ∈ events_of rid d <-> e ∈ db_events d /\ ev_run_id e = rid.
Proof. unfold events_of. rewrite elem_of_select. unfold of_run. by rewrite str_eqb_true. Qed.

Lemma history_not_nil `{Env} P m : ~ history P [] m.
Proof. inversion 1 as [|es e m' m'' ? ? ? Heq]. by destruct es. Qed.

(** the sequence numbers are 1, 2, ... *)
Lemma history_sequence `{Env} P es m :
  history P es m -> map ev_sequence es = seqZ 1 (Z.of_nat (length es)).
Proof.
  induction 1 as [e ? ? ? He ?|es e m m' _ IH _ He]; simpl; [by rewrite He|].
  rewrite map_app, IH, length_app, Nat2Z.inj_add. cbn [length map].
  rewrite (seqZ_app 1 (Z.of_nat (length es)) (Z.of_nat 1)) by lia. f_equal.
  rewrite He. cbv [seqZ Z.to_nat Z.of_nat Pos.to_nat Pos.iter_op Pos.of_succ_nat seq fmap list_fmap].
  f_equal. lia.
Qed.

Lemma fold_max_spec l z :
  (z <= fold_left Z.max l z)%Z /\ (forall x, x ∈ l -> (x <= fold_left Z.max l z)%Z) /\
  (fold_left Z.max l z = z \/ fold_left Z.max l z ∈ l).
Proof.
  revert z. induction l as [|y l IH]; intros z; simpl.
  - split_and!; [lia|by intros ? ?%elem_of_nil|by left].
  - destruct (IH (Z.max z y)) as (H1 & H2 & H3). split_and!; [lia| |].
    + intros x [->|?]%elem_of_cons; [lia|auto].
    + rewrite elem_of_cons. destruct H3 as [->|?]; [|auto]. destruct (Z.max_spec z y) as [[_ ->]|[_ ->]]; auto.
Qed.

Lemma max_of_spec l m : max_of l = Some m <-> m ∈ l /\ forall x, x ∈ l -> (x <= m)%Z.
Proof.
  destruct l as [|z l]; simpl; [split; [done|by intros [?%elem_of_nil _]]|].
  destruct (fold_max_spec l z) as (H1 & H2 & H3). split.
  - intros [= <-]. rewrite elem_of_cons. split; [tauto|].
    intros x [->|?]%elem_of_cons; auto.
  - intros [Hin Hall]. f_equal. apply Z.le_antisymm.
    + destruct H3 as [->|?]; apply Hall; [by left|by right].
    + apply elem_of_cons in Hin as [->|?]; auto.
Qed.

Lemma max_of_seq n : (0 < n)%nat -> max_of (seqZ 1 (Z.of_nat n)) = Some (Z.of_nat n).
Proof.
  intros ?. apply max_of_spec. setoid_rewrite elem_of_seqZ. split; [lia|]. intros; lia.
Qed.

Lemma history_max `{Env} P rid d m :
  history P (events_of rid d) m ->
  int_or_zero (max_sequence rid d) = Z.of_nat (length (events_of rid d)).
Proof.
  intros Hh. unfold max_sequence. fold (of_run rid). fold (events_of rid d).
  rewrite (history_sequence _ _ _ Hh).
  destruct (events_of rid d) as [|e es] eqn:E; [by apply history_not_nil in Hh|].
  rewrite max_of_seq; [done|simpl; lia].
Qed.

(** ** Appending one event *)

(** what [_append_event_in_transaction] does to the tables *)
Record appended (d : Db) (rid : string) (cycle : option string) (actor : FactoryActor)
    (event_type : string) (from_state to_state : option FactoryState) (key : option string)
    (e : FactoryEvent) (d' : Db) : Prop := {
  app_db : d' = set_db_events (db_events d ++ [e]) d;
  app_run : ev_run_id e = rid;
  app_cycle : ev_cycle_id e = cycle;
  app_actor : ev_actor e = actor;
  app_type : ev_type e = event_type;
  app_from : ev_from e = from_state;
  app_to : ev_to e = to_state;
  app_key : ev_key e = key;
  app_sequence : ev_sequence e = (int_or_zero (max_sequence rid d) + 1)%Z;
  app_known : is_Some (db_runs d !! rid);
  app_cycle_known c : cycle = Some c -> is_Some (db_cycles d !! c);
  app_key_fresh x k : x ∈ db_events d -> ev_run_id x = rid -> key = Some k -> ev_key x <> Some k;
}.

Section AppendFacts.
Context `{Env}.

Lemma append_event_Ok run cycle actor event_type from to key payload dg w e w' :
  _append_event_in_transaction run cycle actor event_type from to key payload dg w = (Ok e, w') ->
  appended (db w) (run_id run) cycle actor event_type from to key e (db w') /\
  (forall d, dg = Some d -> d <> "" -> ev_digest e = d) /\
  (exists dg', _canonical_payload payload = Ok (ev_payload e, dg') /\
     ev_digest e = if has_key dg then default "" dg else dg').
Proof.
  unfold _append_event_in_transaction. intros Hi. ok_inv.
  select (insert_event _ _ = _) (fun H => apply insert_event_Ok in H as (-> & _ & Hrun & Hcy & _ & Hk)).
  simpl in *.
  split; [split; simpl; auto|]. split; [|eauto].
  intros d -> Hd. apply empty_str_false in Hd. simpl. by rewrite Hd.
Qed.

(** the event of a key that was looked up and not found *)
Lemma event_for_key_Ok rid key w o w' :
  event_for_key rid key w = (Ok o, w') ->
  w' = w /\ select (fun e => of_run rid e && same_key (ev_key e) key) (db_events (db w)) = option_list o.
Proof. unfold event_for_key. intros Hi. ok_inv. done. Qed.

Lemma event_for_key_Some rid key w e w' :
  event_for_key rid key w = (Ok (Some e), w') ->
  w' = w /\ e ∈ db_events (db w) /\ ev_run_id e = rid /\ ev_key e = key /\ key <> None.
Proof.
  intros [-> Hs]%event_for_key_Ok.
  assert (e ∈ select (fun e => of_run rid e && same_key (ev_key e) key) (db_events (db w)))
    as [? [Hr Hk]%andb_true_iff]%elem_of_select by (rewrite Hs; by left).
  apply same_key_true in Hk as [Hk ?]. apply str_eqb_true in Hr.
  split_and!; try done. by rewrite <-Hk.
Qed.

Lemma run_and_cycle_Ok rid cid w r c w' :
  run_and_cycle rid cid w = (Ok (r, c), w') ->
  w' = w /\ db_runs (db w) !! rid = Some r /\ db_cycles (db w) !! cid = Some c /\ cycle_run_id c = rid.
Proof.
  unfold run_and_cycle, get_run_row, get_cycle_row. intros Hi. ok_inv.
  injection Hi as <- <-. apply str_eqb_true in E1. done.
Qed.

Lemma required_Ok {A} (x : option A) e w a w' :
  required x e w = (Ok a, w') -> x = Some a /\ w' = w.
Proof. unfold required. destruct x; intros Hi; ok_inv. done. Qed.
End AppendFacts.

Section LogFacts.
Context `{Env} (P : FactoryState -> option FactoryState -> Prop).

Lemma log_append d d' r r' cycle actor event_type from to key e :
  log_wf P d r -> run_id r' = run_id r ->
  appended d (run_id r) cycle actor event_type from to key e d' ->
  event_step P e (machine_of r) (machine_of r') ->
  log_wf P d' r'.
Proof.
  intros [Hh Hk] Hid Ha Hs.
  assert (events_of (run_id r') d' = events_of (run_id r) d ++ [e]) as He.
  { rewrite Hid, (events_of_app _ d d' e) by (by rewrite (app_db _ _ _ _ _ _ _ _ _ _ Ha)).
    by rewrite (app_run _ _ _ _ _ _ _ _ _ _ Ha), str_eqb_refl. }
  split; rewrite He.
  - econstructor; [done..|]. rewrite (app_sequence _ _ _ _ _ _ _ _ _ _ Ha). by erewrite history_max.
  - rewrite omap_app. apply NoDup_app. split; [done|]. simpl.
    destruct (ev_key e) as [k|] eqn:Ek; [|split; [by intros ? _ ?%elem_of_nil|constructor]].
    split; [|apply NoDup_singleton].
    intros k' (x & [Hx Hr]%elem_of_events_of & Hxk)%list_elem_of_omap ->%list_elem_of_singleton.
    pose proof (app_key _ _ _ _ _ _ _ _ _ _ Ha) as Hkey. rewrite Ek in Hkey.
    by apply (app_key_fresh _ _ _ _ _ _ _ _ _ _ Ha x k).
Qed.

Lemma log_other d d' r e :
  log_wf P d r -> db_events d' = db_events d ++ [e] -> ev_run_id e <> run_id r -> log_wf P d' r.
Proof.
  intros [Hh Hk] He Hne. apply str_eqb_false in Hne.
  split; rewrite (events_of_app _ _ _ _ He), Hne; done.
Qed.

Lemma log_frame d d' r r' :
  log_wf P d r -> db_events d' = db_events d -> run_id r' = run_id r ->
  machine_of r' = machine_of r -> log_wf P d' r'.
Proof. intros [Hh Hk] He Hid Hm. unfold events_of in *. split; unfold events_of; by rewrite He, Hid, ?Hm. Qed.

(** one event on one run, the cycles staying well-formed *)
Lemma wf_append d d1 d' r r' cycle actor event_type from to key e :
  wf P d -> db_runs d !! run_id r = Some r -> run_id r' = run_id r ->
  db_events d1 = db_events d -> db_runs d1 = <[run_id r := r']> (db_runs d) ->
  appended d1 (run_id r) cycle actor event_type from to key e d' ->
  event_step P e (machine_of r) (machine_of r') ->
  cycles_wf (db_runs d1) (db_cycles d1) ->
  wf P d'.
Proof.
  intros [Hkey Hlog Hkn _] Hr Hid He1 Hr1 Ha Hs Hc.
  pose proof (app_db _ _ _ _ _ _ _ _ _ _ Ha) as Hd.
  assert (db_runs d' = <[run_id r := r']> (db_runs d)) as Hr' by (rewrite Hd; exact Hr1).
  assert (db_events d' = db_events d ++ [e]) as He' by (rewrite Hd; simpl; by rewrite He1).
  split.
  - intros i x. rewrite Hr'. intros [[<- <-]|[? ?]]%lookup_insert_Some; [by rewrite Hid|eauto].
  - intros i x. rewrite Hr'. intros [[<- <-]|[? Hx]]%lookup_insert_Some.
    + assert (log_wf P d1 r) as Hl1 by (eapply log_frame; [exact (Hlog _ _ Hr)|exact He1|done|done]).
      exact (log_append _ _ _ _ _ _ _ _ _ _ _ Hl1 Hid Ha Hs).
    + eapply log_other; [by eapply Hlog|done|]. rewrite (app_run _ _ _ _ _ _ _ _ _ _ Ha).
      by rewrite (Hkey _ _ Hx).
  - intros x. rewrite He', Hr'. intros [Hx| ->%list_elem_of_singleton]%elem_of_app.
    + apply lookup_insert_is_Some. destruct (decide (run_id r = ev_run_id x)); [by left|right; auto].
    + rewrite (app_run _ _ _ _ _ _ _ _ _ _ Ha). rewrite lookup_insert_eq. eauto.
  - rewrite Hd. exact Hc.
Qed.

(** operations that leave the log, the cycles and the machines alone *)
Lemma wf_frame d d' :
  wf P d -> db_events d' = db_events d -> db_cycles d' = db_cycles d ->
  (forall i, match db_runs d !! i, db_runs d' !! i with
             | Some r, Some r' => run_id r' = run_id r /\ machine_of r' = machine_of r /\
                                  run_current_cycle_id r' = run_current_cycle_id r
             | None, None => True
             | _, _ => False
             end) ->
  wf P d'.
Proof.
  intros [Hkey Hlog Hkn Hc] He Hcy Hr.
  assert (Hback : forall i r', db_runs d' !! i = Some r' -> exists r, db_runs d !! i = Some r /\
    run_id r' = run_id r /\ machine_of r' = machine_of r /\
    run_current_cycle_id r' = run_current_cycle_id r).
  { intros i r' Hi. specialize (Hr i). rewrite Hi in Hr. destruct (db_runs d !! i); [eauto|done]. }
  assert (Hfwd : forall i, is_Some (db_runs d !! i) -> is_Some (db_runs d' !! i)).
  { intros i [r Hi]. specialize (Hr i). rewrite Hi in Hr. destruct (db_runs d' !! i); [eauto|done]. }
  split.
  - intros i r' (r & Hi & -> & _)%Hback. eauto.
  - intros i r' (r & Hi & ? & ? & _)%Hback. eapply log_frame; eauto.
  - intros e. rewrite He. eauto.
  - destruct Hc as [C1 C2 C3 C4]. rewrite Hcy. split; [done|eauto|done|].
    intros i r' (r & Hi & Hid & Hm & ->)%Hback. specialize (C4 _ _ Hi).
    destruct (run_current_cycle_id r); [|by rewrite Hid].
    destruct C4 as (cy & [? ? ? Hst ? ?]). exists cy. injection Hm as Hst' _.
    split; rewrite ?Hid, ?Hst'; done.
Qed.
End LogFacts.

(** ** Updating and adding cycles *)

(** [C'] is [C] with some cycles edited, those of other runs keeping their state *)
Definition edited (rid : string) (C C' : gmap string FactoryCycle) (j : string) : Prop :=
  match C !! j, C' !! j with
  | Some x, Some y => same_cycle x y /\ (cycle_run_id x <> rid -> cycle_state y = cycle_state x)
  | None, None => True
  | _, _ => False
  end.

Lemma edited_refl rid C j : edited rid C C j.
Proof. unfold edited. destruct (C !! j); [|done]. by split_and!. Qed.

Lemma edited_insert rid C j x y :
  C !! j = Some x -> same_cycle x y -> cycle_run_id x = rid ->
  forall i, edited rid C (<[j := y]> C) i.
Proof.
  intros Hx Hs Hr i. unfold edited. destruct (decide (j = i)) as [->|?].
  - by rewrite lookup_insert_eq, Hx.
  - rewrite lookup_insert_ne by done. apply edited_refl.
Qed.

Lemma edited_back rid C C' j y :
  edited rid C C' j -> C' !! j = Some y ->
  exists x, C !! j = Some x /\ same_cycle x y /\ (cycle_run_id x <> rid -> cycle_state y = cycle_state x).
Proof. unfold edited. intros He Hy. rewrite Hy in He. destruct (C !! j); [eauto|done]. Qed.
Lemma edited_fwd rid C C' j x :
  edited rid C C' j -> C !! j = Some x ->
  exists y, C' !! j = Some y /\ same_cycle x y /\ (cycle_run_id x <> rid -> cycle_state y = cycle_state x).
Proof. unfold edited. intros He Hx. rewrite Hx in He. destruct (C' !! j); [eauto|done]. Qed.

Definition keyed (runs : gmap string FactoryRun) : Prop :=
  forall i r, runs !! i = Some r -> run_id r = i.

(** the current cycle of a run whose cycles were edited *)
Lemma current_edited rid C C' r r' c cy cy' :
  current_cycle C r c cy -> (forall j, edited rid C C' j) -> C' !! c = Some cy' ->
  run_id r' = run_id r -> cycle_state cy' = run_state r' -> current_cycle C' r' c cy'.
Proof.
  intros [Hst Hne Hown _ Hlast Hdense] He Hc Hid Hs.
  destruct (edited_fwd _ _ _ _ _ (He c) Hst) as (y & Hy & (_ & Hr & Ho) & _).
  rewrite Hc in Hy. injection Hy as <-.
  split; rewrite ?Hid; [done|done|congruence|done| |].
  - intros i x Hx Hxr. destruct (edited_back _ _ _ _ _ (He i) Hx) as (x0 & ? & (_ & ? & ?) & _).
    rewrite <-Ho. assert (cycle_ordinal x = cycle_ordinal x0) as -> by congruence.
    apply (Hlast i); congruence.
  - intros k. rewrite <-Ho. intros (i & x & Hx & ? & ?)%Hdense.
    destruct (edited_fwd _ _ _ _ _ (He i) Hx) as (y & ? & (_ & ? & ?) & _).
    exists i, y. split_and!; congruence.
Qed.

Lemma cycles_edit R C C' i r r' :
  cycles_wf R C -> keyed R -> R !! i = Some r -> run_id r' = run_id r ->
  run_current_cycle_id r' = run_current_cycle_id r ->
  (forall j, edited i C C' j) ->
  (forall c cy', run_current_cycle_id r = Some c -> C' !! c = Some cy' ->
     cycle_state cy' = run_state r') ->
  cycles_wf (<[i := r']> R) C'.
Proof.
  intros [C1 C2 C3 C4] Hk Hi Hid Hcur He Hst. split.
  - intros j y Hy. destruct (edited_back _ _ _ _ _ (He j) Hy) as (x & Hx & (E & _) & _).
    rewrite <-E. eauto.
  - intros j y Hy. destruct (edited_back _ _ _ _ _ (He j) Hy) as (x & Hx & (_ & E & _) & _).
    rewrite <-E. apply lookup_insert_is_Some. destruct (decide (i = cycle_run_id x)); eauto.
  - intros j1 y1 j2 y2 Hy1 Hy2.
    destruct (edited_back _ _ _ _ _ (He j1) Hy1) as (x1 & ? & (_ & E1 & O1) & _).
    destruct (edited_back _ _ _ _ _ (He j2) Hy2) as (x2 & ? & (_ & E2 & O2) & _).
    rewrite <-E1, <-E2, <-O1, <-O2. eauto.
  - intros j rj [[<- <-]|[Hne Hj]]%lookup_insert_Some.
    + rewrite Hcur. specialize (C4 _ _ Hi). destruct (run_current_cycle_id r) as [c|] eqn:Ec.
      * destruct C4 as (cy & Hcc). pose proof (current_stored _ _ _ _ Hcc) as Hc.
        destruct (edited_fwd _ _ _ _ _ (He c) Hc) as (cy' & Hcy' & _).
        exists cy'. eapply current_edited; eauto.
      * intros j y Hy. destruct (edited_back _ _ _ _ _ (He j) Hy) as (x & Hx & (_ & E & _) & _).
        rewrite <-E, Hid. eauto.
    + specialize (C4 _ _ Hj). destruct (run_current_cycle_id rj) as [c|] eqn:Ec.
      * destruct C4 as (cy & Hcc). pose proof Hcc as [Hc _ Hown Hmir _ _].
        destruct (edited_fwd _ _ _ _ _ (He c) Hc) as (cy' & Hcy' & _ & Hs).
        exists cy'. eapply current_edited; eauto. rewrite Hs; [done|].
        rewrite Hown, (Hk _ _ Hj). auto.
      * intros k y Hy. destruct (edited_back _ _ _ _ _ (He k) Hy) as (x & Hx & (_ & E & _) & _).
        rewrite <-E. eauto.
Qed.

Lemma max_ordinal_spec d r :
  cycles_wf (db_runs d) (db_cycles d) -> db_runs d !! run_id r = Some r ->
  (forall i x, db_cycles d !! i = Some x -> cycle_run_id x = run_id r ->
     (1 <= cycle_ordinal x <= int_or_zero (max_ordinal (run_id r) d))%Z) /\
  (forall k, (1 <= k <= int_or_zero (max_ordinal (run_id r) d))%Z ->
     exists i x, db_cycles d !! i = Some x /\ cycle_run_id x = run_id r /\ cycle_ordinal x = k) /\
  (0 <= int_or_zero (max_ordinal (run_id r) d))%Z.
Proof.
  intros [_ _ _ Hcur] Hr. specialize (Hcur _ _ Hr).
  assert (Hin : forall z, z ∈ map cycle_ordinal (select (fun c => str_eqb (cycle_run_id c) (run_id r))
            (rows_of (db_cycles d))) <->
            exists i x, db_cycles d !! i = Some x /\ cycle_run_id x = run_id r /\ cycle_ordinal x = z).
  { intros z. rewrite list_elem_of_fmap. setoid_rewrite elem_of_select.
    setoid_rewrite elem_of_rows. setoid_rewrite str_eqb_true. naive_solver. }
  unfold max_ordinal. destruct (run_current_cycle_id r) as [c|].
  - destruct Hcur as (cy & [Hst Hne Hown Hmir Hlast Hdense]).
    assert (max_of (map cycle_ordinal (select (fun c => str_eqb (cycle_run_id c) (run_id r))
              (rows_of (db_cycles d)))) = Some (cycle_ordinal cy)) as ->.
    { apply max_of_spec. split; [apply Hin; eauto|].
      intros z (i & x & Hx & ? & <-)%Hin. by apply (Hlast i). }
    simpl. split_and!; [eauto..|]. pose proof (Hlast _ _ Hst Hown). lia.
  - destruct (max_of _) as [m|] eqn:Em; simpl.
    + apply max_of_spec in Em as [(i & x & Hx & Hxr & _)%Hin _]. by apply (Hcur i x) in Hx.
    + split_and!; [|lia|lia]. intros i x Hx Hxr. by apply (Hcur i x) in Hx.
Qed.

Lemma cycles_add d r r' C' new :
  cycles_wf (db_runs d) (db_cycles d) -> keyed (db_runs d) ->
  db_runs d !! run_id r = Some r -> run_id r' = run_id r ->
  db_cycles d !! cycle_id new = None -> cycle_id new <> "" ->
  cycle_run_id new = run_id r ->
  cycle_ordinal new = (int_or_zero (max_ordinal (run_id r) d) + 1)%Z ->
  cycle_state new = run_state r' ->
  run_current_cycle_id r' = Some (cycle_id new) ->
  C' !! cycle_id new = Some new ->
  (forall j, j <> cycle_id new -> edited (run_id r) (db_cycles d) C' j) ->
  cycles_wf (<[run_id r := r']> (db_runs d)) C'.
Proof.
  intros Hwf Hk Hr Hid Hfresh Hne Hown Hord Hst Hcur Hnew He.
  destruct (max_ordinal_spec d r Hwf Hr) as (Hle & Hdense & Hpos).
  destruct Hwf as [C1 C2 C3 C4].
  assert (Hback : forall j y, C' !! j = Some y -> (j = cycle_id new /\ y = new) \/
    exists x, db_cycles d !! j = Some x /\ same_cycle x y /\
              (cycle_run_id x <> run_id r -> cycle_state y = cycle_state x) /\ j <> cycle_id new).
  { intros j y Hy. destruct (decide (j = cycle_id new)) as [->|Hj].
    - left. rewrite Hnew in Hy. by injection Hy as <-.
    - right. destruct (edited_back _ _ _ _ _ (He j Hj) Hy) as (x & ? & ? & ?). eauto. }
  assert (Hfwd : forall j x, db_cycles d !! j = Some x -> exists y, C' !! j = Some y /\
    same_cycle x y /\ (cycle_run_id x <> run_id r -> cycle_state y = cycle_state x)).
  { intros j x Hx. apply (edited_fwd (run_id r) (db_cycles d)); [|done]. apply He. congruence. }
  split.
  - intros j y [[-> ->]|(x & ? & (E & _) & _)]%Hback; [done|]. rewrite <-E. eauto.
  - intros j y [[-> ->]|(x & Hx & (_ & E & _) & _)]%Hback; apply lookup_insert_is_Some.
    + rewrite Hown. by left.
    + rewrite <-E. destruct (decide (run_id r = cycle_run_id x)); eauto.
  - intros j1 y1 j2 y2 [[-> ->]|(x1 & H1 & (_ & E1 & O1) & _ & _)]%Hback
      [[-> ->]|(x2 & H2 & (_ & E2 & O2) & _ & _)]%Hback; [done| | |].
    + rewrite Hown, <-E2, <-O2. intros Hx2 Ho. symmetry in Hx2. specialize (Hle _ _ H2 Hx2). lia.
    + rewrite Hown, <-E1, <-O1. intros Hx1 Ho. specialize (Hle _ _ H1 Hx1). lia.
    + rewrite <-E1, <-E2, <-O1, <-O2. eauto.
  - intros j rj [[<- <-]|[Hji Hj]]%lookup_insert_Some.
    + rewrite Hcur. exists new. split; try done; rewrite ?Hid; [done| |].
      * intros i x [[-> ->]|(x0 & Hx & (_ & E & O) & _)]%Hback; [lia|].
        rewrite <-E, <-O. intros Hxr. specialize (Hle _ _ Hx Hxr). lia.
      * intros k Hk1. destruct (decide (k = cycle_ordinal new)) as [->|Hkn]; [by exists (cycle_id new), new|].
        destruct (Hdense k) as (i & x & Hx & ? & ?); [lia|].
        destruct (Hfwd _ _ Hx) as (y & ? & (_ & ? & ?) & _). exists i, y. split_and!; congruence.
    + specialize (C4 _ _ Hj). destruct (run_current_cycle_id rj) as [c|] eqn:Ec.
      * destruct C4 as (cy & [Hc Hcne Howner Hmir Hlast Hd]).
        destruct (Hfwd _ _ Hc) as (cy' & Hcy' & (_ & E & O) & Hs). exists cy'.
        split; try done; [congruence| | |].
        -- rewrite Hs; [done|]. rewrite Howner, (Hk _ _ Hj). auto.
        -- intros i x [[-> ->]|(x0 & Hx & (_ & E0 & O0) & _)]%Hback.
           { rewrite Hown. intros Heq. by rewrite (Hk _ _ Hj) in Heq. }
           rewrite <-E0, <-O0, <-O. eauto.
        -- intros k. rewrite <-O. intros (i & x & Hx & ? & ?)%Hd.
           destruct (Hfwd _ _ Hx) as (y & ? & (_ & ? & ?) & _). exists i, y. split_and!; congruence.
      * intros k y [[-> ->]|(x & Hx & (_ & E & _) & _)]%Hback; [|rewrite <-E; eauto].
        rewrite Hown, (Hk _ _ Hj). done.
Qed.

(** ** What a machine can be *)

(** a run that waits knows where it was interrupted, and only a run that waits or
    recovers records a state; that state is neither terminal nor waiting *)
Definition machine_ok (m : machine) : Prop :=
  match m.2 with
  | None => ~ waiting m.1
  | Some t => interrupted m.1 = true /\ ~ terminal t /\ ~ waiting t
  end.

Lemma interrupted_spec s : interrupted s = true <-> s = RECOVERING \/ waiting s.
Proof. unfold interrupted, waiting. rewrite bool_decide_eq_true. set_solver. Qed.

Lemma interrupted_false s : interrupted s = false <-> s <> RECOVERING /\ ~ waiting s.
Proof. rewrite <-not_true_iff_false, interrupted_spec. tauto. Qed.

Section Machine.
Context `{Env} (P : FactoryState -> option FactoryState -> Prop).

Lemma event_step_ok e m m' : event_step P e m m' -> machine_ok m -> machine_ok m'.
Proof.
  intros [s res|s res s' res' req _ _ _ _ Hv Hn|res ? ? _ _ _ _ _] Hok; [done| |].
  2: { unfold machine_ok in *; simpl in *. destruct res; [by destruct Hok|by intros []]. }
  apply validator_spec in Hv as [Ht Hl]. unfold next_resumable in Hn.
  case_bool_decide as HR.
  { case_bool_decide as HM; [injection Hn as <-; subst; by intros []|].
    destruct (_ && _); [done|]. injection Hn as <-. subst. split; [done|]. split; [done|].
    inversion Hl; unfold control_target, waiting in *; naive_solver. }
  destruct (bool_decide (s' = PAUSED) || bool_decide (s' = APPROVAL_REQUIRED)) eqn:Hw.
  { injection Hn as <-. apply orb_true_iff in Hw.
    rewrite !bool_decide_eq_true in Hw. split; [apply interrupted_spec; unfold waiting; tauto|].
    split; [done|]. inversion Hl; unfold control_target, system_only, waiting in *;
      destruct Hw; subst; try naive_solver; set_solver. }
  apply orb_false_iff in Hw as [HP HA]. apply bool_decide_eq_false in HP, HA.
  destruct (interrupted s) eqn:Hi.
  - injection Hn as <-. intros [?|?]; done.
  - injection Hn as <-. unfold machine_ok in *; simpl in *.
    destruct res; [by destruct Hok as [? _]; rewrite Hi in *|intros [?|?]; done].
Qed.

Lemma history_ok es m : history P es m -> machine_ok m.
Proof. induction 1; [by intros []|by eapply event_step_ok]. Qed.
End Machine.
