(* ===== verification/FactoryStoreFacts.v ===== *)
(** * The store keeps its promise

    Every method of [SqlFactoryStore] keeps [wf], whatever it is called with and
    however it ends; [exec] runs any sequence of them, and the theorems at the end
    say what holds of every database that such a sequence produces. *)

From S2P Require Import Prelude PyStr Json Redaction FactoryDomain FactoryGates.
From S2P Require Import FactoryVictory Database CapabilityLifecycle FactoryStore FactoryHistory.

(** ** Computations that keep a property of the tables *)

Definition keeps {A} (I : Db -> Prop) (m : M World A) : Prop :=
  forall w, I (db w) -> I (db (m w).2).

Section Keeps.
Context (I : Db -> Prop).

Lemma keeps_ret {A} (a : A) : keeps I (ret a).
Proof. by intros w. Qed.
Lemma keeps_raise {A} e : keeps (A:=A) I (raise e).
Proof. by intros w. Qed.
Lemma keeps_lift {A} (r : result A) : keeps I (lift r).
Proof. by intros w. Qed.
Lemma keeps_query {A} (f : Db -> A) : keeps I (query f).
Proof. by intros w. Qed.
Lemma keeps_bind {A B} (m : M World A) (k : A -> M World B) :
  keeps I m -> (forall a, keeps I (k a)) -> keeps I (bind m k).
Proof.
  intros Hm Hk w Hw. specialize (Hm w Hw). unfold bind.
  destruct (m w) as [[a|e] w1]; [by apply Hk|done].
Qed.
Lemma keeps_bind_lift {A B} (r : result A) (k : A -> M World B) :
  (forall a, r = Ok a -> keeps I (k a)) -> keeps I (bind (lift r) k).
Proof. intros Hk w Hw. unfold bind, lift. destruct r; [by apply Hk|done]. Qed.
Lemma keeps_write f : (forall d, I d -> I (f d)) -> keeps I (write f).
Proof. intros Hf w Hw. by apply Hf. Qed.
Lemma keeps_transaction {A} (m : M World A) :
  (forall w a w', I (db w) -> m w = (Ok a, w') -> I (db w')) -> keeps I (transaction m).
Proof.
  intros Hm w Hw. unfold transaction. destruct (m w) as [[a|e] w1] eqn:E; [|done]. by eapply Hm.
Qed.
Lemma keeps_catch {A} (m : M World A) p h :
  keeps I m -> (forall e, keeps I (h e)) -> keeps I (catch m p h).
Proof.
  intros Hm Hh w Hw. specialize (Hm w Hw). unfold catch.
  destruct (m w) as [[a|e] w1]; [done|]. destruct (p e); [by apply Hh|done].
Qed.
Lemma keeps_scalar {A} (l : list A) : keeps I (scalar_one_or_none l).
Proof. destruct l as [|? []]; by intros w. Qed.
Lemma keeps_required {A} (x : option A) e : keeps I (required x e).
Proof. destruct x; by intros w. Qed.
End Keeps.

Create HintDb keeps.
#[export] Hint Resolve keeps_ret keeps_raise keeps_lift keeps_query keeps_scalar keeps_required : keeps.

(** stepping through a computation that only reads *)
Ltac keeps_step :=
  match goal with
  | |- keeps _ (bind (lift _) _) => apply keeps_bind_lift; intros ? ?
  | |- keeps _ (bind _ _) => apply keeps_bind; [|intros ?]
  | |- keeps _ (if ?c then _ else _) => destruct c
  | |- keeps _ (match ?o with Some _ => _ | None => _ end) => destruct o
  | |- keeps _ (match ?p with (_, _) => _ end) => destruct p
  | |- keeps _ _ => solve [auto with keeps]
  end.

(** well-formed tables that grew out of the tables [d0] *)
Record sound `{Env} (P : FactoryState -> option FactoryState -> Prop) (d0 d : Db) : Prop := {
  sound_wf :> wf P d;
  sound_extends : extends d0 d;
}.

Section Preservation.
Context `{Env}.
Context (P : FactoryState -> option FactoryState -> Prop) (d0 : Db).

Lemma keeps_now I : keeps I _now_ms.
Proof. by intros w. Qed.
Lemma keeps_new_id I p : keeps I (_new_id p).
Proof. by intros w. Qed.

(** operations that leave the log, the cycles and the machines alone *)
Lemma sound_frame d d' :
  sound P d0 d -> db_events d' = db_events d -> db_cycles d' = db_cycles d ->
  db_evidence d `prefix_of` db_evidence d' -> db_gates d `prefix_of` db_gates d' ->
  (forall i, match db_runs d !! i, db_runs d' !! i with
             | Some r, Some r' => same_run r r' /\ machine_of r' = machine_of r /\
                                  run_current_cycle_id r' = run_current_cycle_id r
             | None, None => True
             | _, _ => False
             end) ->
  sound P d0 d'.
Proof.
  intros Hwf He Hc Hv Hg Hr. split.
  - eapply wf_frame; [exact Hwf|done|done|]. intros i. specialize (Hr i).
    destruct (db_runs d !! i), (db_runs d' !! i); try done. by destruct Hr as ((-> & _) & ? & ?).
  - etrans; [exact (sound_extends _ _ _ Hwf)|]. split; [by rewrite He|done|done| |].
    + intros i r Hi. specialize (Hr i). rewrite Hi in Hr. destruct (db_runs d' !! i); [|done].
      destruct Hr as (? & _). eauto.
    + intros i c Hi. exists c. rewrite Hc. split; [done|apply same_cycle_refl].
Qed.

(** the key of a run in the table *)
Lemma wf_run d rid r : sound P d0 d -> db_runs d !! rid = Some r -> rid = run_id r.
Proof. intros Hwf Hr. symmetry. exact (run_keyed _ _ Hwf _ _ Hr). Qed.

(** ** Creating a run *)

Lemma insert_new_run_wf rq fp w r w' :
  sound P d0 (db w) -> insert_new_run rq fp w = (Ok r, w') -> sound P d0 (db w').
Proof.
  intros Hwf. unfold insert_new_run. intros Hi. ok_inv.
  select (insert_run _ _ = _) (fun H => apply insert_run_Ok in H as (-> & Hfresh & _)).
  select (insert_event _ _ = _) (fun H => apply insert_event_Ok in H as (-> & _)).
  simpl in *. set (rid := "factory" +:+ _) in *. set (r := Build_FactoryRun _ _ _ _ _ _ _ _ _ _ _ _ _ _ _ _ _ _ _).
  set (e := Build_FactoryEvent _ _ _ _ _ _ _ _ _ _ _ _).
  destruct Hwf as [[Hk Hl He [C1 C2 C3 C4]] Hext].
  assert (Hne : forall i x, db_runs (db w) !! i = Some x -> i <> rid) by congruence.
  split; [split; simpl|].
  - intros i x [[<- <-]|[? ?]]%lookup_insert_Some; [done|eauto].
  - intros i x [[<- <-]|[? Hx]]%lookup_insert_Some.
    + assert (events_of rid (db w) = []) as Hnil.
      { apply list_nil_elem. intros y [Hy Hyr]%elem_of_events_of. apply He in Hy as [z Hz]. congruence. }
      assert (events_of rid (set_db_events (db_events (db w) ++ [e]) (set_db_runs (<[rid:=r]> (db_runs (db w))) (db w))) = [e]) as Heq.
      { rewrite (events_of_app rid (db w) _ e) by done. simpl. by rewrite str_eqb_refl, Hnil. }
      split; simpl; rewrite Heq; [by apply history_created|]. simpl.
      destruct (derived_key _ _); repeat constructor. by intros ?%elem_of_nil.
    + eapply log_other; [by eapply Hl|done|]. simpl. rewrite (Hk _ _ Hx). intros Heq. by apply (Hne _ _ Hx).
  - intros x [Hx| ->%list_elem_of_singleton]%elem_of_app; apply lookup_insert_is_Some; [|by left].
    destruct (He _ Hx) as [z Hz]. right. split; [|eauto]. intros Heq. by apply (Hne _ _ Hz).
  - split; [done| |done|].
    + intros i x Hx. destruct (C2 _ _ Hx) as [z Hz]. apply lookup_insert_is_Some. right.
      split; [|eauto]. intros Heq. by apply (Hne _ _ Hz).
    + intros i x [[<- <-]|[? Hx]]%lookup_insert_Some; [|exact (C4 _ _ Hx)].
      simpl. intros j c Hc Hcr. destruct (C2 _ _ Hc) as [z Hz]. rewrite Hcr in Hz. by apply (Hne _ _ Hz).
  - etrans; [exact Hext|]. split; simpl; try done.
    + by eexists.
    + intros i x Hx. exists x. rewrite lookup_insert_ne by (intros ->; congruence).
      split; [done|apply same_run_refl].
    + eauto using same_cycle_refl.
Qed.

Lemma create_run_keeps rq : keeps (sound P d0) (create_run id rq).
Proof.
  unfold create_run. repeat first [keeps_step | apply keeps_catch; [|intros ?]].
  - unfold run_for_key. repeat keeps_step.
  - by apply keeps_write.
  - apply keeps_transaction. intros ???. apply insert_new_run_wf.
  - unfold run_for_key. repeat keeps_step.
Qed.

(** ** One event on one run *)

(** the state the current cycle of a run mirrors *)
Lemma current_state d r c cy :
  sound P d0 d -> db_runs d !! run_id r = Some r -> run_current_cycle_id r = Some c ->
  db_cycles d !! c = Some cy ->
  cycle_state cy = run_state r /\ cycle_run_id cy = run_id r /\ c <> "" /\ cycle_id cy = c.
Proof.
  intros Hwf Hr Hc Hcy. pose proof (current_known _ _ (wf_cycles _ _ Hwf) _ _ Hr) as Hcur.
  rewrite Hc in Hcur. destruct Hcur as (cy' & [Hst Hne Hown Hmir _ _]).
  rewrite Hcy in Hst. injection Hst as <-.
  split_and!; [done..|]. exact (cycle_keyed _ _ (wf_cycles _ _ Hwf) _ _ Hcy).
Qed.

(** the tables after a cycle and its run were saved *)
Definition saved (r : FactoryRun) (C : gmap string FactoryCycle) (d : Db) : Db :=
  set_db_runs (<[run_id r := r]> (db_runs d)) (set_db_cycles C d).

(** one event on an edited run and edited cycles is a growth of the tables *)
Lemma grown d d' r r' C cycle actor event_type from to key e :
  keyed (db_runs d) -> db_runs d !! run_id r = Some r -> same_run r r' ->
  (forall j c, db_cycles d !! j = Some c -> exists c', C !! j = Some c' /\ same_cycle c c') ->
  appended (saved r' C d) (run_id r') cycle actor event_type from to key e d' ->
  extends d d'.
Proof.
  intros Hk Hr Hs HC Ha. rewrite (app_db _ _ _ _ _ _ _ _ _ _ Ha). split; simpl; try done.
  - by eexists.
  - pose proof (proj1 Hs) as Hid. rewrite <-Hid.
    intros i x Hx. destruct (decide (run_id r = i)) as [<-|?].
    + rewrite lookup_insert_eq. exists r'. by assert (x = r) as -> by congruence.
    + rewrite lookup_insert_ne by done. exists x. split; [done|apply same_run_refl].
Qed.

Lemma sound_keyed d : sound P d0 d -> keyed (db_runs d).
Proof. intros Hwf i x. apply (run_keyed _ _ Hwf). Qed.

(** a run and cycles that were edited, and an event that tells so *)
Lemma edit_wf d d' r r' C cycle actor event_type from to key e :
  sound P d0 d -> db_runs d !! run_id r = Some r ->
  same_run r r' -> run_current_cycle_id r' = run_current_cycle_id r ->
  (forall j, edited (run_id r) (db_cycles d) C j) ->
  (forall c cy, run_current_cycle_id r = Some c -> C !! c = Some cy -> cycle_state cy = run_state r') ->
  appended (saved r' C d) (run_id r') cycle actor event_type from to key e d' ->
  event_step P e (machine_of r) (machine_of r') ->
  sound P d0 d'.
Proof.
  intros Hwf Hr Hsame Hcur He Hst Ha Hs. pose proof (proj1 Hsame) as Hid. symmetry in Hid. split.
  - refine (wf_append P d (saved r' C d) d' r r' _ _ _ _ _ _ e Hwf Hr Hid _ _ _ Hs _).
    + done.
    + simpl. by rewrite Hid.
    + rewrite <-Hid. exact Ha.
    + simpl. rewrite Hid. eapply cycles_edit; eauto; [apply Hwf|by apply sound_keyed].
  - etrans; [exact (sound_extends _ _ _ Hwf)|]. eapply grown; [by apply sound_keyed|done|done| |exact Ha].
    intros j c Hc. destruct (edited_fwd _ _ _ _ _ (He j) Hc) as (c' & ? & ? & _). eauto.
Qed.

(** an event that does not move the run *)
Lemma note_wf d d' r r' cid cy cy' cycle actor event_type key e :
  sound P d0 d -> db_runs d !! run_id r = Some r -> db_cycles d !! cid = Some cy ->
  cycle_run_id cy = run_id r ->
  same_run r r' -> machine_of r' = machine_of r ->
  run_current_cycle_id r' = run_current_cycle_id r ->
  same_cycle cy cy' -> cycle_state cy' = cycle_state cy ->
  event_type ∉ transition_types ->
  appended (saved r' (<[cycle_id cy' := cy']> (db_cycles d)) d) (run_id r') cycle actor event_type
    (Some (run_state r)) (Some (run_state r)) key e d' ->
  sound P d0 d'.
Proof.
  intros Hwf Hr Hcy Hown Hid Hm Hcur Hsame Hst Hty Ha.
  assert (cycle_id cy' = cid) as Hcid.
  { destruct Hsame as [<- _]. exact (cycle_keyed _ _ (wf_cycles _ _ Hwf) _ _ Hcy). }
  rewrite Hcid in Ha.
  eapply edit_wf; [done|done|done|done| | |exact Ha|].
  - by apply (edited_insert _ _ _ cy).
  - intros c x Hc. injection Hm as -> _. destruct (decide (cid = c)) as [->|?].
    + rewrite lookup_insert_eq. intros [= <-]. rewrite Hst. by eapply current_state.
    + rewrite lookup_insert_ne by done. intros Hx. by eapply current_state.
  - rewrite Hm. apply step_note.
    + by rewrite (app_type _ _ _ _ _ _ _ _ _ _ Ha).
    + by rewrite (app_from _ _ _ _ _ _ _ _ _ _ Ha).
    + by rewrite (app_to _ _ _ _ _ _ _ _ _ _ Ha).
Qed.

(** ** The methods that append one event *)

Lemma set_projection_kept c field c' :
  set_projection c field = Ok c' -> same_cycle c c' /\ cycle_state c' = cycle_state c.
Proof.
  unfold set_projection. destruct field as [key v].
  repeat (destruct (str_eqb key _); [by intros [= <-]|]).
  unfold rbind. destruct (text_column v); [|done].
  repeat (destruct (str_eqb key _); [by intros [= <-]|]). by intros [= <-].
Qed.

Lemma set_projections_kept fields c c' :
  set_projections fields c = Ok c' -> same_cycle c c' /\ cycle_state c' = cycle_state c.
Proof.
  unfold set_projections.
  enough (forall r, fold_left (fun r field => let? c := r in set_projection c field) fields r = Ok c' ->
            exists c0, r = Ok c0 /\ same_cycle c0 c' /\ cycle_state c' = cycle_state c0) as He.
  { by intros (? & [= <-] & ?)%He. }
  induction fields as [|f fields IH]; simpl; intros r Hr; [exists c'; by split_and!|].
  apply IH in Hr as (c1 & Hr & Hs1 & Hst1). destruct r as [c0|]; simpl in Hr; [|done].
  apply set_projection_kept in Hr as [Hs0 Hst0]. exists c0.
  unfold same_cycle in *. destruct Hs0 as (?&?&?), Hs1 as (?&?&?). split_and!; congruence.
Qed.

(** names for what [ok_inv] finds *)
Ltac found_pair := select (run_and_cycle _ _ _ = _) (fun H =>
  apply run_and_cycle_Ok in H as (-> & Hr & Hc & Hown)).
Ltac found_saves :=
  unfold save_cycle, save_run in *; ok_inv;
  match goal with
  | Hwf : sound P d0 (db ?w), Hr : db_runs (db ?w) !! ?rid = Some ?r |- _ =>
      try (is_var rid; pose proof (wf_run _ _ _ Hwf Hr) as ->)
  end.
Ltac found_event := select (event_for_key _ _ _ = _) (fun H =>
  apply event_for_key_Ok in H as [-> _]).
Ltac found_append := select (_append_event_in_transaction _ _ _ _ _ _ _ _ _ _ = _) (fun H =>
  apply append_event_Ok in H as (Ha & Hdg & Hpayload)).

Lemma update_cycle_projection_keeps rid cid updates action key :
  keeps (sound P d0) (update_cycle_projection rid cid updates action key).
Proof.
  unfold update_cycle_projection. destruct (sorted_set _); [|apply keeps_raise].
  repeat keeps_step. apply keeps_transaction. intros w c w' Hwf Hi. ok_inv; found_pair; found_event; [done|].
  select (set_projections _ _ = _) (fun H => apply set_projections_kept in H as [Hsame Hst]).
  found_saves. found_append. destruct action; injection E0 as <- <-;
    (eapply note_wf; [done|exact Hr|exact Hc|done| | | | | | |exact Ha]; first [done|by_evaluation]).
Qed.

Lemma record_failure_keeps rid cid signature category fcode gate summary key :
  keeps (sound P d0) (record_failure rid cid signature category fcode gate summary key).
Proof.
  unfold record_failure. repeat keeps_step.
  apply keeps_transaction. intros w c w' Hwf Hi. ok_inv; found_pair; found_event; [done|].
  found_saves. found_append.
  eapply note_wf; [done|exact Hr|exact Hc|done| | | | | | |exact Ha]; first [done|by_evaluation].
Qed.

Lemma set_cycle_target_keeps rid cid revision fingerprint key :
  keeps (sound P d0) (set_cycle_target rid cid revision fingerprint key).
Proof.
  unfold set_cycle_target. repeat keeps_step.
  apply keeps_transaction. intros w c w' Hwf Hi. ok_inv; found_pair; found_event; [done|].
  found_saves. found_append.
  eapply note_wf; [done|exact Hr|exact Hc|done| | | | | | |exact Ha]; first [done|by_evaluation].
Qed.

(** an event that changes no row *)
Lemma event_wf d d' r cycle actor event_type key e :
  sound P d0 d -> db_runs d !! run_id r = Some r -> event_type ∉ transition_types ->
  appended d (run_id r) cycle actor event_type (Some (run_state r)) (Some (run_state r)) key e d' ->
  sound P d0 d'.
Proof.
  intros Hwf Hr Hty Ha.
  assert (saved r (db_cycles d) d = d) as Hd.
  { unfold saved. rewrite insert_id by done. by destruct d. }
  rewrite <-Hd in Ha. eapply edit_wf; [done|done|apply same_run_refl|done| | |exact Ha|].
  - intros j. apply edited_refl.
  - intros c cy ??. by eapply current_state.
  - unfold machine_of. apply step_note.
    + by rewrite (app_type _ _ _ _ _ _ _ _ _ _ Ha).
    + by rewrite (app_from _ _ _ _ _ _ _ _ _ _ Ha).
    + by rewrite (app_to _ _ _ _ _ _ _ _ _ _ Ha).
Qed.

Lemma append_user_event_keeps rid ty payload key cycle :
  keeps (sound P d0) (append_user_event rid ty payload key cycle).
Proof.
  unfold append_user_event. destruct (negb (is_in ty _)) eqn:Hty; [apply keeps_raise|].
  apply negb_false_iff in Hty. repeat keeps_step. apply keeps_transaction.
  intros w e w' Hwf Hi. unfold get_run_row in Hi.
  repeat (ok_inv; try (select (required _ _ _ = _) (fun H => apply required_Ok in H as [Hr ->]));
          try (select (FactoryRun * FactoryCycle)%type (fun x => destruct x));
          try (select (run_and_cycle _ _ _ = _) (fun H => apply run_and_cycle_Ok in H as (-> & _)));
          try found_event); try done;
    found_append; pose proof (wf_run _ _ _ Hwf Hr) as ->;
    (eapply event_wf; [exact Hwf|exact Hr| |exact Ha]);
    apply existsb_elem in Hty as (t & Ht & ->%str_eqb_true); clear -Ht;
    repeat (apply elem_of_cons in Ht as [->|Ht]; [by_evaluation|]); by apply elem_of_nil in Ht.
Qed.

(** ** New cycles *)

Lemma add_cycle_wf d d' r r' C new cycle actor event_type from to key e :
  sound P d0 d -> db_runs d !! run_id r = Some r -> same_run r r' ->
  db_cycles d !! cycle_id new = None -> cycle_id new <> "" -> cycle_run_id new = run_id r ->
  cycle_ordinal new = (int_or_zero (max_ordinal (run_id r) d) + 1)%Z ->
  cycle_state new = run_state r' -> run_current_cycle_id r' = Some (cycle_id new) ->
  C !! cycle_id new = Some new ->
  (forall j, j <> cycle_id new -> edited (run_id r) (db_cycles d) C j) ->
  appended (saved r' C d) (run_id r') cycle actor event_type from to key e d' ->
  event_step P e (machine_of r) (machine_of r') ->
  sound P d0 d'.
Proof.
  intros Hwf Hr Hsame Hfresh Hne Hown Hord Hst Hcur Hnew He Ha Hs.
  pose proof (proj1 Hsame) as Hid. symmetry in Hid. split.
  - refine (wf_append P d (saved r' C d) d' r r' _ _ _ _ _ _ e Hwf Hr Hid _ _ _ Hs _).
    + done.
    + simpl. by rewrite Hid.
    + rewrite <-Hid. exact Ha.
    + simpl. rewrite Hid. eapply cycles_add; eauto; [apply Hwf|by apply sound_keyed].
  - etrans; [exact (sound_extends _ _ _ Hwf)|]. eapply grown; [by apply sound_keyed|done|done| |exact Ha].
    intros j c Hc. assert (j <> cycle_id new) as Hj by congruence.
    destruct (edited_fwd _ _ _ _ _ (He j Hj) Hc) as (c' & ? & ? & _). eauto.
Qed.

(** the cycle that was inserted, under the name [new] *)
Ltac found_new new :=
  match goal with
  | Hi : insert_cycle ?c _ = _ |- _ =>
      set (new := c) in *; apply insert_cycle_Ok in Hi as (-> & Hfresh & _)
  end.
(** the fields of the event that was appended *)
Ltac event_fields Ha :=
  rewrite ?(app_type _ _ _ _ _ _ _ _ _ _ Ha), ?(app_from _ _ _ _ _ _ _ _ _ _ Ha),
    ?(app_to _ _ _ _ _ _ _ _ _ _ Ha), ?(app_actor _ _ _ _ _ _ _ _ _ _ Ha).

Lemma create_cycle_keeps rid revision fingerprint key :
  keeps (sound P d0) (create_cycle rid revision fingerprint key).
Proof.
  unfold create_cycle. apply keeps_transaction. intros w c w' Hwf Hi. unfold get_run_row in Hi.
  ok_inv; select (required _ _ _ = _) (fun H => apply required_Ok in H as [Hr ->]).
  all: unfold cycle_for_key in *; ok_inv; try exact Hwf.
  all: found_new new; found_saves; found_append;
    (eapply (add_cycle_wf _ _ _ _ _ new); [exact Hwf|exact Hr| | | | | | | | | |exact Ha|]);
    try done.
  all: try (simpl; by rewrite lookup_insert_eq).
  all: try (intros j Hj; simpl; unfold edited; rewrite lookup_insert_ne by done; apply edited_refl).
  all: unfold machine_of; simpl; apply step_note; event_fields Ha; first [done|by_evaluation].
Qed.

Context (P_none : forall s, P s None).

Lemma run_history d r : sound P d0 d -> db_runs d !! run_id r = Some r -> history P (events_of (run_id r) d) (machine_of r).
Proof. intros Hwf Hr. exact (log_history _ _ _ (run_logged _ _ Hwf _ _ Hr)). Qed.

Lemma advance_cycle_keeps rid cid reason evidence_ids key :
  keeps (sound P d0) (advance_cycle rid cid reason evidence_ids key).
Proof.
  unfold advance_cycle. repeat keeps_step.
  apply keeps_transaction. intros w c w' Hwf Hi. ok_inv; found_pair; found_event.
  all: try (select (required _ _ _ = _) (fun H => apply required_Ok in H as [_ ->]);
            unfold get_cycle_row in *; ok_inv; done).
  found_new new. found_saves. found_append.
  select (negb (opt_eqb _ _) = false) (fun H => apply negb_false_iff, opt_eqb_true in H as Hcur).
  select (negb (bool_decide _) = false) (fun H => apply negb_false_iff, bool_decide_eq_true in H as Hst).
  destruct (current_state _ _ _ _ Hwf Hr Hcur Hc) as (_ & _ & _ & Hcid).
  assert (Hne : cid <> cycle_id new) by (intros Heq; simpl in Hfresh; rewrite Heq in Hc; simpl in Hc; congruence).
  eapply (add_cycle_wf _ _ _ _ _ new); [exact Hwf|exact Hr| | | | | | | | | |exact Ha|];
    try done; simpl.
  - rewrite Hcid, lookup_insert_ne by done. by rewrite lookup_insert_eq.
  - intros i Hne'. rewrite Hcid. unfold edited. destruct (decide (i = cid)) as [->|?].
    + by rewrite lookup_insert_eq, Hc.
    + rewrite !lookup_insert_ne by done. apply edited_refl.
  - pose proof (history_ok _ _ _ (run_history _ _ Hwf Hr)) as Hok.
    unfold machine_of in *; simpl. rewrite Hst in *. unfold machine_ok in Hok; simpl in Hok.
    destruct (run_resumable_state a); [by destruct Hok|].
    eapply (step_transition _ _ _ _ _ _ None); event_fields Ha; done.
Qed.

(** ** Transitions *)

Lemma keeps_update_where_leases (f : Db -> gmap string CapabilityOsLease) d :
  sound P d0 d -> sound P d0 (set_db_leases (f d) d).
Proof.
  intros Hwf. eapply sound_frame; [exact Hwf|done..|]. intros i. simpl.
  destruct (_ !! i); [|done]. split_and!; [apply same_run_refl|done..].
Qed.
Lemma keeps_update_where_mounts (f : Db -> gmap string CapabilityOsMcpMount) d :
  sound P d0 d -> sound P d0 (set_db_mounts (f d) d).
Proof.
  intros Hwf. eapply sound_frame; [exact Hwf|done..|]. intros i. simpl.
  destruct (_ !! i); [|done]. split_and!; [apply same_run_refl|done..].
Qed.

Lemma revoke_keeps t o : keeps (sound P d0) (revoke_task_authority t o).
Proof.
  unfold revoke_task_authority, release_task_mounts, revoke_task_leases, retire_mounts, retire_leases.
  destruct o; repeat keeps_step; try apply keeps_now; apply keeps_write; intros d.
  all: first [apply (keeps_update_where_leases (fun d => _ ))|apply (keeps_update_where_mounts (fun d => _))].
Qed.

Lemma revoke_if_keeps b rid : keeps (sound P d0) (revoke_if b rid).
Proof. unfold revoke_if. destruct b; repeat keeps_step; [apply revoke_keeps|apply keeps_ret..]. Qed.

Lemma moved_run_fields r to res reason now :
  same_run r (moved_run r to res reason now) /\
  machine_of (moved_run r to res reason now) = (to, res) /\
  run_current_cycle_id (moved_run r to res reason now) = run_current_cycle_id r.
Proof. unfold moved_run. destruct (is_terminal_factory_state to); by split_and!. Qed.

(** the current cycle, as [perform_transition] looks it up *)
Lemma current_lookup d r :
  sound P d0 d -> db_runs d !! run_id r = Some r ->
  match run_current_cycle_id r with
  | Some c => has_key (Some c) = true /\ exists cy, db_cycles d !! c = Some cy
  | None => True
  end.
Proof.
  intros Hwf Hr. pose proof (current_known _ _ (wf_cycles _ _ Hwf) _ _ Hr) as Hcur.
  destruct (run_current_cycle_id r) as [c|]; [|done]. destruct Hcur as (cy & [Hst Hne _ _ _ _]).
  split; [|eauto]. simpl. apply negb_true_iff. by apply empty_str_false.
Qed.

(** the cycles after a transition *)
Definition moved_cycles (d : Db) (r : FactoryRun) (to : FactoryState) (reason : string) (now : Z)
    : gmap string FactoryCycle :=
  match run_current_cycle_id r with
  | Some c =>
      match db_cycles d !! c with
      | Some cy => <[c := moved_cycle cy to reason now]> (db_cycles d)
      | None => db_cycles d
      end
  | None => db_cycles d
  end.

(** everything a transition with a new key does *)
Lemma perform_transition_Ok r to actor reason key req intent dg w r' w' :
  sound P d0 (db w) -> db_runs (db w) !! run_id r = Some r ->
  perform_transition r to actor reason key req intent dg w = (Ok r', w') ->
  let now := clock (ticks w) in
  exists res e,
    validate_factory_transition (run_state r) to actor
      (effective_resumable (run_state r) (run_resumable_state r) req) false = Ok tt /\
    next_resumable (run_state r) to (run_resumable_state r) req = Ok res /\
    r' = moved_run r to res reason now /\
    appended (saved r' (moved_cycles (db w) r to reason now) (db w)) (run_id r')
      (run_current_cycle_id r) actor "state.transition" (Some (run_state r)) (Some to) (Some key)
      e (db w') /\
    (forall sp, _canonical_payload intent = Ok (sp, dg) -> ev_digest e = dg).
Proof.
  intros Hwf Hr. unfold perform_transition. intros Hi.
  pose proof (current_lookup _ _ Hwf Hr) as Hcur.
  unfold get_cycle_row, save_run, save_cycle in Hi. ok_inv.
  all: repeat match goal with u : unit |- _ => destruct u end.
  all: select (_append_event_in_transaction _ _ _ _ _ _ _ _ _ _ = _) (fun H =>
    apply append_event_Ok in H as (Ha & _ & (dg' & Hcan & Hdg))).
  all: destruct (moved_run_fields r to x1 reason (clock (ticks w))) as (Hid & _).
  all: eexists x1, _; split_and!; [done|done|done| |
    intros sp Hsp; rewrite Hdg; assert (dg' = dg) as -> by congruence; by destruct dg].
  all: destruct (run_current_cycle_id r) as [c|] eqn:Ec;
    [destruct Hcur as [Hkey [cy Hcy]]|]; simpl in *; try congruence.
  - assert (cy = f) as -> by congruence.
    assert (cycle_id f = c) as Hcid by exact (cycle_keyed _ _ (wf_cycles _ _ Hwf) _ _ Hcy).
    rewrite Hcid in Ha. unfold moved_cycles. rewrite Ec, Hcy. exact Ha.
  - unfold moved_cycles. rewrite Ec.
    replace (set_db_cycles (db_cycles (db w)) (db w)) with (db w) by (by destruct (db w)).
    exact Ha.
Qed.

Lemma moved_cycles_edited d r to reason now :
  sound P d0 d -> db_runs d !! run_id r = Some r ->
  (forall j, edited (run_id r) (db_cycles d) (moved_cycles d r to reason now) j) /\
  forall c cy, run_current_cycle_id r = Some c ->
    moved_cycles d r to reason now !! c = Some cy -> cycle_state cy = to.
Proof.
  intros Hwf Hr. unfold moved_cycles. destruct (run_current_cycle_id r) as [c|] eqn:Ec.
  2: { split; [intros j; apply edited_refl|done]. }
  destruct (db_cycles d !! c) as [cy|] eqn:Hcy.
  - destruct (current_state _ _ _ _ Hwf Hr Ec Hcy) as (_ & Hown & _). split.
    + intros j. by apply (edited_insert _ _ _ cy).
    + intros c' x [= <-]. rewrite lookup_insert_eq. by intros [= <-].
  - split; [intros j; apply edited_refl|]. intros c' x [= <-]. congruence.
Qed.

Lemma perform_transition_wf r to actor reason key req intent dg w r' w' :
  sound P d0 (db w) -> db_runs (db w) !! run_id r = Some r -> P to req ->
  perform_transition r to actor reason key req intent dg w = (Ok r', w') ->
  sound P d0 (db w').
Proof.
  intros Hwf Hr HP Hi.
  destruct (perform_transition_Ok _ _ _ _ _ _ _ _ _ _ _ Hwf Hr Hi) as (res & e & Hv & Hn & -> & Ha & _).
  destruct (moved_run_fields r to res reason (clock (ticks w))) as (Hid & Hm & Hcur).
  destruct (moved_cycles_edited (db w) r to reason (clock (ticks w)) Hwf Hr) as [He Hst].
  refine (edit_wf _ _ _ _ _ _ _ _ _ _ _ _ Hwf Hr Hid Hcur He _ Ha _).
  - intros c cy Hc Hcy. injection Hm as -> _. by apply (Hst c).
  - rewrite Hm. eapply step_transition; event_fields Ha; done.
Qed.

Lemma transition_keeps rid to actor reason key ids req :
  P to req -> keeps (sound P d0) (transition rid to actor reason key ids req).
Proof.
  intros HP. unfold transition. repeat keeps_step.
  - apply keeps_transaction. intros w x w' Hwf Hi. unfold get_run_row in Hi. ok_inv;
      select (required _ _ _ = _) (fun H => apply required_Ok in H as [Hr ->]); found_event.
    + match goal with
      | Hv : revoke_if ?b ?i ?w = _ |- _ =>
          pose proof (revoke_if_keeps b i w Hwf) as Hk; by rewrite Hv in Hk
      end.
    + pose proof (wf_run _ _ _ Hwf Hr) as ->. by eapply perform_transition_wf.
  - apply revoke_if_keeps.
Qed.

Lemma victory_source s : validate_factory_transition s COMMITTING SYSTEM None true = Ok tt -> s = VICTORY_JUDGING.
Proof. by destruct s. Qed.

Lemma authorize_victory_keeps rid cid decision key :
  keeps (sound P d0) (authorize_victory rid cid decision key).
Proof.
  unfold authorize_victory.
  destruct (is_machine_issued_victory decision) eqn:Hissued; [|apply keeps_raise].
  destruct (passed decision) eqn:Hpassed; [|apply keeps_raise].
  simpl. apply keeps_bind_lift. intros [safe digest] Hcanonical.
  apply keeps_transaction. intros w c w' Hwf Hi. ok_inv; found_pair; found_event; [done|].
  found_saves. found_append. repeat match goal with u : unit |- _ => destruct u end.
  select (negb (opt_eqb _ (Some _)) = false) (fun H => apply negb_false_iff, opt_eqb_true in H as Hcur).
  select (validate_factory_transition _ _ _ _ _ = _) (fun H => apply victory_source in H as Hst).
  destruct (current_state _ _ _ _ Hwf Hr Hcur Hc) as (_ & _ & _ & Hcid).
  eapply (edit_wf _ _ a); [exact Hwf|exact Hr| | | | |exact Ha|]; try done.
  - intros i. simpl. rewrite Hcid. by apply (edited_insert _ _ _ b).
  - intros c cy Hc'. rewrite Hcur in Hc'. injection Hc' as <-. simpl. rewrite Hcid, lookup_insert_eq.
    by intros [= <-].
  - select (negb (has_key _) || _ = false) (fun H =>
      apply orb_false_iff in H as [Hrev%negb_false_iff Hfp%negb_false_iff]).
    select (negb (opt_eqb _ (target_revision _)) || _ = false) (fun H =>
      apply orb_false_iff in H as [Hrev'%negb_false_iff%opt_eqb_true Hfp'%negb_false_iff%opt_eqb_true]).
    destruct Hpayload as (dg' & Hcanonical' & Hdigest).
    rewrite Hcanonical in Hcanonical'. injection Hcanonical' as -> <-.
    unfold machine_of; simpl. rewrite Hst.
    apply (step_victory _ _ _ cid decision); event_fields Ha; rewrite ?Hst; try done.
    repeat split; event_fields Ha; rewrite ?(app_cycle _ _ _ _ _ _ _ _ _ _ Ha), ?Hrev', ?Hfp'; try done.
    rewrite Hdigest, Hcanonical. by destruct (has_key (Some digest)).
Qed.

(** ** Evidence, gates, leases and authority *)

Lemma insert_evidence_keeps e : keeps (sound P d0) (insert_evidence e).
Proof.
  intros w Hwf. destruct (insert_evidence e w) as [[u|x] w'] eqn:Hi; simpl.
  - apply insert_evidence_Ok in Hi as ->. eapply sound_frame; [exact Hwf|done|done|simpl; try done; by eexists..|].
    intros i. simpl. destruct (db_runs (db w) !! i); [|done].
    split_and!; [apply same_run_refl|done..].
  - unfold insert_evidence, bind, check, query, gets, ret, raise, write, modify in Hi.
    repeat (case_match; simplify_eq/=; try done).
Qed.

Lemma insert_gate_keeps g : keeps (sound P d0) (insert_gate g).
Proof.
  intros w Hwf. destruct (insert_gate g w) as [[u|x] w'] eqn:Hi; simpl.
  - apply insert_gate_Ok in Hi as ->. eapply sound_frame; [exact Hwf|done|done|simpl; try done; by eexists..|].
    intros i. simpl. destruct (db_runs (db w) !! i); [|done].
    split_and!; [apply same_run_refl|done..].
  - unfold insert_gate, bind, check, query, gets, ret, raise, write, modify in Hi.
    repeat (case_match; simplify_eq/=; try done).
Qed.

Lemma append_evidence_keeps rq : keeps (sound P d0) (append_evidence rq).
Proof.
  unfold append_evidence, evidence_for_key.
  destruct (match eq_key rq with Some k => blank k | None => false end); [apply keeps_raise|].
  repeat keeps_step; first [apply keeps_new_id|apply keeps_now|apply insert_evidence_keeps].
Qed.

Lemma record_gate_keeps rq : keeps (sound P d0) (record_gate rq).
Proof.
  unfold record_gate, gate_for_key.
  destruct (match gq_key rq with Some k => blank k | None => false end); [apply keeps_raise|].
  repeat first [keeps_step|apply keeps_new_id|apply keeps_now|apply insert_gate_keeps].
Qed.

(** updates of the lease columns *)
Lemma update_run_keeps rid p f :
  (forall r, same_run r (f r) /\ machine_of (f r) = machine_of r /\
             run_current_cycle_id (f r) = run_current_cycle_id r) ->
  keeps (sound P d0) (update_run rid p f).
Proof.
  intros Hf. unfold update_run. repeat keeps_step. apply keeps_write. intros d Hwf.
  eapply sound_frame; [exact Hwf|done..|]. intros i. simpl. unfold update_where.
  rewrite lookup_fmap. destruct (db_runs d !! i) as [r|]; simpl; [|done].
  destruct (_ && _); [by destruct (Hf r)|]. split_and!; [apply same_run_refl|done..].
Qed.

Lemma claim_run_keeps rid token now lease : keeps (sound P d0) (claim_run rid token now lease).
Proof. unfold claim_run. repeat keeps_step. by apply update_run_keeps. Qed.
Lemma renew_run_keeps rid token now lease : keeps (sound P d0) (renew_run rid token now lease).
Proof. by apply update_run_keeps. Qed.
Lemma release_run_keeps rid token : keeps (sound P d0) (release_run rid token).
Proof. unfold release_run. repeat keeps_step; [apply keeps_now|by apply update_run_keeps]. Qed.
End Preservation.

(** ** Executions *)

(** the methods that write *)
Inductive op :=
  | CreateRun (rq : RunRequest)
  | CreateCycle (rid : string) (revision fingerprint key : option string)
  | AdvanceCycle (rid cid reason : string) (evidence_ids : list string) (key : string)
  | UpdateProjection (rid cid : string) (updates : list (string * json)) (action : option string)
      (key : string)
  | RecordFailure (rid cid signature category fcode : string) (gate : option string)
      (summary key : string)
  | SetTarget (rid cid revision fingerprint key : string)
  | Transition (rid : string) (to : FactoryState) (actor : FactoryActor) (reason key : string)
      (evidence_ids : list string) (resumable : option FactoryState)
  | AuthorizeVictory (rid cid : string) (decision : FactoryVictoryDecision) (key : string)
  | UserEvent (rid event_type : string) (payload : json) (key cycle : option string)
  | AppendEvidence (rq : EvidenceRequest)
  | RecordGate (rq : GateRequest)
  | Claim (rid token : string) (now_ms lease_ms : Z)
  | Renew (rid token : string) (now_ms lease_ms : Z)
  | Release (rid token : string)
  | Revoke (task : string) (now_ms : option Z).

Section Exec.
Context `{Env}.

Definition void {A} (m : M World A) : M World unit := let* _ := m in ret tt.

Definition exec (o : op) : M World unit :=
  match o with
  | CreateRun rq => void (create_run id rq)
  | CreateCycle rid r f k => void (create_cycle rid r f k)
  | AdvanceCycle rid cid reason ids k => void (advance_cycle rid cid reason ids k)
  | UpdateProjection rid cid u a k => void (update_cycle_projection rid cid u a k)
  | RecordFailure rid cid s c f g m k => void (record_failure rid cid s c f g m k)
  | SetTarget rid cid r f k => void (set_cycle_target rid cid r f k)
  | Transition rid to actor reason k ids res => void (transition rid to actor reason k ids res)
  | AuthorizeVictory rid cid d k => void (authorize_victory rid cid d k)
  | UserEvent rid ty p k c => void (append_user_event rid ty p k c)
  | AppendEvidence rq => void (append_evidence rq)
  | RecordGate rq => void (record_gate rq)
  | Claim rid t n l => void (claim_run rid t n l)
  | Renew rid t n l => void (renew_run rid t n l)
  | Release rid t => void (release_run rid t)
  | Revoke t n => void (revoke_task_authority t n)
  end.

(** a sequence of calls; a call that raises is over, and the next one follows *)
Fixpoint exec_all (ops : list op) (w : World) : World :=
  match ops with
  | [] => w
  | o :: ops => exec_all ops (exec o w).2
  end.

(** what a call may request as the resumable state *)
Definition requests (P : FactoryState -> option FactoryState -> Prop) (o : op) : Prop :=
  match o with
  | Transition _ to _ _ _ _ res => P to res
  | _ => True
  end.

Definition anything (to : FactoryState) (requested : option FactoryState) : Prop := True.
(** the discipline of the callers: only a recovery names the state to come back to *)
Definition recovery_only (to : FactoryState) (requested : option FactoryState) : Prop :=
  requested = None \/ to = RECOVERING.

(** a database before the first run *)
Definition fresh_db (d : Db) : Prop :=
  db_runs d = ∅ /\ db_cycles d = ∅ /\ db_events d = [].

Lemma fresh_wf P d : fresh_db d -> wf P d.
Proof.
  intros (Hr & Hc & He). split; [by rewrite Hr|by rewrite Hr| |].
  - rewrite He. by intros e ?%elem_of_nil.
  - rewrite Hr, Hc. split; by setoid_rewrite lookup_empty.
Qed.

Lemma void_keeps {A} I (m : M World A) : keeps I m -> keeps I (void m).
Proof. intros. apply keeps_bind; [done|intros; apply keeps_ret]. Qed.

Lemma exec_sound P d0 o :
  (forall s, P s None) -> requests P o -> keeps (sound P d0) (exec o).
Proof.
  intros HP Ho. destruct o; apply void_keeps.
  - apply create_run_keeps.
  - apply create_cycle_keeps.
  - by apply advance_cycle_keeps.
  - apply update_cycle_projection_keeps.
  - apply record_failure_keeps.
  - apply set_cycle_target_keeps.
  - by apply transition_keeps.
  - apply authorize_victory_keeps.
  - apply append_user_event_keeps.
  - apply append_evidence_keeps.
  - apply record_gate_keeps.
  - apply claim_run_keeps.
  - apply renew_run_keeps.
  - apply release_run_keeps.
  - apply revoke_keeps.
Qed.

Lemma exec_all_sound P d0 ops w :
  (forall s, P s None) -> Forall (requests P) ops -> sound P d0 (db w) ->
  sound P d0 (db (exec_all ops w)).
Proof.
  intros HP Hops. revert w. induction Hops as [|o ops Ho _ IH]; intros w Hw; simpl; [done|].
  apply IH. by apply exec_sound.
Qed.

(** the tables after an execution, and how they grew *)
Lemma exec_all_wf P ops w :
  (forall s, P s None) -> Forall (requests P) ops -> wf P (db w) ->
  wf P (db (exec_all ops w)) /\ extends (db w) (db (exec_all ops w)).
Proof.
  intros HP Hops Hw. destruct (exec_all_sound P (db w) ops w HP Hops) as [? ?]; [|done].
  by split.
Qed.
End Exec.

(** ** What the clients of the store may rely on

    An invariant of the tables that every operation of the store keeps, as long as
    the resumable states it is asked to record are those [P] admits.  The
    orchestrator, the runtime and the control surface are proved against this
    interface. *)

Class StoreInvariant `{Env} (P : FactoryState -> option FactoryState -> Prop) (I : Db -> Prop) : Prop := {
  inv_free s : P s None;
  inv_op o : requests P o -> keeps I (exec o);
}.

Lemma sound_invariant `{Env} P d0 : (forall s, P s None) -> StoreInvariant P (sound P d0).
Proof. intros HP. split; [done|]. intros o Ho. by apply exec_sound. Qed.
#[export] Instance anything_invariant `{Env} d0 : StoreInvariant anything (sound anything d0).
Proof. by apply sound_invariant. Qed.
#[export] Instance recovery_invariant `{Env} d0 : StoreInvariant recovery_only (sound recovery_only d0).
Proof. apply sound_invariant. by left. Qed.

Section Invariant.
Context `{Env} (P : FactoryState -> option FactoryState -> Prop) (I : Db -> Prop).
Context (SI : StoreInvariant P I).

Lemma keeps_void {A} (m : M World A) : keeps I (void m) -> keeps I m.
Proof.
  intros Hm w Hw. specialize (Hm w Hw). unfold void, bind in Hm. by destruct (m w) as [[]].
Qed.

Lemma inv_create_run rq : keeps I (create_run id rq).
Proof. exact (keeps_void _ (inv_op (CreateRun rq) Logic.I)). Qed.
Lemma inv_create_cycle rid r f k : keeps I (create_cycle rid r f k).
Proof. exact (keeps_void _ (inv_op (CreateCycle rid r f k) Logic.I)). Qed.
Lemma inv_advance_cycle rid cid reason ids k : keeps I (advance_cycle rid cid reason ids k).
Proof. exact (keeps_void _ (inv_op (AdvanceCycle rid cid reason ids k) Logic.I)). Qed.
Lemma inv_update_cycle_projection rid cid u a k : keeps I (update_cycle_projection rid cid u a k).
Proof. exact (keeps_void _ (inv_op (UpdateProjection rid cid u a k) Logic.I)). Qed.
Lemma inv_record_failure rid cid s c f g m k : keeps I (record_failure rid cid s c f g m k).
Proof. exact (keeps_void _ (inv_op (RecordFailure rid cid s c f g m k) Logic.I)). Qed.
Lemma inv_set_cycle_target rid cid r f k : keeps I (set_cycle_target rid cid r f k).
Proof. exact (keeps_void _ (inv_op (SetTarget rid cid r f k) Logic.I)). Qed.
Lemma inv_transition rid to actor reason k ids : keeps I (transition rid to actor reason k ids None).
Proof. exact (keeps_void _ (inv_op (Transition rid to actor reason k ids None) (inv_free to))). Qed.
Lemma inv_authorize_victory rid cid d k : keeps I (authorize_victory rid cid d k).
Proof. exact (keeps_void _ (inv_op (AuthorizeVictory rid cid d k) Logic.I)). Qed.
Lemma inv_append_user_event rid ty p k c : keeps I (append_user_event rid ty p k c).
Proof. exact (keeps_void _ (inv_op (UserEvent rid ty p k c) Logic.I)). Qed.
Lemma inv_append_evidence rq : keeps I (append_evidence rq).
Proof. exact (keeps_void _ (inv_op (AppendEvidence rq) Logic.I)). Qed.
Lemma inv_record_gate rq : keeps I (record_gate rq).
Proof. exact (keeps_void _ (inv_op (RecordGate rq) Logic.I)). Qed.
Lemma inv_claim_run rid t n l : keeps I (claim_run rid t n l).
Proof. exact (keeps_void _ (inv_op (Claim rid t n l) Logic.I)). Qed.
Lemma inv_renew_run rid t n l : keeps I (renew_run rid t n l).
Proof. exact (keeps_void _ (inv_op (Renew rid t n l) Logic.I)). Qed.
Lemma inv_release_run rid t : keeps I (release_run rid t).
Proof. exact (keeps_void _ (inv_op (Release rid t) Logic.I)). Qed.
End Invariant.

#[export] Hint Extern 1 (keeps _ (create_run _ _)) => simple eapply inv_create_run; typeclasses eauto : keeps.
#[export] Hint Extern 1 (keeps _ (create_cycle _ _ _ _)) => simple eapply inv_create_cycle; typeclasses eauto : keeps.
#[export] Hint Extern 1 (keeps _ (advance_cycle _ _ _ _ _)) => simple eapply inv_advance_cycle; typeclasses eauto : keeps.
#[export] Hint Extern 1 (keeps _ (update_cycle_projection _ _ _ _ _)) => simple eapply inv_update_cycle_projection; typeclasses eauto : keeps.
#[export] Hint Extern 1 (keeps _ (record_failure _ _ _ _ _ _ _ _)) => simple eapply inv_record_failure; typeclasses eauto : keeps.
#[export] Hint Extern 1 (keeps _ (set_cycle_target _ _ _ _ _)) => simple eapply inv_set_cycle_target; typeclasses eauto : keeps.
#[export] Hint Extern 1 (keeps _ (transition _ _ _ _ _ _ _)) => simple eapply inv_transition; typeclasses eauto : keeps.
#[export] Hint Extern 1 (keeps _ (authorize_victory _ _ _ _)) => simple eapply inv_authorize_victory; typeclasses eauto : keeps.
#[export] Hint Extern 1 (keeps _ (append_user_event _ _ _ _ _)) => simple eapply inv_append_user_event; typeclasses eauto : keeps.
#[export] Hint Extern 1 (keeps _ (append_evidence _)) => simple eapply inv_append_evidence; typeclasses eauto : keeps.
#[export] Hint Extern 1 (keeps _ (record_gate _)) => simple eapply inv_record_gate; typeclasses eauto : keeps.
#[export] Hint Extern 1 (keeps _ (claim_run _ _ _ _)) => simple eapply inv_claim_run; typeclasses eauto : keeps.
#[export] Hint Extern 1 (keeps _ (renew_run _ _ _ _)) => simple eapply inv_renew_run; typeclasses eauto : keeps.
#[export] Hint Extern 1 (keeps _ (release_run _ _)) => simple eapply inv_release_run; typeclasses eauto : keeps.
