(* ===== verification/FactoryFrames.v ===== *)
(** * What the components leave alone

    Rules that push a property of the tables through computations, alone or paired
    with an outside world, and the tables no operation of the store writes. *)

From S2P Require Import Prelude PyStr Json Redaction FactoryDomain FactoryGates.
From S2P Require Import FactoryVictory Database CapabilityLifecycle FactoryStore FactoryHistory.
From S2P Require Import FactoryStoreFacts.

#[export] Hint Resolve keeps_now keeps_new_id : keeps.

(** a block that is rolled back keeps what its statements keep *)
Lemma keeps_block {A} (I : Db -> Prop) (m : M World A) : keeps I m -> keeps I (transaction m).
Proof.
  intros Hm. apply keeps_transaction. intros w a w' Hw E. specialize (Hm w Hw). by rewrite E in Hm.
Qed.
Lemma keeps_check I b constraint : keeps I (check b constraint).
Proof. unfold check. destruct b; [apply keeps_ret|apply keeps_raise]. Qed.
#[export] Hint Resolve keeps_check : keeps.

Ltac frame_step :=
  match goal with
  | |- keeps _ (transaction _) => apply keeps_block
  | |- keeps _ (catch _ _ _) => apply keeps_catch; [|intros ?]
  | |- keeps _ (match ?l with [] => _ | _ :: _ => _ end) => destruct l
  | |- _ => keeps_step
  end.

(** ** Computations on the tables and an outside world *)

Section Pairs.
Context (I : Db -> Prop) {R : Type}.

Definition pkeeps {A} (m : M (World * R) A) : Prop := forall s, I (db s.1) -> I (db (m s).2.1).

Lemma pkeeps_left {A} (m : M World A) : keeps I m -> pkeeps (on_left m).
Proof. intros Hm [w r] Hs. specialize (Hm w Hs). unfold on_left. simpl in *. by destruct (m w). Qed.
Lemma pkeeps_right {A} (m : M R A) : pkeeps (on_right m).
Proof. intros [w r] Hs. unfold on_right. simpl in *. by destruct (m r). Qed.
Lemma pkeeps_bind {A B} (m : M (World * R) A) (k : A -> M (World * R) B) :
  pkeeps m -> (forall a, pkeeps (k a)) -> pkeeps (bind m k).
Proof.
  intros Hm Hk s Hs. specialize (Hm s Hs). unfold bind.
  destruct (m s) as [[a|e] s1]; [by apply Hk|done].
Qed.
Lemma pkeeps_ret {A} (a : A) : pkeeps (ret a).
Proof. by intros s. Qed.
Lemma pkeeps_raise {A} e : pkeeps (A:=A) (raise e).
Proof. by intros s. Qed.
Lemma pkeeps_lift {A} (x : result A) : pkeeps (lift x).
Proof. by intros s. Qed.
Lemma pkeeps_catch {A} (m : M (World * R) A) p h :
  pkeeps m -> (forall e, pkeeps (h e)) -> pkeeps (catch m p h).
Proof.
  intros Hm Hh s Hs. specialize (Hm s Hs). unfold catch.
  destruct (m s) as [[a|e] s1]; [done|]. destruct (p e); [by apply Hh|done].
Qed.
Lemma pkeeps_for_each {A B} (f : A -> M (World * R) B) l :
  (forall x, pkeeps (f x)) -> pkeeps (for_each f l).
Proof.
  intros Hf. induction l as [|x l IH]; [apply pkeeps_ret|].
  apply pkeeps_bind; [done|]. intros y. apply pkeeps_bind; [done|]. intros. apply pkeeps_ret.
Qed.
End Pairs.

Create HintDb pkeeps.
#[export] Hint Resolve pkeeps_right pkeeps_ret pkeeps_raise pkeeps_lift : pkeeps.

Ltac pkeeps_step :=
  match goal with
  | |- pkeeps _ (bind _ _) => apply pkeeps_bind; [|intros ?]
  | |- pkeeps _ (catch _ _ _) => apply pkeeps_catch; [|intros ?]
  | |- pkeeps _ (for_each _ _) => apply pkeeps_for_each; intros ?
  | |- pkeeps _ (if ?c then _ else _) => destruct c
  | |- pkeeps _ (match ?o with Some _ => _ | None => _ end) => destruct o
  | |- pkeeps _ (match ?p with (_, _) => _ end) => destruct p
  | |- pkeeps _ (match ?l with [] => _ | _ :: _ => _ end) => destruct l
  | |- pkeeps _ (on_left _) => apply pkeeps_left; solve [auto with keeps]
  | |- pkeeps _ _ => solve [auto with pkeeps]
  end.

(** ** Tables of the other components *)

(** a table that none of the writes of the store reaches *)
Class Untouched {T} (t : Db -> T) : Prop := {
  un_runs v d : t (set_db_runs v d) = t d;
  un_cycles v d : t (set_db_cycles v d) = t d;
  un_events v d : t (set_db_events v d) = t d;
  un_evidence v d : t (set_db_evidence v d) = t d;
  un_gates v d : t (set_db_gates v d) = t d;
  un_leases v d : t (set_db_leases v d) = t d;
  un_mounts v d : t (set_db_mounts v d) = t d;
}.
Definition table_is {T} (t : Db -> T) (x : T) (d : Db) : Prop := t d = x.

Lemma table_write {T} (t : Db -> T) x f : (forall d, t (f d) = t d) -> keeps (table_is t x) (write f).
Proof. intros Hf. apply keeps_write. intros d Hd. unfold table_is in *. by rewrite Hf. Qed.

Section Frames.
Context `{Env} {T : Type} (t : Db -> T) {U : Untouched t} (x : T).
#[local] Hint Extern 1 (keeps (table_is _ _) (write _)) =>
  apply table_write; intros ?; first [reflexivity|apply un_runs|apply un_cycles|apply un_events|apply un_evidence
    |apply un_gates|apply un_leases|apply un_mounts] : keeps.

Lemma append_event_frame run cycle actor event_type from to key payload dg :
  keeps (table_is t x) (_append_event_in_transaction run cycle actor event_type from to key payload dg).
Proof. unfold _append_event_in_transaction, insert_event. repeat frame_step. Qed.
Lemma revoke_frame task outcome : keeps (table_is t x) (revoke_task_authority task outcome).
Proof.
  unfold revoke_task_authority, release_task_mounts, revoke_task_leases, retire_mounts, retire_leases.
  repeat frame_step.
Qed.
Lemma update_run_frame rid p f : keeps (table_is t x) (update_run rid p f).
Proof. unfold update_run. repeat frame_step. Qed.
#[local] Hint Resolve append_event_frame revoke_frame update_run_frame : keeps.

(** no operation of the store writes it *)
Lemma untouched_invariant : StoreInvariant anything (table_is t x).
Proof.
  split; [done|]. intros o _. destruct o; apply void_keeps; unfold create_run, create_cycle, advance_cycle,
    update_cycle_projection, record_failure, set_cycle_target, transition, perform_transition,
    authorize_victory, append_user_event, append_evidence, record_gate, claim_run, renew_run, release_run,
    insert_new_run, insert_run, insert_cycle, insert_event, insert_evidence, insert_gate, run_for_key, cycle_for_key, evidence_for_key, gate_for_key,
    event_for_key, run_and_cycle, revoke_if, get_run_row, get_cycle_row, save_run, save_cycle;
    repeat frame_step.
Qed.
End Frames.
