(* ===== verification/FactorySafety.v ===== *)
(** * Safety of the store over every execution

    The theorems of this file speak of the tables after any sequence of calls of
    the store's methods, in any order, with any arguments, failing or not. *)

From S2P Require Import Prelude PyStr Json Redaction FactoryDomain FactoryGates.
From S2P Require Import FactoryVictory Database CapabilityLifecycle FactoryStore FactoryHistory FactoryStoreFacts.

Section Safety.
Context `{Env}.

(** ** The machine a history leads to is determined by the history *)

Lemma event_step_fun P e m m1 m2 : event_step P e m m1 -> event_step P e m m2 -> m1 = m2.
Proof.
  intros Hm1 Hm2. inversion Hm1 as [s res Hn|s res s' res' req Hty Hf Ht _ _ Hnx|]; subst;
    inversion Hm2 as [s2 res2|s2 res2 s2' res2' req2 Hty2 Hf2 Ht2 _ _ Hnx2|]; subst; try done;
    try (exfalso; match goal with
         | Hn : ev_type _ ∉ transition_types, Ht : ev_type _ = _ |- _ => apply Hn; rewrite Ht; set_solver
         end); try congruence.
  assert (s' = s2') as -> by congruence. f_equal.
  unfold next_resumable in *. repeat case_bool_decide; repeat case_match; congruence.
Qed.

Lemma app_inj_last {A} (l k : list A) x y : l ++ [x] = k ++ [y] -> l = k /\ x = y.
Proof. intros Heq. apply app_inj_tail in Heq. done. Qed.

Lemma history_fun P es m1 m2 : history P es m1 -> history P es m2 -> m1 = m2.
Proof.
  intros Hm1. revert m2. induction Hm1 as [e|es e m m' Hm1 IH Hs _]; intros m2 Hm2.
  - inversion Hm2 as [|es' e' m0 m0' Hh Hst ? Heq]; [done|].
    destruct es' as [|? []]; [by apply history_not_nil in Hh|done..].
  - inversion Hm2 as [e' ? ? ? ? ? Heq|es' e' m0 m0' Hh Hst _ Heq]; subst.
    + destruct es; [by apply history_not_nil in Hm1|by destruct es].
    + apply app_inj_last in Heq as [-> ->]. apply IH in Hh as ->. by eapply event_step_fun.
Qed.

(** the part of a history before some of its events *)
Lemma history_prefix P es1 es2 m :
  history P (es1 ++ es2) m -> es1 <> [] -> exists m1, history P es1 m1.
Proof.
  revert m. induction es2 as [|e es2 IH] using rev_ind; intros m Hh Hne.
  - rewrite app_nil_r in Hh. eauto.
  - rewrite app_assoc in Hh. inversion Hh as [e' ? ? ? ? ? Heq|es' e' m0 m0' Hh' _ _ Heq].
    + apply (f_equal length) in Heq. rewrite !length_app in Heq. destruct es1; [done|simpl in Heq; lia].
    + apply app_inj_last in Heq as [-> _]. eauto.
Qed.

(** events that leave a terminal state *)
Lemma history_terminal P es1 es2 m1 m2 :
  history P es1 m1 -> history P (es1 ++ es2) m2 -> terminal m1.1 -> m2 = m1.
Proof.
  intros Hm1 Hm2 Ht. revert m2 Hm2. induction es2 as [|e es2 IH] using rev_ind; intros m2 Hm2.
  - rewrite app_nil_r in Hm2. by eapply history_fun.
  - rewrite app_assoc in Hm2. inversion Hm2 as [e' ? ? ? ? ? Heq|es' e' m0 m0' Hh Hs _ Heq]; subst.
    + apply (f_equal length) in Heq. rewrite !length_app in Heq.
      destruct es1; [by apply history_not_nil in Hm1|simpl in Heq; lia].
    + apply app_inj_last in Heq as [-> ->]. apply IH in Hh as ->.
      inversion Hs as [|s res s' res' req _ _ _ _ Hv|]; subst; try done.
      apply validator_spec in Hv as [Hn _]. by destruct Hn.
Qed.

(** ** Machine Victory *)

(** the states beyond the Victory gate *)
Definition beyond_victory (s : FactoryState) : Prop :=
  s ∈ [COMMITTING; PUSHING; PR_CREATING; CI_VERIFYING; CYCLE_COMPLETE; COMPLETE].
#[local] Instance beyond_victory_dec s : Decision (beyond_victory s).
Proof. unfold beyond_victory. apply _. Defined.

(** the run is beyond the gate, or will be when it resumes *)
Definition committed (m : machine) : Prop :=
  beyond_victory m.1 \/ exists t, m.2 = Some t /\ beyond_victory t.

(** a machine-issued Victory is on record, and the run never came back before the
    gate since *)
Definition victory_on_record (es : list FactoryEvent) : Prop :=
  exists before e after cid decision,
    es = before ++ e :: after /\ ev_type e = "victory.authorized" /\ ev_actor e = SYSTEM /\
    ev_from e = Some VICTORY_JUDGING /\ victory_record e cid decision /\
    Forall (fun x => exists s, ev_to x = Some s /\ (beyond_victory s \/ interrupted s = true)) after.

Lemma record_extends es e s :
  victory_on_record es -> ev_to e = Some s -> beyond_victory s \/ interrupted s = true ->
  victory_on_record (es ++ [e]).
Proof.
  intros (b & v & a & cid & d & -> & ? & ? & ? & ? & Ha) Ht Hs.
  exists b, v, (a ++ [e]), cid, d. rewrite <-app_assoc. split_and!; try done.
  apply Forall_app. split; [done|]. by repeat constructor; exists s.
Qed.

(** the edges that enter the region beyond the gate start in it, apart from the
    Victory edge *)
Lemma edge_beyond s t :
  workflow_edge s t -> beyond_victory t -> t <> COMMITTING -> beyond_victory s.
Proof.
  intros Hw. revert Hw. rewrite <-edge_table_spec. unfold beyond_victory.
  assert (Hall : forallb (fun p => bool_decide (p.2 ∈ [COMMITTING; PUSHING; PR_CREATING; CI_VERIFYING; CYCLE_COMPLETE; COMPLETE]
            -> p.2 <> COMMITTING -> p.1 ∈ [COMMITTING; PUSHING; PR_CREATING; CI_VERIFYING; CYCLE_COMPLETE; COMPLETE])) edge_table = true)
    by by vm_compute.
  intros Hin. apply (forallb_elem_of _ _ _ Hall) in Hin. by apply bool_decide_eq_true in Hin.
Qed.

Lemma beyond_not s :
  beyond_victory s -> s <> MISSION /\ s <> RECOVERING /\ ~ waiting s /\ s <> BLOCKED /\ s <> FAILED /\ s <> CANCELLED.
Proof.
  unfold beyond_victory, waiting. intros Hb.
  repeat (apply elem_of_cons in Hb as [->|Hb]; [naive_solver|]). by apply elem_of_nil in Hb.
Qed.

(** a disciplined transition that enters the committed region starts in it *)
Lemma committed_before s res s' res' actor req :
  machine_ok (s, res) -> recovery_only s' req ->
  validate_factory_transition s s' actor (effective_resumable s res req) false = Ok tt ->
  next_resumable s s' res req = Ok res' ->
  committed (s', res') ->
  committed (s, res) /\ (beyond_victory s' \/ interrupted s' = true).
Proof.
  intros Hok Hreq [_ Hl]%validator_spec Hn Hc. unfold next_resumable in Hn.
  destruct (decide (s' = RECOVERING \/ waiting s')) as [Hi|Hi].
  { assert (interrupted s' = true) as Hi' by by apply interrupted_spec. split; [|by right].
    assert (~ beyond_victory s') as Hnb
      by (intros (_ & ? & ? & _)%beyond_not; destruct Hi; done).
    destruct Hc as [?|(t & Ht & Hb)]; [done|]. simpl in Ht. left. simpl.
    
    destruct (decide (s' = RECOVERING)) as [->|HR].
    - rewrite bool_decide_eq_true_2 in Hn by done.
      case_bool_decide; [congruence|]. destruct (_ && _); congruence.
    - destruct Hi as [?|Hw]; [done|]. rewrite bool_decide_eq_false_2 in Hn by done.
      assert (bool_decide (s' = PAUSED) || bool_decide (s' = APPROVAL_REQUIRED) = true) as Hw'
        by (rewrite orb_true_iff, !bool_decide_eq_true; exact Hw).
      rewrite Hw' in Hn. congruence. }
  assert (s' <> RECOVERING /\ ~ waiting s') as [HR HW] by tauto.
  destruct Hreq as [->|?]; [|done]. unfold waiting in HW.
  rewrite !bool_decide_eq_false_2 in Hn by tauto. simpl in Hn.
  assert (Hb : beyond_victory s').
  { destruct Hc as [?|(t & Ht & Hb)]; [done|]. simpl in Ht. subst res'.
    destruct (interrupted s) eqn:Hs; [done|]. injection Hn as ->.
    destruct Hok as [Hs' _]. simpl in Hs'. congruence. }
  split; [|by left]. pose proof (beyond_not _ Hb) as (_ & _ & _ & HB & HF & HC).
  unfold effective_resumable in Hl.
  assert (Hres : forall r, (if interrupted s then match res with Some x => Some x | None => None end
                            else None) = Some r -> res = Some r)
    by (intros r; destruct (interrupted s), res; congruence).
  destruct Hl as [Hto|Hto|Hto|Hto|_ Hto|_ _ Hr%Hres|_ _ Hr%Hres|Hto|Hw _ Hv _ _].
  - done.
  - done.
  - exfalso. tauto.
  - exfalso. tauto.
  - done.
  - right. simpl. eauto.
  - right. simpl. eauto.
  - exfalso. tauto.
  - left. simpl. eapply edge_beyond; [done|done|]. intros ->. by specialize (Hv eq_refl).
Qed.

Lemma gate_holds es m :
  history recovery_only es m -> committed m -> victory_on_record es.
Proof.
  induction 1 as [e|es e m m' Hh IH Hs _].
  { intros [Hb|(t & ? & _)]; [by apply beyond_not in Hb as [? _]|done]. }
  pose proof (history_ok _ _ _ Hh) as Hok.
  destruct Hs as [s res _ _ Hto|s res s' res' req _ _ Hto Hreq Hv Hn|res cid d Hty Hact Hfrom Hto Hrec];
    intros Hc.
  - eapply record_extends; [by apply IH|exact Hto|].
    destruct Hc as [?|(t & Ht & _)]; [by left|]. unfold machine_ok in Hok. simpl in *.
    rewrite Ht in Hok. right. apply Hok.
  - destruct (committed_before _ _ _ _ _ _ Hok Hreq Hv Hn Hc) as [? ?].
    eapply record_extends; eauto.
  - exists es, e, [], cid, d. split_and!; done.
Qed.

(** ** The log of a run in sound tables *)

Lemma run_events P d rid r :
  wf P d -> db_runs d !! rid = Some r ->
  run_id r = rid /\ history P (events_of rid d) (machine_of r) /\ NoDup (omap ev_key (events_of rid d)).
Proof.
  intros Hwf Hr. pose proof (run_keyed _ _ Hwf _ _ Hr) as <-.
  destruct (run_logged _ _ Hwf _ _ Hr). done.
Qed.

Lemma history_state P es m : history P es m -> (e ← last es; ev_to e) = Some m.1.
Proof.
  induction 1 as [e|es e m m' _ IH Hs _]; [done|]. rewrite last_snoc. simpl. by destruct Hs.
Qed.

Lemma prefix_events rid d d' :
  db_events d `prefix_of` db_events d' -> exists es, events_of rid d' = events_of rid d ++ es.
Proof. intros [es He]. exists (select (of_run rid) es). unfold events_of. by rewrite He, select_app. Qed.

(** a terminal run stays what it is *)
Lemma terminal_frozen P d d' rid r :
  wf P d -> wf P d' -> extends d d' -> db_runs d !! rid = Some r -> terminal (run_state r) ->
  exists r', db_runs d' !! rid = Some r' /\ machine_of r' = machine_of r.
Proof.
  intros Hwf Hwf' He Hr Ht. destruct (ext_runs _ _ He _ _ Hr) as (r' & Hr' & _).
  exists r'. split; [done|].
  destruct (run_events _ _ _ _ Hwf Hr) as (_ & H1 & _).
  destruct (run_events _ _ _ _ Hwf' Hr') as (_ & H2 & _).
  destruct (prefix_events rid _ _ (ext_events _ _ He)) as [es Hes]. rewrite Hes in H2.
  by eapply history_terminal.
Qed.
End Safety.

Lemma anything_goes ops : Forall (requests anything) ops.
Proof. apply Forall_true. by intros []. Qed.

(** ** A concrete execution *)

(** a user, a workspace, and nothing else *)
Definition demo_start : World := {|
  db := {|
    db_users := {[ "u1" ]}; db_workspaces := {[ "ws1" ]}; db_runs := ∅; db_cycles := ∅;
    db_events := []; db_evidence := []; db_gates := []; db_approvals := ∅; db_intents := ∅;
    db_ci_runs := ∅; db_assignments := ∅; db_leases := ∅; db_mounts := ∅; db_workbench := ∅; db_control_tasks := ∅ |};
  ticks := 0; uids := 0 |}.
Definition demo_request : RunRequest := {|
  rq_user_id := "u1"; rq_workspace_id := "ws1"; rq_mission := "repair the parser";
  rq_acceptance_criteria := ["tests pass"]; rq_policy := JObj []; rq_budget := JObj [];
  rq_model_id := None; rq_idempotency_key := Some "k1" |}.
Definition demo_step (s : FactoryState) : op :=
  Transition "factory_0" s SYSTEM "next" ("to-" +:+ state_value s) [] None.
(** a run that is driven to the Victory gate and through it *)
Definition demo_ops : list op :=
  [CreateRun demo_request; CreateCycle "factory_0" None None (Some "first")] ++
  map demo_step (tail _FORWARD_CHAIN) ++
  [SetTarget "factory_0" "cycle_2" "r1" "f1" "target";
   AuthorizeVictory "factory_0" "cycle_2"
     (evaluate demo_results demo_evidence (Some "r1") (Some "f1") demo_plan []) "victory"].
Definition demo_end : World := @exec_all demo_env demo_ops demo_start.

Lemma demo_fresh : fresh_db (db demo_start).
Proof. done. Qed.
Lemma demo_disciplined : Forall (requests recovery_only) demo_ops.
Proof. by repeat (constructor; [first [done|by left]|]). Qed.
Lemma demo_reaches_commit :
  exists r, db_runs (db demo_end) !! "factory_0" = Some r /\ run_state r = COMMITTING.
Proof. eexists. split; vm_compute; reflexivity. Qed.

(** A run that was interrupted before it began has no state to come back to, and the
    store takes the one its caller names, COMMITTING included. *)
Definition undisciplined_ops : list op :=
  [CreateRun demo_request; Transition "factory_0" RECOVERING SYSTEM "interrupted" "k2" [] None;
   Transition "factory_0" COMMITTING SYSTEM "recovered" "k3" [] (Some COMMITTING)].
Example named_resume_skips_victory :
  let d := db (@exec_all demo_env undisciplined_ops demo_start) in
  (run_state <$> db_runs d !! "factory_0") = Some COMMITTING /\
  map ev_to (events_of "factory_0" d) = [Some MISSION; Some RECOVERING; Some COMMITTING].
Proof. vm_compute. split; reflexivity. Qed.

(** ** Theorems *)

(** C1. No success without machine Victory: whatever sequence of store calls is executed
    by callers that name a state to come back to only for a recovery, as those in the
    code do, a run that is committing, pushing, opening a pull request, verifying CI,
    closing a cycle or complete, or that would come back to such a state, has on record a
    Victory event written by the SYSTEM actor from VICTORY_JUDGING for a passing decision
    of the judge, and has not left the region beyond the gate since, but for pauses,
    approvals and recoveries.  (The store alone does not see to it:
    [named_resume_skips_victory].) *)
Theorem no_success_without_victory `{Env} ops w rid r :
  fresh_db (db w) -> Forall (requests recovery_only) ops ->
  db_runs (db (exec_all ops w)) !! rid = Some r ->
  committed (machine_of r) ->
  victory_on_record (events_of rid (db (exec_all ops w))).
Proof.
  intros Hf Hops Hr Hc.
  destruct (exec_all_wf recovery_only ops w) as [Hwf _]; [by left|done|by apply fresh_wf|].
  destruct (run_events _ _ _ _ Hwf Hr) as (_ & Hh & _). by eapply gate_holds.
Qed.

Theorem no_success_without_victory_witness :
  @victory_on_record demo_env (events_of "factory_0" (db demo_end)).
Proof.
  destruct demo_reaches_commit as (r & Hr & Hs).
  apply (@no_success_without_victory demo_env demo_ops demo_start "factory_0" r).
  - exact demo_fresh.
  - exact demo_disciplined.
  - exact Hr.
  - left. unfold machine_of. simpl. rewrite Hs. by left.
Defined.

(** C2. The event log is the run's history: after any execution, the events of a
    run start with its creation, are numbered 1, 2, 3, ... without a gap, each
    moves the run by a transition the state machine allows (with the effect on the
    resumable state that the store computes) or notes something without moving it,
    the last one names the run's current state, and no idempotency key occurs
    twice. *)
Theorem log_is_legal_history `{Env} ops w rid r :
  fresh_db (db w) ->
  db_runs (db (exec_all ops w)) !! rid = Some r ->
  let es := events_of rid (db (exec_all ops w)) in
  history anything es (machine_of r) /\
  map ev_sequence es = seqZ 1 (Z.of_nat (length es)) /\
  (e ← last es; ev_to e) = Some (run_state r) /\
  NoDup (omap ev_key es).
Proof.
  intros Hf Hr.
  destruct (exec_all_wf anything ops w) as [Hwf _];
    [done|apply anything_goes|by apply fresh_wf|].
  destruct (run_events _ _ _ _ Hwf Hr) as (_ & Hh & Hk). split_and!; [done| | |done].
  - by eapply history_sequence.
  - by eapply (history_state anything _ (machine_of r)).
Qed.

Theorem log_is_legal_history_witness :
  exists r, db_runs (db demo_end) !! "factory_0" = Some r /\
    @history demo_env anything (events_of "factory_0" (db demo_end)) (machine_of r).
Proof.
  destruct demo_reaches_commit as (r & Hr & _). exists r. split; [exact Hr|].
  destruct (@log_is_legal_history demo_env demo_ops demo_start "factory_0" r demo_fresh Hr) as [Hh _].
  exact Hh.
Defined.

(** Nothing is rewritten and nothing leaves a terminal state: any execution
    only appends events, evidence and gate results, keeps every run and cycle with
    its identity (owner, mission, criteria, policy, budget, ordinal), and leaves
    the state of a blocked, failed, complete or cancelled run as it is. *)
Theorem execution_only_grows `{Env} ops1 ops2 w :
  fresh_db (db w) ->
  let w1 := exec_all ops1 w in
  let w2 := exec_all ops2 w1 in
  extends (db w1) (db w2) /\
  forall rid r, db_runs (db w1) !! rid = Some r -> terminal (run_state r) ->
    exists r', db_runs (db w2) !! rid = Some r' /\ machine_of r' = machine_of r.
Proof.
  intros Hf w1 w2.
  destruct (exec_all_wf anything ops1 w) as [Hwf1 _]; [done|apply anything_goes|by apply fresh_wf|].
  destruct (exec_all_wf anything ops2 w1) as [Hwf2 He]; [done|apply anything_goes|done|].
  split; [done|]. intros rid r Hr Ht. exact (terminal_frozen _ _ _ _ _ Hwf1 Hwf2 He Hr Ht).
Qed.

Theorem execution_only_grows_witness :
  extends (db (@exec_all demo_env (take 5 demo_ops) demo_start))
    (db (@exec_all demo_env (drop 5 demo_ops) (@exec_all demo_env (take 5 demo_ops) demo_start))).
Proof.
  destruct (@execution_only_grows demo_env (take 5 demo_ops) (drop 5 demo_ops) demo_start demo_fresh)
    as [He _].
  exact He.
Defined.

(** The cycles of a run are numbered 1, 2, 3, ... without a gap or a
    repetition, its current cycle is the last one and is in the state of the run,
    and a run without a current cycle has none. *)
Theorem cycles_are_numbered `{Env} ops w :
  fresh_db (db w) ->
  let d := db (exec_all ops w) in
  cycles_wf (db_runs d) (db_cycles d).
Proof.
  intros Hf d.
  destruct (exec_all_wf anything ops w) as [Hwf _];
    [done|apply anything_goes|by apply fresh_wf|].
  exact (wf_cycles _ _ Hwf).
Qed.

Theorem cycles_are_numbered_witness :
  cycles_wf (db_runs (db demo_end)) (db_cycles (db demo_end)).
Proof. exact (@cycles_are_numbered demo_env demo_ops demo_start demo_fresh). Defined.
