(* ===== verification/FactoryStoreSpec.v ===== *)
(** * What single methods of the store do

    The contract of a transition, of the Victory authorisation, of the run
    leases, of the creation of runs under a race, and of the reads that callers
    page through. *)

From S2P Require Import Prelude PyStr Json Redaction FactoryDomain FactoryGates.
From S2P Require Import FactoryVictory Database CapabilityLifecycle FactoryStore FactoryHistory FactoryStoreFacts.
From S2P Require Import FactorySafety.

Section Spec.
Context `{Env}.

Lemma bind_Err {A B} (m : M World A) (k : A -> M World B) w e w' :
  bind m k w = (Err e, w') <->
  m w = (Err e, w') \/ exists a w1, m w = (Ok a, w1) /\ k a w1 = (Err e, w').
Proof.
  unfold bind. destruct (m w) as [[a|e'] w1]; split; [eauto|by intros [|(? & ? & [= <- <-] & ?)]|..].
  - intros [= -> ->]. by left.
  - by intros [[= -> ->]|(? & ? & ? & _)].
Qed.

(** the tables of the runs, apart from those of the authority *)
Definition same_factory (d d' : Db) : Prop :=
  db_runs d' = db_runs d /\ db_cycles d' = db_cycles d /\ db_events d' = db_events d /\
  db_evidence d' = db_evidence d /\ db_gates d' = db_gates d.

Lemma retired_same_factory now PL PM d d' : retired now PL PM d d' -> same_factory d d'.
Proof. intros [E _ _]. rewrite E. by split_and!. Qed.

Lemma revoke_if_Ok b rid w :
  blank rid = false ->
  exists w', revoke_if b rid w = (Ok tt, w') /\ same_factory (db w) (db w') /\
    (b = true -> zero_authority (db w') (strip rid)).
Proof.
  intros Hb. unfold revoke_if. destruct b; [|by exists w].
  destruct (revoke_spec rid None w Hb) as (w' & E & R & Z). exists w'.
  split; [apply bind_Ok; eexists _, w'; split; [exact E|done]|].
  split; [by eapply retired_same_factory|done].
Qed.

(** the digest of the intent of a transition *)
Definition intent_digest_of (to : FactoryState) (actor : FactoryActor) (reason : string)
    (ids : list string) (req : option FactoryState) : result string :=
  let? (_, dg) := _canonical_payload (transition_intent to actor reason ids req) in Ok dg.

(** the outcome of a transition that was performed: what it returned, where, and
    what it wrote *)
Record performed (w : World) (rid : string) (to : FactoryState) (actor : FactoryActor)
    (reason key dg : string) (req : option FactoryState) (r r' : FactoryRun) (d' : Db) : Prop := {
  perf_legal : ~ terminal (run_state r) /\
    legal_transition (run_state r) to actor
      (effective_resumable (run_state r) (run_resumable_state r) req) false;
  perf_run : exists res, next_resumable (run_state r) to (run_resumable_state r) req = Ok res /\
    r' = moved_run r to res reason (clock (ticks w));
  perf_runs : db_runs d' = <[rid := r']> (db_runs (db w));
  perf_cycles : db_cycles d' = moved_cycles (db w) r to reason (clock (ticks w));
  perf_event : exists e, db_events d' = db_events (db w) ++ [e] /\ ev_run_id e = rid /\
    ev_cycle_id e = run_current_cycle_id r /\ ev_type e = "state.transition" /\
    ev_actor e = actor /\ ev_from e = Some (run_state r) /\ ev_to e = Some to /\
    ev_key e = Some key /\ ev_digest e = dg /\
    ev_sequence e = (Z.of_nat (length (events_of rid (db w))) + 1)%Z;
  perf_authority : revokes_authority to = true -> zero_authority d' (strip rid);
}.

(** the outcome of a transition whose key was used for the same intent before *)
Record replayed (w : World) (rid key dg : string) (r : FactoryRun) (d' : Db) : Prop := {
  rep_event : exists e, e ∈ db_events (db w) /\ ev_run_id e = rid /\ ev_key e = Some key /\
    ev_digest e = dg;
  rep_same : same_factory (db w) d';
  rep_authority : revokes_authority (run_state r) = true -> zero_authority d' (strip rid);
}.

Lemma wf_sound P d : wf P d -> sound P d d.
Proof. by split. Qed.

(** a revocation that is known to have run *)
Lemma revoke_if_ran b rid w u w' :
  blank rid = false -> revoke_if b rid w = (Ok u, w') ->
  same_factory (db w) (db w') /\ (b = true -> zero_authority (db w') (strip rid)).
Proof.
  intros Hb E. destruct (revoke_if_Ok b rid w Hb) as (w1 & E1 & S & Z).
  assert (w1 = w') as -> by congruence. done.
Qed.

Lemma no_event_for_key rid key w w' e :
  event_for_key rid (Some key) w = (Ok None, w') ->
  e ∈ db_events (db w) -> ev_run_id e = rid -> ev_key e <> Some key.
Proof.
  intros [_ Hn]%event_for_key_Ok He Hr Hk. simpl in Hn.
  assert (e ∈ select (fun e => of_run rid e && same_key (ev_key e) (Some key)) (db_events (db w))) as Hin.
  { apply elem_of_select. split; [done|]. unfold of_run. by rewrite Hr, Hk, str_eqb_refl; simpl; rewrite str_eqb_refl. }
  rewrite Hn in Hin. by apply elem_of_nil in Hin.
Qed.

(** the block of a transition that was performed, and the revocation after it *)
Lemma performed_Ok rid to actor reason key req intent sp dg r r' w w1 w' u :
  _canonical_payload intent = Ok (sp, dg) -> wf anything (db w) -> blank rid = false -> db_runs (db w) !! rid = Some r ->
  perform_transition r to actor reason key req intent dg w = (Ok r', w1) ->
  revoke_if (revokes_authority to) rid w1 = (Ok u, w') ->
  performed w rid to actor reason key dg req r r' (db w').
Proof.
  intros Hcan Hwf Hb Hr Hp Hv. pose proof (run_keyed _ _ Hwf _ _ Hr) as Hid. subst rid.
  destruct (perform_transition_Ok _ _ _ _ _ _ _ _ _ _ _ _ _ (wf_sound _ _ Hwf) Hr Hp)
    as (res & e & Hval & Hn & -> & Ha & Hdg).
  destruct (moved_run_fields r to res reason (clock (ticks w))) as ((Hid & _) & _).
  destruct (revoke_if_ran _ _ _ _ _ Hb Hv) as [(SR & SC & SE & _) Z].
  pose proof (app_db _ _ _ _ _ _ _ _ _ _ Ha) as Hd. apply validator_spec in Hval.
  split; [done|by exists res| | | |done].
  - rewrite SR, Hd. simpl. by rewrite <-Hid.
  - by rewrite SC, Hd.
  - exists e. rewrite SE, Hd. destruct Ha as [_ A1 A2 A3 A4 A5 A6 A7 A8 _ _ _]. simpl.
    split_and!; try done; [congruence|by eapply Hdg|]. rewrite A8, <-Hid.
    change (max_sequence _ _) with (max_sequence (run_id r) (db w)). f_equal.
    eapply history_max. exact (log_history _ _ _ (run_logged _ _ Hwf _ _ Hr)).
Qed.

Lemma transition_Ok rid to actor reason key ids req w r' w' :
  wf anything (db w) -> blank rid = false ->
  transition rid to actor reason key ids req w = (Ok r', w') ->
  exists r dg, db_runs (db w) !! rid = Some r /\
    intent_digest_of to actor reason ids req = Ok dg /\
    ((r' = r /\ replayed w rid key dg r (db w')) \/
     ((forall e, e ∈ db_events (db w) -> ev_run_id e = rid -> ev_key e <> Some key) /\
      performed w rid to actor reason key dg req r r' (db w'))).
Proof.
  intros Hwf Hb. unfold transition, get_run_row. intros Hi.
  ok_inv; select (required _ _ _ = _) (fun H => apply required_Ok in H as [Hr ->]).
  - select (event_for_key _ _ _ = _) (fun H => apply event_for_key_Some in H as (-> & He & Her & Hek & _)).
    select (negb (str_eqb _ _) = false) (fun H => apply negb_false_iff, str_eqb_true in H as Hdg).
    eexists _, _. split; [exact Hr|]. split; [unfold intent_digest_of; by rewrite Hx|]. left.
    split; [done|]. unfold revoke_if at 1 in Hx0. simpl in Hx0. ok_inv.
    destruct (revoke_if_ran _ _ _ _ _ Hb Hx1) as [S Z]. split; [by exists f|done|done].
  - simpl in Hx0. pose proof (fun e => no_event_for_key _ _ _ _ e Hx3) as Hnone.
    apply event_for_key_Ok in Hx3 as [-> _].
    eexists _, _. split; [exact Hr|]. split; [unfold intent_digest_of; by rewrite Hx|]. right.
    split; [done|]. by eapply performed_Ok.
Qed.

(** a transition that raises has changed nothing *)
Lemma transition_Err rid to actor reason key ids req w e w' :
  blank rid = false -> transition rid to actor reason key ids req w = (Err e, w') -> db w' = db w.
Proof.
  intros Hb. unfold transition. destruct (blank key); [by intros [= <- <-]|].
  intros [Hc|((safe & dg) & w1 & Hc & Ht)]%bind_Err; [by injection Hc as _ <-|].
  injection Hc as _ <-. apply bind_Err in Ht as [Ht|((r & b) & w1 & _ & Ht)].
  - by apply transaction_Err in Ht.
  - destruct (revoke_if_Ok (negb b && revokes_authority to) rid w1 Hb) as (w2 & E & _).
    apply bind_Err in Ht as [Ht|(? & ? & _ & Ht)]; [congruence|done].
Qed.

(** ** Keys *)

(** a key that was used is found, once *)
Lemma select_key es e :
  NoDup (omap ev_key es) -> e ∈ es -> ev_key e <> None ->
  select (fun x => same_key (ev_key x) (ev_key e)) es = [e].
Proof.
  induction es as [|x es IH]; simpl; [by intros _ ?%elem_of_nil|].
  intros Hn He Hk. destruct (ev_key e) as [k|] eqn:Ek; [|done].
  assert (Hnone : forall l, k ∉ omap ev_key l -> select (fun x => same_key (ev_key x) (Some k)) l = []).
  { intros l. induction l as [|y l IHl]; [done|]. rewrite list_elem_of_omap.
    unfold select. simpl. intros Hl. destruct (same_key (ev_key y) (Some k)) eqn:E.
    - apply same_key_true in E as [E _]. exfalso. apply Hl. exists y. split; [by left|done].
    - apply IHl. rewrite list_elem_of_omap. intros (z & ? & ?). apply Hl. exists z. split; [by right|done]. }
  unfold select in *. simpl. apply elem_of_cons in He as [<-|He].
  - rewrite Ek in *. simpl. rewrite str_eqb_refl. f_equal. apply Hnone. by apply NoDup_cons in Hn as [? _].
  - assert (k ∈ omap ev_key es) by (apply list_elem_of_omap; eauto).
    destruct (ev_key x) as [k'|] eqn:Ex; simpl; [|by apply IH].
    apply NoDup_cons in Hn as [Hn1 Hn2]. destruct (str_eqb k' k) eqn:E.
    + apply str_eqb_true in E as ->. done.
    + by apply IH.
Qed.

Lemma select_and {A} (p q : A -> bool) l : select (fun x => p x && q x) l = select q (select p l).
Proof.
  unfold select. induction l as [|x l IH]; [done|]. simpl. destruct (p x); simpl; [|done].
  destruct (q x); by rewrite IH.
Qed.

Lemma event_for_key_found P d r e key w :
  log_wf P d r -> db w = d -> e ∈ events_of (run_id r) d -> ev_key e = Some key ->
  event_for_key (run_id r) (Some key) w = (Ok (Some e), w).
Proof.
  intros [_ Hn] Hd He Hk. unfold event_for_key, query, bind, gets. rewrite Hd.
  change (db_events d) with (id (db_events d)). rewrite select_and.
  change (select _ (id (db_events d))) with (events_of (run_id r) d).
  assert (select (fun e0 => same_key (ev_key e0) (Some key)) (events_of (run_id r) d) = [e]) as ->;
    [|done].
  rewrite <-Hk. apply select_key; [done|done|by rewrite Hk].
Qed.

Lemma event_for_key_unused rid key w :
  (forall e, e ∈ db_events (db w) -> ev_run_id e = rid -> ev_key e <> Some key) ->
  event_for_key rid (Some key) w = (Ok None, w).
Proof.
  intros Hn. unfold event_for_key, query, bind, gets.
  assert (select (fun e => str_eqb (ev_run_id e) rid && same_key (ev_key e) (Some key))
            (db_events (db w)) = []) as ->; [|done].
  apply elem_of_nil_inv. intros e [He [Hr%str_eqb_true [Hk _]%same_key_true]%andb_true_iff]%elem_of_select.
  by apply (Hn e).
Qed.

(** ** Calls that succeed *)

Lemma max_of_above l z : z ∈ l -> (z < int_or_zero (max_of l) + 1)%Z.
Proof.
  intros Hz. destruct (max_of l) as [m|] eqn:Em; simpl.
  - apply max_of_spec in Em as [_ Hm]. specialize (Hm _ Hz). lia.
  - destruct l; [by apply elem_of_nil in Hz|done].
Qed.

(** the identifier the next event gets *)
Definition next_event_id (w : World) : string := "fev_" +:+ uuid_hex (uids w).

Lemma append_event_succeeds run cycle actor event_type from to key payload dg w pd :
  _canonical_payload payload = Ok pd ->
  is_Some (db_runs (db w) !! run_id run) ->
  (forall c, cycle = Some c -> is_Some (db_cycles (db w) !! c)) ->
  (forall e, e ∈ db_events (db w) -> ev_id e <> next_event_id w) ->
  (forall e k, e ∈ db_events (db w) -> ev_run_id e = run_id run -> key = Some k -> ev_key e <> Some k) ->
  exists e w', _append_event_in_transaction run cycle actor event_type from to key payload dg w = (Ok e, w').
Proof.
  intros Hp Hr Hc Hid Hk. destruct pd as [sp cd]. unfold _append_event_in_transaction.
  unfold bind at 1, lift. rewrite Hp.
  unfold bind at 1, query, gets. rewrite bool_decide_eq_true_2 by done. simpl.
  unfold insert_event, check, query, gets, write, modify, bind, _new_id, _now_ms. simpl.
  assert (Hf : forall b, b = false -> negb b = true) by by intros ? ->.
  rewrite (Hf (existsb _ _)); cycle 1.
  { apply existsb_false. intros e He. apply str_eqb_false. by apply Hid. }
  assert (known_run (run_id run) (db w) = true) as -> by by apply bool_decide_eq_true.
  assert (known_cycle cycle (db w) = true) as ->
    by (destruct cycle; [apply bool_decide_eq_true; by apply Hc|done]).
  simpl. rewrite (Hf (existsb _ _)); cycle 1.
  { apply existsb_false. intros e He. destruct (str_eqb (ev_run_id e) (run_id run)) eqn:Er; [simpl|done].
    assert (ev_sequence e < int_or_zero (max_sequence (run_id run) (db w)) + 1)%Z; [|lia].
    apply max_of_above, list_elem_of_fmap. exists e. split; [done|]. by apply elem_of_select. }
  rewrite (Hf (existsb _ _)); cycle 1.
  { apply existsb_false. intros e He. destruct (str_eqb (ev_run_id e) (run_id run)) eqn:Er; [simpl|done].
    destruct (same_key (ev_key e) key) eqn:Ek; [|done]. apply same_key_true in Ek as [Ek Hn].
    destruct key as [k|]; [|congruence]. apply str_eqb_true in Er. by destruct (Hk e k He Er). }
  eauto.
Qed.

Lemma current_cycle_stored P d r c :
  wf P d -> db_runs d !! run_id r = Some r -> run_current_cycle_id r = Some c ->
  is_Some (db_cycles d !! c).
Proof.
  intros Hwf Hr Hc. pose proof (current_known _ _ (wf_cycles _ _ Hwf) _ _ Hr) as Hcur.
  rewrite Hc in Hcur. destruct Hcur as (cy & [? _ _ _ _ _]). eauto.
Qed.

Lemma perform_transition_succeeds P r to actor reason key req intent dg pd w :
  wf P (db w) -> db_runs (db w) !! run_id r = Some r ->
  validate_factory_transition (run_state r) to actor
    (effective_resumable (run_state r) (run_resumable_state r) req) false = Ok tt ->
  is_ok (next_resumable (run_state r) to (run_resumable_state r) req) = true ->
  _canonical_payload intent = Ok pd ->
  (forall e, e ∈ db_events (db w) -> ev_id e <> next_event_id w) ->
  (forall e, e ∈ db_events (db w) -> ev_run_id e = run_id r -> ev_key e <> Some key) ->
  exists r' w', perform_transition r to actor reason key req intent dg w = (Ok r', w').
Proof.
  intros Hwf Hr Hv Hn Hp Hid Hk. unfold perform_transition.
  destruct (next_resumable _ _ _ _) as [res|] eqn:Enext; [|done].
  unfold bind at 1, lift. rewrite Hv. unfold bind at 1, _now_ms. unfold bind at 1.
  destruct (moved_run_fields r to res reason (clock (ticks w))) as ((Hrid & _) & _).
  pose proof (current_cycle_stored _ _ _ (default "" (run_current_cycle_id r)) Hwf Hr) as Hst.
  assert (Happ : forall w1 cyc, db_events (db w1) = db_events (db w) -> uids w1 = uids w ->
    db_runs (db w1) = <[run_id r := moved_run r to res reason (clock (ticks w))]> (db_runs (db w)) ->
    (forall c, cyc = Some c -> is_Some (db_cycles (db w1) !! c)) ->
    exists e w', _append_event_in_transaction (moved_run r to res reason (clock (ticks w))) cyc actor
      "state.transition" (Some (run_state r)) (Some to) (Some key) intent (Some dg) w1 = (Ok e, w')).
  { intros w1 cyc He Hu Hruns Hcyc. eapply append_event_succeeds; [exact Hp| |done|..].
    - rewrite Hruns, <-Hrid, lookup_insert_eq. eauto.
    - unfold next_event_id. rewrite He, Hu. exact Hid.
    - intros e k. rewrite He, <-Hrid. intros ? ? [= <-]. eauto. }
  assert (exists o, forall w1, db w1 = db w ->
    (if has_key (run_current_cycle_id r) then get_cycle_row (default "" (run_current_cycle_id r))
     else ret None) w1 = (Ok o, w1)) as [o Ho].
  { destruct (has_key _); eexists; [|done]. intros w1 Hw1. unfold get_cycle_row, query, gets.
    by rewrite Hw1. }
  unfold bind at 1. rewrite Ho by done. unfold bind, save_run, save_cycle, write, modify, ret.
  destruct o as [cy|]; cbn [db set_db];
    (match goal with
     | |- context [_append_event_in_transaction _ ?cyc _ _ _ _ _ _ _ ?w1] =>
         destruct (Happ w1 cyc) as (e & w' & E)
     end; [..|rewrite E; eauto]); simpl; rewrite ?Hrid; try done;
    intros c Hc; rewrite Hc in Hst; destruct (Hst eq_refl) as [x Hx]; [|eauto].
  apply lookup_insert_is_Some. destruct (decide (cycle_id (moved_cycle cy to reason (clock (ticks w))) = c));
    eauto.
Qed.

(** a transition whose key is new is the block that performs it, and a revocation *)
Lemma transition_fresh rid to actor reason key ids req r sp dg w :
  blank key = false -> db_runs (db w) !! rid = Some r ->
  _canonical_payload (transition_intent to actor reason ids req) = Ok (sp, dg) ->
  (forall e, e ∈ db_events (db w) -> ev_run_id e = rid -> ev_key e <> Some key) ->
  transition rid to actor reason key ids req w =
  (let* r' := transaction (perform_transition r to actor reason key req
                (transition_intent to actor reason ids req) dg) in
   let* _ := revoke_if (revokes_authority to) rid in ret r') w.
Proof.
  intros Hbk Hr Hpd Hkey. unfold transition. rewrite Hbk. unfold bind at 1, lift. rewrite Hpd.
  unfold bind, transaction, get_run_row, query, gets. rewrite Hr. unfold required, ret.
  rewrite event_for_key_unused by done. by destruct (perform_transition _ _ _ _ _ _ _ _ w) as [[]].
Qed.

Lemma transition_returns rid to actor reason key ids req r pd w :
  wf anything (db w) -> blank rid = false -> blank key = false ->
  db_runs (db w) !! rid = Some r ->
  _canonical_payload (transition_intent to actor reason ids req) = Ok pd ->
  (forall e, e ∈ db_events (db w) -> ev_run_id e = rid -> ev_key e <> Some key) ->
  (forall e, e ∈ db_events (db w) -> ev_id e <> next_event_id w) ->
  ~ terminal (run_state r) ->
  legal_transition (run_state r) to actor
    (effective_resumable (run_state r) (run_resumable_state r) req) false ->
  (to = RECOVERING -> run_state r <> MISSION -> req = None \/ req = Some (run_state r)) ->
  exists r' w', transition rid to actor reason key ids req w = (Ok r', w').
Proof.
  intros Hwf Hb Hbk Hr Hpd Hkey Hid Ht Hl Hreq. destruct pd as [sp dg].
  pose proof (run_keyed _ _ Hwf _ _ Hr) as Hrid. subst rid.
  assert (is_ok (next_resumable (run_state r) to (run_resumable_state r) req) = true) as Hn.
  { unfold next_resumable. repeat (case_bool_decide; simpl; try done); try (by case_match).
    destruct Hreq; done. }
  destruct (perform_transition_succeeds _ r to actor reason key req
    (transition_intent to actor reason ids req) dg (sp, dg) w Hwf Hr) as (r' & w' & E); try done.
  { by apply validator_spec. }
  rewrite (transition_fresh _ _ _ _ _ _ _ _ _ _ _ Hbk Hr Hpd Hkey).
  unfold bind, transaction. rewrite E.
  destruct (revoke_if_Ok (revokes_authority to) (run_id r) w' Hb) as (w'' & -> & _).
  by exists r', w''.
Qed.

(** a transition the state machine refuses *)
Lemma transition_rejects rid to actor reason key ids req r pd e w :
  blank key = false -> db_runs (db w) !! rid = Some r ->
  _canonical_payload (transition_intent to actor reason ids req) = Ok pd ->
  (forall x, x ∈ db_events (db w) -> ev_run_id x = rid -> ev_key x <> Some key) ->
  validate_factory_transition (run_state r) to actor
    (effective_resumable (run_state r) (run_resumable_state r) req) false = Err e ->
  exists w', transition rid to actor reason key ids req w = (Err e, w') /\ db w' = db w.
Proof.
  intros Hbk Hr Hpd Hkey Hv. destruct pd as [sp dg].
  rewrite (transition_fresh _ _ _ _ _ _ _ _ _ _ _ Hbk Hr Hpd Hkey).
  unfold perform_transition, bind, transaction, lift. rewrite Hv. eauto.
Qed.
End Spec.

(** ** Transitions *)

(** the tables of the demonstration just before its run is authorised *)
Definition demo_judging : World := @exec_all demo_env (removelast demo_ops) demo_start.

Lemma demo_judging_wf : @wf demo_env anything (db demo_judging).
Proof.
  destruct (@exec_all_wf demo_env anything (removelast demo_ops) demo_start) as [Hwf _];
    [done|apply anything_goes|apply fresh_wf; exact demo_fresh|exact Hwf].
Qed.

Section Transitions.
Context `{Env}.

(** C5. The contract of [transition] in tables a store execution can reach: a call
    that returns has either found its key used before with the same intent, and
    then changed nothing but revoked authority the state of the run forbids, or
    has performed a legal transition: the run and its current cycle are in the
    target state, the resumable state is the one the state machine prescribes,
    exactly one event with the next sequence number was appended, no other run was
    touched, and no authority of the run's task is left if the target forbids it.
    A call that raises has changed nothing. *)
Theorem transition_correct rid to actor reason key ids req w :
  wf anything (db w) -> blank rid = false ->
  match transition rid to actor reason key ids req w with
  | (Ok r', w') =>
      exists r dg, db_runs (db w) !! rid = Some r /\
        intent_digest_of to actor reason ids req = Ok dg /\
        ((r' = r /\ replayed w rid key dg r (db w')) \/
         ((forall e, e ∈ db_events (db w) -> ev_run_id e = rid -> ev_key e <> Some key) /\
          performed w rid to actor reason key dg req r r' (db w')))
  | (Err _, w') => db w' = db w
  end.
Proof.
  intros Hwf Hb. destruct (transition _ _ _ _ _ _ _ w) as [[r'|e] w'] eqn:E.
  - by apply transition_Ok in E.
  - by apply transition_Err in E.
Qed.

(** [transition] is total on legal requests: when the key is new and not
    blank, the intent fits the payload bound, the state machine allows the move
    and a requested resumable state of a recovery is the interrupted state, the
    call returns. *)
Theorem transition_succeeds rid to actor reason key ids req r pd w :
  wf anything (db w) -> blank rid = false -> blank key = false ->
  db_runs (db w) !! rid = Some r ->
  _canonical_payload (transition_intent to actor reason ids req) = Ok pd ->
  (forall e, e ∈ db_events (db w) -> ev_run_id e = rid -> ev_key e <> Some key) ->
  (forall e, e ∈ db_events (db w) -> ev_id e <> next_event_id w) ->
  ~ terminal (run_state r) ->
  legal_transition (run_state r) to actor
    (effective_resumable (run_state r) (run_resumable_state r) req) false ->
  (to = RECOVERING -> run_state r <> MISSION -> req = None \/ req = Some (run_state r)) ->
  exists r' w', transition rid to actor reason key ids req w = (Ok r', w').
Proof.
  apply transition_returns.
Qed.

Lemma transition_used rid to actor reason key ids req r e dg w :
  wf anything (db w) -> blank rid = false -> blank key = false ->
  db_runs (db w) !! rid = Some r ->
  e ∈ db_events (db w) -> ev_run_id e = rid -> ev_key e = Some key ->
  intent_digest_of to actor reason ids req = Ok dg ->
  if str_eqb (ev_digest e) dg
  then exists w', transition rid to actor reason key ids req w = (Ok r, w') /\
         replayed w rid key dg r (db w')
  else exists message w',
         transition rid to actor reason key ids req w = (Err (FactoryIdempotencyConflict message), w')
         /\ db w' = db w.
Proof.
  intros Hwf Hb Hbk Hr He Her Hek Hdg.
  assert (event_for_key rid (Some key) w = (Ok (Some e), w)) as Hfound.
  { pose proof (run_keyed _ _ Hwf _ _ Hr) as <-.
    eapply event_for_key_found; [exact (run_logged _ _ Hwf _ _ Hr)|done| |done].
    by apply elem_of_events_of. }
  unfold intent_digest_of, rbind in Hdg.
  destruct (_canonical_payload _) as [[sp dg']|] eqn:Hcan; [injection Hdg as ->|done].
  destruct (revoke_if_Ok (revokes_authority (run_state r)) rid w Hb) as (w1 & E1 & S1 & Z1).
  destruct (str_eqb (ev_digest e) dg) eqn:Edg; [exists w1; split|eexists _, w; split; [|done]].
  2: { split; [|done|done]. exists e. by apply str_eqb_true in Edg. }
  all: unfold transition; rewrite Hbk; unfold bind at 1, lift; rewrite Hcan;
    unfold bind at 1, transaction; unfold bind at 1, get_run_row, query, gets; rewrite Hr;
    unfold bind at 1, required, ret; unfold bind at 1; rewrite Hfound, Edg; simpl.
  - unfold bind at 1. by rewrite E1.
  - by destruct w.
Qed.

(** A key is used once: a transition whose key an event of the run already
    carries returns the run and changes none of the factory's tables when the
    intent has the recorded digest, and is refused with an idempotency conflict
    that changes nothing otherwise.  So is a retry: after a transition that
    returned, the same call returns the stored run and changes nothing. *)
Theorem transition_key_used_once rid to actor reason key ids req w :
  wf anything (db w) -> blank rid = false -> blank key = false ->
  (forall r e dg, db_runs (db w) !! rid = Some r ->
     e ∈ db_events (db w) -> ev_run_id e = rid -> ev_key e = Some key ->
     intent_digest_of to actor reason ids req = Ok dg ->
     if str_eqb (ev_digest e) dg
     then exists w', transition rid to actor reason key ids req w = (Ok r, w') /\
            replayed w rid key dg r (db w')
     else exists message w',
            transition rid to actor reason key ids req w
            = (Err (FactoryIdempotencyConflict message), w') /\ db w' = db w) /\
  (forall r' w', transition rid to actor reason key ids req w = (Ok r', w') ->
     exists w'', transition rid to actor reason key ids req w' = (Ok r', w'') /\
       db_runs (db w') !! rid = Some r' /\ same_factory (db w') (db w'')).
Proof.
  intros Hwf Hb Hbk. split; [intros; by apply transition_used|].
  intros r' w' E. pose proof E as Hdone.
  apply transition_Ok in E as (r & dg & Hr & Hdg & Hcase); [|done|done].
  assert (wf anything (db w')) as Hwf'.
  { pose proof (transition_keeps anything (db w) rid to actor reason key ids req I w (wf_sound _ _ Hwf)) as [Hs _].
    by rewrite Hdone in Hs. }
  assert (exists e, e ∈ db_events (db w') /\ ev_run_id e = rid /\ ev_key e = Some key /\ ev_digest e = dg
          /\ db_runs (db w') !! rid = Some r') as (e & He & Her & Hek & Hed & Hr').
  { destruct Hcase as [[-> [(e & He & ? & ? & ?) (SR & SC & SE & _) _]]|[_ [_ _ PR _ (e & PE & ? & _ & _ & _ & _ & _ & ? & ? & _) _]]].
    - exists e. rewrite SE, SR. done.
    - exists e. rewrite PE, PR, lookup_insert_eq. split_and!; try done. apply elem_of_app. right. by left. }
  pose proof (transition_used _ to actor reason key ids req _ _ _ _ Hwf' Hb Hbk Hr' He Her Hek Hdg) as Hu.
  rewrite Hed, str_eqb_refl in Hu. destruct Hu as (w'' & E & [_ S _]). eauto.
Qed.
End Transitions.

Lemma demo_key_unused key :
  forallb (fun e => negb (opt_eqb (ev_key e) (Some key))) (db_events (db demo_judging)) = true ->
  forall e, e ∈ db_events (db demo_judging) -> ev_run_id e = "factory_0" -> ev_key e <> Some key.
Proof.
  intros Hall e He _. apply (forallb_elem_of _ _ _ Hall) in He. apply negb_true_iff in He.
  intros Hk. apply opt_eqb_true in Hk. congruence.
Qed.

Theorem transition_correct_witness :
  exists r r' dg w',
    @transition demo_env "factory_0" PAUSED USER "stop" "pause-1" [] None demo_judging = (Ok r', w') /\
    @performed demo_env demo_judging "factory_0" PAUSED USER "stop" "pause-1" dg None r r' (db w').
Proof.
  pose proof (@transition_correct demo_env "factory_0" PAUSED USER "stop" "pause-1" []
    None demo_judging demo_judging_wf eq_refl) as Hspec.
  assert (is_ok (@transition demo_env "factory_0" PAUSED USER "stop" "pause-1" [] None demo_judging).1
    = true) as Hok by by vm_compute.
  destruct (transition _ _ _ _ _ _ _ _) as [[r'|e] w'] eqn:E; [|discriminate Hok].
  destruct Hspec as (r & dg & _ & _ & [[_ [(e & He & Hr & Hk & _) _ _]]|[_ Hp]]).
  - exfalso. revert Hk. apply demo_key_unused; [by vm_compute|exact He|exact Hr].
  - exists r, r', dg, w'. split; [reflexivity|exact Hp].
Defined.

Theorem transition_succeeds_witness :
  exists r' w', @transition demo_env "factory_0" PAUSED USER "stop" "pause-1" [] None demo_judging
                = (Ok r', w').
Proof.
  assert (exists r, db_runs (db demo_judging) !! "factory_0" = Some r /\
    run_state r = VICTORY_JUDGING /\ run_resumable_state r = None) as (r & Hr & Hs & Hres)
    by (eexists; split_and!; vm_compute; reflexivity).
  eapply (@transition_succeeds demo_env "factory_0" PAUSED USER "stop" "pause-1" [] None r);
    [exact demo_judging_wf|reflexivity|reflexivity|exact Hr|vm_compute; reflexivity| | | | |].
  - apply demo_key_unused. by vm_compute.
  - intros e He. assert (forallb (fun e => negb (str_eqb (ev_id e) (@next_event_id demo_env demo_judging)))
      (db_events (db demo_judging)) = true) as Hall by by vm_compute.
    apply (forallb_elem_of _ _ _ Hall) in He. by apply str_eqb_false, negb_true_iff.
  - rewrite Hs. by_evaluation.
  - rewrite Hs, Hres. apply legal_pause; [reflexivity|by_evaluation|by_evaluation].
  - discriminate.
Defined.

Theorem transition_key_used_once_witness :
  exists r' w' w'',
    @transition demo_env "factory_0" PAUSED USER "stop" "pause-1" [] None demo_judging = (Ok r', w') /\
    @transition demo_env "factory_0" PAUSED USER "stop" "pause-1" [] None w' = (Ok r', w'') /\
    same_factory (db w') (db w'').
Proof.
  destruct (@transition_key_used_once demo_env "factory_0" PAUSED USER "stop" "pause-1" [] None
    demo_judging demo_judging_wf eq_refl eq_refl) as [_ Hretry].
  assert (is_ok (@transition demo_env "factory_0" PAUSED USER "stop" "pause-1" [] None demo_judging).1
    = true) as Hok by by vm_compute.
  destruct (transition _ _ _ _ _ _ _ demo_judging) as [[r'|e] w'] eqn:E; [|discriminate Hok].
  destruct (Hretry r' w' eq_refl) as (w'' & E' & _ & S).
  exists r', w', w''. split; [reflexivity|]. split; [exact E'|exact S].
Defined.

(** ** The Victory authorisation *)

Section Authorization.
Context `{Env}.

(** what an authorisation that moves the run writes *)
Record authorized (w : World) (rid cid key dg : string) (decision : FactoryVictoryDecision)
    (r : FactoryRun) (c : FactoryCycle) (r' : FactoryRun) (d' : Db) : Prop := {
  auth_from : run_state r = VICTORY_JUDGING;
  auth_run : r' = set_run_updated_at (clock (ticks w)) (set_run_state COMMITTING r);
  auth_event : exists e, ev_run_id e = rid /\ victory_record e cid decision /\
    ev_type e = "victory.authorized" /\ ev_actor e = SYSTEM /\ ev_key e = Some key /\
    ev_digest e = dg /\
    d' = set_db_events (db_events (db w) ++ [e])
           (set_db_cycles (<[cid := set_cycle_updated_at (clock (ticks w))
                                      (set_cycle_state COMMITTING c)]> (db_cycles (db w)))
              (set_db_runs (<[rid := r']> (db_runs (db w))) (db w)));
}.

Lemma authorize_victory_Ok rid cid decision key w r' w' :
  wf anything (db w) -> authorize_victory rid cid decision key w = (Ok r', w') ->
  exists r c dg,
    db_runs (db w) !! rid = Some r /\ db_cycles (db w) !! cid = Some c /\
    run_current_cycle_id r = Some cid /\
    is_machine_issued_victory decision = true /\ passed decision = true /\
    has_key (target_revision c) = true /\ has_key (target_fingerprint c) = true /\
    decision_revision decision = target_revision c /\
    decision_fingerprint decision = target_fingerprint c /\
    ((r' = r /\ db w' = db w /\
      exists e, e ∈ db_events (db w) /\ ev_run_id e = rid /\ ev_key e = Some key /\ ev_digest e = dg) \/
     authorized w rid cid key dg decision r c r' (db w')).
Proof.
  intros Hwf. unfold authorize_victory, save_run, save_cycle. intros Hi. ok_inv.
  all: select (run_and_cycle _ _ _ = _) (fun H => apply run_and_cycle_Ok in H as (-> & Hr & Hc & Hown)).
  all: repeat match goal with
    | Hx : negb _ = false |- _ => apply negb_false_iff in Hx
    | Hx : _ || _ = false |- _ => apply orb_false_iff in Hx as [? ?]
    | Hx : opt_eqb _ _ = true |- _ => apply opt_eqb_true in Hx
    end.
  all: eexists _, _, b; split_and!; try eassumption.
  - left. select (event_for_key _ _ _ = _) (fun H => apply event_for_key_Some in H as (-> & He & Her & Hek & _)).
    split_and!; try done. exists f. select (str_eqb _ _ = true) (fun H => apply str_eqb_true in H). done.
  - right. select (event_for_key _ _ _ = _) (fun H => apply event_for_key_Ok in H as [-> _]).
    select (_append_event_in_transaction _ _ _ _ _ _ _ _ _ _ = _) (fun H =>
      apply append_event_Ok in H as (Ha & _ & dg' & Hcan & Hdg)).
    destruct x0. assert (dg' = b) as -> by congruence.
    assert (ev_digest x4 = b) as Hed by (rewrite Hdg; by destruct b).
    pose proof (run_keyed _ _ Hwf _ _ Hr) as Hrid.
    pose proof (cycle_keyed _ _ (wf_cycles _ _ Hwf) _ _ Hc) as Hcid.
    destruct Ha as [A0 A1 A2 A3 A4 A5 A6 A7 A8 _ _ _]. simpl in *.
    split; [by apply victory_source|done|]. exists x4. split_and!; try done.
    + by rewrite A1.
    + split_and!; try done; [by rewrite H0|by rewrite H1|]. by rewrite Hed.
    + by rewrite A0, Hrid, Hcid.
Qed.

Lemma authorize_victory_Err rid cid decision key w e w' :
  authorize_victory rid cid decision key w = (Err e, w') -> db w' = db w.
Proof.
  unfold authorize_victory. destruct (negb (is_machine_issued_victory decision)); [by intros [= <- <-]|].
  destruct (negb (passed decision)); [by intros [= <- <-]|].
  intros [Hc|((safe & dg) & w1 & Hc & Ht)]%bind_Err; [by injection Hc as _ <-|].
  injection Hc as _ <-. by apply transaction_Err in Ht.
Qed.

(** The machine-Victory gate of the store: a call of [authorize_victory] that
    returns was given a passing decision the judge issued, for the current cycle of
    the run and for exactly the revision and fingerprint that are that cycle's
    target; it either found its key on record and changed nothing, or moved the run
    and its cycle from VICTORY_JUDGING to COMMITTING and appended the Victory
    event that records the decision, touching nothing else.  A call that raises
    has changed nothing. *)
Theorem authorize_victory_correct rid cid decision key w :
  wf anything (db w) ->
  match authorize_victory rid cid decision key w with
  | (Ok r', w') =>
      exists r c dg,
        db_runs (db w) !! rid = Some r /\ db_cycles (db w) !! cid = Some c /\
        run_current_cycle_id r = Some cid /\
        is_machine_issued_victory decision = true /\ passed decision = true /\
        has_key (target_revision c) = true /\ has_key (target_fingerprint c) = true /\
        decision_revision decision = target_revision c /\
        decision_fingerprint decision = target_fingerprint c /\
        ((r' = r /\ db w' = db w /\
          exists e, e ∈ db_events (db w) /\ ev_run_id e = rid /\ ev_key e = Some key /\ ev_digest e = dg) \/
         authorized w rid cid key dg decision r c r' (db w'))
  | (Err _, w') => db w' = db w
  end.
Proof.
  intros Hwf. destruct (authorize_victory _ _ _ _ w) as [[r'|e] w'] eqn:E.
  - by apply authorize_victory_Ok.
  - by eapply authorize_victory_Err.
Qed.
End Authorization.

Definition demo_decision : FactoryVictoryDecision :=
  evaluate demo_results demo_evidence (Some "r1") (Some "f1") demo_plan [].

Theorem authorize_victory_correct_witness :
  exists r c dg r' w',
    @authorize_victory demo_env "factory_0" "cycle_2" demo_decision "victory" demo_judging = (Ok r', w') /\
    @authorized demo_env demo_judging "factory_0" "cycle_2" "victory" dg demo_decision r c r' (db w').
Proof.
  pose proof (@authorize_victory_correct demo_env "factory_0" "cycle_2" demo_decision "victory"
    demo_judging demo_judging_wf) as Hspec.
  assert (is_ok (@authorize_victory demo_env "factory_0" "cycle_2" demo_decision "victory" demo_judging).1
    = true) as Hok by by vm_compute.
  destruct (authorize_victory _ _ _ _ _) as [[r'|e] w'] eqn:E; [|discriminate Hok].
  destruct Hspec as (r & c & dg & _ & _ & _ & _ & _ & _ & _ & _ & _ & [(_ & _ & e & He & Hr & Hk & _)|Ha]).
  - exfalso. revert Hk. apply demo_key_unused; [by vm_compute|exact He|exact Hr].
  - exists r, c, dg, r', w'. split; [reflexivity|exact Ha].
Defined.
