(* ===== verification/FactoryStoreQueries.v ===== *)
(** * Creation under a race, leases and pages

    What the store promises about the creation of runs by concurrent processes,
    about the leases by which workers own runs, and about the reads that callers
    page through. *)

From S2P Require Import Prelude PyStr Json Redaction FactoryDomain FactoryGates.
From S2P Require Import FactoryVictory Database CapabilityLifecycle FactoryStore FactoryHistory FactoryStoreFacts.
From S2P Require Import FactorySafety FactoryStoreSpec.
From stdpp Require Import sorting.

Section Creation.
Context `{Env}.

(** [r] is the one run of its owner with the key of the request *)
Definition only_run_for (rq : RunRequest) (d : Db) (r : FactoryRun) : Prop :=
  (exists i, db_runs d !! i = Some r) /\
  run_user_id r = rq_user_id rq /\ run_idempotency_key r = rq_idempotency_key rq /\
  forall i x, db_runs d !! i = Some x -> run_user_id x = rq_user_id rq ->
    run_idempotency_key x = rq_idempotency_key rq -> x = r.

(** [r] is a run of the request *)
Definition answers (rq : RunRequest) (r : FactoryRun) : Prop :=
  run_workspace_id r = rq_workspace_id rq /\ run_mission r = strip (rq_mission rq) /\
  run_acceptance_criteria r = clean_criteria (rq_acceptance_criteria rq) /\
  run_model_id r = rq_model_id rq /\
  _config_fingerprint (rq_policy rq) (rq_budget rq) (rq_model_id rq) = Ok (run_config_fingerprint r).

(** [d'] is [d] with the run [r] and its first event *)
Definition created (rq : RunRequest) (d d' : Db) (r : FactoryRun) : Prop :=
  db_runs d !! run_id r = None /\ run_state r = MISSION /\ run_current_cycle_id r = None /\
  run_lease_token r = None /\
  run_policy r = redact_sensitive (rq_policy rq) /\ run_budget r = redact_sensitive (rq_budget rq) /\
  exists e, ev_run_id e = run_id r /\ ev_type e = "run.created" /\ ev_sequence e = 1%Z /\
    d' = set_db_events (db_events d ++ [e]) (set_db_runs (<[run_id r := r]> (db_runs d)) d).

Lemma run_for_key_ran rq w :
  exists o, run_for_key rq w = (o, w) /\
    forall x, o = Ok x -> forall r, x = Some r ->
      has_key (rq_idempotency_key rq) = true -> only_run_for rq (db w) r.
Proof.
  unfold run_for_key, query, bind, gets, scalar_one_or_none.
  set (rows := select _ _).
  assert (Hrows : forall r, r ∈ rows <-> (exists i, db_runs (db w) !! i = Some r) /\
    run_user_id r = rq_user_id rq /\ run_idempotency_key r = rq_idempotency_key rq /\
    run_idempotency_key r <> None).
  { intros r. unfold rows. rewrite elem_of_select, elem_of_rows, andb_true_iff, str_eqb_true.
    rewrite same_key_true. tauto. }
  destruct rows as [|r [|]]; eexists; split; try reflexivity.
  1: by intros ? [= <-]. 2: done.
  intros ? [= <-] ? [= <-] Hk. destruct (Hrows r) as [[(i & Hi) (Hu & Hkey & _)] _]; [by left|].
  split_and!; [eauto|done|done|]. intros j x Hx Hxu Hxk.
  assert (x ∈ [r]) as Hin by (apply Hrows; split_and!; eauto; rewrite Hxk; by destruct (rq_idempotency_key rq)).
  by apply list_elem_of_singleton in Hin.
Qed.

Lemma validate_replay_Ok rq fp x r :
  validate_replay rq fp x = Ok r ->
  _config_fingerprint (rq_policy rq) (rq_budget rq) (rq_model_id rq) = Ok fp ->
  r = x /\ answers rq r.
Proof.
  unfold validate_replay. destruct (_ || _) eqn:E; [done|]. intros [= ->] Hfp.
  repeat match goal with Hx : _ || _ = false |- _ => apply orb_false_iff in Hx as [Hx ?] end.
  repeat match goal with Hx : negb _ = false |- _ => apply negb_false_iff in Hx end.
  repeat match goal with Hx : str_eqb _ _ = true |- _ => apply str_eqb_true in Hx end.
  repeat match goal with Hx : bool_decide _ = true |- _ => apply bool_decide_eq_true in Hx end.
  repeat match goal with Hx : opt_eqb _ _ = true |- _ => apply opt_eqb_true in Hx end.
  split; [done|]. split_and!; congruence.
Qed.

Lemma validate_replay_Err rq fp x e : validate_replay rq fp x = Err e -> e = run_conflict.
Proof. unfold validate_replay. destruct (_ || _); [by intros [= <-]|done]. Qed.

Lemma insert_new_run_created rq fp w r w' :
  insert_new_run rq fp w = (Ok r, w') ->
  _config_fingerprint (rq_policy rq) (rq_budget rq) (rq_model_id rq) = Ok fp ->
  has_key (rq_idempotency_key rq) = true ->
  created rq (db w) (db w') r /\ only_run_for rq (db w') r /\ answers rq r.
Proof.
  unfold insert_new_run. intros Hi Hfp Hk. ok_inv.
  select (insert_run _ _ = _) (fun H => apply insert_run_Ok in H as (-> & Hfresh & Hfree)).
  select (insert_event _ _ = _) (fun H => apply insert_event_Ok in H as (-> & _)).
  simpl in *. split; [|split].
  - split_and!; try done. eexists. split_and!; [..|reflexivity]; done.
  - split_and!; [|done|done|]; simpl.
    + eexists. by rewrite lookup_insert_eq.
    + intros i x [[<- <-]|[_ Hx]]%lookup_insert_Some Hu Hxk; [done|].
      destruct (rq_idempotency_key rq) as [k|] eqn:Ek; [|done].
      by destruct (Hfree i x k Hx Hu eq_refl).
  - by split_and!.
Qed.

(** Creating a run is idempotent per owner and key, whatever another process
    commits between the lookup of the key and the insertion: a call that returns
    returns a run of exactly this workspace, mission, criteria, model and
    configuration, and it is the only run of the owner with the key; the tables are
    the caller's or the other process's, plus, if the run is new, the run in
    MISSION and its first event.  A call that raises has written nothing. *)
Theorem create_run_idempotent peer rq w :
  has_key (rq_idempotency_key rq) = true ->
  match create_run peer rq w with
  | (Ok r, w') =>
      only_run_for rq (db w') r /\ answers rq r /\
      (db w' = db w \/ db w' = peer (db w) \/ created rq (peer (db w)) (db w') r)
  | (Err _, w') => db w' = db w \/ db w' = peer (db w)
  end.
Proof.
  intros Hk. unfold create_run. destruct (empty_str _); [by left|]. destruct (is_nil _); [by left|].
  unfold bind at 1, lift at 1.
  destruct (_config_fingerprint _ _ _) as [fp|e] eqn:Hfp; [|by left]. rewrite Hk. unfold catch.
  destruct (run_for_key_ran rq w) as (o & E & Ho). unfold bind at 1. rewrite E.
  destruct o as [[r|]|e].
  - unfold lift. destruct (validate_replay rq fp r) as [r'|e] eqn:Ev.
    + destruct (validate_replay_Ok _ _ _ _ Ev Hfp) as [-> Ha]. by split_and!; [eapply Ho| |left].
    + apply validate_replay_Err in Ev as ->. by left.
  - unfold bind at 1, write, modify. unfold transaction.
    destruct (insert_new_run rq fp (set_db peer w)) as [[r|e] w1] eqn:Ei.
    + destruct (insert_new_run_created _ _ _ _ _ Ei Hfp Hk) as (? & ? & ?). by split_and!; [..|right; right].
    + destruct (is_integrity_error e); [simpl|by right].
      set (w2 := {| db := _; ticks := _; uids := _ |}).
      destruct (run_for_key_ran rq w2) as (o & E2 & Ho2). unfold bind at 1. rewrite E2.
      destruct o as [[r|]|e']; [|by right..].
      unfold bind, required, ret, lift. destruct (validate_replay rq fp r) as [r'|e'] eqn:Ev; [|by right].
      destruct (validate_replay_Ok _ _ _ _ Ev Hfp) as [-> Ha].
      split_and!; [by eapply Ho2|done|right; by left].
  - destruct (is_integrity_error e); simpl; [unfold bind; rewrite E|]; by left.
Qed.
End Creation.

(** another process creates the same run first: the caller gets that run *)
Definition demo_peer (d : Db) : Db :=
  db (@exec demo_env (CreateRun demo_request) {| db := d; ticks := 7; uids := 7 |}).2.

Theorem create_run_idempotent_witness :
  exists r w', @create_run demo_env demo_peer demo_request demo_start = (Ok r, w') /\
    run_id r = "factory_7" /\ only_run_for demo_request (db w') r /\
    length (db_events (db w')) = 1%nat.
Proof.
  pose proof (@create_run_idempotent demo_env demo_peer demo_request demo_start eq_refl) as Hspec.
  destruct (create_run _ _ _) as [[r|e] w'] eqn:E; [|vm_compute in E; discriminate E].
  exists r, w'. destruct Hspec as [Ho _]. split; [reflexivity|].
  vm_compute in E. injection E as <- <-. split; [reflexivity|]. split; [exact Ho|reflexivity].
Defined.

(** ** Leases *)

Lemma select_perm {A} (p : A -> bool) l k : l ≡ₚ k -> select p l ≡ₚ select p k.
Proof.
  unfold select. induction 1 as [|x l k _ IH|x y l|l k m _ IH1 _ IH2]; simpl; [done| | |by etrans].
  - destruct (p x); by rewrite IH.
  - destruct (p x), (p y); done || apply perm_swap.
Qed.

Lemma select_none {A} (p : A -> bool) l : (forall x, x ∈ l -> p x = false) -> select p l = [].
Proof.
  intros Hp. apply elem_of_nil_inv. intros x [Hx Ht]%elem_of_select. rewrite Hp in Ht; done.
Qed.

Section Leases.
Context `{Env}.

(** [UPDATE ... WHERE id = rid AND p] *)
Lemma update_run_spec rid p f w :
  keyed (db_runs (db w)) ->
  update_run rid p f w =
    match db_runs (db w) !! rid with
    | Some r => if p r then (Ok true, set_db (fun d => set_db_runs (<[rid := f r]> (db_runs d)) d) w)
                else (Ok false, w)
    | None => (Ok false, w)
    end.
Proof.
  intros Hk. unfold update_run, query, write, bind, gets, modify, ret, rowcount, rows_of, set_db.
  set (matches := fun r => str_eqb (run_id r) rid && p r).
  assert (Hother : forall i x, db_runs (db w) !! i = Some x -> i <> rid -> matches x = false).
  { intros i x Hx Hne. unfold matches. rewrite (Hk _ _ Hx).
    by apply str_eqb_false in Hne as ->. }
  assert (Hsame : forall g, (forall i x, db_runs (db w) !! i = Some x ->
     g !! i = Some (if matches x then f x else x)) -> (forall i, db_runs (db w) !! i = None -> g !! i = None) ->
     update_where matches f (db_runs (db w)) = g).
  { intros g Hg Hn. apply map_eq. intros i. unfold update_where. rewrite lookup_fmap.
    destruct (db_runs (db w) !! i) eqn:Ei; simpl; symmetry; eauto. }
  assert (Hcount : length (select matches (map_to_list (db_runs (db w))).*2) =
    match db_runs (db w) !! rid with Some r => if p r then 1 else 0 | None => 0 end%nat).
  { destruct (db_runs (db w) !! rid) as [r|] eqn:Hr.
    - rewrite <-(insert_delete_id _ _ _ Hr).
      rewrite (select_perm _ _ (r :: (map_to_list (delete rid (db_runs (db w)))).*2));
        [|by rewrite map_to_list_insert by apply lookup_delete_eq].
      unfold select at 1. simpl. fold (select matches (map_to_list (delete rid (db_runs (db w)))).*2).
      rewrite select_none; cycle 1.
      { intros x ([i y] & -> & [Hne Hx]%elem_of_map_to_list%lookup_delete_Some)%list_elem_of_fmap.
        eapply Hother; [exact Hx|done]. }
      unfold matches. rewrite (Hk _ _ Hr), str_eqb_refl. simpl. by destruct (p r).
    - rewrite select_none; [done|].
      intros x ([i y] & -> & Hx%elem_of_map_to_list)%list_elem_of_fmap. eapply Hother; [exact Hx|congruence]. }
  rewrite Hcount. destruct (db_runs (db w) !! rid) as [r|] eqn:Hr.
  - assert (matches r = p r) as Hm by (unfold matches; by rewrite (Hk _ _ Hr), str_eqb_refl).
    destruct (p r) eqn:Ep; cbn [Z.of_nat]; f_equal.
    + rewrite (Hsame (<[rid := f r]> (db_runs (db w)))); [done| |].
      * intros i x Hx. destruct (decide (i = rid)) as [->|Hne].
        -- rewrite lookup_insert_eq. assert (x = r) as -> by congruence. by rewrite Hm.
        -- rewrite lookup_insert_ne by done. by rewrite (Hother _ _ Hx Hne).
      * intros i Hi. rewrite lookup_insert_ne by congruence. done.
    + rewrite (Hsame (db_runs (db w))); [by destruct w as [[]]| |done].
      intros i x Hx. destruct (decide (i = rid)) as [->|Hne].
      * assert (x = r) as -> by congruence. by rewrite Hm.
      * by rewrite (Hother _ _ Hx Hne).
  - f_equal. rewrite (Hsame (db_runs (db w))); [by destruct w as [[]]| |done].
    intros i x Hx. destruct (decide (i = rid)) as [->|Hne]; [congruence|].
    by rewrite (Hother _ _ Hx Hne).
Qed.

(** the run is owned by [token] until [until] *)
Definition leased (d : Db) (rid token : string) (until : Z) : Prop :=
  exists r, db_runs d !! rid = Some r /\ run_lease_token r = Some token /\
            run_lease_expires_at r = Some until.

(** a lease call that does not come from the owner [token], nor too late *)
Definition foreign (token : string) (until : Z) (o : op) : Prop :=
  match o with
  | Claim _ t now _ => t <> token /\ (now <= until)%Z
  | Renew _ t _ _ => t <> token
  | Release _ t => t <> token
  | _ => False
  end.

Lemma update_run_leased rid0 p f w rid token until :
  keyed (db_runs (db w)) -> (forall r, run_id (f r) = run_id r) ->
  (forall r, run_lease_token r = Some token -> run_lease_expires_at r = Some until -> p r = false) ->
  leased (db w) rid token until ->
  leased (db (update_run rid0 p f w).2) rid token until /\
  keyed (db_runs (db (update_run rid0 p f w).2)).
Proof.
  intros Hk Hid Hp Hl. rewrite update_run_spec by done.
  destruct (db_runs (db w) !! rid0) as [r0|] eqn:Hr0; [|done]. destruct (p r0) eqn:Ep; [|done].
  destruct Hl as (r & Hr & Ht & He). simpl. split.
  - exists r. split; [|done]. cbn [db set_db]. simpl. rewrite lookup_insert_ne; [done|].
    intros ->. assert (r0 = r) as -> by congruence. rewrite Hp in Ep; done.
  - intros i x. simpl. intros [[<- <-]|[_ Hx]]%lookup_insert_Some; [rewrite Hid|]; eauto.
Qed.

Lemma foreign_leased rid token until o w :
  keyed (db_runs (db w)) -> foreign token until o -> leased (db w) rid token until ->
  leased (db (exec o w).2) rid token until /\ keyed (db_runs (db (exec o w).2)).
Proof.
  intros Hk Ho Hl.
  assert (Hvoid : forall {A} (m : M World A) w, (void m w).2 = (m w).2)
    by (intros A m w0; unfold void, bind; by destruct (m w0) as [[]]).
  destruct o; try done; unfold exec; rewrite Hvoid.
  - destruct Ho as [Hne Hle]. unfold claim_run. destruct (empty_str _); [done|].
    destruct (_ <=? 0)%Z; [done|]. apply update_run_leased; [done|done| |done].
    intros r Ht He. unfold claimable. rewrite Ht, He.
    rewrite !bool_decide_eq_false_2 by done. simpl.
    assert ((until <? now_ms)%Z = false) as -> by (apply Z.ltb_ge; lia).
    unfold opt_eqb. rewrite bool_decide_eq_false_2 by congruence. by rewrite andb_false_r.
  - unfold renew_run. apply update_run_leased; [done|done| |done].
    intros r Ht He. unfold renewable, opt_eqb. rewrite Ht.
    by rewrite bool_decide_eq_false_2 by (intros [= ?]; by destruct Ho).
  - unfold release_run. unfold bind, _now_ms.
    apply (update_run_leased _ _ _ {| db := db w; ticks := S (ticks w); uids := uids w |}); [done|done| |done].
    intros r Ht He. unfold opt_eqb. rewrite Ht.
    by rewrite bool_decide_eq_false_2 by (intros [= ?]; by destruct Ho).
Qed.

Lemma foreign_all rid token until ops w :
  Forall (foreign token until) ops -> keyed (db_runs (db w)) -> leased (db w) rid token until ->
  leased (db (exec_all ops w)) rid token until /\ keyed (db_runs (db (exec_all ops w))).
Proof.
  intros Hops. revert w. induction Hops as [|o ops Ho _ IH]; intros w Hk Hl; [done|].
  destruct (foreign_leased rid token until o w Hk Ho Hl). by apply IH.
Qed.

(** Leases exclude each other: a claim answers [True] exactly when the run
    exists, is not terminal and is unleased, expired or already the caller's, and
    then leases it to the caller for the whole duration; from then on, whatever
    claims, renewals and releases other workers issue before it expires, the lease
    stands, their claims of the run answer [False], and the owner's renewal answers
    [True]. *)
Theorem leases_exclude rid token now ms w ops :
  keyed (db_runs (db w)) -> token <> "" -> (0 < ms)%Z ->
  Forall (foreign token (now + ms)) ops ->
  exists b w1, claim_run rid token now ms w = (Ok b, w1) /\
    (b = true <-> exists r, db_runs (db w) !! rid = Some r /\ claimable token now r = true) /\
    (b = false -> w1 = w) /\
    (b = true ->
       let w2 := exec_all ops w1 in
       leased (db w1) rid token (now + ms) /\ leased (db w2) rid token (now + ms) /\
       (forall other t ms', other <> token -> other <> "" -> (t <= now + ms)%Z -> (0 < ms')%Z ->
          claim_run rid other t ms' w2 = (Ok false, w2)) /\
       (forall t ms', (t <= now + ms)%Z -> exists w3, renew_run rid token t ms' w2 = (Ok true, w3) /\
          leased (db w3) rid token (t + ms'))).
Proof.
  intros Hk Htok Hms Hops.
  assert (Hclaim : forall other t ms' w', other <> "" -> (0 < ms')%Z -> claim_run rid other t ms' w' =
    update_run rid (claimable other t) (fun r => set_run_updated_at t
      (set_run_lease_expires_at (Some (t + ms')%Z) (set_run_lease_token (Some other) r))) w').
  { intros other t ms' w' ? ?. unfold claim_run.
    by rewrite (proj2 (empty_str_false other)), (proj2 (Z.leb_gt _ _)). }
  rewrite Hclaim, update_run_spec by done.
  destruct (db_runs (db w) !! rid) as [r|] eqn:Hr; cycle 1.
  { eexists false, w. split_and!; try done. split; [done|by intros (? & ? & _)]. }
  destruct (claimable token now r) eqn:Ec; cycle 1.
  { eexists false, w. split_and!; try done. split; [done|]. intros (? & [= <-] & ?). congruence. }
  eexists true, _. split; [done|]. split; [naive_solver|]. split; [done|]. intros _ w2.
  set (w1 := set_db _ w) in *. subst w2.
  assert (leased (db w1) rid token (now + ms)) as Hl1.
  { eexists. unfold w1. simpl. rewrite lookup_insert_eq. by split_and!. }
  assert (keyed (db_runs (db w1))) as Hk1.
  { intros i x. unfold w1. simpl. intros [[<- <-]|[_ Hx]]%lookup_insert_Some; [|eauto]. by apply (Hk _ r). }
  destruct (foreign_all rid token (now + ms) ops w1 Hops Hk1 Hl1) as [Hl2 Hk2].
  split_and!; [done|done|..]; destruct Hl2 as (r2 & Hr2 & Ht2 & He2).
  - intros other t ms' Hne Hne' Hle Hms'. rewrite Hclaim, update_run_spec by done. rewrite Hr2.
    unfold claimable. rewrite Ht2, He2, !bool_decide_eq_false_2 by done. simpl.
    assert ((now + ms <? t)%Z = false) as -> by (apply Z.ltb_ge; lia).
    unfold opt_eqb. rewrite bool_decide_eq_false_2 by congruence. by rewrite andb_false_r.
  - intros t ms' Hle. unfold renew_run. rewrite update_run_spec by done. rewrite Hr2.
    unfold renewable. rewrite Ht2, He2. unfold opt_eqb. rewrite bool_decide_eq_true_2 by done.
    rewrite (proj2 (Z.leb_le _ _)) by done. simpl. eexists. split; [done|].
    eexists. simpl. rewrite lookup_insert_eq. by split_and!.
Qed.
End Leases.

Theorem leases_exclude_witness :
  leased (db (@exec_all demo_env [Claim "factory_0" "w2" 150 100; Release "factory_0" "w2"]
               (claim_run "factory_0" "w1" 100 100 demo_judging).2)) "factory_0" "w1" 200.
Proof.
  assert (keyed (db_runs (db demo_judging))) as Hk
    by (intros i r Hr; exact (run_keyed _ _ demo_judging_wf _ _ Hr)).
  destruct (@leases_exclude demo_env "factory_0" "w1" 100 100 demo_judging
    [Claim "factory_0" "w2" 150 100; Release "factory_0" "w2"]) as (b & w1 & E & Hb & _ & Hl).
  - exact Hk.
  - discriminate.
  - reflexivity.
  - repeat constructor; discriminate || reflexivity.
  - assert (b = true) as ->.
    { apply Hb. eexists. split; vm_compute; reflexivity. }
    rewrite E. destruct (Hl eq_refl) as (_ & Hl2 & _). exact Hl2.
Defined.

(** ** Pages *)

Section Pages.
Context `{Env}.

Lemma sequence_sorted P es m : history P es m ->
  StronglySorted (fun a b => Is_true (sequence_order a b)) es /\
  (forall x y, x ∈ es -> y ∈ es -> ev_sequence x = ev_sequence y -> x = y).
Proof.
  intros Hh. apply history_sequence in Hh. revert Hh. generalize 1%Z.
  induction es as [|e es IH]; intros z Hs; [split; [constructor|by intros ? ? ?%elem_of_nil]|].
  cbn [map length] in Hs. rewrite seqZ_cons in Hs by lia.
  injection Hs as He Hs. replace (Z.pred (Z.of_nat (S (length es)))) with (Z.of_nat (length es)) in Hs by lia.
  assert (Hlt : forall x, x ∈ es -> (z < ev_sequence x)%Z).
  { intros x Hx. assert (ev_sequence x ∈ map ev_sequence es) as Hin by (apply list_elem_of_fmap; eauto).
    rewrite Hs in Hin. apply elem_of_seqZ in Hin. lia. }
  destruct (IH _ Hs) as [IH1 IH2]. split.
  - constructor; [done|]. apply Forall_forall. intros x Hx. specialize (Hlt _ Hx).
    unfold sequence_order. rewrite He. apply Is_true_true, Z.leb_le. lia.
  - intros x y [->|Hx]%elem_of_cons [->|Hy]%elem_of_cons Heq; eauto;
      exfalso; first [specialize (Hlt _ Hx)|specialize (Hlt _ Hy)]; lia.
Qed.

#[local] Instance sequence_total : Total (fun a b => Is_true (sequence_order a b)).
Proof. intros a b. unfold sequence_order. rewrite !Is_true_true, !Z.leb_le. lia. Qed.
#[local] Instance sequence_trans : Transitive (fun a b => Is_true (sequence_order a b)).
Proof. intros a b c. unfold sequence_order. rewrite !Is_true_true, !Z.leb_le. lia. Qed.

Lemma order_sorted es :
  StronglySorted (fun a b => Is_true (sequence_order a b)) es ->
  (forall x y, x ∈ es -> y ∈ es -> ev_sequence x = ev_sequence y -> x = y) ->
  order_by sequence_order es = es.
Proof.
  intros Hs Hu. unfold order_by. eapply StronglySorted_unique_strong; [|apply StronglySorted_merge_sort; apply _|done|].
  - intros x y Hx Hy Hxy Hyx. rewrite merge_sort_Permutation in Hx. apply Hu; [done|done|].
    unfold sequence_order in *. apply Is_true_true, Z.leb_le in Hxy, Hyx. lia.
  - apply merge_sort_Permutation.
Qed.

(** the events after a cursor are the rest of the log *)
Lemma select_after es z after :
  map ev_sequence es = seqZ z (Z.of_nat (length es)) ->
  select (fun e => (after <? ev_sequence e)%Z) es = drop (Z.to_nat (after - z + 1)) es.
Proof.
  revert z. induction es as [|e es IH]; intros z Hs; [by rewrite drop_nil|].
  cbn [map length] in Hs. rewrite seqZ_cons in Hs by lia.
  injection Hs as He Hs. replace (Z.pred (Z.of_nat (S (length es)))) with (Z.of_nat (length es)) in Hs by lia.
  specialize (IH _ Hs). unfold select in *. simpl. rewrite IH, He.
  destruct (Z.ltb_spec after z) as [Hlt|Hge].
  - replace (Z.to_nat (after - z + 1)) with 0%nat by lia.
    replace (Z.to_nat (after - Z.succ z + 1)) with 0%nat by lia. done.
  - replace (Z.to_nat (after - z + 1)) with (S (Z.to_nat (after - Z.succ z + 1))) by lia. done.
Qed.

Lemma list_events_spec P rid after limit r w :
  wf P (db w) -> db_runs (db w) !! rid = Some r ->
  list_events rid after limit w =
    (Ok (take (Z.to_nat (clamp 1 500 limit)) (drop (Z.to_nat (Z.max 0 after)) (events_of rid (db w)))), w).
Proof.
  intros Hwf Hr. destruct (run_events _ _ _ _ Hwf Hr) as (_ & Hh & _).
  unfold list_events, query, gets, limit_rows. do 3 f_equal.
  rewrite (select_and (fun e => str_eqb (ev_run_id e) rid)). fold (of_run rid). fold (events_of rid (db w)).
  pose proof (history_sequence _ _ _ Hh) as Hseq. destruct (sequence_sorted _ _ _ Hh) as [Hs Hu].
  rewrite (select_after _ _ _ Hseq). replace (Z.max 0 after - 1 + 1)%Z with (Z.max 0 after) by lia.
  apply order_sorted.
  - revert Hs. rewrite <-(take_drop (Z.to_nat (Z.max 0 after)) (events_of rid (db w))) at 1.
    by intros Hs%StronglySorted_app_1_r.
  - assert (Hdrop : forall x n, x ∈ drop n (events_of rid (db w)) -> x ∈ events_of rid (db w)).
    { intros x n Hx. rewrite <-(take_drop n (events_of rid (db w))). apply elem_of_app. by right. }
    intros x y Hx Hy. apply Hu; eauto.
Qed.

(** the pages a client that follows the cursor reads, [n] of them *)
Fixpoint read_pages (n : nat) (rid : string) (cursor limit : Z) : M World (list FactoryEvent) :=
  match n with
  | 0%nat => ret []
  | S n =>
      let* page := list_events rid cursor limit in
      match last page with
      | Some e => let* rest := read_pages n rid (ev_sequence e) limit in ret (page ++ rest)
      | None => ret []
      end
  end.

Lemma history_lookup P es m i e :
  history P es m -> es !! i = Some e -> ev_sequence e = (Z.of_nat i + 1)%Z.
Proof.
  intros Hh Hi. assert (map ev_sequence es !! i = Some (ev_sequence e)) as Hl.
  { change (map ev_sequence es) with (ev_sequence <$> es). by rewrite list_lookup_fmap, Hi. }
  rewrite (history_sequence _ _ _ Hh), lookup_seqZ in Hl. lia.
Qed.

Lemma read_pages_spec P rid limit r w n k :
  wf P (db w) -> db_runs (db w) !! rid = Some r ->
  (length (events_of rid (db w)) < n + k)%nat ->
  read_pages n rid (Z.of_nat k) limit w = (Ok (drop k (events_of rid (db w))), w).
Proof.
  intros Hwf Hr. destruct (run_events _ _ _ _ Hwf Hr) as (_ & Hh & _).
  revert k. induction n as [|n IH]; intros k Hn.
  { simpl. rewrite drop_ge by lia. done. }
  simpl. unfold bind at 1. erewrite list_events_spec by done.
  rewrite (Z.max_r 0) by lia. rewrite Nat2Z.id. set (es := events_of rid (db w)) in *.
  set (c := Z.to_nat (clamp 1 500 limit)).
  assert (1 <= c)%nat as Hc by (unfold c, clamp; lia).
  destruct (last (take c (drop k es))) as [e|] eqn:He; cycle 1.
  { apply last_None in He. assert (length (take c (drop k es)) = 0%nat) as Hz by by rewrite He.
    rewrite length_take, length_drop in Hz. by rewrite (drop_ge es k) by lia. }
  rewrite last_lookup in He. rewrite length_take in He.
  assert (drop k es <> []) as Hne by (intros Hnil; by rewrite Hnil, take_nil in He).
  assert (0 < length (drop k es))%nat as Hpos by (destruct (drop k es); [done|simpl; lia]).
  apply lookup_take_Some in He as [He _]. rewrite lookup_drop in He.
  rewrite (history_lookup _ _ _ _ _ Hh He).
  set (j := (c `min` length (drop k es))%nat) in *.
  replace (Z.of_nat (k + pred j) + 1)%Z with (Z.of_nat (k + j)) by lia.
  unfold bind. rewrite IH by lia. f_equal. f_equal. rewrite <-drop_drop.
  rewrite <-(take_drop j (drop k es)) at 3. f_equal. unfold j.
  destruct (Nat.min_spec c (length (drop k es))) as [[_ ->]|[? ->]]; [done|]. by rewrite !take_ge by lia.
Qed.

(** Pages cover the log: in tables a store execution can reach, a page of
    events is the stretch of the run's log after the cursor, at least one and at
    most 500 events long, and a client that starts at 0 and moves the cursor to the
    last event it saw reads every event of the run exactly once and in order, and
    then sees an empty page. *)
Theorem pages_cover_the_log rid limit r w :
  wf anything (db w) -> db_runs (db w) !! rid = Some r ->
  (forall after, list_events rid after limit w =
     (Ok (take (Z.to_nat (clamp 1 500 limit))
            (drop (Z.to_nat (Z.max 0 after)) (events_of rid (db w)))), w)) /\
  (forall n, (length (events_of rid (db w)) < n)%nat ->
     read_pages n rid 0 limit w = (Ok (events_of rid (db w)), w)).
Proof.
  intros Hwf Hr. split.
  - intros after. by eapply list_events_spec.
  - intros n Hn. change 0%Z with (Z.of_nat 0).
    rewrite (read_pages_spec anything rid limit r w n 0); [done|done|done|lia].
Qed.

(** ** Steering messages *)

Lemma str_take_nonempty n s : (1 <= n)%Z -> s <> "" -> (1 <= len (str_take n s))%Z.
Proof.
  intros Hn Hs. destruct s as [|c s]; [done|]. unfold len. simpl.
  assert ((n <=? 0)%Z = false) as -> by (apply Z.leb_gt; lia). simpl. lia.
Qed.

Lemma steering_bounded rows budget :
  let ms := steering_messages rows budget in
  Forall (fun m => (1 <= len m <= 2000)%Z) ms /\
  (fold_right (fun m acc => len m + 1 + acc)%Z 0%Z ms <= Z.max 0 (budget + 1))%Z.
Proof.
  revert budget. induction rows as [|e rows IH]; intros budget; simpl; [split; [done|lia]|].
  destruct (empty_str _) eqn:Ee; simpl; [apply IH|]. destruct (Z.leb_spec budget 0); [apply IH|].
  set (content := strip _) in *. set (m := str_take (Z.min 2000 budget) content).
  assert (1 <= len m <= Z.min 2000 budget)%Z as Hm.
  { apply empty_str_false in Ee. pose proof (str_take_length (Z.min 2000 budget) content) as Hle.
    pose proof (str_take_nonempty (Z.min 2000 budget) content) as Hge. fold m in Hle, Hge.
    specialize (Hge ltac:(lia) Ee). lia. }
  destruct (IH (budget - (len m + 1))%Z) as [IH1 IH2]. split; [constructor; [lia|done]|]. simpl. lia.
Qed.

Lemma sorted_reverse es :
  StronglySorted (fun a b => Is_true (sequence_order a b)) es ->
  StronglySorted (fun a b => Is_true (sequence_order b a)) (reverse es).
Proof.
  induction 1 as [|e es Hs IH Hall]; [constructor|]. rewrite reverse_cons. apply StronglySorted_app.
  split_and!; [|done|by repeat constructor].
  intros x y Hx ->%list_elem_of_singleton. rewrite reverse_Permutation in Hx. rewrite Forall_forall in Hall. by apply Hall.
Qed.

Lemma sorted_select (p : FactoryEvent -> bool) es :
  StronglySorted (fun a b => Is_true (sequence_order a b)) es ->
  StronglySorted (fun a b => Is_true (sequence_order a b)) (select p es).
Proof.
  unfold select. induction 1 as [|e es Hs IH Hall]; simpl; [constructor|]. destruct (p e); [|done].
  constructor; [done|]. rewrite Forall_forall in *. intros x Hx. apply Hall.
  by apply (elem_of_select p) in Hx as [? _].
Qed.

#[local] Instance sequence_total_desc : Total (fun a b => Is_true (sequence_order b a)).
Proof. intros a b. unfold sequence_order. rewrite !Is_true_true, !Z.leb_le. lia. Qed.
#[local] Instance sequence_trans_desc : Transitive (fun a b => Is_true (sequence_order b a)).
Proof. intros a b c. unfold sequence_order. rewrite !Is_true_true, !Z.leb_le. lia. Qed.

(** newest first *)
Lemma order_reverse es :
  StronglySorted (fun a b => Is_true (sequence_order a b)) es ->
  (forall x y, x ∈ es -> y ∈ es -> ev_sequence x = ev_sequence y -> x = y) ->
  order_by (fun a b => sequence_order b a) es = reverse es.
Proof.
  intros Hs Hu. unfold order_by.
  eapply StronglySorted_unique_strong;
    [|apply StronglySorted_merge_sort; apply _|by apply sorted_reverse|].
  - intros x y Hx Hy Hxy Hyx. rewrite merge_sort_Permutation in Hx. rewrite reverse_Permutation in Hy.
    apply Hu; [done|done|].
    unfold sequence_order in *. apply Is_true_true, Z.leb_le in Hxy, Hyx. lia.
  - rewrite merge_sort_Permutation. by rewrite reverse_Permutation.
Qed.

(** the last [n] elements *)
Definition latest {A} (n : Z) (l : list A) : list A := drop (length l - Z.to_nat n) l.

Lemma reverse_take_reverse {A} n (l : list A) : reverse (take (Z.to_nat n) (reverse l)) = latest n l.
Proof. unfold latest. by rewrite take_reverse, reverse_involutive. Qed.

Definition user_messages (rid : string) (d : Db) : list FactoryEvent :=
  select (fun e => str_eqb (ev_type e) "user.message") (events_of rid d).

(** Steering: a worker is told the latest user messages of the run, at most 50
    and in the order they were written, skipping blank ones; each is non-empty and
    at most 2000 characters, and joined by one separator they fit the caller's
    budget. *)
Theorem steering_is_recent_and_bounded rid limit max_chars r w :
  wf anything (db w) -> db_runs (db w) !! rid = Some r ->
  exists ms, list_user_steering rid limit max_chars w = (Ok ms, w) /\
    ms = steering_messages (latest (clamp 1 50 limit) (user_messages rid (db w)))
           (clamp 1 32000 max_chars) /\
    (length ms <= 50)%nat /\
    Forall (fun m => (1 <= len m <= 2000)%Z) ms /\
    (fold_right (fun m acc => len m + 1 + acc)%Z 0%Z ms <= clamp 1 32000 max_chars + 1)%Z.
Proof.
  intros Hwf Hr. destruct (run_events _ _ _ _ Hwf Hr) as (_ & Hh & _).
  destruct (sequence_sorted _ _ _ Hh) as [Hs Hu].
  assert (Hlen : forall rows b, (length (steering_messages rows b) <= length rows)%nat).
  { induction rows as [|e rows IH]; intros b; simpl; [lia|].
    destruct (_ || _); simpl; [specialize (IH b)|specialize (IH (b - (len (str_take (Z.min 2000 b)
      (strip (str_or_empty (payload_get "content" (ev_payload e))))) + 1))%Z)]; lia. }
  eexists. split; [|split; [reflexivity|]].
  - unfold list_user_steering, bind, query, gets, ret, limit_rows. do 3 f_equal.
    rewrite (select_and (fun e => str_eqb (ev_run_id e) rid)). fold (of_run rid).
    fold (events_of rid (db w)). fold (user_messages rid (db w)).
    rewrite order_reverse, reverse_take_reverse; [done|by apply sorted_select|].
    intros x y [Hx _]%elem_of_select [Hy _]%elem_of_select. by apply Hu.
  - match goal with |- context [steering_messages ?rows ?b] =>
      destruct (steering_bounded rows b) as [H1 H2]; specialize (Hlen rows b) end.
    split_and!; [|done|etrans; [exact H2|unfold clamp; lia]]. etrans; [exact Hlen|].
    unfold latest. rewrite length_drop. unfold clamp. lia.
Qed.
End Pages.

Theorem pages_cover_the_log_witness :
  @read_pages 40 "factory_0" 0 7 demo_judging = (Ok (events_of "factory_0" (db demo_judging)), demo_judging).
Proof.
  assert (exists r, db_runs (db demo_judging) !! "factory_0" = Some r) as [r Hr]
    by (eexists; vm_compute; reflexivity).
  destruct (@pages_cover_the_log demo_env "factory_0" 7 r demo_judging demo_judging_wf Hr) as [_ Hread].
  apply Hread. vm_compute. lia.
Defined.

Theorem steering_is_recent_and_bounded_witness :
  let w := @exec_all demo_env
    [UserEvent "factory_0" "user.message" (JObj [("content", JStr "  use the old parser ")]) (Some "m1") None]
    demo_judging in
  @list_user_steering demo_env "factory_0" 20 9 w = (Ok ["use the o"], w).
Proof.
  intros w.
  assert (@wf demo_env anything (db w)) as Hwf by
    (destruct (@exec_all_wf demo_env anything
       [UserEvent "factory_0" "user.message" (JObj [("content", JStr "  use the old parser ")]) (Some "m1") None]
       demo_judging) as [Hwf _]; [done|apply anything_goes|exact demo_judging_wf|exact Hwf]).
  assert (exists r, db_runs (db w) !! "factory_0" = Some r) as [r Hr]
    by (eexists; vm_compute; reflexivity).
  destruct (@steering_is_recent_and_bounded demo_env "factory_0" 20 9 r w Hwf Hr) as (ms & E & Hms & _).
  rewrite E, Hms. vm_compute. reflexivity.
Defined.
