(* ===== verification/FactoryFresh.v ===== *)
(** * Fresh identifiers

    Every event gets the next identifier the execution hands out, and time does not
    run backwards; hence a legal transition with a new key can be followed by
    another one. *)

From S2P Require Import Prelude PyStr Json Redaction FactoryDomain FactoryGates.
From S2P Require Import FactoryVictory Database CapabilityLifecycle FactoryStore FactoryHistory.
From S2P Require Import FactoryStoreFacts FactorySafety FactoryStoreSpec FactoryStoreQueries.

Section Minting.
Context `{Env}.

Definition event_id (n : nat) : string := "fev_" +:+ uuid_hex n.

Record minted (w w' : World) : Prop := {
  minted_uids : (uids w <= uids w')%nat;
  minted_ticks : (ticks w <= ticks w')%nat;
  minted_events e : e ∈ db_events (db w') ->
    e ∈ db_events (db w) \/ exists n, (uids w <= n < uids w')%nat /\ ev_id e = event_id n;
}.
Definition mints {A} (m : M World A) : Prop := forall w, minted w (m w).2.

#[export] Instance minted_preorder : PreOrder minted.
Proof.
  split.
  - intros w. split; [lia|lia|by left].
  - intros w1 w2 w3 [U1 T1 E1] [U2 T2 E2]. split; [lia|lia|].
    intros e [[?|(n & ? & ?)]%E1|(n & ? & ?)]%E2; [by left|right; exists n; split; [lia|done]..].
Qed.

(** a step that appends no event *)
Lemma minted_same w w' :
  uids w' = uids w -> (ticks w <= ticks w')%nat -> db_events (db w') = db_events (db w) -> minted w w'.
Proof. intros U T E. split; [lia|lia|]. rewrite E. by left. Qed.

Lemma mints_ret {A} (a : A) : mints (ret a).
Proof. by intros w. Qed.
Lemma mints_raise {A} e : mints (A:=A) (raise e).
Proof. by intros w. Qed.
Lemma mints_lift {A} (r : result A) : mints (lift r).
Proof. by intros w. Qed.
Lemma mints_query {A} (f : Db -> A) : mints (query f).
Proof. by intros w. Qed.
Lemma mints_now : mints _now_ms.
Proof. intros w. apply minted_same; simpl; [done|lia|done]. Qed.
Lemma mints_scalar {A} (l : list A) : mints (scalar_one_or_none l).
Proof. by destruct l as [|? []]; intros w. Qed.
Lemma mints_required {A} (x : option A) e : mints (required x e).
Proof. by destruct x; intros w. Qed.
Lemma mints_write f : (forall d, db_events (f d) = db_events d) -> mints (write f).
Proof. intros Hf w. by apply minted_same; [|simpl|apply Hf]. Qed.
Lemma mints_bind {A B} (m : M World A) (k : A -> M World B) :
  mints m -> (forall a, mints (k a)) -> mints (bind m k).
Proof.
  intros Hm Hk w. specialize (Hm w). unfold bind. destruct (m w) as [[a|e] w1]; [|done].
  transitivity w1; [done|apply Hk].
Qed.
Lemma mints_transaction {A} (m : M World A) : mints m -> mints (transaction m).
Proof.
  intros Hm w. specialize (Hm w). unfold transaction. destruct (m w) as [[a|e] w1]; [done|].
  destruct Hm as [U T _]. split; [done|done|by left].
Qed.

Lemma append_event_mints run cycle actor event_type from to key payload dg :
  mints (_append_event_in_transaction run cycle actor event_type from to key payload dg).
Proof.
  intros w. unfold _append_event_in_transaction, bind, lift, query, gets, _new_id, _now_ms.
  destruct (_canonical_payload payload) as [[sp cd]|e]; [|done].
  destruct (negb _); [done|]. cbn [db uids ticks].
  match goal with |- context [insert_event ?row ?w1] => set (e := row); set (w2 := w1) end.
  destruct (insert_event e w2) as [[u|x] w3] eqn:E; cbn [snd ret].
  - apply insert_event_Ok in E as [-> _]. split; [simpl; lia|simpl; lia|]. simpl. intros x.
    rewrite elem_of_app, list_elem_of_singleton. intros [?| ->]; [by left|]. right.
    exists (uids w). split; [lia|done].
  - assert (w3 = w2) as ->.
    { revert E. unfold insert_event, check, query, gets, bind, ret, raise, write, modify.
      repeat case_match; congruence. }
    split; [simpl; lia|simpl; lia|by left].
Qed.
End Minting.

Create HintDb mints.
#[export] Hint Resolve mints_ret mints_raise mints_lift mints_query mints_now mints_scalar
  mints_required append_event_mints : mints.
#[export] Hint Extern 1 (mints (write _)) => apply mints_write; done : mints.
Ltac mints_step :=
  match goal with
  | |- mints (bind _ _) => apply mints_bind; [|intros ?]
  | |- mints (transaction _) => apply mints_transaction
  | |- mints (if ?c then _ else _) => destruct c
  | |- mints (match ?o with Some _ => _ | None => _ end) => destruct o
  | |- mints (match ?p with (_, _) => _ end) => destruct p
  | |- mints _ => solve [auto with mints]
  end.

Section Transitions.
Context `{Env}.

Lemma revoke_task_authority_mints t o : mints (revoke_task_authority t o).
Proof.
  unfold revoke_task_authority, release_task_mounts, revoke_task_leases, retire_mounts, retire_leases.
  repeat mints_step.
Qed.
#[local] Hint Resolve revoke_task_authority_mints : mints.

Lemma transition_mints rid to actor reason key ids req : mints (transition rid to actor reason key ids req).
Proof.
  unfold transition, perform_transition, revoke_if, get_run_row, get_cycle_row, event_for_key, save_run, save_cycle.
  repeat mints_step.
Qed.

(** the identifiers to come are new *)
Definition fresh_ids (w : World) : Prop :=
  forall e n, e ∈ db_events (db w) -> (uids w <= n)%nat -> ev_id e <> event_id n.

Lemma fresh_ids_minted w w' :
  (forall m n, uuid_hex m = uuid_hex n -> m = n) -> fresh_ids w -> minted w w' -> fresh_ids w'.
Proof.
  intros Hinj Hf [U _ E] e n He Hn. destruct (E e He) as [Hold|(m & Hm & ->)].
  - apply Hf; [done|lia].
  - unfold event_id. intros Heq. apply (inj (String.app "fev_")) in Heq. apply Hinj in Heq. lia.
Qed.

Lemma prefixed_key c p k : is_space c = false -> blank (String c p +:+ k) = false.
Proof. intros Hc. unfold blank, strip. simpl. rewrite Hc. simpl. by rewrite Hc. Qed.

(** the run after a transition that was performed *)
Lemma performed_lookup w rid to actor reason key dg req r r' d' :
  run_id r = rid -> performed w rid to actor reason key dg req r r' d' ->
  exists res, next_resumable (run_state r) to (run_resumable_state r) req = Ok res /\
    db_runs d' !! rid = Some r' /\ machine_of r' = (to, res) /\
    run_id r' = rid /\ run_user_id r' = run_user_id r.
Proof.
  intros Hid [_ (res & Hres & ->) Hruns _ _ _]. exists res.
  destruct (moved_run_fields r to res reason (clock (ticks w))) as ((Hi & Hu & _) & Hm & _).
  split_and!; [done|by rewrite Hruns, lookup_insert_eq|done|congruence|congruence].
Qed.

(** a legal transition with a new key *)
Lemma transition_moves rid to actor reason key ids req r pd w :
  wf anything (db w) -> fresh_ids w -> blank rid = false -> blank key = false ->
  db_runs (db w) !! rid = Some r ->
  _canonical_payload (transition_intent to actor reason ids req) = Ok pd ->
  (forall e, e ∈ db_events (db w) -> ev_run_id e = rid -> ev_key e <> Some key) ->
  ~ terminal (run_state r) ->
  legal_transition (run_state r) to actor
    (effective_resumable (run_state r) (run_resumable_state r) req) false ->
  (to = RECOVERING -> run_state r <> MISSION -> req = None \/ req = Some (run_state r)) ->
  exists r' w' dg, transition rid to actor reason key ids req w = (Ok r', w') /\
    wf anything (db w') /\ minted w w' /\ performed w rid to actor reason key dg req r r' (db w').
Proof.
  intros Hwf Hids Hb Hbk Hr Hpd Hkey Ht Hl Hreq.
  destruct (transition_returns rid to actor reason key ids req r pd w Hwf Hb Hbk Hr Hpd Hkey)
    as (r' & w' & E).
  { intros e He. by apply Hids. }
  { exact Ht. }
  { exact Hl. }
  { exact Hreq. }
  pose proof (transition_mints rid to actor reason key ids req w) as Hmint.
  pose proof (transition_keeps anything (db w) rid to actor reason key ids req I w (wf_sound _ _ Hwf))
    as [Hwf' _].
  rewrite E in Hmint, Hwf'. exists r', w'.
  destruct (transition_Ok _ _ _ _ _ _ _ _ _ _ Hwf Hb E) as (r0 & dg & Hr0 & _ & Hout).
  rewrite Hr in Hr0. injection Hr0 as <-. exists dg. split; [exact E|]. split; [exact Hwf'|].
  split; [exact Hmint|].
  destruct Hout as [[_ [(e & He & Her & Hek & _) _ _]]|[_ Hperf]]; [by destruct (Hkey e)|exact Hperf].
Qed.

Lemma fresh_ids_bounded w :
  (forall m n, uuid_hex m = uuid_hex n -> m = n) ->
  forallb (fun e => existsb (fun n => str_eqb (ev_id e) (event_id n)) (seq 0 (uids w)))
    (db_events (db w)) = true -> fresh_ids w.
Proof.
  intros Hinj Hall e n He Hn Heq. apply (forallb_elem_of _ _ _ Hall) in He.
  apply existsb_elem in He as (m & Hm & Hid). apply str_eqb_true in Hid. rewrite Hid in Heq.
  unfold event_id in Heq. apply (inj (String.app "fev_")) in Heq. apply Hinj in Heq.
  apply list_elem_of_In, in_seq in Hm. lia.
Qed.
End Transitions.
