(* ===== verification/FactoryRuntime.v ===== *)
(** * Recovery after a restart

    Models [cptr/services/factory_runtime.py]: at start-up the server claims every
    run that was interrupted in an active phase and moves it to RECOVERING, keeping
    the phase it was in, never guessing that the interrupted work succeeded. *)

From S2P Require Import Prelude PyStr Json Redaction FactoryDomain FactoryGates.
From S2P Require Import FactoryVictory Database CapabilityLifecycle FactoryStore FactoryHistory.
From S2P Require Import FactoryStoreFacts FactorySafety FactoryStoreSpec FactoryStoreQueries FactoryFresh.
From Stdlib Require Import Ascii.

Definition _WAITING_STATES : list FactoryState := [RECOVERING; PAUSED; APPROVAL_REQUIRED].
Definition in_waiting (s : FactoryState) : bool := existsb (fun x => bool_decide (x = s)) _WAITING_STATES.
(** [state in _WAITING_STATES or is_terminal_factory_state(state)] *)
Definition at_rest (s : FactoryState) : bool := in_waiting s || is_terminal_factory_state s.

Section Runtime.
Context `{Env}.
Context (owner_token : string) (lease_ms : Z).

(** [FactoryRuntime.__init__] *)
Definition runtime_init (token : string) (lease : Z) : result (string * Z) :=
  let token := strip token in
  if empty_str token then Err (ValueError "factory runtime owner token must not be blank")
  else if (lease <=? 0)%Z then Err (ValueError "factory runtime lease duration must be positive")
  else Ok (token, lease).

(** [f"restart-recovery:{run.id}:{run.state}:{run.updated_at}"] *)
Definition recovery_key (run : FactoryRun) : string :=
  "restart-recovery:" +:+ run_id run +:+ ":" +:+ state_value (run_state run) +:+ ":"
    +:+ str_of_int (run_updated_at run).

Definition recovery_reason : string :=
  "server restart requires execution reconciliation before continuation".

(** [reconcile_run] *)
Definition reconcile_run (rid : string) (idempotency_key : option string) : M World FactoryRun :=
  let* found := get_run rid None in
  let* run := required found (KeyError "factory run not found") in
  let state := run_state run in
  if at_rest state then ret run
  else
    let resumable := if bool_decide (state = MISSION) then None else Some state in
    transition rid RECOVERING SYSTEM recovery_reason
      (if has_key idempotency_key then default "" idempotency_key else recovery_key run) [] resumable.

(** the body of the loop of [recover_active_runs] for a row that was observed; its
    identifier if the run was recovered *)
Definition recover_claimed (observed : FactoryRun) : M World (option string) :=
  let* current := get_run (run_id observed) None in
  match current with
  | None => ret None
  | Some current =>
      if negb (bool_decide (run_state current = run_state observed)) then ret None
      else if at_rest (run_state current) then ret None
      else
        let* _ := reconcile_run (run_id observed) (Some (recovery_key observed)) in
        ret (Some (run_id observed))
  end.
Definition recover_one (observed : FactoryRun) : M World (option string) :=
  if in_waiting (run_state observed) then ret None
  else if is_terminal_factory_state (run_state observed) then ret None
  else
    let* now := _now_ms in
    let* claimed := claim_run (run_id observed) owner_token now lease_ms in
    if negb claimed then ret None
    else finally (recover_claimed observed)
           (let* _ := release_run (run_id observed) owner_token in ret tt).

(** [recover_active_runs] *)
Definition recover_active_runs : M World (list string) :=
  let* observed := list_recoverable in
  let* recovered := for_each recover_one observed in
  ret (omap id recovered).
End Runtime.

(** ** Proofs *)

(** *** Every store invariant is kept *)

Section Keeping.
Context `{Env} (P : FactoryState -> option FactoryState -> Prop) (I : Db -> Prop).
Context (SI : StoreInvariant P I) (HP : forall s, P RECOVERING (Some s)).
Context (owner_token : string) (lease_ms : Z).

Lemma keeps_finally {A} (m : M World A) (f : M World unit) : keeps I m -> keeps I f -> keeps I (finally m f).
Proof.
  intros Hm Hf w Hw. specialize (Hm w Hw). unfold finally. destruct (m w) as [r w1]. cbn [snd] in Hm.
  specialize (Hf w1 Hm). by destruct (f w1) as [[]].
Qed.

Lemma keeps_for_each {A B} (f : A -> M World B) l : (forall x, keeps I (f x)) -> keeps I (for_each f l).
Proof. intros Hf. induction l as [|x l IH]; simpl; repeat keeps_step. Qed.

Lemma reconcile_run_keeps rid key : keeps I (reconcile_run rid key).
Proof.
  unfold reconcile_run, get_run, get_run_row. repeat keeps_step.
  destruct (bool_decide _); [auto with keeps|].
  apply keeps_void, (inv_op (Transition _ _ _ _ _ _ _)), HP.
Qed.
#[local] Hint Resolve reconcile_run_keeps keeps_now : keeps.

Lemma inv_recover_claimed observed : keeps I (recover_claimed observed).
Proof. unfold recover_claimed, get_run, get_run_row. repeat keeps_step. Qed.
#[local] Hint Resolve inv_recover_claimed : keeps.

Lemma recover_one_keeps observed : keeps I (recover_one owner_token lease_ms observed).
Proof.
  unfold recover_one. repeat keeps_step. apply keeps_finally; repeat keeps_step.
Qed.

Lemma recover_active_runs_keeps : keeps I (recover_active_runs owner_token lease_ms).
Proof.
  unfold recover_active_runs. apply keeps_bind; [apply keeps_query|]. intros rows.
  apply keeps_bind; [apply keeps_for_each, recover_one_keeps|intros; apply keeps_ret].
Qed.
End Keeping.

Lemma recover_claimed_keeps `{Env} P d0 observed :
  (forall s, P s None) -> (forall s, P RECOVERING (Some s)) -> keeps (sound P d0) (recover_claimed observed).
Proof. intros HP HR. by apply (inv_recover_claimed P); [apply sound_invariant|]. Qed.

(** *** What happens to a run *)

Section Recovering.
Context `{Env} (owner_token : string) (lease_ms : Z).

(** the machine of a run that was recovered *)
Definition recovered (m : machine) : machine :=
  (RECOVERING, if bool_decide (m.1 = MISSION) then None else Some m.1).

Lemma at_rest_false s : at_rest s = false -> ~ terminal s /\ s <> RECOVERING /\ ~ waiting s.
Proof.
  unfold at_rest, in_waiting, _WAITING_STATES. cbn [existsb]. rewrite !orb_false_iff, !bool_decide_eq_false.
  intros [(? & ? & ? & _) Ht]. unfold terminal, waiting. rewrite Ht. intuition congruence.
Qed.

Lemma canonical_recovery req : exists pd,
  _canonical_payload (transition_intent RECOVERING SYSTEM recovery_reason [] req) = Ok pd.
Proof. destruct req as [[]|]; eexists; vm_compute; reflexivity. Qed.

Lemma recovery_key_not_empty run : has_key (Some (recovery_key run)) = true.
Proof. done. Qed.

(** the write of a claim, and of a release *)
Definition claimed_run (now : Z) (r : FactoryRun) : FactoryRun :=
  set_run_updated_at now (set_run_lease_expires_at (Some (now + lease_ms)%Z)
    (set_run_lease_token (Some owner_token) r)).
Definition released_run (now : Z) (r : FactoryRun) : FactoryRun :=
  set_run_updated_at now (set_run_lease_expires_at None (set_run_lease_token None r)).

Context (Htoken : owner_token <> "") (Hlease : (0 < lease_ms)%Z).

Lemma claim_spec rid now w :
  keyed (db_runs (db w)) ->
  claim_run rid owner_token now lease_ms w =
  match db_runs (db w) !! rid with
  | Some r => if claimable owner_token now r
              then (Ok true, set_db (fun d => set_db_runs (<[rid := claimed_run now r]> (db_runs d)) d) w)
              else (Ok false, w)
  | None => (Ok false, w)
  end.
Proof.
  intros Hk. unfold claim_run. rewrite (proj2 (empty_str_false owner_token) Htoken).
  rewrite (proj2 (Z.leb_gt _ _) Hlease). by apply update_run_spec.
Qed.

Lemma release_spec rid r w :
  keyed (db_runs (db w)) -> db_runs (db w) !! rid = Some r -> run_lease_token r = Some owner_token ->
  release_run rid owner_token w =
  (Ok true, set_db (fun d => set_db_runs (<[rid := released_run (clock (ticks w)) r]> (db_runs d)) d)
              {| db := db w; ticks := S (ticks w); uids := uids w |}).
Proof.
  intros Hk Hr Ht. unfold release_run, bind, _now_ms. rewrite update_run_spec by done. cbn [db].
  rewrite Hr, Ht. unfold opt_eqb. by rewrite bool_decide_eq_true_2.
Qed.

Lemma wf_keyed P d : wf P d -> keyed (db_runs d).
Proof. intros Hwf i r. apply (run_keyed _ _ Hwf). Qed.

Lemma moved_run_lease r to res reason now :
  run_lease_token (moved_run r to res reason now) = run_lease_token r.
Proof. unfold moved_run. by destruct (is_terminal_factory_state to). Qed.

(** the recovery of a claimed run *)
Lemma recover_claimed_moves r c w :
  wf anything (db w) -> fresh_ids w -> db_runs (db w) !! run_id r = Some c ->
  run_id c = run_id r -> machine_of c = machine_of r ->
  blank (run_id r) = false -> at_rest (run_state r) = false ->
  (forall e, e ∈ db_events (db w) -> ev_run_id e = run_id r -> ev_key e <> Some (recovery_key r)) ->
  exists w' r' dg, recover_claimed r w = (Ok (Some (run_id r)), w') /\ wf anything (db w') /\ minted w w' /\
    performed w (run_id r) RECOVERING SYSTEM recovery_reason (recovery_key r) dg
      (if bool_decide (run_state r = MISSION) then None else Some (run_state r)) c r' (db w').
Proof.
  intros Hwf Hids Hc Hid Hm Hb Hrest Hkey. injection Hm as Hs Hres.
  destruct (at_rest_false _ Hrest) as (Ht & Hnr & Hnw).
  set (req := if bool_decide (run_state r = MISSION) then None else Some (run_state r)).
  destruct (canonical_recovery req) as [pd Hpd].
  destruct (transition_moves (run_id r) RECOVERING SYSTEM recovery_reason (recovery_key r) [] req c pd w
    Hwf Hids Hb (prefixed_key "r"%char _ _ eq_refl) Hc Hpd Hkey) as (r' & w' & dg & Et & Hwf' & Hmint & Hp).
  { by rewrite Hs. }
  { by apply legal_recover; rewrite ?Hs. }
  { intros _ _. unfold req. rewrite Hs. case_bool_decide; auto. }
  exists w', r', dg. split; [|split; [exact Hwf'|split; [exact Hmint|exact Hp]]].
  unfold recover_claimed, reconcile_run, get_run, get_run_row, query, gets.
  unfold bind, required, ret. rewrite Hc, Hs, bool_decide_eq_true_2 by done. cbn [negb].
  rewrite Hrest, Hc, Hs, Hrest, recovery_key_not_empty. fold req.
  change (default "" (Some (recovery_key r))) with (recovery_key r). by rewrite Et.
Qed.

(** a run of tables nobody else works on is claimed, moved and released *)
Lemma recover_one_recovers r w :
  wf anything (db w) -> fresh_ids w -> db_runs (db w) !! run_id r = Some r ->
  blank (run_id r) = false -> at_rest (run_state r) = false ->
  claimable owner_token (clock (ticks w)) r = true ->
  (forall e, e ∈ db_events (db w) -> ev_run_id e = run_id r -> ev_key e <> Some (recovery_key r)) ->
  exists w' r', recover_one owner_token lease_ms r w = (Ok (Some (run_id r)), w') /\
    wf anything (db w') /\ minted w w' /\ db_runs (db w') = <[run_id r := r']> (db_runs (db w)) /\
    machine_of r' = recovered (machine_of r) /\ run_lease_token r' = None /\
    (forall e, e ∈ db_events (db w') -> e ∈ db_events (db w) \/ ev_run_id e = run_id r).
Proof.
  intros Hwf Hids Hr Hb Hrest Hclaim Hkey.
  set (w1 := {| db := db w; ticks := S (ticks w); uids := uids w |}).
  set (c := claimed_run (clock (ticks w)) r).
  set (w2 := set_db (fun d => set_db_runs (<[run_id r := c]> (db_runs d)) d) w1).
  assert (Ec : claim_run (run_id r) owner_token (clock (ticks w)) lease_ms w1 = (Ok true, w2)).
  { rewrite claim_spec by (by apply (wf_keyed anything)). cbn [db w1]. by rewrite Hr, Hclaim. }
  assert (Hmint2 : minted w w2) by (apply minted_same; simpl; [done|lia|done]).
  assert (Hwf2 : wf anything (db w2)).
  { pose proof (claim_run_keeps anything (db w) (run_id r) owner_token (clock (ticks w)) lease_ms w1
      (wf_sound _ _ Hwf)) as Hs. rewrite Ec in Hs. exact (sound_wf _ _ _ Hs). }
  assert (Hids2 : fresh_ids w2) by (intros e n He Hn; by apply Hids).
  destruct (recover_claimed_moves r c w2 Hwf2 Hids2 (lookup_insert_eq _ _ _) eq_refl eq_refl Hb Hrest Hkey)
    as (w3 & r3 & dg & Em & Hwf3 & Hmint3 & Hp).
  destruct (performed_lookup _ _ _ _ _ _ _ _ c _ _ eq_refl Hp) as (res & Hres & Hr3 & Hm & _).
  assert (Htok3 : run_lease_token r3 = Some owner_token).
  { destruct (perf_run _ _ _ _ _ _ _ _ _ _ _ Hp) as (res' & _ & ->). apply moved_run_lease. }
  pose proof (release_spec (run_id r) _ w3 (wf_keyed _ _ Hwf3) Hr3 Htok3) as Er.
  assert (Hwf4 : wf anything (db (release_run (run_id r) owner_token w3).2)).
  { exact (sound_wf _ _ _ (release_run_keeps anything (db w3) (run_id r) owner_token w3 (wf_sound _ _ Hwf3))). }
  rewrite Er in Hwf4. eexists _, (released_run (clock (ticks w3)) r3). split.
  { unfold recover_one. apply orb_false_iff in Hrest as [Hw Ht]. rewrite Hw, Ht.
    unfold bind at 1, _now_ms. fold w1. unfold bind at 1. rewrite Ec. cbn [negb].
    unfold finally. rewrite Em. unfold bind at 1. rewrite Er. reflexivity. }
  split; [exact Hwf4|]. split; [|split; [|split; [|split]]].
  - transitivity w2; [done|]. transitivity w3; [done|]. apply minted_same; simpl; [done|lia|done].
  - cbn. rewrite (perf_runs _ _ _ _ _ _ _ _ _ _ _ Hp). cbn. by rewrite !insert_insert_eq.
  - change (machine_of r3 = recovered (machine_of r)). rewrite Hm. unfold recovered, machine_of. cbn [fst].
    f_equal. unfold next_resumable in Hres. rewrite bool_decide_eq_true_2 in Hres by done. cbn in Hres.
    case_bool_decide; [congruence|]. rewrite (bool_decide_eq_true_2 (Some _ = Some _)) in Hres by done.
    rewrite andb_false_r in Hres. congruence.
  - done.
  - destruct (perf_event _ _ _ _ _ _ _ _ _ _ _ Hp) as (e & He & Her & _). cbn. rewrite He. intros x.
    rewrite elem_of_app, list_elem_of_singleton. intros [?| ->]; [by left|by right].
Qed.

(** what a run in an active phase must satisfy for nobody to be in the way *)
Record recoverable (w : World) (r : FactoryRun) : Prop := {
  rc_named : blank (run_id r) = false;
  rc_free n : (ticks w <= n)%nat -> claimable owner_token (clock n) r = true;
  rc_key e : e ∈ db_events (db w) -> ev_run_id e = run_id r -> ev_key e <> Some (recovery_key r);
}.

(** the run after a scan *)
Definition scanned (r r' : FactoryRun) : Prop :=
  if at_rest (run_state r) then r' = r
  else machine_of r' = recovered (machine_of r) /\ run_lease_token r' = None.

Context (Hinj : forall m n, uuid_hex m = uuid_hex n -> m = n).

Lemma recover_one_scans r w :
  wf anything (db w) -> fresh_ids w -> db_runs (db w) !! run_id r = Some r ->
  (at_rest (run_state r) = false -> recoverable w r) ->
  exists y w' r', recover_one owner_token lease_ms r w = (Ok y, w') /\
    y = (if at_rest (run_state r) then None else Some (run_id r)) /\
    wf anything (db w') /\ fresh_ids w' /\ (ticks w <= ticks w')%nat /\
    db_runs (db w') = <[run_id r := r']> (db_runs (db w)) /\ scanned r r' /\
    (forall e, e ∈ db_events (db w') -> e ∈ db_events (db w) \/ ev_run_id e = run_id r).
Proof.
  intros Hwf Hids Hr Hrec. unfold scanned. destruct (at_rest (run_state r)) eqn:Hrest.
  - exists None, w, r. split; [|split_and!; try done].
    + unfold recover_one. apply orb_true_iff in Hrest.
      destruct (in_waiting (run_state r)); [done|]. by destruct Hrest as [?| ->].
    + by rewrite insert_id.
    + by left.
  - destruct (Hrec eq_refl) as [Hb Hfree Hkey].
    destruct (recover_one_recovers r w Hwf Hids Hr Hb Hrest (Hfree _ (le_n _)) Hkey)
      as (w' & r' & E & Hwf' & Hmint & Hruns & Hm & Ht & He).
    exists (Some (run_id r)), w', r'. split; [exact E|]. split; [done|]. split; [exact Hwf'|].
    split; [by eapply fresh_ids_minted|]. split; [apply (minted_ticks _ _ Hmint)|]. done.
Qed.

Lemma recover_list l w :
  NoDup (map run_id l) -> wf anything (db w) -> fresh_ids w ->
  (forall r, r ∈ l -> db_runs (db w) !! run_id r = Some r) ->
  (forall r, r ∈ l -> at_rest (run_state r) = false -> recoverable w r) ->
  exists ys w', for_each (recover_one owner_token lease_ms) l w = (Ok ys, w') /\
    omap id ys = map run_id (select (fun r => negb (at_rest (run_state r))) l) /\
    (forall i, i ∉ map run_id l -> db_runs (db w') !! i = db_runs (db w) !! i) /\
    (forall r, r ∈ l -> exists r', db_runs (db w') !! run_id r = Some r' /\ scanned r r').
Proof.
  revert w. induction l as [|r l IH]; intros w Hnd Hwf Hids Hst Hrec.
  { exists [], w. split_and!; try done. by intros r ?%elem_of_nil. }
  cbn [map] in Hnd. apply NoDup_cons in Hnd as [Hnew Hnd].
  destruct (recover_one_scans r w Hwf Hids) as (y & w1 & r' & E & Hy & Hwf1 & Hids1 & Hticks & Hruns & Hscan & He);
    [apply Hst; by left|apply Hrec; by left|].
  assert (Hother : forall x, x ∈ l -> run_id x <> run_id r).
  { intros x Hx Heq. apply Hnew. rewrite <-Heq. by apply (list_elem_of_fmap_2 run_id). }
  destruct (IH w1 Hnd Hwf1 Hids1) as (ys & w2 & E2 & Hys & Hrest & Hl).
  { intros x Hx. rewrite Hruns, lookup_insert_ne by (by apply not_eq_sym, Hother). apply Hst. by right. }
  { intros x Hx Hact. destruct (Hrec x) as [R1 R2 R3]; [by right|done|]. split; [done|intros; apply R2; lia|].
    intros e [Hold|Hnr]%He Hrun; [by apply R3|]. exfalso. apply (Hother x Hx). congruence. }
  exists (y :: ys), w2. split; [cbn [for_each]; unfold bind; by rewrite E, E2|]. split; [|split].
  - unfold select in *. cbn [omap list_omap List.filter]. rewrite Hy.
    destruct (at_rest (run_state r)); cbn [negb id map]; [exact Hys|]. f_equal. exact Hys.
  - cbn [map]. intros i [Hi Hl']%not_elem_of_cons. rewrite Hrest by done. by rewrite Hruns, lookup_insert_ne.
  - intros x [-> |Hx]%elem_of_cons; [|by apply Hl]. exists r'. split; [|done].
    rewrite Hrest by done. by rewrite Hruns, lookup_insert_eq.
Qed.

Lemma order_by_ids (d : Db) (le : FactoryRun -> FactoryRun -> bool) (p : FactoryRun -> bool) :
  keyed (db_runs d) -> NoDup (map run_id (order_by le (select p (rows_of (db_runs d))))).
Proof.
  intros Hk. unfold order_by.
  assert (Hperm : map run_id (merge_sort (fun a b => Is_true (le a b)) (select p (rows_of (db_runs d)))) ≡ₚ
    map run_id (select p (rows_of (db_runs d)))) by (apply fmap_Permutation, merge_sort_Permutation).
  rewrite Hperm. clear Hperm. assert (Hall : NoDup (map run_id (rows_of (db_runs d)))).
  { unfold rows_of. assert (map run_id (map_to_list (db_runs d)).*2 = (map_to_list (db_runs d)).*1) as ->.
    { change (map run_id (map_to_list (db_runs d)).*2) with (run_id <$> (map_to_list (db_runs d)).*2).
      rewrite <-list_fmap_compose. apply list_fmap_ext. intros i [j r] Hj. cbn.
      cbn. apply list_elem_of_lookup_2, elem_of_map_to_list, Hk in Hj. exact Hj. }
    apply NoDup_fst_map_to_list. }
  induction (rows_of (db_runs d)) as [|r rows IH]; [constructor|].
  cbn [map] in Hall. apply NoDup_cons in Hall as [Hnew Hall]. unfold select in *. cbn [List.filter].
  destruct (p r); [|by apply IH]. cbn [map]. apply NoDup_cons. split; [|by apply IH].
  intros (x & Hx & Hin)%list_elem_of_fmap. apply Hnew. rewrite Hx. apply list_elem_of_fmap_2.
  apply list_elem_of_In, filter_In in Hin as [Hin _]. by apply list_elem_of_In.
Qed.

(** C40. A restart leaves no run behind: when no other worker holds a live lease and
    the keys of the scan are new, [recover_active_runs] returns, reports exactly
    the runs that were interrupted in an active phase, moves each of them to
    RECOVERING with the phase it was in as the state to come back to (a run that
    had not left MISSION has none), lets go of its leases, and leaves every waiting,
    recovering or finished run as it was. *)
Theorem restart_recovers_every_run w :
  wf anything (db w) -> fresh_ids w ->
  (forall i r, db_runs (db w) !! i = Some r -> at_rest (run_state r) = false -> recoverable w r) ->
  exists ids w', recover_active_runs owner_token lease_ms w = (Ok ids, w') /\
    (forall i, i ∈ ids <-> exists r, db_runs (db w) !! i = Some r /\ at_rest (run_state r) = false) /\
    (forall i r, db_runs (db w) !! i = Some r -> exists r', db_runs (db w') !! i = Some r' /\ scanned r r').
Proof.
  intros Hwf Hids Hrec.
  set (l := order_by (by_time_and_id run_updated_at run_id)
    (select (fun r => negb (is_terminal_factory_state (run_state r))) (rows_of (db_runs (db w))))).
  assert (Hin : forall r, r ∈ l <-> db_runs (db w) !! run_id r = Some r /\ ~ terminal (run_state r)).
  { intros r. unfold l. rewrite order_by_in, elem_of_select, elem_of_rows, negb_true_iff. unfold terminal.
    rewrite not_true_iff_false. split; [|by intros [? ?]; split; [eexists|]].
    intros [[i Hi] Ht]. by rewrite (run_keyed _ _ Hwf _ _ Hi). }
  destruct (recover_list l w) as (ys & w' & E & Hys & Hrest & Hl).
  - apply order_by_ids. by apply (wf_keyed anything).
  - done.
  - done.
  - by intros r [Hr _]%Hin.
  - intros r [Hr _]%Hin. by apply (Hrec (run_id r)).
  - exists (omap id ys), w'. split.
    { unfold recover_active_runs, list_recoverable, query, gets. unfold bind at 1. fold l.
      unfold bind. by rewrite E. }
    split.
    + intros i. rewrite Hys, list_elem_of_fmap. setoid_rewrite elem_of_select.
      setoid_rewrite negb_true_iff. split.
      * intros (r & -> & [Hr _]%Hin & Hact). by exists r.
      * intros (r & Hr & Hact). pose proof (run_keyed _ _ Hwf _ _ Hr) as <-. exists r. split; [done|].
        split; [|done]. apply Hin. split; [done|]. by apply at_rest_false.
    + intros i r Hr. pose proof (run_keyed _ _ Hwf _ _ Hr) as <-.
      destruct (decide (is_terminal_factory_state (run_state r) = true)) as [Ht|Ht].
      * exists r. split; [|by unfold scanned, at_rest; rewrite Ht, orb_true_r].
        rewrite Hrest; [done|]. intros (x & Hid & [Hx Hxt]%Hin)%list_elem_of_fmap.
        rewrite <-Hid in Hx. by assert (x = r) as -> by congruence.
      * apply Hl, Hin. by split.
Qed.

(** a release changes nothing but the lease *)
Lemma release_machines rid w :
  keyed (db_runs (db w)) ->
  let d' := db ((let* _ := release_run rid owner_token in ret tt) w).2 in
  db_leases d' = db_leases (db w) /\ db_mounts d' = db_mounts (db w) /\
  forall i r, db_runs (db w) !! i = Some r -> exists r', db_runs d' !! i = Some r' /\ machine_of r' = machine_of r.
Proof.
  intros Hk. unfold release_run, bind, _now_ms. cbv zeta. rewrite update_run_spec by done. cbn [db].
  destruct (db_runs (db w) !! rid) as [r0|] eqn:E0; [destruct (opt_eqb _ _)|]; cbn; (split; [done|]; split; [done|]);
    intros i r Hr; [|by exists r..].
  destruct (decide (rid = i)) as [->|Hne].
  - eexists. split; [apply lookup_insert_eq|]. by assert (r0 = r) as -> by congruence.
  - exists r. by rewrite lookup_insert_ne.
Qed.

(** what the recovery of a run may do to the machines of the tables *)
Definition no_guess (observed : FactoryRun) (d d' : Db) : Prop :=
  forall i r, db_runs d !! i = Some r -> exists r', db_runs d' !! i = Some r' /\
    (machine_of r' = machine_of r \/
     (i = run_id observed /\ run_state r = run_state observed /\ at_rest (run_state r) = false /\
      machine_of r' = recovered (machine_of r) /\ zero_authority d' (strip i))).

Lemma no_guess_refl observed d : no_guess observed d d.
Proof. intros i r Hr. exists r. auto. Qed.

Lemma recover_claimed_guess observed w :
  wf anything (db w) -> blank (run_id observed) = false ->
  no_guess observed (db w) (db (recover_claimed observed w).2).
Proof.
  intros Hwf Hb. unfold recover_claimed, reconcile_run, get_run, get_run_row, query, gets.
  unfold bind, required, ret. destruct (db_runs (db w) !! run_id observed) as [c|] eqn:Ec; [|apply no_guess_refl].
  destruct (bool_decide (run_state c = run_state observed)) eqn:Es; cbn [negb]; [|apply no_guess_refl].
  apply bool_decide_eq_true in Es.
  destruct (at_rest (run_state c)) eqn:Hrest; [apply no_guess_refl|]. rewrite Ec. cbv beta iota zeta. rewrite ?Hrest.
  rewrite recovery_key_not_empty. change (default "" (Some (recovery_key observed))) with (recovery_key observed).
  set (req := if bool_decide (run_state c = MISSION) then None else Some (run_state c)).
  destruct (transition (run_id observed) RECOVERING SYSTEM recovery_reason (recovery_key observed) [] req w)
    as [[r'|e] w'] eqn:Et; cbn [snd].
  - destruct (transition_Ok _ _ _ _ _ _ _ _ _ _ Hwf Hb Et) as (r0 & dg & Hr0 & _ & Hout).
    assert (r0 = c) as -> by congruence. destruct Hout as [[_ Hrep]|[_ Hp]].
    + destruct (rep_same _ _ _ _ _ _ Hrep) as (Hruns & _). intros i r Hr. exists r. rewrite Hruns. auto.
    + pose proof (run_keyed _ _ Hwf _ _ Ec) as Hid.
      destruct (performed_lookup _ _ _ _ _ _ _ _ _ _ _ Hid Hp) as (res & Hres & Hl & Hm & _).
      intros i r Hr. destruct (decide (run_id observed = i)) as [<-|Hne].
      * assert (r = c) as -> by congruence. exists r'. split; [done|]. right. split_and!; [done..| |].
        -- rewrite Hm. unfold recovered, machine_of. cbn [fst]. f_equal.
           unfold next_resumable in Hres. rewrite bool_decide_eq_true_2 in Hres by done. unfold req in Hres.
           case_bool_decide; [congruence|]. rewrite (bool_decide_eq_true_2 (Some _ = Some _)) in Hres by done.
           rewrite andb_false_r in Hres. congruence.
        -- by apply (perf_authority _ _ _ _ _ _ _ _ _ _ _ Hp).
      * exists r. rewrite (perf_runs _ _ _ _ _ _ _ _ _ _ _ Hp), lookup_insert_ne by done. auto.
  - rewrite (transition_Err _ _ _ _ _ _ _ _ _ _ Hb Et). apply no_guess_refl.
Qed.

(** Recovery never guesses that interrupted work succeeded: whatever row was
    observed, however stale, and whatever happened since, recovering it changes the
    state of no run, except that the observed run, if it is still in the active
    phase it was seen in, may now be RECOVERING with that very phase as the state to
    come back to, and then its task holds no lease and no mount. *)
Theorem recovery_never_guesses observed w :
  wf anything (db w) -> blank (run_id observed) = false ->
  no_guess observed (db w) (db (recover_one owner_token lease_ms observed w).2).
Proof.
  intros Hwf Hb. unfold recover_one.
  destruct (in_waiting _); [apply no_guess_refl|]. destruct (is_terminal_factory_state _); [apply no_guess_refl|].
  unfold bind at 1, _now_ms. unfold bind at 1. rewrite claim_spec by (by apply (wf_keyed anything)). cbn [db].
  destruct (db_runs (db w) !! run_id observed) as [r0|] eqn:E0; [|apply no_guess_refl].
  set (w1 := {| db := db w; ticks := S (ticks w); uids := uids w |}).
  set (c := claimed_run (clock (ticks w)) r0).
  set (w2 := set_db (fun d => set_db_runs (<[run_id observed := c]> (db_runs d)) d) w1).
  destruct (claimable owner_token (clock (ticks w)) r0) eqn:Hc; cbn [negb]; [|apply no_guess_refl].
  assert (Ec : claim_run (run_id observed) owner_token (clock (ticks w)) lease_ms w1 = (Ok true, w2)).
  { rewrite claim_spec by (by apply (wf_keyed anything)). cbn [db w1]. by rewrite E0, Hc. }
  assert (Hwf2 : wf anything (db w2)).
  { pose proof (claim_run_keeps anything (db w) (run_id observed) owner_token (clock (ticks w)) lease_ms w1
      (wf_sound _ _ Hwf)) as Hs. rewrite Ec in Hs. exact (sound_wf _ _ _ Hs). }
  pose proof (recover_claimed_guess observed w2 Hwf2 Hb) as Hguess.
  pose proof (recover_claimed_keeps anything (db w2) observed ltac:(done) ltac:(done) w2 (wf_sound _ _ Hwf2)) as Hs3.
  unfold finally. destruct (recover_claimed observed w2) as [x w3]. cbn [snd] in Hguess, Hs3.
  pose proof (release_machines (run_id observed) w3 (wf_keyed _ _ (sound_wf _ _ _ Hs3))) as (Hl & Hm & Hrel).
  destruct ((let* _ := release_run (run_id observed) owner_token in ret tt) w3) as [y w4]. cbn [snd] in Hl, Hm, Hrel.
  enough (no_guess observed (db w) (db w4)) by by destruct y.
  intros i r Hr.
  assert (exists q, db_runs (db w2) !! i = Some q /\ machine_of q = machine_of r) as (q & Hq & Hqm).
  { destruct (decide (run_id observed = i)) as [<-|Hne].
    - exists c. split; [apply lookup_insert_eq|]. by assert (r0 = r) as <- by congruence.
    - exists r. cbn. by rewrite lookup_insert_ne. }
  destruct (Hguess i q Hq) as (q' & Hq' & Hcase). destruct (Hrel i q' Hq') as (r' & Hr' & Hrm).
  exists r'. split; [done|]. rewrite Hrm, <-Hqm. injection Hqm as Hqs Hqr.
  destruct Hcase as [?|(? & ? & ? & ? & Hz)]; [by left|]. right. rewrite <-Hqs. split_and!; [done..|].
  destruct Hz as [Z1 Z2]. split; by rewrite ?Hl, ?Hm.
Qed.
End Recovering.

(** ** Witnesses *)

Lemma demo_judging_fresh : @fresh_ids demo_env demo_judging.
Proof. apply fresh_ids_bounded; [intros m n; apply (inj pretty)|vm_compute; reflexivity]. Qed.


Theorem restart_recovers_every_run_witness :
  exists ids w' r', @recover_active_runs demo_env "worker" 1000 demo_judging = (Ok ids, w') /\
    "factory_0" ∈ ids /\ db_runs (db w') !! "factory_0" = Some r' /\
    machine_of r' = (RECOVERING, Some VICTORY_JUDGING).
Proof.
  assert (match db_runs (db demo_judging) !! "factory_0" with
          | Some r => machine_of r = (VICTORY_JUDGING, None) /\ run_lease_token r = None
          | None => False end) as Hrun by (vm_compute; by split).
  destruct (db_runs (db demo_judging) !! "factory_0") as [r|] eqn:Er; [|destruct Hrun].
  destruct Hrun as [Hm Htok]. injection Hm as Hs Hres.
  destruct (@restart_recovers_every_run demo_env "worker" 1000 ltac:(discriminate) ltac:(reflexivity)
    ltac:(intros m n; apply (inj pretty)) demo_judging demo_judging_wf demo_judging_fresh) as (ids & w' & E & Hids & Hall).
  - intros i x Hx _.
    assert (map fst (map_to_list (db_runs (db demo_judging))) = ["factory_0"]) as Honly by (vm_compute; reflexivity).
    assert (i = "factory_0") as ->.
    { apply elem_of_map_to_list in Hx. apply (list_elem_of_fmap_2 fst) in Hx.
      change (fst <$> ?l) with (map fst l) in Hx. rewrite Honly in Hx.
      apply list_elem_of_singleton in Hx. exact Hx. }
    rewrite Er in Hx. injection Hx as <-. pose proof (run_keyed _ _ demo_judging_wf _ _ Er) as Hid.
    split.
    + rewrite Hid. reflexivity.
    + intros n _. unfold claimable. rewrite Hs, Htok. reflexivity.
    + intros e He _ Hk.
      assert (forallb (fun e => match ev_key e with Some k => negb (startswith "restart-recovery" k) | None => true end)
        (db_events (db demo_judging)) = true) as Hnone by (vm_compute; reflexivity).
      apply (forallb_elem_of _ _ _ Hnone) in He. rewrite Hk in He. vm_compute in He. discriminate He.
  - destruct (Hall "factory_0" r Er) as (r' & Hr' & Hscan).
    exists ids, w', r'. split; [exact E|]. split; [|split; [exact Hr'|]].
    + apply Hids. exists r. split; [exact Er|]. rewrite Hs. reflexivity.
    + unfold scanned in Hscan. rewrite Hs in Hscan. destruct Hscan as [Hm _]. rewrite Hm.
      unfold recovered, machine_of. rewrite Hs. reflexivity.
Defined.

Theorem recovery_never_guesses_witness :
  exists r, db_runs (db demo_judging) !! "factory_0" = Some r /\
    @no_guess r (db demo_judging) (db (@recover_one demo_env "worker" 1000 r demo_judging).2).
Proof.
  destruct (db_runs (db demo_judging) !! "factory_0") as [r|] eqn:Er; [|vm_compute in Er; discriminate Er].
  pose proof (run_keyed _ _ demo_judging_wf _ _ Er) as Hid.
  exists r. split; [reflexivity|].
  apply (@recovery_never_guesses demo_env "worker" 1000 ltac:(discriminate) ltac:(reflexivity) r demo_judging).
  - exact demo_judging_wf.
  - rewrite Hid. reflexivity.
Defined.
