(* ===== verification/FactoryPhases.v ===== *)
(** * Phases: what a handler receives and returns

    Models [cptr/services/factory_phases/types.py] and
    [cptr/services/factory_phases/core.py]: the bounded inputs and outputs of a
    phase and the handlers the machine owns (recovery, repair, Victory judging and
    cycle completion). *)

From S2P Require Import Prelude PyStr Json Redaction FactoryDomain FactoryGates.
From S2P Require Import FactoryVictory Database.

Definition _MAX_PHASE_PAYLOAD_BYTES : Z := 64 * 1024.
Definition _MAX_PHASE_ARTIFACTS : Z := 50.
Definition _MAX_PHASE_GATES : Z := 50.

(** [PhaseFailureCategory] *)
Inductive PhaseFailureCategory :=
  | FAIL_IMPLEMENTATION | FAIL_TEST | FAIL_ENVIRONMENT | FAIL_CAPABILITY
  | FAIL_SECURITY | FAIL_CI | FAIL_RUNTIME | FAIL_UNKNOWN.

Definition failure_category_value (c : PhaseFailureCategory) : string :=
  match c with
  | FAIL_IMPLEMENTATION => "implementation"
  | FAIL_TEST => "test"
  | FAIL_ENVIRONMENT => "environment"
  | FAIL_CAPABILITY => "capability"
  | FAIL_SECURITY => "security"
  | FAIL_CI => "ci"
  | FAIL_RUNTIME => "runtime"
  | FAIL_UNKNOWN => "unknown"
  end.

Definition len_list {A} (l : list A) : Z := Z.of_nat (length l).

(** ** Failures *)

Record PhaseFailure := {
  pf_category : PhaseFailureCategory;
  pf_code : string;
  pf_summary : string;
  pf_gate_id : option string;
}.

Definition PhaseFailure_post_init (f : PhaseFailure) : result PhaseFailure :=
  if blank (pf_code f) then Err (ValueError "phase failure code must not be blank")
  else if blank (pf_summary f) then Err (ValueError "phase failure summary must not be blank")
  else if (160 <? len (pf_code f))%Z || (4000 <? len (pf_summary f))%Z then
    Err (ValueError "phase failure fields exceed bounded length")
  else Ok f.

Section Phases.
Context `{Env}.

(** [PhaseFailure.signature] *)
Definition signature (f : PhaseFailure) : string :=
  sha256_hex (dumps true true
    (JObj [("category", JStr (failure_category_value (pf_category f)));
           ("code", JStr (upper (strip (pf_code f))));
           ("gate_id", JStr (lower (strip (default "" (pf_gate_id f)))))])).

(** ** Artifacts, gate updates and outcomes *)

Record PhaseArtifact := {
  pa_key : string;
  pa_kind : string;
  pa_source : string;
  pa_authority : EvidenceAuthority;
  pa_payload : list (string * json);
  pa_gate_id : option string;
  pa_revision : option string;
  pa_fingerprint : option string;
}.

Definition PhaseArtifact_post_init (a : PhaseArtifact) : result PhaseArtifact :=
  if blank (pa_key a) || blank (pa_kind a) || blank (pa_source a) then
    Err (ValueError "phase artifact key/kind/source must not be blank")
  else if (_MAX_PHASE_PAYLOAD_BYTES
           <? len (dumps true true (redact_sensitive (JObj (pa_payload a)))))%Z then
    Err (ValueError "phase artifact payload exceeds bounded size")
  else Ok a.

Record PhaseGateUpdate := {
  pg_gate_id : string;
  pg_category : FactoryGateCategory;
  pg_required : bool;
  pg_applicable : bool;
  pg_status : FactoryGateStatus;
  pg_artifact_keys : list string;
  pg_evidence_ids : list string;
  pg_evaluated_revision : option string;
  pg_evaluated_fingerprint : option string;
  pg_reason : option string;
  pg_attempt : Z;
}.

Definition PhaseGateUpdate_post_init (u : PhaseGateUpdate) : result PhaseGateUpdate :=
  if blank (pg_gate_id u) then Err (ValueError "phase gate id must not be blank")
  else if (pg_attempt u <=? 0)%Z then Err (ValueError "phase gate attempt must be positive")
  else if (_MAX_PHASE_ARTIFACTS <? len_list (pg_artifact_keys u))%Z
          || (100 <? len_list (pg_evidence_ids u))%Z then
    Err (ValueError "phase gate evidence references exceed bounded count")
  else Ok u.

Record PhaseOutcome := {
  po_reason : string;
  po_next_state : option FactoryState;
  po_artifacts : list PhaseArtifact;
  po_gates : list PhaseGateUpdate;
  po_cycle_updates : list (string * json);
  po_run_next_action : option string;
  po_target_revision : option string;
  po_target_fingerprint : option string;
  po_failure : option PhaseFailure;
  po_victory_decision : option FactoryVictoryDecision;
}.

Definition is_none {A} (x : option A) : bool := match x with None => true | Some _ => false end.

Definition PhaseOutcome_post_init (o : PhaseOutcome) : result PhaseOutcome :=
  let keys := map pa_key (po_artifacts o) in
  if blank (po_reason o) then Err (ValueError "phase outcome reason must not be blank")
  else if (_MAX_PHASE_ARTIFACTS <? len_list (po_artifacts o))%Z then
    Err (ValueError "phase outcome has too many artifacts")
  else if (_MAX_PHASE_GATES <? len_list (po_gates o))%Z then
    Err (ValueError "phase outcome has too many gate updates")
  else if bool_decide (length keys <> size (list_to_set keys : gset string)) then
    Err (ValueError "phase artifact keys must be unique")
  else if xorb (is_none (po_target_revision o)) (is_none (po_target_fingerprint o)) then
    Err (ValueError "phase target revision and fingerprint must be supplied together")
  else if (_MAX_PHASE_PAYLOAD_BYTES
           <? len (dumps true true (redact_sensitive (JObj (po_cycle_updates o)))))%Z then
    Err (ValueError "phase cycle updates exceed bounded size")
  else Ok o.

(** an outcome with the defaults of the dataclass *)
Definition plain_outcome (next : option FactoryState) (reason : string) : PhaseOutcome := {|
  po_reason := reason; po_next_state := next; po_artifacts := []; po_gates := [];
  po_cycle_updates := []; po_run_next_action := None; po_target_revision := None;
  po_target_fingerprint := None; po_failure := None; po_victory_decision := None |}.
Definition outcome_to (next : FactoryState) (reason : string) : result PhaseOutcome :=
  PhaseOutcome_post_init (plain_outcome (Some next) reason).
Definition outcome_failed (reason : string) (f : PhaseFailure) : result PhaseOutcome :=
  let? f := PhaseFailure_post_init f in
  PhaseOutcome_post_init
    {| po_reason := reason; po_next_state := None; po_artifacts := []; po_gates := [];
       po_cycle_updates := []; po_run_next_action := None; po_target_revision := None;
       po_target_fingerprint := None; po_failure := Some f; po_victory_decision := None |}.

Record PhaseContext := {
  pc_run : FactoryRun;
  pc_cycle : FactoryCycle;
  pc_evidence : list FactoryEvidence;
  pc_gates : list FactoryGateResult;
  pc_steering_messages : list string;
}.

(** ** Recovery *)

(** [RecoveryPhaseHandler.execute]; [reconciler] is the callable it was built with *)
Definition recovery_execute {W} (reconciler : option (FactoryRun -> M W unit)) (c : PhaseContext)
    : M W PhaseOutcome :=
  let* _ := match reconciler with Some f => f (pc_run c) | None => ret tt end in
  lift (match run_resumable_state (pc_run c) with
        | Some target =>
            outcome_to target ("recovery reconciled; resume persisted state " +:+ state_value target)
        | None =>
            outcome_to BASELINING "initial recovery reconciliation complete; begin baselining"
        end).

(** ** Repair *)

(** [RepairRequiredPhaseHandler.__init__] *)
Definition repair_threshold (n : Z) : result Z :=
  if (n <=? 1)%Z then Err (ValueError "repeated failure threshold must exceed one") else Ok n.

(** the order of [max] over the signatures *)
Definition later_failure (x y : FailureSignature) : bool :=
  (fs_last_seen_at x <? fs_last_seen_at y)%Z
  || ((fs_last_seen_at x =? fs_last_seen_at y)%Z && String.ltb (fs_signature x) (fs_signature y)).
(** [max]: the first of the greatest elements *)
Fixpoint max_by {A} (less : A -> A -> bool) (best : A) (l : list A) : A :=
  match l with
  | [] => best
  | x :: l => max_by less (if less best x then x else best) l
  end.

(** [TypeError] and [ValueError] *)
Definition conversion_error (e : exn) : bool :=
  match e with TypeError _ | ValueError _ => true | _ => false end.

(** the configured budget of attempts: [None] if there is none, and a value that is
    not a number counts as zero *)
Definition configured_attempts (budget : json) : result (option Z) :=
  match budget with
  | JObj fields =>
      match get "max_repair_attempts_per_signature" fields with
      | JNull => Ok None
      | raw =>
          match py_int raw with
          | Ok z => Ok (Some z)
          | Err e => if conversion_error e then Ok (Some 0%Z) else Err e
          end
      end
  | _ => Ok None
  end.

Definition value_or (s d : string) : string := if empty_str s then d else s.

(** [RepairRequiredPhaseHandler.execute] *)
Definition repair_execute (threshold : Z) (c : PhaseContext) : result PhaseOutcome :=
  match map snd (failure_signatures (pc_cycle c)) with
  | [] => outcome_to ROOT_CAUSE_ANALYSIS
            "repair requested without a classified failure; diagnose before mutation"
  | first :: rest =>
      let latest := max_by later_failure first rest in
      let count := fs_count latest in
      let category := value_or (fs_category latest) (failure_category_value FAIL_UNKNOWN) in
      let? configured := configured_attempts (run_budget (pc_run c)) in
      if match configured with Some b => (b <=? 0)%Z | None => false end then
        outcome_to BLOCKED "configured per-signature repair budget is invalid; fail closed"
      else if match configured with Some b => (b <=? count)%Z | None => false end then
        outcome_to BLOCKED
          ("per-signature repair budget exhausted after " +:+ str_of_int count
             +:+ " attempts (configured maximum " +:+ str_of_int (default 0%Z configured) +:+ ")")
      else if (threshold <=? count)%Z || str_eqb category (failure_category_value FAIL_CAPABILITY) then
        outcome_to CAPABILITY_ANALYSIS
          "repeated/ capability-related failure requires capability re-analysis instead of another blind implementation retry"
      else outcome_to ROOT_CAUSE_ANALYSIS
        "first classified failure requires independent root-cause analysis"
  end.

(** ** Victory judging *)

(** [item.get(key, True)] as a bool *)
Definition flag (key : string) (fields : list (string * json)) : bool :=
  match dict_get key fields with Some v => truthy v | None => true end.

(** [tuple(str(x) for x in v or ())] *)
Definition strings_of (v : json) : result (list string) :=
  if truthy v then let? l := py_iter v in Ok (map py_str l) else Ok [].

Definition gate_spec_of (item : json) : result FactoryGateSpec :=
  match item with
  | JObj fields =>
      match category_of_value (str_or_empty (get "category" fields)) with
      | None => Err (ValueError "not a valid FactoryGateCategory")
      | Some category =>
          let? acceptance := strings_of (get "acceptance_ids" fields) in
          FactoryGateSpec_post_init {|
            gate_id := str_or_empty (get "gate_id" fields); FactoryGates.category := category;
            required := flag "required" fields; applicable := flag "applicable" fields;
            applicability_reason := match get "applicability_reason" fields with
                                    | JNull => None | v => Some (py_str v) end;
            invalidated_by_mutation := flag "invalidated_by_mutation" fields;
            acceptance_ids := acceptance |}
      end
  | _ => Err (ValueError "factory gate plan spec must be an object")
  end.

Fixpoint gate_specs_of (items : list json) : result (list FactoryGateSpec) :=
  match items with
  | [] => Ok []
  | item :: items =>
      let? spec := gate_spec_of item in let? specs := gate_specs_of items in Ok (spec :: specs)
  end.

(** [_gate_plan] *)
Definition _gate_plan (value : json) : result FactoryGatePlan :=
  match value with
  | JObj fields =>
      let items := get "specs" fields in
      let? items := if truthy items then py_iter items else Ok [] in
      let? specs := gate_specs_of items in
      let? criteria := strings_of (get "acceptance_criterion_ids" fields) in
      FactoryGatePlan_post_init {| specs := specs; acceptance_criterion_ids := criteria |}
  | _ => Err (ValueError "factory cycle gate plan must be an object")
  end.

(** ["criterion-1", "criterion-2", ...] *)
Definition expected_acceptance_ids (criteria : list string) : list string :=
  map (fun i => "criterion-" +:+ str_of_int i) (seqZ 1 (len_list criteria)).

(** [repr] of a tuple of strings *)
Definition repr_tuple (l : list string) : string :=
  match l with
  | [x] => "(" +:+ repr x +:+ ",)"
  | _ => "(" +:+ str_join ", " (map repr l) +:+ ")"
  end.

Definition gate_evidence (e : FactoryEvidence) : GateEvidence := {|
  evidence_id := evd_id e; digest := evd_digest e; authority := evd_authority e;
  revision := evd_revision e; fingerprint := evd_fingerprint e; kind := evd_kind e;
  source := evd_source e |}.
Definition evidence_by_id (rows : list FactoryEvidence) : gmap string GateEvidence :=
  fold_left (fun m e => <[evd_id e := gate_evidence e]> m) rows ∅.

(** the row of each gate with the greatest attempt, the first of them if several *)
Definition latest_gates (rows : list FactoryGateResult) : list (string * FactoryGateResult) :=
  fold_left (fun latest row =>
    match dict_get (gr_gate_id row) latest with
    | Some current =>
        if (gr_attempt current <? gr_attempt row)%Z then dict_set (gr_gate_id row) row latest
        else latest
    | None => dict_set (gr_gate_id row) row latest
    end) rows [].

Definition gate_result_of (g : string) (row : FactoryGateResult) : result GateResult :=
  match status_of_value (gr_status row) with
  | None => Err (ValueError "not a valid FactoryGateStatus")
  | Some s => Ok {| result_gate_id := g; status := s; evidence_ids := gr_evidence_ids row;
                    reason := default "" (gr_reason row);
                    evaluated_revision := gr_evaluated_revision row;
                    evaluated_fingerprint := gr_evaluated_fingerprint row |}
  end.
Fixpoint gate_results_of (latest : list (string * FactoryGateResult))
    : result (gmap string GateResult) :=
  match latest with
  | [] => Ok ∅
  | (g, row) :: latest =>
      let? res := gate_result_of g row in
      let? rest := gate_results_of latest in Ok (<[g := res]> rest)
  end.

(** [VictoryJudgingPhaseHandler.execute] *)
Definition victory_judging_execute (c : PhaseContext) : result PhaseOutcome :=
  let plan := gate_plan (pc_cycle c) in
  let? plan := _gate_plan (if truthy plan then plan else JObj []) in
  let expected := expected_acceptance_ids (run_acceptance_criteria (pc_run c)) in
  if negb (bool_decide (acceptance_criterion_ids plan = expected)) then
    outcome_failed
      "Victory blocked because the persisted gate plan does not match immutable run acceptance criteria"
      {| pf_category := FAIL_TEST; pf_code := "VICTORY_ACCEPTANCE_PLAN_MISMATCH";
         pf_gate_id := Some "victory";
         pf_summary := str_take 4000
           ("gate plan acceptance identities differ from immutable run criteria: expected="
              +:+ repr_tuple expected +:+ ", actual=" +:+ repr_tuple (acceptance_criterion_ids plan)) |}
  else
    let? results := gate_results_of (latest_gates (pc_gates c)) in
    let decision := evaluate results (evidence_by_id (pc_evidence c))
                      (target_revision (pc_cycle c)) (target_fingerprint (pc_cycle c)) plan [] in
    if passed decision then
      PhaseOutcome_post_init
        {| po_reason := "all required machine gates satisfy Victory"; po_next_state := Some COMMITTING;
           po_artifacts := []; po_gates := []; po_cycle_updates := []; po_run_next_action := None;
           po_target_revision := None; po_target_fingerprint := None; po_failure := None;
           po_victory_decision := Some decision |}
    else
      outcome_failed "Victory blocked by missing, failed, or stale machine evidence"
        {| pf_category := if existsb (contains "security/adversarial") (failures decision)
                          then FAIL_SECURITY else FAIL_TEST;
           pf_code := "VICTORY_GATE_FAILURE"; pf_gate_id := Some "victory";
           pf_summary := value_or (str_take 4000 (str_join "; " (failures decision)))
                           "Victory gate evaluation failed" |}.

(** ** Cycle completion *)

(** the configured number of cycles: of the budget if it names one, else of the
    policy *)
Definition configured_max_cycles (run : FactoryRun) : json :=
  let policy := payload_get "max_cycles" (run_policy run) in
  match run_budget run with
  | JObj budget => match dict_get "max_cycles" budget with Some v => v | None => policy end
  | _ => policy
  end.

(** [CycleCompletePhaseHandler.execute] *)
Definition cycle_complete_execute (c : PhaseContext) : result PhaseOutcome :=
  let max_cycles := match configured_max_cycles (pc_run c) with
                    | JNull => Ok 1%Z | v => py_int v end in
  match max_cycles with
  | Err e =>
      if conversion_error e then
        outcome_to BLOCKED "configured max_cycles budget is invalid; fail closed"
      else Err e
  | Ok max_cycles =>
      if (max_cycles <=? 0)%Z then
        outcome_to BLOCKED "configured max_cycles budget must be positive; fail closed"
      else if (max_cycles <=? cycle_ordinal (pc_cycle c))%Z then
        outcome_to COMPLETE "configured factory cycle budget is satisfied"
      else outcome_to AUDITING "cycle complete and configured cycle budget permits another audit"
  end.
End Phases.

(** ** Proofs *)

Section Facts.
Context `{Env}.

Lemma outcome_to_Ok next reason o :
  outcome_to next reason = Ok o -> o = plain_outcome (Some next) reason.
Proof.
  unfold outcome_to, PhaseOutcome_post_init. intros Hi. repeat (case_match; [done|]). by injection Hi as <-.
Qed.

Lemma outcome_failed_Ok reason f o :
  outcome_failed reason f = Ok o ->
  po_next_state o = None /\ po_failure o = Some f /\ po_victory_decision o = None /\ po_artifacts o = [].
Proof.
  unfold outcome_failed. intros (f' & Hf & Hi)%rbind_Ok. unfold PhaseFailure_post_init in Hf.
  repeat (case_match; [done|]). injection Hf as ->.
  unfold PhaseOutcome_post_init in Hi. repeat (case_match; [done|]). by injection Hi as <-.
Qed.

(** *** The latest row of each gate *)

Definition is_latest (rows : list FactoryGateResult) (g : string) (row : FactoryGateResult) : Prop :=
  row ∈ rows /\ gr_gate_id row = g /\
  forall other, other ∈ rows -> gr_gate_id other = g -> (gr_attempt other <= gr_attempt row)%Z.

Lemma latest_gates_spec rows g row : dict_get g (latest_gates rows) = Some row -> is_latest rows g row.
Proof.
  enough (forall g, match dict_get g (latest_gates rows) with
                    | Some row => is_latest rows g row
                    | None => forall other, other ∈ rows -> gr_gate_id other <> g
                    end) as Hall by (intros Hg; specialize (Hall g); by rewrite Hg in Hall).
  clear g row. unfold latest_gates. induction rows as [|x rows IH] using rev_ind.
  { intros g. simpl. by intros ? ?%elem_of_nil. }
  intros g. rewrite fold_left_app. cbn [fold_left].
  set (latest := fold_left _ rows []) in *. pose proof (IH (gr_gate_id x)) as Hx. specialize (IH g).
  assert (Hin : forall y, y ∈ rows ++ [x] <-> y ∈ rows \/ y = x).
  { intros y. by rewrite elem_of_app, list_elem_of_singleton. }
  assert (Hkeep : forall row, g <> gr_gate_id x \/ (gr_attempt x <= gr_attempt row)%Z ->
            is_latest rows g row -> is_latest (rows ++ [x]) g row).
  { intros row Hc (H1 & H2 & H3). split_and!; [apply Hin; by left|done|].
    intros other [?| ->]%Hin ?; [auto|]. destruct Hc; [congruence|done]. }
  destruct (dict_get (gr_gate_id x) latest) as [cur|] eqn:Hcur.
  - destruct (Z.ltb_spec (gr_attempt cur) (gr_attempt x)) as [Hlt|Hge].
    + rewrite dict_get_set. case_decide as Hd.
      * subst g. split_and!; [apply Hin; by right|done|]. destruct Hx as (_ & _ & Hle).
        intros other [Ho| ->]%Hin Hg; [|lia]. specialize (Hle _ Ho Hg). lia.
      * destruct (dict_get g latest); [apply Hkeep; [by left|done]|].
        intros other [?| ->]%Hin; [auto|congruence].
    + destruct (decide (g = gr_gate_id x)) as [->|Hd].
      * rewrite Hcur in *. apply Hkeep; [by right|done].
      * destruct (dict_get g latest); [apply Hkeep; [by left|done]|].
        intros other [?| ->]%Hin; [auto|congruence].
  - rewrite dict_get_set. case_decide as Hd.
    + subst g. split_and!; [apply Hin; by right|done|].
      intros other [Ho| ->]%Hin Hg; [by destruct (Hx _ Ho)|lia].
    + destruct (dict_get g latest); [apply Hkeep; [by left|done]|].
      intros other [?| ->]%Hin; [auto|congruence].
Qed.

Lemma gate_results_of_lookup latest results g res :
  gate_results_of latest = Ok results -> results !! g = Some res ->
  exists row, dict_get g latest = Some row /\ gate_result_of g row = Ok res.
Proof.
  revert results. induction latest as [|[k row] latest IH]; intros results; simpl.
  - by intros [= <-].
  - intros (r & Hr & (rest & Hrest & [= <-])%rbind_Ok)%rbind_Ok.
    intros [[<- <-]|[Hne Hg]]%lookup_insert_Some.
    + rewrite decide_True by done. eauto.
    + rewrite decide_False by done. eauto.
Qed.

Lemma evidence_by_id_lookup rows i e :
  evidence_by_id rows !! i = Some e -> exists row, row ∈ rows /\ evd_id row = i /\ e = gate_evidence row.
Proof.
  unfold evidence_by_id. induction rows as [|x rows IH] using rev_ind; simpl; [done|].
  rewrite fold_left_app. simpl. setoid_rewrite elem_of_app. setoid_rewrite list_elem_of_singleton.
  intros [[<- <-]|[_ Hg]]%lookup_insert_Some; [by eauto|].
  destruct (IH Hg) as (row & ? & ? & ?). eauto.
Qed.

(** the evidence a row of a gate cites, among the evidence of the phase *)
Definition cited (c : PhaseContext) (row : FactoryGateResult) (es : list FactoryEvidence) : Prop :=
  Forall2 (fun i e => e ∈ pc_evidence c /\ evd_id e = i) (gr_evidence_ids row) es.
(** a row that passes an applicable gate: everything it cites is there, a MACHINE row
    among it; and unless the gate survives mutation, the row itself and every MACHINE row
    it cites are about the cycle's target *)
Definition passing (c : PhaseContext) (spec : FactoryGateSpec) (row : FactoryGateResult) : Prop :=
  applicable spec = true /\ gr_status row = status_value PASS /\
  exists es, cited c row es /\ (exists e, e ∈ es /\ evd_authority e = MACHINE) /\
    (invalidated_by_mutation spec = true ->
       gr_evaluated_revision row = target_revision (pc_cycle c) /\
       gr_evaluated_fingerprint row = target_fingerprint (pc_cycle c) /\
       forall e, e ∈ es -> evd_authority e = MACHINE ->
         evd_revision e = target_revision (pc_cycle c) /\ evd_fingerprint e = target_fingerprint (pc_cycle c)).
(** a row that excuses a gate that is declared not to apply: it says why, and cites
    MACHINE evidence or an approval of the user *)
Definition excused (c : PhaseContext) (spec : FactoryGateSpec) (row : FactoryGateResult) : Prop :=
  applicable spec = false /\ gr_status row = status_value NOT_APPLICABLE /\ blank (default "" (gr_reason row)) = false /\
  exists es, cited c row es /\ exists e, e ∈ es /\ (evd_authority e = MACHINE \/ evd_authority e = USER_APPROVAL).

Lemma status_of_value_inj v s : status_of_value v = Some s -> v = status_value s.
Proof.
  unfold status_of_value. intros Hf. apply find_some in Hf as [_ Hf]. by apply str_eqb_true in Hf.
Qed.

Lemma cited_all c row res spec :
  evidence_ids res = gr_evidence_ids row -> well_cited spec res (evidence_by_id (pc_evidence c)) ->
  exists es, cited c row es /\
    (forall e, e ∈ es -> cites res (evidence_by_id (pc_evidence c)) (gate_evidence e)) /\
    (forall e, cites res (evidence_by_id (pc_evidence c)) e -> exists er, er ∈ es /\ e = gate_evidence er).
Proof.
  intros Hids [_ Hall]. unfold cited, cites. rewrite <-Hids. clear Hids.
  induction (evidence_ids res) as [|i ids IH].
  - exists []. split_and!; [constructor|by intros e ?%elem_of_nil|by intros e (i & ?%elem_of_nil & _)].
  - destruct IH as (es & Hes & Hin & Hback); [intros j Hj; apply Hall; by right|].
    destruct (Hall i ltac:(left)) as [e He]. destruct (evidence_by_id_lookup _ _ _ He) as (er & Her & Hid & ->).
    exists (er :: es). split_and!.
    + by constructor.
    + intros e [->|He']%elem_of_cons; [by exists i; split; [left|]|].
      destruct (Hin e He') as (j & Hj & Hje). exists j. split; [by right|done].
    + intros e (j & [->|Hj]%elem_of_cons & Hje).
      * exists er. split; [left|congruence].
      * destruct (Hback e) as (er' & ? & ?); [by exists j|]. exists er'. split; [by right|done].
Qed.
Lemma row_of_gate c results g res :
  gate_results_of (latest_gates (pc_gates c)) = Ok results -> results !! g = Some res ->
  exists row, is_latest (pc_gates c) g row /\ gr_status row = status_value (status res) /\
    evidence_ids res = gr_evidence_ids row /\ reason res = default "" (gr_reason row) /\
    evaluated_revision res = gr_evaluated_revision row /\ evaluated_fingerprint res = gr_evaluated_fingerprint row.
Proof.
  intros Hres Hg. destruct (gate_results_of_lookup _ _ _ _ Hres Hg) as (row & Hrow%latest_gates_spec & Hconv).
  unfold gate_result_of in Hconv. destruct (status_of_value (gr_status row)) as [s|] eqn:Hs; [|done].
  injection Hconv as <-. apply status_of_value_inj in Hs. by exists row.
Qed.
Lemma gate_passed_row c results spec :
  gate_results_of (latest_gates (pc_gates c)) = Ok results ->
  gate_passed results (evidence_by_id (pc_evidence c)) (target_revision (pc_cycle c)) (target_fingerprint (pc_cycle c)) spec ->
  exists row, is_latest (pc_gates c) (gate_id spec) row /\ passing c spec row.
Proof.
  intros Hres (res & Hg & Hst & Hcite & Happ & (e & He & Hm) & Hfresh).
  destruct (row_of_gate _ _ _ _ Hres Hg) as (row & Hrow & Hs & Hids & _ & Hrev & Hfp). rewrite Hst in Hs.
  destruct (cited_all c row res spec Hids Hcite) as (es & Hes & Hin & Hback).
  exists row. split; [done|]. split_and!; [done|done|]. exists es. split_and!; [done| |].
  - destruct (Hback e He) as (er & Her & ->). by exists er.
  - intros Hinv. destruct (Hfresh Hinv) as (H1 & H2 & H3). split_and!; [congruence|congruence|].
    intros er Her Hmer. exact (H3 _ (Hin er Her) Hmer).
Qed.
Lemma gate_settled_row c results spec :
  gate_results_of (latest_gates (pc_gates c)) = Ok results ->
  gate_settled results (evidence_by_id (pc_evidence c)) (target_revision (pc_cycle c)) (target_fingerprint (pc_cycle c)) spec ->
  exists row, is_latest (pc_gates c) (gate_id spec) row /\ (passing c spec row \/ excused c spec row).
Proof.
  intros Hres (res & Hg & [Hst|Hst] & Ht); unfold result_trusted in Ht; rewrite Hst in Ht.
  - destruct (gate_passed_row c results spec Hres) as (row & Hrow & Hp); [by exists res|]. exists row. auto.
  - destruct Ht as (Hcite & Happ & Hreason & e & He & Ha).
    destruct (row_of_gate _ _ _ _ Hres Hg) as (row & Hrow & Hs & Hids & Hrs & _ & _). rewrite Hst in Hs.
    destruct (cited_all c row res spec Hids Hcite) as (es & Hes & Hin & Hback).
    exists row. split; [done|]. right. split_and!; [done|done|by rewrite <-Hrs|]. exists es. split; [done|].
    destruct (Hback e He) as (er & Her & ->). by exists er.
Qed.

Lemma victory_judging_cases c o :
  victory_judging_execute c = Ok o ->
  (exists plan results,
     _gate_plan (if truthy (gate_plan (pc_cycle c)) then gate_plan (pc_cycle c) else JObj []) = Ok plan /\
     acceptance_criterion_ids plan = expected_acceptance_ids (run_acceptance_criteria (pc_run c)) /\
     gate_results_of (latest_gates (pc_gates c)) = Ok results /\
     let d := evaluate results (evidence_by_id (pc_evidence c)) (target_revision (pc_cycle c))
                (target_fingerprint (pc_cycle c)) plan [] in
     passed d = true /\ po_victory_decision o = Some d /\ po_next_state o = Some COMMITTING /\
     po_failure o = None) \/
  (po_next_state o = None /\ po_victory_decision o = None /\ exists f, po_failure o = Some f).
Proof.
  unfold victory_judging_execute. intros (plan & Hplan & Hi)%rbind_Ok.
  case_bool_decide as Hids; cbn [negb] in Hi.
  - apply rbind_Ok in Hi as (results & Hres & Hi).
    destruct (passed _) eqn:Hp.
    + left. exists plan, results. unfold PhaseOutcome_post_init in Hi.
      repeat (case_match; [done|]). injection Hi as <-. done.
    + right. apply outcome_failed_Ok in Hi as (? & ? & ? & _). eauto.
  - right. apply outcome_failed_Ok in Hi as (? & ? & ? & _). eauto.
Qed.

(** *** The greatest failure *)

Lemma ltb_leb s t : String.ltb s t = negb (String.leb t s).
Proof.
  unfold String.ltb, String.leb. rewrite (String.compare_antisym s t).
  by destruct (String.compare t s).
Qed.

Lemma leb_le s t : String.leb s t = true <-> String.le s t.
Proof. unfold String.le. by rewrite Is_true_true. Qed.

Lemma not_later_spec x y :
  later_failure x y = false <->
  (fs_last_seen_at y < fs_last_seen_at x)%Z \/
  (fs_last_seen_at x = fs_last_seen_at y /\ String.le (fs_signature y) (fs_signature x)).
Proof.
  unfold later_failure. rewrite orb_false_iff, andb_false_iff, Z.ltb_ge, Z.eqb_neq, ltb_leb.
  rewrite negb_false_iff, leb_le. split; [intros [? [?|?]]|intros [?|[? ?]]]; try lia.
  - destruct (decide (fs_last_seen_at x = fs_last_seen_at y)); [by right|left; lia].
  - split; [lia|by right].
Qed.

Lemma not_later_trans x y z :
  later_failure x y = false -> later_failure y z = false -> later_failure x z = false.
Proof.
  rewrite !not_later_spec. intros [?|[? Hs]] [?|[? Ht]]; try (left; lia).
  right. split; [lia|by etrans].
Qed.

Lemma not_later_refl x : later_failure x x = false.
Proof. apply not_later_spec. by right. Qed.

Lemma later_asym x y : later_failure x y = true -> later_failure y x = false.
Proof.
  intros Hl. apply not_later_spec. apply not_false_iff_true in Hl. rewrite not_later_spec in Hl.
  destruct (total String.le (fs_signature y) (fs_signature x)) as [?|Hxy].
  - left. destruct (Z.lt_total (fs_last_seen_at x) (fs_last_seen_at y)) as [?|[?|?]]; [done|exfalso; tauto..].
  - destruct (Z.lt_total (fs_last_seen_at x) (fs_last_seen_at y)) as [?|[?|?]]; [by left|by right|].
    exfalso. tauto.
Qed.

Lemma max_by_spec best l :
  max_by later_failure best l ∈ best :: l /\
  forall x, x ∈ best :: l -> later_failure (max_by later_failure best l) x = false.
Proof.
  revert best. induction l as [|y l IH]; intros best; cbn [max_by].
  { split; [by left|]. intros x ->%list_elem_of_singleton. apply not_later_refl. }
  set (b := if later_failure best y then y else best). destruct (IH b) as [IH1 IH2].
  assert (Hb : later_failure b best = false /\ later_failure b y = false).
  { unfold b. destruct (later_failure best y) eqn:E; [split; [by apply later_asym|apply not_later_refl]|].
    split; [apply not_later_refl|done]. }
  pose proof (IH2 b ltac:(by left)) as Hmb. split.
  - apply elem_of_cons in IH1 as [->|?]; [unfold b; destruct (later_failure best y)|];
      rewrite !elem_of_cons; auto.
  - intros x [->|[->|Hx]%elem_of_cons]%elem_of_cons.
    + eapply not_later_trans; [exact Hmb|apply Hb].
    + eapply not_later_trans; [exact Hmb|apply Hb].
    + apply IH2. by right.
Qed.
End Facts.

(** ** Theorems *)

Section Theorems.
Context `{Env}.

Definition system_moves (from to : FactoryState) (resumable : option FactoryState) (victory : bool) : Prop :=
  validate_factory_transition from to SYSTEM resumable victory = Ok tt.

(** The machine's own handlers only propose moves the state machine accepts
    from the server: recovery proposes exactly the persisted interrupted state, or
    BASELINING if there is none; repair proposes diagnosis, capability analysis or
    BLOCKED; cycle completion proposes COMPLETE, another audit or BLOCKED; and the
    Victory phase either proposes COMMITTING with a decision or reports a failure,
    after which the move to repair is legal. *)
Theorem machine_handlers_move_legally c o :
  (forall W (reconciler : option (FactoryRun -> M W unit)) w w',
     (forall t, run_resumable_state (pc_run c) = Some t -> ~ control_target t) ->
     recovery_execute reconciler c w = (Ok o, w') ->
     exists t, po_next_state o = Some t /\
       t = default BASELINING (run_resumable_state (pc_run c)) /\
       system_moves RECOVERING t (run_resumable_state (pc_run c)) false) /\
  (forall threshold, repair_execute threshold c = Ok o ->
     exists t, po_next_state o = Some t /\ system_moves REPAIR_REQUIRED t None false) /\
  (cycle_complete_execute c = Ok o ->
     exists t, po_next_state o = Some t /\ system_moves CYCLE_COMPLETE t None false) /\
  (victory_judging_execute c = Ok o ->
     (po_next_state o = Some COMMITTING /\ is_Some (po_victory_decision o) /\
      system_moves VICTORY_JUDGING COMMITTING None true) \/
     (po_next_state o = None /\ is_Some (po_failure o) /\
      system_moves VICTORY_JUDGING REPAIR_REQUIRED None false)).
Proof.
  split_and!.
  - intros W reconciler w w' Hres. unfold recovery_execute. intros (u & w1 & _ & Hi)%bind_Ok.
    unfold lift in Hi. injection Hi as Hi _.
    destruct (run_resumable_state (pc_run c)) as [t|]; apply outcome_to_Ok in Hi as ->; eexists;
      split_and!; try done. apply validator_spec. split; [done|]. apply legal_recovered; auto.
  - intros threshold. unfold repair_execute. destruct (map snd _) as [|f fs].
    { intros ->%outcome_to_Ok. eexists. split; [reflexivity|done]. }
    intros (cfg & _ & Hi)%rbind_Ok. repeat case_match; apply outcome_to_Ok in Hi as ->; (eexists; split; [reflexivity|done]).
  - unfold cycle_complete_execute. intros Hi.
    repeat case_match; try done; apply outcome_to_Ok in Hi as ->; (eexists; split; [reflexivity|done]).
  - intros [(plan & results & _ & _ & _ & _ & Hd & Hn & _)|(Hn & Hd & f & Hf)]%victory_judging_cases.
    + left. rewrite Hd, Hn. split_and!; [done|by eexists|done].
    + right. rewrite Hf, Hn. split_and!; [done|by eexists|done].
Qed.


(** Repair is bounded: with classified failures, the handler looks at a latest
    one; it blocks the run if the configured budget is not positive or that failure
    was seen as often as the budget allows, analyses capabilities if it was seen as
    often as the threshold or is a capability failure, and only otherwise returns
    to root-cause analysis. *)
Theorem repair_is_bounded threshold c o :
  failure_signatures (pc_cycle c) <> [] -> repair_execute threshold c = Ok o ->
  exists f budget,
    f ∈ (failure_signatures (pc_cycle c)).*2 /\
    (forall g, g ∈ (failure_signatures (pc_cycle c)).*2 -> later_failure f g = false) /\
    configured_attempts (run_budget (pc_run c)) = Ok budget /\
    let spent := exists b, budget = Some b /\ (b <= 0 \/ b <= fs_count f)%Z in
    let repeated := (threshold <= fs_count f)%Z \/ fs_category f = "capability" in
    (spent -> po_next_state o = Some BLOCKED) /\
    (~ spent -> repeated -> po_next_state o = Some CAPABILITY_ANALYSIS) /\
    (~ spent -> ~ repeated -> po_next_state o = Some ROOT_CAUSE_ANALYSIS).
Proof.
  intros Hne. unfold repair_execute. change (map snd) with (fmap (M:=list) (@snd string FailureSignature)).
  destruct (failure_signatures (pc_cycle c)) as [|[k f0] fs]; [done|]. cbn [fmap list_fmap snd].
  destruct (max_by_spec f0 (snd <$> fs)) as [Hin Hmax]. set (f := max_by _ _ _) in *.
  intros (budget & Hb & Hi)%rbind_Ok. exists f, budget. do 3 (split; [done|]). cbv zeta.
  assert (Hcat : str_eqb (value_or (fs_category f) "unknown") "capability" = true <-> fs_category f = "capability").
  { rewrite str_eqb_true. unfold value_or. destruct (empty_str (fs_category f)) eqn:E; [|done].
    apply empty_str_true in E. rewrite E. done. }
  destruct (match budget with Some b => (b <=? 0)%Z | None => false end) eqn:E1.
  { apply outcome_to_Ok in Hi as ->. destruct budget as [b|]; [|done]. apply Z.leb_le in E1.
    split_and!; [done|intros Hn; exfalso; apply Hn; exists b; auto..]. }
  destruct (match budget with Some b => (b <=? fs_count f)%Z | None => false end) eqn:E2.
  { apply outcome_to_Ok in Hi as ->. destruct budget as [b|]; [|done]. apply Z.leb_le in E2.
    split_and!; [done|intros Hn; exfalso; apply Hn; exists b; auto..]. }
  assert (~ exists b, budget = Some b /\ (b <= 0 \/ b <= fs_count f)%Z) as Hspent.
  { intros (b & -> & Hle). apply Z.leb_gt in E1, E2. lia. }
  destruct ((threshold <=? fs_count f)%Z || _) eqn:E3; apply outcome_to_Ok in Hi as ->.
  - apply orb_true_iff in E3. rewrite Z.leb_le in E3. simpl in E3. rewrite Hcat in E3.
    split_and!; [done|done|]. intros _ Hn. exfalso. tauto.
  - apply orb_false_iff in E3 as [E3 E4]. apply Z.leb_gt in E3. apply not_true_iff_false in E4.
    simpl in E4. rewrite Hcat in E4. split_and!; [done| |done]. intros _ [?|?]; [lia|done].
Qed.
End Theorems.

(** ** A concrete phase *)

Definition demo_phase_run : FactoryRun := {|
  run_id := "factory_0"; run_user_id := "u1"; run_workspace_id := "ws1";
  run_mission := "repair the parser"; run_acceptance_criteria := ["tests pass"];
  run_model_id := None; run_state := VICTORY_JUDGING; run_current_cycle_id := Some "cycle_2";
  run_resumable_state := Some IMPLEMENTING; run_policy := JObj [];
  run_budget := JObj [("max_repair_attempts_per_signature", JStr "3")];
  run_config_fingerprint := ""; run_next_action := None; run_idempotency_key := None;
  run_lease_token := None; run_lease_expires_at := None; run_created_at := 0; run_updated_at := 0;
  run_completed_at := None |}.
Definition demo_failure (sig : string) (count seen : Z) : string * FailureSignature :=
  (sig, {| fs_signature := sig; fs_category := "test"; fs_code := "TEST_FAILED"; fs_gate_id := None;
           fs_count := count; fs_first_seen_at := 0; fs_last_seen_at := seen; fs_last_summary := JNull |}).
Definition demo_phase_cycle : FactoryCycle := {|
  cycle_id := "cycle_2"; cycle_run_id := "factory_0"; cycle_ordinal := 1;
  cycle_state := VICTORY_JUDGING; cycle_idempotency_key := None; selected_finding := JNull;
  capability_requirements := JList []; selected_capabilities := JList [];
  gate_plan := JObj [("specs", JList [JObj [("gate_id", JStr "tests");
                        ("category", JStr "focused_tests");
                        ("acceptance_ids", JList [JStr "criterion-1"])]]);
                     ("acceptance_criterion_ids", JList [JStr "criterion-1"])];
  base_revision := None; base_fingerprint := None; target_revision := Some "r1";
  target_fingerprint := Some "f1"; mutation_worker_id := None; attempt_count := 3;
  failure_signatures := [demo_failure "a" 1 10; demo_failure "b" 3 20; demo_failure "c" 1 5];
  cycle_next_action := None; cycle_created_at := 0; cycle_updated_at := 0;
  cycle_completed_at := None |}.
Definition demo_gate (row_id : string) (attempt : Z) (st : string) : FactoryGateResult := {|
  gr_id := row_id; gr_run_id := "factory_0"; gr_cycle_id := "cycle_2"; gr_gate_id := "tests";
  gr_category := "focused_tests"; gr_required := true; gr_applicable := true; gr_status := st;
  gr_evidence_ids := ["e1"]; gr_evaluated_revision := Some "r1";
  gr_evaluated_fingerprint := Some "f1"; gr_reason := None; gr_attempt := attempt; gr_key := None;
  gr_created_at := 0; gr_updated_at := 0 |}.
Definition demo_phase : PhaseContext := {|
  pc_run := demo_phase_run; pc_cycle := demo_phase_cycle;
  pc_evidence := [{| evd_id := "e1"; evd_run_id := "factory_0"; evd_cycle_id := Some "cycle_2";
                     evd_gate_id := Some "tests"; evd_kind := "verification"; evd_source := "cptr";
                     evd_authority := MACHINE; evd_revision := Some "r1";
                     evd_fingerprint := Some "f1"; evd_digest := "d"; evd_payload := JObj [];
                     evd_key := None; evd_created_at := 0 |}];
  pc_gates := [demo_gate "g1" 1 "FAIL"; demo_gate "g2" 2 "PASS"];
  pc_steering_messages := [] |}.

Theorem machine_handlers_move_legally_witness :
  exists o t, @recovery_execute demo_env unit None demo_phase tt = (Ok o, tt) /\
    po_next_state o = Some t /\ t = IMPLEMENTING.
Proof.
  eexists. destruct (@machine_handlers_move_legally demo_env demo_phase
    (plain_outcome (Some IMPLEMENTING) ("recovery reconciled; resume persisted state " +:+ state_value IMPLEMENTING)))
    as [Hrec _].
  destruct (Hrec unit None tt tt) as (t & Hn & Ht & _).
  - intros t [= <-]. unfold control_target. intros [?|[?|[?|?]]]; discriminate.
  - vm_compute. reflexivity.
  - exists t. split; [|split; [exact Hn|exact Ht]]. vm_compute. reflexivity.
Defined.


Theorem repair_is_bounded_witness :
  exists o f, @repair_execute demo_env 2 demo_phase = Ok o /\ fs_signature f = "b" /\
    po_next_state o = Some BLOCKED.
Proof.
  destruct (@repair_execute demo_env 2 demo_phase) as [o|e] eqn:E; [|vm_compute in E; discriminate E].
  destruct (@repair_is_bounded demo_env 2 demo_phase o ltac:(discriminate) E)
    as (f & budget & Hin & Hmax & Hb & Hspent & _).
  assert (fs_signature f = "b" /\ fs_count f = 3%Z) as [Hs Hc].
  { simpl in Hin, Hmax. specialize (Hmax (snd (demo_failure "b" 3 20)) ltac:(right; left)).
    apply elem_of_cons in Hin as [->|[->|[->|[]%elem_of_nil]%elem_of_cons]%elem_of_cons];
      vm_compute in Hmax; try discriminate Hmax; split; reflexivity. }
  exists o, f. split; [reflexivity|]. split; [exact Hs|]. apply Hspent.
  exists 3%Z. split; [|right; rewrite Hc; reflexivity].
  vm_compute in Hb. injection Hb as <-. reflexivity.
Defined.
