(* ===== verification/FactoryGit.v ===== *)
(** * Commits and pushes

    Models [cptr/services/factory_git.py].  The Git adapter is a parameter: a
    record of operations on a repository world [R] of its own, and the service
    runs on the pair of the tables and that world. *)

From S2P Require Import Prelude PyStr Json Redaction FactoryDomain FactoryGates.
From S2P Require Import FactoryVictory Database CapabilityLifecycle FactoryStore FactoryHistory.
From S2P Require Import FactoryStoreFacts FactoryPhases.
From Stdlib Require Import Ascii.

(** ** Relative paths *)

(** the parts of a relative [PurePosixPath] *)
Definition posix_parts (s : string) : list string :=
  List.filter (fun p => negb (empty_str p) && negb (str_eqb p ".")) (split_on "/"%char s).
Definition posix_absolute (s : string) : bool := startswith "/" s.
(** [as_posix()] of a relative path *)
Definition as_posix (parts : list string) : string :=
  match parts with [] => "." | _ => str_join "/" parts end.
(** [PureWindowsPath(s).is_absolute()] for a text that does not start with a
    separator: a drive letter, a colon and a separator *)
Definition windows_absolute (s : string) : bool :=
  match s with
  | String _ (String c (String d _)) =>
      bool_decide (c = ":"%char) && (bool_decide (d = "/"%char) || bool_decide (d = backslash))
  | _ => false
  end.

Definition git_error {A} (c : string) : result A := Err (FactoryGitError c).

(** [_safe_repository_key] *)
Definition _safe_repository_key (value : string) : result string :=
  let raw := value_or (strip (value_or value ".")) "." in
  let posix := replace_char backslash "/"%char raw in
  if posix_absolute posix || windows_absolute raw || is_in ".." (posix_parts posix) then
    git_error "FACTORY_GIT_INVALID_REPOSITORY_KEY"
  else Ok (as_posix (posix_parts posix)).

Definition _SENSITIVE_PATH_PARTS : list string := ["credentials"; "secrets"].
Definition _SENSITIVE_FILENAMES : list string := [".env"; "id_rsa"; "id_ed25519"].
Definition _SENSITIVE_PATH_SUFFIXES : list string := [".key"; ".p12"; ".pfx"].

(** [_is_sensitive_path] *)
Definition _is_sensitive_path (parts : list string) : bool :=
  let parts := map lower parts in
  let name := default "" (last parts) in
  existsb (fun p => is_in p _SENSITIVE_PATH_PARTS) parts
  || is_in name _SENSITIVE_FILENAMES
  || startswith ".env." name
  || existsb (fun suffix => endswith suffix name) _SENSITIVE_PATH_SUFFIXES.

(** a dict *)
#[export] Abbreviation dict := (list (string * json)).

Section Paths.
Context `{Env}.

(** one value of a manifest item: nothing for an empty one *)
Definition changed_path (item : dict) (key : string) : result (list string) :=
  let value := replace_char backslash "/"%char (strip (str_or_empty (get key item))) in
  if empty_str value then Ok []
  else if posix_absolute value || is_in ".." (posix_parts value) then
    git_error "FACTORY_GIT_UNSAFE_DIFF_PATH"
  else if _is_sensitive_path (posix_parts value) then git_error "FACTORY_GIT_SENSITIVE_PATH"
  else Ok [as_posix (posix_parts value)].
Fixpoint collect_paths (manifest : list dict) : result (list string) :=
  match manifest with
  | [] => Ok []
  | item :: manifest =>
      let? new := changed_path item "path" in
      let? old := changed_path item "old_path" in
      let? rest := collect_paths manifest in Ok (new ++ old ++ rest)
  end.
(** [_changed_paths] *)
Definition _changed_paths (manifest : list dict) : result (list string) :=
  let? paths := collect_paths manifest in Ok (sorted_set paths).

(** [_diff_digest] *)
Definition _diff_digest (manifest : list dict) (diff : dict) : string :=
  sha256_hex (dumps true false (JObj [("manifest", JList (map JObj manifest)); ("diff", JObj diff)])).
End Paths.

(** ** Authorizations *)

Record PushAuthorization := {
  pu_approved : bool;
  pu_approval_id : string;
  pu_revision : string;
  pu_remote : string;
  pu_branch : string;
}.

Definition PushAuthorization_post_init (a : PushAuthorization) : result PushAuthorization :=
  if blank (pu_approval_id a) then Err (ValueError "push authorization approval_id must not be blank")
  else if blank (pu_revision a) then Err (ValueError "push authorization revision must not be blank")
  else if blank (pu_remote a) then Err (ValueError "push authorization remote must not be blank")
  else if blank (pu_branch a) then Err (ValueError "push authorization branch must not be blank")
  else Ok a.

(** ** The adapter *)

(** [FactoryGitAdapter] *)
Record GitAdapter (R : Type) := {
  git_current_revision : string -> M R string;
  git_workspace_fingerprint : string -> M R string;
  git_change_manifest : string -> M R (list dict);
  git_diff : string -> M R dict;
  git_diff_check : string -> M R dict;
  git_stage : string -> list string -> M R unit;
  git_commit : string -> string -> M R dict;
  git_log : string -> Z -> M R (list dict);
  git_push : string -> string -> string -> M R dict;
}.
Arguments git_current_revision {R} _.
Arguments git_workspace_fingerprint {R} _.
Arguments git_change_manifest {R} _.
Arguments git_diff {R} _.
Arguments git_diff_check {R} _.
Arguments git_stage {R} _.
Arguments git_commit {R} _.
Arguments git_log {R} _.
Arguments git_push {R} _.

(** ** The rows of the intents *)

Section Service.
Context `{Env} {R : Type} (git : GitAdapter R).

Definition insert_intent (i : FactoryCommitIntent) : M World unit :=
  let* d := query id in
  let* _ := check (bool_decide (db_intents d !! ci_id i = None)) "factory_commit_intents.id" in
  let* _ := check (known_run (ci_run_id i) d && known_cycle (Some (ci_cycle_id i)) d) "FOREIGN KEY" in
  let* _ := check (negb (existsb (fun x => str_eqb (ci_cycle_id x) (ci_cycle_id i))
                                 (rows_of (db_intents d)))) "uq_factory_commit_intent_cycle" in
  write (fun d => set_db_intents (<[ci_id i := i]> (db_intents d)) d).
Definition save_intent (i : FactoryCommitIntent) : M World unit :=
  write (fun d => set_db_intents (<[ci_id i := i]> (db_intents d)) d).

(** [_intent] *)
Definition _intent (intent_id : string) : M World FactoryCommitIntent :=
  let* row := query (fun d => db_intents d !! intent_id) in
  required row (KeyError "factory commit intent not found").

Definition intents_of_cycle (cid : string) (d : Db) : list FactoryCommitIntent :=
  select (fun i => str_eqb (ci_cycle_id i) cid) (rows_of (db_intents d)).

(** [get_intent_for_cycle] *)
Definition get_intent_for_cycle (cid : string) : M World FactoryCommitIntent :=
  let* rows := query (intents_of_cycle cid) in
  let* row := scalar_one_or_none rows in
  required row (FactoryGitError "FACTORY_GIT_INTENT_NOT_FOUND").

(** [_run_cycle] *)
Definition _run_cycle (rid cid : string) : M World (FactoryRun * FactoryCycle) :=
  let* (run, cycle) := run_and_cycle rid cid in
  raise_if negb (opt_eqb (run_current_cycle_id run) (Some cid))
    as FactoryGitError "FACTORY_GIT_STALE_CYCLE" in
  ret (run, cycle).

(** the row of an intent that was committed, or pushed *)
Definition committed_intent (sha : string) (now : Z) (i : FactoryCommitIntent)
    : FactoryCommitIntent := {|
  ci_id := ci_id i; ci_run_id := ci_run_id i; ci_cycle_id := ci_cycle_id i;
  ci_repository_key := ci_repository_key i; ci_verified_revision := ci_verified_revision i;
  ci_verified_fingerprint := ci_verified_fingerprint i; ci_diff_digest := ci_diff_digest i;
  ci_changed_paths := ci_changed_paths i; ci_commit_message := ci_commit_message i;
  ci_status := "COMMITTED"; ci_commit_sha := Some sha; ci_push_status := ci_push_status i;
  ci_push_remote := ci_push_remote i; ci_push_branch := ci_push_branch i;
  ci_push_approval_id := ci_push_approval_id i; ci_created_at := ci_created_at i;
  ci_updated_at := now; ci_committed_at := time_or (ci_committed_at i) now;
  ci_pushed_at := ci_pushed_at i |}.
Definition pushed_intent (a : PushAuthorization) (now : Z) (i : FactoryCommitIntent)
    : FactoryCommitIntent := {|
  ci_id := ci_id i; ci_run_id := ci_run_id i; ci_cycle_id := ci_cycle_id i;
  ci_repository_key := ci_repository_key i; ci_verified_revision := ci_verified_revision i;
  ci_verified_fingerprint := ci_verified_fingerprint i; ci_diff_digest := ci_diff_digest i;
  ci_changed_paths := ci_changed_paths i; ci_commit_message := ci_commit_message i;
  ci_status := ci_status i; ci_commit_sha := ci_commit_sha i; ci_push_status := Some "PUSHED";
  ci_push_remote := Some (pu_remote a); ci_push_branch := Some (pu_branch a);
  ci_push_approval_id := Some (pu_approval_id a); ci_created_at := ci_created_at i;
  ci_updated_at := now; ci_committed_at := ci_committed_at i; ci_pushed_at := Some now |}.

(** ** Preparing *)

(** the columns [prepare_commit_intent] compares: [immutable == requested] *)
Definition same_intent (x y : FactoryCommitIntent) : bool :=
  str_eqb (ci_run_id x) (ci_run_id y) && str_eqb (ci_repository_key x) (ci_repository_key y)
  && str_eqb (ci_verified_revision x) (ci_verified_revision y)
  && str_eqb (ci_verified_fingerprint x) (ci_verified_fingerprint y)
  && str_eqb (ci_diff_digest x) (ci_diff_digest y)
  && bool_decide (ci_changed_paths x = ci_changed_paths y)
  && str_eqb (ci_commit_message x) (ci_commit_message y).

(** the revision and the fingerprint are those the machine verified, and
    [git diff --check] passes *)
Definition verified_target (root revision fingerprint : string) : M R unit :=
  let* current := git_current_revision git root in
  raise_if negb (str_eqb current revision) as FactoryGitError "FACTORY_GIT_STALE_VERIFIED_REVISION" in
  let* current := git_workspace_fingerprint git root in
  raise_if negb (str_eqb current fingerprint)
    as FactoryGitError "FACTORY_GIT_STALE_VERIFIED_FINGERPRINT" in
  let* checked := git_diff_check git root in
  raise_if negb (truthy (get "passed" checked)) as FactoryGitError "FACTORY_GIT_DIFF_CHECK_FAILED" in
  ret tt.

Definition new_intent (iid rid cid key revision fingerprint digest : string) (paths : list string)
    (message : string) (now : Z) : FactoryCommitIntent := {|
  ci_id := iid; ci_run_id := rid; ci_cycle_id := cid; ci_repository_key := key;
  ci_verified_revision := revision; ci_verified_fingerprint := fingerprint;
  ci_diff_digest := digest; ci_changed_paths := paths; ci_commit_message := message;
  ci_status := "PREPARED"; ci_commit_sha := None; ci_push_status := None; ci_push_remote := None;
  ci_push_branch := None; ci_push_approval_id := None; ci_created_at := now; ci_updated_at := now;
  ci_committed_at := None; ci_pushed_at := None |}.

(** [f"{message} [factory:{cycle.id}:{digest[:12]}]"] *)
Definition tagged_message (message cid digest : string) : string :=
  message +:+ " [factory:" +:+ cid +:+ ":" +:+ str_take 12 digest +:+ "]".

(** the block of [prepare_commit_intent]; [wanted] is the requested row but for its
    identifier *)
Definition store_intent (cid : string) (wanted : string -> FactoryCommitIntent)
    : M World FactoryCommitIntent :=
  transaction (
    let* rows := query (intents_of_cycle cid) in
    let* existing := scalar_one_or_none rows in
    match existing with
    | Some intent =>
        raise_if negb (same_intent intent (wanted "")) as FactoryGitError "FACTORY_GIT_INTENT_CONFLICT" in
        ret intent
    | None =>
        let* iid := _new_id "fcommit" in
        let* _ := insert_intent (wanted iid) in
        ret (wanted iid)
    end).

(** [prepare_commit_intent] *)
Definition prepare_commit_intent (rid cid root repository_key message : string)
    : M (World * R) FactoryCommitIntent :=
  let message := strip message in
  raise_if empty_str message || (400 <? len message)%Z
    as ValueError "factory commit message must contain 1-400 characters" in
  let* key := lift (_safe_repository_key repository_key) in
  let* (run, cycle) := on_left (_run_cycle rid cid) in
  match target_revision cycle, target_fingerprint cycle with
  | Some revision, Some fingerprint =>
      raise_if empty_str revision || empty_str fingerprint
        as FactoryGitError "FACTORY_GIT_MISSING_VERIFIED_TARGET" in
      let* _ := on_right (verified_target root revision fingerprint) in
      let* manifest := on_right (git_change_manifest git root) in
      let* paths := lift (_changed_paths manifest) in
      raise_if is_nil paths as FactoryGitError "FACTORY_GIT_EMPTY_DIFF" in
      let* diff := on_right (git_diff git root) in
      let digest := _diff_digest manifest diff in
      let* now := on_left _now_ms in
      on_left (store_intent cid (fun iid =>
        new_intent iid (run_id run) (cycle_id cycle) key revision fingerprint digest paths
          (tagged_message message (cycle_id cycle) digest) now))
  | _, _ => raise (FactoryGitError "FACTORY_GIT_MISSING_VERIFIED_TARGET")
  end.

(** ** Committing *)

(** [_mark_committed] *)
Definition _mark_committed (iid sha : string) : M World FactoryCommitIntent :=
  raise_if blank sha as FactoryGitError "FACTORY_GIT_INVALID_COMMIT" in
  let* now := _now_ms in
  transaction (
    let* intent := _intent iid in
    raise_if str_eqb (ci_status intent) "COMMITTED" && has_key (ci_commit_sha intent)
             && negb (opt_eqb (ci_commit_sha intent) (Some sha))
      as FactoryGitError "FACTORY_GIT_COMMIT_CONFLICT" in
    let intent := committed_intent sha now intent in
    let* _ := save_intent intent in
    ret intent).

(** the hash of the first logged commit with the message and a hash *)
Fixpoint logged_commit (message : string) (log : list dict) : option string :=
  match log with
  | [] => None
  | item :: log =>
      if str_eqb (str_or_empty (get "message" item)) message then
        let sha := strip (str_or_empty (get "hash" item)) in
        if empty_str sha then logged_commit message log else Some sha
      else logged_commit message log
  end.

(** [commit_intent] *)
Definition commit_intent (iid root : string) : M (World * R) FactoryCommitIntent :=
  let* intent := on_left (_intent iid) in
  if str_eqb (ci_status intent) "COMMITTED" && has_key (ci_commit_sha intent) then ret intent
  else
    let* log := on_right (git_log git root 50) in
    match logged_commit (ci_commit_message intent) log with
    | Some sha => on_left (_mark_committed (ci_id intent) sha)
    | None =>
        let* _ := on_right (verified_target root (ci_verified_revision intent)
                              (ci_verified_fingerprint intent)) in
        let* manifest := on_right (git_change_manifest git root) in
        let* paths := lift (_changed_paths manifest) in
        let* diff := on_right (git_diff git root) in
        raise_if negb (bool_decide (paths = ci_changed_paths intent))
                 || negb (str_eqb (_diff_digest manifest diff) (ci_diff_digest intent))
          as FactoryGitError "FACTORY_GIT_STALE_VERIFIED_DIFF" in
        let* _ := on_right (git_stage git root paths) in
        let* _ := on_right (git_commit git root (ci_commit_message intent)) in
        let* sha := on_right (git_current_revision git root) in
        on_left (_mark_committed (ci_id intent) sha)
    end.

(** ** Pushing *)

(** [push_commit] *)
Definition push_commit (iid root : string) (authorization : PushAuthorization)
    : M (World * R) FactoryCommitIntent :=
  let* intent := on_left (_intent iid) in
  raise_if negb (str_eqb (ci_status intent) "COMMITTED") || negb (has_key (ci_commit_sha intent))
    as FactoryGitError "FACTORY_GIT_COMMIT_REQUIRED" in
  raise_if negb (pu_approved authorization) as FactoryGitError "FACTORY_GIT_PUSH_APPROVAL_REQUIRED" in
  raise_if negb (opt_eqb (Some (pu_revision authorization)) (ci_commit_sha intent))
    as FactoryGitError "FACTORY_GIT_STALE_PUSH_APPROVAL" in
  if opt_eqb (ci_push_status intent) (Some "PUSHED") then
    if opt_eqb (ci_push_remote intent) (Some (pu_remote authorization))
       && opt_eqb (ci_push_branch intent) (Some (pu_branch authorization))
       && opt_eqb (ci_push_approval_id intent) (Some (pu_approval_id authorization))
    then ret intent
    else raise (FactoryGitError "FACTORY_GIT_PUSH_INTENT_CONFLICT")
  else
    let* current := on_right (git_current_revision git root) in
    raise_if negb (opt_eqb (Some current) (ci_commit_sha intent))
      as FactoryGitError "FACTORY_GIT_STALE_PUSH_REVISION" in
    let* pushed := on_right (git_push git root (pu_remote authorization) (pu_branch authorization)) in
    raise_if negb (truthy (get "ok" pushed)) as FactoryGitError "FACTORY_GIT_PUSH_FAILED" in
    let* now := on_left _now_ms in
    on_left (transaction (
      let* row := _intent (ci_id intent) in
      let row := pushed_intent authorization now row in
      let* _ := save_intent row in
      ret row)).
End Service.

(** ** What the service relies on *)

(** the documented behaviour of the Git commands on one checkout: [history] are its
    commits, newest first, as hash and the message they were made with; of a commit the
    log shows the [subject] of that message only, and it may leave commits out (merges,
    those beyond the limit, or all of them if the command fails); a commit that is made
    has a hash that no other has *)
Record git_laws {R} (git : GitAdapter R) (root : string) (subject : string -> string)
    (history : R -> list (string * string)) : Prop := {
  law_revision r x r' : git_current_revision git root r = (x, r') -> r' = r;
  law_head r sha r' : git_current_revision git root r = (Ok sha, r') ->
    exists m rest, history r = (sha, m) :: rest;
  law_fingerprint r x r' : git_workspace_fingerprint git root r = (x, r') -> r' = r;
  law_manifest r x r' : git_change_manifest git root r = (x, r') -> r' = r;
  law_diff r x r' : git_diff git root r = (x, r') -> r' = r;
  law_check r x r' : git_diff_check git root r = (x, r') -> r' = r;
  law_log r x r' : git_log git root 50 r = (x, r') -> r' = r;
  law_log_entries r l r' : git_log git root 50 r = (Ok l, r') ->
    forall item, item ∈ l -> exists c, c ∈ history r /\ get "hash" item = JStr c.1 /\ get "message" item = JStr (subject c.2);
  law_stage r paths x r' : git_stage git root paths r = (x, r') -> history r' = history r;
  law_commit r m x r' : git_commit git root m r = (x, r') ->
    match x with
    | Ok _ => exists h, h <> "" /\ strip h = h /\ h ∉ map fst (history r) /\ history r' = (h, m) :: history r
    | Err _ => history r' = history r
    end;
}.

(** ** Proofs *)

Section Committing.
Context `{Env} {R : Type} (git : GitAdapter R) (root : string) (subject : string -> string).
Context (history : R -> list (string * string)) (laws : git_laws git root subject history).

(** one step of the service *)
Lemma bind_left {A B} (m : M World A) (k : A -> M (World * R) B) w (r : R) x w' :
  m w = (x, w') ->
  bind (on_left m) k (w, r) = match x with Ok a => k a (w', r) | Err e => (Err e, (w', r)) end.
Proof. unfold bind, on_left. intros Hm. simpl. rewrite Hm. by destruct x. Qed.
Lemma bind_right {A B} (m : M R A) (k : A -> M (World * R) B) w r x r' :
  m r = (x, r') ->
  bind (on_right m) k (w, r) = match x with Ok a => k a (w, r') | Err e => (Err e, (w, r')) end.
Proof. unfold bind, on_right. intros Hm. simpl. rewrite Hm. by destruct x. Qed.
Lemma on_left_pair {A} (m : M World A) w (r : R) x w' : m w = (x, w') -> on_left m (w, r) = (x, (w', r)).
Proof. unfold on_left. intros Hm. simpl. by rewrite Hm. Qed.

(** what is found in the log is a commit whose subject is the message *)
Lemma logged_commit_sound message r l r' sha :
  git_log git root 50 r = (Ok l, r') -> logged_commit message l = Some sha ->
  exists c, c ∈ history r /\ subject c.2 = message /\ sha = strip c.1.
Proof.
  intros Hlog. pose proof (law_log_entries _ _ _ _ laws _ _ _ Hlog) as Hall. clear Hlog.
  induction l as [|item l IH]; [done|]. cbn [logged_commit]. specialize (IH ltac:(intros i Hi; apply Hall; by right)).
  destruct (str_eqb _ _) eqn:Em; [|exact IH]. destruct (empty_str _); [exact IH|]. intros [= <-].
  destruct (Hall item ltac:(left)) as (c & Hc & Hh & Hm). exists c. split; [done|].
  rewrite Hm, str_or_empty_str in Em. apply str_eqb_true in Em. by rewrite Hh, str_or_empty_str.
Qed.
Lemma logged_commit_none message r l r' :
  git_log git root 50 r = (Ok l, r') -> (forall c, c ∈ history r -> subject c.2 <> message) ->
  logged_commit message l = None.
Proof.
  intros Hlog Hn. destruct (logged_commit message l) as [sha|] eqn:E; [|done].
  destruct (logged_commit_sound _ _ _ _ _ Hlog E) as (c & Hc & Hm & _). by destruct (Hn c Hc).
Qed.

(** marking writes the row of the intent, or nothing *)
Lemma mark_committed_spec iid sha w :
  match _mark_committed iid sha w with
  | (Ok i', w') => exists i, db_intents (db w) !! iid = Some i /\ blank sha = false /\
      i' = committed_intent sha (clock (ticks w)) i /\
      db w' = set_db_intents (<[ci_id i := i']> (db_intents (db w))) (db w)
  | (Err _, w') => db w' = db w
  end.
Proof.
  unfold _mark_committed. destruct (blank sha) eqn:Hb; [done|].
  unfold bind at 1, _now_ms. destruct (transaction _ _) as [[i'|e] w'] eqn:E.
  - unfold _intent in E. ok_inv. select (required _ _ _ = _) (fun H => apply required_Ok in H as [Hr ->]).
    unfold save_intent in *. ok_inv. eexists. split; [exact Hr|]. by split_and!.
  - by apply transaction_Err in E.
Qed.

(** what the code verified just before it commits *)
Definition verified (i : FactoryCommitIntent) (r : R) : Prop :=
  git_current_revision git root r = (Ok (ci_verified_revision i), r) /\
  git_workspace_fingerprint git root r = (Ok (ci_verified_fingerprint i), r) /\
  (exists c, git_diff_check git root r = (Ok c, r) /\ truthy (get "passed" c) = true) /\
  exists manifest diff, git_change_manifest git root r = (Ok manifest, r) /\
    git_diff git root r = (Ok diff, r) /\ _changed_paths manifest = Ok (ci_changed_paths i) /\
    _diff_digest manifest diff = ci_diff_digest i.

(** reading the checkout *)
Lemma read_keeps {A} (m : M R A) r :
  (forall x r', m r = (x, r') -> r' = r) -> exists x, m r = (x, r).
Proof. intros Hm. destruct (m r) as [x r'] eqn:E. rewrite (Hm x r' eq_refl). eauto. Qed.

Lemma verified_target_spec revision fingerprint r :
  exists x, verified_target git root revision fingerprint r = (x, r) /\
    (x = Ok tt -> git_current_revision git root r = (Ok revision, r) /\
       git_workspace_fingerprint git root r = (Ok fingerprint, r) /\
       exists c, git_diff_check git root r = (Ok c, r) /\ truthy (get "passed" c) = true).
Proof.
  unfold verified_target, bind.
  destruct (read_keeps (git_current_revision git root) r (law_revision _ _ _ _ laws r)) as [[cur|e] E1];
    rewrite E1; [|by eexists].
  destruct (str_eqb cur revision) eqn:Er; [apply str_eqb_true in Er as ->|by eexists].
  destruct (read_keeps (git_workspace_fingerprint git root) r (law_fingerprint _ _ _ _ laws r)) as [[fp|e] E2];
    simpl; rewrite E2; [|by eexists].
  destruct (str_eqb fp fingerprint) eqn:Ef; [apply str_eqb_true in Ef as ->|by eexists].
  destruct (read_keeps (git_diff_check git root) r (law_check _ _ _ _ laws r)) as [[c|e] E3];
    simpl; rewrite E3; [|by eexists].
  destruct (truthy (get "passed" c)) eqn:Ec; [|by eexists]. eexists. split; [done|]. eauto.
Qed.

Lemma intent_found w iid i : db_intents (db w) !! iid = Some i -> _intent iid w = (Ok i, w).
Proof. intros Hi. unfold _intent, query, bind, gets. by rewrite Hi. Qed.

(** a call that marks the intent, as its last step *)
Lemma mark_last i sha w (r : R) (x : result FactoryCommitIntent) (s' : World * R) :
  db_intents (db w) !! ci_id i = Some i ->
  on_left (_mark_committed (ci_id i) sha) (w, r) = (x, s') ->
  s'.2 = r /\
  match x with
  | Ok i' => exists now, i' = committed_intent sha now i /\
      db s'.1 = set_db_intents (<[ci_id i := i']> (db_intents (db w))) (db w)
  | Err _ => db s'.1 = db w
  end.
Proof.
  intros Hrow Hm. pose proof (mark_committed_spec (ci_id i) sha w) as Hspec.
  destruct (_mark_committed (ci_id i) sha w) as [y w'] eqn:E.
  rewrite (on_left_pair _ _ _ _ _ E) in Hm. injection Hm as <- <-. split; [done|].
  destruct y as [i'|e]; [|done]. destruct Hspec as (i0 & Hi0 & _ & -> & Hd).
  assert (i0 = i) as -> by congruence. eauto.
Qed.

(** one call, when the intent is not committed and its message is not logged *)
Lemma commit_fresh i w r x s' :
  db_intents (db w) !! ci_id i = Some i ->
  str_eqb (ci_status i) "COMMITTED" && has_key (ci_commit_sha i) = false ->
  (forall c, c ∈ history r -> subject c.2 <> ci_commit_message i) ->
  commit_intent git (ci_id i) root (w, r) = (x, s') ->
  (history s'.2 = history r /\ db s'.1 = db w /\ is_ok x = false) \/
  exists h, h <> "" /\ strip h = h /\ h <> ci_verified_revision i /\ verified i r /\
    history s'.2 = (h, ci_commit_message i) :: history r /\
    match x with
    | Ok i' => exists now, i' = committed_intent h now i /\
        db s'.1 = set_db_intents (<[ci_id i := i']> (db_intents (db w))) (db w)
    | Err _ => db s'.1 = db w
    end.
Proof.
  intros Hrow Hst Hlog. unfold commit_intent.
  rewrite (bind_left _ _ _ _ _ _ (intent_found _ _ _ Hrow)), Hst.
  destruct (read_keeps (git_log git root 50) r (law_log _ _ _ _ laws r)) as [l El].
  rewrite (bind_right _ _ _ _ _ _ El). destruct l as [l|e]; [|intros [= <- <-]; by left].
  rewrite (logged_commit_none _ _ _ _ El Hlog).
  destruct (verified_target_spec (ci_verified_revision i) (ci_verified_fingerprint i) r) as (v & Ev & Hv).
  rewrite (bind_right _ _ _ _ _ _ Ev). destruct v as [[]|e]; [|intros [= <- <-]; by left].
  destruct (read_keeps (git_change_manifest git root) r (law_manifest _ _ _ _ laws r)) as [mf Em].
  rewrite (bind_right _ _ _ _ _ _ Em). destruct mf as [mf|e]; [|intros [= <- <-]; by left].
  unfold bind at 1, lift at 1. destruct (_changed_paths mf) as [paths|e] eqn:Ep; [|intros [= <- <-]; by left].
  destruct (read_keeps (git_diff git root) r (law_diff _ _ _ _ laws r)) as [df Ed].
  rewrite (bind_right _ _ _ _ _ _ Ed). destruct df as [df|e]; [|intros [= <- <-]; by left].
  destruct (_ || _) eqn:Estale; [intros [= <- <-]; by left|].
  apply orb_false_iff in Estale as [E1%negb_false_iff%bool_decide_eq_true E2%negb_false_iff%str_eqb_true].
  assert (verified i r) as Hver.
  { destruct (Hv eq_refl) as (? & ? & ?). split_and!; try done. exists mf, df. by rewrite Ep, E1. }
  destruct (git_stage git root paths r) as [st r1] eqn:Est. pose proof (law_stage _ _ _ _ laws _ _ _ _ Est) as H1.
  rewrite (bind_right _ _ _ _ _ _ Est). destruct st as [u|e]; [|intros [= <- <-]; by left].
  destruct (git_commit git root (ci_commit_message i) r1) as [cm r2] eqn:Ec.
  pose proof (law_commit _ _ _ _ laws _ _ _ _ Ec) as H2.
  rewrite (bind_right _ _ _ _ _ _ Ec).
  destruct cm as [c|e]; [|intros [= <- <-]; left; split_and!; [simpl; congruence|done..]].
  destruct H2 as (h & Hh1 & Hh2 & Hnew & Hh). rewrite H1 in Hh, Hnew.
  assert (h <> ci_verified_revision i) as Hne.
  { intros ->. destruct Hver as [Hcur _]. destruct (law_head _ _ _ _ laws _ _ _ Hcur) as (m & rest & Hr).
    apply Hnew. rewrite Hr. left. }
  destruct (read_keeps (git_current_revision git root) r2 (law_revision _ _ _ _ laws r2)) as [sha Es].
  rewrite (bind_right _ _ _ _ _ _ Es). intros Hend. right. exists h.
  destruct sha as [sha|e]; [|injection Hend as <- <-; by split_and!].
  destruct (law_head _ _ _ _ laws _ _ _ Es) as (m & rest & Hhead). rewrite Hh in Hhead. injection Hhead as <- _ _.
  destruct (mark_last i h w r2 x s' Hrow Hend) as [-> Hx]. by split_and!.
Qed.

(** one call, when the commit is the newest one but is not recorded: it is found in the
    log and recorded, or, where the log does not show it, nothing happens any more *)
Lemma commit_recovers i w r x s' h rest :
  db_intents (db w) !! ci_id i = Some i ->
  str_eqb (ci_status i) "COMMITTED" && has_key (ci_commit_sha i) = false ->
  strip h = h -> h <> ci_verified_revision i -> history r = (h, ci_commit_message i) :: rest ->
  (forall c, c ∈ rest -> subject c.2 <> ci_commit_message i) ->
  commit_intent git (ci_id i) root (w, r) = (x, s') ->
  s'.2 = r /\
  match x with
  | Ok i' => exists now, i' = committed_intent h now i /\
      db s'.1 = set_db_intents (<[ci_id i := i']> (db_intents (db w))) (db w)
  | Err _ => db s'.1 = db w
  end.
Proof.
  intros Hrow Hst Hh2 Hne Hhist Hrest. unfold commit_intent.
  rewrite (bind_left _ _ _ _ _ _ (intent_found _ _ _ Hrow)), Hst.
  destruct (read_keeps (git_log git root 50) r (law_log _ _ _ _ laws r)) as [l El].
  rewrite (bind_right _ _ _ _ _ _ El). destruct l as [l|e]; [|by intros [= <- <-]].
  destruct (logged_commit _ l) as [sha|] eqn:Elog.
  - destruct (logged_commit_sound _ _ _ _ _ El Elog) as (c & Hc & Hm & ->). rewrite Hhist in Hc.
    apply elem_of_cons in Hc as [->|Hc]; [|by destruct (Hrest c Hc)]. cbn [fst]. rewrite Hh2. by apply mark_last.
  - destruct (verified_target_spec (ci_verified_revision i) (ci_verified_fingerprint i) r) as (v & Ev & Hv).
    rewrite (bind_right _ _ _ _ _ _ Ev). destruct v as [[]|e]; [|by intros [= <- <-]].
    destruct (Hv eq_refl) as [Hcur _]. destruct (law_head _ _ _ _ laws _ _ _ Hcur) as (m & tl & Hhead).
    rewrite Hhist in Hhead. injection Hhead as Hhead _ _. by destruct Hne.
Qed.

(** what is found in the log is recorded *)
Lemma commit_found i w r l r' sha :
  db_intents (db w) !! ci_id i = Some i ->
  str_eqb (ci_status i) "COMMITTED" && has_key (ci_commit_sha i) = false ->
  git_log git root 50 r = (Ok l, r') -> logged_commit (ci_commit_message i) l = Some sha ->
  strip sha = sha -> sha <> "" -> is_ok (commit_intent git (ci_id i) root (w, r)).1 = true.
Proof.
  intros Hrow Hst El Hsha Hs Hne. unfold commit_intent.
  rewrite (bind_left _ _ _ _ _ _ (intent_found _ _ _ Hrow)), Hst, (bind_right _ _ _ _ _ _ El), Hsha.
  unfold on_left, _mark_committed, blank. rewrite Hs, (proj2 (empty_str_false _) Hne).
  unfold bind at 1, _now_ms, transaction. unfold bind at 1.
  rewrite (intent_found {| db := db w; ticks := _; uids := _ |} _ _ Hrow), Hst. done.
Qed.

(** one call, when the intent is committed *)
Lemma commit_done i w r :
  db_intents (db w) !! ci_id i = Some i ->
  str_eqb (ci_status i) "COMMITTED" && has_key (ci_commit_sha i) = true ->
  commit_intent git (ci_id i) root (w, r) = (Ok i, (w, r)).
Proof.
  intros Hrow Hst. unfold commit_intent.
  by rewrite (bind_left _ _ _ _ _ _ (intent_found _ _ _ Hrow)), Hst.
Qed.

(** ** Attempts and crashes *)

(** calls of [commit_intent], one after the other; a process that crashes in a call
    leaves what happened to the checkout but may lose its write to the tables *)
Inductive attempts (iid : string) (s : World * R) : World * R -> Prop :=
  | no_attempt : attempts iid s s
  | attempt_finished s1 x s2 :
      attempts iid s s1 -> commit_intent git iid root s1 = (x, s2) -> attempts iid s s2
  | attempt_crashed s1 x s2 :
      attempts iid s s1 -> commit_intent git iid root s1 = (x, s2) -> attempts iid s (s1.1, s2.2).

(** where attempts can lead: nothing happened, or exactly one commit with the
    message of the intent was made, and is recorded or not *)
Inductive progress (i : FactoryCommitIntent) (r0 : R) (s : World * R) : Prop :=
  | progress_none :
      history s.2 = history r0 -> db_intents (db s.1) !! ci_id i = Some i -> progress i r0 s
  | progress_made h :
      h <> "" -> strip h = h -> h <> ci_verified_revision i -> history s.2 = (h, ci_commit_message i) :: history r0 ->
      db_intents (db s.1) !! ci_id i = Some i -> progress i r0 s
  | progress_recorded h now :
      h <> "" -> strip h = h -> history s.2 = (h, ci_commit_message i) :: history r0 ->
      db_intents (db s.1) !! ci_id i = Some (committed_intent h now i) -> progress i r0 s.

Lemma recorded_has_key h now i :
  h <> "" -> str_eqb (ci_status (committed_intent h now i)) "COMMITTED"
             && has_key (ci_commit_sha (committed_intent h now i)) = true.
Proof. intros Hh. simpl. by apply empty_str_false in Hh as ->. Qed.

Lemma progress_step i r0 s x s2 :
  str_eqb (ci_status i) "COMMITTED" && has_key (ci_commit_sha i) = false ->
  (forall c, c ∈ history r0 -> subject c.2 <> ci_commit_message i) ->
  progress i r0 s -> commit_intent git (ci_id i) root s = (x, s2) ->
  progress i r0 s2 /\ progress i r0 (s.1, s2.2) /\
  (forall i', x = Ok i' -> exists h now, i' = committed_intent h now i /\
     history s2.2 = (h, ci_commit_message i) :: history r0).
Proof.
  intros Hst Hlog Hp Hc. destruct s as [w r]. destruct Hp as [Hh Hrow|h H1 H2 H3 Hh Hrow|h now H1 H2 Hh Hrow].
  - simpl in Hh, Hrow.
    destruct (commit_fresh i w r x s2 Hrow Hst) as [(E1 & E2 & E3)|(h & H1 & H2 & H3 & _ & E & Hx)];
      [by rewrite Hh|done|..].
    + split_and!; [..|intros i' ->; done]; apply progress_none; simpl; rewrite ?E2; congruence.
    + rewrite Hh in E. split_and!; [|by eapply progress_made|].
      * destruct x as [i'|e]; [|eapply progress_made; try done; by rewrite Hx].
        destruct Hx as (now & -> & Hd). eapply progress_recorded; try done.
        rewrite Hd. simpl. by rewrite lookup_insert_eq.
      * intros i' ->. destruct Hx as (now & -> & _). eauto.
  - simpl in Hh, Hrow. destruct (commit_recovers i w r x s2 _ _ Hrow Hst H2 H3 Hh Hlog Hc) as [Hr Hx].
    assert (history s2.2 = (h, ci_commit_message i) :: history r0) as Hs2 by by rewrite Hr.
    split_and!; [|by eapply progress_made|].
    + destruct x as [i'|e]; [|eapply progress_made; try done; by rewrite Hx].
      destruct Hx as (now & -> & Hd). eapply progress_recorded; try done.
      rewrite Hd. simpl. by rewrite lookup_insert_eq.
    + intros i' ->. destruct Hx as (now & -> & _). eauto.
  - simpl in Hh, Hrow. change (ci_id i) with (ci_id (committed_intent h now i)) in Hrow, Hc.
    rewrite (commit_done _ w r Hrow (recorded_has_key h now i H1)) in Hc. injection Hc as <- <-.
    split_and!; [by eapply progress_recorded..|]. intros i' [= <-]. eauto.
Qed.

End Committing.

(** ** Paths *)

Section PathFacts.
Context `{Env}.

Definition plain (c : ascii) : bool := negb (bool_decide (c = "/"%char)).

Lemma split_plain s p : p ∈ split_on "/" s -> all_chars plain p = true.
Proof.
  revert p. induction s as [|c s IH]; intros p; simpl; [by intros ->%list_elem_of_singleton|].
  case_decide as Hc; [intros [->|?]%elem_of_cons; [done|auto]|].
  assert (plain c = true) as Hpc by (unfold plain; by rewrite bool_decide_eq_false_2).
  destruct (split_on "/" s) as [|q qs] eqn:E.
  - intros ->%list_elem_of_singleton. simpl. by rewrite Hpc.
  - intros [->|Hin]%elem_of_cons; [|apply IH; by right]. simpl. rewrite Hpc. apply IH. by left.
Qed.

Lemma split_one p : all_chars plain p = true -> split_on "/" p = [p].
Proof.
  induction p as [|c p IH]; [done|]. simpl. intros [Hc Hp]%andb_true_iff.
  unfold plain in Hc. apply negb_true_iff, bool_decide_eq_false in Hc.
  rewrite decide_False by done. by rewrite IH.
Qed.

Lemma split_join p s : all_chars plain p = true -> split_on "/" (p +:+ "/" +:+ s) = p :: split_on "/" s.
Proof.
  induction p as [|c p IH]; [done|]. intros [Hc Hp]%andb_true_iff.
  unfold plain in Hc. apply negb_true_iff, bool_decide_eq_false in Hc.
  change (String c p +:+ "/" +:+ s) with (String c (p +:+ "/" +:+ s)). cbn [split_on].
  rewrite decide_False by done. by rewrite (IH Hp).
Qed.

Definition real_part (p : string) : bool := negb (empty_str p) && negb (str_eqb p ".").

Lemma parts_join parts :
  Forall (fun p => all_chars plain p = true /\ real_part p = true) parts ->
  posix_parts (as_posix parts) = parts.
Proof.
  intros Hall. unfold posix_parts, as_posix. destruct parts as [|p parts]; [done|].
  assert (Hf : forall l, Forall (fun p => all_chars plain p = true /\ real_part p = true) l ->
            List.filter real_part l = l).
  { induction 1 as [|x l [_ Hx] _ IH]; simpl; [done|]. by rewrite Hx, IH. }
  assert (split_on "/" (str_join "/" (p :: parts)) = p :: parts) as ->; [|by apply Hf].
  clear Hf. revert p Hall. induction parts as [|q parts IH]; intros p Hall.
  - inversion_clear Hall as [|? ? [Hp _] _]. by apply split_one.
  - inversion_clear Hall as [|? ? [Hp _] Hrest].
    change (str_join "/" (p :: q :: parts)) with (p +:+ "/" +:+ str_join "/" (q :: parts)).
    rewrite (split_join _ _ Hp). f_equal. by apply IH.
Qed.

Lemma parts_real s : Forall (fun p => all_chars plain p = true /\ real_part p = true) (posix_parts s).
Proof.
  apply Forall_forall. intros p Hp. apply (elem_of_select real_part) in Hp as [Hp Hr].
  split; [by eapply split_plain|done].
Qed.

Lemma relative_join parts :
  Forall (fun p => all_chars plain p = true /\ real_part p = true) parts ->
  posix_absolute (as_posix parts) = false.
Proof.
  intros Hall. destruct Hall as [|p parts [Hp Hr] _]; [done|]. unfold posix_absolute, startswith.
  destruct p as [|c p]; [done|]. simpl in Hp. apply andb_true_iff in Hp as [Hc _].
  unfold plain in Hc. apply negb_true_iff, bool_decide_eq_false in Hc.
  assert (exists t, as_posix (String c p :: parts) = String c t) as [t ->]
    by (destruct parts; simpl; eauto).
  cbn [String.prefix]. case_match; [congruence|done].
Qed.

(** a path inside the checkout that is not a credential *)
Definition safe_path (p : string) : Prop :=
  posix_absolute p = false /\ is_in ".." (posix_parts p) = false /\
  _is_sensitive_path (posix_parts p) = false /\ as_posix (posix_parts p) = p.

(** the normalised text of a path of the manifest *)
Definition manifest_path (item : dict) (key : string) : string :=
  replace_char backslash "/"%char (strip (str_or_empty (get key item))).

Lemma changed_path_Ok item key ps :
  changed_path item key = Ok ps ->
  (forall p, p ∈ ps <-> manifest_path item key <> "" /\ p = as_posix (posix_parts (manifest_path item key))) /\
  forall p, p ∈ ps -> safe_path p.
Proof.
  unfold changed_path. fold (manifest_path item key). set (v := manifest_path item key).
  destruct (empty_str v) eqn:Ev.
  { apply empty_str_true in Ev. intros [= <-]. split; [|by intros p ?%elem_of_nil].
    intros p. split; [by intros ?%elem_of_nil|by intros [? _]]. }
  destruct (posix_absolute v || _) eqn:Ea; [done|]. destruct (_is_sensitive_path _) eqn:Es; [done|].
  intros [= <-]. apply orb_false_iff in Ea as [_ Ed]. apply empty_str_false in Ev. split.
  - intros p. rewrite list_elem_of_singleton. tauto.
  - intros p ->%list_elem_of_singleton. pose proof (parts_real v) as Hr.
    unfold safe_path. rewrite parts_join by done. split_and!; try done. by apply relative_join.
Qed.

Lemma elem_of_sorted_set l p : p ∈ sorted_set l <-> p ∈ l.
Proof. unfold sorted_set. rewrite (merge_sort_Permutation _ _), elem_of_remove_dups. done. Qed.

Lemma collect_paths_Ok manifest ps :
  collect_paths manifest = Ok ps ->
  (forall p, p ∈ ps <-> exists item key, item ∈ manifest /\ key ∈ ["path"; "old_path"] /\
     manifest_path item key <> "" /\ p = as_posix (posix_parts (manifest_path item key))) /\
  forall p, p ∈ ps -> safe_path p.
Proof.
  revert ps. induction manifest as [|item manifest IH]; intros ps; simpl.
  { intros [= <-]. split; [|by intros p ?%elem_of_nil]. intros p.
    split; [by intros ?%elem_of_nil|by intros (? & ? & ?%elem_of_nil & _)]. }
  intros (new & Hn & (old & Ho & (rest & Hr & [= <-])%rbind_Ok)%rbind_Ok)%rbind_Ok.
  destruct (changed_path_Ok _ _ _ Hn) as [N1 N2]. destruct (changed_path_Ok _ _ _ Ho) as [O1 O2].
  destruct (IH _ Hr) as [R1 R2]. split.
  - intros p. rewrite !elem_of_app, N1, O1, R1. split.
    + intros [[? ?]|[[? ?]|(it & key & ? & ? & ?)]].
      * exists item, "path". split; [by left|]. split; [by left|done].
      * exists item, "old_path". split; [by left|]. split; [by right; left|done].
      * exists it, key. split; [by right|done].
    + intros (it & key & [->|?]%elem_of_cons & Hk & ? & ?); [|right; right; by exists it, key].
      apply elem_of_cons in Hk as [->|[->|[]%elem_of_nil]%elem_of_cons]; auto.
  - intros p [?|[?|?]%elem_of_app]%elem_of_app; auto.
Qed.

(** What a commit may touch: when the changed paths of a manifest are accepted,
    they are without repetition exactly the normalised paths (old and new) the
    manifest names, and each is normal, relative, inside the checkout and not a
    credential. *)
Theorem changed_paths_safe manifest paths :
  _changed_paths manifest = Ok paths ->
  NoDup paths /\
  (forall p, p ∈ paths <-> exists item key, item ∈ manifest /\ key ∈ ["path"; "old_path"] /\
     manifest_path item key <> "" /\ p = as_posix (posix_parts (manifest_path item key))) /\
  forall p, p ∈ paths -> safe_path p.
Proof.
  unfold _changed_paths. intros (ps & Hps & [= <-])%rbind_Ok. apply collect_paths_Ok in Hps as [H1 H2].
  split_and!.
  - unfold sorted_set. rewrite (merge_sort_Permutation _ _). apply NoDup_remove_dups.
  - intros p. rewrite elem_of_sorted_set. apply H1.
  - intros p. rewrite elem_of_sorted_set. apply H2.
Qed.
End PathFacts.

(** ** Pushing *)

Section Pushing.
Context `{Env} {R : Type} (git : GitAdapter R) (root : string).
Context (head_read : forall r x r', git_current_revision git root r = (x, r') -> r' = r).

(** the push of the intent is authorised: exactly its commit, and that is the
    checkout's head *)
Definition authorized_push (i : FactoryCommitIntent) (a : PushAuthorization) (r : R) : Prop :=
  pu_approved a = true /\ ci_status i = "COMMITTED" /\ pu_revision a <> "" /\
  ci_commit_sha i = Some (pu_revision a) /\ git_current_revision git root r = (Ok (pu_revision a), r).

Definition pushed_under (i : FactoryCommitIntent) (a : PushAuthorization) : Prop :=
  ci_push_status i = Some "PUSHED" /\ ci_push_remote i = Some (pu_remote a) /\
  ci_push_branch i = Some (pu_branch a) /\ ci_push_approval_id i = Some (pu_approval_id a).

Lemma push_commit_cases iid a w r x s' :
  (forall i, db_intents (db w) !! iid = Some i -> ci_id i = iid) ->
  push_commit git iid root a (w, r) = (x, s') ->
  (s'.2 <> r -> exists i y, db_intents (db w) !! iid = Some i /\ authorized_push i a r /\
     git_push git root (pu_remote a) (pu_branch a) r = (y, s'.2)) /\
  match x with
  | Err _ => db s'.1 = db w
  | Ok i' => exists i, db_intents (db w) !! iid = Some i /\ pu_approved a = true /\
      ci_commit_sha i = Some (pu_revision a) /\ pushed_under i' a /\
      ((i' = i /\ s' = (w, r)) \/
       exists d now, authorized_push i a r /\
         git_push git root (pu_remote a) (pu_branch a) r = (Ok d, s'.2) /\
         truthy (get "ok" d) = true /\ i' = pushed_intent a now i /\
         db s'.1 = set_db_intents (<[iid := i']> (db_intents (db w))) (db w))
  end.
Proof.
  intros Hkey. unfold push_commit.
  destruct (db_intents (db w) !! iid) as [i|] eqn:Hrow; cycle 1.
  { erewrite bind_left; cycle 1.
    { unfold _intent, query, bind, gets, required, raise. by rewrite Hrow. }
    by intros [= <- <-]. }
  specialize (Hkey i eq_refl). rewrite (bind_left _ _ _ _ _ _ (intent_found _ _ _ Hrow)).
  destruct (_ || _) eqn:Est; [by intros [= <- <-]|].
  apply orb_false_iff in Est as [E1%negb_false_iff%str_eqb_true E2%negb_false_iff].
  destruct (pu_approved a) eqn:Eap; [cbn [negb]|by intros [= <- <-]].
  destruct (opt_eqb (Some (pu_revision a)) (ci_commit_sha i)) eqn:Erev; [cbn [negb]|by intros [= <- <-]].
  apply opt_eqb_true in Erev. rewrite <-Erev in E2. simpl in E2. apply negb_true_iff, empty_str_false in E2.
  destruct (opt_eqb (ci_push_status i) _) eqn:Eps.
  { apply opt_eqb_true in Eps. destruct (_ && _) eqn:Een; [|by intros [= <- <-]].
    apply andb_true_iff in Een as [[En1%opt_eqb_true En2%opt_eqb_true]%andb_true_iff En3%opt_eqb_true].
    intros [= <- <-]. split; [done|]. exists i. split_and!; try done. by left. }
  destruct (git_current_revision git root r) as [cur r1] eqn:Ecur. pose proof (head_read _ _ _ Ecur) as ->.
  rewrite (bind_right _ _ _ _ _ _ Ecur). destruct cur as [cur|e]; [|by intros [= <- <-]].
  destruct (opt_eqb (Some cur) (ci_commit_sha i)) eqn:Ehead; [cbn [negb]|by intros [= <- <-]].
  apply opt_eqb_true in Ehead. assert (cur = pu_revision a) as -> by congruence.
  assert (authorized_push i a r) as Hauth by by split_and!.
  destruct (git_push git root _ _ r) as [p r2] eqn:Epush. rewrite (bind_right _ _ _ _ _ _ Epush).
  destruct p as [d|e]; [|intros [= <- <-]; split; [intros _; by eexists i, _|done]].
  destruct (truthy (get "ok" d)) eqn:Eok; [cbn [negb]|intros [= <- <-]; split; [intros _; by eexists i, _|done]].
  rewrite (bind_left _ _ _ _ _ _ (eq_refl : _now_ms w = (Ok (clock (ticks w)), _))).
  unfold on_left. cbn [fst snd]. set (w1 := {| db := db w; ticks := S (ticks w); uids := uids w |}).
  assert (_intent (ci_id i) w1 = (Ok i, w1)) as Hi by (apply intent_found; by rewrite Hkey).
  unfold transaction. unfold bind at 1. rewrite Hi. unfold bind, save_intent, write, modify, ret, set_db.
  intros [= <- <-]. cbn [fst snd db ticks]. split; [intros _; by exists i, (Ok d)|].
  exists i. split_and!; try done. right. exists d, (clock (ticks w)). split_and!; try done.
  by rewrite <-Hkey.
Qed.

(** No push without the exact approval: the remote is only contacted for a
    committed intent, with an approval that is granted for exactly its commit while
    that commit is the head, and with the approved remote and branch; a call that
    returns has pushed and recorded the envelope, or found the same envelope
    recorded and did nothing; a call that raises records nothing. *)
Theorem push_needs_exact_approval iid a w r x s' :
  (forall i, db_intents (db w) !! iid = Some i -> ci_id i = iid) ->
  push_commit git iid root a (w, r) = (x, s') ->
  (s'.2 <> r -> exists i y, db_intents (db w) !! iid = Some i /\ authorized_push i a r /\
     git_push git root (pu_remote a) (pu_branch a) r = (y, s'.2)) /\
  match x with
  | Err _ => db s'.1 = db w
  | Ok i' => exists i, db_intents (db w) !! iid = Some i /\ pu_approved a = true /\
      ci_commit_sha i = Some (pu_revision a) /\ pushed_under i' a /\
      ((i' = i /\ s' = (w, r)) \/
       exists d now, authorized_push i a r /\
         git_push git root (pu_remote a) (pu_branch a) r = (Ok d, s'.2) /\
         truthy (get "ok" d) = true /\ i' = pushed_intent a now i /\
         db s'.1 = set_db_intents (<[iid := i']> (db_intents (db w))) (db w))
  end.
Proof. apply push_commit_cases. Qed.
End Pushing.

(** ** A concrete checkout *)

Record Repo := { repo_history : list (string * string); repo_pushed : list (string * string) }.

Definition demo_manifest : list dict :=
  [[("path", JStr " src\parser.py"); ("old_path", JNull)];
   [("path", JStr "docs/./a.md"); ("old_path", JStr "src/parser.py")]].
(** a hash longer than all others, and the lines of a message on one *)
Definition demo_hash (r : Repo) : string :=
  Nat.iter (S (list_sum (map (fun c => String.length c.1) (repo_history r)))) (String "c") "".
Definition demo_subject (message : string) : string := replace_char "010" " " message.
Definition demo_git : GitAdapter Repo := {|
  git_current_revision _ r := (match repo_history r with
                               | (h, _) :: _ => Ok h | [] => Err (RuntimeError "no commit") end, r);
  git_workspace_fingerprint _ := ret "f1";
  git_change_manifest _ := ret demo_manifest;
  git_diff _ := ret [("patch", JStr "+fix")];
  git_diff_check _ := ret [("passed", JBool true)];
  git_stage _ _ := ret tt;
  git_commit _ m r := (Ok [], {| repo_history := (demo_hash r, m) :: repo_history r; repo_pushed := repo_pushed r |});
  git_log _ n r := (Ok (map (fun c => [("hash", JStr c.1); ("message", JStr (demo_subject c.2))])
                          (take (Z.to_nat n) (repo_history r))), r);
  git_push _ remote branch r :=
    (Ok [("ok", JBool true)],
     {| repo_history := repo_history r; repo_pushed := (remote, branch) :: repo_pushed r |}) |}.

Lemma iter_c_length n : String.length (Nat.iter n (String "c") "") = n.
Proof. induction n as [|n IH]; [done|exact (f_equal S IH)]. Qed.
Lemma strip_iter_c n : strip (Nat.iter n (String "c") "") = Nat.iter n (String "c") "".
Proof.
  assert (forall n, rstrip (Nat.iter n (String "c") "") = Nat.iter n (String "c") "") as Hr.
  { clear. induction n as [|n IH]; [done|exact (f_equal (String "c") IH)]. }
  unfold strip. destruct n as [|n]; [done|]. exact (Hr (S n)).
Qed.
Lemma demo_hash_new r : demo_hash r ∉ map fst (repo_history r).
Proof.
  assert (forall cs h, h ∈ map fst cs -> (String.length h <= list_sum (map (fun c : string * string => String.length c.1) cs))%nat) as Hle.
  { induction cs as [|c cs IH]; intros h; [by intros ?%elem_of_nil|]. cbn [map]. intros [->|Hh]%elem_of_cons; cbn [list_sum foldr map]; [apply Nat.le_add_r|].
    etransitivity; [exact (IH h Hh)|apply Nat.le_add_l]. }
  intros Hin%Hle. unfold demo_hash in Hin. rewrite iter_c_length in Hin. lia.
Qed.
Lemma demo_git_laws root : git_laws demo_git root demo_subject repo_history.
Proof.
  split; simpl; try (by intros ? ? ? [= <- <-]); try (by intros ? ? ? ? [= <- <-]).
  - intros r sha r' Hi. destruct (repo_history r) as [|[h m] rest]; [done|]. injection Hi as <- _. eauto.
  - intros r l r' [= <- _] item (c & -> & Hc)%list_elem_of_fmap. exists c. split; [|done].
    eapply elem_of_submseteq; [exact Hc|by apply submseteq_take].
  - intros r m x r' [= <- <-]. exists (demo_hash r). split_and!; [done|apply strip_iter_c|apply demo_hash_new|done].
Qed.

Definition demo_intent : FactoryCommitIntent :=
  new_intent "fcommit_0" "factory_0" "cycle_2" "." "r1" "f1"
    (@_diff_digest demo_env demo_manifest [("patch", JStr "+fix")]) ["docs/a.md"; "src/parser.py"]
    (tagged_message "Fix the parser" "cycle_2" (@_diff_digest demo_env demo_manifest [("patch", JStr "+fix")])) 0.
Definition intent_world (i : FactoryCommitIntent) : World :=
  {| db := set_db_intents {[ "fcommit_0" := i ]} empty_db; ticks := 0; uids := 0 |}.
Definition demo_repo : Repo := {| repo_history := [("r1", "start")]; repo_pushed := [] |}.

(** The log shows a message on one line: of a commit whose message has more, a process
    that crashed after it finds nothing, and every later attempt ends with a revision
    that is not the verified one. *)
Definition folded_intent : FactoryCommitIntent :=
  new_intent "fcommit_0" "factory_0" "cycle_2" "." "r1" "f1"
    (@_diff_digest demo_env demo_manifest [("patch", JStr "+fix")]) ["docs/a.md"; "src/parser.py"]
    (tagged_message ("Fix the parser" +:+ String "010" "and its tests") "cycle_2"
       (@_diff_digest demo_env demo_manifest [("patch", JStr "+fix")])) 0.
Example folded_message_is_not_recovered :
  let s0 := (intent_world folded_intent, demo_repo) in
  let s1 := (s0.1, (@commit_intent demo_env Repo demo_git "fcommit_0" "." s0).2.2) in
  length (repo_history s1.2) = 2%nat /\
  (@commit_intent demo_env Repo demo_git "fcommit_0" "." s1).1 = Err (FactoryGitError "FACTORY_GIT_STALE_VERIFIED_REVISION").
Proof. split; vm_compute; reflexivity. Qed.


Theorem changed_paths_safe_witness :
  exists paths, @_changed_paths demo_env demo_manifest = Ok paths /\ NoDup paths /\
    forall p, p ∈ paths -> safe_path p.
Proof.
  destruct (@_changed_paths demo_env demo_manifest) as [paths|e] eqn:E; [|vm_compute in E; discriminate E].
  destruct (@changed_paths_safe demo_env demo_manifest paths E) as (Hn & _ & Hs).
  exists paths. split; [reflexivity|]. split; [exact Hn|exact Hs].
Defined.

Definition demo_push : PushAuthorization := {|
  pu_approved := true; pu_approval_id := "fapproval_1"; pu_revision := "c2"; pu_remote := "origin";
  pu_branch := "factory/parser" |}.

Theorem push_needs_exact_approval_witness :
  exists i' s', @push_commit demo_env Repo demo_git "fcommit_0" "." demo_push
      (intent_world (committed_intent "c2" 0 demo_intent),
       {| repo_history := [("c2", "m")]; repo_pushed := [] |}) = (Ok i', s') /\
    pushed_under i' demo_push /\ repo_pushed s'.2 = [("origin", "factory/parser")].
Proof.
  set (w := intent_world _). set (r := {| repo_history := _; repo_pushed := _ |}).
  destruct (@push_commit demo_env Repo demo_git "fcommit_0" "." demo_push (w, r)) as [x s'] eqn:E.
  destruct (@push_needs_exact_approval demo_env Repo demo_git "."
    (law_revision _ _ _ _ (demo_git_laws ".")) "fcommit_0" demo_push w r x s') as [_ Hx].
  - intros i Hi. vm_compute in Hi. injection Hi as <-. reflexivity.
  - exact E.
  - vm_compute in E. injection E as <- <-. destruct Hx as (i & _ & _ & _ & Hp & _).
    eexists _, _. split; [reflexivity|]. split; [exact Hp|reflexivity].
Defined.
