(* ===== verification/FactoryWorkers.v ===== *)
(** * Worker lanes

    Models [cptr/services/factory_workers.py] and [cptr/models/factory_workers.py]:
    the durable assignments of worker lanes to a run, the exclusive ownership of
    mutation scopes, and the quiescence of a run that is stopped.  The service of
    the direct coding workers, the workspace loader and the command sessions are
    parameters: operations on a world [R] of their own. *)

From S2P Require Import Prelude PyStr Json Redaction FactoryDomain FactoryGates.
From S2P Require Import FactoryVictory Database CapabilityLifecycle FactoryStore FactoryHistory.
From S2P Require Import FactoryStoreFacts FactoryFrames FactoryPhases FactoryGit FactorySafety.
From Stdlib Require Import Ascii.

Definition worker_error {A} (c : string) : result A := Err (FactoryWorkerError c).

(** ** Paths and scopes *)

(** [PureWindowsPath(s).is_absolute()] for a text that starts with two backslashes:
    a server and a share, or a device prefix *)
Definition unc_absolute (s : string) : bool :=
  match s with
  | String a (String b rest) =>
      bool_decide (a = backslash) && (bool_decide (b = backslash) || bool_decide (b = "/"%char)) &&
      (let share parts :=
         match parts with
         | [server; name] => negb (empty_str name) && negb (is_in server [""; "?"; "."])
         | _ :: _ :: _ :: _ => true
         | _ => false
         end in
       match split_on "/"%char (replace_char backslash "/"%char rest) with
       | device :: unc :: parts =>
           if str_eqb device "?" && str_eqb (upper unc) "UNC" then
             match parts with
             | [_; name] => negb (empty_str name)
             | _ :: _ :: _ :: _ => true
             | _ => false
             end
           else share (device :: unc :: parts)
       | _ => false
       end)
  | _ => false
  end.

(** [_normalize_repo_path] *)
Definition _normalize_repo_path (value : string) : result string :=
  let raw := value_or (strip (value_or value ".")) "." in
  if posix_absolute raw || windows_absolute raw || unc_absolute raw || is_in ".." (posix_parts raw) then
    worker_error "FACTORY_WORKER_INVALID_REPO_PATH"
  else Ok (as_posix (posix_parts raw)).

(** [s.strip('/')] *)
Fixpoint lstrip_slashes (s : string) : string :=
  match s with
  | String c s' => if bool_decide (c = "/"%char) then lstrip_slashes s' else s
  | EmptyString => EmptyString
  end.
Definition strip_slashes (s : string) : string :=
  str_rev (lstrip_slashes (str_rev (lstrip_slashes s))).

(** the path of one scope entry *)
Definition scope_path (raw_value : string) : result string :=
  let raw := replace_char backslash "/"%char (strip raw_value) in
  if empty_str raw then worker_error "FACTORY_WORKER_INVALID_SCOPE"
  else if posix_absolute raw || windows_absolute raw || is_in ".." (posix_parts raw) then
    worker_error "FACTORY_WORKER_INVALID_SCOPE"
  else Ok (value_or (strip_slashes (as_posix (posix_parts raw))) ".").
Fixpoint scope_paths (scope : list string) : result (list string) :=
  match scope with
  | [] => Ok []
  | raw :: scope =>
      let? value := scope_path raw in
      let? rest := scope_paths scope in Ok (value :: rest)
  end.
(** [_normalize_scope] *)
Definition _normalize_scope (scope : list string) : result (list string) :=
  let? normalized := scope_paths scope in
  if is_nil normalized then worker_error "FACTORY_WORKER_INVALID_SCOPE"
  else Ok (sorted_set normalized).

(** [_path_prefix] *)
Definition _path_prefix (left right : string) : bool :=
  str_eqb left "." || bool_decide (posix_parts left `prefix_of` posix_parts right).

(** [scopes_overlap] *)
Definition scopes_overlap (left right : list string) : result bool :=
  let? left := _normalize_scope left in
  let? right := _normalize_scope right in
  Ok (existsb (fun a => existsb (fun b => _path_prefix a b || _path_prefix b a) right) left).

(** ** The store of assignments *)

Definition _BLOCKING_MUTATION_STATUSES : list FactoryWorkerAssignmentStatus := [ACTIVE; CANCELLING].
Definition _ACTIVE_READ_ONLY_STATUSES : list FactoryWorkerAssignmentStatus := [ACTIVE].
Definition in_statuses (l : list FactoryWorkerAssignmentStatus) (s : FactoryWorkerAssignmentStatus) : bool :=
  existsb (fun x => bool_decide (x = s)) l.
Definition is_mutation (a : FactoryWorkerAssignment) : bool := bool_decide (wa_mode a = MUTATION).

(** the lanes that may still be writing *)
Definition blocking (a : FactoryWorkerAssignment) : bool :=
  is_mutation a && in_statuses _BLOCKING_MUTATION_STATUSES (wa_status a).
Definition blocking_lanes (workspace_id : string) (d : Db) : list FactoryWorkerAssignment :=
  select (fun a => str_eqb (wa_workspace_id a) workspace_id && blocking a) (rows_of (db_assignments d)).
Definition active_read_only (rid cid : string) (d : Db) : list FactoryWorkerAssignment :=
  select (fun a => str_eqb (wa_run_id a) rid && str_eqb (wa_cycle_id a) cid && negb (is_mutation a)
                   && in_statuses _ACTIVE_READ_ONLY_STATUSES (wa_status a))
    (rows_of (db_assignments d)).

(** the loop over the lanes that block a scope *)
Fixpoint free_of_overlap (lanes : list FactoryWorkerAssignment) (scope : list string) : result unit :=
  match lanes with
  | [] => Ok tt
  | existing :: lanes =>
      let? overlap := scopes_overlap (wa_scope existing) scope in
      if overlap then worker_error "FACTORY_WORKER_SCOPE_CONFLICT" else free_of_overlap lanes scope
  end.

Section Store.
Context `{Env}.

(** [get] *)
Definition get_assignment (aid : string) : M World (option FactoryWorkerAssignment) :=
  query (fun d => db_assignments d !! aid).
(** [list_for_run] *)
Definition list_for_run (rid : string) : M World (list FactoryWorkerAssignment) :=
  query (fun d => order_by (by_time_and_id wa_created_at wa_id)
                    (select (fun a => str_eqb (wa_run_id a) rid) (rows_of (db_assignments d)))).
(** [count_active_read_only] *)
Definition count_active_read_only (rid cid : string) : M World Z :=
  query (fun d => len_list (active_read_only rid cid d)).
(** [list_terminal_blocking_run_ids] *)
Definition list_terminal_blocking_run_ids : M World (list string) :=
  query (fun d => sorted_set (map wa_run_id
    (select (fun a => blocking a &&
               match db_runs d !! wa_run_id a with
               | Some r => is_terminal_factory_state (run_state r)
               | None => false
               end) (rows_of (db_assignments d))))).
(** [ensure_mutation_scope_available] *)
Definition ensure_mutation_scope_available (workspace_id : string) (scope : list string) : M World unit :=
  let* normalized := lift (_normalize_scope scope) in
  let* lanes := query (blocking_lanes workspace_id) in
  lift (free_of_overlap lanes normalized).

(** the row with its key and its UNIQUE constraint *)
Definition insert_assignment (a : FactoryWorkerAssignment) : M World unit :=
  let* d := query id in
  let* _ := check (bool_decide (db_assignments d !! wa_id a = None)) "factory_worker_assignments.id" in
  let* _ := check (known_run (wa_run_id a) d && known_cycle (Some (wa_cycle_id a)) d) "FOREIGN KEY" in
  let* _ := check (negb (existsb (fun x => same_key (wa_worker_id x) (wa_worker_id a))
                                 (rows_of (db_assignments d)))) "uq_factory_worker_assignment_worker" in
  write (fun d => set_db_assignments (<[wa_id a := a]> (db_assignments d)) d).

(** the arguments of [create_assignment] *)
Record AssignmentRequest := {
  ar_run_id : string;
  ar_cycle_id : string;
  ar_workspace_id : string;
  ar_worker_id : option string;
  ar_owner_key : string;
  ar_mode : FactoryWorkerAssignmentMode;
  ar_repo_path : string;
  ar_scope : list string;
  ar_branch : option string;
  ar_base_revision : option string;
  ar_max_read_only : option Z;
}.

Definition new_assignment (q : AssignmentRequest) (aid owner repo : string) (scope : list string)
    (now : Z) : FactoryWorkerAssignment := {|
  wa_id := aid; wa_run_id := ar_run_id q; wa_cycle_id := ar_cycle_id q;
  wa_workspace_id := ar_workspace_id q; wa_worker_id := ar_worker_id q; wa_owner_key := owner;
  wa_mode := ar_mode q; wa_repo_path := repo; wa_scope := scope; wa_branch := ar_branch q;
  wa_base_revision := ar_base_revision q; wa_status := ACTIVE; wa_created_at := now;
  wa_updated_at := now; wa_closed_at := None |}.

(** the lane is exclusive, or one of a bounded number of readers *)
Definition lane_available (q : AssignmentRequest) (scope : list string) : M World unit :=
  match ar_mode q with
  | MUTATION =>
      let* lanes := query (blocking_lanes (ar_workspace_id q)) in
      lift (free_of_overlap lanes scope)
  | READ_ONLY =>
      match ar_max_read_only q with
      | Some bound =>
          let* readers := query (active_read_only (ar_run_id q) (ar_cycle_id q)) in
          raise_if (bound <=? len_list readers)%Z as FactoryWorkerError "FACTORY_WORKER_READ_ONLY_LIMIT" in
          ret tt
      | None => ret tt
      end
  end.

(** [create_assignment] *)
Definition create_assignment (q : AssignmentRequest) : M World FactoryWorkerAssignment :=
  let* scope := lift (_normalize_scope (ar_scope q)) in
  let* repo := lift (_normalize_repo_path (ar_repo_path q)) in
  let owner := strip (ar_owner_key q) in
  raise_if empty_str owner as FactoryWorkerError "FACTORY_WORKER_INVALID_OWNER" in
  raise_if bool_decide (ar_mode q = MUTATION) && negb (has_key (ar_worker_id q))
    as FactoryWorkerError "FACTORY_WORKER_ID_REQUIRED" in
  raise_if match ar_max_read_only q with Some bound => (bound <=? 0)%Z | None => false end
    as ValueError "max_read_only_assignments must be positive" in
  catch (transaction (
    let* run := query (fun d => db_runs d !! ar_run_id q) in
    let* cycle := query (fun d => db_cycles d !! ar_cycle_id q) in
    match run, cycle with
    | Some run, Some cycle =>
        raise_if negb (str_eqb (cycle_run_id cycle) (ar_run_id q))
          as FactoryWorkerError "FACTORY_WORKER_RUN_CYCLE_MISMATCH" in
        raise_if negb (str_eqb (run_workspace_id run) (ar_workspace_id q))
          as FactoryWorkerError "FACTORY_WORKER_CROSS_WORKSPACE" in
        let* _ := lane_available q scope in
        let* now := _now_ms in
        let* aid := _new_id "fworker" in
        let* _ := insert_assignment (new_assignment q aid owner repo scope now) in
        ret (new_assignment q aid owner repo scope now)
    | _, _ => raise (FactoryWorkerError "FACTORY_WORKER_RUN_CYCLE_MISMATCH")
    end))
  is_integrity_error (fun _ => raise (FactoryWorkerError "FACTORY_WORKER_DUPLICATE_ASSIGNMENT")).

Definition updated_assignment (status : FactoryWorkerAssignmentStatus) (branch base_revision : option string)
    (now : Z) (a : FactoryWorkerAssignment) : FactoryWorkerAssignment := {|
  wa_id := wa_id a; wa_run_id := wa_run_id a; wa_cycle_id := wa_cycle_id a;
  wa_workspace_id := wa_workspace_id a; wa_worker_id := wa_worker_id a;
  wa_owner_key := wa_owner_key a; wa_mode := wa_mode a; wa_repo_path := wa_repo_path a;
  wa_scope := wa_scope a;
  wa_branch := match branch with Some b => Some b | None => wa_branch a end;
  wa_base_revision := match base_revision with Some b => Some b | None => wa_base_revision a end;
  wa_status := status; wa_created_at := wa_created_at a; wa_updated_at := now;
  wa_closed_at := if bool_decide (status = CLOSED) then Some now else wa_closed_at a |}.

(** [set_status] *)
Definition set_status (aid : string) (status : FactoryWorkerAssignmentStatus)
    (branch base_revision : option string) : M World FactoryWorkerAssignment :=
  transaction (
    let* row := query (fun d => db_assignments d !! aid) in
    let* row := required row (FactoryWorkerError "FACTORY_WORKER_ASSIGNMENT_NOT_FOUND") in
    let* now := _now_ms in
    let updated := updated_assignment status branch base_revision now row in
    let* _ := write (fun d => set_db_assignments (<[aid := updated]> (db_assignments d)) d) in
    ret updated).
Definition mark (aid : string) (status : FactoryWorkerAssignmentStatus) : M World FactoryWorkerAssignment :=
  set_status aid status None None.
End Store.

(** ** The controller *)

(** [DirectCodingWorkerService], as far as the controller calls it *)
Record WorkerService (R : Type) := {
  dw_create : string -> string -> string -> string -> string -> M R dict;
  dw_get : string -> string -> string -> M R dict;
  dw_close : string -> string -> string -> bool -> M R unit;
}.
Arguments dw_create {R} _.
Arguments dw_get {R} _.
Arguments dw_close {R} _.

Record WorkerQuiescenceResult := {
  wq_quiescent : bool;
  wq_failed_command_ids : list string;
  wq_unresolved_assignment_ids : list string;
}.

Definition worker_gone (e : exn) : bool :=
  match e with
  | DirectCodingWorkerError c =>
      is_in c ["DIRECT_WORKER_NOT_FOUND"; "DIRECT_WORKER_CLOSED"; "DIRECT_WORKER_WORKTREE_MISSING"]
  | _ => false
  end.
Definition any_exception (e : exn) : bool := true.
Definition is_key_error (e : exn) : bool := match e with KeyError _ => true | _ => false end.

(** [summary.get(key) == text] *)
Definition says (summary : dict) (key text : string) : bool :=
  match get key summary with JStr s => str_eqb s text | _ => false end.

Section Controller.
Context `{Env} {R : Type} (service : WorkerService R).
(** [_workspace_loader]: the identifier of the loaded workspace *)
Context (loader : string -> string -> M R string).
(** [_command_controller.terminate_and_wait] *)
Context (terminate : string -> string -> Z -> M R bool).
Context (max_read_only : Z).

(** [_validate_run_cycle] *)
Definition _validate_run_cycle (run : FactoryRun) (cycle : FactoryCycle) : result unit :=
  if negb (str_eqb (cycle_run_id cycle) (run_id run)) then
    worker_error "FACTORY_WORKER_RUN_CYCLE_MISMATCH"
  else if has_key (run_current_cycle_id run)
          && negb (opt_eqb (run_current_cycle_id run) (Some (cycle_id cycle))) then
    worker_error "FACTORY_WORKER_STALE_CYCLE"
  else Ok tt.

(** [_workspace] *)
Definition _workspace (run : FactoryRun) : M R string :=
  let* workspace := catch (loader (run_user_id run) (run_workspace_id run)) is_key_error
                      (fun _ => raise (FactoryWorkerError "FACTORY_WORKER_WORKSPACE_NOT_FOUND")) in
  raise_if negb (str_eqb workspace (run_workspace_id run))
    as FactoryWorkerError "FACTORY_WORKER_CROSS_WORKSPACE" in
  ret workspace.

(** what a summary says of the worker *)
Definition summary_text (key : string) (summary : dict) : string := str_or_empty (get key summary).

(** [_persist_mutation_summary] *)
Definition _persist_mutation_summary (run : FactoryRun) (cycle : FactoryCycle) (repo_path : string)
    (scope : list string) (summary : dict) : M World FactoryWorkerAssignment :=
  raise_if negb (says summary "workspace_id" (run_workspace_id run))
    as FactoryWorkerError "FACTORY_WORKER_CROSS_WORKSPACE" in
  let worker_id := strip (summary_text "worker_id" summary) in
  let branch := strip (summary_text "branch" summary) in
  let base := strip (summary_text "base_revision" summary) in
  raise_if empty_str worker_id || empty_str branch || empty_str base
    as FactoryWorkerError "FACTORY_WORKER_INVALID_WORKER_SUMMARY" in
  raise_if is_in (upper (summary_text "status" summary)) ["CLOSED"; "INTEGRATED"]
    as FactoryWorkerError "FACTORY_WORKER_NOT_MUTABLE" in
  raise_if has_key (base_revision cycle) && negb (opt_eqb (Some base) (base_revision cycle))
    as FactoryWorkerError "FACTORY_WORKER_BASE_REVISION_MISMATCH" in
  create_assignment
    {| ar_run_id := run_id run; ar_cycle_id := cycle_id cycle; ar_workspace_id := run_workspace_id run;
       ar_worker_id := Some worker_id; ar_owner_key := worker_id; ar_mode := MUTATION;
       ar_repo_path := repo_path; ar_scope := scope; ar_branch := Some branch;
       ar_base_revision := Some base; ar_max_read_only := None |}.

(** [create_mutation_worker] *)
Definition create_mutation_worker (run : FactoryRun) (cycle : FactoryCycle) (repo_path : string)
    (scope : list string) (name : string) : M (World * R) FactoryWorkerAssignment :=
  let* _ := lift (_validate_run_cycle run cycle) in
  let* scope := lift (_normalize_scope scope) in
  let* repo := lift (_normalize_repo_path repo_path) in
  let* _ := on_left (ensure_mutation_scope_available (run_workspace_id run) scope) in
  let* workspace := on_right (_workspace run) in
  let* summary := on_right (dw_create service (run_user_id run) workspace name
                    ("dark-factory:" +:+ run_id run +:+ ":" +:+ cycle_id cycle) repo) in
  catch (on_left (_persist_mutation_summary run cycle repo scope summary)) any_exception
    (fun e =>
       let worker_id := summary_text "worker_id" summary in
       let* _ := if empty_str worker_id then ret tt
                 else catch (on_right (dw_close service (run_user_id run) workspace worker_id false))
                        any_exception (fun _ => ret tt) in
       raise e).

(** [assign_mutation] *)
Definition assign_mutation (run : FactoryRun) (cycle : FactoryCycle) (worker_id repo_path : string)
    (scope : list string) : M (World * R) FactoryWorkerAssignment :=
  let* _ := lift (_validate_run_cycle run cycle) in
  let* summary := on_right (dw_get service (run_user_id run) (run_workspace_id run) worker_id) in
  let* repo := lift (_normalize_repo_path repo_path) in
  let* scope := lift (_normalize_scope scope) in
  on_left (_persist_mutation_summary run cycle repo scope summary).

(** [assign_read_only] *)
Definition assign_read_only (run : FactoryRun) (cycle : FactoryCycle) (owner_key : string)
    (scope : list string) (repo_path : string) : M (World * R) FactoryWorkerAssignment :=
  let* _ := lift (_validate_run_cycle run cycle) in
  let* _ := on_right (_workspace run) in
  let* count := on_left (count_active_read_only (run_id run) (cycle_id cycle)) in
  raise_if (max_read_only <=? count)%Z as FactoryWorkerError "FACTORY_WORKER_READ_ONLY_LIMIT" in
  on_left (create_assignment
    {| ar_run_id := run_id run; ar_cycle_id := cycle_id cycle; ar_workspace_id := run_workspace_id run;
       ar_worker_id := None; ar_owner_key := owner_key; ar_mode := READ_ONLY;
       ar_repo_path := repo_path; ar_scope := scope; ar_branch := None; ar_base_revision := None;
       ar_max_read_only := Some max_read_only |}).

(** the summary of a lane's worker: [None] when the worker is gone *)
Definition worker_summary (run : FactoryRun) (worker_id : string) : M (World * R) (option dict) :=
  catch (let* summary := on_right (dw_get service (run_user_id run) (run_workspace_id run) worker_id) in
         ret (Some summary))
    worker_gone (fun _ => ret None).

(** the status a worker's own status stands for *)
Definition reconciled_status (worker_status : string) : FactoryWorkerAssignmentStatus :=
  if is_in worker_status ["READY"; "WORKING"; "RUNNING"] then ACTIVE
  else if str_eqb worker_status "INTEGRATED" then INTEGRATED
  else if str_eqb worker_status "CLOSED" then CLOSED
  else MISSING.
(** the worker is still the one the lane was assigned *)
Definition same_worker (a : FactoryWorkerAssignment) (summary : dict) : bool :=
  let differs (key : string) (mine : option string) :=
    has_key mine && negb (opt_eqb (Some (summary_text key summary)) mine) in
  negb (differs "branch" (wa_branch a) || differs "base_revision" (wa_base_revision a)).

(** one turn of the loop of [reconcile] *)
Definition reconcile_one (run : FactoryRun) (a : FactoryWorkerAssignment)
    : M (World * R) FactoryWorkerAssignment :=
  if negb (is_mutation a) || bool_decide (wa_status a = CLOSED) then ret a
  else if negb (has_key (wa_worker_id a)) then on_left (mark (wa_id a) MISSING)
  else
    let* summary := worker_summary run (default "" (wa_worker_id a)) in
    match summary with
    | None => on_left (mark (wa_id a) MISSING)
    | Some summary =>
        if negb (says summary "workspace_id" (run_workspace_id run)) || negb (same_worker a summary) then
          on_left (mark (wa_id a) MISSING)
        else
          on_left (set_status (wa_id a) (reconciled_status (upper (summary_text "status" summary)))
                     (or_none (summary_text "branch" summary))
                     (or_none (summary_text "base_revision" summary)))
    end.
(** [reconcile] *)
Definition reconcile (run : FactoryRun) : M (World * R) (list FactoryWorkerAssignment) :=
  let* records := on_left (list_for_run (run_id run)) in
  for_each (reconcile_one run) records.

(** the commands a worker still runs *)
Definition active_commands (summary : dict) : result (list string) :=
  let value := get "active_command_ids" summary in
  let? items := if truthy value then py_iter value else Ok [] in
  Ok (sorted_set (List.filter (fun c => negb (empty_str c)) (map py_str items))).

(** the commands that did not stop *)
Fixpoint terminate_all (user_id : string) (timeout_ms : Z) (commands : list string)
    : M (World * R) (list string) :=
  match commands with
  | [] => ret []
  | c :: commands =>
      let* stopped := on_right (terminate user_id c timeout_ms) in
      let* failed := terminate_all user_id timeout_ms commands in
      ret (if stopped then failed else c :: failed)
  end.

(** one turn of the loop of [cancel_run]: the commands that failed and the unresolved
    lanes *)
Definition cancel_one (run : FactoryRun) (timeout_ms : Z) (a : FactoryWorkerAssignment)
    : M (World * R) (list string * list string) :=
  if negb (is_mutation a) || in_statuses [CLOSED; INTEGRATED; QUIESCENT] (wa_status a) then ret ([], [])
  else if bool_decide (wa_status a = MISSING) || negb (has_key (wa_worker_id a)) then ret ([], [wa_id a])
  else
    let* summary := worker_summary run (default "" (wa_worker_id a)) in
    let gone := let* _ := on_left (mark (wa_id a) MISSING) in ret ([], [wa_id a]) in
    match summary with
    | None => gone
    | Some summary =>
        if negb (says summary "workspace_id" (run_workspace_id run)) then gone
        else
          let* commands := lift (active_commands summary) in
          if is_nil commands then let* _ := on_left (mark (wa_id a) QUIESCENT) in ret ([], [])
          else
            let* _ := on_left (mark (wa_id a) CANCELLING) in
            let* failed := terminate_all (run_user_id run) timeout_ms commands in
            if is_nil failed then let* _ := on_left (mark (wa_id a) QUIESCENT) in ret ([], [])
            else ret (failed, [])
    end.
(** [cancel_run] *)
Definition cancel_run (run : FactoryRun) (timeout_ms : Z) : M (World * R) WorkerQuiescenceResult :=
  raise_if (timeout_ms <=? 0)%Z as ValueError "timeout_ms must be positive" in
  let* records := on_left (list_for_run (run_id run)) in
  let* outcomes := for_each (cancel_one run timeout_ms) records in
  let failed := concat outcomes.*1 in
  let unresolved := concat outcomes.*2 in
  ret {| wq_quiescent := is_nil failed && is_nil unresolved;
         wq_failed_command_ids := sorted_set failed;
         wq_unresolved_assignment_ids := sorted_set unresolved |}.

(** [cleanup] *)
Definition cleanup (run : FactoryRun) (assignment_id : string) (discard_changes : bool)
    : M (World * R) FactoryWorkerAssignment :=
  let* row := on_left (get_assignment assignment_id) in
  match row with
  | None => raise (FactoryWorkerError "FACTORY_WORKER_ASSIGNMENT_NOT_FOUND")
  | Some a =>
      raise_if negb (str_eqb (wa_run_id a) (run_id run))
        as FactoryWorkerError "FACTORY_WORKER_ASSIGNMENT_NOT_FOUND" in
      raise_if negb (str_eqb (wa_workspace_id a) (run_workspace_id run))
        as FactoryWorkerError "FACTORY_WORKER_CROSS_WORKSPACE" in
      if bool_decide (wa_status a = CLOSED) then ret a
      else if negb (is_mutation a) then on_left (mark (wa_id a) CLOSED)
      else
        raise_if negb (in_statuses [QUIESCENT; INTEGRATED] (wa_status a))
          as FactoryWorkerError "FACTORY_WORKER_NOT_QUIESCENT" in
        raise_if negb (has_key (wa_worker_id a)) as FactoryWorkerError "FACTORY_WORKER_ID_REQUIRED" in
        let* workspace := on_right (_workspace run) in
        let* _ := on_right (dw_close service (run_user_id run) workspace
                              (default "" (wa_worker_id a)) discard_changes) in
        on_left (mark (wa_id a) CLOSED)
  end.
End Controller.

(** ** Scopes and the files they own *)

(** a path, as the list of its parts, belongs to an entry that is a prefix of it *)
Definition owns (entry : string) (path : list string) : Prop :=
  entry = "." \/ posix_parts entry `prefix_of` path.
Definition covered (scope : list string) (path : list string) : Prop :=
  exists entry, entry ∈ scope /\ owns entry path.

Lemma path_prefix_true a b :
  _path_prefix a b = true <-> a = "." \/ posix_parts a `prefix_of` posix_parts b.
Proof. unfold _path_prefix. by rewrite orb_true_iff, str_eqb_true, bool_decide_eq_true. Qed.

Lemma owns_both a b :
  _path_prefix a b || _path_prefix b a = true <-> exists path, owns a path /\ owns b path.
Proof.
  rewrite orb_true_iff, !path_prefix_true. unfold owns. split.
  - intros [Hp|Hp]; [exists (posix_parts b)|exists (posix_parts a)]; naive_solver.
  - intros (path & [->|Ha] & [->|Hb]); auto.
    destruct (prefix_weak_total _ _ _ Ha Hb); auto.
Qed.

Lemma scopes_overlap_Ok left right b :
  scopes_overlap left right = Ok b ->
  exists l r, _normalize_scope left = Ok l /\ _normalize_scope right = Ok r /\
    (b = true <-> exists path, covered l path /\ covered r path).
Proof.
  unfold scopes_overlap. intros (l & Hl & (r & Hr & [= <-])%rbind_Ok)%rbind_Ok.
  exists l, r. split_and!; [done|done|]. rewrite existsb_elem. unfold covered. split.
  - intros (x & Hx & (y & Hy & (path & ? & ?)%owns_both)%existsb_elem). exists path. split; eauto.
  - intros (path & (x & Hx & Hox) & (y & Hy & Hoy)). exists x. split; [done|].
    apply existsb_elem. exists y. split; [done|]. apply owns_both. eauto.
Qed.

Lemma scopes_overlap_comm left right b :
  scopes_overlap left right = Ok b -> scopes_overlap right left = Ok b.
Proof.
  intros Ho. destruct (scopes_overlap_Ok _ _ _ Ho) as (l & r & Hl & Hr & Hb).
  assert (exists b', scopes_overlap right left = Ok b') as [b' Ho'].
  { unfold scopes_overlap. rewrite Hl, Hr. simpl. eauto. }
  destruct (scopes_overlap_Ok _ _ _ Ho') as (r' & l' & Hr' & Hl' & Hb').
  rewrite Ho'. f_equal. apply eq_true_iff_eq. rewrite Hb, Hb'.
  rewrite Hl in Hl'. rewrite Hr in Hr'. injection Hl' as <-. injection Hr' as <-.
  split; intros (path & ? & ?); eauto.
Qed.

Lemma free_of_overlap_Ok lanes scope u a :
  free_of_overlap lanes scope = Ok u -> a ∈ lanes -> scopes_overlap (wa_scope a) scope = Ok false.
Proof.
  induction lanes as [|x lanes IH]; simpl; [by intros _ ?%elem_of_nil|].
  intros ([] & Hx & Hrest)%rbind_Ok; [done|]. intros [->|?]%elem_of_cons; auto.
Qed.

(** ** Well-formed lanes *)

Record lanes_wf (d : Db) : Prop := {
  lane_key i a : db_assignments d !! i = Some a -> wa_id a = i;
  lane_worker i a : db_assignments d !! i = Some a -> is_mutation a = true -> has_key (wa_worker_id a) = true;
  lane_worker_once i j a b w : db_assignments d !! i = Some a -> db_assignments d !! j = Some b ->
    wa_worker_id a = Some w -> wa_worker_id b = Some w -> i = j;
  lane_exclusive i j a b : db_assignments d !! i = Some a -> db_assignments d !! j = Some b -> i <> j ->
    blocking a = true -> blocking b = true -> wa_workspace_id a = wa_workspace_id b ->
    scopes_overlap (wa_scope a) (wa_scope b) = Ok false;
}.

(** a lane whose status moved, but not to one that blocks unless it did before *)
Record quieter (a a' : FactoryWorkerAssignment) : Prop := {
  qt_id : wa_id a' = wa_id a;
  qt_run : wa_run_id a' = wa_run_id a;
  qt_workspace : wa_workspace_id a' = wa_workspace_id a;
  qt_worker : wa_worker_id a' = wa_worker_id a;
  qt_mode : wa_mode a' = wa_mode a;
  qt_scope : wa_scope a' = wa_scope a;
}.

Lemma updated_quieter st b r now a : quieter a (updated_assignment st b r now a).
Proof. by split. Qed.

Lemma lanes_update d i a a' :
  lanes_wf d -> db_assignments d !! i = Some a -> quieter a a' ->
  (blocking a' = true -> blocking a = true) ->
  lanes_wf (set_db_assignments (<[i := a']> (db_assignments d)) d).
Proof.
  intros Hwf Ha Hq Hb.
  assert (Hold : forall j x, <[i := a']> (db_assignments d) !! j = Some x ->
    exists y, db_assignments d !! j = Some y /\ quieter y x /\ (blocking x = true -> blocking y = true)).
  { intros j x. destruct (decide (i = j)) as [<-|].
    - rewrite lookup_insert_eq. intros [= <-]. eauto.
    - rewrite lookup_insert_ne by done. exists x. split_and!; [done|by split|done]. }
  split; cbn [db_assignments set_db_assignments].
  - intros j x (y & Hy & Hxy & _)%Hold. rewrite (qt_id _ _ Hxy). by eapply lane_key.
  - intros j x (y & Hy & Hxy & _)%Hold. unfold is_mutation. rewrite (qt_mode _ _ Hxy), (qt_worker _ _ Hxy).
    by eapply lane_worker.
  - intros j k x y w (x' & Hx & Hxx & _)%Hold (y' & Hy & Hyy & _)%Hold.
    rewrite (qt_worker _ _ Hxx), (qt_worker _ _ Hyy). by eapply lane_worker_once.
  - intros j k x y (x' & Hx & Hxx & Hbx)%Hold (y' & Hy & Hyy & Hby)%Hold Hne Bx By.
    rewrite (qt_workspace _ _ Hxx), (qt_workspace _ _ Hyy), (qt_scope _ _ Hxx), (qt_scope _ _ Hyy).
    intros Hws. eapply lane_exclusive; eauto.
Qed.

Lemma lanes_insert d a :
  lanes_wf d -> db_assignments d !! wa_id a = None ->
  (is_mutation a = true -> has_key (wa_worker_id a) = true) ->
  (forall i b w, db_assignments d !! i = Some b -> wa_worker_id b = Some w -> wa_worker_id a <> Some w) ->
  (forall i b, db_assignments d !! i = Some b -> blocking a = true -> blocking b = true ->
     wa_workspace_id b = wa_workspace_id a -> scopes_overlap (wa_scope b) (wa_scope a) = Ok false) ->
  lanes_wf (set_db_assignments (<[wa_id a := a]> (db_assignments d)) d).
Proof.
  intros Hwf Hnew Hwk Honce Hex. split; cbn [db_assignments set_db_assignments].
  - intros i x. rewrite lookup_insert_Some. intros [[<- <-]|[_ ?]]; [done|by eapply lane_key].
  - intros i x. rewrite lookup_insert_Some. intros [[<- <-]|[_ ?]]; [done|by eapply lane_worker].
  - intros i j x y w. rewrite !lookup_insert_Some.
    intros [[<- <-]|[? Hx]] [[<- <-]|[? Hy]] Hwx Hwy; [done| | |by eapply lane_worker_once].
    + by destruct (Honce _ _ _ Hy Hwy).
    + by destruct (Honce _ _ _ Hx Hwx).
  - intros i j x y. rewrite !lookup_insert_Some.
    intros [[<- <-]|[? Hx]] [[<- <-]|[? Hy]] Hne Bx By Hws; [done| | |by eapply lane_exclusive].
    + apply scopes_overlap_comm. eauto.
    + eauto.
Qed.

(** ** What the operations do to the lanes *)

Section Facts.
Context `{Env}.

Lemma set_status_keeps I aid st b r :
  (forall d a now, I d -> db_assignments d !! aid = Some a ->
     I (set_db_assignments (<[aid := updated_assignment st b r now a]> (db_assignments d)) d)) ->
  keeps I (set_status aid st b r).
Proof.
  intros HI. unfold set_status. apply keeps_transaction. intros w a w' Hw Hr. ok_inv.
  unfold required in *. destruct (db_assignments (db w) !! aid) eqn:E; ok_inv. by apply HI.
Qed.

Lemma set_status_Ok aid st b r w a' w' :
  set_status aid st b r w = (Ok a', w') ->
  exists a, db_assignments (db w) !! aid = Some a /\ quieter a a' /\ wa_status a' = st /\
    db_assignments (db w') = <[aid := a']> (db_assignments (db w)).
Proof.
  unfold set_status. intros Hr. ok_inv. unfold required in *.
  destruct (db_assignments (db w) !! aid) as [a|] eqn:E; ok_inv. exists a. by split_and!.
Qed.

(** the rows of [d] are those of [d0], no less quiet *)
Definition quieted (d0 d : Db) : Prop :=
  forall i x, db_assignments d !! i = Some x ->
    exists y, db_assignments d0 !! i = Some y /\ quieter y x /\ (blocking x = true -> blocking y = true).
(** the rows of [d] are those of [d0] but for their status *)
Definition same_lanes (d0 d : Db) : Prop :=
  forall i x, db_assignments d !! i = Some x -> exists y, db_assignments d0 !! i = Some y /\ quieter y x.

Lemma quieter_trans a b c : quieter a b -> quieter b c -> quieter a c.
Proof. intros [? ? ? ? ? ?] [? ? ? ? ? ?]. split; congruence. Qed.

Lemma quieted_wf d0 d : lanes_wf d0 -> quieted d0 d -> lanes_wf d.
Proof.
  intros Hwf Hq. split.
  - intros i x (y & Hy & Hxy & _)%Hq. rewrite (qt_id _ _ Hxy). by eapply lane_key.
  - intros i x (y & Hy & Hxy & _)%Hq. unfold is_mutation. rewrite (qt_mode _ _ Hxy), (qt_worker _ _ Hxy).
    by eapply lane_worker.
  - intros j k x y w (x' & Hx & Hxx & _)%Hq (y' & Hy & Hyy & _)%Hq.
    rewrite (qt_worker _ _ Hxx), (qt_worker _ _ Hyy). by eapply lane_worker_once.
  - intros j k x y (x' & Hx & Hxx & Hbx)%Hq (y' & Hy & Hyy & Hby)%Hq Hne Bx By.
    rewrite (qt_workspace _ _ Hxx), (qt_workspace _ _ Hyy), (qt_scope _ _ Hxx), (qt_scope _ _ Hyy).
    intros Hws. eapply lane_exclusive; eauto.
Qed.
Lemma quieted_refl d : quieted d d.
Proof. intros i x Hx. exists x. split_and!; [done|by split|done]. Qed.

Lemma set_status_quieted d0 aid st b r :
  (in_statuses _BLOCKING_MUTATION_STATUSES st = true ->
   exists a, db_assignments d0 !! aid = Some a /\ blocking a = true) ->
  keeps (quieted d0) (set_status aid st b r).
Proof.
  intros Hst. apply set_status_keeps. intros d a now Hq Ha i x. cbn [db_assignments set_db_assignments].
  rewrite lookup_insert_Some. intros [[<- <-]|[_ Hx]]; [|by apply Hq].
  destruct (Hq _ _ Ha) as (y & Hy & Hya & _). exists y. split; [done|]. split.
  - eapply quieter_trans; [exact Hya|apply updated_quieter].
  - unfold blocking at 1. intros [_ (z & Hz & ?)%Hst]%andb_true_iff. naive_solver.
Qed.

Lemma set_status_lanes d0 aid st b r : keeps (same_lanes d0) (set_status aid st b r).
Proof.
  apply set_status_keeps. intros d a now Hq Ha i x. cbn [db_assignments set_db_assignments].
  rewrite lookup_insert_Some. intros [[<- <-]|[_ Hx]]; [|by apply Hq].
  destruct (Hq _ _ Ha) as (y & Hy & Hya). exists y. split; [done|].
  eapply quieter_trans; [exact Hya|apply updated_quieter].
Qed.

Lemma set_status_row i x aid st b r :
  aid <> i -> keeps (fun d => db_assignments d !! i = x) (set_status aid st b r).
Proof.
  intros Hne. apply set_status_keeps. intros d a now Hd Ha. simpl. by rewrite lookup_insert_ne.
Qed.

(** nothing but the lanes *)
Definition only_lanes (d0 d : Db) : Prop := exists t, d = set_db_assignments t d0.
Lemma set_status_only d0 aid st b r : keeps (only_lanes d0) (set_status aid st b r).
Proof. apply set_status_keeps. intros d a now [t ->] Ha. by eexists. Qed.

Lemma insert_assignment_Ok a u w w' :
  insert_assignment a w = (Ok u, w') ->
  db w' = set_db_assignments (<[wa_id a := a]> (db_assignments (db w))) (db w) /\
  db_assignments (db w) !! wa_id a = None /\
  (forall i b x, db_assignments (db w) !! i = Some b -> wa_worker_id b = Some x -> wa_worker_id a <> Some x).
Proof.
  unfold insert_assignment. intros Hi. ok_inv. apply bool_decide_eq_true in Hx0.
  apply negb_true_iff in Hx2. rewrite existsb_false in Hx2. split_and!; [done|done|].
  intros i b y Hb Hyb Hya. specialize (Hx2 b). rewrite elem_of_rows in Hx2.
  specialize (Hx2 (ex_intro _ i Hb)). rewrite Hyb, Hya in Hx2. simpl in Hx2. by rewrite str_eqb_refl in Hx2.
Qed.

Lemma lane_available_Ok q scope u w w' :
  lane_available q scope w = (Ok u, w') ->
  w' = w /\ (ar_mode q = MUTATION -> forall i b, db_assignments (db w) !! i = Some b -> blocking b = true ->
    wa_workspace_id b = ar_workspace_id q -> scopes_overlap (wa_scope b) scope = Ok false).
Proof.
  unfold lane_available. destruct (ar_mode q); intros Hl; [destruct (ar_max_read_only q)|]; ok_inv; split; try done.
  intros _ i b Hb Hbl Hws. eapply free_of_overlap_Ok; [exact Hl|].
  apply elem_of_select. split; [by apply elem_of_rows; exists i|]. by rewrite Hws, str_eqb_refl, Hbl.
Qed.

(** a successful assignment: the row of the request, inserted where nothing blocks it *)
Lemma create_assignment_Ok q a w w' :
  create_assignment q w = (Ok a, w') ->
  exists aid owner repo scope now,
    a = new_assignment q aid owner repo scope now /\
    _normalize_scope (ar_scope q) = Ok scope /\ _normalize_repo_path (ar_repo_path q) = Ok repo /\
    (ar_mode q = MUTATION -> has_key (ar_worker_id q) = true) /\
    db_assignments (db w) !! aid = None /\
    (forall i b x, db_assignments (db w) !! i = Some b -> wa_worker_id b = Some x -> ar_worker_id q <> Some x) /\
    (ar_mode q = MUTATION -> forall i b, db_assignments (db w) !! i = Some b -> blocking b = true ->
       wa_workspace_id b = ar_workspace_id q -> scopes_overlap (wa_scope b) scope = Ok false) /\
    db w' = set_db_assignments (<[aid := a]> (db_assignments (db w))) (db w).
Proof.
  unfold create_assignment. intros Hc. repeat ok_step.
  match goal with Hc : catch ?m ?p ?h ?w0 = _ |- _ =>
    assert (m w0 = (Ok a, w')) as Hm by (unfold catch in Hc; destruct (m w0) as [[?|e] w1]; [done|];
      destruct (p e); [|done]; unfold raise in Hc; done); clear Hc end.
  ok_inv.
  match goal with Hl : lane_available _ _ _ = _ |- _ => apply lane_available_Ok in Hl as [-> Hl] end.
  match goal with Hi : insert_assignment _ _ = _ |- _ => apply insert_assignment_Ok in Hi as (Hd & Hnew & Honce) end.
  cbn [db wa_id wa_worker_id new_assignment] in Hd, Hnew, Honce.
  eexists _, _, _, _, _. split_and!; try done. intros Hm.
  match goal with E : bool_decide _ && _ = false |- _ =>
    apply andb_false_iff in E as [E|E]; [by apply bool_decide_eq_false in E|by apply negb_false_iff in E] end.
Qed.

Lemma create_assignment_Err q e w w' : create_assignment q w = (Err e, w') -> db w' = db w.
Proof.
  unfold create_assignment, bind at 1 2, lift at 1 2. destruct (_normalize_scope _); [|by intros [= _ <-]].
  destruct (_normalize_repo_path _); [|by intros [= _ <-]]. cbv beta.
  do 3 (match goal with |- (if ?c then _ else _) _ = _ -> _ => destruct c; [by intros [= _ <-]|] end).
  unfold catch. destruct (transaction _ w) as [[b|e'] w1] eqn:Et; [done|]. apply transaction_Err in Et.
  destruct (is_integrity_error e'); intros [= _ <-]; done.
Qed.

Lemma create_assignment_keeps q : keeps lanes_wf (create_assignment q).
Proof.
  intros w Hw. destruct (create_assignment q w) as [[a|e] w'] eqn:E; cbn [snd].
  - destruct (create_assignment_Ok _ _ _ _ E)
      as (aid & owner & repo & scope & now & Ha & _ & _ & Hwk & Hnew & Honce & Hfree & ->).
    subst a. apply (lanes_insert (db w) (new_assignment q aid owner repo scope now)); try done; cbn.
    + intros Hm. apply Hwk. by apply bool_decide_eq_true in Hm.
    + intros i b Hb Hbl Hbb Hws. eapply Hfree; try done.
      apply andb_true_iff in Hbl as [Hm _]. by apply bool_decide_eq_true in Hm.
  - by rewrite (create_assignment_Err _ _ _ _ E).
Qed.
End Facts.

(** ** The controller's loops *)

Section Loops.
Context `{Env} {R : Type} (service : WorkerService R) (loader : string -> string -> M R string).
Context (terminate : string -> string -> Z -> M R bool) (max_read_only : Z).
#[local] Abbreviation cancels := (cancel_one service terminate).

Lemma worker_summary_keeps I run wid : pkeeps I (worker_summary service run wid).
Proof. unfold worker_summary. repeat pkeeps_step. Qed.
Lemma terminate_all_keeps I user ms commands : pkeeps I (terminate_all terminate user ms commands).
Proof. induction commands; simpl; repeat pkeeps_step; auto. Qed.
#[local] Hint Resolve worker_summary_keeps terminate_all_keeps : pkeeps.

(** a turn of the cancelling loop keeps what the marks it may make keep *)
Lemma cancel_one_keeps I run ms a :
  keeps I (mark (wa_id a) MISSING) -> keeps I (mark (wa_id a) QUIESCENT) ->
  (blocking a = true -> keeps I (mark (wa_id a) CANCELLING)) ->
  pkeeps I (cancels run ms a).
Proof.
  intros Hm Hq Hc. unfold cancel_one.
  destruct (negb (is_mutation a) || _) eqn:E1; [auto with pkeeps|].
  destruct (bool_decide (wa_status a = MISSING) || _) eqn:E2; [auto with pkeeps|].
  assert (keeps I (mark (wa_id a) CANCELLING)) as Hc'.
  { apply Hc. unfold blocking. apply orb_false_iff in E1 as [E1 E1']. apply orb_false_iff in E2 as [E2 _].
    apply negb_false_iff in E1. rewrite E1. by destruct (wa_status a). }
  repeat pkeeps_step.
Qed.

Lemma cancel_one_quieted d0 run ms a :
  db_assignments d0 !! wa_id a = Some a -> pkeeps (quieted d0) (cancels run ms a).
Proof. intros Ha. apply cancel_one_keeps; intros; apply set_status_quieted; try done. eauto. Qed.
Lemma cancel_one_only d0 run ms a : pkeeps (only_lanes d0) (cancels run ms a).
Proof. apply cancel_one_keeps; intros; apply set_status_only. Qed.
Lemma cancel_one_row i x run ms a :
  wa_id a <> i -> pkeeps (fun d => db_assignments d !! i = x) (cancels run ms a).
Proof. intros Hne. apply cancel_one_keeps; intros; by apply set_status_row. Qed.

Definition settled (a : FactoryWorkerAssignment) : bool :=
  in_statuses [CLOSED; INTEGRATED; QUIESCENT] (wa_status a).

Lemma mark_left_Ok aid st (s s' : World * R) a' :
  on_left (mark aid st) s = (Ok a', s') ->
  wa_status a' = st /\ db_assignments (db s'.1) !! aid = Some a'.
Proof.
  intros [Hm _]%on_left_Ok. apply set_status_Ok in Hm as (a & _ & _ & Hst & ->).
  by rewrite lookup_insert_eq.
Qed.

(** a turn that reports nothing has settled the lane *)
Lemma cancel_one_settles run ms a s s' :
  db_assignments (db s.1) !! wa_id a = Some a -> is_mutation a = true ->
  cancels run ms a s = (Ok ([], []), s') ->
  exists a', db_assignments (db s'.1) !! wa_id a = Some a' /\ settled a' = true.
Proof.
  intros Ha Hm. unfold cancel_one. rewrite Hm. cbn [negb orb].
  destruct (in_statuses _ (wa_status a)) eqn:Es.
  { intros [_ ->]%ret_Ok. eauto. }
  destruct (_ || _); [by intros [? _]%ret_Ok|].
  intros (summary & s1 & _ & Hr)%bind_Ok. cbv beta in Hr.
  assert (Hgone : forall s1 s', bind (on_left (V:=R) (mark (wa_id a) MISSING)) (fun _ => ret ([], [wa_id a])) s1
    = (Ok (@nil string, @nil string), s') -> False) by (intros ? ? (? & ? & _ & [? _]%ret_Ok)%bind_Ok; done).
  destruct summary as [summary|]; [|by apply Hgone in Hr].
  destruct (negb _); [by apply Hgone in Hr|]. apply bind_Ok in Hr as (commands & s2 & _ & Hr). cbv beta in Hr.
  destruct (is_nil commands).
  - apply bind_Ok in Hr as (a' & s3 & [Hst Hrow]%mark_left_Ok & [_ ->]%ret_Ok).
    exists a'. split; [done|]. unfold settled. by rewrite Hst.
  - apply bind_Ok in Hr as (x & s3 & _ & (failed & s4 & _ & Hr)%bind_Ok). cbv beta in Hr.
    destruct failed; [|by apply ret_Ok in Hr as [? _]].
    apply bind_Ok in Hr as (a' & s5 & [Hst Hrow]%mark_left_Ok & [_ ->]%ret_Ok).
    exists a'. split; [done|]. unfold settled. by rewrite Hst.
Qed.

(** the loop over lanes of the tables [d0] *)
Lemma cancel_loop_quieted d0 run ms l :
  (forall a, a ∈ l -> db_assignments d0 !! wa_id a = Some a) ->
  pkeeps (quieted d0) (for_each (cancels run ms) l).
Proof.
  induction l as [|a l IH]; intros Hl; [apply pkeeps_ret|]. cbn [for_each].
  apply pkeeps_bind; [apply cancel_one_quieted, Hl; by left|]. intros x.
  apply pkeeps_bind; [apply IH; intros; apply Hl; by right|]. intros. apply pkeeps_ret.
Qed.

Lemma cancel_loop_row i x run ms l :
  i ∉ map wa_id l -> pkeeps (fun d => db_assignments d !! i = x) (for_each (cancels run ms) l).
Proof.
  induction l as [|a l IH]; cbn [map for_each]; [intros; apply pkeeps_ret|].
  intros [Hne Hl]%not_elem_of_cons. apply pkeeps_bind; [by apply cancel_one_row|]. intros y.
  apply pkeeps_bind; [by apply IH|]. intros. apply pkeeps_ret.
Qed.

Lemma cancel_loop_settles run ms l s outs s' :
  NoDup (map wa_id l) -> (forall a, a ∈ l -> db_assignments (db s.1) !! wa_id a = Some a) ->
  for_each (cancels run ms) l s = (Ok outs, s') -> concat outs.*1 = [] -> concat outs.*2 = [] ->
  forall a, a ∈ l -> is_mutation a = true ->
    exists a', db_assignments (db s'.1) !! wa_id a = Some a' /\ settled a' = true.
Proof.
  revert s outs. induction l as [|a l IH]; intros s outs Hnd Hl; [by intros _ _ _ ? ?%elem_of_nil|].
  cbn [map] in Hnd. apply NoDup_cons in Hnd as [Hnot Hnd]. cbn [for_each].
  intros ([f u] & s1 & H1 & (outs' & s2 & H2 & [-> ->]%ret_Ok)%bind_Ok)%bind_Ok. cbn.
  intros [Hf Hfs]%app_nil [Hu Hus]%app_nil. subst f u.
  assert (Hrows : forall b, b ∈ l -> db_assignments (db s1.1) !! wa_id b = Some b).
  { intros b Hb. pose proof (cancel_one_row (wa_id b) (Some b) run ms a) as Hrow.
    specialize (Hrow ltac:(intros Heq; apply Hnot; rewrite Heq; apply list_elem_of_In, in_map; by apply list_elem_of_In) s).
    rewrite H1 in Hrow. apply Hrow, Hl. by right. }
  intros b [->|Hb]%elem_of_cons Hm; [|by eapply IH].
  destruct (cancel_one_settles _ _ _ _ _ (Hl a ltac:(by left)) Hm H1) as (a' & Ha' & Hs).
  exists a'. split; [|done]. pose proof (cancel_loop_row (wa_id a) (Some a') run ms l Hnot s1 Ha') as Hrow.
  by rewrite H2 in Hrow.
Qed.

Lemma select_sublist {A} (p : A -> bool) l : select p l `sublist_of` l.
Proof. induction l as [|x l IH]; simpl; [done|]. destruct (p x); by constructor. Qed.

(** the lanes of a run, once each *)
Lemma list_for_run_Ok rid w l w' :
  lanes_wf (db w) -> list_for_run rid w = (Ok l, w') ->
  w' = w /\ NoDup (map wa_id l) /\
  (forall a, a ∈ l <-> db_assignments (db w) !! wa_id a = Some a /\ wa_run_id a = rid).
Proof.
  intros Hwf [-> ->]%query_Ok. split; [done|]. split.
  - change (NoDup (wa_id <$> order_by (by_time_and_id wa_created_at wa_id)
      (select (fun a => str_eqb (wa_run_id a) rid) (rows_of (db_assignments (db w)))))).
    unfold order_by. rewrite (merge_sort_Permutation _ _).
    eapply sublist_NoDup; [|apply fmap_sublist, select_sublist].
    unfold rows_of. rewrite <-list_fmap_compose.
    assert (wa_id ∘ snd <$> map_to_list (db_assignments (db w)) = (map_to_list (db_assignments (db w))).*1) as ->.
    { apply list_fmap_ext. intros k [i a] Hk. simpl. eapply lane_key; [exact Hwf|].
      apply elem_of_map_to_list. by eapply list_elem_of_lookup_2. }
    apply NoDup_fst_map_to_list.
  - intros a. rewrite order_by_in, elem_of_select, elem_of_rows, str_eqb_true. split.
    + intros [[i Hi] ?]. by rewrite (lane_key _ Hwf _ _ Hi).
    + intros [? ?]. eauto.
Qed.

Lemma cancel_run_quieted run ms s : lanes_wf (db s.1) -> quieted (db s.1) (db (cancel_run service terminate run ms s).2.1).
Proof.
  intros Hwf. unfold cancel_run. destruct (ms <=? 0)%Z; [apply quieted_refl|].
  unfold bind at 1. destruct (on_left _ s) as [[l|e] s1] eqn:E; [|discriminate E].
  apply on_left_Ok in E as [E E2]. destruct (list_for_run_Ok _ _ _ _ Hwf E) as (Hs1 & _ & Hl).
  rewrite <-Hs1. apply pkeeps_bind; [|intros; apply pkeeps_ret|apply quieted_refl].
  apply cancel_loop_quieted. intros a Ha. rewrite Hs1. by apply Hl.
Qed.

Lemma cancel_run_keeps run ms : pkeeps lanes_wf (cancel_run service terminate run ms).
Proof. intros s Hs. eapply quieted_wf; [exact Hs|]. by apply cancel_run_quieted. Qed.
Lemma cancel_run_only d0 run ms : pkeeps (only_lanes d0) (cancel_run service terminate run ms).
Proof.
  unfold cancel_run. destruct (ms <=? 0)%Z; [apply pkeeps_raise|].
  apply pkeeps_bind; [apply pkeeps_left, keeps_query|]. intros l.
  apply pkeeps_bind; [|intros; apply pkeeps_ret]. apply pkeeps_for_each. intros a. apply cancel_one_only.
Qed.

(** a run reported quiescent has no lane left that may write *)
Lemma cancel_run_settles run ms s q s' :
  lanes_wf (db s.1) -> cancel_run service terminate run ms s = (Ok q, s') -> wq_quiescent q = true ->
  forall i a, db_assignments (db s'.1) !! i = Some a -> wa_run_id a = run_id run -> is_mutation a = true ->
    settled a = true.
Proof.
  intros Hwf Hc Hq i a Ha Hrun Hm.
  pose proof (cancel_run_quieted run ms s Hwf) as Hqt. rewrite Hc in Hqt. cbn [snd] in Hqt.
  destruct (Hqt _ _ Ha) as (y & Hy & Hya & _).
  unfold cancel_run in Hc. destruct (ms <=? 0)%Z; [by apply raise_Ok in Hc|].
  apply bind_Ok in Hc as (l & s1 & [Hl Es]%on_left_Ok & Hc). cbv beta in Hc.
  destruct (list_for_run_Ok _ _ _ _ Hwf Hl) as (Hs1 & Hnd & Hin).
  apply bind_Ok in Hc as (outs & s2 & Hloop & [-> ->]%ret_Ok). cbn in Hq.
  apply andb_true_iff in Hq as [Hf Hu].
  assert (y ∈ l) as Hyl.
  { apply Hin. rewrite (lane_key _ Hwf _ _ Hy). split; [done|]. by rewrite <-(qt_run _ _ Hya). }
  destruct (cancel_loop_settles run ms l s1 outs s2) with (a := y) as (a' & Ha' & Hset); try done.
  - intros b Hb. rewrite Hs1. by apply Hin.
  - by destruct (concat outs.*1).
  - by destruct (concat outs.*2).
  - unfold is_mutation. by rewrite <-(qt_mode _ _ Hya).
  - rewrite (lane_key _ Hwf _ _ Hy) in Ha'. by rewrite Ha in Ha'; injection Ha' as <-.
Qed.

(** the operations that assign and release lanes *)
Lemma set_status_wf aid st b r :
  in_statuses _BLOCKING_MUTATION_STATUSES st = false -> keeps lanes_wf (set_status aid st b r).
Proof.
  intros Hst w Hw. eapply quieted_wf; [exact Hw|].
  apply (set_status_quieted (db w)); [by rewrite Hst|apply quieted_refl].
Qed.
Lemma persist_keeps run cycle repo scope summary :
  keeps lanes_wf (_persist_mutation_summary run cycle repo scope summary).
Proof. unfold _persist_mutation_summary. repeat keeps_step. apply create_assignment_keeps. Qed.
#[local] Hint Resolve create_assignment_keeps persist_keeps : keeps.
#[local] Hint Extern 1 (keeps lanes_wf (mark _ _)) => apply set_status_wf; reflexivity : keeps.

Lemma create_mutation_worker_keeps run cycle repo scope name :
  pkeeps lanes_wf (create_mutation_worker service loader run cycle repo scope name).
Proof. unfold create_mutation_worker, ensure_mutation_scope_available. repeat pkeeps_step. apply pkeeps_left. repeat keeps_step. Qed.
Lemma create_assignment_only d0 q : keeps (only_lanes d0) (create_assignment q).
Proof.
  intros w [t Hw]. destruct (create_assignment q w) as [[a|e] w'] eqn:E; cbn [snd].
  - destruct (create_assignment_Ok _ _ _ _ E) as (aid & owner & repo & scope & now & _ & _ & _ & _ & _ & _ & _ & ->).
    rewrite Hw. by eexists.
  - rewrite (create_assignment_Err _ _ _ _ E), Hw. by eexists.
Qed.
Lemma create_mutation_worker_only d0 run cycle repo scope name :
  pkeeps (only_lanes d0) (create_mutation_worker service loader run cycle repo scope name).
Proof.
  assert (forall summary repo scope, keeps (only_lanes d0) (_persist_mutation_summary run cycle repo scope summary)) as Hp.
  { intros. unfold _persist_mutation_summary. repeat keeps_step. apply create_assignment_only. }
  unfold create_mutation_worker, ensure_mutation_scope_available.
  repeat pkeeps_step; apply pkeeps_left; repeat keeps_step.
Qed.
Lemma assign_mutation_keeps run cycle wid repo scope :
  pkeeps lanes_wf (assign_mutation service run cycle wid repo scope).
Proof. unfold assign_mutation. repeat pkeeps_step. Qed.
Lemma assign_read_only_keeps run cycle owner scope repo :
  pkeeps lanes_wf (assign_read_only loader max_read_only run cycle owner scope repo).
Proof. unfold assign_read_only, count_active_read_only. repeat pkeeps_step. Qed.
Lemma cleanup_keeps run aid discard : pkeeps lanes_wf (cleanup service loader run aid discard).
Proof. unfold cleanup, get_assignment. repeat pkeeps_step. Qed.

Lemma reconcile_lanes d0 run : pkeeps (same_lanes d0) (reconcile service run).
Proof.
  unfold reconcile, reconcile_one, list_for_run.
  repeat first [pkeeps_step|apply pkeeps_left, set_status_lanes].
Qed.
End Loops.

#[export] Instance assignments_untouched : Untouched db_assignments.
Proof. by split. Qed.
Lemma exec_lanes `{Env} o : keeps lanes_wf (exec o).
Proof.
  intros w Hw. assert (db_assignments (db (exec o w).2) = db_assignments (db w)) as Heq.
  { apply (inv_op (StoreInvariant := untouched_invariant db_assignments (db_assignments (db w))) o); [by destruct o|done]. }
  destruct Hw as [H1 H2 H3 H4]. split; rewrite Heq; assumption.
Qed.

(** ** Theorems *)

Section Theorems.
Context `{Env} {R : Type} (service : WorkerService R) (loader : string -> string -> M R string).
Context (terminate : string -> string -> Z -> M R bool) (max_read_only : Z).

(** Two scopes overlap exactly when some file belongs to both: [scopes_overlap]
    either refuses a scope it cannot normalise, or answers whether there is a path
    that an entry of each normalised scope is a prefix of. *)
Theorem overlap_is_shared_path left right :
  (exists l r b, _normalize_scope left = Ok l /\ _normalize_scope right = Ok r /\
     scopes_overlap left right = Ok b /\ (b = true <-> exists path, covered l path /\ covered r path)) \/
  (exists e, scopes_overlap left right = Err e /\
     (_normalize_scope left = Err e \/ _normalize_scope right = Err e)).
Proof.
  destruct (scopes_overlap left right) as [b|e] eqn:Eo.
  - left. destruct (scopes_overlap_Ok _ _ _ Eo) as (l & r & ? & ? & ?). by exists l, r, b.
  - right. exists e. split; [done|]. unfold scopes_overlap, rbind in Eo.
    destruct (_normalize_scope left); [|left; congruence].
    destruct (_normalize_scope right); [discriminate|right; congruence].
Qed.

(** what may happen to the lanes, but for a reconciliation *)
Inductive lane_step : World * R -> World * R -> Prop :=
  | lane_create run cycle repo scope name s :
      lane_step s (create_mutation_worker service loader run cycle repo scope name s).2
  | lane_assign run cycle wid repo scope s : lane_step s (assign_mutation service run cycle wid repo scope s).2
  | lane_read run cycle owner scope repo s :
      lane_step s (assign_read_only loader max_read_only run cycle owner scope repo s).2
  | lane_cancel run ms s : lane_step s (cancel_run service terminate run ms s).2
  | lane_cleanup run aid discard s : lane_step s (cleanup service loader run aid discard s).2
  | lane_store o s : lane_step s (on_left (exec o) s).2
  | lane_outside w r r' : lane_step (w, r) (w, r').

Lemma lane_step_wf s s' : lane_step s s' -> lanes_wf (db s.1) -> lanes_wf (db s'.1).
Proof.
  destruct 1.
  - apply create_mutation_worker_keeps.
  - apply assign_mutation_keeps.
  - apply assign_read_only_keeps.
  - apply cancel_run_keeps.
  - apply cleanup_keeps.
  - apply pkeeps_left, exec_lanes.
  - done.
Qed.
Lemma lanes_reachable s s' : rtc lane_step s s' -> lanes_wf (db s.1) -> lanes_wf (db s'.1).
Proof. induction 1; eauto using lane_step_wf. Qed.
Lemma no_lanes_wf d : db_assignments d = ∅ -> lanes_wf d.
Proof. intros Hd. split; rewrite Hd; by setoid_rewrite lookup_empty. Qed.

(** the file at [path], as the list of its parts, belongs to a lane: an entry of its
    scope, whose parts either separator divides, is a prefix of it.  Entries with blanks
    at an end are left aside ([trailing_blank_missed] shows why) *)
Definition lane_owns (a : FactoryWorkerAssignment) (path : list string) : Prop :=
  exists entry, entry ∈ wa_scope a /\ strip entry = entry /\
    posix_parts (replace_char backslash "/"%char entry) `prefix_of` path.
(** no file belongs to both lanes *)
Definition disjoint_lanes (a b : FactoryWorkerAssignment) : Prop :=
  forall path, lane_owns a path -> lane_owns b path -> False.

(** *** Normalising an entry keeps its parts *)

Lemma rev_app_spec s t : String.rev_app s t = String.rev s +:+ t.
Proof.
  revert t. induction s as [|c s IH]; intros t; [done|].
  change (String.rev_app s (String c t) = String.rev_app s (String c "") +:+ t).
  rewrite (IH (String c t)), (IH (String c "")). generalize (String.rev s). clear. intros u.
  induction u as [|d u IH]; [done|exact (f_equal (String d) IH)].
Qed.
Lemma rev_snoc u c : String.rev (u +:+ String c "") = String c (String.rev u).
Proof.
  induction u as [|d u IH]; [done|].
  change (String.rev_app (u +:+ String c "") (String d "") = String c (String.rev_app u (String d ""))).
  by rewrite !rev_app_spec, IH.
Qed.
Lemma rev_rev s : String.rev (String.rev s) = s.
Proof.
  induction s as [|c s IH]; [done|]. change (String.rev (String.rev_app s (String c "")) = String c s).
  by rewrite rev_app_spec, rev_snoc, IH.
Qed.
(** a text that starts and ends with a character that is no slash *)
Definition bounded (s : string) : Prop :=
  (exists c t, s = String c t /\ plain c = true) /\ exists u c, s = u +:+ String c "" /\ plain c = true.
Lemma lstrip_plain c t : plain c = true -> lstrip_slashes (String c t) = String c t.
Proof. unfold plain. cbn. by destruct (bool_decide (c = "/"%char)). Qed.
Lemma strip_bounded s : bounded s -> strip_slashes s = s.
Proof.
  intros [(c & t & Hs & Hc) (u & d & Hs' & Hd)]. unfold strip_slashes, str_rev.
  assert (lstrip_slashes s = s) as -> by (rewrite Hs; by apply lstrip_plain).
  rewrite Hs' at 1. rewrite rev_snoc, (lstrip_plain d) by done. by rewrite <- rev_snoc, <- Hs', rev_rev.
Qed.
Lemma last_char s : s <> "" -> all_chars plain s = true -> exists u c, s = u +:+ String c "" /\ plain c = true.
Proof.
  induction s as [|c s IH]; [done|]. intros _ [Hc Hs]%andb_true_iff. destruct s as [|d s]; [by exists "", c|].
  destruct (IH ltac:(done) Hs) as (u & e & -> & He). by exists (String c u), e.
Qed.
Lemma join_bounded parts :
  parts <> [] -> Forall (fun p => all_chars plain p = true /\ real_part p = true) parts -> bounded (as_posix parts).
Proof.
  intros Hne Hall. split.
  - destruct Hall as [|p parts [Hp Hr] _]; [done|]. destruct p as [|c p]; [done|]. cbn in Hp. apply andb_true_iff in Hp as [Hc _].
    destruct parts; cbn; by eexists c, _.
  - assert (exists u c, str_join "/" parts = u +:+ String c "" /\ plain c = true) as Hj; [|by destruct parts].
    induction Hall as [|p parts [Hp Hr] Hall IH]; [done|]. destruct parts as [|q parts].
    + change (str_join "/" [p]) with p. apply last_char; [by intros ->|done].
    + destruct (IH ltac:(done)) as (u & c & Hu & Hc).
      change (str_join "/" (p :: q :: parts)) with (p +:+ "/" +:+ str_join "/" (q :: parts)). rewrite Hu.
      exists (p +:+ "/" +:+ u), c. split; [|done]. clear. induction p as [|d p IH]; [done|exact (f_equal (String d) IH)].
Qed.
Lemma scope_path_parts e v :
  scope_path e = Ok v -> strip e = e -> v = "." \/ posix_parts v = posix_parts (replace_char backslash "/"%char e).
Proof.
  unfold scope_path. cbv zeta. intros Hv Hs. rewrite Hs in Hv. revert Hv. set (raw := replace_char _ _ e). destruct (empty_str raw); [done|].
  destruct (_ || _); [done|]. intros [= <-]. destruct (posix_parts raw) as [|p parts] eqn:E; [by left|]. right.
  rewrite <- E. rewrite (strip_bounded (as_posix (posix_parts raw))) by (apply join_bounded; [by rewrite E|apply parts_real]).
  unfold value_or. destruct (empty_str (as_posix (posix_parts raw))) eqn:Ee.
  - apply empty_str_true in Ee. pose proof (parts_join _ (parts_real raw)) as Hj. rewrite Ee, E in Hj. discriminate Hj.
  - by rewrite parts_join by apply parts_real.
Qed.
Lemma normalized_owns a l path : _normalize_scope (wa_scope a) = Ok l -> lane_owns a path -> covered l path.
Proof.
  intros Hl (e & He & Hs & Hp). unfold _normalize_scope in Hl. apply rbind_Ok in Hl as (vs & Hvs & Hl).
  assert (exists v, scope_path e = Ok v /\ v ∈ vs) as (v & Hv & Hin).
  { clear Hl Hp. revert vs Hvs He. induction (wa_scope a) as [|x scope IH]; intros vs Hvs He; [by apply elem_of_nil in He|].
    cbn in Hvs. apply rbind_Ok in Hvs as (y & Hy & (ys & Hys & [= <-])%rbind_Ok).
    apply elem_of_cons in He as [->|He]; [exists y; split; [done|left]|].
    destruct (IH _ Hys He) as (v & ? & ?). exists v. split; [done|by right]. }
  exists v. split.
  - destruct (is_nil vs); [done|]. injection Hl as <-. unfold sorted_set.
    by rewrite (merge_sort_Permutation _ _), elem_of_remove_dups.
  - destruct (scope_path_parts _ _ Hv Hs) as [->|Hparts]; [by left|right]. by rewrite Hparts.
Qed.

Lemma exclusive_disjoint d i j a b :
  lanes_wf d -> db_assignments d !! i = Some a -> db_assignments d !! j = Some b -> i <> j ->
  blocking a = true -> blocking b = true -> wa_workspace_id a = wa_workspace_id b -> disjoint_lanes a b.
Proof.
  intros Hwf Ha Hb Hne Ba Bb Hws.
  destruct (scopes_overlap_Ok _ _ _ (lane_exclusive _ Hwf _ _ _ _ Ha Hb Hne Ba Bb Hws))
    as (l & r & Hl & Hr & Hiff). intros path Hpa%(normalized_owns _ _ _ Hl) Hpb%(normalized_owns _ _ _ Hr).
  enough (false = true) by done. apply Hiff. by exists path.
Qed.

(** C37. Mutation lanes are exclusive: however workers are created, assigned, cancelled
    and cleaned up, whatever the store does in between and whatever happens to the
    workers, no file of a workspace ever belongs to two lanes that may be writing.
    (Directories whose names begin or end with a blank are left aside: two lanes may own
    such a one, as [trailing_blank_missed] shows.) *)
Theorem mutation_lanes_exclusive s s' i j a b :
  db_assignments (db s.1) = ∅ -> rtc lane_step s s' ->
  db_assignments (db s'.1) !! i = Some a -> db_assignments (db s'.1) !! j = Some b -> i <> j ->
  blocking a = true -> blocking b = true -> wa_workspace_id a = wa_workspace_id b ->
  disjoint_lanes a b.
Proof.
  intros Hno Hs. eapply exclusive_disjoint. by apply (lanes_reachable _ _ Hs), no_lanes_wf.
Qed.

(** A reconciliation breaks that exclusion only by reviving a lane: two lanes that
    may be writing to one file after it were not both allowed to write before it. *)
Theorem reconcile_overlap_is_revival run s i j a b :
  lanes_wf (db s.1) ->
  db_assignments (db (reconcile service run s).2.1) !! i = Some a ->
  db_assignments (db (reconcile service run s).2.1) !! j = Some b -> i <> j ->
  blocking a = true -> blocking b = true -> wa_workspace_id a = wa_workspace_id b ->
  disjoint_lanes a b \/
  exists k x y, (k = i \/ k = j) /\ db_assignments (db s.1) !! k = Some x /\ blocking x = false /\
    db_assignments (db (reconcile service run s).2.1) !! k = Some y /\ blocking y = true.
Proof.
  intros Hwf Ha Hb Hne Ba Bb Hws.
  pose proof (reconcile_lanes service (db s.1) run s) as Hl.
  specialize (Hl ltac:(intros k x Hx; exists x; by split)).
  destruct (Hl _ _ Ha) as (x & Hx & Hxa), (Hl _ _ Hb) as (y & Hy & Hyb).
  destruct (blocking x) eqn:Bx; [|right; exists i, x, a; auto].
  destruct (blocking y) eqn:By; [|right; exists j, y, b; auto]. left.
  intros path Ha' Hb'. refine (exclusive_disjoint _ _ _ _ _ Hwf Hx Hy Hne Bx By _ path _ _).
  - by rewrite <-(qt_workspace _ _ Hxa), <-(qt_workspace _ _ Hyb).
  - unfold lane_owns. by rewrite <-(qt_scope _ _ Hxa).
  - unfold lane_owns. by rewrite <-(qt_scope _ _ Hyb).
Qed.
End Theorems.

(** ** Witnesses *)

(** workers that answer with a fixed summary, the first one only while it is there *)
Definition demo_summary (wid : string) : dict :=
  [("worker_id", JStr wid); ("workspace_id", JStr "ws1"); ("branch", JStr "factory"); ("base_revision", JStr "r0");
   ("status", JStr "ready"); ("active_command_ids", JList [JStr "c1"])].
Definition demo_workers : WorkerService bool := {|
  dw_create := fun _ _ name _ _ there => (Ok (demo_summary name), there);
  dw_get := fun _ _ wid there =>
    (if there || negb (str_eqb wid "one") then Ok (demo_summary wid)
     else Err (DirectCodingWorkerError "DIRECT_WORKER_NOT_FOUND"), there);
  dw_close := fun _ _ _ _ there => (Ok tt, there);
|}.
Definition demo_loader : string -> string -> M bool string := fun _ ws there => (Ok ws, there).
Definition demo_terminate : string -> string -> Z -> M bool bool := fun _ _ _ there => (Ok true, there).
Definition demo_lane (name : string) (scope : list string) (s : World * bool) : World * bool :=
  match db_runs (db s.1) !! "factory_0", db_cycles (db s.1) !! "cycle_2" with
  | Some run, Some cycle => (@create_mutation_worker demo_env bool demo_workers demo_loader run cycle "." scope name s).2
  | _, _ => s
  end.
Definition demo_scopes (s : World * bool) : list (string * list string) :=
  map (fun a => (wa_owner_key a, wa_scope a)) (List.filter blocking (rows_of (db_assignments (db s.1)))).

Definition demo_lanes : World * bool :=
  demo_lane "two" ["src/b"] (demo_lane "one" ["src/a"; "./docs/"] (demo_end, true)).
#[local] Abbreviation demo_lane_step :=
  (@lane_step demo_env bool demo_workers demo_loader demo_terminate 8).

Lemma demo_lane_steps name scope s : rtc demo_lane_step s (demo_lane name scope s).
Proof.
  unfold demo_lane. destruct (_ !! _); [|done]. destruct (_ !! _); [|done].
  apply rtc_once, lane_create.
Qed.
Lemma demo_lanes_reachable : rtc demo_lane_step (demo_end, true) demo_lanes.
Proof. unfold demo_lanes. etransitivity; apply demo_lane_steps. Qed.

Lemma mutation_lanes_exclusive_witness :
  match db_assignments (db demo_lanes.1) !! "fworker_25", db_assignments (db demo_lanes.1) !! "fworker_26" with
  | Some a, Some b => disjoint_lanes a b
  | _, _ => False
  end /\ demo_scopes (demo_lane "three" ["src"] demo_lanes) = demo_scopes demo_lanes.
Proof.
  split; [|vm_compute; reflexivity].
  destruct (db_assignments (db demo_lanes.1) !! "fworker_25") as [a|] eqn:Ea; [|vm_compute in Ea; discriminate Ea].
  destruct (db_assignments (db demo_lanes.1) !! "fworker_26") as [b|] eqn:Eb; [|vm_compute in Eb; discriminate Eb].
  apply (@mutation_lanes_exclusive demo_env bool demo_workers demo_loader demo_terminate 8
    (demo_end, true) demo_lanes "fworker_25" "fworker_26" a b).
  - vm_compute. reflexivity.
  - exact demo_lanes_reachable.
  - exact Ea.
  - exact Eb.
  - discriminate.
  - vm_compute in Ea. injection Ea as <-. reflexivity.
  - vm_compute in Eb. injection Eb as <-. reflexivity.
  - vm_compute in Ea, Eb. injection Ea as <-. injection Eb as <-. reflexivity.
Defined.

(** a lane is lost, another one takes its files, and the lost worker comes back *)
Definition demo_reconcile (s : World * bool) : World * bool :=
  match db_runs (db s.1) !! "factory_0" with
  | Some run => (@reconcile demo_env bool demo_workers run s).2
  | None => s
  end.
Lemma demo_reconcile_run s run :
  db_runs (db s.1) !! "factory_0" = Some run ->
  demo_reconcile s = (@reconcile demo_env bool demo_workers run s).2.
Proof. intros Hr. unfold demo_reconcile. by rewrite Hr. Qed.
Definition demo_gone : World * bool := ((demo_lane "one" ["src/a"] (demo_end, true)).1, false).
Definition demo_missing : World * bool := demo_reconcile demo_gone.
Definition demo_lost : World * bool := demo_lane "two" ["src"] demo_missing.
(** the worker is there again *)
Definition demo_back : World * bool := (demo_lost.1, true).
Definition demo_revived : World * bool := demo_reconcile demo_back.

Lemma single_lane_wf d :
  match map_to_list (db_assignments d) with
  | [(i, a)] => str_eqb (wa_id a) i && has_key (wa_worker_id a) = true
  | _ => False
  end -> lanes_wf d.
Proof.
  destruct (map_to_list _) as [|[i a] []] eqn:Hl; try done. intros [Hi%str_eqb_true Hw]%andb_true_iff.
  assert (Hd : forall j x, db_assignments d !! j = Some x -> j = i /\ x = a).
  { intros j x Hx%elem_of_map_to_list. rewrite Hl in Hx. by apply list_elem_of_singleton in Hx as [= -> ->]. }
  split.
  - intros j x [-> ->]%Hd. done.
  - intros j x [-> ->]%Hd. done.
  - intros j k x y w [-> _]%Hd [-> _]%Hd. done.
  - intros j k x y [-> _]%Hd [-> _]%Hd. done.
Qed.
Lemma demo_lane_wf name scope s : lanes_wf (db s.1) -> lanes_wf (db (demo_lane name scope s).1).
Proof.
  intros Hs. unfold demo_lane. destruct (_ !! _); [|exact Hs]. destruct (_ !! _); [|exact Hs].
  by apply create_mutation_worker_keeps.
Qed.
Lemma demo_lane_only name scope w r : only_lanes (db w) (db (demo_lane name scope (w, r)).1).
Proof.
  assert (only_lanes (db w) (db w)) as Hs by (exists (db_assignments (db w)); by destruct (db w)).
  unfold demo_lane. cbn [fst]. destruct (_ !! _); [|exact Hs]. destruct (_ !! _); [|exact Hs].
  by apply (create_mutation_worker_only demo_workers demo_loader (db w)).
Qed.
Lemma demo_missing_wf : lanes_wf (db demo_missing.1).
Proof. apply single_lane_wf. vm_compute. reflexivity. Qed.
Lemma demo_lost_wf : lanes_wf (db demo_lost.1).
Proof. exact (demo_lane_wf "two" ["src"] demo_missing demo_missing_wf). Qed.
Lemma demo_back_wf : lanes_wf (db demo_back.1).
Proof. exact demo_lost_wf. Qed.

Lemma reconcile_overlap_is_revival_witness :
  match db_runs (db demo_back.1) !! "factory_0", db_assignments (db demo_revived.1) !! "fworker_25",
        db_assignments (db demo_revived.1) !! "fworker_26" with
  | Some run, Some a, Some b =>
      blocking a && blocking b = true /\ scopes_overlap (wa_scope a) (wa_scope b) = Ok true /\
      (disjoint_lanes a b \/
       exists k x y, (k = "fworker_25" \/ k = "fworker_26") /\ db_assignments (db demo_back.1) !! k = Some x /\
         blocking x = false /\
         db_assignments (db (@reconcile demo_env bool demo_workers run demo_back).2.1) !! k = Some y /\
         blocking y = true)
  | _, _, _ => False
  end.
Proof.
  destruct (db_runs (db demo_back.1) !! "factory_0") as [run|] eqn:Er; [|vm_compute in Er; discriminate Er].
  pose proof (demo_reconcile_run demo_back run Er) as Hrev. fold demo_revived in Hrev.
  destruct (db_assignments (db demo_revived.1) !! "fworker_25") as [a|] eqn:Ea; [|vm_compute in Ea; discriminate Ea].
  destruct (db_assignments (db demo_revived.1) !! "fworker_26") as [b|] eqn:Eb; [|vm_compute in Eb; discriminate Eb].
  assert (blocking a = true /\ blocking b = true /\ wa_workspace_id a = wa_workspace_id b /\
    scopes_overlap (wa_scope a) (wa_scope b) = Ok true) as (Ba & Bb & Hws & Hov).
  { vm_compute in Ea, Eb. injection Ea as <-. injection Eb as <-. repeat split; reflexivity. }
  split; [by rewrite Ba, Bb|]. split; [exact Hov|]. rewrite Hrev in Ea, Eb.
  exact (@reconcile_overlap_is_revival demo_env bool demo_workers run demo_back "fworker_25" "fworker_26" a b
    demo_back_wf Ea Eb ltac:(discriminate) Ba Bb Hws).
Defined.

(** ** Two corners of the normalisation

    A scope is normalised again whenever it is compared, and its text is stripped again:
    a directory whose name ends with a blank is compared under another name, and a
    scope that starts with a dot and then a drive letter is refused from then on. *)

Example trailing_blank_missed :
  _normalize_scope ["a /."] = Ok ["a "] /\ _normalize_scope ["a /x"] = Ok ["a /x"] /\
  scopes_overlap ["a "] ["a /x"] = Ok false /\ posix_parts "a " `prefix_of` posix_parts "a /x".
Proof. split_and!; try reflexivity. by exists ["x"]. Qed.

Example drive_poisons_workspace :
  _normalize_scope ["./c:/x"] = Ok ["c:/x"] /\
  scopes_overlap ["c:/x"] ["b"] = Err (FactoryWorkerError "FACTORY_WORKER_INVALID_SCOPE").
Proof. repeat split. Qed.
