(* ===== verification/FactoryCi.v ===== *)
(** * CI tracking

    Models [cptr/services/factory_ci.py]: the GitHub Actions provider over a
    command runner, which is a parameter on a world [R] of its own, and the service
    that tracks CI runs in the tables with one provider observation per call. *)

From S2P Require Import Prelude PyStr Json Redaction FactoryDomain FactoryGates.
From S2P Require Import FactoryVictory Database CapabilityLifecycle FactoryStore FactoryHistory.
From S2P Require Import FactoryStoreFacts FactoryPhases.
From S2P Require Import FactorySafety FactoryStoreSpec.
From Stdlib Require Import Ascii.
From stdpp Require Import sorting.

Definition ci_error {A} (c : string) : result A := Err (FactoryCiError c).

(** ** Observations *)

Record CiObservation := {
  ob_status : string;
  ob_conclusion : option string;
  ob_url : option string;
  ob_failure_summary : option string;
}.

Definition longer_than (n : Z) (s : option string) : bool :=
  match s with Some s => (n <? len s)%Z | None => false end.

Definition CiObservation_post_init (o : CiObservation) : result CiObservation :=
  if blank (ob_status o) then Err (ValueError "CI observation status must not be blank")
  else if longer_than 4096 (ob_url o) then Err (ValueError "CI observation URL exceeds bounded length")
  else if longer_than 8000 (ob_failure_summary o) then
    Err (ValueError "CI failure summary exceeds bounded length")
  else Ok o.

Record CiPollRequest := {
  rq_provider : string;
  rq_repository : string;
  rq_revision : string;
  rq_external_run_id : string;
  rq_check_id : string;
}.

Record CiRunIdentity := {
  cr_external_run_id : string;
  cr_workflow : string;
  cr_url : option string;
}.

(** [_token] *)
Definition _token (value label : string) (max_length : Z) : result string :=
  let normalized := strip value in
  if empty_str normalized then Err (ValueError (label +:+ " must not be blank"))
  else if (max_length <? len normalized)%Z then Err (ValueError (label +:+ " exceeds bounded length"))
  else Ok normalized.

Definition normal_form (value : string) : string :=
  replace_char "-"%char "_"%char (upper (strip value)).

(** [_status] *)
Definition status_aliases : list (string * string) :=
  [("IN_PROGRESS", "IN_PROGRESS"); ("RUNNING", "IN_PROGRESS"); ("QUEUED", "QUEUED");
   ("PENDING", "QUEUED"); ("REQUESTED", "QUEUED"); ("WAITING", "QUEUED");
   ("COMPLETED", "COMPLETED"); ("COMPLETE", "COMPLETED")].
Definition _status (value : string) : result string :=
  match dict_get (normal_form value) status_aliases with
  | Some s => Ok s
  | None => ci_error "FACTORY_CI_INVALID_STATUS"
  end.

(** [_conclusion] *)
Definition conclusion_aliases : list (string * string) :=
  [("SUCCESS", "SUCCESS"); ("PASSED", "SUCCESS"); ("FAILURE", "FAILURE"); ("FAILED", "FAILURE");
   ("CANCELLED", "CANCELLED"); ("CANCELED", "CANCELLED"); ("TIMED_OUT", "TIMED_OUT");
   ("TIMEOUT", "TIMED_OUT"); ("SKIPPED", "SKIPPED"); ("NEUTRAL", "NEUTRAL");
   ("ACTION_REQUIRED", "ACTION_REQUIRED"); ("STALE", "FAILURE"); ("STARTUP_FAILURE", "FAILURE")].
Definition _conclusion (value : option string) : result (option string) :=
  match value with
  | None => Ok None
  | Some v =>
      if blank v then Ok None
      else match dict_get (normal_form v) conclusion_aliases with
           | Some c => Ok (Some c)
           | None => ci_error "FACTORY_CI_INVALID_CONCLUSION"
           end
  end.

Definition _FAILURE_CONCLUSIONS : list string := ["FAILURE"; "CANCELLED"; "TIMED_OUT"; "ACTION_REQUIRED"].
Definition is_failure (c : option string) : bool :=
  match c with Some c => is_in c _FAILURE_CONCLUSIONS | None => false end.

(** ** The GitHub Actions provider *)

Definition name_char (c : ascii) : bool :=
  let z := code c in
  ((48 <=? z) && (z <=? 57) || (65 <=? z) && (z <=? 90) || (97 <=? z) && (z <=? 122)
   || (z =? 95) || (z =? 46) || (z =? 45))%Z.
Definition hex_char (c : ascii) : bool :=
  let z := code c in
  ((48 <=? z) && (z <=? 57) || (65 <=? z) && (z <=? 70) || (97 <=? z) && (z <=? 102))%Z.
(** [^[A-Za-z0-9_.-]+/[A-Za-z0-9_.-]+$] *)
Definition repository_shape (s : string) : bool :=
  match split_on "/"%char s with
  | [owner; name] => negb (empty_str owner) && all_chars name_char owner
                     && negb (empty_str name) && all_chars name_char name
  | _ => false
  end.
(** [^[0-9a-fA-F]{7,64}$] *)
Definition revision_shape (s : string) : bool :=
  (7 <=? len s)%Z && (len s <=? 64)%Z && all_chars hex_char s.

Definition _repository (value : string) : result string :=
  if repository_shape (strip value) then Ok (strip value) else ci_error "FACTORY_CI_INVALID_REPOSITORY".
Definition _revision (value : string) : result string :=
  if revision_shape (strip value) then Ok (lower (strip value)) else ci_error "FACTORY_CI_INVALID_REVISION".

Definition is_os_error (e : exn) : bool := match e with OSError _ => true | _ => false end.

Section Provider.
Context `{Env} {R : Type} (executable : string) (run : list string -> M R (Z * string)).

(** [GitHubActionsCliProvider._json] *)
Definition _json (argv : list string) : M R json :=
  let* (status, stdout) := catch (run argv) is_os_error
    (fun _ => raise (FactoryCiError "FACTORY_CI_PROVIDER_UNAVAILABLE")) in
  raise_if negb (status =? 0)%Z as FactoryCiError "FACTORY_CI_PROVIDER_FAILURE" in
  match loads stdout with
  | Some v => ret v
  | None => raise (FactoryCiError "FACTORY_CI_PROVIDER_INVALID_RESPONSE")
  end.

(** [str(item.get(key) or "").strip()] *)
Definition field (key : string) (item : list (string * json)) : string :=
  strip (str_or_empty (get key item)).
(** [str(item.get("workflowName") or item.get("name") or "").strip()] *)
Definition workflow_name (item : list (string * json)) : string :=
  let name := get "workflowName" item in
  strip (str_or_empty (if truthy name then name else get "name" item)).

Definition fields_argument : string := "databaseId,headSha,status,conclusion,url,name,workflowName".

(** one item of the list of runs *)
Definition run_identity (revision : string) (item : json) : list CiRunIdentity :=
  match item with
  | JObj item =>
      if negb (str_eqb (lower (field "headSha" item)) revision) then []
      else
        let rid := field "databaseId" item in
        let workflow := workflow_name item in
        if empty_str rid || empty_str workflow then []
        else [{| cr_external_run_id := str_take 120 rid; cr_workflow := str_take 500 workflow;
                 cr_url := or_none (field "url" item) |}]
  | _ => []
  end.

Definition run_number (r : CiRunIdentity) : Z :=
  if isdigit (cr_external_run_id r) then default (-1)%Z (parse_int (cr_external_run_id r)) else (-1)%Z.

(** [discover] *)
Definition discover (repository revision : string) : M R (list CiRunIdentity) :=
  let* repository := lift (_repository repository) in
  let* revision := lift (_revision revision) in
  let* payload := _json [executable; "run"; "list"; "--repo"; repository; "--commit"; revision;
                         "--limit"; "50"; "--json"; fields_argument] in
  match payload with
  | JList items =>
      ret (order_by (fun a b => run_number b <=? run_number a)%Z
             (flat_map (run_identity revision) (take 50 items)))
  | _ => raise (FactoryCiError "FACTORY_CI_PROVIDER_INVALID_RESPONSE")
  end.

(** [observe] *)
Definition observe (request : CiPollRequest) : M R CiObservation :=
  let* repository := lift (_repository (rq_repository request)) in
  let* revision := lift (_revision (rq_revision request)) in
  let* rid := lift (_token (rq_external_run_id request) "GitHub Actions run ID" 120) in
  raise_if negb (isdigit rid) as FactoryCiError "FACTORY_CI_INVALID_RUN_ID" in
  let* payload := _json [executable; "run"; "view"; rid; "--repo"; repository; "--json";
                         fields_argument] in
  match payload with
  | JObj item =>
      raise_if negb (str_eqb (lower (field "headSha" item)) revision)
        as FactoryCiError "FACTORY_CI_STALE_REVISION" in
      let workflow := workflow_name item in
      raise_if negb (empty_str (rq_check_id request)) && negb (str_eqb workflow (rq_check_id request))
        as FactoryCiError "FACTORY_CI_WORKFLOW_MISMATCH" in
      let conclusion := or_none (field "conclusion" item) in
      let* failure := match conclusion with
        | Some c =>
            let* normal := lift (_conclusion (Some c)) in
            ret (if is_failure normal
                 then Some ("GitHub Actions workflow " +:+ value_or workflow (rq_check_id request)
                              +:+ " concluded " +:+ c)
                 else None)
        | None => ret None
        end in
      lift (CiObservation_post_init
        {| ob_status := field "status" item; ob_conclusion := conclusion;
           ob_url := or_none (field "url" item); ob_failure_summary := failure |})
  | _ => raise (FactoryCiError "FACTORY_CI_PROVIDER_INVALID_RESPONSE")
  end.
End Provider.

(** ** The service *)

Section Service.
Context `{Env} {R : Type}.
Definition CiProvider : Type := CiPollRequest -> M R CiObservation.

(** the providers of [FactoryCiService.__init__], by normal name *)
Fixpoint normalize_providers (named : list (string * CiProvider)) (known : list (string * CiProvider))
    : result (list (string * CiProvider)) :=
  match named with
  | [] => Ok known
  | (name, provider) :: named =>
      let? key := _token name "CI provider" 120 in
      let key := lower key in
      match dict_get key known with
      | Some _ => Err (ValueError ("duplicate CI provider " +:+ key))
      | None => normalize_providers named (dict_set key provider known)
      end
  end.

Context (providers : list (string * CiProvider)).

Definition insert_ci (c : FactoryCiRun) : M World unit :=
  let* d := query id in
  let* _ := check (bool_decide (db_ci_runs d !! fci_id c = None)) "factory_ci_runs.id" in
  let* _ := check (known_run (fci_run_id c) d && known_cycle (Some (fci_cycle_id c)) d) "FOREIGN KEY" in
  let* _ := check (negb (existsb (fun x =>
                     str_eqb (fci_provider x) (fci_provider c)
                     && str_eqb (fci_repository x) (fci_repository c)
                     && str_eqb (fci_external_run_id x) (fci_external_run_id c)
                     && str_eqb (fci_check_id x) (fci_check_id c)) (rows_of (db_ci_runs d))))
                  "uq_factory_ci_provider_run_check" in
  write (fun d => set_db_ci_runs (<[fci_id c := c]> (db_ci_runs d)) d).
Definition save_ci (c : FactoryCiRun) : M World unit :=
  write (fun d => set_db_ci_runs (<[fci_id c := c]> (db_ci_runs d)) d).

(** [_get] *)
Definition _get (cid : string) : M World FactoryCiRun :=
  let* row := query (fun d => db_ci_runs d !! cid) in
  required row (KeyError "factory CI run not found").

Definition new_ci (fid rid cid provider repository revision external check_id : string)
    (url : option string) (now : Z) : FactoryCiRun := {|
  fci_id := fid; fci_run_id := rid; fci_cycle_id := cid; fci_provider := provider;
  fci_repository := repository; fci_revision := revision; fci_external_run_id := external;
  fci_check_id := check_id; fci_status := "QUEUED"; fci_conclusion := None; fci_url := url;
  fci_failure_summary := None; fci_diagnosis_required := false; fci_diagnosis_summary := None;
  fci_created_at := now; fci_updated_at := now; fci_last_observed_at := None;
  fci_diagnosed_at := None |}.

(** [begin_tracking] *)
Definition begin_tracking (rid cid provider repository revision external : string)
    (check_id url : option string) : M World FactoryCiRun :=
  let* provider := lift (let? p := _token provider "CI provider" 120 in Ok (lower p)) in
  let* repository := lift (_token repository "CI repository" 500) in
  let* revision := lift (_token revision "CI revision" 500) in
  let* external := lift (_token external "CI run ID" 500) in
  let* check_id := lift (match check_id with Some c => _token c "CI check ID" 500 | None => Ok "" end) in
  raise_if match dict_get provider providers with Some _ => false | None => true end
    as FactoryCiError "FACTORY_CI_PROVIDER_UNAVAILABLE" in
  let* now := _now_ms in
  transaction (
    let* (run, _) := run_and_cycle rid cid in
    raise_if negb (opt_eqb (run_current_cycle_id run) (Some cid))
      as FactoryCiError "FACTORY_CI_STALE_CYCLE" in
    let* rows := query (fun d => select (fun x =>
      str_eqb (fci_provider x) provider && str_eqb (fci_repository x) repository
      && str_eqb (fci_external_run_id x) external && str_eqb (fci_check_id x) check_id)
      (rows_of (db_ci_runs d))) in
    let* exact := scalar_one_or_none rows in
    match exact with
    | Some row =>
        raise_if negb (str_eqb (fci_run_id row) rid) || negb (str_eqb (fci_cycle_id row) cid)
                 || negb (str_eqb (fci_revision row) revision)
          as FactoryCiError "FACTORY_CI_TRACKING_CONFLICT" in
        ret row
    | None =>
        let* pending := query (fun d => select (fun x =>
          str_eqb (fci_cycle_id x) cid && str_eqb (fci_provider x) provider
          && str_eqb (fci_revision x) revision && fci_diagnosis_required x)
          (rows_of (db_ci_runs d))) in
        raise_if negb (is_nil pending) as FactoryCiError "FACTORY_CI_DIAGNOSIS_REQUIRED" in
        let* fid := _new_id "fci" in
        let row := new_ci fid rid cid provider repository revision external check_id
          (match url with
           | Some u => if empty_str u then None else Some (str_take 4096 (redact_text u))
           | None => None
           end) now in
        let* _ := insert_ci row in
        ret row
    end).

(** the row of a CI run after an observation *)
Definition observed_ci (status : string) (conclusion : option string) (o : CiObservation) (now : Z)
    (c : FactoryCiRun) : FactoryCiRun := {|
  fci_id := fci_id c; fci_run_id := fci_run_id c; fci_cycle_id := fci_cycle_id c;
  fci_provider := fci_provider c; fci_repository := fci_repository c;
  fci_revision := fci_revision c; fci_external_run_id := fci_external_run_id c;
  fci_check_id := fci_check_id c; fci_status := status; fci_conclusion := conclusion;
  fci_url := if has_key (ob_url o) then Some (str_take 4096 (redact_text (default "" (ob_url o))))
             else fci_url c;
  fci_failure_summary :=
    if has_key (ob_failure_summary o)
    then Some (str_take 8000 (redact_text (default "" (ob_failure_summary o))))
    else fci_failure_summary c;
  fci_diagnosis_required := is_failure conclusion; fci_diagnosis_summary := fci_diagnosis_summary c;
  fci_created_at := fci_created_at c; fci_updated_at := now; fci_last_observed_at := Some now;
  fci_diagnosed_at := fci_diagnosed_at c |}.

Definition poll_request (c : FactoryCiRun) : CiPollRequest := {|
  rq_provider := fci_provider c; rq_repository := fci_repository c; rq_revision := fci_revision c;
  rq_external_run_id := fci_external_run_id c; rq_check_id := fci_check_id c |}.

(** the last observation of the cycle's revision by the provider *)
Definition latest_observation (c : FactoryCiRun) (d : Db) : option Z :=
  max_of (omap fci_last_observed_at (select (fun x =>
    str_eqb (fci_cycle_id x) (fci_cycle_id c) && str_eqb (fci_provider x) (fci_provider c)
    && str_eqb (fci_revision x) (fci_revision c)) (rows_of (db_ci_runs d)))).

(** [poll_once] *)
Definition poll_once (ci_run_id : string) : M (World * R) FactoryCiRun :=
  let* row := on_left (_get ci_run_id) in
  match dict_get (fci_provider row) providers with
  | None => raise (FactoryCiError "FACTORY_CI_PROVIDER_UNAVAILABLE")
  | Some provider =>
      let* observation := on_right (provider (poll_request row)) in
      let* status := lift (_status (ob_status observation)) in
      let* conclusion := lift (_conclusion (ob_conclusion observation)) in
      raise_if negb (str_eqb status "COMPLETED") && negb (is_none conclusion)
        as FactoryCiError "FACTORY_CI_INVALID_OBSERVATION" in
      on_left (transaction (
        let* current := _get ci_run_id in
        let* latest := query (latest_observation current) in
        let* clock := _now_ms in
        let now := Z.max clock (int_or_zero latest + 1) in
        let current := observed_ci status conclusion observation now current in
        let* _ := save_ci current in
        ret current))
  end.

Definition diagnosed_ci (summary : string) (now : Z) (c : FactoryCiRun) : FactoryCiRun := {|
  fci_id := fci_id c; fci_run_id := fci_run_id c; fci_cycle_id := fci_cycle_id c;
  fci_provider := fci_provider c; fci_repository := fci_repository c;
  fci_revision := fci_revision c; fci_external_run_id := fci_external_run_id c;
  fci_check_id := fci_check_id c; fci_status := fci_status c; fci_conclusion := fci_conclusion c;
  fci_url := fci_url c; fci_failure_summary := fci_failure_summary c;
  fci_diagnosis_required := false;
  fci_diagnosis_summary := Some (str_take 8000 (redact_text summary));
  fci_created_at := fci_created_at c; fci_updated_at := now;
  fci_last_observed_at := fci_last_observed_at c; fci_diagnosed_at := Some now |}.

(** [record_diagnosis] *)
Definition record_diagnosis (ci_run_id summary : string) : M World FactoryCiRun :=
  let summary := strip summary in
  raise_if empty_str summary as ValueError "CI diagnosis summary must not be blank" in
  let* now := _now_ms in
  transaction (
    let* row := _get ci_run_id in
    raise_if negb (is_failure (fci_conclusion row))
      as FactoryCiError "FACTORY_CI_DIAGNOSIS_NOT_REQUIRED" in
    let row := diagnosed_ci summary now row in
    let* _ := save_ci row in
    ret row).

(** newest observation first *)
Definition observation_order (a b : FactoryCiRun) : bool :=
  let la := int_or_zero (fci_last_observed_at a) in
  let lb := int_or_zero (fci_last_observed_at b) in
  (lb <? la)%Z || ((la =? lb)%Z &&
    ((fci_updated_at b <? fci_updated_at a)%Z || ((fci_updated_at a =? fci_updated_at b)%Z
       && String.leb (fci_id b) (fci_id a)))).

(** a run of the cycle and revision that was observed *)
Definition observed_in (cid revision : string) (x : FactoryCiRun) : bool :=
  str_eqb (fci_cycle_id x) cid && str_eqb (fci_revision x) revision
  && negb (is_none (fci_last_observed_at x)).

(** [has_current_pass] *)
Definition has_current_pass (cid revision : string) : M World bool :=
  let* revision := lift (_token revision "CI revision" 500) in
  let* rows := query (fun d => limit_rows 1 (order_by observation_order
    (select (observed_in cid revision) (rows_of (db_ci_runs d))))) in
  ret (match rows with
       | latest :: _ => str_eqb (fci_status latest) "COMPLETED"
                        && opt_eqb (fci_conclusion latest) (Some "SUCCESS")
                        && negb (fci_diagnosis_required latest)
       | [] => false
       end).
End Service.
Arguments CiProvider : clear implicits.

(** ** Proofs *)

(** *** The first of the sorted rows *)

Lemma order_first {A} (le : A -> A -> bool) (rows : list A) x :
  (forall a b, le a b = true \/ le b a = true) ->
  (forall a b c, le a b = true -> le b c = true -> le a c = true) ->
  head (order_by le rows) = Some x -> x ∈ rows /\ forall y, y ∈ rows -> le x y = true.
Proof.
  intros Htot Htrans Hx. unfold order_by in Hx.
  assert (StronglySorted (fun a b => Is_true (le a b)) (merge_sort (fun a b => Is_true (le a b)) rows)) as Hs.
  { apply StronglySorted_merge_sort.
    - intros a b c. rewrite !Is_true_true. apply Htrans.
    - intros a b. rewrite !Is_true_true. apply Htot. }
  pose proof (merge_sort_Permutation (fun a b => Is_true (le a b)) rows) as Hp.
  destruct (merge_sort _ rows) as [|z l]; [done|]. injection Hx as ->.
  inversion_clear Hs as [|? ? _ Hall]. split; [rewrite <-Hp; by left|].
  intros y Hy. rewrite <-Hp in Hy. apply elem_of_cons in Hy as [->|Hy].
  - by destruct (Htot x x).
  - rewrite Forall_forall in Hall. by apply Is_true_true, Hall.
Qed.

Lemma leb_total s t : String.leb s t = true \/ String.leb t s = true.
Proof. rewrite !leb_le. apply (total String.le). Qed.
Lemma leb_trans s t u : String.leb s t = true -> String.leb t u = true -> String.leb s u = true.
Proof. rewrite !leb_le. apply (transitivity (R:=String.le)). Qed.

Lemma observation_order_spec a b :
  observation_order a b = true <->
  let la := int_or_zero (fci_last_observed_at a) in let lb := int_or_zero (fci_last_observed_at b) in
  (lb < la)%Z \/ (la = lb /\ ((fci_updated_at b < fci_updated_at a)%Z \/
    (fci_updated_at a = fci_updated_at b /\ String.leb (fci_id b) (fci_id a) = true))).
Proof.
  unfold observation_order. rewrite !orb_true_iff, !andb_true_iff, !orb_true_iff, !andb_true_iff.
  by rewrite !Z.ltb_lt, !Z.eqb_eq.
Qed.

Lemma observation_order_total a b : observation_order a b = true \/ observation_order b a = true.
Proof.
  rewrite !observation_order_spec. cbv zeta.
  destruct (Z.lt_total (int_or_zero (fci_last_observed_at a)) (int_or_zero (fci_last_observed_at b)))
    as [?|[?|?]]; [by right; left| |by left; left].
  destruct (Z.lt_total (fci_updated_at a) (fci_updated_at b)) as [?|[?|?]];
    [by right; right; split; [|left]| |by left; right; split; [|left]].
  destruct (leb_total (fci_id a) (fci_id b)); [right|left]; right; split; try done; right; done.
Qed.
Lemma observation_order_trans a b c :
  observation_order a b = true -> observation_order b c = true -> observation_order a c = true.
Proof.
  rewrite !observation_order_spec. cbv zeta. pose proof (leb_trans (fci_id c) (fci_id b) (fci_id a)).
  intros [?|[? [?|[? ?]]]] [?|[? [?|[? ?]]]]; first [left; lia|right; split; [lia|]; first [left; lia|right; split; [lia|auto]]].
Qed.

Lemma observation_order_antisym a b :
  observation_order a b = true -> observation_order b a = true -> fci_id a = fci_id b.
Proof.
  rewrite !observation_order_spec. cbv zeta. intros [?|[? [?|[? H1]]]] [?|[? [?|[? H2]]]]; try lia.
  rewrite leb_le in H1, H2. by apply (anti_symm String.le).
Qed.
(** *** Rows *)

Definition ci_statuses : list string := ["QUEUED"; "IN_PROGRESS"; "COMPLETED"].
Definition ci_conclusions : list string :=
  ["SUCCESS"; "FAILURE"; "CANCELLED"; "TIMED_OUT"; "SKIPPED"; "NEUTRAL"; "ACTION_REQUIRED"].

(** a stored CI run *)
Record ci_ok (c : FactoryCiRun) : Prop := {
  ci_status_known : fci_status c ∈ ci_statuses;
  ci_terminal : forall x, fci_conclusion c = Some x -> fci_status c = "COMPLETED" /\ x ∈ ci_conclusions;
  ci_diagnosis : fci_diagnosis_required c = true -> is_failure (fci_conclusion c) = true;
  ci_unobserved : fci_last_observed_at c = None -> fci_status c = "QUEUED" /\ fci_conclusion c = None;
}.

Definition same_ci (x y : FactoryCiRun) : Prop :=
  fci_provider x = fci_provider y /\ fci_repository x = fci_repository y /\
  fci_external_run_id x = fci_external_run_id y /\ fci_check_id x = fci_check_id y.

(** the table of the CI runs *)
Record ci_wf (d : Db) : Prop := {
  ci_keyed i c : db_ci_runs d !! i = Some c -> fci_id c = i;
  ci_rows_ok i c : db_ci_runs d !! i = Some c -> ci_ok c;
  ci_unique i c j x : db_ci_runs d !! i = Some c -> db_ci_runs d !! j = Some x -> same_ci c x -> i = j;
}.

Lemma dict_get_In {A} k (v : A) d : dict_get k d = Some v -> (k, v) ∈ d.
Proof.
  induction d as [|[k' v'] d IH]; simpl; [done|]. case_decide as Hk; [|intros Hd; right; auto].
  intros [= ->]. subst. by left.
Qed.

Lemma status_known v s : _status v = Ok s -> s ∈ ci_statuses.
Proof.
  unfold _status. destruct (dict_get _ _) as [x|] eqn:E; [intros [= ->]|done].
  apply dict_get_In in E. unfold status_aliases, ci_statuses in *.
  repeat (apply elem_of_cons in E as [[= _ ->]|E]; [by_evaluation|]). by apply elem_of_nil in E.
Qed.

Lemma conclusion_known v c : _conclusion v = Ok (Some c) -> c ∈ ci_conclusions.
Proof.
  unfold _conclusion. destruct v as [v|]; [|done]. destruct (blank v); [done|].
  destruct (dict_get _ _) as [x|] eqn:E; [intros [= ->]|done].
  apply dict_get_In in E. unfold conclusion_aliases, ci_conclusions in *.
  repeat (apply elem_of_cons in E as [[= _ ->]|E]; [by_evaluation|]). by apply elem_of_nil in E.
Qed.

Section Tracking.
Context `{Env} {R : Type} (providers : list (string * CiProvider R)).

Lemma get_ci_Ok cid w c w' : _get cid w = (Ok c, w') -> db_ci_runs (db w) !! cid = Some c /\ w' = w.
Proof.
  unfold _get. intros Hi. ok_inv.
  by select (required _ _ _ = _) (fun H => apply required_Ok in H as [? ->]).
Qed.

Lemma insert_ci_Ok c u w w' :
  insert_ci c w = (Ok u, w') ->
  w' = set_db (fun d => set_db_ci_runs (<[fci_id c := c]> (db_ci_runs d)) d) w /\
  db_ci_runs (db w) !! fci_id c = None /\
  forall i x, db_ci_runs (db w) !! i = Some x -> ~ same_ci x c.
Proof.
  unfold insert_ci. intros Hi. ok_inv.
  apply bool_decide_eq_true in Hx0. apply negb_true_iff in Hx2. rewrite existsb_false in Hx2.
  split_and!; [done|done|]. intros i x Hx (E1 & E2 & E3 & E4).
  assert (x ∈ rows_of (db_ci_runs (db w))) as Hin by (apply elem_of_rows; eauto).
  specialize (Hx2 x Hin). by rewrite E1, E2, E3, E4, !str_eqb_refl in Hx2.
Qed.

(** replacing a row by one with the same identity *)
Lemma ci_wf_edit d i c c' :
  ci_wf d -> db_ci_runs d !! i = Some c -> fci_id c' = fci_id c -> same_ci c c' -> ci_ok c' ->
  ci_wf (set_db_ci_runs (<[fci_id c := c']> (db_ci_runs d)) d).
Proof.
  intros [Hk Ho Hu] Hi Hid Hs Hok. rewrite (Hk _ _ Hi).
  assert (Hsame : forall j x y, <[i := c']> (db_ci_runs d) !! j = Some x ->
    exists x0, db_ci_runs d !! j = Some x0 /\ (same_ci x y <-> same_ci x0 y) /\ (same_ci y x <-> same_ci y x0)).
  { intros j x y [[<- <-]|[_ Hx]]%lookup_insert_Some; [|eauto]. exists c. unfold same_ci in *.
    destruct Hs as (-> & -> & -> & ->). done. }
  split; simpl.
  - intros j x [[<- <-]|[_ Hx]]%lookup_insert_Some; [rewrite Hid; by apply Hk|eauto].
  - intros j x [[<- <-]|[_ Hx]]%lookup_insert_Some; eauto.
  - intros j x k y Hx Hy. destruct (Hsame _ _ y Hx) as (x0 & Hx0 & -> & _).
    destruct (Hsame _ _ x0 Hy) as (y0 & Hy0 & _ & ->). eauto.
Qed.

Lemma bind_lift_Err {W A B} (v : result A) (k : A -> M W B) w e w' :
  bind (lift v) k w = (Err e, w') -> w' = w \/ exists a, v = Ok a /\ k a w = (Err e, w').
Proof. destruct v as [a|]; [eauto|intros [= _ <-]; by left]. Qed.
Ltac lift_Err E := repeat apply bind_lift_Err in E as [->|(? & _ & E)]; [done..|].

Definition keeps_ci {W A} (m : M W A) (tables : W -> Db) : Prop :=
  forall w, ci_wf (tables w) -> ci_wf (tables (m w).2).

Lemma begin_tracking_ci rid cid provider repository revision external check_id url :
  keeps_ci (begin_tracking providers rid cid provider repository revision external check_id url) db.
Proof.
  intros w Hwf. destruct (begin_tracking _ _ _ _ _ _ _ _ _ w) as [[c|e] w'] eqn:E; simpl.
  - unfold begin_tracking in E. ok_inv;
      select (run_and_cycle _ _ _ = _) (fun H => apply run_and_cycle_Ok in H as (-> & _)); [done|].
    select (insert_ci _ _ = _) (fun H => apply insert_ci_Ok in H as (-> & Hfresh & Hnew)). simpl in *.
    destruct Hwf as [Hk Ho Hu]. split; simpl.
    + intros i row1 [[<- <-]|[_ Hfound]]%lookup_insert_Some; [done|eauto].
    + intros i row1 [[<- <-]|[_ Hfound]]%lookup_insert_Some; [|eauto]. split; simpl; [by_evaluation|done..].
    + intros i row1 j row2 [[<- <-]|[_ Hfound]]%lookup_insert_Some [[<- <-]|[_ Hy]]%lookup_insert_Some Hs;
        [done| | |by eauto].
      * destruct (Hnew _ _ Hy). destruct Hs as (? & ? & ? & ?). by split_and!.
      * by destruct (Hnew _ _ Hfound).
  - assert (db w' = db w) as ->; [|done]. unfold begin_tracking in E. lift_Err E.
    destruct (dict_get _ providers); [|by injection E as _ <-].
    apply bind_Err in E as [E|(now & w1 & Hnow & E)]; [done|]. injection Hnow as _ <-.
    by apply transaction_Err in E.
Qed.

(** *** Polling *)

Lemma poll_once_spec cid w r (res : result FactoryCiRun) s' :
  poll_once providers cid (w, r) = (res, s') ->
  match res with
  | Err _ => db s'.1 = db w
  | Ok c' => exists c provider o now,
      db_ci_runs (db w) !! cid = Some c /\ dict_get (fci_provider c) providers = Some provider /\
      provider (poll_request c) r = (Ok o, s'.2) /\
      _status (ob_status o) = Ok (fci_status c') /\ _conclusion (ob_conclusion o) = Ok (fci_conclusion c') /\
      (fci_conclusion c' <> None -> fci_status c' = "COMPLETED") /\
      c' = observed_ci (fci_status c') (fci_conclusion c') o now c /\
      (int_or_zero (latest_observation c (db w)) < now)%Z /\
      db s'.1 = set_db_ci_runs (<[fci_id c := c']> (db_ci_runs (db w))) (db w)
  end.
Proof.
  unfold poll_once. destruct (_get cid w) as [y w1] eqn:Eg.
  assert (w1 = w) as -> by (unfold _get, query, bind, gets, required in Eg; destruct (_ !! _); by injection Eg as _ <-).
  unfold bind at 1, on_left at 1. cbn [fst snd]. rewrite Eg. destruct y as [c|e]; [|by intros [= <- <-]].
  apply get_ci_Ok in Eg as [Hc _]. destruct (dict_get _ providers) as [provider|] eqn:Ep; [|by intros [= <- <-]].
  unfold bind at 1, on_right at 1. cbn [fst snd]. destruct (provider _ r) as [o r1] eqn:Eo.
  destruct o as [o|e]; [|by intros [= <- <-]].
  unfold bind at 1, lift at 1. destruct (_status _) as [st|e] eqn:Es; [|by intros [= <- <-]].
  unfold bind at 1, lift at 1. destruct (_conclusion _) as [cn|e] eqn:Ec; [|by intros [= <- <-]].
  destruct (_ && _) eqn:Einv; [by intros [= <- <-]|].
  unfold on_left. cbn [fst snd]. destruct (transaction _ w) as [z w2] eqn:Et. intros [= <- <-]. cbn [fst snd].
  destruct z as [c'|e]; [|by apply transaction_Err in Et].
  ok_inv. select (_get _ _ = _) (fun H => apply get_ci_Ok in H as [Hc' ->]).
  match goal with Hx : db_ci_runs (db _) !! cid = Some ?y |- _ => assert (y = c) as -> by congruence end. unfold save_ci in *. ok_inv.
  eexists c, provider, o, _. split_and!; try done.
  - simpl. intros Hn. destruct cn as [cn|]; [|done]. rewrite andb_true_r in Einv.
    by apply negb_false_iff, str_eqb_true in Einv.
  - lia.
Qed.

Lemma poll_once_ci cid : keeps_ci (poll_once providers cid) (fun s => db s.1).
Proof.
  intros [w r] Hwf. simpl in Hwf. destruct (poll_once providers cid (w, r)) as [x s'] eqn:E.
  apply poll_once_spec in E. simpl. destruct x as [c'|e]; [|by rewrite E].
  destruct E as (c & provider & o & now & Hc & _ & _ & Hs & Hcn & Hterm & Heq & _ & ->).
  eapply ci_wf_edit; [done|exact Hc|by rewrite Heq|rewrite Heq; by split_and!|]. split.
  - by eapply status_known.
  - intros y Hy. rewrite Hy in *. split; [by apply Hterm|by eapply conclusion_known].
  - by rewrite Heq.
  - by rewrite Heq.
Qed.

Lemma record_diagnosis_ci cid summary : keeps_ci (record_diagnosis cid summary) db.
Proof.
  intros w Hwf. destruct (record_diagnosis cid summary w) as [[c|e] w'] eqn:E; simpl.
  - unfold record_diagnosis in E. ok_inv. select (_get _ _ = _) (fun H => apply get_ci_Ok in H as [Hc ->]).
    unfold save_ci in *. ok_inv. simpl in *. eapply (ci_wf_edit _ _ x0); [done|exact Hc|done|by split_and!|].
    destruct (ci_rows_ok _ Hwf _ _ Hc). by split.
  - assert (db w' = db w) as ->; [|done]. unfold record_diagnosis in E.
    destruct (empty_str _); [by injection E as _ <-|].
    apply bind_Err in E as [E|(now & w1 & Hnow & E)]; [done|]. injection Hnow as _ <-.
    by apply transaction_Err in E.
Qed.
End Tracking.

(** ** Theorems *)

Section Theorems.
Context `{Env} {R : Type} (providers : list (string * CiProvider R)).

(** CI rows stay sound: tracking, polling and diagnosing keep every row in a
    known status, with a conclusion only when completed and then a known one, asking
    for a diagnosis only after a failed conclusion, and keep one row per provider,
    repository, run and check. *)
Theorem ci_rows_sound rid cid provider repository revision external check_id url ci_run summary w r :
  ci_wf (db w) ->
  ci_wf (db (begin_tracking providers rid cid provider repository revision external check_id url w).2) /\
  ci_wf (db (poll_once providers ci_run (w, r)).2.1) /\
  ci_wf (db (record_diagnosis ci_run summary w).2).
Proof.
  intros Hwf. split_and!.
  - by apply begin_tracking_ci.
  - by apply (poll_once_ci providers ci_run (w, r)).
  - by apply record_diagnosis_ci.
Qed.

(** One observation per poll, recorded as the latest: a poll that returns has
    asked the provider of the row exactly once about exactly the tracked repository,
    revision, run and check, replaced only that row, by the observed status and
    conclusion (a conclusion only if completed), and stamped it later than every
    other observation of the cycle's revision by the provider; a poll that raises
    has written nothing. *)
Theorem poll_records_one_observation ci_run w r x s' :
  ci_wf (db w) -> poll_once providers ci_run (w, r) = (x, s') ->
  match x with
  | Err _ => db s'.1 = db w
  | Ok c' => exists c provider o,
      db_ci_runs (db w) !! ci_run = Some c /\ dict_get (fci_provider c) providers = Some provider /\
      provider (poll_request c) r = (Ok o, s'.2) /\
      _status (ob_status o) = Ok (fci_status c') /\
      _conclusion (ob_conclusion o) = Ok (fci_conclusion c') /\
      (fci_conclusion c' <> None -> fci_status c' = "COMPLETED") /\
      fci_diagnosis_required c' = is_failure (fci_conclusion c') /\
      db s'.1 = set_db_ci_runs (<[ci_run := c']> (db_ci_runs (db w))) (db w) /\
      forall i other t t', db_ci_runs (db w) !! i = Some other ->
        fci_cycle_id other = fci_cycle_id c -> fci_provider other = fci_provider c ->
        fci_revision other = fci_revision c ->
        fci_last_observed_at other = Some t -> fci_last_observed_at c' = Some t' -> (t < t')%Z
  end.
Proof.
  intros Hwf E. apply poll_once_spec in E. destruct x as [c'|e]; [|done].
  destruct E as (c & provider & o & now & Hc & Hp & Ho & Hs & Hcn & Hterm & Hc' & Hlt & Hd).
  exists c, provider, o. pose proof (ci_keyed _ Hwf _ _ Hc) as Hid. rewrite Hid in Hd.
  do 6 (split; [done|]). rewrite Hc' at 1. do 2 (split; [done|]).
  intros i other t t' Hi E1 E2 E3 Ht Ht'. rewrite Hc' in Ht'. injection Ht' as <-.
  enough (t < int_or_zero (latest_observation c (db w)) + 1)%Z by lia.
  apply max_of_above, list_elem_of_omap. exists other. split; [|done]. apply elem_of_select.
  split; [apply elem_of_rows; eauto|]. by rewrite E1, E2, E3, !str_eqb_refl.
Qed.

(** A pass is the latest observation: on sound rows [has_current_pass] never
    raises or writes, and answers true exactly when the newest observed CI run of the
    cycle's revision (every other one being observed no later) is completed with
    success and needs no diagnosis; any other newest observation, or none, answers
    false. *)
Theorem current_pass_is_latest cid revision w :
  ci_wf (db w) -> blank revision = false -> strip revision = revision -> (len revision <= 500)%Z ->
  exists b, has_current_pass cid revision w = (Ok b, w) /\
    (b = true <-> exists i c, db_ci_runs (db w) !! i = Some c /\
       observed_in cid revision c = true /\ fci_status c = "COMPLETED" /\
       fci_conclusion c = Some "SUCCESS" /\ fci_diagnosis_required c = false /\
       forall j x, db_ci_runs (db w) !! j = Some x -> observed_in cid revision x = true ->
         (int_or_zero (fci_last_observed_at x) <= int_or_zero (fci_last_observed_at c))%Z /\
         observation_order c x = true).
Proof.
  intros Hwf Hb Hs Hlen. unfold has_current_pass, _token. rewrite Hs.
  assert (empty_str revision = false) as -> by (unfold blank in Hb; by rewrite Hs in Hb).
  assert ((500 <? len revision)%Z = false) as -> by (apply Z.ltb_ge; lia).
  unfold bind, lift, query, gets, ret, limit_rows. eexists. split; [reflexivity|].
  change (Z.to_nat 1) with 1%nat.
  set (rows := order_by _ _). destruct (head rows) as [c|] eqn:Hhead.
  - destruct (order_first _ _ _ observation_order_total observation_order_trans Hhead) as [Hin Hall].
    destruct rows as [|c' l]; [done|]. injection Hhead as ->. cbn [take].
    apply elem_of_select in Hin as [[i Hi]%elem_of_rows Hc].
    rewrite !andb_true_iff, negb_true_iff, str_eqb_true, opt_eqb_true. split.
    + intros [[? ?] ?]. exists i, c. split_and!; try done; intros j x Hx Ho;
        assert (observation_order c x = true) as Hle
          by (apply Hall, elem_of_select; split; [apply elem_of_rows; eauto|done]).
      split; [|done]. apply observation_order_spec in Hle. cbv zeta in Hle. lia.
    + intros (j & x & Hx & Ho & ? & ? & ? & Hmax).
      assert (c = x) as ->; [|done]. destruct (Hmax _ _ Hi Hc) as [_ Hxc].
      assert (observation_order c x = true) as Hcx
        by (apply Hall, elem_of_select; split; [apply elem_of_rows; eauto|done]).
      pose proof (observation_order_antisym _ _ Hxc Hcx) as Hid.
      rewrite <-(ci_keyed _ Hwf _ _ Hi), <-Hid, (ci_keyed _ Hwf _ _ Hx) in Hi. congruence.
  - destruct rows as [|] eqn:Erows; [|done]. split; [done|].
    intros (j & x & Hx & Ho & _). exfalso.
    assert (x ∈ rows) as Hin; [|rewrite Erows in Hin; by apply elem_of_nil in Hin].
    apply order_by_in, elem_of_select. split; [apply elem_of_rows; eauto|done].
Qed.
End Theorems.

(** ** Witnesses *)

(** a provider that counts its observations: running at first, then failed *)
Definition demo_provider : CiProvider nat := fun request n =>
  (Ok {| ob_status := if bool_decide (n = 0%nat) then "running" else "completed";
         ob_conclusion := if bool_decide (n = 0%nat) then None else Some "failed";
         ob_url := None; ob_failure_summary := None |}, S n).
Definition demo_providers : list (string * CiProvider nat) := [("github", demo_provider)].
Definition demo_run_key : string := "factory_0".
Definition demo_cycle_key : string := "cycle_2".
Definition demo_ci (ci_run : string) (check_id : string) : FactoryCiRun :=
  new_ci ci_run demo_run_key demo_cycle_key "github" "heidi/computer" "r2" "77" check_id None 5.
Definition observed_ok (t : Z) (c : FactoryCiRun) : FactoryCiRun :=
  @observed_ci demo_env "COMPLETED" (Some "SUCCESS")
    {| ob_status := "completed"; ob_conclusion := Some "success"; ob_url := None;
       ob_failure_summary := None |} t c.
Definition demo_tracked : World :=
  set_db (fun d => set_db_ci_runs
    {[ "fci_a" := demo_ci "fci_a" "build"; "fci_b" := observed_ok 90 (demo_ci "fci_b" "tests") ]} d)
    demo_judging.

Lemma demo_tracked_wf : ci_wf (db demo_tracked).
Proof.
  assert (forall i c, db_ci_runs (db demo_tracked) !! i = Some c ->
    (i = "fci_a" /\ c = demo_ci "fci_a" "build") \/
    (i = "fci_b" /\ c = observed_ok 90 (demo_ci "fci_b" "tests"))) as Hrows.
  { intros i c. simpl. intros [[<- <-]|[_ [<- <-]%lookup_singleton_Some]]%lookup_insert_Some; auto. }
  split.
  - by intros i c [[-> ->]|[-> ->]]%Hrows.
  - intros i c [[-> ->]|[-> ->]]%Hrows; split; try done; try by_evaluation.
    simpl. intros x [= <-]. split; [done|by_evaluation].
  - intros i c j x [[-> ->]|[-> ->]]%Hrows [[-> ->]|[-> ->]]%Hrows; try done; by intros (_ & _ & _ & ?).
Qed.

Theorem ci_rows_sound_witness :
  let tracked := @begin_tracking demo_env nat demo_providers demo_run_key demo_cycle_key
    "GitHub" "heidi/computer" "r3" "78" None None demo_tracked in
  let polled := @poll_once demo_env nat demo_providers "fci_a" (demo_tracked, 1%nat) in
  is_ok tracked.1 = true /\ ci_wf (db tracked.2) /\ is_ok polled.1 = true /\ ci_wf (db polled.2.1).
Proof.
  destruct (@ci_rows_sound demo_env nat demo_providers demo_run_key demo_cycle_key "GitHub"
    "heidi/computer" "r3" "78" None None "fci_a" "" demo_tracked 1%nat demo_tracked_wf) as (H1 & H2 & _).
  split; [vm_compute; reflexivity|]. split; [exact H1|]. split; [vm_compute; reflexivity|exact H2].
Defined.

Theorem poll_records_one_observation_witness :
  exists c' s', @poll_once demo_env nat demo_providers "fci_a" (demo_tracked, 1%nat) = (Ok c', s') /\
    s'.2 = 2%nat /\ fci_conclusion c' = Some "FAILURE" /\ fci_diagnosis_required c' = true /\
    exists t, fci_last_observed_at c' = Some t /\ (90 < t)%Z.
Proof.
  destruct (@poll_once demo_env nat demo_providers "fci_a" (demo_tracked, 1%nat)) as [x s'] eqn:E.
  pose proof (@poll_records_one_observation demo_env nat demo_providers "fci_a" demo_tracked 1%nat
    x s' demo_tracked_wf E) as Hx.
  destruct x as [c'|e]; [|exfalso; assert (is_ok (@poll_once demo_env nat demo_providers "fci_a"
    (demo_tracked, 1%nat)).1 = true) as Hok by (vm_compute; reflexivity); rewrite E in Hok; discriminate Hok].
  destruct Hx as (c & provider & o & Hc & Hp & Ho & _ & Hcn & _ & Hdg & _ & Hlater).
  vm_compute in Hc. injection Hc as <-. vm_compute in Hp. injection Hp as <-.
  vm_compute in Ho. injection Ho as <- Hs. vm_compute in Hcn. injection Hcn as Hcn.
  assert (fci_conclusion c' = Some "FAILURE") as Hf by exact (eq_sym Hcn).
  exists c', s'. split; [reflexivity|]. split; [exact (eq_sym Hs)|]. split; [exact Hf|].
  split; [rewrite Hdg, Hf; reflexivity|].
  destruct (fci_last_observed_at c') as [t|] eqn:Et.
  - exists t. split; [reflexivity|].
    apply (Hlater "fci_b" (observed_ok 90 (demo_ci "fci_b" "tests")) 90%Z t); reflexivity.
  - exfalso. assert (match (@poll_once demo_env nat demo_providers "fci_a" (demo_tracked, 1%nat)).1 with
      | Ok c => bool_decide (fci_last_observed_at c = None) | Err _ => true end = false) as Hn
      by (vm_compute; reflexivity). rewrite E in Hn. simpl in Hn. rewrite Et in Hn. discriminate Hn.
Defined.

Theorem current_pass_is_latest_witness :
  exists b, has_current_pass demo_cycle_key "r2" demo_tracked = (Ok b, demo_tracked) /\ b = true.
Proof.
  assert (len "r2" <= 500)%Z as Hlen by (vm_compute; discriminate).
  destruct (current_pass_is_latest demo_cycle_key "r2" demo_tracked demo_tracked_wf
    eq_refl eq_refl Hlen) as (b & Hb & Hiff).
  exists b. split; [exact Hb|]. apply Hiff.
  exists "fci_b", (observed_ok 90 (demo_ci "fci_b" "tests")).
  do 5 (split; [reflexivity|]). simpl.
  intros j x [[<- <-]|[_ [<- <-]%lookup_singleton_Some]]%lookup_insert_Some Hx; [discriminate Hx|].
  split; [reflexivity|reflexivity].
Defined.
