(* ===== verification/FactoryLifecycle.v ===== *)
(** * The phases after Victory: committing, pushing, CI

    Models [cptr/services/factory_phases/lifecycle.py]: the handlers that turn the
    durable Git service and the CI service into phase outcomes.  The callables they
    are built with (repository root, push authorization, CI identity) are
    parameters. *)

From S2P Require Import Prelude PyStr Json Redaction FactoryDomain FactoryGates.
From S2P Require Import FactoryVictory Database CapabilityLifecycle FactoryStore FactoryHistory.
From S2P Require Import FactoryStoreFacts FactoryPhases FactorySafety FactoryStoreSpec.
From S2P Require Import FactoryGit FactoryCi.
From Stdlib Require Import Ascii.

(** [CiTrackingIdentity] *)
Record CiTrackingIdentity := {
  ti_provider : string;
  ti_repository : string;
  ti_revision : string;
  ti_external_run_id : string;
  ti_check_id : string;
  ti_url : option string;
}.

Definition CiTrackingIdentity_post_init (i : CiTrackingIdentity) : result CiTrackingIdentity :=
  if blank (ti_provider i) then Err (ValueError "CI tracking provider must not be blank")
  else if blank (ti_repository i) then Err (ValueError "CI tracking repository must not be blank")
  else if blank (ti_revision i) then Err (ValueError "CI tracking revision must not be blank")
  else if blank (ti_external_run_id i) then
    Err (ValueError "CI tracking external_run_id must not be blank")
  else if negb (empty_str (ti_check_id i)) && blank (ti_check_id i) then
    Err (ValueError "CI tracking check_id must be blank or non-whitespace")
  else Ok i.

Section Lifecycle.
Context `{Env} {R : Type} (git : GitAdapter R) (providers : list (string * CiProvider R)).
(** the resolvers the handlers are built with *)
Context (repo_root : PhaseContext -> M R string).
Context (authorization_of :
  PhaseContext -> FactoryCommitIntent -> M (World * R) (option PushAuthorization)).
Context (identity_of : PhaseContext -> M R CiTrackingIdentity).

(** an outcome with artifacts only *)
Definition outcome_with (next : option FactoryState) (reason : string)
    (artifacts : list PhaseArtifact) (action : option string) (failure : option PhaseFailure)
    : result PhaseOutcome :=
  PhaseOutcome_post_init
    {| po_reason := reason; po_next_state := next; po_artifacts := artifacts; po_gates := [];
       po_cycle_updates := []; po_run_next_action := action; po_target_revision := None;
       po_target_fingerprint := None; po_failure := failure; po_victory_decision := None |}.

(** an artifact the server itself vouches for *)
Definition machine_artifact (key kind source : string) (revision fingerprint : option string)
    (payload : list (string * json)) : result PhaseArtifact :=
  PhaseArtifact_post_init
    {| pa_key := key; pa_kind := kind; pa_source := source; pa_authority := MACHINE;
       pa_payload := payload; pa_gate_id := None; pa_revision := revision;
       pa_fingerprint := fingerprint |}.

(** ** Committing *)

(** [CommittingPhaseHandler.__init__] *)
Definition committing_handler (repository_key commit_message : string) : result (string * string) :=
  if blank repository_key then Err (ValueError "repository_key must not be blank")
  else if blank commit_message then Err (ValueError "commit_message must not be blank")
  else Ok (repository_key, commit_message).

Definition committed_artifact (c : PhaseContext) (i : FactoryCommitIntent) : result PhaseArtifact :=
  machine_artifact "git-commit" "git_commit" "cptr-git" (ci_commit_sha i)
    (target_fingerprint (pc_cycle c))
    [("commit_intent_id", JStr (ci_id i)); ("commit_sha", opt_str (ci_commit_sha i));
     ("diff_digest", JStr (ci_diff_digest i)); ("changed_paths", str_list (ci_changed_paths i))].

(** [CommittingPhaseHandler.execute] *)
Definition committing_execute (repository_key commit_message : string) (c : PhaseContext)
    : M (World * R) PhaseOutcome :=
  let* root := on_right (repo_root c) in
  let* intent := prepare_commit_intent git (run_id (pc_run c)) (cycle_id (pc_cycle c)) root
                   repository_key commit_message in
  let* committed := commit_intent git (ci_id intent) root in
  lift (let? artifact := committed_artifact c committed in
        outcome_with (Some PUSHING) "verified factory diff committed through durable commit intent"
          [artifact] None None).

(** ** Pushing *)

Definition pushed_artifact (c : PhaseContext) (i : FactoryCommitIntent) : result PhaseArtifact :=
  machine_artifact "git-push" "git_push" "cptr-git" (ci_commit_sha i)
    (target_fingerprint (pc_cycle c))
    [("commit_intent_id", JStr (ci_id i)); ("commit_sha", opt_str (ci_commit_sha i));
     ("remote", opt_str (ci_push_remote i)); ("branch", opt_str (ci_push_branch i));
     ("approval_id", opt_str (ci_push_approval_id i))].

(** [PushingPhaseHandler.execute] *)
Definition pushing_execute (c : PhaseContext) : M (World * R) PhaseOutcome :=
  let* intent := on_left (get_intent_for_cycle (cycle_id (pc_cycle c))) in
  let* authorization := authorization_of c intent in
  match authorization with
  | None =>
      lift (outcome_with (Some APPROVAL_REQUIRED)
              "push requires an explicit revision-bound approval" []
              (Some "approve the exact prepared factory commit push envelope") None)
  | Some a =>
      let* root := on_right (repo_root c) in
      let* pushed := push_commit git (ci_id intent) root a in
      lift (let? artifact := pushed_artifact c pushed in
            outcome_with (Some CI_VERIFYING) "approved factory commit pushed successfully"
              [artifact] None None)
  end.

(** ** CI *)

Definition ci_artifact (c : PhaseContext) (o : FactoryCiRun) : result PhaseArtifact :=
  machine_artifact "ci-result" "ci_result" ("ci:" +:+ fci_provider o) (Some (fci_revision o))
    (target_fingerprint (pc_cycle c))
    [("provider", JStr (fci_provider o)); ("repository", JStr (fci_repository o));
     ("external_run_id", JStr (fci_external_run_id o)); ("check_id", JStr (fci_check_id o));
     ("status", JStr (fci_status o)); ("conclusion", opt_str (fci_conclusion o));
     ("failure_summary", opt_str (fci_failure_summary o))].

(** [x or d] on an optional text *)
Definition text_or (x : option string) (d : string) : string :=
  match x with Some s => value_or s d | None => d end.

Definition ci_failure (o : FactoryCiRun) : result PhaseFailure :=
  let conclusion := text_or (fci_conclusion o) "UNKNOWN" in
  PhaseFailure_post_init
    {| pf_category := FAIL_CI;
       pf_code := if str_eqb conclusion "FAILURE" then "CI_FAILURE"
                  else "CI_" +:+ replace_char "-"%char "_"%char conclusion;
       pf_summary := str_take 4000 (text_or (fci_failure_summary o)
         ("CI concluded " +:+ conclusion +:+ " for revision " +:+ fci_revision o));
       pf_gate_id := Some "ci" |}.

(** what an observed CI run means to the phase *)
Definition ci_outcome (c : PhaseContext) (observed : FactoryCiRun) : result PhaseOutcome :=
  if negb (str_eqb (fci_status observed) "COMPLETED") then
    outcome_with None "CI is still running; no terminal conclusion inferred" []
      (Some ("observe CI provider " +:+ fci_provider observed +:+ " run "
               +:+ fci_external_run_id observed +:+ " again")) None
  else
    let? artifact := ci_artifact c observed in
    if opt_eqb (fci_conclusion observed) (Some "SUCCESS") then
      outcome_with (Some CYCLE_COMPLETE) "revision-bound CI completed successfully" [artifact]
        None None
    else
      let? failure := ci_failure observed in
      outcome_with None "terminal CI did not satisfy success policy" [artifact] None (Some failure).

(** [CiVerifyingPhaseHandler.execute] *)
Definition ci_verifying_execute (c : PhaseContext) : M (World * R) PhaseOutcome :=
  let* identity := on_right (identity_of c) in
  let* tracked := on_left (begin_tracking providers (run_id (pc_run c)) (cycle_id (pc_cycle c))
    (ti_provider identity) (ti_repository identity) (ti_revision identity)
    (ti_external_run_id identity)
    (if empty_str (ti_check_id identity) then None else Some (ti_check_id identity))
    (ti_url identity)) in
  let* observed := poll_once providers (fci_id tracked) in
  lift (ci_outcome c observed).
End Lifecycle.

(** ** Proofs *)

Section Proofs.
Context `{Env} {R : Type} (git : GitAdapter R) (providers : list (string * CiProvider R)).

Lemma outcome_with_Ok next reason artifacts action failure o :
  outcome_with next reason artifacts action failure = Ok o ->
  po_next_state o = next /\ po_artifacts o = artifacts /\ po_failure o = failure /\
  po_gates o = [] /\ po_victory_decision o = None.
Proof.
  unfold outcome_with, PhaseOutcome_post_init. cbv zeta. repeat case_match; try done.
  all: by intros [= <-].
Qed.
Lemma machine_artifact_Ok key kind source revision fingerprint payload a :
  machine_artifact key kind source revision fingerprint payload = Ok a ->
  pa_authority a = MACHINE /\ pa_revision a = revision /\ pa_fingerprint a = fingerprint.
Proof. unfold machine_artifact, PhaseArtifact_post_init. repeat case_match; try done; by intros [= <-]. Qed.
Lemma ci_failure_Ok observed f : ci_failure observed = Ok f -> pf_category f = FAIL_CI.
Proof. unfold ci_failure, PhaseFailure_post_init. cbv zeta. repeat case_match; try done; by intros [= <-]. Qed.

Lemma token_Ok value label n s : _token value label n = Ok s -> s = strip value.
Proof. unfold _token. repeat case_match; try done; by intros [= <-]. Qed.

(** the tracked row is the one asked for, and it is in the table *)
Lemma begin_tracking_Ok rid cid provider repository revision external check_id url w c w' :
  ci_wf (db w) ->
  begin_tracking providers rid cid provider repository revision external check_id url w = (Ok c, w') ->
  db_ci_runs (db w') !! fci_id c = Some c /\
  fci_run_id c = rid /\ fci_cycle_id c = cid /\ fci_provider c = lower (strip provider) /\
  fci_repository c = strip repository /\ fci_revision c = strip revision /\
  fci_external_run_id c = strip external /\
  fci_check_id c = match check_id with Some x => strip x | None => "" end.
Proof.
  intros Hwf Hi. unfold begin_tracking in Hi. ok_inv;
    destruct check_id;
    repeat match goal with
    | Ht : rbind (_token _ _ _) _ = Ok _ |- _ => apply rbind_Ok in Ht as (? & Ht & [= <-])
    | Ht : _token _ _ _ = Ok _ |- _ => apply token_Ok in Ht; subst
    | Ht : Ok ?s = Ok ?t |- _ => injection Ht as <-
    end;
    select (run_and_cycle _ _ _ = _) (fun H => apply run_and_cycle_Ok in H as (-> & _)).
  1,2: match goal with Hs : select ?p ?rows = option_list (Some ?row) |- _ =>
      assert (row ∈ select p rows) as [[i Hrow]%elem_of_rows Hp]%elem_of_select
        by (rewrite Hs; by left); rewrite <-(ci_keyed _ Hwf _ _ Hrow) in Hrow
    end.
  1,2: repeat match goal with Hc : _ || _ = false |- _ => apply orb_false_iff in Hc as [] end.
  1,2: repeat match goal with Hc : negb _ = false |- _ => apply negb_false_iff in Hc end.
  1,2: rewrite !andb_true_iff, !str_eqb_true in Hp; destruct Hp as [[[? ?] ?] ?].
  1,2: repeat match goal with Hc : str_eqb _ _ = true |- _ => apply str_eqb_true in Hc end.
  1,2: by split_and!.
  all: select (insert_ci _ _ = _) (fun H => apply insert_ci_Ok in H as (-> & _)).
  all: split; [by simpl; rewrite lookup_insert_eq|done].
Qed.

(** ** Theorems *)

(** what an observation of a CI run allows the phase to say *)
Definition ci_verdict (observed : FactoryCiRun) (o : PhaseOutcome) : Prop :=
  if decide (fci_status observed = "COMPLETED") then
    if decide (fci_conclusion observed = Some "SUCCESS")
    then po_next_state o = Some CYCLE_COMPLETE /\ po_failure o = None
    else po_next_state o = None /\ exists f, po_failure o = Some f /\ pf_category f = FAIL_CI
  else po_next_state o = None /\ po_failure o = None /\ po_artifacts o = [].

Lemma ci_outcome_verdict c observed o :
  ci_outcome c observed = Ok o ->
  ci_verdict observed o /\
  (forall a, a ∈ po_artifacts o -> pa_authority a = MACHINE /\
     pa_revision a = Some (fci_revision observed) /\
     pa_fingerprint a = target_fingerprint (pc_cycle c)) /\
  po_gates o = [] /\ po_victory_decision o = None.
Proof.
  unfold ci_outcome, ci_verdict. destruct (str_eqb (fci_status observed) "COMPLETED") eqn:Es; cbn [negb].
  - apply str_eqb_true in Es. rewrite decide_True by done.
    intros (a & Ha%machine_artifact_Ok & Ho)%rbind_Ok. destruct (opt_eqb _ _) eqn:Ec.
    + apply opt_eqb_true in Ec. rewrite decide_True by done.
      apply outcome_with_Ok in Ho as (-> & -> & -> & -> & ->).
      split_and!; try done; by intros ? ->%list_elem_of_singleton; apply Ha.
    + rewrite decide_False by (intros Hc; rewrite Hc in Ec; discriminate Ec).
      apply rbind_Ok in Ho as (f & Hf%ci_failure_Ok & (-> & -> & -> & -> & ->)%outcome_with_Ok).
      split_and!; try done; [by exists f|by intros ? ->%list_elem_of_singleton; apply Ha..].
  - apply str_eqb_false in Es. rewrite decide_False by done.
    intros (-> & -> & -> & -> & ->)%outcome_with_Ok. split_and!; try done; by intros ? ?%elem_of_nil.
Qed.

(** The CI phase says what the provider just said: an outcome of the phase comes
    from exactly one observation, asked of the provider about the tracked row, which
    belongs to the run and the cycle of the context and carries the repository and
    the revision the resolver named; the cycle completes exactly if that observation
    is completed with success, a completed observation without success is a CI
    failure for the repair loop, and any other observation moves nothing. *)
Theorem ci_phase_follows_observation identity_of c w r o s' :
  ci_wf (db w) ->
  ci_verifying_execute providers identity_of c (w, r) = (Ok o, s') ->
  exists identity r1 row w1 provider ob observed,
    identity_of c r = (Ok identity, r1) /\
    fci_run_id row = run_id (pc_run c) /\ fci_cycle_id row = cycle_id (pc_cycle c) /\
    fci_repository row = strip (ti_repository identity) /\
    fci_revision row = strip (ti_revision identity) /\
    db_ci_runs (db w1) !! fci_id row = Some row /\
    dict_get (lower (strip (ti_provider identity))) providers = Some provider /\
    provider (poll_request row) r1 = (Ok ob, s'.2) /\
    _status (ob_status ob) = Ok (fci_status observed) /\
    _conclusion (ob_conclusion ob) = Ok (fci_conclusion observed) /\
    fci_revision observed = fci_revision row /\
    db_ci_runs (db s'.1) !! fci_id row = Some observed /\ ci_verdict observed o.
Proof.
  intros Hwf. unfold ci_verifying_execute.
  destruct (identity_of c r) as [[identity|e] r1] eqn:Eid; rewrite (bind_right _ _ _ _ _ _ Eid); [|done].
  set (tracking := begin_tracking providers _ _ _ _ _ _ _ _).
  destruct (tracking w) as [[row|e] w1] eqn:Et; rewrite (bind_left _ _ _ _ _ _ Et); [|done].
  apply begin_tracking_Ok in Et as (Hrow & Hr & Hc & Hp & Hrep & Hrev & _ & _); [|done].
  unfold bind at 1. destruct (poll_once providers (fci_id row) (w1, r1)) as [[observed|e] s2] eqn:Ep; [|done].
  unfold lift. intros [Ho ->]%pair_equal_spec. apply poll_once_spec in Ep
    as (row' & provider & ob & now & Hrow' & Hprov & Hob & Hs & Hcn & _ & Heq & _ & Hdb).
  assert (row' = row) as -> by congruence. apply ci_outcome_verdict in Ho as [Hv _].
  exists identity, r1, row, w1, provider, ob, observed. rewrite <-Hp.
  do 10 (split; [done|]). split; [by rewrite Heq|]. split; [|done].
  rewrite Hdb. simpl. by rewrite lookup_insert_eq.
Qed.

(** Without an authorization nothing is pushed: if the resolver gives none, the
    pushing phase asks for an approval, with no artifact, and has not touched the
    checkout or the remote beyond what the resolver did; an outcome with any other
    target is a push through the service with that authorization.  The target the
    handler names after a push is one the state machine refuses from PUSHING,
    whoever asks and whatever is recorded. *)
Theorem pushing_phase_needs_authorization repo_root authorization_of c w r o s' :
  pushing_execute git repo_root authorization_of c (w, r) = (Ok o, s') ->
  exists i authorization s1,
    get_intent_for_cycle (cycle_id (pc_cycle c)) w = (Ok i, w) /\
    authorization_of c i (w, r) = (Ok authorization, s1) /\
    match authorization with
    | None => po_next_state o = Some APPROVAL_REQUIRED /\ po_artifacts o = [] /\ s' = s1
    | Some a => exists root r2 i' a', repo_root c s1.2 = (Ok root, r2) /\
        push_commit git (ci_id i) root a (s1.1, r2) = (Ok i', s') /\
        po_artifacts o = [a'] /\ pa_authority a' = MACHINE /\ pa_revision a' = ci_commit_sha i' /\
        po_next_state o = Some CI_VERIFYING /\
        forall actor resumable victory,
          validate_factory_transition PUSHING CI_VERIFYING actor resumable victory <> Ok tt
    end.
Proof.
  unfold pushing_execute. intros Hx.
  destruct (get_intent_for_cycle (cycle_id (pc_cycle c)) w) as [i w0] eqn:Ei.
  assert (w0 = w) as ->.
  { unfold get_intent_for_cycle, query, gets, bind, scalar_one_or_none, ret, raise in Ei.
    by destruct (intents_of_cycle _ _) as [|? []]; injection Ei as _ <-. }
  rewrite (bind_left _ _ _ _ _ _ Ei) in Hx. destruct i as [i|e]; [|done].
  unfold bind at 1 in Hx. destruct (authorization_of c i (w, r)) as [[[a|]|e] [w1 r1]] eqn:Ea; [| |done].
  - destruct (repo_root c r1) as [[root|e] r2] eqn:Eroot; rewrite (bind_right _ _ _ _ _ _ Eroot) in Hx; [|done].
    unfold bind at 1 in Hx. destruct (push_commit _ _ _ _ _) as [[i'|e] s2] eqn:Epush; [|done].
    unfold lift in Hx. apply pair_equal_spec in Hx as [Ho ->]. apply rbind_Ok in Ho as (art & (Hm & Hrev & _)%machine_artifact_Ok & Ho).
    apply outcome_with_Ok in Ho as (Hn & Hart & _).
    exists i, (Some a), (w1, r1). split_and!; try done.
    exists root, r2, i', art. split_and!; try done. intros actor res victory Hv.
    apply validator_spec in Hv as [_ Hl]. destruct Hl as [| | | | |?|?|[]|Hw ? ? ? ?]; unfold waiting in *;
      try naive_solver. apply edge_table_spec in Hw. revert Hw.
    by apply (bool_decide_eq_false_1 ((PUSHING, CI_VERIFYING) ∈ edge_table)).
  - unfold lift in Hx. apply pair_equal_spec in Hx as [Ho <-]. apply outcome_with_Ok in Ho as (Hn & Hart & _).
    by exists i, None, (w1, r1).
Qed.
End Proofs.

(** ** Witnesses *)

Definition demo_identity : CiTrackingIdentity := {|
  ti_provider := "GitHub"; ti_repository := "heidi/computer"; ti_revision := "r2";
  ti_external_run_id := "77"; ti_check_id := "build"; ti_url := None |}.
#[local] Abbreviation demo_ci_phase n :=
  (@ci_verifying_execute demo_env nat demo_providers (fun _ r => (Ok demo_identity, r)) demo_phase
    (demo_tracked, n)).

Theorem ci_phase_follows_observation_witness :
  exists o s' f, demo_ci_phase 1%nat = (Ok o, s') /\ s'.2 = 2%nat /\ po_failure o = Some f /\
    pf_category f = FAIL_CI.
Proof.
  destruct (demo_ci_phase 1%nat) as [x s'] eqn:E.
  destruct x as [o|e]; [|exfalso; assert (is_ok (demo_ci_phase 1%nat).1 = true) as Hok
    by (vm_compute; reflexivity); rewrite E in Hok; discriminate Hok].
  destruct (@ci_phase_follows_observation demo_env nat demo_providers (fun _ r => (Ok demo_identity, r))
    demo_phase demo_tracked 1%nat o s' demo_tracked_wf E)
    as (identity & r1 & row & w1 & p & ob & observed & Hid & _ & _ & _ & _ & _ & Hp & Hob & Hs & Hc & _ & _ & Hv).
  injection Hid as <- <-. vm_compute in Hp. injection Hp as <-. injection Hob as <- Hn.
  vm_compute in Hs. injection Hs as Hs. vm_compute in Hc. injection Hc as Hc.
  change (Some "FAILURE" = fci_conclusion observed) in Hc.
  change ("COMPLETED" = fci_status observed) in Hs.
  unfold ci_verdict in Hv. rewrite <-Hs, <-Hc in Hv.
  destruct (decide ("COMPLETED" = "COMPLETED")) as [_|Hne]; [|destruct (Hne eq_refl)].
  destruct (decide (Some "FAILURE" = Some "SUCCESS")) as [Heq|_]; [discriminate Heq|].
  destruct Hv as (_ & f & Hf & Hcat). exists o, s', f.
  split; [reflexivity|]. split; [exact (eq_sym Hn)|]. split; [exact Hf|exact Hcat].
Defined.

Definition demo_push_world : World :=
  intent_world (committed_intent "c2" 0 demo_intent).
#[local] Abbreviation demo_pushing a :=
  (@pushing_execute demo_env Repo demo_git (fun _ r => (Ok ".", r)) (fun _ _ s => (Ok (a : option PushAuthorization), s)) demo_phase
    (demo_push_world, {| repo_history := [("c2", "m")]; repo_pushed := [] |})).

Theorem pushing_phase_needs_authorization_witness :
  (exists o s', demo_pushing None = (Ok o, s') /\ po_next_state o = Some APPROVAL_REQUIRED /\
     repo_pushed s'.2 = []) /\
  (exists o s', demo_pushing (Some demo_push) = (Ok o, s') /\
     po_next_state o = Some CI_VERIFYING /\
     validate_factory_transition PUSHING CI_VERIFYING SYSTEM None true <> Ok tt).
Proof.
  split.
  - destruct (demo_pushing None) as [[o|e] s'] eqn:E;
      [|exfalso; assert (is_ok (demo_pushing None).1 = true) as Hok by (vm_compute; reflexivity);
        rewrite E in Hok; discriminate Hok].
    destruct (@pushing_phase_needs_authorization demo_env Repo demo_git _ _ _ _ _ _ _ E)
      as (i & a & s1 & _ & Ha & Hx).
    injection Ha as <- <-. destruct Hx as (Hn & _ & Hs').
    exists o, s'. split; [reflexivity|]. split; [exact Hn|]. rewrite Hs'. reflexivity.
  - destruct (demo_pushing (Some demo_push)) as [[o|e] s'] eqn:E;
      [|exfalso; assert (is_ok (demo_pushing (Some demo_push)).1 = true) as Hok by (vm_compute; reflexivity);
        rewrite E in Hok; discriminate Hok].
    destruct (@pushing_phase_needs_authorization demo_env Repo demo_git _ _ _ _ _ _ _ E)
      as (i & a & s1 & _ & Ha & Hx).
    injection Ha as <- <-. destruct Hx as (root & r2 & i' & a' & _ & _ & _ & _ & _ & Hn & Hv).
    exists o, s'. split; [reflexivity|]. split; [exact Hn|]. apply Hv.
Defined.
