(* ===== verification/FactoryOrchestrator.v ===== *)
(** * The orchestrator

    Models [cptr/services/factory_orchestrator.py]: one phase of one run per call,
    executed while the run's lease is held and renewed, persisted through the store
    and followed by at most one transition.  The world is the store's tables and a
    world [R] of whatever the phase handlers act on. *)

From S2P Require Import Prelude PyStr Json Redaction FactoryDomain FactoryGates.
From S2P Require Import FactoryVictory Database CapabilityLifecycle FactoryStore FactoryHistory.
From S2P Require Import FactoryStoreFacts FactoryFrames FactorySafety FactoryStoreSpec FactoryStoreQueries.
From S2P Require Import FactoryPhases.

Definition orchestrator_error {A} (m : string) : result A := Err (FactoryOrchestratorError m).

Definition _WAITING_STATES : list FactoryState := [PAUSED; APPROVAL_REQUIRED].
Definition resting (s : FactoryState) : bool :=
  existsb (fun x => bool_decide (x = s)) _WAITING_STATES || is_terminal_factory_state s.

(** ** A phase in progress

    A handler runs as a task of its own.  What it does is cut into slices by the
    heartbeat's timeouts: [sl_work] is what the task does in one interval, and
    [sl_cancelled] what its cleanup does if it is cancelled at the end of it.
    Slices may also contain what other processes write in the meantime.  The value
    of a task is [None] if it is not a [PhaseOutcome]. *)

Record Slice (W : Type) := { sl_work : M W unit; sl_cancelled : M W unit }.
Arguments sl_work {W} _.
Arguments sl_cancelled {W} _.
Record Execution (W : Type) := { ex_slices : list (Slice W); ex_final : M W (option PhaseOutcome) }.
Arguments ex_slices {W} _.
Arguments ex_final {W} _.
Definition PhaseHandler (W : Type) : Type := PhaseContext -> Execution W.

Inductive Task (W : Type) :=
  | Running (cleanup : M W unit) (rest : list (Slice W))
  | Done (value : result (option PhaseOutcome)).
Arguments Running {W}.
Arguments Done {W}.

(** the task until the end of an interval *)
Definition advance {W} (final : M W (option PhaseOutcome)) (t : Task W) : M W (Task W) :=
  match t with
  | Done v => ret (Done v)
  | Running _ [] => fun w => let '(v, w') := final w in (Ok (Done v), w')
  | Running _ (s :: rest) => fun w =>
      match sl_work s w with
      | (Ok _, w') => (Ok (Running (sl_cancelled s) rest), w')
      | (Err e, w') => (Ok (Done (Err e)), w')
      end
  end.
(** [task.cancel()] and [gather(task, return_exceptions=True)] *)
Definition cancel {W} (t : Task W) : M W unit :=
  match t with
  | Done _ => ret tt
  | Running cleanup _ => fun w => (Ok tt, (cleanup w).2)
  end.

Definition is_timeout (e : exn) : bool := match e with TimeoutError => true | _ => false end.

Section Orchestrator.
Context `{Env} {R : Type}.
Context (handlers : FactoryState -> option (PhaseHandler (World * R))).
Context (owner_token : string) (lease_ms : Z).

(** [FactoryOrchestrator.__init__] *)
Definition orchestrator_init (token : string) (lease : Z) : result (string * Z) :=
  let token := strip token in
  if empty_str token then Err (ValueError "factory orchestrator owner token must not be blank")
  else if (lease <=? 0)%Z then
    Err (ValueError "factory orchestrator lease duration must be positive")
  else Ok (token, lease).

(** [_projection_key] *)
Definition _projection_key (phase_key : string) (outcome : PhaseOutcome) : string :=
  phase_key +:+ ":projection:" +:+ str_take 24 (sha256_hex (dumps true false
    (JObj [("updates", JObj (po_cycle_updates outcome));
           ("run_next_action", opt_str (po_run_next_action outcome))]))).

(** [_run_budget_block_reason] *)
Definition _run_budget_block_reason (run : FactoryRun) (now_ms : Z) : result (option string) :=
  match payload_get "max_wall_time_ms" (run_budget run) with
  | JNull => Ok None
  | raw =>
      match py_int raw with
      | Err e => if conversion_error e
                 then Ok (Some "configured max_wall_time_ms is invalid; fail closed") else Err e
      | Ok maximum =>
          if (maximum <=? 0)%Z then
            Ok (Some "configured max_wall_time_ms must be positive; fail closed")
          else
            let elapsed := Z.max 0 (now_ms - run_created_at run) in
            if (elapsed <? maximum)%Z then Ok None
            else Ok (Some ("factory run wall-time budget exhausted after " +:+ str_of_int elapsed
                             +:+ "ms (maximum " +:+ str_of_int maximum +:+ "ms)"))
      end
  end.

(** [_required_run] *)
Definition _required_run (rid : string) : M World FactoryRun :=
  let* run := get_run rid None in
  required run (KeyError "factory run not found").

(** [_ensure_cycle] *)
Definition _ensure_cycle (run : FactoryRun) : M World FactoryCycle :=
  if has_key (run_current_cycle_id run) then
    let* cycle := get_cycle (default "" (run_current_cycle_id run)) in
    match cycle with
    | Some c =>
        raise_if negb (str_eqb (cycle_run_id c) (run_id run))
          as FactoryOrchestratorError "active factory cycle projection is missing" in
        ret c
    | None => raise (FactoryOrchestratorError "active factory cycle projection is missing")
    end
  else
    let state := run_state run in
    raise_if negb (bool_decide (state = MISSION) || bool_decide (state = RECOVERING))
      as FactoryOrchestratorError
           ("active state " +:+ state_value state +:+ " requires a persisted current cycle") in
    raise_if bool_decide (state = RECOVERING) && negb (is_none (run_resumable_state run))
      as FactoryOrchestratorError
           "recovery of an interrupted post-mission phase requires its persisted current cycle" in
    create_cycle (run_id run) None None (Some ("orchestrator-initial-cycle:" +:+ run_id run)).

(** [_phase_key] *)
Definition _phase_key (run : FactoryRun) (cycle : FactoryCycle) (state : FactoryState)
    (state_entry_id : string) : string :=
  "phase:" +:+ run_id run +:+ ":" +:+ cycle_id cycle +:+ ":" +:+ state_value state
    +:+ ":entry-" +:+ state_entry_id.

(** ** Persisting an outcome *)

Definition evidence_request (run : FactoryRun) (cid : string) (a : PhaseArtifact) (key : string)
    : EvidenceRequest := {|
  eq_run_id := run_id run; eq_cycle_id := Some cid; eq_gate_id := pa_gate_id a;
  eq_kind := pa_kind a; eq_source := pa_source a; eq_authority := pa_authority a;
  eq_revision := pa_revision a; eq_fingerprint := pa_fingerprint a;
  eq_payload := JObj (pa_payload a); eq_key := Some key |}.

(** [_persist_artifacts]: the new rows' identifiers by the artifacts' keys *)
Fixpoint _persist_artifacts (run : FactoryRun) (cid phase_key : string)
    (artifacts : list PhaseArtifact) : M World (list (string * string)) :=
  match artifacts with
  | [] => ret []
  | a :: artifacts =>
      let* row := append_evidence
        (evidence_request run cid a (phase_key +:+ ":artifact:" +:+ pa_key a)) in
      let* rows := _persist_artifacts run cid phase_key artifacts in
      ret ((pa_key a, evd_id row) :: rows)
  end.

(** [max_attempt] over the gates that exist *)
Definition max_attempts (gates : list FactoryGateResult) : list (string * Z) :=
  fold_left (fun d g => dict_set (gr_gate_id g)
               (Z.max (default 0%Z (dict_get (gr_gate_id g) d)) (gr_attempt g)) d) gates [].

(** the identifiers behind the keys of artifacts; the first unknown key otherwise *)
Fixpoint artifact_ids (by_key : list (string * string)) (keys : list string) : string + list string :=
  match keys with
  | [] => inr []
  | k :: keys =>
      match dict_get k by_key with
      | None => inl k
      | Some i => match artifact_ids by_key keys with
                  | inl k => inl k
                  | inr ids => inr (i :: ids)
                  end
      end
  end.

Definition gate_request (run : FactoryRun) (cid : string) (u : PhaseGateUpdate) (ids : list string)
    (attempt : Z) (key : string) : GateRequest := {|
  gq_run_id := run_id run; gq_cycle_id := cid; gq_gate_id := pg_gate_id u;
  gq_category := category_value (pg_category u); gq_required := pg_required u;
  gq_applicable := pg_applicable u; gq_status := status_value (pg_status u);
  gq_evidence_ids := ids; gq_revision := pg_evaluated_revision u;
  gq_fingerprint := pg_evaluated_fingerprint u; gq_reason := pg_reason u;
  gq_attempt := attempt; gq_key := Some key |}.

(** [_persist_gates] *)
Fixpoint _persist_gates (run : FactoryRun) (cid phase_key : string)
    (by_key : list (string * string)) (existing : list FactoryGateResult)
    (attempts : list (string * Z)) (updates : list PhaseGateUpdate) : M World unit :=
  match updates with
  | [] => ret tt
  | u :: updates =>
      match artifact_ids by_key (pg_artifact_keys u) with
      | inl missing => raise (FactoryOrchestratorError
          ("gate " +:+ pg_gate_id u +:+ " references unknown phase artifact " +:+ missing))
      | inr ids =>
          let key := phase_key +:+ ":gate:" +:+ pg_gate_id u in
          let replay := List.find (fun g => str_eqb (gr_gate_id g) (pg_gate_id u)
                                            && opt_eqb (gr_key g) (Some key)) existing in
          let attempt := match replay with
            | Some g => gr_attempt g
            | None => Z.max (pg_attempt u) (default 0%Z (dict_get (pg_gate_id u) attempts) + 1)
            end in
          let* _ := record_gate (gate_request run cid u (pg_evidence_ids u ++ ids) attempt key) in
          _persist_gates run cid phase_key by_key existing (dict_set (pg_gate_id u) attempt attempts)
            updates
      end
  end.

(** the projection updates and the target of an outcome *)
Definition _persist_projections (run : FactoryRun) (cycle : FactoryCycle) (phase_key : string)
    (outcome : PhaseOutcome) : M World FactoryCycle :=
  let* cycle :=
    if negb (is_nil (po_cycle_updates outcome)) || negb (is_none (po_run_next_action outcome)) then
      update_cycle_projection (run_id run) (cycle_id cycle) (po_cycle_updates outcome)
        (po_run_next_action outcome) (_projection_key phase_key outcome)
    else ret cycle in
  match po_target_revision outcome, po_target_fingerprint outcome with
  | Some revision, Some fingerprint =>
      set_cycle_target (run_id run) (cycle_id cycle) revision fingerprint (phase_key +:+ ":target")
  | _, _ => ret cycle
  end.

Definition failure_artifact (cycle : FactoryCycle) (f : PhaseFailure) : result PhaseArtifact :=
  PhaseArtifact_post_init
    {| pa_key := "__factory_failure__"; pa_kind := "phase_failure"; pa_source := "factory-orchestrator";
       pa_authority := MACHINE;
       pa_payload := [("category", JStr (failure_category_value (pf_category f)));
                      ("code", JStr (pf_code f)); ("gate_id", opt_str (pf_gate_id f));
                      ("summary", JStr (pf_summary f)); ("signature", JStr (signature f))];
       pa_gate_id := pf_gate_id f; pa_revision := target_revision cycle;
       pa_fingerprint := target_fingerprint cycle |}.

(** the failure of an outcome: its evidence and its cycle *)
Definition _persist_failure (run : FactoryRun) (cycle : FactoryCycle) (phase_key : string)
    (f : PhaseFailure) : M World (string * FactoryCycle) :=
  let* artifact := lift (failure_artifact cycle f) in
  let* row := append_evidence
    (evidence_request run (cycle_id cycle) artifact (phase_key +:+ ":artifact:__factory_failure__")) in
  let* cycle := record_failure (run_id run) (cycle_id cycle) (signature f)
    (failure_category_value (pf_category f)) (pf_code f) (pf_gate_id f) (pf_summary f)
    (phase_key +:+ ":failure") in
  ret (evd_id row, cycle).

(** the one transition of a phase *)
Definition _conclude (run : FactoryRun) (cycle : FactoryCycle) (state : FactoryState)
    (next_state : option FactoryState) (phase_key : string) (outcome : PhaseOutcome)
    (evidence_ids : list string) : M World unit :=
  if bool_decide (state = CYCLE_COMPLETE) && bool_decide (next_state = Some AUDITING) then
    void (advance_cycle (run_id run) (cycle_id cycle) (po_reason outcome) evidence_ids
            (phase_key +:+ ":transition"))
  else
    match po_victory_decision outcome with
    | Some decision =>
        raise_if negb (bool_decide (next_state = Some COMMITTING))
          as FactoryOrchestratorError "Victory outcome must request the COMMITTING transition" in
        void (authorize_victory (run_id run) (cycle_id cycle) decision (phase_key +:+ ":victory"))
    | None =>
        match next_state with
        | Some next => void (transition (run_id run) next SYSTEM (po_reason outcome)
                               (phase_key +:+ ":transition") evidence_ids None)
        | None => ret tt
        end
    end.

(** everything [run_once] does with an outcome *)
Definition persist_outcome (run : FactoryRun) (cycle : FactoryCycle) (state : FactoryState)
    (gates : list FactoryGateResult) (phase_key : string) (outcome : PhaseOutcome)
    : M World FactoryRun :=
  let* rows := _persist_artifacts run (cycle_id cycle) phase_key (po_artifacts outcome) in
  let* _ := _persist_gates run (cycle_id cycle) phase_key rows gates (max_attempts gates)
              (po_gates outcome) in
  let* cycle := _persist_projections run cycle phase_key outcome in
  let ids := map snd rows in
  let* (next_state, ids, cycle) := match po_failure outcome with
    | Some f =>
        let* (failure_id, cycle) := _persist_failure run cycle phase_key f in
        ret (Some (default REPAIR_REQUIRED (po_next_state outcome)), ids ++ [failure_id], cycle)
    | None => ret (po_next_state outcome, ids, cycle)
    end in
  let* _ := _conclude run cycle state next_state phase_key outcome ids in
  _required_run (run_id run).

(** ** Heartbeat *)

Definition renew (rid : string) : M World (bool * Z) :=
  let* now := _now_ms in
  let* renewed := renew_run rid owner_token now lease_ms in
  ret (renewed, now).

Definition Ended : Type := option (option PhaseOutcome * Z).

(** the [except asyncio.TimeoutError] of the loop: renew, then go on with [k], or
    cancel the task *)
Definition on_timeout (k : Z -> M (World * R) Ended) (rid : string) (t : Task (World * R))
    : M (World * R) Ended :=
  let* (renewed, now) := on_left (renew rid) in
  if renewed then k now
  else
    let* _ := cancel t in
    raise (FactoryOrchestratorError "factory run lease was lost while its phase was executing").

(** what an interval's end means: a task that itself raised a timeout looks like an
    interval that is over *)
Definition settle (k : Task (World * R) -> Z -> M (World * R) Ended) (rid : string)
    (t : Task (World * R)) (last_renewed_ms : Z) : M (World * R) Ended :=
  match t with
  | Done (Ok v) => ret (Some (v, last_renewed_ms))
  | Done (Err e) => if is_timeout e then on_timeout (k t) rid t else raise e
  | Running _ _ => on_timeout (k t) rid t
  end.

(** the loop of [_execute_handler_with_lease_heartbeat]: [None] if it has not ended
    after [fuel] intervals; otherwise the value and the time of the last renewal *)
Fixpoint heartbeat (fuel : nat) (rid : string) (final : M (World * R) (option PhaseOutcome))
    (t : Task (World * R)) (last_renewed_ms : Z) : M (World * R) Ended :=
  match fuel with
  | O => ret None
  | S fuel =>
      let* t := advance final t in
      settle (heartbeat fuel rid final) rid t last_renewed_ms
  end.

(** [_execute_handler_with_lease_heartbeat] *)
Definition execute_with_heartbeat (fuel : nat) (rid : string) (handler : PhaseHandler (World * R))
    (context : PhaseContext) : M (World * R) (option (option PhaseOutcome)) :=
  let* (renewed, now) := on_left (renew rid) in
  raise_if negb renewed
    as FactoryOrchestratorError "factory run lease expired before phase execution began" in
  let execution := handler context in
  let* ended := heartbeat fuel rid (ex_final execution) (Running (ret tt) (ex_slices execution)) now in
  match ended with
  | None => ret None
  | Some (value, last_renewed_ms) =>
      let* now := on_left _now_ms in
      if (lease_ms <=? now - last_renewed_ms)%Z then
        let* renewed := on_left (renew_run rid owner_token now lease_ms) in
        raise_if negb renewed
          as FactoryOrchestratorError "factory run lease expired before phase outcome persistence" in
        ret (Some value)
      else ret (Some value)
  end.

(** ** One phase *)

(** what a phase starts from *)
Record Prepared := {
  pp_context : PhaseContext;
  pp_state : FactoryState;
  pp_phase_key : string;
  pp_handler : PhaseHandler (World * R);
}.

(** the phase of a run, up to its handler *)
Definition prepare_phase (run : FactoryRun) : M World Prepared :=
  let state := run_state run in
  let* cycle := _ensure_cycle run in
  let* run := _required_run (run_id run) in
  let* state_entry := latest_state_entry (run_id run) (cycle_id cycle) state in
  match state_entry with
  | None => raise (FactoryOrchestratorError
      ("active state " +:+ state_value state +:+ " has no durable state-entry event"))
  | Some entry =>
      let phase_key := _phase_key run cycle state (ev_id entry) in
      match handlers state with
      | None => raise (FactoryOrchestratorError
          ("no phase handler configured for active factory state " +:+ state_value state))
      | Some handler =>
          let* evidence := list_phase_evidence (run_id run) (cycle_id cycle) 500 in
          let* gates := list_gates (run_id run) (Some (cycle_id cycle)) in
          let* steering := list_user_steering (run_id run) 20 8000 in
          ret {| pp_context := {| pc_run := run; pc_cycle := cycle; pc_evidence := evidence;
                                  pc_gates := gates; pc_steering_messages := steering |};
                 pp_state := state; pp_phase_key := phase_key; pp_handler := handler |}
      end
  end.

(** the body of [run_once] under the lease *)
Definition run_phase (fuel : nat) (rid : string) : M (World * R) (option FactoryRun) :=
  let* run := on_left (_required_run rid) in
  if resting (run_state run) then ret (Some run)
  else
    let* p := on_left (prepare_phase run) in
    let* value := execute_with_heartbeat fuel rid (pp_handler p) (pp_context p) in
    match value with
    | None => ret None
    | Some None => raise (FactoryOrchestratorError
        ("phase handler for " +:+ state_value (pp_state p) +:+ " returned an invalid outcome"))
    | Some (Some outcome) =>
        let* run := on_left (persist_outcome (pc_run (pp_context p)) (pc_cycle (pp_context p))
          (pp_state p) (pc_gates (pp_context p)) (pp_phase_key p) outcome) in
        ret (Some run)
    end.

(** [try: ... finally: release]; a call that has not ended holds on to the lease *)
Definition releasing {A} (rid : string) (m : M (World * R) (option A)) : M (World * R) (option A) :=
  fun w =>
    match m w with
    | (Ok None, w') => (Ok None, w')
    | _ => finally m (on_left (void (release_run rid owner_token))) w
    end.

(** [run_once]: [None] if the phase has not ended after [fuel] intervals *)
Definition run_once (fuel : nat) (rid : string) : M (World * R) (option FactoryRun) :=
  let* observed := on_left (_required_run rid) in
  if resting (run_state observed) then ret (Some observed)
  else
    let* now := on_left _now_ms in
    let* budget_reason := lift (_run_budget_block_reason observed now) in
    match budget_reason with
    | Some reason =>
        let* run := on_left (transition (run_id observed) BLOCKED SYSTEM reason
          ("run-budget:" +:+ run_id observed +:+ ":max-wall-time") [] None) in
        ret (Some run)
    | None =>
        let* claimed_at := on_left _now_ms in
        let* claimed := on_left (claim_run rid owner_token claimed_at lease_ms) in
        if claimed then releasing rid (run_phase fuel rid)
        else let* run := on_left (_required_run rid) in ret (Some run)
    end.
End Orchestrator.

(** ** Proofs *)

(** *** What the orchestrator does to the tables *)

Section Keeping.
Context `{Env} (P : FactoryState -> option FactoryState -> Prop) (I : Db -> Prop).
Context {SI : StoreInvariant P I}.
#[local] Abbreviation ok := I.

#[local] Hint Resolve keeps_now : keeps.
#[local] Hint Extern 1 (keeps _ (void _)) => apply void_keeps : keeps.
#[local] Hint Extern 1 (keeps _ (get_cycle _)) => apply keeps_query : keeps.
#[local] Hint Extern 1 (keeps _ (latest_state_entry _ _ _)) => apply keeps_query : keeps.
#[local] Hint Extern 1 (keeps _ (list_phase_evidence _ _ _)) => apply keeps_query : keeps.
#[local] Hint Extern 1 (keeps _ (list_gates _ _)) => apply keeps_query : keeps.

Lemma required_run_keeps rid : keeps ok (_required_run rid).
Proof. unfold _required_run, get_run, get_run_row. repeat keeps_step. Qed.
#[local] Hint Resolve required_run_keeps : keeps.

Lemma ensure_cycle_keeps run : keeps ok (_ensure_cycle run).
Proof. unfold _ensure_cycle. repeat keeps_step. Qed.
#[local] Hint Resolve ensure_cycle_keeps : keeps.

Lemma persist_artifacts_keeps run cid key artifacts : keeps ok (_persist_artifacts run cid key artifacts).
Proof. induction artifacts; simpl; repeat keeps_step. Qed.
Lemma persist_gates_keeps run cid key rows existing attempts updates :
  keeps ok (_persist_gates run cid key rows existing attempts updates).
Proof. revert attempts. induction updates; intros attempts; simpl; [|destruct (artifact_ids _ _)]; repeat keeps_step. Qed.
Lemma persist_projections_keeps run cycle key outcome : keeps ok (_persist_projections run cycle key outcome).
Proof. unfold _persist_projections. repeat keeps_step. Qed.
Lemma persist_failure_keeps run cycle key f : keeps ok (_persist_failure run cycle key f).
Proof. unfold _persist_failure. repeat keeps_step. Qed.
Lemma conclude_keeps run cycle state next key outcome ids :
  keeps ok (_conclude run cycle state next key outcome ids).
Proof. unfold _conclude. repeat keeps_step. Qed.
#[local] Hint Resolve persist_artifacts_keeps persist_gates_keeps persist_projections_keeps
  persist_failure_keeps conclude_keeps : keeps.

Lemma persist_outcome_keeps run cycle state gates key outcome :
  keeps ok (persist_outcome run cycle state gates key outcome).
Proof. unfold persist_outcome. repeat keeps_step. Qed.

Lemma list_user_steering_keeps rid n m : keeps ok (list_user_steering rid n m).
Proof. unfold list_user_steering. repeat keeps_step. Qed.
#[local] Hint Resolve list_user_steering_keeps : keeps.

Lemma prepare_phase_keeps {R} (handlers : FactoryState -> option (PhaseHandler (World * R))) run :
  keeps ok (prepare_phase handlers run).
Proof. unfold prepare_phase. repeat keeps_step. Qed.

#[local] Abbreviation pkeeps := (pkeeps ok).

Lemma pkeeps_cancel {R} (t : Task (World * R)) :
  match t with Running cleanup _ => pkeeps cleanup | Done _ => True end -> pkeeps (cancel t).
Proof. destruct t as [c rest|v]; intros Ht s Hs; [by apply Ht|done]. Qed.

(** the slices and the value of a handler's execution keep the tables *)
Definition execution_keeps {R} (e : Execution (World * R)) : Prop :=
  Forall (fun s => pkeeps (sl_work s) /\ pkeeps (sl_cancelled s)) (ex_slices e) /\ pkeeps (ex_final e).

Context {R : Type} (handlers : FactoryState -> option (PhaseHandler (World * R))).
Context (owner_token : string) (lease_ms : Z).

Lemma renew_keeps rid : keeps ok (renew owner_token lease_ms rid).
Proof. unfold renew. repeat keeps_step. Qed.

Definition task_keeps (t : Task (World * R)) : Prop :=
  match t with
  | Running cleanup rest =>
      pkeeps cleanup /\ Forall (fun s => pkeeps (sl_work s) /\ pkeeps (sl_cancelled s)) rest
  | Done _ => True
  end.

Lemma settle_keeps k rid t last :
  (forall now, pkeeps (k t now)) -> task_keeps t -> pkeeps (settle owner_token lease_ms k rid t last).
Proof.
  intros Hk Ht.
  assert (pkeeps (on_timeout owner_token lease_ms (k t) rid t)) as Hout.
  { unfold on_timeout. apply pkeeps_bind; [apply pkeeps_left, renew_keeps|]. intros [[] now]; [done|].
    apply pkeeps_bind; [|intros; apply pkeeps_raise]. apply pkeeps_cancel. destruct t; [apply Ht|done]. }
  unfold settle. destruct t as [|[v|e]]; [done|apply pkeeps_ret|].
  destruct (is_timeout e); [done|apply pkeeps_raise].
Qed.

Lemma heartbeat_keeps fuel rid (final : M (World * R) _) (t : Task (World * R)) last :
  pkeeps final -> task_keeps t -> pkeeps (heartbeat owner_token lease_ms fuel rid final t last).
Proof.
  intros Hf. revert t last. induction fuel as [|fuel IH]; intros t last Ht; [apply pkeeps_ret|].
  cbn [heartbeat]. intros s Hs. unfold bind.
  enough (exists t' s', advance final t s = (Ok t', s') /\ task_keeps t' /\ ok (db s'.1))
    as (t' & s' & -> & Ht' & Hs') by (apply settle_keeps; [by intros; apply IH|done|done]).
  destruct t as [cleanup [|sl rest]|v]; cbn [advance].
  - specialize (Hf s Hs). destruct (final s) as [v s1]. by exists (Done v), s1.
  - destruct Ht as [_ [[Hw Hcl] Hrest]%Forall_cons]. specialize (Hw s Hs).
    destruct (sl_work sl s) as [[u|e] s1]; eexists _, s1; split_and!; try done.
  - by exists (Done v), s.
Qed.

Lemma execute_keeps fuel rid (handler : PhaseHandler (World * R)) context :
  execution_keeps (handler context) ->
  pkeeps (execute_with_heartbeat owner_token lease_ms fuel rid handler context).
Proof.
  intros [Hs Hf]. unfold execute_with_heartbeat.
  apply pkeeps_bind; [apply pkeeps_left, renew_keeps|]. intros [[] now]; [cbn [negb]|apply pkeeps_raise].
  apply pkeeps_bind; [apply heartbeat_keeps; [done|split; [apply pkeeps_ret|done]]|].
  intros [[v last]|]; [|apply pkeeps_ret].
  apply pkeeps_bind; [apply pkeeps_left, keeps_now|]. intros now'.
  destruct (_ <=? _)%Z; [|apply pkeeps_ret].
  apply pkeeps_bind; [apply pkeeps_left; auto with keeps|]. intros []; [apply pkeeps_ret|apply pkeeps_raise].
Qed.

Context (Hhandlers : forall st h c, handlers st = Some h -> execution_keeps (h c)).

Lemma prepared_handler run w p w' : prepare_phase handlers run w = (Ok p, w') -> handlers (pp_state p) = Some (pp_handler p).
Proof.
  unfold prepare_phase. intros Hi. ok_inv. simpl. done.
Qed.

Lemma run_phase_keeps fuel rid : pkeeps (run_phase handlers owner_token lease_ms fuel rid).
Proof.
  unfold run_phase. apply pkeeps_bind; [apply pkeeps_left, required_run_keeps|]. intros run.
  destruct (resting _); [apply pkeeps_ret|]. intros [w r] Hs. unfold bind at 1.
  pose proof (prepare_phase_keeps handlers run w Hs) as Hp. unfold on_left at 1. cbn [fst snd].
  destruct (prepare_phase handlers run w) as [[p|e] w1] eqn:Ep; [|done].
  apply pkeeps_bind; [|intros [[outcome|]|]|done].
  - apply execute_keeps. eapply Hhandlers. by eapply prepared_handler.
  - apply pkeeps_bind; [apply pkeeps_left, persist_outcome_keeps|intros; apply pkeeps_ret].
  - apply pkeeps_raise.
  - apply pkeeps_ret.
Qed.

Lemma run_once_keeps fuel rid : pkeeps (run_once handlers owner_token lease_ms fuel rid).
Proof.
  unfold run_once. apply pkeeps_bind; [apply pkeeps_left, required_run_keeps|]. intros run.
  destruct (resting _); [apply pkeeps_ret|].
  apply pkeeps_bind; [apply pkeeps_left, keeps_now|]. intros now.
  apply pkeeps_bind; [apply pkeeps_lift|]. intros [reason|].
  { apply pkeeps_bind; [apply pkeeps_left; auto with keeps|intros; apply pkeeps_ret]. }
  apply pkeeps_bind; [apply pkeeps_left, keeps_now|]. intros claimed_at.
  apply pkeeps_bind; [apply pkeeps_left; auto with keeps|]. intros [].
  - intros s Hs. unfold releasing, finally. pose proof (run_phase_keeps fuel rid s Hs) as H1.
    destruct (run_phase _ _ _ _ _ s) as [x s1]. cbn [snd] in H1.
    assert (H2 : ok (db (on_left (void (release_run rid owner_token)) s1).2.1))
      by (apply pkeeps_left; [|done]; auto with keeps).
    destruct (on_left _ s1) as [[]]; destruct x as [[]|]; done.
  - apply pkeeps_bind; [apply pkeeps_left, required_run_keeps|intros; apply pkeeps_ret].
Qed.
End Keeping.

(** *** Leases *)

Section Leases.
Context `{Env} {R : Type} (handlers : FactoryState -> option (PhaseHandler (World * R))).
Context (owner_token : string) (lease_ms : Z).

(** no row of the run is leased by the owner *)
Definition released (rid : string) (d : Db) : Prop :=
  forall i x, db_runs d !! i = Some x -> run_id x = rid -> run_lease_token x <> Some owner_token.

Lemma release_releases rid w : exists b w', release_run rid owner_token w = (Ok b, w') /\ released rid (db w').
Proof.
  unfold release_run, update_run, _now_ms, query, write, gets, modify, bind, ret. eexists _, _.
  split; [reflexivity|]. intros i x. unfold set_db. simpl. unfold update_where.
  rewrite lookup_fmap. destruct (db_runs (db w) !! i) as [y|]; simpl; [|done]. intros [= <-] Hid.
  destruct (str_eqb (run_id y) rid && opt_eqb (run_lease_token y) (Some owner_token)) eqn:E; [done|].
  intros Ht. rewrite Hid, Ht, str_eqb_refl in E. unfold opt_eqb in E.
  by rewrite bool_decide_eq_true_2 in E.
Qed.

Lemma releasing_spec {A} rid (m : M (World * R) (option A)) s x s' :
  releasing owner_token rid m s = (x, s') -> x <> Ok None -> released rid (db s'.1).
Proof.
  unfold releasing, finally. destruct (m s) as [y s1].
  destruct (release_releases rid s1.1) as (b & w' & E & Hr).
  assert (on_left (void (release_run rid owner_token)) s1 = (Ok tt, (w', s1.2))) as ->
    by (unfold on_left, void, bind; by rewrite E).
  destruct y as [[a|]|e]; intros [= <- <-] Hne; done.
Qed.

Lemma required_run_found rid run w :
  db_runs (db w) !! rid = Some run -> _required_run rid w = (Ok run, w).
Proof. intros Hr. unfold _required_run, get_run, get_run_row, query, gets, bind, ret, required. by rewrite Hr. Qed.

(** [held]: the owner's lease on the run has not expired yet *)
Definition held (rid : string) (w : World) : Prop :=
  keyed (db_runs (db w)) /\
  exists run e, db_runs (db w) !! rid = Some run /\ run_lease_token run = Some owner_token /\
    run_lease_expires_at run = Some e /\ (clock (ticks w) <= e)%Z.

Context (steady : forall n, (clock (S n) <= clock n + lease_ms)%Z).

Lemma renew_held rid w :
  held rid w -> exists w', renew owner_token lease_ms rid w = (Ok (true, clock (ticks w)), w') /\ held rid w'.
Proof.
  intros (Hk & run & e & Hr & Ht & He & Hle). unfold renew, bind at 1, _now_ms.
  unfold bind, renew_run. rewrite update_run_spec by done. cbn [db]. rewrite Hr.
  unfold renewable. rewrite Ht, He. unfold opt_eqb. rewrite bool_decide_eq_true_2 by done.
  rewrite (proj2 (Z.leb_le _ _)) by done. cbn [andb]. eexists. split; [reflexivity|].
  split.
  - intros i x. simpl. intros [[<- <-]|[_ Hx]]%lookup_insert_Some; [|eauto]. by apply (Hk _ run).
  - eexists _, _. simpl. rewrite lookup_insert_eq. by split_and!.
Qed.
End Leases.

(** *** The heartbeat *)

Section Heartbeat.
Context `{Env} {R : Type} (owner_token : string) (lease_ms : Z).

Definition never_times_out {A} (m : M (World * R) A) : Prop := forall s, (m s).1 <> Err TimeoutError.

Lemma on_timeout_ends k rid (t : Task (World * R)) s :
  (forall now s, (k now s).1 <> Ok None) -> (on_timeout owner_token lease_ms k rid t s).1 <> Ok None.
Proof.
  intros Hk. unfold on_timeout, bind. destruct (on_left _ s) as [[[[] now]|e] s1]; [apply Hk| |done].
  destruct (cancel t s1) as [[]]; done.
Qed.

Lemma heartbeat_ends fuel rid (final : M (World * R) _) cleanup rest last s :
  Forall (fun s => never_times_out (sl_work s)) rest -> never_times_out final ->
  (length rest < fuel)%nat ->
  (heartbeat owner_token lease_ms fuel rid final (Running cleanup rest) last s).1 <> Ok None.
Proof.
  intros Hrest Hfinal. revert fuel cleanup last s. induction Hrest as [|sl rest Hsl _ IH];
    intros fuel cleanup last s Hf; (destruct fuel as [|fuel]; [simpl in Hf; lia|]); cbn [heartbeat];
    unfold bind; cbn [advance].
  - specialize (Hfinal s). destruct (final s) as [[v|e] s1]; cbn [settle]; [done|].
    destruct e; simpl in Hfinal |- *; congruence.
  - specialize (Hsl s). destruct (sl_work sl s) as [[u|e] s1]; cbn [settle].
    + apply on_timeout_ends. intros now s2. apply IH. simpl in Hf. lia.
    + destruct e; simpl in Hsl |- *; congruence.
Qed.

Context (steady : forall n, (clock (S n) <= clock n + lease_ms)%Z).

Lemma heartbeat_spins fuel rid (final : M (World * R) _) last w r :
  held owner_token rid w ->
  exists w', heartbeat owner_token lease_ms fuel rid final (Done (Err TimeoutError)) last (w, r)
    = (Ok None, (w', r)) /\ held owner_token rid w'.
Proof.
  revert last w. induction fuel as [|fuel IH]; intros last w Hh; [by exists w|].
  cbn [heartbeat]. unfold bind at 1. cbn [advance]. unfold ret at 1.
  cbn [settle is_timeout]. unfold on_timeout.
  destruct (renew_held _ _ steady rid w Hh) as (w1 & E & Hh1).
  unfold bind, on_left. cbn [fst snd]. rewrite E. by apply IH.
Qed.
End Heartbeat.

(** ** Theorems *)

Section Theorems.
Context `{Env} {R : Type} (handlers : FactoryState -> option (PhaseHandler (World * R))).
Context (owner_token : string) (lease_ms : Z).

(** A phase runs only under its owner's lease, and no lease leaks: for an active
    run within its budget, if another owner's lease has not expired the call returns
    the run, the tables and the outside world untouched (the handler is not called);
    otherwise, however the phase ends - with an outcome, an error of the handler, of
    the store or of the lease - no row of the run is leased by this owner any more. *)
Theorem phase_only_under_lease fuel rid w r run :
  owner_token <> "" -> (0 < lease_ms)%Z -> keyed (db_runs (db w)) ->
  db_runs (db w) !! rid = Some run -> resting (run_state run) = false ->
  _run_budget_block_reason run (clock (ticks w)) = Ok None ->
  let (x, s') := run_once handlers owner_token lease_ms fuel rid (w, r) in
  if claimable owner_token (clock (S (ticks w))) run
  then x <> Ok None -> released owner_token rid (db s'.1)
  else x = Ok (Some run) /\ db s'.1 = db w /\ s'.2 = r.
Proof.
  intros Htok Hms Hk Hr Hrest Hbudget. unfold run_once.
  unfold bind at 1, on_left at 1. cbn [fst snd]. rewrite (required_run_found _ _ _ Hr), Hrest.
  unfold bind at 1, on_left at 1, _now_ms. cbn [fst snd].
  unfold bind at 1, lift. rewrite Hbudget. unfold bind at 1, on_left at 1. cbn [fst snd ticks].
  unfold bind at 1, on_left at 1. cbn [fst snd]. unfold claim_run.
  rewrite (proj2 (empty_str_false owner_token)), (proj2 (Z.leb_gt _ _)) by done.
  rewrite update_run_spec by done. cbn [db]. rewrite Hr.
  destruct (claimable _ _ _) eqn:Ec.
  - destruct (releasing _ _ _ _) as [x s'] eqn:E. by apply (releasing_spec _ _ _ _ _ _ E).
  - unfold bind, on_left. cbn [fst snd]. by rewrite (required_run_found _ run).
Qed.

(** The heartbeat ends with the phase, unless the phase times out: if neither the
    slices nor the end of a handler's execution raise [asyncio.TimeoutError], the
    call ends within one interval more than there are slices; but if the handler
    itself raises one, the loop takes it for the end of an interval: as long as the
    clock does not jump by more than a lease the call renews the lease for ever, and
    the run is never released. *)
Theorem heartbeat_ends_unless_phase_times_out fuel rid
    (handler : PhaseHandler (World * R)) context s :
  (Forall (fun s => never_times_out (sl_work s)) (ex_slices (handler context)) ->
   never_times_out (ex_final (handler context)) ->
   (length (ex_slices (handler context)) < fuel)%nat ->
   (execute_with_heartbeat owner_token lease_ms fuel rid handler context s).1 <> Ok None) /\
  ((forall n, (clock (S n) <= clock n + lease_ms)%Z) -> held owner_token rid s.1 ->
   ex_slices (handler context) = [] ->
   (forall s, ex_final (handler context) s = (Err TimeoutError, s)) ->
   exists w', execute_with_heartbeat owner_token lease_ms fuel rid handler context s = (Ok None, (w', s.2))
     /\ held owner_token rid w').
Proof.
  split.
  - intros Hs Hf Hfuel. unfold execute_with_heartbeat, bind.
    destruct (on_left _ s) as [[[[] now]|e] s1]; cbn [negb]; [|done|done].
    pose proof (heartbeat_ends owner_token lease_ms fuel rid _ (ret tt) _ now s1 Hs Hf Hfuel) as Hne.
    destruct (heartbeat _ _ _ _ _ _ _ s1) as [[[[v last]|]|e] s2]; [|done|done].
    destruct (on_left _ s2) as [[now'|e] s3]; [|done]. destruct (_ <=? _)%Z; [|done].
    destruct (on_left _ s3) as [[[]|e] s4]; done.
  - destruct s as [w r]. intros Hsteady Hh Hnil Hfinal. unfold execute_with_heartbeat.
    destruct (renew_held _ _ Hsteady rid w Hh) as (w1 & E & Hh1).
    unfold bind at 1, on_left at 1. cbn [fst snd]. rewrite E. cbn [negb]. rewrite Hnil.
    destruct fuel as [|fuel]; [by exists w1|]. cbn [heartbeat]. unfold bind. cbn [advance].
    rewrite Hfinal. cbn [settle is_timeout]. unfold on_timeout.
    destruct (renew_held _ _ Hsteady rid w1 Hh1) as (w2 & E2 & Hh2).
    unfold bind, on_left. cbn [fst snd]. rewrite E2.
    destruct (heartbeat_spins owner_token lease_ms Hsteady fuel rid
      (ex_final (handler context)) (clock (ticks w1)) w2 r Hh2) as (w3 & -> & Hh3). by exists w3.
Qed.
End Theorems.

(** ** Witnesses *)

Lemma claim_keyed rid token now ms w :
  keyed (db_runs (db w)) -> keyed (db_runs (db (claim_run rid token now ms w).2)).
Proof.
  intros Hk. unfold claim_run. destruct (empty_str token); [exact Hk|].
  destruct (ms <=? 0)%Z; [exact Hk|]. rewrite update_run_spec by exact Hk.
  destruct (db_runs (db w) !! rid) as [r0|] eqn:E0; [|exact Hk].
  destruct (claimable _ _ _); [|exact Hk]. intros i x. simpl.
  intros [[<- <-]|[_ Hx]]%lookup_insert_Some; [exact (Hk _ _ E0)|exact (Hk _ _ Hx)].
Qed.
Lemma demo_judging_keyed : keyed (db_runs (db demo_judging)).
Proof. intros i r Hr. exact (run_keyed _ _ demo_judging_wf _ _ Hr). Qed.

(** a handler that only computes *)
Definition pure_handler {W} (f : PhaseContext -> result PhaseOutcome) : PhaseHandler W :=
  fun c => {| ex_slices := []; ex_final := lift (let? o := f c in Ok (Some o)) |}.
Definition demo_handlers (s : FactoryState) : option (PhaseHandler (World * nat)) :=
  if bool_decide (s = VICTORY_JUDGING) then Some (pure_handler (@victory_judging_execute demo_env))
  else None.
Definition demo_leased : World := (claim_run "factory_0" "other" 0 1000000 demo_judging).2.
Definition state_reached (x : result (option FactoryRun)) : option FactoryState :=
  match x with Ok (Some r) => Some (run_state r) | _ => None end.

(** the run is active, within its budget, and its lease is free for the worker or not *)
#[local] Abbreviation demo_claim free w :=
  (match db_runs (db w) !! "factory_0" with
  | Some run => resting (run_state run) = false /\
      @_run_budget_block_reason demo_env run (@clock demo_env (ticks w)) = Ok None /\
      claimable "worker" (@clock demo_env (S (ticks w))) run = free
  | None => False
  end).

Theorem phase_only_under_lease_witness :
  (exists run s', @run_once demo_env nat demo_handlers "worker" 1000 5 "factory_0" (demo_leased, 7%nat)
     = (Ok (Some run), s') /\ db s'.1 = db demo_leased /\ s'.2 = 7%nat) /\
  (exists run s', @run_once demo_env nat demo_handlers "worker" 1000 5 "factory_0" (demo_judging, 7%nat)
     = (Ok (Some run), s') /\ run_state run = REPAIR_REQUIRED /\ released "worker" "factory_0" (db s'.1)).
Proof.
  split.
  - assert (demo_claim false demo_leased) as Hc by (vm_compute; repeat split).
    destruct (db_runs (db demo_leased) !! "factory_0") as [run|] eqn:Er; [|destruct Hc].
    destruct Hc as (Hrest & Hbudget & Hc).
    pose proof (@phase_only_under_lease demo_env nat demo_handlers "worker" 1000 5 "factory_0" demo_leased 7%nat
      run ltac:(discriminate) ltac:(reflexivity) (claim_keyed "factory_0" "other" 0 1000000 _ demo_judging_keyed)
      Er Hrest Hbudget) as Hx.
    rewrite Hc in Hx. destruct (run_once _ _ _ _ _ _) as [x s']. destruct Hx as (-> & Hd & Hn).
    exists run, s'. split; [reflexivity|]. split; [exact Hd|exact Hn].
  - assert (demo_claim true demo_judging) as Hc by (vm_compute; repeat split).
    destruct (db_runs (db demo_judging) !! "factory_0") as [run|] eqn:Er; [|destruct Hc].
    destruct Hc as (Hrest & Hbudget & Hc).
    pose proof (@phase_only_under_lease demo_env nat demo_handlers "worker" 1000 5 "factory_0" demo_judging 7%nat
      run ltac:(discriminate) ltac:(reflexivity) demo_judging_keyed Er Hrest Hbudget) as Hx.
    rewrite Hc in Hx. destruct (run_once _ _ _ _ _ _) as [x s'] eqn:E.
    assert (state_reached (@run_once demo_env nat demo_handlers "worker" 1000 5 "factory_0"
      (demo_judging, 7%nat)).1 = Some REPAIR_REQUIRED) as Hs by (vm_compute; reflexivity).
    rewrite E in Hs. destruct x as [[run'|]|]; try discriminate Hs. injection Hs as Hs.
    exists run', s'. split; [reflexivity|]. split; [exact Hs|]. apply Hx. discriminate.
Defined.

Definition stuck_handler : PhaseHandler (World * nat) :=
  fun _ => {| ex_slices := []; ex_final := raise TimeoutError |}.
Definition demo_held : World := (claim_run "factory_0" "worker" 1000 1000 demo_judging).2.

Theorem heartbeat_ends_unless_phase_times_out_witness :
  (forall fuel, exists s', @execute_with_heartbeat demo_env nat "worker" 1000 fuel "factory_0"
     stuck_handler demo_phase (demo_held, 0%nat) = (Ok None, s')) /\
  (@execute_with_heartbeat demo_env nat "worker" 1000 1 "factory_0"
     (pure_handler (@victory_judging_execute demo_env)) demo_phase (demo_held, 0%nat)).1 <> Ok None.
Proof.
  split.
  - intros fuel. destruct (@heartbeat_ends_unless_phase_times_out demo_env nat "worker" 1000 fuel "factory_0"
      stuck_handler demo_phase (demo_held, 0%nat)) as [_ Hspin].
    destruct Hspin as (w' & E & _).
    + intros n. unfold clock, demo_env. lia.
    + split.
      * exact (claim_keyed "factory_0" "worker" 1000 1000 _ demo_judging_keyed).
      * eexists _, _. split; [vm_compute; reflexivity|]. split; [reflexivity|]. split; [reflexivity|].
        vm_compute. discriminate.
    + reflexivity.
    + reflexivity.
    + eexists. exact E.
  - destruct (@heartbeat_ends_unless_phase_times_out demo_env nat "worker" 1000 1 "factory_0"
      (pure_handler (@victory_judging_execute demo_env)) demo_phase (demo_held, 0%nat)) as [Hends _].
    apply Hends.
    + constructor.
    + intros s. unfold pure_handler, lift. cbn [ex_final fst].
      destruct (victory_judging_execute demo_phase) as [o|e] eqn:E; [discriminate|].
      vm_compute in E. discriminate E.
    + repeat constructor.
Defined.
