(* ===== verification/FactoryPolicy.v ===== *)
(** * The policy of a run and its verification contract

    Models the pure part of [cptr/services/factory_production.py]: the fixed
    verification targets a policy names, the CI policy, and the gate plan that is
    stored in a cycle and read back by the Victory phase. *)

From S2P Require Import Prelude PyStr Json Redaction FactoryDomain FactoryGates.
From S2P Require Import FactoryVictory Database CapabilityLifecycle FactoryStore FactoryPhases.
From S2P Require Import FactoryGit FactoryCi.
From Stdlib Require Import Ascii.

Section Policy.
Context `{Env}.

Definition value_error {A} (m : string) : result A := Err (ValueError m).

(** [policy if isinstance(policy, dict) else {}] *)
Definition as_dict (v : json) : dict := match v with JObj fields => fields | _ => [] end.
(** [bool(policy.get(key, default))] *)
Definition policy_flag (key : string) (d : bool) (policy : dict) : bool :=
  match dict_get key policy with Some v => truthy v | None => d end.
(** [str(policy.get(key) or default)] *)
Definition policy_text (key d : string) (policy : dict) : string :=
  let v := get key policy in if truthy v then py_str v else d.

(** ** Verification targets *)

Definition _FIXED_TARGETS : list string := ["python_pytest"; "node_test"; "node_vitest"; "node_build"].
Definition _VERIFICATION_PHASES : list (string * FactoryState) :=
  [("targeted", TARGETED_VERIFYING); ("full", FULL_VERIFYING); ("adversarial", ADVERSARIAL_REVIEW);
   ("security", SECURITY_REVIEW); ("live", LIVE_VERIFYING)].

(** [_safe_relative]; the value is any JSON value *)
Definition _safe_relative (value : json) (label default : string) : result string :=
  let raw := strip (if truthy value then py_str value else default) in
  let raw := value_or raw default in
  let parts := posix_parts (replace_char backslash "/"%char raw) in
  if posix_absolute (replace_char backslash "/"%char raw) || windows_absolute raw
     || existsb (str_eqb "..") parts
  then value_error (label +:+ " must be workspace-relative")
  else Ok (as_posix parts).

(** [_criterion_ids] *)
Definition _criterion_ids (acceptance_criteria : list string) : list string :=
  imap (fun i _ => "criterion-" +:+ str_of_int (Z.of_nat i + 1)) acceptance_criteria.

Record FactoryVerificationSpec := {
  sp_gate_id : string;
  sp_phase : string;
  sp_target : string;
  sp_category : FactoryGateCategory;
  sp_acceptance_ids : list string;
  sp_required : bool;
  sp_path : string;
  sp_test_path : option string;
  sp_timeout_seconds : string;
}.

(** [float(value)] *)
Definition py_float (v : json) : result string :=
  match v with
  | JBool b => float_of_int (if b then 1 else 0)
  | JInt z => float_of_int z
  | JFloat t => Ok t
  | JStr s => float_of_str s
  | JNull | JList _ | JObj _ =>
      Err (TypeError "float() argument must be a string or a real number")
  end.

(** the acceptance identities a target names *)
Fixpoint known_tokens (known : list string) (raws : list json) : result (list string) :=
  match raws with
  | [] => Ok []
  | raw :: raws =>
      let token := match raw with
                   | JInt _ | JBool _ => "criterion-" +:+ py_str raw
                   | _ => strip (py_str raw)
                   end in
      if negb (is_in token known) then
        value_error ("unknown factory acceptance identity " +:+ repr token)
      else let? tokens := known_tokens known raws in Ok (token :: tokens)
  end.

(** [FactoryVerificationSpec.from_payload] *)
Definition from_payload (known : list string) (item : json) : result FactoryVerificationSpec :=
  match item with
  | JObj item =>
      let named := get "gate_id" item in
      let gate_id := strip (str_or_empty (if truthy named then named else get "name" item)) in
      if empty_str gate_id || (160 <? len gate_id)%Z then
        value_error "factory verification gate_id must contain 1-160 characters"
      else
      let phase := lower (strip (policy_text "phase" "full" item)) in
      if is_none (dict_get phase _VERIFICATION_PHASES) then
        value_error ("unsupported factory verification phase " +:+ repr phase)
      else
      let target := strip (str_or_empty (get "target" item)) in
      if negb (is_in target _FIXED_TARGETS) then
        value_error ("unsupported fixed verification target " +:+ repr target)
      else
      match category_of_value (policy_text "category" "broader_tests" item) with
      | None => value_error "not a valid FactoryGateCategory"
      | Some category =>
          let raws := get "acceptance_ids" item in
          let? raws := if truthy raws then py_iter raws else Ok [] in
          let? acceptance_ids := known_tokens known raws in
          let? timeout := match dict_get "timeout_seconds" item with
                          | Some v => py_float v
                          | None => Ok "180.0"
                          end in
          if match float_compare timeout 0 with Some Lt | Some Eq => true | _ => false end
             || match float_compare timeout 600 with Some Gt => true | _ => false end then
            value_error "factory verification timeout must be between 0 and 600 seconds"
          else
          let test_path := get "test_path" item in
          let? path := _safe_relative (get "path" item) "verification path" "." in
          let? test_path := if truthy test_path
                            then let? p := _safe_relative (JStr (py_str test_path))
                                             "verification test_path" "" in Ok (Some p)
                            else Ok None in
          Ok {| sp_gate_id := gate_id; sp_phase := phase; sp_target := target;
                sp_category := category; sp_acceptance_ids := _dedupe acceptance_ids;
                sp_required := policy_flag "required" true item; sp_path := path;
                sp_test_path := test_path; sp_timeout_seconds := timeout |}
      end
  | _ => value_error "factory verification entry must be an object"
  end.

Fixpoint from_payloads (known : list string) (items : list json)
    : result (list FactoryVerificationSpec) :=
  match items with
  | [] => Ok []
  | item :: items =>
      let? spec := from_payload known item in
      let? specs := from_payloads known items in Ok (spec :: specs)
  end.

(** [verification_specs] of a policy and the acceptance criteria *)
Definition verification_specs (policy : json) (criteria : list string)
    : result (list FactoryVerificationSpec) :=
  let known := _criterion_ids criteria in
  let payload := get "verification_targets" (as_dict policy) in
  let? items := if truthy payload
                then match payload with
                     | JList items => Ok items
                     | _ => value_error "factory policy verification_targets must be an array"
                     end
                else Ok [] in
  let? specs := from_payloads known items in
  let ids := map sp_gate_id specs in
  if bool_decide (length ids <> size (list_to_set ids : gset string)) then
    value_error "factory verification gate IDs must be unique"
  else
    let covered := flat_map sp_acceptance_ids (List.filter sp_required specs) in
    match sorted_set (List.filter (fun c => negb (is_in c covered)) known) with
    | [] => Ok specs
    | missing => value_error
        ("machine verification does not cover immutable acceptance criteria: "
           +:+ str_join ", " missing)
    end.

(** ** CI *)

Fixpoint ci_workflows (raws : list json) : result (list string) :=
  match raws with
  | [] => Ok []
  | raw :: raws =>
      let workflow := strip (py_str raw) in
      if empty_str workflow || (500 <? len workflow)%Z then
        value_error "CI workflow names must contain 1-500 characters"
      else let? workflows := ci_workflows raws in Ok (workflow :: workflows)
  end.

(** [_ci_policy]: the repository and the workflows CI must pass, if it must *)
Definition _ci_policy (policy : json) : result (option (string * list string)) :=
  let policy := as_dict policy in
  if negb (policy_flag "ci_required" false policy) then Ok None
  else if negb (policy_flag "push_required" false policy) then
    value_error "ci_required requires push_required so CI can observe an immutable remote revision"
  else
    let repository := strip (str_or_empty (get "ci_repository" policy)) in
    if empty_str repository then
      value_error "ci_required requires ci_repository in owner/name form"
    else
      match get "ci_workflows" policy with
      | JList ((_ :: _) as raws) =>
          let? workflows := ci_workflows raws in
          let workflows := _dedupe workflows in
          if (20 <? len_list workflows)%Z then
            value_error "ci_workflows exceeds the bounded 20-workflow limit"
          else let? _ := _repository repository in Ok (Some (repository, workflows))
      | _ => value_error "ci_required requires a non-empty ci_workflows array"
      end.
End Policy.

(** ** The gate plan of a cycle *)

Definition plan_row (gate_id : string) (category : FactoryGateCategory) (required : bool)
    (acceptance_ids : list string) : json :=
  JObj [("gate_id", JStr gate_id); ("category", JStr (category_value category));
        ("required", JBool required); ("applicable", JBool true);
        ("invalidated_by_mutation", JBool true); ("acceptance_ids", str_list acceptance_ids)].

(** [_gate_plan] *)
Definition _gate_plan (criteria : list string) (specs : list FactoryVerificationSpec) : json :=
  JObj [("acceptance_criterion_ids", str_list (_criterion_ids criteria));
        ("specs", JList
          (map (fun s => plan_row (sp_gate_id s) (sp_category s) (sp_required s) (sp_acceptance_ids s))
               specs ++ [plan_row "git-diff-check" GIT_DIFF_CHECK true []]))].

(** ** Proofs *)

Section Proofs.
Context `{Env}.

Lemma category_value_of_value c : category_of_value (category_value c) = Some c.
Proof. by destruct c. Qed.

Lemma rejected_or {A} (b : bool) e (r : result A) a : (if b then Err e else r) = Ok a -> b = false /\ r = Ok a.
Proof. by destruct b. Qed.

Lemma is_in_true s l : is_in s l = true <-> s ∈ l.
Proof.
  unfold is_in. rewrite existsb_exists. setoid_rewrite str_eqb_true. rewrite list_elem_of_In.
  split; [by intros (x & ? & ->)|eauto].
Qed.

Lemma rstrip_idemp s : rstrip (rstrip s) = rstrip s.
Proof.
  induction s as [|c s IH]; [done|]. cbn [rstrip]. destruct (is_space c) eqn:Ec; cbn [andb].
  - case_decide as E; [done|]. cbn [rstrip]. by rewrite Ec, IH, decide_False.
  - cbn [rstrip]. by rewrite Ec, IH.
Qed.
Lemma strip_idemp s : strip (strip s) = strip s.
Proof.
  unfold strip. induction s as [|c s IH]; [done|]. cbn [lstrip]. destruct (is_space c) eqn:Ec; [done|].
  cbn [rstrip]. rewrite Ec. cbn [andb lstrip]. rewrite Ec. cbn [rstrip]. by rewrite Ec, rstrip_idemp.
Qed.

(** a list without duplicates, the way Python compares its length with its set's *)
Lemma distinct_NoDup (l : list string) :
  bool_decide (length l <> size (list_to_set l : gset string)) = false <-> NoDup l.
Proof.
  rewrite bool_decide_eq_false. split.
  - intros Hs. apply dec_stable in Hs. induction l as [|x l IH]; [constructor|].
    simpl in Hs. assert (size (list_to_set l : gset string) <= length l)%nat as Hle.
    { clear. induction l as [|y l IH]; [apply Nat.eq_le_incl, size_empty|]. rewrite list_to_set_cons.
      rewrite (size_union_alt {[y]}), size_singleton. cbn [length].
      pose proof (subseteq_size (list_to_set l ∖ {[y]}) (list_to_set l : gset string) ltac:(set_solver)).
      lia. }
    destruct (decide (x ∈ l)) as [Hin|Hin].
    + assert ({[x]} ∪ list_to_set l = (list_to_set l : gset string)) as E by set_solver.
      rewrite E in Hs. lia.
    + constructor; [done|]. apply IH. rewrite size_union, size_singleton in Hs by set_solver. lia.
  - intros Hn Hne. apply Hne. symmetry. by apply size_list_to_set.
Qed.

(** *** What a verification target is *)

Lemma known_tokens_Ok known raws tokens :
  known_tokens known raws = Ok tokens -> forall c, c ∈ tokens -> c ∈ known.
Proof.
  revert tokens. induction raws as [|raw raws IH]; intros tokens; cbn [known_tokens].
  - intros [= <-] c Hc. by apply elem_of_nil in Hc.
  - cbv zeta. set (token := match raw with JInt _ | JBool _ => _ | _ => _ end).
    intros [Hk (ts & Hts & [= <-])%rbind_Ok]%rejected_or c.
    apply negb_false_iff, is_in_true in Hk. intros [->|Hc]%elem_of_cons; [done|by eapply IH].
Qed.

Lemma from_payload_Ok known item s :
  from_payload known item = Ok s ->
  blank (sp_gate_id s) = false /\ forall c, c ∈ sp_acceptance_ids s -> c ∈ known.
Proof.
  unfold from_payload. destruct item as [| | | | | |item]; try done. cbv zeta.
  intros [Hid [_ [_ Hs]%rejected_or]%rejected_or]%rejected_or. apply orb_false_iff in Hid as [Hid _].
  destruct (category_of_value _) as [cat|]; [|done].
  apply rbind_Ok in Hs as (raws & _ & Hs). apply rbind_Ok in Hs as (ids & Hids & Hs).
  apply rbind_Ok in Hs as (timeout & _ & Hs). apply rejected_or in Hs as [_ Hs].
  apply rbind_Ok in Hs as (path & _ & Hs). apply rbind_Ok in Hs as (tp & _ & [= <-]). cbn [sp_gate_id sp_acceptance_ids].
  split.
  - unfold blank. by rewrite strip_idemp.
  - intros c. rewrite elem_of_dedupe. intros Hc. exact (known_tokens_Ok _ _ _ Hids _ Hc).
Qed.

Lemma from_payloads_Ok known items ss :
  from_payloads known items = Ok ss ->
  forall s, s ∈ ss -> blank (sp_gate_id s) = false /\ forall c, c ∈ sp_acceptance_ids s -> c ∈ known.
Proof.
  revert ss. induction items as [|item items IH]; intros ss; cbn [from_payloads].
  - intros [= <-] s Hs. by apply elem_of_nil in Hs.
  - intros (s0 & H0 & (ss0 & H1 & [= <-])%rbind_Ok)%rbind_Ok s [->|Hs]%elem_of_cons;
      [by eapply from_payload_Ok|by eapply IH].
Qed.

Record contract (criteria : list string) (ss : list FactoryVerificationSpec) : Prop := {
  contract_gates : NoDup (map sp_gate_id ss);
  contract_named s : s ∈ ss -> blank (sp_gate_id s) = false;
  contract_known s c : s ∈ ss -> c ∈ sp_acceptance_ids s -> c ∈ _criterion_ids criteria;
  contract_covers c : c ∈ _criterion_ids criteria ->
    exists s, s ∈ ss /\ sp_required s = true /\ c ∈ sp_acceptance_ids s;
}.

Lemma verification_specs_Ok policy criteria ss :
  verification_specs policy criteria = Ok ss -> contract criteria ss.
Proof.
  unfold verification_specs. cbv zeta.
  intros (items & _ & (ss' & Hss & [Hd Hs]%rejected_or)%rbind_Ok)%rbind_Ok.
  destruct (sorted_set _) as [|m ms] eqn:Em; [injection Hs as ->|done].
  pose proof (from_payloads_Ok _ _ _ Hss) as Hall. split.
  - by apply distinct_NoDup.
  - intros s Hin. by apply Hall.
  - intros s c Hin. by apply Hall.
  - intros c Hc.
    destruct (is_in c (flat_map sp_acceptance_ids (List.filter sp_required ss))) eqn:E.
    + apply is_in_true, elem_of_flat_map in E as (s & Hin & Hcs).
      apply list_elem_of_In, filter_In in Hin as [Hin Hr]. apply list_elem_of_In in Hin. by exists s.
    + exfalso. eapply (elem_of_nil c). rewrite <-Em. apply elem_of_sorted_set, list_elem_of_In, filter_In.
      split; [by apply list_elem_of_In|by rewrite E].
Qed.

(** *** Reading the plan back *)

(** the gate of a target *)
Definition gate_of (s : FactoryVerificationSpec) : FactoryGateSpec := {|
  gate_id := sp_gate_id s; category := sp_category s; FactoryGates.required := sp_required s; applicable := true;
  applicability_reason := None; invalidated_by_mutation := true; acceptance_ids := sp_acceptance_ids s |}.
Definition diff_check : FactoryGateSpec := {|
  gate_id := "git-diff-check"; category := GIT_DIFF_CHECK; FactoryGates.required := true; applicable := true;
  applicability_reason := None; invalidated_by_mutation := true; acceptance_ids := [] |}.

Lemma strings_of_list l : strings_of (str_list l) = Ok l.
Proof.
  unfold strings_of, str_list. destruct l as [|s l]; [done|].
  change (truthy _) with true. cbn [py_iter rbind]. f_equal.
  induction (s :: l) as [|x k IH]; [done|]. cbn [map py_str]. by rewrite IH.
Qed.


Lemma gate_spec_of_row gid cat req ids :
  blank gid = false ->
  gate_spec_of (plan_row gid cat req ids) = Ok {|
    gate_id := gid; category := cat; FactoryGates.required := req; applicable := true;
    applicability_reason := None; invalidated_by_mutation := true; acceptance_ids := ids |}.
Proof.
  intros Hb. unfold gate_spec_of, plan_row. set (f := [_; _; _; _; _; _]).
  assert (get "category" f = JStr (category_value cat)) as -> by reflexivity.
  assert (get "gate_id" f = JStr gid) as -> by reflexivity.
  assert (get "acceptance_ids" f = str_list ids) as -> by reflexivity.
  assert (flag "required" f = req) as -> by reflexivity.
  rewrite !str_or_empty_str, category_value_of_value, strings_of_list. cbn [rbind].
  unfold FactoryGateSpec_post_init. cbn [gate_id]. by rewrite Hb.
Qed.

Lemma gate_specs_of_plan ss :
  (forall s, s ∈ ss -> blank (sp_gate_id s) = false) ->
  gate_specs_of (map (fun s => plan_row (sp_gate_id s) (sp_category s) (sp_required s) (sp_acceptance_ids s)) ss
                   ++ [plan_row "git-diff-check" GIT_DIFF_CHECK true []])
  = Ok (map gate_of ss ++ [diff_check]).
Proof.
  intros Hb. induction ss as [|s ss IH]; cbn [map app gate_specs_of].
  - by rewrite gate_spec_of_row.
  - rewrite gate_spec_of_row by (apply Hb; left). cbn [rbind].
    rewrite IH by (intros; apply Hb; by right). done.
Qed.
End Proofs.

Section Theorems.
Context `{Env}.

Lemma criterion_ids_expected criteria : _criterion_ids criteria = expected_acceptance_ids criteria.
Proof.
  unfold _criterion_ids, expected_acceptance_ids, len_list, seqZ. rewrite Nat2Z.id.
  rewrite (imap_seq_0 criteria (fun i => "criterion-" +:+ str_of_int (Z.of_nat i + 1))).
  change (@map nat Z) with (@fmap list _ nat Z) || idtac.
  rewrite <-list_fmap_compose || rewrite map_map. done.
Qed.

Lemma plan_parses criteria ss :
  contract criteria ss -> "git-diff-check" ∉ map sp_gate_id ss ->
  FactoryPhases._gate_plan (_gate_plan criteria ss) =
    Ok {| specs := map gate_of ss ++ [diff_check];
          acceptance_criterion_ids := expected_acceptance_ids criteria |}.
Proof.
  intros Hc Hno. unfold FactoryPhases._gate_plan, _gate_plan. set (rows := _ ++ _). set (f := [_; _]).
  assert (get "specs" f = JList rows) as -> by reflexivity.
  assert (get "acceptance_criterion_ids" f = str_list (_criterion_ids criteria)) as -> by reflexivity.
  assert (truthy (JList rows) = true) as -> by (subst rows; by destruct ss).
  cbn [py_iter rbind]. unfold rows. rewrite gate_specs_of_plan by apply Hc. cbn [rbind].
  rewrite strings_of_list, <-criterion_ids_expected. cbn [rbind]. unfold FactoryGatePlan_post_init. cbv zeta.
  cbn [specs acceptance_criterion_ids].
  assert (map gate_id (map gate_of ss ++ [diff_check]) = map sp_gate_id ss ++ ["git-diff-check"]) as ->
    by (rewrite map_app, map_map; done).
  rewrite (proj2 (distinct_NoDup _)).
  2: { apply NoDup_app. split_and!; [apply Hc| |apply NoDup_singleton].
       intros x Hx ->%list_elem_of_singleton. done. }
  set (unknown := List.filter _ _). destruct unknown as [|c l] eqn:E; [done|]. exfalso.
  assert (c ∈ unknown) as Hin by (rewrite E; left). unfold unknown in Hin.
  apply list_elem_of_In, filter_In in Hin as [Hin Hun%bool_decide_eq_true]. apply Hun, elem_of_list_to_set.
  apply list_elem_of_In, elem_of_flat_map in Hin as (g & Hg & Hcg).
  apply elem_of_app in Hg as [Hg| ->%list_elem_of_singleton]; [|by apply elem_of_nil in Hcg].
  apply list_elem_of_In, in_map_iff in Hg as (s & <- & Hs%list_elem_of_In).
  by apply (contract_known _ _ Hc s).
Qed.

Lemma plan_clashes criteria ss :
  (forall s, s ∈ ss -> blank (sp_gate_id s) = false) -> "git-diff-check" ∈ map sp_gate_id ss ->
  FactoryPhases._gate_plan (_gate_plan criteria ss)
    = Err (ValueError "duplicate gate id in factory gate plan").
Proof.
  intros Hb Hin. unfold FactoryPhases._gate_plan, _gate_plan. set (rows := _ ++ _). set (f := [_; _]).
  assert (get "specs" f = JList rows) as -> by reflexivity.
  assert (get "acceptance_criterion_ids" f = str_list (_criterion_ids criteria)) as -> by reflexivity.
  assert (truthy (JList rows) = true) as -> by (subst rows; by destruct ss).
  cbn [py_iter rbind]. unfold rows. rewrite gate_specs_of_plan by done. cbn [rbind].
  rewrite strings_of_list. cbn [rbind]. unfold FactoryGatePlan_post_init. cbv zeta. cbn [specs].
  assert (map gate_id (map gate_of ss ++ [diff_check]) = map sp_gate_id ss ++ ["git-diff-check"]) as ->
    by (rewrite map_app, map_map; done).
  destruct (bool_decide _) eqn:E; [done|]. apply distinct_NoDup, NoDup_app in E as (_ & Hd & _).
  destruct (Hd _ Hin). by left.
Qed.

(** The gate plan survives its round trip: for a policy whose verification
    contract compiles, the plan that is stored in a cycle is read back by the
    Victory phase as exactly one applicable gate per target, in order, with its
    category, requirement and criteria, plus the required diff check, for exactly
    the criterion identities that phase expects, each of which some required gate
    covers - unless a target calls its gate [git-diff-check]: preflight accepts the
    name, and then the stored plan never parses. *)
Theorem gate_plan_roundtrip policy criteria ss :
  verification_specs policy criteria = Ok ss ->
  if bool_decide ("git-diff-check" ∈ map sp_gate_id ss)
  then FactoryPhases._gate_plan (_gate_plan criteria ss)
       = Err (ValueError "duplicate gate id in factory gate plan")
  else exists plan, FactoryPhases._gate_plan (_gate_plan criteria ss) = Ok plan /\
    specs plan = map gate_of ss ++ [diff_check] /\
    acceptance_criterion_ids plan = expected_acceptance_ids criteria /\
    forall c, c ∈ expected_acceptance_ids criteria ->
      exists g, g ∈ specs plan /\ FactoryGates.required g = true /\ applicable g = true /\
        c ∈ acceptance_ids g.
Proof.
  intros Hc%verification_specs_Ok. case_bool_decide as Hin.
  - apply plan_clashes; [apply Hc|done].
  - eexists. split; [by apply plan_parses|]. cbn [specs acceptance_criterion_ids].
    split; [done|]. split; [done|]. intros c. rewrite <-criterion_ids_expected.
    intros (s & Hs & Hr & Hcs)%(contract_covers _ _ Hc). exists (gate_of s). split_and!; try done.
    apply elem_of_app. left. apply list_elem_of_In, in_map, list_elem_of_In. done.
Qed.
End Theorems.

(** ** Witnesses *)

Definition demo_target (name : string) (criterion : Z) : json :=
  JObj [("name", JStr name); ("target", JStr "python_pytest"); ("phase", JStr " Targeted ");
        ("acceptance_ids", JList [JInt criterion]); ("path", JStr "src/app")].
Definition demo_policy (name : string) : json :=
  JObj [("verification_targets", JList [demo_target "tests" 1; demo_target name 2])].

Theorem gate_plan_roundtrip_witness :
  (exists ss plan, @verification_specs demo_env (demo_policy "more tests") ["a"; "b"] = Ok ss /\
     @FactoryPhases._gate_plan demo_env (_gate_plan ["a"; "b"] ss) = Ok plan /\
     map gate_id (specs plan) = ["tests"; "more tests"; "git-diff-check"]) /\
  (exists ss, @verification_specs demo_env (demo_policy "git-diff-check") ["a"; "b"] = Ok ss /\
     is_ok (@FactoryPhases._gate_plan demo_env (_gate_plan ["a"; "b"] ss)) = false).
Proof.
  split.
  - destruct (@verification_specs demo_env (demo_policy "more tests") ["a"; "b"]) as [ss|e] eqn:E;
      [|vm_compute in E; discriminate E].
    pose proof (@gate_plan_roundtrip demo_env _ _ _ E) as Hx.
    assert (map sp_gate_id ss = ["tests"; "more tests"]) as Hids
      by (vm_compute in E; injection E as <-; reflexivity).
    rewrite Hids in Hx. destruct (bool_decide _) eqn:Ed; [vm_compute in Ed; discriminate Ed|].
    destruct Hx as (plan & Hp & Hs & _). exists ss, plan. split; [reflexivity|]. split; [exact Hp|].
    rewrite Hs. vm_compute in E. injection E as <-. reflexivity.
  - destruct (@verification_specs demo_env (demo_policy "git-diff-check") ["a"; "b"]) as [ss|e] eqn:E;
      [|vm_compute in E; discriminate E].
    pose proof (@gate_plan_roundtrip demo_env _ _ _ E) as Hx.
    assert (map sp_gate_id ss = ["tests"; "git-diff-check"]) as Hids
      by (vm_compute in E; injection E as <-; reflexivity).
    rewrite Hids in Hx. destruct (bool_decide _) eqn:Ed; [|vm_compute in Ed; discriminate Ed].
    exists ss. split; [reflexivity|]. rewrite Hx. reflexivity.
Defined.
