(* ===== verification/FactoryVerification.v ===== *)
(** * Machine verification of a cycle

    Models the verification part of [cptr/services/factory_production.py]: the fixed
    targets a policy may name, the run of one target and the handler of the five
    verifying phases.  Processes and the file system are parameters: a runner of
    argument vectors, a path resolver and the Git adapter, on a world [R]. *)

From S2P Require Import Prelude PyStr Json Redaction FactoryDomain FactoryGates.
From S2P Require Import FactoryVictory Database CapabilityLifecycle FactoryStore FactoryPhases.
From S2P Require Import FactoryGit FactoryCi FactoryLifecycle FactoryPolicy.
From Stdlib Require Import Ascii.

Definition _MAX_VERIFY_OUTPUT : Z := 8000.

Definition _NEXT_VERIFY_STATE : list (FactoryState * FactoryState) :=
  [(TARGETED_VERIFYING, FULL_VERIFYING); (FULL_VERIFYING, ADVERSARIAL_REVIEW);
   (ADVERSARIAL_REVIEW, SECURITY_REVIEW); (SECURITY_REVIEW, LIVE_VERIFYING);
   (LIVE_VERIFYING, VICTORY_JUDGING)].
Definition next_verify_state (s : FactoryState) : option FactoryState :=
  snd <$> List.find (fun p => bool_decide (p.1 = s)) _NEXT_VERIFY_STATE.

(** [s[-n:]] for a positive [n] *)
Fixpoint str_drop (n : Z) (s : string) : string :=
  match s with
  | EmptyString => EmptyString
  | String _ s' => if (n <=? 0)%Z then s else str_drop (n - 1) s'
  end.
Definition str_tail (n : Z) (s : string) : string := str_drop (len s - n) s.

(** what a process left behind *)
Record ProcessResult := {
  pr_returncode : Z;
  pr_timed_out : bool;
  pr_stdout : string;
  pr_stderr : string;
}.
Definition target_passed (p : ProcessResult) : bool :=
  negb (pr_timed_out p) && (pr_returncode p =? 0)%Z.

Section Verification.
Context `{Env} {R : Type} (git : GitAdapter R).
(** [Path(text).resolve()] on the host *)
Context (resolve : string -> M R string).
(** a process in a directory, with its time limit in seconds *)
Context (spawn : string -> list string -> string -> M R ProcessResult).
(** [sys.executable] *)
Context (executable : string).
(** [_verification_root] *)
Context (verification_root : PhaseContext -> M R string).

(** [profiles[spec.target]] *)
Definition profile (spec : FactoryVerificationSpec) : result (list string) :=
  let paths := match sp_test_path spec with
               | Some p => if empty_str p then [] else [p]
               | None => []
               end in
  if str_eqb (sp_target spec) "python_pytest" then Ok ([executable; "-m"; "pytest"] ++ paths)
  else if str_eqb (sp_target spec) "node_test" then Ok (["npm"; "test"; "--"] ++ paths)
  else if str_eqb (sp_target spec) "node_vitest" then Ok (["./node_modules/.bin/vitest"; "run"] ++ paths)
  else if str_eqb (sp_target spec) "node_build" then Ok ["npm"; "run"; "build"]
  else Err (KeyError (sp_target spec)).

(** the text of the path [base / path] for a relative [path] *)
Definition joined_path (base path : string) : string := base +:+ "/" +:+ path.
(** [child.relative_to(base)] does not raise *)
Definition inside (base child : string) : bool :=
  bool_decide (posix_parts base `prefix_of` posix_parts child).

(** the dict [_run_fixed_target] returns *)
Definition target_payload (spec : FactoryVerificationSpec) (p : ProcessResult) : dict :=
  [("target", JStr (sp_target spec)); ("path", JStr (sp_path spec));
   ("test_path", opt_str (sp_test_path spec)); ("exit_code", JInt (pr_returncode p));
   ("timed_out", JBool (pr_timed_out p));
   ("stdout", JStr (str_tail _MAX_VERIFY_OUTPUT (pr_stdout p)));
   ("stderr", JStr (str_tail _MAX_VERIFY_OUTPUT (pr_stderr p)));
   ("passed", JBool (target_passed p))].

(** [_run_fixed_target]: the process it ran *)
Definition _run_fixed_target (root : string) (spec : FactoryVerificationSpec) : M R ProcessResult :=
  let* base := resolve root in
  let* cwd := resolve (joined_path base (sp_path spec)) in
  let* root_path := resolve root in
  raise_if negb (inside root_path cwd) as ValueError "verification cwd escapes repository" in
  let* argv := lift (profile spec) in
  spawn cwd argv (sp_timeout_seconds spec).

(** the specs of one phase, [None] for an unknown phase name *)
Definition in_phase (state : FactoryState) (spec : FactoryVerificationSpec) : bool :=
  bool_decide (dict_get (sp_phase spec) _VERIFICATION_PHASES = Some state).

(** the artifact and the gate update of one target *)
Definition target_artifact (key : string) (revision fingerprint : string)
    (spec : FactoryVerificationSpec) (p : ProcessResult) : result PhaseArtifact :=
  PhaseArtifact_post_init
    {| pa_key := key; pa_kind := "verification_result"; pa_source := "fixed-target:" +:+ sp_target spec;
       pa_authority := MACHINE; pa_payload := target_payload spec p; pa_gate_id := Some (sp_gate_id spec);
       pa_revision := Some revision; pa_fingerprint := Some fingerprint |}.
Definition gate_update (key gate_id : string) (category : FactoryGateCategory) (required passed : bool)
    (revision fingerprint reason : string) : result PhaseGateUpdate :=
  PhaseGateUpdate_post_init
    {| pg_gate_id := gate_id; pg_category := category; pg_required := required; pg_applicable := true;
       pg_status := if passed then PASS else FAIL; pg_artifact_keys := [key]; pg_evidence_ids := [];
       pg_evaluated_revision := Some revision; pg_evaluated_fingerprint := Some fingerprint;
       pg_reason := Some reason; pg_attempt := 1 |}.

(** what the handler collects *)
Record Verified := {
  vf_artifacts : list PhaseArtifact;
  vf_gates : list PhaseGateUpdate;
  vf_failures : list string;
}.
Definition add_verified (artifact : PhaseArtifact) (gate : PhaseGateUpdate) (failed : list string)
    (rest : Verified) : Verified :=
  {| vf_artifacts := artifact :: vf_artifacts rest; vf_gates := gate :: vf_gates rest;
     vf_failures := failed ++ vf_failures rest |}.

(** [f"verify-{index}-{spec.gate_id}"] *)
Definition target_key (index : Z) (spec : FactoryVerificationSpec) : string :=
  "verify-" +:+ str_of_int index +:+ "-" +:+ sp_gate_id spec.

(** the loop over the targets of a phase *)
Fixpoint verify_targets (root revision fingerprint : string) (index : Z)
    (specs : list FactoryVerificationSpec) (after : M R Verified) : M R Verified :=
  match specs with
  | [] => after
  | spec :: specs =>
      let* p := _run_fixed_target root spec in
      let key := target_key index spec in
      let passed := target_passed p in
      let* artifact := lift (target_artifact key revision fingerprint spec p) in
      let* gate := lift (gate_update key (sp_gate_id spec) (sp_category spec) (sp_required spec) passed
        revision fingerprint
        (if passed then "fixed verification target passed" else "fixed verification target failed")) in
      let* rest := verify_targets root revision fingerprint (index + 1) specs after in
      ret (add_verified artifact gate (if sp_required spec && negb passed then [sp_gate_id spec] else []) rest)
  end.

(** the closing [git diff --check] of the full phase *)
Definition verify_diff (root revision fingerprint : string) : M R Verified :=
  let* checked := git_diff_check git root in
  let passed := truthy (get "passed" checked) in
  let errors := get "errors" checked in
  let* errors := lift (if truthy errors then py_iter errors else Ok []) in
  let* artifact := lift (PhaseArtifact_post_init
    {| pa_key := "git-diff-check"; pa_kind := "git_diff_check"; pa_source := "cptr-git";
       pa_authority := MACHINE; pa_payload := [("passed", JBool passed); ("errors", JList (take 50 errors))];
       pa_gate_id := Some "git-diff-check"; pa_revision := Some revision;
       pa_fingerprint := Some fingerprint |}) in
  let* gate := lift (gate_update "git-diff-check" "git-diff-check" GIT_DIFF_CHECK true passed revision
    fingerprint (if passed then "git diff --check passed" else "git diff --check failed")) in
  ret (add_verified artifact gate (if passed then [] else ["git-diff-check"])
         {| vf_artifacts := []; vf_gates := []; vf_failures := [] |}).
Definition no_more : M R Verified := ret {| vf_artifacts := []; vf_gates := []; vf_failures := [] |}.

(** the outcome of what was collected *)
Definition verified_outcome (state : FactoryState) (v : Verified) : result PhaseOutcome :=
  let outcome next reason failure :=
    PhaseOutcome_post_init
      {| po_reason := reason; po_next_state := next; po_artifacts := vf_artifacts v;
         po_gates := vf_gates v; po_cycle_updates := []; po_run_next_action := None;
         po_target_revision := None; po_target_fingerprint := None; po_failure := failure;
         po_victory_decision := None |} in
  match vf_failures v with
  | first :: _ =>
      let? f := PhaseFailure_post_init
        {| pf_category := FAIL_TEST; pf_code := "FACTORY_VERIFICATION_GATE_FAILED";
           pf_gate_id := Some first;
           pf_summary := "required machine gates failed: " +:+ str_join ", " (vf_failures v) |} in
      outcome None (state_value state +:+ " machine verification failed") (Some f)
  | [] =>
      match next_verify_state state with
      | None => Err (KeyError (state_value state))
      | Some next => outcome (Some next) (state_value state +:+ " machine verification passed") None
      end
  end.

Definition stale_target : result PhaseOutcome :=
  outcome_failed "verification target changed before machine gate execution"
    {| pf_category := FAIL_TEST; pf_code := "FACTORY_VERIFICATION_TARGET_STALE"; pf_gate_id := None;
       pf_summary := "repository revision/fingerprint changed after implementation target was recorded" |}.

(** [VerificationPhaseHandler.execute] *)
Definition verification_execute (state : FactoryState) (c : PhaseContext) : M R PhaseOutcome :=
  let* specs := lift (verification_specs (run_policy (pc_run c)) (run_acceptance_criteria (pc_run c))) in
  let specs := List.filter (in_phase state) specs in
  let* root := verification_root c in
  let* fingerprint := git_workspace_fingerprint git root in
  let* revision := git_current_revision git root in
  if negb (opt_eqb (Some revision) (target_revision (pc_cycle c)))
     || negb (opt_eqb (Some fingerprint) (target_fingerprint (pc_cycle c))) then
    lift stale_target
  else
    let* v := verify_targets root revision fingerprint 0 specs
      (if bool_decide (state = FULL_VERIFYING) then verify_diff root revision fingerprint else no_more) in
    lift (verified_outcome state v).
End Verification.

(** ** What a phase reports *)

(** a gate update backed by an artifact the machine produced at the same target *)
Record evidenced (revision fingerprint gate_id : string) (category : FactoryGateCategory)
    (required passed : bool) (a : PhaseArtifact) (g : PhaseGateUpdate) : Prop := {
  ev_gate : pg_gate_id g = gate_id /\ pa_gate_id a = Some gate_id;
  ev_kind : pg_category g = category /\ pg_required g = required /\ pg_applicable g = true;
  ev_status : pg_status g = if passed then PASS else FAIL;
  ev_cited : pg_artifact_keys g = [pa_key a];
  ev_machine : pa_authority a = MACHINE;
  ev_revision : pg_evaluated_revision g = Some revision /\ pa_revision a = Some revision;
  ev_fingerprint : pg_evaluated_fingerprint g = Some fingerprint /\ pa_fingerprint a = Some fingerprint;
}.

Section Facts.
Context `{Env} {R : Type} (git : GitAdapter R) (resolve : string -> M R string).
Context (spawn : string -> list string -> string -> M R ProcessResult) (executable : string).
Context (verification_root : PhaseContext -> M R string).
#[local] Abbreviation run_target := (_run_fixed_target resolve spawn executable).

Lemma artifact_post_init_Ok a b : PhaseArtifact_post_init a = Ok b -> b = a.
Proof. unfold PhaseArtifact_post_init. repeat case_match; try done; by intros [= <-]. Qed.
Lemma gate_post_init_Ok a b : PhaseGateUpdate_post_init a = Ok b -> b = a.
Proof. unfold PhaseGateUpdate_post_init. repeat case_match; try done; by intros [= <-]. Qed.
Lemma outcome_post_init_Ok a b : PhaseOutcome_post_init a = Ok b -> b = a.
Proof. unfold PhaseOutcome_post_init. cbv zeta. repeat case_match; try done; by intros [= <-]. Qed.

(** the target of a spec ran, and left [p] behind *)
Definition ran (root : string) (spec : FactoryVerificationSpec) (p : ProcessResult) : Prop :=
  exists r r', run_target root spec r = (Ok p, r').
(** [git diff --check] ran, and said whether it passed *)
Definition diff_checked (root : string) (passed : bool) : Prop :=
  exists r r' checked, git_diff_check git root r = (Ok checked, r') /\ passed = truthy (get "passed" checked).

Lemma verify_diff_Ok root revision fingerprint r v r' :
  verify_diff git root revision fingerprint r = (Ok v, r') ->
  exists a g passed, vf_artifacts v = [a] /\ vf_gates v = [g] /\ diff_checked root passed /\
    evidenced revision fingerprint "git-diff-check" GIT_DIFF_CHECK true passed a g /\
    (vf_failures v = [] -> passed = true).
Proof.
  unfold verify_diff. intros (checked & r1 & Hc & Hv)%bind_Ok. cbv beta in Hv. ok_inv.
  apply artifact_post_init_Ok in Hx0. apply gate_post_init_Ok in Hx1. subst.
  eexists _, _, _. split; [reflexivity|]. split; [reflexivity|]. split.
  - by exists r, r1, checked.
  - split; [by split|]. by destruct (truthy (get "passed" checked)).
Qed.

Lemma verify_targets_Ok root revision fingerprint i specs after r v r' :
  verify_targets resolve spawn executable root revision fingerprint i specs after r = (Ok v, r') ->
  exists ra rest, after ra = (Ok rest, r') /\
    (forall g, g ∈ vf_gates v -> g ∈ vf_gates rest \/
       exists spec p a, spec ∈ specs /\ ran root spec p /\ a ∈ vf_artifacts v /\
         evidenced revision fingerprint (sp_gate_id spec) (sp_category spec) (sp_required spec)
           (target_passed p) a g) /\
    (forall spec, spec ∈ specs -> exists p a g, ran root spec p /\ a ∈ vf_artifacts v /\ g ∈ vf_gates v /\
       evidenced revision fingerprint (sp_gate_id spec) (sp_category spec) (sp_required spec)
         (target_passed p) a g /\
       (vf_failures v = [] -> sp_required spec = true -> target_passed p = true)) /\
    (forall a, a ∈ vf_artifacts rest -> a ∈ vf_artifacts v) /\
    (forall g, g ∈ vf_gates rest -> g ∈ vf_gates v) /\
    (vf_failures v = [] -> vf_failures rest = []).
Proof.
  revert i r v. induction specs as [|spec specs IH]; intros i r v.
  - intros Hafter. exists r, v. split_and!; try done; [by left|by intros ? ?%elem_of_nil].
  - cbn [verify_targets]. intros (p & r1 & Hp & Hv)%bind_Ok. cbv beta in Hv.
    apply bind_Ok in Hv as (artifact & r2 & [Ha ->]%lift_Ok & Hv). cbv beta in Hv.
    apply bind_Ok in Hv as (gate & r3 & [Hg ->]%lift_Ok & Hv). cbv beta in Hv.
    apply bind_Ok in Hv as (tail & r4 & Htail & [-> ->]%ret_Ok).
    destruct (IH _ _ _ Htail) as (ra & rest & Hafter & Hgates & Hspecs & Harts & Hrest & Hfail).
    assert (evidenced revision fingerprint (sp_gate_id spec) (sp_category spec) (sp_required spec)
              (target_passed p) artifact gate) as He.
    { apply artifact_post_init_Ok in Ha. apply gate_post_init_Ok in Hg. subst. by split. }
    assert (ran root spec p) as Hran by (by exists r, r1).
    exists ra, rest. cbn [vf_artifacts vf_gates vf_failures add_verified].
    setoid_rewrite elem_of_cons. split_and!; [done| | |by auto|by auto|].
    + intros g [->|Hg']; [right; exists spec, p, artifact; auto|].
      destruct (Hgates g Hg') as [?|(s & q & a & ? & ? & ? & ?)]; [by left|right].
      exists s, q, a. auto.
    + intros s [->|Hs].
      * exists p, artifact, gate. split_and!; auto. intros [Hf _]%app_nil Hreq. rewrite Hreq in Hf.
        by destruct (target_passed p).
      * destruct (Hspecs s Hs) as (q & a & g & ? & ? & ? & ? & Hq). exists q, a, g.
        split_and!; auto. intros [_ Hf]%app_nil. auto.
    + intros [_ Hf]%app_nil. auto.
Qed.

Lemma no_more_Ok (r : R) v r' : no_more r = (Ok v, r') -> vf_gates v = [] /\ vf_artifacts v = [].
Proof. intros [-> _]%ret_Ok. done. Qed.

(** a gate of the phase that passed: its target ended with exit code zero in time, or
    [git diff --check] passed *)
Definition passing_check (state : FactoryState) (root : string) (specs : list FactoryVerificationSpec)
    (g : PhaseGateUpdate) : Prop :=
  (exists spec p, spec ∈ specs /\ in_phase state spec = true /\ sp_gate_id spec = pg_gate_id g /\
     ran root spec p /\ pr_returncode p = 0%Z /\ pr_timed_out p = false) \/
  (state = FULL_VERIFYING /\ pg_gate_id g = "git-diff-check" /\ diff_checked root true).

(** every gate is backed at the target of the cycle, and passes only if its check did *)
Definition gates_backed (state : FactoryState) (c : PhaseContext) (root : string)
    (specs : list FactoryVerificationSpec) (o : PhaseOutcome) : Prop :=
  forall g, g ∈ po_gates o ->
    (pg_status g = PASS -> passing_check state root specs g) /\
    exists a revision fingerprint, a ∈ po_artifacts o /\
      target_revision (pc_cycle c) = Some revision /\ target_fingerprint (pc_cycle c) = Some fingerprint /\
      evidenced revision fingerprint (pg_gate_id g) (pg_category g) (pg_required g)
        (bool_decide (pg_status g = PASS)) a g.
(** the required checks of the phase have passing gates *)
Definition required_passed (state : FactoryState) (specs : list FactoryVerificationSpec) (o : PhaseOutcome)
    : Prop :=
  (forall spec, spec ∈ specs -> in_phase state spec = true -> sp_required spec = true ->
     exists g, g ∈ po_gates o /\ pg_gate_id g = sp_gate_id spec /\ pg_status g = PASS) /\
  (state = FULL_VERIFYING ->
     exists g, g ∈ po_gates o /\ pg_gate_id g = "git-diff-check" /\ pg_status g = PASS).

Lemma evidenced_status revision fingerprint gid cat req passed a g :
  evidenced revision fingerprint gid cat req passed a g ->
  evidenced revision fingerprint (pg_gate_id g) (pg_category g) (pg_required g)
    (bool_decide (pg_status g = PASS)) a g /\ (pg_status g = PASS -> passed = true).
Proof.
  intros [[<- ?] (<- & <- & ?) Hst ? ? ? ?]. split; [|rewrite Hst; by destruct passed].
  split; try done. rewrite Hst. by destruct passed.
Qed.
Lemma target_passed_true p : target_passed p = true <-> pr_returncode p = 0%Z /\ pr_timed_out p = false.
Proof. unfold target_passed. rewrite andb_true_iff, negb_true_iff, Z.eqb_eq. tauto. Qed.

Lemma verified_outcome_Ok state v o :
  verified_outcome state v = Ok o ->
  po_gates o = vf_gates v /\ po_artifacts o = vf_artifacts v /\
  (forall s, po_next_state o = Some s -> vf_failures v = [] /\ next_verify_state state = Some s /\ po_failure o = None).
Proof.
  unfold verified_outcome. destruct (vf_failures v) as [|first rest].
  - destruct (next_verify_state state); [|done]. intros ->%outcome_post_init_Ok. by split_and!.
  - intros (f & _ & ->%outcome_post_init_Ok)%rbind_Ok. by split_and!.
Qed.

(** C8. Verification reports what the machine checked, and advances on nothing less: a
    phase either finds the repository at another target than the cycle's and fails
    without a gate, or every gate it reports is backed by its own MACHINE artifact at
    the target of the cycle and passes only if the process of its fixed target ended
    with exit code zero within its limit (or [git diff --check] passed), and the run
    moves on to the next phase only when every required target of the phase passed. *)
Theorem verification_sound state c r o r' :
  verification_execute git resolve spawn executable verification_root state c r = (Ok o, r') ->
  exists specs, verification_specs (run_policy (pc_run c)) (run_acceptance_criteria (pc_run c)) = Ok specs /\
  ((stale_target = Ok o /\ po_gates o = [] /\ po_next_state o = None) \/
   exists root, gates_backed state c root specs o /\
     (forall s, po_next_state o = Some s ->
        next_verify_state state = Some s /\ po_failure o = None /\ required_passed state specs o)).
Proof.
  unfold verification_execute. intros Hv. apply bind_Ok in Hv as (specs & r0 & [Hspecs ->]%lift_Ok & Hv).
  cbv beta zeta in Hv. exists specs. split; [done|].
  apply bind_Ok in Hv as (root & r1 & _ & Hv). apply bind_Ok in Hv as (fingerprint & r2 & _ & Hv).
  apply bind_Ok in Hv as (revision & r3 & _ & Hv). cbv beta in Hv. destruct (_ || _) eqn:Et.
  - left. apply lift_Ok in Hv as [Hs _]. split; [done|].
    unfold stale_target, outcome_failed in Hs. apply rbind_Ok in Hs as (f & _ & ->%outcome_post_init_Ok). done.
  - right. exists root. apply orb_false_iff in Et as [Er%negb_false_iff%opt_eqb_true Ef%negb_false_iff%opt_eqb_true].
    apply bind_Ok in Hv as (v & r4 & Hv & [Ho _]%lift_Ok).
    destruct (verified_outcome_Ok _ _ _ Ho) as (Hg & Ha & Hnext).
    destruct (verify_targets_Ok _ _ _ _ _ _ _ _ _ Hv) as (ra & rest & Hafter & Hgates & Hreq & Harts & Hrest & Hfail).
    assert (Hin : forall spec, spec ∈ List.filter (in_phase state) specs <-> spec ∈ specs /\ in_phase state spec = true)
      by (intros; apply elem_of_select).
    split.
    + intros g. rewrite Hg, Ha. intros [Hr|(spec & p & a & [Hs Hph]%Hin & Hran & Hain & He)]%Hgates.
      * case_bool_decide as Hst; [|by apply no_more_Ok in Hafter as [E _]; rewrite E in Hr; apply elem_of_nil in Hr].
        destruct (verify_diff_Ok _ _ _ _ _ _ Hafter) as (a & g' & passed & Ea & Eg & Hd & He & _).
        rewrite Eg in Hr. apply list_elem_of_singleton in Hr as ->.
        destruct (evidenced_status _ _ _ _ _ _ _ _ He) as [He' Hp]. split.
        { intros Hpass. right. split_and!; [done|by apply He|]. by rewrite (Hp Hpass) in Hd. }
        exists a, revision, fingerprint. split_and!; try done. apply Harts. rewrite Ea. by left.
      * destruct (evidenced_status _ _ _ _ _ _ _ _ He) as [He' Hp]. split.
        { intros Hpass. left. exists spec, p. apply Hp, target_passed_true in Hpass as [? ?].
          split_and!; try done. symmetry. by apply He. }
        exists a, revision, fingerprint. by split_and!.
    + intros s Hs. destruct (Hnext s Hs) as (Hnil & Hn & Hf). split_and!; [done|done|]. split.
      * intros spec Hspec Hph Hrq. destruct (Hreq spec) as (p & a & g & _ & _ & Hgin & He & Hp); [by apply Hin|].
        exists g. rewrite Hg. split_and!; [done|by apply He|]. rewrite (ev_status _ _ _ _ _ _ _ _ He).
        by rewrite (Hp Hnil Hrq).
      * intros Hst. rewrite bool_decide_eq_true_2 in Hafter by done.
        destruct (verify_diff_Ok _ _ _ _ _ _ Hafter) as (a & g & passed & Ea & Eg & _ & He & Hp).
        exists g. rewrite Hg. split_and!; [apply Hrest; rewrite Eg; by left|by apply He|].
        rewrite (ev_status _ _ _ _ _ _ _ _ He). by rewrite (Hp (Hfail Hnil)).
Qed.
End Facts.

(** ** Concrete inputs *)

Definition demo_verify_git : GitAdapter unit := {|
  git_current_revision _ := ret "r1";
  git_workspace_fingerprint _ := ret "f1";
  git_change_manifest _ := ret [];
  git_diff _ := ret [];
  git_diff_check _ := ret [("passed", JBool true)];
  git_stage _ _ := ret tt;
  git_commit _ _ := ret [];
  git_log _ _ := ret [];
  git_push _ _ _ := ret [] |}.
Definition demo_verify_run : FactoryRun := {|
  run_id := "factory_0"; run_user_id := "u1"; run_workspace_id := "ws1";
  run_mission := "repair the parser"; run_acceptance_criteria := ["a"; "b"];
  run_model_id := None; run_state := TARGETED_VERIFYING; run_current_cycle_id := Some "cycle_2";
  run_resumable_state := None; run_policy := demo_policy "more tests"; run_budget := JObj [];
  run_config_fingerprint := ""; run_next_action := None; run_idempotency_key := None;
  run_lease_token := None; run_lease_expires_at := None; run_created_at := 0; run_updated_at := 0;
  run_completed_at := None |}.
Definition demo_verify_phase : PhaseContext := {|
  pc_run := demo_verify_run; pc_cycle := demo_phase_cycle; pc_evidence := []; pc_gates := [];
  pc_steering_messages := [] |}.
(** a runner whose [pytest] exits with [code] *)
Definition demo_spawn (code : Z) (cwd : string) (argv : list string) (limit : string)
    : M unit ProcessResult :=
  ret {| pr_returncode := code; pr_timed_out := false; pr_stdout := "2 passed"; pr_stderr := "" |}.

Theorem verification_sound_witness :
  exists o, @verification_execute demo_env unit demo_verify_git ret (demo_spawn 0) "python"
      (fun _ => ret "/repo") TARGETED_VERIFYING demo_verify_phase tt = (Ok o, tt) /\
    map pg_gate_id (po_gates o) = ["tests"; "more tests"] /\ po_next_state o = Some FULL_VERIFYING /\
    po_failure o = None.
Proof.
  destruct (@verification_execute demo_env unit demo_verify_git ret (demo_spawn 0) "python"
      (fun _ => ret "/repo") TARGETED_VERIFYING demo_verify_phase tt) as [[o|e] []] eqn:E;
    [|vm_compute in E; discriminate E].
  destruct (@verification_sound demo_env unit demo_verify_git ret (demo_spawn 0) "python"
    (fun _ => ret "/repo") TARGETED_VERIFYING demo_verify_phase tt o tt E)
    as (ss & _ & [(_ & Hno & _)|(root & _ & Hnext)]).
  - vm_compute in E. injection E as <-. discriminate Hno.
  - exists o. split; [reflexivity|].
    assert (po_next_state o = Some FULL_VERIFYING) as Hn by (vm_compute in E; injection E as <-; reflexivity).
    split; [vm_compute in E; injection E as <-; reflexivity|]. split; [exact Hn|]. exact (proj1 (proj2 (Hnext _ Hn))).
Defined.

(** a failing target leaves the run without a next state *)
Example failing_target_stops :
  match (@verification_execute demo_env unit demo_verify_git ret (demo_spawn 1) "python"
      (fun _ => ret "/repo") TARGETED_VERIFYING demo_verify_phase tt).1 with
  | Ok o => (po_next_state o, pf_code <$> po_failure o) = (None, Some "FACTORY_VERIFICATION_GATE_FAILED")
  | Err _ => False
  end.
Proof. vm_compute. reflexivity. Qed.
