(* ===== verification/FactoryCapabilities.v ===== *)
(** * Capabilities of a run

    Models [cptr/services/factory_capabilities.py] (manifests, requirements and the
    local inventory), the eligibility and order of
    [cptr/services/factory_capability_ranking.py] and the four phases of
    [cptr/services/factory_production.py] that use them: what a run requires, what is
    there, what of it is trusted and what is selected. *)

From S2P Require Import Prelude PyStr Json Redaction FactoryDomain FactoryGates.
From S2P Require Import FactoryVictory Database CapabilityLifecycle FactoryStore FactoryPhases.
From S2P Require Import FactoryGit FactoryWorkers FactoryCi FactoryLifecycle FactoryPolicy.
From Stdlib Require Import Ascii.

(** [CapabilityTrustStatus] *)
Inductive CapabilityTrustStatus :=
  | DISCOVERED | FETCHED | PINNED | QUARANTINED | REJECTED | APPROVED | REVOKED
  | STALE_REVIEW_REQUIRED.
#[export] Instance trust_status_eq_dec : EqDecision CapabilityTrustStatus.
Proof. solve_decision. Defined.
Definition trust_value (s : CapabilityTrustStatus) : string :=
  match s with
  | DISCOVERED => "DISCOVERED"
  | FETCHED => "FETCHED"
  | PINNED => "PINNED"
  | QUARANTINED => "QUARANTINED"
  | REJECTED => "REJECTED"
  | APPROVED => "APPROVED"
  | REVOKED => "REVOKED"
  | STALE_REVIEW_REQUIRED => "STALE_REVIEW_REQUIRED"
  end.
Definition trust_statuses : list CapabilityTrustStatus :=
  [DISCOVERED; FETCHED; PINNED; QUARANTINED; REJECTED; APPROVED; REVOKED; STALE_REVIEW_REQUIRED].
Definition trust_of_value (v : string) : result CapabilityTrustStatus :=
  match List.find (fun s => str_eqb (trust_value s) v) trust_statuses with
  | Some s => Ok s
  | None => value_error (repr v +:+ " is not a valid CapabilityTrustStatus")
  end.

(** [CapabilityVerificationStatus] *)
Inductive CapabilityVerificationStatus := UNVERIFIED | LOCAL | STATIC_VERIFIED | CAPABILITY_TESTED.
#[export] Instance verification_status_eq_dec : EqDecision CapabilityVerificationStatus.
Proof. solve_decision. Defined.
Definition verification_value (s : CapabilityVerificationStatus) : string :=
  match s with
  | UNVERIFIED => "UNVERIFIED"
  | LOCAL => "LOCAL"
  | STATIC_VERIFIED => "STATIC_VERIFIED"
  | CAPABILITY_TESTED => "CAPABILITY_TESTED"
  end.
Definition verification_of_value (v : string) : result CapabilityVerificationStatus :=
  match List.find (fun s => str_eqb (verification_value s) v)
          [UNVERIFIED; LOCAL; STATIC_VERIFIED; CAPABILITY_TESTED] with
  | Some s => Ok s
  | None => value_error (repr v +:+ " is not a valid CapabilityVerificationStatus")
  end.

(** [CapabilityManifest]; a score is the text of a float *)
Record CapabilityManifest := {
  cm_stable_id : string;
  cm_version : string;
  cm_origin_type : string;
  cm_origin_uri : string;
  cm_pinned : option string;
  cm_digest : string;
  cm_capabilities : list string;
  cm_permissions : list string;
  cm_network : list string;
  cm_execution : list string;
  cm_risk : string;
  cm_trust : CapabilityTrustStatus;
  cm_verification : CapabilityVerificationStatus;
  cm_metadata : dict;
  cm_score : option string;
  cm_created_at : option Z;
  cm_evaluated_at : option Z;
}.

(** [CapabilityManifest.identity] *)
Definition identity_of (m : CapabilityManifest) : string :=
  cm_stable_id m +:+ ":" +:+ cm_version m +:+ ":" +:+ cm_digest m.

(** ** What a manifest shows *)

Definition _BLOCKED_FRAGMENTS : list string :=
  ["authorization"; "cookie"; "credential"; "env"; "header"; "password"; "secret"; "token"].
Definition blocked_key (key : string) : bool := existsb (fun f => contains f (lower key)) _BLOCKED_FRAGMENTS.
Definition is_nested_list (v : json) : bool := match v with JList _ => true | _ => false end.

(** [_safe_metadata], on the items of a dict: the value a key keeps.  The value of an
    item of a list is kept as it is, a list within a list is dropped *)
Fixpoint safe_value (v : json) : json :=
  match v with
  | JObj fields =>
      JObj (omap id (map (fun '(key, item) => if blocked_key key then None else Some (key, safe_value item))
                       fields))
  | JList items =>
      JList (omap id (take 100
        (map (fun item => if is_nested_list item then None else Some (safe_value item)) items)))
  | v => v
  end.
Definition _safe_metadata (value : dict) : dict :=
  match safe_value (JObj value) with JObj fields => fields | _ => [] end.

(** [CapabilityManifest.to_dict] *)
Definition opt_float (v : option string) : json := match v with Some t => JFloat t | None => JNull end.
Definition manifest_to_dict (m : CapabilityManifest) : json := JObj
  [("stable_id", JStr (cm_stable_id m)); ("version", JStr (cm_version m));
   ("origin_type", JStr (cm_origin_type m)); ("origin_uri", JStr (cm_origin_uri m));
   ("pinned_version_or_commit", opt_str (cm_pinned m)); ("digest", JStr (cm_digest m));
   ("capabilities", str_list (cm_capabilities m)); ("permissions", str_list (cm_permissions m));
   ("network_requirements", str_list (cm_network m));
   ("execution_requirements", str_list (cm_execution m)); ("risk_classification", JStr (cm_risk m));
   ("trust_status", JStr (trust_value (cm_trust m)));
   ("verification_status", JStr (verification_value (cm_verification m)));
   ("maintenance_metadata", JObj (_safe_metadata (cm_metadata m)));
   ("historical_factory_score", opt_float (cm_score m)); ("created_at", opt_int (cm_created_at m));
   ("evaluated_at", opt_int (cm_evaluated_at m))].

(** ** Requirements *)

Record CapabilityRequirement := {
  rq_id : string;
  rq_capabilities : list string;
  rq_permissions : list string;
  rq_network_allowed : bool;
}.

Section Requirements.
Context `{Env}.

(** [_normalized_tokens] *)
Fixpoint normal_tokens (values : list json) (label : string) : result (list string) :=
  match values with
  | [] => Ok []
  | raw :: values =>
      let value := lower (strip (py_str raw)) in
      if empty_str value then value_error (label +:+ " must not be blank")
      else let? rest := normal_tokens values label in Ok (value :: rest)
  end.
Definition _normalized_tokens (values : list json) (label : string) : result (list string) :=
  let? tokens := normal_tokens values label in Ok (sorted_set tokens).

(** [CapabilityRequirement.create] *)
Definition requirement_create (requirement_id : string) (capabilities permissions : list json)
    (network_allowed : bool) : result CapabilityRequirement :=
  let rid := strip requirement_id in
  if empty_str rid then value_error "capability requirement ID must not be blank"
  else
    let? capabilities := _normalized_tokens capabilities "capability" in
    if is_nil capabilities then value_error "capability requirement must contain at least one capability"
    else
      let? permissions := _normalized_tokens permissions "permission" in
      Ok {| rq_id := rid; rq_capabilities := capabilities; rq_permissions := permissions;
            rq_network_allowed := network_allowed |}.
Definition requirement (requirement_id : string) (capabilities permissions : list string)
    (network_allowed : bool) : result CapabilityRequirement :=
  requirement_create requirement_id (map JStr capabilities) (map JStr permissions) network_allowed.

(** [_requirement_dict] *)
Definition _requirement_dict (q : CapabilityRequirement) : json := JObj
  [("requirement_id", JStr (rq_id q)); ("capabilities", str_list (rq_capabilities q));
   ("required_permissions", str_list (rq_permissions q)); ("network_allowed", JBool (rq_network_allowed q))].

(** [value or ()], iterated *)
Definition iter_or_empty (v : json) : result (list json) := if truthy v then py_iter v else Ok [].
(** [_requirement_from_payload] *)
Definition _requirement_from_payload (item : json) : result CapabilityRequirement :=
  match item with
  | JObj fields =>
      let? capabilities := iter_or_empty (get "capabilities" fields) in
      let? permissions := iter_or_empty (get "required_permissions" fields) in
      requirement_create (str_or_empty (get "requirement_id" fields)) capabilities permissions
        (policy_flag "network_allowed" false fields)
  | _ => value_error "factory capability requirement must be an object"
  end.

(** ** Manifests read back *)

Definition texts_of (v : json) : result (list string) :=
  let? items := iter_or_empty v in Ok (map py_str items).
(** [int(v) if v is not None else None] *)
Definition opt_py_int (v : json) : result (option Z) :=
  match v with JNull => Ok None | _ => let? z := py_int v in Ok (Some z) end.
(** [float(v) if isinstance(v, (int, float)) else None] *)
Definition score_of (v : json) : result (option string) :=
  match v with
  | JFloat _ | JInt _ | JBool _ => let? t := py_float v in Ok (Some t)
  | _ => Ok None
  end.

(** [_manifest_from_payload] *)
Definition _manifest_from_payload (item : json) : result CapabilityManifest :=
  match item with
  | JObj fields =>
      let text key := str_or_empty (get key fields) in
      let? capabilities := texts_of (get "capabilities" fields) in
      let? permissions := texts_of (get "permissions" fields) in
      let? network := texts_of (get "network_requirements" fields) in
      let? execution := texts_of (get "execution_requirements" fields) in
      let? trust := trust_of_value (policy_text "trust_status" "DISCOVERED" fields) in
      let? verification := verification_of_value (policy_text "verification_status" "UNVERIFIED" fields) in
      let? score := score_of (get "historical_factory_score" fields) in
      let? created := opt_py_int (get "created_at" fields) in
      let? evaluated := opt_py_int (get "evaluated_at" fields) in
      Ok {| cm_stable_id := text "stable_id"; cm_version := text "version";
            cm_origin_type := text "origin_type"; cm_origin_uri := text "origin_uri";
            cm_pinned := match get "pinned_version_or_commit" fields with
                         | JNull => None | v => Some (py_str v) end;
            cm_digest := text "digest"; cm_capabilities := capabilities; cm_permissions := permissions;
            cm_network := network; cm_execution := execution; cm_risk := text "risk_classification";
            cm_trust := trust; cm_verification := verification;
            cm_metadata := as_dict (get "maintenance_metadata" fields); cm_score := score;
            cm_created_at := created; cm_evaluated_at := evaluated |}
  | _ => value_error "factory capability manifest must be an object"
  end.
End Requirements.

(** ** The local inventory *)

(** [re.split] at white space and commas, without the empty texts *)
Fixpoint tokens_from (current s : string) : list string :=
  let token := if empty_str current then [] else [current] in
  match s with
  | EmptyString => token
  | String c s =>
      if is_space c || Ascii.eqb c ","%char then token ++ tokens_from "" s
      else tokens_from (current +:+ String c "") s
  end.
Definition mentions (tool : string) (markers : list string) : bool := existsb (fun m => contains m tool) markers.
(** the permissions a tool's name stands for *)
Definition permissions_of_tool (raw : string) : list string :=
  let tool := lower raw in
  (if mentions tool ["read"; "search"; "grep"; "fdx"; "lsp"] then ["workspace:read"] else [])
  ++ (if mentions tool ["write"; "edit"; "patch"; "move"; "delete"] then ["workspace:write"] else [])
  ++ (if mentions tool ["web"; "browser"; "http"; "fetch"] then ["network:http"] else [])
  ++ (if mentions tool ["command"; "terminal"; "shell"; "pty"; "exec"] then ["process:execute"] else []).
(** [_tool_permissions] *)
Definition _tool_permissions (allowed_tools : option string) : list string :=
  if negb (has_key allowed_tools) then ["workspace:read"]
  else
    match sorted_set (flat_map permissions_of_tool (tokens_from "" (strip (default "" allowed_tools)))) with
    | [] => ["workspace:read"]
    | permissions => permissions
    end.

(** [SkillMeta], as far as the inventory reads it *)
Record SkillMeta := {
  sk_name : string;
  sk_location : string;
  sk_source : string;
  sk_managed : bool;
  sk_license : option string;
  sk_compatibility : option string;
  sk_metadata : dict;
  sk_allowed_tools : option string;
  sk_view_count : Z;
  sk_use_count : Z;
  sk_update_count : Z;
  sk_last_updated_at : json;
}.
(** what [urlsplit] says of a text: the scheme, the host if there is one, the port
    (which may be invalid) and the path *)
Record SplitUrl := {
  url_scheme : string;
  url_host : option string;
  url_port : result (option Z);
  url_path : string;
}.

Section Inventory.
Context `{Env} (urlsplit : string -> result SplitUrl).

(** [_stable_id] *)
Definition _stable_id (kind logical_name : string) : string :=
  "cap_" +:+ kind +:+ "_" +:+ str_take 24 (sha256_hex (kind +:+ String (chr 0) "" +:+ logical_name)).

(** [_sanitize_http_origin]: an origin without user, query and fragment *)
Definition _sanitize_http_origin (raw_url : string) : result string :=
  let? parsed := urlsplit (strip raw_url) in
  match url_host parsed with
  | Some host =>
      if negb (is_in (url_scheme parsed) ["http"; "https"]) || empty_str host then
        value_error "configured MCP URL must be http(s)"
      else
        let host := if contains ":" host && negb (startswith "[" host) then "[" +:+ host +:+ "]" else host in
        let? port := url_port parsed in
        let default_port := str_eqb (url_scheme parsed) "https" && bool_decide (port = Some 443%Z)
                            || str_eqb (url_scheme parsed) "http" && bool_decide (port = Some 80%Z) in
        let netloc := match port with
                      | Some p => if default_port then host else host +:+ ":" +:+ str_of_int p
                      | None => host
                      end in
        let path := url_path parsed in
        let path := if empty_str path || startswith "/" path then path else "/" +:+ path in
        Ok (url_scheme parsed +:+ "://" +:+ netloc +:+ path)
  | None => value_error "configured MCP URL must be http(s)"
  end.

(** [_skill_manifest], for the digest its loader returned *)
Definition _skill_manifest (skill : SkillMeta) (loaded_digest : string) : result CapabilityManifest :=
  if blank loaded_digest then value_error "skill digest loader returned an invalid digest"
  else
    let name := lower (strip (sk_name skill)) in
    let permissions := _tool_permissions (sk_allowed_tools skill) in
    let metadata := _safe_metadata (sk_metadata skill) in
    Ok {| cm_stable_id := _stable_id "skill" (sk_source skill +:+ ":" +:+ name);
          cm_version := policy_text "version" "local" metadata; cm_origin_type := "skill";
          cm_origin_uri := "skill:" +:+ sk_source skill +:+ ":" +:+ sk_name skill; cm_pinned := None;
          cm_digest := strip loaded_digest; cm_capabilities := sorted_set [name; "skill-instructions"];
          cm_permissions := permissions;
          cm_network := if is_in "network:http" permissions then ["external-http"] else [];
          cm_execution := ["skill-instructions"];
          cm_risk := if sk_managed skill then "LOCAL_MANAGED" else "LOCAL_UNMANAGED";
          cm_trust := if sk_managed skill then APPROVED else DISCOVERED; cm_verification := LOCAL;
          cm_metadata := fold_left (fun d kv => dict_set kv.1 kv.2 d) metadata
            [("source", JStr (sk_source skill)); ("managed", JBool (sk_managed skill));
             ("license", opt_str (sk_license skill)); ("compatibility", opt_str (sk_compatibility skill));
             ("view_count", JInt (sk_view_count skill)); ("use_count", JInt (sk_use_count skill));
             ("update_count", JInt (sk_update_count skill));
             ("last_updated_at", sk_last_updated_at skill)];
          cm_score := None; cm_created_at := None; cm_evaluated_at := None |}.

(** [_mcp_manifest] *)
Definition _mcp_manifest (server : dict) : result CapabilityManifest :=
  let type := str_or_empty (get "type" server) in
  let sid := get "id" server in
  let server_id := strip (if truthy sid then py_str sid else policy_text "name" "unnamed" server) in
  if empty_str server_id then value_error "configured MCP server must have an ID or name"
  else
    let version := policy_text "version" "configured" server in
    let http := str_eqb type "mcp" in
    let? origin := if http then _sanitize_http_origin (str_or_empty (get "url" server))
                   else Ok ("stdio:" +:+ server_id) in
    let safe_identity := JObj [("id", JStr server_id); ("name", JStr (policy_text "name" server_id server));
                               ("type", JStr type); ("origin_uri", JStr origin); ("version", JStr version)] in
    Ok {| cm_stable_id := _stable_id "mcp" (type +:+ ":" +:+ server_id); cm_version := version;
          cm_origin_type := "mcp"; cm_origin_uri := origin;
          cm_pinned := if str_eqb version "configured" then None else Some version;
          cm_digest := sha256_hex (dumps true true safe_identity); cm_capabilities := ["mcp-tools"];
          cm_permissions := [if http then "network:http" else "process:execute"];
          cm_network := if http then ["external-http"] else [];
          cm_execution := [if http then "mcp-client" else "mcp-stdio-client"];
          cm_risk := "CONFIGURED_LOCAL_PROVIDER"; cm_trust := APPROVED; cm_verification := LOCAL;
          cm_metadata := [("server_id", JStr server_id); ("server_type", JStr type)];
          cm_score := None; cm_created_at := None; cm_evaluated_at := None |}.

(** [_BUILTIN_MANIFESTS] *)
Record Builtin := {
  bi_name : string;
  bi_capabilities : list string;
  bi_permissions : list string;
  bi_network : list string;
  bi_execution : list string;
}.
Definition _BUILTIN_MANIFESTS : list Builtin := [
  {| bi_name := "cptr-direct-coding";
     bi_capabilities := ["code-read"; "code-search"; "code-edit"; "workspace-inspection"];
     bi_permissions := ["workspace:read"; "workspace:write"]; bi_network := [];
     bi_execution := ["cptr-direct-coding"] |};
  {| bi_name := "fdx-repository-intelligence";
     bi_capabilities := ["code-search"; "dependency-impact"; "impact-analysis"; "repo-analysis"];
     bi_permissions := ["workspace:read"]; bi_network := []; bi_execution := ["fdx"] |};
  {| bi_name := "lsp-language-intelligence";
     bi_capabilities := ["definition"; "references"; "symbols"; "language-analysis"];
     bi_permissions := ["workspace:read"; "process:execute"]; bi_network := []; bi_execution := ["lsp"] |};
  {| bi_name := "command-execution";
     bi_capabilities := ["command"; "test-execution"; "build-execution"];
     bi_permissions := ["process:execute"; "workspace:read"]; bi_network := [];
     bi_execution := ["command-service"] |};
  {| bi_name := "managed-browser";
     bi_capabilities := ["browser"; "live-runtime-verification"; "web-research"];
     bi_permissions := ["network:http"]; bi_network := ["external-http"];
     bi_execution := ["managed-browser"] |};
  {| bi_name := "git-operations";
     bi_capabilities := ["diff"; "git"; "revision-inspection"];
     bi_permissions := ["workspace:read"; "workspace:write"]; bi_network := [];
     bi_execution := ["git-service"] |}].

(** [_builtin_manifests], one of them *)
Definition builtin_manifest (b : Builtin) : CapabilityManifest :=
  let safe := JObj [("name", JStr (bi_name b)); ("capabilities", str_list (bi_capabilities b));
                    ("permissions", str_list (bi_permissions b));
                    ("network_requirements", str_list (bi_network b));
                    ("execution_requirements", str_list (bi_execution b))] in
  {| cm_stable_id := _stable_id "builtin" (bi_name b); cm_version := "builtin-v1";
     cm_origin_type := "builtin"; cm_origin_uri := "cptr:" +:+ bi_name b; cm_pinned := Some "builtin-v1";
     cm_digest := sha256_hex (dumps true true safe);
     cm_capabilities := merge_sort (fun s t => String.le s t) (bi_capabilities b);
     cm_permissions := merge_sort (fun s t => String.le s t) (bi_permissions b);
     cm_network := merge_sort (fun s t => String.le s t) (bi_network b);
     cm_execution := merge_sort (fun s t => String.le s t) (bi_execution b); cm_risk := "CPTR_BUILTIN";
     cm_trust := APPROVED; cm_verification := LOCAL; cm_metadata := [("provider", JStr "cptr")];
     cm_score := None; cm_created_at := None; cm_evaluated_at := None |}.
Definition _builtin_manifests : list CapabilityManifest := map builtin_manifest _BUILTIN_MANIFESTS.

(** [json.dumps(v, sort_keys=True)], with the default separators *)
Fixpoint dumps_spaced (v : json) : string :=
  match v with
  | JList l => "[" +:+ str_join ", " (map dumps_spaced l) +:+ "]"
  | JObj fields =>
      let items := map (fun '(k, x) => (k, quote true k +:+ ": " +:+ dumps_spaced x)) fields in
      "{" +:+ str_join ", " (map snd (merge_sort key_le items)) +:+ "}"
  | v => dumps true true v
  end.
Definition manifest_text (m : CapabilityManifest) : string := dumps_spaced (manifest_to_dict m).

(** one turn of the loop of [normalize_manifests] *)
Definition normalize_one (by_identity : list (string * CapabilityManifest)) (m : CapabilityManifest)
    : list (string * CapabilityManifest) :=
  match dict_get (identity_of m) by_identity with
  | None => dict_set (identity_of m) m by_identity
  | Some existing =>
      if negb (str_eqb (manifest_text existing) (manifest_text m)) then
        dict_set (identity_of m)
          (if String.ltb (manifest_text m) (manifest_text existing) then m else existing) by_identity
      else by_identity
  end.
(** [normalize_manifests] *)
Definition normalize_manifests (manifests : list CapabilityManifest) : list CapabilityManifest :=
  map snd (merge_sort key_le (fold_left normalize_one manifests [])).

(** [discover_local], for the skills with their digests and the configured servers *)
Fixpoint skill_manifests (skills : list (SkillMeta * string)) : result (list CapabilityManifest) :=
  match skills with
  | [] => Ok []
  | (skill, digest) :: skills =>
      let? m := _skill_manifest skill digest in let? rest := skill_manifests skills in Ok (m :: rest)
  end.
(** [server.get("type") in {"mcp", "mcp_stdio"}] *)
Definition is_mcp (server : dict) : result bool :=
  match get "type" server with
  | JStr s => Ok (is_in s ["mcp"; "mcp_stdio"])
  | JList _ | JObj _ => Err (TypeError "unhashable type")
  | _ => Ok false
  end.
Fixpoint mcp_manifests (servers : list json) : result (list CapabilityManifest) :=
  match servers with
  | [] => Ok []
  | JObj server :: servers =>
      let? mcp := is_mcp server in
      if mcp then let? m := _mcp_manifest server in let? rest := mcp_manifests servers in Ok (m :: rest)
      else mcp_manifests servers
  | _ :: servers => mcp_manifests servers
  end.
Definition discover_local (skills : list (SkillMeta * string)) (servers : list json)
    : result (list CapabilityManifest) :=
  let? skills := skill_manifests skills in
  let? servers := mcp_manifests servers in
  Ok (normalize_manifests (skills ++ servers ++ _builtin_manifests)).
End Inventory.

(** ** The phases that use them *)

Section Phases.
Context `{Env}.

(** [_eligible], for the permissions a policy allows *)
Record CapabilityRankingPolicy := {
  allowed_permissions : list string;
  network_allowed : bool;
}.
Definition subset_of (l k : list string) : bool := forallb (fun x => is_in x k) l.
Definition _eligible (candidate : CapabilityManifest) (policy : CapabilityRankingPolicy) : bool :=
  bool_decide (cm_trust candidate = APPROVED)
  && subset_of (cm_permissions candidate) (allowed_permissions policy)
  && (is_nil (cm_network candidate) || network_allowed policy).
(** [_fit_score(...) > 0]: the mean of non-negative scores is positive if one of them is *)
Definition fits (requirements : list CapabilityRequirement) (candidate : CapabilityManifest) : bool :=
  existsb (fun q => (is_nil (cm_network candidate) || rq_network_allowed q)
                    && subset_of (rq_permissions q) (cm_permissions candidate)
                    && existsb (fun x => is_in x (cm_capabilities candidate)) (rq_capabilities q))
    requirements.

(** the total score of a candidate without history, as an integer that orders like the
    rounded float *)
Context (total_score : list CapabilityRequirement -> CapabilityManifest -> Z).
(** the key [(-item.total_score, item.manifest.identity)] *)
Definition ranked_before (requirements : list CapabilityRequirement) (a b : CapabilityManifest) : bool :=
  let x := total_score requirements a in let y := total_score requirements b in
  (y <? x)%Z || ((x =? y)%Z && String.leb (identity_of a) (identity_of b)).
(** [rank_capabilities], for an empty history *)
Definition rank_capabilities (requirements : list CapabilityRequirement)
    (candidates : list CapabilityManifest) (policy : CapabilityRankingPolicy) : list CapabilityManifest :=
  if is_nil requirements then []
  else order_by (ranked_before requirements)
         (List.filter (fun m => _eligible m policy && fits requirements m) candidates).

(** *** What a run requires *)

Definition network_policy (policy : dict) : bool :=
  policy_flag "allow_network_research" false policy || policy_flag "allow_network_implementation" false policy.
Fixpoint all_Ok {A} (rs : list (result A)) : result (list A) :=
  match rs with
  | [] => Ok []
  | r :: rs => let? a := r in let? l := all_Ok rs in Ok (a :: l)
  end.
Definition run_requirements (policy : dict) : result (list CapabilityRequirement) :=
  all_Ok ([requirement "repository-read" ["code-search"] ["workspace:read"] false;
           requirement "machine-verification" ["test-execution"] ["process:execute"; "workspace:read"] false]
    ++ (if policy_flag "implementation_required" true policy
        then [requirement "isolated-mutation" ["code-edit"] ["workspace:write"] false] else [])
    ++ (if network_policy policy
        then [requirement "network-research" ["web-research"] ["network:http"] true] else [])).
(** an outcome that updates the cycle *)
Definition outcome_updates (next : FactoryState) (reason : string) (updates : dict) : result PhaseOutcome :=
  PhaseOutcome_post_init
    {| po_reason := reason; po_next_state := Some next; po_artifacts := []; po_gates := [];
       po_cycle_updates := updates; po_run_next_action := None; po_target_revision := None;
       po_target_fingerprint := None; po_failure := None; po_victory_decision := None |}.
(** [CapabilityAnalysisPhaseHandler.execute] *)
Definition capability_analysis_execute (c : PhaseContext) : result PhaseOutcome :=
  let? requirements := run_requirements (as_dict (run_policy (pc_run c))) in
  outcome_updates SKILL_DISCOVERY
    "capability requirements normalized from execution and verification policy"
    [("capability_requirements", JList (map _requirement_dict requirements))].

(** *** What is there *)

(** the outcome of [SkillDiscoveryPhaseHandler.execute], for the manifests found *)
Definition skill_discovery_outcome (manifests : list CapabilityManifest) : result PhaseOutcome :=
  let? artifact := machine_artifact "capability-inventory" "capability_inventory"
    "factory-capability-inventory" None None
    [("count", JInt (len_list manifests)); ("manifests", JList (map manifest_to_dict (take 50 manifests)))] in
  outcome_with (Some TRUST_EVALUATION) "bounded local capability inventory captured" [artifact] None None.

(** *** What is trusted *)

(** the payload of the last inventory of a phase's evidence *)
Definition last_inventory (c : PhaseContext) : option json :=
  evd_payload <$> List.find (fun e => str_eqb (evd_kind e) "capability_inventory") (rev (pc_evidence c)).
(** [payload.get("manifests") or []] of an inventory that is a dict *)
Definition inventory_items (inventory : option json) : result (list json) :=
  match inventory with
  | Some (JObj fields) => iter_or_empty (get "manifests" fields)
  | _ => Ok []
  end.
Definition approved_id (item : json) : list string :=
  match item with
  | JObj fields =>
      if says fields "trust_status" "APPROVED" then
        let sid := strip (str_or_empty (get "stable_id" fields)) in if empty_str sid then [] else [sid]
      else []
  | _ => []
  end.
(** [TrustEvaluationPhaseHandler.execute] *)
Definition trust_evaluation_execute (c : PhaseContext) : result PhaseOutcome :=
  let? items := inventory_items (last_inventory c) in
  match flat_map approved_id items with
  | [] => outcome_to BLOCKED "no approved local capability survived trust evaluation"
  | approved => outcome_updates SKILL_SELECTION "only approved local capabilities remain eligible"
                  [("selected_capabilities", str_list (take 50 (sorted_set approved)))]
  end.

(** *** What is selected *)

Definition selection_policy (policy : dict) : CapabilityRankingPolicy := {|
  allowed_permissions := ["workspace:read"; "process:execute"]
    ++ (if policy_flag "implementation_required" true policy then ["workspace:write"] else [])
    ++ (if network_policy policy then ["network:http"] else []);
  network_allowed := network_policy policy |}.
(** the manifest covers the requirement on its own *)
Definition covers (q : CapabilityRequirement) (m : CapabilityManifest) : bool :=
  subset_of (rq_permissions q) (cm_permissions m) && subset_of (rq_capabilities q) (cm_capabilities m)
  && (rq_network_allowed q || is_nil (cm_network m)).
(** the loop over the requirements: the manifests selected and the requirements none
    covers *)
Fixpoint select_manifests (ranked : list CapabilityManifest) (requirements : list CapabilityRequirement)
    (selected : list CapabilityManifest) (uncovered : list string)
    : list CapabilityManifest * list string :=
  match requirements with
  | [] => (selected, uncovered)
  | q :: requirements =>
      match List.find (covers q) ranked with
      | None => select_manifests ranked requirements selected (uncovered ++ [rq_id q])
      | Some m =>
          select_manifests ranked requirements
            (if forallb (fun x => negb (str_eqb (identity_of x) (identity_of m))) selected
             then selected ++ [m] else selected) uncovered
      end
  end.
(** the ids the trust evaluation left *)
Definition approved_ids (selected : json) : result (list string) :=
  let? items := iter_or_empty selected in
  Ok (flat_map (fun v => match v with
                         | JStr s => let t := strip s in if empty_str t then [] else [t]
                         | _ => []
                         end) items).
Definition invalid_data (e : exn) : bool :=
  match e with TypeError _ | ValueError _ => true | _ => false end.

(** the outcome for what was read back *)
Definition selection_outcome (c : PhaseContext) (requirements : list CapabilityRequirement)
    (manifests : list CapabilityManifest) : result PhaseOutcome :=
  if is_nil requirements then
    outcome_to BLOCKED "capability selection requires at least one normalized requirement"
  else
    let? approved := approved_ids (selected_capabilities (pc_cycle c)) in
    let candidates := List.filter (fun m => is_in (cm_stable_id m) approved) manifests in
    let ranked := rank_capabilities requirements candidates
      (selection_policy (as_dict (run_policy (pc_run c)))) in
    let '(selected, uncovered) := select_manifests ranked requirements [] [] in
    if negb (is_nil uncovered) then
      outcome_to BLOCKED (str_take 4000 ("trusted capability set cannot cover requirements: "
                                           +:+ str_join ", " uncovered))
    else
      outcome_updates REPRODUCING "minimal trusted capability set selected by deterministic ranking"
        [("selected_capabilities", str_list (take 50 (map identity_of selected)))].

(** [SkillSelectionPhaseHandler.execute] *)
Definition skill_selection_execute (exc_text : exn -> string) (c : PhaseContext) : result PhaseOutcome :=
  match last_inventory c with
  | Some (JObj fields) =>
      let read :=
        let? items := iter_or_empty (capability_requirements (pc_cycle c)) in
        let? requirements := all_Ok (map _requirement_from_payload items) in
        let? items := iter_or_empty (get "manifests" fields) in
        let? manifests := all_Ok (map _manifest_from_payload items) in
        Ok (requirements, manifests) in
      match read with
      | Err e => if invalid_data e then
                   outcome_to BLOCKED (str_take 4000 ("persisted capability data is invalid: " +:+ exc_text e))
                 else Err e
      | Ok (requirements, manifests) => selection_outcome c requirements manifests
      end
  | _ => outcome_to BLOCKED "capability selection requires the persisted local inventory"
  end.
End Phases.
