(* ===== verification/FactoryCapabilitiesSpec.v ===== *)
(** * Properties of the capability inventory and its selection

    What a manifest keeps when it is written down and read back, the normal form of an
    inventory, and what the selection of capabilities for a run guarantees. *)

From S2P Require Import Prelude PyStr Json Redaction FactoryDomain FactoryGates.
From S2P Require Import FactoryVictory Database CapabilityLifecycle FactoryStore FactoryHistory.
From S2P Require Import FactoryStoreFacts FactoryFrames FactorySafety FactoryStoreSpec FactoryStoreQueries.
From S2P Require Import FactoryFresh FactoryRuntime FactoryPhases FactoryGit FactoryWorkers FactoryCi.
From S2P Require Import FactoryLifecycle FactoryOrchestrator FactoryPolicy FactoryVerification.
From S2P Require Import FactoryCapabilities.

(** ** Selection *)

Section Selection.
Context `{Env} (total_score : list CapabilityRequirement -> CapabilityManifest -> Z).

Lemma subset_of_true l k : subset_of l k = true <-> l ⊆ k.
Proof. unfold subset_of. rewrite forallb_forall. setoid_rewrite is_in_true. setoid_rewrite <- list_elem_of_In. done. Qed.
Lemma all_Ok_elem {A} (rs : list (result A)) l : all_Ok rs = Ok l -> forall a, a ∈ l -> Ok a ∈ rs.
Proof.
  revert l. induction rs as [|r rs IH]; intros l; cbn; [by intros [= <-] ? ?%elem_of_nil|].
  intros (a & -> & (l' & Hl & [= <-])%rbind_Ok)%rbind_Ok x. rewrite elem_of_cons. rewrite elem_of_cons.
  intros [->|Hx]; [by left|right; by apply (IH l')].
Qed.

(** a requirement asks for something *)
Lemma requirement_create_some rid capabilities permissions network q :
  requirement_create rid capabilities permissions network = Ok q -> rq_capabilities q <> [].
Proof.
  unfold requirement_create. case_match; [done|]. intros (cs & _ & Hq)%rbind_Ok.
  destruct cs; [done|]. cbn in Hq. apply rbind_Ok in Hq as (ps & _ & [= <-]). done.
Qed.
Lemma requirement_from_payload_some item q :
  _requirement_from_payload item = Ok q -> rq_capabilities q <> [].
Proof.
  destruct item; try done. cbn. intros (cs & _ & (ps & _ & Hq)%rbind_Ok)%rbind_Ok.
  by eapply requirement_create_some.
Qed.

(** what covers a requirement fits it *)
Lemma covers_fits q m requirements :
  q ∈ requirements -> rq_capabilities q <> [] -> covers q m = true -> fits requirements m = true.
Proof.
  unfold covers, fits. intros Hq Hc [[Hp Hs]%andb_true_iff Hn]%andb_true_iff.
  apply existsb_exists. exists q. split; [by apply list_elem_of_In|]. rewrite Hp, (orb_comm _ (rq_network_allowed q)), Hn.
  cbn. destruct (rq_capabilities q) as [|x xs] eqn:E; [done|]. apply existsb_exists. exists x. split; [by left|].
  apply is_in_true. apply subset_of_true in Hs. apply Hs. by left.
Qed.
Lemma elem_of_ranked requirements candidates policy m :
  m ∈ rank_capabilities total_score requirements candidates policy <->
  requirements <> [] /\ m ∈ candidates /\ _eligible m policy = true /\ fits requirements m = true.
Proof.
  unfold rank_capabilities. destruct requirements as [|q qs]; cbn [is_nil].
  { split; [by intros ?%elem_of_nil|by intros []]. }
  rewrite order_by_in, (elem_of_select (fun m => _eligible m policy && fits (q :: qs) m)), andb_true_iff. naive_solver.
Qed.

(** one manifest more, if its identity is new *)
Lemma keep_once (ranked selected : list CapabilityManifest) m :
  NoDup (map identity_of selected) -> (forall m', m' ∈ selected -> m' ∈ ranked) -> m ∈ ranked ->
  exists selected1, (if forallb (fun x => negb (str_eqb (identity_of x) (identity_of m))) selected
      then selected ++ [m] else selected) = selected1 /\
    NoDup (map identity_of selected1) /\ (forall m', m' ∈ selected1 -> m' ∈ ranked) /\
    (length selected1 <= S (length selected))%nat /\
    (forall m', m' ∈ selected -> m' ∈ selected1) /\ identity_of m ∈ map identity_of selected1.
Proof.
  intros Hnd Hin Hm. eexists. split; [done|]. destruct (forallb _ _) eqn:E.
  - rewrite forallb_forall in E. rewrite map_app, length_app.
    split_and!; cbn; [|set_solver|lia|set_solver|set_solver].
    apply NoDup_app. split_and!; [done| |by repeat constructor; intros ?%elem_of_nil].
    intros x (y & -> & Hy)%list_elem_of_fmap. intros Hx%list_elem_of_singleton.
    specialize (E y). rewrite Hx, str_eqb_refl in E. by apply list_elem_of_In, E in Hy.
  - split_and!; try done; [lia|].
    destruct (decide (identity_of m ∈ map identity_of selected)) as [|Hno]; [done|].
    assert (forallb (fun x => negb (str_eqb (identity_of x) (identity_of m))) selected = true); [|congruence].
    apply forallb_forall. intros x Hx%list_elem_of_In. apply negb_true_iff, str_eqb_false. intros Heq.
    apply Hno. rewrite <- Heq. by apply list_elem_of_fmap_2.
Qed.
(** what the loop over the requirements selects *)
Lemma select_manifests_spec ranked requirements selected uncovered selected' uncovered' :
  select_manifests ranked requirements selected uncovered = (selected', uncovered') ->
  NoDup (map identity_of selected) -> (forall m, m ∈ selected -> m ∈ ranked) ->
  NoDup (map identity_of selected') /\ (forall m, m ∈ selected' -> m ∈ ranked) /\
  (length selected' <= length selected + length requirements)%nat /\
  (forall m, m ∈ selected -> m ∈ selected') /\
  (uncovered' = [] <-> uncovered = [] /\
     forall q, q ∈ requirements -> exists m, m ∈ ranked /\ covers q m = true) /\
  (uncovered' = [] -> forall q, q ∈ requirements -> exists m, m ∈ ranked /\ covers q m = true /\
     identity_of m ∈ map identity_of selected').
Proof.
  revert selected uncovered. induction requirements as [|q requirements IH]; intros selected uncovered; cbn.
  { intros [= <- <-] Hnd Hin. split_and!; try done; [lia| |by intros ? ? ?%elem_of_nil].
    split; [|tauto]. intros ->. split; [done|]. by intros ? ?%elem_of_nil. }
  destruct (List.find (covers q) ranked) as [m|] eqn:Ef; intros Hs Hnd Hin.
  - apply find_some in Ef as [Hm%list_elem_of_In Hc].
    destruct (keep_once ranked selected m Hnd Hin Hm) as (selected1 & E & Hnd1 & Hin1 & Hl1 & Hk1 & Hid1).
    rewrite E in Hs. destruct (IH _ _ Hs Hnd1 Hin1) as (? & ? & ? & Hk & Hiff & Hcov). split_and!; try done.
    + lia.
    + auto.
    + rewrite Hiff. split; intros [-> Ha]; (split; [done|]); [|set_solver].
      intros q' [->|Hq']%elem_of_cons; eauto.
    + intros Hu q' [->|Hq']%elem_of_cons; [|by apply Hcov]. exists m. split_and!; [done|done|].
      apply list_elem_of_fmap in Hid1 as (y & -> & Hy). by apply list_elem_of_fmap_2, Hk.
  - destruct (IH _ _ Hs Hnd Hin) as (? & ? & ? & Hk & Hiff & Hcov). split_and!; try done; [lia| |].
    + rewrite Hiff. split; [intros [Hu _]; by destruct uncovered|]. intros [_ Ha].
      destruct (Ha q) as (m & Hm & Hc); [by left|]. exfalso.
      apply list_elem_of_In in Hm. pose proof (find_none _ _ Ef m Hm) as Hf. cbn in Hf. congruence.
    + intros Hu. apply Hiff in Hu as [Hu _]. by destruct uncovered.
Qed.

(** what the selection reads: the requirements of the cycle, the manifests of the last
    inventory, and the ids the trust evaluation left *)
Record selection_data (c : PhaseContext) (requirements : list CapabilityRequirement)
    (manifests : list CapabilityManifest) (approved : list string) : Prop := {
  sd_requirements : exists items, iter_or_empty (capability_requirements (pc_cycle c)) = Ok items /\
    all_Ok (map _requirement_from_payload items) = Ok requirements;
  sd_manifests : exists fields items, last_inventory c = Some (JObj fields) /\
    iter_or_empty (get "manifests" fields) = Ok items /\
    all_Ok (map _manifest_from_payload items) = Ok manifests;
  sd_approved : approved_ids (selected_capabilities (pc_cycle c)) = Ok approved;
}.
(** a manifest the run may use: of the inventory, left by the trust evaluation, APPROVED
    and within what the policy allows *)
Definition usable (c : PhaseContext) (manifests : list CapabilityManifest) (approved : list string)
    (m : CapabilityManifest) : Prop :=
  m ∈ manifests /\ cm_stable_id m ∈ approved /\
  _eligible m (selection_policy (as_dict (run_policy (pc_run c)))) = true.

Lemma outcome_updates_Ok next reason updates o :
  outcome_updates next reason updates = Ok o -> po_next_state o = Some next /\ po_cycle_updates o = updates.
Proof. unfold outcome_updates. by intros ->%outcome_post_init_Ok. Qed.
Lemma outcome_to_next next reason o : outcome_to next reason = Ok o -> po_next_state o = Some next.
Proof. by intros ->%outcome_to_Ok. Qed.
Lemma elem_of_usable c requirements manifests approved m :
  m ∈ rank_capabilities total_score requirements (List.filter (fun m => is_in (cm_stable_id m) approved) manifests)
        (selection_policy (as_dict (run_policy (pc_run c)))) <->
  requirements <> [] /\ usable c manifests approved m /\ fits requirements m = true.
Proof.
  rewrite elem_of_ranked, (elem_of_select (fun m => is_in (cm_stable_id m) approved)), is_in_true.
  unfold usable. tauto.
Qed.

(** the ids chosen for the requirements *)
Definition chosen (c : PhaseContext) (requirements : list CapabilityRequirement)
    (manifests : list CapabilityManifest) (approved ids : list string) : Prop :=
  NoDup ids /\ (length ids <= length requirements)%nat /\
  (forall i, i ∈ ids -> exists m, usable c manifests approved m /\ identity_of m = i) /\
  ((length requirements <= 50)%nat -> forall q, q ∈ requirements ->
     exists m, usable c manifests approved m /\ covers q m = true /\ identity_of m ∈ ids).
Lemma selection_outcome_spec c requirements manifests o :
  (forall q, q ∈ requirements -> rq_capabilities q <> []) -> requirements <> [] ->
  selection_outcome total_score c requirements manifests = Ok o ->
  exists approved, approved_ids (selected_capabilities (pc_cycle c)) = Ok approved /\
    let coverable := forall q, q ∈ requirements ->
      exists m, usable c manifests approved m /\ covers q m = true in
    (po_next_state o = Some BLOCKED /\ ~ coverable) \/
    (po_next_state o = Some REPRODUCING /\ coverable /\ exists ids,
       po_cycle_updates o = [("selected_capabilities", str_list ids)] /\
       chosen c requirements manifests approved ids).
Proof.
  intros Hsome Hne. unfold selection_outcome. destruct (is_nil requirements) eqn:En; [by destruct requirements|].
  intros (approved & Ha & Ho)%rbind_Ok. exists approved. split; [done|]. cbv zeta in *.
  destruct (select_manifests _ requirements [] []) as [selected uncovered] eqn:Es.
  destruct (select_manifests_spec _ _ _ _ _ _ Es) as (Hnd & Hin & Hlen & _ & Hiff & Hcov);
    [constructor|by intros ? ?%elem_of_nil|].
  assert (Hcov' : uncovered = [] <-> forall q, q ∈ requirements ->
      exists m, usable c manifests approved m /\ covers q m = true).
  { rewrite Hiff. split.
    - intros [_ Hc] q Hq. destruct (Hc q Hq) as (m & Hm & ?). exists m. by apply elem_of_usable in Hm as (_ & ? & _).
    - intros Hc. split; [done|]. intros q Hq. destruct (Hc q Hq) as (m & Hm & Hcq). exists m. split; [|done].
      apply elem_of_usable. split_and!; [done|done|]. by apply (covers_fits q); [|apply Hsome|]. }
  destruct uncovered as [|u us]; cbn [is_nil negb] in Ho; [right|left].
  - apply outcome_updates_Ok in Ho as [Hn Hu]. split_and!; [done|by apply Hcov'|].
    eexists. split; [exact Hu|]. split_and!.
    + eapply sublist_NoDup; [exact Hnd|]. apply sublist_take.
    + rewrite length_take, length_map. cbn in Hlen. lia.
    + intros i Hi%(sublist_subseteq _ _ (sublist_take _ _)). apply list_elem_of_fmap in Hi as (m & -> & Hm).
      exists m. by apply Hin, elem_of_usable in Hm as (_ & ? & _).
    + intros H50 q Hq. rewrite take_ge by (rewrite length_map; cbn in Hlen; lia).
      destruct (Hcov eq_refl q Hq) as (m & Hm & ? & ?). exists m. by apply elem_of_usable in Hm as (_ & ? & _).
  - pose proof (outcome_to_next _ _ _ Ho) as Hn. split; [done|]. intros Hc. by apply Hcov' in Hc.
Qed.

Lemma skill_selection_Ok exc_text c o :
  skill_selection_execute total_score exc_text c = Ok o ->
  (exists requirements manifests, selection_outcome total_score c requirements manifests = Ok o /\
     (forall approved, approved_ids (selected_capabilities (pc_cycle c)) = Ok approved ->
        selection_data c requirements manifests approved) /\
     forall q, q ∈ requirements -> rq_capabilities q <> []) \/
  (po_next_state o = Some BLOCKED /\
     forall requirements manifests approved, ~ selection_data c requirements manifests approved).
Proof.
  unfold skill_selection_execute.
  destruct (last_inventory c) as [[| | | | | |fields]|] eqn:El;
    try (intros Hn%outcome_to_next; right; split; [done|]; intros ? ? ? [_ (? & ? & ? & _) _]; congruence).
  destruct (rbind _ _) as [[requirements manifests]|e] eqn:Er; intros Ho.
  - left. apply rbind_Ok in Er as (items & Hi & (rs & Hr & (rows & Hw & (ms & Hm & [= -> ->])%rbind_Ok)%rbind_Ok)%rbind_Ok).
    exists requirements, manifests. split_and!; [done| |].
    + intros approved Ha. split; [by exists items|by exists fields, rows|done].
    + intros q Hq. apply (all_Ok_elem _ _ Hr) in Hq as (item & Hitem & _)%list_elem_of_fmap.
      by eapply requirement_from_payload_some.
  - right. destruct (invalid_data e); [|done]. pose proof (outcome_to_next _ _ _ Ho) as Hn. split; [done|].
    intros rs ms approved [(items & Hi & Hr) (fields' & rows & El' & Hw & Hm) _].
    rewrite El in El'. injection El' as <-. rewrite Hi in Er. cbn in Er. rewrite Hr in Er. cbn in Er.
    rewrite Hw in Er. cbn in Er. by rewrite Hm in Er.
Qed.
Lemma selection_data_fun c r r' m m' a a' :
  selection_data c r m a -> selection_data c r' m' a' -> r = r' /\ m = m' /\ a = a'.
Proof. intros [(? & ? & ?) (? & ? & ? & ? & ?) ?] [(? & ? & ?) (? & ? & ? & ? & ?) ?]. naive_solver congruence. Qed.

Lemma selection_moves exc_text c o requirements manifests approved :
  skill_selection_execute total_score exc_text c = Ok o -> selection_data c requirements manifests approved ->
  po_next_state o = Some REPRODUCING <->
  requirements <> [] /\ forall q, q ∈ requirements ->
    exists m, usable c manifests approved m /\ covers q m = true.
Proof.
  intros [(rs & ms & Ho & Hd & Hsome)|[_ Hno]]%skill_selection_Ok Hd'; [|by apply Hno in Hd'].
  destruct (selection_data_fun _ _ _ _ _ _ _ Hd' (Hd _ (sd_approved _ _ _ _ Hd'))) as (-> & -> & _).
  destruct (decide (is_nil rs)) as [Hnil|Hne].
  { unfold selection_outcome in Ho. destruct rs; [|done]. pose proof (outcome_to_next _ _ _ Ho) as Hn.
    rewrite Hn. split; [done|]. by intros [Hne _]. }
  destruct (selection_outcome_spec c rs ms o Hsome) as (approved' & Ha & Hcase); [by intros ->|done|].
  rewrite (sd_approved _ _ _ _ Hd') in Ha. injection Ha as <-. cbv zeta in Hcase.
  destruct Hcase as [[-> Hc]|(-> & Hc & _)]; [split; [done|tauto]|]. split; [|done]. intros _. split; [by intros ->|done].
Qed.

(** The selected capabilities are a trusted cover: the phase moves on exactly when
    every requirement is met by one manifest that is usable (of the last inventory, left
    by the trust evaluation, APPROVED and within the permissions and the network of the
    policy), and then what it selects are identities of usable manifests, without
    repetition, not more than there are requirements and (for up to 50) one that meets
    each requirement on its own; otherwise the run is BLOCKED. *)
Theorem selection_is_trusted_cover exc_text c o :
  skill_selection_execute total_score exc_text c = Ok o ->
  (po_next_state o = Some REPRODUCING \/ po_next_state o = Some BLOCKED) /\
  (forall requirements manifests approved, selection_data c requirements manifests approved ->
     po_next_state o = Some REPRODUCING <->
     requirements <> [] /\ forall q, q ∈ requirements ->
       exists m, usable c manifests approved m /\ covers q m = true) /\
  (po_next_state o = Some REPRODUCING -> exists requirements manifests approved ids,
     selection_data c requirements manifests approved /\
     po_cycle_updates o = [("selected_capabilities", str_list ids)] /\
     chosen c requirements manifests approved ids).
Proof.
  intros Ho. split; [|split; [intros; by eapply selection_moves|]].
  all: destruct (skill_selection_Ok _ _ _ Ho) as [(requirements & manifests & Hs & Hd & Hsome)|[Hn Hno]];
    [|rewrite Hn; by try right].
  all: destruct (decide (is_nil requirements)) as [Hnil|Hne];
    [unfold selection_outcome in Hs; destruct requirements; [|done]; rewrite (outcome_to_next _ _ _ Hs); by try right|].
  all: destruct (selection_outcome_spec c requirements manifests o Hsome) as (approved & Ha & Hcase);
    [by intros ->|done|]; cbv zeta in Hcase.
  all: destruct Hcase as [[-> Hc]|(-> & Hc & ids & Hu & Hids)]; try by auto.
  intros _. exists requirements, manifests, approved, ids. auto.
Qed.
End Selection.

(** ** What the server brings along *)

Section Builtins.
Context `{Env} (total_score : list CapabilityRequirement -> CapabilityManifest -> Z).

(** the requirements of a run read back as they were written, and a builtin covers each
    within the policy *)
Lemma builtins_cover policy :
  exists requirements, run_requirements policy = Ok requirements /\ requirements <> [] /\
    all_Ok (map _requirement_from_payload (map _requirement_dict requirements)) = Ok requirements /\
    forall q, q ∈ requirements -> exists m, m ∈ _builtin_manifests /\
      _eligible m (selection_policy policy) = true /\ covers q m = true.
Proof.
  assert (forall q p, (exists m, m ∈ _builtin_manifests /\ _eligible m p = true /\ covers q m = true) <->
    existsb (fun m => _eligible m p && covers q m) _builtin_manifests = true) as Hex.
  { intros q p. rewrite existsb_exists. split; intros (m & Hm & Hx); exists m; (split; [by apply list_elem_of_In|]); by apply andb_true_iff. }
  unfold run_requirements, selection_policy.
  destruct (policy_flag "implementation_required" true policy), (network_policy policy);
    eexists; (split; [vm_compute; reflexivity|]; split; [discriminate|]; split; [vm_compute; reflexivity|]);
    intros q Hq; apply Hex; revert q Hq; apply Forall_forall;
    repeat (apply Forall_cons; split; [vm_compute; reflexivity|]); apply Forall_nil; exact Logic.I.
Qed.

(** The builtins suffice: what the capability analysis of a policy requires is read
    back by the selection as it was written, and the selection moves on as soon as the
    inventory holds the builtin manifests and the trust evaluation left their ids. *)
Theorem builtins_suffice exc_text c o requirements manifests approved :
  run_requirements (as_dict (run_policy (pc_run c))) = Ok requirements ->
  capability_requirements (pc_cycle c) = JList (map _requirement_dict requirements) ->
  (exists fields items, last_inventory c = Some (JObj fields) /\
     iter_or_empty (get "manifests" fields) = Ok items /\
     all_Ok (map _manifest_from_payload items) = Ok manifests) ->
  approved_ids (selected_capabilities (pc_cycle c)) = Ok approved ->
  (forall m, m ∈ _builtin_manifests -> m ∈ manifests /\ cm_stable_id m ∈ approved) ->
  skill_selection_execute total_score exc_text c = Ok o ->
  po_next_state o = Some REPRODUCING.
Proof.
  intros Hr Hc Hm Ha Hb Ho. destruct (builtins_cover (as_dict (run_policy (pc_run c)))) as (rs & Hr' & Hne & Hrt & Hcov).
  rewrite Hr in Hr'. injection Hr' as <-.
  assert (Hd : selection_data c requirements manifests approved).
  { split; [|done|done]. exists (map _requirement_dict requirements). split; [|done]. rewrite Hc.
    unfold iter_or_empty. by destruct requirements. }
  apply (selection_moves total_score exc_text c o requirements manifests approved Ho Hd). split; [done|].
  intros q Hq. destruct (Hcov q Hq) as (m & Hbm & He & Hcq). destruct (Hb m Hbm). by exists m.
Qed.
End Builtins.

(** ** What is written down and read back *)

Section Manifests.
Context `{Env}.

Lemma trust_of_value_value t : trust_of_value (trust_value t) = Ok t.
Proof. by destruct t. Qed.
Lemma verification_of_value_value v : verification_of_value (verification_value v) = Ok v.
Proof. by destruct v. Qed.
Lemma texts_of_list l : texts_of (str_list l) = Ok l.
Proof.
  unfold texts_of, iter_or_empty, str_list. destruct l as [|s l]; [done|]. cbn [truthy map is_nil negb].
  cbn. f_equal. f_equal. induction l as [|x l IH]; [done|]. cbn. by rewrite IH.
Qed.

(** keeping what passes a test, mapped by a function, is idempotent when the function is
    and passes the test on *)
Section Sealing.
Context {A : Type} (keep : A -> option A).
Definition seal_list (n : nat) (l : list A) : list A := omap id (take n (map keep l)).
Lemma seal_list_idemp n l :
  Forall (fun x => forall y, keep x = Some y -> keep y = Some y) l -> seal_list n (seal_list n l) = seal_list n l.
Proof.
  intros Hf. enough ((length (seal_list n l) <= n)%nat /\ omap id (map keep (seal_list n l)) = seal_list n l) as [Hl Hk].
  { unfold seal_list at 1. by rewrite take_ge by (rewrite length_map; lia). }
  unfold seal_list. revert n. induction Hf as [|x l Hx Hf IH]; intros [|n]; cbn; try (split; [lia|done]).
  destruct (IH n) as [Hl Hk]. destruct (keep x) as [y|] eqn:Ey; cbn; [|split; [lia|exact Hk]].
  rewrite (Hx y eq_refl). cbn. split; [lia|]. f_equal. exact Hk.
Qed.
Lemma seal_list_ge n m l : (length l <= n)%nat -> (length l <= m)%nat -> seal_list n l = seal_list m l.
Proof. intros. unfold seal_list. by rewrite !take_ge by (rewrite length_map; lia). Qed.
Lemma seal_list_length n l : (length (seal_list n l) <= length l)%nat.
Proof.
  unfold seal_list. revert n. induction l as [|x l IH]; intros [|n]; cbn; try lia.
  destruct (keep x); cbn; specialize (IH n); lia.
Qed.
End Sealing.
Definition seal_field : string * json -> option (string * json) :=
  fun '(key, item) => if blocked_key key then None else Some (key, safe_value item).
Definition seal_item (item : json) : option json := if is_nested_list item then None else Some (safe_value item).
Lemma safe_value_list l : safe_value (JList l) = JList (seal_list seal_item 100 l).
Proof. done. Qed.
Lemma safe_value_dict d : safe_value (JObj d) = JObj (seal_list seal_field (length d) d).
Proof. unfold seal_list. by rewrite take_ge by by rewrite length_map. Qed.
(** what is shown of metadata shows itself *)
Lemma safe_value_idemp v : safe_value (safe_value v) = safe_value v.
Proof.
  induction v as [| | | | |l Hf|d Hf] using json_ind'; try done.
  - rewrite safe_value_list, safe_value_list. f_equal. apply seal_list_idemp.
    eapply Forall_impl; [exact Hf|]. unfold seal_item. intros v Hv y.
    destruct (is_nested_list v) eqn:En; [done|]. intros [= <-].
    assert (is_nested_list (safe_value v) = false) as -> by by destruct v. by rewrite Hv.
  - rewrite safe_value_dict, safe_value_dict. f_equal.
    rewrite (seal_list_ge _ _ (length d)) by (done || apply seal_list_length). apply seal_list_idemp.
    eapply Forall_impl; [exact Hf|]. unfold seal_field. intros [k v] Hv [k' v'].
    destruct (blocked_key k) eqn:Ek; [done|]. intros [= <- <-]. cbn [snd] in Hv. by rewrite Ek, Hv.
Qed.
Lemma safe_metadata_idemp d : _safe_metadata (_safe_metadata d) = _safe_metadata d.
Proof.
  pose proof (safe_value_idemp (JObj d)) as Hs. unfold _safe_metadata. rewrite (safe_value_dict d) in *.
  by rewrite Hs.
Qed.

(** a manifest as it is shown *)
Definition shown (m : CapabilityManifest) : CapabilityManifest := {|
    cm_stable_id := cm_stable_id m; cm_version := cm_version m; cm_origin_type := cm_origin_type m;
    cm_origin_uri := cm_origin_uri m; cm_pinned := cm_pinned m; cm_digest := cm_digest m;
    cm_capabilities := cm_capabilities m; cm_permissions := cm_permissions m; cm_network := cm_network m;
    cm_execution := cm_execution m; cm_risk := cm_risk m; cm_trust := cm_trust m;
    cm_verification := cm_verification m; cm_metadata := _safe_metadata (cm_metadata m);
    cm_score := cm_score m; cm_created_at := cm_created_at m; cm_evaluated_at := cm_evaluated_at m |}.
Lemma manifest_to_dict_shown m : manifest_to_dict (shown m) = manifest_to_dict m.
Proof.
  unfold manifest_to_dict, shown.
  cbn [cm_stable_id cm_version cm_origin_type cm_origin_uri cm_pinned cm_digest cm_capabilities cm_permissions
    cm_network cm_execution cm_risk cm_trust cm_verification cm_metadata cm_score cm_created_at cm_evaluated_at].
  by rewrite safe_metadata_idemp.
Qed.

(** A manifest survives the evidence log: what the discovery phase records of a
    manifest is read back by the selection as the same manifest, but for the metadata,
    which are the ones shown; they are shown the same again, so that a second trip
    changes nothing. *)
Theorem manifest_roundtrip m :
  exists m', _manifest_from_payload (manifest_to_dict m) = Ok m' /\
    cm_metadata m' = _safe_metadata (cm_metadata m) /\ identity_of m' = identity_of m /\
    (forall q, covers q m' = covers q m) /\ (forall p, _eligible m' p = _eligible m p) /\
    manifest_to_dict m' = manifest_to_dict m /\ manifest_text m' = manifest_text m.
Proof.
  assert (_manifest_from_payload (manifest_to_dict m) = Ok (shown m)) as ->.
  { unfold _manifest_from_payload, manifest_to_dict. cbv beta zeta.
    set (f := [_; _; _; _; _; _; _; _; _; _; _; _; _; _; _; _; _]).
    assert (forall key v, get key f = JStr v -> str_or_empty (get key f) = v) as Htext
      by (intros key v ->; apply str_or_empty_str).
    rewrite (Htext "stable_id" _ eq_refl), (Htext "version" _ eq_refl), (Htext "origin_type" _ eq_refl),
      (Htext "origin_uri" _ eq_refl), (Htext "digest" _ eq_refl), (Htext "risk_classification" _ eq_refl).
    assert (forall key l, get key f = str_list l -> texts_of (get key f) = Ok l) as Hlist
      by (intros key l ->; apply texts_of_list).
    rewrite (Hlist "capabilities" _ eq_refl), (Hlist "permissions" _ eq_refl),
      (Hlist "network_requirements" _ eq_refl), (Hlist "execution_requirements" _ eq_refl). cbn [rbind].
    assert (policy_text "trust_status" "DISCOVERED" f = trust_value (cm_trust m)) as -> by by destruct (cm_trust m).
    assert (policy_text "verification_status" "UNVERIFIED" f = verification_value (cm_verification m)) as ->
      by by destruct (cm_verification m).
    rewrite trust_of_value_value, verification_of_value_value. cbn [rbind].
    assert (score_of (get "historical_factory_score" f) = Ok (cm_score m)) as ->
      by (change (get "historical_factory_score" f) with (opt_float (cm_score m)); by destruct (cm_score m)).
    assert (opt_py_int (get "created_at" f) = Ok (cm_created_at m)) as ->
      by (change (get "created_at" f) with (opt_int (cm_created_at m)); by destruct (cm_created_at m)).
    assert (opt_py_int (get "evaluated_at" f) = Ok (cm_evaluated_at m)) as ->
      by (change (get "evaluated_at" f) with (opt_int (cm_evaluated_at m)); by destruct (cm_evaluated_at m)).
    cbn [rbind]. change (get "pinned_version_or_commit" f) with (opt_str (cm_pinned m)).
    change (get "maintenance_metadata" f) with (JObj (_safe_metadata (cm_metadata m))).
    destruct (cm_pinned m) eqn:Ep; unfold shown; rewrite Ep; reflexivity. }
  exists (shown m). unfold manifest_text. rewrite manifest_to_dict_shown. by split_and!.
Qed.
End Manifests.

(** ** The normal form of an inventory *)

Section Normal.
Context `{Env}.

(** a table of manifests is the best of a list: one manifest of the list per identity,
    the first in the order of the texts *)
Record best_of (l : list CapabilityManifest) (d : list (string * CapabilityManifest)) : Prop := {
  bo_keys : NoDup d.*1;
  bo_of i m : (i, m) ∈ d -> identity_of m = i /\ m ∈ l;
  bo_best m : m ∈ l -> exists m', (identity_of m, m') ∈ d /\ String.le (manifest_text m') (manifest_text m);
}.

Lemma dict_get_elem {A} key (v : A) d : dict_get key d = Some v -> (key, v) ∈ d.
Proof.
  induction d as [|[k w] d IH]; [done|]. cbn. case_decide; [intros [= ->]; subst; by left|].
  intros. right. auto.
Qed.
Lemma dict_get_none {A} key (d : list (string * A)) : dict_get key d = None -> key ∉ d.*1.
Proof.
  induction d as [|[k w] d IH]; cbn; [by intros _ ?%elem_of_nil|]. case_decide; [done|].
  intros ?. rewrite elem_of_cons. naive_solver.
Qed.
Lemma dict_set_same {A} key (v : A) d : (key, v) ∈ dict_set key v d.
Proof. induction d as [|[k w] d IH]; cbn; [by left|]. case_decide; [subst; by left|by right]. Qed.
Lemma dict_set_other {A} key (v : A) d k w : k <> key -> (k, w) ∈ d -> (k, w) ∈ dict_set key v d.
Proof.
  intros Hk. induction d as [|[k' w'] d IH]; cbn; [by intros ?%elem_of_nil|].
  case_decide as E; rewrite !elem_of_cons; [subst; intros [[= -> ->]|?]; [done|by right]|].
  intros [?|?]; [by left|right; auto].
Qed.
Lemma pair_unique {A} (d : list (string * A)) k v w : NoDup d.*1 -> (k, v) ∈ d -> (k, w) ∈ d -> v = w.
Proof.
  induction d as [|[k' x] d IH]; cbn; [by intros _ ?%elem_of_nil|]. intros [Hn Hd]%NoDup_cons.
  rewrite !elem_of_cons. intros [[= -> ->]|Hv] [[= ->]|Hw]; auto.
  - subst. destruct Hn. by apply (list_elem_of_fmap_2 fst) in Hw.
  - destruct Hn. by apply (list_elem_of_fmap_2 fst) in Hv.
Qed.

(** the better of two manifests of one identity *)
Lemma ltb_le s t : String.ltb s t = true -> String.le s t.
Proof. unfold String.ltb, String.le, String.leb. by destruct (String.compare s t). Qed.
Lemma ltb_false s t : String.ltb s t = false -> String.le t s.
Proof.
  unfold String.ltb, String.le, String.leb. rewrite (String.compare_antisym t s).
  by destruct (String.compare s t).
Qed.
Lemma normalize_one_best l d m : best_of l d -> best_of (l ++ [m]) (normalize_one d m).
Proof.
  intros [Hk Hof Hb]. unfold normalize_one.
  destruct (dict_get (identity_of m) d) as [x|] eqn:Ex.
  - pose proof (dict_get_elem _ _ _ Ex) as Hx. destruct (Hof _ _ Hx) as [Hix Hxl].
    destruct (negb _) eqn:En.
    2: { apply negb_false_iff, str_eqb_true in En. split; [done| |].
         - intros i y [Hi Hy]%Hof. split; [done|]. apply elem_of_app. by left.
         - intros y [Hy|Hy%list_elem_of_singleton]%elem_of_app; [auto|]. subst. exists x. by rewrite En. }
    set (w := if String.ltb _ _ then m else x).
    assert (identity_of w = identity_of m /\ (w = x \/ w = m) /\ String.le (manifest_text w) (manifest_text m) /\
      String.le (manifest_text w) (manifest_text x)) as (Hiw & Hww & Hwm & Hwx).
    { unfold w. destruct (String.ltb _ _) eqn:El.
      - apply ltb_le in El. exact (conj eq_refl (conj (or_intror eq_refl) (conj (reflexivity _) El))).
      - apply ltb_false in El. exact (conj Hix (conj (or_introl eq_refl) (conj El (reflexivity _)))). }
    split; [by apply dict_set_NoDup| |].
    + intros i y [[Hi Hy]%Hof|[= -> ->]]%dict_set_elem; rewrite elem_of_app, list_elem_of_singleton; [split; [exact Hi|left; exact Hy]|].
      split; [done|]. by destruct Hww as [->| ->]; [left|right].
    + intros y [Hy|Hy%list_elem_of_singleton]%elem_of_app.
      * destruct (Hb y Hy) as (y' & Hy' & Hle). destruct (decide (identity_of y = identity_of m)) as [E|E].
        { rewrite E in *. rewrite (pair_unique _ _ _ _ Hk Hy' Hx) in Hle. exists w. split; [apply dict_set_same|].
          exact (transitivity Hwx Hle). }
        exists y'. split; [by apply dict_set_other|done].
      * subst. exists w. split; [apply dict_set_same|done].
  - pose proof (dict_get_none _ _ Ex) as Hx. split; [by apply dict_set_NoDup| |].
    + intros i y [[Hi Hy]%Hof|[= -> ->]]%dict_set_elem; rewrite elem_of_app, list_elem_of_singleton;
        [split; [exact Hi|left; exact Hy]|split; [reflexivity|right; reflexivity]].
    + intros y [Hy|Hy%list_elem_of_singleton]%elem_of_app.
      * destruct (Hb y Hy) as (y' & Hy' & Hle). exists y'. split; [|done]. apply dict_set_other; [|done].
        intros E. apply Hx. rewrite <- E. by apply (list_elem_of_fmap_2 fst) in Hy'.
      * subst. exists m. by split; [apply dict_set_same|].
Qed.
Lemma normalize_best l : best_of l (fold_left normalize_one l []).
Proof.
  induction l as [|m l IH] using rev_ind; [|rewrite fold_left_app; by apply normalize_one_best].
  split; [constructor|by intros ? ? ?%elem_of_nil|by intros ? ?%elem_of_nil].
Qed.
#[export] Instance key_le_trans {A} : Transitive (@key_le A).
Proof. intros x y z Hx Hy. unfold key_le in *. by etrans. Qed.
#[export] Instance key_le_total {A} : Total (@key_le A).
Proof. intros x y. unfold key_le. apply (total String.le). Qed.

(** the identities and texts of a table depend on the manifests only *)
Lemma best_texts l l' d d' i t :
  best_of l d -> best_of l' d' -> l ≡ₚ l' ->
  (exists m, (i, m) ∈ d /\ manifest_text m = t) -> exists m, (i, m) ∈ d' /\ manifest_text m = t.
Proof.
  intros Hd Hd' Hp (m & Hm & Ht). destruct (bo_of _ _ Hd _ _ Hm) as [<- Hml].
  destruct (bo_best _ _ Hd' m) as (m' & Hm' & Hle); [by rewrite <- Hp|].
  destruct (bo_of _ _ Hd' _ _ Hm') as [Hi Hml']. exists m'. split; [done|].
  destruct (bo_best _ _ Hd m') as (m'' & Hm'' & Hle'); [by rewrite Hp|]. rewrite Hi in Hm''.
  rewrite (pair_unique _ _ _ _ (bo_keys _ _ Hd) Hm'' Hm) in Hle'. rewrite <- Ht. by apply (anti_symm String.le).
Qed.

Lemma best_sorted l l' d d' :
  best_of l d -> best_of l' d' -> l ≡ₚ l' ->
  map manifest_text (map snd (merge_sort key_le d)) = map manifest_text (map snd (merge_sort key_le d')).
Proof.
  intros Hd Hd' Hp. set (f := fun kv : string * CapabilityManifest => (kv.1, manifest_text kv.2)).
  enough (f <$> merge_sort key_le d = f <$> merge_sort key_le d') as E.
  { apply (f_equal (fmap snd)) in E. rewrite <- !list_fmap_compose in E. rewrite !map_map. exact E. }
  assert (forall e, Sorted key_le (merge_sort key_le e) -> Sorted key_le (f <$> merge_sort key_le e)) as Hsort.
  { intros e. induction 1 as [|[k m] r Hr IH Hh]; cbn; constructor; [done|]. inversion Hh; by constructor. }
  assert (forall l d, best_of l d -> NoDup (f <$> d)) as Hnd.
  { intros l0 d0 H0. apply (NoDup_fmap_1 fst). rewrite <- list_fmap_compose. exact (bo_keys _ _ H0). }
  assert (forall l l' d d', best_of l d -> best_of l' d' -> l ≡ₚ l' -> forall x, x ∈ f <$> d -> x ∈ f <$> d') as Hsub.
  { intros l1 l2 d1 d2 H1 H2 Hq x ([i m] & -> & Hm)%list_elem_of_fmap.
    destruct (best_texts l1 l2 d1 d2 i (manifest_text m) H1 H2 Hq) as (m' & Hm' & Ht); [by exists m|].
    apply list_elem_of_fmap. exists (i, m'). split; [|done]. unfold f. cbn [fst snd]. by rewrite Ht. }
  apply (Sorted_unique_strong key_le).
  - intros x y Hx Hy Hxy Hyx. rewrite merge_sort_Permutation in Hx, Hy.
    apply (Hsub l' l d' d Hd' Hd (symmetry Hp)) in Hy. destruct x as [i t], y as [j u].
    pose proof (anti_symm String.le _ _ Hxy Hyx) as E. cbn in E. subst j. f_equal.
    apply (pair_unique (f <$> d) i t u); [|done|done]. rewrite <- list_fmap_compose. exact (bo_keys _ _ Hd).
  - apply Hsort, Sorted_merge_sort, _.
  - apply Hsort, Sorted_merge_sort, _.
  - rewrite !merge_sort_Permutation. apply NoDup_Permutation; [by eapply Hnd|by eapply Hnd|].
    intros x. split; [by apply (Hsub l l')|by apply (Hsub l' l)].
Qed.

(** The inventory has a normal form: whatever the order in which manifests are found,
    the normalized inventory shows the same texts in the same order; it holds manifests
    that were found, at most one per identity and in the order of the identities, and
    for every manifest found one of the same identity whose text is not after its own. *)
Theorem inventory_normal_form l l' :
  l ≡ₚ l' ->
  map manifest_text (normalize_manifests l) = map manifest_text (normalize_manifests l') /\
  NoDup (map identity_of (normalize_manifests l)) /\
  Sorted String.le (map identity_of (normalize_manifests l)) /\
  (forall m, m ∈ normalize_manifests l -> m ∈ l) /\
  (forall m, m ∈ l -> exists m', m' ∈ normalize_manifests l /\ identity_of m' = identity_of m /\
     String.le (manifest_text m') (manifest_text m)).
Proof.
  intros Hp. pose proof (normalize_best l) as Hb. pose proof (normalize_best l') as Hb'.
  split; [by apply (best_sorted l l')|]. clear l' Hp Hb'. unfold normalize_manifests.
  set (d := fold_left normalize_one l []) in *.
  assert (Hids : map identity_of (map snd (merge_sort key_le d)) = (merge_sort key_le d).*1).
  { rewrite map_map. apply map_ext_in. intros [i m] Hi%list_elem_of_In. rewrite merge_sort_Permutation in Hi.
    exact (proj1 (bo_of _ _ Hb _ _ Hi)). }
  rewrite Hids. split_and!.
  - rewrite merge_sort_Permutation. apply Hb.
  - pose proof (Sorted_merge_sort key_le d) as Hs. clear Hids. induction Hs as [|x r Hr IH Hh]; [constructor|].
    cbn. constructor; [done|]. inversion Hh; by constructor.
  - intros m ([i m'] & -> & Hm)%list_elem_of_fmap. rewrite merge_sort_Permutation in Hm. exact (proj2 (bo_of _ _ Hb _ _ Hm)).
  - intros m Hm. destruct (bo_best _ _ Hb m Hm) as (m' & Hm' & Hle). exists m'. split_and!; [|exact (proj1 (bo_of _ _ Hb _ _ Hm'))|done].
    apply list_elem_of_fmap. exists (identity_of m, m'). split; [done|]. by rewrite merge_sort_Permutation.
Qed.
End Normal.

(** ** Concrete inputs *)

(** a phase under a policy, with the builtins in the inventory and all of them approved *)
Definition demo_requirements : list CapabilityRequirement :=
  match @run_requirements demo_env [] with Ok rs => rs | Err _ => [] end.
Definition demo_inventory (manifests : list CapabilityManifest) : FactoryEvidence := {|
  evd_id := "e7"; evd_run_id := "factory_0"; evd_cycle_id := Some "cycle_2"; evd_gate_id := None;
  evd_kind := "capability_inventory"; evd_source := "factory-capability-inventory";
  evd_authority := MACHINE; evd_revision := None; evd_fingerprint := None; evd_digest := "";
  evd_payload := JObj [("count", JInt (len_list manifests));
                       ("manifests", JList (map manifest_to_dict manifests))];
  evd_key := None; evd_created_at := 0 |}.
Definition demo_selecting (manifests : list CapabilityManifest) : PhaseContext := {|
  pc_run := demo_verify_run;
  pc_cycle := set_selected_capabilities (str_list (map cm_stable_id manifests))
    (set_capability_requirements (JList (map _requirement_dict demo_requirements)) demo_phase_cycle);
  pc_evidence := [demo_inventory manifests]; pc_gates := []; pc_steering_messages := [] |}.
Definition demo_exc (e : exn) : string := "error".
Definition demo_score (rs : list CapabilityRequirement) (m : CapabilityManifest) : Z := 0.
#[local] Abbreviation demo_select manifests :=
  (@skill_selection_execute demo_env demo_score demo_exc (demo_selecting manifests)).
Definition demo_builtins : list CapabilityManifest := @_builtin_manifests demo_env.

Lemma demo_builtins_read :
  @all_Ok CapabilityManifest (map (@_manifest_from_payload demo_env) (map manifest_to_dict demo_builtins))
  = Ok demo_builtins.
Proof. vm_compute. reflexivity. Qed.
Lemma demo_builtins_in m : m ∈ demo_builtins ->
  m ∈ demo_builtins /\ cm_stable_id m ∈ map cm_stable_id demo_builtins.
Proof. intros Hm. split; [exact Hm|]. apply list_elem_of_fmap. by exists m. Qed.

Theorem builtins_suffice_witness :
  exists o, demo_select demo_builtins = Ok o /\ po_next_state o = Some REPRODUCING.
Proof.
  destruct (demo_select demo_builtins) as [o|e] eqn:E; [|vm_compute in E; discriminate E].
  exists o. split; [reflexivity|].
  apply (@builtins_suffice demo_env demo_score demo_exc (demo_selecting demo_builtins) o demo_requirements
    demo_builtins (map cm_stable_id demo_builtins)).
  - vm_compute. reflexivity.
  - reflexivity.
  - eexists _, (map manifest_to_dict demo_builtins). split_and!; [reflexivity|reflexivity|exact demo_builtins_read].
  - vm_compute. reflexivity.
  - exact demo_builtins_in.
  - exact E.
Defined.

Theorem selection_is_trusted_cover_witness :
  exists o requirements manifests approved ids, demo_select demo_builtins = Ok o /\
    po_cycle_updates o = [("selected_capabilities", str_list ids)] /\
    @selection_data demo_env (demo_selecting demo_builtins) requirements manifests approved /\
    forall i, i ∈ ids -> exists m, @usable demo_env (demo_selecting demo_builtins) manifests approved m /\ identity_of m = i.
Proof.
  destruct (demo_select demo_builtins) as [o|e] eqn:E; [|vm_compute in E; discriminate E].
  destruct (@selection_is_trusted_cover demo_env demo_score demo_exc (demo_selecting demo_builtins) o E)
    as (_ & _ & Hc).
  destruct Hc as (requirements & manifests & approved & ids & Hd & Hu & _ & _ & Hids & _).
  { vm_compute in E. injection E as <-. reflexivity. }
  exists o, requirements, manifests, approved, ids. auto.
Defined.

Theorem inventory_normal_form_witness :
  map manifest_text (normalize_manifests demo_builtins) = map manifest_text (normalize_manifests (rev demo_builtins)).
Proof.
  destruct (inventory_normal_form demo_builtins (rev demo_builtins)) as [Ht _].
  - apply Permutation_rev.
  - exact Ht.
Defined.

(** *** The selection is not the smallest cover *)

Definition plain_manifest (name : string) (capabilities : list string) : CapabilityManifest := {|
  cm_stable_id := name; cm_version := "v1"; cm_origin_type := "skill"; cm_origin_uri := "skill:" +:+ name;
  cm_pinned := None; cm_digest := "d"; cm_capabilities := capabilities; cm_permissions := [];
  cm_network := []; cm_execution := []; cm_risk := "LOCAL_MANAGED"; cm_trust := APPROVED;
  cm_verification := LOCAL; cm_metadata := []; cm_score := None; cm_created_at := None;
  cm_evaluated_at := None |}.
Definition needs (name : string) : CapabilityRequirement := {|
  rq_id := name; rq_capabilities := [name]; rq_permissions := []; rq_network_allowed := false |}.
Definition crossing : list CapabilityManifest :=
  [plain_manifest "m1" ["1"; "2"]; plain_manifest "m2" ["1"; "3"]; plain_manifest "m3" ["2"; "4"]].
(** three manifests of equal score are selected for four requirements that two of them
    cover *)
Example selection_not_smallest :
  let ranked := rank_capabilities demo_score (map needs ["1"; "2"; "3"; "4"]) crossing (@selection_policy demo_env []) in
  map cm_stable_id (select_manifests ranked (map needs ["1"; "2"; "3"; "4"]) [] []).1 = ["m1"; "m2"; "m3"] /\
  Forall (fun q => existsb (covers q) (tail crossing) = true) (map needs ["1"; "2"; "3"; "4"]).
Proof. split; [vm_compute; reflexivity|]. repeat constructor. Qed.
