(* ===== verification/FactoryControl.v ===== *)
(** * The control surface

    Models [cptr/services/factory_control.py] and the approvals table of
    [cptr/models/factory_control.py]: starting, watching, pausing, resuming,
    approving and stopping a run on behalf of its owner.  The worker controller the
    service is built with is a parameter. *)

From S2P Require Import Prelude PyStr Json Redaction FactoryDomain FactoryGates.
From S2P Require Import FactoryVictory Database CapabilityLifecycle FactoryStore FactoryHistory.
From S2P Require Import FactoryStoreFacts FactorySafety FactoryStoreSpec FactoryStoreQueries.
From S2P Require Import FactoryPhases FactoryGit FactoryCi FactoryPolicy.

Definition _MAX_PAGE_LIMIT : Z := 100.
Definition _DEFAULT_PAGE_BYTES : Z := 256 * 1024.
Definition _MAX_MESSAGE_CHARS : Z := 50000.

Definition conflict {W A} (c : string) : M W A := raise (FactoryControlConflict c).

Section Control.
Context `{Env}.

(** [_bounded_token] *)
Definition _bounded_token (value label : string) (max_length : Z) : result string :=
  let normalized := strip value in
  if empty_str normalized then value_error (label +:+ " must not be blank")
  else if (max_length <? len normalized)%Z then value_error (label +:+ " exceeds bounded length")
  else Ok normalized.

(** [_digest] *)
Definition _digest (value : json) : string := sha256_hex (dumps true true value).

(** ** Views *)

Definition _approval_dict (row : FactoryApproval) : json :=
  JObj [("approval_id", JStr (ap_id row)); ("kind", JStr (ap_kind row));
        ("status", JStr (ap_status row)); ("revision", JStr (ap_revision row));
        ("remote", JStr (ap_remote row)); ("branch", JStr (ap_branch row));
        ("created_at", JInt (ap_created_at row)); ("updated_at", JInt (ap_updated_at row));
        ("decided_at", opt_int (ap_decided_at row))].

Definition run_fields (run : FactoryRun) : dict :=
  [("run_id", JStr (run_id run)); ("workspace_id", JStr (run_workspace_id run));
   ("state", JStr (state_value (run_state run)));
   ("current_cycle_id", opt_str (run_current_cycle_id run));
   ("resumable_state", opt_state (run_resumable_state run));
   ("next_action", opt_str (run_next_action run)); ("created_at", JInt (run_created_at run));
   ("updated_at", JInt (run_updated_at run)); ("completed_at", opt_int (run_completed_at run))].
Definition _run_dict (run : FactoryRun) : json := JObj (run_fields run).

Definition _event_dict (row : FactoryEvent) : json :=
  redact_external (JObj
    [("event_id", JStr (ev_id row)); ("cycle_id", opt_str (ev_cycle_id row));
     ("sequence", JInt (ev_sequence row)); ("actor", JStr (actor_value (ev_actor row)));
     ("event_type", JStr (ev_type row)); ("from_state", opt_state (ev_from row));
     ("to_state", opt_state (ev_to row)); ("payload", ev_payload row);
     ("created_at", JInt (ev_created_at row))]).

Definition _evidence_dict (row : FactoryEvidence) : json :=
  redact_external (JObj
    [("evidence_id", JStr (evd_id row)); ("cycle_id", opt_str (evd_cycle_id row));
     ("gate_id", opt_str (evd_gate_id row)); ("kind", JStr (evd_kind row));
     ("source", JStr (evd_source row)); ("authority", JStr (authority_value (evd_authority row)));
     ("revision", opt_str (evd_revision row)); ("fingerprint", opt_str (evd_fingerprint row));
     ("digest", JStr (evd_digest row)); ("payload", evd_payload row);
     ("created_at", JInt (evd_created_at row))]).

(** ** Pages *)

Record Page := {
  page_items : list json;
  page_next_cursor : option string;
  page_bytes : Z;
  page_truncated : bool;
}.

(** the items of the candidates that fit, their size, and whether one did not *)
Fixpoint fill_page {A} (serializer : A -> json) (max_bytes used : Z) (candidates : list A)
    : list json * Z * bool :=
  match candidates with
  | [] => ([], used, false)
  | row :: candidates =>
      let item := serializer row in
      let size := len (dumps true true item) in
      if (max_bytes <? used + size)%Z then ([], used, true)
      else
        let '(items, total, truncated) := fill_page serializer max_bytes (used + size) candidates in
        (item :: items, total, truncated)
  end.

(** [_bounded_page] *)
Definition _bounded_page {A} (serializer : A -> json) (cursor_getter : A -> string)
    (limit max_bytes : Z) (rows : list A) : Page :=
  let candidates := take (Z.to_nat limit) rows in
  let '(output, used, truncated) := fill_page serializer max_bytes 0 candidates in
  let has_more := (limit <? len_list rows)%Z || truncated in
  {| page_items := output;
     page_next_cursor :=
       if has_more && negb (is_nil output) then cursor_getter <$> candidates !! (length output - 1)%nat
       else None;
     page_bytes := used; page_truncated := truncated |}.

(** ** The service *)

(** [_owned_run] *)
Definition _owned_run (user_id rid : string) : M World FactoryRun :=
  let* run := get_run rid (Some user_id) in
  required run FactoryControlNotFound.

(** *** Starting *)

(** the bound on the model runs of an implementing policy *)
Definition bounded_parallelism (policy : dict) : result dict :=
  let invalid := "factory parallel_model_runs must be between 5 and 10" in
  if policy_flag "implementation_required" true policy
     || negb (is_none (dict_get "parallel_model_runs" policy)) then
    let raw := default (JInt 5) (dict_get "parallel_model_runs" policy) in
    match raw with
    | JBool _ => value_error invalid
    | _ =>
        match py_int raw with
        | Err e => if conversion_error e then value_error invalid else Err e
        | Ok z => if (z <? 5)%Z || (10 <? z)%Z then value_error invalid
                  else Ok (dict_set "parallel_model_runs" (JInt z) policy)
        end
    end
  else Ok policy.

(** the push policy with its defaults *)
Definition push_policy (policy : dict) : result dict :=
  let implementation := policy_flag "implementation_required" true policy in
  let policy := if implementation then dict_setdefault "push_required" (JBool true) policy else policy in
  let push := policy_flag "push_required" false policy in
  let policy := dict_setdefault "auto_push_after_victory" (JBool (push && implementation)) policy in
  let policy := dict_setdefault "open_pr_required" (JBool (push && implementation)) policy in
  if policy_flag "auto_push_after_victory" false policy && negb push then
    value_error "auto_push_after_victory requires push_required"
  else if policy_flag "open_pr_required" false policy && negb push then
    value_error "open_pr_required requires push_required"
  else Ok policy.

Definition budget_keys : list string :=
  ["max_cycles"; "max_wall_time_ms"; "max_repair_attempts_per_signature"].

(** the configured value of a budget *)
Definition budget_value (policy budget : dict) (key : string) : json :=
  match get key budget with
  | JNull => if str_eqb key "max_cycles" then get key policy else JNull
  | raw => raw
  end.
Fixpoint check_budgets (policy budget : dict) (keys : list string) : result unit :=
  match keys with
  | [] => Ok tt
  | key :: keys =>
      let invalid := "factory budget " +:+ key +:+ " must be a positive integer" in
      match budget_value policy budget key with
      | JNull => check_budgets policy budget keys
      | raw =>
          match py_int raw with
          | Err e => if conversion_error e then value_error invalid else Err e
          | Ok z => if (z <=? 0)%Z then value_error invalid else check_budgets policy budget keys
          end
      end
  end.

(** what [start] checks before anything is stored: the policy it will store *)
Definition preflight (criteria : list string) (policy budget : dict) (model_id : option string)
    : result dict :=
  if policy_flag "implementation_required" true policy && blank (default "" model_id) then
    value_error "factory implementation requires an explicit model_id"
  else
    let? policy := bounded_parallelism policy in
    let? policy := push_policy policy in
    let? _ := verification_specs (JObj policy) criteria in
    let? _ := _ci_policy (JObj policy) in
    let? _ := check_budgets policy budget budget_keys in
    Ok policy.

(** [start]; [peer] as in [create_run] *)
Definition start (peer : Db -> Db) (user_id workspace_id mission : string) (criteria : list string)
    (policy budget : dict) (model_id idempotency_key : option string) : M World FactoryRun :=
  let* policy := lift (preflight criteria policy budget model_id) in
  create_run peer
    {| rq_user_id := user_id; rq_workspace_id := workspace_id; rq_mission := mission;
       rq_acceptance_criteria := criteria; rq_policy := JObj policy; rq_budget := JObj budget;
       rq_model_id := model_id; rq_idempotency_key := idempotency_key |}.

(** *** Watching *)

(** [_pending_approval] *)
Definition _pending_approval (rid : string) : M World (option FactoryApproval) :=
  query (fun d => head (order_by
    (fun a b => (ap_updated_at b <? ap_updated_at a)%Z
                || ((ap_updated_at a =? ap_updated_at b)%Z && String.leb (ap_id b) (ap_id a)))
    (select (fun a => str_eqb (ap_run_id a) rid && str_eqb (ap_status a) "PENDING")
       (rows_of (db_approvals d))))).

(** the last attempt of each gate, by gate *)
Definition current_gates (gates : list FactoryGateResult) : list FactoryGateResult :=
  order_by (fun a b => String.leb (gr_gate_id a) (gr_gate_id b))
    (map snd (fold_left (fun latest g =>
       match dict_get (gr_gate_id g) latest with
       | Some c => if (gr_attempt c <=? gr_attempt g)%Z then dict_set (gr_gate_id g) g latest else latest
       | None => dict_set (gr_gate_id g) g latest
       end) gates [])).
Definition gate_view (g : FactoryGateResult) : json :=
  JObj [("gate_id", JStr (gr_gate_id g)); ("category", JStr (gr_category g));
        ("required", JBool (gr_required g)); ("applicable", JBool (gr_applicable g));
        ("status", JStr (gr_status g)); ("attempt", JInt (gr_attempt g));
        ("reason", opt_str (gr_reason g))].
Definition cycle_view (c : FactoryCycle) : result json :=
  let? capabilities := if truthy (selected_capabilities c) then py_iter (selected_capabilities c)
                       else Ok [] in
  Ok (JObj [("cycle_id", JStr (cycle_id c)); ("ordinal", JInt (cycle_ordinal c));
            ("state", JStr (state_value (cycle_state c))); ("selected_finding", selected_finding c);
            ("selected_capabilities", JList capabilities); ("attempt_count", JInt (attempt_count c));
            ("next_action", opt_str (cycle_next_action c));
            ("target_revision", opt_str (target_revision c));
            ("target_fingerprint", opt_str (target_fingerprint c))]).

(** [status] *)
Definition run_status (user_id rid : string) : M World json :=
  let* run := _owned_run user_id rid in
  let* cycle := if has_key (run_current_cycle_id run)
                then get_cycle (default "" (run_current_cycle_id run)) else ret None in
  let* gates := match cycle with
                | Some c => list_gates (run_id run) (Some (cycle_id c))
                | None => ret []
                end in
  let current := current_gates gates in
  let needed := List.filter (fun g => gr_required g && gr_applicable g) current in
  let passed := List.filter (fun g => str_eqb (gr_status g) "PASS") needed in
  let* pending := _pending_approval (run_id run) in
  let* shown := lift (match cycle with Some c => cycle_view c | None => Ok JNull end) in
  let payload := run_fields run ++
    [("mission", JStr (run_mission run)); ("acceptance_criteria", str_list (run_acceptance_criteria run));
     ("policy", run_policy run); ("budget", run_budget run); ("cycle", shown);
     ("progress", JObj
       [("cycle_ordinal", JInt (match cycle with Some c => cycle_ordinal c | None => 0 end));
        ("required_gates", JInt (len_list needed)); ("passed_required_gates", JInt (len_list passed))]);
     ("pending_approval", match pending with Some a => _approval_dict a | None => JNull end);
     ("gates", JList (map gate_view current))] in
  let redacted := dict_set "state" (JStr (state_value (run_state run)))
                    (as_dict (redact_external (JObj payload))) in
  ret (JObj (match cycle, get "cycle" redacted with
             | Some c, JObj fields =>
                 dict_set "cycle" (JObj (dict_set "state" (JStr (state_value (cycle_state c))) fields))
                   redacted
             | _, _ => redacted
             end)).

Definition page_limit (limit : Z) : Z := Z.max 1 (Z.min limit _MAX_PAGE_LIMIT).

(** the sequence number a cursor stands for *)
Definition event_cursor (cursor : option string) : result Z :=
  if has_key cursor then
    match parse_int (default "" cursor) with
    | Some z => if (z <? 0)%Z then Err (FactoryControlConflict "FACTORY_INVALID_CURSOR") else Ok z
    | None => Err (FactoryControlConflict "FACTORY_INVALID_CURSOR")
    end
  else Ok 0%Z.

(** [events] *)
Definition events (max_page_bytes : Z) (user_id rid : string) (cursor : option string) (limit : Z)
    : M World Page :=
  let* _ := _owned_run user_id rid in
  let limit := page_limit limit in
  let* after := lift (event_cursor cursor) in
  let* rows := list_events rid after (limit + 1) in
  ret (_bounded_page _event_dict (fun e => str_of_int (ev_sequence e)) limit max_page_bytes rows).

Definition is_value_error (e : exn) : bool := match e with ValueError _ => true | _ => false end.

(** [evidence] *)
Definition evidence (max_page_bytes : Z) (user_id rid : string) (cursor : option string) (limit : Z)
    : M World Page :=
  let* _ := _owned_run user_id rid in
  let limit := page_limit limit in
  let* rows := catch (list_evidence_page rid cursor (limit + 1)) is_value_error
                 (fun _ => conflict "FACTORY_INVALID_CURSOR") in
  ret (_bounded_page _evidence_dict evd_id limit max_page_bytes rows).

(** *** Steering *)

(** [message] *)
Definition message (user_id rid content : string) (idempotency_key : option string) : M World json :=
  let* run := _owned_run user_id rid in
  let content := strip content in
  raise_if empty_str content as ValueError "factory message must not be blank" in
  raise_if (_MAX_MESSAGE_CHARS <? len content)%Z
    as ValueError "factory message exceeds bounded length" in
  let* event := append_user_event (run_id run) "user.message" (JObj [("content", JStr content)])
    (if has_key idempotency_key then Some ("message:" +:+ default "" idempotency_key) else None) None in
  ret (JObj [("event", _event_dict event)]).

(** [pause] *)
Definition pause (user_id rid idempotency_key : string) : M World FactoryRun :=
  let* run := _owned_run user_id rid in
  if bool_decide (run_state run = PAUSED) then ret run
  else if bool_decide (run_state run = APPROVAL_REQUIRED) then conflict "FACTORY_APPROVAL_REQUIRED"
  else if is_terminal_factory_state (run_state run) then conflict "FACTORY_TERMINAL"
  else transition (run_id run) PAUSED USER "authenticated user paused the factory run"
         ("user-pause:" +:+ idempotency_key) [] None.

(** [resume] *)
Definition resume (user_id rid idempotency_key : string) : M World FactoryRun :=
  let* run := _owned_run user_id rid in
  if bool_decide (run_state run = APPROVAL_REQUIRED) then conflict "FACTORY_APPROVAL_REQUIRED"
  else if negb (bool_decide (run_state run = PAUSED)) then conflict "FACTORY_NOT_PAUSED"
  else
    match run_resumable_state run with
    | None => conflict "FACTORY_RESUME_STATE_MISSING"
    | Some target => transition (run_id run) target USER
        "authenticated user resumed the paused factory run" ("user-resume:" +:+ idempotency_key) [] None
    end.

(** *** Approvals *)

Definition envelope_digest (kind revision remote branch : string) : string :=
  _digest (JObj [("kind", JStr kind); ("revision", JStr revision); ("remote", JStr remote);
                 ("branch", JStr branch)]).

Definition for_operation (cid kind digest : string) (a : FactoryApproval) : bool :=
  str_eqb (ap_cycle_id a) cid && str_eqb (ap_kind a) kind && str_eqb (ap_operation_digest a) digest.

Definition new_approval (aid rid cid kind digest revision remote branch : string) (now : Z)
    : FactoryApproval := {|
  ap_id := aid; ap_run_id := rid; ap_cycle_id := cid; ap_kind := kind; ap_operation_digest := digest;
  ap_revision := revision; ap_remote := remote; ap_branch := branch; ap_status := "PENDING";
  ap_decision_key := None; ap_decision_digest := None; ap_note := None; ap_created_at := now;
  ap_updated_at := now; ap_decided_at := None |}.

(** [INSERT ... ON CONFLICT (cycle_id, kind, operation_digest) DO NOTHING] *)
Definition insert_approval (a : FactoryApproval) : M World unit :=
  let* d := query id in
  if is_nil (select (for_operation (ap_cycle_id a) (ap_kind a) (ap_operation_digest a))
               (rows_of (db_approvals d))) then
    let* _ := check (bool_decide (db_approvals d !! ap_id a = None)) "factory_approvals.id" in
    write (fun d => set_db_approvals (<[ap_id a := a]> (db_approvals d)) d)
  else ret tt.
Definition save_approval (a : FactoryApproval) : M World unit :=
  write (fun d => set_db_approvals (<[ap_id a := a]> (db_approvals d)) d).

(** [request_approval] *)
Definition request_approval (rid cid kind revision remote branch : string)
    : M World FactoryApproval :=
  let* kind := lift (let? k := _bounded_token kind "approval kind" 120 in Ok (lower k)) in
  let* revision := lift (_bounded_token revision "approval revision" 500) in
  let* remote := lift (_bounded_token remote "approval remote" 200) in
  let* branch := lift (_bounded_token branch "approval branch" 300) in
  let digest := envelope_digest kind revision remote branch in
  let* now := _now_ms in
  transaction (
    let* run := get_run_row rid in
    let* cycle := get_cycle_row cid in
    match run, cycle with
    | Some _, Some c =>
        raise_if negb (str_eqb (cycle_run_id c) rid) as FactoryControlNotFound in
        let* pending := query (fun d => head (select (fun a =>
          str_eqb (ap_cycle_id a) cid && str_eqb (ap_kind a) kind && str_eqb (ap_status a) "PENDING")
          (rows_of (db_approvals d)))) in
        match pending with
        | Some a => if str_eqb (ap_operation_digest a) digest then ret a
                    else conflict "FACTORY_APPROVAL_CONFLICT"
        | None =>
            let* aid := _new_id "fapproval" in
            let* _ := insert_approval (new_approval aid rid cid kind digest revision remote branch now) in
            let* rows := query (fun d => select (for_operation cid kind digest) (rows_of (db_approvals d))) in
            scalar_one rows
        end
    | _, _ => raise FactoryControlNotFound
    end).

Definition decided_approval (approved : bool) (key digest : string) (note : option string) (now : Z)
    (a : FactoryApproval) : FactoryApproval := {|
  ap_id := ap_id a; ap_run_id := ap_run_id a; ap_cycle_id := ap_cycle_id a; ap_kind := ap_kind a;
  ap_operation_digest := ap_operation_digest a; ap_revision := ap_revision a;
  ap_remote := ap_remote a; ap_branch := ap_branch a;
  ap_status := if approved then "APPROVED" else "DENIED"; ap_decision_key := Some key;
  ap_decision_digest := Some digest; ap_note := note; ap_created_at := ap_created_at a;
  ap_updated_at := now; ap_decided_at := Some now |}.

(** the block of [approve] that decides *)
Definition decide_approval (rid aid : string) (approved : bool) (key digest : string)
    (note : option string) : M World FactoryApproval :=
  transaction (
    let* approval := query (fun d => db_approvals d !! aid) in
    let* run := get_run_row rid in
    match approval, run with
    | Some a, Some run =>
        raise_if negb (str_eqb (ap_run_id a) rid) as FactoryControlNotFound in
        raise_if str_eqb (ap_status a) "PENDING" && negb (bool_decide (run_state run = APPROVAL_REQUIRED))
          as FactoryControlConflict "FACTORY_NOT_APPROVAL_REQUIRED" in
        if negb (str_eqb (ap_status a) "PENDING") then
          if opt_eqb (ap_decision_digest a) (Some digest) && opt_eqb (ap_decision_key a) (Some key)
          then ret a else conflict "FACTORY_APPROVAL_REPLAY_CONFLICT"
        else
          let* rows := query (fun d => select (fun x =>
            str_eqb (ap_run_id x) rid && opt_eqb (ap_decision_key x) (Some key))
            (rows_of (db_approvals d))) in
          let* existing := scalar_one_or_none rows in
          raise_if match existing with Some x => negb (str_eqb (ap_id x) (ap_id a)) | None => false end
            as FactoryControlConflict "FACTORY_APPROVAL_REPLAY_CONFLICT" in
          let* now := _now_ms in
          let a := decided_approval approved key digest note now a in
          let* _ := save_approval a in
          ret a
    | _, _ => raise FactoryControlNotFound
    end).

(** [approve] *)
Definition approve (user_id rid approval_id : string) (approved : bool)
    (note idempotency_key : option string) : M World json :=
  let* run := _owned_run user_id rid in
  let* aid := lift (_bounded_token approval_id "approval ID" 200) in
  let* key := lift (_bounded_token (if has_key idempotency_key then default "" idempotency_key
                                    else "decision-" +:+ aid) "approval idempotency key" 200) in
  let note := match note with
              | Some n => if blank n then None else Some (str_take 4000 (redact_text (strip n)))
              | None => None
              end in
  let digest := _digest (JObj [("approved", JBool approved); ("note", opt_str note)]) in
  let* decided := decide_approval (run_id run) aid approved key digest note in
  let* _ := append_user_event (run_id run) "approval.decision"
    (JObj [("approval_id", JStr (ap_id decided)); ("kind", JStr (ap_kind decided));
           ("status", JStr (ap_status decided)); ("revision", JStr (ap_revision decided));
           ("remote", JStr (ap_remote decided)); ("branch", JStr (ap_branch decided))])
    (Some ("approval-event:" +:+ ap_id decided +:+ ":" +:+ key)) (Some (ap_cycle_id decided)) in
  let* current := _owned_run user_id (run_id run) in
  let* current :=
    if bool_decide (run_state current = APPROVAL_REQUIRED) then
      if approved then
        match run_resumable_state current with
        | None => conflict "FACTORY_RESUME_STATE_MISSING"
        | Some target => transition (run_id current) target USER
            ("authenticated user approved exact " +:+ ap_kind decided +:+ " envelope")
            ("approval-release:" +:+ ap_id decided) [] None
        end
      else transition (run_id current) BLOCKED SYSTEM
             ("authenticated user denied required " +:+ ap_kind decided +:+ " approval")
             ("approval-denied:" +:+ ap_id decided) [] None
    else ret current in
  ret (JObj [("approval", _approval_dict decided); ("run", _run_dict current)]).

(** [resolve_push_authorization] *)
Definition resolve_push_authorization (rid cid revision remote branch : string)
    : M World (option PushAuthorization) :=
  let* approval := request_approval rid cid "git_push" revision remote branch in
  if str_eqb (ap_status approval) "PENDING" then ret None
  else if negb (str_eqb (ap_status approval) "APPROVED") then conflict "FACTORY_APPROVAL_DENIED"
  else
    lift (let? a := PushAuthorization_post_init
            {| pu_approved := true; pu_approval_id := ap_id approval; pu_revision := ap_revision approval;
               pu_remote := ap_remote approval; pu_branch := ap_branch approval |} in Ok (Some a)).

(** *** Stopping *)

(** [stop]; [cancel_run] is the worker controller's: whether the workers of the run
    are quiescent *)
Definition stop {R} (cancel_run : FactoryRun -> Z -> M (World * R) bool) (user_id rid key : string)
    (timeout_ms : Z) (execution_quiescent : bool) : M (World * R) FactoryRun :=
  let* run := on_left (_owned_run user_id rid) in
  if bool_decide (run_state run = CANCELLED) then ret run
  else if is_terminal_factory_state (run_state run) then conflict "FACTORY_TERMINAL"
  else
    let* quiescent := if execution_quiescent then ret true else cancel_run run timeout_ms in
    raise_if negb quiescent as FactoryControlConflict "FACTORY_CANCELLATION_NOT_QUIESCENT" in
    on_left (transition (run_id run) CANCELLED USER
      "authenticated user stopped the factory run after owned execution quiesced"
      ("user-stop:" +:+ key) [] None).
End Control.
