(* ===== verification/FactoryApprovals.v ===== *)
(** * Approvals

    The approvals table of [cptr/models/factory_control.py] under the operations of
    [cptr/services/factory_control.py]: what holds of its rows, what a request and a
    decision do, and that nothing else of the store touches it. *)

From S2P Require Import Prelude PyStr Json Redaction FactoryDomain FactoryGates.
From S2P Require Import FactoryVictory Database CapabilityLifecycle FactoryStore FactoryHistory.
From S2P Require Import FactoryStoreFacts FactoryFrames FactorySafety FactoryStoreSpec FactoryStoreQueries.
From S2P Require Import FactoryPhases FactoryGit FactoryCi FactoryOrchestrator FactoryPolicy FactoryControl.

(** ** The approvals table *)

Section Approvals.
Context `{Env}.

Definition envelope_of (a : FactoryApproval) : string :=
  envelope_digest (ap_kind a) (ap_revision a) (ap_remote a) (ap_branch a).
Definition pending (a : FactoryApproval) : Prop := ap_status a = "PENDING".

(** what holds of every approval row *)
Record approval_row (d : Db) (i : string) (a : FactoryApproval) : Prop := {
  row_keyed : ap_id a = i;
  row_bound : ap_operation_digest a = envelope_of a;
  row_cycle : exists c, db_cycles d !! ap_cycle_id a = Some c /\ cycle_run_id c = ap_run_id a;
  row_decision : (pending a /\ ap_decision_key a = None) \/
    ((ap_status a = "APPROVED" \/ ap_status a = "DENIED") /\ is_Some (ap_decision_key a));
}.
(** an operation is asked for once, a kind of operation is pending once in a cycle,
    and a key decides once *)
Record approvals_wf (d : Db) : Prop := {
  appr_rows i a : db_approvals d !! i = Some a -> approval_row d i a;
  appr_once i j a b : db_approvals d !! i = Some a -> db_approvals d !! j = Some b ->
    for_operation (ap_cycle_id a) (ap_kind a) (ap_operation_digest a) b = true -> i = j;
  appr_pending_once i j a b : db_approvals d !! i = Some a -> db_approvals d !! j = Some b ->
    ap_cycle_id a = ap_cycle_id b -> ap_kind a = ap_kind b -> pending a -> pending b -> i = j;
  appr_key_once i j a b k : db_approvals d !! i = Some a -> db_approvals d !! j = Some b ->
    ap_run_id a = ap_run_id b -> ap_decision_key a = Some k -> ap_decision_key b = Some k -> i = j;
}.

Lemma approvals_wf_extends d d' :
  approvals_wf d -> db_approvals d' = db_approvals d -> extends d d' -> approvals_wf d'.
Proof.
  intros [H1 H2 H3 H4] Ha He. split; rewrite Ha; [|exact H2|exact H3|exact H4].
  intros i a Hi. destruct (H1 i a Hi) as [? ? (c & Hc & Hr) ?]. split; try done.
  destruct (ext_cycles _ _ He _ _ Hc) as (c' & Hc' & _ & Hr' & _). exists c'. split; [done|congruence].
Qed.

Lemma for_operation_true cid kind digest b :
  for_operation cid kind digest b = true <->
  ap_cycle_id b = cid /\ ap_kind b = kind /\ ap_operation_digest b = digest.
Proof. unfold for_operation. rewrite !andb_true_iff, !str_eqb_true. tauto. Qed.

Lemma head_select {A} (p : A -> bool) l x : head (select p l) = Some x -> x ∈ l /\ p x = true.
Proof. intros Hh. apply elem_of_select. destruct (select p l); [done|]. injection Hh as ->. by left. Qed.
Lemma head_select_None {A} (p : A -> bool) l x : head (select p l) = None -> x ∈ l -> p x = false.
Proof.
  intros Hh Hx. apply not_true_is_false. intros Hp.
  assert (x ∈ select p l) as Hs by by apply elem_of_select.
  destruct (select p l); [by apply elem_of_nil in Hs|done].
Qed.

(** a new pending row for an operation nobody asked for *)
Lemma approvals_insert d a :
  approvals_wf d -> db_approvals d !! ap_id a = None -> pending a -> ap_decision_key a = None ->
  ap_operation_digest a = envelope_of a ->
  (exists c, db_cycles d !! ap_cycle_id a = Some c /\ cycle_run_id c = ap_run_id a) ->
  (forall i b, db_approvals d !! i = Some b ->
     for_operation (ap_cycle_id a) (ap_kind a) (ap_operation_digest a) b = false /\
     (ap_cycle_id b = ap_cycle_id a -> ap_kind b = ap_kind a -> ~ pending b)) ->
  approvals_wf (set_db_approvals (<[ap_id a := a]> (db_approvals d)) d).
Proof.
  intros [H1 H2 H3 H4] Hn Hp Hk Hb Hc Hnew. split.
  - intros i b. simpl. intros [[<- <-]|[_ Hi]]%lookup_insert_Some.
    + split; try done. by left.
    + destruct (H1 i b Hi). by split.
  - intros i j x y. simpl.
    intros [[<- <-]|[_ Hi]]%lookup_insert_Some [[<- <-]|[_ Hj]]%lookup_insert_Some Hop; [done|..].
    + destruct (Hnew _ _ Hj) as [Hf _]. by rewrite Hf in Hop.
    + destruct (Hnew _ _ Hi) as [Hf _]. apply for_operation_true in Hop as (E1 & E2 & E3).
      rewrite E1, E2, E3 in Hf. rewrite (proj2 (for_operation_true _ _ _ x)) in Hf by done. done.
    + by eapply H2.
  - intros i j x y. simpl.
    intros [[<- <-]|[_ Hi]]%lookup_insert_Some [[<- <-]|[_ Hj]]%lookup_insert_Some E1 E2 Px Py; [done|..].
    + by destruct (Hnew _ _ Hj) as [_ []].
    + by destruct (Hnew _ _ Hi) as [_ []].
    + by eapply H3.
  - intros i j x y k. simpl.
    intros [[<- <-]|[_ Hi]]%lookup_insert_Some [[<- <-]|[_ Hj]]%lookup_insert_Some; intros; [done|congruence..|].
    by eapply H4.
Qed.

(** the decision of a pending row *)
Lemma approvals_decide d i a approved key digest note now :
  approvals_wf d -> db_approvals d !! i = Some a ->
  (forall j b, db_approvals d !! j = Some b -> ap_run_id b = ap_run_id a ->
     ap_decision_key b = Some key -> i = j) ->
  approvals_wf (set_db_approvals
    (<[i := decided_approval approved key digest note now a]> (db_approvals d)) d).
Proof.
  intros [H1 H2 H3 H4] Hi Hkey. set (a' := decided_approval approved key digest note now a).
  assert (Hsame : forall j b, <[i:=a']> (db_approvals d) !! j = Some b ->
    exists b0, db_approvals d !! j = Some b0 /\ ap_id b = ap_id b0 /\ ap_run_id b = ap_run_id b0 /\
      ap_cycle_id b = ap_cycle_id b0 /\ ap_kind b = ap_kind b0 /\
      ap_operation_digest b = ap_operation_digest b0 /\ envelope_of b = envelope_of b0 /\
      (pending b -> pending b0) /\ (b = b0 \/ (j = i /\ b = a'))).
  { intros j b [[<- <-]|[_ Hj]]%lookup_insert_Some.
    - exists a. split_and!; try done; [unfold pending, a'; simpl; by destruct approved|by right].
    - exists b. split_and!; try done. by left. }
  split; cbn [db_approvals set_db_approvals].
  - intros j b Hj. destruct (Hsame j b Hj) as (b0 & Hb0 & E1 & E2 & E3 & E4 & E5 & E6 & _ & Hcase).
    destruct (H1 j b0 Hb0) as [R1 R2 R3 R4]. split; [congruence|congruence|by rewrite E3, E2|].
    destruct Hcase as [->|[_ ->]]; [done|]. right. unfold a'. simpl. split; [destruct approved; auto|eauto].
  - intros j k x y Hj Hk Hop.
    destruct (Hsame j x Hj) as (x0 & Hx0 & _ & _ & X3 & X4 & X5 & _).
    destruct (Hsame k y Hk) as (y0 & Hy0 & _ & _ & Y3 & Y4 & Y5 & _).
    apply (H2 j k x0 y0 Hx0 Hy0). apply for_operation_true in Hop as (O1 & O2 & O3).
    apply for_operation_true. split_and!; congruence.
  - intros j k x y Hj Hk E1 E2 Px Py.
    destruct (Hsame j x Hj) as (x0 & Hx0 & _ & _ & X3 & X4 & _ & _ & XP & _).
    destruct (Hsame k y Hk) as (y0 & Hy0 & _ & _ & Y3 & Y4 & _ & _ & YP & _).
    apply (H3 j k x0 y0 Hx0 Hy0); [congruence|congruence|auto|auto].
  - intros j k x y key' Hj Hk E1 Kx Ky.
    destruct (Hsame j x Hj) as (x0 & Hx0 & _ & X2 & _ & _ & _ & _ & _ & [->|[-> ->]]);
      destruct (Hsame k y Hk) as (y0 & Hy0 & _ & Y2 & _ & _ & _ & _ & _ & [->|[-> ->]]); try done.
    + by eapply H4.
    + injection Ky as <-. symmetry. by apply (Hkey j x0 Hx0).
    + injection Kx as <-. by apply (Hkey k y0 Hy0).
Qed.

(** the row a request returns: the one of its operation, pending if it is new *)
Definition asked_for (rid cid kind revision remote branch : string) (d d' : Db) (a : FactoryApproval) : Prop :=
  db_approvals d' !! ap_id a = Some a /\ ap_cycle_id a = cid /\ ap_kind a = lower (strip kind) /\
  ap_run_id a = rid /\
  envelope_of a = envelope_digest (lower (strip kind)) (strip revision) (strip remote) (strip branch) /\
  (pending a \/ d' = d).

Lemma bounded_token_Ok v label n x : _bounded_token v label n = Ok x -> x = strip v.
Proof. unfold _bounded_token, value_error. destruct (empty_str _); [done|]. by destruct (_ <? _)%Z; intros [= <-]. Qed.

Lemma scalar_one_Ok {A} (rows : list A) x w w' : scalar_one rows w = (Ok x, w') -> x ∈ rows /\ w' = w.
Proof. unfold scalar_one, ret, raise. destruct rows as [|y [|]]; [done| |done]. intros [= -> ->]. split; [by left|done]. Qed.

(** the insertion of an approval that raises no error *)
Lemma insert_approval_Ok a u w w' :
  insert_approval a w = (Ok u, w') ->
  ((exists b, b ∈ rows_of (db_approvals (db w)) /\
      for_operation (ap_cycle_id a) (ap_kind a) (ap_operation_digest a) b = true) /\ w' = w) \/
  ((forall b, b ∈ rows_of (db_approvals (db w)) ->
      for_operation (ap_cycle_id a) (ap_kind a) (ap_operation_digest a) b = false) /\
   db_approvals (db w) !! ap_id a = None /\
   w' = set_db (fun d => set_db_approvals (<[ap_id a := a]> (db_approvals d)) d) w).
Proof.
  unfold insert_approval. intros Hi. ok_inv.

  - right. apply bool_decide_eq_true in Hx. split; [|done].
    intros b Hb. apply not_true_is_false. intros Hop.
    assert (b ∈ select (for_operation (ap_cycle_id a) (ap_kind a) (ap_operation_digest a))
      (rows_of (db_approvals (db w)))) as Hin by by apply elem_of_select.
    cbn [id] in E. destruct (select _ _); [by apply elem_of_nil in Hin|done].
  - left. split; [|done]. cbn [id] in E. destruct (select _ _) as [|b l] eqn:Es; [done|].
    exists b. apply elem_of_select. rewrite Es. by left.
Qed.

Lemma asked_row d cid k dg b c :
  approvals_wf d -> b ∈ rows_of (db_approvals d) -> for_operation cid k dg b = true ->
  db_cycles d !! cid = Some c ->
  db_approvals d !! ap_id b = Some b /\ ap_cycle_id b = cid /\ ap_kind b = k /\ envelope_of b = dg /\
  ap_run_id b = cycle_run_id c.
Proof.
  intros Happ [i Hi]%elem_of_rows (O1 & O2 & O3)%for_operation_true Hc.
  destruct (appr_rows _ Happ _ _ Hi) as [R1 R2 (c' & Hc' & R3) _]. rewrite R1.
  split_and!; [done|done|done|congruence|]. rewrite O1, Hc in Hc'. by injection Hc' as <-.
Qed.

Lemma request_approval_Ok rid cid kind revision remote branch w a w' :
  approvals_wf (db w) -> request_approval rid cid kind revision remote branch w = (Ok a, w') ->
  approvals_wf (db w') /\ asked_for rid cid kind revision remote branch (db w) (db w') a.
Proof.
  intros Happ. unfold request_approval, get_run_row, get_cycle_row. intros Hi. ok_inv; [|done|].
  all: apply rbind_Ok in Hx as (k & Hk & [= <-]).
  all: apply bounded_token_Ok in Hk as ->; apply bounded_token_Ok in Hx0 as ->.
  all: apply bounded_token_Ok in Hx1 as ->; apply bounded_token_Ok in Hx2 as ->.
  all: apply negb_false_iff, str_eqb_true in E1; cbn [db] in *; unfold asked_for.
  - apply head_select in E2 as [Hin [[Hc Hk]%andb_true_iff Hp]%andb_true_iff].
    apply str_eqb_true in Hc, Hk, Hp, E3.
    destruct (asked_row _ cid _ _ f1 f0 Happ Hin (proj2 (for_operation_true _ _ _ _) (conj Hc (conj Hk E3))) E0)
      as (? & ? & ? & ? & ?). split; [done|]. split_and!; [done..|congruence|done|by left].
  - destruct (insert_approval_Ok _ _ _ _ Hx4) as [[_ ->]|(Hnone & Hfresh & ->)]; cbn [db] in *.
    + apply scalar_one_Ok in Hi as [[Hin Hop]%elem_of_select ->]. cbn [db].
      destruct (asked_row _ _ _ _ _ _ Happ Hin Hop E0) as (? & ? & ? & ? & ?).
      split; [done|]. split_and!; [done..|congruence|done|by right].
    + match type of Hfresh with db_approvals _ !! ap_id ?r = _ => set (row := r) in * end.
      assert (Hwf' : approvals_wf (set_db_approvals (<[ap_id row := row]> (db_approvals (db w))) (db w))).
      { apply approvals_insert; try done.
        - exists f0. by rewrite E1.
        - intros i b Hb. assert (b ∈ rows_of (db_approvals (db w))) as Hin by (apply elem_of_rows; eauto).
          split; [by apply Hnone|]. intros Hc Hk Hp.
          pose proof (head_select_None _ _ b E2 Hin) as Hf. cbv beta in Hf. unfold pending in Hp.
          rewrite Hc, Hk, Hp, !str_eqb_refl in Hf. done. }
      cbn [db set_db] in *. apply scalar_one_Ok in Hi as [[Hin Hop]%elem_of_select ->]. cbn [db set_db] in *.
      split; [exact Hwf'|].
      destruct (asked_row _ _ _ _ _ _ Hwf' Hin Hop E0) as (Hl & ? & ? & ? & ?).
      split_and!; [done..|congruence|done|]. left.
      assert (a = row) as ->; [|done].
      assert (Hrow : db_approvals (set_db_approvals (<[ap_id row:=row]> (db_approvals (db w))) (db w)) !! ap_id row = Some row)
        by apply lookup_insert_eq.
      pose proof (appr_once _ Hwf' _ _ _ _ Hrow Hl Hop) as Heq. rewrite <-Heq in Hl. congruence.
Qed.

(** a request writes nothing but an approval *)
Lemma request_approval_tables rid cid kind revision remote branch w a w' :
  request_approval rid cid kind revision remote branch w = (Ok a, w') ->
  exists t, db w' = set_db_approvals t (db w).
Proof.
  unfold request_approval, get_run_row, get_cycle_row. intros Hi.
  assert (Hsame : exists t, db w = set_db_approvals t (db w)) by (exists (db_approvals (db w)); by destruct (db w)).
  ok_inv; [exact Hsame|done|].
  destruct (insert_approval_Ok _ _ _ _ Hx4) as [[_ ->]|(_ & _ & ->)];
    apply scalar_one_Ok in Hi as [_ ->]; [exact Hsame|by eexists].
Qed.

(** what deciding an approval does *)
Lemma decide_approval_Ok rid aid approved key digest note w a w' :
  approvals_wf (db w) -> decide_approval rid aid approved key digest note w = (Ok a, w') ->
  exists a0 run, db_approvals (db w) !! aid = Some a0 /\ db_runs (db w) !! rid = Some run /\
    ap_run_id a0 = rid /\
    ((~ pending a0 /\ a = a0 /\ db w' = db w /\ ap_decision_key a0 = Some key /\
      ap_decision_digest a0 = Some digest) \/
     (pending a0 /\ run_state run = APPROVAL_REQUIRED /\
      a = decided_approval approved key digest note (clock (ticks w)) a0 /\
      (forall j b, db_approvals (db w) !! j = Some b -> ap_run_id b = ap_run_id a0 ->
         ap_decision_key b = Some key -> aid = j) /\
      db w' = set_db_approvals (<[aid := a]> (db_approvals (db w))) (db w))).
Proof.
  intros Happ. unfold decide_approval, get_run_row, save_approval. intros Hi. ok_inv; [|done|].
  all: apply negb_false_iff, str_eqb_true in E1; exists f, f0; split; [done|]; split; [done|]; split; [done|].
  - left. apply negb_true_iff, str_eqb_false in E3. apply andb_true_iff in E4 as [?%opt_eqb_true ?%opt_eqb_true].
    done.
  - right. apply negb_false_iff in E3. rewrite E3 in E2. apply negb_false_iff, bool_decide_eq_true in E2.
    apply str_eqb_true in E3. split_and!; [done|done|done| |].
    + intros j b Hb Hr Hk.
      assert (b ∈ select (fun x => str_eqb (ap_run_id x) rid && opt_eqb (ap_decision_key x) (Some key))
        (rows_of (db_approvals (db w)))) as Hin.
      { apply elem_of_select. split; [apply elem_of_rows; eauto|]. rewrite Hr, E1, str_eqb_refl. by apply opt_eqb_true. }
      rewrite Hx0 in Hin. destruct x0 as [y|]; [|by apply elem_of_nil in Hin].
      apply list_elem_of_singleton in Hin as ->. apply negb_false_iff, str_eqb_true in E4.
      rewrite <-(row_keyed _ _ _ (appr_rows _ Happ _ _ E)), <-(row_keyed _ _ _ (appr_rows _ Happ _ _ Hb)). congruence.
    + cbn. by rewrite (row_keyed _ _ _ (appr_rows _ Happ _ _ E)).
Qed.

Lemma decide_approval_Err rid aid approved key digest note w e w' :
  decide_approval rid aid approved key digest note w = (Err e, w') -> db w' = db w.
Proof. apply transaction_Err. Qed.
Lemma request_approval_Err rid cid kind revision remote branch w e w' :
  request_approval rid cid kind revision remote branch w = (Err e, w') -> db w' = db w.
Proof.
  unfold request_approval. intros Hi.
  repeat (apply bind_Err in Hi as [Hi|(? & ? & Hl & Hi)];
          [unfold lift, _now_ms in Hi; by first [injection Hi as _ <-|done]|
           first [apply lift_Ok in Hl as [_ ->]|apply now_Ok in Hl as [_ ->]]]).
  by apply transaction_Err in Hi.
Qed.

(** ** What the store leaves alone *)

Definition approvals_are (A : gmap string FactoryApproval) (d : Db) : Prop := db_approvals d = A.
End Approvals.

#[export] Hint Extern 1 (keeps (approvals_are _) (write _)) => apply keeps_write; done : keeps.

#[export] Instance approvals_untouched : Untouched db_approvals.
Proof. by split. Qed.
#[export] Instance approvals_invariant `{Env} A : StoreInvariant anything (approvals_are A).
Proof. apply (untouched_invariant db_approvals A). Qed.

(** ** The control surface keeps the store's invariants *)

(** sound tables with well-formed approvals *)
Definition sound_system `{Env} P (d0 d : Db) : Prop := sound P d0 d /\ approvals_wf d.

Section Keeping.
Context `{Env} (P : FactoryState -> option FactoryState -> Prop) (d0 : Db) (HP : forall s, P s None).

Lemma system_invariant : StoreInvariant P (sound_system P d0).
Proof.
  split; [done|]. intros o Ho w [Hs Ha]. split; [by apply exec_sound|].
  pose proof (exec_sound P (db w) o HP Ho w (wf_sound _ _ (sound_wf _ _ _ Hs))) as Hsw.
  eapply approvals_wf_extends; [exact Ha| |].
  { apply (inv_op (P := anything) (I := approvals_are (db_approvals (db w))) o); [by destruct o|done]. }
  exact (sound_extends _ _ _ Hsw).
Qed.
#[local] Existing Instance system_invariant.

(** another approvals table leaves the rest sound *)
Lemma sound_approvals d t : sound P d0 d -> sound P d0 (set_db_approvals t d).
Proof.
  intros Hs. eapply sound_frame; [exact Hs|done..|]. intros i. simpl.
  destruct (db_runs d !! i); [|done]. by split_and!; [apply same_run_refl|..].
Qed.

Lemma request_approval_keeps rid cid kind revision remote branch :
  keeps (sound_system P d0) (request_approval rid cid kind revision remote branch).
Proof.
  intros w [Hs Ha]. destruct (request_approval _ _ _ _ _ _ w) as [[a|e] w'] eqn:E; cbn [snd].
  - destruct (request_approval_Ok _ _ _ _ _ _ _ _ _ Ha E) as [Ha' _]. split; [|done].
    by apply request_approval_tables in E as [t ->]; apply sound_approvals.
  - apply request_approval_Err in E. by rewrite E.
Qed.

Lemma decide_approval_keeps rid aid approved key digest note :
  keeps (sound_system P d0) (decide_approval rid aid approved key digest note).
Proof.
  intros w [Hs Ha]. destruct (decide_approval _ _ _ _ _ _ w) as [[a|e] w'] eqn:E; cbn [snd].
  - destruct (decide_approval_Ok _ _ _ _ _ _ _ _ _ Ha E) as (a0 & run & Hl & _ & _ & Hcase).
    destruct Hcase as [(_ & _ & -> & _)|(_ & _ & -> & Hkey & ->)]; [by split|].
    split; [by apply sound_approvals|]. by apply approvals_decide.
  - apply decide_approval_Err in E. by rewrite E.
Qed.
#[local] Hint Resolve request_approval_keeps decide_approval_keeps : keeps.

Lemma owned_run_keeps I user rid : keeps I (_owned_run user rid).
Proof. unfold _owned_run, get_run, get_run_row. repeat keeps_step. Qed.
Lemma conflict_keeps {A} I c : keeps (A:=A) I (conflict c).
Proof. apply keeps_raise. Qed.
#[local] Hint Resolve owned_run_keeps conflict_keeps : keeps.

Lemma pause_keeps user rid key : keeps (sound_system P d0) (pause user rid key).
Proof. unfold pause. repeat keeps_step. Qed.
Lemma resume_keeps user rid key : keeps (sound_system P d0) (resume user rid key).
Proof. unfold resume. repeat keeps_step. Qed.
Lemma message_keeps user rid content key : keeps (sound_system P d0) (message user rid content key).
Proof. unfold message. repeat keeps_step. Qed.
Lemma start_keeps user ws mission criteria policy budget model key :
  keeps (sound_system P d0) (start id user ws mission criteria policy budget model key).
Proof. unfold start. repeat keeps_step. Qed.
Lemma approve_keeps user rid aid approved note key :
  keeps (sound_system P d0) (approve user rid aid approved note key).
Proof. unfold approve. repeat keeps_step. Qed.
Lemma resolve_push_keeps rid cid revision remote branch :
  keeps (sound_system P d0) (resolve_push_authorization rid cid revision remote branch).
Proof. unfold resolve_push_authorization. repeat keeps_step. Qed.

(** stopping, when the worker controller keeps the invariant *)
Lemma stop_keeps {R} (cancel_run : FactoryRun -> Z -> M (World * R) bool) user rid key ms quiescent :
  (forall run ms, pkeeps (sound_system P d0) (cancel_run run ms)) ->
  pkeeps (sound_system P d0) (stop cancel_run user rid key ms quiescent).
Proof.
  intros Hc. unfold stop. apply pkeeps_bind; [apply pkeeps_left, owned_run_keeps|]. intros run.
  destruct (bool_decide _); [apply pkeeps_ret|]. destruct (is_terminal_factory_state _); [apply pkeeps_raise|].
  apply pkeeps_bind; [destruct quiescent; [apply pkeeps_ret|apply Hc]|]. intros [].
  - cbn [negb]. apply pkeeps_left. auto with keeps.
  - apply pkeeps_raise.
Qed.
End Keeping.

Section Decisions.
Context `{Env}.
#[local] Hint Resolve owned_run_keeps conflict_keeps : keeps.

Lemma owned_run_inv user rid w run w' :
  _owned_run user rid w = (Ok run, w') ->
  w' = w /\ db_runs (db w) !! rid = Some run /\ run_user_id run = user.
Proof.
  unfold _owned_run, get_run, get_run_row. intros Hi. ok_inv.
  apply required_Ok in Hi as [Hs ->]. split; [done|].
  destruct (db_runs (db w) !! rid) as [r|]; [|done]. destruct (str_eqb (run_user_id r) user) eqn:E; [|done].
  injection Hs as ->. by apply str_eqb_true in E.
Qed.

(** the text an envelope's digest is taken of *)
Lemma envelope_text k v m b :
  dumps true true (JObj [("kind", JStr k); ("revision", JStr v); ("remote", JStr m); ("branch", JStr b)]) =
  "{" +:+ quote true "branch" +:+ ":" +:+ (quote true b +:+
  ("," +:+ quote true "kind" +:+ ":" +:+ (quote true k +:+
  ("," +:+ quote true "remote" +:+ ":" +:+ (quote true m +:+
  ("," +:+ quote true "revision" +:+ ":" +:+ (quote true v +:+ "}"))))))).
Proof. cbv -[quote String.app]. by rewrite !app_assoc_str. Qed.

Lemma app_inj_str (r x y : string) : r +:+ x = r +:+ y -> x = y.
Proof. induction r as [|c r IH]; [done|]. intros Heq. injection Heq. exact IH. Qed.

(** the envelopes with a digest, up to a collision of SHA-256 *)
Lemma envelope_digest_inj k v m b k' v' m' b' :
  envelope_digest k v m b = envelope_digest k' v' m' b' ->
  (k = k' /\ v = v' /\ m = m' /\ b = b') \/ exists x y, x <> y /\ sha256_hex x = sha256_hex y.
Proof.
  unfold envelope_digest, _digest.
  set (x := dumps _ _ _). set (y := dumps _ _ _). intros Hd.
  destruct (decide (x = y)) as [Heq|Hne]; [left|right; by exists x, y].
  unfold x, y in Heq. rewrite !envelope_text in Heq.
  repeat (apply app_inj_str in Heq; try (apply quote_inj in Heq as [-> Heq])). done.
Qed.

(** A decision is final and is the owner's: whatever [approve] is called with
    and whether it succeeds, the approvals stay as they were, except that the row it
    names may be decided, once: it was pending, it belongs to that run, the run is
    the caller's own and is waiting for an approval, and of the row only the
    decision changes, never the envelope. *)
Theorem decision_is_final user rid approval_id approved note key w :
  keyed (db_runs (db w)) -> approvals_wf (db w) ->
  let d' := db (approve user rid approval_id approved note key w).2 in
  db_approvals d' = db_approvals (db w) \/
  exists a run key' digest note' now,
    db_approvals (db w) !! strip approval_id = Some a /\ pending a /\ ap_run_id a = rid /\
    db_runs (db w) !! rid = Some run /\ run_user_id run = user /\ run_state run = APPROVAL_REQUIRED /\
    db_approvals d' = <[strip approval_id := decided_approval approved key' digest note' now a]>
                        (db_approvals (db w)).
Proof.
  intros Hk Happ d'. subst d'. pattern (db_approvals (db (approve user rid approval_id approved note key w).2)).
  match goal with |- ?Q _ => set (verdict := Q) end. unfold approve.
  unfold bind at 1. destruct (_owned_run user rid w) as [[run|e] w1] eqn:Eo; cycle 1.
  { unfold verdict. left. pose proof (owned_run_keeps (approvals_are (db_approvals (db w))) user rid w eq_refl) as Hf.
    by rewrite Eo in Hf. }
  apply owned_run_inv in Eo as (-> & Hr & Hu). pose proof (Hk _ _ Hr) as ->.
  unfold bind at 1, lift at 1. destruct (_bounded_token approval_id _ _) as [aid|e] eqn:Ea; [|by unfold verdict; left].
  apply bounded_token_Ok in Ea as ->.
  unfold bind at 1, lift at 1. destruct (_bounded_token _ _ _) as [key'|e] eqn:Ek; [|by unfold verdict; left].
  match goal with |- context [decide_approval _ _ _ _ ?dg ?n] => set (digest := dg); set (note' := n) end.
  unfold bind at 1. destruct (decide_approval _ _ _ _ _ _ w) as [[decided|e] w1] eqn:Ed; cycle 1.
  { unfold verdict. left. apply decide_approval_Err in Ed. simpl. by rewrite Ed. }
  match goal with |- context [bind ?m ?k w1] =>
    assert (db_approvals (db (bind m k w1).2) = db_approvals (db w1)) as -> end.
  { match goal with |- context [bind ?m ?k w1] =>
      assert (keeps (approvals_are (db_approvals (db w1))) (bind m k)) as Hf; [|by apply Hf] end.
    repeat keeps_step. }
  destruct (decide_approval_Ok _ _ _ _ _ _ _ _ _ Happ Ed) as (a0 & run0 & Ha & Hr0 & Hown & Hcase).
  destruct Hcase as [(_ & _ & -> & _)|(Hp & Hst & -> & _ & ->)]; unfold verdict; [by left|]. right.
  exists a0, run0, key', digest, note', (clock (ticks w)).
  assert (run0 = run) as -> by congruence. by split_and!.
Qed.

Lemma resolved_authorization rid cid revision remote branch p w w' :
  approvals_wf (db w) ->
  resolve_push_authorization rid cid revision remote branch w = (Ok (Some p), w') ->
  db w' = db w /\
  exists a, db_approvals (db w) !! pu_approval_id p = Some a /\ ap_status a = "APPROVED" /\
    is_Some (ap_decision_key a) /\ ap_run_id a = rid /\ ap_cycle_id a = cid /\ ap_kind a = "git_push" /\
    pu_approved p = true /\
    pu_revision p = ap_revision a /\ pu_remote p = ap_remote a /\ pu_branch p = ap_branch a /\
    ((pu_revision p = strip revision /\ pu_remote p = strip remote /\ pu_branch p = strip branch) \/
     exists x y, x <> y /\ sha256_hex x = sha256_hex y).
Proof.
  intros Happ. unfold resolve_push_authorization. intros Hi. ok_inv; [done|done|].
  destruct (request_approval_Ok _ _ _ _ _ _ _ _ _ Happ Hx) as [Happ' (Hl & Hc & Hk & Hr & He & Hd)].
  apply negb_false_iff, str_eqb_true in E0.
  destruct Hd as [Hp|Hd]; [by rewrite Hp in E0|]. rewrite Hd in Hl. split; [done|].
  apply rbind_Ok in Hi as (q & Hq & [= <-]).
  assert (q = {| pu_approved := true; pu_approval_id := ap_id x; pu_revision := ap_revision x;
                 pu_remote := ap_remote x; pu_branch := ap_branch x |}) as ->.
  { revert Hq. unfold PushAuthorization_post_init. repeat (destruct (blank _); [done|]). by intros [= <-]. }
  exists x. cbn. destruct (appr_rows _ Happ _ _ Hl) as [_ _ _ [[Hp _]|[_ Hkey]]]; [by rewrite Hp in E0|].
  split_and!; try done. unfold envelope_of in He. rewrite Hk in He.
  destruct (envelope_digest_inj _ _ _ _ _ _ _ _ He) as [(_ & ? & ? & ?)|?]; [by left|by right].
Qed.

(** C35. A push is authorised for exactly the envelope its owner approved: when
    [resolve_push_authorization] returns an authorization it has written nothing, a
    row of the approvals of this run and cycle was decided with APPROVED for a push,
    the authorization carries that row's revision, remote and branch, and these are
    the ones that were asked for, unless two texts with the same SHA-256 digest are
    known. *)
Theorem push_authorization_exact rid cid revision remote branch p w w' :
  approvals_wf (db w) ->
  resolve_push_authorization rid cid revision remote branch w = (Ok (Some p), w') ->
  db w' = db w /\
  exists a, db_approvals (db w) !! pu_approval_id p = Some a /\ ap_status a = "APPROVED" /\
    is_Some (ap_decision_key a) /\ ap_run_id a = rid /\ ap_cycle_id a = cid /\ ap_kind a = "git_push" /\
    pu_approved p = true /\
    pu_revision p = ap_revision a /\ pu_remote p = ap_remote a /\ pu_branch p = ap_branch a /\
    ((pu_revision p = strip revision /\ pu_remote p = strip remote /\ pu_branch p = strip branch) \/
     exists x y, x <> y /\ sha256_hex x = sha256_hex y).
Proof. apply resolved_authorization. Qed.
End Decisions.

(** ** A run that waits for the approval of its push *)

Lemma approvals_wf_empty `{Env} d : db_approvals d = ∅ -> approvals_wf d.
Proof. intros He. split; rewrite He; intros *; rewrite ?lookup_empty; done. Qed.

Definition demo_waiting : World := @exec_all demo_env
  (demo_ops ++ [Transition "factory_0" APPROVAL_REQUIRED SYSTEM "push" "ask" [] None]) demo_start.
Definition demo_asked : World := (@request_approval demo_env "factory_0" "cycle_2" "git_push" "r1"
  "origin" "main" demo_waiting).2.
Definition demo_approved : World :=
  (@approve demo_env "u1" "factory_0" "fapproval_26" true None None demo_asked).2.
#[local] Abbreviation demo_push w :=
  (@resolve_push_authorization demo_env "factory_0" "cycle_2" "r1" "origin" "main" w).

Lemma demo_asked_wf : @approvals_wf demo_env (db demo_asked).
Proof.
  assert (is_ok (@request_approval demo_env "factory_0" "cycle_2" "git_push" "r1" "origin" "main"
    demo_waiting).1 = true) as Hok by (vm_compute; reflexivity).
  unfold demo_asked. destruct (request_approval _ _ _ _ _ _ demo_waiting) as [[a|e] w'] eqn:E;
    [|discriminate Hok].
  refine (proj1 (request_approval_Ok _ _ _ _ _ _ _ _ _ _ E)).
  apply approvals_wf_empty. vm_compute. reflexivity.
Qed.
Lemma demo_asked_keyed : keyed (db_runs (db demo_asked)).
Proof.
  assert (map_Forall (fun i r => run_id r = i) (db_runs (db demo_asked))) as Hk by by_evaluation.
  exact Hk.
Qed.

Lemma demo_waiting_sound : @sound_system demo_env anything (db demo_waiting) (db demo_waiting).
Proof.
  split; [apply wf_sound|apply approvals_wf_empty; vm_compute; reflexivity].
  refine (proj1 (exec_all_wf anything _ _ _ _ _)); [done|apply anything_goes|].
  apply fresh_wf. exact demo_fresh.
Qed.
Lemma demo_approved_wf : @approvals_wf demo_env (db demo_approved).
Proof.
  refine (proj2 (approve_keeps anything (db demo_waiting) _ _ _ _ _ _ _ demo_asked _)); [done|].
  exact (request_approval_keeps anything (db demo_waiting) _ _ _ _ _ _ demo_waiting demo_waiting_sound).
Qed.

Theorem decision_is_final_witness :
  exists a key digest note now, pending a /\
    db_approvals (db demo_approved) = <["fapproval_26" := decided_approval true key digest note now a]>
      (db_approvals (db demo_asked)).
Proof.
  destruct (@decision_is_final demo_env "u1" "factory_0" "fapproval_26" true None None demo_asked
    demo_asked_keyed demo_asked_wf) as [Hsame|(a & run & key & digest & note & now & _ & Hp & _ & _ & _ & _ & Hd)].
  - exfalso. apply (f_equal (fun t => ap_status <$> t !! "fapproval_26")) in Hsame. vm_compute in Hsame.
    discriminate Hsame.
  - exists a, key, digest, note, now. split; [exact Hp|exact Hd].
Defined.

Theorem push_authorization_exact_witness :
  exists p, (demo_push demo_approved).1 = Ok (Some p) /\
    exists a, db_approvals (db demo_approved) !! pu_approval_id p = Some a /\ ap_status a = "APPROVED" /\
      pu_revision p = ap_revision a.
Proof.
  assert (match (demo_push demo_approved).1 with Ok (Some _) => true | _ => false end = true) as Hok
    by (vm_compute; reflexivity).
  destruct (demo_push demo_approved) as [[[p|]|e] w'] eqn:E; try discriminate Hok.
  exists p. split; [reflexivity|].
  destruct (@push_authorization_exact demo_env "factory_0" "cycle_2" "r1" "origin" "main" p demo_approved w'
    demo_approved_wf E) as (_ & a & Ha & Hs & _ & _ & _ & _ & _ & Hr & _).
  exists a. split; [exact Ha|]. split; [exact Hs|exact Hr].
Defined.
