(* ===== verification/FactoryControlSpec.v ===== *)
(** * What the control surface promises

    A pause is undone by a resume, and what [start] checks holds of the policy it
    stores. *)

From S2P Require Import Prelude PyStr Json Redaction FactoryDomain FactoryGates.
From S2P Require Import FactoryVictory Database CapabilityLifecycle FactoryStore FactoryHistory.
From S2P Require Import FactoryStoreFacts FactorySafety FactoryStoreSpec FactoryStoreQueries FactoryFresh.
From S2P Require Import FactoryPhases FactoryGit FactoryCi FactoryPolicy FactoryControl.
From Stdlib Require Import Ascii.

(** ** Pausing and resuming *)

Section Pausing.
Context `{Env}.

(** the states a paused run cannot be resumed to by its user *)
Definition resume_refused (s : FactoryState) : bool :=
  bool_decide (s ∈ [RECOVERING; COMMITTING; CYCLE_COMPLETE]).

Lemma resume_verdict s res :
  ~ terminal s -> ~ waiting s ->
  if resume_refused s
  then exists m, validate_factory_transition PAUSED s USER
         (effective_resumable PAUSED (Some s) res) false = Err (InvalidFactoryTransition m)
  else legal_transition PAUSED s USER (effective_resumable PAUSED (Some s) res) false.
Proof.
  intros Ht Hw. change (effective_resumable PAUSED (Some s) res) with (Some s).
  destruct (resume_refused s) eqn:E.
  - destruct s; try discriminate E; eexists; vm_compute; reflexivity.
  - apply legal_resume; [by left| |done|by right|]; unfold control_target, system_only.
    + intros [-> |[-> |[-> | ->]]]; [discriminate E|by apply Ht; vm_compute| |]; apply Hw; [by left|by right].
    + intros Hs. exfalso.
      repeat (apply elem_of_cons in Hs as [-> |Hs]; [first [discriminate E|by apply Ht; vm_compute]|]).
      by apply elem_of_nil in Hs.
Qed.

Lemma canonical_pause : exists pd, _canonical_payload
  (transition_intent PAUSED USER "authenticated user paused the factory run" [] None) = Ok pd.
Proof. eexists. vm_compute. reflexivity. Qed.
Lemma canonical_resume t : exists pd, _canonical_payload
  (transition_intent t USER "authenticated user resumed the paused factory run" [] None) = Ok pd.
Proof. destruct t; eexists; vm_compute; reflexivity. Qed.

Lemma owned_run_Ok user rid r w :
  db_runs (db w) !! rid = Some r -> run_user_id r = user -> _owned_run user rid w = (Ok r, w).
Proof.
  intros Hr Hu. unfold _owned_run, get_run, get_run_row, query, gets, bind, ret, required.
  rewrite Hr, Hu, str_eqb_refl. done.
Qed.

(** a new key stays new when another key's event is appended *)
Lemma key_unused_after (es : list FactoryEvent) e rid k k' :
  (forall x, x ∈ es -> ev_run_id x = rid -> ev_key x <> Some k) -> ev_key e = Some k' -> k' <> k ->
  forall x, x ∈ es ++ [e] -> ev_run_id x = rid -> ev_key x <> Some k.
Proof.
  intros Hold Hk Hne x. rewrite elem_of_app, list_elem_of_singleton.
  intros [Hx| ->]; [by apply Hold|]. congruence.
Qed.

(** coming back from a pause restores the machine of an active run *)
Lemma resumed_machine w rid r res :
  wf anything (db w) -> db_runs (db w) !! rid = Some r ->
  resume_refused (run_state r) = false -> ~ waiting (run_state r) ->
  next_resumable PAUSED (run_state r) (Some (run_state r)) None = Ok res ->
  (run_state r, res) = machine_of r.
Proof.
  intros Hwf Hr Hrefused Hw Hres. unfold machine_of. f_equal.
  pose proof (history_ok _ _ _ (log_history _ _ _ (run_logged _ _ Hwf _ _ Hr))) as Hok.
  unfold machine_ok, machine_of in Hok. cbn [fst snd] in Hok.
  apply bool_decide_eq_false in Hrefused. unfold next_resumable in Hres.
  assert (interrupted (run_state r) = false) as Hi
    by (apply interrupted_false; split; [set_solver|done]).
  destruct (run_resumable_state r); [by destruct Hok; congruence|].
  unfold waiting in Hw. rewrite !bool_decide_eq_false_2 in Hres by set_solver. by injection Hres.
Qed.

(** C39. Pausing and resuming are inverse, but for three states: the owner of an
    active run pauses it whatever it is doing, which revokes the task's authority
    and records where it was; resuming then brings it back to exactly the state and
    the resumable state it had.  Only a run paused while it was recovering,
    committing or closing a cycle is refused, and nothing is written: the resume is
    requested in the name of the user, who may not enter these states. *)
Theorem pause_then_resume user rid k1 k2 r w :
  wf anything (db w) -> fresh_ids w -> (forall m n, uuid_hex m = uuid_hex n -> m = n) ->
  blank rid = false -> db_runs (db w) !! rid = Some r -> run_user_id r = user ->
  ~ terminal (run_state r) -> ~ waiting (run_state r) ->
  (forall e, e ∈ db_events (db w) -> ev_run_id e = rid -> ev_key e <> Some ("user-pause:" +:+ k1)) ->
  (forall e, e ∈ db_events (db w) -> ev_run_id e = rid -> ev_key e <> Some ("user-resume:" +:+ k2)) ->
  exists p w1, pause user rid k1 w = (Ok p, w1) /\ run_state p = PAUSED /\
    run_resumable_state p = Some (run_state r) /\ zero_authority (db w1) (strip rid) /\
    if resume_refused (run_state r)
    then exists m w2, resume user rid k2 w1 = (Err (InvalidFactoryTransition m), w2) /\ db w2 = db w1
    else exists q w2, resume user rid k2 w1 = (Ok q, w2) /\ machine_of q = machine_of r.
Proof.
  intros Hwf Hids Hinj Hb Hr Hu Ht Hw Hk1 Hk2.
  pose proof (run_keyed _ _ Hwf _ _ Hr) as Hid. destruct canonical_pause as [pd Hpd].
  destruct (transition_moves rid PAUSED USER _ ("user-pause:" +:+ k1) [] None r pd w Hwf Hids Hb
    (prefixed_key "u"%char "ser-pause:" k1 eq_refl) Hr Hpd Hk1 Ht) as (p & w1 & dg & E1 & Hwf1 & Hmint & Hperf).
  { apply legal_pause; [done|by right|done]. }
  { by left. }
  destruct (performed_lookup _ _ _ _ _ _ _ _ _ _ _ Hid Hperf) as (res & Hres & Hr1 & Hm & Hpid & Hpu).
  injection Hres as <-. injection Hm as Hps Hpr.
  exists p, w1. split_and!; [|done|done|by apply (perf_authority _ _ _ _ _ _ _ _ _ _ _ Hperf)|].
  { unfold pause, bind. rewrite (owned_run_Ok user rid r w Hr Hu), Hid.
    rewrite !bool_decide_eq_false_2 by (unfold waiting in Hw; tauto).
    apply not_true_is_false in Ht. rewrite Ht. exact E1. }
  assert (Hk : forall x, x ∈ db_events (db w1) -> ev_run_id x = rid -> ev_key x <> Some ("user-resume:" +:+ k2)).
  { destruct (perf_event _ _ _ _ _ _ _ _ _ _ _ Hperf) as (e & -> & _ & _ & _ & _ & _ & _ & Hek & _).
    eapply key_unused_after; [exact Hk2|exact Hek|discriminate]. }
  assert (Hresume : resume user rid k2 w1 = transition rid (run_state r) USER
    "authenticated user resumed the paused factory run" ("user-resume:" +:+ k2) [] None w1).
  { unfold resume, bind. rewrite (owned_run_Ok user rid p w1 Hr1), Hps, Hpr, Hpid by congruence. done. }
  rewrite Hresume. clear Hresume. destruct (canonical_resume (run_state r)) as [pd2 Hpd2].
  pose proof (resume_verdict (run_state r) None Ht Hw) as Hverdict. rewrite <-Hpr in Hverdict.
  destruct (resume_refused (run_state r)) eqn:Hrefused.
  - destruct Hverdict as [m Hm']. exists m. rewrite <-Hps in Hm'.
    exact (transition_rejects _ _ _ _ _ _ _ _ _ _ _ (prefixed_key "u"%char "ser-resume:" k2 eq_refl) Hr1 Hpd2 Hk Hm').
  - rewrite <-Hps in Hverdict.
    destruct (transition_moves rid (run_state r) USER _ ("user-resume:" +:+ k2) [] None p pd2 w1 Hwf1
      (fresh_ids_minted _ _ Hinj Hids Hmint) Hb (prefixed_key "u"%char "ser-resume:" k2 eq_refl) Hr1 Hpd2 Hk)
      as (q & w2 & dg2 & E2 & _ & _ & Hperf2).
    { by rewrite Hps. }
    { exact Hverdict. }
    { by left. }
    destruct (performed_lookup _ _ _ _ _ _ _ _ _ _ _ Hpid Hperf2) as (res2 & Hres2 & _ & Hmq & _).
    exists q, w2. split; [exact E2|]. rewrite Hmq. rewrite Hps, Hpr in Hres2.
    eapply resumed_machine; [exact Hwf|exact Hr|exact Hrefused|exact Hw|exact Hres2].
Qed.

End Pausing.

Lemma demo_uuid_inj m n : @uuid_hex demo_env m = @uuid_hex demo_env n -> m = n.
Proof. apply (inj pretty). Qed.
Lemma demo_end_wf : @wf demo_env anything (db demo_end).
Proof.
  destruct (@exec_all_wf demo_env anything demo_ops demo_start) as [Hwf _];
    [done|apply anything_goes|apply fresh_wf; exact demo_fresh|exact Hwf].
Qed.
Lemma unused_key w rid key :
  forallb (fun e => negb (opt_eqb (ev_key e) (Some key))) (db_events (db w)) = true ->
  forall e, e ∈ db_events (db w) -> ev_run_id e = rid -> ev_key e <> Some key.
Proof.
  intros Hall e He _ Hk. apply (forallb_elem_of _ _ _ Hall) in He.
  apply negb_true_iff in He. apply opt_eqb_true in Hk. congruence.
Qed.

Theorem pause_then_resume_witness :
  (exists q w1 w2, @resume demo_env "u1" "factory_0" "k2" w1 = (Ok q, w2) /\
     machine_of q = (VICTORY_JUDGING, None)) /\
  (exists m w1 w2, @resume demo_env "u1" "factory_0" "k2" w1 = (Err (InvalidFactoryTransition m), w2)).
Proof.
  split.
  - assert (match db_runs (db demo_judging) !! "factory_0" with
            | Some r => run_user_id r = "u1" /\ machine_of r = (VICTORY_JUDGING, None)
            | None => False end) as Hrun by (vm_compute; by split).
    destruct (db_runs (db demo_judging) !! "factory_0") as [r|] eqn:Er; [|destruct Hrun].
    destruct Hrun as [Hu Hm]. injection Hm as Hs Hres.
    destruct (@pause_then_resume demo_env "u1" "factory_0" "k1" "k2" r demo_judging demo_judging_wf)
      as (p & w1 & _ & _ & _ & _ & Hthen).
    + apply fresh_ids_bounded; [exact demo_uuid_inj|vm_compute; reflexivity].
    + exact demo_uuid_inj.
    + reflexivity.
    + exact Er.
    + exact Hu.
    + rewrite Hs. vm_compute. discriminate.
    + rewrite Hs. intros [?|?]; discriminate.
    + apply unused_key. vm_compute. reflexivity.
    + apply unused_key. vm_compute. reflexivity.
    + rewrite Hs in Hthen. cbn in Hthen. destruct Hthen as (q & w2 & E & Hm).
      exists q, w1, w2. split; [exact E|]. rewrite Hm. unfold machine_of. rewrite Hs, Hres. reflexivity.
  - assert (match db_runs (db demo_end) !! "factory_0" with
            | Some r => run_user_id r = "u1" /\ run_state r = COMMITTING
            | None => False end) as Hrun by (vm_compute; by split).
    destruct (db_runs (db demo_end) !! "factory_0") as [r|] eqn:Er; [|destruct Hrun].
    destruct Hrun as [Hu Hs].
    destruct (@pause_then_resume demo_env "u1" "factory_0" "k1" "k2" r demo_end demo_end_wf)
      as (p & w1 & _ & _ & _ & _ & Hthen).
    + apply fresh_ids_bounded; [exact demo_uuid_inj|vm_compute; reflexivity].
    + exact demo_uuid_inj.
    + reflexivity.
    + exact Er.
    + exact Hu.
    + rewrite Hs. vm_compute. discriminate.
    + rewrite Hs. intros [?|?]; discriminate.
    + apply unused_key. vm_compute. reflexivity.
    + apply unused_key. vm_compute. reflexivity.
    + rewrite Hs in Hthen. destruct Hthen as (m & w2 & E & _). exists m, w1, w2. exact E.
Defined.

(** ** Starting *)

Section Starting.
Context `{Env}.

Lemma dict_get_setdefault {A} key key' (v : A) d :
  dict_get key (dict_setdefault key' v d) =
  if decide (key = key') then Some (default v (dict_get key' d)) else dict_get key d.
Proof.
  unfold dict_setdefault. destruct (dict_get key' d) as [x|] eqn:E.
  - case_decide; [by subst|done].
  - rewrite dict_get_set. done.
Qed.

Lemma bounded_parallelism_Ok policy p :
  bounded_parallelism policy = Ok p ->
  (forall k, k <> "parallel_model_runs" -> dict_get k p = dict_get k policy) /\
  (policy_flag "implementation_required" true policy = true ->
     exists z, dict_get "parallel_model_runs" p = Some (JInt z) /\ (5 <= z <= 10)%Z).
Proof.
  unfold bounded_parallelism, value_error.
  destruct (policy_flag _ _ _ || _) eqn:E; cycle 1.
  { intros [= <-]. apply orb_false_iff in E as [-> _]. done. }
  set (raw := default _ _). intros Hp.
  assert (exists z, p = dict_set "parallel_model_runs" (JInt z) policy /\ (5 <= z <= 10)%Z) as (z & -> & Hz).
  { assert (exists n, py_int raw = Ok n /\ (if (n <? 5)%Z || (10 <? n)%Z
      then Err (ValueError "factory parallel_model_runs must be between 5 and 10")
      else Ok (dict_set "parallel_model_runs" (JInt n) policy)) = Ok p) as (n & _ & Hn).
    { destruct raw; try done; (destruct (py_int _) as [n|e]; [by exists n|by destruct (conversion_error e)]). }
    destruct (Z.ltb_spec n 5); [done|]. destruct (Z.ltb_spec 10 n); [done|].
    injection Hn as <-. exists n. split; [done|lia]. }
  split; [intros k Hk|intros _; exists z]; rewrite dict_get_set; by case_decide.
Qed.

Lemma push_policy_Ok policy p :
  push_policy policy = Ok p ->
  (forall k, k ∉ ["push_required"; "auto_push_after_victory"; "open_pr_required"] ->
     dict_get k p = dict_get k policy) /\
  (forall k v, dict_get k policy = Some v -> dict_get k p = Some v) /\
  (policy_flag "implementation_required" true policy = true -> dict_get "push_required" policy = None ->
     policy_flag "push_required" false p = true) /\
  (policy_flag "auto_push_after_victory" false p || policy_flag "open_pr_required" false p = true ->
     policy_flag "push_required" false p = true).
Proof.
  unfold push_policy, value_error. cbv zeta. set (impl := policy_flag _ true policy).
  set (q := if impl then _ else _). set (push := policy_flag "push_required" false q).
  assert (Hq : forall k, dict_get k q =
    if decide (k = "push_required") then (if impl then Some (default (JBool true) (dict_get k policy)) else dict_get k policy)
    else dict_get k policy).
  { intros k. unfold q. destruct impl; [rewrite dict_get_setdefault|by case_decide]. by case_decide; subst. }
  set (t := dict_setdefault "open_pr_required" _ _).
  assert (Ht : forall k, k <> "auto_push_after_victory" -> k <> "open_pr_required" -> dict_get k t = dict_get k q).
  { intros k ? ?. unfold t. by rewrite !dict_get_setdefault, !decide_False. }
  assert (Hpush : policy_flag "push_required" false t = push) by (unfold policy_flag, push; by rewrite Ht).
  destruct (policy_flag "auto_push_after_victory" false t) eqn:Ea; destruct push eqn:Ep; cbn [andb negb]; try done;
    destruct (policy_flag "open_pr_required" false t) eqn:Eo; cbn [andb negb]; try done; intros [= <-];
    rewrite Ea, Eo, Hpush; (split_and!; [| | |done]).
  all: try (intros k Hk; rewrite !not_elem_of_cons in Hk; rewrite Ht, Hq, decide_False by tauto; done).
  all: try (intros k v Hk; unfold t; rewrite !dict_get_setdefault;
    repeat case_decide; subst; rewrite ?dict_get_setdefault; repeat case_decide; simplify_eq;
    rewrite ?Hq; repeat case_decide; simplify_eq; rewrite ?Hk; try done; by destruct impl).
  all: intros Hi Hn; try done.
  all: unfold push, policy_flag in Ep; rewrite Hq in Ep; cbn in Ep; rewrite Hi, Hn in Ep; done.
Qed.

Lemma check_budgets_Ok policy budget keys :
  check_budgets policy budget keys = Ok tt ->
  forall k, k ∈ keys -> budget_value policy budget k = JNull \/
    exists z, py_int (budget_value policy budget k) = Ok z /\ (0 < z)%Z.
Proof.
  unfold value_error. induction keys as [|k0 keys IH]; cbn [check_budgets]; [by intros _ k ?%elem_of_nil|].
  intros Hc.
  assert ((budget_value policy budget k0 = JNull \/
    exists z, py_int (budget_value policy budget k0) = Ok z /\ (0 < z)%Z) /\
    check_budgets policy budget keys = Ok tt) as [Hk0 Hrest].
  { destruct (budget_value policy budget k0) eqn:Eb; [by auto|..];
      (destruct (py_int _) as [n|e]; [|by destruct (conversion_error e)]);
      (destruct (Z.leb_spec n 0); [done|]); (split; [right; by exists n|done]). }
  intros k [->|Hk]%elem_of_cons; [done|by apply IH].
Qed.

(** What a started run can count on: [start] raises before anything is stored
    unless its preflight accepts the configuration, and an accepted policy bounds
    the model runs of an implementing mission by 5 and 10 and names its model, has a
    verification contract for the acceptance criteria and a CI contract that parse,
    pushes and opens pull requests automatically only when a push is required (an
    implementing mission requires one unless it says otherwise), overrides nothing
    the caller set but the parallelism, and every configured budget is a positive
    number. *)
Theorem start_preflight peer user ws mission criteria policy budget model key w :
  match preflight criteria policy budget model with
  | Err e => start peer user ws mission criteria policy budget model key w = (Err e, w)
  | Ok p =>
      (policy_flag "implementation_required" true policy = true ->
         blank (default "" model) = false /\
         (exists z, dict_get "parallel_model_runs" p = Some (JInt z) /\ (5 <= z <= 10)%Z) /\
         (dict_get "push_required" policy = None -> policy_flag "push_required" false p = true)) /\
      (policy_flag "auto_push_after_victory" false p || policy_flag "open_pr_required" false p = true ->
         policy_flag "push_required" false p = true) /\
      is_ok (verification_specs (JObj p) criteria) = true /\ is_ok (_ci_policy (JObj p)) = true /\
      (forall k v, k <> "parallel_model_runs" -> dict_get k policy = Some v -> dict_get k p = Some v) /\
      (forall k, k ∈ budget_keys -> budget_value p budget k = JNull \/
         exists z, py_int (budget_value p budget k) = Ok z /\ (0 < z)%Z)
  end.
Proof.
  unfold start, bind, lift. destruct (preflight criteria policy budget model) as [p|e] eqn:E; [|done].
  unfold preflight in E. destruct (_ && _) eqn:Em; [done|].
  apply rbind_Ok in E as (q & Hq & E). apply rbind_Ok in E as (t & Ht & E).
  apply rbind_Ok in E as (ss & Hss & E). apply rbind_Ok in E as (ci & Hci & E).
  apply rbind_Ok in E as ([] & Hb & [= <-]).
  destruct (bounded_parallelism_Ok _ _ Hq) as [Hq1 Hq2].
  destruct (push_policy_Ok _ _ Ht) as (Ht1 & Ht2 & Ht3 & Ht4).
  assert (policy_flag "implementation_required" true q = policy_flag "implementation_required" true policy) as Hi
    by (unfold policy_flag; by rewrite Hq1).
  split_and!.
  - intros Himpl. rewrite Himpl in Em. split_and!; [done| |].
    + destruct (Hq2 Himpl) as (z & Hz & ?). exists z. split; [by apply Ht2|done].
    + intros Hn. apply Ht3; [congruence|by rewrite Hq1].
  - exact Ht4.
  - by rewrite Hss.
  - by rewrite Hci.
  - intros k v Hk Hv. apply Ht2. by rewrite Hq1.
  - by apply check_budgets_Ok.
Qed.
End Starting.

Definition demo_start_policy : dict := as_dict (demo_policy "more tests").

Theorem start_preflight_witness :
  (exists p, @preflight demo_env ["a"; "b"] demo_start_policy [("max_cycles", JInt 3)] (Some "model") = Ok p /\
     @policy_flag demo_env "push_required" false p = true) /\
  @start demo_env id "u1" "ws1" "mission" ["a"; "b"] demo_start_policy [("max_cycles", JInt 0)] (Some "model")
    None demo_start = (Err (ValueError "factory budget max_cycles must be a positive integer"), demo_start).
Proof.
  split.
  - pose proof (@start_preflight demo_env id "u1" "ws1" "mission" ["a"; "b"] demo_start_policy
      [("max_cycles", JInt 3)] (Some "model") None demo_start) as Hs.
    destruct (preflight _ _ _ _) as [p|e] eqn:E; [|vm_compute in E; discriminate E].
    exists p. split; [reflexivity|]. destruct Hs as (Himpl & _).
    destruct Himpl as (_ & _ & Hpush); [vm_compute; reflexivity|]. apply Hpush. vm_compute. reflexivity.
  - pose proof (@start_preflight demo_env id "u1" "ws1" "mission" ["a"; "b"] demo_start_policy
      [("max_cycles", JInt 0)] (Some "model") None demo_start) as Hs.
    destruct (preflight _ _ _ _) as [p|e] eqn:E; vm_compute in E; [discriminate E|].
    injection E as <-. exact Hs.
Defined.
