(* ===== verification/FactoryProduction.v ===== *)
(** * The production phases

    Models the machine-owned handlers of [cptr/services/factory_production.py]:
    baselining with its mutation lane, committing, pushing, the pull request, CI and
    the completion of a cycle, and the table of handlers the orchestrator is built
    with.  Git, processes, the GitHub CLI, workspaces and the direct workers are
    parameters on a world [R]; the handlers of agents are arbitrary. *)

From S2P Require Import Prelude PyStr Json Redaction FactoryDomain FactoryGates.
From S2P Require Import FactoryVictory Database CapabilityLifecycle FactoryStore FactoryHistory.
From S2P Require Import FactoryStoreFacts FactoryFrames FactorySafety FactoryStoreSpec FactoryPhases.
From S2P Require Import FactoryGit FactoryWorkers FactoryCi FactoryLifecycle FactoryOrchestrator.
From S2P Require Import FactoryPolicy FactoryVerification FactoryCapabilities FactoryControl.
From Stdlib Require Import Ascii.

(** [except (ValueError, FactoryCiError)], [except (DirectCodingWorkerError, FactoryWorkerError)]
    and [except FactoryCiError] *)
Definition policy_exception (e : exn) : bool :=
  match e with ValueError _ | FactoryCiError _ => true | _ => false end.
Definition lane_exception (e : exn) : bool :=
  match e with DirectCodingWorkerError _ | FactoryWorkerError _ => true | _ => false end.
Definition ci_exception (e : exn) : bool := match e with FactoryCiError _ => true | _ => false end.
Definition ci_code (e : exn) : string := match e with FactoryCiError c => c | _ => "" end.

Section Helpers.
Context `{Env}.

(** [(value or {})], asked for its [get] *)
Definition dict_or_empty (v : json) : result dict :=
  match v with
  | JObj fields => Ok fields
  | _ => if truthy v then Err (AttributeError "get") else Ok []
  end.
(** the policy's repository path *)
Definition repo_path_of (run : FactoryRun) : result string :=
  let? policy := dict_or_empty (run_policy run) in
  _safe_relative (get "repo_path" policy) "repo_path" ".".

Definition newline : string := String (chr 10) "".
(** the characters at which [str.splitlines] splits *)
Definition is_line_end (c : ascii) : bool :=
  let z := code c in ((10 <=? z) && (z <=? 13) || (28 <=? z) && (z <=? 30))%Z.
(** [s.splitlines()[-1]] for a text that does not end in a line end *)
Fixpoint last_line_from (current s : string) : string :=
  match s with
  | EmptyString => current
  | String c s => if is_line_end c then last_line_from "" s else last_line_from (current +:+ String c "") s
  end.
Definition last_line (s : string) : result string :=
  if empty_str s then Err (IndexError "list index out of range") else Ok (last_line_from "" s).
(** [ProductionPullRequestPhaseHandler._pull_request_number] *)
Definition _pull_request_number (url : string) : json :=
  let token := List.last (split_on "/"%char (str_rev (lstrip_slashes (str_rev url)))) "" in
  if isdigit token then match parse_int token with Some n => JInt n | None => JNull end else JNull.

(** ** Calling the GitHub CLI *)

(** what the handler passes to [gh.run_gh], whose signature is
    [run_gh(args, *, identity, cwd=None, check=True, timeout=20)] *)
Inductive GhArgument :=
  | GhArgs (args : list string)
  | GhIdentity (user_id : string).
(** the arguments of a call bound to that signature *)
Definition bind_run_gh (positional : list GhArgument) (identity : option string)
    : result (list string * string) :=
  match positional with
  | [GhArgs args] =>
      match identity with
      | Some i => Ok (args, i)
      | None => Err (TypeError "run_gh() missing 1 required keyword-only argument: 'identity'")
      end
  | _ => Err (TypeError ("run_gh() takes 1 positional argument but "
                           +:+ str_of_int (Z.of_nat (length positional)) +:+ " were given"))
  end.
End Helpers.

Section Production.
Context `{Env} {R : Type} (git : GitAdapter R) (service : WorkerService R).
Context (loader : string -> string -> M R string) (terminate : string -> string -> Z -> M R bool).
Context (max_read_only : Z).
(** [Workspace.get_by_user]: the identifiers and paths of a user's workspaces *)
Context (workspaces_of : string -> M R (list (string * string))).
(** [Path(text).resolve()], [git_utils.repository_root] and the root of a direct worker *)
Context (resolve repository_root : string -> M R string).
Context (resolve_worker_root : string -> string -> string -> M R string).
(** [DirectCodingWorkerService.list] *)
Context (list_workers : string -> string -> M R (list dict)).
(** a process, and the text of an exception *)
Context (spawn : string -> list string -> string -> M R ProcessResult) (python : string).
Context (exc_text : exn -> string).
(** the GitHub CLI: its process for the pull requests (arguments, user, directory) and
    the one of the CI provider *)
Context (gh_process : list string -> string -> string -> M R string).
Context (gh_executable : string) (gh_run : list string -> M R (Z * string)).

(** ** Where a run's repository is *)

(** [_workspace]: the path of the run's workspace *)
Definition run_workspace (run : FactoryRun) : M R string :=
  let* workspaces := workspaces_of (run_user_id run) in
  match List.find (fun w => str_eqb w.1 (run_workspace_id run)) workspaces with
  | Some w => ret w.2
  | None => raise (KeyError "factory run workspace not found")
  end.
(** [_repo_root] *)
Definition _repo_root (run : FactoryRun) : M R string :=
  let* workspace := run_workspace run in
  let* repo_path := lift (repo_path_of run) in
  let* base := resolve workspace in
  let* requested := resolve (joined_path base repo_path) in
  let* root := resolve workspace in
  raise_if negb (inside root requested) as ValueError "factory repo_path escapes workspace" in
  repository_root requested.
(** [_verification_root] *)
Definition _verification_root (c : PhaseContext) : M R string :=
  if has_key (mutation_worker_id (pc_cycle c)) then
    resolve_worker_root (run_user_id (pc_run c)) (run_workspace_id (pc_run c))
      (default "" (mutation_worker_id (pc_cycle c)))
  else _repo_root (pc_run c).

(** ** Accepting the mission, and fixed steps *)

(** [MissionPhaseHandler.execute] *)
Definition mission_execute (c : PhaseContext) : result PhaseOutcome :=
  let? artifact := machine_artifact "mission-accepted" "mission_profile" "factory-production" None None
    [("acceptance_count", JInt (len_list (run_acceptance_criteria (pc_run c))))] in
  outcome_with (Some RECOVERING) "authenticated factory mission accepted for durable recovery/baseline"
    [artifact] None None.

(** an outcome with updates of the cycle and a target *)
Definition outcome_updating (next : FactoryState) (reason : string) (updates : dict)
    (target : option (string * string)) (artifacts : list PhaseArtifact) : result PhaseOutcome :=
  PhaseOutcome_post_init
    {| po_reason := reason; po_next_state := Some next; po_artifacts := artifacts; po_gates := [];
       po_cycle_updates := updates; po_run_next_action := None; po_target_revision := fst <$> target;
       po_target_fingerprint := snd <$> target; po_failure := None; po_victory_decision := None |}.
(** [DeterministicPhaseHandler.execute] *)
Definition deterministic_execute (next : FactoryState) (reason : string) (updates : dict)
    : result PhaseOutcome := outcome_updating next reason updates None [].
(** an outcome that blocks the run, and names the reason as its next action *)
Definition blocked (reason : string) : result PhaseOutcome :=
  outcome_with (Some BLOCKED) reason [] (Some reason) None.

(** ** Baselining *)

Definition mutation_of_cycle (c : PhaseContext) (a : FactoryWorkerAssignment) : bool :=
  str_eqb (wa_cycle_id a) (cycle_id (pc_cycle c)) && is_mutation a.
(** [_active_mutation_assignment] *)
Definition _active_mutation_assignment (c : PhaseContext) : M World (option FactoryWorkerAssignment) :=
  let* rows := list_for_run (run_id (pc_run c)) in
  ret (List.find (fun a => mutation_of_cycle c a && negb (bool_decide (wa_status a = CLOSED))) rows).
(** [_ensure_mutation_assignment] *)
Definition _ensure_mutation_assignment (c : PhaseContext) : M (World * R) FactoryWorkerAssignment :=
  let run := pc_run c in
  let* assignment := on_left (_active_mutation_assignment c) in
  match assignment with
  | Some a => ret a
  | None =>
      let responsibility := "dark-factory:" +:+ run_id run +:+ ":" +:+ cycle_id (pc_cycle c) in
      let* repo_path := lift (repo_path_of run) in
      let* summaries := on_right (list_workers (run_user_id run) (run_workspace_id run)) in
      match List.find (fun s => says s "responsibility" responsibility && negb (says s "status" "CLOSED"))
              summaries with
      | Some summary =>
          match dict_get "worker_id" summary with
          | Some worker => assign_mutation service run (pc_cycle c) (py_str worker) repo_path ["."]
          | None => raise (KeyError "worker_id")
          end
      | None => create_mutation_worker service loader run (pc_cycle c) repo_path ["."] "factory-mutation"
      end
  end.

(** the outcome of a captured baseline *)
Definition baseline_outcome (c : PhaseContext) (specs : list FactoryVerificationSpec)
    (revision fingerprint : string) (assignment : option FactoryWorkerAssignment) (baseline : PhaseArtifact)
    : result PhaseOutcome :=
  let updates := [("base_revision", JStr revision); ("base_fingerprint", JStr fingerprint);
                  ("gate_plan", _gate_plan (run_acceptance_criteria (pc_run c)) specs)] in
  let? worker := match assignment with
    | None => Ok []
    | Some a =>
        let? artifact := machine_artifact "mutation-worker" "factory_worker" "direct-coding-worker"
          (wa_base_revision a) None
          [("worker_id", opt_str (wa_worker_id a)); ("branch", opt_str (wa_branch a));
           ("prepared_at", JStr "BASELINING")] in
        Ok [artifact]
    end in
  outcome_updating UNDERSTANDING
    "repository baseline, machine gate plan, and isolated execution lane captured"
    (updates ++ match assignment with Some a => [("mutation_worker_id", opt_str (wa_worker_id a))] | None => [] end)
    (Some (revision, fingerprint)) (baseline :: worker).

(** the mutation lane of a baseline: [None] if the policy needs none, or the reason why
    there is none *)
Definition baseline_lane (c : PhaseContext) (revision : string)
    : M (World * R) (string + option FactoryWorkerAssignment) :=
  if policy_flag "implementation_required" true (as_dict (run_policy (pc_run c))) then
    catch (let* a := _ensure_mutation_assignment c in
           ret (if negb (opt_eqb (wa_base_revision a) (Some revision)) then
                  inl "isolated mutation lane base revision differs from the captured repository baseline"
                else inr (Some a)))
      lane_exception
      (fun e => ret (inl (str_take 4000
         ("isolated mutation lane could not be prepared from the clean baseline: " +:+ exc_text e))))
  else ret (inr None).

(** [BaselinePhaseHandler.execute] *)
Definition baseline_execute (c : PhaseContext) : M (World * R) PhaseOutcome :=
  let policy := run_policy (pc_run c) in
  match (let? specs := verification_specs policy (run_acceptance_criteria (pc_run c)) in
         let? _ := _ci_policy policy in Ok specs) with
  | Err e => if policy_exception e then lift (blocked (str_take 4000 (exc_text e))) else raise e
  | Ok specs =>
      let* root := on_right (_repo_root (pc_run c)) in
      let* revision := on_right (git_current_revision git root) in
      let* fingerprint := on_right (git_workspace_fingerprint git root) in
      let* baseline := lift (
        let? repo_path := repo_path_of (pc_run c) in
        machine_artifact "baseline" "repository_baseline" "cptr-git" (Some revision) (Some fingerprint)
          [("repo_path", JStr repo_path)]) in
      let* lane := baseline_lane c revision in
      lift (match lane with
            | inl reason => blocked reason
            | inr assignment => baseline_outcome c specs revision fingerprint assignment baseline
            end)
  end.

(** ** Committing *)

(** [ProductionCommitPhaseHandler.execute] *)
Definition production_commit_execute (c : PhaseContext) : M (World * R) PhaseOutcome :=
  let run := pc_run c in
  let policy := as_dict (run_policy run) in
  if negb (policy_flag "implementation_required" true policy) then
    lift (outcome_with (Some PUSHING) "commit skipped because run performed no mutation" [] None None)
  else
    let* root := on_right (_verification_root c) in
    let* key := lift (_safe_relative (get "repo_path" policy) "repo_path" ".") in
    let* intent := prepare_commit_intent git (run_id run) (cycle_id (pc_cycle c)) root key
      (str_take 400 (policy_text "commit_message" ("factory: " +:+ str_take 120 (run_mission run)) policy)) in
    let* committed := commit_intent git (ci_id intent) root in
    lift (let? artifact := machine_artifact "git-commit" "git_commit" "cptr-git" (ci_commit_sha committed)
            (target_fingerprint (pc_cycle c))
            [("intent_id", JStr (ci_id committed)); ("commit_sha", opt_str (ci_commit_sha committed))] in
          outcome_with (Some PUSHING) "verified factory diff committed through durable intent" [artifact]
            None None).

(** ** Pushing *)

(** [str(intent.commit_sha or "").strip()] *)
Definition commit_of (i : FactoryCommitIntent) : string := strip (default "" (ci_commit_sha i)).
Definition committed_revision (i : FactoryCommitIntent) : bool :=
  str_eqb (ci_status i) "COMMITTED" && negb (empty_str (commit_of i)).
(** the branch a policy names, or that of the cycle's lane *)
Definition push_branch (c : PhaseContext) : M World string :=
  let named := strip (str_or_empty (get "push_branch" (as_dict (run_policy (pc_run c))))) in
  if negb (empty_str named) then ret named
  else
    let* rows := list_for_run (run_id (pc_run c)) in
    ret (match List.find (mutation_of_cycle c) rows with
         | Some a => default "" (wa_branch a)
         | None => ""
         end).

(** the authorization of a push: the Victory itself if the policy says so, else a user's
    approval of exactly this push *)
Definition push_authorization (c : PhaseContext) (revision remote branch : string)
    : M World (option PushAuthorization) :=
  if policy_flag "auto_push_after_victory" false (as_dict (run_policy (pc_run c))) then
    lift (let? a := PushAuthorization_post_init
            {| pu_approved := true; pu_approval_id := "machine-victory:" +:+ cycle_id (pc_cycle c);
               pu_revision := revision; pu_remote := remote; pu_branch := branch |} in Ok (Some a))
  else resolve_push_authorization (run_id (pc_run c)) (cycle_id (pc_cycle c)) revision remote branch.

(** [ProductionPushPhaseHandler.execute] *)
Definition production_push_execute (c : PhaseContext) : M (World * R) PhaseOutcome :=
  let policy := as_dict (run_policy (pc_run c)) in
  let automatic := policy_flag "auto_push_after_victory" false policy in
  if negb (policy_flag "push_required" false policy) then
    lift (outcome_with (Some PR_CREATING) "push skipped by explicit run policy" [] None None)
  else
    let* intent := on_left (get_intent_for_cycle (cycle_id (pc_cycle c))) in
    if negb (committed_revision intent) then
      lift (outcome_with (Some BLOCKED) "push requires the machine-owned committed Victory revision"
              [] None None)
    else
      let remote := strip (policy_text "push_remote" "origin" policy) in
      let* branch := on_left (push_branch c) in
      if empty_str branch then
        lift (outcome_with (Some BLOCKED) "push_required factory run has no resolved branch" [] None None)
      else
        let* authorization := on_left (push_authorization c (commit_of intent) remote branch) in
        match authorization with
        | None =>
            lift (outcome_with (Some APPROVAL_REQUIRED)
                    "push requires explicit revision-bound user approval" []
                    (Some "approve exact factory push envelope") None)
        | Some a =>
            let* root := on_right (_verification_root c) in
            let* pushed := push_commit git (ci_id intent) root a in
            lift (let? artifact := machine_artifact "git-push" "git_push" "cptr-git" (ci_commit_sha pushed)
                    (target_fingerprint (pc_cycle c))
                    [("remote", opt_str (ci_push_remote pushed)); ("branch", opt_str (ci_push_branch pushed));
                     ("automatic", JBool automatic)] in
                  outcome_with (Some PR_CREATING)
                    (if automatic then "machine-Victory factory commit pushed automatically"
                     else "approved factory commit pushed") [artifact] None None)
        end.

(** ** The pull request *)

(** [gh.run_gh(args, identity, cwd=root)]: the standard output *)
Definition call_gh (args : list string) (user root : string) : M R string :=
  let* (args, user) := lift (bind_run_gh [GhArgs args; GhIdentity user] None) in
  gh_process args user root.
(** [json.loads(text or default)] *)
Definition loads_or (default text : string) : result json :=
  match loads (value_or text default) with
  | Some v => Ok v
  | None => value_error "JSONDecodeError"
  end.

Record PullRequest := {
  pr_url : string;
  pr_number : json;
  pr_base : string;
  pr_title : string;
  pr_created : bool;
}.
(** the open pull request of the branch *)
Definition head_matches (branch : string) (row : json) : bool :=
  match row with JObj fields => str_eqb (field "headRefName" fields) branch | _ => false end.
Definition existing_pull_request (row : json) : PullRequest :=
  let fields := as_dict row in
  {| pr_url := field "url" fields; pr_number := get "number" fields; pr_base := field "baseRefName" fields;
     pr_title := field "title" fields; pr_created := false |}.

(** the base branch: of the policy, or the repository's default *)
Definition pull_request_base (user root : string) (policy : dict) : M R string :=
  let base := field "pr_base" policy in
  let* base :=
    if negb (empty_str base) then ret base
    else
      let* raw := call_gh ["repo"; "view"; "--json"; "defaultBranchRef"] user root in
      let* repository := lift (loads_or "{}" raw) in
      match repository with
      | JObj fields => ret (match get "defaultBranchRef" fields with
                            | JObj ref => field "name" ref
                            | _ => ""
                            end)
      | _ => raise (ValueError "GitHub repository metadata returned a non-object payload")
      end in
  raise_if empty_str base as ValueError "GitHub repository has no resolvable default PR base branch" in
  ret base.

Definition pull_request_title (run : FactoryRun) (policy : dict) : string :=
  str_take 256 (strip (policy_text "pr_title" ("factory: " +:+ str_take 120 (run_mission run)) policy)).
Definition pull_request_body (run : FactoryRun) (revision : string) (policy : dict) : string :=
  str_take 20000 (strip (policy_text "pr_body"
    ("Dark Factory machine Victory completed." +:+ newline +:+ newline
       +:+ "Verified revision: `" +:+ revision +:+ "`" +:+ newline
       +:+ "Factory run: `" +:+ run_id run +:+ "`") policy)).
Definition create_arguments (title body branch base : string) (draft : bool) : list string :=
  ["pr"; "create"; "--title"; title; "--body"; body; "--head"; branch; "--base"; base]
  ++ (if draft then ["--draft"] else []).

(** a new pull request *)
Definition create_pull_request (run : FactoryRun) (root revision branch : string) (policy : dict)
    : M R PullRequest :=
  let user := run_user_id run in
  let* base := pull_request_base user root policy in
  let title := pull_request_title run policy in
  let* raw := call_gh (create_arguments title (pull_request_body run revision policy) branch base
                         (policy_flag "pr_draft" false policy)) user root in
  let* line := lift (last_line (strip raw)) in
  let url := strip line in
  raise_if empty_str url as ValueError "GitHub PR creation returned no URL" in
  ret {| pr_url := url; pr_number := _pull_request_number url; pr_base := base; pr_title := title;
         pr_created := true |}.

(** the body of the handler's [try] *)
Definition find_or_create_pull_request (run : FactoryRun) (root revision branch : string) (policy : dict)
    : M R PullRequest :=
  let* raw := call_gh ["pr"; "list"; "--head"; branch; "--state"; "open"; "--limit"; "10"; "--json";
                       "number,url,headRefName,baseRefName,title"] (run_user_id run) root in
  let* rows := lift (loads_or "[]" raw) in
  match rows with
  | JList rows =>
      match List.find (head_matches branch) rows with
      | Some row => ret (existing_pull_request row)
      | None => create_pull_request run root revision branch policy
      end
  | _ => raise (ValueError "GitHub PR list returned a non-array payload")
  end.

(** the outcome of a pull request *)
Definition pull_request_outcome (c : PhaseContext) (revision branch : string) (pr : PullRequest)
    : result PhaseOutcome :=
  let? artifact := machine_artifact "pull-request" "pull_request" "github-cli" (Some revision)
    (target_fingerprint (pc_cycle c))
    [("number", pr_number pr); ("url", JStr (pr_url pr)); ("head", JStr branch);
     ("base", JStr (pr_base pr)); ("title", JStr (pr_title pr));
     ("existing", JBool (negb (pr_created pr)))] in
  outcome_with (Some CI_VERIFYING)
    (if pr_created pr then "automatic pull request created for machine-Victory revision"
     else "existing pull request reused for machine-Victory revision") [artifact] None None.

(** [ProductionPullRequestPhaseHandler.execute] *)
Definition production_pull_request_execute (c : PhaseContext) : M (World * R) PhaseOutcome :=
  let run := pc_run c in
  let policy := as_dict (run_policy run) in
  let stopped reason := lift (outcome_with (Some BLOCKED) reason [] None None) in
  if negb (policy_flag "open_pr_required" false policy) then
    lift (outcome_with (Some CI_VERIFYING) "pull request creation skipped by explicit run policy"
            [] None None)
  else if negb (policy_flag "push_required" false policy) then
    stopped "open_pr_required requires a pushed Factory revision"
  else
    let* intent := on_left (get_intent_for_cycle (cycle_id (pc_cycle c))) in
    if negb (committed_revision intent) then
      stopped "pull request creation requires the committed Victory revision"
    else
      let* branch := on_left (push_branch c) in
      if empty_str branch then
        stopped "pull request creation could not resolve the pushed Factory branch"
      else
        let* root := on_right (_verification_root c) in
        let* pr := catch (let* pr := on_right (find_or_create_pull_request run root (commit_of intent) branch
                                                 policy) in ret (inr pr))
                     any_exception (fun e => ret (inl e)) in
        match pr with
        | inl e => stopped (str_take 4000 ("automatic pull request creation failed: " +:+ exc_text e))
        | inr pr => lift (pull_request_outcome c (commit_of intent) branch pr)
        end.

(** ** CI *)

(** the provider the CI service is built with *)
Definition github_providers : list (string * CiProvider R) :=
  [("github", observe gh_executable gh_run)].
Definition ci_failed (reason code summary : string) (gate : option string) (artifacts : list PhaseArtifact)
    : result PhaseOutcome :=
  let? failure := PhaseFailure_post_init
    {| pf_category := FAIL_CI; pf_code := code; pf_summary := summary; pf_gate_id := gate |} in
  outcome_with None reason artifacts None (Some failure).

(** the first discovered run of a workflow *)
Definition latest_run (discovered : list CiRunIdentity) (workflow : string) : option CiRunIdentity :=
  List.find (fun r => str_eqb (cr_workflow r) workflow) discovered.

(** one required workflow, tracked and observed; the exception if CI raised one *)
Definition observe_workflow (c : PhaseContext) (repository revision workflow : string)
    (found : CiRunIdentity) : M (World * R) (exn + FactoryCiRun) :=
  catch (let* tracked := on_left (begin_tracking github_providers (run_id (pc_run c))
           (cycle_id (pc_cycle c)) "github" repository revision (cr_external_run_id found)
           (Some workflow) (cr_url found)) in
         let* observed := poll_once github_providers (fci_id tracked) in ret (inr observed))
    ci_exception (fun e => ret (inl e)).

Definition workflow_artifact (c : PhaseContext) (index : Z) (o : FactoryCiRun) : result PhaseArtifact :=
  machine_artifact ("ci-" +:+ str_of_int index) "ci_result" "ci:github" (Some (fci_revision o))
    (target_fingerprint (pc_cycle c))
    [("repository", JStr (fci_repository o)); ("workflow", JStr (fci_check_id o));
     ("external_run_id", JStr (fci_external_run_id o)); ("status", JStr (fci_status o));
     ("conclusion", opt_str (fci_conclusion o)); ("url", opt_str (fci_url o))].

(** what the loop over the workflows collects *)
Record CiSeen := { cs_artifacts : list PhaseArtifact; cs_pending : list string; cs_failed : list string }.
Definition see_workflow (workflow : string) (artifact : option PhaseArtifact) (o : FactoryCiRun)
    (seen : CiSeen) : CiSeen :=
  match artifact with
  | None => {| cs_artifacts := cs_artifacts seen; cs_pending := cs_pending seen ++ [workflow];
               cs_failed := cs_failed seen |}
  | Some a => {| cs_artifacts := cs_artifacts seen ++ [a]; cs_pending := cs_pending seen;
                 cs_failed := cs_failed seen ++
                   if opt_eqb (fci_conclusion o) (Some "SUCCESS") then [] else [workflow] |}
  end.

(** the loop over the required workflows: the exception that ended it, or what it saw *)
Fixpoint observe_workflows (c : PhaseContext) (repository revision : string)
    (discovered : list CiRunIdentity) (index : Z) (workflows : list string) (seen : CiSeen)
    : M (World * R) (exn + CiSeen) :=
  match workflows with
  | [] => ret (inr seen)
  | workflow :: workflows =>
      match latest_run discovered workflow with
      | None => raise (KeyError workflow)
      | Some found =>
          let* observed := observe_workflow c repository revision workflow found in
          match observed with
          | inl e => ret (inl e)
          | inr o =>
              let* artifact := lift (if negb (str_eqb (fci_status o) "COMPLETED") then Ok None
                                     else let? a := workflow_artifact c index o in Ok (Some a)) in
              observe_workflows c repository revision discovered (index + 1) workflows
                (see_workflow workflow artifact o seen)
          end
      end
  end.

(** what was seen, as an outcome *)
Definition ci_seen_outcome (seen : CiSeen) : result PhaseOutcome :=
  if negb (is_nil (cs_failed seen)) then
    ci_failed "required GitHub Actions workflows did not pass" "FACTORY_CI_REQUIRED_WORKFLOW_FAILED"
      ("required CI workflows failed: " +:+ str_join ", " (cs_failed seen)) (Some "ci") (cs_artifacts seen)
  else if negb (is_nil (cs_pending seen)) then
    outcome_with None "required GitHub Actions workflows are still running" [] None None
  else
    outcome_with (Some CYCLE_COMPLETE) "all required exact-revision GitHub Actions workflows passed"
      (cs_artifacts seen) None None.

(** CI of the committed revision *)
Definition observe_ci (c : PhaseContext) (repository : string) (required : list string) (revision : string)
    : M (World * R) PhaseOutcome :=
  let* discovered := catch (let* rows := on_right (discover gh_executable gh_run repository revision) in
                            ret (inr rows)) ci_exception (fun e => ret (inl e)) in
  match discovered with
  | inl e => lift (ci_failed "GitHub Actions discovery failed" (ci_code e) (str_take 4000 (exc_text e)) None [])
  | inr rows =>
      if existsb (fun w => is_none (latest_run rows w)) required then
        lift (outcome_with None "required GitHub Actions workflows are not visible yet" [] None None)
      else
        let* seen := observe_workflows c repository revision rows 0 required
                       {| cs_artifacts := []; cs_pending := []; cs_failed := [] |} in
        lift (match seen with
              | inl e => ci_failed "GitHub Actions observation failed" (ci_code e)
                           (str_take 4000 (exc_text e)) None []
              | inr seen => ci_seen_outcome seen
              end)
  end.

(** [ProductionCiPhaseHandler.execute] *)
Definition production_ci_execute (c : PhaseContext) : M (World * R) PhaseOutcome :=
  match _ci_policy (run_policy (pc_run c)) with
  | Err e => if policy_exception e then
               lift (outcome_with (Some BLOCKED) (str_take 4000 (exc_text e)) [] None None) else raise e
  | Ok None => lift (outcome_with (Some CYCLE_COMPLETE) "CI observation skipped by explicit run policy"
                       [] None None)
  | Ok (Some (repository, required)) =>
      let* intent := catch (let* i := on_left (get_intent_for_cycle (cycle_id (pc_cycle c))) in ret (inr i))
                       any_exception (fun e => ret (inl e)) in
      match intent with
      | inl e => lift (ci_failed "CI requires a durable committed factory revision"
                         "FACTORY_CI_COMMIT_MISSING"
                         ("factory commit lookup failed with " +:+ exn_class e) None [])
      | inr intent =>
          if negb (committed_revision intent) then
            lift (ci_failed "CI requires a completed factory commit" "FACTORY_CI_COMMIT_REQUIRED"
                    "factory CI cannot observe an uncommitted revision" None [])
          else observe_ci c repository required (commit_of intent)
      end
  end.

(** ** The end of a cycle *)

(** the lane of a pushed cycle is closed; a failure of it is only logged *)
Definition close_lane (c : PhaseContext) : M (World * R) unit :=
  let run := pc_run c in
  let* rows := on_left (list_for_run (run_id run)) in
  match List.find (fun a => opt_eqb (wa_worker_id a) (mutation_worker_id (pc_cycle c))) rows with
  | Some a =>
      if bool_decide (wa_status a = CLOSED) then ret tt
      else catch (let* _ := cleanup service loader run (wa_id a) false in ret tt) any_exception (fun _ => ret tt)
  | None => ret tt
  end.
(** [ProductionCycleCompletePhaseHandler.execute] *)
Definition production_cycle_complete_execute (c : PhaseContext) : M (World * R) PhaseOutcome :=
  if has_key (mutation_worker_id (pc_cycle c)) then
    let* result := cancel_run service terminate (pc_run c) 5000 in
    if negb (wq_quiescent result) then
      lift (outcome_with (Some BLOCKED) "factory worker did not quiesce at cycle completion" [] None None)
    else
      let* _ := if policy_flag "push_required" false (as_dict (run_policy (pc_run c)))
                then close_lane c else ret tt in
      lift (cycle_complete_execute c)
  else lift (cycle_complete_execute c).

(** ** The table of handlers *)

(** the capabilities found in a workspace, the float score of a capability, the URL
    parser of the inventory *)
Context (find_skills : string -> M R (list (SkillMeta * string))) (mcp_servers : M R (list json)).
Context (urlsplit : string -> result SplitUrl).
Context (total_score : list CapabilityRequirement -> CapabilityManifest -> Z).
(** the phases of agents, which are arbitrary here *)
Context (agent_execute : FactoryState -> PhaseContext -> M (World * R) PhaseOutcome).
(** what others do until a handler's last interval *)
Context (meanwhile : FactoryState -> PhaseContext -> list (Slice (World * R))).

(** [SkillDiscoveryPhaseHandler.execute] *)
Definition skill_discovery_execute (c : PhaseContext) : M R PhaseOutcome :=
  let* workspace := run_workspace (pc_run c) in
  let* skills := find_skills workspace in
  let* servers := mcp_servers in
  lift (let? manifests := discover_local urlsplit skills servers in skill_discovery_outcome manifests).

(** the phases the machine owns *)
Definition machine_execute (s : FactoryState) : option (PhaseContext -> M (World * R) PhaseOutcome) :=
  match s with
  | MISSION => Some (fun c => lift (mission_execute c))
  | RECOVERING => Some (recovery_execute (Some (fun run => let* _ := reconcile service run in ret tt)))
  | BASELINING => Some baseline_execute
  | SELECTING_FINDING => Some (fun _ => lift (deterministic_execute CAPABILITY_ANALYSIS
      "bounded audit finding selected for the current cycle"
      [("selected_finding", JObj [("source", JStr "mission-and-audit"); ("status", JStr "selected")])]))
  | CAPABILITY_ANALYSIS => Some (fun c => lift (capability_analysis_execute c))
  | SKILL_DISCOVERY => Some (fun c => on_right (skill_discovery_execute c))
  | TRUST_EVALUATION => Some (fun c => lift (trust_evaluation_execute c))
  | SKILL_SELECTION => Some (fun c => lift (skill_selection_execute total_score exc_text c))
  | TARGETED_VERIFYING | FULL_VERIFYING | ADVERSARIAL_REVIEW | SECURITY_REVIEW | LIVE_VERIFYING =>
      Some (fun c => on_right (verification_execute git resolve spawn python _verification_root s c))
  | VICTORY_JUDGING => Some (fun c => lift (victory_judging_execute c))
  | REPAIR_REQUIRED => Some (fun c => lift (repair_execute 2 c))
  | COMMITTING => Some production_commit_execute
  | PUSHING => Some production_push_execute
  | PR_CREATING => Some production_pull_request_execute
  | CI_VERIFYING => Some production_ci_execute
  | CYCLE_COMPLETE => Some production_cycle_complete_execute
  | _ => None
  end.
(** the phases that are left to agents *)
Definition agent_phase (s : FactoryState) : bool :=
  existsb (fun x => bool_decide (x = s))
    [UNDERSTANDING; AUDITING; REPRODUCING; ROOT_CAUSE_ANALYSIS; PLANNING; IMPLEMENTING].
Definition phase_execute (s : FactoryState) : option (PhaseContext -> M (World * R) PhaseOutcome) :=
  if agent_phase s then Some (agent_execute s) else machine_execute s.
(** [build_production_orchestrator]: its handlers *)
Definition production_handlers (s : FactoryState) : option (PhaseHandler (World * R)) :=
  match phase_execute s with
  | Some execute => Some (fun c => {| ex_slices := meanwhile s c;
                                      ex_final := let* outcome := execute c in ret (Some outcome) |})
  | None => None
  end.

(** ** The runner *)

Context (owner_token : string) (lease_ms terminal_quiesce_timeout_ms : Z).
(** whether the runner was closed, and the pause between two phases *)
Context (closed : M R bool) (sleep : M (World * R) unit).

(** [FactoryProductionRunner.__init__]: the bounds of the terminal timeout *)
Definition terminal_timeout (raw : Z) : Z := Z.max 100 (Z.min 120000 raw).

(** [_quiesce_terminal_workers]: what fails is only logged *)
Definition _quiesce_terminal_workers (run : FactoryRun) : M (World * R) unit :=
  catch (let* _ := cancel_run service terminate run terminal_quiesce_timeout_ms in ret tt)
    any_exception (fun _ => ret tt).

(** the [except Exception] of [_run]: the run is blocked, unless it is over *)
Definition block_after (rid : string) (e : exn) : M (World * R) unit :=
  let* current := on_left (get_run rid None) in
  match current with
  | Some run =>
      if is_terminal_factory_state (run_state run) then ret tt
      else
        catch (
          let* _ := on_left (transition rid BLOCKED SYSTEM
                      ("production runner blocked after " +:+ exn_class e)
                      ("production-runner-error:" +:+ rid +:+ ":" +:+ state_value (run_state run) +:+ ":"
                         +:+ str_of_int (run_updated_at run)) [] None) in
          let* after := on_left (get_run rid None) in
          match after with Some r => _quiesce_terminal_workers r | None => ret tt end)
        any_exception (fun _ => ret tt)
  | None => ret tt
  end.

(** [_run]: [None] if it has not ended after [turns] phases *)
Fixpoint _run (turns beats : nat) (rid : string) : M (World * R) (option unit) :=
  match turns with
  | O => ret None
  | S turns =>
      let* stop := on_right closed in
      if stop then ret (Some tt)
      else fun s =>
        match run_once production_handlers owner_token lease_ms beats rid s with
        | (Err e, s') => (let* _ := block_after rid e in ret (Some tt)) s'
        | (Ok None, s') => (Ok None, s')
        | (Ok (Some run), s') =>
            (if is_terminal_factory_state (run_state run) then
               let* _ := _quiesce_terminal_workers run in ret (Some tt)
             else if resting (run_state run) then ret (Some tt)
             else let* _ := sleep in _run turns beats rid) s'
        end
  end.

(** *** Scheduling *)

(** the tasks of a runner that are not done, and whether it is closed *)
Record Runner := { rn_tasks : list string; rn_closed : bool }.
(** [schedule] *)
Definition schedule (rid : string) : M Runner unit :=
  let* closed := gets rn_closed in
  raise_if closed as RuntimeError "factory production runner is closed" in
  let* tasks := gets rn_tasks in
  if is_in rid tasks then ret tt
  else modify (fun r => {| rn_tasks := rn_tasks r ++ [rid]; rn_closed := rn_closed r |}).

(** the runs that ended with lanes of theirs still at work *)
Definition quiesce_ended (rid : string) : M (World * R) unit :=
  let* run := on_left (get_run rid None) in
  match run with
  | Some r => if is_terminal_factory_state (run_state r) then _quiesce_terminal_workers r else ret tt
  | None => ret tt
  end.
Definition schedule_one (run : FactoryRun) : M Runner (list string) :=
  if resting (run_state run) then ret []
  else let* _ := schedule (run_id run) in ret [run_id run].
(** [schedule_active] *)
Definition schedule_active : M ((World * R) * Runner) (list string) :=
  let* ended := on_left (on_left list_terminal_blocking_run_ids) in
  let* _ := on_left (for_each quiesce_ended ended) in
  let* active := on_left (on_left list_recoverable) in
  let* scheduled := on_right (for_each schedule_one active) in
  ret (concat scheduled).

(** *** Stopping what a run owns *)

(** the cancellation of the run's own task (whether it is unresolved), of an agent's
    task (its new description), the agents' tasks by prefix, and the clock of the loop *)
Context (cancel_scheduler : string -> M R bool) (cancel_task : string -> string -> M R json).
Context (list_by_prefix : string -> string -> Z -> M R (list string)).
Context (overdue : M R bool) (remaining_ms : M R Z).

Record FactoryRunQuiescence := {
  qu_quiescent : bool;
  qu_unresolved_tasks : list string;
  qu_unresolved_assignments : list string;
  qu_failed_commands : list string;
}.
Definition _TERMINAL_TASK_STATUSES : list string :=
  ["COMPLETE"; "COMPLETED"; "SUCCEEDED"; "FAILED"; "ERROR"; "CANCELLED"; "COMPLETE_WITH_TOOL_ERRORS";
   "REJECTED"].
(** the status a description of a task shows *)
Definition task_status (description : json) : string :=
  match description with JObj fields => upper (str_or_empty (get "status" fields)) | _ => "" end.

(** one task of the run, if it is unresolved *)
Definition cancel_one_task (user : string) (task : string) : M R (list string) :=
  let* late := overdue in
  if late then ret [task]
  else
    fun r =>
      match cancel_task task user r with
      | (Ok d, r') => (Ok (if is_in (task_status d) _TERMINAL_TASK_STATUSES then [] else [task]), r')
      | (Err e, r') => (Ok (if is_key_error e then [] else [task]), r')
      end.
(** the tasks agents hold for the run; the registry counts as unresolved if it fails *)
Definition registered_tasks (user rid : string) : M R (list string * list string) :=
  catch (let* ids := list_by_prefix user ("factory:" +:+ rid +:+ ":") 500 in
         ret (List.filter (fun i => negb (blank i)) ids, []))
    any_exception (fun _ => ret ([], ["factory-agent-registry"])).

(** [quiesce_run] *)
Definition quiesce_run (rid : string) (timeout_ms : Z) : M (World * R) FactoryRunQuiescence :=
  raise_if (timeout_ms <=? 0)%Z as ValueError "factory quiescence timeout must be positive" in
  let* running := on_right (cancel_scheduler rid) in
  let unresolved := if running then ["factory-runner"] else [] in
  let* run := on_left (get_run rid None) in
  match run with
  | None => ret {| qu_quiescent := is_nil unresolved; qu_unresolved_tasks := unresolved;
                   qu_unresolved_assignments := []; qu_failed_commands := [] |}
  | Some run =>
      let* recorded := on_left (list_execution_task_ids rid 500) in
      let* (held, lost) := on_right (registered_tasks (run_user_id run) rid) in
      let* remains := on_right (for_each (cancel_one_task (run_user_id run)) (sorted_set (recorded ++ held))) in
      let unresolved := unresolved ++ lost ++ concat remains in
      let* remaining := on_right remaining_ms in
      let* workers := cancel_run service terminate run (Z.max 100 remaining) in
      ret {| qu_quiescent := is_nil unresolved && wq_quiescent workers;
             qu_unresolved_tasks := _dedupe unresolved;
             qu_unresolved_assignments := wq_unresolved_assignment_ids workers;
             qu_failed_commands := wq_failed_command_ids workers |}
  end.
End Production.
