(* ===== verification/FactoryStopping.v ===== *)
(** * Stopping a run

    Models the routes of [cptr/routers/factory.py] that halt a run: they have the runner
    settle what the run owns, and only then call the control surface.  A run that is
    stopped is cancelled only after its lanes have settled, and then always; but whose
    run it is is asked only after it was halted. *)

From S2P Require Import Prelude PyStr Json Redaction FactoryDomain FactoryGates.
From S2P Require Import FactoryVictory Database CapabilityLifecycle FactoryStore FactoryHistory.
From S2P Require Import FactoryStoreFacts FactoryFrames FactorySafety FactoryStoreSpec FactoryStoreQueries.
From S2P Require Import FactoryFresh FactoryPhases FactoryGit FactoryWorkers FactoryCi FactoryLifecycle.
From S2P Require Import FactoryOrchestrator FactoryPolicy FactoryVerification FactoryCapabilities FactoryControl.
From S2P Require Import FactoryControlSpec FactoryProduction.
From Stdlib Require Import Ascii.

(** ** Freshness through computations on a pair of worlds *)

Section Pairs.
Context `{Env} {R : Type}.

Definition pmints {A} (m : M (World * R) A) : Prop := forall s, minted s.1 (m s).2.1.

Lemma pmints_left {A} (m : M World A) : mints m -> pmints (on_left m).
Proof. intros Hm [w r]. specialize (Hm w). unfold on_left. simpl in *. by destruct (m w). Qed.
Lemma pmints_right {A} (m : M R A) : pmints (on_right m).
Proof. intros [w r]. unfold on_right. simpl. by destruct (m r). Qed.
Lemma pmints_ret {A} (a : A) : pmints (ret a).
Proof. by intros s. Qed.
Lemma pmints_raise {A} e : pmints (A:=A) (raise e).
Proof. by intros s. Qed.
Lemma pmints_lift {A} (x : result A) : pmints (lift x).
Proof. by intros s. Qed.
Lemma pmints_bind {A B} (m : M (World * R) A) (k : A -> M (World * R) B) :
  pmints m -> (forall a, pmints (k a)) -> pmints (bind m k).
Proof.
  intros Hm Hk s. specialize (Hm s). unfold bind. destruct (m s) as [[a|e] s1]; [|done].
  transitivity s1.1; [done|apply Hk].
Qed.
Lemma pmints_catch {A} (m : M (World * R) A) p h : pmints m -> (forall e, pmints (h e)) -> pmints (catch m p h).
Proof.
  intros Hm Hh s. specialize (Hm s). unfold catch. destruct (m s) as [[a|e] s1]; [done|].
  destruct (p e); [|done]. transitivity s1.1; [done|apply Hh].
Qed.
Lemma pmints_for_each {A B} (f : A -> M (World * R) B) l : (forall x, pmints (f x)) -> pmints (for_each f l).
Proof.
  intros Hf. induction l as [|x l IH]; [apply pmints_ret|].
  apply pmints_bind; [done|]. intros y. apply pmints_bind; [done|]. intros. apply pmints_ret.
Qed.
End Pairs.

#[export] Hint Resolve pmints_right pmints_ret pmints_raise pmints_lift : mints.
Ltac pmints_step :=
  match goal with
  | |- pmints (bind _ _) => apply pmints_bind; [|intros ?]
  | |- pmints (catch _ _ _) => apply pmints_catch; [|intros ?]
  | |- pmints (for_each _ _) => apply pmints_for_each; intros ?
  | |- pmints (if ?c then _ else _) => destruct c
  | |- pmints (match ?o with Some _ => _ | None => _ end) => destruct o
  | |- pmints (on_left _) => apply pmints_left; solve [auto with mints]
  | |- pmints _ => solve [auto with mints]
  end.

Section Stopping.
Context `{Env} {R : Type} (service : WorkerService R) (terminate : string -> string -> Z -> M R bool).
Context (cancel_scheduler : string -> M R bool) (cancel_task : string -> string -> M R json).
Context (list_by_prefix : string -> string -> Z -> M R (list string)).
Context (overdue : M R bool) (remaining_ms : M R Z).
#[local] Abbreviation quiesce_run :=
  (quiesce_run service terminate cancel_scheduler cancel_task list_by_prefix overdue remaining_ms).

(** ** The routes *)

(** what [stop] asks the worker controller, unless it is told that all is quiescent *)
Definition quiesce (run : FactoryRun) (ms : Z) : M (World * R) bool :=
  let* result := cancel_run service terminate run ms in ret (wq_quiescent result).
(** [_quiesce]; [runner] says whether the server has a production runner *)
Definition _quiesce (runner : bool) (rid : string) (timeout_ms : Z) : M (World * R) bool :=
  raise_if negb runner as FactoryControlConflict "FACTORY_EXECUTION_CONTROLLER_UNAVAILABLE" in
  let* result := quiesce_run rid timeout_ms in
  raise_if negb (qu_quiescent result) as FactoryControlConflict "FACTORY_EXECUTION_NOT_QUIESCENT" in
  ret true.
(** [stop_factory_run]; [timeout] is that of the request, [bound] the default *)
Definition stop_factory_run (runner : bool) (bound : Z) (user_id rid key : string) (timeout : option Z)
    : M (World * R) FactoryRun :=
  let timeout_ms := default (Z.min 15000 (Z.max 100 bound)) timeout in
  let* execution_quiescent := _quiesce runner rid timeout_ms in
  stop quiesce user_id rid key timeout_ms execution_quiescent.
(** [pause_factory_run] *)
Definition pause_factory_run (runner : bool) (bound : Z) (user_id rid key : string) : M (World * R) FactoryRun :=
  let* _ := _quiesce runner rid (Z.min 15000 (Z.max 100 bound)) in
  on_left (pause user_id rid key).

(** ** What they do *)

Lemma right_keeps {A} (m : M R A) s x s' : on_right (W:=World) m s = (x, s') -> s'.1 = s.1.
Proof. unfold on_right. destruct (m s.2). by intros [= _ <-]. Qed.
Lemma left_read {A} (m : M World A) (s : World * R) a : m s.1 = (Ok a, s.1) -> on_left m s = (Ok a, s).
Proof. unfold on_left. intros ->. by destruct s. Qed.
Lemma recorded_read rid (s : World * R) x s' : on_left (list_execution_task_ids rid 500) s = (x, s') -> s'.1 = s.1.
Proof.
  unfold on_left, list_execution_task_ids, query, gets, bind, lift. destruct (rows_task_ids _); by intros [= _ <-].
Qed.
Lemma mark_mints aid st : mints (mark aid st).
Proof. unfold mark, set_status. repeat mints_step. Qed.
Lemma terminate_all_mints user ms commands : pmints (terminate_all terminate user ms commands).
Proof. induction commands; simpl; repeat pmints_step. Qed.
#[local] Hint Resolve mark_mints terminate_all_mints : mints.
Lemma cancel_run_mints run ms : pmints (cancel_run service terminate run ms).
Proof. unfold cancel_run, list_for_run, cancel_one, worker_summary. repeat pmints_step. Qed.

Lemma quiesce_run_mints rid ms : pmints (quiesce_run rid ms).
Proof.
  unfold FactoryProduction.quiesce_run.
  destruct (ms <=? 0)%Z; [apply pmints_raise|]. apply pmints_bind; [apply pmints_right|]. intros running. cbv zeta.
  apply pmints_bind; [apply pmints_left; unfold get_run, get_run_row; repeat mints_step|]. intros [run|]; [|apply pmints_ret].
  apply pmints_bind; [apply pmints_left; unfold list_execution_task_ids; repeat mints_step|]. intros recorded.
  apply pmints_bind; [apply pmints_right|]. intros [held lost].
  apply pmints_bind; [apply pmints_right|]. intros remains. apply pmints_bind; [apply pmints_right|]. intros remaining.
  apply pmints_bind; [apply cancel_run_mints|]. intros. apply pmints_ret.
Qed.
(** what [quiesce_run] does to the tables is what [cancel_run] does, after the rest *)
Lemma quiesce_run_steps rid ms r s x s1 :
  db_runs (db s.1) !! rid = Some r -> quiesce_run rid ms s = (x, s1) ->
  only_lanes (db s.1) (db s1.1) /\
  forall q, x = Ok q -> qu_quiescent q = true ->
    exists ms' s0 q', db s0.1 = db s.1 /\ cancel_run service terminate r ms' s0 = (Ok q', s1) /\ wq_quiescent q' = true.
Proof.
  intros Hr. assert (forall w : World, db w = db s.1 -> only_lanes (db s.1) (db w)) as Hsame.
  { intros w ->. exists (db_assignments (db s.1)). by destruct (db s.1). }
  unfold FactoryProduction.quiesce_run. destruct (ms <=? 0)%Z; [intros [= <- <-]; split; [by apply Hsame|done]|].
  unfold bind at 1. destruct (on_right (cancel_scheduler rid) s) as [[running|e] t1] eqn:E1;
    pose proof (right_keeps _ _ _ _ E1) as H1; [|intros [= <- <-]; split; [apply Hsame; by rewrite H1|done]].
  unfold bind at 1. rewrite (left_read (get_run rid None) t1 (Some r)) by (unfold get_run, get_run_row; cbn; by rewrite H1, Hr).
  unfold bind at 1. destruct (on_left (list_execution_task_ids rid 500) t1) as [[recorded|e] t2] eqn:E2;
    pose proof (recorded_read _ _ _ _ E2) as H2; rewrite H1 in H2; [|intros [= <- <-]; split; [apply Hsame; by rewrite H2|done]].
  unfold bind at 1. destruct (on_right (registered_tasks _ _ _) t2) as [[[held lost]|e] t3] eqn:E3;
    pose proof (right_keeps _ _ _ _ E3) as H3; rewrite H2 in H3; [|intros [= <- <-]; split; [apply Hsame; by rewrite H3|done]].
  unfold bind at 1. destruct (on_right (for_each _ _) t3) as [[remains|e] t4] eqn:E4;
    pose proof (right_keeps _ _ _ _ E4) as H4; rewrite H3 in H4; [|intros [= <- <-]; split; [apply Hsame; by rewrite H4|done]].
  unfold bind at 1. destruct (on_right remaining_ms t4) as [[remaining|e] t5] eqn:E5;
    pose proof (right_keeps _ _ _ _ E5) as H5; rewrite H4 in H5; [|intros [= <- <-]; split; [apply Hsame; by rewrite H5|done]].
  unfold bind at 1. destruct (cancel_run service terminate r _ t5) as [[q'|e] t6] eqn:E6;
    pose proof (cancel_run_only service terminate (db s.1) r (Z.max 100 remaining) t5 (Hsame _ (f_equal db H5))) as Honly; rewrite E6 in Honly.
  - intros [= <- <-]. split; [exact Honly|]. intros q [= <-] [_ Hq]%andb_true_iff. exists (Z.max 100 remaining), t5, q'.
    by rewrite H5.
  - intros [= <- <-]. by split.
Qed.

Lemma cancel_always_legal s res :
  ~ terminal s -> legal_transition s CANCELLED USER (effective_resumable s res None) false.
Proof.
  intros Ht. apply validator_spec.
  destruct s; try (exfalso; apply Ht; reflexivity); destruct res as [[]|]; vm_compute; reflexivity.
Qed.
#[local] Abbreviation stop_reason := "authenticated user stopped the factory run after owned execution quiesced".
Lemma canonical_stop : exists pd, _canonical_payload
  (transition_intent CANCELLED USER
     stop_reason [] None) = Ok pd.
Proof. eexists. vm_compute. reflexivity. Qed.

(** tables that differ in their lanes only *)
Lemma only_lanes_wf d0 d : wf anything d0 -> only_lanes d0 d -> wf anything d.
Proof.
  intros Hwf [t ->]. apply (sound_wf _ d0). eapply sound_frame; [exact (wf_sound _ _ Hwf)|done..|].
  intros i. simpl. destruct (db_runs d0 !! i); [|done]. by split_and!; [apply same_run_refl|..].
Qed.

Lemma transition_lanes rid to actor reason key ids w :
  db_assignments (db (transition rid to actor reason key ids None w).2) = db_assignments (db w).
Proof.
  exact (inv_transition anything (table_is db_assignments (db_assignments (db w)))
    (untouched_invariant db_assignments _) rid to actor reason key ids w eq_refl).
Qed.

(** the last step of a stop, once everything is quiescent *)
Lemma stopped_for_sure user rid key ms r s :
  wf anything (db s.1) -> fresh_ids s.1 ->
  blank rid = false -> db_runs (db s.1) !! rid = Some r -> run_user_id r = user -> ~ terminal (run_state r) ->
  (forall e, e ∈ db_events (db s.1) -> ev_run_id e = rid -> ev_key e <> Some ("user-stop:" +:+ key)) ->
  exists p s2, stop quiesce user rid key ms true s = (Ok p, s2) /\ run_state p = CANCELLED /\
    zero_authority (db s2.1) (strip rid) /\ db_assignments (db s2.1) = db_assignments (db s.1).
Proof.
  intros Hwf Hids Hb Hr Hu Ht Hkey. pose proof (run_keyed _ _ Hwf _ _ Hr) as Hid. destruct canonical_stop as [pd Hpd].
  destruct (transition_moves rid CANCELLED USER stop_reason ("user-stop:" +:+ key) [] None r pd s.1
    Hwf Hids Hb (prefixed_key "u"%char "ser-stop:" key eq_refl)) as (p & w2 & dg & E & _ & _ & Hperf);
    [done|done|done|done|by apply cancel_always_legal|by left|].
  exists p, (w2, s.2).
  assert (stop quiesce user rid key ms true s = on_left (transition rid CANCELLED USER stop_reason ("user-stop:" +:+ key) [] None) s) as ->.
  { unfold stop. unfold bind at 1, on_left at 1. rewrite (owned_run_Ok user rid r s.1 Hr Hu).
    cbn beta iota zeta. rewrite bool_decide_eq_false_2 by (intros Hc; apply Ht; by rewrite Hc).
    apply not_true_is_false in Ht. unfold terminal in Ht. rewrite Ht, Hid. by destruct s. }
  unfold on_left. rewrite E. split_and!; [done| |by apply (perf_authority _ _ _ _ _ _ _ _ _ _ _ Hperf)|].
  - destruct (perf_run _ _ _ _ _ _ _ _ _ _ _ Hperf) as (res & _ & ->). done.
  - pose proof (transition_lanes rid CANCELLED USER stop_reason ("user-stop:" +:+ key) [] s.1) as Hl.
    by rewrite E in Hl.
Qed.

End Stopping.

(** ** Witness *)

(** a committing run with one lane whose command terminates *)
Definition demo_working : World * bool := demo_lane "one" ["src"] (demo_end, true).

Lemma demo_working_wf : @wf demo_env anything (db demo_working.1).
Proof. exact (@only_lanes_wf demo_env _ _ demo_end_wf (demo_lane_only "one" ["src"] demo_end true)). Qed.
Lemma demo_working_lanes : lanes_wf (db demo_working.1).
Proof.
  exact (demo_lane_wf "one" ["src"] (demo_end, true) (no_lanes_wf (db demo_end) eq_refl)).
Qed.

(** a runner without tasks, in time *)
#[local] Abbreviation demo_quiesce := (@quiesce_run demo_env bool demo_workers demo_terminate
  (fun _ => ret false) (fun _ _ => ret JNull) (fun _ _ _ => ret []) (ret false) (ret 1000%Z)).
#[local] Abbreviation demo_stop := (@stop_factory_run demo_env bool demo_workers demo_terminate
  (fun _ => ret false) (fun _ _ => ret JNull) (fun _ _ _ => ret []) (ret false) (ret 1000%Z)).


(** Whose run it is is asked last: anybody may halt the work of another user's run. *)
Example strangers_halt_runs :
  let lane s := wa_status <$> db_assignments (db s.1) !! "fworker_25" in
  let stopped := demo_stop true 5000 "stranger" "factory_0" "k" None demo_working in
  stopped.1 = Err FactoryControlNotFound /\ lane demo_working = Some ACTIVE /\ lane stopped.2 = Some QUIESCENT.
Proof. vm_compute. repeat split. Qed.
