(* ===== verification/FactoryProductionSpec.v ===== *)
(** * What the production phases guarantee

    Theorems about [FactoryProduction]: pushes are authorised, the pull request phase
    fails closed, CI passes only on what GitHub reported for the exact revision, the
    phases propose legal moves only, and the runner leaves no run behind. *)

From S2P Require Import Prelude PyStr Json Redaction FactoryDomain FactoryGates.
From S2P Require Import FactoryVictory Database CapabilityLifecycle FactoryStore FactoryHistory.
From S2P Require Import FactoryStoreFacts FactoryFrames FactorySafety FactoryStoreSpec FactoryPhases.
From S2P Require Import FactoryGit FactoryWorkers FactoryCi FactoryLifecycle FactoryOrchestrator.
From S2P Require Import FactoryPolicy FactoryVerification FactoryCapabilities FactoryControl.
From S2P Require Import FactoryApprovals FactoryProduction.
From Stdlib Require Import Ascii.

(** ** Pushing *)

Section Pushing.
Context `{Env} {R : Type} (git : GitAdapter R).
Context (workspaces_of : string -> M R (list (string * string))) (resolve repository_root : string -> M R string).
Context (resolve_worker_root : string -> string -> string -> M R string).
#[local] Abbreviation push := (production_push_execute git workspaces_of resolve repository_root resolve_worker_root).
#[local] Abbreviation root_of := (_verification_root workspaces_of resolve repository_root resolve_worker_root).

Lemma intent_for_cycle_read cid w x w' :
  get_intent_for_cycle cid w = (x, w') ->
  w' = w /\ forall i, x = Ok i -> exists k, db_intents (db w) !! k = Some i /\ ci_cycle_id i = cid.
Proof.
  unfold get_intent_for_cycle, query, gets, bind, scalar_one_or_none, ret, raise, required.
  destruct (intents_of_cycle cid (db w)) as [|i [|j l]] eqn:E; intros [= <- <-]; split; try done.
  intros j [= <-]. assert (i ∈ intents_of_cycle cid (db w)) as Hi by (rewrite E; by left).
  unfold intents_of_cycle in Hi. apply elem_of_select in Hi as [[k Hk]%elem_of_rows Hc%str_eqb_true]. by exists k.
Qed.
(** where a run pushes to: the remote of its policy, "origin" if it names none; and the
    branch of its policy, or that of the first lane that writes in this cycle *)
Definition push_target (c : PhaseContext) (d : Db) (remote branch : string) : Prop :=
  let policy := as_dict (run_policy (pc_run c)) in
  let named := strip (str_or_empty (get "push_branch" policy)) in
  remote = strip (let v := get "push_remote" policy in if truthy v then py_str v else "origin") /\
  (named <> "" /\ branch = named \/
   named = "" /\ exists a, branch = default "" (wa_branch a) /\
     List.find (mutation_of_cycle c) (order_by (by_time_and_id wa_created_at wa_id)
       (select (fun a => str_eqb (wa_run_id a) (run_id (pc_run c))) (rows_of (db_assignments d)))) = Some a).
Lemma push_branch_read c w x w' :
  push_branch c w = (x, w') -> w' = w /\ forall b, x = Ok b -> b <> "" ->
  push_target c (db w) (strip (policy_text "push_remote" "origin" (as_dict (run_policy (pc_run c))))) b.
Proof.
  unfold push_branch, push_target, policy_text, list_for_run, query, gets, bind, ret. cbv zeta.
  destruct (negb _) eqn:En; intros [= <- <-]; (split; [done|]); intros b [= <-] Hb; (split; [done|]).
  - left. by split.
  - right. apply negb_false_iff in En. split; [by destruct (strip _)|]. destruct (List.find _ _) as [a|]; [by exists a|done].
Qed.

(** where the authorization of a push comes from: the policy, for exactly the target it
    names, or a user's approval of exactly this push, the one that was asked for (or a
    collision of the digest that identifies it) *)
Definition authorized_by (c : PhaseContext) (d : Db) (p : PushAuthorization) : Prop :=
  (policy_flag "auto_push_after_victory" false (as_dict (run_policy (pc_run c))) = true /\
   pu_approval_id p = "machine-victory:" +:+ cycle_id (pc_cycle c) /\ push_target c d (pu_remote p) (pu_branch p)) \/
  (exists a, db_approvals d !! pu_approval_id p = Some a /\ ap_status a = "APPROVED" /\
     is_Some (ap_decision_key a) /\ ap_run_id a = run_id (pc_run c) /\
     ap_cycle_id a = cycle_id (pc_cycle c) /\ ap_kind a = "git_push" /\
     pu_revision p = ap_revision a /\ pu_remote p = ap_remote a /\ pu_branch p = ap_branch a /\
     ((exists remote branch, push_target c d remote branch /\ pu_remote p = strip remote /\ pu_branch p = strip branch) \/
      exists x y, x <> y /\ sha256_hex x = sha256_hex y)).

Lemma push_authorization_sound c revision remote branch p w w' :
  approvals_wf (db w) -> push_target c (db w) remote branch ->
  push_authorization c revision remote branch w = (Ok (Some p), w') ->
  db w' = db w /\ authorized_by c (db w) p.
Proof.
  intros Happ Ht. unfold push_authorization. destruct (policy_flag _ _ _) eqn:Ep.
  - intros [(q & Hq & [= <-])%rbind_Ok ->]%lift_Ok. split; [done|]. left. split; [done|].
    revert Hq. unfold PushAuthorization_post_init. repeat (destruct (blank _); [done|]). by intros [= <-].
  - intros Hr. destruct (resolved_authorization _ _ _ _ _ _ _ _ Happ Hr)
      as (Hd & a & Hrow & Hs & Hk & Hrun & Hc & Hkind & _ & Hrev & Hrem & Hbr & Hask).
    split; [done|]. right. exists a. split_and!; try done.
    destruct Hask as [(_ & Hr1 & Hb1)|Hcol]; [left; by exists remote, branch|by right].
Qed.

(** C34. Production pushes only what is authorised: whatever a pushing phase returns or
    raises, it has changed the repositories only by one push of the commit recorded
    for its cycle, at a moment when that commit was the head of the checkout, to the
    remote and branch of an authorization for exactly that commit.  That is either the
    machine's own, when the policy of the run says that a Victory authorises the push,
    and then for the remote and branch that the policy names (the lane of the cycle if it
    names no branch); or an approval on record, decided as APPROVED, of this run, cycle
    and push.  Where the run is pushing, in the tables that the calls of the store make,
    a Victory of the run is on record.  (The resolution of paths and the reading of a head change no
    repository.) *)
Theorem production_push_sound c w r run x s' :
  (forall root r x r', git_current_revision git root r = (x, r') -> r' = r) ->
  (forall r x r', root_of c r = (x, r') -> r' = r) ->
  wf recovery_only (db w) -> approvals_wf (db w) ->
  (forall k i, db_intents (db w) !! k = Some i -> ci_id i = k) ->
  db_runs (db w) !! run_id (pc_run c) = Some run -> run_state run = PUSHING ->
  push c (w, r) = (x, s') -> s'.2 <> r ->
  policy_flag "push_required" false (as_dict (run_policy (pc_run c))) = true /\
  victory_on_record (events_of (run_id (pc_run c)) (db w)) /\
  exists i p root y, db_intents (db w) !! ci_id i = Some i /\ ci_cycle_id i = cycle_id (pc_cycle c) /\
    authorized_by c (db w) p /\ authorized_push git root i p r /\
    git_push git root (pu_remote p) (pu_branch p) r = (y, s'.2).
Proof.
  intros Hhead Hroot Hwf Happ Hkeys Hrun Hstate Hx Hne. unfold production_push_execute in Hx. cbv zeta in Hx.
  destruct (policy_flag "push_required" _ _); cbn [negb] in Hx; [|by injection Hx as _ <-]. split; [done|].
  split.
  { destruct (run_events _ _ _ _ Hwf Hrun) as (_ & Hh & _). apply (gate_holds _ _ Hh). left. unfold machine_of. cbn.
    rewrite Hstate. right. left. }
  destruct (get_intent_for_cycle (cycle_id (pc_cycle c)) w) as [i w0] eqn:Ei.
  destruct (intent_for_cycle_read _ _ _ _ Ei) as [-> Hi].
  rewrite (bind_left _ _ _ _ _ _ Ei) in Hx. destruct i as [i|e]; [|by injection Hx as _ <-].
  destruct (Hi i eq_refl) as (k & Hk & Hc). rewrite <-(Hkeys _ _ Hk) in Hk.
  destruct (negb _); [by injection Hx as _ <-|].
  destruct (push_branch c w) as [b w0] eqn:Eb. destruct (push_branch_read _ _ _ _ Eb) as [-> Htarget].
  rewrite (bind_left _ _ _ _ _ _ Eb) in Hx. destruct b as [b|e]; [|by injection Hx as _ <-].
  destruct (empty_str b) eqn:Eempty; [by injection Hx as _ <-|].
  assert (b <> "") as Hb by by intros ->. specialize (Htarget b eq_refl Hb).
  match type of Hx with context [push_authorization c ?v ?m b] =>
    destruct (push_authorization c v m b w) as [a w1] eqn:Ea end.
  rewrite (bind_left _ _ _ _ _ _ Ea) in Hx. destruct a as [[p|]|e]; [|by injection Hx as _ <-..].
  destruct (push_authorization_sound _ _ _ _ _ _ _ Happ Htarget Ea) as [Hdb Hauth].
  destruct (root_of c r) as [root r1] eqn:Er. pose proof (Hroot _ _ _ Er) as ->.
  rewrite (bind_right _ _ _ _ _ _ Er) in Hx. destruct root as [root|e]; [|by injection Hx as _ <-].
  destruct (push_commit git (ci_id i) root p (w1, r)) as [y s1] eqn:Ep.
  destruct (push_commit_cases git root (Hhead root) (ci_id i) p w1 r y s1) as [Hpush _];
    [intros i0 H0; rewrite Hdb in H0; exact (Hkeys _ _ H0)|exact Ep|].
  assert (s'.2 = s1.2) as Hs.
  { unfold bind, lift in Hx. rewrite Ep in Hx. destruct y; apply pair_equal_spec in Hx as [_ <-]; reflexivity. }
  rewrite Hs in Hne |- *. destruct (Hpush Hne) as (i' & z & Hi' & Hpu & Hg).
  rewrite Hdb, Hk in Hi'. injection Hi' as <-. by exists i, p, root, z.
Qed.
End Pushing.

(** ** The pull request *)

(** The pull request phase cannot succeed: with a policy that requires a pull
    request the phase never moves on to CI; whatever it finds, it blocks the run, with
    no artifact.  The GitHub CLI is called with the user's identity as a second
    positional argument, which its signature refuses, so that no process of it is ever
    started. *)
Theorem pull_request_always_blocks `{Env} {R} (workspaces_of : string -> M R (list (string * string)))
    (resolve repository_root : string -> M R string)
    (resolve_worker_root : string -> string -> string -> M R string) (exc_text : exn -> string)
    (gh_process : list string -> string -> string -> M R string) c s o s' :
  policy_flag "open_pr_required" false (as_dict (run_policy (pc_run c))) = true ->
  production_pull_request_execute workspaces_of resolve repository_root resolve_worker_root exc_text
    gh_process c s = (Ok o, s') ->
  po_next_state o = Some BLOCKED /\ po_artifacts o = [].
Proof.
  intros Hflag. unfold production_pull_request_execute. cbv zeta. rewrite Hflag. cbn [negb]. intros Hx.
  assert (forall reason, lift (outcome_with (Some BLOCKED) reason [] None None) s = (Ok o, s') \/
            (exists s0 : World * R, lift (outcome_with (Some BLOCKED) reason [] None None) s0 = (Ok o, s')) ->
          po_next_state o = Some BLOCKED /\ po_artifacts o = []) as Hstop.
  { intros reason [[Ho _]%lift_Ok|(s0 & [Ho _]%lift_Ok)]; apply outcome_with_Ok in Ho; naive_solver. }
  destruct (negb _); [by eapply Hstop; left|].
  apply bind_Ok in Hx as (i & s1 & _ & Hx). cbv beta in Hx. destruct (negb _); [by eapply Hstop; right; eexists|].
  apply bind_Ok in Hx as (b & s2 & _ & Hx). cbv beta in Hx. destruct (empty_str b); [by eapply Hstop; right; eexists|].
  apply bind_Ok in Hx as (root & s3 & _ & Hx). cbv beta in Hx.
  apply bind_Ok in Hx as ([e|pr] & s4 & Hpr & Hx); cbv beta iota in Hx; [by eapply Hstop; right; eexists|].
  exfalso. destruct s3 as [w3 r3]. by cbn in Hpr.
Qed.

(** ** CI *)

Section Ci.
Context `{Env} {R : Type} (exc_text : exn -> string).
Context (gh_executable : string) (gh_run : list string -> M R (Z * string)).
#[local] Abbreviation ci_execute := (production_ci_execute exc_text gh_executable gh_run).

(** GitHub itself reported, for the commit and the workflow, a run that is over and
    succeeded *)
Record reported_success (repository revision workflow external : string) : Prop := {
  rs_item : exists r r' out item,
    gh_run [gh_executable; "run"; "view"; external; "--repo"; repository; "--json"; fields_argument] r
      = (Ok (0%Z, out), r') /\
    loads out = Some (JObj item) /\
    lower (field "headSha" item) = lower revision /\ workflow_name item = workflow /\
    _status (field "status" item) = Ok "COMPLETED" /\
    _conclusion (or_none (field "conclusion" item)) = Ok (Some "SUCCESS");
}.

Lemma json_Ok argv r v r' :
  _json gh_run argv r = (Ok v, r') -> exists out, gh_run argv r = (Ok (0%Z, out), r') /\ loads out = Some v.
Proof.
  unfold _json. intros ([status out] & r1 & Hrun & Hv)%bind_Ok. cbv beta iota in Hv.
  destruct (status =? 0)%Z eqn:Es; cbn [negb] in Hv; [|done]. apply Z.eqb_eq in Es as ->.
  unfold catch in Hrun. destruct (gh_run argv r) as [[[st o]|e] r2]; [|by destruct (is_os_error e)].
  injection Hrun as -> -> ->. destruct (loads out) as [v'|] eqn:El; [|done].
  apply ret_Ok in Hv as [-> ->]. by exists out.
Qed.

Lemma observe_Ok q r o r' :
  observe gh_executable gh_run q r = (Ok o, r') ->
  exists out item,
    gh_run [gh_executable; "run"; "view"; strip (rq_external_run_id q); "--repo";
            strip (rq_repository q); "--json"; fields_argument] r = (Ok (0%Z, out), r') /\
    loads out = Some (JObj item) /\ lower (field "headSha" item) = lower (strip (rq_revision q)) /\
    (rq_check_id q <> "" -> workflow_name item = rq_check_id q) /\
    ob_status o = field "status" item /\ ob_conclusion o = or_none (field "conclusion" item).
Proof.
  unfold observe, _repository, _revision. intros Ho.
  apply bind_Ok in Ho as (repo & r1 & [Hrepo ->]%lift_Ok & Ho). cbv beta in Ho.
  destruct (repository_shape _); [injection Hrepo as <-|done].
  apply bind_Ok in Ho as (rev & r1 & [Hrev ->]%lift_Ok & Ho). cbv beta in Ho.
  destruct (revision_shape _); [injection Hrev as <-|done].
  apply bind_Ok in Ho as (rid & r1 & [->%token_Ok ->]%lift_Ok & Ho). cbv beta in Ho.
  destruct (negb (isdigit _)); [done|].
  apply bind_Ok in Ho as (v & r1 & (out & Hrun & Hl)%json_Ok & Ho). cbv beta in Ho.
  destruct v as [| | | | | |item]; try done. cbv zeta in Ho.
  destruct (str_eqb (lower _) _) eqn:Eh; cbn [negb] in Ho; [apply str_eqb_true in Eh|done].
  destruct (_ && _) eqn:Ew; [done|].
  apply bind_Ok in Ho as (f & r2 & Hf & Ho). cbv beta in Ho. apply lift_Ok in Ho as [Ho ->].
  assert (r2 = r1) as ->.
  { destruct (or_none _); [|by apply ret_Ok in Hf as [_ ->]].
    apply bind_Ok in Hf as (? & ? & [_ ->]%lift_Ok & [_ ->]%ret_Ok). done. }
  exists out, item. split_and!; try done.
  - intros Hne. apply andb_false_iff in Ew as [He%negb_false_iff|He%negb_false_iff].
    + unfold empty_str in He. by destruct (decide (rq_check_id q = "")).
    + by apply str_eqb_true in He.
  - unfold CiObservation_post_init in Ho. repeat case_match; try done; by injection Ho as <-.
  - unfold CiObservation_post_init in Ho. repeat case_match; try done; by injection Ho as <-.
Qed.

(** an observed workflow that passed was reported *)
Lemma observe_workflow_Ok c repository revision workflow found s o s' :
  ci_wf (db s.1) -> strip workflow = workflow -> workflow <> "" ->
  observe_workflow gh_executable gh_run c repository revision workflow found s = (Ok (inr o), s') ->
  ci_wf (db s'.1) /\
  (fci_status o = "COMPLETED" -> fci_conclusion o = Some "SUCCESS" ->
   exists external, reported_success (strip repository) (strip revision) workflow external).
Proof.
  intros Hwf Hstrip Hne. unfold observe_workflow, catch.
  destruct (bind _ _ s) as [[y|e] s1] eqn:Eb; [|by destruct (ci_exception e)].
  intros [= -> ->]. apply bind_Ok in Eb as (t & s2 & [Ht _]%on_left_Ok & Hp). cbv beta in Hp.
  apply bind_Ok in Hp as (o' & s3 & Hp & [Heq ->]%ret_Ok). injection Heq as ->.
  pose proof (begin_tracking_ci (github_providers gh_executable gh_run) (run_id (pc_run c)) (cycle_id (pc_cycle c))
    "github" repository revision (cr_external_run_id found) (Some workflow) (cr_url found) s.1 Hwf) as Hwf2.
  rewrite Ht in Hwf2. cbn [snd] in Hwf2.
  apply begin_tracking_Ok in Ht as (Hrow & _ & _ & Hprov & Hrepo & Hrev & Hext & Hcheck); [|done].
  destruct s2 as [w2 r2]. cbn [fst snd] in *.
  pose proof (poll_once_ci (github_providers gh_executable gh_run) (fci_id t) (w2, r2) Hwf2) as Hwf3.
  rewrite Hp in Hwf3. cbn [snd] in Hwf3. split; [exact Hwf3|].
  apply poll_once_spec in Hp as (t' & provider & ob & now & Ht' & Hprovider & Hob & Hst & Hcn & _).
  rewrite Hrow in Ht'. injection Ht' as <-. rewrite Hprov in Hprovider. injection Hprovider as <-.
  intros Hdone Hpass. apply observe_Ok in Hob as (out & item & Hrun & Hl & Hsha & Hwork & Hs & Hc).
  exists (strip (fci_external_run_id t)). split. cbn [poll_request rq_external_run_id rq_repository rq_revision rq_check_id] in *.
  rewrite Hrepo, strip_idemp in Hrun. rewrite Hrev, strip_idemp in Hsha.
  rewrite Hcheck, Hstrip in Hwork. rewrite Hs, Hdone in Hst. rewrite Hc, Hpass in Hcn.
  exists r2, s3.2, out, item. split_and!; try done. by apply Hwork.
Qed.

Lemma observe_workflows_Ok c repository revision discovered index workflows seen s out s' :
  ci_wf (db s.1) -> Forall (fun w => strip w = w /\ w <> "") workflows ->
  observe_workflows gh_executable gh_run c repository revision discovered index workflows seen s
    = (Ok (inr out), s') ->
  cs_failed out = [] -> cs_pending out = [] ->
  cs_failed seen = [] /\ cs_pending seen = [] /\
  Forall (fun w => exists external, reported_success (strip repository) (strip revision) w external) workflows.
Proof.
  revert index seen s. induction workflows as [|w workflows IH]; intros index seen s Hwf Hall.
  { cbn. intros [[= ->] ->]%ret_Ok. auto. }
  apply Forall_cons in Hall as [[Hstrip Hne] Hall]. cbn [observe_workflows].
  destruct (latest_run discovered w) as [found|]; [|done].
  intros ([e|o] & s1 & Ho & Hv)%bind_Ok Hf Hp; cbv beta iota in Hv; [by apply ret_Ok in Hv as [? _]|].
  destruct (observe_workflow_Ok _ _ _ _ _ _ _ _ Hwf Hstrip Hne Ho) as [Hwf1 Hrep].
  apply bind_Ok in Hv as (artifact & s2 & [Ha ->]%lift_Ok & Hv). cbv beta in Hv.
  destruct (IH _ _ _ Hwf1 Hall Hv Hf Hp) as (Hf1 & Hp1 & Hrest).
  destruct (str_eqb (fci_status o) "COMPLETED") eqn:Es; cbn [negb] in Ha.
  - apply rbind_Ok in Ha as (a & _ & [= <-]). cbn in Hf1, Hp1. apply app_nil in Hf1 as [Hf1 Hc].
    destruct (opt_eqb (fci_conclusion o) (Some "SUCCESS")) eqn:Ec; [|done].
    apply str_eqb_true in Es. apply opt_eqb_true in Ec. split_and!; [done|done|]. constructor; auto.
  - injection Ha as <-. cbn in Hf1, Hp1. by apply app_nil in Hp1 as [_ ?].
Qed.

Lemma ci_failed_next reason code summary gate artifacts o :
  ci_failed reason code summary gate artifacts = Ok o -> po_next_state o = None.
Proof. unfold ci_failed. intros (f & _ & Ho)%rbind_Ok. by apply outcome_with_Ok in Ho as [-> _]. Qed.

Lemma ci_workflows_Ok raws ws : ci_workflows raws = Ok ws -> Forall (fun w => strip w = w /\ w <> "") ws.
Proof.
  revert ws. induction raws as [|raw raws IH]; intros ws; cbn [ci_workflows]; [intros [= <-]; constructor|].
  cbv zeta. destruct (_ || _) eqn:Eb; [done|]. apply orb_false_iff in Eb as [Ee _].
  intros (ws' & Hws & [= <-])%rbind_Ok. constructor; [|by apply IH].
  split; [apply strip_idemp|]. unfold empty_str in Ee. by destruct (decide _).
Qed.
Lemma ci_policy_Ok policy repository required :
  _ci_policy policy = Ok (Some (repository, required)) ->
  required <> [] /\ Forall (fun w => strip w = w /\ w <> "") required /\
  policy_flag "ci_required" false (as_dict policy) = true /\
  policy_flag "push_required" false (as_dict policy) = true.
Proof.
  unfold _ci_policy. cbv zeta. destruct (policy_flag "ci_required" _ _); [|done].
  destruct (policy_flag "push_required" _ _); [|done]. cbn [negb]. destruct (empty_str _); [done|].
  destruct (get "ci_workflows" _) as [| | | | |[|raw raws]|]; try done.
  intros (ws & Hws & Hr)%rbind_Ok. destruct (20 <? _)%Z; [done|].
  apply rbind_Ok in Hr as (? & _ & [= _ <-]). apply ci_workflows_Ok in Hws as Hall.
  rewrite Forall_forall in Hall. split_and!; try done.
  - destruct ws as [|w ws].
    + exfalso. cbn [ci_workflows] in Hws. cbv zeta in Hws. destruct (_ || _); [done|].
      apply rbind_Ok in Hws as (ws & _ & [=]).
    + intros Hnil. assert (w ∈ _dedupe (w :: ws)) as Hin by (rewrite elem_of_dedupe; apply elem_of_cons; by left).
      rewrite Hnil in Hin. by apply elem_of_nil in Hin.
  - rewrite Forall_forall. intros w Hw. rewrite elem_of_dedupe in Hw. by apply Hall.
Qed.

(** CI passes on nothing but what GitHub reported: a CI phase moves the cycle to
    its completion only if the policy of the run requires no CI, or for each of the
    workflows it requires (and it requires one) the GitHub process of this very call
    reported a run of that workflow, for the commit recorded for the cycle, as over
    with the conclusion SUCCESS. *)
Theorem ci_pass_is_reported c w r o s' :
  ci_wf (db w) ->
  ci_execute c (w, r) = (Ok o, s') -> po_next_state o = Some CYCLE_COMPLETE ->
  _ci_policy (run_policy (pc_run c)) = Ok None \/
  exists repository required i k,
    _ci_policy (run_policy (pc_run c)) = Ok (Some (repository, required)) /\ required <> [] /\
    db_intents (db w) !! k = Some i /\ ci_cycle_id i = cycle_id (pc_cycle c) /\ ci_status i = "COMMITTED" /\
    Forall (fun workflow => exists external,
      reported_success (strip repository) (strip (default "" (ci_commit_sha i))) workflow external) required.
Proof.
  intros Hwf Hx Hn. unfold production_ci_execute in Hx.
  destruct (_ci_policy _) as [[[repository required]|]|e] eqn:Epol; [|by left|].
  - right. destruct (ci_policy_Ok _ _ _ Epol) as (Hne & Hall & _).
    apply bind_Ok in Hx as (intent & s1 & Hi & Hx). unfold catch in Hi.
    destruct (bind _ _ (w, r)) as [[y|e] s2] eqn:Eb; cycle 1.
    { cbn [any_exception] in Hi. apply ret_Ok in Hi as [-> ->]. cbv iota in Hx.
      apply lift_Ok in Hx as [Ho%ci_failed_next _]. by rewrite Ho in Hn. }
    injection Hi as -> ->. apply bind_Ok in Eb as (i & s3 & [Hi Hr]%on_left_Ok & [-> ->]%ret_Ok).
    destruct (intent_for_cycle_read _ _ _ _ Hi) as [Hw Hrow]. destruct (Hrow i eq_refl) as (k & Hk & Hc).
    cbn [fst snd] in *. cbv iota in Hx. destruct (committed_revision i) eqn:Ecom; cbn [negb] in Hx; cycle 1.
    { apply lift_Ok in Hx as [Ho%ci_failed_next _]. by rewrite Ho in Hn. }
    apply andb_true_iff in Ecom as [Est%str_eqb_true _].
    exists repository, required, i, k. split_and!; try done.
    unfold observe_ci in Hx. apply bind_Ok in Hx as (rows & s4 & Hrows & Hx). cbv beta in Hx.
    destruct rows as [e|rows].
    { apply lift_Ok in Hx as [Ho%ci_failed_next _]. by rewrite Ho in Hn. }
    destruct (existsb _ required).
    { apply lift_Ok in Hx as [Ho _]. apply outcome_with_Ok in Ho as [Ho _]. by rewrite Ho in Hn. }
    apply bind_Ok in Hx as (seen & s5 & Hseen & [Ho _]%lift_Ok).
    destruct seen as [e|seen]; [apply ci_failed_next in Ho; by rewrite Ho in Hn|].
    unfold ci_seen_outcome in Ho.
    destruct (is_nil (cs_failed seen)) eqn:Ef; cbn [negb] in Ho; [|apply ci_failed_next in Ho; by rewrite Ho in Hn].
    destruct (is_nil (cs_pending seen)) eqn:Ep; cbn [negb] in Ho; [|apply outcome_with_Ok in Ho as [Ho _]; by rewrite Ho in Hn].
    assert (ci_wf (db s4.1)) as Hwf4.
    { unfold catch in Hrows. destruct (bind _ _ s3) as [[z|e] s6] eqn:Eb; [|by destruct (ci_exception e)].
      injection Hrows as -> ->. apply bind_Ok in Eb as (? & s7 & [_ Hs7]%on_right_Ok & [_ ->]%ret_Ok).
      by rewrite Hs7, Hw. }
    assert (Hstrip : strip (commit_of i) = strip (default "" (ci_commit_sha i))) by apply strip_idemp.
    rewrite <-Hstrip.
    eapply observe_workflows_Ok; [exact Hwf4|exact Hall|exact Hseen| |].
    + by destruct (cs_failed seen).
    + by destruct (cs_pending seen).
  - destruct (policy_exception e); [|done]. apply lift_Ok in Hx as [Ho _]. apply outcome_with_Ok in Ho as [Ho _].
    by rewrite Ho in Hn.
Qed.
End Ci.

(** ** Moves *)

(** a property of every outcome a computation returns *)
Definition always {W} (Q : PhaseOutcome -> Prop) (m : M W PhaseOutcome) : Prop :=
  forall w o w', m w = (Ok o, w') -> Q o.
Definition outcomes (Q : PhaseOutcome -> Prop) (r : result PhaseOutcome) : Prop := forall o, r = Ok o -> Q o.

Section Always.
Context {W : Type} (Q : PhaseOutcome -> Prop).
Lemma always_bind {A} (m : M W A) k : (forall a, always Q (k a)) -> always Q (bind m k).
Proof. intros Hk w o w' (a & w1 & _ & Ho)%bind_Ok. by eapply Hk. Qed.
Lemma always_lift (r : result PhaseOutcome) : outcomes Q r -> always (W:=W) Q (lift r).
Proof. intros Hr w o w' [Ho _]%lift_Ok. by apply Hr. Qed.
Lemma always_raise e : always (W:=W) Q (raise e).
Proof. by intros w o w'. Qed.
Lemma always_right {V} (m : M W PhaseOutcome) : always Q m -> always (W:=V * W) Q (on_right m).
Proof. intros Hm w o w' [Ho _]%on_right_Ok. by eapply Hm. Qed.
Lemma outcomes_bind {A} (r : result A) k : (forall a, outcomes Q (k a)) -> outcomes Q (rbind r k).
Proof. intros Hk o (a & _ & Ho)%rbind_Ok. by eapply Hk. Qed.
Lemma outcomes_Err e : outcomes Q (Err e).
Proof. by intros o. Qed.
End Always.

(** the move an outcome asks for: a failure goes to repair unless a target is named *)
Definition asked_move (o : PhaseOutcome) : option FactoryState :=
  match po_failure o with
  | Some _ => Some (default REPAIR_REQUIRED (po_next_state o))
  | None => po_next_state o
  end.
(** the move is one the state machine accepts from the server; only CI may ask for none *)
Definition legal_move (s : FactoryState) (resumable : option FactoryState) (o : PhaseOutcome) : Prop :=
  match asked_move o with
  | Some t => system_moves s t resumable (negb (is_none (po_victory_decision o)))
  | None => s = CI_VERIFYING
  end.

(** such a move, without a Victory's decision *)
Definition machine_move (s : FactoryState) (o : PhaseOutcome) : Prop :=
  legal_move s None o /\ po_victory_decision o = None.

Section Rules.
Context `{Env}.
Lemma outcomes_with s next reason artifacts action failure :
  match failure with
  | Some _ => system_moves s (default REPAIR_REQUIRED next) None false
  | None => match next with Some t => system_moves s t None false | None => s = CI_VERIFYING end
  end ->
  outcomes (machine_move s) (outcome_with next reason artifacts action failure).
Proof.
  intros Hs o (Hn & _ & Hf & _ & Hv)%outcome_with_Ok. unfold machine_move, legal_move, asked_move.
  rewrite Hn, Hf, Hv. by destruct failure, next.
Qed.
Lemma outcomes_init s o :
  machine_move s o -> outcomes (machine_move s) (PhaseOutcome_post_init o).
Proof.
  intros Hs o'. unfold PhaseOutcome_post_init. cbv zeta. repeat (case_match; [done|]). by intros [= <-].
Qed.
Lemma outcomes_to s t reason : system_moves s t None false -> outcomes (machine_move s) (outcome_to t reason).
Proof. intros Hs. by apply outcomes_init; split. Qed.
Lemma outcomes_ci_failed reason code summary gate artifacts :
  outcomes (machine_move CI_VERIFYING) (ci_failed reason code summary gate artifacts).
Proof. unfold ci_failed. apply outcomes_bind. intros f. apply outcomes_with. reflexivity. Qed.

End Rules.

Ltac always_step :=
  match goal with
  | |- always _ (bind _ _) => apply always_bind; intros ?
  | |- always _ (lift _) => apply always_lift
  | |- always _ (raise _) => apply always_raise
  | |- always _ (on_right _) => apply always_right
  | |- always _ (let _ := _ in _) => cbv zeta
  | |- always _ (match ?x with _ => _ end) => destruct x
  | |- outcomes _ (rbind _ _) => apply outcomes_bind; intros ?
  | |- outcomes _ (Err _) => apply outcomes_Err
  | |- outcomes _ (value_error _) => apply outcomes_Err
  | |- outcomes _ (ci_failed _ _ _ _ _) => apply outcomes_ci_failed
  | |- outcomes _ (outcome_with _ _ _ _ _) => apply outcomes_with; reflexivity
  | |- outcomes _ (outcome_to _ _) => apply outcomes_to; reflexivity
  | |- outcomes _ (PhaseOutcome_post_init _) => apply outcomes_init; split; first [reflexivity | assumption]
  | |- outcomes _ (let _ := _ in _) => cbv zeta
  | |- outcomes _ (match ?x with _ => _ end) => destruct x
  end.
Ltac always := repeat always_step.

Section Moves.
Context `{Env} {R : Type} (git : GitAdapter R) (service : WorkerService R).
Context (loader : string -> string -> M R string) (terminate : string -> string -> Z -> M R bool).
Context (workspaces_of : string -> M R (list (string * string))).
Context (resolve repository_root : string -> M R string).
Context (resolve_worker_root : string -> string -> string -> M R string).
Context (list_workers : string -> string -> M R (list dict)).
Context (spawn : string -> list string -> string -> M R ProcessResult) (python : string).
Context (exc_text : exn -> string).
Context (gh_process : list string -> string -> string -> M R string).
Context (gh_executable : string) (gh_run : list string -> M R (Z * string)).
Context (find_skills : string -> M R (list (SkillMeta * string))) (mcp_servers : M R (list json)).
Context (urlsplit : string -> result SplitUrl).
Context (total_score : list CapabilityRequirement -> CapabilityManifest -> Z).
#[local] Abbreviation execute := (machine_execute git service loader terminate workspaces_of resolve
  repository_root resolve_worker_root list_workers spawn python exc_text gh_process gh_executable gh_run
  find_skills mcp_servers urlsplit total_score).

Lemma verification_moves s root c :
  is_Some (next_verify_state s) ->
  always (W:=R) (machine_move s) (verification_execute git resolve spawn python root s c).
Proof.
  intros [t Ht].
  assert (system_moves s t None false /\ system_moves s REPAIR_REQUIRED None false) as [Hnext Hrepair].
  { destruct s; try discriminate Ht; injection Ht as <-; split; reflexivity. }
  unfold verification_execute, stale_target, outcome_failed, verified_outcome. rewrite Ht. always.
Qed.

(** the phases whose handlers are not those of production *)
Lemma repair_moves threshold c : outcomes (machine_move REPAIR_REQUIRED) (repair_execute threshold c).
Proof. unfold repair_execute. always. Qed.
Lemma cycle_complete_moves c : outcomes (machine_move CYCLE_COMPLETE) (cycle_complete_execute c).
Proof. unfold cycle_complete_execute. always. Qed.
Create HintDb moves.
#[local] Hint Resolve verification_moves repair_moves cycle_complete_moves : moves.

(** the phases that neither recover nor judge *)
Lemma machine_moves s f c :
  s <> RECOVERING -> s <> VICTORY_JUDGING -> execute s = Some f -> always (machine_move s) (f c).
Proof.
  intros Hr Hv Hf. destruct s; try discriminate Hf; try done; injection Hf as <-.
  all: unfold mission_execute, baseline_execute, deterministic_execute, capability_analysis_execute,
    skill_discovery_execute, skill_discovery_outcome, trust_evaluation_execute, skill_selection_execute,
    selection_outcome, production_commit_execute, production_push_execute, production_pull_request_execute,
    pull_request_outcome, production_ci_execute, observe_ci, ci_seen_outcome,
    production_cycle_complete_execute, baseline_outcome, outcome_updating, outcome_updates, blocked.
  all: always; auto with moves.
  all: apply verification_moves; eexists; reflexivity.
Qed.

(** The phases of production only ask for moves the state machine accepts from the
    server: whatever a phase the machine owns is given, the outcome it returns asks for
    a move (a failure asks for repair unless it names a target) that is legal from its
    state, and for none only while it waits for CI; a recovery asks for the persisted
    interrupted state and nothing else, and no phase but the Victory's carries a
    decision. *)
Theorem production_moves_legal s f c w o w' :
  execute s = Some f -> f c w = (Ok o, w') ->
  (s = RECOVERING -> forall t, run_resumable_state (pc_run c) = Some t -> ~ control_target t) ->
  legal_move s (if decide (s = RECOVERING) then run_resumable_state (pc_run c) else None) o /\
  (s = RECOVERING -> po_next_state o = Some (default BASELINING (run_resumable_state (pc_run c)))) /\
  (is_Some (po_victory_decision o) -> s = VICTORY_JUDGING /\ po_next_state o = Some COMMITTING).
Proof.
  intros Hf Ho Hres. destruct (decide (s = RECOVERING)) as [->|Hr]; [|destruct (decide (s = VICTORY_JUDGING)) as [->|Hv]].
  - injection Hf as <-. unfold recovery_execute in Ho. apply bind_Ok in Ho as (u & w1 & _ & Ho).
    apply lift_Ok in Ho as [Ho _]. specialize (Hres eq_refl). unfold legal_move, asked_move.
    destruct (run_resumable_state (pc_run c)) as [t|]; apply outcome_to_Ok in Ho as ->; cbn.
    + split_and!; [|done|by intros [? [=]]]. apply validator_spec. split; [done|]. apply legal_recovered; auto.
    + split_and!; [reflexivity|done|by intros [? [=]]].
  - injection Hf as <-. apply lift_Ok in Ho as [Ho _]. unfold legal_move, asked_move.
    apply victory_judging_cases in Ho as [(plan & results & _ & _ & _ & _ & Hd & Hn & Hf)|(Hn & Hd & f & Hf)].
    + rewrite Hd, Hn, Hf. split_and!; done.
    + rewrite Hd, Hn, Hf. split_and!; [reflexivity|done|by intros [? [=]]].
  - destruct (machine_moves s f c Hr Hv Hf _ _ _ Ho) as [Hm Hd]. split_and!; [done|done|].
    rewrite Hd. by intros [? [=]].
Qed.
End Moves.

(** ** Concrete inputs *)

(** [demo_phase] under a policy *)
Definition with_policy (policy : json) (c : PhaseContext) : PhaseContext :=
  let r := pc_run c in
  {| pc_run := {| run_id := run_id r; run_user_id := run_user_id r; run_workspace_id := run_workspace_id r;
                  run_mission := run_mission r; run_acceptance_criteria := run_acceptance_criteria r;
                  run_model_id := run_model_id r; run_state := run_state r;
                  run_current_cycle_id := run_current_cycle_id r;
                  run_resumable_state := run_resumable_state r; run_policy := policy;
                  run_budget := run_budget r; run_config_fingerprint := run_config_fingerprint r;
                  run_next_action := run_next_action r; run_idempotency_key := run_idempotency_key r;
                  run_lease_token := run_lease_token r; run_lease_expires_at := run_lease_expires_at r;
                  run_created_at := run_created_at r; run_updated_at := run_updated_at r;
                  run_completed_at := run_completed_at r |};
     pc_cycle := pc_cycle c; pc_evidence := pc_evidence c; pc_gates := pc_gates c;
     pc_steering_messages := pc_steering_messages c |}.
Definition demo_push_policy : json := JObj
  [("push_required", JBool true); ("auto_push_after_victory", JBool true); ("open_pr_required", JBool true);
   ("push_branch", JStr "factory/parser"); ("ci_required", JBool true);
   ("ci_repository", JStr "heidi/computer"); ("ci_workflows", str_list ["build"; " build "])].
Definition demo_push_phase : PhaseContext := with_policy demo_push_policy demo_phase.
Definition one_workspace {W} (user : string) : M W (list (string * string)) := ret [("ws1", "/work")].
Definition worker_root {W} (user workspace worker : string) : M W string := ret "/work/worker".
Definition demo_exc_text (e : exn) : string :=
  match e with ValueError m | TypeError m | RuntimeError m => m | _ => "error" end.
(** the commit of the cycle is [abc1234] *)
Definition demo_rows : gmap string FactoryCommitIntent :=
  {[ "fcommit_0" := committed_intent "abc1234" 0 demo_intent ]}.
Definition demo_committed : World := set_db (set_db_intents demo_rows) demo_judging.
Definition demo_head : Repo := {| repo_history := [("abc1234", "m")]; repo_pushed := [] |}.

Lemma demo_rows_only k i :
  db_intents (db demo_committed) !! k = Some i -> k = "fcommit_0" /\ i = committed_intent "abc1234" 0 demo_intent.
Proof.
  change (demo_rows !! k = Some i -> k = "fcommit_0" /\ i = committed_intent "abc1234" 0 demo_intent).
  unfold demo_rows. rewrite lookup_singleton_Some. intros [<- <-]. split; reflexivity.
Qed.

Lemma demo_no_approvals : db_approvals (db demo_committed) = ∅.
Proof. vm_compute. reflexivity. Qed.
Lemma demo_no_ci : db_ci_runs (db demo_committed) = ∅.
Proof. vm_compute. reflexivity. Qed.

(** the run of the demonstration past the gate, with that commit *)
Definition demo_gone : World := @exec_all demo_env (demo_ops ++ [demo_step PUSHING]) demo_start.
Definition demo_pushing : World := set_db (set_db_intents demo_rows) demo_gone.
Definition demo_pushed : result PhaseOutcome * (World * Repo) :=
  @production_push_execute demo_env Repo demo_git one_workspace ret ret worker_root demo_push_phase
    (demo_pushing, demo_head).
Lemma demo_gone_wf : @wf demo_env recovery_only (db demo_gone).
Proof.
  refine (proj1 (@exec_all_wf demo_env recovery_only (demo_ops ++ [demo_step PUSHING]) demo_start _ _ _)).
  - by left.
  - apply Forall_app. split; [exact demo_disciplined|]. constructor; [by left|constructor].
  - apply fresh_wf, demo_fresh.
Qed.
Lemma with_intents_wf `{Env} P rows w : wf P (db w) -> wf P (db (set_db (set_db_intents rows) w)).
Proof.
  destruct w as [[] ? ?]. intros [H1 H2 H3 H4]. split; [exact H1| |exact H3|exact H4].
  intros i r Hr. destruct (H2 i r Hr). by constructor.
Qed.
Lemma demo_pushing_wf : @wf demo_env recovery_only (db demo_pushing).
Proof. apply with_intents_wf, demo_gone_wf. Qed.
Lemma demo_pushing_rows k i :
  db_intents (db demo_pushing) !! k = Some i -> k = "fcommit_0" /\ i = committed_intent "abc1234" 0 demo_intent.
Proof.
  change (demo_rows !! k = Some i -> k = "fcommit_0" /\ i = committed_intent "abc1234" 0 demo_intent).
  unfold demo_rows. rewrite lookup_singleton_Some. intros [<- <-]. split; reflexivity.
Qed.
Lemma demo_pushing_run :
  exists run, db_runs (db demo_pushing) !! run_id (pc_run demo_push_phase) = Some run /\ run_state run = PUSHING.
Proof. eexists. split; vm_compute; reflexivity. Qed.
Lemma demo_pushing_approvals : db_approvals (db demo_pushing) = ∅.
Proof. vm_compute. reflexivity. Qed.

Theorem production_push_sound_witness :
  repo_pushed demo_pushed.2.2 = [("origin", "factory/parser")] /\
  @victory_on_record demo_env (events_of (run_id (pc_run demo_push_phase)) (db demo_pushing)) /\
  exists p, @authorized_by demo_env demo_push_phase (db demo_pushing) p /\
    pu_revision p = "abc1234" /\ pu_approval_id p = "machine-victory:cycle_2".
Proof.
  split; [vm_compute; reflexivity|].
  destruct demo_pushed as [x s'] eqn:E. destruct demo_pushing_run as (run & Hrun & Hstate).
  destruct (@production_push_sound demo_env Repo demo_git one_workspace ret ret worker_root demo_push_phase
    demo_pushing demo_head run x s') as (_ & Hv & i & p & root & y & Hi & _ & Ha & (Hap & _ & _ & Hrev & _) & _).
  - intros root r y r' [= _ <-]. reflexivity.
  - intros r y r' Hr. vm_compute in Hr. injection Hr as _ <-. reflexivity.
  - exact demo_pushing_wf.
  - apply approvals_wf_empty, demo_pushing_approvals.
  - intros k i Hk. apply demo_pushing_rows in Hk as [-> ->]. reflexivity.
  - exact Hrun.
  - exact Hstate.
  - exact E.
  - intros Heq. assert (repo_pushed demo_pushed.2.2 = []) as Hc by (rewrite E; cbn [snd]; rewrite Heq; reflexivity).
    vm_compute in Hc. discriminate Hc.
  - split; [exact Hv|]. exists p. split; [exact Ha|]. split.
    + apply demo_pushing_rows in Hi as [_ ->]. injection Hrev as <-. reflexivity.
    + destruct Ha as [(_ & -> & _)|(a & Hrow & _)]; [reflexivity|].
      rewrite demo_pushing_approvals, lookup_empty in Hrow. discriminate Hrow.
Defined.

Definition demo_gh (args : list string) (user root : string) : M Repo string := ret "[]".
Definition demo_pull_request : result PhaseOutcome * (World * Repo) :=
  @production_pull_request_execute demo_env Repo one_workspace ret ret worker_root demo_exc_text demo_gh
    demo_push_phase (demo_committed, demo_head).
Theorem pull_request_always_blocks_witness :
  exists o, demo_pull_request.1 = Ok o /\ po_next_state o = Some BLOCKED /\
    po_reason o = "automatic pull request creation failed: run_gh() takes 1 positional argument but 2 were given".
Proof.
  destruct demo_pull_request as [[o|e] s'] eqn:E; [|vm_compute in E; discriminate E].
  destruct (@pull_request_always_blocks demo_env Repo one_workspace ret ret worker_root demo_exc_text demo_gh
    demo_push_phase (demo_committed, demo_head) o s') as [Hn _]; [vm_compute; reflexivity|exact E|].
  exists o. split; [reflexivity|]. split; [exact Hn|]. vm_compute in E. injection E as <- _. reflexivity.
Defined.

(** GitHub, with one run of the workflow at the commit *)
Definition demo_gh_run (item : json) (argv : list string) : M unit (Z * string) :=
  ret (0%Z, dumps true true (if is_in "list" argv then JList [item] else item)).
Definition demo_workflow_run (sha conclusion : string) : json := JObj
  [("databaseId", JInt 7); ("headSha", JStr sha); ("status", JStr "completed");
   ("conclusion", JStr conclusion); ("workflowName", JStr "build")].
Definition demo_ci_execute (item : json) : result PhaseOutcome * (World * unit) :=
  @production_ci_execute demo_env unit demo_exc_text "gh" (demo_gh_run item) demo_push_phase
    (demo_committed, tt).

Theorem ci_pass_is_reported_witness :
  exists o s', demo_ci_execute (demo_workflow_run "ABC1234" "success") = (Ok o, s') /\
    po_next_state o = Some CYCLE_COMPLETE /\
    exists external, @reported_success demo_env unit "gh" (demo_gh_run (demo_workflow_run "ABC1234" "success"))
      "heidi/computer" "abc1234" "build" external.
Proof.
  destruct (demo_ci_execute (demo_workflow_run "ABC1234" "success")) as [[o|e] s'] eqn:E;
    [|vm_compute in E; discriminate E].
  assert (po_next_state o = Some CYCLE_COMPLETE) as Hn by (vm_compute in E; injection E as <- _; reflexivity).
  exists o, s'. split; [reflexivity|]. split; [exact Hn|].
  destruct (@ci_pass_is_reported demo_env unit demo_exc_text "gh"
    (demo_gh_run (demo_workflow_run "ABC1234" "success")) demo_push_phase demo_committed tt o s')
    as [Hp|(repository & required & i & k & Hp & _ & Hi & _ & _ & Hall)].
  - split; intros i c; rewrite demo_no_ci, lookup_empty; discriminate.
  - exact E.
  - exact Hn.
  - vm_compute in Hp. discriminate Hp.
  - vm_compute in Hp. injection Hp as <- <-.
    apply demo_rows_only in Hi as [_ ->].
    apply Forall_cons in Hall as [Hr _]. exact Hr.
Defined.
(** a run that failed, or one at another commit, does not pass *)
Example ci_failure_goes_to_repair :
  match (demo_ci_execute (demo_workflow_run "abc1234" "failure")).1 with
  | Ok o => asked_move o = Some REPAIR_REQUIRED
  | Err _ => False
  end.
Proof. vm_compute. reflexivity. Qed.
Example ci_elsewhere_waits :
  match (demo_ci_execute (demo_workflow_run "abc9999" "success")).1 with
  | Ok o => asked_move o = None
  | Err _ => False
  end.
Proof. vm_compute. reflexivity. Qed.

Definition no_workers {W} : WorkerService W := {|
  dw_create _ _ _ _ _ := ret []; dw_get _ _ _ := ret []; dw_close _ _ _ _ := ret tt |}.
Definition demo_execute (s : FactoryState) : option (PhaseContext -> M (World * Repo) PhaseOutcome) :=
  @machine_execute demo_env Repo demo_git no_workers (fun _ ws => ret ws) (fun _ _ _ => ret true) one_workspace
    ret ret worker_root (fun _ _ => ret []) (fun _ _ _ => raise TimeoutError) "python" demo_exc_text demo_gh "gh"
    (fun _ => raise (OSError "gh")) (fun _ => ret []) (ret []) (fun _ => Err (ValueError "url")) (fun _ _ => 0%Z) s.

Theorem production_moves_legal_witness :
  exists f o s', demo_execute PR_CREATING = Some f /\ f demo_push_phase (demo_committed, demo_head) = (Ok o, s') /\
    asked_move o = Some BLOCKED /\ legal_move PR_CREATING None o.
Proof.
  destruct (demo_execute PR_CREATING) as [f|] eqn:Ef; [|discriminate Ef].
  assert (is_ok (f demo_push_phase (demo_committed, demo_head)).1 = true) as Hok
    by (injection Ef as <-; vm_compute; reflexivity).
  destruct (f demo_push_phase (demo_committed, demo_head)) as [[o|e] s'] eqn:E; [|discriminate Hok].
  destruct (@production_moves_legal demo_env Repo demo_git no_workers (fun _ ws => ret ws) (fun _ _ _ => ret true)
    one_workspace ret ret worker_root (fun _ _ => ret []) (fun _ _ _ => raise TimeoutError) "python"
    demo_exc_text demo_gh "gh" (fun _ => raise (OSError "gh")) (fun _ => ret []) (ret [])
    (fun _ => Err (ValueError "url")) (fun _ _ => 0%Z) PR_CREATING f demo_push_phase (demo_committed, demo_head)
    o s' Ef E) as (Hl & _); [intros Hs; discriminate Hs|].
  exists f, o, s'. split; [reflexivity|]. split; [exact E|]. split; [|exact Hl].
  injection Ef as <-. vm_compute in E. injection E as <- _. reflexivity.
Defined.
