(* ===== verification/FactoryAgentsSpec.v ===== *)
(** * Properties of the phases that agents work in

    Agents are confined to what the policy and the selected capabilities allow, what they
    say never carries authority, their budgets are bounded and enforced, and an
    implementation reaches verification only as an uncommitted change on the clean base. *)

From S2P Require Import Prelude PyStr Json Redaction FactoryDomain FactoryGates.
From S2P Require Import FactoryVictory Database CapabilityLifecycle FactoryStore FactoryHistory.
From S2P Require Import FactoryStoreFacts FactoryFrames FactorySafety FactoryStoreSpec FactoryStoreQueries.
From S2P Require Import FactoryFresh FactoryRuntime FactoryPhases FactoryGit FactoryWorkers FactoryCi.
From S2P Require Import FactoryLifecycle FactoryOrchestrator FactoryPolicy FactoryVerification.
From S2P Require Import FactoryCapabilities FactoryControl FactoryApprovals FactoryProduction.
From S2P Require Import FactoryCapabilitiesSpec FactoryProductionSpec FactoryAgents.

(** ** What their outcomes may say *)

(** the machine's artifacts of such a phase record tasks and lanes, nothing else *)
Definition agent_artifact (a : PhaseArtifact) : Prop :=
  pa_gate_id a = None /\
  (pa_authority a = ADVISORY \/
   pa_authority a = MACHINE /\
     pa_kind a ∈ ["factory_phase_task"; "factory_implementation_task"; "factory_worker"]).
(** the move asked for is legal, or there is none; nothing of it is a verdict *)
Definition agent_move (s : FactoryState) (o : PhaseOutcome) : Prop :=
  match asked_move o with Some t => system_moves s t None false | None => True end.
Record powerless (s : FactoryState) (o : PhaseOutcome) : Prop := {
  pl_gates : po_gates o = [];
  pl_victory : po_victory_decision o = None;
  pl_artifacts : Forall agent_artifact (po_artifacts o);
  pl_move : agent_move s o;
}.

Section Rules.
Context `{Env}.
Lemma always_left {W V} Q (m : M W PhaseOutcome) : always Q m -> always (W:=W * V) Q (on_left m).
Proof. intros Hm w o w' [Ho _]%on_left_Ok. by eapply Hm. Qed.
Lemma outcomes_rbind {A} Q (r : result A) k : (forall a, r = Ok a -> outcomes Q (k a)) -> outcomes Q (rbind r k).
Proof. intros Hk o (a & Ha & Ho)%rbind_Ok. by eapply Hk. Qed.
Lemma powerless_init s o : powerless s o -> outcomes (powerless s) (PhaseOutcome_post_init o).
Proof. intros Hp o' ->%outcome_post_init_Ok. done. Qed.
Lemma powerless_with s next reason artifacts action :
  Forall agent_artifact artifacts ->
  match next with Some t => system_moves s t None false | None => True end ->
  outcomes (powerless s) (outcome_with next reason artifacts action None).
Proof. intros Ha Hm. apply powerless_init. by split. Qed.
Lemma powerless_to s t reason : system_moves s t None false -> outcomes (powerless s) (outcome_to t reason).
Proof. intros Hm. apply powerless_init. by split. Qed.
Lemma powerless_failed s reason category code summary :
  system_moves s REPAIR_REQUIRED None false ->
  outcomes (powerless s) (phase_failed reason category code summary).
Proof. intros Hm. apply outcomes_rbind. intros f _. apply powerless_init. by split. Qed.
Lemma advice_artifact payload a : phase_advice payload = Ok a -> agent_artifact a.
Proof. intros ->%artifact_post_init_Ok. split; [done|by left]. Qed.
Lemma task_artifact payload a : phase_task payload = Ok a -> agent_artifact a.
Proof. intros ->%artifact_post_init_Ok. split; [done|right; split; [done|set_solver]]. Qed.
Lemma lane_artifact key kind source revision fingerprint payload a :
  machine_artifact key kind source revision fingerprint payload = Ok a ->
  kind ∈ ["factory_phase_task"; "factory_implementation_task"; "factory_worker"] -> agent_artifact a.
Proof. intros ->%artifact_post_init_Ok ?. split; [done|by right]. Qed.
End Rules.

Ltac powerless_step :=
  match goal with
  | |- always _ (bind _ _) => apply always_bind; intros ?
  | |- always _ (lift _) => apply always_lift
  | |- always _ (raise _) => apply always_raise
  | |- always _ (on_right _) => apply always_right
  | |- always _ (on_left _) => apply always_left
  | |- always _ (let _ := _ in _) => cbv zeta
  | |- always _ (match ?x with _ => _ end) => destruct x
  | |- outcomes _ (rbind (phase_advice _) _) => apply outcomes_rbind; intros ? ?%advice_artifact
  | |- outcomes _ (rbind (phase_task _) _) => apply outcomes_rbind; intros ? ?%task_artifact
  | |- outcomes _ (rbind _ _) => apply outcomes_bind; intros ?
  | |- outcomes _ (Err _) => apply outcomes_Err
  | |- outcomes _ (phase_failed _ _ _ _) => apply powerless_failed; assumption
  | |- outcomes _ (waiting_outcome _ _) => apply powerless_with; [by constructor|exact Logic.I]
  | |- outcomes _ (outcome_with _ _ _ _ _) =>
      apply powerless_with; [first [by constructor|apply Forall_singleton; assumption]|first [assumption|exact Logic.I]]
  | |- outcomes _ (outcome_to _ _) => apply powerless_to; assumption
  | |- outcomes _ (let _ := _ in _) => cbv zeta
  | |- outcomes _ (match ?x with _ => _ end) => destruct x
  end.
Ltac powerless := repeat powerless_step.

Section Powerless.
Context `{Env} {R : Type} (git : GitAdapter R) (service : WorkerService R).
Context (loader : string -> string -> M R string).
Context (resolve_worker_root : string -> string -> string -> M R string).
Context (list_workers : string -> string -> M R (list dict)).
Context (agent : AgentService R) (getenv : string -> option string).
Context (upsert_workspace : string -> string -> string -> dict -> M R string).
Context (git_command : list string -> M R (option Z)) (plain_manifest : string -> M R (list dict)).

Lemma advisory_powerless s next c :
  system_moves s next None false -> system_moves s REPAIR_REQUIRED None false ->
  system_moves s BLOCKED None false ->
  always (powerless s) (advisory_execute resolve_worker_root agent getenv upsert_workspace git_command
    plain_manifest s next c).
Proof.
  intros Hn Hr Hb. unfold advisory_execute, parallel_advisory, _start_parallel_advisory, start_advisory,
    _poll_parallel_advisory, poll_advisory, lanes_outcome, conclude_advisory, _budget_outcome, failed_advisory.
  powerless.
Qed.
Lemma mutation_outcome_powerless reason revision fingerprint payload :
  outcomes (powerless IMPLEMENTING) (mutation_outcome reason revision fingerprint payload).
Proof.
  apply outcomes_rbind. intros a ->%artifact_post_init_Ok. apply powerless_init. split; try done.
  apply Forall_singleton. split; [done|by left].
Qed.
Lemma verdict_powerless a revision manifest unchanged r :
  mutation_verdict a revision manifest unchanged = Some r -> outcomes (powerless IMPLEMENTING) r.
Proof.
  unfold mutation_verdict. intros Hv. repeat case_match; try done; injection Hv as <-; by apply powerless_failed.
Qed.
Lemma implementation_ends_powerless c a root task_id task spent :
  always (powerless IMPLEMENTING) (conclude_implementation git agent c a root task_id task spent).
Proof.
  assert (system_moves IMPLEMENTING REPAIR_REQUIRED None false) as Hr by done.
  unfold conclude_implementation, exhausted_implementation, completed_implementation.
  repeat first [ match goal with
    | |- always _ (match mutation_verdict ?a ?b ?c ?d with _ => _ end) =>
        destruct (mutation_verdict a b c d) eqn:?; [apply always_lift; eapply verdict_powerless; eassumption|]
    | |- outcomes _ (mutation_outcome _ _ _ _) => apply mutation_outcome_powerless
    end | powerless_step].
Qed.
Lemma implementation_powerless c :
  always (powerless IMPLEMENTING) (implementation_execute git service loader resolve_worker_root list_workers
    agent getenv upsert_workspace c).
Proof.
  assert (system_moves IMPLEMENTING REPAIR_REQUIRED None false /\ system_moves IMPLEMENTING BLOCKED None false)
    as [Hr Hb] by by split.
  unfold implementation_execute, lane_recorded, start_implementation, poll_implementation.
  repeat first [ match goal with
    | |- always _ (conclude_implementation _ _ _ _ _ _ _ _) => apply implementation_ends_powerless
    | |- outcomes _ (rbind (machine_artifact _ _ _ _ _ _) _) =>
        apply outcomes_rbind; intros ? ?%lane_artifact; [|set_solver]
    | |- outcomes _ (PhaseOutcome_post_init _) => apply powerless_init; split; [done|done|first [by constructor|apply Forall_singleton; assumption]|done]
    end | powerless_step].
Qed.
End Powerless.

(** ** What they may ask of an agent *)

(** a computation keeps a property of its world, whatever it returns *)
Definition stays {W A} (J : W -> Prop) (m : M W A) : Prop := forall w, J w -> J (m w).2.

Section Stays.
Context {W : Type} (J : W -> Prop).
Lemma stays_ret {A} (a : A) : stays J (ret a).
Proof. by intros w. Qed.
Lemma stays_raise {A} e : stays (A:=A) J (raise e).
Proof. by intros w. Qed.
Lemma stays_lift {A} (x : result A) : stays J (lift x).
Proof. by intros w. Qed.
(** what follows may use what the first part returned *)
Lemma stays_bind_Ok {A B} (m : M W A) (k : A -> M W B) :
  stays J m -> (forall a w w', m w = (Ok a, w') -> stays J (k a)) -> stays J (bind m k).
Proof.
  intros Hm Hk w Hw. specialize (Hm w Hw). unfold bind.
  destruct (m w) as [[a|e] w1] eqn:E; [by apply (Hk a w w1)|done].
Qed.
Lemma stays_bind {A B} (m : M W A) (k : A -> M W B) : stays J m -> (forall a, stays J (k a)) -> stays J (bind m k).
Proof. intros Hm Hk. by apply stays_bind_Ok. Qed.
Lemma stays_catch {A} (m : M W A) p h : stays J m -> (forall e, stays J (h e)) -> stays J (catch m p h).
Proof.
  intros Hm Hh w Hw. specialize (Hm w Hw). unfold catch.
  destruct (m w) as [[a|e] w1]; [done|]. destruct (p e); [by apply Hh|done].
Qed.
Lemma stays_for_each {A B} (f : A -> M W B) l : (forall x, stays J (f x)) -> stays J (for_each f l).
Proof.
  intros Hf. induction l as [|x l IH]; [apply stays_ret|].
  apply stays_bind; [done|]. intros y. apply stays_bind; [done|]. intros. apply stays_ret.
Qed.
Lemma stays_gather {A} (ms : list (M W A)) : Forall (stays J) ms -> stays J (gather ms).
Proof.
  induction 1 as [|m ms Hm _ IH]; [apply stays_ret|]. intros w Hw. specialize (Hm w Hw). cbn.
  destruct (m w) as [r w1]. revert w1 Hm. apply stays_bind; [done|]. intros. apply stays_ret.
Qed.
End Stays.
Section StaysPair.
Context {V W : Type} (J : W -> Prop).
Lemma stays_left {A} (m : M V A) : stays (W:=V * W) (fun s => J s.2) (on_left m).
Proof. intros [v w] Hw. unfold on_left. cbn in *. by destruct (m v). Qed.
Lemma stays_right {A} (m : M W A) : stays J m -> stays (W:=V * W) (fun s => J s.2) (on_right m).
Proof. intros Hm [v w] Hw. unfold on_right. cbn in *. specialize (Hm w Hw). by destruct (m w). Qed.
End StaysPair.

Create HintDb stays.
#[export] Hint Resolve stays_ret stays_raise stays_lift stays_left : stays.
Ltac stays_step :=
  match goal with
  | |- stays _ (bind _ _) => apply stays_bind; [|intros ?]
  | |- stays _ (catch _ _ _) => apply stays_catch; [|intros ?]
  | |- stays _ (for_each _ _) => apply stays_for_each; intros ?
  | |- stays _ (on_right _) => apply stays_right
  | |- stays _ (let _ := _ in _) => cbv zeta
  | |- stays _ (match ?x with _ => _ end) => destruct x
  | |- stays _ _ => solve [auto with stays]
  end.

Section Confined.
Context `{Env} {R : Type} (git : GitAdapter R) (service : WorkerService R).
Context (loader : string -> string -> M R string).
Context (resolve_worker_root : string -> string -> string -> M R string).
Context (list_workers : string -> string -> M R (list dict)).
Context (agent : AgentService R) (getenv : string -> option string).
Context (upsert_workspace : string -> string -> string -> dict -> M R string).
Context (git_command : list string -> M R (option Z)) (plain_manifest : string -> M R (list dict)).

(** the selected capabilities of the cycle permit it *)
Definition permits (c : PhaseContext) (permission : string) : Prop :=
  exists permissions, _capability_permissions c = Ok permissions /\ permission ∈ permissions.
(** the workspace the factory registered for the root of the worker that mutates in this
    cycle of the run *)
Definition own_workspace (c : PhaseContext) (wid : string) : Prop :=
  exists root settings name r r',
    upsert_workspace (run_user_id (pc_run c)) root name settings r = (Ok wid, r') /\
    exists r0 r0', resolve_worker_root (run_user_id (pc_run c)) (run_workspace_id (pc_run c))
      (py_str (opt_str (mutation_worker_id (pc_cycle c)))) r0 = (Ok root, r0').
Definition flagged (c : PhaseContext) (key : string) : Prop :=
  policy_flag key false (as_dict (run_policy (pc_run c))) = true.

(** the requests a phase may make: for the run's user, with the run's model, without
    review; writes only by the implementation, commands only there and for a
    reproduction, both only in a worker's own workspace, and everything only as the
    selected capabilities and the policy allow *)
Record allowed_request (s : FactoryState) (c : PhaseContext) (q : AgentTask) : Prop := {
  al_user : at_user q = run_user_id (pc_run c);
  al_model : at_model q = run_model_id (pc_run c);
  al_workspace : at_workspace q = run_workspace_id (pc_run c) \/ own_workspace c (at_workspace q);
  al_isolated : at_file_writes q = true \/ at_commands q = true -> own_workspace c (at_workspace q);
  al_writes : at_file_writes q = true -> s = IMPLEMENTING /\ permits c "workspace:write";
  al_commands : at_commands q = true -> (s = IMPLEMENTING \/ s = REPRODUCING) /\ permits c "process:execute";
  al_network : at_network q = true -> permits c "network:http" /\
    flagged c (if decide (s = IMPLEMENTING) then "allow_network_implementation" else "allow_network_research");
  al_packages : at_package_install q = true -> s = IMPLEMENTING /\ flagged c "allow_package_install" /\
    permits c "process:execute" /\ permits c "network:http";
}.

(** the host and the other calls of the agent keep a property of the outside world *)
Record unaffected (I : R -> Prop) : Prop := {
  uf_revision root : stays I (git_current_revision git root);
  uf_fingerprint root : stays I (git_workspace_fingerprint git root);
  uf_manifest root : stays I (git_change_manifest git root);
  uf_create u ws p n r : stays I (dw_create service u ws p n r);
  uf_worker u ws w : stays I (dw_get service u ws w);
  uf_close u ws w d : stays I (dw_close service u ws w d);
  uf_loader u w : stays I (loader u w);
  uf_root u ws w : stays I (resolve_worker_root u ws w);
  uf_workers u ws : stays I (list_workers u ws);
  uf_upsert u p n d : stays I (upsert_workspace u p n d);
  uf_command argv : stays I (git_command argv);
  uf_plain root : stays I (plain_manifest root);
  uf_get i u : stays I (ag_get agent i u);
  uf_cancel i u : stays I (ag_cancel agent i u);
  uf_output i u : stays I (ag_output agent i u);
}.
#[local] Hint Resolve uf_revision uf_fingerprint uf_manifest uf_create uf_worker uf_close uf_loader uf_root uf_workers
  uf_upsert uf_command uf_plain uf_get uf_cancel uf_output : stays.

Lemma permitted c p permissions : _capability_permissions c = Ok permissions -> is_in p permissions = true -> permits c p.
Proof. intros Hp Hi%is_in_true. by exists permissions. Qed.
Lemma policy_and_permission_Ok policy key p c b :
  policy_and_permission policy key p c = Ok b -> b = true -> policy_flag key false policy = true /\ permits c p.
Proof.
  unfold policy_and_permission. intros Hb ->. destruct (policy_flag key false policy); [|done].
  apply rbind_Ok in Hb as (permissions & Hp & [= Hi]). split; [done|]. by eapply permitted.
Qed.
Lemma worker_workspace_own c worker r x r' :
  _factory_worker_workspace resolve_worker_root upsert_workspace c worker r = (Ok x, r') ->
  worker = py_str (opt_str (mutation_worker_id (pc_cycle c))) -> own_workspace c x.2.
Proof.
  intros Hx ->. revert Hx. unfold _factory_worker_workspace. intros (root & r1 & Hroot & (wid & r2 & Hw & [-> ->]%ret_Ok)%bind_Ok)%bind_Ok.
  eexists root, _, _, r1, r2. split; [exact Hw|]. by exists r, r1.
Qed.

Section Kept.
Context (I : R -> Prop) (HI : unaffected I) (s : FactoryState) (c : PhaseContext).
Context (Hstart : forall q, allowed_request s c q -> stays I (ag_start agent q)).
#[local] Abbreviation policy := (as_dict (run_policy (pc_run c))).

Lemma cleanup_stays : stays I (_cleanup_reproduction_changes resolve_worker_root git_command plain_manifest s c).
Proof. unfold _cleanup_reproduction_changes, _reset_isolated_reproduction, git_or_fail. repeat stays_step. Qed.
Lemma cancel_tasks_stays tasks : stays I (_cancel_parallel_tasks agent c tasks).
Proof.
  unfold _cancel_parallel_tasks. apply stays_bind; [|intros; apply stays_ret]. apply stays_gather, Forall_fmap, Forall_true.
  intros i. by apply uf_cancel.
Qed.
Lemma worker_workspace_stays worker :
  stays I (_factory_worker_workspace resolve_worker_root upsert_workspace c worker).
Proof. unfold _factory_worker_workspace. repeat stays_step. Qed.
#[local] Hint Resolve cleanup_stays cancel_tasks_stays worker_workspace_stays : stays.

Lemma start_lane_stays handoff limits parallelism lane focus :
  s <> IMPLEMENTING -> stays I (start_lane agent s c policy handoff limits parallelism lane focus).
Proof.
  intros Hs. unfold start_lane. apply stays_bind_Ok; [apply stays_lift|]. intros network r r' [Hn _]%lift_Ok.
  apply Hstart. split; try done; [by left|by intros []|].
  cbn. intros ->. rewrite decide_False by done. by apply and_comm, (policy_and_permission_Ok _ _ _ _ _ Hn).
Qed.
Lemma start_parallel_stays handoff limits parallelism :
  s <> IMPLEMENTING -> stays I (_start_parallel_advisory agent s c policy handoff limits parallelism).
Proof.
  intros Hs. unfold _start_parallel_advisory. cbv zeta. apply stays_bind.
  - apply stays_gather, Forall_fmap, Forall_true. intros [n focus]. by apply start_lane_stays.
  - intros. repeat stays_step.
Qed.
Lemma start_advisory_stays handoff limits :
  s <> IMPLEMENTING ->
  stays I (start_advisory resolve_worker_root agent upsert_workspace s c policy handoff limits).
Proof.
  intros Hs. unfold start_advisory, task_workspace. apply stays_bind_Ok.
  { destruct (_ && _); repeat stays_step. }
  intros [workspace isolated] r r' Hw.
  assert (Hiso : (isolated = true -> s = REPRODUCING /\ own_workspace c workspace) /\
    (isolated = false -> workspace = run_workspace_id (pc_run c))).
  { destruct (bool_decide (s = REPRODUCING) && _) eqn:E.
    - apply andb_true_iff in E as [E%bool_decide_eq_true Ek].
      apply bind_Ok in Hw as ([root wid] & r1 & Hw & [[= -> ->] _]%ret_Ok). apply worker_workspace_own in Hw; [|by destruct (mutation_worker_id _)].
      split; [intros _; split; [done|exact Hw]|intros Hf; discriminate Hf].
    - apply ret_Ok in Hw as [[= -> ->] _]. split; [intros Hf; discriminate Hf|reflexivity]. }
  cbv beta iota. apply stays_bind_Ok; [apply stays_lift|]. intros [commands network] r1 r1' [Hp _]%lift_Ok.
  apply rbind_Ok in Hp as (x & Hcom & (y & Hnet & [= -> ->])%rbind_Ok). cbv beta iota.
  apply stays_bind; [|intros; repeat stays_step]. apply Hstart.
  assert (Hc : commands = true -> s = REPRODUCING /\ isolated = true /\ permits c "process:execute").
  { intros ->. destruct (bool_decide (s = REPRODUCING) && isolated) eqn:E; [|done].
    apply andb_true_iff in E as [E%bool_decide_eq_true ->].
    apply rbind_Ok in Hcom as (ps & Hps & [= Hi]). split_and!; try done. by eapply permitted. }
  split; cbn; try done.
  - destruct isolated; [right; by apply Hiso|left; by apply Hiso].
  - intros [?|(_ & -> & _)%Hc]; [done|by apply Hiso].
  - intros (-> & _ & ?)%Hc. auto.
  - intros ->. rewrite decide_False by done. by apply and_comm, (policy_and_permission_Ok _ _ _ _ _ Hnet).
Qed.
Lemma advisory_stays next :
  s <> IMPLEMENTING ->
  stays (fun s => I s.2) (advisory_execute resolve_worker_root agent getenv upsert_workspace git_command
    plain_manifest s next c).
Proof.
  intros Hs. unfold advisory_execute, parallel_advisory, poll_advisory, _poll_parallel_advisory, report_lanes,
    lane_report, enforce_budget, conclude_advisory.
  repeat first [ match goal with
    | |- stays _ (_start_parallel_advisory _ _ _ _ _ _ _) => by apply start_parallel_stays
    | |- stays _ (start_advisory _ _ _ _ _ _ _ _) => by apply start_advisory_stays
    | |- stays _ (gather _) => apply stays_gather, Forall_fmap, Forall_true; intros ?; cbn
    end | stays_step].
Qed.

Lemma start_implementation_stays a workspace handoff limits :
  s = IMPLEMENTING -> own_workspace c workspace ->
  stays I (start_implementation agent c policy a workspace handoff limits).
Proof.
  intros Hs Hown. unfold start_implementation. apply stays_bind_Ok; [apply stays_lift|].
  intros ps r r' [Hps _]%lift_Ok.
  destruct (is_in "workspace:write" ps) eqn:Ew; [|apply stays_lift].
  destruct (is_in "process:execute" ps) eqn:Ee; [|apply stays_lift]. cbn.
  apply stays_bind; [|intros; apply stays_lift]. apply Hstart.
  assert (forall p, is_in p ps = true -> permits c p) as Hp by (intros; by eapply permitted).
  split; cbn [at_user at_workspace at_model at_file_writes at_commands at_network at_package_install]; try done.
  - by right.
  - intros _. split; [done|by apply Hp].
  - intros _. split; [by left|by apply Hp].
  - intros [Hf Hn]%andb_true_iff. rewrite decide_True by done. split; [by apply Hp|done].
  - intros [[Hf _]%andb_true_iff Hn]%andb_true_iff. split_and!; try done; by apply Hp.
Qed.
Lemma ensure_assignment_stays :
  stays (fun s => I s.2) (_ensure_mutation_assignment service loader list_workers c).
Proof.
  unfold _ensure_mutation_assignment, assign_mutation, create_mutation_worker,
    FactoryWorkers._workspace.
  repeat stays_step.
Qed.
Lemma implementation_stays :
  s = IMPLEMENTING ->
  stays (fun s => I s.2) (implementation_execute git service loader resolve_worker_root list_workers agent
    getenv upsert_workspace c).
Proof.
  intros Hs. unfold implementation_execute. destruct (negb _); [apply stays_lift|].
  destruct (negb _); [apply stays_lift|]. apply stays_bind; [apply ensure_assignment_stays|]. intros a.
  destruct (negb _) eqn:Ea; [apply stays_lift|]. apply negb_false_iff, opt_eqb_true in Ea.
  apply stays_bind_Ok; [apply stays_right, worker_workspace_stays|].
  intros [root workspace] w w' [Hw _]%on_right_Ok. apply worker_workspace_own in Hw; [|by rewrite Ea]. cbv beta iota zeta.
  apply stays_bind; [apply stays_lift|]. intros limits. destruct (implementation_task_evidence c).
  - unfold poll_implementation, conclude_implementation, exhausted_implementation, completed_implementation,
      _worker_mutation_target. repeat stays_step.
  - by apply stays_right, start_implementation_stays.
Qed.
End Kept.
End Confined.

(** ** Theorems *)

Section Theorems.
Context `{Env} {R : Type} (git : GitAdapter R) (service : WorkerService R).
Context (loader : string -> string -> M R string).
Context (resolve_worker_root : string -> string -> string -> M R string).
Context (list_workers : string -> string -> M R (list dict)).
Context (agent : AgentService R) (getenv : string -> option string).
Context (upsert_workspace : string -> string -> string -> dict -> M R string).
Context (git_command : list string -> M R (option Z)) (plain_manifest : string -> M R (list dict)).
#[local] Abbreviation execute := (agents_execute git service loader resolve_worker_root list_workers agent
  getenv upsert_workspace git_command plain_manifest).

(** C9. Agents are confined: whatever a phase does, it starts agents only with requests
    that are allowed: for the run's own user and model, in its workspace or in the one
    that was registered for the worktree of the worker that mutates in this cycle; writes
    only for the implementation and commands only there and for a reproduction, both only
    in that isolated workspace and with the selected capabilities' permission; network
    and packages only if the policy says so as well.  (A property of the outside world
    that allowed requests and the other calls keep is kept by the phase, however the host
    and the agents answer.) *)
Theorem agents_are_confined (I : R -> Prop) s c w r :
  agent_phase s = true ->
  unaffected git service loader resolve_worker_root list_workers agent upsert_workspace git_command
    plain_manifest I ->
  (forall q, allowed_request resolve_worker_root upsert_workspace s c q ->
     forall r0, I r0 -> I (ag_start agent q r0).2) ->
  I r -> I (execute s c (w, r)).2.2.
Proof.
  intros Hs HI Hstart Hr. unfold agents_execute.
  destruct (advisory_next s) as [next|] eqn:En.
  - apply (advisory_stays git service loader resolve_worker_root list_workers agent getenv upsert_workspace
      git_command plain_manifest I HI s c Hstart next); [|done]. by intros ->.
  - assert (s = IMPLEMENTING) as Hi by by destruct s.
    by apply (implementation_stays git service loader resolve_worker_root list_workers agent getenv
      upsert_workspace git_command plain_manifest I HI s c Hstart Hi).
Qed.

(** C10. Agents have no authority: whatever an agent's phase returns carries no gate and
    no Victory; its artifacts only advise, or record the machine's own bookkeeping of
    tasks and lanes; and the move it asks for, if any, is one the state machine accepts
    from the server. *)
Theorem agents_are_powerless s c w o w' :
  agent_phase s = true -> execute s c w = (Ok o, w') ->
  po_gates o = [] /\ po_victory_decision o = None /\ Forall agent_artifact (po_artifacts o) /\
  match asked_move o with Some t => system_moves s t None false | None => True end.
Proof.
  intros Hs Ho. assert (powerless s o) as [? ? ? ?]; [|done]. unfold agents_execute in Ho.
  destruct (advisory_next s) as [next|] eqn:En.
  - eapply advisory_powerless; [..|exact Ho]; destruct s; try discriminate En; by injection En as <-.
  - assert (s = IMPLEMENTING) as -> by by destruct s. by eapply implementation_powerless.
Qed.

(** *** Implementation *)

(** the machine saw an uncommitted change on the clean base, in the worker's tree *)
Record mutation_seen (a : FactoryWorkerAssignment) (root revision fingerprint : string) : Prop := {
  ms_base : revision = py_str (opt_str (wa_base_revision a));
  ms_revision : exists r r', git_current_revision git root r = (Ok revision, r');
  ms_fingerprint : exists r r', git_workspace_fingerprint git root r = (Ok fingerprint, r');
  ms_changed : exists r r' manifest, git_change_manifest git root r = (Ok manifest, r') /\ manifest <> [];
}.
(** the agent's service said so of a task *)
Definition described (user task_id : string) (fields : dict) : Prop :=
  (exists r r', ag_get agent task_id user r = (Ok (JObj fields), r')) \/
  (exists r r', ag_cancel agent task_id user r = (Ok (JObj fields), r')).
(** the outcome hands the mutation to verification *)
Definition handed_over (o : PhaseOutcome) (revision fingerprint : string) : Prop :=
  po_target_revision o = Some revision /\ po_target_fingerprint o = Some fingerprint /\
  Forall (fun a => pa_authority a = ADVISORY) (po_artifacts o).

Lemma mutation_outcome_Ok reason revision fingerprint payload o :
  mutation_outcome reason revision fingerprint payload = Ok o -> handed_over o revision fingerprint.
Proof.
  unfold mutation_outcome, outcome_updating. intros (a & ->%artifact_post_init_Ok & ->%outcome_post_init_Ok)%rbind_Ok.
  split_and!; [done|done|]. by apply Forall_singleton.
Qed.
Lemma mutation_target_Ok root r x r' :
  _worker_mutation_target git root r = (Ok x, r') ->
  (exists r0 r0', git_current_revision git root r0 = (Ok x.1.1, r0')) /\
  (exists r0 r0', git_workspace_fingerprint git root r0 = (Ok x.1.2, r0')) /\
  (exists r0 r0', git_change_manifest git root r0 = (Ok x.2, r0')).
Proof.
  unfold _worker_mutation_target.
  intros (v & r1 & H1 & (f & r2 & H2 & (m & r3 & H3 & [-> ->]%ret_Ok)%bind_Ok)%bind_Ok)%bind_Ok. cbn. eauto 10.
Qed.
Lemma phase_failed_next reason category code summary o :
  phase_failed reason category code summary = Ok o -> po_next_state o = None.
Proof. intros (f & _ & ->%outcome_post_init_Ok)%rbind_Ok. done. Qed.
Lemma waiting_next reason action o : waiting_outcome reason action = Ok o -> po_next_state o = None.
Proof. by intros [? _]%outcome_with_Ok. Qed.
Lemma verdict_fails a revision manifest unchanged r o :
  mutation_verdict a revision manifest unchanged = Some r -> r = Ok o -> po_next_state o = None.
Proof.
  unfold mutation_verdict. intros Hv ->.
  destruct (negb (str_eqb _ _)); [|destruct (is_nil manifest); [|done]]; apply (inj Some) in Hv; exact (phase_failed_next _ _ _ _ _ Hv).
Qed.
Lemma verdict_passes a revision manifest unchanged :
  mutation_verdict a revision manifest unchanged = None ->
  revision = py_str (opt_str (wa_base_revision a)) /\ manifest <> [].
Proof.
  unfold mutation_verdict. destruct (str_eqb revision _) eqn:E; [|done]. apply str_eqb_true in E.
  by destruct manifest.
Qed.

(** what a moving end of the task has seen *)
Lemma conclude_implementation_moves c a root task_id task spent r o r' s :
  conclude_implementation git agent c a root task_id task spent r = (Ok o, r') -> po_next_state o = Some s ->
  (success_status (status_of task) = true \/ status_of task = "CANCELLED" /\ over_budget spent = true) /\
  exists revision fingerprint, mutation_seen a root revision fingerprint /\ handed_over o revision fingerprint.
Proof.
  intros Hc Hn. unfold conclude_implementation in Hc.
  destruct (str_eqb (status_of task) "CANCELLED" && over_budget spent) eqn:Eb.
  - apply andb_true_iff in Eb as [Ec%str_eqb_true Eb]. split; [by right|].
    unfold exhausted_implementation in Hc. apply bind_Ok in Hc as ([[revision fingerprint] manifest] & r1 & Ht & Hc).
    apply mutation_target_Ok in Ht as (H1 & H2 & (r2 & r2' & H3)). cbv beta iota in Hc.
    destruct (mutation_verdict _ _ _ _) eqn:Ev.
    { apply lift_Ok in Hc as [Hr _]. pose proof (verdict_fails _ _ _ _ _ _ Ev Hr). congruence. }
    apply verdict_passes in Ev as [Eb' Em]. apply lift_Ok in Hc as [Ho%mutation_outcome_Ok _].
    exists revision, fingerprint. split; [|done]. split; [done|exact H1|exact H2|by eauto].
  - destruct (terminal_status _); cbn [negb] in Hc; [|apply lift_Ok in Hc as [Ho%waiting_next _]; congruence].
    destruct (success_status (status_of task)) eqn:Es; cbn [negb] in Hc;
      [|apply lift_Ok in Hc as [Ho%phase_failed_next _]; congruence].
    split; [by left|]. unfold completed_implementation in Hc.
    apply bind_Ok in Hc as ([[revision fingerprint] manifest] & r1 & Ht & Hc).
    apply mutation_target_Ok in Ht as (H1 & H2 & (r2 & r2' & H3)). cbv beta iota in Hc.
    destruct (mutation_verdict _ _ _ _) eqn:Ev.
    { apply lift_Ok in Hc as [Hr _]. pose proof (verdict_fails _ _ _ _ _ _ Ev Hr). congruence. }
    apply verdict_passes in Ev as [Eb' Em].
    apply bind_Ok in Hc as (output & r3 & _ & [(fields & _ & Ho%mutation_outcome_Ok)%rbind_Ok _]%lift_Ok).
    exists revision, fingerprint. split; [|done]. split; [done|exact H1|exact H2|by eauto].
Qed.

(** Implementation is judged, not believed: with a policy that requires a mutation,
    the phase reaches verification only when the task of this very attempt has ended,
    in success or cancelled, the lane is the one the cycle owns, and Git shows in the
    lane's tree the base revision with an uncommitted change; the target handed to
    verification is what Git showed, and what the agent says of it only advises. *)
Theorem implementation_is_judged c w r o w' :
  policy_flag "implementation_required" true (as_dict (run_policy (pc_run c))) = true ->
  execute IMPLEMENTING c (w, r) = (Ok o, w') -> po_next_state o = Some TARGETED_VERIFYING ->
  exists a root payload fields revision fingerprint,
    mutation_worker_id (pc_cycle c) = wa_worker_id a /\
    implementation_task_evidence c = Some payload /\
    described (run_user_id (pc_run c)) (str_or_empty (get "task_id" payload)) fields /\
    (success_status (status_of fields) = true \/ status_of fields = "CANCELLED") /\
    mutation_seen a root revision fingerprint /\ handed_over o revision fingerprint.
Proof.
  intros Hreq Ho Hn. cbn [agents_execute advisory_next] in Ho. unfold implementation_execute in Ho.
  rewrite Hreq in Ho. cbn [negb] in Ho. destruct (has_key (run_model_id (pc_run c))); cbn [negb] in Ho.
  2: { apply lift_Ok in Ho as [Ho%outcome_to_Ok _]. by subst. }
  apply bind_Ok in Ho as (a & w1 & _ & Ho). destruct (opt_eqb (mutation_worker_id _) _) eqn:Ew; cbn [negb] in Ho.
  2: { apply lift_Ok in Ho as [(art & _ & ->%outcome_post_init_Ok)%rbind_Ok _]. done. }
  apply opt_eqb_true in Ew. apply bind_Ok in Ho as ([root workspace] & w2 & _ & Ho). cbv beta iota zeta in Ho.
  apply bind_Ok in Ho as (limits & w3 & _ & Ho). destruct (implementation_task_evidence c) as [payload|] eqn:Et; cycle 1.
  { apply on_right_Ok in Ho as [Ho _]. unfold start_implementation in Ho.
    apply bind_Ok in Ho as (ps & r4 & _ & Ho). destruct (_ || _); [by apply lift_Ok in Ho as [->%outcome_to_Ok _]|].
    apply bind_Ok in Ho as (task & r5 & _ & [(f & _ & (art & _ & [Ho _]%outcome_with_Ok)%rbind_Ok)%rbind_Ok _]%lift_Ok).
    congruence. }
  unfold poll_implementation in Ho. apply bind_Ok in Ho as (d & w4 & [Hd _]%on_right_Ok & Ho).
  apply bind_Ok in Ho as (task & w5 & [Htask _]%lift_Ok & Ho). apply bind_Ok in Ho as (spent & w6 & _ & Ho).
  unfold task_fields in Htask. destruct d as [| | | | | |fields]; try done. injection Htask as <-.
  assert (Hd' : described (run_user_id (pc_run c)) (str_or_empty (get "task_id" payload)) fields)
    by (left; eauto).
  assert (Hend : forall t (w7 w8 : World * R), described (run_user_id (pc_run c)) (str_or_empty (get "task_id" payload)) t ->
    on_right (conclude_implementation git agent c a root (str_or_empty (get "task_id" payload)) t spent) w7 = (Ok o, w8) ->
    exists a root payload0 fields revision fingerprint,
      mutation_worker_id (pc_cycle c) = wa_worker_id a /\ Some payload = Some payload0 /\
      described (run_user_id (pc_run c)) (str_or_empty (get "task_id" payload0)) fields /\
      (success_status (status_of fields) = true \/ status_of fields = "CANCELLED") /\
      mutation_seen a root revision fingerprint /\ handed_over o revision fingerprint).
  { intros t w7 w8 Ht [Hc _]%on_right_Ok.
    destruct (conclude_implementation_moves _ _ _ _ _ _ _ _ _ _ Hc Hn) as (Hst & revision & fingerprint & Hm & Hh).
    exists a, root, payload, t, revision, fingerprint. split_and!; try done. tauto. }
  destruct (_ && _); [|by eapply Hend].
  apply bind_Ok in Ho as (x & w7 & [Hx _]%on_right_Ok & Ho). cbv zeta in Ho.
  destruct (terminal_status _); cbn [negb] in Ho; [|apply lift_Ok in Ho as [Ho%waiting_next _]; congruence].
  eapply Hend; [|exact Ho]. destruct x; try exact Hd'. right. eauto.
Qed.

(** *** Reproduction *)

(** the worker of the cycle was reset to its base, and Git lists no change *)
Definition undone (c : PhaseContext) (r' : R) : Prop :=
  exists root r0 r1 r2 r3,
    resolve_worker_root (run_user_id (pc_run c)) (run_workspace_id (pc_run c))
      (default "" (mutation_worker_id (pc_cycle c))) r0 = (Ok root, r1) /\
    git_command ["git"; "-C"; root; "reset"; "--hard"; "HEAD"] r1 = (Ok (Some 0%Z), r2) /\
    git_command ["git"; "-C"; root; "clean"; "-fd"] r2 = (Ok (Some 0%Z), r3) /\
    plain_manifest root r3 = (Ok [], r').

Lemma git_or_fail_Ok argv r x r' : git_or_fail git_command argv r = (Ok x, r') -> git_command argv r = (Ok (Some 0%Z), r').
Proof.
  intros (code & r1 & Hc & Ho)%bind_Ok. destruct code as [z|]; [|done].
  destruct (z =? 0)%Z eqn:Ez; [|done]. apply Z.eqb_eq in Ez as ->. by apply ret_Ok in Ho as [_ ->].
Qed.
Lemma cleanup_undone c r x r' :
  has_key (mutation_worker_id (pc_cycle c)) = true ->
  _cleanup_reproduction_changes resolve_worker_root git_command plain_manifest REPRODUCING c r = (Ok x, r') ->
  undone c r'.
Proof.
  intros Hw Hc. unfold _cleanup_reproduction_changes in Hc. rewrite Hw in Hc. cbn [negb orb] in Hc.
  rewrite bool_decide_true in Hc by done. cbn [negb orb] in Hc.
  apply bind_Ok in Hc as (root & r1 & Hr & (y & r2 & H1%git_or_fail_Ok & (z & r3 & H2%git_or_fail_Ok &
    (manifest & r4 & Hm & Hend)%bind_Ok)%bind_Ok)%bind_Ok).
  destruct manifest as [|e manifest]; [|done]. apply ret_Ok in Hend as [_ ->].
  exists root, r, r1, r2, r3. split_and!; assumption.
Qed.
Lemma conclude_undone next c required task_id task spent r o r' :
  has_key (mutation_worker_id (pc_cycle c)) = true ->
  conclude_advisory resolve_worker_root agent git_command plain_manifest REPRODUCING next c required task_id task spent r
    = (Ok o, r') ->
  po_next_state o = None \/ undone c r'.
Proof.
  intros Hw Hc. unfold conclude_advisory in Hc.
  destruct (negb _); [left; by apply lift_Ok in Hc as [Ho%waiting_next _]|]. right.
  destruct (_ && _); [|destruct (negb _)].
  1-2: apply bind_Ok in Hc as (x & r1 & Hu & [_ ->]%lift_Ok); exact (cleanup_undone _ _ _ _ Hw Hu).
  apply bind_Ok in Hc as (output & r1 & _ & (x & r2 & Hu & [_ ->]%lift_Ok)%bind_Ok).
  exact (cleanup_undone _ _ _ _ Hw Hu).
Qed.

(** A reproduction is undone: before the run leaves REPRODUCING, the isolated worker
    in which its agent could run commands was reset to its base and cleaned, both Git
    commands ended with zero in time, and Git then lists no change; nothing touches the
    outside world between that check and the move. *)
Theorem reproduction_is_undone c w r o w' s :
  has_key (run_model_id (pc_run c)) = true -> has_key (mutation_worker_id (pc_cycle c)) = true ->
  execute REPRODUCING c (w, r) = (Ok o, w') -> po_next_state o = Some s ->
  undone c w'.2.
Proof.
  intros Hm Hw Ho Hn. cbn [agents_execute advisory_next] in Ho. unfold advisory_execute in Ho.
  rewrite Hm in Ho. cbn [negb] in Ho. apply bind_Ok in Ho as (limits & w1 & _ & Ho).
  apply bind_Ok in Ho as (parallelism & w2 & [Hp _]%lift_Ok & Ho).
  injection Hp as <-. unfold parallel_advisory in Ho. cbn [Z.ltb Z.compare Pos.compare Pos.compare_cont andb] in Ho.
  destruct (advisory_task_evidence REPRODUCING c) as [payload|]; cycle 1.
  { apply on_right_Ok in Ho as [Ho _]. unfold start_advisory in Ho.
    apply bind_Ok in Ho as ([workspace isolated] & r1 & _ & ([commands network] & r2 & _ &
      (task & r3 & _ & (fields & r4 & _ & Ho)%bind_Ok)%bind_Ok)%bind_Ok).
    cbv zeta in Ho. destruct (empty_str _); [done|].
    apply lift_Ok in Ho as [(art & _ & [Ho _]%outcome_with_Ok)%rbind_Ok _]. congruence. }
  unfold poll_advisory in Ho.
  apply bind_Ok in Ho as (d & w3 & _ & (task & w4 & _ & (spent & w5 & _ & Ho)%bind_Ok)%bind_Ok).
  destruct (_ && _); [apply bind_Ok in Ho as (x & w6 & _ & Ho); cbv zeta in Ho; destruct (negb _)|].
  { apply lift_Ok in Ho as [Ho%waiting_next _]. congruence. }
  all: apply on_right_Ok in Ho as [Ho _]; apply conclude_undone in Ho as [Ho|Ho]; [congruence|exact Ho|exact Hw].
Qed.

(** *** Budgets *)

Lemma bounded_int_Ok v default lo hi n :
  (lo <= hi)%Z -> _bounded_int v default lo hi = Ok n -> (lo <= n <= hi)%Z.
Proof. intros Hl (p & _ & [= <-])%rbind_Ok. lia. Qed.
Lemma bounded_setting_Ok policy key env default lo hi n :
  bounded_setting getenv policy key env default lo hi = Ok n -> (lo <= hi)%Z -> (lo <= n <= hi)%Z.
Proof. intros Hn Hl. by eapply bounded_int_Ok. Qed.
Definition within (lo hi : Z * Z) (l : Z * Z) : Prop :=
  (lo.1 <= l.1 <= hi.1)%Z /\ (lo.2 <= l.2 <= hi.2)%Z.

Lemma advisory_limits_within s policy l :
  advisory_limits getenv s policy = Ok l -> within (30, 2)%Z (1800, 100)%Z l.
Proof.
  unfold advisory_limits. destruct (bool_decide _); intros (t & Ht & (n & Hn & [= <-])%rbind_Ok)%rbind_Ok.
  all: apply bounded_setting_Ok in Ht; [|lia]; apply bounded_setting_Ok in Hn; [|lia]; by split.
Qed.
Lemma handoff_limits_within s policy l0 l :
  within (30, 2)%Z (1800, 100)%Z l0 -> advisory_handoff_limits getenv s policy l0 = Ok l ->
  within (30, 2)%Z l0 l.
Proof.
  intros [? ?]. unfold advisory_handoff_limits.
  destruct (bool_decide _); intros (t & Ht & (n & Hn & [= <-])%rbind_Ok)%rbind_Ok.
  all: apply bounded_setting_Ok in Ht; [|lia]; apply bounded_setting_Ok in Hn; [|lia].
  all: split; cbn [fst snd] in *; lia.
Qed.
Lemma implementation_limits_within policy l :
  implementation_limits getenv policy = Ok l -> within (60, 8)%Z (3600, 250)%Z l.
Proof.
  intros (t & Ht & (n & Hn & [= <-])%rbind_Ok)%rbind_Ok.
  apply bounded_setting_Ok in Ht; [|lia]. apply bounded_setting_Ok in Hn; [|lia]. by split.
Qed.

Definition blocks_size (blocks : list string) : Z := foldr (fun b n => len b + 1 + n)%Z 0%Z blocks.
Lemma blocks_size_nonneg l : (0 <= blocks_size l)%Z.
Proof. unfold blocks_size, len. induction l; cbn in *; lia. Qed.
Lemma blocks_size_app l b : blocks_size (l ++ [b]) = (blocks_size l + (len b + 1))%Z.
Proof. unfold blocks_size. induction l as [|x l IH]; cbn; [lia|]. cbn in IH. rewrite IH. lia. Qed.
Lemma handoff_blocks_size n rows blocks seen remaining :
  (-1 <= remaining)%Z ->
  (blocks_size (handoff_blocks n rows blocks seen remaining) <= blocks_size blocks + remaining + 1)%Z.
Proof.
  revert blocks seen remaining. induction rows as [|row rows IH]; intros blocks seen remaining Hr; cbn [handoff_blocks].
  { lia. }
  destruct (_ <=? len_list _)%Z; [by apply IH|]. destruct (remaining <=? 0)%Z eqn:E0; [by apply IH|].
  apply Z.leb_gt in E0. cbn [orb]. destruct (negb _); [by apply IH|]. cbv zeta.
  destruct (_ || _); [by apply IH|]. destruct (existsb _ _); [by apply IH|].
  destruct (empty_str _); [by apply IH|].
  match goal with |- context [blocks ++ [?b]] =>
    assert (len b <= Z.min 2400 remaining)%Z by (etransitivity; [apply str_take_length|lia]); generalize dependent b
  end.
  intros b Hb. etransitivity; [apply IH; lia|]. rewrite blocks_size_app. lia.
Qed.
Lemma len_app s t : len (s +:+ t) = (len s + len t)%Z.
Proof. unfold len. induction s as [|x s IH]; [done|]. simpl in *. lia. Qed.
Lemma join_size l : (len (str_join newline l) <= Z.max 0 (blocks_size l - 1))%Z.
Proof.
  induction l as [|b l IH]; [done|]. destruct l as [|b' l].
  { cbn. unfold len. lia. }
  change (str_join newline (b :: b' :: l)) with (b +:+ newline +:+ str_join newline (b' :: l)).
  rewrite !len_app. change (len newline) with 1%Z.
  assert (1 <= blocks_size (b' :: l))%Z.
  { change (blocks_size (b' :: l)) with (len b' + 1 + blocks_size l)%Z. pose proof (blocks_size_nonneg l).
    unfold len. lia. }
  change (blocks_size (b :: b' :: l)) with (len b + 1 + blocks_size (b' :: l))%Z. unfold len in *. lia.
Qed.
Lemma blocks_size_rev l : blocks_size (rev l) = blocks_size l.
Proof. induction l as [|b l IH]; [done|]. cbn [rev]. rewrite blocks_size_app, IH. change (blocks_size (b :: l)) with (len b + 1 + blocks_size l)%Z. lia. Qed.

(** Budgets are bounded: whatever the policy of the run and the environment of the
    process say, an advisory task gets between 30 seconds and 30 minutes and 2 to 100
    tool actions, an implementation between a minute and an hour and 8 to 250 actions; a
    handoff can only tighten what the phase would get without it, and the handoff itself
    is at most 8000 characters. *)
Theorem budgets_are_bounded s policy handoff l c :
  (advisory_budget getenv s policy handoff = Ok l ->
     within (30, 2)%Z (1800, 100)%Z l /\
     exists l0, advisory_budget getenv s policy "" = Ok l0 /\ (l.1 <= l0.1)%Z /\ (l.2 <= l0.2)%Z) /\
  (implementation_budget getenv policy handoff = Ok l ->
     within (60, 8)%Z (3600, 250)%Z l /\
     exists l0, implementation_budget getenv policy "" = Ok l0 /\ (l.1 <= l0.1)%Z /\ (l.2 <= l0.2)%Z) /\
  (len (_reasoning_handoff c) <= 8000)%Z.
Proof.
  split_and!.
  - intros (l0 & H0 & Hl)%rbind_Ok. pose proof (advisory_limits_within _ _ _ H0) as [? ?].
    assert (advisory_budget getenv s policy "" = Ok l0) as He by (unfold advisory_budget; by rewrite H0).
    destruct (empty_str handoff).
    + injection Hl as <-. split; [by split|]. exists l0. split; [done|]. lia.
    + apply handoff_limits_within in Hl as [? ?]; [|by split]. cbn [fst snd] in *.
      split; [split; cbn [fst snd]; lia|]. exists l0. split; [done|]. lia.
  - intros (l0 & H0 & Hl)%rbind_Ok. pose proof (implementation_limits_within _ _ H0) as [? ?].
    assert (implementation_budget getenv policy "" = Ok l0) as He by (unfold implementation_budget; by rewrite H0).
    destruct (empty_str handoff).
    + injection Hl as <-. split; [by split|]. exists l0. split; [done|]. lia.
    + apply rbind_Ok in Hl as (t & Ht & (n & Hn & [= <-])%rbind_Ok).
      apply bounded_setting_Ok in Ht; [|lia]. apply bounded_setting_Ok in Hn; [|lia].
      cbn [fst snd] in *. split; [split; cbn [fst snd]; lia|]. exists l0. split; [done|]. lia.
  - unfold _reasoning_handoff. etransitivity; [apply join_size|]. rewrite blocks_size_rev.
    pose proof (handoff_blocks_size 4 (rev (pc_evidence c)) [] [] 8000 ltac:(lia)) as Hs.
    change (blocks_size []) with 0%Z in Hs. lia.
Qed.

Lemma or_none_joined sep x l : x <> "" -> is_none (or_none (str_join sep (x :: l))) = false.
Proof. intros Hx. unfold or_none, empty_str. case_decide as Hj; [|done]. by destruct x, l. Qed.

Lemma bind_eq {W A B} (m : M W A) (k : A -> M W B) w a w' : m w = (Ok a, w') -> bind m k w = k a w'.
Proof. unfold bind. by intros ->. Qed.
Lemma on_right_eq {V W A} (m : M W A) (v : V) w x w' : m w = (x, w') -> on_right m (v, w) = (x, (v, w')).
Proof. unfold on_right. cbn. by intros ->. Qed.
Lemma on_left_eq {V W A} (m : M V A) v (w : W) x v' : m v = (x, v') -> on_left m (v, w) = (x, (v', w)).
Proof. unfold on_left. cbn. by intros ->. Qed.

(** advice fails only to be recorded, when it is too long *)
Definition too_long : exn := ValueError "phase artifact payload exceeds bounded size".
Lemma phase_advice_result payload : phase_advice payload = Err too_long \/ exists a, phase_advice payload = Ok a /\ pa_key a = "phase-advice".
Proof.
  unfold phase_advice, advisory_artifact, PhaseArtifact_post_init. cbn [pa_key pa_kind pa_source pa_payload].
  change (blank _ || blank _ || blank _) with false. destruct (_ <? _)%Z; [by left|right]. by eexists.
Qed.
Lemma budget_outcome_result s next task_id task spent :
  advisory_next s = Some next ->
  _budget_outcome s next task_id task spent = Err too_long \/
  exists o, _budget_outcome s next task_id task spent = Ok o /\ po_next_state o = Some next.
Proof.
  intros Hs. unfold _budget_outcome. cbv zeta.
  match goal with |- context [phase_advice ?p] => destruct (phase_advice_result p) as [->|(a & -> & Ha)] end; [by left|].
  right. unfold outcome_with, PhaseOutcome_post_init. cbn [rbind po_artifacts map po_reason po_gates po_cycle_updates po_target_revision po_target_fingerprint]. rewrite Ha.
  assert (blank (state_value s +:+ " advisory fast-execution budget reached") = false) as -> by by destruct s.
  eexists. split; [reflexivity|done].
Qed.

(** An agent cannot hold the run: when the task of a phase that uses one agent has
    used up its time and the service confirms that it is cancelled, the phase moves on
    in that very turn, whatever the task was doing (after undoing what a reproduction
    left behind); the turn fails only when what the agent wrote is too long to record. *)
Theorem agents_cannot_stall s next c w r limits payload fields r1 ended r2 r3 created :
  advisory_next s = Some next -> has_key (run_model_id (pc_run c)) = true ->
  advisory_budget getenv s (as_dict (run_policy (pc_run c))) (_reasoning_handoff c) = Ok limits ->
  _parallel_model_runs s (as_dict (run_policy (pc_run c))) = Ok 1%Z ->
  advisory_task_evidence s c = Some payload ->
  ag_get agent (str_or_empty (get "task_id" payload)) (run_user_id (pc_run c)) r = (Ok (JObj fields), r1) ->
  terminal_status (status_of fields) = false ->
  get "created_at" fields = JInt created -> (0 < created)%Z ->
  (created + limits.1 * 1000 <= clock (ticks w))%Z ->
  ag_cancel agent (str_or_empty (get "task_id" payload)) (run_user_id (pc_run c)) r1 = (Ok (JObj ended), r2) ->
  status_of ended = "CANCELLED" ->
  _cleanup_reproduction_changes resolve_worker_root git_command plain_manifest s c r2 = (Ok tt, r3) ->
  exists x w', execute s c (w, r) = (x, (w', r3)) /\
    (x = Err too_long \/ exists o, x = Ok o /\ po_next_state o = Some next).
Proof.
  intros Hs Hm Hb Hp He Hg Ht Hc Hpos Htime Hcancel Hended Hclean.
  assert (exists spent w1, _budget_reason fields limits w = (Ok spent, w1) /\ over_budget spent = true)
    as (spent & w1 & Hspent & Hover).
  { unfold _budget_reason, _elapsed_ms. rewrite Hc. cbn [truthy]. destruct (created =? 0)%Z eqn:E0; [lia|].
    cbn [negb py_int]. destruct (created <=? 0)%Z eqn:E1; [lia|]. eexists _, _. split; [reflexivity|].
    unfold over_budget. cbn [sp_reason]. unfold budget_reasons.
    destruct (limits.1 * 1000 <=? _)%Z eqn:E2; [|apply Z.leb_gt in E2; lia].
    apply negb_true_iff, or_none_joined. by destruct (str_of_int limits.1). }
  assert (terminal_status "CANCELLED" = true) as Hterminal by reflexivity.
  unfold agents_execute. rewrite Hs. unfold advisory_execute. rewrite Hm. cbn [negb].
  rewrite Hb, Hp, He. unfold parallel_advisory, poll_advisory, conclude_advisory. cbn [Z.ltb Z.compare Pos.compare Pos.compare_cont andb].
  destruct (budget_outcome_result s next
    (str_or_empty (get "task_id" payload)) ended spent Hs) as [Hx|(o & Hx & Ho)].
  all: rewrite !(bind_eq (lift (Ok _)) _ (w, r) _ (w, r) eq_refl); change (1 <? 1)%Z with false; cbn [andb].
  all: rewrite (bind_eq _ _ _ _ _ (on_right_eq _ _ _ _ _ Hg)), (bind_eq _ _ _ fields (w, r1) eq_refl),
    (bind_eq _ _ _ _ _ (on_left_eq _ _ _ _ _ Hspent)), Ht, Hover; cbn [negb andb].
  all: rewrite (bind_eq _ _ _ _ _ (on_right_eq _ _ _ _ _ Hcancel)); cbv zeta; rewrite Hended, Hterminal.
  all: cbn [negb andb]; change (str_eqb "CANCELLED" "CANCELLED") with true; cbn [andb].
  all: eexists _, _; split; [apply on_right_eq; rewrite (bind_eq _ _ _ _ _ Hclean); unfold lift; rewrite Hx; reflexivity|].
  - by left.
  - right. eauto.
Qed.
End Theorems.

(** ** Concrete inputs *)

(** a clock that is past every budget of a task created early *)
Definition late_env : Env := {|
  sha256_hex := @sha256_hex demo_env; uuid_hex := @uuid_hex demo_env;
  clock := fun n => (1000000 + Z.of_nat n)%Z; float_repr := @float_repr demo_env; float_int := @float_int demo_env;
  float_integral := @float_integral demo_env; float_of_int := @float_of_int demo_env;
  float_of_str := @float_of_str demo_env; float_compare := @float_compare demo_env;
  float_order := @float_order demo_env; iso_timestamp_ms := @iso_timestamp_ms demo_env |}.

Definition demo_agent_run (policy : json) : FactoryRun := {|
  run_id := "factory_0"; run_user_id := "u1"; run_workspace_id := "ws1";
  run_mission := "repair the parser"; run_acceptance_criteria := ["a"; "b"];
  run_model_id := Some "model"; run_state := REPRODUCING; run_current_cycle_id := Some "cycle_2";
  run_resumable_state := None; run_policy := policy; run_budget := JObj [];
  run_config_fingerprint := ""; run_next_action := None; run_idempotency_key := None;
  run_lease_token := None; run_lease_expires_at := None; run_created_at := 0; run_updated_at := 0;
  run_completed_at := None |}.
(** a cycle with a worker and the builtin capabilities selected, and a task on record *)
Definition demo_agent_cycle : FactoryCycle :=
  set_mutation_worker_id (Some "w1") (set_selected_capabilities (str_list (map cm_stable_id demo_builtins))
    demo_phase_cycle).
Definition demo_task_evidence (kind state : string) : FactoryEvidence := {|
  evd_id := "e9"; evd_run_id := "factory_0"; evd_cycle_id := Some "cycle_2"; evd_gate_id := None;
  evd_kind := kind; evd_source := "cptr-agent-service"; evd_authority := MACHINE; evd_revision := None;
  evd_fingerprint := None; evd_digest := "";
  evd_payload := JObj [("phase_state", JStr state); ("attempt", JInt 3); ("task_id", JStr "task-1")];
  evd_key := None; evd_created_at := 0 |}.
Definition demo_agent_phase (policy : json) (evidence : list FactoryEvidence) : PhaseContext := {|
  pc_run := demo_agent_run policy; pc_cycle := demo_agent_cycle;
  pc_evidence := demo_inventory demo_builtins :: evidence; pc_gates := []; pc_steering_messages := [] |}.
(** the lane of the cycle, on record *)
Definition demo_agent_lane : FactoryWorkerAssignment := {|
  wa_id := "fwa_0"; wa_run_id := "factory_0"; wa_cycle_id := "cycle_2"; wa_workspace_id := "ws1";
  wa_worker_id := Some "w1"; wa_owner_key := "k"; wa_mode := MUTATION; wa_repo_path := "."; wa_scope := ["."];
  wa_branch := Some "factory/w1"; wa_base_revision := Some "c1"; wa_status := ACTIVE; wa_created_at := 0;
  wa_updated_at := 0; wa_closed_at := None |}.
Definition demo_agent_world : World :=
  set_db (set_db_assignments {[ "fwa_0" := demo_agent_lane ]}) demo_judging.

(** a host that answers, and agents whose starts the outside world records *)
#[local] Abbreviation Log := (list AgentTask).
Definition log_git : GitAdapter Log := {|
  git_current_revision _ := ret "c1"; git_workspace_fingerprint _ := ret "f2";
  git_change_manifest _ := ret demo_manifest; git_diff _ := ret []; git_diff_check _ := ret [];
  git_stage _ _ := ret tt; git_commit _ _ := ret []; git_log _ _ := ret []; git_push _ _ _ := ret [] |}.
Definition log_agent (status : string) : AgentService Log := {|
  ag_start q r := (Ok (JObj [("id", JStr "task-1")]), q :: r);
  ag_get i _ := ret (JObj [("id", JStr i); ("status", JStr status); ("created_at", JInt 1)]);
  ag_cancel i _ := ret (JObj [("id", JStr i); ("status", JStr "cancelled")]);
  ag_output _ _ := ret (JObj [("content", JStr "Victory! All gates pass.")]) |}.
#[local] Abbreviation demo_agents env status state c w :=
  (@agents_execute env Log log_git no_workers (fun _ ws => ret ws) worker_root (fun _ _ => ret [])
    (log_agent status) (fun _ => None) (fun _ _ _ _ => ret "lane-ws") (fun _ => ret (Some 0%Z)) (fun _ => ret [])
    state c w).

Definition demo_reproducing : PhaseContext := demo_agent_phase (JObj []) [].
Lemma log_unaffected status I :
  @unaffected Log log_git no_workers (fun _ ws => ret ws) worker_root (fun _ _ => ret []) (log_agent status)
    (fun _ _ _ _ => ret "lane-ws") (fun _ => ret (Some 0%Z)) (fun _ => ret []) I.
Proof. split; intros; exact (stays_ret _ _). Qed.
Definition demo_allowed : AgentTask -> Prop :=
  @allowed_request demo_env Log worker_root (fun _ _ _ _ => ret "lane-ws") REPRODUCING demo_reproducing.

(** the agent of a reproduction is started with commands, in the worker's own workspace *)
Theorem agents_are_confined_witness :
  exists q, (demo_agents demo_env "running" REPRODUCING demo_reproducing (demo_agent_world, [])).2.2 = [q] /\
    at_commands q = true /\ at_file_writes q = false /\ at_workspace q = "lane-ws" /\ demo_allowed q.
Proof.
  pose proof (@agents_are_confined demo_env Log log_git no_workers (fun _ ws => ret ws) worker_root
    (fun _ _ => ret []) (log_agent "running") (fun _ => None) (fun _ _ _ _ => ret "lane-ws")
    (fun _ => ret (Some 0%Z)) (fun _ => ret []) (Forall demo_allowed) REPRODUCING demo_reproducing
    demo_agent_world [] eq_refl (log_unaffected "running" _)
    (fun q Hq r0 Hr0 => Forall_cons_2 _ _ _ Hq Hr0) (Forall_nil_2 _)) as Hall.
  remember (demo_agents demo_env "running" REPRODUCING demo_reproducing (demo_agent_world, [])).2.2 as log eqn:E.
  destruct log as [|q []]; [vm_compute in E; discriminate E| |vm_compute in E; discriminate E].
  exists q. split; [reflexivity|]. apply Forall_cons in Hall as [Hq _].
  assert (Some (at_commands q, at_file_writes q, at_workspace q) = Some (true, false, "lane-ws")) as Hf.
  { change (Some (at_commands q, at_file_writes q, at_workspace q))
      with ((fun q => (at_commands q, at_file_writes q, at_workspace q)) <$> head [q]). rewrite E.
    vm_compute. reflexivity. }
  injection Hf as H1 H2 H3. split; [exact H1|]. split; [exact H2|]. split; [exact H3|exact Hq].
Defined.

(** an agent that claims Victory is only advice *)
Definition demo_implementing : PhaseContext :=
  demo_agent_phase (JObj []) [demo_task_evidence "factory_implementation_task" "IMPLEMENTING"].
#[local] Abbreviation demo_done := (demo_agents demo_env "completed" IMPLEMENTING demo_implementing (demo_agent_world, [])).

Theorem agents_are_powerless_witness :
  exists o w', demo_done = (Ok o, w') /\ length (po_artifacts o) = 1 /\ po_gates o = [] /\
    po_victory_decision o = None /\ Forall agent_artifact (po_artifacts o).
Proof.
  destruct demo_done as [[o|e] w'] eqn:E; [|vm_compute in E; discriminate E].
  destruct (@agents_are_powerless demo_env Log log_git no_workers (fun _ ws => ret ws) worker_root
    (fun _ _ => ret []) (log_agent "completed") (fun _ => None) (fun _ _ _ _ => ret "lane-ws")
    (fun _ => ret (Some 0%Z)) (fun _ => ret []) IMPLEMENTING demo_implementing (demo_agent_world, []) o w'
    eq_refl E) as (Hg & Hv & Ha & _).
  exists o, w'. split; [reflexivity|]. split; [|split; [exact Hg|split; [exact Hv|exact Ha]]].
  vm_compute in E. injection E as <- _. reflexivity.
Defined.

Theorem implementation_is_judged_witness :
  exists o w', demo_done = (Ok o, w') /\ po_next_state o = Some TARGETED_VERIFYING /\
    exists a root revision fingerprint, mutation_worker_id demo_agent_cycle = wa_worker_id a /\
      mutation_seen log_git a root revision fingerprint /\ handed_over o revision fingerprint.
Proof.
  destruct demo_done as [[o|e] w'] eqn:E; [|vm_compute in E; discriminate E].
  assert (po_next_state o = Some TARGETED_VERIFYING) as Hn by (vm_compute in E; injection E as <- _; reflexivity).
  destruct (@implementation_is_judged demo_env Log log_git no_workers (fun _ ws => ret ws) worker_root
    (fun _ _ => ret []) (log_agent "completed") (fun _ => None) (fun _ _ _ _ => ret "lane-ws")
    (fun _ => ret (Some 0%Z)) (fun _ => ret []) demo_implementing demo_agent_world [] o w' eq_refl E Hn)
    as (a & root & payload & fields & revision & fingerprint & Hw & _ & _ & _ & Hm & Hh).
  exists o, w'. split; [reflexivity|]. split; [exact Hn|]. exists a, root, revision, fingerprint.
  split; [exact Hw|]. split; [exact Hm|exact Hh].
Defined.
(** agents that leave nothing behind, or that commit, fail *)
Example idle_implementation_fails :
  match (@agents_execute demo_env Log (Build_GitAdapter _ (fun _ => ret "c2") (fun _ => ret "f2")
      (fun _ => ret demo_manifest) (fun _ => ret []) (fun _ => ret []) (fun _ _ => ret tt) (fun _ _ => ret [])
      (fun _ _ => ret []) (fun _ _ _ => ret [])) no_workers (fun _ ws => ret ws) worker_root (fun _ _ => ret [])
      (log_agent "completed") (fun _ => None) (fun _ _ _ _ => ret "lane-ws") (fun _ => ret (Some 0%Z))
      (fun _ => ret []) IMPLEMENTING demo_implementing (demo_agent_world, [])).1 with
  | Ok o => asked_move o = Some REPAIR_REQUIRED
  | Err _ => False
  end.
Proof. vm_compute. reflexivity. Qed.

Definition demo_reproduced : PhaseContext :=
  demo_agent_phase (JObj []) [demo_task_evidence "factory_phase_task" "REPRODUCING"].
#[local] Abbreviation demo_undo := (demo_agents demo_env "completed" REPRODUCING demo_reproduced (demo_agent_world, [])).
Theorem reproduction_is_undone_witness :
  exists o w', demo_undo = (Ok o, w') /\ po_next_state o = Some ROOT_CAUSE_ANALYSIS /\
    @undone Log worker_root (fun _ => ret (Some 0%Z)) (fun _ => ret []) demo_reproduced w'.2.
Proof.
  destruct demo_undo as [[o|e] w'] eqn:E; [|vm_compute in E; discriminate E].
  assert (po_next_state o = Some ROOT_CAUSE_ANALYSIS) as Hn by (vm_compute in E; injection E as <- _; reflexivity).
  exists o, w'. split; [reflexivity|]. split; [exact Hn|].
  exact (@reproduction_is_undone demo_env Log log_git no_workers (fun _ ws => ret ws) worker_root
    (fun _ _ => ret []) (log_agent "completed") (fun _ => None) (fun _ _ _ _ => ret "lane-ws")
    (fun _ => ret (Some 0%Z)) (fun _ => ret []) demo_reproduced demo_agent_world [] o w' ROOT_CAUSE_ANALYSIS
    eq_refl eq_refl E Hn).
Defined.

Definition demo_stalled : PhaseContext :=
  demo_agent_phase (JObj []) [demo_task_evidence "factory_phase_task" "PLANNING"].
Theorem agents_cannot_stall_witness :
  exists o w', demo_agents late_env "running" PLANNING demo_stalled (demo_agent_world, []) = (Ok o, w') /\
    po_next_state o = Some IMPLEMENTING.
Proof.
  destruct (@agents_cannot_stall late_env Log log_git no_workers (fun _ ws => ret ws) worker_root
    (fun _ _ => ret []) (log_agent "running") (fun _ => None) (fun _ _ _ _ => ret "lane-ws")
    (fun _ => ret (Some 0%Z)) (fun _ => ret []) PLANNING IMPLEMENTING demo_stalled demo_agent_world []
    (120, 10)%Z [("phase_state", JStr "PLANNING"); ("attempt", JInt 3); ("task_id", JStr "task-1")]
    [("id", JStr "task-1"); ("status", JStr "running"); ("created_at", JInt 1)] []
    [("id", JStr "task-1"); ("status", JStr "cancelled")] [] [] 1%Z) as (x & w1 & Hx & [He|(o & Ho & Hn)]).
  - reflexivity.
  - reflexivity.
  - vm_compute. reflexivity.
  - vm_compute. reflexivity.
  - vm_compute. reflexivity.
  - reflexivity.
  - vm_compute. reflexivity.
  - reflexivity.
  - reflexivity.
  - vm_compute. discriminate.
  - reflexivity.
  - vm_compute. reflexivity.
  - reflexivity.
  - exfalso. rewrite He in Hx. vm_compute in Hx. discriminate Hx.
  - exists o, (w1, []). rewrite Ho in Hx. split; [exact Hx|exact Hn].
Defined.

(** the environment of the process, with a timeout of a day and no tools *)
Definition demo_settings (name : string) : option string :=
  if str_eqb name "CPTR_FACTORY_ADVISORY_TIMEOUT_SECONDS" then Some "86400"
  else if str_eqb name "CPTR_FACTORY_ADVISORY_MAX_TOOL_CALLS" then Some "0" else None.
Theorem budgets_are_bounded_witness :
  @advisory_budget demo_env demo_settings PLANNING [] "" = Ok (1800, 2)%Z /\
  within (30, 2)%Z (1800, 100)%Z (1800, 2)%Z /\
  (len (@_reasoning_handoff demo_env demo_stalled) <= 8000)%Z.
Proof.
  assert (@advisory_budget demo_env demo_settings PLANNING [] "" = Ok (1800, 2)%Z) as Hb
    by (vm_compute; reflexivity).
  destruct (@budgets_are_bounded demo_env demo_settings PLANNING [] "" (1800, 2)%Z demo_stalled) as (Ha & _ & Hl).
  destruct (Ha Hb) as [Hw _]. split; [exact Hb|]. split; [exact Hw|exact Hl].
Defined.
