(* ===== verification/FactorySystem.v ===== *)
(** * The system

    Puts the components together: the run loop of production, recovery after a
    restart, the calls of users and the writes of others, as steps on the tables and an
    outside world.  What every step keeps, and the abstract contract of a run that the
    whole system refines. *)

From S2P Require Import Prelude PyStr Json Redaction FactoryDomain FactoryGates.
From S2P Require Import FactoryVictory Database CapabilityLifecycle FactoryStore FactoryHistory.
From S2P Require Import FactoryStoreFacts FactoryFrames FactorySafety FactoryStoreSpec FactoryStoreQueries.
From S2P Require Import FactoryFresh FactoryRuntime FactoryPhases FactoryGit FactoryWorkers FactoryCi.
From S2P Require Import FactoryLifecycle FactoryOrchestrator FactoryPolicy FactoryVerification.
From S2P Require Import FactoryCapabilities FactoryControl FactoryApprovals FactoryProduction FactoryProductionSpec.
From S2P Require Import FactoryAgents FactoryAgentsSpec.

(** ** The tables the runs do not depend on *)

(** the tables without lanes, commit intents and CI runs *)
Definition core (d : Db) : Db := set_db_assignments ∅ (set_db_intents ∅ (set_db_ci_runs ∅ d)).
Definition aside (x : Db) : Db -> Prop := table_is core x.

Lemma core_sound `{Env} P d0 d d' :
  core d' = core d -> sound_system P d0 d -> sound_system P d0 d'.
Proof.
  intros Hc [Hs Ha]. injection Hc as Hu Hw Hr Hy He Hv Hg Hap _. split.
  - eapply sound_frame; [exact Hs|done|done|by rewrite Hv|by rewrite Hg|].
    intros i. rewrite Hr. destruct (db_runs d !! i); [|done]. by split_and!; [apply same_run_refl|..].
  - destruct Ha as [Hrow ? ? ?]. split; rewrite Hap; try done.
    intros i a Hi. destruct (Hrow i a Hi) as [? ? ? ?]. split; try done. by rewrite Hy.
Qed.
Lemma aside_pkeeps `{Env} {R A} P d0 (m : M (World * R) A) :
  (forall x, pkeeps (aside x) m) -> pkeeps (sound_system P d0) m.
Proof. intros Hm s Hs. eapply core_sound; [|exact Hs]. exact (Hm (core (db s.1)) s eq_refl). Qed.

#[local] Hint Extern 1 (keeps (aside _) (write _)) => apply table_write; reflexivity : keeps.
#[local] Hint Extern 1 (keeps (aside _) (query _)) => apply keeps_query : keeps.

Section Aside.
Context `{Env} {R : Type} (x : Db).

(** *** Lanes *)

Lemma set_status_aside aid st b r : keeps (aside x) (set_status aid st b r).
Proof. unfold set_status. repeat frame_step. Qed.
Lemma create_assignment_aside q : keeps (aside x) (create_assignment q).
Proof. unfold create_assignment, lane_available, insert_assignment, run_and_cycle, get_run_row, get_cycle_row. repeat frame_step. Qed.
Lemma persist_aside run cycle repo scope summary :
  keeps (aside x) (_persist_mutation_summary run cycle repo scope summary).
Proof. unfold _persist_mutation_summary. repeat frame_step. apply create_assignment_aside. Qed.
#[local] Hint Resolve set_status_aside create_assignment_aside persist_aside : keeps.

Context (service : WorkerService R) (loader : string -> string -> M R string).
Context (terminate : string -> string -> Z -> M R bool).
Lemma create_worker_aside run cycle repo scope name :
  pkeeps (aside x) (create_mutation_worker service loader run cycle repo scope name).
Proof. unfold create_mutation_worker, ensure_mutation_scope_available. repeat pkeeps_step. apply pkeeps_left. repeat frame_step. Qed.
Lemma assign_mutation_aside run cycle wid repo scope :
  pkeeps (aside x) (assign_mutation service run cycle wid repo scope).
Proof. unfold assign_mutation. repeat pkeeps_step. Qed.
Lemma worker_summary_aside run wid : pkeeps (aside x) (worker_summary service run wid).
Proof. unfold worker_summary. repeat pkeeps_step. Qed.
#[local] Hint Resolve worker_summary_aside : pkeeps.
Lemma reconcile_aside run : pkeeps (aside x) (reconcile service run).
Proof. unfold reconcile, reconcile_one, list_for_run, mark. repeat pkeeps_step. Qed.
Lemma cancel_run_aside run ms : pkeeps (aside x) (cancel_run service terminate run ms).
Proof.
  assert (forall user ms commands, pkeeps (aside x) (terminate_all terminate user ms commands)).
  { intros. induction commands; simpl; repeat pkeeps_step. }
  unfold cancel_run, cancel_one, list_for_run, mark. repeat pkeeps_step.
Qed.
Lemma cleanup_aside run aid discard : pkeeps (aside x) (cleanup service loader run aid discard).
Proof. unfold cleanup, get_assignment, mark. repeat pkeeps_step. Qed.
End Aside.

(** *** Commit intents and CI runs *)

Section Others.
Context `{Env} {R : Type} (x : Db) (git : GitAdapter R) (providers : list (string * CiProvider R)).

Lemma intent_aside iid : keeps (aside x) (_intent iid).
Proof. unfold _intent. repeat frame_step. Qed.
Lemma run_cycle_aside rid cid : keeps (aside x) (_run_cycle rid cid).
Proof. unfold _run_cycle, run_and_cycle, get_run_row, get_cycle_row. repeat frame_step. Qed.
Lemma insert_intent_aside i : keeps (aside x) (insert_intent i).
Proof. unfold insert_intent. repeat frame_step. Qed.
Lemma save_intent_aside i : keeps (aside x) (save_intent i).
Proof. unfold save_intent. repeat frame_step. Qed.
Lemma store_intent_aside cid wanted : keeps (aside x) (store_intent cid wanted).
Proof. unfold store_intent. repeat frame_step. apply insert_intent_aside. Qed.
Lemma mark_committed_aside iid sha : keeps (aside x) (_mark_committed iid sha).
Proof. unfold _mark_committed. repeat frame_step; first [apply intent_aside|apply save_intent_aside]. Qed.
Lemma for_cycle_aside cid : keeps (aside x) (get_intent_for_cycle cid).
Proof. unfold get_intent_for_cycle. repeat frame_step. Qed.
#[local] Hint Resolve store_intent_aside intent_aside run_cycle_aside insert_intent_aside save_intent_aside
  mark_committed_aside for_cycle_aside : keeps.

Lemma prepare_aside rid cid root key message :
  pkeeps (aside x) (prepare_commit_intent git rid cid root key message).
Proof.
  unfold prepare_commit_intent, verified_target. repeat pkeeps_step.
Qed.
Lemma commit_aside iid root : pkeeps (aside x) (commit_intent git iid root).
Proof. unfold commit_intent, verified_target. repeat pkeeps_step. Qed.
Lemma push_aside iid root a : pkeeps (aside x) (push_commit git iid root a).
Proof. unfold push_commit. repeat pkeeps_step. all: apply pkeeps_left; repeat frame_step. Qed.

Lemma begin_tracking_aside rid cid provider repository revision external check_id url :
  keeps (aside x) (begin_tracking providers rid cid provider repository revision external check_id url).
Proof. unfold begin_tracking, run_and_cycle, get_run_row, get_cycle_row, insert_ci. repeat frame_step. Qed.
Lemma poll_once_aside cid : pkeeps (aside x) (poll_once providers cid).
Proof.
  unfold poll_once, _get, save_ci. repeat pkeeps_step.
  all: apply pkeeps_left; repeat frame_step.
Qed.
End Others.

(** ** The phases of production *)

Section Production.
Context `{Env} {R : Type} (P : FactoryState -> option FactoryState -> Prop) (HP : forall s, P s None) (d0 : Db).
Context (git : GitAdapter R) (service : WorkerService R).
Context (loader : string -> string -> M R string) (terminate : string -> string -> Z -> M R bool).
Context (workspaces_of : string -> M R (list (string * string))).
Context (resolve repository_root : string -> M R string).
Context (resolve_worker_root : string -> string -> string -> M R string).
Context (list_workers : string -> string -> M R (list dict)).
Context (spawn : string -> list string -> string -> M R ProcessResult) (python : string).
Context (exc_text : exn -> string).
Context (gh_process : list string -> string -> string -> M R string).
Context (gh_executable : string) (gh_run : list string -> M R (Z * string)).
Context (find_skills : string -> M R (list (SkillMeta * string))) (mcp_servers : M R (list json)).
Context (urlsplit : string -> result SplitUrl).
Context (total_score : list CapabilityRequirement -> CapabilityManifest -> Z).
#[local] Abbreviation execute := (machine_execute git service loader terminate workspaces_of resolve
  repository_root resolve_worker_root list_workers spawn python exc_text gh_process gh_executable gh_run
  find_skills mcp_servers urlsplit total_score).
#[local] Abbreviation ok := (sound_system P d0).

#[local] Hint Extern 2 (pkeeps _ (reconcile _ _)) => apply aside_pkeeps; intros; apply reconcile_aside : pkeeps.
#[local] Hint Extern 2 (pkeeps _ (cancel_run _ _ _ _)) => apply aside_pkeeps; intros; apply cancel_run_aside : pkeeps.
#[local] Hint Extern 2 (pkeeps _ (cleanup _ _ _ _ _)) => apply aside_pkeeps; intros; apply cleanup_aside : pkeeps.
#[local] Hint Extern 2 (pkeeps _ (create_mutation_worker _ _ _ _ _ _ _)) =>
  apply aside_pkeeps; intros; apply create_worker_aside : pkeeps.
#[local] Hint Extern 2 (pkeeps _ (assign_mutation _ _ _ _ _ _)) =>
  apply aside_pkeeps; intros; apply assign_mutation_aside : pkeeps.
#[local] Hint Extern 2 (pkeeps _ (prepare_commit_intent _ _ _ _ _ _)) =>
  apply aside_pkeeps; intros; apply prepare_aside : pkeeps.
#[local] Hint Extern 2 (pkeeps _ (commit_intent _ _ _)) => apply aside_pkeeps; intros; apply commit_aside : pkeeps.
#[local] Hint Extern 2 (pkeeps _ (push_commit _ _ _ _)) => apply aside_pkeeps; intros; apply push_aside : pkeeps.
#[local] Hint Extern 2 (pkeeps _ (poll_once _ _)) => apply aside_pkeeps; intros; apply poll_once_aside : pkeeps.
#[local] Hint Extern 2 (pkeeps _ (on_left (begin_tracking _ _ _ _ _ _ _ _ _))) =>
  apply aside_pkeeps; intros; apply pkeeps_left, begin_tracking_aside : pkeeps.

Lemma for_cycle_keeps I cid : keeps I (get_intent_for_cycle cid).
Proof. unfold get_intent_for_cycle. repeat frame_step. Qed.
Lemma push_branch_keeps I c : keeps I (push_branch c).
Proof. unfold push_branch, list_for_run. repeat frame_step. Qed.
Lemma active_assignment_keeps I c : keeps I (_active_mutation_assignment c).
Proof. unfold _active_mutation_assignment, list_for_run. repeat frame_step. Qed.
#[local] Hint Resolve for_cycle_keeps push_branch_keeps active_assignment_keeps : keeps.
Lemma push_authorization_keeps c revision remote branch : keeps ok (push_authorization c revision remote branch).
Proof. unfold push_authorization. repeat frame_step. by apply resolve_push_keeps. Qed.
#[local] Hint Resolve push_authorization_keeps : keeps.

Lemma ensure_assignment_keeps c : pkeeps ok (_ensure_mutation_assignment service loader list_workers c).
Proof. unfold _ensure_mutation_assignment. repeat pkeeps_step. Qed.
Lemma close_lane_keeps c : pkeeps ok (close_lane service loader c).
Proof. unfold close_lane, list_for_run. repeat pkeeps_step. Qed.
Lemma observe_workflows_keeps c repository revision rows i workflows seen :
  pkeeps ok (observe_workflows gh_executable gh_run c repository revision rows i workflows seen).
Proof.
  revert i seen. induction workflows as [|w workflows IH]; intros i seen; cbn [observe_workflows]; repeat pkeeps_step.
  - unfold observe_workflow. repeat pkeeps_step.
  - match goal with |- pkeeps _ (match ?o with inl _ => _ | inr _ => _ end) => destruct o end; repeat pkeeps_step.
Qed.
#[local] Hint Resolve ensure_assignment_keeps close_lane_keeps observe_workflows_keeps : pkeeps.

#[local] Ltac pstep := first [pkeeps_step | match goal with |- pkeeps _ (match ?x with _ => _ end) => destruct x end].

(** whatever phase the machine executes, the tables stay sound *)
Lemma machine_execute_keeps s f c : execute s = Some f -> pkeeps ok (f c).
Proof.
  intros Hf. destruct s; try discriminate Hf; injection Hf as <-.
  all: unfold baseline_execute, baseline_lane, production_commit_execute, production_push_execute,
    production_pull_request_execute, production_ci_execute, observe_ci, production_cycle_complete_execute,
    recovery_execute.
  all: cbv zeta; repeat pstep.
Qed.
Context (agent : AgentService R) (getenv : string -> option string).
Context (upsert_workspace : string -> string -> string -> dict -> M R string).
Context (git_command : list string -> M R (option Z)) (plain_manifest : string -> M R (list dict)).

Lemma budget_reason_keeps I task limits : keeps I (_budget_reason task limits).
Proof. unfold _budget_reason, _elapsed_ms. repeat first [keeps_step | match goal with |- keeps _ (match ?x with _ => _ end) => destruct x end]. Qed.
#[local] Hint Resolve budget_reason_keeps : keeps.
(** whatever an agent's phase does, the tables stay sound: it reads the clock, and may
    create the lane of its cycle *)
Lemma agents_execute_keeps s c :
  pkeeps ok (agents_execute git service loader resolve_worker_root list_workers agent getenv upsert_workspace
    git_command plain_manifest s c).
Proof.
  unfold agents_execute, advisory_execute, parallel_advisory, poll_advisory, _poll_parallel_advisory, report_lanes,
    lane_report, enforce_budget, implementation_execute, poll_implementation.
  cbv zeta. repeat pstep.
Qed.
End Production.

(** ** The contract of a run *)

(** what a run is to those who start it: where it is, where it comes back to when it is
    interrupted, and whether what it has is certified by a Victory *)
Record Contract := {
  ct_state : FactoryState;
  ct_back : option FactoryState;
  ct_certified : bool;
}.
#[export] Instance beyond_victory_decision s : Decision (beyond_victory s).
Proof. unfold beyond_victory. apply _. Defined.

(** the life of a run: it starts, works along the workflow, is certified by a Victory
    and by nothing else, is interrupted and comes back to where it was, and stops.  Work
    before the gate is not certified *)
Inductive contract_step : option Contract -> option Contract -> Prop :=
  | starts : contract_step None (Some {| ct_state := MISSION; ct_back := None; ct_certified := false |})
  | works s t k :
      workflow_edge s t -> t <> COMMITTING -> ~ control_target t ->
      contract_step (Some {| ct_state := s; ct_back := None; ct_certified := k |})
        (Some {| ct_state := t; ct_back := None; ct_certified := k && bool_decide (beyond_victory t) |})
  | certifies k :
      contract_step (Some {| ct_state := VICTORY_JUDGING; ct_back := None; ct_certified := k |})
        (Some {| ct_state := COMMITTING; ct_back := None; ct_certified := true |})
  | interrupts s t b k :
      interrupted t = true -> ~ terminal s -> ~ waiting s ->
      contract_step (Some {| ct_state := s; ct_back := b; ct_certified := k |})
        (Some {| ct_state := t; ct_back := if decide (s = MISSION /\ t = RECOVERING) then None else Some s;
                 ct_certified := k |})
  | returns s t k :
      interrupted s = true -> ~ control_target t ->
      contract_step (Some {| ct_state := s; ct_back := Some t; ct_certified := k |})
        (Some {| ct_state := t; ct_back := None; ct_certified := k && bool_decide (beyond_victory t) |})
  | stops s t b k :
      ~ terminal s -> t = BLOCKED \/ t = FAILED \/ t = CANCELLED ->
      contract_step (Some {| ct_state := s; ct_back := b; ct_certified := k |})
        (Some {| ct_state := t; ct_back := None; ct_certified := false |}).

(** what the contract promises *)
Record promised (c : Contract) : Prop := {
  pr_certified : beyond_victory (ct_state c) -> ct_certified c = true;
  pr_back t : ct_back c = Some t -> beyond_victory t -> ct_certified c = true;
  pr_interrupted : ct_back c <> None -> interrupted (ct_state c) = true;
  pr_region : ct_certified c = true -> beyond_victory (ct_state c) \/ interrupted (ct_state c) = true;
}.

Lemma beyond_working s : beyond_victory s -> interrupted s = false.
Proof. intros (_ & HR & HW & _)%beyond_not. by apply interrupted_false. Qed.
Lemma stopped_not_beyond t : t = BLOCKED \/ t = FAILED \/ t = CANCELLED -> ~ beyond_victory t.
Proof. intros Ht (_ & _ & _ & HB & HF & HC)%beyond_not. naive_solver. Qed.

Lemma contract_step_keeps c c' : contract_step (Some c) (Some c') -> promised c -> promised c'.
Proof.
  intros Hs [H1 H2 H3 H4]. inversion Hs as [|s t k Hw Hc Hct|k|s t b k Hi Ht Hwt|s t k Hi Hct|s t b k Ht Hst];
    subst; cbn in *.
  - split; cbn; try done.
    + intros Hb. rewrite bool_decide_eq_true_2, andb_true_r by done. by apply H1, (edge_beyond s t).
    + intros [_ Hb%bool_decide_eq_true]%andb_true_iff. by left.
  - split; cbn; try done. intros _. left. by_evaluation.
  - split; cbn.
    + intros Hb%beyond_working. congruence.
    + intros x Hx Hb. case_decide; [done|]. injection Hx as <-. auto.
    + done.
    + intros _. by right.
  - split; cbn; try done.
    + intros Hb. rewrite bool_decide_eq_true_2, andb_true_r by done. by apply (H2 t).
    + intros [_ Hb%bool_decide_eq_true]%andb_true_iff. by left.
  - split; cbn; try done. by intros Hb%stopped_not_beyond.
Qed.
Lemma contract_kept c c' : rtc contract_step c (Some c') -> match c with Some c => promised c | None => True end -> promised c'.
Proof.
  remember (Some c') as x eqn:Hx. intros Hr. revert c' Hx.
  induction Hr as [c|c y x Hs Hr IH]; intros c' -> Hp; [done|]. apply (IH c' eq_refl).
  destruct y as [y|]; [|done]. destruct c as [c|]; [by eapply contract_step_keeps|].
  inversion Hs. split; cbn; try done. intros Hb. by apply beyond_not in Hb as [].
Qed.
Lemma terminal_contract c y : terminal (ct_state c) -> contract_step (Some c) y -> False.
Proof.
  intros Ht Hs. inversion Hs as [|s t k Hw|k|s t b k _ Hn|s t k Hi|s t b k Hn]; subst; cbn in *; try done.
  - apply edge_table_spec in Hw. revert Hw.
    destruct s; try discriminate Ht; destruct t; by apply (bool_decide_eq_false_1 (_ ∈ edge_table)).
  - apply interrupted_spec in Hi as [->|[->| ->]]; discriminate Ht.
Qed.

(** ** The tables as contracts *)

(** a Victory certifies what follows it, until work before the gate is resumed *)
Definition certify (k : bool) (e : FactoryEvent) : bool :=
  if str_eqb (ev_type e) "victory.authorized" then true
  else match ev_to e with
       | Some s => k && (bool_decide (beyond_victory s) || interrupted s)
       | None => false
       end.
Definition certified_by (es : list FactoryEvent) : bool := fold_left certify es false.
Definition contract_at (es : list FactoryEvent) (m : machine) : Contract := {|
  ct_state := m.1; ct_back := m.2; ct_certified := certified_by es |}.
(** the contract of a run, as the tables have it *)
Definition contract_of (rid : string) (d : Db) : option Contract :=
  (fun r => contract_at (events_of rid d) (machine_of r)) <$> db_runs d !! rid.

Section Simulation.
Context `{Env}.

Lemma certified_snoc es e : certified_by (es ++ [e]) = certify (certified_by es) e.
Proof. unfold certified_by. by rewrite fold_left_app. Qed.
Lemma not_victory e t : ev_type e = t -> t <> "victory.authorized" -> str_eqb (ev_type e) "victory.authorized" = false.
Proof. intros -> Ht. by apply str_eqb_false. Qed.

(** a legal move of the server is one of the contract's *)
Lemma legal_moves s res t actor req res' k :
  machine_ok (s, res) -> recovery_only t req ->
  validate_factory_transition s t actor (effective_resumable s res req) false = Ok tt ->
  next_resumable s t res req = Ok res' ->
  (k = true -> beyond_victory s \/ interrupted s = true) ->
  contract_step (Some {| ct_state := s; ct_back := res; ct_certified := k |})
    (Some {| ct_state := t; ct_back := res';
             ct_certified := k && (bool_decide (beyond_victory t) || interrupted t) |}).
Proof.
  intros Hok Hreq [Ht Hl]%validator_spec Hn Hk.
  destruct (interrupted t) eqn:Hi.
  - rewrite orb_true_r, andb_true_r. assert (res' = if decide (s = MISSION /\ t = RECOVERING) then None else Some s) as ->.
    { apply interrupted_spec in Hi. unfold next_resumable in Hn. destruct (decide (t = RECOVERING)) as [->|HR].
      - rewrite bool_decide_eq_true_2 in Hn by done. case_bool_decide as HM.
        + rewrite decide_True by done. congruence.
        + rewrite decide_False by naive_solver. destruct (_ && _); congruence.
      - destruct Hi as [?|Hw]; [done|]. rewrite bool_decide_eq_false_2 in Hn by done.
        assert (bool_decide (t = PAUSED) || bool_decide (t = APPROVAL_REQUIRED) = true) as Hw'
          by (rewrite orb_true_iff, !bool_decide_eq_true; exact Hw).
        rewrite Hw' in Hn. rewrite decide_False by naive_solver. congruence. }
    apply interrupts; [done|done|]. apply interrupted_spec in Hi.
    assert (control_target t) as Hc by (unfold control_target; destruct Hi as [?|[?|?]]; tauto).
    destruct Hl as [? ? ? ?|Hto|? ? ?|? ? ?|? Hto|? Hct|? Hct|Hto|? ? ? ? Hct]; try done.
    all: exfalso; subst; destruct Hi as [?|[?|?]]; discriminate.
  - rewrite orb_false_r. apply interrupted_false in Hi as [HR HW].
    assert (res' = if interrupted s then None else res) as ->.
    { unfold next_resumable in Hn. unfold waiting in HW. rewrite !bool_decide_eq_false_2 in Hn by tauto.
      cbn in Hn. destruct (interrupted s); congruence. }
    destruct Hreq as [->|?]; [|done].
    assert (Hb : (if interrupted s then None else res) = None).
    { destruct (interrupted s) eqn:Hs; [done|]. unfold machine_ok in Hok. cbn in Hok.
      destruct res; [destruct Hok; congruence|done]. }
    rewrite Hb. unfold effective_resumable in Hl.
    assert (Hres : forall r, (if interrupted s then match res with Some x => Some x | None => None end
                              else None) = Some r -> res = Some r /\ interrupted s = true)
      by (intros r; destruct (interrupted s), res; naive_solver).
    assert (Hstop : t = BLOCKED \/ t = FAILED \/ t = CANCELLED -> contract_step
              (Some {| ct_state := s; ct_back := res; ct_certified := k |})
              (Some {| ct_state := t; ct_back := None; ct_certified := k && bool_decide (beyond_victory t) |})).
    { intros Hst. rewrite bool_decide_eq_false_2, andb_false_r by by apply stopped_not_beyond. by apply stops. }
    destruct Hl as [Hto|Hto|Hto|Hto|_ Hto|Hw Hct Hr _ _|Hrec Hct Hr _|Hto ? ? ?|Hwf ? Hv Hr Hct];
      try (exfalso; unfold waiting in *; tauto).
    + apply Hstop. auto.
    + apply Hstop. auto.
    + destruct (Hres _ Hr) as [-> Hs]. by apply returns.
    + destruct (Hres _ Hr) as [-> Hs]. by apply returns.
    + apply Hstop. tauto.
    + assert (res = None) as ->.
      { destruct (interrupted s) eqn:Hs; [|done]. apply interrupted_spec in Hs as [->|Hw]; [|].
        - destruct res; [|done]. by specialize (Hr eq_refl).
        - exfalso. apply edge_table_spec in Hwf. revert Hwf.
          destruct Hw as [->| ->]; destruct t; by apply (bool_decide_eq_false_1 (_ ∈ edge_table)). }
      apply works; [done|intros ->; by specialize (Hv eq_refl)|done].
Qed.

(** an event continues a life of the contract *)
Lemma event_contract es e m m' :
  machine_ok m -> promised (contract_at es m) -> event_step recovery_only e m m' ->
  rtc contract_step (Some (contract_at es m)) (Some (contract_at (es ++ [e]) m')).
Proof.
  intros Hok [_ _ _ Hreg] Hs. unfold contract_at in *. cbn in *. rewrite certified_snoc.
  destruct Hs as [s res Hty Hf Hto|s res s' res' req Hty Hf Hto Hreq Hv Hn|res cid d Hty _ Hf Hto _];
    cbn in *; unfold certify.
  - assert (str_eqb (ev_type e) "victory.authorized" = false) as ->.
    { apply str_eqb_false. intros Heq. apply Hty. rewrite Heq. set_solver. }
    rewrite Hto. assert (certified_by es && (bool_decide (beyond_victory s) || interrupted s) = certified_by es) as ->.
    { destruct (certified_by es); [|done]. cbn. destruct (Hreg eq_refl) as [?| ->]; [|apply orb_true_r].
      by rewrite bool_decide_eq_true_2. }
    apply rtc_refl.
  - rewrite (not_victory _ _ Hty) by done. rewrite Hto. apply rtc_once. by eapply legal_moves.
  - rewrite Hty, str_eqb_refl. apply rtc_once.
    assert (res = None) as ->; [|apply certifies].
    unfold machine_ok in Hok. cbn in Hok. destruct res; [|done]. by destruct Hok as [? _].
Qed.

(** a history is a life of the contract *)
Lemma history_contract es m :
  history recovery_only es m -> rtc contract_step None (Some (contract_at es m)).
Proof.
  induction 1 as [e Hty Hf Hto _ _|es e m m' Hh IH Hs _].
  - apply rtc_once. unfold contract_at. cbn. unfold certify. rewrite Hty. cbn.
    rewrite Hto. apply starts.
  - etrans; [exact IH|]. apply event_contract; [by eapply history_ok|by apply (contract_kept _ _ IH)|done].
Qed.
Lemma history_continues es es' m m' :
  history recovery_only es m -> history recovery_only (es ++ es') m' ->
  rtc contract_step (Some (contract_at es m)) (Some (contract_at (es ++ es') m')).
Proof.
  intros Hh. revert m'. induction es' as [|e es' IH] using rev_ind; intros m' Hh'.
  - rewrite app_nil_r in *. by rewrite (history_fun _ _ _ _ Hh Hh').
  - rewrite app_assoc in *. inversion Hh' as [e' ? ? ? ? ? Heq|es1 e' m1 m1' Hh1 Hs _ Heq].
    + apply (f_equal length) in Heq. rewrite !length_app in Heq. destruct es; [by apply history_not_nil in Hh|cbn in Heq; lia].
    + apply app_inj_last in Heq as [-> ->]. etrans; [by apply IH|].
      apply event_contract; [by eapply history_ok| |done].
      by apply (contract_kept _ _ (history_contract _ _ Hh1)).
Qed.

(** tables that only grew live on *)
Lemma tables_continue d d' rid :
  wf recovery_only d -> wf recovery_only d' -> extends d d' ->
  rtc contract_step (contract_of rid d) (contract_of rid d').
Proof.
  intros Hwf Hwf' He. unfold contract_of.
  destruct (db_runs d' !! rid) as [r'|] eqn:Hr'; cycle 1.
  { destruct (db_runs d !! rid) as [r|] eqn:Hr; [|apply rtc_refl].
    destruct (ext_runs _ _ He _ _ Hr) as (r' & Hr2 & _). congruence. }
  destruct (run_events _ _ _ _ Hwf' Hr') as (_ & Hh' & _).
  destruct (db_runs d !! rid) as [r|] eqn:Hr; [|by apply history_contract].
  destruct (run_events _ _ _ _ Hwf Hr) as (_ & Hh & _).
  destruct (prefix_events rid _ _ (ext_events _ _ He)) as [es Hes]. cbn. rewrite Hes in *.
  by apply history_continues.
Qed.
End Simulation.

(** ** The steps of the system *)

Section System.
Context `{Env} {R : Type}.
Context (git : GitAdapter R) (service : WorkerService R).
Context (loader : string -> string -> M R string) (terminate : string -> string -> Z -> M R bool).
Context (workspaces_of : string -> M R (list (string * string))).
Context (resolve repository_root : string -> M R string).
Context (resolve_worker_root : string -> string -> string -> M R string).
Context (list_workers : string -> string -> M R (list dict)).
Context (spawn : string -> list string -> string -> M R ProcessResult) (python : string).
Context (exc_text : exn -> string).
Context (gh_process : list string -> string -> string -> M R string).
Context (gh_executable : string) (gh_run : list string -> M R (Z * string)).
Context (find_skills : string -> M R (list (SkillMeta * string))) (mcp_servers : M R (list json)).
Context (urlsplit : string -> result SplitUrl).
Context (total_score : list CapabilityRequirement -> CapabilityManifest -> Z).
Context (agent : AgentService R) (getenv : string -> option string).
Context (upsert_workspace : string -> string -> string -> dict -> M R string).
Context (git_command : list string -> M R (option Z)) (plain_manifest : string -> M R (list dict)).
Context (meanwhile : FactoryState -> PhaseContext -> list (Slice (World * R))).
Context (owner_token : string) (lease_ms quiesce_ms : Z) (closed : M R bool) (sleep : M (World * R) unit).

#[local] Abbreviation agent_execute := (agents_execute git service loader resolve_worker_root list_workers agent
  getenv upsert_workspace git_command plain_manifest).
#[local] Abbreviation handlers := (production_handlers git service loader terminate workspaces_of resolve
  repository_root resolve_worker_root list_workers spawn python exc_text gh_process gh_executable gh_run
  find_skills mcp_servers urlsplit total_score agent_execute meanwhile).
#[local] Abbreviation run_loop := (_run git service loader terminate workspaces_of resolve
  repository_root resolve_worker_root list_workers spawn python exc_text gh_process gh_executable gh_run
  find_skills mcp_servers urlsplit total_score agent_execute meanwhile owner_token lease_ms quiesce_ms
  closed sleep).

(** the calls of users and their sessions *)
Inductive user_step : World -> World -> Prop :=
  | user_starts user ws mission criteria policy budget model key w :
      user_step w (start id user ws mission criteria policy budget model key w).2
  | user_writes user rid content key w : user_step w (message user rid content key w).2
  | user_pauses user rid key w : user_step w (pause user rid key w).2
  | user_resumes user rid key w : user_step w (resume user rid key w).2
  | user_decides user rid aid approved note key w : user_step w (approve user rid aid approved note key w).2.

(** what happens to the tables and the world: a phase of a run, a runner's whole loop, a
    restart's recovery, a user's call or stop, the end of a run's lanes, any other call of
    the store that names a state to come back to only for a recovery, and changes of the
    outside world *)
Inductive sys_step : World * R -> World * R -> Prop :=
  | phase_runs beats rid s :
      sys_step s (run_once handlers owner_token lease_ms beats rid s).2
  | runner_runs turns beats rid s : sys_step s (run_loop turns beats rid s).2
  | restart_recovers token lease w r : sys_step (w, r) ((recover_active_runs token lease w).2, r)
  | user_calls w w' r : user_step w w' -> sys_step (w, r) (w', r)
  | user_stops user rid key ms quiescent s :
      sys_step s (stop (fun run ms => let* q := cancel_run service terminate run ms in ret (wq_quiescent q))
                    user rid key ms quiescent s).2
  | lanes_quiesce run s : sys_step s (_quiesce_terminal_workers service terminate quiesce_ms run s).2
  | store_called o w r : requests recovery_only o -> sys_step (w, r) ((exec o w).2, r)
  | world_changes w r r' : sys_step (w, r) (w, r').

(** what happens meanwhile writes through the store's calls only *)
Context (meanwhile_keeps : forall d0 s c, Forall (fun slice =>
           pkeeps (sound_system recovery_only d0) (sl_work slice) /\
           pkeeps (sound_system recovery_only d0) (sl_cancelled slice)) (meanwhile s c)).
Context (sleep_keeps : forall d0, pkeeps (sound_system recovery_only d0) sleep).

Section Keeping.
Context (d0 : Db).
#[local] Abbreviation ok := (sound_system recovery_only d0).
#[local] Instance recovering_system : StoreInvariant recovery_only ok.
Proof. apply system_invariant. by left. Qed.

Lemma handlers_keep s h c : handlers s = Some h -> execution_keeps ok (h c).
Proof.
  unfold production_handlers, phase_execute. intros Hh.
  assert (exists f, h = (fun c => {| ex_slices := meanwhile s c;
      ex_final := let* o := f c in ret (Some o) |}) /\ forall c, pkeeps ok (f c)) as (f & -> & Hf).
  { destruct (agent_phase s) eqn:Ea.
    - injection Hh as <-. exists (agent_execute s). split; [done|]. intros. by apply agents_execute_keeps.
    - destruct (machine_execute _ _ _ _ _ _ _ _ _ _ _ _ _ _ _ _ _ _ _ s) as [f|] eqn:Ef; [|done].
      injection Hh as <-. exists f. split; [done|]. intros c'.
      eapply machine_execute_keeps; first [exact Ef|by left]. }
  split; [apply meanwhile_keeps|]. apply pkeeps_bind; [apply Hf|intros; apply pkeeps_ret].
Qed.
Lemma phase_keeps beats rid : pkeeps ok (run_once handlers owner_token lease_ms beats rid).
Proof. apply (run_once_keeps recovery_only ok handlers owner_token lease_ms handlers_keep). Qed.
Lemma quiesce_keeps run : pkeeps ok (_quiesce_terminal_workers service terminate quiesce_ms run).
Proof.
  unfold _quiesce_terminal_workers. repeat pkeeps_step. apply aside_pkeeps. intros. apply cancel_run_aside.
Qed.
Lemma block_after_keeps rid e : pkeeps ok (block_after service terminate quiesce_ms rid e).
Proof.
  unfold block_after, get_run, get_run_row. repeat pkeeps_step.
  all: first [apply quiesce_keeps|apply pkeeps_left; repeat keeps_step].
Qed.
Lemma runner_keeps turns beats rid : pkeeps ok (run_loop turns beats rid).
Proof.
  induction turns as [|turns IH]; cbn [_run]; [apply pkeeps_ret|].
  apply pkeeps_bind; [apply pkeeps_right|]. intros []; [apply pkeeps_ret|]. intros s Hs.
  pose proof (phase_keeps beats rid s Hs) as Hp.
  destruct (run_once _ _ _ _ _ s) as [[[run|]|e] s1]; [|done|].
  - destruct (is_terminal_factory_state _).
    { revert s1 Hp. apply pkeeps_bind; [apply quiesce_keeps|intros; apply pkeeps_ret]. }
    destruct (resting _); [done|]. revert s1 Hp. apply pkeeps_bind; [apply sleep_keeps|]. intros; apply IH.
  - revert s1 Hp. apply pkeeps_bind; [apply block_after_keeps|intros; apply pkeeps_ret].
Qed.

(** every step keeps the tables sound *)
Lemma sys_step_keeps s s' : sys_step s s' -> ok (db s.1) -> ok (db s'.1).
Proof.
  intros Hs Hok. destruct Hs as [beats rid s|turns beats rid s|token lease w r|w w' r Hu|user rid key ms q s|run s|o w r Ho|w r r'].
  - by apply phase_keeps.
  - by apply runner_keeps.
  - exact (recover_active_runs_keeps recovery_only ok _ (fun s => or_intror eq_refl) token lease w Hok).
  - pose proof (fun s : FactoryState => or_introl (B := s = RECOVERING) (eq_refl (None (A := FactoryState)))) as HP.
    destruct Hu; cbn [fst] in *.
    + by apply (start_keeps recovery_only d0 HP).
    + by apply (message_keeps recovery_only d0 HP).
    + by apply (pause_keeps recovery_only d0 HP).
    + by apply (resume_keeps recovery_only d0 HP).
    + by apply (approve_keeps recovery_only d0 HP).
  - revert s Hok. apply stop_keeps; [by left|]. intros run ms'. apply pkeeps_bind; [|intros; apply pkeeps_ret].
    apply aside_pkeeps. intros. apply cancel_run_aside.
  - by apply quiesce_keeps.
  - exact (inv_op (P := recovery_only) (I := ok) o Ho w Hok).
  - done.
Qed.
End Keeping.

Lemma sys_keeps d0 s s' :
  rtc sys_step s s' -> sound_system recovery_only d0 (db s.1) -> sound_system recovery_only d0 (db s'.1).
Proof. induction 1 as [s|s s1 s2 Hs Hr IH]; [done|]. intros Hok. by apply IH, (sys_step_keeps d0 s s1). Qed.

(** C4. The system refines the contract of a run: from tables without runs, however the
    phases, the runners, restarts, users, lanes and other callers of the store are
    interleaved, and whatever agents and the outside world do, the life of every run is
    a life of the contract from its start and from any point on; and a run that is
    beyond the Victory gate, or will come back to a state beyond it, is certified: its
    log holds the machine's Victory, and no work before the gate since. *)
Theorem system_refines_contract s0 s1 s2 rid :
  fresh_db (db s0.1) -> db_approvals (db s0.1) = ∅ -> rtc sys_step s0 s1 -> rtc sys_step s1 s2 ->
  rtc contract_step None (contract_of rid (db s1.1)) /\
  rtc contract_step (contract_of rid (db s1.1)) (contract_of rid (db s2.1)) /\
  forall c, contract_of rid (db s2.1) = Some c -> committed (ct_state c, ct_back c) ->
    ct_certified c = true /\ victory_on_record (events_of rid (db s2.1)).
Proof.
  intros Hf Ha H1 H2.
  assert (Hs : sound_system recovery_only (db s0.1) (db s0.1))
    by (split; [by apply wf_sound, fresh_wf|by apply approvals_wf_empty]).
  destruct (sys_keeps _ _ _ H1 Hs) as [Hs1 Ha1].
  destruct (sys_keeps (db s1.1) _ _ H2) as [Hs2 _];
    [by split; [apply wf_sound, (sound_wf _ _ _ Hs1)|]|].
  pose proof (sound_wf _ _ _ Hs1) as Hw1. pose proof (sound_wf _ _ _ Hs2) as Hw2.
  split_and!.
  - destruct Hf as (Hr0 & _ & _). replace (@None Contract) with (contract_of rid (db s0.1))
      by (unfold contract_of; by rewrite Hr0, lookup_empty).
    apply tables_continue; [apply (sound_wf _ _ _ (proj1 Hs))|done|apply (sound_extends _ _ _ Hs1)].
  - apply tables_continue; [done|done|apply (sound_extends _ _ _ Hs2)].
  - intros c. unfold contract_of. destruct (db_runs (db s2.1) !! rid) as [r|] eqn:Hr; [|done].
    intros [= <-] Hc. destruct (run_events _ _ _ _ Hw2 Hr) as (_ & Hh & _).
    split; [|by eapply gate_holds].
    destruct (contract_kept _ _ (history_contract _ _ Hh) Logic.I) as [Hb Hback _ _].
    destruct Hc as [Hc|(t & Ht & Hc)]; cbn in *; [auto|by apply (Hback t)].
Qed.
End System.

(** *** A run up to its Victory *)

Definition idle_agent : AgentService Repo := {|
  ag_start _ := raise TimeoutError; ag_get _ _ := raise TimeoutError; ag_cancel _ _ := raise TimeoutError;
  ag_output _ _ := raise TimeoutError |}.
Definition run_step : World * Repo -> World * Repo -> Prop :=
  @sys_step demo_env Repo demo_git no_workers (fun _ ws => ret ws) (fun _ _ _ => ret true) one_workspace
    ret ret worker_root (fun _ _ => ret []) (fun _ _ _ => raise TimeoutError) "python" demo_exc_text demo_gh "gh"
    (fun _ => raise (OSError "gh")) (fun _ => ret []) (ret []) (fun _ => Err (ValueError "url")) (fun _ _ => 0%Z)
    idle_agent (fun _ => None) (fun _ _ _ _ => ret "lane") (fun _ => ret None) (fun _ => ret []) (fun _ _ => [])
    "owner" 60000 1000 (ret false) (ret tt).
Lemma demo_calls ops w : Forall (requests recovery_only) ops ->
  rtc run_step (w, demo_head) (@exec_all demo_env ops w, demo_head).
Proof.
  revert w. induction ops as [|o ops IH]; intros w Hops; [apply rtc_refl|].
  inversion Hops as [|? ? Ho Hr]; subst. eapply rtc_l; [by apply store_called|]. by apply IH.
Qed.
Lemma exec_all_app `{Env} ops ops' w : exec_all (ops ++ ops') w = exec_all ops' (exec_all ops w).
Proof. revert w. induction ops; intros; cbn; auto. Qed.
Lemma demo_split : @exec_all demo_env (drop 5 demo_ops) (@exec_all demo_env (take 5 demo_ops) demo_start) = demo_end.
Proof. rewrite <- exec_all_app, take_drop. reflexivity. Qed.
Lemma contract_of_end :
  exists c, contract_of "factory_0" (db demo_end) = Some c /\ ct_state c = COMMITTING.
Proof. eexists. split; vm_compute; reflexivity. Qed.
Lemma system_refines_contract_witness :
  exists c, contract_of "factory_0" (db demo_end) = Some c /\
    ct_state c = COMMITTING /\ ct_certified c = true.
Proof.
  destruct (@system_refines_contract demo_env Repo demo_git no_workers (fun _ ws => ret ws)
    (fun _ _ _ => ret true) one_workspace ret ret worker_root (fun _ _ => ret [])
    (fun _ _ _ => raise TimeoutError) "python" demo_exc_text demo_gh "gh" (fun _ => raise (OSError "gh"))
    (fun _ => ret []) (ret []) (fun _ => Err (ValueError "url")) (fun _ _ => 0%Z) idle_agent (fun _ => None) (fun _ _ _ _ => ret "lane") (fun _ => ret None) (fun _ => ret [])
    (fun _ _ => [])
    "owner" 60000 1000 (ret false) (ret tt)
    (fun _ _ _ => Forall_nil_2 _) (fun _ s Hs => Hs)
    (demo_start, demo_head) (@exec_all demo_env (take 5 demo_ops) demo_start, demo_head) (demo_end, demo_head)
    "factory_0") as (_ & _ & Hc).
  - exact demo_fresh.
  - reflexivity.
  - apply demo_calls, Forall_take, demo_disciplined.
  - rewrite <- demo_split. apply demo_calls, Forall_drop, demo_disciplined.
  - pose proof (contract_of_end) as (c & Hcc & Hst). exists c. split; [exact Hcc|]. split; [exact Hst|].
    apply (Hc c Hcc). left. rewrite Hst. by_evaluation.
Defined.
