(* ===== verification/JsonText.v ===== *)
(** * Canonical texts

    What [json.dumps] writes, with sorted keys, determines the value it was written for,
    up to the order of the fields of its objects.  Floats are the texts of their
    [repr]. *)

From S2P Require Import Prelude PyStr Json.
From Stdlib Require Import Ascii.

(** ** Sorting and maps *)

Section SortMap.
Context {A B : Type} (R : A -> A -> Prop) (S' : B -> B -> Prop) (g : A -> B).
Context {HR : forall x y, Decision (R x y)} {HS : forall x y, Decision (S' x y)}.
Context (Hg : forall x y, R x y <-> S' (g x) (g y)).

Lemma list_merge_map l1 l2 : map g (list_merge R l1 l2) = list_merge S' (map g l1) (map g l2).
Proof.
  revert l2. induction l1 as [|x l1 IH1]; intros l2; [by destruct l2|].
  induction l2 as [|y l2 IH2]; [done|]. cbn [map]. rewrite !list_merge_cons. destruct (decide (R x y)) as [Hr|Hr].
  - rewrite decide_True by by apply Hg. cbn [map]. by rewrite IH1.
  - rewrite decide_False by by rewrite <- Hg. cbn [map]. by rewrite IH2.
Qed.
Lemma merge_list_to_stack_map st l :
  map (option_map (map g)) (merge_list_to_stack R st l) = merge_list_to_stack S' (map (option_map (map g)) st) (map g l).
Proof.
  revert l. induction st as [|[k|] st IH]; intros l; [done| |done]. cbn. by rewrite IH, list_merge_map.
Qed.
Lemma merge_stack_map st : map g (merge_stack R st) = merge_stack S' (map (option_map (map g)) st).
Proof. induction st as [|[k|] st IH]; [done| |done]. cbn. by rewrite list_merge_map, IH. Qed.
Lemma merge_sort_map l : map g (merge_sort R l) = merge_sort S' (map g l).
Proof.
  unfold merge_sort. change [] with (map (option_map (map g)) []) at 2. generalize (@nil (option (list A))) as st.
  induction l as [|x l IH]; intros st; cbn [merge_sort_aux map]; [by rewrite merge_stack_map|].
  rewrite IH. by rewrite merge_list_to_stack_map.
Qed.
End SortMap.

(** ** Tokens *)

(** characters that end no token *)
Definition tok_char (c : ascii) : bool := negb (existsb (Ascii.eqb c) [","; "}"; "]"]%char).
Definition tok (s : string) : bool := all_chars tok_char s.
(** what may follow a value *)
Definition stops (s : string) : bool := match s with String c _ => negb (tok_char c) | "" => true end.

Lemma tok_prefix t t' r r' : tok t = true -> tok t' = true -> stops r = true -> stops r' = true ->
  t +:+ r = t' +:+ r' -> t = t' /\ r = r'.
Proof.
  revert t'. induction t as [|c t IH]; intros [|c' t'] Ht Ht' Hr Hr' Heq; cbn in *.
  - done.
  - assert (r = String c' (t' +:+ r')) as -> by exact Heq. cbn in Hr. apply andb_true_iff in Ht' as [Hc' _]. by rewrite Hc' in Hr.
  - assert (r' = String c (t +:+ r)) as -> by exact (eq_sym Heq). cbn in Hr'. apply andb_true_iff in Ht as [Hc _]. by rewrite Hc in Hr'.
  - injection Heq as -> Heq. apply andb_true_iff in Ht as [_ Ht], Ht' as [_ Ht']. by destruct (IH t' Ht Ht' Hr Hr' Heq) as [-> ->].
Qed.

(** the texts of numbers: digits, signs, a point, an exponent *)
Definition int_char (c : ascii) : bool := is_digit c || Ascii.eqb c "-".
Definition float_char (c : ascii) : bool := int_char c || existsb (Ascii.eqb c) ["."; "+"; "e"]%char.
Definition float_text (t : string) : bool :=
  existsb (str_eqb t) ["nan"; "inf"; "-inf"] || all_chars float_char t && negb (all_chars int_char t).

Lemma all_chars_impl (f g : ascii -> bool) s :
  (forall c, f c = true -> g c = true) -> all_chars f s = true -> all_chars g s = true.
Proof. intros Hfg. induction s as [|c s IH]; [done|]. cbn. intros [Hc Hs]%andb_true_iff. by rewrite (Hfg c Hc), (IH Hs). Qed.
Lemma float_char_tok c : float_char c = true -> tok_char c = true.
Proof. by destruct c as [[] [] [] [] [] [] [] []]. Qed.
Lemma int_char_float c : int_char c = true -> float_char c = true.
Proof. unfold float_char. by intros ->. Qed.

Lemma pretty_char_int x : int_char (pretty_N_char x) = true.
Proof. unfold pretty_N_char. by repeat case_match. Qed.
Lemma pretty_go_int x s : all_chars int_char s = true -> all_chars int_char (pretty_N_go x s) = true.
Proof.
  revert s. induction (N.lt_wf_0 x) as [x _ IH]; intros s Hs.
  destruct (decide (0 < x)%N) as [Hx|Hx]; [|replace x with 0%N by lia; by rewrite pretty_N_go_0].
  rewrite pretty_N_go_step by done. apply IH; [by apply N.div_lt|]. cbn. by rewrite pretty_char_int, Hs.
Qed.
Lemma pretty_N_int x : all_chars int_char (pretty (A:=N) x) = true.
Proof. unfold pretty, pretty_N. case_decide; [done|]. by apply pretty_go_int. Qed.
Lemma str_of_int_chars z : all_chars int_char (str_of_int z) = true.
Proof. unfold str_of_int. destruct z as [|p|p]; [done| |]; [apply pretty_N_int|]. exact (pretty_N_int (N.pos p)). Qed.
Lemma str_of_int_inj z z' : str_of_int z = str_of_int z' -> z = z'.
Proof. apply (inj (pretty (A:=Z))). Qed.
Lemma pretty_go_nonempty x s : s <> "" -> pretty_N_go x s <> "".
Proof.
  revert s. induction (N.lt_wf_0 x) as [x _ IH]; intros s Hs.
  destruct (decide (0 < x)%N) as [Hx|Hx]; [|replace x with 0%N by lia; by rewrite pretty_N_go_0].
  rewrite pretty_N_go_step by done. apply IH; [by apply N.div_lt|done].
Qed.
Lemma str_of_int_nonempty z : str_of_int z <> "".
Proof.
  destruct z as [|p|p]; [done| |done]. change (pretty_N_go (N.pos p) "" <> "").
  rewrite pretty_N_go_step by done. by apply pretty_go_nonempty.
Qed.

(** ** Values *)

(** floats are written by [repr] *)
Fixpoint proper (v : json) : bool :=
  match v with
  | JFloat t => float_text t
  | JList l => forallb proper l
  | JObj fields => forallb (fun kv => proper kv.2) fields
  | _ => true
  end.
(** the fields of every object in order *)
Fixpoint norm (v : json) : json :=
  match v with
  | JList l => JList (map norm l)
  | JObj fields => JObj (merge_sort key_le (map (fun kv => (kv.1, norm kv.2)) fields))
  | _ => v
  end.

Section Injectivity.
Context (e : bool).
#[local] Abbreviation text := (dumps true e).

Definition field_text (kv : string * json) : string := quote e kv.1 +:+ ":" +:+ text kv.2.
Lemma text_obj fields :
  text (JObj fields) = "{" +:+ (str_join "," (map field_text (merge_sort key_le fields)) +:+ "}").
Proof.
  cbn [dumps]. do 2 f_equal. rewrite (map_ext _ (fun kv : string * json => (kv.1, field_text kv))) by by intros [].
  rewrite <- (merge_sort_map key_le key_le (fun kv : string * json => (kv.1, field_text kv))) by done. by rewrite map_map.
Qed.
Lemma norm_obj fields : norm (JObj fields) = JObj (map (fun kv => (kv.1, norm kv.2)) (merge_sort key_le fields)).
Proof. cbn [norm]. f_equal. symmetry. by apply (merge_sort_map key_le key_le (fun kv : string * json => (kv.1, norm kv.2))). Qed.

Definition atom (v : json) : bool := match v with JStr _ | JList _ | JObj _ => false | _ => true end.
Definition opens (c : ascii) : bool := existsb (Ascii.eqb c) [dquote; "["; "{"]%char.

Lemma float_text_written t : float_text t = true ->
  (text (JFloat t) = "NaN" /\ t = "nan" \/ text (JFloat t) = "Infinity" /\ t = "inf" \/
   text (JFloat t) = "-Infinity" /\ t = "-inf") \/
  text (JFloat t) = t /\ all_chars float_char t = true /\ all_chars int_char t = false.
Proof.
  unfold float_text. cbn [existsb dumps]. destruct (str_eqb t "nan") eqn:E1; [apply str_eqb_true in E1; auto|].
  destruct (str_eqb t "inf") eqn:E2; [apply str_eqb_true in E2; auto|].
  destruct (str_eqb t "-inf") eqn:E3; [apply str_eqb_true in E3; auto 6|]. cbn [orb].
  intros [Hf Hi%negb_true_iff]%andb_true_iff. by right.
Qed.
Lemma tok_of_floats t : all_chars float_char t = true -> tok t = true.
Proof. apply all_chars_impl, float_char_tok. Qed.
Lemma float_head c s : all_chars float_char (String c s) = true -> opens c = false.
Proof. cbn. intros [Hc _]%andb_true_iff. by destruct c as [[] [] [] [] [] [] [] []]. Qed.
Lemma ints_floats t : all_chars int_char t = true -> all_chars float_char t = true.
Proof. apply all_chars_impl, int_char_float. Qed.

Lemma atom_text v : atom v = true -> proper v = true ->
  exists c s, text v = String c s /\ tok (String c s) = true /\ opens c = false.
Proof.
  destruct v as [|b|z|t| | |]; intros Ha Hp; try done.
  - by eexists _, _.
  - destruct b; by eexists _, _.
  - change (text (JInt z)) with (str_of_int z). pose proof (str_of_int_chars z) as Hz%ints_floats.
    destruct (str_of_int z) as [|c s] eqn:Es; [by apply str_of_int_nonempty in Es|].
    exists c, s. split_and!; [done|by apply tok_of_floats|by eapply float_head].
  - destruct (float_text_written t Hp) as [[[-> _]|[[-> _]|[-> _]]]|(-> & Hf & Hi)]; try by eexists _, _.
    destruct t as [|c s]; [done|]. exists c, s. split_and!; [done|by apply tok_of_floats|by eapply float_head].
Qed.
Lemma atom_inj v v' : atom v = true -> atom v' = true -> proper v = true -> proper v' = true -> text v = text v' -> v = v'.
Proof.
  assert (forall z t, float_text t = true -> text (JInt z) <> text (JFloat t)) as Hif.
  { intros z t Ht Heq. change (text (JInt z)) with (str_of_int z) in Heq. pose proof (str_of_int_chars z) as Hz. rewrite Heq in Hz.
    destruct (float_text_written t Ht) as [[[E _]|[[E _]|[E _]]]|(E & _ & Hi)]; rewrite E in Hz; [done..|congruence]. }
  assert (forall w z, text (JInt z) = w -> all_chars int_char w = true) as Hi.
  { intros w z <-. apply str_of_int_chars. }
  assert (forall t w, float_text t = true -> text (JFloat t) = w -> w = "null" \/ w = "true" \/ w = "false" -> False) as Hw.
  { intros t w Ht <-. destruct (float_text_written t Ht) as [[[-> _]|[[-> _]|[-> _]]]|(-> & Hf & _)]; naive_solver. }
  destruct v as [|b|z|t|s|l|l], v' as [|b'|z'|t'|s'|l'|l']; try destruct b; try destruct b'; intros Ha Ha' Hp Hp' Heq; try done.
  all: try by (apply Hi in Heq).
  all: try by (symmetry in Heq; apply Hi in Heq).
  all: try by (exfalso; eapply (Hw _ _ Hp Heq); cbn; auto).
  all: try by (exfalso; symmetry in Heq; eapply (Hw _ _ Hp' Heq); cbn; auto).
  - f_equal. by apply str_of_int_inj.
  - by apply Hif in Heq.
  - symmetry in Heq. by apply Hif in Heq.
  - destruct (float_text_written t Hp) as [[[E Et]|[[E Et]|[E Et]]]|(E & Hf & _)],
      (float_text_written t' Hp') as [[[E' Et']|[[E' Et']|[E' Et']]]|(E' & Hf' & _)]; rewrite E, E' in Heq;
      try congruence; subst; done.
Qed.

(** *** Sequences *)

(** [T x] is the text of [x], which a comma or [close] ends, and [N x] what it says *)
Lemma join_inj {X Y} (T : X -> string) (N : X -> Y) (ok : X -> Prop) (close : ascii) l :
  (existsb (Ascii.eqb close) ["}"; "]"]%char = true) ->
  (forall x, ok x -> exists c s, T x = String c s /\ c <> close) ->
  Forall (fun x => forall x' r r', ok x' -> stops r = true -> stops r' = true -> T x +:+ r = T x' +:+ r' -> N x = N x' /\ r = r') l ->
  Forall ok l -> forall l' r r', Forall ok l' ->
  str_join "," (map T l) +:+ String close r = str_join "," (map T l') +:+ String close r' -> map N l = map N l' /\ r = r'.
Proof.
  intros Hclose Hhead Hinj. assert (forall r, stops (String close r) = true) as Hs.
  { intros r. cbn. destruct close as [[] [] [] [] [] [] [] []]; done. }
  assert (close <> ","%char) as Hcc by by intros ->.
  assert (forall r, stops (String "," r) = true) as Hcomma by done.
  induction Hinj as [|x l Hx Hl IH]; intros Hok l' r r' Hok' Heq.
  - destruct l' as [|x' l']; [split; [done|]; by injection Heq|]. apply Forall_cons in Hok' as [Hx' _].
    destruct (Hhead x' Hx') as (c & s & Ec & Hc). exfalso. cbn [map str_join] in Heq.
    destruct (map T l'); rewrite Ec in Heq; injection Heq; congruence.
  - apply Forall_cons in Hok as [Hokx Hokl]. destruct l' as [|x' l'].
    { destruct (Hhead x Hokx) as (c & s & Ec & Hc). exfalso. cbn [map str_join] in Heq.
      destruct (map T l); rewrite Ec in Heq; injection Heq; congruence. }
    apply Forall_cons in Hok' as [Hx' Hokl']. specialize (IH Hokl l'). cbn [map str_join] in Heq.
    destruct l as [|y l], l' as [|y' l']; cbn [map] in Heq; rewrite ?app_assoc_str in Heq.
    + destruct (Hx x' _ _ Hx' (Hs _) (Hs _) Heq) as [HN Hr]. injection Hr as ->. cbn. by rewrite HN.
    + destruct (Hx x' _ _ Hx' (Hs _) (Hcomma _) Heq) as [_ Hr]. by injection Hr.
    + destruct (Hx x' _ _ Hx' (Hcomma _) (Hs _) Heq) as [_ Hr]. injection Hr. congruence.
    + destruct (Hx x' _ _ Hx' (Hcomma _) (Hcomma _) Heq) as [HN Hr]. injection Hr as Hr.
      destruct (IH r r' Hokl') as [Hm ->]; [exact Hr|]. cbn [map] in *. by rewrite HN, Hm.
Qed.

Lemma quote_head s : exists r, quote e s = String dquote r.
Proof. by eexists. Qed.
Lemma text_head v : proper v = true -> exists c s, text v = String c s /\ (c <> "]" /\ c <> "}")%char /\
  (atom v = true -> opens c = false) /\ (forall x, v = JStr x -> c = dquote) /\ (forall l, v = JList l -> c = "["%char) /\
  (forall l, v = JObj l -> c = "{"%char).
Proof.
  intros Hp. destruct (atom v) eqn:Ha.
  - destruct (atom_text v Ha Hp) as (c & s & Ht & Htok & Ho). exists c, s. split_and!; try done; try (by intros ? ->);
      intros ->; cbn in Htok; done.
  - destruct v; try done; eexists _, _; (split; [reflexivity|]); split_and!; done.
Qed.

(** *** Values *)

Lemma forallb_elements {A} (f : A -> bool) l : forallb f l = true -> Forall (fun x => f x = true) l.
Proof. induction l as [|x l IH]; [done|]. cbn. intros [Hx Hl]%andb_true_iff. constructor; [done|by apply IH]. Qed.

Lemma text_inj v : proper v = true -> forall v' r r', proper v' = true -> stops r = true -> stops r' = true ->
  text v +:+ r = text v' +:+ r' -> norm v = norm v' /\ r = r'.
Proof.
  assert (forall v v' r r', proper v = true -> proper v' = true -> text v +:+ r = text v' +:+ r' ->
    atom v = atom v' /\ (forall l, v = JList l -> exists l', v' = JList l') /\ (forall l, v = JObj l -> exists l', v' = JObj l') /\
    (forall s, v = JStr s -> exists s', v' = JStr s')) as Hkind.
  { intros w w' r r' Hp Hp' Heq. destruct (text_head w Hp) as (c & s & Ht & _ & Ho & H1 & H2 & H3).
    destruct (text_head w' Hp') as (c' & s' & Ht' & _ & Ho' & H1' & H2' & H3'). rewrite Ht, Ht' in Heq. injection Heq as -> _.
    destruct w, w'; cbn in *; try (split_and!; [done|naive_solver..]); exfalso;
      repeat match goal with
      | H : forall l, JList ?x = JList l -> _ |- _ => specialize (H x eq_refl); subst
      | H : forall l, JObj ?x = JObj l -> _ |- _ => specialize (H x eq_refl); subst
      | H : forall l, JStr ?x = JStr l -> _ |- _ => specialize (H x eq_refl); subst
      end; try done; try (by specialize (Ho eq_refl)); try (by specialize (Ho' eq_refl)). }
  assert (forall v v' r r', atom v = true -> atom v' = true -> proper v = true -> proper v' = true -> stops r = true ->
    stops r' = true -> text v +:+ r = text v' +:+ r' -> norm v = norm v' /\ r = r') as Hatoms.
  { intros w w' r r' Ha Ha' Hp Hp' Hr Hr' Heq. destruct (atom_text w Ha Hp) as (c & s & Et & Htok & _).
    destruct (atom_text w' Ha' Hp') as (c' & s' & Et' & Htok' & _). rewrite <- Et in Htok. rewrite <- Et' in Htok'.
    destruct (tok_prefix _ _ _ _ Htok Htok' Hr Hr' Heq) as [Ht ->]. by rewrite (atom_inj w w'). }
  assert (forall x, proper x = true -> exists c s, text x = String c s /\ c <> "]"%char) as Hheads.
  { intros x Hx. destruct (text_head x Hx) as (c & s & E & [Hc _] & _). eauto. }
  induction v as [|b|z|t|s|l IH|l IH] using json_ind'; intros Hp v' r r' Hp' Hr Hr' Heq;
    destruct (Hkind _ _ _ _ Hp Hp' Heq) as (Ha & HL & HO & HS).
  1-4: by apply Hatoms.
  - destruct (HS s eq_refl) as [s' ->]. apply quote_inj in Heq as [-> ->]. done.
  - destruct (HL l eq_refl) as [l' ->]. cbn [dumps] in Heq. rewrite !app_assoc_str in Heq. injection Heq as Heq.
    apply (forallb_elements proper) in Hp, Hp'.
    destruct (join_inj text norm (fun x => proper x = true) "]" l eq_refl Hheads) with (l' := l') (r := r) (r' := r') as [Hm ->];
      [|done|done|exact Heq|cbn [norm]; by rewrite Hm].
    rewrite Forall_forall in IH, Hp |- *. intros x Hx y s s' Hy Hs Hs' E. by apply (IH x Hx (Hp x Hx) y).
  - destruct (HO l eq_refl) as [l' ->]. rewrite !text_obj, !app_assoc_str in Heq. injection Heq as Heq.
    apply (forallb_elements (fun kv => proper kv.2)) in Hp, Hp'. rewrite !norm_obj.
    destruct (join_inj field_text (fun kv => (kv.1, norm kv.2)) (fun kv => proper kv.2 = true) "}" (merge_sort key_le l) eq_refl)
      with (l' := merge_sort key_le l') (r := r) (r' := r') as [Hm ->];
      [| | | |exact Heq|by rewrite Hm].
    + intros [k x] _. by eexists _, _.
    + rewrite merge_sort_Permutation. rewrite Forall_forall in IH, Hp |- *. intros [k x] Hx [k' y] s s' Hy Hs Hs' E.
      unfold field_text in E. cbn [fst snd] in E. rewrite !app_assoc_str in E. apply quote_inj in E as [-> E].
      injection E as E. destruct (IH _ Hx (Hp _ Hx) y s s' Hy Hs Hs' E) as [HN ->]. by rewrite HN.
    + by rewrite merge_sort_Permutation.
    + by rewrite merge_sort_Permutation.
Qed.
End Injectivity.

(** What is written determines what it was written for. *)
Lemma dumps_inj e v v' : proper v = true -> proper v' = true -> dumps true e v = dumps true e v' -> norm v = norm v'.
Proof.
  intros Hv Hv' Heq. destruct (text_inj e v Hv v' "" "" Hv' eq_refl eq_refl) as [HN _]; [by rewrite Heq|done].
Qed.
