(* ===== verification/CapabilityContracts.v ===== *)
(** * Requests for authority

    Models the data of the Capability OS that authority is decided on: the requests and
    the canonical texts of [cptr/services/capability_os/contracts.py], and the patterns of
    resources, which are those of [fnmatch]. *)

From S2P Require Import Prelude PyStr Json FactoryDomain FactoryGates Database CapabilityLifecycle.
From S2P Require Import FactoryStore FactoryPhases FactoryGit FactoryCapabilities.
From Stdlib Require Import Ascii.

(** ** [fnmatch] *)

(** an element of a pattern; the characters of a class are ranges *)
Inductive glob :=
  | GOne
  | GMany
  | GClass (negated : bool) (ranges : list (ascii * ascii))
  | GChar (c : ascii).

(** the text up to a closing bracket, and after it *)
Fixpoint until_bracket (s : string) : option (string * string) :=
  match s with
  | EmptyString => None
  | String c s =>
      if Ascii.eqb c "]" then Some ("", s)
      else (fun '(body, rest) => (String c body, rest)) <$> until_bracket s
  end.
(** the class after an opening bracket, if it is closed: whether it is negated, its
    body, whose first character may be a bracket, and the rest of the pattern *)
Definition split_class (s : string) : option (bool * string * string) :=
  let '(negated, s) := match s with String "!" s => (true, s) | _ => (false, s) end in
  match s with
  | String "]" s => (fun '(body, rest) => (negated, String "]" body, rest)) <$> until_bracket s
  | _ => (fun '(body, rest) => (negated, body, rest)) <$> until_bracket s
  end.
(** the ranges of a body; a range from a greater to a smaller character is empty *)
Fixpoint class_ranges (body : string) : list (ascii * ascii) :=
  match body with
  | EmptyString => []
  | String c rest =>
      match rest with
      | String "-" (String d rest) => (c, d) :: class_ranges rest
      | _ => (c, c) :: class_ranges rest
      end
  end.
(** the elements of a pattern; each takes at least one character of it, so its length is
    fuel enough *)
Fixpoint parse_glob (fuel : nat) (pattern : string) : list glob :=
  match fuel, pattern with
  | S fuel, String c rest =>
      if Ascii.eqb c "*" then GMany :: parse_glob fuel rest
      else if Ascii.eqb c "?" then GOne :: parse_glob fuel rest
      else if Ascii.eqb c "[" then
        match split_class rest with
        | Some (negated, body, rest) => GClass negated (class_ranges body) :: parse_glob fuel rest
        | None => GChar c :: parse_glob fuel rest
        end
      else GChar c :: parse_glob fuel rest
  | _, _ => []
  end.
Definition in_range (c : ascii) (r : ascii * ascii) : bool := ((code r.1 <=? code c) && (code c <=? code r.2))%Z.
(** what one character matches *)
Definition glob_char (g : glob) (c : ascii) : bool :=
  match g with
  | GOne => true
  | GMany => false
  | GClass negated ranges => xorb negated (existsb (in_range c) ranges)
  | GChar d => Ascii.eqb c d
  end.
Fixpoint glob_match (gs : list glob) (s : string) : bool :=
  match gs with
  | [] => empty_str s
  | GMany :: gs =>
      (fix many (s : string) : bool :=
         glob_match gs s || match s with String _ s => many s | EmptyString => false end) s
  | g :: gs => match s with String c s => glob_char g c && glob_match gs s | EmptyString => false end
  end.
(** [fnmatch.fnmatchcase(name, pattern)] *)
Definition fnmatchcase (name pattern : string) : bool :=
  glob_match (parse_glob (String.length pattern) pattern) name.

Example fnmatch_star : fnmatchcase "artifact:sha256:0a" "artifact:*" = true.
Proof. reflexivity. Qed.
Example fnmatch_class : map (fun s => fnmatchcase s "ws-[!a-c]?") ["ws-dx"; "ws-bx"; "ws-d"] = [true; false; false].
Proof. reflexivity. Qed.
Example fnmatch_open : fnmatchcase "a[b" "a[b" = true.
Proof. reflexivity. Qed.

(** ** Values *)

Section Values.
Context `{Env}.

(** [_json_safe]: a value nested at most twelve levels deep, without blank keys *)
Fixpoint _json_safe (depth : Z) (value : json) {struct value} : result json :=
  if (12 <? depth)%Z then Err (ValueError "Capability OS payload nesting exceeds limit")
  else
    match value with
    | JObj fields =>
        let? fields := (fix go (fields : dict) : result dict :=
          match fields with
          | [] => Ok []
          | (k, v) :: fields =>
              if empty_str k then Err (ValueError "Capability OS object keys must not be blank")
              else let? v := _json_safe (depth + 1) v in let? rest := go fields in Ok ((k, v) :: rest)
          end) fields in
        Ok (JObj fields)
    | JList items =>
        let? items := (fix go (items : list json) : result (list json) :=
          match items with
          | [] => Ok []
          | v :: items => let? v := _json_safe (depth + 1) v in let? rest := go items in Ok (v :: rest)
          end) items in
        Ok (JList items)
    | _ => Ok value
    end.
(** [canonical_json] and [digest_payload] *)
Definition canonical_json (value : json) : result string :=
  let? safe := _json_safe 0 value in Ok (dumps true false safe).
Definition digest_payload (value : json) : result string :=
  let? text := canonical_json value in Ok ("sha256:" +:+ sha256_hex text).

(** [dict(value)]: of an object, or of pairs (the keys of the pairs are texts) *)
Definition dict_pair (item : json) : result (string * json) :=
  let? parts := py_iter item in
  match parts with
  | [k; v] =>
      match k with
      | JList _ | JObj _ => Err (TypeError "unhashable type")
      | _ => Ok (py_str k, v)
      end
  | _ => Err (ValueError "dictionary update sequence element has the wrong length; 2 is required")
  end.
Definition py_dict (value : json) : result dict :=
  match value with
  | JObj fields => Ok fields
  | _ =>
      let? items := py_iter value in
      let? pairs := all_Ok (map dict_pair items) in
      Ok (dict_of_pairs pairs)
  end.
(** [dict(value or {})] *)
Definition dict_or_empty (value : json) : result dict := if truthy value then py_dict value else Ok [].

(** *** Requests *)

Record CapabilityRequest := {
  cr_action : string;
  cr_resource : string;
  cr_constraints : dict;
}.
(** [CapabilityRequest(...)]: its fields are normalized *)
Definition CapabilityRequest_new (action resource : string) (constraints : dict) : result CapabilityRequest :=
  let action := lower (strip action) in
  let resource := strip resource in
  if empty_str action then Err (ValueError "capability action must not be blank")
  else if empty_str resource then Err (ValueError "capability resource must not be blank")
  else
    let? safe := _json_safe 0 (JObj constraints) in
    match safe with
    | JObj constraints => Ok {| cr_action := action; cr_resource := resource; cr_constraints := constraints |}
    | _ => Err (TypeError "capability constraints must be an object")
    end.
(** [CapabilityRequest.from_dict] *)
Definition request_from_dict (value : json) : result CapabilityRequest :=
  match value with
  | JObj fields =>
      let? constraints := dict_or_empty (get "constraints" fields) in
      CapabilityRequest_new (str_or_empty (get "action" fields)) (str_or_empty (get "resource" fields)) constraints
  | _ => Err (AttributeError "get")
  end.
(** [CapabilityRequest.to_dict] *)
Definition request_to_dict (r : CapabilityRequest) : result json :=
  let payload := [("action", JStr (cr_action r)); ("resource", JStr (cr_resource r))] in
  if is_nil (cr_constraints r) then Ok (JObj payload)
  else let? safe := _json_safe 0 (JObj (cr_constraints r)) in Ok (JObj (payload ++ [("constraints", safe)])).

(** *** Comparison *)

(** [isinstance(value, (int, float))] *)
Definition is_number (v : json) : bool :=
  match v with JBool _ | JInt _ | JFloat _ => true | _ => false end.
Definition int_of_bool (b : bool) : Z := if b then 1 else 0.
(** how two numbers compare; [None] when one of them is not a number *)
Definition number_compare (v w : json) : option comparison :=
  let int_of := fun v => match v with JBool b => Some (int_of_bool b) | JInt z => Some z | _ => None end in
  match v, w with
  | JFloat t, JFloat u => float_order t u
  | JFloat t, _ => z ← int_of w; float_compare t z
  | _, JFloat u => z ← int_of v; CompOpp <$> float_compare u z
  | _, _ => m ← int_of v; n ← int_of w; Some (m ?= n)%Z
  end.
(** [value > ceiling] *)
Definition number_gt (v w : json) : bool := bool_decide (number_compare v w = Some Gt).

End Values.

(** ** Artifacts *)

Inductive ArtifactKind := TOOL | SKILL | CAPABILITY | PLUGIN | MCP_ADAPTER.
Inductive ArtifactOwner := OWNER_CPTR | OWNER_USER | OWNER_GENERATED | OWNER_EXTERNAL.
Inductive ArtifactOrigin := ORIGIN_CORE | ORIGIN_FORGE | ORIGIN_LEARNED | ORIGIN_PLUGIN | ORIGIN_MCP | ORIGIN_IMPORTED.
Inductive ArtifactState := EPHEMERAL | QUALIFIED | LEARNED | CERTIFIED | CORE | RETIRED.
Definition kind_value (k : ArtifactKind) : string :=
  match k with TOOL => "Tool" | SKILL => "Skill" | CAPABILITY => "Capability" | PLUGIN => "Plugin" | MCP_ADAPTER => "McpAdapter" end.
Definition owner_value (o : ArtifactOwner) : string :=
  match o with OWNER_CPTR => "cptr" | OWNER_USER => "user" | OWNER_GENERATED => "generated" | OWNER_EXTERNAL => "external" end.
Definition origin_value (o : ArtifactOrigin) : string :=
  match o with
  | ORIGIN_CORE => "core" | ORIGIN_FORGE => "forge" | ORIGIN_LEARNED => "learned"
  | ORIGIN_PLUGIN => "plugin" | ORIGIN_MCP => "mcp" | ORIGIN_IMPORTED => "imported"
  end.
Definition artifact_state_value (s : ArtifactState) : string :=
  match s with
  | EPHEMERAL => "ephemeral" | QUALIFIED => "qualified" | LEARNED => "learned"
  | CERTIFIED => "certified" | CORE => "core" | RETIRED => "retired"
  end.

Record ArtifactMetadata := {
  am_id : string;
  am_version : string;
  am_owner : ArtifactOwner;
  am_origin : ArtifactOrigin;
  am_created_at : string;
  am_content_digest : string;
  am_user_id : option string;
  am_parent : option string;
  am_task_origin : option string;
  am_source_digest : option string;
}.
Record CptrArtifact := {
  ca_api_version : string;
  ca_kind : ArtifactKind;
  ca_metadata : ArtifactMetadata;
  ca_compatibility : json;
  ca_spec : json;
  ca_state : ArtifactState;
}.
(** what the caller says of an artifact *)
Record ArtifactRequest := {
  ar_artifact_id : string;
  ar_version : string;
  ar_kind : ArtifactKind;
  ar_owner : ArtifactOwner;
  ar_origin : ArtifactOrigin;
  ar_spec : json;
  ar_created_at : string;
  ar_compatibility : option dict;
  ar_user_id : option string;
  ar_parent : option string;
  ar_task_origin : option string;
  ar_source_digest : option string;
  ar_state : ArtifactState;
}.

Section Artifacts.
Context `{Env}.

(** what the digest of an artifact is taken of *)
Definition artifact_content (r : ArtifactRequest) (compatibility : dict) (safe_spec : json) : json :=
  JObj [("apiVersion", JStr "cptr.io/v1alpha1"); ("kind", JStr (kind_value (ar_kind r)));
    ("metadata", JObj [("id", JStr (strip (ar_artifact_id r))); ("version", JStr (strip (ar_version r)));
       ("owner", JStr (owner_value (ar_owner r))); ("origin", JStr (origin_value (ar_origin r)));
       ("scopeOwnerId", opt_str (strip <$> ar_user_id r)); ("parent", opt_str (ar_parent r));
       ("sourceDigest", opt_str (ar_source_digest r))]);
    ("compatibility", JObj compatibility); ("spec", safe_spec)].
(** [compatibility or {"cptr": ">=0.9"}] *)
Definition compatibility_of (r : ArtifactRequest) : dict :=
  match ar_compatibility r with Some (kv :: fields) => kv :: fields | _ => [("cptr", JStr ">=0.9")] end.
(** [create_artifact] *)
Definition create_artifact (r : ArtifactRequest) : result CptrArtifact :=
  if empty_str (strip (ar_artifact_id r)) || empty_str (strip (ar_version r)) || empty_str (strip (ar_created_at r)) then
    Err (ValueError "artifact id, version, and created_at must not be blank")
  else if match ar_user_id r with Some u => empty_str (strip u) | None => false end then
    Err (ValueError "artifact user_id must not be blank")
  else
    let compatibility := compatibility_of r in
    let? safe_spec := _json_safe 0 (ar_spec r) in
    let? digest := digest_payload (artifact_content r compatibility safe_spec) in
    let? safe_compatibility := _json_safe 0 (JObj compatibility) in
    Ok {| ca_api_version := "cptr.io/v1alpha1"; ca_kind := ar_kind r;
          ca_metadata := {| am_id := strip (ar_artifact_id r); am_version := strip (ar_version r);
             am_owner := ar_owner r; am_origin := ar_origin r; am_created_at := strip (ar_created_at r);
             am_content_digest := digest; am_user_id := strip <$> ar_user_id r; am_parent := ar_parent r;
             am_task_origin := ar_task_origin r; am_source_digest := ar_source_digest r |};
          ca_compatibility := safe_compatibility; ca_spec := safe_spec; ca_state := ar_state r |}.
(** [CptrArtifact.identity] *)
Definition artifact_identity (a : CptrArtifact) : string :=
  am_id (ca_metadata a) +:+ "@" +:+ am_version (ca_metadata a) +:+ "#" +:+ am_content_digest (ca_metadata a).
(** [CptrArtifact.to_dict] *)
Definition artifact_to_dict (a : CptrArtifact) : result json :=
  let m := ca_metadata a in
  let? compatibility := _json_safe 0 (ca_compatibility a) in
  let? spec := _json_safe 0 (ca_spec a) in
  Ok (JObj [("apiVersion", JStr (ca_api_version a)); ("kind", JStr (kind_value (ca_kind a)));
    ("metadata", JObj [("id", JStr (am_id m)); ("version", JStr (am_version m)); ("owner", JStr (owner_value (am_owner m)));
       ("origin", JStr (origin_value (am_origin m))); ("createdAt", JStr (am_created_at m));
       ("userId", opt_str (am_user_id m)); ("parent", opt_str (am_parent m)); ("taskOrigin", opt_str (am_task_origin m));
       ("sourceDigest", opt_str (am_source_digest m)); ("contentDigest", JStr (am_content_digest m))]);
    ("compatibility", compatibility); ("spec", spec); ("state", JStr (artifact_state_value (ca_state a)))]).
End Artifacts.
