(* ===== verification/CapabilityContractsSpec.v ===== *)
(** * Properties of requests and digests

    Requests survive their trip through a row; a digest determines what it was taken
    of, up to a collision of SHA-256 and the order of fields, so an artifact is what its
    digest says. *)

From S2P Require Import Prelude PyStr Json JsonText FactoryDomain FactoryGates Database CapabilityLifecycle.
From S2P Require Import FactoryStore FactoryPhases FactoryGit FactoryPolicy FactoryCapabilities FactoryCapabilitiesSpec.
From S2P Require Import CapabilityContracts.
From Stdlib Require Import Ascii.

(** ** Values and requests *)

Lemma bind_raises {W A B} (m : M W A) (k : A -> M W B) w e w' :
  bind m k w = (Err e, w') <-> m w = (Err e, w') \/ exists a w1, m w = (Ok a, w1) /\ k a w1 = (Err e, w').
Proof. unfold bind. destruct (m w) as [[a|e'] w1]; naive_solver. Qed.
Lemma lift_raises {W A} (r : result A) e (w w' : W) : lift r w = (Err e, w') <-> r = Err e /\ w' = w.
Proof. unfold lift. naive_solver. Qed.

Section Values.
Context `{Env}.

(** what is safe is left as it is *)
Lemma json_safe_same v : forall depth v', _json_safe depth v = Ok v' -> v' = v.
Proof.
  induction v as [|b|z|t|s|l IH|l IH] using json_ind'; intros depth v'; cbn [_json_safe]; destruct (12 <? depth)%Z;
    try done; try (by intros [= <-]).
  - intros (items & Hi & [= <-])%rbind_Ok. f_equal. revert items Hi.
    induction IH as [|v l Hv _ IHl]; intros items Hi; [by injection Hi|].
    apply rbind_Ok in Hi as (x & Hx & (rest & Hrest & [= <-])%rbind_Ok). f_equal; [by eapply Hv|by apply IHl].
  - intros (fields & Hi & [= <-])%rbind_Ok. f_equal. revert fields Hi.
    induction IH as [|[k v] l Hv _ IHl]; intros fields Hi; [by injection Hi|].
    destruct (empty_str k); [done|].
    apply rbind_Ok in Hi as (x & Hx & (rest & Hrest & [= <-])%rbind_Ok). f_equal; [f_equal; by eapply Hv|by apply IHl].
Qed.

(** a request as the constructor makes it *)
Definition normal (r : CapabilityRequest) : Prop :=
  CapabilityRequest_new (cr_action r) (cr_resource r) (cr_constraints r) = Ok r.

Lemma is_space_lower c : is_space (lower_char c) = is_space c.
Proof. destruct c as [[] [] [] [] [] [] [] []]; reflexivity. Qed.
Lemma lower_empty s : lower s = "" <-> s = "".
Proof. by destruct s. Qed.
Lemma lstrip_lower s : lstrip (lower s) = lower (lstrip s).
Proof. induction s as [|c s IH]; [done|]. cbn. rewrite is_space_lower. by destruct (is_space c). Qed.
Lemma rstrip_lower s : rstrip (lower s) = lower (rstrip s).
Proof.
  induction s as [|c s IH]; [done|]. cbn [lower str_map rstrip]. fold (lower s). rewrite IH, is_space_lower.
  destruct (is_space c); cbn [andb]; [|done]. destruct (decide (rstrip s = "")) as [E|E].
  - rewrite decide_True by by rewrite E. done.
  - rewrite decide_False by by rewrite lower_empty. done.
Qed.
Lemma strip_lower s : strip (lower s) = lower (strip s).
Proof. unfold strip. by rewrite lstrip_lower, rstrip_lower. Qed.
Lemma lower_char_idemp c : lower_char (lower_char c) = lower_char c.
Proof. destruct c as [[] [] [] [] [] [] [] []]; reflexivity. Qed.
Lemma lower_idemp s : lower (lower s) = lower s.
Proof. induction s as [|c s IH]; [done|]. cbn. rewrite lower_char_idemp. f_equal. exact IH. Qed.

Lemma request_new_Ok action resource constraints r :
  CapabilityRequest_new action resource constraints = Ok r ->
  cr_action r = lower (strip action) /\ cr_resource r = strip resource /\ cr_constraints r = constraints /\
  cr_action r <> "" /\ cr_resource r <> "" /\ _json_safe 0 (JObj constraints) = Ok (JObj constraints).
Proof.
  unfold CapabilityRequest_new. destruct (empty_str _) eqn:Ea; [done|]. destruct (empty_str (strip resource)) eqn:Er; [done|].
  apply empty_str_false in Ea, Er. intros (safe & Hs & Hr)%rbind_Ok.
  pose proof (json_safe_same _ _ _ Hs) as ->. injection Hr as <-. done.
Qed.
Lemma new_normal action resource constraints r :
  CapabilityRequest_new action resource constraints = Ok r -> normal r.
Proof.
  intros (Ha & Hr & Hc & Hae & Hre & Hs)%request_new_Ok. unfold normal, CapabilityRequest_new.
  rewrite Ha, Hr, strip_lower, !strip_idemp, lower_idemp, <- Ha, <- Hr, Hc.
  rewrite (proj2 (empty_str_false _) Hae), (proj2 (empty_str_false _) Hre), Hs. cbn. destruct r; cbn in *. by subst.
Qed.

Lemma str_or_empty_text s : str_or_empty (JStr s) = s.
Proof. unfold str_or_empty. cbn. destruct (empty_str s) eqn:E; [|done]. by apply empty_str_true in E as ->. Qed.
Lemma from_dict_parts a r cs rest :
  get "constraints" (("action", JStr a) :: ("resource", JStr r) :: rest) = cs ->
  request_from_dict (JObj (("action", JStr a) :: ("resource", JStr r) :: rest))
  = let? constraints := dict_or_empty cs in CapabilityRequest_new a r constraints.
Proof.
  intros <-. unfold request_from_dict.
  change (get "action" _) with (JStr a). change (get "resource" _) with (JStr r). by rewrite !str_or_empty_text.
Qed.
Lemma normal_roundtrip r : normal r -> exists j, request_to_dict r = Ok j /\ request_from_dict j = Ok r.
Proof.
  intros Hn. pose proof (request_new_Ok _ _ _ _ Hn) as (_ & _ & _ & _ & _ & Hs). unfold request_to_dict.
  unfold normal in Hn. destruct (cr_constraints r) as [|kv l] eqn:Ec; cbn [is_nil].
  - eexists. split; [done|]. rewrite (from_dict_parts _ _ JNull) by reflexivity. exact Hn.
  - rewrite Hs. cbn [rbind]. eexists. split; [done|].
    change ([("action", JStr (cr_action r)); ("resource", JStr (cr_resource r))] ++ [("constraints", JObj (kv :: l))])
      with (("action", JStr (cr_action r)) :: ("resource", JStr (cr_resource r)) :: [("constraints", JObj (kv :: l))]).
    rewrite (from_dict_parts _ _ (JObj (kv :: l))) by reflexivity. exact Hn.
Qed.
Lemma requests_roundtrip rs js :
  Forall normal rs -> all_Ok (map request_to_dict rs) = Ok js -> all_Ok (map request_from_dict js) = Ok rs.
Proof.
  intros Hn. revert js. induction Hn as [|r rs Hr _ IH]; intros js; cbn; [by intros [= <-]|].
  destruct (normal_roundtrip r Hr) as (j & -> & Hj). cbn. intros (l & Hl & [= <-])%rbind_Ok. cbn.
  by rewrite Hj, (IH _ Hl).
Qed.
End Values.

(** ** Digests *)

Section Digests.
Context `{Env}.

(** two texts with one digest *)
Definition collision : Prop := exists x y, x <> y /\ sha256_hex x = sha256_hex y.

Lemma json_safe_idemp v v' : _json_safe 0 v = Ok v' -> _json_safe 0 v' = Ok v'.
Proof. intros Hv. by rewrite (json_safe_same _ _ _ Hv) in Hv |- *. Qed.
Lemma digest_text v d : digest_payload v = Ok d -> d = "sha256:" +:+ sha256_hex (dumps true false v).
Proof.
  intros (t & (safe & Hs & [= <-])%rbind_Ok & [= <-])%rbind_Ok. by rewrite (json_safe_same _ _ _ Hs).
Qed.
Lemma prefix_inj (p x y : string) : p +:+ x = p +:+ y -> x = y.
Proof. induction p as [|c p IH]; [done|]. intros Heq. injection Heq. exact IH. Qed.
(** one digest: one value, but for the order of fields *)
Lemma digest_inj v v' d :
  proper v = true -> proper v' = true -> digest_payload v = Ok d -> digest_payload v' = Ok d -> norm v = norm v' \/ collision.
Proof.
  intros Hp Hp' Hd%digest_text Hd'%digest_text. rewrite Hd in Hd'. apply prefix_inj in Hd'.
  destruct (decide (dumps true false v = dumps true false v')) as [He|Hne]; [left; by eapply dumps_inj|right].
  by eexists _, _.
Qed.

(** the fields of two objects that are the same *)
Lemma dict_get_unique {A} k (v : A) l : NoDup l.*1 -> (k, v) ∈ l -> dict_get k l = Some v.
Proof.
  induction l as [|[k' v'] l IH]; [by intros _ ?%elem_of_nil|]. cbn [dict_get fmap list_fmap fst].
  intros [Hk Hl]%NoDup_cons [[= <- <-]|Hin]%elem_of_cons.
  - by rewrite decide_True.
  - rewrite decide_False; [by apply IH|]. intros <-. destruct Hk. apply list_elem_of_fmap. by exists (k', v).
Qed.
Lemma dict_get_perm {A} k (l l' : list (string * A)) : l ≡ₚ l' -> NoDup l.*1 -> dict_get k l = dict_get k l'.
Proof.
  intros Hp Hn. assert (NoDup l'.*1) as Hn' by by rewrite <- Hp.
  destruct (dict_get k l) as [v|] eqn:E.
  - apply dict_get_elem in E. symmetry. apply dict_get_unique; [done|]. by rewrite <- Hp.
  - destruct (dict_get k l') as [v|] eqn:E'; [|done]. apply dict_get_elem in E'. rewrite <- Hp in E'.
    rewrite (dict_get_unique _ _ _ Hn E') in E. done.
Qed.
Lemma norm_get f f' k :
  norm (JObj f) = norm (JObj f') -> NoDup f.*1 -> norm <$> dict_get k f = norm <$> dict_get k f'.
Proof.
  cbn [norm]. intros [= Hm] Hn.
  assert (map (fun kv => (kv.1, norm kv.2)) f ≡ₚ map (fun kv => (kv.1, norm kv.2)) f') as Hp
    by by rewrite <- (merge_sort_Permutation key_le), Hm, merge_sort_Permutation.
  assert (forall l, norm <$> dict_get k l = dict_get k (map (fun kv : string * json => (kv.1, norm kv.2)) l)) as Hg.
  { induction l as [|[k' v] l IH]; [done|]. cbn [dict_get map fst snd]. by destruct (decide (k' = k)). }
  rewrite !Hg. apply dict_get_perm; [done|]. rewrite <- list_fmap_compose.
  by replace ((fst ∘ _) <$> f) with f.*1 by (apply list_fmap_ext; by intros ? []).
Qed.
Lemma norm_str v s : norm v = JStr s -> v = JStr s.
Proof. by destruct v. Qed.
Lemma norm_opt_str (x y : option string) : norm (opt_str x) = norm (opt_str y) -> x = y.
Proof. destruct x, y; naive_solver. Qed.

(** ** Artifacts *)

Lemma kind_value_inj k k' : kind_value k = kind_value k' -> k = k'.
Proof. by destruct k, k'. Qed.
Lemma owner_value_inj o o' : owner_value o = owner_value o' -> o = o'.
Proof. by destruct o, o'. Qed.
Lemma origin_value_inj o o' : origin_value o = origin_value o' -> o = o'.
Proof. by destruct o, o'. Qed.

(** the artifact a request makes *)
Lemma create_artifact_Ok r a :
  create_artifact r = Ok a ->
  digest_payload (artifact_content r (compatibility_of r) (ar_spec r)) = Ok (am_content_digest (ca_metadata a)) /\
  ca_kind a = ar_kind r /\ ca_spec a = ar_spec r /\ ca_compatibility a = JObj (compatibility_of r) /\
  am_id (ca_metadata a) = strip (ar_artifact_id r) /\ am_version (ca_metadata a) = strip (ar_version r) /\
  am_owner (ca_metadata a) = ar_owner r /\ am_origin (ca_metadata a) = ar_origin r /\
  am_user_id (ca_metadata a) = strip <$> ar_user_id r /\ am_parent (ca_metadata a) = ar_parent r /\
  am_source_digest (ca_metadata a) = ar_source_digest r.
Proof.
  unfold create_artifact. destruct (_ || _ || _); [done|]. destruct (match ar_user_id r with Some _ => _ | None => _ end); [done|].
  cbv zeta. intros (spec & Hs & (digest & Hd & (compat & Hc & [= <-])%rbind_Ok)%rbind_Ok)%rbind_Ok.
  apply json_safe_same in Hs as ->. apply json_safe_same in Hc as ->. cbn -[compatibility_of]. split_and!; try done.
Qed.
(** what two artifacts of one digest have in common *)
Definition same_artifact (a a' : CptrArtifact) : Prop :=
  am_id (ca_metadata a) = am_id (ca_metadata a') /\ am_version (ca_metadata a) = am_version (ca_metadata a') /\
  ca_kind a = ca_kind a' /\ am_owner (ca_metadata a) = am_owner (ca_metadata a') /\
  am_origin (ca_metadata a) = am_origin (ca_metadata a') /\ am_user_id (ca_metadata a) = am_user_id (ca_metadata a') /\
  am_parent (ca_metadata a) = am_parent (ca_metadata a') /\
  am_source_digest (ca_metadata a) = am_source_digest (ca_metadata a') /\
  norm (ca_compatibility a) = norm (ca_compatibility a') /\ norm (ca_spec a) = norm (ca_spec a').
Lemma content_proper r : proper (JObj (compatibility_of r)) = true -> proper (ar_spec r) = true ->
  proper (artifact_content r (compatibility_of r) (ar_spec r)) = true.
Proof.
  intros Hc Hs. change (proper (artifact_content r (compatibility_of r) (ar_spec r))) with
    (true && (true && ((true && (true && (true && (true && (proper (opt_str (strip <$> ar_user_id r)) && (proper (opt_str (ar_parent r))
      && (proper (opt_str (ar_source_digest r)) && true))))))) && (proper (JObj (compatibility_of r)) && (proper (ar_spec r) && true))))).
  rewrite Hc, Hs. by destruct (ar_user_id r), (ar_parent r), (ar_source_digest r).
Qed.

(** C33. An artifact is what its digest says: two artifacts that were made with one
    content digest have the same name, version, kind, owner, origin, scope, parent and
    source, and, but for the order of fields, the same compatibility and specification;
    or SHA-256 has a collision. *)
Theorem digest_identifies_artifact r r' a a' :
  create_artifact r = Ok a -> create_artifact r' = Ok a' ->
  am_content_digest (ca_metadata a) = am_content_digest (ca_metadata a') ->
  proper (ca_compatibility a) = true -> proper (ca_spec a) = true ->
  proper (ca_compatibility a') = true -> proper (ca_spec a') = true ->
  same_artifact a a' \/ collision.
Proof.
  intros (Hd & Hk & Hs & Hc & Hid & Hv & Ho & Hor & Hu & Hp & Hsd)%create_artifact_Ok
    (Hd' & Hk' & Hs' & Hc' & Hid' & Hv' & Ho' & Hor' & Hu' & Hp' & Hsd')%create_artifact_Ok He P1 P2 P3 P4.
  rewrite Hc in P1. rewrite Hs in P2. rewrite Hc' in P3. rewrite Hs' in P4. rewrite He in Hd.
  destruct (digest_inj _ _ _ (content_proper _ P1 P2) (content_proper _ P3 P4) Hd Hd') as [HN|]; [left|by right].
  unfold artifact_content in HN.
  pose proof (norm_get _ _ "kind" HN ltac:(by_evaluation)) as Nk. pose proof (norm_get _ _ "compatibility" HN ltac:(by_evaluation)) as Nc.
  pose proof (norm_get _ _ "spec" HN ltac:(by_evaluation)) as Ns. pose proof (norm_get _ _ "metadata" HN ltac:(by_evaluation)) as Nm.
  injection Nk as Nk. apply (inj Some) in Nc, Ns, Nm.
  pose proof (fun k => norm_get _ _ k Nm ltac:(by_evaluation)) as Hm. clear Nm HN.
  pose proof (Hm "id") as M1. pose proof (Hm "version") as M2. pose proof (Hm "owner") as M3. pose proof (Hm "origin") as M4.
  pose proof (Hm "scopeOwnerId") as M5. pose proof (Hm "parent") as M6. pose proof (Hm "sourceDigest") as M7. clear Hm.
  injection M1 as M1. injection M2 as M2. injection M3 as M3. injection M4 as M4. apply (inj Some) in M5, M6, M7.
  apply norm_opt_str in M5, M6, M7. unfold same_artifact.
  rewrite Hk, Hk', Hs, Hs', Hc, Hc', Hid, Hid', Hv, Hv', Ho, Ho', Hor, Hor', Hu, Hu', Hp, Hp', Hsd, Hsd'.
  split_and!; try done; [by apply kind_value_inj|by apply owner_value_inj|by apply origin_value_inj].
Qed.
End Digests.

(** ** A concrete instance *)

Definition demo_artifact_request (spec : json) : ArtifactRequest := {|
  ar_artifact_id := " tool "; ar_version := "1"; ar_kind := TOOL; ar_owner := OWNER_USER; ar_origin := ORIGIN_FORGE;
  ar_spec := spec; ar_created_at := "2026-01-01T00:00:00Z"; ar_compatibility := None; ar_user_id := Some "u1";
  ar_parent := None; ar_task_origin := Some "t1"; ar_source_digest := None; ar_state := EPHEMERAL |}.
(** the same artifact, with the fields of its specification in another order *)
Theorem digest_identifies_artifact_witness :
  exists a a', @create_artifact demo_env (demo_artifact_request (JObj [("a", JInt 1); ("b", JFloat "0.5")])) = Ok a /\
    @create_artifact demo_env (demo_artifact_request (JObj [("b", JFloat "0.5"); ("a", JInt 1)])) = Ok a' /\
    (same_artifact a a' \/ @collision demo_env).
Proof.
  destruct (@create_artifact demo_env (demo_artifact_request (JObj [("a", JInt 1); ("b", JFloat "0.5")]))) as [a|] eqn:E;
    [|by vm_compute in E].
  destruct (@create_artifact demo_env (demo_artifact_request (JObj [("b", JFloat "0.5"); ("a", JInt 1)]))) as [a'|] eqn:E';
    [|by vm_compute in E'].
  exists a, a'. split_and!; [done|done|].
  refine (@digest_identifies_artifact demo_env _ _ a a' E E' _ _ _ _ _); vm_compute in E, E'; injection E as <-;
    injection E' as <-; reflexivity.
Defined.
