(* ===== verification/CapabilityStore.v ===== *)
(** * The store of the Capability OS

    Models [cptr/services/capability_os/store.py] on the tables of
    [models/capability_os.py]: artifacts and their lineage, decisions, leases, runs,
    experiments, promotions, the index of servers, and the evidence of a task, a chain
    in which every row carries the digest of the one before it; and the boundary that
    evidence is recorded through, [evidence.py].  Leases and mounts are retired by
    [CapabilityLifecycle]. *)

From S2P Require Import Prelude PyStr Json Redaction FactoryDomain FactoryGates Database CapabilityLifecycle.
From S2P Require Import FactoryStore FactoryPhases FactoryGit FactoryCapabilities CapabilityContracts.
From Stdlib Require Import Ascii.

(** ** The tables *)

Record CapabilityOsArtifact := {
  oa_id : string;
  oa_artifact_id : string;
  oa_version : string;
  oa_kind : string;
  oa_owner : string;
  oa_user_id : option string;
  oa_origin : string;
  oa_state : string;
  oa_parent_ref : option string;
  oa_task_origin : option string;
  oa_source_digest : option string;
  oa_content_digest : string;
  oa_compatibility : json;
  oa_spec : json;
  oa_created_at : string;
  oa_created_at_ms : Z;
  oa_retired_at_ms : option Z;
}.
Record CapabilityOsLineageEdge := {
  ln_edge_id : string;
  ln_child_digest : string;
  ln_parent_ref : string;
  ln_relation : string;
  ln_operator : option string;
  ln_created_at_ms : Z;
}.
Record CapabilityOsPolicyDecision := {
  pd_decision_id : string;
  pd_task_id : string;
  pd_workload_id : string;
  pd_artifact_digest : string;
  pd_outcome : string;
  pd_permissions : json;
  pd_constraints : json;
  pd_approval_id : option string;
  pd_reason_code : option string;
  pd_created_at_ms : Z;
}.
Record CapabilityOsEvidence := {
  oe_evidence_id : string;
  oe_task_id : string;
  oe_run_id : option string;
  oe_kind : string;
  oe_producer_identity : string;
  oe_claims : json;
  oe_blob_uri : option string;
  oe_sequence : Z;
  oe_previous_digest : option string;
  oe_digest : string;
  oe_artifact_digest : option string;
  oe_lease_id : option string;
  oe_created_at_ms : Z;
}.
Record CapabilityOsObservation := {
  ob_observation_id : string;
  ob_task_id : string;
  ob_run_id : option string;
  ob_kind : string;
  ob_artifact_digest : option string;
  ob_evidence_id : option string;
  ob_metrics : json;
  ob_created_at_ms : Z;
}.
Record CapabilityOsRun := {
  orun_run_id : string;
  orun_task_id : string;
  orun_capability_digest : string;
  orun_lease_id : option string;
  orun_status : string;
  orun_inputs_digest : option string;
  orun_started_at_ms : Z;
  orun_completed_at_ms : option Z;
  orun_error_code : option string;
}.
Record CapabilityOsRunStep := {
  st_step_id : string;
  st_run_id : string;
  st_node_id : string;
  st_attempt : Z;
  st_status : string;
  st_output_digest : option string;
  st_error_code : option string;
  st_started_at_ms : Z;
  st_completed_at_ms : option Z;
}.
Record CapabilityOsExperiment := {
  ox_experiment_id : string;
  ox_task_id : string;
  ox_change_class : string;
  ox_mode : string;
  ox_hypothesis : string;
  ox_control_artifact_digest : string;
  ox_candidate_artifact_digest : string;
  ox_context : json;
  ox_min_runs_per_arm : Z;
  ox_state : string;
  ox_created_at_ms : Z;
  ox_updated_at_ms : Z;
}.
Record CapabilityOsExperimentRun := {
  oxr_experiment_run_id : string;
  oxr_experiment_id : string;
  oxr_arm : string;
  oxr_source_evidence_id : string;
  oxr_source_evidence_digest : string;
  oxr_success : Z;
  oxr_regression : Z;
  oxr_safety_events : Z;
  oxr_cost : string;
  oxr_created_at_ms : Z;
}.
Record CapabilityOsPromotion := {
  op_promotion_id : string;
  op_experiment_id : string;
  op_candidate_artifact_digest : string;
  op_decision : string;
  op_from_state : string;
  op_target_state : string;
  op_evaluation_evidence_id : string;
  op_intent_evidence_id : string;
  op_promotion_evidence_id : string;
  op_owner_approval_verified : Z;
  op_created_at_ms : Z;
}.
Record CapabilityOsRetentionJob := {
  rj_retention_job_id : string;
  rj_task_id : option string;
  rj_artifact_digest : option string;
  rj_policy : json;
  rj_status : string;
  rj_scheduled_at_ms : Z;
  rj_started_at_ms : option Z;
  rj_completed_at_ms : option Z;
  rj_error_code : option string;
}.
Record CapabilityOsMcpDiscoveryEntry := {
  de_entry_id : string;
  de_provider : string;
  de_server_id : string;
  de_version : option string;
  de_origin_uri : string;
  de_source_uri : option string;
  de_effects : json;
  de_permissions : json;
  de_metadata : json;
  de_refreshed_at_ms : Z;
}.

(** artifacts are found by their digest, which is unique; runs, experiments and entries of
    the index of servers by their keys *)
Record OsTables := {
  os_artifacts : gmap string CapabilityOsArtifact;
  os_lineage : list CapabilityOsLineageEdge;
  os_decisions : list CapabilityOsPolicyDecision;
  os_evidence : list CapabilityOsEvidence;
  os_observations : list CapabilityOsObservation;
  os_runs : gmap string CapabilityOsRun;
  os_steps : list CapabilityOsRunStep;
  os_experiments : gmap string CapabilityOsExperiment;
  os_experiment_runs : list CapabilityOsExperimentRun;
  os_promotions : list CapabilityOsPromotion;
  os_retention : list CapabilityOsRetentionJob;
  os_discovery : gmap string CapabilityOsMcpDiscoveryEntry;
}.
Definition set_os_artifacts (v : gmap string CapabilityOsArtifact) (x : OsTables) : OsTables :=
  {| os_artifacts := v; os_lineage := os_lineage x; os_decisions := os_decisions x; os_evidence := os_evidence x;
     os_observations := os_observations x; os_runs := os_runs x; os_steps := os_steps x;
     os_experiments := os_experiments x; os_experiment_runs := os_experiment_runs x;
     os_promotions := os_promotions x; os_retention := os_retention x; os_discovery := os_discovery x |}.
Definition set_os_lineage (v : list CapabilityOsLineageEdge) (x : OsTables) : OsTables :=
  {| os_artifacts := os_artifacts x; os_lineage := v; os_decisions := os_decisions x;
     os_evidence := os_evidence x; os_observations := os_observations x; os_runs := os_runs x;
     os_steps := os_steps x; os_experiments := os_experiments x; os_experiment_runs := os_experiment_runs x;
     os_promotions := os_promotions x; os_retention := os_retention x; os_discovery := os_discovery x |}.
Definition set_os_decisions (v : list CapabilityOsPolicyDecision) (x : OsTables) : OsTables :=
  {| os_artifacts := os_artifacts x; os_lineage := os_lineage x; os_decisions := v; os_evidence := os_evidence x;
     os_observations := os_observations x; os_runs := os_runs x; os_steps := os_steps x;
     os_experiments := os_experiments x; os_experiment_runs := os_experiment_runs x;
     os_promotions := os_promotions x; os_retention := os_retention x; os_discovery := os_discovery x |}.
Definition set_os_evidence (v : list CapabilityOsEvidence) (x : OsTables) : OsTables :=
  {| os_artifacts := os_artifacts x; os_lineage := os_lineage x; os_decisions := os_decisions x;
     os_evidence := v; os_observations := os_observations x; os_runs := os_runs x; os_steps := os_steps x;
     os_experiments := os_experiments x; os_experiment_runs := os_experiment_runs x;
     os_promotions := os_promotions x; os_retention := os_retention x; os_discovery := os_discovery x |}.
Definition set_os_observations (v : list CapabilityOsObservation) (x : OsTables) : OsTables :=
  {| os_artifacts := os_artifacts x; os_lineage := os_lineage x; os_decisions := os_decisions x;
     os_evidence := os_evidence x; os_observations := v; os_runs := os_runs x; os_steps := os_steps x;
     os_experiments := os_experiments x; os_experiment_runs := os_experiment_runs x;
     os_promotions := os_promotions x; os_retention := os_retention x; os_discovery := os_discovery x |}.
Definition set_os_runs (v : gmap string CapabilityOsRun) (x : OsTables) : OsTables :=
  {| os_artifacts := os_artifacts x; os_lineage := os_lineage x; os_decisions := os_decisions x;
     os_evidence := os_evidence x; os_observations := os_observations x; os_runs := v; os_steps := os_steps x;
     os_experiments := os_experiments x; os_experiment_runs := os_experiment_runs x;
     os_promotions := os_promotions x; os_retention := os_retention x; os_discovery := os_discovery x |}.
Definition set_os_steps (v : list CapabilityOsRunStep) (x : OsTables) : OsTables :=
  {| os_artifacts := os_artifacts x; os_lineage := os_lineage x; os_decisions := os_decisions x;
     os_evidence := os_evidence x; os_observations := os_observations x; os_runs := os_runs x; os_steps := v;
     os_experiments := os_experiments x; os_experiment_runs := os_experiment_runs x;
     os_promotions := os_promotions x; os_retention := os_retention x; os_discovery := os_discovery x |}.
Definition set_os_experiments (v : gmap string CapabilityOsExperiment) (x : OsTables) : OsTables :=
  {| os_artifacts := os_artifacts x; os_lineage := os_lineage x; os_decisions := os_decisions x;
     os_evidence := os_evidence x; os_observations := os_observations x; os_runs := os_runs x;
     os_steps := os_steps x; os_experiments := v; os_experiment_runs := os_experiment_runs x;
     os_promotions := os_promotions x; os_retention := os_retention x; os_discovery := os_discovery x |}.
Definition set_os_experiment_runs (v : list CapabilityOsExperimentRun) (x : OsTables) : OsTables :=
  {| os_artifacts := os_artifacts x; os_lineage := os_lineage x; os_decisions := os_decisions x;
     os_evidence := os_evidence x; os_observations := os_observations x; os_runs := os_runs x;
     os_steps := os_steps x; os_experiments := os_experiments x; os_experiment_runs := v;
     os_promotions := os_promotions x; os_retention := os_retention x; os_discovery := os_discovery x |}.
Definition set_os_promotions (v : list CapabilityOsPromotion) (x : OsTables) : OsTables :=
  {| os_artifacts := os_artifacts x; os_lineage := os_lineage x; os_decisions := os_decisions x;
     os_evidence := os_evidence x; os_observations := os_observations x; os_runs := os_runs x;
     os_steps := os_steps x; os_experiments := os_experiments x; os_experiment_runs := os_experiment_runs x;
     os_promotions := v; os_retention := os_retention x; os_discovery := os_discovery x |}.
Definition set_os_retention (v : list CapabilityOsRetentionJob) (x : OsTables) : OsTables :=
  {| os_artifacts := os_artifacts x; os_lineage := os_lineage x; os_decisions := os_decisions x;
     os_evidence := os_evidence x; os_observations := os_observations x; os_runs := os_runs x;
     os_steps := os_steps x; os_experiments := os_experiments x; os_experiment_runs := os_experiment_runs x;
     os_promotions := os_promotions x; os_retention := v; os_discovery := os_discovery x |}.
Definition set_os_discovery (v : gmap string CapabilityOsMcpDiscoveryEntry) (x : OsTables) : OsTables :=
  {| os_artifacts := os_artifacts x; os_lineage := os_lineage x; os_decisions := os_decisions x;
     os_evidence := os_evidence x; os_observations := os_observations x; os_runs := os_runs x;
     os_steps := os_steps x; os_experiments := os_experiments x; os_experiment_runs := os_experiment_runs x;
     os_promotions := os_promotions x; os_retention := os_retention x; os_discovery := v |}.
Definition set_oa_state (v : string) (x : CapabilityOsArtifact) : CapabilityOsArtifact :=
  {| oa_id := oa_id x; oa_artifact_id := oa_artifact_id x; oa_version := oa_version x; oa_kind := oa_kind x;
     oa_owner := oa_owner x; oa_user_id := oa_user_id x; oa_origin := oa_origin x; oa_state := v;
     oa_parent_ref := oa_parent_ref x; oa_task_origin := oa_task_origin x;
     oa_source_digest := oa_source_digest x; oa_content_digest := oa_content_digest x;
     oa_compatibility := oa_compatibility x; oa_spec := oa_spec x; oa_created_at := oa_created_at x;
     oa_created_at_ms := oa_created_at_ms x; oa_retired_at_ms := oa_retired_at_ms x |}.
Definition set_oa_retired_at_ms (v : option Z) (x : CapabilityOsArtifact) : CapabilityOsArtifact :=
  {| oa_id := oa_id x; oa_artifact_id := oa_artifact_id x; oa_version := oa_version x; oa_kind := oa_kind x;
     oa_owner := oa_owner x; oa_user_id := oa_user_id x; oa_origin := oa_origin x; oa_state := oa_state x;
     oa_parent_ref := oa_parent_ref x; oa_task_origin := oa_task_origin x;
     oa_source_digest := oa_source_digest x; oa_content_digest := oa_content_digest x;
     oa_compatibility := oa_compatibility x; oa_spec := oa_spec x; oa_created_at := oa_created_at x;
     oa_created_at_ms := oa_created_at_ms x; oa_retired_at_ms := v |}.
Definition set_orun_status (v : string) (x : CapabilityOsRun) : CapabilityOsRun :=
  {| orun_run_id := orun_run_id x; orun_task_id := orun_task_id x;
     orun_capability_digest := orun_capability_digest x; orun_lease_id := orun_lease_id x; orun_status := v;
     orun_inputs_digest := orun_inputs_digest x; orun_started_at_ms := orun_started_at_ms x;
     orun_completed_at_ms := orun_completed_at_ms x; orun_error_code := orun_error_code x |}.
Definition set_orun_completed_at_ms (v : option Z) (x : CapabilityOsRun) : CapabilityOsRun :=
  {| orun_run_id := orun_run_id x; orun_task_id := orun_task_id x;
     orun_capability_digest := orun_capability_digest x; orun_lease_id := orun_lease_id x;
     orun_status := orun_status x; orun_inputs_digest := orun_inputs_digest x;
     orun_started_at_ms := orun_started_at_ms x; orun_completed_at_ms := v; orun_error_code := orun_error_code x |}.
Definition set_orun_error_code (v : option string) (x : CapabilityOsRun) : CapabilityOsRun :=
  {| orun_run_id := orun_run_id x; orun_task_id := orun_task_id x;
     orun_capability_digest := orun_capability_digest x; orun_lease_id := orun_lease_id x;
     orun_status := orun_status x; orun_inputs_digest := orun_inputs_digest x;
     orun_started_at_ms := orun_started_at_ms x; orun_completed_at_ms := orun_completed_at_ms x;
     orun_error_code := v |}.
Definition set_ox_state (v : string) (x : CapabilityOsExperiment) : CapabilityOsExperiment :=
  {| ox_experiment_id := ox_experiment_id x; ox_task_id := ox_task_id x; ox_change_class := ox_change_class x;
     ox_mode := ox_mode x; ox_hypothesis := ox_hypothesis x;
     ox_control_artifact_digest := ox_control_artifact_digest x;
     ox_candidate_artifact_digest := ox_candidate_artifact_digest x; ox_context := ox_context x;
     ox_min_runs_per_arm := ox_min_runs_per_arm x; ox_state := v; ox_created_at_ms := ox_created_at_ms x;
     ox_updated_at_ms := ox_updated_at_ms x |}.
Definition set_ox_updated_at_ms (v : Z) (x : CapabilityOsExperiment) : CapabilityOsExperiment :=
  {| ox_experiment_id := ox_experiment_id x; ox_task_id := ox_task_id x; ox_change_class := ox_change_class x;
     ox_mode := ox_mode x; ox_hypothesis := ox_hypothesis x;
     ox_control_artifact_digest := ox_control_artifact_digest x;
     ox_candidate_artifact_digest := ox_candidate_artifact_digest x; ox_context := ox_context x;
     ox_min_runs_per_arm := ox_min_runs_per_arm x; ox_state := ox_state x;
     ox_created_at_ms := ox_created_at_ms x; ox_updated_at_ms := v |}.
Definition empty_os : OsTables :=
  {| os_artifacts := ∅; os_lineage := []; os_decisions := []; os_evidence := [];
     os_observations := []; os_runs := ∅; os_steps := []; os_experiments := ∅; os_experiment_runs := [];
     os_promotions := []; os_retention := []; os_discovery := ∅ |}.

(** the tables of the factory, and those of the Capability OS *)
Abbreviation OsWorld := (World * OsTables)%type.

(** a session: if it raises, what it wrote is undone *)
Definition os_transaction {A} (m : M OsWorld A) : M OsWorld A :=
  fun w =>
    match m w with
    | (Err e, w') => (Err e, ({| db := db w.1; ticks := ticks w'.1; uids := uids w'.1 |}, w.2))
    | r => r
    end.
Definition os_query {A} (f : OsTables -> A) : M OsWorld A := gets (fun w => f w.2).
Definition os_write (f : OsTables -> OsTables) : M OsWorld unit := modify (fun w => (w.1, f w.2)).
Definition os_check (b : bool) (constraint : string) : M OsWorld unit :=
  if b then ret tt else raise (IntegrityError constraint).
(** a foreign key to a lease, which may be null *)
Definition known_lease (lid : option string) : M OsWorld bool :=
  gets (fun w => match lid with None => true | Some l => bool_decide (is_Some (db_leases (db w.1) !! l)) end).

Section Store.
Context `{Env}.

Definition os_new_id (prefix : string) : M OsWorld string := on_left (_new_id prefix).
Definition os_now : M OsWorld Z := on_left _now_ms.

(** ** Artifacts *)

(** [_created_at_ms]; a time that cannot be read is now *)
Definition _created_at_ms (value : string) : M OsWorld Z :=
  match iso_timestamp_ms (strip value) with
  | Some z => ret z
  | None => os_now
  end.
(** the operator that an artifact was derived with, [None] without one *)
Definition lineage_operator (spec : json) : result (option string) :=
  match spec with
  | JObj fields =>
      let? lineage := dict_or_empty (get "lineage" fields) in
      let operator := strip (str_or_empty (get "operator" lineage)) in
      Ok (if empty_str operator then None else Some operator)
  | _ => Ok None
  end.
Definition same_identity (r : CapabilityOsArtifact) (a : CptrArtifact) : bool :=
  str_eqb (oa_artifact_id r) (am_id (ca_metadata a)) && str_eqb (oa_version r) (am_version (ca_metadata a))
  && str_eqb (oa_kind r) (kind_value (ca_kind a)).
(** [persist_artifact] *)
Definition persist_artifact (a : CptrArtifact) : M OsWorld CapabilityOsArtifact :=
  let m := ca_metadata a in
  os_transaction (
    let* found := os_query (fun t => os_artifacts t !! am_content_digest m) in
    match found with
    | Some existing =>
        raise_if negb (same_identity existing a)
          as ValueError "artifact digest collision with different immutable identity" in
        ret existing
    | None =>
        let* created_at_ms := _created_at_ms (am_created_at m) in
        let* edge := (if has_key (am_parent m) then
          let* operator := lift (lineage_operator (ca_spec a)) in
          let* at_ := _created_at_ms (am_created_at m) in
          ret (Some (operator, at_)) else ret None) in
        let* row_id := os_new_id "cart" in
        let row := {|
          oa_id := row_id; oa_artifact_id := am_id m; oa_version := am_version m; oa_kind := kind_value (ca_kind a);
          oa_owner := owner_value (am_owner m); oa_user_id := am_user_id m; oa_origin := origin_value (am_origin m);
          oa_state := artifact_state_value (ca_state a); oa_parent_ref := am_parent m; oa_task_origin := am_task_origin m;
          oa_source_digest := am_source_digest m; oa_content_digest := am_content_digest m;
          oa_compatibility := ca_compatibility a; oa_spec := ca_spec a; oa_created_at := am_created_at m;
          oa_created_at_ms := created_at_ms; oa_retired_at_ms := None |} in
        let* t := os_query id in
        let* _ := os_check (negb (existsb (fun r => str_eqb (oa_id r) row_id) (rows_of (os_artifacts t))))
                    "capability_os_artifacts.id" in
        let* _ := os_write (fun t => set_os_artifacts (<[am_content_digest m := row]> (os_artifacts t)) t) in
        let* _ := match edge with
                  | None => ret tt
                  | Some (operator, at_) =>
                      let* edge_id := os_new_id "lineage" in
                      let new := {| ln_edge_id := edge_id; ln_child_digest := am_content_digest m;
                        ln_parent_ref := default "" (am_parent m); ln_relation := "derived-from";
                        ln_operator := operator; ln_created_at_ms := at_ |} in
                      let* _ := os_check (negb (existsb (fun e => str_eqb (ln_edge_id e) edge_id
                          || str_eqb (ln_child_digest e) (ln_child_digest new) && str_eqb (ln_parent_ref e) (ln_parent_ref new)
                             && str_eqb (ln_relation e) "derived-from") (os_lineage t))) "uq_capability_os_lineage_edge" in
                      os_write (fun t => set_os_lineage (os_lineage t ++ [new]) t)
                  end in
        ret row
    end).
(** the rows of a user, and with [include_global] those of nobody *)
Definition in_scope (user_id : option string) (include_global : bool) (r : CapabilityOsArtifact) : bool :=
  match user_id with
  | None => true
  | Some u => opt_eqb (oa_user_id r) (Some u) || include_global && opt_eqb (oa_user_id r) None
  end.
(** [list_artifacts] *)
Definition list_artifacts (task_id user_id : option string) (include_global : bool) (kinds states : list string)
    (limit : Z) : M OsWorld (list CapabilityOsArtifact) :=
  os_query (fun t => limit_rows (clamp 1 1000 limit)
    (order_by (fun a b => by_time_and_id oa_created_at_ms oa_id b a)
      (select (fun r => match task_id with None => true | Some i => opt_eqb (oa_task_origin r) (Some i) end
                        && in_scope user_id include_global r
                        && (is_nil kinds || is_in (oa_kind r) kinds) && (is_nil states || is_in (oa_state r) states))
              (rows_of (os_artifacts t))))).
(** [get_artifact] *)
Definition get_artifact (content_digest : string) (user_id : option string) (include_global : bool)
    : M OsWorld (option CapabilityOsArtifact) :=
  os_query (fun t => r ← os_artifacts t !! content_digest; if in_scope user_id include_global r then Some r else None).
(** [UPDATE ... WHERE p]: whether a row changed *)
Definition update_artifacts (p : CapabilityOsArtifact -> bool) (f : CapabilityOsArtifact -> CapabilityOsArtifact)
    : M OsWorld bool :=
  let* n := os_query (fun t => rowcount p (os_artifacts t)) in
  let* _ := os_write (fun t => set_os_artifacts (update_where p f (os_artifacts t)) t) in
  ret (negb (n =? 0)%Z).
Definition set_artifact_state (content_digest state : string) (retired_at_ms : option Z) : M OsWorld bool :=
  update_artifacts (fun r => str_eqb (oa_content_digest r) content_digest)
    (fun r => set_oa_retired_at_ms retired_at_ms (set_oa_state state r)).
Definition compare_and_set_artifact_state (content_digest expected_state state : string) : M OsWorld bool :=
  update_artifacts (fun r => str_eqb (oa_content_digest r) content_digest && str_eqb (oa_state r) expected_state)
    (set_oa_state state).
Definition artifact_exists (content_digest : string) : M OsWorld bool :=
  os_query (fun t => bool_decide (is_Some (os_artifacts t !! content_digest))).

(** ** Leases and decisions *)

Definition get_lease (lid : string) : M OsWorld (option CapabilityOsLease) :=
  gets (fun w => db_leases (db w.1) !! lid).
Definition list_active_leases (task_id : string) (now_ms : Z) : M OsWorld (list CapabilityOsLease) :=
  gets (fun w => order_by (by_time_and_id lease_issued_at_ms lease_id)
    (select (fun l => str_eqb (lease_task_id l) task_id && lease_active l && (now_ms <? lease_expires_at_ms l)%Z)
            (rows_of (db_leases (db w.1))))).
Definition get_mcp_mount (mid : string) : M OsWorld (option CapabilityOsMcpMount) :=
  gets (fun w => db_mounts (db w.1) !! mid).
Definition list_active_mounts (task_id : string) : M OsWorld (list CapabilityOsMcpMount) :=
  gets (fun w => order_by (by_time_and_id mount_created_at_ms mount_id)
    (select (fun m => str_eqb (mount_task_id m) task_id && mount_mounted m) (rows_of (db_mounts (db w.1))))).
Definition record_policy_decision (d : CapabilityOsPolicyDecision) : M OsWorld CapabilityOsPolicyDecision :=
  let* rows := os_query os_decisions in
  raise_if existsb (fun r => str_eqb (pd_decision_id r) (pd_decision_id d)) rows
    as IntegrityError "capability_os_policy_decisions.decision_id" in
  let* _ := on_right (modify (fun t => set_os_decisions (os_decisions t ++ [d]) t)) in
  ret d.

(** ** Runs *)

(** [create_run] *)
Definition create_run (task_id capability_digest : string) (lid : option string) (inputs : dict) (started_at_ms : Z)
    : M OsWorld CapabilityOsRun :=
  let* inputs_digest := lift (digest_payload (JObj inputs)) in
  let* rid := os_new_id "crun" in
  let row := {| orun_run_id := rid; orun_task_id := task_id; orun_capability_digest := capability_digest;
    orun_lease_id := lid; orun_status := "running"; orun_inputs_digest := Some inputs_digest;
    orun_started_at_ms := started_at_ms; orun_completed_at_ms := None; orun_error_code := None |} in
  let* t := os_query id in
  let* known := known_lease lid in
  let* _ := os_check (bool_decide (os_runs t !! rid = None)) "capability_os_runs.run_id" in
  let* _ := os_check known "FOREIGN KEY" in
  let* _ := os_write (fun t => set_os_runs (<[rid := row]> (os_runs t)) t) in
  ret row.
(** [complete_run]: a run is completed once *)
Definition complete_run (rid status : string) (completed_at_ms : Z) (error_code : option string) : M OsWorld bool :=
  let p := fun r => str_eqb (orun_run_id r) rid && str_eqb (orun_status r) "running" in
  let* n := os_query (fun t => rowcount p (os_runs t)) in
  let* _ := os_write (fun t => set_os_runs (update_where p (fun r =>
    set_orun_error_code error_code (set_orun_completed_at_ms (Some completed_at_ms) (set_orun_status status r)))
    (os_runs t)) t) in
  ret (negb (n =? 0)%Z).
(** [record_run_step] *)
Definition record_run_step (rid node_id status : string) (attempt : Z) (output : json) (error_code : option string)
    (started_at_ms : Z) (completed_at_ms : option Z) : M OsWorld CapabilityOsRunStep :=
  let* output_digest := (if bool_decide (output = JNull) then ret None
                         else let* d := lift (digest_payload output) in ret (Some d)) in
  let* sid := os_new_id "cstep" in
  let row := {| st_step_id := sid; st_run_id := rid; st_node_id := node_id; st_attempt := Z.max 1 attempt;
    st_status := status; st_output_digest := output_digest; st_error_code := error_code;
    st_started_at_ms := started_at_ms; st_completed_at_ms := completed_at_ms |} in
  let* t := os_query id in
  let* _ := os_check (negb (existsb (fun r => str_eqb (st_step_id r) sid
      || str_eqb (st_run_id r) rid && str_eqb (st_node_id r) node_id && (st_attempt r =? st_attempt row)%Z) (os_steps t)))
    "uq_capability_os_run_step_attempt" in
  let* _ := os_check (bool_decide (is_Some (os_runs t !! rid))) "FOREIGN KEY" in
  let* _ := os_write (fun t => set_os_steps (os_steps t ++ [row]) t) in
  ret row.

(** ** Experiments and promotions *)

(** [create_experiment_projection] *)
Definition create_experiment_projection (x : CapabilityOsExperiment) : M OsWorld CapabilityOsExperiment :=
  let row := set_ox_updated_at_ms (ox_created_at_ms x) (set_ox_state "active" x) in
  let* t := os_query id in
  let* _ := os_check (bool_decide (os_experiments t !! ox_experiment_id x = None)) "capability_os_experiments.experiment_id" in
  let* _ := os_write (fun t => set_os_experiments (<[ox_experiment_id x := row]> (os_experiments t)) t) in
  ret row.
(** [add_experiment_run_projection]; the cost is a float, as a text *)
Definition add_experiment_run_projection (experiment_id arm source_evidence_id source_evidence_digest : string)
    (success regression : bool) (safety_events : Z) (cost : string) (created_at_ms : Z)
    : M OsWorld CapabilityOsExperimentRun :=
  let* rid := os_new_id "exprun" in
  let row := {| oxr_experiment_run_id := rid; oxr_experiment_id := experiment_id; oxr_arm := arm;
    oxr_source_evidence_id := source_evidence_id; oxr_source_evidence_digest := source_evidence_digest;
    oxr_success := int_of_bool success; oxr_regression := int_of_bool regression; oxr_safety_events := safety_events;
    oxr_cost := float_repr cost; oxr_created_at_ms := created_at_ms |} in
  let* t := os_query id in
  let* _ := os_check (negb (existsb (fun r => str_eqb (oxr_experiment_run_id r) rid
      || str_eqb (oxr_experiment_id r) experiment_id && str_eqb (oxr_source_evidence_id r) source_evidence_id)
      (os_experiment_runs t))) "uq_capability_os_experiment_source" in
  let* _ := os_check (bool_decide (is_Some (os_experiments t !! experiment_id))) "FOREIGN KEY" in
  let* _ := os_write (fun t => set_os_experiment_runs (os_experiment_runs t ++ [row]) t) in
  ret row.
Definition set_experiment_state (experiment_id state : string) (updated_at_ms : Z) : M OsWorld bool :=
  let p := fun x => str_eqb (ox_experiment_id x) experiment_id in
  let* n := os_query (fun t => rowcount p (os_experiments t)) in
  let* _ := os_write (fun t => set_os_experiments (update_where p (fun x =>
    set_ox_updated_at_ms updated_at_ms (set_ox_state state x)) (os_experiments t)) t) in
  ret (negb (n =? 0)%Z).
(** [record_promotion_projection] *)
Definition record_promotion_projection (experiment_id candidate decision from_state target_state evaluation intent
    promotion : string) (owner_approval_verified : bool) (created_at_ms : Z) : M OsWorld CapabilityOsPromotion :=
  let* pid := os_new_id "promotion" in
  let row := {| op_promotion_id := pid; op_experiment_id := experiment_id; op_candidate_artifact_digest := candidate;
    op_decision := decision; op_from_state := from_state; op_target_state := target_state;
    op_evaluation_evidence_id := evaluation; op_intent_evidence_id := intent; op_promotion_evidence_id := promotion;
    op_owner_approval_verified := int_of_bool owner_approval_verified; op_created_at_ms := created_at_ms |} in
  let* t := os_query id in
  let* _ := os_check (negb (existsb (fun r => str_eqb (op_promotion_id r) pid
      || str_eqb (op_promotion_evidence_id r) promotion) (os_promotions t))) "uq_capability_os_promotion_evidence" in
  let* _ := os_check (bool_decide (is_Some (os_experiments t !! experiment_id))) "FOREIGN KEY" in
  let* _ := os_write (fun t => set_os_promotions (os_promotions t ++ [row]) t) in
  ret row.

(** ** Servers and retention *)

(** [upsert_mcp_discovery_entry] *)
Definition upsert_mcp_discovery_entry (e : CapabilityOsMcpDiscoveryEntry) : M OsWorld CapabilityOsMcpDiscoveryEntry :=
  let* _ := os_write (fun t => set_os_discovery (<[de_entry_id e := e]> (os_discovery t)) t) in
  ret e.
(** the texts of the effects of an entry, of which there may be none *)
Definition entry_effects (e : CapabilityOsMcpDiscoveryEntry) : result (list string) :=
  let? items := iter_or_empty (de_effects e) in Ok (map py_str items).
(** the first [bounded] entries that have every required effect and no forbidden one *)
Fixpoint match_entries (required forbidden : list string) (bounded : nat) (rows : list CapabilityOsMcpDiscoveryEntry)
    : result (list CapabilityOsMcpDiscoveryEntry) :=
  match bounded, rows with
  | S bounded, e :: rows =>
      let? effects := entry_effects e in
      if forallb (fun r => is_in r effects) required && negb (existsb (fun f => is_in f effects) forbidden) then
        let? rest := match_entries required forbidden bounded rows in Ok (e :: rest)
      else match_entries required forbidden (S bounded) rows
  | _, _ => Ok []
  end.
(** newer entries first, then by identifier *)
Definition discovery_order (a b : CapabilityOsMcpDiscoveryEntry) : bool :=
  (de_refreshed_at_ms b <? de_refreshed_at_ms a)%Z
  || (de_refreshed_at_ms b =? de_refreshed_at_ms a)%Z && String.leb (de_entry_id a) (de_entry_id b).
(** [query_mcp_discovery_entries] *)
Definition query_mcp_discovery_entries (required forbidden : list string) (limit : Z)
    : M OsWorld (list CapabilityOsMcpDiscoveryEntry) :=
  let* rows := os_query (fun t => limit_rows 1000 (order_by discovery_order (rows_of (os_discovery t)))) in
  lift (match_entries required forbidden (Z.to_nat (clamp 1 100 limit)) rows).
(** [schedule_retention_job] *)
Definition schedule_retention_job (policy : dict) (scheduled_at_ms : Z) (task_id artifact_digest : option string)
    : M OsWorld CapabilityOsRetentionJob :=
  raise_if negb (has_key task_id) && negb (has_key artifact_digest)
    as ValueError "retention job requires task_id or artifact_digest" in
  let* jid := os_new_id "retention" in
  let row := {| rj_retention_job_id := jid; rj_task_id := task_id; rj_artifact_digest := artifact_digest;
    rj_policy := JObj policy; rj_status := "pending"; rj_scheduled_at_ms := scheduled_at_ms;
    rj_started_at_ms := None; rj_completed_at_ms := None; rj_error_code := None |} in
  let* t := os_query id in
  let* _ := os_check (negb (existsb (fun r => str_eqb (rj_retention_job_id r) jid) (os_retention t)))
              "capability_os_retention_jobs.retention_job_id" in
  let* _ := os_write (fun t => set_os_retention (os_retention t ++ [row]) t) in
  ret row.

(** [operator_snapshot]: counts of the rows of a task, or of all *)
Definition count_rows {A} (p : A -> bool) (rows : list A) : json := JInt (len_list (select p rows)).
Definition operator_snapshot (task_id : option string) : M OsWorld dict :=
  let of_task (i : string) := match task_id with Some ((String _ _) as t) => str_eqb i t | _ => true end in
  os_query (fun t =>
    [("runs", count_rows (fun r => of_task (orun_task_id r)) (rows_of (os_runs t)));
     ("activeRuns", count_rows (fun r => of_task (orun_task_id r) && str_eqb (orun_status r) "running") (rows_of (os_runs t)));
     ("experiments", count_rows (fun e => of_task (ox_task_id e)) (rows_of (os_experiments t)));
     ("activeExperiments",
       count_rows (fun e => of_task (ox_task_id e) && str_eqb (ox_state e) "active") (rows_of (os_experiments t)));
     ("policyDecisions", count_rows (fun d => of_task (pd_task_id d)) (os_decisions t));
     ("observations", count_rows (fun o => of_task (ob_task_id o)) (os_observations t));
     ("lineageEdges", count_rows (fun _ => true) (os_lineage t));
     ("promotions", count_rows (fun _ => true) (os_promotions t));
     ("retentionPending", count_rows (fun j => str_eqb (rj_status j) "pending") (os_retention t))]).

(** ** Evidence *)

(** what a row of evidence says; its place in the chain is the store's *)
Record EvidenceClaim := {
  ev_task_id : string;
  ev_kind : string;
  ev_producer_identity : string;
  ev_claims : dict;
  ev_run_id : option string;
  ev_blob_uri : option string;
  ev_artifact_digest : option string;
  ev_lease_id : option string;
}.
(** what the digest of a row is taken of *)
Definition evidence_payload (task_id : string) (sequence : Z) (previous_digest run_id : option string)
    (kind producer_identity : string) (claims : dict) (blob_uri artifact_digest lid : option string)
    (created_at_ms : Z) : json :=
  JObj [("task_id", JStr task_id); ("sequence", JInt sequence); ("previous_digest", opt_str previous_digest);
    ("run_id", opt_str run_id); ("kind", JStr kind); ("producer_identity", JStr producer_identity);
    ("claims", JObj claims); ("blob_uri", opt_str blob_uri); ("artifact_digest", opt_str artifact_digest);
    ("lease_id", opt_str lid); ("created_at_ms", JInt created_at_ms)].
(** the rows of a task: in order, and the last one first *)
Definition chain_order : CapabilityOsEvidence -> CapabilityOsEvidence -> bool := by_time_and_id oe_sequence oe_evidence_id.
Definition evidence_of (task_id : string) (t : OsTables) : list CapabilityOsEvidence :=
  select (fun e => str_eqb (oe_task_id e) task_id) (os_evidence t).
Definition chain_head (task_id : string) (t : OsTables) : option CapabilityOsEvidence :=
  head (order_by (fun a b => chain_order b a) (evidence_of task_id t)).
Definition is_object (v : json) : bool := match v with JObj _ => true | _ => false end.
(** the observation of a row about evolution, if it is one *)
Definition observed_metrics (c : EvidenceClaim) : result (option dict) :=
  let outcome := get "evolutionOutcome" (ev_claims c) in
  if startswith "evolution." (ev_kind c) || is_object outcome then
    let? metrics := (if truthy outcome then py_dict outcome else Ok (ev_claims c)) in Ok (Some metrics)
  else Ok None.
(** one attempt to append a row *)
Definition append_once (c : EvidenceClaim) (timestamp : Z) : M OsWorld CapabilityOsEvidence :=
  os_transaction (
    let* previous := os_query (chain_head (ev_task_id c)) in
    let sequence := match previous with Some p => oe_sequence p + 1 | None => 1 end%Z in
    let previous_digest := oe_digest <$> previous in
    let* digest := lift (digest_payload (evidence_payload (ev_task_id c) sequence previous_digest (ev_run_id c)
      (ev_kind c) (ev_producer_identity c) (ev_claims c) (ev_blob_uri c) (ev_artifact_digest c) (ev_lease_id c) timestamp)) in
    let* eid := os_new_id "cevidence" in
    let row := {| oe_evidence_id := eid; oe_task_id := ev_task_id c; oe_run_id := ev_run_id c; oe_kind := ev_kind c;
      oe_producer_identity := ev_producer_identity c; oe_claims := JObj (ev_claims c); oe_blob_uri := ev_blob_uri c;
      oe_sequence := sequence; oe_previous_digest := previous_digest; oe_digest := digest;
      oe_artifact_digest := ev_artifact_digest c; oe_lease_id := ev_lease_id c; oe_created_at_ms := timestamp |} in
    let* t := os_query id in
    let* known := known_lease (ev_lease_id c) in
    let* _ := os_check (negb (existsb (fun e => str_eqb (oe_evidence_id e) eid
        || str_eqb (oe_task_id e) (ev_task_id c) && (oe_sequence e =? sequence)%Z) (os_evidence t)))
      "uq_capability_os_evidence_task_sequence" in
    let* _ := os_check known "FOREIGN KEY" in
    let* _ := os_write (fun t => set_os_evidence (os_evidence t ++ [row]) t) in
    let* metrics := lift (observed_metrics c) in
    let* _ := match metrics with
              | None => ret tt
              | Some m =>
                  let* oid := os_new_id "observation" in
                  let new := {| ob_observation_id := oid; ob_task_id := ev_task_id c; ob_run_id := ev_run_id c;
                    ob_kind := ev_kind c; ob_artifact_digest := ev_artifact_digest c; ob_evidence_id := Some eid;
                    ob_metrics := JObj m; ob_created_at_ms := timestamp |} in
                  let* _ := os_check (negb (existsb (fun r => str_eqb (ob_observation_id r) oid
                      || opt_eqb (ob_evidence_id r) (Some eid)) (os_observations t))) "uq_capability_os_observation_evidence" in
                  os_write (fun t => set_os_observations (os_observations t ++ [new]) t)
              end in
    ret row).
Definition is_integrity_error (e : exn) : bool := match e with IntegrityError _ => true | _ => false end.
(** [append_evidence]: a race for the head of the chain is tried again, three times in all *)
Fixpoint append_attempts (attempts : nat) (c : EvidenceClaim) (timestamp : Z) : M OsWorld CapabilityOsEvidence :=
  match attempts with
  | O => raise (RuntimeError "evidence append could not serialize task chain head")
  | S attempts => catch (append_once c timestamp) is_integrity_error (fun _ => append_attempts attempts c timestamp)
  end.
Definition append_evidence (c : EvidenceClaim) (created_at_ms : option Z) : M OsWorld CapabilityOsEvidence :=
  let* timestamp := match created_at_ms with Some z => ret z | None => os_now end in
  append_attempts 3 c timestamp.

(** *** Reading it *)

Definition get_evidence (eid : string) : M OsWorld (option CapabilityOsEvidence) :=
  os_query (fun t => head (select (fun e => str_eqb (oe_evidence_id e) eid) (os_evidence t))).
(** [list_evidence_for_artifacts] *)
Definition list_evidence_for_artifacts (artifact_digests kinds : list string) (producer_identity : option string)
    (limit : Z) : M OsWorld (list CapabilityOsEvidence) :=
  let digests := _dedupe (List.filter (fun d => negb (empty_str d)) (map strip artifact_digests)) in
  if is_nil digests then ret []
  else
    raise_if (1000 <? len_list digests)%Z as ValueError "artifact evidence query exceeds digest bound" in
    os_query (fun t => limit_rows (clamp 1 10000 limit) (order_by (by_time_and_id oe_created_at_ms oe_evidence_id)
      (select (fun e => match oe_artifact_digest e with Some d => is_in d digests | None => false end
                        && (is_nil kinds || is_in (oe_kind e) kinds)
                        && match producer_identity with None => true | Some p => str_eqb (oe_producer_identity e) p end)
              (os_evidence t)))).
Definition list_evidence (task_id : string) (limit : Z) : M OsWorld (list CapabilityOsEvidence) :=
  os_query (fun t => limit_rows (clamp 1 500 limit) (order_by chain_order (evidence_of task_id t))).
Definition list_evidence_for_run (task_id rid : string) (limit : Z) : M OsWorld (list CapabilityOsEvidence) :=
  raise_if blank task_id || blank rid as ValueError "task_id and run_id must not be blank" in
  os_query (fun t => limit_rows (clamp 1 2500 limit) (order_by chain_order
    (select (fun e => opt_eqb (oe_run_id e) (Some (strip rid))) (evidence_of (strip task_id) t)))).
Definition list_artifact_evidence (artifact_digest : string) (limit : Z) : M OsWorld (list CapabilityOsEvidence) :=
  raise_if blank artifact_digest as ValueError "artifact_digest must not be blank" in
  os_query (fun t => limit_rows (clamp 1 1000 limit)
    (order_by (fun a b => by_time_and_id oe_created_at_ms oe_evidence_id b a)
      (select (fun e => opt_eqb (oe_artifact_digest e) (Some (strip artifact_digest))) (os_evidence t)))).

(** *** Checking it *)

Record ChainReport := {
  chain_valid : bool;
  chain_count : Z;
  chain_head_digest : option string;
  chain_error : option string;
  chain_error_sequence : option Z;
}.
(** the digest a row ought to have *)
Definition row_digest (e : CapabilityOsEvidence) : result string :=
  let? claims := dict_or_empty (oe_claims e) in
  digest_payload (evidence_payload (oe_task_id e) (oe_sequence e) (oe_previous_digest e) (oe_run_id e) (oe_kind e)
    (oe_producer_identity e) claims (oe_blob_uri e) (oe_artifact_digest e) (oe_lease_id e) (oe_created_at_ms e)).
(** [verify_evidence_chain], from a row on *)
Fixpoint verify_rows (count : Z) (rows : list CapabilityOsEvidence) (previous_digest : option string)
    (expected_sequence : Z) : result ChainReport :=
  let broken := fun error => {| chain_valid := false; chain_count := count; chain_head_digest := previous_digest;
    chain_error := Some error; chain_error_sequence := Some expected_sequence |} in
  match rows with
  | [] => Ok {| chain_valid := true; chain_count := count; chain_head_digest := previous_digest;
                chain_error := None; chain_error_sequence := None |}
  | row :: rows =>
      if negb (oe_sequence row =? expected_sequence)%Z then Ok (broken "sequence-gap")
      else if negb (opt_eqb (oe_previous_digest row) previous_digest) then Ok (broken "previous-digest-mismatch")
      else
        let? expected_digest := row_digest row in
        if negb (str_eqb expected_digest (oe_digest row)) then Ok (broken "digest-mismatch")
        else verify_rows count rows (Some (oe_digest row)) (expected_sequence + 1)
  end.
Definition verify_evidence_chain (task_id : string) : M OsWorld ChainReport :=
  let* rows := os_query (fun t => order_by chain_order (evidence_of task_id t)) in
  lift (verify_rows (len_list rows) rows None 1).

(** ** The boundary of evidence: [evidence.py] *)

Definition violation {W A} (message : string) : M W A := raise (EvidenceViolation message).
(** what the lease of some evidence must be *)
Definition check_evidence_lease (c : EvidenceClaim) (now_ms : Z) (lease : option CapabilityOsLease) : M OsWorld unit :=
  match lease with
  | None => violation "evidence references an unknown lease"
  | Some lease =>
      if negb (lease_active lease) || (lease_expires_at_ms lease <=? now_ms)%Z then
        violation "evidence references an inactive lease"
      else if negb (str_eqb (lease_task_id lease) (ev_task_id c)) then
        violation "evidence lease belongs to a different task"
      else if match ev_artifact_digest c with
              | Some d => negb (str_eqb (lease_artifact_digest lease) d) | None => false end then
        violation "evidence artifact does not match lease subject"
      else ret tt
  end.
(** the claims as they are kept: an object stays one *)
Definition redact_claims (claims : dict) : dict :=
  match redact_sensitive (JObj claims) with JObj fields => fields | _ => [] end.
(** [EvidenceService.record] *)
Definition record (c : EvidenceClaim) : M OsWorld CapabilityOsEvidence :=
  if blank (ev_task_id c) || blank (ev_kind c) || blank (ev_producer_identity c) then
    violation "evidence task, kind, and producer must not be blank"
  else
    let* now_ms := os_now in
    let* unknown := match ev_artifact_digest c with
                    | None => ret false
                    | Some d => let* known := artifact_exists d in ret (negb known)
                    end in
    if unknown then violation "evidence references an unknown artifact"
    else
      let* _ := match ev_lease_id c with
                | None => ret tt
                | Some l => let* lease := get_lease l in check_evidence_lease c now_ms lease
                end in
      append_evidence {| ev_task_id := ev_task_id c; ev_kind := ev_kind c;
        ev_producer_identity := ev_producer_identity c; ev_claims := redact_claims (ev_claims c);
        ev_run_id := ev_run_id c; ev_blob_uri := ev_blob_uri c; ev_artifact_digest := ev_artifact_digest c;
        ev_lease_id := ev_lease_id c |} (Some now_ms).
(** [EvidenceService.verify_chain] *)
Definition verify_chain (task_id : string) : M OsWorld ChainReport :=
  if blank task_id then violation "evidence task must not be blank" else verify_evidence_chain task_id.
End Store.
