(* ===== verification/CapabilityStoreSpec.v ===== *)
(** * Properties of the store of the Capability OS

    The evidence of a task is a chain: what is appended extends it and nothing else is
    touched; a chain that verifies is determined by its head, up to a collision of the
    digest; evidence is recorded only under a lease that is alive and about it.  An
    artifact never changes but for its state, and a run ends once. *)

From S2P Require Import Prelude PyStr Json Redaction FactoryDomain FactoryGates Database CapabilityLifecycle.
From S2P Require Import FactoryStore FactoryStoreQueries FactoryCi FactoryPhases FactoryGit FactoryCapabilities.
From S2P Require Import JsonText CapabilityContracts CapabilityContractsSpec CapabilityStore.

(** ** Orders *)

Section Orders.
Context {A} (time : A -> Z) (key : A -> string).
Let le (a b : A) := Is_true (by_time_and_id time key a b).
#[export] Instance by_time_total : Total le.
Proof.
  intros a b. unfold le, by_time_and_id. rewrite !Is_true_true, !orb_true_iff, !andb_true_iff, !Z.ltb_lt, !Z.eqb_eq.
  pose proof (leb_total (key a) (key b)). destruct (Z.lt_trichotomy (time a) (time b)) as [|[|]]; intuition congruence.
Qed.
#[export] Instance by_time_trans : Transitive le.
Proof.
  intros a b c. unfold le, by_time_and_id. rewrite !Is_true_true, !orb_true_iff, !andb_true_iff, !Z.ltb_lt, !Z.eqb_eq.
  pose proof (leb_trans (key a) (key b) (key c)). intros [Hab|[Hab Ka]] [Hbc|[Hbc Kb]]; [left; lia..|right; split; [lia|auto]].
Qed.
#[export] Instance by_time_total_desc : Total (fun a b => le b a).
Proof. intros a b. destruct (by_time_total b a); [by left|by right]. Qed.
#[export] Instance by_time_trans_desc : Transitive (fun a b => le b a).
Proof. intros a b c Hab Hbc. by apply (by_time_trans c b a). Qed.
(** rows with growing times are in order *)
Lemma growing_sorted l : StronglySorted (fun a b => time a < time b)%Z l -> StronglySorted le l.
Proof.
  induction 1 as [|x l Hl IH Hx]; constructor; [done|]. apply (Forall_impl _ _ _ Hx). intros y Hy.
  unfold le, by_time_and_id. apply Is_true_true, orb_true_iff. left. by apply Z.ltb_lt.
Qed.
Lemma growing_unique l x y : StronglySorted (fun a b => time a < time b)%Z l -> x ∈ l -> y ∈ l -> time x = time y -> x = y.
Proof.
  induction 1 as [|z l Hl IH Hz]; [by intros ?%elem_of_nil|]. rewrite Forall_forall in Hz.
  intros [->|Hx]%elem_of_cons [->|Hy]%elem_of_cons; [done| | |by apply IH]; intros E;
    [specialize (Hz y Hy)|specialize (Hz x Hx)]; lia.
Qed.
Lemma le_antisym_growing l x y :
  StronglySorted (fun a b => time a < time b)%Z l -> x ∈ l -> y ∈ l -> le x y -> le y x -> x = y.
Proof.
  intros Hl Hx Hy. unfold le, by_time_and_id. rewrite !Is_true_true, !orb_true_iff, !andb_true_iff, !Z.ltb_lt, !Z.eqb_eq.
  intros Hxy Hyx. apply (growing_unique l); [done|done|done|lia].
Qed.
Lemma order_growing l l' :
  l' ≡ₚ l -> StronglySorted (fun a b => time a < time b)%Z l' -> order_by (by_time_and_id time key) l = l'.
Proof.
  intros Hp Hs. unfold order_by. eapply StronglySorted_unique_strong;
    [|apply StronglySorted_merge_sort; apply _|by apply growing_sorted|by rewrite merge_sort_Permutation, Hp].
  intros x y Hx Hy. rewrite merge_sort_Permutation, <- Hp in Hx. by apply (le_antisym_growing l').
Qed.
Lemma sorted_reverse_le l : StronglySorted le l -> StronglySorted (fun a b => le b a) (reverse l).
Proof.
  induction 1 as [|x l Hl IH Hx]; [constructor|]. rewrite reverse_cons. apply StronglySorted_app_2; [|exact IH|by repeat constructor].
  intros y z Hy Hz. apply list_elem_of_singleton in Hz as ->. rewrite Forall_forall in Hx. apply Hx. by rewrite elem_of_reverse in Hy.
Qed.
(** and the other way round *)
Lemma order_growing_desc l l' :
  l' ≡ₚ l -> StronglySorted (fun a b => time a < time b)%Z l' ->
  order_by (fun a b => by_time_and_id time key b a) l = reverse l'.
Proof.
  intros Hp Hs. unfold order_by. eapply StronglySorted_unique_strong;
    [|apply StronglySorted_merge_sort; apply _|apply sorted_reverse_le; by apply growing_sorted
     |by rewrite merge_sort_Permutation, reverse_Permutation, Hp].
  intros x y Hx Hy. rewrite merge_sort_Permutation, <- Hp in Hx. rewrite elem_of_reverse in Hy.
  intros H1 H2. by apply (le_antisym_growing l' x y Hs Hx Hy).
Qed.
End Orders.

(** ** The chain *)

Section Chain.
Context `{Env}.

(** [rows] continue a chain whose last digest is [prev], from the sequence number [n] on *)
Inductive chain : option string -> Z -> list CapabilityOsEvidence -> Prop :=
  | chain_nil prev n : chain prev n []
  | chain_cons prev n row rows :
      oe_sequence row = n -> oe_previous_digest row = prev -> row_digest row = Ok (oe_digest row) ->
      chain (Some (oe_digest row)) (n + 1) rows -> chain prev n (row :: rows).
Definition head_digest (prev : option string) (rows : list CapabilityOsEvidence) : option string :=
  match last rows with Some r => Some (oe_digest r) | None => prev end.
Definition valid_report (count : Z) (digest : option string) : ChainReport :=
  {| chain_valid := true; chain_count := count; chain_head_digest := digest; chain_error := None;
     chain_error_sequence := None |}.

Lemma head_digest_cons prev r rows : head_digest (Some (oe_digest r)) rows = head_digest prev (r :: rows).
Proof. unfold head_digest. rewrite last_cons. by destruct (last rows). Qed.
Lemma head_digest_snoc prev rows r : head_digest prev (rows ++ [r]) = Some (oe_digest r).
Proof. unfold head_digest. by rewrite last_snoc. Qed.
Lemma chain_verifies count rows prev n :
  chain prev n rows -> verify_rows count rows prev n = Ok (valid_report count (head_digest prev rows)).
Proof.
  induction 1 as [|prev n row rows Hs Hp Hd _ IH]; [done|]. cbn [verify_rows].
  rewrite Hs, Z.eqb_refl, Hp, (proj2 (opt_eqb_true prev prev) eq_refl), Hd. cbn [negb rbind].
  rewrite (proj2 (str_eqb_true _ _) eq_refl). cbn [negb]. by rewrite IH, (head_digest_cons prev).
Qed.
Lemma verifies_chain count rows prev n rep :
  verify_rows count rows prev n = Ok rep -> chain_valid rep = true -> chain prev n rows.
Proof.
  revert prev n. induction rows as [|row rows IH]; intros prev n; [constructor|]. cbn [verify_rows].
  destruct (oe_sequence row =? n)%Z eqn:Es; cbn [negb]; [|by intros [= <-]]. apply Z.eqb_eq in Es.
  destruct (opt_eqb _ _) eqn:Ep; cbn [negb]; [|by intros [= <-]]. apply opt_eqb_true in Ep.
  intros (d & Hd & Hrest)%rbind_Ok. destruct (str_eqb d _) eqn:Ed; cbn [negb] in Hrest; [|by injection Hrest as <-].
  apply str_eqb_true in Ed as ->. intros Hv. constructor; [done|done|done|]. by apply IH.
Qed.
Lemma chain_app prev n rows rows' :
  chain prev n rows -> chain (head_digest prev rows) (n + Z.of_nat (length rows)) rows' -> chain prev n (rows ++ rows').
Proof.
  induction 1 as [prev n|prev n row rows Hs Hp Hd _ IH]; cbn [app length]; intros Hc.
  - by rewrite Z.add_0_r in Hc.
  - constructor; [done|done|done|]. apply IH. rewrite (head_digest_cons prev).
    by replace (n + 1 + Z.of_nat (length rows))%Z with (n + Z.of_nat (S (length rows)))%Z by lia.
Qed.
Lemma chain_above prev n rows : chain prev n rows -> Forall (fun r => n <= oe_sequence r < n + Z.of_nat (length rows))%Z rows.
Proof.
  induction 1 as [|prev n row rows Hs Hp Hd _ IH]; constructor; cbn [length]; [lia|].
  apply (Forall_impl _ _ _ IH). intros r Hr. lia.
Qed.
Lemma chain_growing prev n rows : chain prev n rows -> StronglySorted (fun a b => oe_sequence a < oe_sequence b)%Z rows.
Proof.
  induction 1 as [|prev n row rows Hs Hp Hd Hc IH]; constructor; [done|].
  apply (Forall_impl _ _ _ (chain_above _ _ _ Hc)). lia.
Qed.
Lemma chain_last prev n rows r : chain prev n rows -> last rows = Some r -> oe_sequence r = (n + Z.of_nat (length rows) - 1)%Z.
Proof.
  induction 1 as [|prev n row rows Hs Hp Hd Hc IH]; [done|]. rewrite last_cons. destruct (last rows) as [x|] eqn:E.
  - intros [= ->]. rewrite IH by done. cbn [length]. lia.
  - intros [= <-]. apply last_None in E as ->. cbn [length]. lia.
Qed.

(** the rows of a task, in the order of the chain *)
Definition task_chain (task : string) (t : OsTables) : list CapabilityOsEvidence := order_by chain_order (evidence_of task t).
(** the task has a chain that verifies *)
Definition chained (task : string) (t : OsTables) : Prop := chain None 1 (task_chain task t).

Lemma task_chain_perm task t : task_chain task t ≡ₚ evidence_of task t.
Proof. unfold task_chain, order_by. apply merge_sort_Permutation. Qed.
Lemma verify_chain_valid task w rep :
  verify_evidence_chain task w = (Ok rep, w) -> chain_valid rep = true ->
  chained task w.2 /\ rep = valid_report (len_list (task_chain task w.2)) (head_digest None (task_chain task w.2)).
Proof.
  unfold verify_evidence_chain, os_query, bind, gets, lift. fold (task_chain task w.2). intros [= Hv] Hval.
  pose proof (verifies_chain _ _ _ _ _ Hv Hval) as Hc. split; [exact Hc|].
  rewrite (chain_verifies _ _ _ _ Hc) in Hv. by injection Hv as <-.
Qed.
Lemma chained_verifies task w :
  chained task w.2 ->
  verify_evidence_chain task w
  = (Ok (valid_report (len_list (task_chain task w.2)) (head_digest None (task_chain task w.2))), w).
Proof.
  intros Hc. unfold verify_evidence_chain, os_query, bind, gets, lift. fold (task_chain task w.2).
  by rewrite (chain_verifies _ _ _ _ Hc).
Qed.
Lemma chained_head task t : chained task t -> chain_head task t = last (task_chain task t).
Proof.
  intros Hc. unfold chain_head, chain_order.
  rewrite (order_growing_desc oe_sequence oe_evidence_id (evidence_of task t) (task_chain task t));
    [by rewrite head_reverse|apply task_chain_perm|by eapply chain_growing].
Qed.

(** *** Appending *)

Lemma dict_or_empty_obj d : dict_or_empty (JObj d) = Ok d.
Proof. by destruct d. Qed.

Lemma os_transaction_Ok {A} (m : M OsWorld A) w a w' : os_transaction m w = (Ok a, w') <-> m w = (Ok a, w').
Proof. unfold os_transaction. destruct (m w) as [[]]; naive_solver. Qed.
Lemma os_check_Ok b c w x w' : os_check b c w = (Ok x, w') -> b = true /\ w' = w.
Proof. unfold os_check. destruct b; [|done]. by intros [= _ <-]. Qed.

(** what appending [row] makes of the tables: the row, and for a claim about evolution
    the one observation of that row, at their ends; every other table is as it was *)
Definition appended (c : EvidenceClaim) (row : CapabilityOsEvidence) (t t' : OsTables) : Prop :=
  match observed_metrics c with
  | Err _ => False
  | Ok None => t' = set_os_evidence (os_evidence t ++ [row]) t
  | Ok (Some m) => exists oid, oid ∉ map ob_observation_id (os_observations t) /\
      t' = set_os_observations (os_observations t ++ [{| ob_observation_id := oid; ob_task_id := ev_task_id c;
             ob_run_id := ev_run_id c; ob_kind := ev_kind c; ob_artifact_digest := ev_artifact_digest c;
             ob_evidence_id := Some (oe_evidence_id row); ob_metrics := JObj m; ob_created_at_ms := oe_created_at_ms row |}])
           (set_os_evidence (os_evidence t ++ [row]) t)
  end.
Lemma appended_rows c row t t' : appended c row t t' -> os_evidence t' = os_evidence t ++ [row].
Proof. unfold appended. destruct (observed_metrics c) as [[m|]|]; [intros (oid & _ & ->)|intros ->|]; done. Qed.
(** the row that was appended *)
Record extended (c : EvidenceClaim) (timestamp : Z) (w w' : OsWorld) (row : CapabilityOsEvidence) : Prop := {
  ap_task : oe_task_id row = ev_task_id c;
  ap_sequence : oe_sequence row = match chain_head (ev_task_id c) w.2 with Some p => oe_sequence p + 1 | None => 1 end%Z;
  ap_previous : oe_previous_digest row = oe_digest <$> chain_head (ev_task_id c) w.2;
  ap_digest : row_digest row = Ok (oe_digest row);
  ap_claims : oe_claims row = JObj (ev_claims c) /\ oe_kind row = ev_kind c /\ oe_run_id row = ev_run_id c /\
    oe_producer_identity row = ev_producer_identity c /\ oe_artifact_digest row = ev_artifact_digest c /\
    oe_lease_id row = ev_lease_id c /\ oe_blob_uri row = ev_blob_uri c /\ oe_created_at_ms row = timestamp;
  ap_tables : appended c row w.2 w'.2;
  ap_db : db w'.1 = db w.1;
}.
Lemma append_once_Ok c timestamp w row w' : append_once c timestamp w = (Ok row, w') -> extended c timestamp w w' row.
Proof.
  unfold append_once. rewrite os_transaction_Ok. intros Ha. apply bind_Ok in Ha as (previous & w1 & [= <- <-] & Ha). cbv zeta in Ha.
  apply bind_Ok in Ha as (digest & w1 & [Hd ->]%lift_Ok & (eid & w2 & Hid & (t & w3 & [= <- <-] & Ha)%bind_Ok)%bind_Ok).
  apply bind_Ok in Ha as (known & w4 & [= <- <-] & (x & w5 & [_ ->]%os_check_Ok & (y & w6 & [_ ->]%os_check_Ok & Ha)%bind_Ok)%bind_Ok).
  apply bind_Ok in Ha as (z & w7 & Hw7 & (metrics & w8 & [Hm ->]%lift_Ok & (u & w9 & Hobs & [-> ->]%ret_Ok)%bind_Ok)%bind_Ok).
  apply on_left_Ok in Hid as [[= Hid1 Hid2] E2].
  injection Hw7 as _ <-.
  rewrite E2 in Hobs. cbn [snd fst] in Hobs.
  assert (db w9.1 = db w2.1 /\ forall row, row = {| oe_evidence_id := eid; oe_task_id := ev_task_id c; oe_run_id := ev_run_id c;
      oe_kind := ev_kind c; oe_producer_identity := ev_producer_identity c; oe_claims := JObj (ev_claims c);
      oe_blob_uri := ev_blob_uri c; oe_sequence := match chain_head (ev_task_id c) w.2 with Some p => oe_sequence p + 1 | None => 1 end%Z;
      oe_previous_digest := oe_digest <$> chain_head (ev_task_id c) w.2; oe_digest := digest;
      oe_artifact_digest := ev_artifact_digest c; oe_lease_id := ev_lease_id c; oe_created_at_ms := timestamp |} ->
      appended c row w.2 w9.2) as (Hdb & Ht).
  { unfold appended. rewrite Hm. destruct metrics as [m|]; [|injection Hobs as _ <-; split; [done|by intros row ->]].
    apply bind_Ok in Hobs as (oid & w10 & Hoid & (v & w11 & [Hnew ->]%os_check_Ok & [= _ <-])%bind_Ok).
    apply on_left_Ok in Hoid as [[= Ho1 Ho2] E3]. cbn in Ho2, E3. split; [cbn; by rewrite <- Ho2|]. intros row ->.
    exists oid. rewrite E3. split; [|done]. intros (r & -> & Hr)%list_elem_of_fmap. apply negb_true_iff in Hnew.
    rewrite existsb_false in Hnew. specialize (Hnew _ Hr) as Hx. cbn in Hx. apply orb_false_iff in Hx as [Hx _].
    by rewrite (proj2 (str_eqb_true _ _) eq_refl) in Hx. }
  rewrite <- Hid2 in Hdb. split; try done; [|by apply Ht].
  unfold row_digest. cbn -[digest_payload]. rewrite dict_or_empty_obj. exact Hd.
Qed.

Lemma append_once_undone c timestamp w e w' :
  append_once c timestamp w = (Err e, w') -> w'.2 = w.2 /\ db w'.1 = db w.1.
Proof. unfold append_once, os_transaction. destruct ((_ : M OsWorld _) w) as [[]]; [done|]. by intros [= _ <-]. Qed.
Lemma append_attempts_Ok n c timestamp w row w' :
  append_attempts n c timestamp w = (Ok row, w') -> extended c timestamp w w' row.
Proof.
  revert w. induction n as [|n IH]; intros w; cbn [append_attempts]; [done|]. unfold catch.
  destruct (append_once c timestamp w) as [[x|e] w1] eqn:Ha.
  - intros [= <- <-]. by apply append_once_Ok.
  - destruct (is_integrity_error e); [|done]. intros He%IH. destruct (append_once_undone _ _ _ _ _ Ha) as [E2 Ed].
    destruct He. rewrite E2 in *. rewrite Ed in *. by split.
Qed.
Lemma append_evidence_Ok c at_ w row w' :
  append_evidence c at_ w = (Ok row, w') -> exists timestamp, extended c timestamp w w' row /\
    timestamp = default (clock (ticks w.1)) at_.
Proof.
  intros (timestamp & w1 & Ht & Ha)%bind_Ok. apply append_attempts_Ok in Ha. exists timestamp.
  destruct at_ as [z|]; [by injection Ht as <- <-|]. apply on_left_Ok in Ht as [[-> E1]%now_Ok E2].
  destruct Ha. rewrite E2, E1 in *. by split.
Qed.

Lemma evidence_of_snoc task t t' row :
  os_evidence t' = os_evidence t ++ [row] ->
  evidence_of task t' = evidence_of task t ++ (if str_eqb (oe_task_id row) task then [row] else []).
Proof. intros Ht. unfold evidence_of. by rewrite Ht, select_app. Qed.

(** C13. Evidence grows a chain: when the chain of a task verifies, appending a row
    leaves it one that verifies, longer by that row, whose digest is its head and which
    carries the digest of the head before it.  The rows that were there stay, and so do
    those of other tasks; besides the row nothing is written but, for a claim about
    evolution, one observation of it. *)
Theorem evidence_chain_grows c at_ w row w' :
  chained (ev_task_id c) w.2 -> append_evidence c at_ w = (Ok row, w') ->
  verify_evidence_chain (ev_task_id c) w'
    = (Ok (valid_report (len_list (task_chain (ev_task_id c) w.2) + 1) (Some (oe_digest row))), w') /\
  task_chain (ev_task_id c) w'.2 = task_chain (ev_task_id c) w.2 ++ [row] /\
  oe_previous_digest row = head_digest None (task_chain (ev_task_id c) w.2) /\
  (forall task, task <> ev_task_id c -> evidence_of task w'.2 = evidence_of task w.2) /\
  appended c row w.2 w'.2 /\ db w'.1 = db w.1.
Proof.
  intros Hc (timestamp & [Htask Hseq Hprev Hdig _ Htables Hdb] & _)%append_evidence_Ok.
  pose proof (appended_rows _ _ _ _ Htables) as Hrows.
  rewrite (chained_head _ _ Hc) in Hseq, Hprev. set (task := ev_task_id c) in *.
  assert (oe_previous_digest row = head_digest None (task_chain task w.2)) as Hp.
  { rewrite Hprev. unfold head_digest. by destruct (last _). }
  assert (oe_sequence row = 1 + Z.of_nat (length (task_chain task w.2)))%Z as Hs.
  { rewrite Hseq. destruct (last (task_chain task w.2)) as [p|] eqn:El.
    - rewrite (chain_last _ _ _ _ Hc El). lia.
    - apply last_None in El. by rewrite El. }
  assert (chain None 1 (task_chain task w.2 ++ [row])) as Hc'.
  { apply chain_app; [exact Hc|]. constructor; [lia|done|done|constructor]. }
  assert (task_chain task w'.2 = task_chain task w.2 ++ [row]) as Ht.
  { apply order_growing; [|by eapply chain_growing]. rewrite (evidence_of_snoc task w.2 w'.2 row) by done.
    rewrite Htask, (proj2 (str_eqb_true _ _) eq_refl). by rewrite task_chain_perm. }
  split_and!; [|done|done| |done|done].
  - rewrite chained_verifies by by unfold chained; rewrite Ht. rewrite Ht, head_digest_snoc.
    unfold len_list. rewrite length_app. cbn [length]. do 3 f_equal. lia.
  - intros other Ho. rewrite (evidence_of_snoc other w.2 w'.2 row) by done. rewrite Htask.
    destruct (str_eqb task other) eqn:E; [|by rewrite app_nil_r]. by apply str_eqb_true in E.
Qed.

(** *** Tampering *)

(** two rows that say the same, but for the order of the fields of their claims *)
Definition same_row (a b : CapabilityOsEvidence) : Prop :=
  oe_task_id a = oe_task_id b /\ oe_sequence a = oe_sequence b /\ oe_previous_digest a = oe_previous_digest b /\
  oe_run_id a = oe_run_id b /\ oe_kind a = oe_kind b /\ oe_producer_identity a = oe_producer_identity b /\
  (exists c d, dict_or_empty (oe_claims a) = Ok c /\ dict_or_empty (oe_claims b) = Ok d /\ norm (JObj c) = norm (JObj d)) /\
  oe_blob_uri a = oe_blob_uri b /\ oe_artifact_digest a = oe_artifact_digest b /\ oe_lease_id a = oe_lease_id b /\
  oe_created_at_ms a = oe_created_at_ms b.
(** the floats of the claims are what [repr] writes *)
Definition proper_claims (e : CapabilityOsEvidence) : Prop :=
  forall c, dict_or_empty (oe_claims e) = Ok c -> proper (JObj c) = true.

Lemma proper_claims_bool l :
  forallb (fun e => match dict_or_empty (oe_claims e) with Ok c => proper (JObj c) | Err _ => true end) l = true ->
  Forall proper_claims l.
Proof.
  intros Hl%forallb_elements. apply (Forall_impl _ _ _ Hl). intros e He c Hc. by rewrite Hc in He.
Qed.
Lemma payload_proper task seq prev rid kind producer claims blob artifact lid at_ :
  proper (JObj claims) = true ->
  proper (evidence_payload task seq prev rid kind producer claims blob artifact lid at_) = true.
Proof.
  intros Hc. change (proper (evidence_payload task seq prev rid kind producer claims blob artifact lid at_)) with
    (true && (true && (proper (opt_str prev) && (proper (opt_str rid) && (true && (true && (proper (JObj claims) &&
      (proper (opt_str blob) && (proper (opt_str artifact) && (proper (opt_str lid) && (true && true))))))))))).
  rewrite Hc. by destruct prev, rid, blob, artifact, lid.
Qed.
Lemma row_digest_inj a b d :
  proper_claims a -> proper_claims b -> row_digest a = Ok d -> row_digest b = Ok d -> same_row a b \/ collision.
Proof.
  intros Pa Pb (ca & Hca & Ha)%rbind_Ok (cb & Hcb & Hb)%rbind_Ok. specialize (Pa _ Hca). specialize (Pb _ Hcb).
  destruct (digest_inj _ _ _ (payload_proper _ _ _ _ _ _ _ _ _ _ _ Pa) (payload_proper _ _ _ _ _ _ _ _ _ _ _ Pb) Ha Hb)
    as [HN|]; [left|by right].
  pose proof (fun k => norm_get _ _ k HN ltac:(by_evaluation)) as Hm. clear HN Ha Hb.
  pose proof (Hm "task_id") as M1. pose proof (Hm "sequence") as M2. pose proof (Hm "previous_digest") as M3.
  pose proof (Hm "run_id") as M4. pose proof (Hm "kind") as M5. pose proof (Hm "producer_identity") as M6.
  pose proof (Hm "claims") as M7. pose proof (Hm "blob_uri") as M8. pose proof (Hm "artifact_digest") as M9.
  pose proof (Hm "lease_id") as M10. pose proof (Hm "created_at_ms") as M11. clear Hm.
  apply (inj Some) in M3, M4, M7, M8, M9, M10. apply norm_opt_str in M3, M4, M8, M9, M10.
  injection M1 as M1. injection M2 as M2. injection M5 as M5. injection M6 as M6. injection M11 as M11.
  unfold same_row. split_and!; try done. by exists ca, cb.
Qed.
Lemma chain_snoc_inv prev n rows r :
  chain prev n (rows ++ [r]) ->
  chain prev n rows /\ oe_previous_digest r = head_digest prev rows /\ row_digest r = Ok (oe_digest r).
Proof.
  revert prev n. induction rows as [|x rows IH]; intros prev n; cbn [app]; intros Hrows; inversion Hrows as [|? ? ? ? H1 H2 H3 H4]; subst.
  - split_and!; [constructor|done|done].
  - destruct (IH _ _ H4) as (Hc & Hp & Hd). rewrite (head_digest_cons (oe_previous_digest x)) in Hp.
    split_and!; [by constructor|done|done].
Qed.
Lemma chains_bound rows rows' :
  chain None 1 rows -> chain None 1 rows' -> length rows = length rows' ->
  head_digest None rows = head_digest None rows' -> Forall proper_claims rows -> Forall proper_claims rows' ->
  Forall2 same_row rows rows' \/ collision.
Proof.
  revert rows'. induction rows as [|r rows IH] using rev_ind; intros rows' Hc Hc' Hl Hh HP HP'.
  - destruct rows'; [by left; constructor|done].
  - destruct rows' as [|r' rows' _] using rev_ind; [rewrite length_app in Hl; cbn in Hl; lia|].
    apply chain_snoc_inv in Hc as (Hc & Hp & Hd), Hc' as (Hc' & Hp' & Hd').
    rewrite !head_digest_snoc in Hh. injection Hh as Hh. rewrite Hh in Hd.
    apply Forall_app in HP as [HP [Pr _]%Forall_cons], HP' as [HP' [Pr' _]%Forall_cons].
    destruct (row_digest_inj r r' _ Pr Pr' Hd Hd') as [Hs|]; [|by right].
    rewrite !length_app in Hl. cbn in Hl.
    destruct (IH rows') as [Hf|]; [done|done|lia| |done|done| |by right].
    { rewrite <- Hp, <- Hp'. by destruct Hs as (_ & _ & ? & _). }
    left. apply Forall2_app; [done|]. constructor; [done|constructor].
Qed.

(** C14. The head of a chain vouches for all of it: if in two states of the tables the
    chain of a task verifies with the same count and the same head, then row by row the
    two chains say the same (but for the order of the fields of claims), or SHA-256 has
    a collision.  Whoever keeps a head notices every later change, insertion, removal
    or reordering of what was recorded before it. *)
Theorem head_vouches_for_chain task w v rep :
  verify_evidence_chain task w = (Ok rep, w) -> verify_evidence_chain task v = (Ok rep, v) -> chain_valid rep = true ->
  Forall proper_claims (task_chain task w.2) -> Forall proper_claims (task_chain task v.2) ->
  Forall2 same_row (task_chain task w.2) (task_chain task v.2) \/ collision.
Proof.
  intros Hw Hv Hval HP HP'. apply verify_chain_valid in Hw as [Hcw Hrw], Hv as [Hcv Hrv]; [|done|done].
  rewrite Hrw in Hrv. injection Hrv as Hl Hh. apply chains_bound; [done|done| |done|done|done].
  unfold len_list in Hl. lia.
Qed.

(** ** The boundary *)

Lemma redact_claims_obj claims : redact_sensitive (JObj claims) = JObj (redact_claims claims).
Proof. unfold redact_claims, redact_sensitive. by destruct (redact_with redact_text (JObj claims)) eqn:E. Qed.

(** C30. Evidence is recorded about what is known, under a lease that is alive: what
    [record] appends names a task, a kind and a producer; the artifact it names is
    registered; the lease it names is active, not expired, of that task, and for that
    artifact; and its claims are redacted. *)
Theorem evidence_is_authorized c w row w' :
  record c w = (Ok row, w') ->
  blank (oe_task_id row) = false /\ blank (oe_kind row) = false /\ blank (oe_producer_identity row) = false /\
  oe_task_id row = ev_task_id c /\ oe_kind row = ev_kind c /\ oe_created_at_ms row = clock (ticks w.1) /\
  redact_sensitive (JObj (ev_claims c)) = oe_claims row /\
  (forall d, oe_artifact_digest row = Some d -> is_Some (os_artifacts w.2 !! d)) /\
  (forall l, oe_lease_id row = Some l -> exists lease, db_leases (db w.1) !! l = Some lease /\
     lease_active lease = true /\ (clock (ticks w.1) < lease_expires_at_ms lease)%Z /\
     lease_task_id lease = oe_task_id row /\
     forall d, oe_artifact_digest row = Some d -> lease_artifact_digest lease = d) /\
  os_evidence w'.2 = os_evidence w.2 ++ [row].
Proof.
  unfold record. destruct (blank (ev_task_id c) || _ || _) eqn:Eb; [done|].
  apply orb_false_iff in Eb as [[Ebt Ebk]%orb_false_iff Ebp]. intros (now & w1 & Hnow & Hr)%bind_Ok.
  apply on_left_Ok in Hnow as [[-> E1]%now_Ok E2]. apply bind_Ok in Hr as (unknown & w2 & Hu & Hr).
  assert (w2 = w1 /\ (unknown = false -> forall d, ev_artifact_digest c = Some d -> is_Some (os_artifacts w.2 !! d))) as [-> Hknown].
  { destruct (ev_artifact_digest c) as [d|]; [|by injection Hu as <- <-]. injection Hu as <- <-. split; [done|].
    intros Hd%negb_false_iff%bool_decide_eq_true d' [= <-]. by rewrite <- E2. }
  destruct unknown; [done|]. apply bind_Ok in Hr as (x & w3 & Hl & Ha).
  assert (w3 = w1 /\ forall l, ev_lease_id c = Some l -> exists lease, db_leases (db w.1) !! l = Some lease /\
     lease_active lease = true /\ (clock (ticks w.1) < lease_expires_at_ms lease)%Z /\
     lease_task_id lease = ev_task_id c /\ forall d, ev_artifact_digest c = Some d -> lease_artifact_digest lease = d) as [-> Hlease].
  { destruct (ev_lease_id c) as [l|]; [|by injection Hl as _ <-].
    apply bind_Ok in Hl as (found & w4 & [= <- <-] & Hl). rewrite E1 in Hl. cbn [db] in Hl.
    unfold check_evidence_lease in Hl. destruct (db_leases (db w.1) !! l) as [lease|] eqn:El; [|done].
    destruct (negb (lease_active lease) || _) eqn:Ea; [done|]. apply orb_false_iff in Ea as [Ea%negb_false_iff Ex%Z.leb_gt].
    destruct (str_eqb (lease_task_id lease) _) eqn:Et; [|done]. apply str_eqb_true in Et. cbn [negb] in Hl.
    destruct (match ev_artifact_digest c with Some _ => _ | None => _ end) eqn:Ed; [done|]. injection Hl as _ <-. split; [done|].
    intros l' [= <-]. exists lease. split_and!; try done. intros d Hd. rewrite Hd in Ed.
    apply negb_false_iff in Ed. by apply str_eqb_true. }
  apply append_evidence_Ok in Ha as (t & [Htask _ _ _ (Hc & Hk & _ & Hpr & Had & Hle & _ & Hat) Hrows%appended_rows _] & ->).
  cbn in *. rewrite E2 in Hrows. rewrite Htask, Hk, Hpr, Had, Hle, Hat, Hc. split_and!; first [done | by rewrite redact_claims_obj | exact (Hknown eq_refl)].
Qed.
End Chain.

(** ** Concrete instances *)

Definition demo_artifact : CapabilityOsArtifact := {|
  oa_id := "cart_0"; oa_artifact_id := "tool"; oa_version := "1"; oa_kind := "Tool"; oa_owner := "user"; oa_user_id := Some "u1";
  oa_origin := "forge"; oa_state := "qualified"; oa_parent_ref := None; oa_task_origin := None;
  oa_source_digest := None; oa_content_digest := "sha256:aa"; oa_compatibility := JObj []; oa_spec := JObj [];
  oa_created_at := "2026-01-01T00:00:00Z"; oa_created_at_ms := 0; oa_retired_at_ms := None |}.
Definition demo_os : OsWorld :=
  ({| db := empty_db; ticks := 0; uids := 0 |},
   set_os_artifacts {[ "sha256:aa" := demo_artifact ]} empty_os).
(** a lease of the task, and the claims that are recorded under it *)
Definition demo_evidence_lease : CapabilityOsLease := {|
  lease_id := "l1"; lease_task_id := "t1"; lease_workload_id := "w"; lease_artifact_digest := "sha256:aa";
  lease_permissions := JList []; lease_resource_limits := JObj []; lease_network := JObj [];
  lease_credentials := JObj []; lease_approval_id := None; lease_parent_lease_id := None;
  lease_policy_decision_id := "p"; lease_attestation_requirements := JObj [];
  lease_runtime_profile := "cptr-vm"; lease_status := "active"; lease_issued_at_ms := 0;
  lease_expires_at_ms := 50; lease_revoked_at_ms := None |}.
Definition demo_leased : OsWorld :=
  ({| db := set_db_leases {[ "l1" := demo_evidence_lease ]} empty_db; ticks := 0; uids := 0 |}, demo_os.2).
Definition demo_claim (claims : dict) : EvidenceClaim := {|
  ev_task_id := "t1"; ev_kind := "tool.run"; ev_producer_identity := "capability-os-control"; ev_claims := claims;
  ev_run_id := None; ev_blob_uri := None; ev_artifact_digest := Some "sha256:aa"; ev_lease_id := Some "l1" |}.
#[local] Abbreviation recorded_twice :=
  ((let* _ := @record demo_env (demo_claim [("b", JInt 2); ("password", JStr "hunter2")]) in
    @record demo_env (demo_claim [("score", JFloat "0.5")])) demo_leased).
#[local] Abbreviation recorded_once := (@record demo_env (demo_claim [("b", JInt 2)]) demo_leased).

Theorem evidence_chain_grows_witness :
  exists row w', @append_evidence demo_env (demo_claim [("x", JInt 1)]) None recorded_twice.2 = (Ok row, w') /\
    @verify_evidence_chain demo_env "t1" w' = (Ok (valid_report 3 (Some (oe_digest row))), w').
Proof.
  destruct (@append_evidence demo_env (demo_claim [("x", JInt 1)]) None recorded_twice.2) as [[row|e] w'] eqn:E;
    [|by vm_compute in E].
  exists row, w'. split; [done|].
  assert (@chained demo_env (ev_task_id (demo_claim [("x", JInt 1)])) recorded_twice.2.2) as Hc.
  { destruct (@verify_evidence_chain demo_env "t1" recorded_twice.2) as [[rep|e] v] eqn:Ev; [|by vm_compute in Ev].
    assert (v = recorded_twice.2) as -> by (vm_compute in Ev; injection Ev as _ <-; vm_compute; reflexivity).
    refine (proj1 (@verify_chain_valid demo_env "t1" recorded_twice.2 rep Ev _)). vm_compute in Ev. by injection Ev as <-. }
  destruct (@evidence_chain_grows demo_env (demo_claim [("x", JInt 1)]) None recorded_twice.2 row w' Hc E) as (Hv & _).
  refine (eq_trans Hv _). by do 2 f_equal.
Defined.

Theorem head_vouches_for_chain_witness :
  Forall2 (@same_row demo_env) (task_chain "t1" recorded_twice.2.2) (task_chain "t1" recorded_twice.2.2) \/ @collision demo_env.
Proof.
  assert (Forall (@proper_claims demo_env) (task_chain "t1" recorded_twice.2.2)) as HP.
  { apply proper_claims_bool. vm_compute. reflexivity. }
  destruct (@verify_evidence_chain demo_env "t1" recorded_twice.2) as [[rep|e] w'] eqn:E; [|by vm_compute in E].
  assert (w' = recorded_twice.2) as -> by (vm_compute in E; injection E as _ <-; vm_compute; reflexivity).
  refine (@head_vouches_for_chain demo_env "t1" recorded_twice.2 recorded_twice.2 rep E E _ HP HP).
  vm_compute in E. by injection E as <-.
Defined.

Theorem evidence_is_authorized_witness :
  exists row w', recorded_once = (Ok row, w') /\ oe_task_id row = "t1" /\ exists lease, db_leases (db demo_leased.1) !! "l1" = Some lease /\ lease_active lease = true.
Proof.
  destruct recorded_once as [[row|e] w'] eqn:E; [|by vm_compute in E]. exists row, w'.
  destruct (@evidence_is_authorized demo_env (demo_claim [("b", JInt 2)]) demo_leased row w' E)
    as (_ & _ & _ & Ht & _ & _ & _ & _ & Hl & _).
  split_and!; [done|exact Ht|]. destruct (Hl "l1") as (lease & H1 & H2 & _); [vm_compute in E; by injection E as <- _|].
  by exists lease.
Defined.
