(* ===== verification/CapabilityAuthority.v ===== *)
(** * Authority

    Models the broker of the Capability OS, [cptr/services/capability_os/authority.py],
    the standing policies of [policy.py], and what they use of [store.py]: when a lease
    is issued, what it says, and what it authorizes later. *)

From S2P Require Import Prelude PyStr Json FactoryDomain FactoryGates Database CapabilityLifecycle.
From S2P Require Import FactoryStore FactoryPhases FactoryGit FactoryCapabilities CapabilityContracts CapabilityStore.
From Stdlib Require Import Ascii.

(** ** Covering *)

Definition _AUTHORITY_CRITICAL_PREFIXES : list string :=
  ["auth."; "credential."; "credentials."; "policy."; "production."; "sandbox."; "secret."].
Definition _AUTHORITY_CRITICAL_ACTIONS : list string :=
  ["filesystem.delete"; "host.privileged"; "runtime.privileged"].
Definition _critical (action : string) : bool :=
  is_in action _AUTHORITY_CRITICAL_ACTIONS || existsb (fun p => startswith p action) _AUTHORITY_CRITICAL_PREFIXES.
Definition _resource_matches (pattern value : string) : bool := str_eqb pattern value || fnmatchcase value pattern.

Section Authority.
Context `{Env}.

Definition constraint_within (allowed : dict) (kv : string * json) : bool :=
  match dict_get kv.1 allowed with
  | None => false
  | Some ceiling =>
      if is_number kv.2 && is_number ceiling then negb (number_gt kv.2 ceiling) else py_eq kv.2 ceiling
  end.
Definition _constraints_within (requested allowed : dict) : bool :=
  if is_nil allowed then is_nil requested else forallb (constraint_within allowed) requested.
(** [_covered] and [permission_covers] *)
Definition _covered (requested allowed : CapabilityRequest) : bool :=
  str_eqb (cr_action requested) (cr_action allowed)
  && _resource_matches (cr_resource allowed) (cr_resource requested)
  && _constraints_within (cr_constraints requested) (cr_constraints allowed).
Definition permission_covers (allowed requested : CapabilityRequest) : bool := _covered requested allowed.

(** ** Policies, requests and leases *)

Record TaskAuthorityPolicy := {
  tp_allowed : list CapabilityRequest;
  tp_forbidden : list CapabilityRequest;
  tp_max_lease_ms : Z;
  tp_max_calls : option Z;
  tp_max_bytes_read : option Z;
  tp_max_bytes_written : option Z;
  tp_max_network_bytes : option Z;
  tp_outbound_network : string;
  tp_network_destinations : list string;
  tp_credential_names : list string;
  tp_resource_limits : dict;
}.
Definition TaskAuthorityPolicy_post_init (p : TaskAuthorityPolicy) : result TaskAuthorityPolicy :=
  if (tp_max_lease_ms p <=? 0)%Z then Err (ValueError "max_lease_ms must be positive")
  else if negb (is_in (tp_outbound_network p) ["deny"; "allow-list"]) then
    Err (ValueError "outbound_network must be deny or allow-list")
  else Ok p.

Record LeaseRequest := {
  lr_task_id : string;
  lr_workload_id : string;
  lr_artifact_digest : string;
  lr_permissions : list CapabilityRequest;
  lr_runtime_profile : string;
  lr_requested_lease_ms : Z;
  lr_parent_lease_id : option string;
  lr_resource_limits : dict;
  lr_network_destinations : list string;
  lr_credential_names : list string;
  lr_execution_context : dict;
}.
Definition LeaseRequest_post_init (r : LeaseRequest) : result LeaseRequest :=
  if blank (lr_task_id r) then Err (ValueError "task_id must not be blank")
  else if blank (lr_workload_id r) then Err (ValueError "workload_id must not be blank")
  else if blank (lr_artifact_digest r) then Err (ValueError "artifact_digest must not be blank")
  else if blank (lr_runtime_profile r) then Err (ValueError "runtime_profile must not be blank")
  else if (lr_requested_lease_ms r <=? 0)%Z then Err (ValueError "requested_lease_ms must be positive")
  else if is_nil (lr_permissions r) then Err (ValueError "a capability lease must request at least one permission")
  else Ok r.

Record CapabilityLease := {
  cl_lease_id : string;
  cl_task_id : string;
  cl_workload_id : string;
  cl_artifact_digest : string;
  cl_permissions : list CapabilityRequest;
  cl_resource_limits : dict;
  cl_network : dict;
  cl_credentials : dict;
  cl_approval_id : option string;
  cl_parent_lease_id : option string;
  cl_policy_decision_id : string;
  cl_runtime_profile : string;
  cl_issued_at_ms : Z;
  cl_expires_at_ms : Z;
  cl_status : string;
  cl_execution_context : dict;
}.
(** [(value or {}).get(key)] *)
Definition get_or_empty (key : string) (value : json) : result json :=
  if truthy value then match value with JObj fields => Ok (get key fields) | _ => Err (AttributeError "get") end
  else Ok JNull.
(** [AuthorityBroker._lease_from_row] *)
Definition _lease_from_row (row : CapabilityOsLease) : result CapabilityLease :=
  let? items := iter_or_empty (lease_permissions row) in
  let? permissions := all_Ok (map request_from_dict items) in
  let? resource_limits := dict_or_empty (lease_resource_limits row) in
  let? network := dict_or_empty (lease_network row) in
  let? credentials := dict_or_empty (lease_credentials row) in
  let? raw_context := get_or_empty "executionContext" (lease_attestation_requirements row) in
  let? context := dict_or_empty raw_context in
  Ok {| cl_lease_id := lease_id row; cl_task_id := lease_task_id row; cl_workload_id := lease_workload_id row;
        cl_artifact_digest := lease_artifact_digest row; cl_permissions := permissions;
        cl_resource_limits := resource_limits; cl_network := network; cl_credentials := credentials;
        cl_approval_id := lease_approval_id row; cl_parent_lease_id := lease_parent_lease_id row;
        cl_policy_decision_id := lease_policy_decision_id row; cl_runtime_profile := lease_runtime_profile row;
        cl_issued_at_ms := lease_issued_at_ms row; cl_expires_at_ms := lease_expires_at_ms row;
        cl_status := lease_status row; cl_execution_context := context |}.

(** ** Issuing a lease *)

Definition deny {W A} (message : string) : M W A := raise (AuthorityDenied message).
Definition denied {A} (message : string) : result A := Err (AuthorityDenied message).
Definition is_denied (e : exn) : bool := match e with AuthorityDenied _ => true | _ => false end.
Definition denial_reason (e : exn) : string := match e with AuthorityDenied m => str_take 200 m | _ => "" end.

(** the verifier of approvals, when the server has one *)
Context (approval_verifier : option (string -> LeaseRequest -> list CapabilityRequest -> M OsWorld json)).

(** [_verify_approval] *)
Definition _verify_approval (approval_id : option string) (request : LeaseRequest)
    (critical : list CapabilityRequest) : M OsWorld unit :=
  if negb (has_key approval_id) then
    if negb (is_nil critical) then deny "authority-critical permission requires a verified explicit approval"
    else ret tt
  else
    match approval_verifier with
    | None => deny "approval cannot be verified by the server"
    | Some verify =>
        let* verified := verify (default "" approval_id) request critical in
        if bool_decide (verified = JBool true) then ret tt
        else deny "authority-critical approval is invalid or does not match the request"
    end.

(** the permissions of the request that are critical, if the policy allows them all *)
Fixpoint judge_permissions (policy : TaskAuthorityPolicy) (permissions : list CapabilityRequest)
    : result (list CapabilityRequest) :=
  match permissions with
  | [] => Ok []
  | p :: rest =>
      if existsb (_covered p) (tp_forbidden policy) then
        denied "requested permission is explicitly forbidden"
      else if negb (existsb (_covered p) (tp_allowed policy)) then
        denied "requested permission is outside task policy"
      else
        let? critical := judge_permissions policy rest in
        Ok (if _critical (cr_action p) then p :: critical else critical)
  end.
(** [dict.update] *)
Definition dict_update (d updates : dict) : dict := fold_left (fun d kv => dict_set kv.1 kv.2 d) updates d.
(** the ceilings of the policy *)
Definition policy_limits (policy : TaskAuthorityPolicy) : dict :=
  dict_update (tp_resource_limits policy)
    (flat_map (fun kv => match kv.2 with Some z => [(kv.1, JInt z)] | None => [] end)
      [("maxCalls", tp_max_calls policy); ("maxBytesRead", tp_max_bytes_read policy);
       ("maxBytesWritten", tp_max_bytes_written policy); ("maxNetworkBytes", tp_max_network_bytes policy)]).
(** credentials, destinations and resource limits: the effective limits *)
Definition judge_extras (request : LeaseRequest) (policy : TaskAuthorityPolicy) : result dict :=
  if negb (subset_of (lr_credential_names request) (tp_credential_names policy)) then
    denied "requested credential is outside task policy"
  else if negb (is_nil (lr_network_destinations request)) && negb (str_eqb (tp_outbound_network policy) "allow-list") then
    denied "outbound network is denied by task policy"
  else if negb (subset_of (lr_network_destinations request) (tp_network_destinations policy)) then
    denied "requested network destination is outside task policy"
  else
    let limits := policy_limits policy in
    if negb (_constraints_within (lr_resource_limits request) limits) then
      denied "requested resource limit exceeds task policy"
    else Ok (dict_update limits (lr_resource_limits request)).
(** the decision on a request: the effective limits, or a denial *)
Definition judge_request (request : LeaseRequest) (policy : TaskAuthorityPolicy) (approval_id : option string)
    (require_critical_approval : bool) : M OsWorld dict :=
  let* known := artifact_exists (lr_artifact_digest request) in
  if negb known then deny "lease subject artifact is not registered"
  else
    let* critical := lift (judge_permissions policy (lr_permissions request)) in
    let* _ := (if require_critical_approval then _verify_approval approval_id request critical else ret tt) in
    lift (judge_extras request policy).

(** the record of a decision *)
Definition decision_constraints (request : LeaseRequest) : dict :=
  [("runtimeProfile", JStr (lr_runtime_profile request)); ("requestedLeaseMs", JInt (lr_requested_lease_ms request));
   ("resourceLimits", JObj (lr_resource_limits request));
   ("networkDestinations", str_list (lr_network_destinations request));
   ("credentialNames", str_list (lr_credential_names request))].
Definition decision_of (request : LeaseRequest) (decision_id : string) (permissions : list json)
    (approval_id : option string) (decision_at : Z) (outcome : string) (constraints : dict)
    (reason : option string) : CapabilityOsPolicyDecision := {|
  pd_decision_id := decision_id; pd_task_id := lr_task_id request; pd_workload_id := lr_workload_id request;
  pd_artifact_digest := lr_artifact_digest request; pd_outcome := outcome; pd_permissions := JList permissions;
  pd_constraints := JObj constraints; pd_approval_id := approval_id; pd_reason_code := reason;
  pd_created_at_ms := decision_at |}.
(** the row of a lease *)
Definition lease_row (request : LeaseRequest) (policy : TaskAuthorityPolicy) (approval_id : option string)
    (decision_id : string) (permissions : list json) (limits : dict) (issued_at : Z) : CapabilityOsLease := {|
  lease_id := ""; lease_task_id := lr_task_id request; lease_workload_id := lr_workload_id request;
  lease_artifact_digest := lr_artifact_digest request; lease_permissions := JList permissions;
  lease_resource_limits := JObj limits;
  lease_network := JObj [("outbound", JStr (tp_outbound_network policy));
                         ("destinations", str_list (lr_network_destinations request))];
  lease_credentials := JObj [("logicalNames", str_list (lr_credential_names request))];
  lease_approval_id := approval_id; lease_parent_lease_id := lr_parent_lease_id request;
  lease_policy_decision_id := decision_id;
  lease_attestation_requirements :=
    JObj [("artifactDigest", JStr (lr_artifact_digest request)); ("runtimeProfile", JStr (lr_runtime_profile request));
          ("executionContext", JObj (lr_execution_context request))];
  lease_runtime_profile := lr_runtime_profile request; lease_status := "active";
  lease_issued_at_ms := issued_at;
  lease_expires_at_ms := issued_at + Z.min (lr_requested_lease_ms request) (tp_max_lease_ms policy);
  lease_revoked_at_ms := None |}.

(** [AuthorityBroker.issue] *)
Definition issue (request : LeaseRequest) (policy : TaskAuthorityPolicy) (approval_id : option string)
    (require_critical_approval : bool) : M OsWorld CapabilityLease :=
  let* decision_id := on_left (_new_id "policy") in
  let* decision_at := on_left _now_ms in
  let* permissions := lift (all_Ok (map request_to_dict (lr_permissions request))) in
  let decision := decision_of request decision_id permissions approval_id decision_at in
  let* limits := catch (judge_request request policy approval_id require_critical_approval) is_denied
    (fun e =>
       let* _ := record_policy_decision (decision "deny" (decision_constraints request) (Some (denial_reason e))) in
       raise e) in
  let* _ := record_policy_decision
    (decision "allow" (decision_constraints request ++ [("effectiveResourceLimits", JObj limits)]) None) in
  let* issued_at := on_left _now_ms in
  let* row := on_left (create_lease (lease_row request policy approval_id decision_id permissions limits issued_at)) in
  lift (_lease_from_row row).

(** ** Using a lease *)

(** what a use of a lease needs of it *)
Record LeaseUse := {
  lu_task_id : string;
  lu_artifact_digest : string;
  lu_required_permissions : list CapabilityRequest;
  lu_runtime_profile : option string;
  lu_resource_limits : dict;
  lu_network_destinations : list string;
  lu_credential_names : list string;
  lu_execution_context : dict;
}.
(** whether every text is in a value that is iterated, [set(texts) - set(value or ())] *)
Definition all_listed (texts : list string) (value : json) : result bool :=
  let? items := iter_or_empty value in
  if existsb (fun v => match v with JList _ | JObj _ => true | _ => false end) items then
    Err (TypeError "unhashable type")
  else Ok (forallb (fun t => existsb (py_eq (JStr t)) items) texts).
(** the checks of [require_active] on a lease, in order *)
Definition check_lease (u : LeaseUse) (lease : CapabilityLease) : result CapabilityLease :=
  if negb (forallb (fun r => existsb (_covered r) (cl_permissions lease)) (lu_required_permissions u)) then
    denied "capability lease does not cover required permission"
  else if match lu_runtime_profile u with Some p => negb (str_eqb (cl_runtime_profile lease) p) | None => false end then
    denied "capability lease runtime profile mismatch"
  else if negb (is_nil (lu_resource_limits u))
          && negb (_constraints_within (lu_resource_limits u) (cl_resource_limits lease)) then
    denied "capability lease does not cover requested resource limits"
  else
    let? network :=
      if is_nil (lu_network_destinations u) then Ok tt
      else if negb (py_eq (get "outbound" (cl_network lease)) (JStr "allow-list")) then
        denied "capability lease does not allow outbound network"
      else
        let? listed := all_listed (lu_network_destinations u) (get "destinations" (cl_network lease)) in
        if listed then Ok tt else denied "capability lease does not cover requested network destination" in
    let? credentials :=
      if is_nil (lu_credential_names u) then Ok tt
      else
        let? listed := all_listed (lu_credential_names u) (get "logicalNames" (cl_credentials lease)) in
        if listed then Ok tt else denied "capability lease does not cover requested credential" in
    if existsb (fun kv => negb (py_eq (get kv.1 (cl_execution_context lease)) kv.2)) (lu_execution_context u) then
      denied "capability lease execution context mismatch"
    else Ok lease.
(** [AuthorityBroker.require_active] *)
Definition require_active (lid : string) (u : LeaseUse) : M OsWorld CapabilityLease :=
  let* found := get_lease lid in
  let* now_ms := on_left _now_ms in
  match found with
  | None => deny "capability lease not found"
  | Some row =>
      if negb (str_eqb (lease_status row) "active") || (lease_expires_at_ms row <=? now_ms)%Z then
        deny "capability lease is inactive or expired"
      else if negb (str_eqb (lease_task_id row) (lu_task_id u)) then
        deny "capability lease belongs to another task"
      else if negb (str_eqb (lease_artifact_digest row) (lu_artifact_digest u)) then
        deny "capability lease belongs to another artifact"
      else
        let* lease := lift (_lease_from_row row) in
        lift (check_lease u lease)
  end.
(** [AuthorityBroker.revoke] and [close_task] *)
Definition revoke (lid : string) : M OsWorld bool :=
  let* now_ms := on_left _now_ms in on_left (revoke_lease lid now_ms).
Definition close_task (task_id : string) : M OsWorld Z :=
  let* now_ms := on_left _now_ms in on_left (revoke_task_leases task_id now_ms).

End Authority.

(** ** Standing policies *)

(** what a policy is resolved for: a task, its artifact and its workload *)
Record TaskScope := {
  ts_user_id : string;
  ts_workspace_id : option string;
  ts_source : string;
}.
Section Policies.
Context `{Env}.

Record StandingAuthorityRule := {
  sr_policy : TaskAuthorityPolicy;
  sr_user_id : option string;
  sr_workspace_id : option string;
  sr_task_source : option string;
  sr_workload_pattern : option string;
  sr_artifact_pattern : option string;
}.
Definition blank_selector (v : option string) : bool := match v with Some s => blank s | None => false end.
Definition StandingAuthorityRule_post_init (r : StandingAuthorityRule) : result StandingAuthorityRule :=
  if blank_selector (sr_user_id r) then Err (ValueError "user_id must not be blank when supplied")
  else if blank_selector (sr_workspace_id r) then Err (ValueError "workspace_id must not be blank when supplied")
  else if blank_selector (sr_task_source r) then Err (ValueError "task_source must not be blank when supplied")
  else if blank_selector (sr_workload_pattern r) then Err (ValueError "workload_pattern must not be blank when supplied")
  else if blank_selector (sr_artifact_pattern r) then Err (ValueError "artifact_pattern must not be blank when supplied")
  else Ok r.
(** a selector that is not given selects everything *)
Definition selects {A} (test : A -> bool) (selector : option A) : bool :=
  match selector with None => true | Some s => test s end.
(** [StandingAuthorityRule.matches] *)
Definition rule_matches (task : TaskScope) (artifact_digest workload_id : string) (r : StandingAuthorityRule) : bool :=
  selects (str_eqb (ts_user_id task)) (sr_user_id r)
  && selects (fun w => opt_eqb (Some w) (ts_workspace_id task)) (sr_workspace_id r)
  && selects (str_eqb (ts_source task)) (sr_task_source r)
  && selects (fnmatchcase workload_id) (sr_workload_pattern r)
  && selects (fnmatchcase artifact_digest) (sr_artifact_pattern r).
Definition given (v : option string) : Z := match v with Some _ => 1 | None => 0 end.
Definition specificity (r : StandingAuthorityRule) : Z :=
  given (sr_user_id r) + given (sr_workspace_id r) + given (sr_task_source r)
  + given (sr_workload_pattern r) + given (sr_artifact_pattern r).
(** [StandingAuthorityPolicyProvider.resolve] *)
Definition resolve_rules (rules : list StandingAuthorityRule) (task : TaskScope)
    (artifact_digest workload_id : string) : result (option TaskAuthorityPolicy) :=
  let found := List.filter (rule_matches task artifact_digest workload_id) rules in
  match max_of (map specificity found) with
  | None => Ok None
  | Some highest =>
      match List.filter (fun r => (specificity r =? highest)%Z) found with
      | [rule] => Ok (Some (sr_policy rule))
      | _ => denied "standing authority policy is ambiguous"
      end
  end.

(** *** Policies in the configuration *)

Definition _optional_positive_int (value : json) (field_name : string) : result (option Z) :=
  match value with
  | JNull => Ok None
  | _ =>
      let? parsed := py_int value in
      if (parsed <=? 0)%Z then Err (ValueError (field_name +:+ " must be positive")) else Ok (Some parsed)
  end.
(** the texts of a list that are not blank *)
Definition stripped_texts (value : json) : result (list string) :=
  let? items := iter_or_empty value in
  Ok (List.filter (fun t => negb (empty_str t)) (map (fun v => strip (py_str v)) items)).
Definition requests_of (value : json) : result (list CapabilityRequest) :=
  let? items := iter_or_empty value in all_Ok (map request_from_dict items).
(** [_policy_from_dict] *)
Definition _policy_from_dict (value : json) : result TaskAuthorityPolicy :=
  match value with
  | JObj fields =>
      let? allowed := requests_of (get "allowed" fields) in
      if is_nil allowed then Err (ValueError "standing authority policy requires at least one allowed permission")
      else
        let? forbidden := requests_of (get "forbidden" fields) in
        let raw_limits := get "resourceLimits" fields in
        let? resource_limits :=
          match (if truthy raw_limits then raw_limits else JObj []) with
          | JObj limits => Ok limits
          | _ => Err (ValueError "standing authority resourceLimits must be an object")
          end in
        let? network_destinations := stripped_texts (get "networkDestinations" fields) in
        let? credential_names := stripped_texts (get "credentialNames" fields) in
        let raw_lease := get "maxLeaseMs" fields in
        let? max_lease_ms := py_int (if truthy raw_lease then raw_lease else JInt 30000) in
        let? max_calls := _optional_positive_int (get "maxCalls" fields) "maxCalls" in
        let? max_bytes_read := _optional_positive_int (get "maxBytesRead" fields) "maxBytesRead" in
        let? max_bytes_written := _optional_positive_int (get "maxBytesWritten" fields) "maxBytesWritten" in
        let? max_network_bytes := _optional_positive_int (get "maxNetworkBytes" fields) "maxNetworkBytes" in
        let raw_network := get "outboundNetwork" fields in
        TaskAuthorityPolicy_post_init
          {| tp_allowed := allowed; tp_forbidden := forbidden; tp_max_lease_ms := max_lease_ms;
             tp_max_calls := max_calls; tp_max_bytes_read := max_bytes_read;
             tp_max_bytes_written := max_bytes_written; tp_max_network_bytes := max_network_bytes;
             tp_outbound_network := if truthy raw_network then py_str raw_network else "deny";
             tp_network_destinations := network_destinations; tp_credential_names := credential_names;
             tp_resource_limits := resource_limits |}
  | _ => Err (ValueError "standing authority policy must be an object")
  end.
Definition _SELECTORS : list string := ["userId"; "workspaceId"; "taskSource"; "workloadPattern"; "artifactPattern"].
Definition selector (key : string) (selectors : dict) : option string :=
  match get key selectors with JNull => None | v => Some (strip (py_str v)) end.
(** the least of some texts *)
Definition first_sorted (l : list string) : string := default "" (head (sorted_set l)).
(** [_rule_from_dict]: a rule that is not enabled is none *)
Definition _rule_from_dict (value : json) : result (option StandingAuthorityRule) :=
  match value with
  | JObj fields =>
      if negb (bool_decide (default (JBool true) (dict_get "enabled" fields) = JBool true)) then Ok None
      else
        let raw := get "selectors" fields in
        match (if truthy raw then raw else JObj []) with
        | JObj selectors =>
            let unknown := List.filter (fun k => negb (is_in k _SELECTORS)) (map fst selectors) in
            if negb (is_nil unknown) then
              Err (ValueError ("unknown standing authority selector: " +:+ first_sorted unknown))
            else
              let? policy := _policy_from_dict (get "policy" fields) in
              let? rule := StandingAuthorityRule_post_init
                {| sr_policy := policy; sr_user_id := selector "userId" selectors;
                   sr_workspace_id := selector "workspaceId" selectors;
                   sr_task_source := selector "taskSource" selectors;
                   sr_workload_pattern := selector "workloadPattern" selectors;
                   sr_artifact_pattern := selector "artifactPattern" selectors |} in
              Ok (Some rule)
        | _ => Err (ValueError "standing authority selectors must be an object")
        end
  | _ => Ok None
  end.
(** [ConfigStandingAuthorityPolicyProvider.resolve], of what the configuration holds *)
Definition resolve_config (raw : json) (task : TaskScope) (artifact_digest workload_id : string)
    : result (option TaskAuthorityPolicy) :=
  match raw with
  | JNull => Ok None
  | JList items =>
      if (256 <? len_list items)%Z then denied "standing authority configuration exceeds rule limit"
      else
        match all_Ok (map _rule_from_dict items) with
        | Ok rules => resolve_rules (omap id rules) task artifact_digest workload_id
        | Err (TypeError _) | Err (ValueError _) => denied "standing authority configuration is invalid"
        | Err e => Err e
        end
  | _ => denied "standing authority configuration is invalid"
  end.
(** [CompositeAuthorityPolicyProvider.resolve], of the providers one after the other *)
Definition resolve_composite {W} (providers : list (M W (option TaskAuthorityPolicy)))
    : M W (option TaskAuthorityPolicy) :=
  let* found := for_each (fun provider => provider) providers in
  match omap id found with
  | [] => ret None
  | [policy] => ret (Some policy)
  | _ => deny "multiple standing authority providers match the same workload"
  end.

(** *** The policy of isolated builds and runs *)

Record IsolationCeilings := {
  ic_cpu_millis : Z;
  ic_memory_mib : Z;
  ic_disk_mib : Z;
  ic_pids : Z;
  ic_wall_time_ms : Z;
  ic_output_bytes : Z;
}.
Definition isolation_limits (c : IsolationCeilings) : dict :=
  [("cpuMillis", JInt (ic_cpu_millis c)); ("memoryMiB", JInt (ic_memory_mib c)); ("diskMiB", JInt (ic_disk_mib c));
   ("pids", JInt (ic_pids c)); ("wallTimeMs", JInt (ic_wall_time_ms c)); ("maxOutputBytes", JInt (ic_output_bytes c))].
(** [SafeIsolationAuthorityPolicyProvider]: its constructor, and [resolve] *)
Definition SafeIsolation_new (c : IsolationCeilings) : result IsolationCeilings :=
  if existsb (fun z => z <=? 0)%Z [ic_cpu_millis c; ic_memory_mib c; ic_disk_mib c; ic_pids c; ic_wall_time_ms c; ic_output_bytes c]
  then Err (ValueError "safe isolation resource ceilings must be positive") else Ok c.
Definition resolve_isolation (c : IsolationCeilings) (artifact_digest workload_id : string)
    : result (option TaskAuthorityPolicy) :=
  let policy := fun action =>
    let? allowed := CapabilityRequest_new action ("artifact:" +:+ artifact_digest) [] in
    let? p := TaskAuthorityPolicy_post_init
      {| tp_allowed := [allowed]; tp_forbidden := [];
         tp_max_lease_ms := Z.min 600000 (ic_wall_time_ms c + 5000); tp_max_calls := Some 1%Z;
         tp_max_bytes_read := None; tp_max_bytes_written := None; tp_max_network_bytes := None;
         tp_outbound_network := "deny"; tp_network_destinations := []; tp_credential_names := [];
         tp_resource_limits := isolation_limits c |} in
    Ok (Some p) in
  if startswith "tool-build:" workload_id then policy "runtime.build"
  else if startswith "tool-run:" workload_id then policy "runtime.run"
  else Ok None.
End Policies.
