(* ===== verification/CapabilityAuthoritySpec.v ===== *)
(** * Properties of authority

    A lease holds only what a standing policy allows, says so in its row, is recorded,
    ends, and dies with its task; policies fail closed.  Where the code falls short of
    that (patterns as resources, forbidden permissions with constraints, ceilings that
    are not numbers) an example shows it. *)

From S2P Require Import Prelude PyStr Json FactoryDomain FactoryGates Database CapabilityLifecycle.
From S2P Require Import FactoryStore FactoryHistory FactoryPhases FactoryGit FactoryPolicy FactoryCapabilities.
From S2P Require Import FactoryCapabilitiesSpec CapabilityContracts CapabilityContractsSpec CapabilityStore.
From S2P Require Import CapabilityStoreSpec CapabilityAuthority.
From Stdlib Require Import Ascii.

(** ** Covering *)

(** a resource without pattern characters *)
Definition literal (s : string) : bool := all_chars (fun c => negb (existsb (Ascii.eqb c) ["*"; "?"; "["]%char)) s.

Lemma parse_literal s n :
  literal s = true -> (String.length s <= n)%nat -> parse_glob n s = map GChar (String.list_ascii_of_string s).
Proof.
  revert n. induction s as [|c s IH]; intros n Hl Hn; [by destruct n|]. destruct n as [|n]; cbn in Hn; [lia|].
  unfold literal in Hl. cbn in Hl. apply andb_true_iff in Hl as [Hc Hl].
  apply negb_true_iff, orb_false_iff in Hc as [H1 Hc]. apply orb_false_iff in Hc as [H2 Hc].
  apply orb_false_iff in Hc as [H3 _]. cbn. rewrite H1, H2, H3. f_equal. apply IH; [done|lia].
Qed.
Lemma literal_match p s : literal p = true -> fnmatchcase s p = true -> s = p.
Proof.
  intros Hl. unfold fnmatchcase. rewrite parse_literal by done. clear Hl. revert s.
  induction p as [|c p IH]; intros s; cbn.
  - by intros ?%empty_str_true.
  - destruct s as [|d s]; [done|]. intros [Hd Hs]%andb_true_iff. apply Ascii.eqb_eq in Hd as ->. f_equal. by apply IH.
Qed.
Lemma resource_literal p v : literal p = true -> _resource_matches p v = true -> v = p.
Proof. intros Hl [Hp%str_eqb_true|Hp]%orb_true_iff; [done|by apply literal_match]. Qed.

Section Broker.
Context `{Env}.
Context (approval_verifier : option (string -> LeaseRequest -> list CapabilityRequest -> M OsWorld json)).
#[local] Abbreviation issue := (issue approval_verifier).

Lemma covered_spec r a :
  _covered r a = true <->
  cr_action r = cr_action a /\ _resource_matches (cr_resource a) (cr_resource r) = true /\
  _constraints_within (cr_constraints r) (cr_constraints a) = true.
Proof. unfold _covered. rewrite !andb_true_iff, str_eqb_true. tauto. Qed.

(** the policy allows the permission, and does not forbid it *)
Definition permitted (policy : TaskAuthorityPolicy) (p : CapabilityRequest) : Prop :=
  (exists a, a ∈ tp_allowed policy /\ _covered p a = true) /\
  forall f, f ∈ tp_forbidden policy -> _covered p f = false.
Lemma judge_permissions_Ok policy ps critical :
  judge_permissions policy ps = Ok critical ->
  Forall (permitted policy) ps /\ critical = List.filter (fun p => _critical (cr_action p)) ps.
Proof.
  revert critical. induction ps as [|p ps IH]; intros critical; cbn; [by intros [= <-]|].
  destruct (existsb _ (tp_forbidden policy)) eqn:Ef; [done|].
  destruct (existsb _ (tp_allowed policy)) eqn:Ea; [|done]. cbn. intros (c & Hc & [= <-])%rbind_Ok.
  destruct (IH c Hc) as [Hall ->]. split; [constructor; [|done]|by destruct (_critical _)].
  split; [by apply existsb_elem|by apply existsb_false].
Qed.

(** the server's verifier accepted the approval for these permissions *)
Definition approved (approval_id : option string) (request : LeaseRequest) (critical : list CapabilityRequest) : Prop :=
  exists verify i w w', approval_verifier = Some verify /\ approval_id = Some i /\ i <> "" /\
    verify i request critical w = (Ok (JBool true), w').
Lemma verify_approval_Ok approval_id request critical w x w' :
  _verify_approval approval_verifier approval_id request critical w = (Ok x, w') ->
  critical = [] \/ approved approval_id request critical.
Proof.
  unfold _verify_approval. destruct (has_key approval_id) eqn:Ek; cbn [negb].
  - destruct approval_id as [i|]; [|done]. destruct approval_verifier as [verify|] eqn:Ev; [|done].
    intros (v & w1 & Hv & Hw)%bind_Ok. case_bool_decide as Et; [|done]. subst. right.
    exists verify, i, w, w1. split_and!; try done. cbn in Ek. by intros ->.
  - destruct critical; [by left|done].
Qed.

(** ** Limits *)

Lemma dict_update_get d u k v :
  dict_get k (dict_update d u) = Some v -> dict_get k d = Some v \/ (k, v) ∈ u.
Proof.
  unfold dict_update. revert d. induction u as [|[k' v'] u IH]; intros d; cbn; [by left|].
  intros [Hd|Hu]%IH; [|by right; constructor].
  rewrite dict_get_set in Hd. case_decide as Ek; [|by left]. right. injection Hd as <-. subst. constructor.
Qed.
Lemma dict_update_keeps d u k c :
  dict_get k d = Some c -> exists v, dict_get k (dict_update d u) = Some v /\ (v = c \/ (k, v) ∈ u).
Proof.
  intros Hc.
  assert (forall d, dict_get k d <> None -> dict_get k (dict_update d u) <> None) as Hs.
  { unfold dict_update. clear. induction u as [|[k' v'] u IH]; intros d Hd; cbn; [done|]. apply IH.
    rewrite dict_get_set. by case_decide. }
  destruct (dict_get k (dict_update d u)) as [v|] eqn:Ev; [|by destruct (Hs d); rewrite ?Hc].
  exists v. split; [done|]. destruct (dict_update_get _ _ _ _ Ev) as [Hd|Hu]; [left|by right].
  rewrite Hc in Hd. by injection Hd.
Qed.
(** a value that a ceiling admits: a number that is not above it, or its very value *)
Definition below (v ceiling : json) : Prop :=
  if is_number v && is_number ceiling then number_gt v ceiling = false else py_eq v ceiling = true.
(** what the lease may use: it has every ceiling of the policy, as it is or as a value
    that was asked and that the ceiling admits; and it has no other limit *)
Definition limits_within (request : LeaseRequest) (policy : TaskAuthorityPolicy) (limits : dict) : Prop :=
  forall k, match dict_get k (policy_limits policy) with
            | None => dict_get k limits = None
            | Some ceiling => exists v, dict_get k limits = Some v /\
                (v = ceiling \/ (k, v) ∈ lr_resource_limits request /\ below v ceiling)
            end.
Lemma constraints_within_get (requested allowed : dict) k v :
  _constraints_within requested allowed = true -> (k, v) ∈ requested ->
  exists ceiling, dict_get k allowed = Some ceiling /\ below v ceiling.
Proof.
  unfold _constraints_within. intros Hw Hin. destruct (is_nil allowed).
  { destruct requested; [by apply not_elem_of_nil in Hin|done]. }
  rewrite forallb_forall in Hw. specialize (Hw _ (proj1 (list_elem_of_In _ _) Hin)).
  unfold constraint_within in Hw. cbn [fst snd] in Hw. destruct (dict_get k allowed) as [c|]; [|done].
  exists c. split; [done|]. unfold below. destruct (_ && _); [by apply negb_true_iff|done].
Qed.
Lemma limits_attenuated (request : LeaseRequest) policy :
  _constraints_within (lr_resource_limits request) (policy_limits policy) = true ->
  limits_within request policy (dict_update (policy_limits policy) (lr_resource_limits request)).
Proof.
  intros Hw k. destruct (dict_get k (policy_limits policy)) as [c|] eqn:Ec.
  - destruct (dict_update_keeps _ (lr_resource_limits request) _ _ Ec) as (v & Hv & [->|Hin]);
      eexists; (split; [exact Hv|]); [by left|right]. split; [done|].
    destruct (constraints_within_get _ _ _ _ Hw Hin) as (c' & Hc' & Hb). rewrite Ec in Hc'. by injection Hc' as ->.
  - destruct (dict_get k (dict_update _ _)) as [v|] eqn:Ev; [|done].
    destruct (dict_update_get _ _ _ _ Ev) as [Hd|Hin]; [by rewrite Ec in Hd|].
    destruct (constraints_within_get _ _ _ _ Hw Hin) as (c' & Hc' & _). by rewrite Ec in Hc'.
Qed.
Lemma judge_extras_Ok request policy limits :
  judge_extras request policy = Ok limits ->
  lr_credential_names request ⊆ tp_credential_names policy /\
  (lr_network_destinations request = [] \/ tp_outbound_network policy = "allow-list") /\
  lr_network_destinations request ⊆ tp_network_destinations policy /\ limits_within request policy limits.
Proof.
  unfold judge_extras. destruct (subset_of (lr_credential_names _) _) eqn:Ec; [|done]. cbn [negb].
  destruct (negb (is_nil _) && _) eqn:En; [done|].
  destruct (subset_of (lr_network_destinations _) _) eqn:Ed; [|done]. cbn [negb].
  destruct (_constraints_within _ _) eqn:El; [|done]. cbn [negb]. intros [= <-].
  apply subset_of_true in Ec, Ed. split_and!; [done| |done|].
  - apply andb_false_iff in En as [En|En].
    + left. by destruct (lr_network_destinations request).
    + right. apply negb_false_iff, str_eqb_true in En. done.
  - by apply limits_attenuated.
Qed.
End Broker.

(** ** Leases *)

Section Leases.
Context `{Env}.
Context (approval_verifier : option (string -> LeaseRequest -> list CapabilityRequest -> M OsWorld json)).
#[local] Abbreviation issue := (issue approval_verifier).

(** the row that the store makes of [l] *)
Definition stored (lid : string) (l row : CapabilityOsLease) : Prop :=
  lease_id row = lid /\ lease_task_id row = lease_task_id l /\ lease_workload_id row = lease_workload_id l /\
  lease_artifact_digest row = lease_artifact_digest l /\ lease_permissions row = lease_permissions l /\
  lease_resource_limits row = lease_resource_limits l /\ lease_network row = lease_network l /\
  lease_credentials row = lease_credentials l /\ lease_policy_decision_id row = lease_policy_decision_id l /\
  lease_attestation_requirements row = lease_attestation_requirements l /\
  lease_runtime_profile row = lease_runtime_profile l /\ lease_status row = "active" /\
  lease_issued_at_ms row = lease_issued_at_ms l /\ lease_expires_at_ms row = lease_expires_at_ms l.
Lemma create_lease_Ok l w row w' :
  create_lease l w = (Ok row, w') ->
  exists lid, stored lid l row /\ db_leases (db w) !! lid = None /\
    db w' = set_db_leases (<[lid := row]> (db_leases (db w))) (db w).
Proof.
  unfold create_lease. intros (lid & w1 & Hn & (d & w2 & Hd & (x & w3 & Hc & (y & w4 & Hf & (z & w5 & Hw & Hr)%bind_Ok)%bind_Ok)%bind_Ok)%bind_Ok)%bind_Ok.
  apply query_Ok in Hd as [-> ->]. apply check_Ok in Hc as [Hc ->]. apply check_Ok in Hf as [Hf ->].
  apply write_Ok in Hw as [-> ->]. apply ret_Ok in Hr as [-> ->]. apply bool_decide_eq_true in Hc.
  injection Hn as <- <-. exists ("lease" +:+ "_" +:+ uuid_hex (uids w)). cbn in *. split_and!; done.
Qed.
Lemma record_decision_Ok d w x w' :
  record_policy_decision d w = (Ok x, w') -> w' = (w.1, set_os_decisions (os_decisions w.2 ++ [d]) w.2).
Proof.
  intros (rows & w1 & [= <- <-] & Hr)%bind_Ok. destruct (existsb _ _); [done|].
  apply bind_Ok in Hr as (y & w2 & [Hw1 Hw2]%on_right_Ok & [_ ->]%ret_Ok). injection Hw1 as Hy Hx. destruct w2; cbn in *. by subst.
Qed.

Lemma iter_list l : iter_or_empty (JList l) = Ok l.
Proof. by destruct l. Qed.

(** a lease that was issued *)
Record issued (request : LeaseRequest) (policy : TaskAuthorityPolicy) (approval_id : option string)
    (require_critical_approval : bool) (w' : OsWorld) (lease : CapabilityLease) : Prop := {
  is_permissions : cl_permissions lease = lr_permissions request;
  is_permitted : Forall (permitted policy) (lr_permissions request);
  is_approved : require_critical_approval = true ->
    List.filter (fun p => _critical (cr_action p)) (lr_permissions request) = [] \/
    approved approval_verifier approval_id request
      (List.filter (fun p => _critical (cr_action p)) (lr_permissions request));
  is_credentials : lr_credential_names request ⊆ tp_credential_names policy;
  is_network : lr_network_destinations request = [] \/ tp_outbound_network policy = "allow-list";
  is_destinations : lr_network_destinations request ⊆ tp_network_destinations policy;
  is_limits : limits_within request policy (cl_resource_limits lease);
  is_outbound : cl_network lease = [("outbound", JStr (tp_outbound_network policy));
                                    ("destinations", str_list (lr_network_destinations request))];
  is_names : cl_credentials lease = [("logicalNames", str_list (lr_credential_names request))];
  is_task : cl_task_id lease = lr_task_id request /\ cl_artifact_digest lease = lr_artifact_digest request;
  is_duration : cl_expires_at_ms lease
    = (cl_issued_at_ms lease + Z.min (lr_requested_lease_ms request) (tp_max_lease_ms policy))%Z;
  is_row : exists row, db_leases (db w'.1) !! cl_lease_id lease = Some row /\ lease_active row = true /\
    _lease_from_row row = Ok lease;
  is_decided : exists d, d ∈ os_decisions w'.2 /\ pd_decision_id d = cl_policy_decision_id lease /\
    pd_outcome d = "allow" /\ pd_task_id d = lr_task_id request /\ pd_artifact_digest d = lr_artifact_digest request;
}.

Lemma issue_issued request policy approval_id required w lease w' :
  Forall normal (lr_permissions request) ->
  issue request policy approval_id required w = (Ok lease, w') ->
  issued request policy approval_id required w' lease.
Proof.
  intros Hn Hi. unfold CapabilityAuthority.issue in Hi.
  apply bind_Ok in Hi as (did & w1 & Hdid & (at_ & w2 & Hat & (js & w3 & [Hjs ->]%lift_Ok & Hi)%bind_Ok)%bind_Ok).
  cbv zeta in Hi. apply bind_Ok in Hi as (limits & w4 & Hj & (d & w5 & Hd & (t & w6 & Ht & (row & w7 & Hrow & Hend)%bind_Ok)%bind_Ok)%bind_Ok).
  assert (judge_request approval_verifier request policy approval_id required w2 = (Ok limits, w4)) as Hjudge.
  { unfold catch in Hj. destruct (judge_request _ _ _ _ _ w2) as [[l|e] w0]; [done|].
    destruct (is_denied e); [|done]. by apply bind_Ok in Hj as (? & ? & _ & ?). }
  unfold judge_request in Hjudge. apply bind_Ok in Hjudge as (known & w8 & Hknown & Hjudge).
  destruct known; [|done]. cbn [negb] in Hjudge.
  apply bind_Ok in Hjudge as (critical & w9 & [Hp ->]%lift_Ok & (x & w10 & Ha & [He ->]%lift_Ok)%bind_Ok).
  apply judge_permissions_Ok in Hp as [Hperm ->].
  apply judge_extras_Ok in He as (Hc & Hnet & Hdst & Hlim).
  apply record_decision_Ok in Hd as ->. apply on_left_Ok in Ht as [Ht Ht2], Hrow as [Hrow Hrow2].
  apply create_lease_Ok in Hrow as (lid & Hst & _ & Hdb). apply lift_Ok in Hend as [Hend ->].
  destruct Hst as (H1 & H2 & H3 & H4 & H5 & H6 & H7 & H8 & H9 & H10 & H11 & H12 & H13 & H14).
  pose proof Hend as Hlease. unfold _lease_from_row in Hend. rewrite H5, H6, H7, H8, H10 in Hend.
  cbn [lease_permissions lease_resource_limits lease_network lease_credentials lease_attestation_requirements lease_row] in Hend.
  rewrite iter_list in Hend. cbn [rbind] in Hend. rewrite (requests_roundtrip _ _ Hn Hjs) in Hend. cbn [rbind] in Hend.
  rewrite dict_or_empty_obj in Hend. cbn [rbind] in Hend. rewrite dict_or_empty_obj in Hend. cbn [rbind] in Hend.
  rewrite dict_or_empty_obj in Hend. cbn [rbind] in Hend.
  change (get_or_empty "executionContext" _) with (Ok (JObj (lr_execution_context request))) in Hend.
  cbn [rbind] in Hend. rewrite dict_or_empty_obj in Hend. injection Hend as <-.
  cbn [lease_row lease_issued_at_ms lease_expires_at_ms lease_policy_decision_id] in *.
  split; cbn [cl_permissions cl_resource_limits cl_expires_at_ms cl_issued_at_ms cl_lease_id cl_policy_decision_id
    cl_network cl_credentials cl_task_id cl_artifact_digest]; try done.
  - intros ->. by apply verify_approval_Ok in Ha.
  - by rewrite H13, H14.
  - exists row. subst lid. rewrite Hdb. cbn [db_leases set_db_leases]. rewrite lookup_insert_eq. split_and!; [done| |exact Hlease].
    unfold lease_active. by rewrite H12.
  - eexists. rewrite Hrow2, Ht2. cbn. split; [apply elem_of_app; right; by apply list_elem_of_singleton|].
    rewrite H9. done.
Qed.

(** ** Uses *)

Lemma all_listed_strings texts l : all_listed texts (str_list l) = Ok true -> texts ⊆ l.
Proof.
  unfold all_listed, str_list. rewrite iter_list. cbn [rbind]. destruct (existsb _ _); [done|].
  intros [= Hall] t Ht. rewrite forallb_forall in Hall. specialize (Hall t (proj1 (list_elem_of_In _ _) Ht)).
  apply existsb_elem in Hall as (v & Hv & He). apply list_elem_of_fmap in Hv as (x & -> & Hx).
  cbn in He. by apply str_eqb_true in He as ->.
Qed.
(** what a lease that passes the checks of a use grants *)
Record usable (u : LeaseUse) (lease : CapabilityLease) : Prop := {
  us_permissions r : r ∈ lu_required_permissions u -> exists p, p ∈ cl_permissions lease /\ _covered r p = true;
  us_runtime p : lu_runtime_profile u = Some p -> cl_runtime_profile lease = p;
  us_limits : lu_resource_limits u = [] \/ _constraints_within (lu_resource_limits u) (cl_resource_limits lease) = true;
  us_network : lu_network_destinations u = [] \/
    py_eq (get "outbound" (cl_network lease)) (JStr "allow-list") = true /\
    all_listed (lu_network_destinations u) (get "destinations" (cl_network lease)) = Ok true;
  us_credentials : lu_credential_names u = [] \/
    all_listed (lu_credential_names u) (get "logicalNames" (cl_credentials lease)) = Ok true;
  us_context k v : (k, v) ∈ lu_execution_context u -> py_eq (get k (cl_execution_context lease)) v = true;
}.
Lemma check_lease_Ok u lease x : check_lease u lease = Ok x -> x = lease /\ usable u lease.
Proof.
  unfold check_lease. destruct (forallb _ (lu_required_permissions u)) eqn:Ep; [|done]. cbn [negb].
  destruct (match lu_runtime_profile u with
            | Some p => negb (str_eqb (cl_runtime_profile lease) p) | None => false end) eqn:Er; [done|].
  destruct (negb (is_nil (lu_resource_limits u)) && _) eqn:El; [done|].
  intros (a & Ha & (b & Hb & Hx)%rbind_Ok)%rbind_Ok. destruct (existsb _ (lu_execution_context u)) eqn:Ec; [done|].
  injection Hx as <-. split; [done|]. split.
  - intros r Hr. rewrite forallb_forall in Ep. apply existsb_elem, Ep. by apply list_elem_of_In.
  - intros p Hp. rewrite Hp in Er. apply negb_false_iff in Er. by apply str_eqb_true.
  - destruct (lu_resource_limits u); [by left|]. right. cbn [is_nil negb andb] in El. by apply negb_false_iff in El.
  - destruct (lu_network_destinations u); [by left|]. right. cbn [is_nil] in Ha.
    destruct (py_eq _ (JStr "allow-list")) eqn:Eo; [|done]. split; [done|]. cbn [negb] in Ha. by apply rbind_Ok in Ha as ([] & -> & ?).
  - destruct (lu_credential_names u); [by left|]. right. cbn [is_nil] in Hb. by apply rbind_Ok in Hb as ([] & -> & ?).
  - intros k v Hk. pose proof (proj1 (existsb_false _ _) Ec _ Hk) as Hn. by apply negb_false_iff in Hn.
Qed.
Lemma require_active_Ok lid u w lease w' :
  require_active lid u w = (Ok lease, w') ->
  exists row, db_leases (db w.1) !! lid = Some row /\ lease_active row = true /\
    (clock (ticks w.1) < lease_expires_at_ms row)%Z /\ lease_task_id row = lu_task_id u /\
    lease_artifact_digest row = lu_artifact_digest u /\ _lease_from_row row = Ok lease /\ usable u lease.
Proof.
  intros (found & w1 & [= <- <-] & (now & w2 & Hnow & Hr)%bind_Ok)%bind_Ok.
  apply on_left_Ok in Hnow as [[-> _]%now_Ok _]. destruct (db_leases (db w.1) !! lid) as [row|]; [|done].
  destruct (negb _ || _) eqn:Ea; [done|]. apply orb_false_iff in Ea as [Ea%negb_false_iff Ex%Z.leb_gt].
  destruct (str_eqb (lease_task_id _) _) eqn:Et; [|done]. destruct (str_eqb (lease_artifact_digest _) _) eqn:Ed; [|done].
  cbn [negb] in Hr. apply str_eqb_true in Et, Ed.
  apply bind_Ok in Hr as (l & w3 & [Hl ->]%lift_Ok & [Hc _]%lift_Ok). apply check_lease_Ok in Hc as [-> Hu].
  exists row. split_and!; try done.
Qed.
(** a use that does not find an active lease of its task is denied *)
Lemma require_active_denied lid u w :
  (forall row, db_leases (db w.1) !! lid = Some row -> lease_task_id row = lu_task_id u -> lease_active row = false) ->
  exists m, (require_active lid u w).1 = Err (AuthorityDenied m).
Proof.
  intros Hrow. unfold require_active, get_lease, gets, bind, on_left, _now_ms, deny, raise. cbn [fst snd].
  destruct (db_leases (db w.1) !! lid) as [row|]; [|by eexists].
  destruct (negb (str_eqb (lease_status row) "active") || _) eqn:Ea; [by eexists|].
  destruct (str_eqb (lease_task_id row) _) eqn:Et; [|by eexists]. apply str_eqb_true in Et.
  specialize (Hrow row eq_refl Et). unfold lease_active in Hrow. by rewrite Hrow in Ea.
Qed.

(** what of a row says what it grants: it never changes after the row was made *)
Definition same_grant (row row' : CapabilityOsLease) : Prop :=
  row' = {| lease_id := lease_id row; lease_task_id := lease_task_id row; lease_workload_id := lease_workload_id row;
     lease_artifact_digest := lease_artifact_digest row; lease_permissions := lease_permissions row;
     lease_resource_limits := lease_resource_limits row; lease_network := lease_network row;
     lease_credentials := lease_credentials row; lease_approval_id := lease_approval_id row;
     lease_parent_lease_id := lease_parent_lease_id row;
     lease_policy_decision_id := lease_policy_decision_id row;
     lease_attestation_requirements := lease_attestation_requirements row;
     lease_runtime_profile := lease_runtime_profile row; lease_status := lease_status row';
     lease_issued_at_ms := lease_issued_at_ms row; lease_expires_at_ms := lease_expires_at_ms row;
     lease_revoked_at_ms := lease_revoked_at_ms row' |}.

Lemma from_row_Ok row l :
  _lease_from_row row = Ok l ->
  cl_task_id l = lease_task_id row /\ cl_artifact_digest l = lease_artifact_digest row /\
  cl_issued_at_ms l = lease_issued_at_ms row /\ cl_expires_at_ms l = lease_expires_at_ms row.
Proof.
  unfold _lease_from_row. intros (? & _ & (? & _ & (? & _ & (? & _ & (? & _ & (? & _ & (? & _ & [= <-])%rbind_Ok)%rbind_Ok)%rbind_Ok)%rbind_Ok)%rbind_Ok)%rbind_Ok)%rbind_Ok.
  done.
Qed.
(** a lease that was made of the same grant grants the same *)
Lemma from_row_same row row1 l used :
  same_grant row row1 -> _lease_from_row row = Ok l -> _lease_from_row row1 = Ok used ->
  cl_permissions used = cl_permissions l /\ cl_network used = cl_network l /\ cl_credentials used = cl_credentials l /\
  cl_resource_limits used = cl_resource_limits l /\ cl_runtime_profile used = cl_runtime_profile l /\
  cl_execution_context used = cl_execution_context l.
Proof.
  intros -> Hl Hu. unfold _lease_from_row in *. cbn in Hu.
  apply rbind_Ok in Hl as (a & Ha & Hl), Hu as (a' & Ha' & Hu). rewrite Ha in Ha'. injection Ha' as <-.
  apply rbind_Ok in Hl as (b & Hb & Hl), Hu as (b' & Hb' & Hu). rewrite Hb in Hb'. injection Hb' as <-.
  apply rbind_Ok in Hl as (c & Hc & Hl), Hu as (c' & Hc' & Hu). rewrite Hc in Hc'. injection Hc' as <-.
  apply rbind_Ok in Hl as (d & Hd & Hl), Hu as (d' & Hd' & Hu). rewrite Hd in Hd'. injection Hd' as <-.
  apply rbind_Ok in Hl as (e & He & Hl), Hu as (e' & He' & Hu). rewrite He in He'. injection He' as <-.
  apply rbind_Ok in Hl as (f & Hf & Hl), Hu as (f' & Hf' & Hu). rewrite Hf in Hf'. injection Hf' as <-.
  apply rbind_Ok in Hl as (g & Hg & [= <-]), Hu as (g' & Hg' & [= <-]). rewrite Hg in Hg'. by injection Hg' as <-.
Qed.

(** C11. Authority never exceeds the policy: whatever a lease is used for later, by the
    task and for the artifact it was issued for and before it ends, its action and its
    resource are those of a permission of the policy it was issued under, and so are its
    credentials and its destinations.  (The resources asked for are texts, no patterns;
    [patterns_escalate] shows why.) *)
Theorem authority_never_exceeds_policy request policy approval_id required w lease w' row row1 u w1 used w2 :
  Forall normal (lr_permissions request) ->
  Forall (fun p => literal (cr_resource p) = true) (lr_permissions request) ->
  issue request policy approval_id required w = (Ok lease, w') ->
  db_leases (db w'.1) !! cl_lease_id lease = Some row ->
  db_leases (db w1.1) !! cl_lease_id lease = Some row1 -> same_grant row row1 ->
  require_active (cl_lease_id lease) u w1 = (Ok used, w2) ->
  (forall r, r ∈ lu_required_permissions u -> exists a, a ∈ tp_allowed policy /\
     cr_action r = cr_action a /\ _resource_matches (cr_resource a) (cr_resource r) = true) /\
  lu_credential_names u ⊆ tp_credential_names policy /\ lu_network_destinations u ⊆ tp_network_destinations policy /\
  (lu_network_destinations u = [] \/ tp_outbound_network policy = "allow-list") /\
  lu_task_id u = lr_task_id request /\ lu_artifact_digest u = lr_artifact_digest request /\
  (clock (ticks w1.1) < cl_issued_at_ms lease + tp_max_lease_ms policy)%Z.
Proof.
  intros Hn Hl Hi Hrow Hrow1 Hsame Hu.
  pose proof (issue_issued request policy approval_id required w lease w' Hn Hi) as Hd.
  destruct (require_active_Ok _ _ _ _ _ Hu) as (row2 & Hrow2 & _ & Hclock & Ht & Ha & Hfrom & Hus).
  rewrite Hrow1 in Hrow2. injection Hrow2 as <-.
  destruct (is_row _ _ _ _ _ _ Hd) as (row3 & Hrow3 & _ & Hfrom3). rewrite Hrow in Hrow3. injection Hrow3 as <-.
  destruct (from_row_same _ _ _ _ Hsame Hfrom3 Hfrom) as (Hp & Hnet & Hcr & _ & _ & _).
  destruct (from_row_Ok _ _ Hfrom3) as (H1 & H2 & _ & H4). rewrite Hsame in Ht, Ha, Hclock. cbn in Ht, Ha, Hclock.
  destruct (is_task _ _ _ _ _ _ Hd) as [Hti Hai].
  pose proof (us_network _ _ Hus) as Hdest. rewrite Hnet, (is_outbound _ _ _ _ _ _ Hd) in Hdest.
  pose proof (us_credentials _ _ Hus) as Hcred. rewrite Hcr, (is_names _ _ _ _ _ _ Hd) in Hcred.
  pose proof (is_duration _ _ _ _ _ _ Hd).
  split_and!; [|destruct Hcred as [->|Hc]; [set_solver|]| | |congruence|congruence|lia].
  - intros r Hr. destruct (us_permissions _ _ Hus r Hr) as (p & Hin & Hpc).
    rewrite Hp, (is_permissions _ _ _ _ _ _ Hd) in Hin.
    apply covered_spec in Hpc as (Hact & Hres & _). rewrite Forall_forall in Hl.
    apply resource_literal in Hres; [|by apply Hl].
    pose proof (is_permitted _ _ _ _ _ _ Hd) as Hperm. rewrite Forall_forall in Hperm.
    destruct (Hperm p Hin) as [(a & Hain & Hacov) _]. apply covered_spec in Hacov as (Ha1 & Ha2 & _).
    exists a. split_and!; [done|congruence|congruence].
  - etransitivity; [exact (all_listed_strings _ _ Hc)|]. exact (is_credentials _ _ _ _ _ _ Hd).
  - destruct Hdest as [->|[_ Hlist]]; [set_solver|].
    etransitivity; [exact (all_listed_strings _ _ Hlist)|]. exact (is_destinations _ _ _ _ _ _ Hd).
  - destruct Hdest as [->|[Hout _]]; [by left|]. right. by apply str_eqb_true in Hout.
Qed.

(** ** Denials *)

(** the verifier of approvals touches neither leases nor decisions *)
Definition verifier_reads : Prop :=
  forall verify i r critical w, approval_verifier = Some verify ->
    db_leases (db (verify i r critical w).2.1) = db_leases (db w.1) /\
    os_decisions (verify i r critical w).2.2 = os_decisions w.2.
Lemma judge_frame request policy approval_id required w :
  verifier_reads ->
  db_leases (db (judge_request approval_verifier request policy approval_id required w).2.1) = db_leases (db w.1) /\
  os_decisions (judge_request approval_verifier request policy approval_id required w).2.2 = os_decisions w.2.
Proof.
  intros Hv. unfold judge_request, artifact_exists, os_query, bind, gets. destruct (bool_decide _); [|done]. cbn [negb].
  unfold lift at 1. destruct (judge_permissions policy _) as [critical|e]; [|done].
  assert (forall m : M OsWorld unit,
    db_leases (db (m w).2.1) = db_leases (db w.1) /\ os_decisions (m w).2.2 = os_decisions w.2 ->
    db_leases (db (match m w with
       | (Ok _, w'') => lift (judge_extras request policy) w'' | (Err e, w'') => (Err e, w'') end).2.1) = db_leases (db w.1) /\
    os_decisions (match m w with
       | (Ok _, w'') => lift (judge_extras request policy) w'' | (Err e, w'') => (Err e, w'') end).2.2 = os_decisions w.2)
    as Hthen.
  { intros m. by destruct (m w) as [[]]. }
  apply Hthen. destruct required; [|done]. unfold _verify_approval. destruct (negb (has_key _)); [by destruct (negb _)|].
  destruct approval_verifier as [verify|] eqn:Ev; [|done]. unfold bind.
  pose proof (Hv verify (default "" approval_id) request critical w Ev) as Hw.
  destruct (verify _ request critical w) as [[v|e] w1]; [|done]. by case_bool_decide.
Qed.

(** what the store keeps of a lease can be read *)
Lemma stored_reads request policy approval_id did js limits at_ lid row :
  Forall normal (lr_permissions request) -> all_Ok (map request_to_dict (lr_permissions request)) = Ok js ->
  stored lid (lease_row request policy approval_id did js limits at_) row -> is_ok (_lease_from_row row) = true.
Proof.
  intros Hn Hjs (H1 & H2 & H3 & H4 & H5 & H6 & H7 & H8 & H9 & H10 & _).
  unfold _lease_from_row. rewrite H5, H6, H7, H8, H10. cbn [lease_permissions lease_resource_limits lease_network
    lease_credentials lease_attestation_requirements lease_row].
  rewrite iter_list. cbn [rbind]. rewrite (requests_roundtrip _ _ Hn Hjs). cbn [rbind].
  do 3 (rewrite dict_or_empty_obj; cbn [rbind]).
  change (get_or_empty "executionContext" _) with (Ok (JObj (lr_execution_context request))).
  cbn [rbind]. by rewrite dict_or_empty_obj.
Qed.
Lemma create_lease_raises l w m : (create_lease l w).1 <> Err (AuthorityDenied m).
Proof.
  unfold create_lease, bind, _new_id, query, check, gets, write, modify, ret, raise, guard_. cbn.
  repeat case_match; naive_solver.
Qed.

Lemma normals_to_dict rs : Forall normal rs -> exists js, all_Ok (map request_to_dict rs) = Ok js.
Proof.
  induction 1 as [|r rs Hr _ [js IH]]; [by exists []|]. destruct (normal_roundtrip r Hr) as (j & Hj & _).
  exists (j :: js). cbn. by rewrite Hj, IH.
Qed.

(** A denial leaves a record and nothing else: when a request is denied no lease
    exists that did not, and exactly one decision was added, which names the task, the
    artifact and the reason. *)
Theorem denial_is_recorded request policy approval_id required w m w' :
  verifier_reads -> Forall normal (lr_permissions request) ->
  issue request policy approval_id required w = (Err (AuthorityDenied m), w') ->
  db_leases (db w'.1) = db_leases (db w.1) /\
  exists d, os_decisions w'.2 = os_decisions w.2 ++ [d] /\ pd_outcome d = "deny" /\
    pd_reason_code d = Some (str_take 200 m) /\ pd_task_id d = lr_task_id request /\
    pd_artifact_digest d = lr_artifact_digest request /\ pd_approval_id d = approval_id.
Proof.
  intros Hv Hn Hi. unfold CapabilityAuthority.issue in Hi.
  apply bind_raises in Hi as [Hi|(did & w1 & Hdid & Hi)]; [done|].
  apply bind_raises in Hi as [Hi|(at_ & w2 & Hat & Hi)]; [done|].
  destruct (normals_to_dict _ Hn) as [js Hjs]. rewrite Hjs in Hi.
  apply bind_raises in Hi as [Hi|(js' & w3 & [[= <-] ->]%lift_Ok & Hi)]; [done|].
  assert (db_leases (db w2.1) = db_leases (db w.1) /\ os_decisions w2.2 = os_decisions w.2) as [Hl Hd].
  { apply on_left_Ok in Hdid as [[= <- Hw1] E1], Hat as [[_ Hw2]%now_Ok E2]. rewrite Hw2, E2, <- Hw1, E1. done. }
  cbv zeta in Hi. apply bind_raises in Hi as [Hi|(limits & w4 & _ & Hi)].
  - destruct (judge_frame request policy approval_id required w2 Hv) as [Jl Jd]. unfold catch in Hi.
    destruct (judge_request _ _ _ _ _ w2) as [[l|e] w0]; [done|]. cbn [snd] in Jl, Jd.
    destruct (is_denied e) eqn:Ee; [|injection Hi as -> _; done]. destruct e; try done.
    apply bind_raises in Hi as [Hi|(x & w5 & Hx & [= -> ->])].
    { unfold record_policy_decision, os_query, bind, gets in Hi. by destruct (existsb _ _). }
    apply record_decision_Ok in Hx as ->. cbn [fst snd]. split; [by rewrite Jl|].
    eexists. split; [cbn; rewrite Jd, Hd; done|done].
  - exfalso. apply bind_raises in Hi as [Hi|(x & w5 & _ & Hi)].
    { unfold record_policy_decision, os_query, bind, gets in Hi. by destruct (existsb _ _). }
    apply bind_raises in Hi as [Hi|(issued_at & w6 & _ & Hi)]; [done|].
    apply bind_raises in Hi as [Hi|(row & w7 & Hrow & Hi)].
    { apply (f_equal fst) in Hi. unfold on_left in Hi.
      pose proof (create_lease_raises (lease_row request policy approval_id did js limits issued_at) w6.1 m) as Hc.
      destruct (create_lease _ _) as [r ?]. cbn in Hc, Hi. congruence. }
    apply on_left_Ok in Hrow as [(lid & Hst & _ & _)%create_lease_Ok _].
    pose proof (stored_reads _ _ _ _ _ _ _ _ _ Hn Hjs Hst) as Hok. apply lift_raises in Hi as [Hi _].
    by rewrite Hi in Hok.
Qed.

(** ** The end of authority *)

Lemma retired_same_grant now PL PM d d' i row row' :
  retired now PL PM d d' -> db_leases d !! i = Some row -> db_leases d' !! i = Some row' -> same_grant row row'.
Proof.
  intros Hr Hi Hi'. destruct (leases_retired _ _ _ _ _ Hr i) as [E|(l & Hl & _ & _ & E)]; rewrite E in Hi'.
  - rewrite Hi in Hi'. injection Hi' as <-. by destruct row.
  - rewrite Hi in Hl. injection Hl as <-. injection Hi' as <-. by destruct row.
Qed.
Lemma expired_denied lid u w row :
  db_leases (db w.1) !! lid = Some row -> (lease_expires_at_ms row <= clock (ticks w.1))%Z ->
  require_active lid u w = (Err (AuthorityDenied "capability lease is inactive or expired"),
                            ({| db := db w.1; ticks := S (ticks w.1); uids := uids w.1 |}, w.2)).
Proof.
  intros Hrow Hx. unfold require_active, get_lease, gets, bind, on_left, _now_ms. cbn [fst snd]. rewrite Hrow.
  apply Z.leb_le in Hx. by rewrite Hx, orb_true_r.
Qed.

(** only leases that [p] selects are retired, and every one of them *)
Definition ended (p : CapabilityOsLease -> bool) (w w' : OsWorld) : Prop :=
  w'.2 = w.2 /\
  forall i, match db_leases (db w.1) !! i with
            | None => db_leases (db w'.1) !! i = None
            | Some row => exists row', db_leases (db w'.1) !! i = Some row' /\ same_grant row row' /\
                if p row then lease_active row' = false else row' = row
            end.
Lemma bulk_ended q now w :
  exists n w', on_left (retire_leases (fun l => q l && lease_active l) now) w = (Ok n, w') /\ ended q w w'.
Proof.
  eexists _, _. split; [reflexivity|]. split; [done|]. intros i. cbn. unfold update_where. rewrite lookup_fmap.
  destruct (db_leases (db w.1) !! i) as [row|]; cbn; [|done].
  destruct (q row) eqn:Eq, (lease_active row) eqn:Ea; cbn; eexists; (split; [done|]); split; try done; by destruct row.
Qed.

(** C22. Authority ends: closing a task and revoking a lease end exactly the leases of
    the task, or that lease, and change of them only their status and the time it
    changed; afterwards every use of a lease of the task, or of that lease, is denied,
    whatever it asks for.  A lease whose time is over is denied without either. *)
Theorem authority_ends task lid w :
  (exists n w', close_task task w = (Ok n, w') /\ ended (fun l => str_eqb (lease_task_id l) task) w w' /\
     forall i u, lu_task_id u = task -> exists m, (require_active i u w').1 = Err (AuthorityDenied m)) /\
  (exists b w', revoke lid w = (Ok b, w') /\ ended (fun l => str_eqb (lease_id l) lid) w w' /\
     (map_Forall (fun i l => lease_id l = i) (db_leases (db w.1)) ->
      forall u, exists m, (require_active lid u w').1 = Err (AuthorityDenied m))) /\
  (forall row u, db_leases (db w.1) !! lid = Some row -> (lease_expires_at_ms row <= clock (ticks w.1))%Z ->
     (require_active lid u w).1 = Err (AuthorityDenied "capability lease is inactive or expired")).
Proof.
  split_and!.
  - unfold close_task. pose proof (bulk_ended (fun l => str_eqb (lease_task_id l) task) (clock (ticks w.1))
      ({| db := db w.1; ticks := S (ticks w.1); uids := uids w.1 |}, w.2)) as (n & w' & Hr & He).
    exists n, w'. split; [exact Hr|]. split; [exact He|]. intros i u Hu. apply require_active_denied. intros row Hrow Ht.
    destruct He as [_ He]. specialize (He i). cbn in He. destruct (db_leases (db w.1) !! i) as [row0|]; [|congruence].
    destruct He as (row' & Hrow' & Hs & Hp). rewrite Hrow in Hrow'. injection Hrow' as <-.
    rewrite Hs in Ht. cbn in Ht. by rewrite (proj2 (str_eqb_true _ _)) in Hp by congruence.
  - unfold revoke. pose proof (bulk_ended (fun l => str_eqb (lease_id l) lid) (clock (ticks w.1))
      ({| db := db w.1; ticks := S (ticks w.1); uids := uids w.1 |}, w.2)) as (n & w' & Hr & He).
    exists (negb (n =? 0)%Z), w'. split.
    { unfold revoke_lease, bind, on_left, _now_ms in *. cbn in *. by injection Hr as <- <-. }
    split; [exact He|]. intros Hkey u. apply require_active_denied. intros row Hrow _.
    destruct He as [_ He]. specialize (He lid). cbn in He. destruct (db_leases (db w.1) !! lid) as [row0|] eqn:E0; [|congruence].
    destruct He as (row' & Hrow' & _ & Hp). rewrite Hrow in Hrow'. injection Hrow' as <-.
    by rewrite (proj2 (str_eqb_true _ _)) in Hp by by apply Hkey.
  - intros row u Hrow Hx. by rewrite (expired_denied _ _ _ _ Hrow Hx).
Qed.

End Leases.

(** ** Standing policies *)

Section Providers.
Context `{Env}.

Lemma filter_filter {A} (f g : A -> bool) l : List.filter f (List.filter g l) = List.filter (fun x => g x && f x) l.
Proof. induction l as [|x l IH]; [done|]. cbn. destruct (g x); cbn; [|done]. destruct (f x); by rewrite IH. Qed.
Lemma filter_none {A} (f : A -> bool) l : List.filter f l = [] <-> forall x, x ∈ l -> f x = false.
Proof.
  induction l as [|x l IH]; cbn; [split; [by intros _ ? ?%elem_of_nil|done]|].
  destruct (f x) eqn:E; [split; [done|intros Hn; rewrite (Hn x) in E; [done|left]]|]. rewrite IH.
  split; [intros Hn y [->|Hy]%elem_of_cons; [done|by apply Hn]|intros Hn y Hy; apply Hn; by right].
Qed.
Lemma filter_one {A} (f : A -> bool) l x :
  List.filter f l = [x] <-> exists l1 l2, l = l1 ++ x :: l2 /\ f x = true /\ forall y, y ∈ l1 ++ l2 -> f y = false.
Proof.
  split.
  - induction l as [|z l IH]; [done|]. cbn. destruct (f z) eqn:E.
    + intros [= -> Hl]. exists [], l. split_and!; [done|done|]. by apply filter_none.
    + intros (l1 & l2 & -> & Hx & Hn)%IH. exists (z :: l1), l2. split_and!; [done|done|].
      intros y [->|Hy]%elem_of_cons; [done|by apply Hn].
  - intros (l1 & l2 & -> & Hx & Hn). rewrite List.filter_app. cbn. rewrite Hx.
    rewrite (proj2 (filter_none f l1)), (proj2 (filter_none f l2)); [done| |];
      intros y Hy; apply Hn, elem_of_app; [by right|by left].
Qed.

(** [r] is the only rule for the task that is as specific as any *)
Definition rules_out (matching : StandingAuthorityRule -> bool) (rules : list StandingAuthorityRule)
    (r : StandingAuthorityRule) : Prop :=
  exists l1 l2, rules = l1 ++ r :: l2 /\ matching r = true /\
    forall r', r' ∈ l1 ++ l2 -> matching r' = true -> (specificity r' < specificity r)%Z.
Lemma resolve_rules_some rules task artifact workload policy :
  resolve_rules rules task artifact workload = Ok (Some policy) <->
  exists r, rules_out (rule_matches task artifact workload) rules r /\ sr_policy r = policy.
Proof.
  unfold resolve_rules. set (matching := rule_matches task artifact workload).
  destruct (max_of (map specificity (List.filter matching rules))) as [highest|] eqn:Em.
  - rewrite filter_filter. apply max_of_spec in Em as [Hin Hmax]. split.
    + destruct (List.filter (fun _ => _) rules) as [|r [|]] eqn:Ef; [done| |done]. intros [= <-].
      apply filter_one in Ef as (l1 & l2 & -> & [Hm Hs%Z.eqb_eq]%andb_true_iff & Hn). exists r. split; [|done].
      exists l1, l2. split_and!; [done|done|]. intros r' Hr' Hm'. specialize (Hn r' Hr'). cbn in Hn. rewrite Hm' in Hn.
      apply Z.eqb_neq in Hn. assert (specificity r' <= highest)%Z; [|lia]. apply Hmax, list_elem_of_fmap.
      exists r'. split; [done|]. apply list_elem_of_In, List.filter_In. split; [|done]. apply list_elem_of_In.
      apply elem_of_app in Hr' as [?|?]; apply elem_of_app; [by left|right; by right].
    + intros (r & (l1 & l2 & -> & Hm & Hlow) & <-).
      assert (specificity r <= highest)%Z as Hle.
      { apply Hmax, list_elem_of_fmap. exists r. split; [done|]. apply list_elem_of_In, List.filter_In. split; [|done].
        apply list_elem_of_In, elem_of_app. right. left. }
      assert (specificity r = highest) as Hs.
      { apply list_elem_of_fmap in Hin as (x & Hx & Hinx). apply list_elem_of_In, List.filter_In in Hinx as [Hinx Hmx].
        apply list_elem_of_In, elem_of_app in Hinx. rewrite elem_of_cons in Hinx.
        assert (x ∈ l1 ++ l2 \/ x = r) as [Hd| ->]; [|specialize (Hlow x Hd Hmx); lia|done].
        rewrite elem_of_app. tauto. }
      rewrite (proj2 (filter_one _ _ r)); [done|]. exists l1, l2. split_and!; [done| |].
      * by rewrite Hm, Hs, Z.eqb_refl.
      * intros y Hy. destruct (matching y) eqn:My; [|done]. specialize (Hlow y Hy My). apply Z.eqb_neq. lia.
  - split; [done|]. intros (r & (l1 & l2 & -> & Hm & _) & _). destruct (List.filter _ _) eqn:Ef; [|done].
    rewrite (proj1 (filter_none _ _) Ef r) in Hm; [done|]. apply elem_of_app. right. left.
Qed.

(** C23. A policy comes from exactly one place: the configuration yields a policy for a
    workload exactly when it is a list of at most 256 rules that are all well-formed and
    one of those enabled matches and is more specific than every other that does.  A
    configuration that is no such list is a denial, or no policy if there is none. *)
Theorem policies_fail_closed raw task artifact workload policy :
  resolve_config raw task artifact workload = Ok (Some policy) <->
  exists items rules r, raw = JList items /\ (len_list items <= 256)%Z /\ all_Ok (map _rule_from_dict items) = Ok rules /\
    rules_out (rule_matches task artifact workload) (omap id rules) r /\ sr_policy r = policy.
Proof.
  unfold resolve_config. split.
  - destruct raw as [| | | | |items|]; try done. destruct (256 <? len_list items)%Z eqn:El; [done|].
    destruct (all_Ok _) as [rules|[]] eqn:Er; try done. intros (r & Hr & Hp)%resolve_rules_some.
    apply Z.ltb_ge in El. eauto 10.
  - intros (items & rules & r & -> & Hl & Hr & Ho). apply Z.ltb_ge in Hl. rewrite Hl, Hr.
    apply resolve_rules_some. eauto.
Qed.
End Providers.

(** ** Isolated builds and runs *)

Section Isolation.
Context `{Env}.
Context (approval_verifier : option (string -> LeaseRequest -> list CapabilityRequest -> M OsWorld json)).

(** what a workload of isolation may do *)
Definition isolated_action (workload : string) : option string :=
  if startswith "tool-build:" workload then Some "runtime.build"
  else if startswith "tool-run:" workload then Some "runtime.run" else None.
Definition isolation_policy (c : IsolationCeilings) (allowed : CapabilityRequest) : TaskAuthorityPolicy :=
  {| tp_allowed := [allowed]; tp_forbidden := [];
     tp_max_lease_ms := Z.min 600000 (ic_wall_time_ms c + 5000); tp_max_calls := Some 1%Z;
     tp_max_bytes_read := None; tp_max_bytes_written := None; tp_max_network_bytes := None;
     tp_outbound_network := "deny"; tp_network_destinations := []; tp_credential_names := [];
     tp_resource_limits := isolation_limits c |}.
Lemma resolve_isolation_some c artifact workload policy :
  resolve_isolation c artifact workload = Ok (Some policy) ->
  exists action allowed, isolated_action workload = Some action /\
    CapabilityRequest_new action ("artifact:" +:+ artifact) [] = Ok allowed /\ policy = isolation_policy c allowed.
Proof.
  unfold resolve_isolation, isolated_action. cbv zeta.
  destruct (startswith "tool-build:" workload); [|destruct (startswith "tool-run:" workload); [|done]];
    intros (allowed & Ha & (p & Hp & [= <-])%rbind_Ok)%rbind_Ok; eexists _, allowed; (split_and!; [done|exact Ha|]);
    unfold TaskAuthorityPolicy_post_init in Hp; cbn -[Z.leb Z.min] in Hp; (case_match; [done|]); by injection Hp as <-.
Qed.
Lemma int_within n z : number_gt (JInt n) (JInt z) = false -> (n <= z)%Z.
Proof.
  unfold number_gt. intros Hgt%bool_decide_eq_false. cbn in Hgt. destruct (Z.compare_spec n z); [lia|lia|done].
Qed.

Lemma int_refl z : number_gt (JInt z) (JInt z) = false.
Proof. unfold number_gt. cbn. by rewrite Z.compare_refl. Qed.
Lemma admitted_int v z : below v (JInt z) ->
  is_number v = true /\ number_gt v (JInt z) = false /\ (forall n, v = JInt n -> (n <= z)%Z).
Proof.
  unfold below. rewrite andb_true_r. destruct (is_number v) eqn:En.
  - intros Hg. split_and!; [done|done|]. intros n ->. by apply int_within.
  - by destruct v.
Qed.
Lemma literal_strip s : literal s = true -> literal (strip s) = true.
Proof.
  assert (forall s, literal s = true -> literal (lstrip s) = true) as Hleft.
  { induction s0 as [|c s0 IH]; [done|]. unfold literal in *. cbn. intros [Hc Hs]%andb_true_iff.
    destruct (is_space c); [by apply IH|]. cbn. by rewrite Hc, Hs. }
  intros Hs%Hleft. unfold strip. revert Hs. generalize (lstrip s). induction s0 as [|c s0 IH]; [done|].
  unfold literal in *. cbn. intros [Hc Hs]%andb_true_iff. destruct (is_space c && _); [done|]. cbn. rewrite Hc. by apply IH.
Qed.

(** C24. Isolation confines: a lease that is issued under the server's own policy of
    isolated builds and runs permits the one action of its kind of workload, on the
    artifact it is for and without conditions; it names no credential and no
    destination, denies the network, carries every one of the ceilings and that of one
    call, each as it is or as a value that is not above it (a whole number then is at
    most the ceiling; "NaN" is above nothing), and lasts at most ten minutes. *)
Theorem isolation_confines c artifact workload policy request approval_id required w lease w' :
  resolve_isolation c artifact workload = Ok (Some policy) -> literal artifact = true ->
  Forall normal (lr_permissions request) ->
  issue approval_verifier request policy approval_id required w = (Ok lease, w') ->
  (exists action, isolated_action workload = Some action /\
     Forall (fun p => p = {| cr_action := action; cr_resource := strip ("artifact:" +:+ artifact); cr_constraints := [] |})
       (cl_permissions lease)) /\
  cl_network lease = [("outbound", JStr "deny"); ("destinations", JList [])] /\
  cl_credentials lease = [("logicalNames", JList [])] /\
  (forall k ceiling, dict_get k (isolation_limits c ++ [("maxCalls", JInt 1)]) = Some (JInt ceiling) ->
     exists v, dict_get k (cl_resource_limits lease) = Some v /\ is_number v = true /\
       number_gt v (JInt ceiling) = false /\ (forall n, v = JInt n -> (n <= ceiling)%Z)) /\
  (forall k v, dict_get k (cl_resource_limits lease) = Some v ->
     is_Some (dict_get k (isolation_limits c ++ [("maxCalls", JInt 1)]))) /\
  (cl_expires_at_ms lease <= cl_issued_at_ms lease + 600000)%Z.
Proof.
  intros Hr Hl Hn Hi. apply (issue_issued approval_verifier) in Hi; [|done]. destruct Hi as [Hperm Hpermitted _ Hcred Hnet _ Hlim Hout Hnames _ Hdur _ _].
  apply resolve_isolation_some in Hr as (action & allowed & Hact & Hnew & ->).
  cbn [isolation_policy tp_allowed tp_outbound_network tp_network_destinations tp_credential_names tp_max_lease_ms] in *.
  assert (cr_action allowed = action /\ cr_resource allowed = strip ("artifact:" +:+ artifact) /\ cr_constraints allowed = [])
    as (Ea & Eres & Ec).
  { apply request_new_Ok in Hnew as (-> & -> & -> & _). split_and!; [|done|done]. unfold isolated_action in Hact.
    destruct (startswith _ _); [|destruct (startswith _ _); [|done]]; by injection Hact as <-. }
  split_and!.
  - exists action. split; [done|]. rewrite Hperm. apply (Forall_impl _ _ _ Hpermitted). intros p [(a & Hin & Hcov) _].
    apply list_elem_of_singleton in Hin as ->. apply covered_spec in Hcov as (Hpa & Hpr & Hpc).
    rewrite Eres in Hpr. apply resource_literal in Hpr; [|apply literal_strip; exact Hl].
    rewrite Ec in Hpc. unfold _constraints_within in Hpc. cbn in Hpc. destruct p as [pa pr [|]]; [|done]. cbn in *. by subst.
  - rewrite Hout. by destruct Hnet as [-> | [=]].
  - rewrite Hnames. by destruct (lr_credential_names request) as [|x l]; [|exfalso; apply (elem_of_nil x), Hcred; left].
  - intros k ceiling Hk. specialize (Hlim k).
    change (policy_limits _) with (isolation_limits c ++ [("maxCalls", JInt 1)]) in Hlim. rewrite Hk in Hlim.
    destruct Hlim as (v & Hv & Hb). exists v. split; [done|]. apply admitted_int. destruct Hb as [->|[_ Hb]]; [|done].
    unfold below. cbn [is_number andb]. by apply int_refl.
  - intros k v Hv. specialize (Hlim k).
    change (policy_limits _) with (isolation_limits c ++ [("maxCalls", JInt 1)]) in Hlim.
    destruct (dict_get k (_ ++ _)); [done|]. by rewrite Hv in Hlim.
  - rewrite Hdur. cbn [isolation_policy tp_max_lease_ms]. lia.
Qed.
End Isolation.

(** ** Concrete instances *)

Definition request_of (action resource : string) (constraints : dict) : CapabilityRequest :=
  {| cr_action := action; cr_resource := resource; cr_constraints := constraints |}.
Definition demo_policy (allowed forbidden : list CapabilityRequest) : TaskAuthorityPolicy := {|
  tp_allowed := allowed; tp_forbidden := forbidden; tp_max_lease_ms := 30000; tp_max_calls := Some 5%Z;
  tp_max_bytes_read := None; tp_max_bytes_written := None; tp_max_network_bytes := None;
  tp_outbound_network := "allow-list"; tp_network_destinations := ["api.example.com"];
  tp_credential_names := ["token"]; tp_resource_limits := [("memoryMiB", JInt 512)] |}.
Definition demo_request (permissions : list CapabilityRequest) (limits : dict) : LeaseRequest := {|
  lr_task_id := "t1"; lr_workload_id := "w1"; lr_artifact_digest := "sha256:aa"; lr_permissions := permissions;
  lr_runtime_profile := "cptr-vm"; lr_requested_lease_ms := 60000; lr_parent_lease_id := None;
  lr_resource_limits := limits; lr_network_destinations := ["api.example.com"]; lr_credential_names := ["token"];
  lr_execution_context := [("userId", JStr "u1")] |}.
Definition demo_use (permissions : list CapabilityRequest) : LeaseUse := {|
  lu_task_id := "t1"; lu_artifact_digest := "sha256:aa"; lu_required_permissions := permissions;
  lu_runtime_profile := Some "cptr-vm"; lu_resource_limits := [("memoryMiB", JInt 256)];
  lu_network_destinations := ["api.example.com"]; lu_credential_names := ["token"];
  lu_execution_context := [("userId", JStr "u1")] |}.
(** the lease that was issued, if any, then used *)
Definition issue_and_use (request : LeaseRequest) (policy : TaskAuthorityPolicy) (u : LeaseUse)
    : result CapabilityLease * OsWorld :=
  (let* lease := @issue demo_env None request policy None true in
   @require_active demo_env (cl_lease_id lease) u) demo_os.

(** The resource that a request asks for becomes a pattern of the lease: a policy for
    the workspaces of one character yields a lease for all of them. *)
Example patterns_escalate :
  let policy := demo_policy [request_of "workspace.write" "ws-?" []] [] in
  is_ok (issue_and_use (demo_request [request_of "workspace.write" "ws-*" []] [])
           policy (demo_use [request_of "workspace.write" "ws-production" []])).1 = true /\
  @_covered demo_env (request_of "workspace.write" "ws-production" []) (request_of "workspace.write" "ws-?" []) = false.
Proof. split; vm_compute; reflexivity. Qed.
(** A forbidden permission does not cover the same one with a constraint. *)
Example forbidden_is_bypassed :
  let policy := demo_policy [request_of "workspace.write" "*" [("paths", JStr "src")]]
                            [request_of "workspace.write" "ws-production" []] in
  is_ok (@issue demo_env None (demo_request [request_of "workspace.write" "ws-production" [("paths", JStr "src")]] [])
           policy None true demo_os).1 = true.
Proof. vm_compute. reflexivity. Qed.
(** A limit that is no number ("NaN" of [json.loads]) is not above any ceiling. *)
Example not_a_number_is_no_limit :
  @_constraints_within demo_env [("memoryMiB", JFloat "nan")] [("memoryMiB", JInt 512)] = true.
Proof. vm_compute. reflexivity. Qed.
(** No constraint at all is within any constraints. *)
Example unconstrained_is_within :
  @_covered demo_env (request_of "workspace.read" "ws-1" []) (request_of "workspace.read" "ws-1" [("paths", JStr "src")]) = true.
Proof. vm_compute. reflexivity. Qed.

#[local] Abbreviation demo_permission := (request_of "workspace.write" "ws-1" []).
#[local] Abbreviation asked := (demo_request [request_of "workspace.write" "ws-1" []] [("memoryMiB", JInt 256)]).
#[local] Abbreviation standing := (demo_policy [request_of "workspace.write" "ws-?" []] []).
#[local] Abbreviation issuing := (@issue demo_env None asked standing None true demo_os).
Definition demo_issued : CapabilityLease := match issuing.1 with Ok l => l | Err _ =>
  {| cl_lease_id := ""; cl_task_id := ""; cl_workload_id := ""; cl_artifact_digest := ""; cl_permissions := [];
     cl_resource_limits := []; cl_network := []; cl_credentials := []; cl_approval_id := None;
     cl_parent_lease_id := None; cl_policy_decision_id := ""; cl_runtime_profile := ""; cl_issued_at_ms := 0;
     cl_expires_at_ms := 0; cl_status := ""; cl_execution_context := [] |} end.

Lemma asked_normal : Forall normal (lr_permissions asked).
Proof. repeat constructor. Qed.
Lemma issuing_ok : issuing = (Ok demo_issued, issuing.2).
Proof. vm_compute. reflexivity. Qed.


Theorem authority_never_exceeds_policy_witness :
  exists row used w2,
    @require_active demo_env (cl_lease_id demo_issued) (demo_use [request_of "workspace.write" "ws-1" []]) issuing.2 = (Ok used, w2) /\
    lu_task_id (demo_use [request_of "workspace.write" "ws-1" []]) = lr_task_id asked /\
    db_leases (db issuing.2.1) !! cl_lease_id demo_issued = Some row /\ same_grant row row.
Proof.
  destruct (db_leases (db issuing.2.1) !! cl_lease_id demo_issued) as [row|] eqn:Erow; [|by vm_compute in Erow].
  destruct (@require_active demo_env (cl_lease_id demo_issued) (demo_use [request_of "workspace.write" "ws-1" []]) issuing.2)
    as [[used|e] w2] eqn:Eu; [|by vm_compute in Eu].
  assert (same_grant row row) as Hs by by destruct row.
  exists row, used, w2. split_and!; [done| |done|done].
  refine (proj1 (proj2 (proj2 (proj2 (proj2 (@authority_never_exceeds_policy demo_env None asked standing None true demo_os
    demo_issued issuing.2 row row _ issuing.2 used w2 asked_normal _ issuing_ok Erow Erow Hs Eu)))))).
  by repeat constructor.
Defined.

Theorem denial_is_recorded_witness :
  let refused := demo_request [request_of "credentials.read" "*" []] [] in
  let final := (@issue demo_env None refused standing None true demo_os).2 in
  db_leases (db final.1) = db_leases (db demo_os.1) /\ length (os_decisions final.2) = 1%nat.
Proof.
  intros refused final.
  destruct (@denial_is_recorded demo_env None refused standing None true demo_os "requested permission is outside task policy" final)
    as (Hl & d & Hd & _); [done|by repeat constructor|by vm_compute|].
  split; [exact Hl|]. by rewrite Hd.
Defined.

Theorem isolation_confines_witness :
  let ceilings := {| ic_cpu_millis := 1000; ic_memory_mib := 512; ic_disk_mib := 512; ic_pids := 64;
                     ic_wall_time_ms := 60000; ic_output_bytes := 1000 |} in
  let request := {|
    lr_task_id := "t1"; lr_workload_id := "tool-run:tool"; lr_artifact_digest := "sha256:aa";
    lr_permissions := [request_of "runtime.run" "artifact:sha256:aa" []]; lr_runtime_profile := "gvisor";
    lr_requested_lease_ms := 700000; lr_parent_lease_id := None; lr_resource_limits := [("memoryMiB", JInt 256)];
    lr_network_destinations := []; lr_credential_names := []; lr_execution_context := [] |} in
  exists policy lease w', resolve_isolation ceilings "sha256:aa" "tool-run:tool" = Ok (Some policy) /\
    @issue demo_env None request policy None true demo_os = (Ok lease, w') /\
    cl_network lease = [("outbound", JStr "deny"); ("destinations", JList [])].
Proof.
  intros ceilings request.
  destruct (resolve_isolation ceilings "sha256:aa" "tool-run:tool") as [[policy|]|] eqn:Ep;
    [|by vm_compute in Ep|by vm_compute in Ep].
  destruct (@issue demo_env None request policy None true demo_os) as [[lease|e] w'] eqn:Ei;
    [|vm_compute in Ep; injection Ep as <-; by vm_compute in Ei].
  exists policy, lease, w'. split_and!; [done|exact Ei|].
  refine (proj1 (proj2 (@isolation_confines demo_env None ceilings "sha256:aa" "tool-run:tool" policy request None true
    demo_os lease w' Ep _ _ Ei))); [done|by repeat constructor].
Defined.
