(* ===== verification/CapabilityCompiler.v ===== *)
(** * The compiler of capabilities

    Models [cptr/services/capability_os/compiler.py]: a capability is a recipe of nodes
    and edges; compiling it checks what it asks for and finds an order of its nodes. *)

From S2P Require Import Prelude PyStr Json FactoryDomain FactoryGates Database CapabilityLifecycle.
From S2P Require Import FactoryStore FactoryPhases FactoryGit FactoryCapabilities CapabilityContracts.

Record RetryPolicy := {
  rp_max_attempts : Z;
  rp_only_if_idempotent : bool;
  rp_retryable_errors : list string;
}.
Definition RetryPolicy_post_init (r : RetryPolicy) : result RetryPolicy :=
  if (rp_max_attempts r <=? 0)%Z then Err (ValueError "max_attempts must be positive") else Ok r.
Record DagNode := {
  dn_id : string;
  dn_action_ref : string;
  dn_version : string;
  dn_input_bindings : dict;
  dn_output_schema : json;
  dn_preconditions : list json;
  dn_postconditions : list json;
  dn_permissions : list CapabilityRequest;
  dn_timeout_ms : Z;
  dn_retry : RetryPolicy;
  dn_compensation_action_ref : option string;
  dn_approval : string;
  dn_idempotent : bool;
}.
Definition DagNode_post_init (n : DagNode) : result DagNode :=
  if blank (dn_id n) then Err (ValueError "id must not be blank")
  else if blank (dn_action_ref n) then Err (ValueError "action_ref must not be blank")
  else if blank (dn_version n) then Err (ValueError "version must not be blank")
  else if (dn_timeout_ms n <=? 0)%Z then Err (ValueError "node timeout must be positive")
  else if negb (is_in (dn_approval n) ["none"; "policy"; "human"]) then Err (ValueError "invalid node approval mode")
  else Ok n.
Record DagEdge := { source : string; target : string }.
Record CapabilitySpec := {
  cs_capability_id : string;
  cs_version : string;
  cs_inputs_schema : json;
  cs_preconditions : list json;
  cs_effects : list CapabilityRequest;
  cs_nodes : list DagNode;
  cs_edges : list DagEdge;
  cs_verifiers : list string;
  cs_rollback_mode : string;
  cs_permissions : list CapabilityRequest;
  cs_deadline_ms : Z;
  cs_max_parallelism : Z;
  cs_risk_class : string;
}.
Definition CapabilitySpec_post_init (s : CapabilitySpec) : result CapabilitySpec :=
  if blank (cs_capability_id s) || blank (cs_version s) then Err (ValueError "capability id and version must not be blank")
  else if negb (is_in (cs_rollback_mode s) ["full"; "compensating"; "partial"; "irreversible"]) then
    Err (ValueError "invalid rollback mode")
  else if negb (is_in (cs_risk_class s) ["read"; "reversible-write"; "high-impact"; "critical"]) then
    Err (ValueError "invalid risk class")
  else if (cs_deadline_ms s <=? 0)%Z || (cs_max_parallelism s <=? 0)%Z then
    Err (ValueError "capability execution bounds must be positive")
  else Ok s.
Record CompiledCapability := {
  cc_spec : CapabilitySpec;
  cc_topological_order : list string;
  cc_permissions : list CapabilityRequest;
  cc_requires_human_approval : bool;
}.

(** [_covered] of the compiler, which leaves constraints out *)
Definition _covered (requested declared : CapabilityRequest) : bool :=
  str_eqb (cr_action requested) (cr_action declared)
  && (str_eqb (cr_resource requested) (cr_resource declared)
      || fnmatchcase (cr_resource requested) (cr_resource declared)).
Definition _write_like (permission : CapabilityRequest) : bool :=
  existsb (fun marker => contains marker (cr_action permission))
    ["write"; "delete"; "deploy"; "update"; "create"; "restart"; "privileged"].

(** ** The order of the nodes *)

Definition sorted_ids (l : list string) : list string := merge_sort (fun s t => String.le s t) l.
(** [incoming] and [outgoing]: how many edges a node waits for, and where its edges lead *)
Record DagState := {
  incoming : gmap string Z;
  ready : list string;
}.
Definition add_incoming (t : string) (d : Z) (m : gmap string Z) : gmap string Z :=
  <[t := default 0%Z (m !! t) + d]>%Z m.
Definition initial_incoming (ids : list string) (edges : list DagEdge) : gmap string Z :=
  fold_left (fun m e => add_incoming (target e) 1 m) edges (list_to_map (map (fun i => (i, 0%Z)) ids)).
Definition outgoing (edges : list DagEdge) (node_id : string) : list string :=
  map target (List.filter (fun e => str_eqb (source e) node_id) edges).
(** an edge of a node that is done *)
Definition release (s : DagState) (t : string) : DagState :=
  let incoming := add_incoming t (-1) (incoming s) in
  {| incoming := incoming;
     ready := if bool_decide (incoming !! t = Some 0%Z) then sorted_ids (ready s ++ [t]) else ready s |}.
(** the loop: one node a turn, and no node twice, so as many turns as there are nodes *)
Fixpoint order_nodes (fuel : nat) (edges : list DagEdge) (s : DagState) (order : list string) : list string :=
  match fuel, ready s with
  | S fuel, node_id :: rest =>
      order_nodes fuel edges
        (fold_left release (sorted_ids (outgoing edges node_id)) {| incoming := incoming s; ready := rest |})
        (order ++ [node_id])
  | _, _ => order
  end.
Definition is_zero (m : gmap string Z) (i : string) : bool := bool_decide (m !! i = Some 0%Z).
Definition topological_order (ids : list string) (edges : list DagEdge) : list string :=
  let first := initial_incoming ids edges in
  order_nodes (length ids) edges {| incoming := first; ready := sorted_ids (List.filter (is_zero first) ids) |} [].

(** ** Compiling *)

Definition compile_error {A} (message : string) : result A := Err (CapabilityCompileError message).
(** the first node that has the name of an earlier one *)
Fixpoint duplicate_id (seen : list string) (nodes : list DagNode) : option string :=
  match nodes with
  | [] => None
  | n :: nodes => if is_in (dn_id n) seen then Some (dn_id n) else duplicate_id (dn_id n :: seen) nodes
  end.
(** the permissions of a node, and whether it may be retried *)
Definition check_node (declared : list CapabilityRequest) (n : DagNode) : result unit :=
  if negb (forallb (fun p => existsb (_covered p) declared) (dn_permissions n)) then
    compile_error ("node " +:+ dn_id n +:+ " permission exceeds capability permission envelope")
  else if (1 <? rp_max_attempts (dn_retry n))%Z && rp_only_if_idempotent (dn_retry n) && negb (dn_idempotent n) then
    compile_error ("node " +:+ dn_id n +:+ " retry requires an idempotent action declaration")
  else Ok tt.
Definition requires_human (s : CapabilitySpec) : result bool :=
  let by_node := existsb (fun n => str_eqb (dn_approval n) "human") (cs_nodes s) in
  if is_in (cs_risk_class s) ["high-impact"; "critical"] then
    if str_eqb (cs_rollback_mode s) "irreversible" then Ok true
    else
      let write_nodes := List.filter (fun n => existsb _write_like (dn_permissions n)) (cs_nodes s) in
      if is_in (cs_rollback_mode s) ["compensating"; "partial"]
         && existsb (fun n => negb (has_key (dn_compensation_action_ref n))) write_nodes then
        compile_error "high-impact capability rollback is missing compensation coverage"
      else Ok true
  else Ok by_node.
(** the order of permissions: by action, then by resource *)
Definition permission_le (a b : CapabilityRequest) : Prop :=
  String.ltb (cr_action a) (cr_action b) = true \/ cr_action a = cr_action b /\ String.le (cr_resource a) (cr_resource b).
#[export] Instance permission_le_dec a b : Decision (permission_le a b).
Proof. unfold permission_le. apply _. Defined.
(** [CapabilityCompiler.compile] *)
Definition compile (s : CapabilitySpec) : result CompiledCapability :=
  let ids := map dn_id (cs_nodes s) in
  match duplicate_id [] (cs_nodes s) with
  | Some i => compile_error ("duplicate node id: " +:+ i)
  | None =>
      if is_nil ids then compile_error "capability recipe must contain at least one node"
      else if negb (forallb (fun effect => existsb (_covered effect) (cs_permissions s)) (cs_effects s)) then
        compile_error "declared effect is not covered by capability permission"
      else
        let? _ := all_Ok (map (check_node (cs_permissions s)) (cs_nodes s)) in
        if negb (forallb (fun e => is_in (source e) ids && is_in (target e) ids) (cs_edges s)) then
          compile_error "DAG edge references unknown node"
        else
          let order := topological_order ids (cs_edges s) in
          if negb (len_list order =? len_list ids)%Z then compile_error "capability DAG contains a cycle"
          else if negb (forallb (fun v => is_in v ids) (cs_verifiers s)) then
            compile_error "verifier references unknown node"
          else
            let? human := requires_human s in
            Ok {| cc_spec := s; cc_topological_order := order;
                  cc_permissions := merge_sort permission_le (cs_permissions s);
                  cc_requires_human_approval := human |}
  end.
