(* ===== verification/CapabilityCompilerSpec.v ===== *)
(** * Properties of the compiler of capabilities

    The order that is found puts every node once, after what it waits for; there is one
    exactly when the edges have no cycle; and what compiles stays within what it
    declares, is retried only where that is safe, and asks a human where it must. *)

From S2P Require Import Prelude PyStr Json FactoryDomain FactoryGates Database CapabilityLifecycle.
From S2P Require Import FactoryStore FactoryPhases FactoryGit FactoryPolicy FactoryCapabilities FactoryCapabilitiesSpec.
From S2P Require Import CapabilityContracts CapabilityCompiler.



(** ** Counting *)

Fixpoint occ (i : string) (l : list string) : Z :=
  match l with [] => 0 | x :: l => (if decide (x = i) then 1 else 0) + occ i l end.
Lemma occ_nonneg i l : (0 <= occ i l)%Z.
Proof. induction l as [|x l IH]; cbn; [done|]. case_decide; lia. Qed.
Lemma occ_perm i l l' : l ≡ₚ l' -> occ i l = occ i l'.
Proof. induction 1; cbn; lia. Qed.
Lemma occ_zero i l : occ i l = 0%Z <-> i ∉ l.
Proof.
  induction l as [|x l IH]; cbn; [split; [by intros _ ?%elem_of_nil|done]|]. pose proof (occ_nonneg i l).
  rewrite elem_of_cons. case_decide as E; [split; [lia|naive_solver]|]. rewrite Z.add_0_l, IH. naive_solver.
Qed.
Lemma sorted_ids_perm l : sorted_ids l ≡ₚ l.
Proof. apply merge_sort_Permutation. Qed.

(** ** Releasing edges *)

Lemma add_incoming_get t d m i z :
  m !! t = Some z -> add_incoming t d m !! i = if decide (i = t) then Some (z + d)%Z else m !! i.
Proof.
  intros Ht. unfold add_incoming. rewrite Ht. case_decide as E; [subst; by rewrite lookup_insert_eq|by rewrite lookup_insert_ne].
Qed.
Lemma release_all ts s :
  (forall i, i ∈ ts -> exists z, incoming s !! i = Some z /\ occ i ts <= z)%Z ->
  (forall i, i ∈ ready s -> i ∉ ts) -> NoDup (ready s) ->
  let s' := fold_left release ts s in
  (forall i, incoming s' !! i = (fun z => z - occ i ts)%Z <$> incoming s !! i) /\ NoDup (ready s') /\
  forall i, i ∈ ready s' <-> i ∈ ready s \/ i ∈ ts /\ incoming s' !! i = Some 0%Z.
Proof.
  revert s. induction ts as [|t ts IH]; intros s Hz Hr Hn; cbn zeta.
  - split_and!; [|done|set_solver]. intros i. cbn. destruct (incoming s !! i); cbn; [f_equal; lia|done].
  - cbn [fold_left]. destruct (Hz t) as (z & Ht & Hzt); [left|]. cbn [occ] in Hzt. rewrite decide_True in Hzt by done.
    assert (forall i, incoming (release s t) !! i = if decide (i = t) then Some (z + -1)%Z else incoming s !! i) as Hi.
    { intros i. unfold release. cbn [incoming]. by apply add_incoming_get. }
    assert (ready (release s t) = if decide (z = 1)%Z then sorted_ids (ready s ++ [t]) else ready s) as Hready.
    { unfold release. cbn [ready]. rewrite (add_incoming_get t _ _ t z Ht), decide_True by done.
      destruct (decide (z = 1)%Z); [rewrite bool_decide_true by (f_equal; lia); done|].
      by rewrite bool_decide_false by (intros [= ?]; lia). }
    pose proof (occ_nonneg t ts) as Hnn.
    destruct (IH (release s t)) as (H1 & H2 & H3).
    + intros i Hin. rewrite Hi. destruct (decide (i = t)) as [->|Ei].
      * exists (z + -1)%Z. split; [done|lia].
      * destruct (Hz i) as (z' & Hz' & Hle); [by right|]. cbn [occ] in Hle. rewrite decide_False in Hle by congruence. eauto.
    + intros i. rewrite Hready. case_decide as E1.
      * rewrite sorted_ids_perm, elem_of_app, list_elem_of_singleton. intros [Hri| ->].
        -- specialize (Hr i Hri). set_solver.
        -- apply occ_zero. lia.
      * intros Hri. specialize (Hr i Hri). set_solver.
    + rewrite Hready. case_decide; [|done]. rewrite sorted_ids_perm. apply NoDup_app. split_and!; [done| |apply NoDup_singleton].
      intros x Hx ->%list_elem_of_singleton. apply (Hr t Hx). left.
    + split_and!; [|done|].
      * intros i. rewrite H1, Hi. cbn [occ]. destruct (decide (i = t)) as [->|Hne].
        -- rewrite decide_True by done. rewrite Ht. cbn. f_equal. lia.
        -- rewrite decide_False by congruence. by destruct (incoming s !! i).
      * intros i. rewrite H3, Hready. rewrite elem_of_cons.
        assert (z = 1%Z -> incoming (fold_left release ts (release s t)) !! t = Some 0%Z) as Hone.
        { intros ->. rewrite H1, Hi, decide_True by done. cbn. f_equal. lia. }
        assert (z <> 1%Z -> incoming (fold_left release ts (release s t)) !! t = Some 0%Z -> t ∈ ts) as Hmore.
        { intros Hne. rewrite H1, Hi, decide_True by done. cbn. intros [= Hq]. destruct (decide (t ∈ ts)) as [|Hnt]; [done|].
          apply occ_zero in Hnt. lia. }
        case_decide as E1; [rewrite sorted_ids_perm, elem_of_app, list_elem_of_singleton|]; naive_solver.
Qed.

(** ** The loop *)

Section Order.
Context (ids : list string) (edges : list DagEdge).
Context (Hids : NoDup ids) (Hedges : forall e, e ∈ edges -> source e ∈ ids /\ target e ∈ ids).

(** the edges into [i] whose source is not done *)
Definition waits (order : list string) (i : string) : Z :=
  occ i (map target (List.filter (fun e => negb (is_in (source e) order)) edges)).
Record kahn (s : DagState) (order : list string) : Prop := {
  k_once : NoDup (order ++ ready s);
  k_ids i : i ∈ order ++ ready s -> i ∈ ids;
  k_incoming i : i ∈ ids -> incoming s !! i = Some (waits order i);
  k_ready i : i ∈ ids -> i ∉ order -> (i ∈ ready s <-> waits order i = 0%Z);
  k_forward l1 t l2 e : order = l1 ++ t :: l2 -> e ∈ edges -> target e = t -> source e ∈ l1;
}.

Lemma waits_zero order i : waits order i = 0%Z <-> forall e, e ∈ edges -> target e = i -> source e ∈ order.
Proof.
  unfold waits. rewrite occ_zero, list_elem_of_fmap. setoid_rewrite list_elem_of_In. setoid_rewrite List.filter_In.
  setoid_rewrite <- list_elem_of_In. split.
  - intros Hn e He Ht. destruct (decide (source e ∈ order)) as [|Hs]; [done|]. destruct Hn. exists e. split; [done|].
    split; [done|]. apply negb_true_iff, not_true_is_false. by intros ?%is_in_true.
  - intros Ha (e & -> & He & Hs). apply negb_true_iff in Hs. specialize (Ha e He eq_refl).
    by rewrite (proj2 (is_in_true _ _) Ha) in Hs.
Qed.
Lemma waits_snoc order n i : n ∉ order -> waits (order ++ [n]) i = (waits order i - occ i (outgoing edges n))%Z.
Proof.
  intros Hn. unfold waits, outgoing. clear Hedges. induction edges as [|e es IH]; [done|]. cbn [List.filter].
  assert (is_in (source e) (order ++ [n]) = is_in (source e) order || str_eqb (source e) n) as ->.
  { unfold is_in. rewrite existsb_app. cbn. by rewrite orb_false_r. }
  destruct (str_eqb (source e) n) eqn:E; [apply str_eqb_true in E|].
  - assert (is_in (source e) order = false) as ->.
    { apply not_true_is_false. rewrite E. by intros ?%is_in_true. }
    cbn [orb negb map occ]. lia.
  - rewrite orb_false_r. destruct (is_in (source e) order); cbn [negb map occ]; lia.
Qed.

(** a turn of the loop *)
Lemma kahn_step s order n rest :
  kahn s order -> ready s = n :: rest ->
  kahn (fold_left release (sorted_ids (outgoing edges n)) {| incoming := incoming s; ready := rest |}) (order ++ [n]).
Proof.
  intros [H1 H2 H3 H4 H5] Hr. rewrite Hr in *.
  assert (n ∉ order) as Hn by (apply NoDup_app in H1 as (_ & Hd & _); intros Hin; apply (Hd n Hin); left).
  assert (n ∈ ids) as Hni by (apply H2, elem_of_app; right; left).
  pose proof (proj1 (H4 n Hni Hn) ltac:(left)) as Hwn.
  set (ts := sorted_ids (outgoing edges n)).
  assert (forall i, occ i ts = occ i (outgoing edges n)) as Hocc by (intros; apply occ_perm, sorted_ids_perm).
  assert (forall i, (0 <= waits (order ++ [n]) i)%Z) as Hnn by (intros; apply occ_nonneg).
  assert (forall i, i ∈ ts -> exists e, e ∈ edges /\ source e = n /\ target e = i) as Hts.
  { intros i. unfold ts. rewrite sorted_ids_perm. unfold outgoing. intros (e & -> & He)%list_elem_of_fmap.
    apply list_elem_of_In, List.filter_In in He as [He Hs]. apply str_eqb_true in Hs. exists e.
    split_and!; [by apply list_elem_of_In|done|done]. }
  destruct (release_all ts {| incoming := incoming s; ready := rest |}) as (R1 & R2 & R3); cbn [incoming ready] in *.
  { intros i Hi. destruct (Hts i Hi) as (e & He & _ & <-). exists (waits order (target e)). split; [apply H3, Hedges, He|].
    rewrite Hocc. specialize (Hnn (target e)). rewrite waits_snoc in Hnn by done. lia. }
  { intros i Hi Hit. destruct (Hts i Hit) as (e & He & Hs & Ht).
    assert (i ∉ order) as Hio.
    { apply NoDup_app in H1 as (_ & Hd & _). intros Hin. apply (Hd i Hin). by right. }
    assert (i ∈ ids) as Hii by (apply H2, elem_of_app; right; by right).
    pose proof (proj1 (H4 i Hii Hio) ltac:(by right)) as Hw.
    apply Hn. rewrite <- Hs. by apply (proj1 (waits_zero order i) Hw e). }
  { apply NoDup_app in H1 as (_ & _ & H1). by apply NoDup_cons in H1 as [_ ?]. }
  set (s' := fold_left release ts _) in *.
  assert (forall i, i ∈ ids -> incoming s' !! i = Some (waits (order ++ [n]) i)) as K3.
  { intros i Hi. rewrite R1, (H3 i Hi). cbn. by rewrite waits_snoc, Hocc by done. }
  assert (forall i, i ∈ ids -> i ∉ order ++ [n] -> (i ∈ ready s' <-> waits (order ++ [n]) i = 0%Z)) as K4.
  { intros i Hi Hio. rewrite R3, (K3 i Hi). apply not_elem_of_app in Hio as [Hio Hin%not_elem_of_cons]. destruct Hin as [Hin _].
    specialize (H4 i Hi Hio). rewrite elem_of_cons in H4. rewrite (waits_snoc order n i Hn).
    pose proof (occ_nonneg i (outgoing edges n)) as Ho. specialize (Hnn i). rewrite (waits_snoc order n i Hn) in Hnn.
    pose proof (occ_zero i ts) as Hz. rewrite Hocc in Hz. split.
    - intros [Hr'|[_ [= ->]]]; [|done]. assert (waits order i = 0)%Z by (apply H4; by right). lia.
    - intros Hw. destruct (decide (i ∈ ts)) as [Hit|Hit]; [right; split; [done|by f_equal]|left].
      apply Hz in Hit. assert (waits order i = 0)%Z as Hw0 by lia. apply H4 in Hw0 as [|]; done. }
  assert (forall i, i ∈ ready s' -> i ∈ ids) as Krid.
  { intros i [Hi|[Hi _]]%R3; [apply H2, elem_of_app; right; by right|]. destruct (Hts i Hi) as (e & He & _ & <-). by apply Hedges. }
  split; [| |exact K3|exact K4|].
  - apply NoDup_app. split_and!; [|intros i Hi Hri|exact R2].
    + apply NoDup_app. apply NoDup_app in H1 as (Ho & _ & _). split_and!; [done| |apply NoDup_singleton].
      by intros x Hx ->%list_elem_of_singleton.
    + assert (i ∈ order \/ i = n) as Hio by (apply elem_of_app in Hi as [|?%list_elem_of_singleton]; auto).
      apply R3 in Hri as [Hri|[Hit Hz]].
      * apply NoDup_app in H1 as (_ & Hd & [Hnr _]%NoDup_cons). destruct Hio as [Hio| ->]; [|done]. apply (Hd i Hio). by right.
      * destruct (Hts i Hit) as (e & He & Hs & Ht). destruct Hio as [Hio| ->].
        -- apply list_elem_of_split in Hio as (l1 & l2 & ->). specialize (H5 l1 i l2 e eq_refl He Ht). rewrite Hs in H5.
           apply Hn, elem_of_app. by left.
        -- apply Hn. rewrite <- Hs. by apply (proj1 (waits_zero order n) Hwn e).
  - intros i [[Hi|Hi%list_elem_of_singleton]%elem_of_app|Hi]%elem_of_app; [apply H2, elem_of_app; by left|by subst|by apply Krid].
  - intros l1 t l2 e Hsplit He Ht. destruct l2 as [|x l2 _] using rev_ind.
    + apply app_inj_tail in Hsplit as [<- <-]. by apply (proj1 (waits_zero order n) Hwn e).
    + rewrite app_comm_cons, app_assoc in Hsplit. apply app_inj_tail in Hsplit as [-> _]. by apply (H5 l1 t l2 e).
Qed.

Lemma kahn_size s order : kahn s order -> (length order + length (ready s) <= length ids)%nat.
Proof. intros [H1 H2 _ _ _]. rewrite <- length_app. by apply submseteq_length, NoDup_submseteq. Qed.
(** the loop ends with nothing left to do *)
Lemma order_nodes_ends fuel s order :
  kahn s order -> (length ids <= fuel + length order)%nat ->
  exists s', kahn s' (order_nodes fuel edges s order) /\ ready s' = [].
Proof.
  revert s order. induction fuel as [|fuel IH]; intros s order Hk Hf; cbn [order_nodes].
  - exists s. split; [done|]. pose proof (kahn_size _ _ Hk). destruct (ready s); [done|]. cbn in *. lia.
  - destruct (ready s) as [|n rest] eqn:Er; [by exists s|]. apply IH; [by apply kahn_step|]. rewrite length_app. cbn. lia.
Qed.
Lemma initial_incoming_get es : (forall e, e ∈ es -> target e ∈ ids) -> forall i, i ∈ ids ->
  initial_incoming ids es !! i = Some (occ i (map target es)).
Proof.
  intros Hes i Hi. unfold initial_incoming.
  assert (forall m z, m !! i = Some z -> (forall t, t ∈ ids -> is_Some (m !! t)) ->
    fold_left (fun m e => add_incoming (target e) 1 m) es m !! i = Some (z + occ i (map target es))%Z) as Hfold.
  { induction es as [|e es IH]; intros m z Hz Hall; cbn [fold_left map occ]; [by rewrite Z.add_0_r|].
    destruct (Hall (target e)) as [zt Ht]; [apply Hes; left|].
    assert (forall j, add_incoming (target e) 1 m !! j = if decide (j = target e) then Some (zt + 1)%Z else m !! j) as Hget.
    { intros j. by apply add_incoming_get. }
    rewrite (IH ltac:(intros; apply Hes; by right) _ (z + if decide (target e = i) then 1 else 0)%Z).
    - f_equal. lia.
    - rewrite Hget. destruct (decide (i = target e)) as [->|Hne].
      + rewrite decide_True by done. rewrite Ht in Hz. by injection Hz as ->.
      + rewrite decide_False by congruence. by rewrite Z.add_0_r.
    - intros t Hti. rewrite Hget. case_decide; [by eexists|by apply Hall]. }
  assert (forall t, t ∈ ids -> (list_to_map (map (fun i => (i, 0%Z)) ids) : gmap string Z) !! t = Some 0%Z) as Hzero.
  { intros t Ht. apply elem_of_list_to_map_1.
    - rewrite <- list_fmap_compose. change ((fun x => (fst ∘ (fun i => (i, 0%Z))) x) <$> ids) with ((fun x : string => x) <$> ids).
      by rewrite list_fmap_id.
    - apply list_elem_of_fmap. by exists t. }
  rewrite (Hfold _ 0%Z); [done|by apply Hzero|]. intros t Ht. rewrite (Hzero t Ht). by eexists.
Qed.
Lemma kahn_start :
  let first := initial_incoming ids edges in
  kahn {| incoming := first; ready := sorted_ids (List.filter (is_zero first) ids) |} [].
Proof.
  intros first. assert (forall i, i ∈ ids -> first !! i = Some (waits [] i)) as Hf.
  { intros i Hi. unfold first, waits. rewrite initial_incoming_get; [|by intros; apply Hedges|done]. do 3 f_equal.
    clear Hedges first Hi. induction edges as [|e es IH]; [done|]. cbn. f_equal. exact IH. }
  assert (forall i, i ∈ sorted_ids (List.filter (is_zero first) ids) <-> i ∈ ids /\ is_zero first i = true) as Hin.
  { intros i. rewrite sorted_ids_perm. rewrite !list_elem_of_In. apply List.filter_In. }
  clearbody first. split; cbn [ready incoming app].
  - rewrite sorted_ids_perm. by apply NoDup_ListNoDup, List.NoDup_filter, NoDup_ListNoDup.
  - by intros i [Hi _]%Hin.
  - done.
  - intros i Hi _. rewrite Hin. unfold is_zero. rewrite (Hf i Hi), bool_decide_eq_true.
    split; [by intros [_ [= ?]]|by intros ->].
  - by intros [|? l1] t l2 e.
Qed.

(** the order that was found *)
Record ordered (order : list string) : Prop := {
  od_once : NoDup order;
  od_ids i : i ∈ order -> i ∈ ids;
  od_forward l1 t l2 e : order = l1 ++ t :: l2 -> e ∈ edges -> target e = t -> source e ∈ l1;
  od_rest i : i ∈ ids -> i ∉ order -> exists e, e ∈ edges /\ target e = i /\ source e ∉ order;
}.
Lemma topological_order_ordered : ordered (topological_order ids edges).
Proof.
  destruct (order_nodes_ends (length ids) _ _ kahn_start ltac:(lia)) as (s & [H1 H2 H3 H4 H5] & Hr).
  fold (topological_order ids edges) in *. rewrite Hr, app_nil_r in *. split; [done|done|done|].
  intros i Hi Hio. specialize (H4 i Hi Hio).
  assert (~ forall e, e ∈ edges -> target e = i -> source e ∈ topological_order ids edges) as Hnot.
  { intros Hall%waits_zero. apply H4 in Hall. by apply elem_of_nil in Hall. }
  destruct (decide (Exists (fun e => target e = i /\ source e ∉ topological_order ids edges) edges)) as [He%Exists_exists|Hn].
  - destruct He as (e & ? & ? & ?). by exists e.
  - destruct Hnot. intros e He Ht. destruct (decide (source e ∈ topological_order ids edges)) as [|Hs]; [done|].
    destruct Hn. apply Exists_exists. by exists e.
Qed.

(** a rank that every edge raises: there is no cycle *)
Definition acyclic : Prop := exists rank : string -> nat, forall e, e ∈ edges -> (rank (source e) < rank (target e))%nat.
Lemma ordered_all order : ordered order -> acyclic -> forall i, i ∈ ids -> i ∈ order.
Proof.
  intros Ho [rank Hrank]. assert (forall n i, rank i = n -> i ∈ ids -> i ∈ order) as Hall; [|eauto].
  induction n as [n IH] using lt_wf_ind. intros i Hn Hi. destruct (decide (i ∈ order)) as [|Hio]; [done|].
  destruct (od_rest _ Ho i Hi Hio) as (e & He & <- & Hs). destruct Hs.
  apply (IH (rank (source e))); [rewrite <- Hn; by apply Hrank|done|by apply Hedges].
Qed.
Lemma index_split (order : list string) i : i ∈ order -> exists l1 l2, order = l1 ++ i :: l2 /\ i ∉ l1.
Proof.
  induction order as [|x l IH]; [by intros ?%elem_of_nil|]. destruct (decide (i = x)) as [->|Hne].
  - intros _. exists [], l. split; [done|by apply not_elem_of_nil].
  - intros [|Hi]%elem_of_cons; [done|]. destruct (IH Hi) as (l1 & l2 & -> & Hn). exists (x :: l1), l2.
    split; [done|]. by apply not_elem_of_cons.
Qed.
Fixpoint index (i : string) (l : list string) : nat :=
  match l with [] => 0 | x :: l => if decide (x = i) then 0 else S (index i l) end.
Lemma index_app i l k : i ∉ l -> index i (l ++ i :: k) = length l.
Proof.
  induction l as [|x l IH]; cbn [app index]; [by rewrite decide_True|].
  intros [Hx Hi]%not_elem_of_cons. rewrite decide_False by congruence. by rewrite IH.
Qed.
Lemma ordered_acyclic order : ordered order -> (forall i, i ∈ ids -> i ∈ order) -> acyclic.
Proof.
  intros Ho Hall. exists (fun i => index i order). intros e He.
  destruct (index_split order (target e)) as (l1 & l2 & Heq & Hn1); [by apply Hall, Hedges|].
  pose proof (od_forward _ Ho l1 _ l2 e Heq He eq_refl) as Hs.
  destruct (index_split l1 (source e) Hs) as (k1 & k2 & Hl1 & Hk). rewrite Heq at 2. rewrite (index_app _ _ _ Hn1).
  rewrite Heq, Hl1, <- app_assoc. cbn [app]. rewrite (index_app _ _ _ Hk). rewrite length_app. cbn. lia.
Qed.
End Order.

(** ** Compiling *)

Lemma duplicate_none seen nodes :
  duplicate_id seen nodes = None <-> NoDup (map dn_id nodes) /\ forall i, i ∈ map dn_id nodes -> i ∉ seen.
Proof.
  revert seen. induction nodes as [|n nodes IH]; intros seen; cbn [duplicate_id map].
  - split; [by split; [constructor|intros ? ?%elem_of_nil]|done].
  - destruct (is_in (dn_id n) seen) eqn:E.
    + apply is_in_true in E. split; [done|]. intros [_ Hn]. by destruct (Hn (dn_id n)); [left|].
    + assert (dn_id n ∉ seen) as Hs by by rewrite <- is_in_true, E. rewrite IH, NoDup_cons. split.
      * intros [Hd Hn]. split_and!; [|done|].
        -- intros Hin. apply (Hn _ Hin). left.
        -- intros i [->|Hi]%elem_of_cons; [done|]. intros His. apply (Hn i Hi). by right.
      * intros [[Hin Hd] Hn]. split; [done|]. intros i Hi [->|His]%elem_of_cons; [done|]. apply (Hn i); [by right|done].
Qed.
Lemma edges_known ids edges :
  forallb (fun e => is_in (source e) ids && is_in (target e) ids) edges = true ->
  forall e, e ∈ edges -> source e ∈ ids /\ target e ∈ ids.
Proof.
  intros Hall e He. rewrite forallb_forall in Hall. specialize (Hall e (proj1 (list_elem_of_In _ _) He)).
  apply andb_true_iff in Hall as [H1 H2]. by rewrite !is_in_true in *.
Qed.
(** the parts of a specification that compiles *)
Record compiles (s : CapabilitySpec) (c : CompiledCapability) : Prop := {
  co_spec : cc_spec c = s;
  co_once : NoDup (map dn_id (cs_nodes s));
  co_some : cs_nodes s <> [];
  co_edges e : e ∈ cs_edges s -> source e ∈ map dn_id (cs_nodes s) /\ target e ∈ map dn_id (cs_nodes s);
  co_effects p : p ∈ cs_effects s -> exists d, d ∈ cs_permissions s /\ _covered p d = true;
  co_nodes n : n ∈ cs_nodes s -> check_node (cs_permissions s) n = Ok tt;
  co_order : cc_topological_order c = topological_order (map dn_id (cs_nodes s)) (cs_edges s);
  co_length : length (cc_topological_order c) = length (cs_nodes s);
  co_verifiers v : v ∈ cs_verifiers s -> v ∈ map dn_id (cs_nodes s);
  co_permissions : cc_permissions c ≡ₚ cs_permissions s;
  co_human : requires_human s = Ok (cc_requires_human_approval c);
}.
Lemma all_Ok_each {A B} (f : A -> result B) l : is_ok (all_Ok (map f l)) = true -> forall x, x ∈ l -> is_ok (f x) = true.
Proof.
  induction l as [|y l IH]; [by intros _ ? ?%elem_of_nil|]. cbn. destruct (f y) eqn:E; [|done]. cbn.
  destruct (all_Ok (map f l)); [|done]. intros _ x [->|Hx]%elem_of_cons; [by rewrite E|by apply IH].
Qed.
Lemma compile_Ok s c : compile s = Ok c -> compiles s c.
Proof.
  unfold compile. destruct (duplicate_id [] (cs_nodes s)) eqn:Ed; [done|]. apply duplicate_none in Ed as [Hd _].
  destruct (is_nil _) eqn:En; [done|]. destruct (forallb _ (cs_effects s)) eqn:Ee; [|done]. cbn [negb].
  intros (us & Hus & Hc)%rbind_Ok. destruct (forallb _ (cs_edges s)) eqn:Eg; [|done]. cbn [negb] in Hc. cbv zeta in Hc.
  destruct (_ =? _)%Z eqn:El; [|done]. cbn [negb] in Hc. apply Z.eqb_eq in El.
  destruct (forallb _ (cs_verifiers s)) eqn:Ev; [|done]. cbn [negb] in Hc. apply rbind_Ok in Hc as (human & Hh & [= <-]).
  split; cbn [cc_spec cc_topological_order cc_permissions cc_requires_human_approval]; try done.
  - by intros Hn; rewrite Hn in En.
  - by apply edges_known.
  - intros p Hp. rewrite forallb_forall in Ee. apply existsb_elem, Ee. by apply list_elem_of_In.
  - intros n Hn. pose proof (all_Ok_each (check_node (cs_permissions s)) (cs_nodes s)) as Hall. rewrite Hus in Hall.
    specialize (Hall eq_refl n Hn). by destruct (check_node _ n) as [[]|].
  - unfold len_list in El. rewrite length_map in El. lia.
  - intros v Hv. rewrite forallb_forall in Ev. apply is_in_true, Ev. by apply list_elem_of_In.
  - apply merge_sort_Permutation.
Qed.

Lemma compiles_ordered s c :
  compiles s c -> ordered (map dn_id (cs_nodes s)) (cs_edges s) (cc_topological_order c).
Proof. intros Hc. rewrite (co_order _ _ Hc). apply topological_order_ordered; [apply (co_once _ _ Hc)|apply (co_edges _ _ Hc)]. Qed.
Lemma compiles_perm s c : compiles s c -> cc_topological_order c ≡ₚ map dn_id (cs_nodes s).
Proof.
  intros Hc. pose proof (compiles_ordered _ _ Hc) as Ho. apply submseteq_length_Permutation.
  - apply NoDup_submseteq; [exact (od_once _ _ _ Ho)|exact (od_ids _ _ _ Ho)].
  - by rewrite length_map, (co_length _ _ Hc).
Qed.

(** What compiles can be run in its order: the order has every node exactly once,
    and a node comes after every node that an edge leads to it from. *)
Theorem compiled_order s c :
  compile s = Ok c ->
  NoDup (cc_topological_order c) /\ cc_topological_order c ≡ₚ map dn_id (cs_nodes s) /\
  forall e, e ∈ cs_edges s -> exists l1 l2 l3, cc_topological_order c = l1 ++ source e :: l2 ++ target e :: l3.
Proof.
  intros Hc%compile_Ok. pose proof (compiles_ordered _ _ Hc) as Ho. pose proof (compiles_perm _ _ Hc) as Hp.
  split_and!; [exact (od_once _ _ _ Ho)|exact Hp|]. intros e He.
  destruct (co_edges _ _ Hc e He) as [_ Ht]. rewrite <- Hp in Ht. apply list_elem_of_split in Ht as (k & l3 & Hk).
  pose proof (od_forward _ _ _ Ho k _ l3 e Hk He eq_refl) as (l1 & l2 & ->)%list_elem_of_split.
  exists l1, l2, l3. by rewrite Hk, <- app_assoc.
Qed.

(** C20. A recipe is refused for a cycle exactly when it has one: what compiles has no
    cycle, and when compiling fails for a cycle there is no way to rank the nodes so
    that every edge leads upwards. *)
Theorem cycles_are_refused s :
  (is_ok (compile s) = true -> acyclic (cs_edges s)) /\
  (compile s = Err (CapabilityCompileError "capability DAG contains a cycle") -> ~ acyclic (cs_edges s)).
Proof.
  split.
  - destruct (compile s) as [c|] eqn:E; [|done]. intros _. apply compile_Ok in E.
    apply (ordered_acyclic _ _ (co_edges _ _ E) _ (compiles_ordered _ _ E)). intros i. by rewrite (compiles_perm _ _ E).
  - unfold compile. destruct (duplicate_id [] (cs_nodes s)) eqn:Ed; [done|]. apply duplicate_none in Ed as [Hd _].
    destruct (is_nil _) eqn:En; [done|]. destruct (forallb _ (cs_effects s)) eqn:Ee; [|done]. cbn [negb].
    destruct (all_Ok _) as [us|e] eqn:Eu.
    2:{ cbn [rbind]. intros [= ->] _. revert Eu. clear. induction (cs_nodes s) as [|n l IH]; cbn; [done|].
        unfold check_node at 1. destruct (negb _); [by intros [=]|]. destruct (_ && _); [by intros [=]|]. cbn [rbind].
        destruct (all_Ok _); [done|]. intros [= ->]. by apply IH. }
    cbn [rbind]. destruct (forallb _ (cs_edges s)) eqn:Eg; [|done]. cbn [negb]. cbv zeta.
    pose proof (edges_known _ _ Eg) as Hedges. destruct (_ =? _)%Z eqn:El; cbn [negb].
    { destruct (forallb _ (cs_verifiers s)); [|done]. cbn [negb]. unfold requires_human.
      destruct (is_in _ ["high-impact"; _]); [|done]. destruct (str_eqb _ "irreversible"); [done|]. by destruct (_ && _). }
    intros _ Ha. apply Z.eqb_neq in El. apply El. unfold len_list. f_equal.
    pose proof (topological_order_ordered _ _ Hd Hedges) as Ho. apply Permutation_length.
    apply NoDup_Permutation; [exact (od_once _ _ _ Ho)|done|]. intros i. split; [apply (od_ids _ _ _ Ho)|].
    by apply (ordered_all _ _ Hedges).
Qed.

(** What compiles keeps to its envelope: every permission of a node and every effect
    is covered by a permission that is declared; a node that is retried may be, because
    it is idempotent or says that it need not be; verifiers are nodes; and a human must
    approve what is of high impact or critical and what a node asks it for. *)
Theorem compiled_envelope s c :
  compile s = Ok c ->
  (forall n p, n ∈ cs_nodes s -> p ∈ dn_permissions n -> exists d, d ∈ cc_permissions c /\ _covered p d = true) /\
  (forall p, p ∈ cs_effects s -> exists d, d ∈ cc_permissions c /\ _covered p d = true) /\
  (forall n, n ∈ cs_nodes s -> (1 < rp_max_attempts (dn_retry n))%Z ->
     dn_idempotent n = true \/ rp_only_if_idempotent (dn_retry n) = false) /\
  (forall v, v ∈ cs_verifiers s -> v ∈ cc_topological_order c) /\
  (cc_requires_human_approval c = true <->
     cs_risk_class s = "high-impact" \/ cs_risk_class s = "critical" \/ exists n, n ∈ cs_nodes s /\ dn_approval n = "human").
Proof.
  intros Hc. pose proof (compile_Ok _ _ Hc) as [_ _ _ _ Heff Hnodes _ _ Hver Hperm Hhum].
  assert (forall p d, d ∈ cs_permissions s -> _covered p d = true -> exists d, d ∈ cc_permissions c /\ _covered p d = true) as Hup.
  { intros p d Hd Hcov. exists d. by rewrite Hperm. }
  split_and!.
  - intros n p Hn Hp. specialize (Hnodes n Hn). unfold check_node in Hnodes. destruct (forallb _ _) eqn:E; [|done].
    rewrite forallb_forall in E. specialize (E p (proj1 (list_elem_of_In _ _) Hp)). apply existsb_elem in E as (d & Hd & Hcov).
    by apply (Hup p d).
  - intros p Hp. destruct (Heff p Hp) as (d & Hd & Hcov). by apply (Hup p d).
  - intros n Hn Hm%Z.ltb_lt. specialize (Hnodes n Hn). unfold check_node in Hnodes. destruct (forallb _ _); [|done]. cbn [negb] in Hnodes.
    rewrite Hm in Hnodes. destruct (rp_only_if_idempotent _), (dn_idempotent n); cbn in Hnodes; try done; auto.
  - intros v Hv%Hver. by rewrite (compiles_perm _ _ (compile_Ok _ _ Hc)).
  - unfold requires_human in Hhum. assert (is_in (cs_risk_class s) ["high-impact"; "critical"] = true <->
      cs_risk_class s = "high-impact" \/ cs_risk_class s = "critical") as Hrisk.
    { rewrite is_in_true, !elem_of_cons, elem_of_nil. tauto. }
    destruct (is_in (cs_risk_class s) _).
    + assert (cc_requires_human_approval c = true) as ->.
      { destruct (str_eqb _ "irreversible"); [by injection Hhum|]. destruct (_ && _); [done|]. by injection Hhum. }
      tauto.
    + injection Hhum as <-. rewrite existsb_elem. setoid_rewrite str_eqb_true. destruct Hrisk as [_ Hr].
      split; [tauto|]. intros [H1|[H1|H1]]; [by discriminate Hr; auto|by discriminate Hr; auto|done].
Qed.

(** ** A concrete recipe *)

Definition demo_node (i : string) (permissions : list CapabilityRequest) (attempts : Z) (idempotent : bool) : DagNode := {|
  dn_id := i; dn_action_ref := "tool://x"; dn_version := "1"; dn_input_bindings := []; dn_output_schema := JObj [];
  dn_preconditions := []; dn_postconditions := []; dn_permissions := permissions; dn_timeout_ms := 1000;
  dn_retry := {| rp_max_attempts := attempts; rp_only_if_idempotent := true; rp_retryable_errors := [] |};
  dn_compensation_action_ref := None; dn_approval := "none"; dn_idempotent := idempotent |}.
Definition demo_recipe (edges : list DagEdge) : CapabilitySpec :=
  let read := {| cr_action := "workspace.read"; cr_resource := "ws-*"; cr_constraints := [] |} in
  let one := {| cr_action := "workspace.read"; cr_resource := "ws-1"; cr_constraints := [] |} in {|
  cs_capability_id := "audit"; cs_version := "1"; cs_inputs_schema := JObj []; cs_preconditions := []; cs_effects := [one];
  cs_nodes := [demo_node "report" [] 1 false; demo_node "scan" [one] 3 true; demo_node "fetch" [one] 1 false];
  cs_edges := edges; cs_verifiers := ["report"]; cs_rollback_mode := "full"; cs_permissions := [read];
  cs_deadline_ms := 60000; cs_max_parallelism := 2; cs_risk_class := "read" |}.
Definition demo_edges : list DagEdge :=
  [{| source := "scan"; target := "report" |}; {| source := "fetch"; target := "scan" |}; {| source := "fetch"; target := "report" |}].
Example demo_order : cc_topological_order <$> (match compile (demo_recipe demo_edges) with Ok c => Some c | Err _ => None end)
  = Some ["fetch"; "scan"; "report"].
Proof. vm_compute. reflexivity. Qed.
Example demo_cycle : compile (demo_recipe ({| source := "report"; target := "fetch" |} :: demo_edges))
  = Err (CapabilityCompileError "capability DAG contains a cycle").
Proof. vm_compute. reflexivity. Qed.
(** The envelope of a capability does not look at constraints: a node may ask without
    them for what is declared with them. *)
Example constraints_are_not_compared :
  _covered {| cr_action := "workspace.read"; cr_resource := "ws-1"; cr_constraints := [] |}
           {| cr_action := "workspace.read"; cr_resource := "ws-1"; cr_constraints := [("paths", JStr "src")] |} = true.
Proof. vm_compute. reflexivity. Qed.

Theorem compiled_order_witness :
  exists c, compile (demo_recipe demo_edges) = Ok c /\
    cc_topological_order c ≡ₚ map dn_id (cs_nodes (demo_recipe demo_edges)).
Proof.
  destruct (compile (demo_recipe demo_edges)) as [c|] eqn:E; [|by vm_compute in E]. exists c. split; [done|].
  exact (proj1 (proj2 (compiled_order (demo_recipe demo_edges) c E))).
Defined.
Theorem compiled_envelope_witness :
  exists c, compile (demo_recipe demo_edges) = Ok c /\ forall v, v ∈ cs_verifiers (demo_recipe demo_edges) -> v ∈ cc_topological_order c.
Proof.
  destruct (compile (demo_recipe demo_edges)) as [c|] eqn:E; [|by vm_compute in E]. exists c. split; [done|].
  exact (proj1 (proj2 (proj2 (proj2 (compiled_envelope (demo_recipe demo_edges) c E))))).
Defined.
