(* ===== verification/CapabilityValidation.v ===== *)
(** * Contracts of execution

    Models [cptr/services/capability_os/validation.py]: a part of JSON Schema, and a
    small language of predicates; what they do not know fails. *)

From S2P Require Import Prelude PyStr Json FactoryDomain FactoryGates Database CapabilityLifecycle.
From S2P Require Import FactoryStore FactoryPhases FactoryGit FactoryCapabilities CapabilityContracts.
From Stdlib Require Import Ascii.

Definition _ALLOWED_SCHEMA_KEYS : list string :=
  ["type"; "required"; "properties"; "additionalProperties"; "items"; "enum"; "const"; "minimum"; "maximum";
   "minLength"; "maxLength"; "minItems"; "maxItems"].
Definition contract_error {A} (message : string) : result A := Err (ContractValidationError message).
(** [raise_when b m], and the checks after it *)
Definition when_ (b : bool) (message : string) : result unit := if b then contract_error message else Ok tt.

Section Validation.
Context `{Env}.

Definition _schema_type_matches (value : json) (expected : string) : result bool :=
  if str_eqb expected "object" then Ok (match value with JObj _ => true | _ => false end)
  else if str_eqb expected "array" then Ok (match value with JList _ => true | _ => false end)
  else if str_eqb expected "string" then Ok (match value with JStr _ => true | _ => false end)
  else if str_eqb expected "integer" then Ok (match value with JInt _ => true | _ => false end)
  else if str_eqb expected "number" then Ok (match value with JInt _ | JFloat _ => true | _ => false end)
  else if str_eqb expected "boolean" then Ok (match value with JBool _ => true | _ => false end)
  else if str_eqb expected "null" then Ok (match value with JNull => true | _ => false end)
  else contract_error ("unsupported JSON schema type: " +:+ expected).
(** the texts of an array that has nothing else *)
Fixpoint texts_only (items : list json) : option (list string) :=
  match items with
  | [] => Some []
  | JStr s :: items => l ← texts_only items; Some (s :: l)
  | _ => None
  end.
(** [any(...)], which stops at the first that matches *)
Fixpoint any_type (value : json) (types : list string) : result bool :=
  match types with
  | [] => Ok false
  | t :: types => let? found := _schema_type_matches value t in if found then Ok true else any_type value types
  end.
Definition check_type (value : json) (schema : dict) (path : string) : result unit :=
  match get "type" schema with
  | JNull => Ok tt
  | declared =>
      let? types :=
        match declared with
        | JStr t => Ok [t]
        | JList items =>
            match texts_only items with
            | Some (t :: l) => Ok (t :: l)
            | _ => contract_error "JSON schema type must be a string or non-empty array"
            end
        | _ => contract_error "JSON schema type must be a string or non-empty array"
        end in
      let? found := any_type value types in
      when_ (negb found) (path +:+ " does not match declared type")
  end.
Definition py_in (v : json) (items : list json) : bool := existsb (py_eq v) items.
Definition check_choice (value : json) (schema : dict) (path : string) : result unit :=
  let? _ := match dict_get "const" schema with
            | Some c => when_ (negb (py_eq value c)) (path +:+ " does not match const")
            | None => Ok tt
            end in
  match dict_get "enum" schema with
  | Some (JList options) => when_ (negb (py_in value options)) (path +:+ " is outside enum")
  | Some _ => contract_error (path +:+ " is outside enum")
  | None => Ok tt
  end.
(** a bound on a length, if it is given *)
Definition check_length (bad : Z -> bool) (bound : json) (message : string) : result unit :=
  match bound with
  | JNull => Ok tt
  | _ => let? n := py_int bound in when_ (bad n) message
  end.
(** a bound on a number, if it is given *)
Definition check_bound (bad : json -> bool) (bound : json) (message : string) : result unit :=
  match bound with
  | JNull => Ok tt
  | _ => if is_number bound then when_ (bad bound) message else Err (TypeError "not supported between instances")
  end.
Definition number_lt (v w : json) : bool := bool_decide (number_compare v w = Some Lt).
(** [required], [properties] and [additionalProperties], for an object *)
Definition object_contract (fields schema : dict) (path : string) : result (dict * bool) :=
  let? required :=
    match default (JList []) (dict_get "required" schema) with
    | JList items =>
        match texts_only items with
        | Some l => Ok l
        | None => contract_error "JSON schema required must be a string array"
        end
    | _ => contract_error "JSON schema required must be a string array"
    end in
  let? _ := match List.filter (fun r => negb (is_in r (map fst fields))) required with
            | missing :: _ => contract_error (path +:+ " is missing required property: " +:+ missing)
            | [] => Ok tt
            end in
  match default (JObj []) (dict_get "properties" schema) with
  | JObj properties =>
      match default (JBool true) (dict_get "additionalProperties" schema) with
      | JBool additional => Ok (properties, additional)
      | _ => contract_error "additionalProperties must be boolean"
      end
  | _ => contract_error "JSON schema properties must be an object"
  end.
(** [validate_schema] *)
Fixpoint validate_schema (value schema : json) (path : string) {struct value} : result unit :=
  match schema with
  | JObj keys =>
      match List.filter (fun k => negb (is_in k _ALLOWED_SCHEMA_KEYS)) (map fst keys) with
      | (_ :: _) as unknown => contract_error ("unsupported JSON schema keyword: " +:+ default "" (head (sorted_set unknown)))
      | [] =>
          let? _ := check_type value keys path in
          let? _ := check_choice value keys path in
          match value with
          | JObj fields =>
              let? contract := object_contract fields keys path in
              (fix each (fields : dict) : result unit :=
                 match fields with
                 | [] => Ok tt
                 | (k, item) :: fields =>
                     let? _ := match get k contract.1 with
                               | JNull => when_ (negb contract.2) (path +:+ "." +:+ k +:+ " is not allowed")
                               | child => validate_schema item child (path +:+ "." +:+ k)
                               end in
                     each fields
                 end) fields
          | JList items =>
              let? _ := check_length (fun n => len_list items <? n)%Z (get "minItems" keys) (path +:+ " has too few items") in
              let? _ := check_length (fun n => n <? len_list items)%Z (get "maxItems" keys) (path +:+ " has too many items") in
              match get "items" keys with
              | JNull => Ok tt
              | JObj item_schema =>
                  (fix each (i : Z) (items : list json) : result unit :=
                     match items with
                     | [] => Ok tt
                     | item :: items =>
                         let? _ := validate_schema item (JObj item_schema) (path +:+ "[" +:+ str_of_int i +:+ "]") in
                         each (i + 1)%Z items
                     end) 0%Z items
              | _ => contract_error "JSON schema items must be an object"
              end
          | JStr s =>
              let? _ := check_length (fun n => len s <? n)%Z (get "minLength" keys) (path +:+ " is shorter than minLength") in
              check_length (fun n => n <? len s)%Z (get "maxLength" keys) (path +:+ " exceeds maxLength")
          | JInt _ | JFloat _ =>
              let? _ := check_bound (number_lt value) (get "minimum" keys) (path +:+ " is below minimum") in
              check_bound (number_gt value) (get "maximum" keys) (path +:+ " exceeds maximum")
          | _ => Ok tt
          end
      end
  | _ => contract_error "JSON schema must be an object"
  end.

(** *** Predicates *)

(** a path into a value, segment by segment; [None] is [_MISSING] *)
Fixpoint walk_path (segments : list string) (current : json) : result (option json) :=
  match segments with
  | [] => Ok (Some current)
  | segment :: segments =>
      if empty_str segment || (200 <? len segment)%Z then contract_error "predicate path segment is invalid"
      else
        match current with
        | JObj fields => match dict_get segment fields with Some v => walk_path segments v | None => Ok None end
        | _ => Ok None
        end
  end.
Definition _resolve_path (context : dict) (raw_path : string) : result (option json) :=
  let path := strip raw_path in
  if empty_str path || (500 <? len path)%Z then contract_error "predicate path is invalid"
  else walk_path (split_on "."%char path) (JObj context).
(** whether a predicate holds of what is at its path *)
Definition predicate_holds (label : string) (op : string) (actual : option json) (expected : json) : result bool :=
  if str_eqb op "exists" then Ok (match actual with Some _ => true | None => false end)
  else if str_eqb op "missing" then Ok (match actual with None => true | Some _ => false end)
  else
    match actual with
    | None => Ok false
    | Some v =>
        if str_eqb op "eq" then Ok (py_eq v expected)
        else if str_eqb op "ne" then Ok (negb (py_eq v expected))
        else if str_eqb op "truthy" then Ok (truthy v)
        else if str_eqb op "falsy" then Ok (negb (truthy v))
        else if is_in op ["in"; "not_in"] then
          match expected with
          | JList items => Ok (if str_eqb op "in" then py_in v items else negb (py_in v items))
          | _ => contract_error (label +:+ " " +:+ op +:+ " value must be an array")
          end
        else contract_error ("unsupported predicate operator: " +:+ op)
    end.
Definition evaluate_predicate (context : dict) (label : string) (raw : json) : result unit :=
  match raw with
  | JObj fields =>
      match List.filter (fun k => negb (is_in k ["path"; "op"; "value"])) (map fst fields) with
      | (_ :: _) as unknown => contract_error ("unsupported predicate field: " +:+ default "" (head (sorted_set unknown)))
      | [] =>
          let path := str_or_empty (get "path" fields) in
          let op := lower (strip (str_or_empty (get "op" fields))) in
          let? actual := _resolve_path context path in
          let? passed := predicate_holds label op actual (get "value" fields) in
          when_ (negb passed) (label +:+ " failed: " +:+ path +:+ " " +:+ op)
      end
  | _ => contract_error (label +:+ " must be an object")
  end.
(** [evaluate_predicates] *)
Fixpoint evaluate_each (i : Z) (predicates : list json) (context : dict) (label : string) : result unit :=
  match predicates with
  | [] => Ok tt
  | raw :: predicates =>
      let? _ := evaluate_predicate context (label +:+ "[" +:+ str_of_int i +:+ "]") raw in
      evaluate_each (i + 1) predicates context label
  end.
Definition evaluate_predicates (predicates : list json) (context : dict) (label : string) : result unit :=
  if (100 <? len_list predicates)%Z then contract_error (label +:+ " exceeds predicate bound")
  else evaluate_each 0 predicates context label.
End Validation.
