(* ===== verification/CapabilityValidationSpec.v ===== *)
(** * Properties of contracts of execution

    What passes the validation of a schema is exactly what conforms to it, in a
    declarative reading of the part of JSON Schema that is supported. *)

From S2P Require Import Prelude PyStr Json FactoryDomain FactoryGates Database CapabilityLifecycle.
From S2P Require Import FactoryStore FactoryPhases FactoryGit FactoryPolicy FactoryCapabilities CapabilityContracts CapabilityValidation.

(** ** What a schema means *)

Section Spec.
Context `{Env}.

(** the types of values *)
Inductive typed : json -> string -> Prop :=
  | typed_object fields : typed (JObj fields) "object"
  | typed_array items : typed (JList items) "array"
  | typed_string s : typed (JStr s) "string"
  | typed_integer z : typed (JInt z) "integer"
  | typed_whole z : typed (JInt z) "number"
  | typed_float t : typed (JFloat t) "number"
  | typed_boolean b : typed (JBool b) "boolean"
  | typed_null : typed JNull "null".
Definition known_types : list string := ["object"; "array"; "string"; "integer"; "number"; "boolean"; "null"].
(** the types that are declared, as they are tried in order *)
Definition of_type (v : json) (declared : json) : Prop :=
  declared = JNull \/
  exists l1 t l2, (declared = JStr t /\ l1 = [] /\ l2 = [] \/ declared = JList (map JStr (l1 ++ t :: l2))) /\
    (forall u, u ∈ l1 -> u ∈ known_types) /\ typed v t.
Definition chosen (v : json) (keys : dict) : Prop :=
  (forall c, dict_get "const" keys = Some c -> py_eq v c = true) /\
  (forall o, dict_get "enum" keys = Some o -> exists options w, o = JList options /\ w ∈ options /\ py_eq v w = true).
(** bounds, which hold if they are not given *)
Definition bounded (P : Z -> Prop) (bound : json) : Prop := bound = JNull \/ exists n, py_int bound = Ok n /\ P n.
Definition compared (bad : json -> bool) (bound : json) : Prop := bound = JNull \/ is_number bound = true /\ bad bound = false.
Definition general (v : json) (keys : dict) : Prop :=
  (forall k, k ∈ map fst keys -> k ∈ _ALLOWED_SCHEMA_KEYS) /\ of_type v (get "type" keys) /\ chosen v keys.

Inductive conforms : json -> json -> Prop :=
  | conforms_object fields keys required properties additional :
      general (JObj fields) keys ->
      default (JList []) (dict_get "required" keys) = JList (map JStr required) ->
      (forall r, r ∈ required -> r ∈ map fst fields) ->
      default (JObj []) (dict_get "properties" keys) = JObj properties ->
      default (JBool true) (dict_get "additionalProperties" keys) = JBool additional ->
      (forall k item, (k, item) ∈ fields -> get k properties = JNull -> additional = true) ->
      (forall k item, (k, item) ∈ fields -> get k properties <> JNull -> conforms item (get k properties)) ->
      conforms (JObj fields) (JObj keys)
  | conforms_array items keys item_schema :
      general (JList items) keys ->
      bounded (fun n => n <= len_list items)%Z (get "minItems" keys) ->
      bounded (fun n => len_list items <= n)%Z (get "maxItems" keys) ->
      get "items" keys = item_schema -> item_schema = JNull \/ (exists s, item_schema = JObj s) ->
      (forall item, item ∈ items -> item_schema <> JNull -> conforms item item_schema) ->
      conforms (JList items) (JObj keys)
  | conforms_string s keys :
      general (JStr s) keys ->
      bounded (fun n => n <= len s)%Z (get "minLength" keys) -> bounded (fun n => len s <= n)%Z (get "maxLength" keys) ->
      conforms (JStr s) (JObj keys)
  | conforms_number v keys :
      general v keys -> (exists z, v = JInt z) \/ (exists t, v = JFloat t) ->
      compared (number_lt v) (get "minimum" keys) -> compared (number_gt v) (get "maximum" keys) ->
      conforms v (JObj keys)
  | conforms_plain v keys : general v keys -> v = JNull \/ (exists b, v = JBool b) -> conforms v (JObj keys).

(** ** The checks *)

Lemma when_Ok b m : when_ b m = Ok tt <-> b = false.
Proof. by destruct b. Qed.
Lemma schema_type_Ok v t b : _schema_type_matches v t = Ok b -> t ∈ known_types /\ (b = true <-> typed v t).
Proof.
  unfold _schema_type_matches. repeat (match goal with |- context [str_eqb t ?x] => destruct (str_eqb t x) eqn:? end;
    [match goal with E : str_eqb t _ = true |- _ => apply str_eqb_true in E as -> end; intros [= <-];
     split; [set_solver|destruct v; split; intros Hx; first [done | constructor | by inversion Hx]]|]).
  done.
Qed.
Lemma schema_type_known v t : t ∈ known_types -> exists b, _schema_type_matches v t = Ok b.
Proof.
  unfold known_types. rewrite !elem_of_cons, elem_of_nil. intros Ht. repeat destruct Ht as [->|Ht]; [by eexists..|done].
Qed.
Lemma typed_known v t : typed v t -> t ∈ known_types.
Proof. destruct 1; set_solver. Qed.
Lemma any_type_Ok v types :
  any_type v types = Ok true <-> exists l1 t l2, types = l1 ++ t :: l2 /\ (forall u, u ∈ l1 -> u ∈ known_types) /\ typed v t.
Proof.
  induction types as [|t types IH]; cbn [any_type]; [by split; [done|intros ([|] & ? & ? & ? & _)]|].
  rewrite rbind_Ok. split.
  - intros ([|] & Hb & Hrest).
    + apply schema_type_Ok in Hb as [_ Hb]. exists [], t, types. split_and!; [done|by intros u ?%elem_of_nil|by apply Hb].
    + apply schema_type_Ok in Hb as [Hk _]. apply IH in Hrest as (l1 & t' & l2 & -> & Hl1 & Ht).
      exists (t :: l1), t', l2. split_and!; [done| |done]. intros u [->|Hu]%elem_of_cons; [done|by apply Hl1].
  - intros (l1 & t' & l2 & Heq & Hl1 & Ht). assert (t ∈ known_types) as Hk.
    { destruct l1 as [|u l1]; injection Heq as -> _; [by eapply typed_known|apply Hl1; left]. }
    destruct (schema_type_known v t Hk) as [b Hb]. exists b. split; [done|]. destruct b; [done|]. apply IH.
    destruct l1 as [|u l1]; injection Heq as -> ->.
    + apply schema_type_Ok in Hb as [_ Hb]. by apply Hb in Ht.
    + exists l1, t', l2. split_and!; [done| |done]. intros w Hw. apply Hl1. by right.
Qed.
Lemma texts_only_Some items l : texts_only items = Some l <-> items = map JStr l.
Proof.
  revert l. induction items as [|i items IH]; intros l; cbn; [destruct l; naive_solver|].
  destruct i; try (split; [done|destruct l; by intros [=]]). destruct l as [|x l].
  - split; [|done]. by destruct (texts_only items).
  - cbn [map]. transitivity (s = x /\ texts_only items = Some l).
    + destruct (texts_only items); cbn; naive_solver.
    + rewrite IH. naive_solver.
Qed.
Lemma check_type_Ok v keys path : check_type v keys path = Ok tt <-> of_type v (get "type" keys).
Proof.
  unfold check_type, of_type. set (declared := get "type" keys).
  assert (forall (types : result (list string)), (let? ts := types in let? found := any_type v ts in
     when_ (negb found) (path +:+ " does not match declared type")) = Ok tt <-> exists ts, types = Ok ts /\ any_type v ts = Ok true) as Hrun.
  { intros types. rewrite rbind_Ok. setoid_rewrite rbind_Ok. setoid_rewrite when_Ok. split.
    - intros (ts & -> & found & Hf & Hn). exists ts. apply negb_false_iff in Hn as ->. done.
    - intros (ts & -> & Hf). exists ts. split; [done|]. by exists true. }
  destruct declared as [|b|z|t|t|items|fields] eqn:Ed; try (rewrite Hrun; split;
    [by intros (ts & ? & _)|by intros [|(l1 & u & l2 & [[? _]|?] & _)]]).
  - split; [by left|done].
  - rewrite Hrun. setoid_rewrite any_type_Ok. split.
    + intros (ts & [= <-] & l1 & u & l2 & Heq & Hl & Ht). right. exists l1, u, l2. split; [|done]. left.
      destruct l1 as [|x l1]; [by injection Heq as -> <-|]. destruct l1; by injection Heq.
    + intros [|(l1 & u & l2 & [([= ->] & -> & ->)|?] & Hl & Ht)]; [done| |done]. exists [u]. split; [done|]. by exists [], u, [].
  - rewrite Hrun. setoid_rewrite any_type_Ok. split.
    + intros (ts & Hts & l1 & u & l2 & -> & Hl & Ht). right. exists l1, u, l2. split; [|done]. right. f_equal. apply texts_only_Some.
      destruct (texts_only items) as [[|x l]|] eqn:E; [done| |done]. by injection Hts as ->.
    + intros [|(l1 & u & l2 & [(? & _)|[= ->]] & Hl & Ht)]; [done|done|].
      exists (l1 ++ u :: l2). split; [|by exists l1, u, l2]. rewrite (proj2 (texts_only_Some _ _) eq_refl). by destruct l1.
Qed.
Lemma check_choice_Ok v keys path : check_choice v keys path = Ok tt <-> chosen v keys.
Proof.
  unfold check_choice, chosen. rewrite rbind_Ok. split.
  - intros ([] & Hc & He). split.
    + intros c Ec. rewrite Ec in Hc. apply when_Ok in Hc. by apply negb_false_iff in Hc.
    + intros o Eo. rewrite Eo in He. destruct o; try done. apply when_Ok, negb_false_iff, existsb_elem in He as (w & ? & ?).
      by exists items, w.
  - intros [Hc He]. exists tt. split.
    + destruct (dict_get "const" keys); [|done]. apply when_Ok, negb_false_iff. by apply Hc.
    + destruct (dict_get "enum" keys); [|done]. destruct (He _ eq_refl) as (options & w & -> & Hw & Heq).
      apply when_Ok, negb_false_iff, existsb_elem. by exists w.
Qed.
Lemma check_length_Ok bad (P : Z -> Prop) bound m :
  (forall n, bad n = false <-> P n) -> check_length bad bound m = Ok tt <-> bounded P bound.
Proof.
  intros HP. unfold check_length, bounded. assert (forall r : result Z, (let? n := r in when_ (bad n) m) = Ok tt <-> exists n, r = Ok n /\ P n) as Hr.
  { intros r. rewrite rbind_Ok. setoid_rewrite when_Ok. by setoid_rewrite HP. }
  destruct bound; [split; [by left|done]|..]; rewrite Hr; naive_solver.
Qed.
Lemma check_bound_Ok bad bound m : check_bound bad bound m = Ok tt <-> compared bad bound.
Proof.
  unfold check_bound, compared. destruct bound; [split; [by left|done]|..]; cbn; rewrite ?when_Ok; naive_solver.
Qed.
Lemma object_contract_Ok fields keys path properties additional :
  object_contract fields keys path = Ok (properties, additional) <->
  exists required, default (JList []) (dict_get "required" keys) = JList (map JStr required) /\
    (forall r, r ∈ required -> r ∈ map fst fields) /\
    default (JObj []) (dict_get "properties" keys) = JObj properties /\
    default (JBool true) (dict_get "additionalProperties" keys) = JBool additional.
Proof.
  unfold object_contract. rewrite rbind_Ok. setoid_rewrite rbind_Ok.
  assert (forall required, (match List.filter (fun r => negb (is_in r (map fst fields))) required with
      | missing :: _ => contract_error (path +:+ " is missing required property: " +:+ missing) | [] => Ok tt end) = Ok tt <->
      forall r, r ∈ required -> r ∈ map fst fields) as Hreq.
  { intros required. destruct (List.filter _ required) as [|r l] eqn:E.
    - split; [intros _ r Hr|done]. destruct (is_in r (map fst fields)) eqn:Ei; [by apply is_in_true|].
      assert (r ∈ List.filter (fun r => negb (is_in r (map fst fields))) required) as Hin
        by (apply list_elem_of_In, List.filter_In; rewrite Ei; split; [by apply list_elem_of_In|done]).
      rewrite E in Hin. by apply elem_of_nil in Hin.
    - split; [done|]. intros Hall. assert (r ∈ List.filter (fun r => negb (is_in r (map fst fields))) required) as Hin by (rewrite E; left).
      apply list_elem_of_In, List.filter_In in Hin as [Hin%list_elem_of_In Hno%negb_true_iff].
      apply Hall, is_in_true in Hin. congruence. }
  split.
  - intros (required & Hr & [] & Hm & Hp). exists required. pose proof (proj1 (Hreq required) Hm) as Hm'. clear Hm. rename Hm' into Hm. destruct (default (JList []) _); try done.
    destruct (texts_only items) eqn:Et; [|done]. injection Hr as ->. apply texts_only_Some in Et as ->.
    destruct (default (JObj []) _); try done. destruct (default (JBool true) _); try done. by injection Hp as -> ->.
  - intros (required & -> & Hm%Hreq & -> & ->). exists required. rewrite (proj2 (texts_only_Some _ _) eq_refl).
    split; [done|]. by exists tt.
Qed.
Lemma unknown_keys_none keys :
  List.filter (fun k => negb (is_in k _ALLOWED_SCHEMA_KEYS)) (map fst keys) = [] <->
  forall k : string, k ∈ map fst (keys : dict) -> k ∈ _ALLOWED_SCHEMA_KEYS.
Proof.
  induction (map fst keys) as [|k l IH]; cbn [List.filter]; [split; [by intros _ k ?%elem_of_nil|done]|].
  destruct (is_in k _ALLOWED_SCHEMA_KEYS) eqn:E; cbn [negb].
  - rewrite IH. apply is_in_true in E. split; intros Hl j Hj; [|apply Hl; by right].
    apply elem_of_cons in Hj as [->|Hj]; [done|by apply Hl].
  - split; [done|]. intros Hk. specialize (Hk k ltac:(left)). apply is_in_true in Hk. congruence.
Qed.
(** validation, but for the parts of a value *)
Lemma validate_general v keys path (rest : result unit) :
  (match List.filter (fun k => negb (is_in k _ALLOWED_SCHEMA_KEYS)) (map fst keys) with
   | (_ :: _) as unknown => contract_error ("unsupported JSON schema keyword: " +:+ default "" (head (sorted_set unknown)))
   | [] => let? _ := check_type v keys path in let? _ := check_choice v keys path in rest end) = Ok tt <->
  general v keys /\ rest = Ok tt.
Proof.
  unfold general. rewrite <- unknown_keys_none, <- (check_type_Ok v keys path), <- (check_choice_Ok v keys path).
  destruct (List.filter _ _); [|naive_solver]. destruct (check_type v keys path) as [[]|], (check_choice v keys path) as [[]|]; naive_solver.
Qed.
Lemma pair_Ok (a b : result unit) : (let? _ := a in b) = Ok tt <-> a = Ok tt /\ b = Ok tt.
Proof. destruct a as [[]|]; naive_solver. Qed.

(** C21. What passes validation is exactly what conforms to the schema: the verdict does
    not depend on the path that errors name, every part of a value is looked at, and a
    schema with a keyword or a type that is not supported lets nothing pass by it. *)
Theorem validated_conforms v schema path : validate_schema v schema path = Ok tt <-> conforms v schema.
Proof.
  revert schema path. induction v as [|b|z|t|s|items IH|fields IH] using json_ind'; intros [| | | | | |keys] path;
    try (split; [done|by inversion 1]); cbn [validate_schema]; rewrite validate_general.
  - split; [intros [? _]; by apply conforms_plain; [|left]|by inversion 1].
  - split; [intros [? _]; apply conforms_plain; [done|right; by eexists]|by inversion 1].
  - rewrite pair_Ok, !check_bound_Ok. split; [intros (? & ? & ?); apply conforms_number; [done|left; by eexists|done|done]|].
    inversion 1; subst; [done|naive_solver].
  - rewrite pair_Ok, !check_bound_Ok. split; [intros (? & ? & ?); apply conforms_number; [done|right; by eexists|done|done]|].
    inversion 1; subst; [done|naive_solver].
  - rewrite pair_Ok, (check_length_Ok _ (fun n => n <= len s)%Z), (check_length_Ok _ (fun n => len s <= n)%Z)
      by (intros n; by rewrite Z.ltb_ge). split; [intros (? & ? & ?); by apply conforms_string|].
    inversion 1; subst; [done|naive_solver|naive_solver].
  - rewrite !pair_Ok, (check_length_Ok _ (fun n => n <= len_list items)%Z), (check_length_Ok _ (fun n => len_list items <= n)%Z)
      by (intros n; by rewrite Z.ltb_ge).
    assert (forall item_schema i, (fix each (i : Z) (items : list json) : result unit :=
        match items with
        | [] => Ok tt
        | item :: items => let? _ := validate_schema item (JObj item_schema) (path +:+ "[" +:+ str_of_int i +:+ "]") in each (i + 1)%Z items
        end) i items = Ok tt <-> forall item, item ∈ items -> conforms item (JObj item_schema)) as Heach.
    { intros item_schema. induction IH as [|item items Hitem _ IHi]; intros i; [split; [by intros _ ? ?%elem_of_nil|done]|].
      rewrite pair_Ok, Hitem, IHi. setoid_rewrite elem_of_cons. naive_solver. }
    split.
    + intros (Hg & Hmin & Hmax & Hitems). eapply conforms_array; [done..| |].
      * destruct (get "items" keys); try done; [by left|right; by eexists].
      * intros item Hin. destruct (get "items" keys); try done. intros _. by apply (proj1 (Heach _ _) Hitems).
    + inversion 1 as [|? ? ? ? ? ? Hs Hkind Hall| | |]; subst; [|naive_solver|naive_solver]. split_and!; try done.
      destruct (get "items" keys) eqn:Ei; naive_solver.
  - rewrite rbind_Ok. assert (forall properties additional, (fix each (fields : dict) : result unit :=
        match fields with
        | [] => Ok tt
        | (k, item) :: fields =>
            let? _ := match get k properties with
                      | JNull => when_ (negb additional) (path +:+ "." +:+ k +:+ " is not allowed")
                      | child => validate_schema item child (path +:+ "." +:+ k)
                      end in each fields
        end) fields = Ok tt <->
      (forall k item, (k, item) ∈ fields -> get k properties = JNull -> additional = true) /\
      (forall k item, (k, item) ∈ fields -> get k properties <> JNull -> conforms item (get k properties))) as Heach.
    { intros properties additional. induction IH as [|[k item] fields Hitem _ IHf]; [split; [|done]; by split; intros ? ? ?%elem_of_nil|].
      cbn in Hitem. rewrite pair_Ok, IHf. setoid_rewrite elem_of_cons.
      transitivity (((get k properties = JNull -> additional = true) /\ (get k properties <> JNull -> conforms item (get k properties))) /\
        (forall k item, (k, item) ∈ fields -> get k properties = JNull -> additional = true) /\
        (forall k item, (k, item) ∈ fields -> get k properties <> JNull -> conforms item (get k properties))); [|naive_solver].
      apply and_iff_compat_r. destruct (get k properties); rewrite ?Hitem, ?when_Ok; [destruct additional; naive_solver|naive_solver..]. }
    split.
    + intros (Hg & [properties additional] & Hc & Hrest). cbn [fst snd] in Hrest. apply Heach in Hrest as [Hadd Hall].
      apply object_contract_Ok in Hc as (required & ? & ? & ? & ?). by eapply conforms_object.
    + inversion 1; subst; [|naive_solver|naive_solver]. split; [done|]. exists (properties, additional). split.
      * apply object_contract_Ok. by exists required.
      * by apply Heach.
Qed.
End Spec.

(** ** Concrete schemas *)

Definition demo_schema : json := JObj [
  ("type", JStr "object"); ("required", str_list ["name"]); ("additionalProperties", JBool false);
  ("properties", JObj [("name", JObj [("type", JStr "string"); ("maxLength", JInt 4)]);
                       ("marks", JObj [("items", JObj [("type", str_list ["integer"; "null"]); ("minimum", JInt 1)])])])].
Example demo_passes :
  @validate_schema demo_env (JObj [("name", JStr "abcd"); ("marks", JList [JInt 1; JNull])]) demo_schema "$" = Ok tt.
Proof. vm_compute. reflexivity. Qed.
Example demo_too_low :
  @validate_schema demo_env (JObj [("name", JStr "abcd"); ("marks", JList [JInt 1; JInt 0])]) demo_schema "$"
  = Err (ContractValidationError "$.marks[1] is below minimum").
Proof. vm_compute. reflexivity. Qed.
Example demo_not_known :
  @validate_schema demo_env (JInt 1) (JObj [("pattern", JStr "x")]) "$"
  = Err (ContractValidationError "unsupported JSON schema keyword: pattern").
Proof. vm_compute. reflexivity. Qed.
