(* ===== verification/CapabilityVm.v ===== *)
(** * The machine that executes capabilities

    Models [cptr/services/capability_os/vm.py]: it takes the nodes of a compiled
    capability in an order their edges allow, a batch at a time, has an executor perform
    their actions, records evidence of each, and undoes what was done when one fails.

    The executor acts on a world [R] of its own; a call of it that takes longer than it
    may raises [TimeoutError], as [asyncio.wait_for] does, and [None] is a result that is
    no [ActionResult].  The actions of a batch, which the code starts together, are
    performed one after the other. *)

From S2P Require Import Prelude PyStr Json FactoryDomain FactoryGates Database CapabilityLifecycle.
From S2P Require Import FactoryStore FactoryPhases FactoryGit FactoryCapabilities.
From S2P Require Import CapabilityContracts CapabilityStore CapabilityAuthority CapabilityCompiler CapabilityValidation.

Record ActionResult := {
  res_output : json;
  res_verification_passed : option bool;
  res_metadata : dict;
}.
Record CapabilityExecutionResult := {
  xr_status : string;
  xr_completed_nodes : list string;
  xr_compensated_nodes : list string;
  xr_outputs : dict;
  xr_evidence_ids : list string;
  xr_error : option string;
}.
Definition vm_error {W A} (message : string) : M W A := raise (CapabilityVmError message).
Definition is_vm_error (e : exn) : bool := match e with CapabilityVmError _ | ContractValidationError _ => true | _ => false end.
Definition is_contract_error (e : exn) : bool := match e with ContractValidationError _ => true | _ => false end.
Definition contract_message (e : exn) : string := match e with ContractValidationError m => m | _ => "" end.
(** a coroutine of [asyncio.gather(..., return_exceptions=True)] *)
Definition settled {W A} (m : M W A) : M W (result A) := fun w => let '(r, w') := m w in (Ok r, w').

Section Vm.
Context `{Env} {R : Type}.
Abbreviation VmWorld := (OsWorld * R)%type.
(** [executor.invoke], the time of the event loop in milliseconds, and [str(exc)] *)
Context (invoke : string -> string -> dict -> CapabilityLease -> Z -> M VmWorld (option ActionResult)).
Context (loop_time : M VmWorld Z) (exc_text : exn -> string).

Definition os {A} (m : M OsWorld A) : M VmWorld A := on_left m.

(** [_validate_lease] *)
Definition _validate_lease (task_id capability_digest : string) (lease : CapabilityLease)
    (required_permissions : list CapabilityRequest) : M VmWorld unit :=
  let* now_ms := os os_now in
  if negb (str_eqb (cl_status lease) "active") then vm_error "capability execution requires an active lease"
  else if (cl_expires_at_ms lease <=? now_ms)%Z then vm_error "capability execution lease has expired"
  else if negb (str_eqb (cl_task_id lease) task_id) then vm_error "capability execution lease belongs to another task"
  else if negb (str_eqb (cl_artifact_digest lease) capability_digest) then
    vm_error "capability execution lease belongs to another artifact"
  else if negb (str_eqb (cl_runtime_profile lease) "cptr-vm") then
    vm_error "capability execution lease has the wrong runtime profile"
  else if negb (forallb (fun r => existsb (fun a => permission_covers a r) (cl_permissions lease)) required_permissions) then
    vm_error "capability execution lease lacks required permission"
  else ret tt.
(** [_result_evidence_claims] *)
Definition _result_evidence_claims (r : ActionResult) : result dict :=
  let claims := [("verificationPassed", match res_verification_passed r with Some b => JBool b | None => JNull end);
                 ("metadata", JObj (res_metadata r))] in
  if py_eq (get "evidenceOutputPolicy" (res_metadata r)) (JStr "digest-only") then
    let output_digest := str_or_empty (get "outputDigest" (res_metadata r)) in
    if negb (startswith "sha256:" output_digest) || negb (len output_digest =? 71)%Z then
      Err (CapabilityVmError "digest-only action evidence requires a valid output digest")
    else Ok (claims ++ [("outputDigest", JStr output_digest)])
  else Ok (claims ++ [("output", res_output r)]).

(** [_invoke_node], from an attempt on *)
Fixpoint attempt_node (more : nat) (node : DagNode) (lease : CapabilityLease) (inputs : dict) (timeout_ms : Z)
    : M VmWorld ActionResult :=
  let* outcome := settled (invoke (dn_action_ref node) (dn_version node) inputs lease timeout_ms) in
  match outcome with
  | Ok (Some r) => ret r
  | Ok None => vm_error ("executor returned an invalid result for node " +:+ dn_id node)
  | Err e =>
      let last_error := match e with
                        | TimeoutError => CapabilityVmError ("node " +:+ dn_id node +:+ " exceeded its timeout")
                        | e => e
                        end in
      match more with
      | S more =>
          if rp_only_if_idempotent (dn_retry node) && negb (dn_idempotent node) then raise last_error
          else attempt_node more node lease inputs timeout_ms
      | O => raise last_error
      end
  end.
Definition _invoke_node (node : DagNode) (lease : CapabilityLease) (inputs : dict) (timeout_ms : Z) : M VmWorld ActionResult :=
  let effective_timeout_ms := Z.min (dn_timeout_ms node) timeout_ms in
  if (effective_timeout_ms <=? 0)%Z then vm_error ("node " +:+ dn_id node +:+ " has no remaining execution time")
  else attempt_node (Z.to_nat (Z.max 1 (rp_max_attempts (dn_retry node)) - 1)) node lease inputs effective_timeout_ms.

(** ** The state of an execution *)

Record VmState := {
  vs_completed : list string;
  vs_outputs : dict;
  vs_evidence_ids : list string;
  vs_failed_node : option string;
  vs_failure_text : option string;
  vs_pending : list string;
}.
Definition vm_start (ids : list string) : VmState := {|
  vs_completed := []; vs_outputs := []; vs_evidence_ids := []; vs_failed_node := None; vs_failure_text := None;
  vs_pending := ids |}.
(** the fixed parts of an execution *)
Record VmExecution := {
  ex_task_id : string;
  ex_capability_digest : string;
  ex_compiled : CompiledCapability;
  ex_lease : CapabilityLease;
  ex_inputs : dict;
  ex_deadline_at : Z;
}.
Definition node_of (x : VmExecution) (i : string) : option DagNode :=
  head (select (fun n => str_eqb (dn_id n) i) (cs_nodes (cc_spec (ex_compiled x)))).
(** the nodes a node waits for *)
Definition dependencies (edges : list DagEdge) (i : string) : list string :=
  map source (select (fun e => str_eqb (target e) i) edges).
Definition vm_evidence (x : VmExecution) (kind : string) (claims : dict) : M VmWorld string :=
  let* row := os (record {| ev_task_id := ex_task_id x; ev_kind := kind; ev_producer_identity := "capability-vm";
    ev_claims := claims; ev_run_id := None; ev_blob_uri := None; ev_artifact_digest := Some (ex_capability_digest x);
    ev_lease_id := Some (cl_lease_id (ex_lease x)) |}) in
  ret (oe_evidence_id row).

(** one action of a batch: what it is given, unless its precondition failed *)
Record Action := { act_node : DagNode; act_inputs : result dict }.
Definition plan_node (x : VmExecution) (snapshot : dict) (node : DagNode) : result Action :=
  let inputs := dict_update (dict_set "nodeOutputs" (JObj snapshot) (ex_inputs x)) (dn_input_bindings node) in
  match evaluate_predicates (dn_preconditions node) [("inputs", JObj (ex_inputs x)); ("nodeOutputs", JObj snapshot)]
          ("node " +:+ dn_id node +:+ " precondition") with
  | Ok _ => Ok {| act_node := node; act_inputs := Ok inputs |}
  | Err (ContractValidationError m) => Ok {| act_node := node; act_inputs := Err (CapabilityVmError m) |}
  | Err e => Err e
  end.
Definition perform (x : VmExecution) (remaining_ms : Z) (a : Action) : M VmWorld (result ActionResult) :=
  settled (let* inputs := lift (act_inputs a) in _invoke_node (act_node a) (ex_lease x) inputs remaining_ms).
(** the checks of what an action returned *)
Definition check_result (x : VmExecution) (snapshot : dict) (node : DagNode) (r : ActionResult) : result unit :=
  if is_in (dn_id node) (cs_verifiers (cc_spec (ex_compiled x)))
     && negb (bool_decide (res_verification_passed r = Some true)) then
    Err (CapabilityVmError ("verifier node " +:+ dn_id node +:+ " did not pass"))
  else
    let? _ := validate_schema (res_output r) (dn_output_schema node) "$" in
    evaluate_predicates (dn_postconditions node)
      [("inputs", JObj (ex_inputs x)); ("nodeOutputs", JObj snapshot); ("result", res_output r)]
      ("node " +:+ dn_id node +:+ " postcondition").
Definition node_done (i : string) (output : json) (s : VmState) : VmState := {|
  vs_completed := vs_completed s ++ [i]; vs_outputs := dict_set i output (vs_outputs s);
  vs_evidence_ids := vs_evidence_ids s; vs_failed_node := vs_failed_node s; vs_failure_text := vs_failure_text s;
  vs_pending := vs_pending s |}.
Definition node_failed (i text : string) (s : VmState) : VmState := {|
  vs_completed := vs_completed s; vs_outputs := vs_outputs s; vs_evidence_ids := vs_evidence_ids s;
  vs_failed_node := match vs_failed_node s with Some f => Some f | None => Some i end;
  vs_failure_text := match vs_failed_node s with Some _ => vs_failure_text s | None => Some text end;
  vs_pending := vs_pending s |}.
Definition node_recorded (i eid : string) (s : VmState) : VmState := {|
  vs_completed := vs_completed s; vs_outputs := vs_outputs s; vs_evidence_ids := vs_evidence_ids s ++ [eid];
  vs_failed_node := vs_failed_node s; vs_failure_text := vs_failure_text s;
  vs_pending := List.filter (fun p => negb (str_eqb p i)) (vs_pending s) |}.
(** one result of a batch: it is checked, counted and recorded *)
Definition settle_node (x : VmExecution) (snapshot : dict) (s : VmState) (node : DagNode) (outcome : result ActionResult)
    : M VmWorld VmState :=
  let i := dn_id node in
  let failed := fun (e : exn) (done : option ActionResult) =>
    let s := match done with Some r => node_done i (res_output r) s | None => s end in
    let s := node_failed i (exn_class e +:+ ": " +:+ exc_text e) s in
    let* eid := vm_evidence x "capability.node.failure"
      [("capabilityId", JStr (cs_capability_id (cc_spec (ex_compiled x)))); ("nodeId", JStr i);
       ("actionRef", JStr (dn_action_ref node)); ("status", JStr "failed"); ("errorType", JStr (exn_class e))] in
    ret (node_recorded i eid s) in
  match outcome with
  | Err e => failed e None
  | Ok r =>
      match check_result x snapshot node r with
      | Err e => if is_vm_error e then failed e (Some r) else raise e
      | Ok _ =>
          let s := node_done i (res_output r) s in
          let* claims := lift (_result_evidence_claims r) in
          let* eid := vm_evidence x "capability.node"
            (dict_update [("capabilityId", JStr (cs_capability_id (cc_spec (ex_compiled x)))); ("nodeId", JStr i);
                          ("actionRef", JStr (dn_action_ref node)); ("status", JStr "pass")] claims) in
          ret (node_recorded i eid s)
      end
  end.
Fixpoint settle_all (x : VmExecution) (snapshot : dict) (s : VmState) (batch : list (DagNode * result ActionResult))
    : M VmWorld VmState :=
  match batch with
  | [] => ret s
  | (node, outcome) :: batch => let* s := settle_node x snapshot s node outcome in settle_all x snapshot s batch
  end.

(** ** Executing *)

Definition ready_nodes (x : VmExecution) (s : VmState) : list string :=
  sorted_ids (List.filter (fun i => subset_of (dependencies (cs_edges (cc_spec (ex_compiled x))) i) (vs_completed s)) (vs_pending s)).
(** a turn of the loop *)
Definition run_batch (x : VmExecution) (s : VmState) : M VmWorld VmState :=
  let ready := ready_nodes x s in
  if is_nil ready then vm_error "compiled DAG made no execution progress"
  else
    let batch := omap (node_of x) (limit_rows (cs_max_parallelism (cc_spec (ex_compiled x))) ready) in
    let* now := loop_time in
    let remaining_ms := (ex_deadline_at x - now)%Z in
    if (remaining_ms <=? 0)%Z then
      match batch with
      | node :: _ => settle_all x (vs_outputs s)
          {| vs_completed := vs_completed s; vs_outputs := vs_outputs s; vs_evidence_ids := vs_evidence_ids s;
             vs_failed_node := Some (dn_id node); vs_failure_text := Some "CapabilityVmError: capability deadline exceeded";
             vs_pending := vs_pending s |}
          [(node, Err (CapabilityVmError "capability deadline exceeded"))]
      | [] => ret s
      end
    else
      let* actions := lift (all_Ok (map (plan_node x (vs_outputs s)) batch)) in
      let* outcomes := for_each (perform x remaining_ms) actions in
      settle_all x (vs_outputs s) s (combine batch outcomes).
(** the loop: every turn settles a node, so as many turns as there are nodes *)
Fixpoint run_nodes (fuel : nat) (x : VmExecution) (s : VmState) : M VmWorld VmState :=
  match fuel with
  | O => ret s
  | S fuel =>
      if is_nil (vs_pending s) || bool_decide (vs_failed_node s <> None) then ret s
      else let* s := run_batch x s in run_nodes fuel x s
  end.

(** *** Undoing *)

Record Undone := { ud_compensated : list string; ud_evidence_ids : list string; ud_failed : bool }.
Definition compensate_node (x : VmExecution) (s : VmState) (u : Undone) (i : string) : M VmWorld Undone :=
  match node_of x i with
  | None => ret u
  | Some node =>
      match dn_compensation_action_ref node with
      | Some ((String _ _) as action_ref) =>
          let inputs := dict_set "compensatingNode" (JStr i) (dict_set "nodeOutputs" (JObj (vs_outputs s)) (ex_inputs x)) in
          let* outcome := settled (invoke action_ref (dn_version node) inputs (ex_lease x) (dn_timeout_ms node)) in
          let failed := fun e =>
            let* eid := vm_evidence x "capability.compensation.failure"
              [("nodeId", JStr i); ("actionRef", JStr action_ref); ("errorType", JStr (exn_class e))] in
            ret {| ud_compensated := ud_compensated u; ud_evidence_ids := ud_evidence_ids u ++ [eid]; ud_failed := true |} in
          match outcome with
          | Err e => failed e
          | Ok None => failed (CapabilityVmError "executor returned invalid compensation result")
          | Ok (Some r) =>
              let* claims := lift (_result_evidence_claims r) in
              let* eid := vm_evidence x "capability.compensation"
                (dict_update [("nodeId", JStr i); ("actionRef", JStr action_ref); ("status", JStr "pass")] claims) in
              ret {| ud_compensated := ud_compensated u ++ [i]; ud_evidence_ids := ud_evidence_ids u ++ [eid];
                     ud_failed := ud_failed u |}
          end
      | _ =>
          ret (if is_in (cs_rollback_mode (cc_spec (ex_compiled x))) ["full"; "compensating"]
               then {| ud_compensated := ud_compensated u; ud_evidence_ids := ud_evidence_ids u; ud_failed := true |} else u)
      end
  end.
Fixpoint compensate_all (x : VmExecution) (s : VmState) (u : Undone) (nodes : list string) : M VmWorld Undone :=
  match nodes with
  | [] => ret u
  | i :: nodes => let* u := compensate_node x s u i in compensate_all x s u nodes
  end.
Definition failure_status (mode : string) (u : Undone) : string :=
  if str_eqb mode "irreversible" then "failed_irreversible"
  else if ud_failed u then "compensation_failed"
  else if negb (is_nil (ud_compensated u)) then "rolled_back" else "failed".
(** what is returned at the end of the loop *)
Definition conclude (x : VmExecution) (s : VmState) : M VmWorld CapabilityExecutionResult :=
  let spec := cc_spec (ex_compiled x) in
  match vs_failed_node s with
  | None =>
      ret {| xr_status := if is_nil (cs_verifiers spec) then "complete" else "verified";
             xr_completed_nodes := vs_completed s; xr_compensated_nodes := []; xr_outputs := vs_outputs s;
             xr_evidence_ids := vs_evidence_ids s; xr_error := None |}
  | Some _ =>
      let start := {| ud_compensated := []; ud_evidence_ids := vs_evidence_ids s; ud_failed := false |} in
      let* u := (if is_in (cs_rollback_mode spec) ["full"; "compensating"; "partial"]
                 then compensate_all x s start (reverse (vs_completed s)) else ret start) in
      ret {| xr_status := failure_status (cs_rollback_mode spec) u; xr_completed_nodes := vs_completed s;
             xr_compensated_nodes := ud_compensated u; xr_outputs := vs_outputs s;
             xr_evidence_ids := ud_evidence_ids u; xr_error := vs_failure_text s |}
  end.
(** the checks before anything is performed *)
Definition admit_execution (task_id capability_digest : string) (compiled : CompiledCapability) (lease : CapabilityLease)
    (inputs : dict) (approval_id : option string) : M VmWorld unit :=
  let* _ := _validate_lease task_id capability_digest lease (cc_permissions compiled) in
  if match approval_id with Some _ => negb (opt_eqb approval_id (cl_approval_id lease)) | None => false end then
    vm_error "caller approval does not match the server-verified lease approval"
  else if cc_requires_human_approval compiled && negb (has_key (cl_approval_id lease)) then
    vm_error "compiled capability requires a server-verified human approval"
  else
    let checks :=
      let? _ := validate_schema (JObj inputs) (cs_inputs_schema (cc_spec compiled)) "$" in
      evaluate_predicates (cs_preconditions (cc_spec compiled)) [("inputs", JObj inputs); ("nodeOutputs", JObj [])]
        "capability precondition" in
    catch (lift checks) is_contract_error (fun e => vm_error (contract_message e)).
(** [CapabilityVm.execute] *)
Definition execute (task_id capability_digest : string) (compiled : CompiledCapability) (lease : CapabilityLease)
    (inputs : dict) (approval_id : option string) : M VmWorld CapabilityExecutionResult :=
  let* _ := admit_execution task_id capability_digest compiled lease inputs approval_id in
  let* now := loop_time in
  let ids := map dn_id (cs_nodes (cc_spec compiled)) in
  let x := {| ex_task_id := task_id; ex_capability_digest := capability_digest; ex_compiled := compiled;
              ex_lease := lease; ex_inputs := inputs; ex_deadline_at := now + cs_deadline_ms (cc_spec compiled) |} in
  let* s := run_nodes (length ids) x (vm_start ids) in
  conclude x s.
End Vm.
