(* ===== verification/CapabilityVmSpec.v ===== *)
(** * Properties of the machine that executes capabilities

    Nothing is performed without a lease for it, what is put out keeps its contracts and
    the machine always gets on.  What an execution reports is in the order of the edges
    and, where it was undone, in the reverse of that; an example shows where the promise
    to undo fails. *)

From S2P Require Import Prelude PyStr Json FactoryDomain FactoryGates Database CapabilityLifecycle.
From S2P Require Import FactoryStore FactoryPhases FactoryGit FactoryPolicy FactoryCapabilities FactoryCapabilitiesSpec.
From S2P Require Import JsonText CapabilityContracts CapabilityContractsSpec CapabilityStore CapabilityStoreSpec.
From S2P Require Import CapabilityAuthority CapabilityAuthoritySpec CapabilityCompiler CapabilityCompilerSpec.
From S2P Require Import CapabilityValidation CapabilityValidationSpec CapabilityVm.

Lemma for_each_length {W A B} (f : A -> M W B) l w ys w' : for_each f l w = (Ok ys, w') -> length ys = length l.
Proof.
  revert w ys. induction l as [|x l IH]; intros w ys; [by intros [= <- _]|]. cbn.
  intros (y & w1 & _ & (zs & w2 & Hz & Hys)%bind_Ok)%bind_Ok. apply ret_Ok in Hys as [-> ->]. cbn. f_equal. by eapply IH.
Qed.
Lemma all_Ok_length {A} (rs : list (result A)) l : all_Ok rs = Ok l -> length l = length rs.
Proof.
  revert l. induction rs as [|r rs IH]; intros l; [by intros [= <-]|]. cbn.
  intros (a & _ & (k & Hk & [= <-])%rbind_Ok)%rbind_Ok. cbn. f_equal. by apply IH.
Qed.
Lemma combine_fst {A B} (l : list A) (k : list B) : length k = length l -> map fst (combine l k) = l.
Proof. revert k. induction l as [|x l IH]; intros [|y k]; cbn; try done. intros [= ?]. by rewrite IH. Qed.

Section Vm.
Context `{Env} {R : Type}.
#[local] Abbreviation VmWorld := (OsWorld * R)%type.
Context (invoke : string -> string -> dict -> CapabilityLease -> Z -> M VmWorld (option ActionResult)).
Context (loop_time : M VmWorld Z) (exc_text : exn -> string).
#[local] Abbreviation settle_node := (settle_node (R:=R) exc_text).
#[local] Abbreviation settle_all := (settle_all (R:=R) exc_text).
#[local] Abbreviation run_batch := (run_batch invoke loop_time exc_text).
#[local] Abbreviation run_nodes := (run_nodes invoke loop_time exc_text).
#[local] Abbreviation compensate_node := (compensate_node invoke).
#[local] Abbreviation compensate_all := (compensate_all invoke).
#[local] Abbreviation execute := (execute invoke loop_time exc_text).

(** ** Settling *)

(** a failure comes with its text *)
Definition failure_told (s : VmState) : Prop := vs_failed_node s = None <-> vs_failure_text s = None.
(** nodes [L] were settled, and [K] of them completed *)
Definition settled_to (L K : list string) (s s' : VmState) : Prop :=
  vs_completed s' = vs_completed s ++ K /\ K `sublist_of` L /\
  vs_pending s' = List.filter (fun p => negb (is_in p L)) (vs_pending s) /\
  (vs_failed_node s' = None -> vs_failed_node s = None /\ K = L) /\
  (failure_told s -> failure_told s').
Lemma settled_nil s : settled_to [] [] s s.
Proof.
  split_and!; [by rewrite app_nil_r|done| |done|done]. induction (vs_pending s) as [|p l IH]; [done|]. cbn. f_equal. exact IH.
Qed.
Lemma settled_trans L1 K1 L2 K2 s1 s2 s3 :
  settled_to L1 K1 s1 s2 -> settled_to L2 K2 s2 s3 -> settled_to (L1 ++ L2) (K1 ++ K2) s1 s3.
Proof.
  intros (C1 & S1 & P1 & F1 & T1) (C2 & S2 & P2 & F2 & T2). split_and!.
  - by rewrite C2, C1, app_assoc.
  - by apply sublist_app.
  - rewrite P2, P1, filter_filter. apply List.filter_ext. intros p. unfold is_in. by rewrite existsb_app, negb_orb.
  - intros [E2 ->]%F2. apply F1 in E2 as [E1 ->]. done.
  - auto.
Qed.
#[local] Ltac told := first [done | unfold failure_told; cbn; by destruct (vs_failed_node _)].
Lemma settle_node_Ok x snapshot s node outcome w s' w' :
  settle_node x snapshot s node outcome (w : VmWorld) = (Ok s', w') -> exists K, settled_to [dn_id node] K s s'.
Proof.
  assert (forall l, List.filter (fun p => negb (str_eqb p (dn_id node))) l
    = List.filter (fun p => negb (is_in p [dn_id node])) l) as Hfilter.
  { intros l. apply List.filter_ext. intros p. unfold is_in. cbn. by rewrite orb_false_r. }
  assert (forall s1 eid, (exists K, vs_completed s1 = vs_completed s ++ K /\ K `sublist_of` [dn_id node] /\
      (vs_failed_node s1 = None -> vs_failed_node s = None /\ K = [dn_id node])) ->
    (failure_told s -> failure_told s1) -> vs_pending s1 = vs_pending s ->
    exists K, settled_to [dn_id node] K s (node_recorded (dn_id node) eid s1)) as Hrec.
  { intros s1 eid (K & HC & HK & HF) HT HP. exists K. split_and!; cbn; [done|done|by rewrite HP, Hfilter|done|done]. }
  unfold CapabilityVm.settle_node. destruct outcome as [r|e].
  - destruct (check_result x snapshot node r) as [u|e].
    + intros (claims & w1 & _ & (eid & w2 & _ & [-> _]%ret_Ok)%bind_Ok)%bind_Ok. apply Hrec; [|told|done].
      by exists [dn_id node].
    + destruct (is_vm_error e); [|done]. intros (eid & w2 & _ & [-> _]%ret_Ok)%bind_Ok. apply Hrec; [|told|done].
      exists [dn_id node]. split_and!; [done|done|]. cbn. by destruct (vs_failed_node s).
  - intros (eid & w2 & _ & [-> _]%ret_Ok)%bind_Ok. apply Hrec; [|told|done].
    exists []. split_and!; [by rewrite app_nil_r|apply sublist_nil_l|]. cbn. by destruct (vs_failed_node s).
Qed.
Lemma settle_all_Ok x snapshot batch : forall s w s' w',
  settle_all x snapshot s batch w = (Ok s', w') -> exists K, settled_to (map dn_id (map fst batch)) K s s'.
Proof.
  induction batch as [|[node outcome] batch IH]; intros s w s' w'; cbn.
  - intros [-> _]%ret_Ok. exists []. apply settled_nil.
  - intros (s1 & w1 & (K1 & H1)%settle_node_Ok & (K2 & H2)%IH)%bind_Ok. exists (K1 ++ K2).
    exact (settled_trans [_] _ _ _ _ _ _ H1 H2).
Qed.
(** what the outputs of nodes [ns] are once they are settled without a failure *)
Definition sound_output (x : VmExecution) (n : DagNode) (output : json) : Prop :=
  conforms output (dn_output_schema n) /\
  exists snapshot, evaluate_predicates (dn_postconditions n)
    [("inputs", JObj (ex_inputs x)); ("nodeOutputs", JObj snapshot); ("result", output)]
    ("node " +:+ dn_id n +:+ " postcondition") = Ok tt.
Definition outputs_to (x : VmExecution) (ns : list DagNode) (s s' : VmState) : Prop :=
  (forall i, i ∉ map dn_id ns -> dict_get i (vs_outputs s') = dict_get i (vs_outputs s)) /\
  (vs_failed_node s' = None -> vs_failed_node s = None /\
     forall n, n ∈ ns -> exists output, dict_get (dn_id n) (vs_outputs s') = Some output /\ sound_output x n output).
Lemma settle_node_outputs x snapshot s node outcome (w : VmWorld) s' w' :
  settle_node x snapshot s node outcome w = (Ok s', w') -> outputs_to x [node] s s'.
Proof.
  assert (forall s1 eid, vs_failed_node s1 <> None -> vs_outputs s1 = vs_outputs s \/
      (exists v, vs_outputs s1 = dict_set (dn_id node) v (vs_outputs s)) -> outputs_to x [node] s (node_recorded (dn_id node) eid s1)) as Hbad.
  { intros s1 eid Hf Ho. split; [|done]. cbn. intros i Hi. destruct Ho as [->|[v ->]]; [done|].
    rewrite dict_get_set, decide_False; [done|]. intros ->. apply Hi. left. }
  unfold CapabilityVm.settle_node. destruct outcome as [r|e].
  - destruct (check_result x snapshot node r) as [u|e] eqn:Ec.
    + intros (claims & w1 & _ & (eid & w2 & _ & [-> _]%ret_Ok)%bind_Ok)%bind_Ok. split; cbn.
      * intros i Hi. rewrite dict_get_set, decide_False; [done|]. intros ->. apply Hi. left.
      * intros Hf. split; [done|]. intros n ->%list_elem_of_singleton. exists (res_output r).
        rewrite dict_get_set, decide_True by done. split; [done|]. unfold check_result in Ec.
        destruct (_ && _); [done|]. apply rbind_Ok in Ec as ([] & Hschema & Hpost). split; [by apply validated_conforms in Hschema|].
        exists snapshot. by destruct u.
    + destruct (is_vm_error e); [|done]. intros (eid & w2 & _ & [-> _]%ret_Ok)%bind_Ok.
      apply Hbad; [cbn; by destruct (vs_failed_node s)|right; by eexists].
  - intros (eid & w2 & _ & [-> _]%ret_Ok)%bind_Ok. apply Hbad; [cbn; by destruct (vs_failed_node s)|by left].
Qed.
Lemma settle_all_outputs x snapshot batch : forall s (w : VmWorld) s' w',
  NoDup (map dn_id (map fst batch)) -> settle_all x snapshot s batch w = (Ok s', w') -> outputs_to x (map fst batch) s s'.
Proof.
  induction batch as [|[node outcome] batch IH]; intros s w s' w'; cbn.
  - intros _ [-> _]%ret_Ok. split; [done|]. intros Hf. split; [done|]. by intros n ?%elem_of_nil.
  - intros [Hn Hd]%NoDup_cons (s1 & w1 & [O1 F1]%settle_node_outputs & Hrest)%bind_Ok. apply IH in Hrest as [O2 F2]; [|done]. split.
    + intros i [Hi Hj]%not_elem_of_cons. rewrite O2 by done. apply O1. by intros ->%list_elem_of_singleton.
    + intros [Hf2 Hall]%F2. destruct (F1 Hf2) as [Hf1 Hone]. split; [done|].
      intros n [->|Hin]%elem_of_cons; [|by apply Hall]. destruct (Hone node ltac:(left)) as (output & Ho & Hs).
      exists output. split; [|done]. by rewrite O2.
Qed.

(** ** The order *)

Context (x : VmExecution).
#[local] Abbreviation spec := (cc_spec (ex_compiled x)).
#[local] Abbreviation ids := (map dn_id (cs_nodes spec)).
Definition forward (edges : list DagEdge) (done : list string) : Prop :=
  forall l1 t l2 e, done = l1 ++ t :: l2 -> e ∈ edges -> target e = t -> source e ∈ l1.
Lemma forward_app edges done K :
  forward edges done -> (forall e, e ∈ edges -> target e ∈ K -> source e ∈ done) -> forward edges (done ++ K).
Proof.
  revert done. induction K as [|k K IH]; intros done Hf HK; [by rewrite app_nil_r|].
  change (k :: K) with ([k] ++ K). rewrite app_assoc. apply IH.
  - intros l1 t l2 e Heq He Ht. destruct l2 as [|y l2 _] using rev_ind.
    + apply app_inj_tail in Heq as [-> ->]. apply HK; [done|]. rewrite Ht. left.
    + rewrite app_comm_cons, app_assoc in Heq. apply app_inj_tail in Heq as [-> _]. by apply (Hf l1 t l2 e).
  - intros e He Ht. apply elem_of_app. left. apply HK; [done|by right].
Qed.
Record Inv (s : VmState) : Prop := {
  i_once : NoDup (vs_completed s ++ vs_pending s);
  i_ids i : i ∈ vs_completed s ++ vs_pending s -> i ∈ ids;
  i_forward : forward (cs_edges spec) (vs_completed s);
  i_all : vs_failed_node s = None -> forall i, i ∈ ids -> i ∈ vs_completed s ++ vs_pending s;
  i_text : failure_told s;
}.
Lemma dependencies_spec edges i j : j ∈ dependencies edges i <-> exists e, e ∈ edges /\ target e = i /\ source e = j.
Proof.
  unfold dependencies. rewrite list_elem_of_fmap. setoid_rewrite elem_of_select. setoid_rewrite str_eqb_true. naive_solver.
Qed.
Lemma ready_nodes_spec s i :
  i ∈ ready_nodes x s <-> i ∈ vs_pending s /\ forall e, e ∈ cs_edges spec -> target e = i -> source e ∈ vs_completed s.
Proof.
  unfold ready_nodes. rewrite sorted_ids_perm, list_elem_of_In, List.filter_In, <- list_elem_of_In, subset_of_true. unfold subseteq, list_subseteq.
  setoid_rewrite dependencies_spec. naive_solver.
Qed.
Lemma ready_nodes_once s : Inv s -> NoDup (ready_nodes x s).
Proof.
  intros [Ho _ _ _ _]. unfold ready_nodes. rewrite sorted_ids_perm. apply NoDup_app in Ho as (_ & _ & Ho).
  by apply NoDup_ListNoDup, List.NoDup_filter, NoDup_ListNoDup.
Qed.
Lemma Inv_settled s s' L K :
  Inv s -> (forall i, i ∈ L -> i ∈ ready_nodes x s) -> NoDup L -> settled_to L K s s' -> Inv s'.
Proof.
  intros [H1 H2 H3 H4 H5] HL Hn (C & S & P & F & T).
  assert (forall i, i ∈ vs_pending s' <-> i ∈ vs_pending s /\ i ∉ L) as HP.
  { intros i. rewrite P, list_elem_of_In, List.filter_In, <- list_elem_of_In, negb_true_iff, <- not_true_iff_false, is_in_true. done. }
  assert (forall i, i ∈ K -> i ∈ L) as HK by (intros i Hi; eapply elem_of_submseteq; [exact Hi|by apply sublist_submseteq]).
  assert (forall i, i ∈ L -> i ∈ vs_pending s) as HLP by by intros i [? _]%HL%ready_nodes_spec.
  apply NoDup_app in H1 as (N1 & N2 & N3). split; [| | | |by apply T].
  - rewrite C, <- app_assoc. apply NoDup_app. split_and!; [done| |apply NoDup_app; split_and!].
    + intros i Hi [Hk|[Hk _]%HP]%elem_of_app; apply (N2 i Hi); [by apply HLP, HK|done].
    + eapply sublist_NoDup; eassumption.
    + intros i Hi%HK [_ Hk]%HP. done.
    + rewrite P. by apply NoDup_ListNoDup, List.NoDup_filter, NoDup_ListNoDup.
  - intros i. rewrite C, <- app_assoc, !elem_of_app, HP. intros [Hi|[Hi|[Hi _]]]; apply H2, elem_of_app; auto.
  - rewrite C. apply forward_app; [done|]. intros e He Ht%HK%HL%ready_nodes_spec. destruct Ht as [_ Ht]. by apply Ht.
  - intros [Hf ->]%F i Hi. rewrite C, <- app_assoc, !elem_of_app, HP. destruct (decide (i ∈ L)); [tauto|].
    specialize (H4 Hf i Hi). apply elem_of_app in H4. tauto.
Qed.
Lemma node_of_id i n : node_of x i = Some n -> dn_id n = i /\ n ∈ cs_nodes spec.
Proof.
  unfold node_of. destruct (select _ _) as [|m l] eqn:E; [done|]. intros [= ->].
  assert (n ∈ n :: l) as Hn by left. rewrite <- E in Hn. apply elem_of_select in Hn as [? Hn]. by apply str_eqb_true in Hn.
Qed.
Lemma node_of_some i : i ∈ ids -> is_Some (node_of x i).
Proof.
  intros (n & -> & Hn)%list_elem_of_fmap. unfold node_of. destruct (select _ _) as [|m l] eqn:E; [|by eexists].
  assert (n ∈ select (fun m => str_eqb (dn_id m) (dn_id n)) (cs_nodes spec)) as Hin by (by apply elem_of_select; rewrite str_eqb_true).
  rewrite E in Hin. by apply elem_of_nil in Hin.
Qed.
Lemma nodes_of_ids L : (forall i, i ∈ L -> i ∈ ids) -> map dn_id (omap (node_of x) L) = L.
Proof.
  induction L as [|i L IH]; [done|]. intros HL. destruct (node_of_some i) as [n Hn]; [apply HL; left|].
  cbn. rewrite Hn. cbn. rewrite (proj1 (node_of_id _ _ Hn)). f_equal. apply IH. intros j Hj. apply HL. by right.
Qed.
(** the nodes of a batch *)
Definition batch_ids (s : VmState) : list string := limit_rows (cs_max_parallelism spec) (ready_nodes x s).
Lemma batch_ids_ready s i : i ∈ batch_ids s -> i ∈ ready_nodes x s.
Proof. unfold batch_ids, limit_rows. intros Hi. eapply elem_of_submseteq; [exact Hi|]. by apply submseteq_take. Qed.
Lemma ready_ids s i : Inv s -> i ∈ ready_nodes x s -> i ∈ ids.
Proof. intros Hs [Hi _]%ready_nodes_spec. apply (i_ids _ Hs), elem_of_app. by right. Qed.
Lemma batch_once s : Inv s -> NoDup (batch_ids s).
Proof. intros Hs. unfold batch_ids, limit_rows. eapply sublist_NoDup; [apply (ready_nodes_once s Hs)|apply sublist_take]. Qed.
Lemma batch_some s : (0 < cs_max_parallelism spec)%Z -> ready_nodes x s <> [] -> batch_ids s <> [].
Proof.
  unfold batch_ids, limit_rows. intros Hm Hr. destruct (ready_nodes x s); [done|]. destruct (Z.to_nat _) eqn:E; [lia|done].
Qed.
Lemma settled_shrinks L K s s' :
  L <> [] -> (forall i, i ∈ L -> i ∈ vs_pending s) -> settled_to L K s s' -> (length (vs_pending s') < length (vs_pending s))%nat.
Proof.
  intros HL Hin (_ & _ & -> & _). destruct L as [|i L]; [done|]. specialize (Hin i ltac:(left)).
  apply list_elem_of_split in Hin as (l1 & l2 & ->). rewrite List.filter_app, !length_app. cbn [List.filter].
  rewrite (proj2 (is_in_true i (i :: L)) ltac:(left)). cbn [negb length].
  pose proof (List.filter_length_le (fun p => negb (is_in p (i :: L))) l1). pose proof (List.filter_length_le (fun p => negb (is_in p (i :: L))) l2).
  lia.
Qed.
Lemma run_batch_Ok s w s' w' :
  (0 < cs_max_parallelism spec)%Z -> Inv s -> run_batch x s w = (Ok s', w') ->
  Inv s' /\ (length (vs_pending s') < length (vs_pending s))%nat.
Proof.
  intros Hm Hs. unfold CapabilityVm.run_batch. destruct (is_nil (ready_nodes x s)) eqn:Er; [done|].
  assert (batch_ids s <> []) as Hb by (by apply batch_some; [|intros E; rewrite E in Er]).
  fold (batch_ids s). pose proof (batch_ids_ready s) as Hready. pose proof (batch_once s Hs) as Honce.
  assert (map dn_id (omap (node_of x) (batch_ids s)) = batch_ids s) as Hids.
  { apply nodes_of_ids. intros i Hi. apply (ready_ids s); auto. }
  assert (forall L : list string, (forall i, i ∈ L -> i ∈ batch_ids s) -> forall i, i ∈ L -> i ∈ vs_pending s) as Hpending.
  { intros L HL i Hi%HL%Hready. by apply ready_nodes_spec in Hi as [? _]. }
  intros (now & w1 & _ & Hrun)%bind_Ok. cbv zeta in Hrun. destruct (_ <=? 0)%Z.
  - destruct (omap (node_of x) (batch_ids s)) as [|n ns]; [by rewrite <- Hids in Hb|]. cbn [map] in Hids.
    apply settle_all_Ok in Hrun as (K & Hk). cbn [map fst] in Hk.
    assert (Inv {| vs_completed := vs_completed s; vs_outputs := vs_outputs s; vs_evidence_ids := vs_evidence_ids s;
      vs_failed_node := Some (dn_id n); vs_failure_text := Some "CapabilityVmError: capability deadline exceeded";
      vs_pending := vs_pending s |}) as Hs0 by (destruct Hs; by split).
    assert (forall i, i ∈ [dn_id n] -> i ∈ batch_ids s) as Hn by (intros i ->%list_elem_of_singleton; rewrite <- Hids; left).
    split.
    + eapply (Inv_settled _ _ _ _ Hs0); [|apply NoDup_singleton|exact Hk]. intros i Hi%Hn%Hready. exact Hi.
    + refine (settled_shrinks _ _ _ _ _ _ Hk); [done|exact (Hpending _ Hn)].
  - apply bind_Ok in Hrun as (actions & w2 & [Ha ->]%lift_Ok & (outcomes & w3 & Ho & (K & Hk)%settle_all_Ok)%bind_Ok).
    rewrite combine_fst, Hids in Hk.
    2:{ rewrite (for_each_length _ _ _ _ _ Ho), (all_Ok_length _ _ Ha). by rewrite length_map. }
    split; [by eapply (Inv_settled _ _ _ _ Hs); [|exact Honce|exact Hk]|].
    refine (settled_shrinks _ _ _ _ Hb _ Hk). by apply Hpending.
Qed.

(** the outputs, as long as nothing failed *)
Definition sound_outputs (s : VmState) : Prop :=
  vs_failed_node s = None -> forall n, n ∈ cs_nodes spec -> dn_id n ∈ vs_completed s ->
  exists output, dict_get (dn_id n) (vs_outputs s) = Some output /\ sound_output x n output.
Lemma node_of_self n : NoDup ids -> n ∈ cs_nodes spec -> node_of x (dn_id n) = Some n.
Proof.
  intros Hd Hn. destruct (node_of_some (dn_id n)) as [m Hm]; [by apply list_elem_of_fmap_2|]. rewrite Hm. f_equal.
  apply node_of_id in Hm as [Hid Hm]. revert Hd Hn Hm. clear -Hid. induction (cs_nodes spec) as [|k l IH]; [by intros _ ?%elem_of_nil|].
  cbn. intros [Hk Hd]%NoDup_cons [->|Hn]%elem_of_cons [->|Hm]%elem_of_cons; [done|..|by apply IH].
  - destruct Hk. rewrite <- Hid. by apply list_elem_of_fmap_2.
  - destruct Hk. rewrite Hid. by apply list_elem_of_fmap_2.
Qed.
Lemma run_batch_outputs s w s' w' :
  NoDup ids -> (0 < cs_max_parallelism spec)%Z -> Inv s -> sound_outputs s -> run_batch x s w = (Ok s', w') -> sound_outputs s'.
Proof.
  intros Hd Hm Hs Hgood Hrun. pose proof (run_batch_Ok _ _ _ _ Hm Hs Hrun) as [Hs' _]. revert Hrun.
  unfold CapabilityVm.run_batch. destruct (is_nil (ready_nodes x s)) eqn:Er; [done|].
  fold (batch_ids s). pose proof (batch_ids_ready s) as Hready. pose proof (batch_once s Hs) as Honce.
  assert (map dn_id (omap (node_of x) (batch_ids s)) = batch_ids s) as Hids.
  { apply nodes_of_ids. intros i Hi. apply (ready_ids s); auto. }
  intros (now & w1 & _ & Hrun)%bind_Ok. cbv zeta in Hrun. destruct (_ <=? 0)%Z.
  - destruct (omap (node_of x) (batch_ids s)) as [|n ns]; [by apply ret_Ok in Hrun as [-> _]|].
    apply settle_all_outputs in Hrun as [_ HF]; [|apply NoDup_singleton]. intros Hf. by apply HF in Hf as [? _].
  - apply bind_Ok in Hrun as (actions & w2 & [Ha ->]%lift_Ok & (outcomes & w3 & Ho & Hset)%bind_Ok).
    assert (map fst (combine (omap (node_of x) (batch_ids s)) outcomes) = omap (node_of x) (batch_ids s)) as Hfst.
    { apply combine_fst. rewrite (for_each_length _ _ _ _ _ Ho), (all_Ok_length _ _ Ha). by rewrite length_map. }
    pose proof (settle_all_Ok _ _ _ _ _ _ _ Hset) as (K & HC & HK & _ & HKF).
    apply settle_all_outputs in Hset as [HO HF]; [|by rewrite Hfst, Hids]. rewrite Hfst in *. rewrite Hids in *.
    intros Hf n Hn Hdone. destruct (HF Hf) as [Hf0 Hall]. destruct (decide (dn_id n ∈ batch_ids s)) as [Hb|Hb].
    + apply Hall. apply list_elem_of_omap. exists (dn_id n). split; [done|by apply node_of_self].
    + rewrite HO by done. apply Hgood; [done|done|]. rewrite HC in Hdone. apply elem_of_app in Hdone as [|Hk]; [done|].
      destruct Hb. eapply elem_of_submseteq; [exact Hk|by apply sublist_submseteq].
Qed.

(** ** Getting on *)

Lemma progress s : Inv s -> acyclic (cs_edges spec) -> (forall e, e ∈ cs_edges spec -> source e ∈ ids) ->
  vs_failed_node s = None -> vs_pending s <> [] -> ready_nodes x s <> [].
Proof.
  intros Hs [rank Hrank] Hsrc Hf Hp. destruct (vs_pending s) as [|p l] eqn:Ep; [done|]. clear Hp.
  assert (forall n i, rank i = n -> i ∈ vs_pending s -> exists j, j ∈ ready_nodes x s) as Hall.
  { induction n as [n IH] using lt_wf_ind. intros i Hn Hi.
    destruct (decide (Exists (fun e => target e = i /\ source e ∉ vs_completed s) (cs_edges spec))) as [He%Exists_exists|Hnone].
    - destruct He as (e & He & <- & Hse). apply (IH (rank (source e))) with (source e); [rewrite <- Hn; by apply Hrank|done|].
      pose proof (i_all _ Hs Hf _ (Hsrc e He)) as [?|?]%elem_of_app; done.
    - exists i. apply ready_nodes_spec. split; [done|]. intros e He Ht.
      destruct (decide (source e ∈ vs_completed s)); [done|]. destruct Hnone. apply Exists_exists. by exists e. }
  destruct (Hall _ p eq_refl) as [j Hj]; [rewrite Ep; left|]. intros E. rewrite E in Hj. by apply elem_of_nil in Hj.
Qed.
Definition finished (s : VmState) : bool := is_nil (vs_pending s) || bool_decide (vs_failed_node s <> None).
Lemma run_nodes_Ok fuel s w s' w' :
  (0 < cs_max_parallelism spec)%Z -> Inv s -> (length (vs_pending s) <= fuel)%nat -> run_nodes fuel x s w = (Ok s', w') ->
  Inv s' /\ finished s' = true.
Proof.
  intros Hm. revert s w. induction fuel as [|fuel IH]; intros s w Hs Hf; cbn [CapabilityVm.run_nodes].
  - intros [-> _]%ret_Ok. split; [done|]. unfold finished. destruct (vs_pending s); [done|cbn in Hf; lia].
  - fold (finished s). destruct (finished s) eqn:Ef; [by intros [-> _]%ret_Ok|].
    intros (s1 & w1 & [Hs1 Hlen]%run_batch_Ok & Hrun)%bind_Ok; [|done|done]. apply (IH s1 w1); [done|lia|done].
Qed.
Lemma run_nodes_outputs fuel s w s' w' :
  NoDup ids -> (0 < cs_max_parallelism spec)%Z -> Inv s -> sound_outputs s -> run_nodes fuel x s w = (Ok s', w') -> sound_outputs s'.
Proof.
  intros Hd Hm. revert s w. induction fuel as [|fuel IH]; intros s w Hs Hgood; cbn [CapabilityVm.run_nodes]; [by intros [-> _]%ret_Ok|].
  destruct (_ || _); [by intros [-> _]%ret_Ok|]. intros (s1 & w1 & Hrun & Hrest)%bind_Ok.
  pose proof (run_batch_Ok _ _ _ _ Hm Hs Hrun) as [Hs1 _]. 
  exact (IH s1 w1 Hs1 (run_batch_outputs _ _ _ _ Hd Hm Hs Hgood Hrun) Hrest).
Qed.
Lemma run_nodes_more fuel more s w :
  (0 < cs_max_parallelism spec)%Z -> Inv s -> (length (vs_pending s) <= fuel)%nat ->
  run_nodes (fuel + more) x s w = run_nodes fuel x s w.
Proof.
  intros Hm. revert s w. induction fuel as [|fuel IH]; intros s w Hs Hf; cbn [CapabilityVm.run_nodes Nat.add].
  - destruct (vs_pending s) eqn:E; [|cbn in Hf; lia]. destruct more; [done|]. cbn. by rewrite E.
  - destruct (_ || _); [done|]. unfold bind. destruct (run_batch x s w) as [[s1|e] w1] eqn:Er; [|done].
    apply run_batch_Ok in Er as [Hs1 Hlen]; [|done|done]. apply IH; [done|lia].
Qed.
(** ** Undoing *)

#[local] Abbreviation mode := (cs_rollback_mode spec).
Definition undoes_all : Prop := mode = "full" \/ mode = "compensating".
Lemma compensate_node_Ok s u i w u' w' :
  i ∈ ids -> compensate_node x s u i w = (Ok u', w') ->
  exists K, ud_compensated u' = ud_compensated u ++ K /\ K `sublist_of` [i] /\
    (undoes_all -> ud_failed u' = false -> ud_failed u = false /\ K = [i]).
Proof.
  intros [n Hn]%node_of_some. unfold CapabilityVm.compensate_node. rewrite Hn.
  assert (forall f, (undoes_all -> f = true) -> forall c es, exists K, ud_compensated
      {| ud_compensated := c; ud_evidence_ids := es; ud_failed := f |} = c ++ K /\ K `sublist_of` [i] /\
      (undoes_all -> f = false -> ud_failed u = false /\ K = [i])) as Hno.
  { intros f Hf c es. exists []. split_and!; [by rewrite app_nil_r|apply sublist_nil_l|]. by intros ->%Hf. }
  destruct (dn_compensation_action_ref n) as [[|c a]|].
  2:{ cbv zeta. intros (outcome & w1 & _ & Hu)%bind_Ok.
      destruct outcome as [[r|]|e].
      - apply bind_Ok in Hu as (claims & w2 & _ & (eid & w3 & _ & [-> _]%ret_Ok)%bind_Ok).
        exists [i]. cbn. split_and!; [done|done|]. done.
      - apply bind_Ok in Hu as (eid & w3 & _ & [-> _]%ret_Ok). by apply Hno.
      - apply bind_Ok in Hu as (eid & w3 & _ & [-> _]%ret_Ok). by apply Hno. }
  all: destruct (is_in mode ["full"; "compensating"]) eqn:E; intros [-> _]%ret_Ok.
  1, 3: by apply Hno.
  all: exists []; split_and!; [by rewrite app_nil_r|apply sublist_nil_l|]; intros Hu.
  all: apply not_true_iff_false in E; destruct E; apply is_in_true; destruct Hu as [-> | ->]; set_solver.
Qed.
Lemma compensate_all_Ok s nodes : forall u w u' w',
  (forall i, i ∈ nodes -> i ∈ ids) -> compensate_all x s u nodes w = (Ok u', w') ->
  exists K, ud_compensated u' = ud_compensated u ++ K /\ K `sublist_of` nodes /\
    (undoes_all -> ud_failed u' = false -> ud_failed u = false /\ K = nodes).
Proof.
  induction nodes as [|i nodes IH]; intros u w u' w' Hin; cbn.
  - intros [-> _]%ret_Ok. exists []. split_and!; [by rewrite app_nil_r|done|done].
  - intros (u1 & w1 & Hi & Hrest)%bind_Ok. apply compensate_node_Ok in Hi as (K1 & C1 & S1 & F1); [|apply Hin; left].
    apply IH in Hrest as (K2 & C2 & S2 & F2); [|intros j Hj; apply Hin; by right].
    exists (K1 ++ K2). split_and!; [by rewrite C2, C1, app_assoc|exact (sublist_app _ [i] _ _ S1 S2)|].
    intros Hm Hf. destruct (F2 Hm Hf) as [Hf1 ->]. by destruct (F1 Hm Hf1) as [? ->].
Qed.
End Vm.

(** ** Theorems *)

Section Theorems.
Context `{Env} {R : Type}.
#[local] Abbreviation VmWorld := (OsWorld * R)%type.
Context (invoke : string -> string -> dict -> CapabilityLease -> Z -> M VmWorld (option ActionResult)).
Context (loop_time : M VmWorld Z) (exc_text : exn -> string).
#[local] Abbreviation run_batch := (run_batch invoke loop_time exc_text).
#[local] Abbreviation run_nodes := (run_nodes invoke loop_time exc_text).
#[local] Abbreviation execute := (execute invoke loop_time exc_text).
#[local] Abbreviation node_ids s := (map dn_id (cs_nodes s)).

Lemma start_Inv spec x : compiles spec (ex_compiled x) -> Inv x (vm_start (node_ids spec)).
Proof.
  intros Hc. split; cbn.
  - exact (co_once _ _ Hc).
  - by rewrite (co_spec _ _ Hc).
  - by intros [|? l1] t l2 e.
  - by rewrite (co_spec _ _ Hc).
  - done.
Qed.
Lemma bounds_parallelism spec : CapabilitySpec_post_init spec = Ok spec -> (0 < cs_max_parallelism spec)%Z.
Proof.
  unfold CapabilitySpec_post_init. destruct (_ || _); [done|]. destruct (negb _); [done|]. destruct (negb _); [done|].
  destruct (_ || _) eqn:E; [done|]. apply orb_false_iff in E as [_ E%Z.leb_gt]. done.
Qed.
Lemma execute_Ok spec c task digest lease inputs approval w r w' :
  compile spec = Ok c -> CapabilitySpec_post_init spec = Ok spec ->
  execute task digest c lease inputs approval w = (Ok r, w') ->
  exists x s w1, ex_compiled x = c /\ ex_inputs x = inputs /\ Inv x s /\ sound_outputs x s /\ finished s = true /\
    conclude invoke x s w1 = (Ok r, w').
Proof.
  intros Hc%compile_Ok Hb%bounds_parallelism. unfold CapabilityVm.execute.
  intros (u & w1 & _ & (now & w2 & _ & Hrun)%bind_Ok)%bind_Ok. cbv zeta in Hrun.
  apply bind_Ok in Hrun as (s & w3 & Hs & Hr). rewrite (co_spec _ _ Hc) in Hs. eexists _, s, w3.
  assert (0 < cs_max_parallelism (cc_spec c))%Z as Hm by (by rewrite (co_spec _ _ Hc)).
  match type of Hs with CapabilityVm.run_nodes _ _ _ _ ?x _ _ = _ => assert (Inv x (vm_start (node_ids spec))) as Hstart by
    (apply start_Inv; exact Hc) end.
  pose proof Hs as Hout. apply run_nodes_outputs in Hout; 
    [|cbn; rewrite (co_spec _ _ Hc); exact (co_once _ _ Hc)|done|exact Hstart|by intros _ n _ ?%elem_of_nil].
  apply run_nodes_Ok in Hs as [Hs Hf]; [|done|exact Hstart|cbn; by rewrite length_map].
  rewrite (co_spec _ _ Hc) in Hr. by split_and!; [| |exact Hs|exact Hout| |exact Hr].
Qed.

(** what is reported of an execution that returns: nodes of the recipe only, each at most
    once and each after all the nodes it depends on; when it reports no error, all of
    them and none undone, and its status says whether verifiers were among them *)
Record ordered_report (spec : CapabilitySpec) (r : CapabilityExecutionResult) : Prop := {
  or_once : NoDup (xr_completed_nodes r);
  or_nodes i : i ∈ xr_completed_nodes r -> i ∈ node_ids spec;
  or_order : forward (cs_edges spec) (xr_completed_nodes r);
  or_complete : xr_error r = None ->
     xr_completed_nodes r ≡ₚ node_ids spec /\ xr_compensated_nodes r = [] /\
     xr_status r = if is_nil (cs_verifiers spec) then "complete" else "verified";
  or_failed : xr_error r <> None -> xr_status r ∈ ["failed"; "failed_irreversible"; "compensation_failed"; "rolled_back"];
}.
Lemma execute_ordered spec c task digest lease inputs approval w r w' :
  compile spec = Ok c -> CapabilitySpec_post_init spec = Ok spec ->
  execute task digest c lease inputs approval w = (Ok r, w') -> ordered_report spec r.
Proof.
  intros Hc Hb Hx. pose proof (compile_Ok _ _ Hc) as Hco.
  destruct (execute_Ok _ _ _ _ _ _ _ _ _ _ Hc Hb Hx) as (x & s & w1 & Ex & _ & [I1 I2 I3 I4 I5] & _ & Hf & Hr). clear Hx.
  rewrite Ex, (co_spec _ _ Hco) in *. unfold conclude in Hr. rewrite Ex, (co_spec _ _ Hco) in Hr.
  assert (xr_completed_nodes r = vs_completed s /\ (vs_failed_node s = None -> r = {|
      xr_status := if is_nil (cs_verifiers spec) then "complete" else "verified"; xr_completed_nodes := vs_completed s;
      xr_compensated_nodes := []; xr_outputs := vs_outputs s; xr_evidence_ids := vs_evidence_ids s; xr_error := None |}) /\
    (vs_failed_node s <> None -> xr_error r = vs_failure_text s /\ exists u, xr_status r = failure_status (cs_rollback_mode spec) u))
    as (Hdone & Hgood & Hbad).
  { destruct (vs_failed_node s); [|by apply ret_Ok in Hr as [-> _]].
    apply bind_Ok in Hr as (u & w2 & _ & [-> _]%ret_Ok). cbn. split_and!; [done|done|]. intros _. split; [done|by exists u]. }
  split; rewrite ?Hdone; [by apply NoDup_app in I1 as [? _]|intros i Hi; apply I2, elem_of_app; by left|done| |].
  - destruct (vs_failed_node s) as [f|] eqn:Ef.
    + destruct (Hbad ltac:(done)) as [-> _]. intros Ht. apply I5 in Ht. by rewrite Ef in Ht.
    + intros _. rewrite (Hgood eq_refl). cbn. split_and!; [|done|done].
      unfold finished in Hf. rewrite Ef in Hf. rewrite bool_decide_false, orb_false_r in Hf by (by intros []).
      destruct (vs_pending s); [|done]. rewrite app_nil_r in *. apply NoDup_Permutation; [done|exact (co_once _ _ Hco)|].
      intros i. split; [apply I2|by apply I4].
  - destruct (vs_failed_node s) as [f|] eqn:Ef; [|by rewrite (Hgood eq_refl)].
    destruct (Hbad ltac:(done)) as [_ [u ->]]. intros _. unfold failure_status.
    destruct (str_eqb _ _); [set_solver|]. destruct (ud_failed u); [set_solver|]. destruct (negb _); set_solver.
Qed.

(** C17. When an execution reports no error, every node of the recipe has an output in
    the result that conforms to the schema the node declares and for which its
    postconditions were evaluated and held. *)
Theorem outputs_keep_contracts spec c task digest lease inputs approval w r w' n :
  compile spec = Ok c -> CapabilitySpec_post_init spec = Ok spec ->
  execute task digest c lease inputs approval w = (Ok r, w') -> xr_error r = None -> n ∈ cs_nodes spec ->
  exists output, dict_get (dn_id n) (xr_outputs r) = Some output /\ conforms output (dn_output_schema n) /\
    exists snapshot, evaluate_predicates (dn_postconditions n)
      [("inputs", JObj inputs); ("nodeOutputs", JObj snapshot); ("result", output)]
      ("node " +:+ dn_id n +:+ " postcondition") = Ok tt.
Proof.
  intros Hc Hb Hx He Hn. pose proof (compile_Ok _ _ Hc) as Hco.
  destruct (execute_Ok _ _ _ _ _ _ _ _ _ _ Hc Hb Hx) as (x & s & w1 & Ex & <- & [I1 I2 I3 I4 I5] & Hout & Hf & Hr). clear Hx.
  unfold sound_outputs in Hout. rewrite Ex, (co_spec _ _ Hco) in *. unfold conclude in Hr. destruct (vs_failed_node s) as [f|] eqn:Ef.
  - apply bind_Ok in Hr as (u & w2 & _ & [-> _]%ret_Ok). apply I5 in He. by rewrite Ef in He.
  - apply ret_Ok in Hr as [-> _]. destruct (Hout eq_refl n Hn) as (output & Ho & Hs); [|by exists output].
    unfold finished in Hf. rewrite Ef in Hf. rewrite bool_decide_false, orb_false_r in Hf by (by intros []).
    destruct (vs_pending s); [|done]. rewrite app_nil_r in I4. apply (I4 eq_refl). by apply list_elem_of_fmap_2.
Qed.

(** what is reported of an execution that failed: what is undone is undone in the reverse
    of the order it was done in; where everything is to be undone, "rolled_back" says
    that all that was performed was undone and "failed" that there was nothing to undo;
    and what is declared irreversible is never reported as anything else *)
Record undone_report (spec : CapabilitySpec) (r : CapabilityExecutionResult) : Prop := {
  ur_reverse : xr_compensated_nodes r `sublist_of` reverse (xr_completed_nodes r);
  ur_all : cs_rollback_mode spec = "full" \/ cs_rollback_mode spec = "compensating" ->
     (xr_status r = "rolled_back" -> xr_compensated_nodes r = reverse (xr_completed_nodes r)) /\
     (xr_status r = "failed" -> xr_completed_nodes r = []);
  ur_irreversible : cs_rollback_mode spec = "irreversible" ->
     xr_status r = "failed_irreversible" /\ xr_compensated_nodes r = [];
}.
Lemma execute_undone spec c task digest lease inputs approval w r w' :
  compile spec = Ok c -> CapabilitySpec_post_init spec = Ok spec ->
  execute task digest c lease inputs approval w = (Ok r, w') -> xr_error r <> None -> undone_report spec r.
Proof.
  intros Hc Hb Hx He. pose proof (compile_Ok _ _ Hc) as Hco.
  destruct (execute_Ok _ _ _ _ _ _ _ _ _ _ Hc Hb Hx) as (x & s & w1 & Ex & _ & [I1 I2 I3 I4 I5] & _ & _ & Hr). clear Hx.
  unfold conclude in Hr. destruct (vs_failed_node s) as [f|]; [|by apply ret_Ok in Hr as [-> _]].
  rewrite Ex, (co_spec _ _ Hco) in *. apply bind_Ok in Hr as (u & w2 & Hu & [-> _]%ret_Ok). cbn. clear He.
  assert (exists K, ud_compensated u = K /\ K `sublist_of` reverse (vs_completed s) /\
    (undoes_all x -> ud_failed u = false -> K = reverse (vs_completed s)) /\
    (cs_rollback_mode spec = "irreversible" -> K = [])) as (K & HK & Hsub & Hall & Hirr).
  { destruct (is_in _ ["full"; "compensating"; "partial"]) eqn:Em.
    - apply compensate_all_Ok in Hu as (K & Hk & Hs & Hf).
      + exists K. split_and!; [exact Hk|exact Hs|intros Hm Hn; by apply Hf|]. intros Hi. by rewrite Hi in Em.
      + intros i Hi. rewrite elem_of_reverse in Hi. rewrite Ex, (co_spec _ _ Hco). apply I2, elem_of_app. by left.
    - apply ret_Ok in Hu as [-> _]. exists []. split_and!; [done|apply sublist_nil_l| |done].
      intros Hm. unfold undoes_all in Hm. rewrite Ex, (co_spec _ _ Hco) in Hm. destruct Hm as [Hm|Hm]; rewrite Hm in Em; vm_compute in Em; discriminate Em. }
  unfold undoes_all in Hall. rewrite Ex, (co_spec _ _ Hco) in Hall. split; cbn; rewrite ?HK; [exact Hsub| |].
  - intros Hm. unfold failure_status. destruct (str_eqb (cs_rollback_mode spec) "irreversible") eqn:Ei.
    { apply str_eqb_true in Ei. rewrite Ei in Hm. by destruct Hm. }
    destruct (ud_failed u); [done|]. specialize (Hall Hm eq_refl). rewrite HK, Hall. split.
    + done.
    + destruct (reverse (vs_completed s)) eqn:Erev; [intros _|done]. apply (f_equal reverse) in Erev. by rewrite reverse_involutive in Erev.
  - intros Hm. rewrite (Hirr Hm). split; [|done]. unfold failure_status. by rewrite Hm.
Qed.

(** the states that an execution goes through, whatever becomes of the world between
    its turns *)
Inductive reached (x : VmExecution) : VmState -> Prop :=
  | reached_start : reached x (vm_start (node_ids (cc_spec (ex_compiled x))))
  | reached_turn s (w : VmWorld) s' w' :
      reached x s -> finished s = false -> run_batch x s w = (Ok s', w') -> reached x s'.

(** C19. The machine always gets on: as long as it has not finished, a node is ready, and
    a batch that goes through settles at least one; so after as many turns as there are
    nodes it has finished, and more turns change nothing. *)
Theorem execution_gets_on spec c x :
  compile spec = Ok c -> CapabilitySpec_post_init spec = Ok spec -> ex_compiled x = c ->
  (forall s, reached x s -> finished s = false ->
     ready_nodes x s <> [] /\
     forall w s' w', run_batch x s w = (Ok s', w') -> (length (vs_pending s') < length (vs_pending s))%nat) /\
  (forall w s w', run_nodes (length (cs_nodes spec)) x (vm_start (node_ids spec)) w = (Ok s, w') -> finished s = true) /\
  (forall more w, run_nodes (length (cs_nodes spec) + more) x (vm_start (node_ids spec)) w
                  = run_nodes (length (cs_nodes spec)) x (vm_start (node_ids spec)) w).
Proof.
  intros Hc Hb%bounds_parallelism Hx. assert (acyclic (cs_edges spec)) as Hacyclic.
  { apply compile_Ok in Hc. apply (ordered_acyclic _ _ (co_edges _ _ Hc) _ (compiles_ordered _ _ Hc)).
    intros i. by rewrite (compiles_perm _ _ Hc). }
  apply compile_Ok in Hc. rewrite <- Hx in Hc. pose proof (start_Inv spec x Hc) as Hstart.
  pose proof (co_edges _ _ Hc) as Hedges. rewrite <- (co_spec _ _ Hc) in *.
  assert (length (vs_pending (vm_start (node_ids (cc_spec (ex_compiled x))))) <= length (cs_nodes (cc_spec (ex_compiled x))))%nat
    as Hlen by (cbn; by rewrite length_map).
  assert (forall s, reached x s -> Inv x s) as Hinv.
  { induction 1 as [|s w s' w' _ IH _ Hrun]; [exact Hstart|]. by apply run_batch_Ok in Hrun as [? _]. }
  split_and!.
  - intros s Hs%Hinv [Hp Hf]%orb_false_iff. split.
    + apply (progress invoke); [done|done|by intros e [? _]%Hedges| |by intros Hnil; rewrite Hnil in Hp].
      by apply bool_decide_eq_false, dec_stable in Hf.
    + intros w s' w' Hrun. by apply run_batch_Ok in Hrun as [_ ?].
  - intros w s w' Hrun. by apply run_nodes_Ok in Hrun as [_ ?].
  - intros more w. by apply run_nodes_more.
Qed.

Lemma admission_is_quiet task digest c lease inputs approval (w : VmWorld) r w' :
  admit_execution task digest c lease inputs approval w = (r, w') -> w'.2 = w.2.
Proof.
  unfold admit_execution, bind. destruct (_validate_lease _ _ _ _ w) as [r1 w1] eqn:El.
  assert (w1.2 = w.2) as Hw1.
  { unfold _validate_lease, bind, os, on_left, vm_error in El. destruct (os_now w.1) as [[now|e] v]; [|by injection El as _ <-].
    repeat match type of El with (if ?b then _ else _) _ = _ => destruct b end; by injection El as _ <-. }
  destruct r1 as [u|e]; [|by intros [= _ <-]]. rewrite <- Hw1. unfold vm_error, catch, lift.
  repeat case_match; by intros [= _ <-].
Qed.
(** C18. Nothing is performed without authority for it: either the lease is active, not
    expired, for this task, this artifact and this machine, covers every permission of
    the capability and carries the approval that is asked for, or the execution raises
    and the world of the executor is as it was. *)
Theorem execution_needs_lease task digest c lease inputs approval w r w' :
  execute task digest c lease inputs approval w = (r, w') ->
  (exists now_ms os', os_now w.1 = (Ok now_ms, os') /\
     cl_status lease = "active" /\ (now_ms < cl_expires_at_ms lease)%Z /\ cl_task_id lease = task /\
     cl_artifact_digest lease = digest /\ cl_runtime_profile lease = "cptr-vm" /\
     (forall p, p ∈ cc_permissions c -> exists a, a ∈ cl_permissions lease /\ permission_covers a p = true) /\
     (approval <> None -> cl_approval_id lease = approval) /\
     (cc_requires_human_approval c = true -> has_key (cl_approval_id lease) = true)) \/
  is_ok r = false /\ w'.2 = w.2.
Proof.
  unfold CapabilityVm.execute. destruct (admit_execution task digest c lease inputs approval w) as [[u|e] w1] eqn:Ea.
  - intros _. left. unfold admit_execution in Ea. apply bind_Ok in Ea as (u1 & w2 & Hl & Hrest).
    unfold _validate_lease in Hl. apply bind_Ok in Hl as (now & w3 & [Hnow _]%on_left_Ok & Hl). exists now, w3.1.
    destruct (str_eqb (cl_status lease) _) eqn:E1; [|done]. destruct (_ <=? _)%Z eqn:E2; [done|].
    destruct (str_eqb (cl_task_id lease) _) eqn:E3; [|done]. destruct (str_eqb (cl_artifact_digest lease) _) eqn:E4; [|done].
    destruct (str_eqb (cl_runtime_profile lease) _) eqn:E5; [|done]. destruct (forallb _ _) eqn:E6; [|done]. clear Hl.
    rewrite str_eqb_true in *. apply Z.leb_gt in E2. destruct (match approval with Some _ => _ | None => _ end) eqn:E7; [done|].
    destruct (cc_requires_human_approval c && _) eqn:E8; [done|]. split_and!; try done.
    + intros p Hp. rewrite forallb_forall in E6. by apply existsb_elem, E6, list_elem_of_In.
    + destruct approval as [a|]; [|done]. intros _. apply negb_false_iff in E7. symmetry. by apply opt_eqb_true.
    + intros Hh. rewrite Hh in E8. by apply negb_false_iff in E8.
  - unfold bind at 1. rewrite Ea. intros [= <- <-]. right. split; [done|]. exact (admission_is_quiet _ _ _ _ _ _ _ _ _ Ea).
Qed.
End Theorems.

(** ** Concrete executions *)

(** what actions were performed is on record outside; [tool://fail] raises and
    [tool://wait] takes a hundred milliseconds *)
#[local] Abbreviation Log := (list string).
Definition demo_invoke (action_ref version : string) (inputs : dict) (lease : CapabilityLease) (timeout_ms : Z)
    : M (OsWorld * Log) (option ActionResult) := fun w =>
  let later n := ({| db := db w.1.1; ticks := (ticks w.1.1 + n)%nat; uids := uids w.1.1 |}, w.1.2) in
  if str_eqb action_ref "tool://fail" then (Err (RuntimeError "no"), (w.1, w.2 ++ [action_ref]))
  else (Ok (Some {| res_output := JInt 1; res_verification_passed := Some true; res_metadata := [] |}),
        (if str_eqb action_ref "tool://wait" then later 100 else w.1, w.2 ++ [action_ref])).
Definition demo_loop_time : M (OsWorld * Log) Z := gets (fun w => Z.of_nat (ticks w.1.1)).
Definition demo_action (i action_ref : string) (undo : option string) : DagNode := {|
  dn_id := i; dn_action_ref := action_ref; dn_version := "1"; dn_input_bindings := []; dn_output_schema := JObj [];
  dn_preconditions := []; dn_postconditions := []; dn_permissions := []; dn_timeout_ms := 1000;
  dn_retry := {| rp_max_attempts := 1; rp_only_if_idempotent := true; rp_retryable_errors := [] |};
  dn_compensation_action_ref := undo; dn_approval := "none"; dn_idempotent := false |}.
(** two actions that can be undone, and a last one *)
Definition demo_plan (last : string) : CapabilitySpec := {|
  cs_capability_id := "plan"; cs_version := "1"; cs_inputs_schema := JObj []; cs_preconditions := []; cs_effects := [];
  cs_nodes := [demo_action "c" last None; demo_action "a" "tool://a" (Some "tool://undo-a");
               demo_action "b" "tool://b" (Some "tool://undo-b")];
  cs_edges := [{| source := "a"; target := "b" |}; {| source := "b"; target := "c" |}]; cs_verifiers := ["c"];
  cs_rollback_mode := "full"; cs_permissions := []; cs_deadline_ms := 60000; cs_max_parallelism := 2; cs_risk_class := "read" |}.
Definition demo_machine_lease : CapabilityLease := {|
  cl_lease_id := "l1"; cl_task_id := "t1"; cl_workload_id := "w"; cl_artifact_digest := "sha256:aa"; cl_permissions := [];
  cl_resource_limits := []; cl_network := []; cl_credentials := []; cl_approval_id := None; cl_parent_lease_id := None;
  cl_policy_decision_id := "p"; cl_runtime_profile := "cptr-vm"; cl_issued_at_ms := 0; cl_expires_at_ms := 50;
  cl_status := "active"; cl_execution_context := [] |}.
Definition demo_execute (last : string) : result CapabilityExecutionResult * (OsWorld * Log) :=
  match compile (demo_plan last) with
  | Ok c => @execute demo_env Log demo_invoke demo_loop_time exn_class "t1" "sha256:aa" c demo_machine_lease [] None (demo_leased, [])
  | Err e => (Err e, (demo_leased, []))
  end.
Definition demo_outcome (last : string) : option (string * list string * list string) * Log :=
  let '(r, w) := demo_execute last in
  (match r with Ok r => Some (xr_status r, xr_completed_nodes r, xr_compensated_nodes r) | Err _ => None end, w.2).
Example demo_verified : demo_outcome "tool://c" = (Some ("verified", ["a"; "b"; "c"], []), ["tool://a"; "tool://b"; "tool://c"]).
Proof. vm_compute. reflexivity. Qed.
Example demo_rolled_back : demo_outcome "tool://fail"
  = (Some ("rolled_back", ["a"; "b"], ["b"; "a"]), ["tool://a"; "tool://b"; "tool://fail"; "tool://undo-b"; "tool://undo-a"]).
Proof. vm_compute. reflexivity. Qed.
(** When the lease ends during an execution, evidence of what was done can not be
    recorded any more: the execution raises and nothing of what it did is undone. *)
Example expiry_undoes_nothing :
  demo_outcome "tool://wait" = (None, ["tool://a"; "tool://b"; "tool://wait"]) /\
  (demo_execute "tool://wait").1 = Err (EvidenceViolation "evidence references an inactive lease").
Proof. split; vm_compute; reflexivity. Qed.

(** a recipe that compiles and its compiled form, for the witnesses below *)
Definition demo_compiled (last : string) : CompiledCapability :=
  match compile (demo_plan last) with Ok c => c | Err _ =>
    {| cc_spec := demo_plan last; cc_topological_order := []; cc_permissions := []; cc_requires_human_approval := false |} end.
Lemma demo_compiles last : is_ok (compile (demo_plan last)) = true -> compile (demo_plan last) = Ok (demo_compiled last).
Proof. unfold demo_compiled. by destruct (compile (demo_plan last)). Qed.
Abbreviation demo_run last :=
  (@execute demo_env Log demo_invoke demo_loop_time exn_class "t1" "sha256:aa" (demo_compiled last) demo_machine_lease [] None (demo_leased, [])).

Definition demo_machine : VmExecution := {|
  ex_task_id := "t1"; ex_capability_digest := "sha256:aa"; ex_compiled := demo_compiled "tool://c";
  ex_lease := demo_machine_lease; ex_inputs := []; ex_deadline_at := 60000 |}.
Theorem execution_gets_on_witness : ready_nodes demo_machine (vm_start ["c"; "a"; "b"]) <> [].
Proof.
  destruct (execution_gets_on (H := demo_env) demo_invoke demo_loop_time exn_class (demo_plan "tool://c") _ demo_machine
    (demo_compiles _ eq_refl) eq_refl eq_refl) as (Hp & _).
  refine (proj1 (Hp (vm_start ["c"; "a"; "b"]) _ eq_refl)).
  exact (reached_start (H := demo_env) demo_invoke demo_loop_time exn_class demo_machine).
Defined.
Theorem execution_needs_lease_witness :
  exists r w', demo_run "tool://c" = (r, w') /\ (is_ok r = true -> cl_status demo_machine_lease = "active").
Proof.
  destruct (demo_run "tool://c") as [r w'] eqn:E. exists r, w'. split; [done|].
  destruct (execution_needs_lease demo_invoke demo_loop_time exn_class _ _ _ _ _ _ _ _ _ E)
    as [(now & os' & _ & Hs & _)|[Hr _]]; [by intros _|by rewrite Hr].
Defined.
Theorem outputs_keep_contracts_witness :
  exists r w', demo_run "tool://c" = (Ok r, w') /\ exists output, dict_get "b" (xr_outputs r) = Some output.
Proof.
  destruct (demo_run "tool://c") as [[r|e] w'] eqn:E; [|by vm_compute in E]. exists r, w'. split; [done|].
  destruct (outputs_keep_contracts demo_invoke demo_loop_time exn_class (demo_plan "tool://c") _ _ _ _ _ _ _ _ _
    (demo_action "b" "tool://b" (Some "tool://undo-b")) (demo_compiles _ eq_refl) eq_refl E) as (output & Ho & _).
  - vm_compute in E. by injection E as <- _.
  - right. right. left.
  - by exists output.
Defined.
