(* ===== verification/CapabilityVmCalls.v ===== *)
(** * What the machine asks of its executor

    The machine performs the actions of a recipe by calling its executor.  Here the
    executor is watched: every call of it is written down, with what came of it, and the
    theorems are about what was called: each node in its place and no more often than
    its retries allow, and, when an execution fails, what was called to undo it. *)

From S2P Require Import Prelude PyStr Json FactoryDomain FactoryGates Database CapabilityLifecycle.
From S2P Require Import FactoryStore FactoryPhases FactoryGit FactoryPolicy FactoryCapabilities FactoryCapabilitiesSpec.
From S2P Require Import JsonText CapabilityContracts CapabilityContractsSpec CapabilityStore CapabilityStoreSpec.
From S2P Require Import CapabilityAuthority CapabilityAuthoritySpec CapabilityCompiler CapabilityCompilerSpec.
From S2P Require Import CapabilityValidation CapabilityValidationSpec CapabilityVm CapabilityVmSpec.

(** ** Calls *)

Inductive Answer := Returned | Invalid | Raised.
#[export] Instance Answer_eq_dec : EqDecision Answer.
Proof. solve_decision. Defined.
Record Call := {
  call_ref : string;
  call_version : string;
  call_inputs : dict;
  call_answer : Answer;
}.
Definition answer_of (r : result (option ActionResult)) : Answer :=
  match r with Ok (Some _) => Returned | Ok None => Invalid | Err _ => Raised end.

(** what is done beside the calls, on the world without them *)
Definition beside {A R} (m : M (OsWorld * R) A) : M (OsWorld * (R * list Call)) A :=
  fun w => let '(r, v) := m (w.1, w.2.1) in (r, (v.1, (v.2, w.2.2))).
(** an executor whose calls are written down *)
Definition watched {R} (invoke : string -> string -> dict -> CapabilityLease -> Z -> M (OsWorld * R) (option ActionResult))
    (action_ref version : string) (inputs : dict) (lease : CapabilityLease) (timeout_ms : Z)
    : M (OsWorld * (R * list Call)) (option ActionResult) :=
  fun w => let '(r, v) := invoke action_ref version inputs lease timeout_ms (w.1, w.2.1) in
    (r, (v.1, (v.2, w.2.2 ++ [{| call_ref := action_ref; call_version := version; call_inputs := inputs;
                                call_answer := answer_of r |}]))).

(** what performing a node may call: its action, with one set of inputs; again only
    after it raised, if its policy of retries allows that, and not too often *)
Definition call_of (n : DagNode) (inputs : dict) (a : Answer) : Call :=
  {| call_ref := dn_action_ref n; call_version := dn_version n; call_inputs := inputs; call_answer := a |}.
Definition may_retry (n : DagNode) : Prop := rp_only_if_idempotent (dn_retry n) = true -> dn_idempotent n = true.
Definition attempts (t : DagNode * list Call) : Prop :=
  t.2 = [] \/ exists inputs k a, t.2 = replicate k (call_of t.1 inputs Raised) ++ [call_of t.1 inputs a] /\
    (Z.of_nat (S k) <= Z.max 1 (rp_max_attempts (dn_retry t.1)))%Z /\ (k = 0%nat \/ may_retry t.1).
(** the node was performed: its last call returned *)
Definition performed (t : DagNode * list Call) : bool :=
  match last t.2 with Some c => bool_decide (call_answer c = Returned) | None => false end.
Definition trace_ids (trace : list (DagNode * list Call)) : list string := map (fun t => dn_id t.1) trace.
Definition performed_ids (trace : list (DagNode * list Call)) : list string := trace_ids (List.filter performed trace).
Definition calls (trace : list (DagNode * list Call)) : list Call := concat (map snd trace).
(** each node after all the nodes it depends on were performed *)
Definition in_order (edges : list DagEdge) (trace : list (DagNode * list Call)) : Prop :=
  forall before t after e, trace = before ++ t :: after -> e ∈ edges -> target e = dn_id t.1 ->
    source e ∈ performed_ids before.

Lemma trace_ids_app t1 t2 : trace_ids (t1 ++ t2) = trace_ids t1 ++ trace_ids t2.
Proof. apply map_app. Qed.
Lemma performed_ids_app t1 t2 : performed_ids (t1 ++ t2) = performed_ids t1 ++ performed_ids t2.
Proof. unfold performed_ids. by rewrite List.filter_app, trace_ids_app. Qed.
Lemma calls_app t1 t2 : calls (t1 ++ t2) = calls t1 ++ calls t2.
Proof. unfold calls. by rewrite map_app, concat_app. Qed.
Lemma in_order_app edges t1 t2 :
  in_order edges t1 -> (forall t e, t ∈ t2 -> e ∈ edges -> target e = dn_id t.1 -> source e ∈ performed_ids t1) ->
  in_order edges (t1 ++ t2).
Proof.
  intros H1 H2 before t after e Heq He Ht. apply app_eq_inv in Heq as [(k & Hb & Hk)|(k & Hb & Hk)].
  - destruct k as [|y k]; cbn in Hk.
    + rewrite app_nil_r in Hb. subst t1. apply (H2 t e); [rewrite <- Hk; left|done|done].
    + injection Hk as <- ->. by apply (H1 before t k e).
  - subst before. rewrite performed_ids_app. apply elem_of_app. left. apply (H2 t e); [|done|done]. rewrite Hk. apply elem_of_app. right. left.
Qed.

Section Calls.
Context `{Env} {R : Type}.
#[local] Abbreviation VmWorld := (OsWorld * (R * list Call))%type.
Context (invoke : string -> string -> dict -> CapabilityLease -> Z -> M (OsWorld * R) (option ActionResult)).
Context (loop_time : M (OsWorld * R) Z) (exc_text : exn -> string).
#[local] Abbreviation settle_node := (settle_node (R:=R * list Call) exc_text).
#[local] Abbreviation settle_all := (settle_all (R:=R * list Call) exc_text).
#[local] Abbreviation run_batch := (run_batch (watched invoke) (beside loop_time) exc_text).
#[local] Abbreviation run_nodes := (run_nodes (watched invoke) (beside loop_time) exc_text).
#[local] Abbreviation compensate_node := (compensate_node (watched invoke)).
#[local] Abbreviation compensate_all := (compensate_all (watched invoke)).
#[local] Abbreviation execute := (execute (watched invoke) (beside loop_time) exc_text).
#[local] Abbreviation log w := (w.2.2 : list Call).

Create HintDb quiet.
(** *** What calls nothing *)

Definition quiet {A} (m : M VmWorld A) : Prop := forall w r w', m w = (r, w') -> log w' = log w.
Lemma quiet_ret {A} (a : A) : quiet (ret a).
Proof. by intros w r w' [= _ <-]. Qed.
Lemma quiet_raise {A} e : quiet (raise (A := A) e).
Proof. by intros w r w' [= _ <-]. Qed.
Lemma quiet_lift {A} (a : result A) : quiet (lift a).
Proof. by intros w r w' [= _ <-]. Qed.
Lemma quiet_bind {A B} (m : M VmWorld A) (k : A -> M VmWorld B) : quiet m -> (forall a, quiet (k a)) -> quiet (bind m k).
Proof.
  intros Hm Hk w r w'. unfold bind. destruct (m w) as [[a|e] w1] eqn:E; pose proof (Hm _ _ _ E) as <-; [apply Hk|by intros [= _ <-]].
Qed.
Lemma quiet_os {A} (m : M OsWorld A) : quiet (os m).
Proof. intros w r w'. unfold os, on_left. destruct (m w.1) as [a v]. by intros [= _ <-]. Qed.
Lemma quiet_beside {A} (m : M (OsWorld * R) A) : quiet (beside m).
Proof. intros w r w'. unfold beside. destruct (m _) as [a v]. by intros [= _ <-]. Qed.
#[local] Hint Resolve quiet_ret quiet_raise quiet_lift quiet_bind quiet_os quiet_beside : quiet.
Lemma quiet_evidence x kind claims : quiet (vm_evidence x kind claims).
Proof. unfold vm_evidence. auto with quiet. Qed.
#[local] Hint Resolve quiet_evidence : quiet.
Lemma quiet_settle_node x snapshot s node outcome : quiet (settle_node x snapshot s node outcome).
Proof.
  unfold CapabilityVm.settle_node. destruct outcome as [r|e]; [destruct (check_result x snapshot node r) as [u|e]; [|destruct (is_vm_error e)]|];
    auto 6 with quiet.
Qed.
Lemma quiet_settle_all x snapshot batch : forall s, quiet (settle_all x snapshot s batch).
Proof.
  induction batch as [|[n o] batch IH]; intros s; cbn [CapabilityVm.settle_all]; [apply quiet_ret|].
  apply quiet_bind; [apply quiet_settle_node|exact IH].
Qed.

(** *** Performing *)

Lemma settled_watched action_ref version inputs lease timeout_ms (w : VmWorld) r w' :
  settled (watched invoke action_ref version inputs lease timeout_ms) w = (r, w') ->
  exists o, r = Ok o /\ log w' = log w ++ [{| call_ref := action_ref; call_version := version; call_inputs := inputs;
                                            call_answer := answer_of o |}].
Proof. unfold settled, watched. destruct (invoke _ _ _ _ _ _) as [o v]. intros [= <- <-]. by exists o. Qed.

(** performing [n] ended with [r], and what it called *)
Definition attempted (n : DagNode) (w : VmWorld) (r : result ActionResult) (w' : VmWorld) : Prop :=
  exists cs, log w' = log w ++ cs /\ attempts (n, cs) /\ performed (n, cs) = is_ok r.
Lemma performed_snoc n cs c : performed (n, cs ++ [c]) = bool_decide (call_answer c = Returned).
Proof. unfold performed. cbn [snd]. by rewrite last_snoc. Qed.
Lemma attempt_node_calls more node lease inputs timeout_ms : forall (w : VmWorld) r w',
  attempt_node (watched invoke) more node lease inputs timeout_ms w = (r, w') ->
  exists k a, log w' = log w ++ replicate k (call_of node inputs Raised) ++ [call_of node inputs a] /\
    (k <= more)%nat /\ (k = 0%nat \/ may_retry node) /\ bool_decide (a = Returned) = is_ok r.
Proof.
  induction more as [|more IH]; intros w r w'; cbn [attempt_node]; unfold bind at 1;
    destruct (settled _ w) as [r1 w1] eqn:Es; apply settled_watched in Es as (o & -> & Hl);
    (destruct o as [[v|]|e]; cbn [answer_of] in Hl;
     [intros [= <- <-]; exists 0%nat, Returned; split_and!; [done|lia|by left|done]
     |intros [= <- <-]; exists 0%nat, Invalid; split_and!; [done|lia|by left|done]|]).
  - intros [= <- <-]. exists 0%nat, Raised. split_and!; [done|lia|by left|done].
  - destruct (rp_only_if_idempotent (dn_retry node) && negb (dn_idempotent node)) eqn:Er.
    + intros [= <- <-]. exists 0%nat, Raised. split_and!; [done|lia|by left|done].
    + intros (k & a & Hk & Hle & _ & Ha)%IH. exists (S k), a. split_and!; [|lia| |done].
      * rewrite Hk, Hl, <- app_assoc. done.
      * right. intros Hi. rewrite Hi in Er. by apply negb_false_iff in Er.
Qed.
Lemma invoke_node_calls node lease inputs timeout_ms (w : VmWorld) r w' :
  _invoke_node (watched invoke) node lease inputs timeout_ms w = (r, w') -> attempted node w r w'.
Proof.
  unfold _invoke_node. destruct (_ <=? 0)%Z.
  - intros [= <- <-]. exists []. split_and!; [by rewrite app_nil_r|by left|done].
  - intros (k & a & Hl & Hk & Hr & Ha)%attempt_node_calls. eexists. split; [exact Hl|]. split.
    + right. exists inputs, k, a. split_and!; [done|cbn [fst]; lia|done].
    + by rewrite performed_snoc.
Qed.
Lemma perform_calls x remaining_ms a (w : VmWorld) r w' :
  perform (watched invoke) x remaining_ms a w = (r, w') -> exists o, r = Ok o /\ attempted (act_node a) w o w'.
Proof.
  unfold perform, settled. destruct (bind _ _ w) as [o v] eqn:E. intros [= <- <-]. exists o. split; [done|].
  unfold bind, lift in E. destruct (act_inputs a) as [inputs|e].
  - by apply invoke_node_calls in E.
  - injection E as <- <-. exists []. split_and!; [by rewrite app_nil_r|by left|done].
Qed.
Lemma performs_calls x remaining_ms actions : forall (w : VmWorld) r w',
  for_each (perform (watched invoke) x remaining_ms) actions w = (r, w') ->
  exists os trace, r = Ok os /\ log w' = log w ++ calls trace /\ Forall attempts trace /\
    map fst trace = map act_node actions /\ map performed trace = map is_ok os.
Proof.
  induction actions as [|a actions IH]; intros w r w'; cbn [for_each].
  - intros [= <- <-]. exists [], []. split_and!; try done. by rewrite app_nil_r.
  - unfold bind at 1. destruct (perform _ _ _ _ w) as [r1 w1] eqn:E1. apply perform_calls in E1 as (o & -> & cs & Hl & Ha & Hp).
    unfold bind. destruct (for_each _ actions w1) as [r2 w2] eqn:E2. apply IH in E2 as (os & trace & -> & Hl2 & Ht & Hn & Hps).
    intros [= <- <-]. exists (o :: os), ((act_node a, cs) :: trace). split_and!; [done| |by constructor| |].
    + rewrite Hl2, Hl, <- app_assoc. done.
    + cbn. by rewrite Hn.
    + cbn [map]. by rewrite Hp, Hps.
Qed.

(** *** A batch *)

Lemma settle_node_completed x snapshot s node outcome w s' w' :
  settle_node x snapshot s node outcome w = (Ok s', w') ->
  vs_completed s' = vs_completed s ++ (if is_ok outcome then [dn_id node] else []).
Proof.
  unfold CapabilityVm.settle_node. destruct outcome as [r|e].
  - destruct (check_result x snapshot node r) as [u|e].
    + by intros (claims & w1 & _ & (eid & w2 & _ & [-> _]%ret_Ok)%bind_Ok)%bind_Ok.
    + destruct (is_vm_error e); [|done]. by intros (eid & w2 & _ & [-> _]%ret_Ok)%bind_Ok.
  - intros (eid & w2 & _ & [-> _]%ret_Ok)%bind_Ok. cbn. by rewrite app_nil_r.
Qed.
Lemma settle_all_completed x snapshot batch : forall s w s' w',
  settle_all x snapshot s batch w = (Ok s', w') ->
  vs_completed s' = vs_completed s ++ map dn_id (map fst (List.filter (fun b => is_ok b.2) batch)).
Proof.
  induction batch as [|[n o] batch IH]; intros s w s' w'; cbn [CapabilityVm.settle_all].
  - intros [-> _]%ret_Ok. by rewrite app_nil_r.
  - intros (s1 & w1 & H1%settle_node_completed & H2%IH)%bind_Ok. rewrite H2, H1, <- app_assoc. cbn. by destruct (is_ok o).
Qed.
Lemma planned_nodes x snapshot batch actions :
  all_Ok (map (plan_node x snapshot) batch) = Ok actions -> map act_node actions = batch.
Proof.
  revert actions. induction batch as [|n batch IH]; intros actions; cbn; [by intros [= <-]|].
  intros (a & Ha & (l & Hl & [= <-])%rbind_Ok)%rbind_Ok. cbn. f_equal; [|by apply IH].
  unfold plan_node in Ha. cbv zeta in Ha. destruct (evaluate_predicates _ _ _) as [u|e]; [by injection Ha as <-|].
  destruct e; try done. by injection Ha as <-.
Qed.
Lemma performed_batch trace : forall batch os, map fst trace = batch -> map performed trace = map is_ok os ->
  performed_ids trace = map dn_id (map fst (List.filter (fun b : DagNode * result ActionResult => is_ok b.2) (combine batch os))).
Proof.
  induction trace as [|[n cs] trace IH]; intros batch [|o os]; cbn; try done; intros <-; [done|]. intros [= Ho Hos].
  unfold performed_ids. cbn [List.filter combine snd]. rewrite Ho. specialize (IH _ os eq_refl Hos). unfold performed_ids in IH.
  destruct (is_ok o); cbn; [f_equal|]; exact IH.
Qed.

Context (x : VmExecution).
#[local] Abbreviation spec := (cc_spec (ex_compiled x)).

(** calls of nodes of the recipe, each node once *)
Record Good (trace : list (DagNode * list Call)) : Prop := {
  gd_attempts : Forall attempts trace;
  gd_nodes : Forall (fun t => t.1 ∈ cs_nodes spec) trace;
  gd_once : NoDup (trace_ids trace);
  gd_order : in_order (cs_edges spec) trace;
}.
Lemma run_batch_calls s w r w' :
  (0 < cs_max_parallelism spec)%Z -> Inv x s -> run_batch x s w = (r, w') ->
  exists trace, log w' = log w ++ calls trace /\ Forall attempts trace /\ Forall (fun t => t.1 ∈ cs_nodes spec) trace /\
    NoDup (trace_ids trace) /\ (forall i, i ∈ trace_ids trace -> i ∈ ready_nodes x s) /\
    forall s', r = Ok s' -> vs_completed s' = vs_completed s ++ performed_ids trace /\
      (forall i, i ∈ trace_ids trace -> i ∉ vs_pending s') /\ vs_pending s' ⊆ vs_pending s.
Proof.
  intros Hm Hs. unfold CapabilityVm.run_batch.
  assert (forall (r0 : result VmState) (w0 w1 : VmWorld), log w1 = log w0 ->
    (forall s', r0 = Ok s' -> vs_completed s' = vs_completed s /\ vs_pending s' ⊆ vs_pending s) ->
    exists trace, log w1 = log w0 ++ calls trace /\ Forall attempts trace /\ Forall (fun t => t.1 ∈ cs_nodes spec) trace /\
    NoDup (trace_ids trace) /\ (forall i, i ∈ trace_ids trace -> i ∈ ready_nodes x s) /\
    forall s', r0 = Ok s' -> vs_completed s' = vs_completed s ++ performed_ids trace /\
      (forall i, i ∈ trace_ids trace -> i ∉ vs_pending s') /\ vs_pending s' ⊆ vs_pending s) as Hnone.
  { intros r0 w0 w1 Hl Hr. exists []. split_and!; [by rewrite app_nil_r|done|done|constructor|by intros i ?%elem_of_nil|].
    intros s' [Hs1 Hs2]%Hr. split_and!; [by rewrite app_nil_r|by intros i ?%elem_of_nil|done]. }
  assert (forall L l, List.filter (fun p => negb (is_in p L)) l ⊆ l) as Hsub.
  { intros L l i. rewrite !list_elem_of_In, List.filter_In. by intros [? _]. }
  destruct (is_nil (ready_nodes x s)) eqn:Er; [intros [= <- <-]; by apply Hnone|].
  fold (batch_ids x s). pose proof (batch_ids_ready x s) as Hready. pose proof (batch_once x s Hs) as Honce.
  assert (map dn_id (omap (node_of x) (batch_ids x s)) = batch_ids x s) as Hids.
  { apply nodes_of_ids. intros i Hi. eapply ready_ids; eauto. }
  unfold bind at 1. destruct (beside loop_time w) as [[now|e] w1] eqn:Et; pose proof (quiet_beside _ _ _ _ Et) as Hw1;
    [|intros [= <- <-]; by apply Hnone]. cbv zeta. rewrite <- Hw1. clear Hw1 Et w.
  destruct (_ <=? 0)%Z.
  - destruct (omap (node_of x) (batch_ids x s)) as [|n ns]; [intros [= <- <-]; apply Hnone; [done|by intros s' [= <-]]|].
    intros Hset. apply Hnone; [by eapply quiet_settle_all|]. intros s' ->.
    rewrite (settle_all_completed _ _ _ _ _ _ _ Hset). apply settle_all_Ok in Hset as (K & _ & _ & -> & _).
    split; [cbn; by rewrite app_nil_r|exact (Hsub [dn_id n] _)].
  - unfold bind at 1. destruct (lift _ w1) as [[actions|e] w2] eqn:Ea; [|injection Ea as _ <-; intros [= <- <-]; by apply Hnone].
    apply lift_Ok in Ea as [Ha ->]. unfold bind. destruct (for_each _ actions w1) as [ro w3] eqn:Eo.
    apply performs_calls in Eo as (os & trace & -> & Hl & Hat & Hn & Hp). rewrite (planned_nodes _ _ _ _ Ha) in Hn.
    assert (trace_ids trace = batch_ids x s) as Hti by (by rewrite <- Hids, <- Hn; unfold trace_ids; rewrite map_map).
    intros Hset. exists trace. pose proof (quiet_settle_all _ _ _ _ _ _ _ Hset) as ->. split_and!; [done|done| | | |].
    + apply Forall_forall. intros t Ht. apply (list_elem_of_fmap_2 fst) in Ht. change (t.1 ∈ map fst trace) in Ht.
      rewrite Hn in Ht. apply list_elem_of_omap in Ht as (i & _ & Hi). by apply node_of_id in Hi as [_ ?].
    + by rewrite Hti.
    + intros i. rewrite Hti. apply Hready.
    + intros s' ->. split; [rewrite (settle_all_completed _ _ _ _ _ _ _ Hset); f_equal; symmetry; by apply performed_batch|].
      apply settle_all_Ok in Hset as (K & _ & _ & -> & _).
      rewrite combine_fst, Hids, Hti by (rewrite <- (length_map is_ok os), <- Hp, length_map, <- Hn; by rewrite length_map).
      split; [|apply Hsub]. intros i Hi. rewrite list_elem_of_In, List.filter_In, negb_true_iff. intros [_ Hx].
      by rewrite (proj2 (is_in_true _ _) Hi) in Hx.
Qed.

(** *** The loop *)

(** the trace is what the state says *)
Definition tracked (s : VmState) (trace : list (DagNode * list Call)) : Prop :=
  vs_completed s = performed_ids trace /\ forall i, i ∈ trace_ids trace -> i ∉ vs_pending s.
Lemma Good_app s t1 t2 :
  Good t1 -> tracked s t1 -> Forall attempts t2 -> Forall (fun t => t.1 ∈ cs_nodes spec) t2 -> NoDup (trace_ids t2) ->
  (forall i, i ∈ trace_ids t2 -> i ∈ ready_nodes x s) -> Good (t1 ++ t2).
Proof.
  intros [A1 N1 O1 F1] [Hc Hp] A2 N2 O2 Hr. split; [by apply Forall_app|by apply Forall_app| |].
  - rewrite trace_ids_app. apply NoDup_app. split_and!; [done| |done].
    intros i Hi [Hpend _]%Hr%(ready_nodes_spec (watched invoke)). by destruct (Hp i Hi).
  - apply in_order_app; [done|]. intros t e Ht He Htg. rewrite <- Hc.
    apply (list_elem_of_fmap_2 (fun t => dn_id t.1)) in Ht. apply Hr, (ready_nodes_spec (watched invoke)) in Ht as [_ Ht]. by apply Ht.
Qed.
Lemma run_nodes_calls fuel : forall s trace w r w',
  (0 < cs_max_parallelism spec)%Z -> Inv x s -> Good trace -> tracked s trace -> run_nodes fuel x s w = (r, w') ->
  exists more, log w' = log w ++ calls more /\ Good (trace ++ more) /\ forall s', r = Ok s' -> tracked s' (trace ++ more).
Proof.
  induction fuel as [|fuel IH]; intros s trace w r w' Hm Hs Hg Ht; cbn [CapabilityVm.run_nodes].
  { intros [= <- <-]. exists []. rewrite !app_nil_r. split_and!; [done|done|by intros s' [= <-]]. }
  destruct (_ || _). { intros [= <- <-]. exists []. rewrite !app_nil_r. split_and!; [done|done|by intros s' [= <-]]. }
  unfold bind. destruct (run_batch x s w) as [r1 w1] eqn:Eb. pose proof (run_batch_calls _ _ _ _ Hm Hs Eb)
    as (t1 & Hl & Ha & Hn & Ho & Hr & Hok). pose proof (Good_app _ _ _ Hg Ht Ha Hn Ho Hr) as Hg1.
  destruct r1 as [s1|e]; [|intros [= <- <-]; by exists t1].
  destruct (Hok _ eq_refl) as (Hc1 & Hp1 & Hsub). pose proof (run_batch_Ok _ _ _ _ _ _ _ _ Hm Hs Eb) as [Hs1 _].
  assert (tracked s1 (trace ++ t1)) as Ht1.
  { split; [by rewrite Hc1, (proj1 Ht), performed_ids_app|]. rewrite trace_ids_app.
    intros i [Hi|Hi]%elem_of_app; [|by apply Hp1]. by intros Hi'%Hsub%(proj2 Ht i Hi). }
  intros Hrun. destruct (IH _ _ _ _ _ Hm Hs1 Hg1 Ht1 Hrun) as (t2 & Hl2 & Hg2 & Hok2).
  exists (t1 ++ t2). rewrite app_assoc, calls_app, app_assoc, <- Hl. done.
Qed.

(** *** Undoing *)

(** a call that undoes a node *)
Definition undoes (u : DagNode * Call) : Prop :=
  dn_compensation_action_ref u.1 = Some (call_ref u.2) /\ call_version u.2 = dn_version u.1 /\
  dict_get "compensatingNode" (call_inputs u.2) = Some (JStr (dn_id u.1)).
Definition undoable (n : DagNode) : bool :=
  match dn_compensation_action_ref n with Some (String _ _) => true | _ => false end.
Definition undone (u : DagNode * Call) : bool := bool_decide (call_answer u.2 = Returned).
Definition undone_ids (us : list (DagNode * Call)) : list string := map (fun u => dn_id u.1) (List.filter undone us).
Lemma undone_ids_app us vs : undone_ids (us ++ vs) = undone_ids us ++ undone_ids vs.
Proof. unfold undone_ids. by rewrite List.filter_app, map_app. Qed.
#[local] Abbreviation mode := (cs_rollback_mode spec).

(** what undoing [nodes] calls, and what it says it did *)
Definition undid (nodes : list DagNode) (u : Undone) (w : VmWorld) (r : result Undone) (w' : VmWorld) : Prop :=
  exists us, log w' = log w ++ map snd us /\ Forall undoes us /\ map fst us `prefix_of` List.filter undoable nodes /\
    forall u', r = Ok u' -> map fst us = List.filter undoable nodes /\ ud_compensated u' = ud_compensated u ++ undone_ids us /\
      (undoes_all x -> ud_failed u' = false -> ud_failed u = false /\ Forall (fun n => undoable n = true) nodes /\
         Forall (fun v => undone v = true) us).
Lemma compensate_node_calls s u n w r w' :
  node_of x (dn_id n) = Some n -> compensate_node x s u (dn_id n) w = (r, w') -> undid [n] u w r w'.
Proof.
  intros Hn. unfold CapabilityVm.compensate_node. rewrite Hn.
  destruct (undoable n) eqn:Eu.
  - unfold undoable in Eu. destruct (dn_compensation_action_ref n) as [[|c a]|] eqn:Ec; try done.
    cbv zeta. unfold bind at 1. destruct (settled _ w) as [r1 w1] eqn:Es. apply settled_watched in Es as (o & -> & Hl).
    intros Hrun. match type of Hl with _ = _ ++ [?c] => exists [(n, c)] end.
    assert (log w' = log w1) as Hw'.
    { destruct o as [[v|]|e]; revert Hrun; [|eapply (quiet_bind _ _ (quiet_evidence _ _ _)); intros; apply quiet_ret..].
      eapply quiet_bind; [apply quiet_lift|]. intros claims. apply quiet_bind; [apply quiet_evidence|]. intros. apply quiet_ret. }
    assert (undoable n = true) as Eun by (unfold undoable; by rewrite Ec).
    cbn [map fst List.filter]. rewrite Eun. split_and!; [by rewrite Hw', Hl| |done|].
    + repeat constructor; cbn; [done|]. by rewrite dict_get_set, decide_True.
    + intros u' ->. split; [done|]. destruct o as [[v|]|e].
      * apply bind_Ok in Hrun as (claims & w2 & _ & (eid & w3 & _ & [-> _]%ret_Ok)%bind_Ok). cbn. split; [done|].
        intros _ Hf. by repeat constructor.
      * apply bind_Ok in Hrun as (eid & w3 & _ & [-> _]%ret_Ok). cbn. by rewrite app_nil_r.
      * apply bind_Ok in Hrun as (eid & w3 & _ & [-> _]%ret_Ok). cbn. by rewrite app_nil_r.
  - assert (match dn_compensation_action_ref n with Some (String _ _) => False | _ => True end) as Ec
      by (unfold undoable in Eu; by destruct (dn_compensation_action_ref n) as [[|]|]).
    assert (forall u' w0 w1, (ret u' w0 : result Undone * VmWorld) = (r, w1) ->
      ud_compensated u' = ud_compensated u -> (undoes_all x -> ud_failed u' = true) -> w0 = w -> undid [n] u w r w1) as Hret.
    { intros u' w0 w1 [= <- <-] Hc Hf ->. exists []. cbn [map List.filter]. rewrite Eu. split_and!; [by rewrite app_nil_r|done|done|].
      intros u2 [= <-]. split_and!; [done|by rewrite Hc, app_nil_r|]. by intros Hm%Hf; rewrite Hm. }
    assert (undoes_all x -> is_in mode ["full"; "compensating"] = true) as Hmode.
    { intros [-> | ->]; by apply is_in_true; set_solver. }
    destruct (dn_compensation_action_ref n) as [[|]|]; [|done|]; intros Hr; eapply Hret; try exact Hr; try done;
      destruct (is_in _ _); cbn; try done; by intros ?%Hmode.
Qed.
Lemma compensate_all_calls s nodes : forall u w r w',
  Forall (fun n => node_of x (dn_id n) = Some n) nodes -> compensate_all x s u (map dn_id nodes) w = (r, w') ->
  undid nodes u w r w'.
Proof.
  induction nodes as [|n nodes IH]; intros u w r w' Hns; cbn [CapabilityVm.compensate_all map].
  - intros [= <- <-]. exists []. split_and!; [by rewrite app_nil_r|done|done|]. intros u' [= <-].
    split_and!; [done|by rewrite app_nil_r|]. intros _ ->. by split_and!.
  - apply Forall_cons in Hns as [Hn Hns]. unfold bind. destruct (compensate_node x s u (dn_id n) w) as [r1 w1] eqn:E1.
    apply compensate_node_calls in E1 as (us & Hl & Hu & Hp & Hok); [|done].
    assert (forall k, List.filter undoable (n :: k) = List.filter undoable [n] ++ List.filter undoable k) as Hcons
      by (intros k; cbn; by destruct (undoable n)).
    destruct r1 as [u1|e].
    + intros Hrun. destruct (IH _ _ _ _ Hns Hrun) as (vs & Hl2 & Hv & Hp2 & Hok2). destruct (Hok _ eq_refl) as (Hm & Hc & Hf).
      exists (us ++ vs). rewrite Hcons, !map_app, Hm. split_and!; [by rewrite Hl2, Hl, app_assoc|by apply Forall_app|by apply prefix_app|].
      intros u' ->. destruct (Hok2 _ eq_refl) as (Hm2 & Hc2 & Hf2). rewrite Hm2, Hc2, Hc, undone_ids_app, app_assoc.
      split_and!; [done|done|]. intros Ha [Hf1 [Hu2 Hd2]]%Hf2; [|done]. destruct (Hf Ha Hf1) as (Hf0 & Hu1 & Hd1).
      split_and!; [done|apply Forall_cons; by apply Forall_cons in Hu1 as [? _]|by apply Forall_app].
    + intros [= <- <-]. exists us. split_and!; [done|done| |done]. rewrite Hcons. by apply prefix_app_r.
Qed.
End Calls.

(** ** Theorems *)

Section Theorems.
Context `{Env} {R : Type}.
#[local] Abbreviation VmWorld := (OsWorld * (R * list Call))%type.
Context (invoke : string -> string -> dict -> CapabilityLease -> Z -> M (OsWorld * R) (option ActionResult)).
Context (loop_time : M (OsWorld * R) Z) (exc_text : exn -> string).
#[local] Abbreviation execute := (execute (watched invoke) (beside loop_time) exc_text).
#[local] Abbreviation log w := (w.2.2 : list Call).

(** what an execution called: the nodes of [trace], then the undoing of [us] *)
Definition performed_nodes (trace : list (DagNode * list Call)) : list DagNode := map fst (List.filter performed trace).
Definition to_undo (spec : CapabilitySpec) (trace : list (DagNode * list Call)) : list DagNode :=
  if is_in (cs_rollback_mode spec) ["full"; "compensating"; "partial"]
  then List.filter undoable (reverse (performed_nodes trace)) else [].
Record Called (spec : CapabilitySpec) (c : CompiledCapability) (trace : list (DagNode * list Call))
    (us : list (DagNode * Call)) (r : result CapabilityExecutionResult) : Prop := {
  ca_attempts : Forall attempts trace;
  ca_nodes : Forall (fun t => t.1 ∈ cs_nodes spec) trace;
  ca_once : NoDup (trace_ids trace);
  ca_order : in_order (cs_edges spec) trace;
  ca_undo : Forall undoes us;
  ca_undone : map fst us `prefix_of` to_undo spec trace;
  ca_result res : r = Ok res ->
    xr_completed_nodes res = performed_ids trace /\ xr_compensated_nodes res = undone_ids us /\
    (xr_error res = None -> us = []) /\
    (xr_error res <> None -> map fst us = to_undo spec trace) /\
    (cs_rollback_mode spec = "full" \/ cs_rollback_mode spec = "compensating" -> xr_status res = "rolled_back" ->
       Forall (fun n => undoable n = true) (performed_nodes trace) /\ Forall (fun u => undone u = true) us);
}.
Lemma performed_nodes_of x trace :
  NoDup (map dn_id (cs_nodes (cc_spec (ex_compiled x)))) -> Forall (fun t => t.1 ∈ cs_nodes (cc_spec (ex_compiled x))) trace ->
  Forall (fun n => node_of x (dn_id n) = Some n) (reverse (performed_nodes trace)).
Proof.
  intros Hd Hn. apply Forall_reverse, Forall_forall. intros n (t & -> & Ht)%list_elem_of_fmap. apply node_of_self; [done|].
  apply list_elem_of_In, List.filter_In in Ht as [Ht _]. apply list_elem_of_In in Ht. rewrite Forall_forall in Hn. by apply Hn.
Qed.
Lemma conclude_calls spec c x s trace (w : VmWorld) r w' :
  compiles spec c -> ex_compiled x = c -> Good x trace -> tracked s trace -> Inv x s ->
  conclude (watched invoke) x s w = (r, w') -> exists us, log w' = log w ++ map snd us /\ Called spec c trace us r.
Proof.
  intros Hc Ex [G1 G2 G3 G4] [Hcomp _] Hs. unfold conclude. rewrite Ex, (co_spec _ _ Hc) in *.
  assert (forall us (r0 : result CapabilityExecutionResult), Forall undoes us -> map fst us `prefix_of` to_undo spec trace ->
    (forall res, r0 = Ok res -> xr_completed_nodes res = performed_ids trace /\ xr_compensated_nodes res = undone_ids us /\
    (xr_error res = None -> us = []) /\ (xr_error res <> None -> map fst us = to_undo spec trace) /\
    (cs_rollback_mode spec = "full" \/ cs_rollback_mode spec = "compensating" -> xr_status res = "rolled_back" ->
       Forall (fun n => undoable n = true) (performed_nodes trace) /\ Forall (fun u => undone u = true) us)) ->
    Called spec c trace us r0) as Hmk by by split.
  destruct (vs_failed_node s) as [f|] eqn:Ef.
  - assert (vs_failure_text s <> None) as Ht by (intros Ht%(i_text _ _ Hs); by rewrite Ef in Ht).
    unfold bind at 1. intros Hrun.
    assert (exists us r1 w1, log w1 = log w ++ map snd us /\ Forall undoes us /\ map fst us `prefix_of` to_undo spec trace /\
      match r1 with Err e => (r, w') = (Err e, w1) | Ok u => (r, w') = (Ok {|
        xr_status := failure_status (cs_rollback_mode spec) u; xr_completed_nodes := vs_completed s;
        xr_compensated_nodes := ud_compensated u; xr_outputs := vs_outputs s; xr_evidence_ids := ud_evidence_ids u;
        xr_error := vs_failure_text s |}, w1) end /\
      forall u, r1 = Ok u -> map fst us = to_undo spec trace /\ ud_compensated u = undone_ids us /\
        (undoes_all x -> ud_failed u = false -> Forall (fun n => undoable n = true) (performed_nodes trace) /\
           Forall (fun v => undone v = true) us)) as (us & r1 & w1 & Hl & Hu & Hp & Hr & Hok).
    { unfold to_undo. destruct (is_in (cs_rollback_mode spec) _) eqn:Em.
      - destruct (compensate_all _ x s _ _ w) as [r1 w1] eqn:Ec.
        assert (reverse (vs_completed s) = map dn_id (reverse (performed_nodes trace))) as Hrev.
        { rewrite Hcomp. unfold performed_ids, performed_nodes, trace_ids. rewrite <- (map_map fst dn_id).
          symmetry. exact (fmap_reverse dn_id (map fst (List.filter performed trace))). }
        rewrite Hrev in Ec. apply compensate_all_calls in Ec as (us & Hl & Hu & Hp & Hok);
          [|apply performed_nodes_of; rewrite Ex, (co_spec _ _ Hc); [exact (co_once _ _ Hc)|exact G2]].
        exists us, r1, w1. split_and!; try done; [by destruct r1; injection Hrun as <- <-|].
        intros u ->. destruct (Hok _ eq_refl) as (H1 & H2 & H3). split_and!; [done|by rewrite H2|].
        intros Ha Hf. destruct (H3 Ha Hf) as (_ & H4 & H5). split; [by apply Forall_reverse|done].
      - cbn in Hrun. eexists [], (Ok _), w. split_and!; [by rewrite app_nil_r|done|done|symmetry; exact Hrun|].
        intros u [= <-]. cbn. split_and!; [done|done|]. intros Hm. unfold undoes_all in Hm. rewrite Ex, (co_spec _ _ Hc) in Hm.
        destruct Hm as [Hm|Hm]; rewrite Hm in Em; vm_compute in Em; discriminate Em. }
    exists us. destruct r1 as [u|e]; injection Hr as -> ->; (split; [done|]); apply Hmk; try done. intros res [= <-]. cbn.
    destruct (Hok _ eq_refl) as (H1 & H2 & H3). split_and!; [done|done|done|done|]. intros Hm Hst.
    unfold undoes_all in H3. rewrite Ex, (co_spec _ _ Hc) in H3. apply H3; [done|].
    unfold failure_status in Hst. destruct (str_eqb _ _); [done|]. by destruct (ud_failed u).
  - intros [= <- <-]. exists []. split; [by rewrite app_nil_r|]. apply Hmk; [done|apply prefix_nil|]. intros res [= <-].
    cbn. rewrite Hcomp. split_and!; try done. intros _. by destruct (is_nil _).
Qed.
Lemma execute_calls spec c task digest lease inputs approval w r w' :
  compile spec = Ok c -> CapabilitySpec_post_init spec = Ok spec ->
  execute task digest c lease inputs approval w = (r, w') ->
  exists trace us, log w' = log w ++ calls trace ++ map snd us /\ Called spec c trace us r.
Proof.
  intros Hc%compile_Ok Hb%bounds_parallelism.
  assert (forall e, Called spec c [] [] (Err e)) as Hnone.
  { intros e. split; try done; [constructor|by intros [|? before] t after e' Heq|apply prefix_nil]. }
  unfold CapabilityVm.execute, bind at 1. destruct (admit_execution _ _ _ _ _ _ w) as [[u|e] w1] eqn:Ea;
    apply admission_is_quiet in Ea; apply (f_equal snd) in Ea; change (log w1 = log w) in Ea.
  2:{ intros [= <- <-]. exists [], []. rewrite Ea, app_nil_r. by split. }
  unfold bind at 1. destruct (beside loop_time w1) as [[now|e] w2] eqn:Et; apply quiet_beside in Et.
  2:{ intros [= <- <-]. exists [], []. rewrite Et, Ea, app_nil_r. by split. }
  cbv zeta. rewrite (co_spec _ _ Hc). unfold bind at 1.
  match goal with |- context [run_nodes _ _ _ _ ?x _ _] => set (x0 := x) end.
  assert (0 < cs_max_parallelism (cc_spec (ex_compiled x0)))%Z as Hm by (cbn; by rewrite (co_spec _ _ Hc)).
  assert (Inv x0 (vm_start (map dn_id (cs_nodes spec)))) as Hs by by apply start_Inv.
  assert (Good x0 []) as Hg by (split; try done; [constructor|by intros [|? before] t after e' Heq]).
  destruct (run_nodes _ _ _ _ _ _ w2) as [r3 w3] eqn:Er. pose proof Er as Er'.
  apply (run_nodes_calls invoke loop_time exc_text _ _ _ [] _ _ _ Hm Hs Hg) in Er as (trace & Hl & Hgood & Hok);
    [|split; [done|by intros i ?%elem_of_nil]]. cbn [app] in *. rewrite Et, Ea in Hl.
  destruct r3 as [s|e].
  - intros Hr. assert (Inv x0 s) as Hs'.
    { apply (run_nodes_Ok _ _ _ _ _ _ _ _ _ Hm Hs) in Er' as [? _]; [done|]. cbn. by rewrite length_map. }
    destruct (conclude_calls spec c x0 s trace w3 r w' Hc eq_refl Hgood (Hok _ eq_refl) Hs' Hr) as (us & Hl2 & Hcalled).
    exists trace, us. by rewrite Hl2, Hl, <- app_assoc.
  - intros [= <- <-]. exists trace, []. rewrite Hl, app_nil_r. split; [done|]. destruct Hgood as [A1 A2 A3 A4].
    cbn in A2, A4. rewrite (co_spec _ _ Hc) in A2, A4. split; try done. apply prefix_nil.
Qed.

(** C15. An execution, however it ends, calls its executor for nodes of the recipe only:
    each of them in one go, and only after all the nodes it depends on were performed;
    its action is called once, and again only after a call that raised, if its policy of
    retries allows that, and in all no more often than that says; and then perhaps for
    undoing nodes that were performed.  When it returns, the nodes it reports as
    completed are those whose last call returned, in that order; when it reports no
    error these are all the nodes of the recipe, nothing was undone, and its status says
    whether verifiers were among them. *)
Theorem execution_follows_order spec c task digest lease inputs approval w r w' :
  compile spec = Ok c -> CapabilitySpec_post_init spec = Ok spec ->
  execute task digest c lease inputs approval w = (r, w') ->
  exists trace us, log w' = log w ++ calls trace ++ map snd us /\
    Forall attempts trace /\ Forall (fun t => t.1 ∈ cs_nodes spec) trace /\ NoDup (trace_ids trace) /\
    in_order (cs_edges spec) trace /\ Forall undoes us /\ map fst us `prefix_of` to_undo spec trace /\
    forall res, r = Ok res ->
      xr_completed_nodes res = performed_ids trace /\ ordered_report spec res /\ (xr_error res = None -> us = []).
Proof.
  intros Hc Hb Hx. destruct (execute_calls _ _ _ _ _ _ _ _ _ _ Hc Hb Hx) as (trace & us & Hl & [C1 C2 C3 C4 C5 C6 C7]).
  exists trace, us. split_and!; try done. intros res ->. destruct (C7 _ eq_refl) as (H1 & _ & H2 & _).
  split_and!; [done|by eapply execute_ordered|done].
Qed.

(** C16. When an execution reports a failure that is to be undone, it called, for each node that was
    performed and has a compensation, that compensation once, in the reverse of the order
    the nodes were performed in; it reports as undone those whose call returned.  Where
    everything is to be undone, "rolled_back" says that every node that was performed has
    a compensation and that each of these calls returned, and "failed" that none was
    performed; and what is declared irreversible is not undone and reported as that.  (A
    node whose action raised counts as not performed, and is not undone.) *)
Theorem rollback_is_complete spec c task digest lease inputs approval w res w' :
  compile spec = Ok c -> CapabilitySpec_post_init spec = Ok spec ->
  execute task digest c lease inputs approval w = (Ok res, w') -> xr_error res <> None ->
  exists trace us, log w' = log w ++ calls trace ++ map snd us /\ Forall attempts trace /\ NoDup (trace_ids trace) /\
    xr_completed_nodes res = performed_ids trace /\
    Forall undoes us /\ map fst us = to_undo spec trace /\ xr_compensated_nodes res = undone_ids us /\
    (cs_rollback_mode spec = "full" \/ cs_rollback_mode spec = "compensating" -> xr_status res = "rolled_back" ->
       Forall (fun n => undoable n = true) (performed_nodes trace) /\ Forall (fun u => undone u = true) us) /\
    undone_report spec res.
Proof.
  intros Hc Hb Hx He. destruct (execute_calls _ _ _ _ _ _ _ _ _ _ Hc Hb Hx) as (trace & us & Hl & [C1 C2 C3 C4 C5 C6 C7]).
  destruct (C7 _ eq_refl) as (H1 & H2 & _ & H3 & H4). exists trace, us. split_and!; try done; [by apply H3|by eapply execute_undone].
Qed.
End Theorems.

(** ** Concrete executions *)

#[local] Abbreviation demo_watched last :=
  (execute (H := demo_env) (watched demo_invoke) (beside demo_loop_time) exn_class "t1" "sha256:aa" (demo_compiled last) demo_machine_lease []
     None (demo_leased, ([], []))).
Definition demo_calls (last : string) : list (string * Answer) :=
  map (fun c => (call_ref c, call_answer c)) (demo_watched last).2.2.2.
Example demo_is_watched :
  demo_calls "tool://fail" = [("tool://a", Returned); ("tool://b", Returned); ("tool://fail", Raised);
                              ("tool://undo-b", Returned); ("tool://undo-a", Returned)].
Proof. vm_compute. reflexivity. Qed.

Theorem execution_follows_order_witness :
  exists r w', demo_watched "tool://c" = (Ok r, w') /\ xr_completed_nodes r ≡ₚ ["c"; "a"; "b"] /\ xr_status r = "verified" /\
    exists trace, w'.2.2 = calls trace /\ xr_completed_nodes r = performed_ids trace.
Proof.
  destruct (demo_watched "tool://c") as [[r|e] w'] eqn:E; [|by vm_compute in E]. exists r, w'. split; [done|].
  destruct (execution_follows_order demo_invoke demo_loop_time exn_class (demo_plan "tool://c") _ _ _ _ _ _ _ _ _
    (demo_compiles _ eq_refl) eq_refl E) as (trace & us & Hl & _ & _ & _ & _ & _ & _ & Hres).
  assert (xr_error r = None) as He by (vm_compute in E; by injection E as <- _).
  destruct (Hres _ eq_refl) as (Hc & Ho & Hus). destruct (or_complete _ _ Ho He) as (H1 & _ & H2).
  split; [exact H1|]. split; [exact H2|]. exists trace. rewrite (Hus He), app_nil_r in Hl. by split.
Defined.
Theorem rollback_is_complete_witness :
  exists r w', demo_watched "tool://fail" = (Ok r, w') /\ xr_compensated_nodes r = reverse (xr_completed_nodes r) /\
    exists trace us, w'.2.2 = calls trace ++ map snd us /\ Forall (fun u => undone u = true) us.
Proof.
  destruct (demo_watched "tool://fail") as [[r|e] w'] eqn:E; [|by vm_compute in E]. exists r, w'. split; [done|].
  assert (xr_error r <> None /\ xr_status r = "rolled_back") as [He Hs] by (vm_compute in E; by injection E as <- _).
  destruct (rollback_is_complete demo_invoke demo_loop_time exn_class (demo_plan "tool://fail") _ _ _ _ _ _ _ _ _
    (demo_compiles _ eq_refl) eq_refl E He) as (trace & us & Hl & _ & _ & _ & _ & _ & _ & Hall & Hrep).
  assert (cs_rollback_mode (demo_plan "tool://fail") = "full" \/ cs_rollback_mode (demo_plan "tool://fail") = "compensating")
    as Hm by by left.
  split; [exact (proj1 (ur_all _ _ Hrep Hm) Hs)|]. exists trace, us. split; [exact Hl|exact (proj2 (Hall Hm Hs))].
Defined.
