(* ===== verification/CapabilityTasks.v ===== *)
(** * The tasks of the Capability OS

    Models [cptr/services/capability_os/tasks.py]: a task is a workbench session, a run of
    the factory or a control task of its owner; it may be forked into children. *)

From S2P Require Import Prelude PyStr Json FactoryDomain FactoryGates Database CapabilityLifecycle.
From S2P Require Import FactoryStore FactoryPhases FactoryGit FactoryCapabilities.
From Stdlib Require Import Ascii.

Definition _WORKBENCH_TERMINAL : list string := ["COMPLETE"; "FAILED"; "CANCELLED"; "ARCHIVED"].
Definition _WORKBENCH_WAITING : list string := ["WAITING_APPROVAL"; "REVIEW_REQUIRED"].
Definition _FACTORY_TERMINAL : list string := ["COMPLETE"; "FAILED"; "CANCELLED"; "BLOCKED"].
Definition _FACTORY_WAITING : list string := ["PAUSED"; "APPROVAL_REQUIRED"; "RECOVERING"].
Definition _CONTROL_TERMINAL : list string := ["COMPLETE"; "COMPLETE_WITH_TOOL_ERRORS"; "FAILED"; "CANCELLED"; "REJECTED"].
Definition _CONTROL_WAITING : list string := ["CANCEL_REQUESTED"; "REVIEW_REQUIRED"].

Record CapabilityTaskContext := {
  tc_task_id : string;
  tc_user_id : string;
  tc_workspace_id : option string;
  tc_source : string;
  tc_status : string;
  tc_active : bool;
  tc_execution_allowed : bool;
  tc_label : string;
  tc_updated_at_ms : Z;
}.
(** [x or y] of texts *)
Definition or_text (x y : string) : string := if empty_str x then y else x.

Section Tasks.
Context `{Env}.

(** ** Contexts *)

Definition workbench_context (r : WorkbenchSession) : CapabilityTaskContext :=
  let status := upper (default "" (wb_status r)) in
  let active := negb (is_in status _WORKBENCH_TERMINAL) in {|
  tc_task_id := wb_id r; tc_user_id := wb_user_id r;
  tc_workspace_id := (if has_key (wb_active_workspace_id r) then wb_active_workspace_id r else wb_workspace_id r);
  tc_source := "workbench"; tc_status := status; tc_active := active;
  tc_execution_allowed := active && negb (is_in status _WORKBENCH_WAITING);
  tc_label := or_text (wb_name r) "Workbench session"; tc_updated_at_ms := wb_updated_at r |}.
Definition factory_context (r : FactoryRun) : CapabilityTaskContext :=
  let status := upper (state_value (run_state r)) in
  let active := negb (is_in status _FACTORY_TERMINAL) in {|
  tc_task_id := run_id r; tc_user_id := run_user_id r; tc_workspace_id := Some (run_workspace_id r);
  tc_source := "factory"; tc_status := status; tc_active := active;
  tc_execution_allowed := active && negb (is_in status _FACTORY_WAITING);
  tc_label := or_text (run_mission r) "Factory run"; tc_updated_at_ms := run_updated_at r |}.
Definition control_context (r : ControlTask) : CapabilityTaskContext :=
  let status := upper (default "" (ct_status r)) in
  let active := negb (is_in status _CONTROL_TERMINAL) in {|
  tc_task_id := ct_id r; tc_user_id := ct_user_id r; tc_workspace_id := Some (ct_workspace_id r);
  tc_source := "control"; tc_status := status; tc_active := active;
  tc_execution_allowed := active && negb (is_in status _CONTROL_WAITING);
  tc_label := or_text (ct_prompt r) "Control task"; tc_updated_at_ms := ct_updated_at r |}.
Definition session_visible (user_id : string) (r : WorkbenchSession) : bool :=
  str_eqb (wb_user_id r) user_id && negb (bool_decide (is_Some (wb_deleted_at r))).
(** [resolve], from the tables *)
Definition resolve_task (user_id task_id : string) (d : Db) : option CapabilityTaskContext :=
  match db_workbench d !! task_id with
  | Some r => if session_visible user_id r then Some (workbench_context r) else None
  | None => None
  end ∪ match db_runs d !! task_id with
  | Some r => if str_eqb (run_user_id r) user_id then Some (factory_context r) else None
  | None => None
  end ∪ match db_control_tasks d !! task_id with
  | Some r => if str_eqb (ct_user_id r) user_id then Some (control_context r) else None
  | None => None
  end.
Definition resolve (user_id task_id : string) : M World (option CapabilityTaskContext) :=
  if blank user_id || blank task_id then ret None else query (resolve_task user_id task_id).
Definition require_active (user_id task_id : string) : M World CapabilityTaskContext :=
  let* task := resolve user_id task_id in
  match task with
  | Some t => if tc_active t then ret t else raise (CapabilityTaskNotFound "active Capability OS task not found")
  | None => raise (CapabilityTaskNotFound "active Capability OS task not found")
  end.
Definition require_executable (user_id task_id : string) : M World CapabilityTaskContext :=
  let* task := require_active user_id task_id in
  if negb (tc_execution_allowed task) then
    raise (CapabilityTaskNotExecutable
      ("task " +:+ tc_task_id task +:+ " is " +:+ tc_status task +:+ " and cannot start new side effects"))
  else ret task.

(** ** Recent tasks *)

Definition newest {A} (updated : A -> Z) (limit : Z) (rows : list A) : list A :=
  limit_rows limit (order_by (fun a b => updated b <=? updated a)%Z rows).
Definition later_context (a b : CapabilityTaskContext) : bool :=
  (tc_updated_at_ms b <? tc_updated_at_ms a)%Z
  || (tc_updated_at_ms b =? tc_updated_at_ms a)%Z && bool_decide (String.le (tc_task_id b) (tc_task_id a)).
(** [list_recent] *)
Definition list_recent (user_id : string) (limit : Z) : M World (list CapabilityTaskContext) :=
  let user := strip user_id in
  let bounded := Z.max 1 (Z.min limit 50) in
  if empty_str user then ret []
  else
    let n := Z.min 100 (bounded * 3) in
    query (fun d =>
      let workbenches := newest wb_updated_at n (select (fun r => session_visible user r
        && match wb_status r with Some s => negb (is_in s _WORKBENCH_TERMINAL) | None => false end) (rows_of (db_workbench d))) in
      let factories := newest run_updated_at n (select (fun r => str_eqb (run_user_id r) user
        && negb (is_in (state_value (run_state r)) _FACTORY_TERMINAL)) (rows_of (db_runs d))) in
      let controls := newest ct_updated_at n (select (fun r => str_eqb (ct_user_id r) user
        && match ct_status r with Some s => negb (is_in s _CONTROL_TERMINAL) | None => false end) (rows_of (db_control_tasks d))) in
      let listed := fun (waiting : list string) (c : CapabilityTaskContext) => {|
        tc_task_id := tc_task_id c; tc_user_id := tc_user_id c; tc_workspace_id := tc_workspace_id c;
        tc_source := tc_source c; tc_status := tc_status c; tc_active := true;
        tc_execution_allowed := negb (is_in (tc_status c) waiting); tc_label := tc_label c;
        tc_updated_at_ms := tc_updated_at_ms c |} in
      limit_rows bounded (order_by later_context
        (map (fun r => listed _WORKBENCH_WAITING (workbench_context r)) workbenches
         ++ map (fun r => listed _FACTORY_WAITING (factory_context r)) factories
         ++ map (fun r => listed _CONTROL_WAITING (control_context r)) controls))).

(** ** New tasks *)

(** a row of the table of sessions, with its primary key and its references *)
Definition insert_session (s : WorkbenchSession) : M World WorkbenchSession :=
  let* d := query id in
  let* _ := check (bool_decide (db_workbench d !! wb_id s = None)) "workbench_sessions.id" in
  let* _ := check (bool_decide (wb_user_id s ∈ db_users d)
                   && match wb_workspace_id s with Some i => bool_decide (i ∈ db_workspaces d) | None => true end)
              "FOREIGN KEY" in
  let* _ := write (fun d => set_db_workbench (<[wb_id s := s]> (db_workbench d)) d) in
  ret s.
Definition new_session (i user_id name : string) (workspace_id : option string) (now : Z) : WorkbenchSession := {|
  wb_id := i; wb_user_id := user_id; wb_name := name; wb_workspace_id := workspace_id; wb_active_workspace_id := None;
  wb_status := Some "OPEN"; wb_event_count := 0; wb_created_at := now; wb_updated_at := now; wb_deleted_at := None |}.
(** [bootstrap] *)
Definition bootstrap (user_id : string) : M World CapabilityTaskContext :=
  let owner_id := strip user_id in
  raise_if empty_str owner_id as CapabilityTaskNotFound "Capability OS task owner is required" in
  let* now := _now_ms in
  let* s := transaction (
    let* i := _new_id "wbs" in
    insert_session (new_session i owner_id "Capability OS MCP Session" None now)) in
  ret {| tc_task_id := wb_id s; tc_user_id := wb_user_id s; tc_workspace_id := None; tc_source := "workbench";
         tc_status := "OPEN"; tc_active := true; tc_execution_allowed := true;
         tc_label := or_text (wb_name s) "Capability OS MCP Session";
         tc_updated_at_ms := (if wb_updated_at s =? 0 then now else wb_updated_at s)%Z |}.

(** *** Forking *)

Definition NUL : string := String zero "".
Definition child_id (user_id parent_task_id cohort : string) (index : Z) : string :=
  "wbs_" +:+ str_take 32 (sha256_hex ("cptr.parallel-subagent.v1" +:+ NUL +:+ user_id +:+ NUL +:+ parent_task_id
    +:+ NUL +:+ cohort +:+ NUL +:+ str_of_int index)).
(** the names of children, with numbers of two digits *)
Definition child_name (index : Z) : string :=
  let n := str_of_int (index + 1) in
  "Capability OS Subagent " +:+ (if (len n <? 2)%Z then "0" +:+ n else n).
Definition is_child (parent : CapabilityTaskContext) (name : string) (s : WorkbenchSession) : bool :=
  str_eqb (wb_user_id s) (tc_user_id parent) && opt_eqb (wb_workspace_id s) (tc_workspace_id parent)
  && str_eqb (wb_name s) name && negb (bool_decide (is_Some (wb_deleted_at s))).
Definition identity_conflict {A} : result A :=
  Err (CapabilityTaskNotExecutable "parallel subagent cohort identity conflicts with an existing task").
(** a child that is there, or is to be made under a name and perhaps an identifier *)
Inductive Planned := Existing (s : WorkbenchSession) | Created (i : option string) (name : string).
Definition plan_child (parent : CapabilityTaskContext) (d : Db) (child : Z * option string) : result Planned :=
  let '(index, i) := child in
  match (match i with Some i => db_workbench d !! i | None => None end) with
  | Some s => if is_child parent (child_name index) s then Ok (Existing s) else identity_conflict
  | None => Ok (Created i (child_name index))
  end.
Definition is_created (p : Planned) : bool := match p with Created _ _ => true | Existing _ => false end.
Definition commit_child (parent : CapabilityTaskContext) (now : Z) (p : Planned) : M World WorkbenchSession :=
  match p with
  | Existing s => ret s
  | Created i name =>
      let* i := match i with Some i => ret i | None => _new_id "wbs" end in
      insert_session (new_session i (tc_user_id parent) name (tc_workspace_id parent) now)
  end.
(** the children that somebody else committed first *)
Definition recover_child (parent : CapabilityTaskContext) (d : Db) (e : exn) (child : Z * option string) : result WorkbenchSession :=
  let '(index, i) := child in
  match (match i with Some i => db_workbench d !! i | None => None end) with
  | None => Err e
  | Some s => if is_child parent (child_name index) s then Ok s else identity_conflict
  end.
Definition recover_children (parent : CapabilityTaskContext) (children : list (Z * option string)) (e : exn)
    : M World (list WorkbenchSession) :=
  let* d := query id in
  if negb (forallb (fun c => match c.2 with Some i => bool_decide (is_Some (db_workbench d !! i)) | None => false end) children
           && bool_decide (NoDup (map snd children)))
  then raise e else lift (all_Ok (map (recover_child parent d e) children)).
Definition child_context (now : Z) (s : WorkbenchSession) : CapabilityTaskContext :=
  let status := upper (or_text (default "" (wb_status s)) "OPEN") in
  let active := negb (is_in status _WORKBENCH_TERMINAL) in {|
  tc_task_id := wb_id s; tc_user_id := wb_user_id s; tc_workspace_id := wb_workspace_id s; tc_source := "workbench";
  tc_status := status; tc_active := active; tc_execution_allowed := active && negb (is_in status _WORKBENCH_WAITING);
  tc_label := wb_name s; tc_updated_at_ms := (if wb_updated_at s =? 0 then now else wb_updated_at s)%Z |}.
Definition children_of (parent_user parent_task_id cohort : string) (count : Z) : list (Z * option string) :=
  map (fun n => (Z.of_nat n, if empty_str cohort then None else Some (child_id parent_user parent_task_id cohort (Z.of_nat n))))
    (seq 0 (Z.to_nat count)).
(** [fork_many]; [peer] is what another process commits between the lookup of the
    children and their insertion *)
Definition fork_many (peer : Db -> Db) (user_id parent_task_id : string) (count : Z) (cohort_id : option string)
    : M World (list CapabilityTaskContext) :=
  let* parent := require_executable user_id parent_task_id in
  raise_if negb (str_eqb (tc_source parent) "workbench")
    as CapabilityTaskNotExecutable "parallel subagent fan-out requires a workbench parent task" in
  raise_if (count <? 2)%Z || (10 <? count)%Z as ValueError "parallel subagent count must be between 2 and 10" in
  let cohort := strip (default "" cohort_id) in
  raise_if (200 <? len cohort)%Z as ValueError "parallel subagent cohort_id must be at most 200 characters" in
  let* now := _now_ms in
  let children := children_of (tc_user_id parent) parent_task_id cohort count in
  let* d := query id in
  let* planned := lift (all_Ok (map (plan_child parent d) children)) in
  let* sessions :=
    if existsb is_created planned then
      let* _ := write peer in
      catch (transaction (for_each (commit_child parent now) planned)) is_integrity_error
        (fun e => if empty_str cohort then raise e else recover_children parent children e)
    else for_each (commit_child parent now) planned in
  ret (map (child_context now) sessions).
End Tasks.
