(* ===== verification/CapabilityTasksSpec.v ===== *)
(** * Properties of the tasks of the Capability OS

    A task may start side effects exactly when its authority is not swept away; the
    children of a task belong to its owner and its workspace, and asking again for the
    children of a cohort makes no more of them. *)

From S2P Require Import Prelude PyStr Json FactoryDomain FactoryGates Database CapabilityLifecycle.
From S2P Require Import FactoryStore FactoryPhases FactoryGit FactoryPolicy FactoryCapabilities CapabilityTasks.

Section Facts.
Context `{Env}.

(** ** Authority *)

(** the identifiers of the three kinds of tasks have prefixes of their own *)
Definition one_kind (d : Db) (task : string) : Prop :=
  (is_Some (db_workbench d !! task) -> db_runs d !! task = None /\ db_control_tasks d !! task = None) /\
  (is_Some (db_runs d !! task) -> db_control_tasks d !! task = None).
Definition task_owner (d : Db) (task : string) : option string :=
  (wb_user_id <$> db_workbench d !! task) ∪ (run_user_id <$> db_runs d !! task) ∪ (ct_user_id <$> db_control_tasks d !! task).
Lemma require_executable_spec user task w :
  is_ok (require_executable user task w).1 = true <->
  blank user = false /\ blank task = false /\
  exists c, resolve_task user task (db w) = Some c /\ tc_active c && tc_execution_allowed c = true.
Proof.
  unfold require_executable, require_active, resolve, bind.
  destruct (blank user); [by split; [|intros (? & _)]|]. destruct (blank task); [by split; [|intros (_ & ? & _)]|]. cbn.
  destruct (resolve_task user task (db w)) as [c|]; [|by split; [|intros (_ & _ & ? & ? & _)]].
  transitivity (tc_active c && tc_execution_allowed c = true).
  - destruct (tc_active c) eqn:Ea; [|done]. cbn. by destruct (tc_execution_allowed c).
  - split; [intros Hc; split_and!; [done..|by exists c]|]. by intros (_ & _ & c' & [= <-] & Hc).
Qed.
Lemma is_in_app x l k : is_in x (l ++ k) = is_in x l || is_in x k.
Proof. apply existsb_app. Qed.
#[local] Arguments is_in : simpl never.
#[local] Arguments upper : simpl never.
(** a status that is allowed is none that is swept *)
Lemma allowed_status (status : string) terminal waiting :
  negb (is_in status terminal) && (negb (is_in status terminal) && negb (is_in status waiting)) = true <->
  is_in status (terminal ++ waiting) = false.
Proof. rewrite is_in_app. destruct (is_in status terminal), (is_in status waiting); done. Qed.

(** C31. A task may start side effects exactly when its authority stays: asking for an
    executable task succeeds for its owner, and for nobody else, just when the sweep of
    inactive tasks would leave its leases and mounts alone. *)
Theorem executable_is_authorized user task w :
  one_kind (db w) task ->
  is_ok (require_executable user task w).1 = true <->
  blank user = false /\ blank task = false /\ task_owner (db w) task = Some user /\
  (_task_requires_zero_authority (db w) task).1 = false.
Proof.
  intros [H1 H2]. rewrite require_executable_spec. apply and_iff_compat_l, and_iff_compat_l.
  unfold resolve_task, task_owner, _task_requires_zero_authority, session_visible.
  destruct (db_workbench (db w) !! task) as [s|] eqn:Es.
  - destruct H1 as [-> ->]; [by eexists|]. cbn. destruct (str_eqb (wb_user_id s) user) eqn:Eu; cbn.
    + apply str_eqb_true in Eu as ->. destruct (wb_deleted_at s); cbn; [naive_solver|].
      change _WORKBENCH_ZERO_AUTHORITY with (_WORKBENCH_TERMINAL ++ _WORKBENCH_WAITING). rewrite <- allowed_status.
      split; [intros (c & [= <-] & Hc); done|]. intros [_ Hc]. by eexists.
    + split; [by intros (c & ? & _)|]. intros [[= Hu] _]. apply not_true_iff_false in Eu. destruct Eu. by apply str_eqb_true.
  - cbn. destruct (db_runs (db w) !! task) as [r|] eqn:Er.
    + rewrite H2 by by eexists. cbn. destruct (str_eqb (run_user_id r) user) eqn:Eu; cbn.
      * apply str_eqb_true in Eu as ->. change _FACTORY_ZERO_AUTHORITY with (_FACTORY_TERMINAL ++ _FACTORY_WAITING).
        rewrite <- allowed_status. split; [intros (c & [= <-] & Hc); done|]. intros [_ Hc]. by eexists.
      * split; [by intros (c & ? & _)|]. intros [[= Hu] _]. apply not_true_iff_false in Eu. destruct Eu. by apply str_eqb_true.
    + destruct (db_control_tasks (db w) !! task) as [t|]; cbn; [|naive_solver]. destruct (str_eqb (ct_user_id t) user) eqn:Eu; cbn.
      * apply str_eqb_true in Eu as ->. change _CONTROL_ZERO_AUTHORITY with (_CONTROL_TERMINAL ++ _CONTROL_WAITING).
        rewrite <- allowed_status. split; [intros (c & [= <-] & Hc); done|]. intros [_ Hc]. by eexists.
      * split; [by intros (c & ? & _)|]. intros [[= Hu] _]. apply not_true_iff_false in Eu. destruct Eu. by apply str_eqb_true.
Qed.
(** ** Forking *)

Definition keyed (d : Db) : Prop := map_Forall (fun i s => wb_id s = i) (db_workbench d).
Definition keeps_sessions (d d' : Db) : Prop := db_workbench d ⊆ db_workbench d'.
(** a session that is the child [child] of [parent], on record *)
Definition child_of (parent : CapabilityTaskContext) (d : Db) (child : Z * option string) (s : WorkbenchSession) : Prop :=
  db_workbench d !! wb_id s = Some s /\ is_child parent (child_name child.1) s = true /\
  forall i, child.2 = Some i -> wb_id s = i.
Lemma child_of_grows parent d d' child s : keeps_sessions d d' -> child_of parent d child s -> child_of parent d' child s.
Proof. intros Hd (H1 & H2 & H3). split_and!; [|done|done]. by eapply lookup_weaken. Qed.
(** what a plan says of a child *)
Definition planned_for (parent : CapabilityTaskContext) (d : Db) (child : Z * option string) (p : Planned) : Prop :=
  match p with Existing s => child_of parent d child s | Created i name => i = child.2 /\ name = child_name child.1 end.
Lemma plan_child_Ok parent d child p : keyed d -> plan_child parent d child = Ok p -> planned_for parent d child p.
Proof.
  intros Hk. unfold plan_child. destruct child as [index [i|]]; [|by intros [= <-]].
  destruct (db_workbench d !! i) as [s|] eqn:Es; [|by intros [= <-]]. destruct (is_child _ _ _) eqn:Ec; [|done].
  intros [= <-]. pose proof (Hk _ _ Es) as Hi. split_and!; cbn; [by rewrite Hi|done|]. by intros ? [= <-].
Qed.
Lemma plan_children_Ok parent d children ps :
  keyed d -> all_Ok (map (plan_child parent d) children) = Ok ps -> Forall2 (planned_for parent d) children ps.
Proof.
  intros Hk. revert ps. induction children as [|child children IH]; intros ps; cbn; [by intros [= <-]; constructor|].
  intros (p & Hp%plan_child_Ok & (qs & Hqs & [= <-])%rbind_Ok)%rbind_Ok; [|done]. constructor; [done|by apply IH].
Qed.
Lemma insert_session_Ok s w s' w' : insert_session s w = (Ok s', w') ->
  s' = s /\ db_workbench (db w') = <[wb_id s := s]> (db_workbench (db w)) /\ db_workbench (db w) !! wb_id s = None.
Proof.
  unfold insert_session. intros Hi. ok_inv. split_and!; [done|done|]. by apply bool_decide_eq_true in Hx0.
Qed.
Lemma commit_child_Ok parent now child p w s w' :
  keyed (db w) -> planned_for parent (db w) child p -> commit_child parent now p w = (Ok s, w') ->
  keyed (db w') /\ keeps_sessions (db w) (db w') /\ child_of parent (db w') child s.
Proof.
  intros Hk Hp. destruct p as [s0|i name]; cbn.
  - intros [-> ->]%ret_Ok. split_and!; [done|by unfold keeps_sessions|exact Hp].
  - destruct Hp as [-> ->]. intros (i & w1 & Hi & (-> & Hw & Hfree)%insert_session_Ok)%bind_Ok.
    assert (db w1 = db w /\ forall j, child.2 = Some j -> i = j) as [Hw1 Hid].
    { destruct (child.2); [apply ret_Ok in Hi as [-> ->]; split; [done|by intros ? [= <-]]|]. by apply new_id_Ok in Hi as [_ ->]. }
    rewrite Hw1 in *. unfold child_of. split_and!.
    + unfold keyed. rewrite Hw. by apply map_Forall_insert_2.
    + unfold keeps_sessions. rewrite Hw. by apply insert_subseteq.
    + rewrite Hw. cbn. by rewrite lookup_insert_eq.
    + unfold is_child. cbn. rewrite (proj2 (str_eqb_true _ _) eq_refl), (proj2 (opt_eqb_true _ _) eq_refl).
      by rewrite (proj2 (str_eqb_true _ _) eq_refl).
    + done.
Qed.
Lemma commit_children_Ok parent now children ps : forall w ss w',
  keyed (db w) -> Forall2 (planned_for parent (db w)) children ps -> for_each (commit_child parent now) ps w = (Ok ss, w') ->
  keyed (db w') /\ keeps_sessions (db w) (db w') /\ Forall2 (child_of parent (db w')) children ss.
Proof.
  intros w ss w' Hk HF. revert ss w Hk HF. induction ps as [|p ps IH] in children |- *; intros ss w Hk HF; cbn.
  - apply Forall2_nil_inv_r in HF as ->. intros [-> ->]%ret_Ok. split_and!; [done|by unfold keeps_sessions|constructor].
  - apply Forall2_cons_inv_r in HF as (child & cs & Hp & HF & ->). intros (s & w1 & Hs & (ss' & w2 & Hss & Heq)%bind_Ok)%bind_Ok.
    apply ret_Ok in Heq as [-> ->]. apply (commit_child_Ok _ _ _ _ _ _ _ Hk Hp) in Hs as (Hk1 & Hsub1 & Hc1).
    destruct (IH cs ss' w1 Hk1) as (Hk2 & Hsub2 & Hc2); [|done|].
    + eapply Forall2_impl; [exact HF|]. intros c [s0|i name] Hpl; [by eapply child_of_grows|done].
    + split_and!; [done|unfold keeps_sessions in *; by etransitivity|]. constructor; [by eapply child_of_grows|done].
Qed.
Lemma recover_children_Ok parent children e w ss w' :
  keyed (db w) -> recover_children parent children e w = (Ok ss, w') -> w' = w /\ Forall2 (child_of parent (db w)) children ss.
Proof.
  intros Hk. unfold recover_children. intros (d & w1 & Hq & Hrest)%bind_Ok. apply query_Ok in Hq as [-> ->].
  destruct (negb _); [done|]. apply lift_Ok in Hrest as [Hall ->]. split; [done|]. revert ss Hall.
  induction children as [|[index i] children IH]; intros ss; cbn; [by intros [= <-]; constructor|].
  intros (s & Hs & (ss' & Hss & [= <-])%rbind_Ok)%rbind_Ok. constructor; [|by apply IH].
  destruct i as [i|]; [|done]. destruct (db_workbench (db w) !! i) as [s0|] eqn:Es; [|done].
  destruct (is_child _ _ s0) eqn:Ec; [|done]. injection Hs as <-. pose proof (Hk _ _ Es) as Hi.
  split_and!; cbn; [by rewrite Hi|done|]. by intros ? [= <-].
Qed.
(** what another process may do between the lookup of the children and their insertion *)
Definition fair (peer : Db -> Db) : Prop := forall d, keyed d -> keyed (peer d) /\ keeps_sessions d (peer d).
Lemma fork_many_Ok peer user task count cohort w ctxs w' :
  fair peer -> keyed (db w) -> fork_many peer user task count cohort w = (Ok ctxs, w') ->
  exists parent now ss, require_executable user task w = (Ok parent, w) /\ tc_source parent = "workbench" /\
    (2 <= count <= 10)%Z /\ (len (strip (default "" cohort)) <= 200)%Z /\
    ctxs = map (child_context now) ss /\ keyed (db w') /\ keeps_sessions (db w) (db w') /\
    Forall2 (child_of parent (db w')) (children_of (tc_user_id parent) task (strip (default "" cohort)) count) ss.
Proof.
  intros Hpeer Hk. unfold fork_many. intros (parent & w1 & Hp & Hrest)%bind_Ok.
  assert (w1 = w) as ->.
  { unfold require_executable, require_active, resolve in Hp. apply bind_Ok in Hp as (t & w2 & (t' & w3 & Hq & Ht)%bind_Ok & Hr).
    assert (w3 = w) as -> by (destruct (_ || _); [by apply ret_Ok in Hq as [_ ->]|by apply query_Ok in Hq as [_ ->]]).
    assert (w2 = w) as -> by (destruct t' as [t'|]; [destruct (tc_active t'); [by apply ret_Ok in Ht as [_ ->]|done]|done]).
    destruct (negb _); [done|by apply ret_Ok in Hr as [_ ->]]. }
  destruct (negb (str_eqb (tc_source parent) _)) eqn:Esrc; [done|]. apply negb_false_iff, str_eqb_true in Esrc.
  destruct (_ || _) eqn:Ec; [done|]. apply orb_false_iff in Ec as [Ec1%Z.ltb_ge Ec2%Z.ltb_ge].
  cbv zeta in Hrest. destruct (200 <? _)%Z eqn:El; [done|]. apply Z.ltb_ge in El.
  apply bind_Ok in Hrest as (now & w1 & [_ ->]%now_Ok & Hrest). apply bind_Ok in Hrest as (d & w2 & [-> ->]%query_Ok & Hrest).
  apply bind_Ok in Hrest as (ps & w3 & [Hps ->]%lift_Ok & Hrest). apply bind_Ok in Hrest as (ss & w4 & Hss & [-> ->]%ret_Ok).
  exists parent, now, ss. cbn [db id] in *. apply plan_children_Ok in Hps; [|done].
  assert (keyed (db w4) /\ keeps_sessions (db w) (db w4) /\
    Forall2 (child_of parent (db w4)) (children_of (tc_user_id parent) task (strip (default "" cohort)) count) ss) as (H1 & H2 & H3).
  { destruct (existsb is_created ps).
    - apply bind_Ok in Hss as ([] & w5 & [_ ->]%write_Ok & Hss). destruct (Hpeer _ Hk) as [Hk' Hsub].
      assert (Forall2 (planned_for parent (peer (db w))) (children_of (tc_user_id parent) task (strip (default "" cohort)) count) ps) as Hps'.
      { eapply Forall2_impl; [exact Hps|]. intros c [s|i name] Hpl; [by eapply child_of_grows|done]. }
      unfold catch in Hss. destruct (transaction _ _) as [[ss0|e] w6] eqn:Et.
      + injection Hss as -> ->. apply transaction_Ok in Et. apply commit_children_Ok with (children := children_of (tc_user_id parent) task
          (strip (default "" cohort)) count) in Et as (? & ? & ?); [|done|done]. split_and!; [done| |done].
        unfold keeps_sessions in *. by etransitivity.
      + destruct (is_integrity_error e); [|done]. destruct (empty_str _); [done|]. apply transaction_Err in Et.
        assert (keyed (db w6)) as Hk6 by by rewrite Et. apply recover_children_Ok in Hss as [-> Hss]; [|done]. rewrite Et in *.
        by split_and!.
    - apply commit_children_Ok with (children := children_of (tc_user_id parent) task (strip (default "" cohort)) count) in Hss; done. }
  by split_and!.
Qed.

(** The children of a task are its owner's and stay in its workspace: a fork yields
    as many tasks as were asked for, from two to ten, under the numbered names of
    children; each is a session on record, not deleted, of the owner and the workspace
    of the parent, which was allowed to start side effects; and no session that was on
    record is changed, whatever another process inserts meanwhile. *)
Theorem children_are_contained peer user task count cohort w ctxs w' :
  fair peer -> keyed (db w) -> fork_many peer user task count cohort w = (Ok ctxs, w') ->
  exists parent, require_executable user task w = (Ok parent, w) /\ tc_source parent = "workbench" /\
    Z.of_nat (length ctxs) = count /\ (2 <= count <= 10)%Z /\ db_workbench (db w) ⊆ db_workbench (db w') /\
    forall n c, ctxs !! n = Some c -> tc_user_id c = tc_user_id parent /\ tc_workspace_id c = tc_workspace_id parent /\
      tc_label c = child_name (Z.of_nat n) /\
      exists s, db_workbench (db w') !! tc_task_id c = Some s /\ wb_user_id s = tc_user_id parent /\ wb_deleted_at s = None.
Proof.
  intros Hpeer Hk Hf. destruct (fork_many_Ok _ _ _ _ _ _ _ _ Hpeer Hk Hf) as (parent & now & ss & Hp & Hs & Hc & _ & -> & _ & Hsub & HF).
  exists parent. pose proof (Forall2_length _ _ _ HF) as Hlen. unfold children_of in Hlen. rewrite length_map, length_seq in Hlen.
  split_and!; [done|done|rewrite length_map, <- Hlen; lia|lia|lia|exact Hsub|].
  intros n c Hn. rewrite list_lookup_fmap in Hn. destruct (ss !! n) as [s|] eqn:Es; [|done]. injection Hn as <-. cbn.
  destruct (Forall2_lookup_r _ _ _ _ _ HF Es) as (child & Hchild & Hrow & Hisc & _). unfold children_of in Hchild.
  rewrite list_lookup_fmap in Hchild. destruct (seq _ _ !! n) as [k|] eqn:Ek; [|done]. injection Hchild as <-.
  apply lookup_seq in Ek as [-> _]. unfold is_child in Hisc. rewrite !andb_true_iff in Hisc. destruct Hisc as [[[Hu Hw] Hn] Hd].
  apply str_eqb_true in Hu, Hn. apply opt_eqb_true in Hw. split_and!; [done|done|done|]. exists s. split_and!; [done|done|].
  apply negb_true_iff, bool_decide_eq_false in Hd. destruct (wb_deleted_at s); [by destruct Hd; eexists|done].
Qed.

Lemma children_replan parent d children ss :
  keyed d -> (forall c, c ∈ children -> is_Some c.2) -> Forall2 (child_of parent d) children ss ->
  all_Ok (map (plan_child parent d) children) = Ok (map Existing ss).
Proof.
  intros Hk Hsome. induction 1 as [|[index i] s children ss (Hrow & Hc & Hi) _ IH]; [done|]. cbn.
  destruct (Hsome (index, i)) as [j Hj]; [left|]. cbn in Hj. subst i. cbn [fst] in Hc.
  rewrite <- (Hi j eq_refl), Hrow, Hc. cbn.
  rewrite IH; [done|]. intros c Hin. apply Hsome. by right.
Qed.
Lemma commit_existing parent now ss w : for_each (commit_child parent now) (map Existing ss) w = (Ok ss, w).
Proof. induction ss as [|s ss IH]; [done|]. cbn. unfold bind at 1. cbn. unfold bind. by rewrite IH. Qed.

(** C32. A cohort is made once: forking the same cohort of a parent again, while the rows
    of its children are as they were and the parent, of the same user, workspace and
    source, may still start side effects, yields the same tasks and changes nothing;
    whoever is at work on anything else meanwhile.  (A child that was deleted or moved to
    another workspace is in the way: then the second fork raises,
    [deleted_child_blocks_fork].) *)
Theorem cohort_is_made_once peer peer' user task count cohort w ctxs w' w2 parent2 :
  fair peer -> keyed (db w) -> fork_many peer user task count cohort w = (Ok ctxs, w') ->
  strip (default "" cohort) <> "" ->
  keyed (db w2) -> (forall c, c ∈ ctxs -> db_workbench (db w2) !! tc_task_id c = db_workbench (db w') !! tc_task_id c) ->
  require_executable user task w2 = (Ok parent2, w2) ->
  (forall parent, require_executable user task w = (Ok parent, w) ->
     tc_user_id parent2 = tc_user_id parent /\ tc_workspace_id parent2 = tc_workspace_id parent /\ tc_source parent2 = tc_source parent) ->
  exists ctxs2 w3, fork_many peer' user task count cohort w2 = (Ok ctxs2, w3) /\ db w3 = db w2 /\
    map tc_task_id ctxs2 = map tc_task_id ctxs.
Proof.
  intros Hpeer Hk Hf Hco Hk2 Hsub Hp2 Hsame.
  destruct (fork_many_Ok _ _ _ _ _ _ _ _ Hpeer Hk Hf) as (parent & now & ss & Hp & Hs & Hc & Hl & -> & _ & _ & HF).
  destruct (Hsame _ Hp) as (Eu & Ew & Es). unfold fork_many. unfold bind at 1. rewrite Hp2, Es, Hs. cbn [str_eqb].
  rewrite (proj2 (str_eqb_true "workbench" "workbench") eq_refl). cbn [negb].
  rewrite (proj2 (Z.ltb_ge count 2)), (proj2 (Z.ltb_ge 10 count)) by lia. cbn [orb]. cbv zeta.
  rewrite (proj2 (Z.ltb_ge 200 _) Hl). unfold bind at 1, _now_ms. unfold bind at 1, query, gets. cbn [db id].
  assert (Forall2 (child_of parent2 (db w2)) (children_of (tc_user_id parent2) task (strip (default "" cohort)) count) ss) as HF2.
  { rewrite Eu. assert (forall s, s ∈ ss -> db_workbench (db w2) !! wb_id s = db_workbench (db w') !! wb_id s) as Hrows.
    { intros s Hin. apply (Hsub (child_context now s)). by apply list_elem_of_fmap_2. }
    clear - HF Hrows Eu Ew. induction HF as [|c s cs ss (Hrow & Hisc & Hid) _ IH]; constructor.
    - split_and!; [rewrite Hrows; [done|left]| |done]. unfold is_child in *. by rewrite Eu, Ew.
    - apply IH. intros t Ht. apply Hrows. by right. }
  rewrite (children_replan _ _ _ ss Hk2); [| |exact HF2].
  2:{ intros c Hin. unfold children_of in Hin. apply list_elem_of_fmap in Hin as (n & -> & _). cbn.
      unfold empty_str. rewrite decide_False by done. by eexists. }
  unfold bind at 1, lift. assert (existsb is_created (map Existing ss) = false) as -> by (clear; by induction ss).
  unfold bind. rewrite commit_existing. eexists _, _. split; [done|]. split; [done|]. by rewrite !map_map.
Qed.
End Facts.

(** ** A concrete fork *)

(** digests whose first characters differ *)
Definition task_env : Env := {|
  sha256_hex := str_rev; uuid_hex := @uuid_hex demo_env; clock := @clock demo_env; float_repr := @float_repr demo_env;
  float_int := @float_int demo_env; float_integral := @float_integral demo_env; float_of_int := @float_of_int demo_env;
  float_of_str := @float_of_str demo_env; float_compare := @float_compare demo_env; float_order := @float_order demo_env;
  iso_timestamp_ms := @iso_timestamp_ms demo_env |}.
Definition demo_parent : WorkbenchSession := new_session "wbs_p" "u1" "work" (Some "ws1") 0.
Definition demo_tables : Db := {|
  db_users := {[ "u1" ]}; db_workspaces := {[ "ws1" ]}; db_runs := ∅; db_cycles := ∅; db_events := [];
  db_evidence := []; db_gates := []; db_approvals := ∅; db_intents := ∅; db_ci_runs := ∅; db_assignments := ∅;
  db_leases := ∅; db_mounts := ∅; db_workbench := {[ "wbs_p" := demo_parent ]}; db_control_tasks := ∅ |}.
Definition demo_tasks : World := {| db := demo_tables; ticks := 5; uids := 0 |}.
#[local] Abbreviation demo_fork := (@fork_many task_env id "u1" "wbs_p" 2 (Some "team") demo_tasks).
Lemma id_fair : fair id.
Proof. intros d Hd. split; [done|]. by unfold keeps_sessions. Qed.
Lemma demo_keyed : keyed demo_tables.
Proof. apply map_Forall_singleton. done. Qed.
(** a child of the same cohort that is somebody else's stops the fork *)
Definition foreign_child : Db :=
  let i := @child_id task_env "u1" "wbs_p" "team" 1 in
  set_db_workbench (<[i := new_session i "u2" "Capability OS Subagent 02" (Some "ws1") 0]> (db_workbench demo_tables)) demo_tables.
Example demo_foreign_child :
  (@fork_many task_env id "u1" "wbs_p" 2 (Some "team") {| db := foreign_child; ticks := 5; uids := 0 |}).1
  = Err (CapabilityTaskNotExecutable "parallel subagent cohort identity conflicts with an existing task").
Proof. vm_compute. reflexivity. Qed.

Theorem executable_is_authorized_witness :
  is_ok (require_executable "u1" "wbs_p" demo_tasks).1 = true /\ (_task_requires_zero_authority demo_tables "wbs_p").1 = false.
Proof.
  assert (is_ok (require_executable "u1" "wbs_p" demo_tasks).1 = true) as Hok by (vm_compute; reflexivity). split; [exact Hok|].
  refine (proj2 (proj2 (proj2 (proj1 (executable_is_authorized "u1" "wbs_p" demo_tasks _) Hok)))).
  split; [intros _; split; vm_compute; reflexivity|]. intros [r Hr]. vm_compute in Hr. discriminate Hr.
Defined.
Theorem children_are_contained_witness :
  exists ctxs w', demo_fork = (Ok ctxs, w') /\ Z.of_nat (length ctxs) = 2%Z.
Proof.
  destruct demo_fork as [[ctxs|e] w'] eqn:E; [|by vm_compute in E]. exists ctxs, w'. split; [done|].
  destruct (@children_are_contained task_env id "u1" "wbs_p" 2 (Some "team") demo_tasks ctxs w' id_fair demo_keyed E)
    as (_ & _ & _ & Hl & _). exact Hl.
Defined.
Theorem cohort_is_made_once_witness :
  exists ctxs w', demo_fork = (Ok ctxs, w') /\
    exists ctxs2 w3, @fork_many task_env (fun _ => empty_db) "u1" "wbs_p" 2 (Some "team") w' = (Ok ctxs2, w3) /\
      map tc_task_id ctxs2 = map tc_task_id ctxs.
Proof.
  destruct demo_fork as [[ctxs|e] w'] eqn:E; [|by vm_compute in E]. exists ctxs, w'. split; [done|].
  assert (keyed (db w')) as Hk.
  { destruct (@fork_many_Ok task_env id "u1" "wbs_p" 2 (Some "team") demo_tasks ctxs w' id_fair demo_keyed E)
      as (_ & _ & _ & _ & _ & _ & _ & _ & Hk & _). exact Hk. }
  assert (require_executable "u1" "wbs_p" w' = (Ok (workbench_context demo_parent), w')) as Hp
    by (vm_compute in E; injection E as _ <-; vm_compute; reflexivity).
  destruct (@cohort_is_made_once task_env id (fun _ => empty_db) "u1" "wbs_p" 2 (Some "team") demo_tasks ctxs w' w'
    (workbench_context demo_parent) id_fair demo_keyed E) as (ctxs2 & w3 & H1 & _ & H2).
  - vm_compute. discriminate.
  - exact Hk.
  - reflexivity.
  - exact Hp.
  - intros parent Hpar. assert (parent = workbench_context demo_parent) as -> by (vm_compute in Hpar; injection Hpar as <-; vm_compute; reflexivity).
    done.
  - exists ctxs2, w3. split; [exact H1|exact H2].
Defined.
(** A session keeps its identifier when it is deleted: a cohort with a child that was
    deleted since can not be forked again. *)
Definition deleted (s : WorkbenchSession) : WorkbenchSession := {|
  wb_id := wb_id s; wb_user_id := wb_user_id s; wb_name := wb_name s; wb_workspace_id := wb_workspace_id s;
  wb_active_workspace_id := wb_active_workspace_id s; wb_status := wb_status s; wb_event_count := wb_event_count s;
  wb_created_at := wb_created_at s; wb_updated_at := wb_updated_at s; wb_deleted_at := Some 9%Z |}.
Example deleted_child_blocks_fork :
  let w := demo_fork.2 in
  let child := match demo_fork.1 with Ok (c :: _) => tc_task_id c | _ => "" end in
  let without := set_db (set_db_workbench (alter deleted child (db_workbench (db w)))) w in
  is_ok demo_fork.1 = true /\
  (@fork_many task_env id "u1" "wbs_p" 2 (Some "team") without).1
  = Err (CapabilityTaskNotExecutable "parallel subagent cohort identity conflicts with an existing task").
Proof. vm_compute. split; reflexivity. Qed.
