(* ===== verification/CapabilityForge.v ===== *)
(** * The forge of tools

    Models [cptr/services/capability_os/forge.py], [provenance.py] and [runtime.py]: tools
    are kept as artifacts with their sources in a store that is addressed by content;
    they are built and run by adapters in isolated runtimes under a lease, and promoted
    on evidence.

    The files of the store of contents are a map from the names of files to their texts,
    beside the world [R] of the adapters. *)

From S2P Require Import Prelude PyStr Json FactoryDomain FactoryGates Database CapabilityLifecycle.
From S2P Require Import FactoryStore FactoryPhases FactoryGit FactoryCapabilities.
From S2P Require Import CapabilityContracts CapabilityStore CapabilityAuthority.
From Stdlib Require Import Ascii.

(** ** Runtimes *)

Inductive RuntimeClass := WASM | GVISOR | MICROVM | NAMESPACE_DEV.
Definition runtime_value (c : RuntimeClass) : string :=
  match c with WASM => "wasm" | GVISOR => "gvisor" | MICROVM => "microvm" | NAMESPACE_DEV => "namespace-dev" end.
Definition runtime_of_value (value : string) : result RuntimeClass :=
  match head (select (fun c => str_eqb (runtime_value c) value) [WASM; GVISOR; MICROVM; NAMESPACE_DEV]) with
  | Some c => Ok c
  | None => Err (ValueError (repr value +:+ " is not a valid RuntimeClass"))
  end.
Definition runtime_eqb (c d : RuntimeClass) : bool := str_eqb (runtime_value c) (runtime_value d).
Record RuntimeInventory := {
  runsc : option string;
  wasmtime : option string;
  firecracker : option string;
  bubblewrap : option string;
}.
Definition executable (i : RuntimeInventory) (c : RuntimeClass) : option string :=
  match c with GVISOR => runsc i | WASM => wasmtime i | MICROVM => firecracker i | NAMESPACE_DEV => bubblewrap i end.
Definition available (i : RuntimeInventory) (c : RuntimeClass) : bool := bool_decide (is_Some (executable i c)).
Record RuntimeBroker := { rb_inventory : RuntimeInventory; rb_production : bool }.
(** [RuntimeBroker.require] *)
Definition require (b : RuntimeBroker) (c : RuntimeClass) : result string :=
  if runtime_eqb c NAMESPACE_DEV && rb_production b then
    Err (RuntimeUnavailable "namespace-dev is not an approved production isolation boundary")
  else
    match executable (rb_inventory b) c with
    | Some ((String _ _) as path) => Ok path
    | _ => Err (RuntimeUnavailable ("runtime profile " +:+ runtime_value c +:+ " is unavailable"))
    end.
Definition production_snapshot (b : RuntimeBroker) : dict :=
  let i := rb_inventory b in
  [("production", JBool (rb_production b)); ("wasm", JBool (has_key (wasmtime i))); ("gvisor", JBool (has_key (runsc i)));
   ("microvm", JBool (has_key (firecracker i))); ("namespace_dev", JBool (has_key (bubblewrap i)));
   ("generated_native_ready", JBool (has_key (runsc i) || has_key (firecracker i)))].

(** the files of the store of contents *)
Abbreviation Blobs := (gmap string string).

Section Forge.
Context `{Env}.

(** ** Supply-chain documents *)

Definition SPDX_VERSION : string := "SPDX-2.3".
Definition SPDX_MEDIA_TYPE : string := "application/spdx+json".
Definition SLSA_PREDICATE_TYPE : string := "https://slsa.dev/provenance/v1".
Definition IN_TOTO_STATEMENT_TYPE : string := "https://in-toto.io/Statement/v1".
Definition SLSA_MEDIA_TYPE : string := "application/vnd.in-toto+json".
Definition CPTR_BUILD_TYPE : string := "https://cptr.dev/capability-os/tool-forge/v1".
Definition CPTR_BUILDER_ID : string := "https://cptr.dev/capability-os/tool-forge".

(** the text after [sha256:] *)
Definition after_scheme (digest : string) : string := String.substring 7 (String.length digest - 7) digest.
Definition _sha256_hex (value : string) : result string :=
  let raw := strip value in
  if negb (startswith "sha256:" raw) || negb (len raw =? 71)%Z then Err (ValueError "expected a sha256 digest")
  else Ok (after_scheme raw).
Definition _bounded_text (value field : string) (max_length : Z) : result string :=
  let text := strip value in
  if empty_str text || (max_length <? len text)%Z then Err (ValueError (field +:+ " must be bounded and non-empty"))
  else Ok text.
(** a file of the document, and the relationship to it *)
Definition spdx_file (file : Z * (string * json)) : result (json * json) :=
  let '(index, (path, content)) := file in
  match content with
  | JStr content =>
      let file_id := "SPDXRef-File-" +:+ str_of_int index in
      Ok (JObj [("fileName", JStr path); ("SPDXID", JStr file_id);
            ("checksums", JList [JObj [("algorithm", JStr "SHA256"); ("checksumValue", JStr (sha256_hex content))]]);
            ("licenseConcluded", JStr "NOASSERTION"); ("copyrightText", JStr "NOASSERTION")],
          JObj [("spdxElementId", JStr "SPDXRef-Package"); ("relationshipType", JStr "CONTAINS");
            ("relatedSpdxElement", JStr file_id)])
  | _ => Err (TypeError "SPDX source file content must be text")
  end.
Definition by_key (a b : string * json) : bool := bool_decide (String.le a.1 b.1).
Definition sorted_files (files : dict) : dict := order_by by_key files.
Definition number_from {A} (start : Z) (l : list A) : list (Z * A) := imap (fun n x => (start + Z.of_nat n, x)%Z) l.
(** [build_spdx_23_document] *)
Definition build_spdx_23_document (tool_id version source_digest : string) (files : dict) (created_at : string) : result json :=
  let? tool_id := _bounded_text tool_id "tool_id" 300 in
  let? version := _bounded_text version "version" 200 in
  let? created_at := _bounded_text created_at "created_at" 80 in
  let? source_hex := _sha256_hex source_digest in
  if is_nil files then Err (ValueError "SPDX generation requires source files")
  else
    let? rows := all_Ok (map spdx_file (number_from 1 (sorted_files files))) in
    Ok (JObj [("spdxVersion", JStr SPDX_VERSION); ("dataLicense", JStr "CC0-1.0"); ("SPDXID", JStr "SPDXRef-DOCUMENT");
      ("name", JStr ("cptr-tool-" +:+ tool_id +:+ "-" +:+ version));
      ("documentNamespace", JStr ("urn:cptr:spdx:" +:+ source_hex));
      ("creationInfo", JObj [("created", JStr created_at); ("creators", str_list ["Tool: CPTR Capability OS Tool Forge"])]);
      ("packages", JList [JObj [("name", JStr tool_id); ("SPDXID", JStr "SPDXRef-Package"); ("versionInfo", JStr version);
         ("downloadLocation", JStr "NOASSERTION"); ("filesAnalyzed", JBool true); ("licenseConcluded", JStr "NOASSERTION");
         ("licenseDeclared", JStr "NOASSERTION"); ("copyrightText", JStr "NOASSERTION");
         ("externalRefs", JList [JObj [("referenceCategory", JStr "OTHER"); ("referenceType", JStr "cptr-source-digest");
                                       ("referenceLocator", JStr source_digest)]])]]);
      ("files", JList (map fst rows));
      ("relationships", JList (JObj [("spdxElementId", JStr "SPDXRef-DOCUMENT"); ("relationshipType", JStr "DESCRIBES");
         ("relatedSpdxElement", JStr "SPDXRef-Package")] :: map snd rows))]).

(** what a statement of provenance is about *)
Record BuildFacts := {
  bf_tool_id : string;
  bf_version : string;
  bf_build_id : string;
  bf_source_digest : string;
  bf_artifact_digest : string;
  bf_runtime_class : string;
  bf_entrypoint : string;
  bf_requested_capabilities : list json;
  bf_broker_attestation : dict;
  bf_sbom_digest : string;
}.
(** [build_slsa_v1_statement] *)
Definition build_slsa_v1_statement (f : BuildFacts) : result json :=
  let? tool_id := _bounded_text (bf_tool_id f) "tool_id" 300 in
  let? version := _bounded_text (bf_version f) "version" 200 in
  let? build_id := _bounded_text (bf_build_id f) "build_id" 200 in
  let? runtime_class := _bounded_text (bf_runtime_class f) "runtime_class" 80 in
  let? entrypoint := _bounded_text (bf_entrypoint f) "entrypoint" 1000 in
  let? source_hex := _sha256_hex (bf_source_digest f) in
  let? artifact_hex := _sha256_hex (bf_artifact_digest f) in
  let? sbom_hex := _sha256_hex (bf_sbom_digest f) in
  let? attestation_digest := digest_payload (JObj (bf_broker_attestation f)) in
  let? attestation_hex := _sha256_hex attestation_digest in
  let sha := fun hex => JObj [("sha256", JStr hex)] in
  Ok (JObj [("_type", JStr IN_TOTO_STATEMENT_TYPE);
    ("subject", JList [JObj [("name", JStr (tool_id +:+ "@" +:+ version)); ("digest", sha artifact_hex)]]);
    ("predicateType", JStr SLSA_PREDICATE_TYPE);
    ("predicate", JObj [
      ("buildDefinition", JObj [("buildType", JStr CPTR_BUILD_TYPE);
         ("externalParameters", JObj [("runtimeClass", JStr runtime_class); ("entrypoint", JStr entrypoint);
            ("requestedCapabilities", JList (bf_requested_capabilities f))]);
         ("internalParameters", JObj [("sourceDigest", JStr (bf_source_digest f))]);
         ("resolvedDependencies", JList [JObj [("uri", JStr ("urn:cptr:source:sha256:" +:+ source_hex)); ("digest", sha source_hex)]])]);
      ("runDetails", JObj [("builder", JObj [("id", JStr CPTR_BUILDER_ID)]);
         ("metadata", JObj [("invocationId", JStr build_id)]);
         ("byproducts", JList [JObj [("name", JStr "broker-attestation"); ("digest", sha attestation_hex)];
                               JObj [("name", JStr "spdx-sbom"); ("digest", sha sbom_hex)]])])])]).
(** [supply_chain_reference] *)
Definition supply_chain_reference (kind digest : string) : result json :=
  let? hex := _sha256_hex digest in
  let digest := "sha256:" +:+ hex in
  if str_eqb kind "sbom" then
    Ok (JObj [("format", JStr "spdx-json"); ("specVersion", JStr SPDX_VERSION); ("mediaType", JStr SPDX_MEDIA_TYPE);
              ("digest", JStr digest)])
  else if str_eqb kind "provenance" then
    Ok (JObj [("format", JStr "in-toto-statement"); ("predicateType", JStr SLSA_PREDICATE_TYPE);
              ("mediaType", JStr SLSA_MEDIA_TYPE); ("digest", JStr digest)])
  else Err (ValueError "unsupported supply-chain reference kind").
(** a reference of a kind, whose fields must be as expected *)
Definition check_reference (name version_field : string) (expected : list string) (ref : dict) : result unit :=
  if negb (forallb (fun '(key, value) => py_eq (get key ref) (JStr value)) (combine ["format"; version_field; "mediaType"] expected))
  then Err (ValueError ("invalid " +:+ name +:+ " supply-chain reference"))
  else let? _ := _sha256_hex (str_or_empty (get "digest" ref)) in Ok tt.
Definition reference_of (value : json) : dict := match value with JObj fields => fields | _ => [] end.
(** [validate_supply_chain_references] *)
Definition validate_supply_chain_references (value : json) : result unit :=
  match value with
  | JObj fields =>
      if negb (subset_of (map fst fields) ["sbom"; "provenance"] && subset_of ["sbom"; "provenance"] (map fst fields)) then
        Err (ValueError "build evidence requires SPDX SBOM and SLSA provenance")
      else
        let? _ := check_reference "sbom" "specVersion" ["spdx-json"; SPDX_VERSION; SPDX_MEDIA_TYPE] (reference_of (get "sbom" fields)) in
        check_reference "provenance" "predicateType" ["in-toto-statement"; SLSA_PREDICATE_TYPE; SLSA_MEDIA_TYPE]
          (reference_of (get "provenance" fields))
  | _ => Err (ValueError "build evidence requires supplyChain references")
  end.

(** ** The store of contents *)

Record BlobStore := { blob_root : string; max_bytes : Z }.
(** [digest.split(":", 1)[1]] *)
Definition scheme_rest (digest : string) : result string :=
  match split_on ":"%char digest with
  | _ :: (_ :: _) as parts => Ok (str_join ":" parts)
  | _ => Err (IndexError "list index out of range")
  end.
Definition blob_name (hex : string) : string := hex +:+ ".json".
Definition blob_path (b : BlobStore) (hex : string) : string := blob_root b +:+ "/sha256/" +:+ blob_name hex.
(** [put_json]: a document that is there is not written again *)
Definition put_json (b : BlobStore) (payload : json) : M Blobs (string * string) :=
  let* raw := lift (canonical_json payload) in
  raise_if (max_bytes b <? len raw)%Z as ValueError "content-store document exceeds byte bound" in
  let* digest := lift (digest_payload payload) in
  let* hex := lift (scheme_rest digest) in
  let* _ := modify (fun files => match files !! blob_name hex with
                                 | Some _ => files
                                 | None => <[blob_name hex := raw]> files
                                 end) in
  ret (digest, blob_path b hex).
(** [get_json] *)
Definition get_json (b : BlobStore) (digest : string) : M Blobs json :=
  raise_if negb (startswith "sha256:" digest) as ValueError "invalid content-store digest" in
  let* hex := lift (scheme_rest digest) in
  let* file := gets (fun files : Blobs => files !! blob_name hex) in
  match file with
  | None => raise (OSError "No such file or directory")
  | Some raw =>
      raise_if (max_bytes b <? len raw)%Z as ValueError "stored content-store document exceeds byte bound" in
      match loads raw with
      | None => raise (ValueError "Expecting value")
      | Some parsed =>
          let* actual := lift (digest_payload parsed) in
          if negb (str_eqb actual digest) then raise (ValueError "stored content-store document failed digest verification")
          else ret parsed
      end
  end.
(** the parts of a path, as [PurePosixPath] has them *)
Definition path_parts (path : string) : list string :=
  select (fun part => negb (empty_str part || str_eqb part ".")) (split_on "/"%char path).
(** [_validate_files]: the paths made canonical, in their order *)
Fixpoint normalize_files (files normalized : dict) : result dict :=
  match files with
  | [] => Ok normalized
  | (raw_path, content) :: files =>
      let path := replace_char backslash "/" raw_path in
      let parts := path_parts path in
      if startswith "/" path || is_in ".." parts || is_nil parts then
        Err (ValueError "tool source path must be a safe relative path")
      else
        match content with
        | JStr _ => normalize_files files (dict_set (str_join "/" parts) content normalized)
        | _ => Err (TypeError "tool source content must be UTF-8 text")
        end
  end.
Definition _validate_files (files : dict) : result dict :=
  if is_nil files then Err (ValueError "tool source must contain at least one file")
  else let? normalized := normalize_files files [] in Ok (sorted_files normalized).
Definition put_files (b : BlobStore) (files : dict) : M Blobs (string * string) :=
  let* safe := lift (_validate_files files) in
  put_json b (JObj [("files", JObj safe)]).
Definition get_files (b : BlobStore) (digest : string) : M Blobs dict :=
  let* parsed := get_json b digest in
  match parsed with
  | JObj fields =>
      match get "files" fields with
      | JObj files => ret (map (fun '(key, value) => (key, JStr (py_str value))) files)
      | _ => raise (ValueError "stored tool source failed shape verification")
      end
  | _ => raise (ValueError "stored tool source failed shape verification")
  end.

(** ** Tools *)

Record CreateToolRequest := {
  tr_tool_id : string;
  tr_version : string;
  tr_task_id : string;
  tr_runtime_class : string;
  tr_entrypoint : string;
  tr_files : dict;
  tr_requested_capabilities : list CapabilityRequest;
  tr_user_id : option string;
  tr_input_schema : dict;
  tr_output_schema : dict;
  tr_resources : dict;
  tr_deterministic : json;
  tr_idempotent : json;
  tr_reversibility : string;
}.
Definition CreateToolRequest_post_init (r : CreateToolRequest) : result CreateToolRequest :=
  if blank (tr_tool_id r) || blank (tr_version r) || blank (tr_task_id r) then
    Err (ValueError "tool id, version, and task id must not be blank")
  else
    let? runtime_class := runtime_of_value (tr_runtime_class r) in
    let portable := endswith ".wat" (lower (tr_entrypoint r)) in
    if blank (tr_entrypoint r) then Err (ValueError "tool entrypoint must not be blank")
    else if negb (is_in (tr_entrypoint r) (map fst (tr_files r))) then
      Err (ValueError "tool entrypoint must exist in source files")
    else if runtime_eqb runtime_class WASM && negb portable then
      Err (ValueError "portable WASM tools must use a text .wat entrypoint")
    else if negb (runtime_eqb runtime_class WASM) && portable then
      Err (ValueError ".wat entrypoints require runtimeClass=wasm")
    else if is_nil (tr_requested_capabilities r) then Err (ValueError "tool must declare requested capabilities")
    else if negb (is_in (tr_reversibility r) ["full"; "compensating"; "partial"; "irreversible"; "unknown"]) then
      Err (ValueError "invalid tool reversibility")
    else Ok r.
Record ToolDraft := { td_artifact : CptrArtifact; td_source_digest : string; td_source_uri : string }.
Record ToolBuildResult := {
  tb_build_id : string;
  tb_source_digest : string;
  tb_runtime_class : string;
  tb_artifact_digest : string;
  tb_attestation : dict;
  tb_supply_chain : dict;
}.
Record ToolRunResult := {
  tx_run_id : string;
  tx_source_digest : string;
  tx_runtime_class : string;
  tx_execution_artifact_digest : string;
  tx_output : json;
  tx_attestation : dict;
}.
(** what the specification of a row says, and what a part of it says *)
Definition spec_get (key : string) (row : CapabilityOsArtifact) : result json :=
  match oa_spec row with JObj fields => Ok (get key fields) | _ => Err (AttributeError "get") end.
Definition spec_dict (key : string) (row : CapabilityOsArtifact) : result dict :=
  let? value := spec_get key row in dict_or_empty value.
Definition spec_part (key part : string) (row : CapabilityOsArtifact) : result json :=
  let? value := spec_get key row in get_or_empty part value.
Definition value_of {A} (value_text : A -> string) (all : list A) (name text : string) : result A :=
  match head (select (fun x => str_eqb (value_text x) text) all) with
  | Some x => Ok x
  | None => Err (ValueError (repr text +:+ " is not a valid " +:+ name))
  end.
Definition kind_of_value : string -> result ArtifactKind :=
  value_of kind_value [TOOL; SKILL; CAPABILITY; PLUGIN; MCP_ADAPTER] "ArtifactKind".
Definition owner_of_value : string -> result ArtifactOwner :=
  value_of owner_value [OWNER_CPTR; OWNER_USER; OWNER_GENERATED; OWNER_EXTERNAL] "ArtifactOwner".
Definition origin_of_value : string -> result ArtifactOrigin :=
  value_of origin_value [ORIGIN_CORE; ORIGIN_FORGE; ORIGIN_LEARNED; ORIGIN_PLUGIN; ORIGIN_MCP; ORIGIN_IMPORTED] "ArtifactOrigin".
Definition artifact_state_of_value : string -> result ArtifactState :=
  value_of artifact_state_value [EPHEMERAL; QUALIFIED; LEARNED; CERTIFIED; CORE; RETIRED] "ArtifactState".
(** [_artifact_from_row] *)
Definition _artifact_from_row (row : CapabilityOsArtifact) : result CptrArtifact :=
  let? kind := kind_of_value (oa_kind row) in
  let? owner := owner_of_value (oa_owner row) in
  let? origin := origin_of_value (oa_origin row) in
  let? compatibility := dict_or_empty (oa_compatibility row) in
  let? spec := dict_or_empty (oa_spec row) in
  let? state := artifact_state_of_value (oa_state row) in
  Ok {| ca_api_version := "cptr.io/v1alpha1"; ca_kind := kind;
        ca_metadata := {| am_id := oa_artifact_id row; am_version := oa_version row; am_owner := owner; am_origin := origin;
           am_created_at := oa_created_at row; am_content_digest := oa_content_digest row; am_user_id := oa_user_id row;
           am_parent := oa_parent_ref row; am_task_origin := oa_task_origin row; am_source_digest := oa_source_digest row |};
        ca_compatibility := JObj compatibility; ca_spec := JObj spec; ca_state := state |}.

(** ** The operations of the forge *)

(** what a runner returns *)
Record RunnerResult := { rr_output : json; rr_metadata : json }.

Section Ops.
Context {R : Type}.
Abbreviation ForgeWorld := (OsWorld * (Blobs * R))%type.
(** the store of contents, the runtimes, the time as a text, and the adapters, if there
    are any *)
Context (blobs : BlobStore) (runtime : RuntimeBroker) (_iso_now : M OsWorld string).
Context (builder : option (RuntimeClass -> CapabilityOsArtifact -> CapabilityLease -> M R json)).
Context (runner : option (RuntimeClass -> CapabilityOsArtifact -> CapabilityLease -> dict -> Z -> M R RunnerResult)).

Definition in_store {A} (m : M OsWorld A) : M ForgeWorld A := on_left m.
Definition in_blobs {A} (m : M Blobs A) : M ForgeWorld A := on_right (on_left m).
Definition in_adapter {A} (m : M R A) : M ForgeWorld A := on_right (on_right m).

(** [create] *)
Definition tool_spec (r : CreateToolRequest) (requested : list json) (source_digest source_uri : string) : json :=
  JObj [("inputSchema", JObj (tr_input_schema r)); ("outputSchema", JObj (tr_output_schema r));
    ("runtime", JObj [("class", JStr (tr_runtime_class r)); ("entrypoint", JStr (tr_entrypoint r))]);
    ("requestedCapabilities", JList requested); ("resources", JObj (tr_resources r));
    ("semantics", JObj [("deterministic", tr_deterministic r); ("idempotent", tr_idempotent r);
                        ("reversibility", JStr (tr_reversibility r))]);
    ("retention", JObj [("default", JStr "task")]);
    ("source", JObj [("digest", JStr source_digest); ("uri", JStr source_uri)])].
Definition create (r : CreateToolRequest) (parent : option string) : M ForgeWorld ToolDraft :=
  let* (source_digest, source_uri) := in_blobs (put_files blobs (tr_files r)) in
  let* requested := lift (all_Ok (map request_to_dict (tr_requested_capabilities r))) in
  let* created_at := in_store _iso_now in
  let* artifact := lift (create_artifact {|
    ar_artifact_id := tr_tool_id r; ar_version := tr_version r; ar_kind := TOOL; ar_owner := OWNER_GENERATED;
    ar_origin := ORIGIN_FORGE; ar_spec := tool_spec r requested source_digest source_uri; ar_created_at := created_at;
    ar_compatibility := None; ar_user_id := tr_user_id r; ar_parent := parent; ar_task_origin := Some (tr_task_id r);
    ar_source_digest := Some source_digest; ar_state := EPHEMERAL |}) in
  let* _ := in_store (persist_artifact artifact) in
  ret {| td_artifact := artifact; td_source_digest := source_digest; td_source_uri := source_uri |}.
(** [inspect] *)
Definition inspect (content_digest : string) : M OsWorld CapabilityOsArtifact :=
  let* row := get_artifact content_digest None true in
  match row with
  | Some row => if str_eqb (oa_kind row) "Tool" then ret row else raise (KeyError "tool artifact not found")
  | None => raise (KeyError "tool artifact not found")
  end.
(** the request for a tool like another one *)
Definition request_like (row : CapabilityOsArtifact) (tool_id version : string) (files : dict) : result CreateToolRequest :=
  let? runtime := spec_dict "runtime" row in
  let? items := let? value := spec_get "requestedCapabilities" row in iter_or_empty value in
  let? requested := all_Ok (map request_from_dict items) in
  let? input_schema := spec_dict "inputSchema" row in
  let? output_schema := spec_dict "outputSchema" row in
  let? resources := spec_dict "resources" row in
  let? deterministic := spec_part "semantics" "deterministic" row in
  let? idempotent := spec_part "semantics" "idempotent" row in
  let? reversibility := spec_part "semantics" "reversibility" row in
  let text_or := fun value default => if truthy value then py_str value else default in
  CreateToolRequest_post_init {|
    tr_tool_id := tool_id; tr_version := version;
    tr_task_id := match oa_task_origin row with Some ((String _ _) as t) => t | _ => "unknown-task" end;
    tr_runtime_class := text_or (get "class" runtime) "gvisor"; tr_entrypoint := str_or_empty (get "entrypoint" runtime);
    tr_files := files; tr_requested_capabilities := requested; tr_user_id := oa_user_id row;
    tr_input_schema := input_schema; tr_output_schema := output_schema; tr_resources := resources;
    tr_deterministic := deterministic; tr_idempotent := idempotent; tr_reversibility := text_or reversibility "unknown" |}.
(** [modify] and [fork] *)
Definition modify_tool (content_digest version : string) (files : dict) : M ForgeWorld ToolDraft :=
  let* row := in_store (inspect content_digest) in
  let* parent := lift (_artifact_from_row row) in
  let* request := lift (request_like row (oa_artifact_id row) version files) in
  create request (Some (artifact_identity parent)).
Definition fork_tool (content_digest tool_id version : string) : M ForgeWorld ToolDraft :=
  let* row := in_store (inspect content_digest) in
  let* parent := lift (_artifact_from_row row) in
  let* source := lift (spec_dict "source" row) in
  let* files := in_blobs (get_files blobs (str_or_empty (get "digest" source))) in
  let* request := lift (request_like row tool_id version files) in
  create request (Some (artifact_identity parent)).
(** [get_supply_chain_document] *)
Definition get_supply_chain_document (digest : string) : M Blobs dict :=
  let* document := get_json blobs digest in
  match document with JObj fields => ret fields | _ => raise (ValueError "supply-chain document must be a JSON object") end.

(** *** Building and running *)

Definition runtime_class_of (row : CapabilityOsArtifact) : result RuntimeClass :=
  let? value := spec_part "runtime" "class" row in runtime_of_value (str_or_empty value).
Definition permits (lease : CapabilityLease) (action content_digest : string) : result bool :=
  let? required := CapabilityRequest_new action ("artifact:" +:+ content_digest) [] in
  Ok (existsb (fun allowed => permission_covers allowed required) (cl_permissions lease)).
Definition check_build_lease (row : CapabilityOsArtifact) (class : RuntimeClass) (content_digest : string)
    (lease : option CapabilityLease) : result CapabilityLease :=
  match lease with
  | None => Err (PermissionError "broker-backed Tool Forge build requires an active capability lease")
  | Some lease =>
      if negb (str_eqb (cl_artifact_digest lease) content_digest) then
        Err (PermissionError "Tool Forge build lease belongs to another artifact")
      else if negb (opt_eqb (Some (cl_task_id lease)) (oa_task_origin row)) then
        Err (PermissionError "Tool Forge build lease belongs to another task")
      else if negb (str_eqb (cl_runtime_profile lease) (runtime_value class)) then
        Err (PermissionError "Tool Forge build lease has the wrong runtime profile")
      else
        let? permitted := permits lease "runtime.build" content_digest in
        if permitted then Ok lease else Err (PermissionError "Tool Forge build lease lacks runtime.build permission")
  end.
(** [build] *)
Definition build (content_digest : string) (lease : option CapabilityLease) : M ForgeWorld ToolBuildResult :=
  let* row := in_store (inspect content_digest) in
  let* class := lift (runtime_class_of row) in
  match builder with
  | None =>
      let* _ := lift (require runtime class) in
      raise (RuntimeUnavailable "no isolated Tool Forge builder adapter is configured")
  | Some builder =>
      let* lease := lift (check_build_lease row class content_digest lease) in
      let* built := in_adapter (builder class row lease) in
      match built with
      | JObj built =>
          let artifact_digest := str_or_empty (get "artifact_digest" built) in
          match startswith "sha256:" artifact_digest, get "attestation" built with
          | true, JObj attestation =>
              let* build_id := in_store (os_new_id "build") in
              let source_digest := default "" (oa_source_digest row) in
              let* source_files := in_blobs (get_files blobs source_digest) in
              let* created_at := in_store _iso_now in
              let* sbom := lift (build_spdx_23_document (oa_artifact_id row) (oa_version row) source_digest source_files created_at) in
              let* (sbom_digest, _) := in_blobs (put_json blobs sbom) in
              let* runtime_spec := lift (spec_dict "runtime" row) in
              let* requested := lift (let? value := spec_get "requestedCapabilities" row in iter_or_empty value) in
              let* provenance := lift (build_slsa_v1_statement {|
                bf_tool_id := oa_artifact_id row; bf_version := oa_version row; bf_build_id := build_id;
                bf_source_digest := source_digest; bf_artifact_digest := artifact_digest; bf_runtime_class := runtime_value class;
                bf_entrypoint := str_or_empty (get "entrypoint" runtime_spec); bf_requested_capabilities := requested;
                bf_broker_attestation := attestation; bf_sbom_digest := sbom_digest |}) in
              let* (provenance_digest, _) := in_blobs (put_json blobs provenance) in
              let* sbom_ref := lift (supply_chain_reference "sbom" sbom_digest) in
              let* provenance_ref := lift (supply_chain_reference "provenance" provenance_digest) in
              ret {| tb_build_id := build_id; tb_source_digest := source_digest; tb_runtime_class := runtime_value class;
                     tb_artifact_digest := artifact_digest; tb_attestation := attestation;
                     tb_supply_chain := [("sbom", sbom_ref); ("provenance", provenance_ref)] |}
          | _, _ => raise (ValueError "isolated builder must return artifact digest and attestation")
          end
      | _ => raise (TypeError "isolated builder returned an invalid result")
      end
  end.
Definition EXECUTABLE : list ArtifactState := [QUALIFIED; LEARNED; CERTIFIED; CORE].
Definition state_in (s : ArtifactState) (l : list ArtifactState) : bool :=
  is_in (artifact_state_value s) (map artifact_state_value l).
Definition check_run_lease (row : CapabilityOsArtifact) (class : RuntimeClass) (content_digest : string)
    (lease : option CapabilityLease) : result CapabilityLease :=
  match lease with
  | None => Err (PermissionError "broker-backed Tool execution requires an active capability lease")
  | Some lease =>
      if negb (str_eqb (cl_artifact_digest lease) content_digest) then
        Err (PermissionError "Tool execution lease belongs to another artifact")
      else if match oa_user_id row with
              | Some u => negb (py_eq (get "userId" (cl_execution_context lease)) (JStr u)) | None => false end then
        Err (PermissionError "Tool execution lease belongs to another user")
      else if negb (str_eqb (cl_runtime_profile lease) (runtime_value class)) then
        Err (PermissionError "Tool execution lease has the wrong runtime profile")
      else
        let? permitted := permits lease "runtime.run" content_digest in
        if permitted then Ok lease else Err (PermissionError "Tool execution lease lacks runtime.run permission")
  end.
(** [run] *)
Definition run (content_digest : string) (inputs : dict) (lease : option CapabilityLease) (timeout_ms : option Z)
    : M ForgeWorld ToolRunResult :=
  let* row := in_store (inspect content_digest) in
  let* state := lift (artifact_state_of_value (oa_state row)) in
  raise_if negb (state_in state EXECUTABLE) as PermissionError "generated Tool must be qualified before execution" in
  let* class := lift (runtime_class_of row) in
  match runner with
  | None =>
      let* _ := lift (require runtime class) in
      raise (RuntimeUnavailable "no isolated Tool Forge runner adapter is configured")
  | Some runner =>
      let* lease := lift (check_run_lease row class content_digest lease) in
      let* resources := lift (spec_dict "resources" row) in
      let* requested_timeout := lift (match timeout_ms with
                                      | Some t => Ok t
                                      | None => let wall := get "wallTimeMs" resources in if truthy wall then py_int wall else Ok 0%Z
                                      end) in
      raise_if (requested_timeout <=? 0)%Z as ValueError "Tool execution requires a positive timeout" in
      let* result := in_adapter (runner class row lease inputs requested_timeout) in
      match rr_metadata result with
      | JObj metadata =>
          let execution_digest := str_or_empty (get "executionArtifactDigest" metadata) in
          match startswith "sha256:" execution_digest, get "attestation" metadata with
          | true, JObj attestation =>
              let* run_id := in_store (os_new_id "toolrun") in
              ret {| tx_run_id := run_id; tx_source_digest := default "None" (oa_source_digest row);
                     tx_runtime_class := runtime_value class; tx_execution_artifact_digest := execution_digest;
                     tx_output := rr_output result; tx_attestation := attestation |}
          | _, _ => raise (ValueError "isolated Tool runner must return execution digest and attestation")
          end
      | _ => raise (TypeError "isolated Tool runner returned an invalid result")
      end
  end.
End Ops.

(** *** Promotion *)

(** the states that a state may be promoted to *)
Definition promotions (current : ArtifactState) : list ArtifactState :=
  match current with
  | EPHEMERAL => [QUALIFIED]
  | QUALIFIED => [LEARNED; CERTIFIED]
  | LEARNED => [CERTIFIED]
  | _ => []
  end.
Definition trusted_evidence (row : CapabilityOsArtifact) (content_digest evidence_id : string) : M OsWorld CapabilityOsEvidence :=
  let* found := get_evidence evidence_id in
  match found with
  | None => raise (ValueError "artifact promotion references unknown evidence")
  | Some e =>
      if negb (opt_eqb (oe_artifact_digest e) (Some content_digest)) then
        raise (ValueError "artifact promotion evidence belongs to another artifact")
      else if match oa_task_origin row with Some t => negb (str_eqb (oe_task_id e) t) | None => false end then
        raise (ValueError "artifact promotion evidence belongs to another task")
      else if negb (str_eqb (oe_producer_identity e) "capability-os-control") then
        raise (PermissionError "artifact promotion requires server-produced trusted evidence")
      else ret e
  end.
(** evidence of a build, and of a promotion to a state *)
Definition qualifies (e : CapabilityOsEvidence) : bool :=
  match oe_claims e with
  | JObj claims =>
      str_eqb (oe_kind e) "tool.build" && startswith "sha256:" (str_or_empty (get "buildArtifactDigest" claims))
      && match get "attestation" claims with JObj _ => true | _ => false end
      && is_ok (validate_supply_chain_references (get "supplyChain" claims))
  | _ => false
  end.
Definition promotes (target : ArtifactState) (e : CapabilityOsEvidence) : bool :=
  match oe_claims e with
  | JObj claims =>
      str_eqb (oe_kind e) "evolution.promotion"
      && str_eqb (str_or_empty (get "targetState" claims)) (artifact_state_value target)
      && startswith "cevidence_" (str_or_empty (get "evaluationEvidenceId" claims))
  | _ => false
  end.
(** [persist]; [peer] is what another process commits before the state is set *)
Definition persist (peer : OsWorld -> OsWorld) (content_digest : string) (target : ArtifactState) (evidence_ids : list string)
    : M OsWorld unit :=
  raise_if negb (state_in target [QUALIFIED; LEARNED; CERTIFIED])
    as ValueError "Tool Forge cannot directly promote to requested state" in
  raise_if is_nil evidence_ids as ValueError "artifact promotion requires evidence" in
  let* row := inspect content_digest in
  let* current := lift (artifact_state_of_value (oa_state row)) in
  raise_if negb (state_in target (promotions current)) as ValueError "invalid artifact promotion transition" in
  let* evidence := for_each (trusted_evidence row content_digest) evidence_ids in
  raise_if match target with QUALIFIED => negb (existsb qualifies evidence) | _ => false end
    as ValueError "tool qualification requires trusted build evidence with SPDX/SLSA provenance" in
  raise_if match target with QUALIFIED => false | _ => negb (existsb (promotes target) evidence) end
    as ValueError "learned/certified Tool promotion requires trusted evolution promotion evidence" in
  let* _ := modify peer in
  let* _ := set_artifact_state content_digest (artifact_state_value target) None in
  ret tt.
(** [destroy] *)
Definition destroy (peer : OsWorld -> OsWorld) (content_digest : string) : M OsWorld unit :=
  let* row := inspect content_digest in
  let* state := lift (artifact_state_of_value (oa_state row)) in
  raise_if state_in state [CORE] as ValueError "core artifact cannot be destroyed by Tool Forge" in
  let* _ := modify peer in
  let* now := os_now in
  let* updated := set_artifact_state content_digest "retired" (Some now) in
  if updated then ret tt else raise (KeyError "tool artifact not found").
End Forge.
