(* ===== verification/CapabilityForgeSpec.v ===== *)
(** * Properties of the forge of tools

    A tool is promoted only on trusted evidence and one state at a time, what was built
    can be promoted, and what the store of contents returns for a digest is what was put
    there, or SHA-256 has a collision. *)

From S2P Require Import Prelude PyStr Json FactoryDomain FactoryGates Database CapabilityLifecycle.
From S2P Require Import FactoryStore FactoryHistory FactoryPhases FactoryGit FactoryApprovals FactoryPolicy FactoryCapabilities FactoryCapabilitiesSpec.
From S2P Require Import JsonText CapabilityContracts CapabilityContractsSpec CapabilityStore CapabilityStoreSpec.
From S2P Require Import CapabilityAuthority CapabilityAuthoritySpec CapabilityForge.
From Stdlib Require Import Ascii.

Section Forge.
Context `{Env}.

(** ** Promotion *)

Lemma inspect_Ok digest w row w' :
  inspect digest w = (Ok row, w') -> w' = w /\ os_artifacts w.2 !! digest = Some row /\ oa_kind row = "Tool".
Proof.
  intros (found & w1 & [= Hf <-] & Hr)%bind_Ok. destruct found as [x|]; [|done].
  destruct (str_eqb (oa_kind x) "Tool") eqn:Ek; [|done]. apply ret_Ok in Hr as [-> ->]. apply str_eqb_true in Ek.
  destruct (os_artifacts w.2 !! digest) as [y|]; [|done]. by injection Hf as <-.
Qed.
Lemma inspect_quiet digest w r w' : inspect digest w = (r, w') -> w' = w.
Proof.
  unfold inspect, get_artifact, os_query, gets, bind. destruct (_ ≫= _) as [x|]; [destruct (str_eqb _ _)|]; by intros [= _ <-].
Qed.

(** evidence of this artifact and task that the server itself produced *)
Definition trusted (row : CapabilityOsArtifact) (digest : string) (t : OsTables) (i : string) (e : CapabilityOsEvidence) : Prop :=
  e ∈ os_evidence t /\ oe_evidence_id e = i /\ oe_artifact_digest e = Some digest /\
  (forall task, oa_task_origin row = Some task -> oe_task_id e = task) /\ oe_producer_identity e = "capability-os-control".
Lemma trusted_evidence_Ok row digest i w e w' :
  trusted_evidence row digest i w = (Ok e, w') -> trusted row digest w.2 i e.
Proof.
  intros (found & w1 & [= Hf <-] & Hr)%bind_Ok. destruct found as [x|]; [|done].
  destruct (opt_eqb (oe_artifact_digest x) _) eqn:Ed; [|done].
  destruct (match oa_task_origin row with Some _ => _ | None => _ end) eqn:Et; [done|].
  destruct (str_eqb (oe_producer_identity x) _) eqn:Ep; [|done]. cbn [negb] in Hr. apply ret_Ok in Hr as [-> ->].
  apply str_eqb_true in Ep. apply opt_eqb_true in Ed. apply head_select in Hf as [Hin Hi].
  apply str_eqb_true in Hi. split_and!; try done. intros task Ht. rewrite Ht in Et. by apply negb_false_iff, str_eqb_true in Et.
Qed.
Lemma trusted_evidence_quiet row digest i w r w' : trusted_evidence row digest i w = (r, w') -> w' = w.
Proof.
  unfold trusted_evidence, get_evidence, os_query, gets, bind. destruct (head _) as [x|]; [|by intros [= _ <-]].
  repeat match goal with |- (if ?c then _ else _) _ = _ -> _ => destruct c; [by intros [= _ <-]|] end. by intros [= _ <-].
Qed.
Lemma all_trusted row digest ids : forall w r w',
  for_each (trusted_evidence row digest) ids w = (r, w') ->
  w' = w /\ forall es, r = Ok es -> Forall2 (trusted row digest w.2) ids es.
Proof.
  induction ids as [|i ids IH]; intros w r w'; cbn.
  - intros [= <- <-]. split; [done|]. intros es [= <-]. constructor.
  - unfold bind at 1. destruct (trusted_evidence row digest i w) as [[e|err] w1] eqn:Ee.
    2:{ intros [= <- <-]. split; [by eapply trusted_evidence_quiet|done]. }
    pose proof (trusted_evidence_quiet _ _ _ _ _ _ Ee) as ->. apply trusted_evidence_Ok in Ee.
    unfold bind at 1. destruct (for_each _ ids w) as [[es|err] w2] eqn:Es; apply IH in Es as [-> Hes].
    + intros [= <- <-]. split; [done|]. intros ? [= <-]. constructor; [done|by apply Hes].
    + intros [= <- <-]. by split.
Qed.

(** the tables after the state of a tool was set *)
Definition with_state (digest : string) (state : ArtifactState) (retired : option Z) (w : OsWorld) : OsWorld :=
  (w.1, set_os_artifacts (update_where (fun r => str_eqb (oa_content_digest r) digest)
    (fun r => set_oa_retired_at_ms retired (set_oa_state (artifact_state_value state) r)) (os_artifacts w.2)) w.2).

Lemma with_state_row digest state retired w row :
  os_artifacts w.2 !! digest = Some row -> oa_content_digest row = digest ->
  os_artifacts (with_state digest state retired w).2 !! digest
    = Some (set_oa_retired_at_ms retired (set_oa_state (artifact_state_value state) row)).
Proof.
  intros Hrow Hd. cbn. unfold update_where. rewrite lookup_fmap, Hrow. cbn.
  by rewrite Hd, (proj2 (str_eqb_true _ _) eq_refl).
Qed.
Lemma with_state_others digest state retired w d row :
  os_artifacts w.2 !! d = Some row -> oa_content_digest row <> digest ->
  os_artifacts (with_state digest state retired w).2 !! d = Some row.
Proof.
  intros Hrow Hd. cbn. unfold update_where. rewrite lookup_fmap, Hrow. cbn.
  by rewrite (proj2 (str_eqb_false _ _) Hd).
Qed.

(** C27. Promotion needs evidence: a tool is promoted only if the state in which the forge
    found it leads to the new one (ephemeral, qualified, learned, certified), on evidence
    that is about this artifact, of the task it comes from and produced by the server,
    among it a build with an attestation and valid references to its SBOM and provenance,
    or the promotion to that very state by the evolution.  What is written is the state
    of this artifact, and that it is not retired: where nobody touched the row since it
    was read, it is the row that was read in its new state, and every other artifact
    stays.  (A state that somebody else sets in between is overwritten:
    [promotion_revives].)  If anything is missing, nothing changes. *)
Theorem promotion_needs_evidence peer digest target ids w r w' :
  persist peer digest target ids w = (r, w') ->
  match r with
  | Err _ => w' = w
  | Ok _ => exists row current es, os_artifacts w.2 !! digest = Some row /\ oa_kind row = "Tool" /\
      artifact_state_of_value (oa_state row) = Ok current /\ is_in (artifact_state_value target) (map artifact_state_value (promotions current)) = true /\
      ids <> [] /\ Forall2 (trusted row digest w.2) ids es /\
      (exists e, e ∈ es /\ match target with QUALIFIED => qualifies e | _ => promotes target e end = true) /\
      w' = with_state digest target None (peer w) /\
      (os_artifacts (peer w).2 !! digest = Some row -> oa_content_digest row = digest ->
       os_artifacts w'.2 !! digest = Some (set_oa_retired_at_ms None (set_oa_state (artifact_state_value target) row))) /\
      (forall d other, os_artifacts (peer w).2 !! d = Some other -> oa_content_digest other <> digest ->
       os_artifacts w'.2 !! d = Some other)
  end.
Proof.
  unfold persist. destruct (state_in target [QUALIFIED; LEARNED; CERTIFIED]) eqn:E0; [|by intros [= <- <-]].
  destruct ids as [|i ids]; [by intros [= <- <-]|]. cbn [negb is_nil].
  unfold bind at 1. destruct (inspect digest w) as [[row|err] w1] eqn:Ei; pose proof (inspect_quiet _ _ _ _ Ei) as ->; [|by intros [= <- <-]].
  apply inspect_Ok in Ei as (_ & Hrow & Hkind). unfold bind at 1, lift at 1.
  destruct (artifact_state_of_value (oa_state row)) as [current|err] eqn:Ec; [|by intros [= <- <-]].
  destruct (state_in target (promotions current)) eqn:Ep; [|by intros [= <- <-]]. cbn [negb].
  unfold bind at 1. destruct (for_each _ _ w) as [[es|err] w1] eqn:Ee; apply all_trusted in Ee as [-> Hes]; [|by intros [= <- <-]].
  specialize (Hes _ eq_refl). intros E.
  assert (existsb (fun e => match target with QUALIFIED => qualifies e | _ => promotes target e end) es
    = match target with QUALIFIED => existsb qualifies es | _ => existsb (promotes target) es end) as Hx by by destruct target.
  destruct (match target with QUALIFIED => existsb qualifies es | _ => existsb (promotes target) es end) eqn:Ex.
  - assert (w' = with_state digest target None (peer w) /\ r = Ok tt) as [-> ->].
    { destruct target; first [discriminate E0|rewrite Ex in E; injection E as <- <-; done]. }
    apply existsb_elem in Hx. exists row, current, es.
    split_and!; try done; [by apply with_state_row|intros d other; by apply with_state_others].
  - destruct target; first [discriminate E0|rewrite Ex in E; by injection E as <- <-].
Qed.

(** The core stays: the forge retires a tool only if it is none of the core, and then
    its state is all that changes. *)
Theorem core_is_not_destroyed peer digest w r w' :
  destroy peer digest w = (r, w') ->
  (exists row, os_artifacts w.2 !! digest = Some row /\ oa_kind row = "Tool" /\ oa_state row <> "core" /\
     exists n, w' = with_state digest RETIRED (Some (clock (ticks (peer w).1))) ({| db := db (peer w).1; ticks := n; uids := uids (peer w).1 |}, (peer w).2)) \/
  is_ok r = false /\ w' = w.
Proof.
  unfold destroy. unfold bind at 1.
  destruct (inspect digest w) as [[row|err] w1] eqn:Ei; pose proof (inspect_quiet _ _ _ _ Ei) as ->; [|by intros [= <- <-]; right].
  apply inspect_Ok in Ei as (_ & Hrow & Hkind). unfold bind at 1, lift at 1.
  destruct (artifact_state_of_value (oa_state row)) as [current|err] eqn:Ec; [|by intros [= <- <-]; right].
  destruct (state_in current [CORE]) eqn:Ep; [by intros [= <- <-]; right|]. intros E. left. exists row. split_and!; [done|done| |].
  - intros Hcore. rewrite Hcore in Ec. injection Ec as <-. done.
  - unfold bind, modify, os_now, on_left, _now_ms in E. cbn in E. exists (S (ticks (peer w).1)).
    destruct (negb _) in E; injection E as _ <-; done.
Qed.

(** ** What was built can be promoted *)

Lemma substring_all s : String.substring 0 (String.length s) s = s.
Proof. induction s as [|d s IH]; [done|]. cbn. by rewrite IH. Qed.
Lemma prefix_app p s : startswith p s = true -> p +:+ String.substring (String.length p) (String.length s - String.length p) s = s.
Proof.
  unfold startswith. revert s. induction p as [|c p IH]; intros s; cbn.
  - intros _. rewrite Nat.sub_0_r. apply substring_all.
  - destruct s as [|d s]; [done|]. intros Hp.
    change (match ascii_dec c d with left _ => String.prefix p s | right _ => false end = true) in Hp.
    destruct (ascii_dec c d) as [->|]; [|done]. specialize (IH s Hp). exact (f_equal (String d) IH).
Qed.
Lemma sha256_hex_Ok value hex : _sha256_hex value = Ok hex ->
  strip value = "sha256:" +:+ hex /\ len (strip value) = 71%Z.
Proof.
  unfold _sha256_hex. destruct (startswith "sha256:" (strip value)) eqn:Es; [|done]. destruct (len _ =? 71)%Z eqn:El; [|done].
  intros [= <-]. split; [|by apply Z.eqb_eq]. symmetry. exact (prefix_app "sha256:" _ Es).
Qed.
Lemma sha256_hex_again value hex : _sha256_hex value = Ok hex -> exists hex', _sha256_hex ("sha256:" +:+ hex) = Ok hex'.
Proof.
  intros Hv. pose proof (sha256_hex_Ok _ _ Hv) as [Hs Hl]. exists hex. revert Hv. unfold _sha256_hex. by rewrite <- Hs, strip_idemp.
Qed.
Lemma references_valid sbom provenance sbom_ref provenance_ref :
  supply_chain_reference "sbom" sbom = Ok sbom_ref -> supply_chain_reference "provenance" provenance = Ok provenance_ref ->
  validate_supply_chain_references (JObj [("sbom", sbom_ref); ("provenance", provenance_ref)]) = Ok tt.
Proof.
  intros (h1 & H1 & [= <-])%rbind_Ok (h2 & H2 & [= <-])%rbind_Ok.
  apply sha256_hex_again in H1 as [h1' H1], H2 as [h2' H2].
  assert (forall name version expected ref hex hex', forallb (fun '(key, value) => py_eq (get key ref) (JStr value)) (combine ["format"; version; "mediaType"] expected) = true ->
    get "digest" ref = JStr ("sha256:" +:+ hex) -> _sha256_hex ("sha256:" +:+ hex) = Ok hex' -> check_reference name version expected ref = Ok tt) as Hc.
  { intros name version expected ref hex hex' He Hd Hh. unfold check_reference. rewrite He, Hd, str_or_empty_text, Hh. done. }
  unfold validate_supply_chain_references. cbn [map fst negb].
  change (subset_of ["sbom"; "provenance"] ["sbom"; "provenance"]) with true. cbn [andb negb].
  erewrite Hc; [|reflexivity|reflexivity|exact H1]. cbn [rbind]. by eapply Hc.
Qed.

Section Build.
Context {R : Type}.
Context (blobs : BlobStore) (runtime : RuntimeBroker) (_iso_now : M OsWorld string).
Context (builder : option (RuntimeClass -> CapabilityOsArtifact -> CapabilityLease -> M R json)).
#[local] Abbreviation build := (build blobs runtime _iso_now builder).

(** a lease that lets a build of [digest] run in [class] *)
Definition may_build (digest : string) (row : CapabilityOsArtifact) (class : RuntimeClass) (lease : CapabilityLease) : Prop :=
  cl_artifact_digest lease = digest /\ oa_task_origin row = Some (cl_task_id lease) /\
  cl_runtime_profile lease = runtime_value class /\ permits lease "runtime.build" digest = Ok true.
Lemma check_build_lease_Ok row class digest lease l :
  check_build_lease row class digest lease = Ok l -> lease = Some l /\ may_build digest row class l.
Proof.
  destruct lease as [x|]; [|done]. cbn. destruct (str_eqb (cl_artifact_digest x) digest) eqn:E1; [|done].
  destruct (opt_eqb (Some (cl_task_id x)) (oa_task_origin row)) eqn:E2; [|done].
  destruct (str_eqb (cl_runtime_profile x) _) eqn:E3; [|done]. cbn [negb].
  intros (permitted & Hp & Hx)%rbind_Ok. destruct permitted; [|done]. injection Hx as <-.
  apply str_eqb_true in E1, E3. apply opt_eqb_true in E2. by split_and!.
Qed.
(** what evidence of a build says *)
Definition tells (e : CapabilityOsEvidence) (b : ToolBuildResult) : Prop :=
  oe_kind e = "tool.build" /\ exists claims, oe_claims e = JObj claims /\
    get "buildArtifactDigest" claims = JStr (tb_artifact_digest b) /\ get "attestation" claims = JObj (tb_attestation b) /\
    get "supplyChain" claims = JObj (tb_supply_chain b).

(** C29. What was built can be promoted: a build happens for a registered tool, under a
    lease of its task that permits the build of this artifact in its runtime; and what it
    returns names an artifact by its digest, an attestation, and references to an SBOM
    and a provenance that are well-formed, so evidence that tells of it qualifies the
    tool. *)
Theorem built_tools_qualify digest lease w b w' :
  build digest lease w = (Ok b, w') ->
  exists row class l, os_artifacts w.1.2 !! digest = Some row /\ oa_kind row = "Tool" /\ runtime_class_of row = Ok class /\
    lease = Some l /\ may_build digest row class l /\
    forall e, tells e b -> qualifies e = true.
Proof.
  unfold CapabilityForge.build, in_store, in_blobs, in_adapter. intros (row & w1 & [Hi _]%on_left_Ok & E)%bind_Ok.
  apply inspect_Ok in Hi as (_ & Hrow & Hkind). apply bind_Ok in E as (class & w2 & [Hc ->]%lift_Ok & E).
  destruct builder as [run|]; [|by apply bind_Ok in E as (? & ? & _ & ?)].
  apply bind_Ok in E as (l & w3 & [Hl ->]%lift_Ok & E). apply check_build_lease_Ok in Hl as [-> Hl].
  apply bind_Ok in E as (built & w4 & _ & E). destruct built as [| | | | | |fields]; try done.
  destruct (startswith "sha256:" (str_or_empty (get "artifact_digest" fields))) eqn:Ed; [|done].
  destruct (get "attestation" fields) as [| | | | | |attestation]; try done.
  apply bind_Ok in E as (bid & w5 & _ & E). apply bind_Ok in E as (files & w6 & _ & E).
  apply bind_Ok in E as (at_ & w7 & _ & E). apply bind_Ok in E as (sbom & w8 & _ & E).
  apply bind_Ok in E as ([sbom_digest p1] & w9 & _ & E). apply bind_Ok in E as (spec & w10 & _ & E).
  apply bind_Ok in E as (requested & w11 & _ & E). apply bind_Ok in E as (provenance & w12 & _ & E).
  apply bind_Ok in E as ([provenance_digest p2] & w13 & _ & E).
  apply bind_Ok in E as (r1 & w14 & [H1 _]%lift_Ok & E). apply bind_Ok in E as (r2 & w15 & [H2 _]%lift_Ok & E).
  apply ret_Ok in E as [-> _]. exists row, class, l. split_and!; try done.
  intros e (Hk & claims & He & Ha & Hat & Hs). unfold qualifies. rewrite He, Hk, Ha, Hat, Hs. cbn [tb_artifact_digest tb_supply_chain].
  rewrite str_or_empty_text, Ed, (references_valid _ _ _ _ H1 H2). done.
Qed.
End Build.

(** ** The store of contents *)

Lemma get_json_Ok b digest w v w' : get_json b digest w = (Ok v, w') -> w' = w /\ digest_payload v = Ok digest /\
  exists name raw, w !! name = Some raw /\ loads raw = Some v.
Proof.
  unfold get_json. destruct (startswith "sha256:" digest); [|done]. cbn [negb].
  intros (hex & w1 & [_ ->]%lift_Ok & (file & w2 & [= <- <-] & E)%bind_Ok)%bind_Ok.
  destruct (w !! blob_name hex) as [raw|] eqn:Er; [|done]. destruct (_ <? _)%Z; [done|].
  destruct (loads raw) as [parsed|] eqn:El; [|done]. apply bind_Ok in E as (actual & w3 & [Ha ->]%lift_Ok & E).
  destruct (str_eqb actual digest) eqn:Ed; [|done]. apply str_eqb_true in Ed as ->. apply ret_Ok in E as [-> ->].
  split_and!; [done|done|]. by eexists _, _.
Qed.
Lemma put_json_Ok b v w digest path w' : put_json b v w = (Ok (digest, path), w') -> digest_payload v = Ok digest.
Proof.
  unfold put_json. intros (raw & w1 & [_ ->]%lift_Ok & E)%bind_Ok. destruct (_ <? _)%Z; [done|].
  apply bind_Ok in E as (d & w2 & [Hd ->]%lift_Ok & (hex & w3 & _ & (x & w4 & _ & [[= -> _] _]%ret_Ok)%bind_Ok)%bind_Ok). done.
Qed.
(** files are texts *)
Definition texts (files : dict) : Prop := Forall (fun kv => exists s, kv.2 = JStr s) files.
Lemma dict_set_texts k s d : texts d -> texts (dict_set k (JStr s) d).
Proof.
  unfold texts. rewrite !Forall_forall. intros Hd kv Hin. destruct (dict_set_elem _ _ _ _ Hin) as [Hkv|Hkv]; [by apply Hd|rewrite Hkv; by eexists].
Qed.
Lemma normalize_files_texts files : forall acc d, texts acc -> normalize_files files acc = Ok d -> texts d.
Proof.
  induction files as [|[path content] files IH]; intros acc d Ha; cbn; [by intros [= <-]|].
  destruct (_ || _); [done|]. destruct content; try done. apply IH. by apply dict_set_texts.
Qed.
Lemma texts_norm d : texts d -> map (fun kv => (kv.1, norm kv.2)) d = d.
Proof. induction 1 as [|[k v] d [s Hs] _ IH]; [done|]. cbn in *. by rewrite IH, Hs. Qed.
Lemma texts_proper d : texts d -> forallb (fun kv => proper kv.2) d = true.
Proof. induction 1 as [|[k v] d [s Hs] _ IH]; [done|]. cbn in *. by rewrite Hs. Qed.

(** C28. Sources are kept: what is read for the digest of some files, whatever happened to
    the store meanwhile, is those files, with the canonical names they were put under,
    or SHA-256 has a collision.  (Numbers in the documents of the store are numbers.) *)
Theorem sources_are_kept b files digest path w1 w1' files' w2 w2' :
  put_files b files w1 = (Ok (digest, path), w1') -> get_files b digest w2 = (Ok files', w2') ->
  (forall name raw v, w2 !! name = Some raw -> loads raw = Some v -> proper v = true) ->
  exists safe, _validate_files files = Ok safe /\ (files' ≡ₚ safe \/ collision).
Proof.
  unfold put_files, get_files. intros (safe & w3 & [Hs ->]%lift_Ok & Hput%put_json_Ok)%bind_Ok (v & w4 & Hget & E)%bind_Ok Hfloats.
  exists safe. split; [done|]. apply get_json_Ok in Hget as (-> & Hd & name & raw & Hn & Hl).
  assert (texts safe) as Ht.
  { unfold _validate_files in Hs. destruct (is_nil files); [done|]. apply rbind_Ok in Hs as (d & Hd' & [= <-]).
    apply normalize_files_texts in Hd'; [|constructor]. unfold texts in *. rewrite Forall_forall in Hd'.
    apply Forall_forall. intros kv Hin%order_by_in. by apply Hd'. }
  destruct (digest_inj (JObj [("files", JObj safe)]) v digest) as [HN|]; [| |done|done| |by right].
  { cbn. by rewrite texts_proper. } { by eapply Hfloats. }
  left. destruct v as [| | | | | |fields]; try done. destruct (get "files" fields) as [| | | | | |fs] eqn:Ef; try done.
  apply ret_Ok in E as [-> _].
  pose proof (norm_get [("files", JObj safe)] fields "files" HN) as Hg.
  unfold get in Ef. destruct (dict_get "files" fields) as [x|]; [|done]. cbn in Ef. subst x.
  cbn [dict_get] in Hg. rewrite decide_True in Hg by done. cbn [fmap option_fmap option_map] in Hg.
  assert (NoDup (["files"] : list string)) as Hnd by by repeat constructor; set_solver.
  specialize (Hg Hnd). injection Hg as Hs2. rewrite (texts_norm safe Ht) in Hs2.
  assert (map (fun kv => (kv.1, norm kv.2)) fs ≡ₚ safe) as Hp.
  { rewrite <- (merge_sort_Permutation key_le (map _ fs)), <- Hs2. apply merge_sort_Permutation. }
  assert (texts fs) as Htf.
  { unfold texts in *. rewrite Forall_forall in *. intros kv Hin.
    destruct (Ht (kv.1, norm kv.2)) as [s Hv]; [rewrite <- Hp; apply list_elem_of_fmap; by exists kv|].
    exists s. by apply norm_str. }
  rewrite (texts_norm fs Htf) in Hp. rewrite <- Hp. clear -Htf. induction Htf as [|[k v] fs [s Hv] _ IH]; [done|].
  cbn in *. rewrite Hv. by constructor.
Qed.
End Forge.

(** ** A concrete life of a tool *)

(** digests of 64 characters *)
Definition forge_env : Env := {|
  sha256_hex := fun s => str_take 64 (replace_char " " "_" (str_rev s) +:+ Nat.iter 64 (String "b") ""); uuid_hex := @uuid_hex demo_env;
  clock := @clock demo_env;
  float_repr := @float_repr demo_env; float_int := @float_int demo_env; float_integral := @float_integral demo_env;
  float_of_int := @float_of_int demo_env; float_of_str := @float_of_str demo_env; float_compare := @float_compare demo_env;
  float_order := @float_order demo_env; iso_timestamp_ms := @iso_timestamp_ms demo_env |}.
#[local] Existing Instance forge_env.
#[local] Abbreviation World0 := (OsWorld * (Blobs * unit))%type.
Definition demo_blobs : BlobStore := {| blob_root := "/blobs"; max_bytes := 4096 |}.
Definition demo_runtime : RuntimeBroker := {|
  rb_inventory := {| runsc := Some "/bin/runsc"; wasmtime := None; firecracker := None; bubblewrap := None |}; rb_production := true |}.
Definition demo_iso : M OsWorld string := ret "2026-01-01T00:00:00Z".
Definition demo_files : dict := [("./main.py", JStr "print(3)"); ("lib\add.py", JStr "x = 1")].
Definition demo_create : CreateToolRequest := {|
  tr_tool_id := "adder"; tr_version := "1"; tr_task_id := "t1"; tr_runtime_class := "gvisor"; tr_entrypoint := "./main.py";
  tr_files := demo_files;
  tr_requested_capabilities := [{| cr_action := "tool.run"; cr_resource := "*"; cr_constraints := [] |}];
  tr_user_id := Some "u1"; tr_input_schema := []; tr_output_schema := []; tr_resources := []; tr_deterministic := JNull;
  tr_idempotent := JNull; tr_reversibility := "unknown" |}.
Definition demo_build_lease (digest : string) : CapabilityLease := {|
  cl_lease_id := "l1"; cl_task_id := "t1"; cl_workload_id := "w"; cl_artifact_digest := digest;
  cl_permissions := [{| cr_action := "runtime.build"; cr_resource := "artifact:" +:+ digest; cr_constraints := [] |}];
  cl_resource_limits := []; cl_network := []; cl_credentials := []; cl_approval_id := None; cl_parent_lease_id := None;
  cl_policy_decision_id := "p"; cl_runtime_profile := "gvisor"; cl_issued_at_ms := 0; cl_expires_at_ms := 50;
  cl_status := "active"; cl_execution_context := [] |}.
Definition demo_builder (class : RuntimeClass) (row : CapabilityOsArtifact) (lease : CapabilityLease) : M unit json :=
  ret (JObj [("artifact_digest", JStr ("sha256:" +:+ Nat.iter 64 (String "e") "")); ("attestation", JObj [("runtime", JStr "runsc")])]).
Definition demo_start : World0 := (({| db := empty_db; ticks := 0; uids := 0 |}, empty_os), (∅, tt)).
#[local] Abbreviation build_of digest := (build demo_blobs demo_runtime demo_iso (Some demo_builder) digest (Some (demo_build_lease digest))).
(** a tool is made and built, and evidence of it is recorded *)
Definition demo_made : result CptrArtifact * World0 :=
  (let* draft := create demo_blobs demo_iso demo_create None in ret (td_artifact draft)) demo_start.
Definition demo_digest : string :=
  match demo_made.1 with Ok a => am_content_digest (ca_metadata a) | Err _ => "" end.
Definition demo_build_claim (b : ToolBuildResult) : EvidenceClaim := {|
  ev_task_id := "t1"; ev_kind := "tool.build"; ev_producer_identity := "capability-os-control";
  ev_claims := [("toolId", JStr "adder"); ("buildArtifactDigest", JStr (tb_artifact_digest b));
    ("attestation", JObj (tb_attestation b)); ("supplyChain", JObj (tb_supply_chain b))];
  ev_run_id := Some (tb_build_id b); ev_blob_uri := None; ev_artifact_digest := Some demo_digest; ev_lease_id := None |}.
Definition demo_built : result string * World0 :=
  (let* b := build_of demo_digest in let* e := on_left (record (demo_build_claim b)) in ret (oe_evidence_id e)) demo_made.2.
Definition demo_evidence_id : string := match demo_built.1 with Ok i => i | Err _ => "" end.
#[local] Abbreviation demo_persist peer := (persist peer demo_digest QUALIFIED [demo_evidence_id] demo_built.2.1).
Definition state_of (w : OsWorld) : option (string * option Z) :=
  (fun r => (oa_state r, oa_retired_at_ms r)) <$> os_artifacts w.2 !! demo_digest.
Example demo_qualified :
  state_of demo_built.2.1 = Some ("ephemeral", None) /\ (demo_persist id).1 = Ok tt /\ state_of (demo_persist id).2 = Some ("qualified", None).
Proof. vm_compute. repeat split. Qed.
(** The state is set without comparing it: a tool that is retired between the checks and
    the write is there again. *)
Example promotion_revives :
  let retire := with_state demo_digest RETIRED (Some 9%Z) in
  state_of (retire demo_built.2.1) = Some ("retired", Some 9%Z) /\ state_of (demo_persist retire).2 = Some ("qualified", None).
Proof. vm_compute. repeat split. Qed.

(** The entry point of a request is looked for among the names as they were given, the
    files are kept under their canonical names: a tool whose entry point is not canonical
    can be made and built, but not forked. *)
Example fork_needs_canonical_entrypoint :
  is_ok demo_made.1 = true /\
  (fork_tool demo_blobs demo_iso demo_digest "adder2" "1" demo_made.2).1 = Err (ValueError "tool entrypoint must exist in source files").
Proof. vm_compute. repeat split. Qed.

Lemma ran {W A} (m : result A * W) : is_ok m.1 = true -> exists a w, m = (Ok a, w).
Proof. destruct m as [[a|e] w]; [by exists a, w|done]. Qed.

Theorem promotion_needs_evidence_witness :
  exists w', demo_persist id = (Ok tt, w') /\
    exists row es, os_artifacts demo_built.2.1.2 !! demo_digest = Some row /\ Forall2 (trusted row demo_digest demo_built.2.1.2) [demo_evidence_id] es.
Proof.
  destruct (ran (demo_persist id)) as ([] & w' & E); [vm_compute; reflexivity|]. exists w'. split; [exact E|]. destruct (promotion_needs_evidence id demo_digest QUALIFIED [demo_evidence_id] demo_built.2.1 (Ok tt) w' E)
    as (row & current & es & Hrow & _ & _ & _ & _ & Hes & _). exists row, es. exact (conj Hrow Hes).
Defined.
Theorem built_tools_qualify_witness :
  exists b w', build_of demo_digest demo_made.2 = (Ok b, w') /\ exists row, os_artifacts demo_made.2.1.2 !! demo_digest = Some row.
Proof.
  destruct (ran (build_of demo_digest demo_made.2)) as (b & w' & E); [vm_compute; reflexivity|]. exists b, w'. split; [exact E|].
  destruct (built_tools_qualify demo_blobs demo_runtime demo_iso (Some demo_builder) demo_digest _ _ b w' E) as (row & _ & _ & Hrow & _).
  exists row. exact Hrow.
Defined.
#[local] Abbreviation demo_put := (put_files demo_blobs demo_files ∅).
(** the document of the files, and the files as they are read again *)
Definition demo_document : json := JObj [("files", JObj (match _validate_files demo_files with Ok d => d | Err _ => [] end))].
Definition demo_stored : Blobs := {[ blob_name (sha256_hex (dumps true false demo_document)) := dumps true false demo_document ]}.
Lemma demo_put_stores : demo_put.2 = demo_stored.
Proof. vm_compute. reflexivity. Qed.
Example demo_files_are_read :
  match demo_put.1 with Ok (digest, _) => (get_files demo_blobs digest demo_stored).1 | Err e => Err e end
  = Ok [("lib/add.py", JStr "x = 1"); ("main.py", JStr "print(3)")].
Proof. vm_compute. reflexivity. Qed.
Theorem sources_are_kept_witness :
  exists digest path files', demo_put = (Ok (digest, path), demo_stored) /\ get_files demo_blobs digest demo_stored = (Ok files', demo_stored) /\
    exists safe, _validate_files demo_files = Ok safe /\ (files' ≡ₚ safe \/ collision).
Proof.
  destruct (ran demo_put) as ([digest path] & w1 & E); [vm_compute; reflexivity|].
  assert (w1 = demo_stored) as -> by (rewrite <- demo_put_stores, E; reflexivity).
  pose proof demo_files_are_read as Hread. rewrite E in Hread. cbn [fst] in Hread.
  destruct (get_files demo_blobs digest demo_stored) as [[files'|e] w2] eqn:E2; [|discriminate Hread].
  assert (w2 = demo_stored) as ->.
  { unfold get_files in E2. apply bind_Ok in E2 as (v & w3 & [-> _]%get_json_Ok & Hr).
    destruct v as [| | | | | |fields]; try discriminate Hr. destruct (get "files" fields) as [| | | | | |fs]; try discriminate Hr.
    by injection Hr as _ <-. }
  exists digest, path, files'. split; [exact E|]. split; [exact E2|].
  apply (sources_are_kept demo_blobs demo_files digest path ∅ demo_stored files' demo_stored demo_stored E E2).
  intros name raw v Hn Hl. unfold demo_stored in Hn. apply lookup_singleton_Some in Hn as [_ <-].
  assert (proper <$> loads (dumps true false demo_document) = Some true) as Hp by (vm_compute; reflexivity).
  rewrite Hl in Hp. by injection Hp.
Defined.
