(* ===== verification/CapabilityExecutor.v ===== *)
(** * The executor of generated tools

    Models [cptr/services/capability_os/generated_executor.py]: an action of a recipe that
    refers to a generated tool by its digest is run by the forge under a lease of its own,
    which covers that one run and is revoked after it; any other action goes to the
    executor of the server. *)

From S2P Require Import Prelude PyStr Json FactoryDomain FactoryGates Database CapabilityLifecycle.
From S2P Require Import FactoryStore FactoryPhases FactoryGit FactoryCapabilities.
From S2P Require Import CapabilityContracts CapabilityStore CapabilityAuthority CapabilityCompiler.
From S2P Require Import CapabilityVm CapabilityForge.
From Stdlib Require Import Ascii.

Definition is_hex (c : ascii) : bool :=
  existsb (Ascii.eqb c) ["0"; "1"; "2"; "3"; "4"; "5"; "6"; "7"; "8"; "9"; "a"; "b"; "c"; "d"; "e"; "f"]%char.
Definition _EXECUTABLE_STATES : list string := map artifact_state_value [QUALIFIED; LEARNED; CERTIFIED; CORE].
Definition TOOL_SCHEME : string := "tool://".
Definition digest_of_ref (text : string) : string := String.substring 7 (String.length text - 7) text.
(** [_TOOL_REF_RE.fullmatch], of the text after the scheme *)
Definition is_tool_digest (digest : string) : bool :=
  startswith "sha256:" digest && (String.length digest =? 71)%nat && all_chars is_hex (after_scheme digest).
(** [_parse] *)
Definition _parse (action_ref : string) : result (option string) :=
  if negb (startswith TOOL_SCHEME action_ref) then Ok None
  else if is_tool_digest (digest_of_ref action_ref) then Ok (Some (digest_of_ref action_ref))
  else Err (PermissionError "invalid generated Tool action reference").
Section Executor.
Context `{Env} {R : Type}.

(** [_task_context] *)
Definition context_text (key : string) (context : dict) : string := strip (str_or_empty (get key context)).
Definition _task_context (lease : CapabilityLease) : result TaskScope :=
  let context := cl_execution_context lease in
  let user_id := context_text "userId" context in
  let workspace_id := context_text "workspaceId" context in
  let source := context_text "taskSource" context in
  if empty_str user_id || empty_str workspace_id || empty_str source then
    denied "generated Tool execution requires server-bound task context"
  else Ok {| ts_user_id := user_id; ts_workspace_id := Some workspace_id; ts_source := source |}.

Abbreviation ForgeWorld := (OsWorld * (Blobs * R))%type.
(** the executor of the server, the verifier of approvals, the provider of standing
    policies, the runtimes and their runner *)
Context (base : string -> string -> dict -> CapabilityLease -> Z -> M ForgeWorld (option ActionResult)).
Context (approval_verifier : option (string -> LeaseRequest -> list CapabilityRequest -> M OsWorld json)).
Context (policy_provider : TaskScope -> string -> string -> M OsWorld (option TaskAuthorityPolicy)).
Context (runtime : RuntimeBroker).
Context (runner : option (RuntimeClass -> CapabilityOsArtifact -> CapabilityLease -> dict -> Z -> M R RunnerResult)).

#[local] Abbreviation in_store := (@on_left OsWorld (Blobs * R) _).

(** the use of the lease of the machine that an action is *)
Definition tool_use (lease : CapabilityLease) (required : CapabilityRequest) : LeaseUse := {|
  lu_task_id := cl_task_id lease; lu_artifact_digest := cl_artifact_digest lease;
  lu_required_permissions := [required]; lu_runtime_profile := Some "cptr-vm"; lu_resource_limits := [];
  lu_network_destinations := []; lu_credential_names := []; lu_execution_context := [] |}.
(** the tool that an action means: it is there, qualified, and of the version asked for *)
Definition executable_tool (digest version : string) (task : TaskScope) : M OsWorld CapabilityOsArtifact :=
  let* row := get_artifact digest (Some (ts_user_id task)) true in
  match row with
  | None => raise (KeyError "generated Tool artifact not found")
  | Some row =>
      if negb (str_eqb (oa_kind row) (kind_value TOOL)) then raise (KeyError "generated Tool artifact not found")
      else if negb (is_in (oa_state row) _EXECUTABLE_STATES) then
        raise (PermissionError "generated Tool is not qualified for execution")
      else if negb (str_eqb version (oa_version row)) then
        raise (PermissionError "generated Tool action version does not match artifact version")
      else ret row
  end.
(** the lease that is asked for a run *)
Definition run_request (vm_lease : CapabilityLease) (row : CapabilityOsArtifact) (digest runtime_profile : string)
    (resources : dict) (policy : TaskAuthorityPolicy) (timeout_ms : Z) : result LeaseRequest :=
  let? permission := CapabilityRequest_new "runtime.run" ("artifact:" +:+ digest) [] in
  LeaseRequest_post_init {|
    lr_task_id := cl_task_id vm_lease; lr_workload_id := "tool-run:" +:+ oa_artifact_id row; lr_artifact_digest := digest;
    lr_permissions := [permission]; lr_runtime_profile := runtime_profile;
    lr_requested_lease_ms := Z.min (tp_max_lease_ms policy) (Z.max 100 timeout_ms + 5000);
    lr_parent_lease_id := Some (cl_lease_id vm_lease); lr_resource_limits := resources;
    lr_network_destinations := []; lr_credential_names := []; lr_execution_context := cl_execution_context vm_lease |}.
(** everything before the run: the lease of the machine, the tool, and a lease for the run *)
Definition admit_run (digest version : string) (lease : CapabilityLease) (timeout_ms : Z)
    : M OsWorld (CapabilityLease * CapabilityOsArtifact * CapabilityLease) :=
  let* required := lift (CapabilityRequest_new "tool.invoke" ("artifact:" +:+ digest) []) in
  let* active_vm := require_active (cl_lease_id lease) (tool_use lease required) in
  let* task := lift (_task_context active_vm) in
  let* row := executable_tool digest version task in
  let* runtime_spec := lift (spec_dict "runtime" row) in
  let runtime_profile := context_text "class" runtime_spec in
  let* resources := lift (spec_dict "resources" row) in
  raise_if empty_str runtime_profile as PermissionError "generated Tool runtime profile is missing" in
  let* policy := policy_provider task digest ("tool-run:" +:+ oa_artifact_id row) in
  match policy with
  | None => deny "no standing authority policy covers generated Tool execution"
  | Some policy =>
      if negb (str_eqb (tp_outbound_network policy) "deny") then
        deny "generated Tool execution requires network-denied isolation policy"
      else
        let* request := lift (run_request active_vm row digest runtime_profile resources policy timeout_ms) in
        let* runtime_lease := issue approval_verifier request policy None true in
        ret (active_vm, row, runtime_lease)
  end.
(** evidence of a run, under its lease *)
Definition run_claim (vm_lease runtime_lease : CapabilityLease) (digest kind : string) (rid : option string)
    (claims : dict) : EvidenceClaim := {|
  ev_task_id := cl_task_id vm_lease; ev_kind := kind; ev_producer_identity := "capability-os-control"; ev_claims := claims;
  ev_run_id := rid; ev_blob_uri := None; ev_artifact_digest := Some digest; ev_lease_id := Some (cl_lease_id runtime_lease) |}.
(** the run, and the digest of what it put out; a failure is recorded *)
Definition perform_run (digest : string) (inputs : dict) (timeout_ms : Z) (vm_lease : CapabilityLease)
    (row : CapabilityOsArtifact) (runtime_lease : CapabilityLease) : M ForgeWorld (ToolRunResult * string) :=
  catch (
    let* result := run runtime runner digest inputs (Some runtime_lease) (Some timeout_ms) in
    let* output_digest := lift (digest_payload (tx_output result)) in
    ret (result, output_digest))
  (fun _ => true)
  (fun e =>
     let* _ := in_store (record (run_claim vm_lease runtime_lease digest "tool.run.failure" None
       [("toolId", JStr (oa_artifact_id row)); ("errorType", JStr (exn_class e))])) in
     raise e).
Definition tool_result (digest output_digest evidence_id : string) (result : ToolRunResult) : ActionResult := {|
  res_output := tx_output result; res_verification_passed := Some true;
  res_metadata := [("toolDigest", JStr digest); ("sourceDigest", JStr (tx_source_digest result));
    ("executionArtifactDigest", JStr (tx_execution_artifact_digest result)); ("runtimeClass", JStr (tx_runtime_class result));
    ("attestation", JObj (tx_attestation result)); ("toolRunEvidenceId", JStr evidence_id);
    ("outputDigest", JStr output_digest); ("evidenceOutputPolicy", JStr "digest-only")] |}.
Definition run_tool (digest : string) (inputs : dict) (timeout_ms : Z) (vm_lease : CapabilityLease)
    (row : CapabilityOsArtifact) (runtime_lease : CapabilityLease) : M ForgeWorld ActionResult :=
  let* (result, output_digest) := perform_run digest inputs timeout_ms vm_lease row runtime_lease in
  let* evidence := in_store (record (run_claim vm_lease runtime_lease digest "tool.run" (Some (tx_run_id result))
    [("toolId", JStr (oa_artifact_id row)); ("sourceDigest", JStr (tx_source_digest result));
     ("executionArtifactDigest", JStr (tx_execution_artifact_digest result)); ("runtimeClass", JStr (tx_runtime_class result));
     ("attestation", JObj (tx_attestation result)); ("outputDigest", JStr output_digest)])) in
  ret (tool_result digest output_digest (oe_evidence_id evidence) result).
(** [ProjectedGeneratedToolExecutor.invoke] *)
Definition invoke (action_ref version : string) (inputs : dict) (lease : CapabilityLease) (timeout_ms : Z)
    : M ForgeWorld (option ActionResult) :=
  let* digest := lift (_parse action_ref) in
  match digest with
  | None => base action_ref version inputs lease timeout_ms
  | Some digest =>
      raise_if (timeout_ms <=? 0)%Z as ValueError "generated Tool timeout must be positive" in
      let* (vm_lease, row, runtime_lease) := in_store (admit_run digest version lease timeout_ms) in
      finally (let* result := run_tool digest inputs timeout_ms vm_lease row runtime_lease in ret (Some result))
        (let* _ := in_store (revoke (cl_lease_id runtime_lease)) in ret tt)
  end.
End Executor.
