(* ===== verification/CapabilityExecutorSpec.v ===== *)
(** * Properties of the executor of generated tools

    A tool is run only under authority, and the authority of a run ends with it: neither
    an action nor a whole recipe leaves a lease behind. *)

From S2P Require Import Prelude PyStr Json FactoryDomain FactoryGates Database CapabilityLifecycle.
From S2P Require Import FactoryStore FactoryHistory FactoryStoreFacts FactoryFrames FactoryPhases FactoryGit FactoryCapabilities.
From S2P Require Import CapabilityContracts CapabilityContractsSpec CapabilityStore CapabilityStoreSpec.
From S2P Require Import CapabilityAuthority CapabilityAuthoritySpec CapabilityCompiler CapabilityVm CapabilityVmSpec CapabilityForge CapabilityForgeSpec CapabilityExecutor.
From Stdlib Require Import Ascii.

(** ** What the tables of the factory keep *)

Section Keep.
Context (I : Db -> Prop).

Lemma pkeeps_gets {R A} (f : World * R -> A) : pkeeps I (gets f).
Proof. intros s Hs. exact Hs. Qed.
Lemma pkeeps_os_write f : pkeeps I (os_write f).
Proof. intros s Hs. exact Hs. Qed.
Lemma pkeeps_os_check b c : pkeeps I (os_check b c).
Proof. intros s Hs. by destruct b. Qed.
Lemma pkeeps_os_block {A} (m : M OsWorld A) : pkeeps I m -> pkeeps I (os_transaction m).
Proof. intros Hm s Hs. specialize (Hm s Hs). unfold os_transaction. by destruct (m s) as [[a|e] s']. Qed.

(** and with the world of an executor beside them *)
Context {R : Type}.
Definition vkeeps {A} (m : M (OsWorld * R) A) : Prop := forall s, I (db s.1.1) -> I (db (m s).2.1.1).

Lemma vkeeps_left {A} (m : M OsWorld A) : pkeeps I m -> vkeeps (on_left m).
Proof. intros Hm [w r] Hs. specialize (Hm w Hs). unfold on_left. cbn in *. by destruct (m w). Qed.
Lemma vkeeps_right {A} (m : M R A) : vkeeps (on_right m).
Proof. intros [w r] Hs. unfold on_right. cbn in *. by destruct (m r). Qed.
Lemma vkeeps_bind {A B} (m : M (OsWorld * R) A) (k : A -> M (OsWorld * R) B) :
  vkeeps m -> (forall a, vkeeps (k a)) -> vkeeps (bind m k).
Proof. intros Hm Hk s Hs. specialize (Hm s Hs). unfold bind. destruct (m s) as [[a|e] s1]; [by apply Hk|done]. Qed.
Lemma vkeeps_ret {A} (a : A) : vkeeps (ret a).
Proof. by intros s. Qed.
Lemma vkeeps_raise {A} e : vkeeps (A:=A) (raise e).
Proof. by intros s. Qed.
Lemma vkeeps_lift {A} (x : result A) : vkeeps (lift x).
Proof. by intros s. Qed.
Lemma vkeeps_catch {A} (m : M (OsWorld * R) A) p h : vkeeps m -> (forall e, vkeeps (h e)) -> vkeeps (catch m p h).
Proof.
  intros Hm Hh s Hs. specialize (Hm s Hs). unfold catch. destruct (m s) as [[a|e] s1]; [done|].
  destruct (p e); [by apply Hh|done].
Qed.
Lemma vkeeps_settled {A} (m : M (OsWorld * R) A) : vkeeps m -> vkeeps (settled m).
Proof. intros Hm s Hs. specialize (Hm s Hs). unfold settled. by destruct (m s). Qed.
Lemma vkeeps_for_each {A B} (f : A -> M (OsWorld * R) B) l : (forall x, vkeeps (f x)) -> vkeeps (for_each f l).
Proof.
  intros Hf. induction l as [|x l IH]; [apply vkeeps_ret|]. apply vkeeps_bind; [done|]. intros y.
  apply vkeeps_bind; [done|]. intros ?. apply vkeeps_ret.
Qed.
End Keep.
#[export] Hint Resolve pkeeps_gets pkeeps_os_write pkeeps_os_check : pkeeps.
Create HintDb vkeeps.
#[export] Hint Resolve vkeeps_right vkeeps_ret vkeeps_raise vkeeps_lift : vkeeps.
Ltac os_step :=
  match goal with
  | |- pkeeps _ (os_transaction _) => apply pkeeps_os_block
  | |- pkeeps _ (match ?x with _ => _ end) => destruct x
  | |- _ => pkeeps_step
  end.
Ltac vm_step :=
  match goal with
  | |- vkeeps _ (bind _ _) => apply vkeeps_bind; [|intros ?]
  | |- vkeeps _ (catch _ _ _) => apply vkeeps_catch; [|intros ?]
  | |- vkeeps _ (settled _) => apply vkeeps_settled
  | |- vkeeps _ (for_each _ _) => apply vkeeps_for_each; intros ?
  | |- vkeeps _ (match ?x with _ => _ end) => destruct x
  | |- vkeeps _ (on_left _) => apply vkeeps_left; solve [auto with pkeeps]
  | |- vkeeps _ _ => solve [auto with vkeeps]
  end.

Section Records.
Context `{Env} (I : Db -> Prop).

Lemma record_pkeeps c : pkeeps I (record c).
Proof.
  assert (forall n c t, pkeeps I (append_attempts n c t)) as Hattempts.
  { intros n. induction n as [|n IH]; intros c0 t; cbn [append_attempts]; [apply pkeeps_raise|].
    apply pkeeps_catch; [|intros _; apply IH]. unfold append_once, os_query, os_new_id, known_lease. repeat os_step. }
  unfold record, violation, os_now, artifact_exists, os_query, get_lease, append_evidence, check_evidence_lease, violation.
  repeat first [apply Hattempts | os_step].
Qed.
Lemma inspect_pkeeps digest : pkeeps I (inspect digest).
Proof. unfold inspect, get_artifact, os_query. repeat os_step. Qed.
#[local] Hint Resolve record_pkeeps inspect_pkeeps : pkeeps.
Lemma os_new_id_pkeeps prefix : pkeeps I (os_new_id prefix).
Proof. unfold os_new_id. repeat os_step. Qed.
Lemma os_now_pkeeps : pkeeps I os_now.
Proof. unfold os_now. repeat os_step. Qed.
#[local] Hint Resolve os_new_id_pkeeps os_now_pkeeps : pkeeps.
Lemma run_vkeeps {R} runtime runner digest inputs lease timeout :
  vkeeps I (run (R:=R) runtime runner digest inputs lease timeout).
Proof. unfold run, in_store, in_adapter. repeat vm_step. Qed.
End Records.
#[export] Hint Resolve record_pkeeps inspect_pkeeps os_new_id_pkeeps os_now_pkeeps : pkeeps.
#[export] Hint Resolve run_vkeeps : vkeeps.

(** ** Leases *)

Definition leases_are (L : gmap string CapabilityOsLease) (d : Db) : Prop := db_leases d = L.

Lemma bind_cases {W A B} (m : M W A) (k : A -> M W B) w r w' :
  bind m k w = (r, w') ->
  (exists e, m w = (Err e, w') /\ r = Err e) \/ (exists a w1, m w = (Ok a, w1) /\ k a w1 = (r, w')).
Proof. unfold bind. destruct (m w) as [[a|e] w1]; intros E; [right; by eexists _, _|left; exists e; by injection E as <- <-]. Qed.
Lemma lift_run {W A} (x : result A) (w w' : W) r : lift x w = (r, w') -> r = x /\ w' = w.
Proof. unfold lift. by intros [= <- <-]. Qed.
Lemma on_left_run {W V A} (m : M W A) (w w' : W * V) r : on_left m w = (r, w') -> m w.1 = (r, w'.1) /\ w'.2 = w.2.
Proof. unfold on_left. destruct (m w.1) as [x v]. by intros [= <- <-]. Qed.
Lemma keeps_run {I A} (m : M OsWorld A) w r w' : pkeeps I m -> I (db w.1) -> m w = (r, w') -> I (db w'.1).
Proof. intros Hm Hw E. specialize (Hm w Hw). by rewrite E in Hm. Qed.
Lemma keeps_cases I {A B} (m : M OsWorld A) (k : A -> M OsWorld B) w r w' :
  bind m k w = (r, w') -> pkeeps I m -> I (db w.1) ->
  (exists e, r = Err e /\ I (db w'.1)) \/ exists a w1, m w = (Ok a, w1) /\ I (db w1.1) /\ k a w1 = (r, w').
Proof.
  intros [(e & He & ->)|(a & w1 & Ha & Hk)]%bind_cases Hm H0.
  - left. exists e. split; [done|]. by apply (keeps_run m w _ w' Hm H0 He).
  - right. exists a, w1. split_and!; [done| |done]. by apply (keeps_run m w _ w1 Hm H0 Ha).
Qed.

(** the next statement of a computation that has left the leases alone so far *)
Tactic Notation "os_next" constr(L) hyp(E) "as" simple_intropattern(p) :=
  eapply (keeps_cases (leases_are L)) in E;
    [destruct E as [(? & -> & ?)|p]; [assumption|..]|repeat os_step|assumption].

Section Issue.
Context `{Env}.
Context (approval_verifier : option (string -> LeaseRequest -> list CapabilityRequest -> M OsWorld json)).
#[local] Abbreviation issue := (issue approval_verifier).

Lemma check_run b c (w : World) e w' : check b c w = (Err e, w') -> w' = w.
Proof. destruct b; [by intros [=]|by intros [= _ <-]]. Qed.
Lemma create_lease_leaves l w w' e : create_lease l w = (Err e, w') -> db w' = db w.
Proof.
  unfold create_lease. intros [(? & [=] & _)|(lid & w1 & [= <- <-] & E)]%bind_cases.
  apply bind_cases in E as [(? & [=] & _)|(d & w2 & [= <- <-] & E)].
  apply bind_cases in E as [(? & Hc & _)|(? & w3 & [Hc ->]%check_Ok & E)].
  { by apply check_run in Hc as ->. }
  apply bind_cases in E as [(? & Hf & _)|(? & w4 & [Hf ->]%check_Ok & E)].
  { by apply check_run in Hf as ->. }
  apply bind_cases in E as [(? & [=] & _)|(? & w5 & Hw & [=])].
Qed.

(** the lease that a row of a request is *)
Lemma lease_row_reads request policy decision js limits at_ row lid :
  Forall normal (lr_permissions request) -> all_Ok (map request_to_dict (lr_permissions request)) = Ok js ->
  stored lid (lease_row request policy None decision js limits at_) row ->
  exists lease, _lease_from_row row = Ok lease /\ cl_lease_id lease = lid.
Proof.
  intros Hn Hjs (H1 & H2 & H3 & H4 & H5 & H6 & H7 & H8 & H9 & H10 & _). unfold _lease_from_row. rewrite H5, H6, H7, H8, H10.
  cbn [lease_permissions lease_resource_limits lease_network lease_credentials lease_attestation_requirements lease_row].
  rewrite iter_list. cbn [rbind]. rewrite (requests_roundtrip _ _ Hn Hjs). cbn [rbind].
  do 3 (try rewrite !dict_or_empty_obj; cbn [rbind]).
  change (get_or_empty "executionContext" _) with (Ok (JObj (lr_execution_context request))).
  cbn [rbind]. rewrite dict_or_empty_obj. eexists. split; [done|exact H1].
Qed.
Lemma judge_request_pkeeps I request policy : pkeeps I (judge_request approval_verifier request policy None true).
Proof. unfold judge_request, artifact_exists, os_query, deny, _verify_approval, deny. cbn [has_key negb]. repeat os_step. Qed.
Lemma record_decision_pkeeps I d : pkeeps I (record_policy_decision d).
Proof. unfold record_policy_decision, os_query. repeat os_step. Qed.

#[local] Hint Resolve judge_request_pkeeps record_decision_pkeeps : pkeeps.

(** issuing makes one lease, or none if it fails *)
Lemma issue_leases request policy w r w' :
  Forall normal (lr_permissions request) -> issue request policy None true w = (r, w') ->
  match r with
  | Err _ => db_leases (db w'.1) = db_leases (db w.1)
  | Ok lease => exists row, db_leases (db w.1) !! cl_lease_id lease = None /\
      db_leases (db w'.1) = <[cl_lease_id lease := row]> (db_leases (db w.1)) /\ lease_id row = cl_lease_id lease
  end.
Proof.
  intros Hn. set (L := db_leases (db w.1)). assert (leases_are L (db w.1)) as HL by done. clearbody L.
  unfold CapabilityAuthority.issue. intros E.
  os_next L E as (did & w1 & _ & H1 & E).
  os_next L E as (at_ & w2 & _ & H2 & E).
  os_next L E as (js & w3 & Hjs & H3 & E).
  apply lift_Ok in Hjs as [Hjs _]. cbv zeta in E.
  os_next L E as (limits & w4 & _ & H4 & E).
  os_next L E as (d & w5 & _ & H5 & E).
  os_next L E as (t & w6 & _ & H6 & E).
  apply bind_cases in E as [(e & Hc & ->)|(row & w7 & [Hc _]%on_left_Ok & [-> ->]%lift_run)].
  - unfold on_left in Hc. destruct (create_lease _ w6.1) as [[?|?] w7] eqn:Ec; [done|]. injection Hc as _ <-. cbn.
    by rewrite (create_lease_leaves _ _ _ _ Ec).
  - apply create_lease_Ok in Hc as (lid & Hst & Hfree & Hdb). rewrite H6 in Hfree, Hdb.
    destruct (lease_row_reads request policy did js limits t row lid Hn Hjs Hst) as (lease & -> & Hid).
    exists row. rewrite Hid, Hdb. cbn. split_and!; [done|done|]. apply Hst.
Qed.
End Issue.

(** a lease that is active now was one of these *)
Definition survives (L : gmap string CapabilityOsLease) (d : Db) : Prop :=
  forall i row, db_leases d !! i = Some row -> lease_active row = true -> L !! i = Some row.

Lemma revoke_ends `{Env} L lid row w r w' :
  leases_are (<[lid := row]> L) (db w.1) -> lease_id row = lid -> revoke lid w = (r, w') ->
  is_ok r = true /\ survives L (db w'.1) /\ w'.2 = w.2.
Proof.
  intros Hw Hid Hr. unfold revoke, on_left, bind in Hr. cbn in Hr. injection Hr as <- <-. split_and!; [done| |done].
  intros i x. cbn. unfold update_where. rewrite lookup_fmap, Hw. intros Hx Ha.
  destruct (decide (i = lid)) as [->|Hne].
  - rewrite lookup_insert_eq in Hx. cbn in Hx. rewrite Hid in Hx. exfalso.
    injection Hx as <-. rewrite (proj2 (str_eqb_true lid lid) eq_refl) in Ha. cbn [andb] in Ha.
    by destruct (lease_active row) eqn:Er; [|rewrite Er in Ha].
  - rewrite lookup_insert_ne in Hx by done. destruct (L !! i) as [x0|]; [|done]. cbn in Hx. injection Hx as <-.
    destruct (str_eqb (lease_id x0) lid && lease_active x0); [done|done].
Qed.

Section Executor.
Context `{Env} {R : Type}.
#[local] Abbreviation ForgeWorld := (OsWorld * (Blobs * R))%type.
Context (base : string -> string -> dict -> CapabilityLease -> Z -> M ForgeWorld (option ActionResult)).
Context (approval_verifier : option (string -> LeaseRequest -> list CapabilityRequest -> M OsWorld json)).
Context (policy_provider : TaskScope -> string -> string -> M OsWorld (option TaskAuthorityPolicy)).
Context (runtime : RuntimeBroker).
Context (runner : option (RuntimeClass -> CapabilityOsArtifact -> CapabilityLease -> dict -> Z -> M R RunnerResult)).
(** the provider of policies reads, and writes nothing into the tables *)
Context (provider_reads : forall I task digest workload, pkeeps I (policy_provider task digest workload)).
#[local] Abbreviation invoke := (invoke base approval_verifier policy_provider runtime runner).
#[local] Abbreviation admit_run := (admit_run approval_verifier policy_provider).

Lemma require_active_pkeeps I lid u : pkeeps I (require_active lid u).
Proof. unfold require_active, get_lease, deny. repeat os_step. Qed.
Lemma executable_tool_pkeeps I digest version task : pkeeps I (executable_tool digest version task).
Proof. unfold executable_tool, get_artifact, os_query. repeat os_step. Qed.
#[local] Hint Resolve require_active_pkeeps executable_tool_pkeeps provider_reads : pkeeps.
Lemma run_request_normal vm row digest profile resources policy t request :
  run_request vm row digest profile resources policy t = Ok request ->
  exists p, CapabilityRequest_new "runtime.run" ("artifact:" +:+ digest) [] = Ok p /\ lr_permissions request = [p] /\
    Forall normal (lr_permissions request) /\ lr_task_id request = cl_task_id vm /\ lr_artifact_digest request = digest /\
    lr_network_destinations request = [] /\ lr_credential_names request = [] /\
    lr_requested_lease_ms request = Z.min (tp_max_lease_ms policy) (Z.max 100 t + 5000).
Proof.
  unfold run_request. intros (p & Hp & Hr)%rbind_Ok. exists p. unfold LeaseRequest_post_init in Hr.
  repeat match type of Hr with (if ?c then _ else _) = _ => destruct c; [done|] end. injection Hr as <-.
  split_and!; try done. cbn. constructor; [by eapply new_normal|constructor].
Qed.

(** *** What may happen before a run *)

Lemma admit_run_leases digest version lease t w r w' :
  admit_run digest version lease t w = (r, w') ->
  match r with
  | Err _ => leases_are (db_leases (db w.1)) (db w'.1)
  | Ok (_, _, rl) => exists row, leases_are (<[cl_lease_id rl := row]> (db_leases (db w.1))) (db w'.1) /\ lease_id row = cl_lease_id rl
  end.
Proof.
  set (L := db_leases (db w.1)). assert (leases_are L (db w.1)) as HL by done. clearbody L.
  unfold CapabilityExecutor.admit_run, deny. intros E.
  os_next L E as (required & w1 & _ & H1 & E).
  os_next L E as (vm & w2 & _ & H2 & E).
  os_next L E as (task & w3 & _ & H3 & E).
  os_next L E as (row & w4 & _ & H4 & E).
  os_next L E as (spec & w5 & _ & H5 & E).
  cbv zeta in E.
  os_next L E as (resources & w6 & _ & H6 & E).
  destruct (empty_str _); [by injection E as <- <-|].
  os_next L E as ([policy|] & w7 & _ & H7 & E); [|by injection E as <- <-].
  destruct (negb _); [by injection E as <- <-|].
  os_next L E as (request & w8 & Hreq & H8 & E).
  apply lift_Ok in Hreq as [(p & _ & _ & Hn & _)%run_request_normal _].
  apply bind_cases in E as [(e & Hi & ->)|(rl & w9 & Hi & E)]; apply issue_leases in Hi; try done.
  - unfold leases_are. by rewrite Hi, H8.
  - injection E as <- <-. destruct Hi as (lrow & _ & Hdb & Hid). exists lrow. split; [|done]. unfold leases_are. by rewrite Hdb, H8.
Qed.
Lemma run_tool_vkeeps I digest inputs t vm row rl : vkeeps I (run_tool (R := R) runtime runner digest inputs t vm row rl).
Proof. unfold run_tool, perform_run. repeat vm_step. Qed.

(** what is done under a lease that is revoked in the end *)
Lemma finally_ends {A} L lid row (m : M ForgeWorld A) w r w' :
  vkeeps (leases_are (<[lid := row]> L)) m -> leases_are (<[lid := row]> L) (db w.1.1) -> lease_id row = lid ->
  finally m (let* _ := on_left (revoke lid) in ret tt) w = (r, w') -> survives L (db w'.1.1).
Proof.
  intros Hm Hw Hid. unfold finally. specialize (Hm w Hw). destruct (m w) as [x w2]. cbn in Hm.
  unfold bind, on_left. destruct (revoke lid w2.1) as [y w3] eqn:Er.
  destruct (revoke_ends L _ row _ _ _ Hm Hid Er) as (Hok & Hs & _). destruct y as [b|e]; [|done]. by intros [= _ <-].
Qed.
(** whatever becomes of an action of a tool, no lease is left of it *)
Lemma invoke_survives ref version inputs lease t w r w' :
  startswith TOOL_SCHEME ref = true -> invoke ref version inputs lease t w = (r, w') ->
  survives (db_leases (db w.1.1)) (db w'.1.1).
Proof.
  intros Href. set (L := db_leases (db w.1.1)).
  assert (forall d, leases_are L d -> survives L d) as Hsame by (intros d <-; by intros ? ? ?).
  unfold CapabilityExecutor.invoke.
  intros [(e & He & _)|([digest|] & w1 & Hp & E)]%bind_cases.
  - apply lift_run in He as [_ ->]. by apply Hsame.
  - apply lift_run in Hp as [_ ->]. destruct (t <=? 0)%Z; [by injection E as _ <-; apply Hsame|].
    apply bind_cases in E as [(e & Ha & _)|([[vm row] rl] & w1 & Ha & E)]; apply on_left_run in Ha as [Ha _];
      apply admit_run_leases in Ha; [by apply Hsame|]. destruct Ha as (lrow & Hl & Hid).
    refine (finally_ends L _ lrow _ _ _ _ _ Hl Hid E). repeat first [apply run_tool_vkeeps|vm_step].
  - apply lift_run in Hp as [Hp _]. unfold _parse in Hp. rewrite Href in Hp. cbn [negb] in Hp. by destruct (is_tool_digest _).
Qed.

(** *** What a run needs *)

(** what was so when a tool was run under the lease [rl], on behalf of the lease [lease] *)
Record run_authorized (digest version : string) (lease : CapabilityLease) (t : Z) (w : OsWorld)
    (vm : CapabilityLease) (row : CapabilityOsArtifact) (rl : CapabilityLease) : Prop := {
  ra_lease : exists lrow required, db_leases (db w.1) !! cl_lease_id lease = Some lrow /\ lease_active lrow = true /\
    (clock (ticks w.1) < lease_expires_at_ms lrow)%Z /\ lease_task_id lrow = cl_task_id lease /\
    lease_artifact_digest lrow = cl_artifact_digest lease /\ _lease_from_row lrow = Ok vm /\
    CapabilityRequest_new "tool.invoke" ("artifact:" +:+ digest) [] = Ok required /\ usable (tool_use lease required) vm;
  ra_tool : os_artifacts w.2 !! digest = Some row /\ oa_kind row = "Tool" /\
    is_in (oa_state row) _EXECUTABLE_STATES = true /\ oa_version row = version;
  ra_run : exists task policy request p w1, _task_context vm = Ok task /\
    in_scope (Some (ts_user_id task)) true row = true /\
    fst (policy_provider task digest ("tool-run:" +:+ oa_artifact_id row) w1) = Ok (Some policy) /\
    tp_outbound_network policy = "deny" /\
    CapabilityRequest_new "runtime.run" ("artifact:" +:+ digest) [] = Ok p /\ lr_permissions request = [p] /\
    lr_task_id request = cl_task_id vm /\ lr_artifact_digest request = digest /\
    (lr_requested_lease_ms request <= Z.max 100 t + 5000)%Z /\
    exists w2, issued approval_verifier request policy None true w2 rl;
}.

Lemma require_active_tables lid u w lease w' : require_active lid u w = (Ok lease, w') -> w'.2 = w.2.
Proof.
  intros (found & w1 & [= _ <-] & (now & w2 & [_ Hw2]%on_left_Ok & Hr)%bind_Ok)%bind_Ok. cbn in Hw2. rewrite <- Hw2.
  destruct found as [row|]; [|done]. repeat (match type of Hr with (if ?c then _ else _) _ = _ => destruct c; [done|] end).
  apply bind_Ok in Hr as (l & w3 & [_ ->]%lift_Ok & [_ ->]%lift_Ok). done.
Qed.
Lemma executable_tool_Ok digest version task w row w' :
  executable_tool digest version task w = (Ok row, w') ->
  w' = w /\ os_artifacts w.2 !! digest = Some row /\ in_scope (Some (ts_user_id task)) true row = true /\ oa_kind row = "Tool" /\
  is_in (oa_state row) _EXECUTABLE_STATES = true /\ oa_version row = version.
Proof.
  intros (found & w1 & [= Hf <-] & Hr)%bind_Ok. destruct found as [x|]; [|done].
  destruct (str_eqb (oa_kind x) _) eqn:Ek; [|done]. destruct (is_in (oa_state x) _) eqn:Es; [|done].
  destruct (str_eqb version _) eqn:Ev; [|done]. cbn [negb] in Hr. apply ret_Ok in Hr as [-> ->].
  apply str_eqb_true in Ek, Ev. destruct (os_artifacts w.2 !! digest) as [y|] eqn:Ey; [|done]. cbn in Hf.
  match type of Hf with (if ?c then _ else _) = _ => destruct c eqn:Ei; [|done] end. injection Hf as <-. split_and!; try done.
Qed.
Lemma admit_run_Ok digest version lease t w vm row rl w' :
  admit_run digest version lease t w = (Ok (vm, row, rl), w') -> run_authorized digest version lease t w vm row rl.
Proof.
  unfold CapabilityExecutor.admit_run, deny.
  intros (required & w1 & [Hreq ->]%lift_Ok & (vm0 & w2 & Ha & (task & w3 & [Ht ->]%lift_Ok & (row0 & w4 & Hx & E)%bind_Ok)%bind_Ok)%bind_Ok)%bind_Ok.
  apply bind_Ok in E as (spec & w5 & [_ ->]%lift_Ok & E). cbv zeta in E.
  apply bind_Ok in E as (resources & w6 & [_ ->]%lift_Ok & E). destruct (empty_str _); [done|].
  apply bind_Ok in E as ([policy|] & w7 & Hpol & E); [|done].
  destruct (negb (str_eqb (tp_outbound_network policy) "deny")) eqn:En; [done|]. apply negb_false_iff, str_eqb_true in En.
  apply bind_Ok in E as (request & w8 & [Hr ->]%lift_Ok & (rl0 & w9 & Hi & [[= -> -> ->] ->]%ret_Ok)%bind_Ok).
  apply executable_tool_Ok in Hx as (-> & Hrow & Hscope & Hkind & Hstate & Hver).
  rewrite (require_active_tables _ _ _ _ _ Ha) in Hrow. apply require_active_Ok in Ha as (lrow & H1 & H2 & H3 & H4 & H5 & H6 & H7).
  apply run_request_normal in Hr as (p & Hp & Hperm & Hn & Htask & Hdig & _ & _ & Hms). apply issue_issued in Hi; [|done].
  split; [by exists lrow, required|done|]. exists task, policy, request, p, w2. rewrite Hpol. split_and!; try done; [lia|].
  by eexists.
Qed.

(** C26. A generated tool is run only under authority: when an action of a tool succeeds,
    or the sandboxes or the store of contents change at all, the lease it was asked under
    is active, not expired, of its task and artifact, and covers the invocation of that
    tool by the machine; the tool is registered, visible to the owner of the task,
    qualified and of the version asked for; a policy covers the run and denies the
    network; and the run had a lease of its own, for that run only, issued within the
    policy. *)
Theorem tool_run_is_authorized ref version inputs lease t w r w' :
  startswith TOOL_SCHEME ref = true -> invoke ref version inputs lease t w = (r, w') ->
  is_ok r = true \/ w'.2 <> w.2 ->
  exists digest vm row rl, _parse ref = Ok (Some digest) /\ run_authorized digest version lease t w.1 vm row rl.
Proof.
  intros Href. unfold CapabilityExecutor.invoke. intros [(e & He & ->)|([digest|] & w1 & Hp & E)]%bind_cases Hsome.
  - apply lift_run in He as [_ ->]. by destruct Hsome.
  - apply lift_run in Hp as [Hp ->]. destruct (t <=? 0)%Z; [by injection E as <- <-; destruct Hsome|].
    apply bind_cases in E as [(e & Ha & ->)|([[vm row] rl] & w1 & Ha & E)]; apply on_left_run in Ha as [Ha Hw1].
    + by destruct Hsome.
    + exists digest, vm, row, rl. split; [done|]. by eapply admit_run_Ok.
  - apply lift_run in Hp as [Hp _]. unfold _parse in Hp. rewrite Href in Hp. cbn [negb] in Hp. by destruct (is_tool_digest _).
Qed.

(** *** Whole recipes *)

(** no lease is left of an action, when none is left of one of the server's executor *)
Lemma invoke_vkeeps L ref version inputs lease t :
  (forall ref version inputs lease t, vkeeps (survives L) (base ref version inputs lease t)) ->
  vkeeps (survives L) (invoke ref version inputs lease t).
Proof.
  intros Hbase w Hw. destruct (startswith TOOL_SCHEME ref) eqn:Er.
  - destruct (invoke ref version inputs lease t w) as [r w'] eqn:E. cbn.
    pose proof (invoke_survives _ _ _ _ _ _ _ _ Er E) as Hs. intros i x Hx Hact. apply Hw; [|done]. by apply Hs.
  - unfold CapabilityExecutor.invoke, _parse. rewrite Er. cbn. by apply Hbase.
Qed.
End Executor.

Section Recipes.
Context `{Env} {R : Type}.
Context (invoke : string -> string -> dict -> CapabilityLease -> Z -> M (OsWorld * R) (option ActionResult)).
Context (loop_time : M (OsWorld * R) Z) (exc_text : exn -> string) (I : Db -> Prop).
Context (invoke_keeps : forall ref version inputs lease t, vkeeps I (invoke ref version inputs lease t)).
Context (loop_keeps : vkeeps I loop_time).

(** what actions keep, the machine keeps *)
Lemma execute_vkeeps task digest compiled lease inputs approval :
  vkeeps I (execute invoke loop_time exc_text task digest compiled lease inputs approval).
Proof.
  assert (forall A m, vkeeps I (vm_error m : M (OsWorld * R) A)) as Herr by (intros; apply vkeeps_raise).
  assert (forall x k c, vkeeps I (vm_evidence (R := R) x k c)) as Hev.
  { intros. unfold vm_evidence, os. repeat vm_step. }
  assert (forall more n l i t, vkeeps I (attempt_node invoke more n l i t)) as Hattempt.
  { intros more. induction more as [|more IH]; intros; cbn [attempt_node]; repeat first [apply IH|apply invoke_keeps|apply Herr|vm_step]. }
  assert (forall n l i t, vkeeps I (_invoke_node invoke n l i t)) as Hnode.
  { intros. unfold _invoke_node. repeat first [apply Hattempt|apply Herr|vm_step]. }
  assert (forall x t a, vkeeps I (perform invoke x t a)) as Hperform.
  { intros. unfold perform. repeat first [apply Hnode|vm_step]. }
  assert (forall x sn s n o, vkeeps I (settle_node (R := R) exc_text x sn s n o)) as Hsettle.
  { intros. unfold settle_node. repeat first [apply Hev|vm_step]. }
  assert (forall x sn b s, vkeeps I (settle_all (R := R) exc_text x sn s b)) as Hall.
  { intros x sn b. induction b as [|[n o] b IH]; intros s; cbn [settle_all]; repeat first [apply Hsettle|apply IH|vm_step]. }
  assert (forall x s, vkeeps I (run_batch invoke loop_time exc_text x s)) as Hbatch.
  { intros. unfold run_batch. repeat first [apply loop_keeps|apply Hperform|apply Hall|vm_step]. }
  assert (forall f x s, vkeeps I (run_nodes invoke loop_time exc_text f x s)) as Hrun.
  { intros f. induction f as [|f IH]; intros; cbn [run_nodes]; repeat first [apply IH|apply Hbatch|vm_step]. }
  assert (forall x s u i, vkeeps I (compensate_node invoke x s u i)) as Hcomp.
  { intros. unfold compensate_node. repeat first [apply invoke_keeps|apply Hev|apply Herr|vm_step]. }
  assert (forall x s l u, vkeeps I (compensate_all invoke x s u l)) as Hcall.
  { intros x s l. induction l as [|i l IH]; intros; cbn [compensate_all]; repeat first [apply IH|apply Hcomp|vm_step]. }
  unfold execute, admit_execution, _validate_lease, conclude, os.
  repeat first [apply loop_keeps|apply Hrun|apply Hcall|apply Herr|vm_step].
Qed.
End Recipes.

Section System.
Context `{Env} {R : Type}.
#[local] Abbreviation ForgeWorld := (OsWorld * (Blobs * R))%type.

(** C25. Recipes leave no authority behind: however the execution of a recipe ends whose
    actions generated tools run, every lease that is active afterwards was active before,
    provided that the executor of the server, the provider of policies and the clock
    leave none themselves.  In particular the lease of a run is revoked even when the
    run, its evidence or the rest of the recipe fails. *)
Theorem recipes_leave_no_lease base approval_verifier policy_provider runtime
    (runner : option (RuntimeClass -> CapabilityOsArtifact -> CapabilityLease -> dict -> Z -> M R RunnerResult))
    (loop_time : M ForgeWorld Z) exc_text task digest compiled lease inputs approval w r w' :
  (forall I task digest workload, pkeeps I (policy_provider task digest workload)) ->
  (forall L ref version inputs lease t, vkeeps (survives L) (base ref version inputs lease t)) ->
  (forall I, vkeeps I loop_time) ->
  execute (invoke base approval_verifier policy_provider runtime runner) loop_time exc_text
    task digest compiled lease inputs approval w = (r, w') ->
  survives (db_leases (db w.1.1)) (db w'.1.1).
Proof.
  intros Hp Hb Hl E. set (L := db_leases (db w.1.1)).
  assert (survives L (db w.1.1)) as H0 by (by intros ? ? ?).
  pose proof (execute_vkeeps (invoke base approval_verifier policy_provider runtime runner) loop_time exc_text (survives L)
    (fun ref version inputs lease t => invoke_vkeeps base approval_verifier policy_provider runtime runner Hp L ref version inputs lease t (Hb L))
    (Hl (survives L)) task digest compiled lease inputs approval w H0) as Hs. by rewrite E in Hs.
Qed.
End System.

(** ** A concrete run *)

Definition demo_tool_digest : string := "sha256:" +:+ Nat.iter 64 (String "a") "".
Definition demo_tool (state : string) : CapabilityOsArtifact := {|
  oa_id := "cart_1"; oa_artifact_id := "adder"; oa_version := "1"; oa_kind := "Tool"; oa_owner := "generated"; oa_user_id := Some "u1";
  oa_origin := "forge"; oa_state := state; oa_parent_ref := None; oa_task_origin := Some "t1";
  oa_source_digest := Some "sha256:src"; oa_content_digest := demo_tool_digest; oa_compatibility := JObj [];
  oa_spec := JObj [("runtime", JObj [("class", JStr "gvisor"); ("entrypoint", JStr "main.py")]); ("resources", JObj [])];
  oa_created_at := "2026-01-01T00:00:00Z"; oa_created_at_ms := 0; oa_retired_at_ms := None |}.
(** the lease of the machine lets it invoke the tool *)
Definition demo_vm_lease : CapabilityOsLease := {|
  lease_id := "l1"; lease_task_id := "t1"; lease_workload_id := "w"; lease_artifact_digest := "sha256:aa";
  lease_permissions := JList [JObj [("action", JStr "tool.invoke"); ("resource", JStr ("artifact:" +:+ demo_tool_digest))]];
  lease_resource_limits := JObj []; lease_network := JObj [];
  lease_credentials := JObj []; lease_approval_id := None; lease_parent_lease_id := None;
  lease_policy_decision_id := "p";
  lease_attestation_requirements := JObj [("executionContext",
    JObj [("userId", JStr "u1"); ("workspaceId", JStr "ws"); ("taskSource", JStr "workbench")])];
  lease_runtime_profile := "cptr-vm"; lease_status := "active"; lease_issued_at_ms := 0;
  lease_expires_at_ms := 500; lease_revoked_at_ms := None |}.
Definition demo_vm_grant : CapabilityLease :=
  match @_lease_from_row forge_env demo_vm_lease with Ok l => l | Err _ => demo_machine_lease end.
(** the state of the sandboxes is a list of what was run *)
#[local] Abbreviation Sandboxes := (list string).
Definition demo_forge (state : string) : OsWorld * (Blobs * Sandboxes) :=
  (({| db := set_db_leases {[ "l1" := demo_vm_lease ]} empty_db; ticks := 0; uids := 0 |},
    set_os_artifacts {[ "sha256:aa" := demo_artifact; demo_tool_digest := demo_tool state ]} empty_os), (∅, [])).
Definition demo_provider (task : TaskScope) (digest workload : string) : M OsWorld (option TaskAuthorityPolicy) :=
  ret (Some {| tp_allowed := [{| cr_action := "runtime.run"; cr_resource := "artifact:" +:+ digest; cr_constraints := [] |}];
    tp_forbidden := []; tp_max_lease_ms := 60000; tp_max_calls := None; tp_max_bytes_read := None; tp_max_bytes_written := None;
    tp_max_network_bytes := None; tp_outbound_network := "deny"; tp_network_destinations := []; tp_credential_names := [];
    tp_resource_limits := [] |}).
(** a runner that fails for an input [fail] *)
Definition demo_runner (class : RuntimeClass) (row : CapabilityOsArtifact) (lease : CapabilityLease) (inputs : dict) (t : Z)
    : M Sandboxes RunnerResult := fun ran =>
  (if dict_get "fail" inputs then Err (RuntimeError "no")
   else Ok {| rr_output := JInt 3; rr_metadata := JObj [("executionArtifactDigest", JStr "sha256:ee"); ("attestation", JObj [])] |},
   ran ++ [oa_artifact_id row]).
Definition demo_runtimes : RuntimeBroker := {|
  rb_inventory := {| runsc := Some "/bin/runsc"; wasmtime := None; firecracker := None; bubblewrap := None |}; rb_production := true |}.
Definition demo_base (ref version : string) (inputs : dict) (lease : CapabilityLease) (t : Z)
    : M (OsWorld * (Blobs * Sandboxes)) (option ActionResult) := raise (PermissionError "unknown action").
#[local] Abbreviation demo_action_ref := (TOOL_SCHEME +:+ demo_tool_digest).
#[local] Abbreviation demo_tool_run state inputs :=
  (@invoke forge_env Sandboxes demo_base None demo_provider demo_runtimes (Some demo_runner)
    demo_action_ref "1" inputs demo_vm_grant 1000 (demo_forge state)).
(** the leases that are active, and what was run *)
Definition active_leases (w : OsWorld * (Blobs * Sandboxes)) : list string :=
  map lease_id (select lease_active (rows_of (db_leases (db w.1.1)))).
Example demo_tool_is_run :
  let '(r, w) := demo_tool_run "qualified" [] in
  ((match r with Ok (Some a) => res_output a | _ => JNull end), w.2.2, active_leases w, map oe_kind (os_evidence w.1.2))
  = (JInt 3, ["adder"], ["l1"], ["tool.run"]).
Proof. vm_compute. reflexivity. Qed.
Example demo_tool_fails :
  let '(r, w) := demo_tool_run "qualified" [("fail", JBool true)] in
  (is_ok r, w.2.2, active_leases w, map oe_kind (os_evidence w.1.2)) = (false, ["adder"], ["l1"], ["tool.run.failure"]).
Proof. vm_compute. reflexivity. Qed.
Example demo_unqualified_is_refused :
  let '(r, w) := demo_tool_run "ephemeral" [] in
  (r, w.2.2, db_leases (db w.1.1)) = (Err (PermissionError "generated Tool is not qualified for execution"), [], {[ "l1" := demo_vm_lease ]}).
Proof. vm_compute. reflexivity. Qed.

Lemma demo_provider_reads I task digest workload : pkeeps I (demo_provider task digest workload).
Proof. apply pkeeps_ret. Qed.
Theorem tool_run_is_authorized_witness :
  exists r w', demo_tool_run "qualified" [] = (r, w') /\
    exists digest row, @_parse demo_action_ref = Ok (Some digest) /\ os_artifacts (demo_forge "qualified").1.2 !! digest = Some row.
Proof.
  destruct (demo_tool_run "qualified" []) as [r w'] eqn:E. exists r, w'. split; [done|].
  destruct (@tool_run_is_authorized forge_env Sandboxes demo_base None demo_provider demo_runtimes (Some demo_runner)
    demo_action_ref _ _ _ _ _ _ _ eq_refl E) as (digest & vm & row & rl & Hp & [_ [Ht _] _]).
  - left. assert (is_ok r = is_ok (demo_tool_run "qualified" []).1) as -> by (by rewrite E). vm_compute. reflexivity.
  - exists digest, row. exact (conj Hp Ht).
Defined.
(** a recipe whose action is the tool *)
Definition demo_tool_plan : CapabilitySpec := {|
  cs_capability_id := "sum"; cs_version := "1"; cs_inputs_schema := JObj []; cs_preconditions := []; cs_effects := [];
  cs_nodes := [demo_action "a" demo_action_ref None]; cs_edges := []; cs_verifiers := ["a"]; cs_rollback_mode := "none";
  cs_permissions := []; cs_deadline_ms := 60000; cs_max_parallelism := 1; cs_risk_class := "read" |}.
Definition demo_tool_recipe : CompiledCapability :=
  {| cc_spec := demo_tool_plan; cc_topological_order := ["a"]; cc_permissions := []; cc_requires_human_approval := false |}.
Definition demo_clock : M (OsWorld * (Blobs * Sandboxes)) Z := ret 0%Z.
#[local] Abbreviation demo_recipe_run :=
  (@execute forge_env (Blobs * Sandboxes) (@invoke forge_env Sandboxes demo_base None demo_provider demo_runtimes (Some demo_runner))
    demo_clock exn_class "t1" "sha256:aa" demo_tool_recipe demo_vm_grant [] None (demo_forge "qualified")).
Example demo_recipe_verified :
  let '(r, w) := demo_recipe_run in
  ((match r with Ok x => xr_status x | Err _ => "" end), w.2.2, active_leases w) = ("verified", ["adder"], ["l1"]).
Proof. vm_compute. reflexivity. Qed.
Theorem recipes_leave_no_lease_witness :
  exists r w', demo_recipe_run = (r, w') /\ survives {[ "l1" := demo_vm_lease ]} (db w'.1.1).
Proof.
  destruct demo_recipe_run as [r w'] eqn:E. exists r, w'. split; [done|].
  refine (@recipes_leave_no_lease forge_env Sandboxes demo_base None demo_provider demo_runtimes (Some demo_runner) demo_clock exn_class
    _ _ _ _ _ _ _ _ _ demo_provider_reads _ _ E).
  - intros L ref version inputs lease t. apply vkeeps_raise.
  - intros I. apply vkeeps_ret.
Defined.
